(* ===== verification/_CoqProject ===== *)
-Q . S2P
Prelude.v
GoStrings.v
GoSha256.v
GoNetip.v
Cloud.v
Kube.v
KubeObjects.v
ApiErrors.v
References.v
Metadata.v
MetadataFacts.v
OpenStack.v
ProgramLogic.v
GatewayGraph.v
GatewayFacts.v
RoutePlan.v
RoutePlanFacts.v
RouteGraph.v
RouteFacts.v
RouteTermination.v
Outcomes.v
Coordinator.v
Binding.v
BindingFacts.v
Indexes.v
KubeClient.v
GatewayModel.v
ReconcileLogic.v
OpenStackProvider.v
GatewayReconciler.v
GatewayReconcilerFacts.v
RouteModel.v
RouteModelFacts.v
RouteSelectionFacts.v
RouteStatus.v
RouteReconciler.v
RouteReconcilerFacts.v
RouteProgrammedFacts.v
Composition.v
GatewayClassReconciler.v
GatewayClassFacts.v
Predicates.v
PredicateFacts.v
Watches.v
WatchFacts.v
AuditReport.v
Inventory.v
Classification.v
OwnershipAudit.v
AuditFacts.v
InventoryFacts.v
ClassificationFacts.v
AuditPropagation.v
AuditVerdicts.v
ScanFacts.v
AuditAgreement.v
FindingFacts.v
CollectorFacts.v
AuditSystemFacts.v
ProbeState.v
Probe.v
ProbeLogic.v
ProbeFacts.v
ProbeCleanupFacts.v
ProbeRunFacts.v
RequestObserver.v
RequestMetrics.v
Clients.v
CommandLine.v
Scenario.v
Deployment.v
Witnesses.v
SystemWitnesses.v
AuditWitnesses.v
ProbeWitnesses.v
ClientWitnesses.v
