(* ===== verification/Prelude.v ===== *)
(** * gateway-api-openstack: a verification development

    The program is a Kubernetes controller that implements the Gateway API on
    OpenStack: each Gateway becomes an Octavia load balancer with one HTTP
    listener and an optional Neutron Floating IP, each selected HTTPRoute a pool
    with members, a health monitor, L7 policies and rules.  Reconcilers
    ([internal/controller]) compute what is desired from Kubernetes objects and
    call a provider ([internal/cloud/openstack]), which observes OpenStack,
    checks that everything it finds belongs to the caller, makes at most one
    change, and reports Ready or Progressing.  A second command audits the
    ownership of what is in OpenStack, read-only.  A third, the capability probe,
    creates, inspects and deletes one load balancer to see what a cloud supports,
    and journals what it makes in a state file.

    ** How the program is modelled

    Code that talks to OpenStack or to the API server is a program over requests
    (OpenStack.v, KubeObjects.v): a tree that branches on every response.  An
    execution is a program with a trace of requests and responses
    ([ProgramLogic.exec]); nothing is assumed about the responses, so a theorem
    about all executions holds whatever OpenStack, the API server, the network
    or a concurrent actor does.  Code that only computes is a function.  Errors
    are values of [Cloud.error] with the wrapping of the source.  Third-party
    code whose results the program branches on is a class with the laws the
    proofs use (Gophercloud, ControllerUtil, KubeErrors and others), each with an
    instance in Kube.v, Scenario.v, Deployment.v or the files of witnesses.

    ** The files

    The language and its standard library:
    - Prelude: results of fallible calls with their notation, sorting, loops
      with early return, tactics;
    - GoStrings, GoSha256, GoNetip: the functions of [strings], [strconv],
      [encoding/base64], [hash/fnv], [crypto/sha256] and [net/netip] that the
      program calls, executable, with test vectors.

    The cloud side:
    - Cloud: [internal/cloud/types.go], [errors.go], [outcome.go];
    - ApiErrors: [openstack/apierrors/classify.go], on trees of wrapped errors;
    - Metadata, MetadataFacts: [openstack/identity/metadata.go], the tags and
      descriptions that record who owns a resource, and why they identify one
      owner;
    - OpenStack: the requests of Octavia and Neutron ([openstack/octavia],
      [openstack/neutron]) and programs over them;
    - ProgramLogic: executions as traces, and the classes [ReadOnly],
      [AtMostOne] and [Transition] with the tactics that derive them;
    - GatewayGraph, GatewayFacts: [openstack/graph/provider.go],
      [loadbalancer_status.go], [gateway.go], [gateway_deletion_plan.go] and
      [DeleteGateway] of [delete.go];
    - RoutePlan, RoutePlanFacts: the pure half of [route.go] and
      [route_graph.go], from the desired and the observed graph to plans;
    - RouteGraph, RouteFacts: observation and execution, [EnsureRoute],
      [DeleteRoute]; RouteTermination: repeated deletion ends;
    - OpenStackProvider: the graph provider as an instance of the interface
      that the reconcilers call ([cloud.Provider]).

    The Kubernetes side:
    - Kube, KubeObjects: object metadata, the objects and the requests to the
      API server, controllerutil and apimachinery as classes with laws;
    - References: [controller/parentref.go], [requests.go];
    - Outcomes: [controller/provider_outcomes.go], [provider_events.go];
    - Coordinator: [controller/graph/coordinator.go] as a step relation over
      any number of goroutines;
    - Binding, BindingFacts: [controller/config.go], [identity.go],
      [binding.go] and the metadata functions of the two reconcilers;
    - Indexes: [controller/indexes.go]; Predicates, PredicateFacts:
      [controller/predicates.go];
    - KubeClient: reads with their errors, retries on conflict, conditions,
      [gateway_api_version.go]; ReconcileLogic: properties of such programs;
    - GatewayModel, GatewayReconciler, GatewayReconcilerFacts:
      [controller/gateway], from validation and snapshots to status patches;
    - RouteModel, RouteModelFacts, RouteSelectionFacts, RouteStatus,
      RouteReconciler, RouteReconcilerFacts, RouteProgrammedFacts:
      [controller/httproute];
    - GatewayClassReconciler, GatewayClassFacts: [controller/gatewayclass];
    - Watches, WatchFacts: the mappers from events to requests;
    - Composition: reconcilers and graph provider together.

    The audit:
    - AuditReport, AuditFacts: [internal/audit], snapshot, inventory and report;
    - Inventory, InventoryFacts: [openstack/inventory/scanner.go], what a scan
      collects;
    - Classification, ClassificationFacts, AuditPropagation, AuditVerdicts,
      FindingFacts: [openstack/inventory/classification.go], what it says of each
      resource; ScanFacts: both together; AuditAgreement: the audit against the
      matchers of the controller;
    - OwnershipAudit, CollectorFacts, AuditSystemFacts:
      [controller/ownershipaudit] and the command of
      [cmd/openstack-gateway-audit].

    The probe:
    - ProbeState: [internal/probe/identity.go], [config.go], [state.go],
      [openstack/octavia/wait.go]; Probe: [runner.go], [cleanup.go], [report.go],
      as programs over OpenStack, files and a clock;
    - ProbeLogic: Hoare triples over traces; ProbeFacts, ProbeCleanupFacts,
      ProbeRunFacts: what saving, cleaning up and running guarantee.

    The clients and the command lines:
    - RequestObserver: [openstack/clients/request_observer.go], how a request is
      classified; RequestMetrics: [openstack/observability/metrics.go] and the
      transports, under any interleaving of requests;
    - Clients: [openstack/clients/client.go], from clouds.yaml and settings to
      authenticated clients;
    - CommandLine: flags and environment of the three programs.

    Runs:
    - Scenario: a small cloud that answers requests, and a sample Gateway with
      a route, from creation to deletion; Deployment: an API server in front of
      it;
    - Witnesses, SystemWitnesses, AuditWitnesses,
      ProbeWitnesses, ClientWitnesses: the theorems applied to them.

    ** What is proved

    About the provider: a call makes at most one change; the change is justified
    by what was observed before it, and everything observed was checked to be
    owned; deletion takes leaves first; traffic is let in last; Ready is only
    reported when what was observed is what was desired, or nothing is left.
    About plans: a plan is empty exactly when the graph has converged, policies
    change only while disabled, PathPrefix policies accept exactly the right
    paths, and repeated deletion ends: undisturbed, it takes at most as many
    changing calls as the first has listed items.  About metadata and bindings: recognition determines the owner up to
    collisions of SHA-256, bindings round trip, edited annotations are not
    followed, controllers do not interfere.  About the coordinator: mutual
    exclusion, by induction over the reachable states.  About the reconcilers:
    every change of OpenStack is the next request of a provider call made under
    the lock of the graph and after live reads that authorise it; finalizers go
    only after the cloud was seen empty; Programmed is only published when the
    cloud was seen in place; locks are given back on every path; exactly one
    competing route is selected; members are the addresses of the serving Nodes;
    filtered events change nothing; events reach all competitors.  About
    outcomes: bounds of the requeue intervals at 64 bits, and that deletion never
    stalls.  About the audit: it only reads; it accounts for every resource
    listed; matched means owned up to the load balancer, orphan means unowned; it
    agrees with the matchers of the controller; the order of map iteration does
    not matter; a clean exit means that everything listed is owned; and the one
    reason why a report is not built.
    About the probe: whenever it changes OpenStack, its state file knows what it
    has made; a save leaves the old file or the new one; it deletes only what it has
    made or seen with its identity, leaves first; the state stays until the load
    balancer and the Floating IP are gone.  About the clients: they skip
    TLS verification only where that was allowed, share one rate limit with positive
    parameters and know their project; microversions compare as integers; a request
    is counted for the longest endpoint that covers it; the gauge is the number of
    requests in flight; while the counter of mutations stands still after an idle
    moment no mutation is sent; labels come from a fixed set.  About the command lines: a configuration that
    was accepted meets the limits the rest of the program relies on.

    ** Bounds and fuel

    [Classify] recurses on the error of a failed reauthentication, with the size
    of the error as fuel ([classify_fuel_enough]).  Loops over lists are folds.
    Retries on conflict run as often as the library's backoff has steps.  The
    audit propagates findings over the seven levels of the resource order, as the
    code does ([auditResourceOrder] is at most 7 on its types).  Intervals and
    ports are integers with their wrap-around where the code computes with them.
    The probe polls as often as its ticker fires before the deadline, a number that
    the environment answers ([PTicks]); nothing is assumed about it.

    ** Not modelled

    Contexts and timeouts only show as errors of requests.  Log messages and
    Events have no effect on the state and are left out, as is the wiring of
    libraries: the registration of controllers, watches, indexes and metrics with
    the manager and with Prometheus, and the main functions that only call what is
    modelled.  [ServicePredicate] is a predicate of the library.  Gophercloud, [flag]
    and [pflag], [net/url], [time.ParseDuration], [strconv.ParseFloat] and
    [encoding/json] are classes, with laws where a proof needs one.  Points in time
    and durations of the reports are left out, except the creation time in the
    probe's state, an argument. *)
From stdpp Require Import base list strings sorting gmap.
From Stdlib Require Import ZArith Lia OrdersEx.

Set Default Goal Selector "!".

(** ** Results of fallible Go calls *)

(** A Go function that returns [(T, error)] returns [Ok v] or [Err e] here:
    every function of the repository that is modelled returns the zero value
    beside a non-nil error, so nothing is lost. *)
Inductive result (E A : Type) : Type :=
| Ok (a : A)
| Err (e : E).
Arguments Ok {E A} a.
Arguments Err {E A} e.

Definition rbind {E A B} (m : result E A) (f : A -> result E B) : result E B :=
  match m with Ok a => f a | Err e => Err e end.

Definition rmap {E A B} (f : A -> B) (m : result E A) : result E B :=
  match m with Ok a => Ok (f a) | Err e => Err e end.

Declare Scope go_scope.
Delimit Scope go_scope with go.
Open Scope go_scope.

(** [let? x := m in k]: Go's [x, err := m; if err != nil { return err }]. *)
Notation "'let?' x ':=' m 'in' k" := (rbind m (fun x => k))
  (at level 10, x pattern, m at level 100, k at level 200) : go_scope.

(** [guard? b else e in k]: return the error [e] unless [b] holds. *)
Notation "'guard?' b 'else' e 'in' k" := (if b then k else Err e)
  (at level 10, b at level 100, e at level 100, k at level 200) : go_scope.

(** ** Sorting: Go's [sort.Slice] and [slices.Sort] *)

(** Insertion sort by a strict comparison [less].  [sort.Slice] is not stable;
    this picks the stable order among elements that compare equal.  Every call
    in the repository compares by a unique key or by a key that ends in an ID. *)
Fixpoint sort_insert {A} (less : A -> A -> bool) (x : A) (l : list A) : list A :=
  match l with
  | [] => [x]
  | y :: l' => if less y x then y :: sort_insert less x l' else x :: l
  end.

Fixpoint sort_slice {A} (less : A -> A -> bool) (l : list A) : list A :=
  match l with
  | [] => []
  | x :: l' => sort_insert less x (sort_slice less l')
  end.

Section sorting.
Context {A : Type} (less : A -> A -> bool).

Lemma sort_insert_perm x l : sort_insert less x l ≡ₚ x :: l.
Proof.
  induction l as [|y l IH]; simpl; [done|].
  destruct (less y x); [|done]. rewrite IH. by constructor.
Qed.

Lemma sort_slice_perm l : sort_slice less l ≡ₚ l.
Proof.
  induction l as [|x l IH]; simpl; [done|].
  rewrite sort_insert_perm. by constructor.
Qed.

Lemma sort_slice_elem l x : x ∈ sort_slice less l <-> x ∈ l.
Proof. by rewrite sort_slice_perm. Qed.

Lemma sort_slice_nil_inv l : sort_slice less l = [] -> l = [].
Proof.
  intros H. pose proof (sort_slice_perm l) as P. rewrite H in P.
  by apply Permutation_nil_l in P.
Qed.

Lemma sort_slice_length l : length (sort_slice less l) = length l.
Proof. apply Permutation_length, sort_slice_perm. Qed.

Lemma sort_slice_Forall (P : A -> Prop) l :
  Forall P (sort_slice less l) <-> Forall P l.
Proof. rewrite !Forall_forall. by setoid_rewrite sort_slice_elem. Qed.

(** The result is sorted when [less] is asymmetric and its complement is
    transitive, which every key comparison of the repository satisfies. *)
Hypothesis less_asym : forall x y, less x y = true -> less y x = false.
Hypothesis nless_trans :
  forall x y z, less y x = false -> less z y = false -> less z x = false.

Lemma sort_insert_sorted x l :
  StronglySorted (fun a b => less b a = false) l ->
  StronglySorted (fun a b => less b a = false) (sort_insert less x l).
Proof.
  induction 1 as [|y l Hl IH Hy]; simpl; [by repeat constructor|].
  destruct (less y x) eqn:E.
  - constructor; [done|]. rewrite sort_insert_perm. by constructor; auto.
  - constructor; [by constructor|]. constructor; [done|].
    eapply Forall_impl; [exact Hy|]. intros z Hz. by eapply nless_trans.
Qed.

Lemma sort_slice_sorted l :
  StronglySorted (fun a b => less b a = false) (sort_slice less l).
Proof. induction l; simpl; [constructor|]. by apply sort_insert_sorted. Qed.
End sorting.

(** Comparisons that are strict linear orders: sorting by one is canonical. *)
Class LinearLess {A} (less : A -> A -> bool) : Prop := {
  less_irrefl x : less x x = false;
  less_trans x y z : less x y = true -> less y z = true -> less x z = true;
  less_total x y : x = y \/ less x y = true \/ less y x = true
}.

Section linear.
Context {A} (less : A -> A -> bool) `{!LinearLess less}.

Lemma less_asym x y : less x y = true -> less y x = false.
Proof.
  intros Hxy. destruct (less y x) eqn:Hyx; [|done].
  pose proof (less_trans _ _ _ Hxy Hyx). by rewrite less_irrefl in *.
Qed.

Lemma nless_trans x y z : less y x = false -> less z y = false -> less z x = false.
Proof.
  intros Hyx Hzy. destruct (less z x) eqn:Hzx; [|done].
  destruct (less_total x y) as [->|[Hxy|Hxy]]; [congruence| |congruence].
  rewrite (less_trans _ _ _ Hzx Hxy) in Hzy. done.
Qed.

Lemma sort_slice_linear l : StronglySorted (fun a b => less b a = false) (sort_slice less l).
Proof. apply sort_slice_sorted; [exact less_asym|exact nless_trans]. Qed.

Lemma sort_slice_canonical l l' : l ≡ₚ l' -> sort_slice less l = sort_slice less l'.
Proof.
  intros Hp. assert (AntiSymm (=) (fun a b => less b a = false)).
  { intros x y Hx Hy. destruct (less_total x y) as [|[]]; [done|congruence..]. }
  eapply (StronglySorted_unique (fun a b => less b a = false)); [apply sort_slice_linear..|].
  by rewrite !sort_slice_perm.
Qed.
End linear.

(** A key with two parts, compared part by part. *)
Definition lexLess {A B} `{EqDecision A} (lessA : A -> A -> bool) (lessB : B -> B -> bool) (x y : A * B) : bool :=
  if bool_decide (fst x = fst y) then lessB (snd x) (snd y) else lessA (fst x) (fst y).

#[export] Instance lexLess_linear {A B} `{EqDecision A} (lessA : A -> A -> bool) (lessB : B -> B -> bool) :
  LinearLess lessA -> LinearLess lessB -> LinearLess (lexLess lessA lessB).
Proof.
  intros HA HB. assert (forall x y, lexLess lessA lessB x y = true <->
    lessA (fst x) (fst y) = true \/ fst x = fst y /\ lessB (snd x) (snd y) = true) as Hl.
  { intros x y. unfold lexLess. destruct (bool_decide_reflect (fst x = fst y)) as [->|]; [|naive_solver].
    rewrite less_irrefl. naive_solver. }
  split.
  - intros x. unfold lexLess. rewrite bool_decide_eq_true_2 by done. apply less_irrefl.
  - intros x y z. rewrite !Hl. intros [H1|[E1 H1]] [H2|[E2 H2]].
    + left. by eapply less_trans.
    + left. by rewrite <- E2.
    + left. by rewrite E1.
    + right. split; [congruence|by eapply less_trans].
  - intros [a b] [a' b']. rewrite !Hl. cbn. destruct (less_total a a') as [->|[|]]; [|by auto..].
    destruct (less_total b b') as [->|[|]]; auto.
Qed.

#[export] Instance Z_ltb_linear : LinearLess Z.ltb.
Proof.
  split.
  - apply Z.ltb_irrefl.
  - intros x y z. rewrite !Z.ltb_lt. lia.
  - intros x y. rewrite !Z.ltb_lt. lia.
Qed.

(** Comparing by an injective key. *)
Lemma LinearLess_by {A K} (less : K -> K -> bool) (key : A -> K) (less' : A -> A -> bool) `{!LinearLess less, !Inj (=) (=) key} :
  (forall x y, less' x y = less (key x) (key y)) -> LinearLess less'.
Proof.
  intros He. split.
  - intros x. rewrite He. apply less_irrefl.
  - intros x y z. rewrite !He. apply less_trans.
  - intros x y. rewrite !He. destruct (less_total (key x) (key y)) as [E|]; [|by right]. left. by apply (inj key).
Qed.

(** A list that is not empty has an element that no other precedes. *)
Lemma exists_minimal {A K} (less : K -> K -> bool) (key : A -> K) `{!LinearLess less} (l : list A) :
  l <> [] -> exists m, m ∈ l /\ forall x, x ∈ l -> less (key x) (key m) = false.
Proof.
  induction l as [|y l IH]; [done|]. intros _. destruct l as [|z l].
  { exists y. split; [by left|]. intros x ->%list_elem_of_singleton. apply less_irrefl. }
  destruct IH as (m & Hm & Hmin); [done|]. destruct (less (key y) (key m)) eqn:E.
  - exists y. split; [by left|]. intros x [->|Hx]%elem_of_cons; [apply less_irrefl|].
    eapply (nless_trans less); [exact (less_asym less _ _ E)|by apply Hmin].
  - exists m. split; [by right|]. intros x [->|Hx]%elem_of_cons; auto.
Qed.

#[export] Instance string_ltb_linear : LinearLess String.ltb.
Proof.
  assert (forall x y, String.ltb x y = true <-> String_as_OT.lt x y) as Hlt.
  { intros x y. unfold String.ltb. change (String_as_OT.lt x y) with (String.compare x y = Lt).
    destruct (String.compare x y); split; congruence. }
  split.
  - intros x. destruct (String.ltb x x) eqn:E; [|done]. by apply Hlt, String_as_OT.lt_strorder in E.
  - intros x y z. rewrite !Hlt. apply String_as_OT.lt_strorder.
  - intros x y. rewrite !Hlt. destruct (String_as_OT.compare_spec x y); auto.
Qed.

(** ** Loops over a slice that may return an error *)

(** [for _, x := range l { acc, err = f acc x }] with an early return. *)
Fixpoint foldM {E A B} (f : B -> A -> result E B) (acc : B) (l : list A) : result E B :=
  match l with
  | [] => Ok acc
  | x :: l' => rbind (f acc x) (fun acc' => foldM f acc' l')
  end.

(** [for _, x := range l { if err := f x; err != nil { return err } }]. *)
Definition forM_ {E A} (f : A -> result E unit) (l : list A) : result E unit :=
  foldM (fun _ x => f x) tt l.

Section loops.
Context {E A B : Type}.

Lemma forM_ok (f : A -> result E unit) l :
  forM_ f l = Ok tt <-> Forall (fun x => f x = Ok tt) l.
Proof.
  unfold forM_. induction l as [|x l IH]; simpl; [done|].
  rewrite Forall_cons. destruct (f x) as [[]|] eqn:Ex; simpl; [|naive_solver].
  rewrite IH. naive_solver.
Qed.

Lemma forM_err (f : A -> result E unit) l e :
  forM_ f l = Err e ->
  exists l1 x l2, l = l1 ++ x :: l2 /\ f x = Err e /\ Forall (fun y => f y = Ok tt) l1.
Proof.
  unfold forM_. induction l as [|x l IH]; simpl; [done|].
  destruct (f x) as [[]|] eqn:Ex; simpl.
  - intros (l1 & y & l2 & -> & ? & ?)%IH. exists (x :: l1), y, l2.
    repeat split; auto.
  - intros [= ->]. by exists [], x, l.
Qed.

(** An invariant of the accumulator holds when the loop ends normally. *)
Lemma foldM_inv (f : B -> A -> result E B) (P : B -> list A -> Prop) acc l acc' :
  P acc [] ->
  (forall b pre x b', P b pre -> f b x = Ok b' -> P b' (pre ++ [x])) ->
  foldM f acc l = Ok acc' -> P acc' l.
Proof.
  intros H0 Hs H. change l with ([] ++ l). revert acc H0 H.
  generalize (@nil A). induction l as [|x l IH]; intros pre acc H0 H; simpl in H.
  - simplify_eq. by rewrite app_nil_r.
  - destruct (f acc x) as [b|] eqn:Ef; simpl in H; [|done].
    replace (pre ++ x :: l) with ((pre ++ [x]) ++ l) by by rewrite <- app_assoc.
    by eapply IH; eauto.
Qed.
End loops.

(** A loop that keeps the one element it accepts and fails on a second. *)
Lemma foldM_at_most_one {E A} (f : option A -> A -> result E (option A)) (Q : A -> Prop) l o :
  (forall a x o', f a x = Ok o' -> a = None /\ o' = Some x /\ Q x) ->
  foldM f None l = Ok o ->
  l = match o with Some x => [x] | None => [] end /\ Forall Q l.
Proof.
  intros Hf. destruct l as [|x [|y l]]; cbn [foldM].
  - intros [= <-]. split; [done|constructor].
  - destruct (f None x) as [o'|] eqn:E1; [|done]. cbn [rbind]. intros [= <-].
    apply Hf in E1 as (_ & -> & ?). split; [done|by repeat constructor].
  - destruct (f None x) as [o'|] eqn:E1; [|done]. cbn [rbind]. apply Hf in E1 as (_ & -> & _).
    destruct (f (Some x) y) as [o''|] eqn:E2; [|done]. by apply Hf in E2 as [? _].
Qed.

(** ** Proof automation *)

(** [inv_result]: take apart hypotheses that say a fallible computation
    returned normally or failed. *)
Ltac inv_result_step :=
  match goal with
  | H : Ok _ = Ok _ |- _ => injection H as H; try subst
  | H : Err _ = Err _ |- _ => injection H as H; try subst
  | H : Ok _ = Err _ |- _ => discriminate H
  | H : Err _ = Ok _ |- _ => discriminate H
  | H : rbind ?m _ = _ |- _ =>
      let E := fresh "E" in destruct m eqn:E; simpl in H
  | H : (if ?b then _ else Err _) = Ok _ |- _ =>
      let E := fresh "E" in destruct b eqn:E; [|discriminate H]
  | H : (if ?b then Err _ else _) = Ok _ |- _ =>
      let E := fresh "E" in destruct b eqn:E; [discriminate H|]
  end.
Ltac inv_result := repeat inv_result_step.

(** Boolean goals and hypotheses as propositions. *)
Ltac bool_hyps :=
  repeat match goal with
  | H : _ && _ = true |- _ => apply andb_true_iff in H as [? ?]
  | H : _ || _ = false |- _ => apply orb_false_iff in H as [? ?]
  | H : negb _ = true |- _ => apply negb_true_iff in H
  | H : negb _ = false |- _ => apply negb_false_iff in H
  | H : String.eqb _ _ = true |- _ => apply String.eqb_eq in H
  | H : String.eqb _ _ = false |- _ => apply String.eqb_neq in H
  | H : (_ =? _)%Z = true |- _ => apply Z.eqb_eq in H
  | H : (_ =? _)%Z = false |- _ => apply Z.eqb_neq in H
  | H : bool_decide _ = true |- _ => apply bool_decide_eq_true in H
  | H : bool_decide _ = false |- _ => apply bool_decide_eq_false in H
  end.

(** [lia] with division and remainder by constants. *)
Ltac divlia := zify; Z.to_euclidean_division_equations; lia.
