(* ===== verification/GoStrings.v ===== *)
(** * Go strings

    The functions of Go's [strings], [strconv], [encoding/base64] and
    [hash/fnv] packages that the repository calls, on byte strings, with the
    lemmas about them that the ownership metadata needs. *)
From S2P Require Import Prelude.
From stdpp Require Import base list strings.
From Stdlib Require Import Ascii ZArith NArith Lia DecimalString DecimalN DecimalFacts.

Set Default Goal Selector "!".

(** Go's string concatenation. *)
Notation "a ^^ b" := (String.append a b) (at level 60, right associativity) : go_scope.

Definition bytes_of (s : string) : list N :=
  N_of_ascii <$> String.list_ascii_of_string s.
Definition string_of_bytes (l : list N) : string :=
  String.string_of_list_ascii (ascii_of_N <$> l).

(** ** [strings] *)

Definition HasPrefix (s p : string) : bool := String.prefix p s.
Definition HasSuffix (s p : string) : bool := String.prefix (String.rev p) (String.rev s).

Fixpoint Contains (s sub : string) : bool :=
  String.prefix sub s || match s with "" => false | String _ s' => Contains s' sub end.

(** Drop the first [n] bytes, and keep only the first [n]. *)
Fixpoint str_drop (n : nat) (s : string) : string :=
  match n, s with
  | O, _ => s
  | S n', String _ s' => str_drop n' s'
  | S _, "" => ""
  end.
Fixpoint str_take (n : nat) (s : string) : string :=
  match n, s with
  | O, _ => ""
  | S n', String c s' => String c (str_take n' s')
  | S _, "" => ""
  end.

Definition TrimPrefix (s p : string) : string :=
  if HasPrefix s p then str_drop (String.length p) s else s.

(** [strings.Cut] with a one-byte separator. *)
Fixpoint Cut (s : string) (sep : ascii) : option (string * string) :=
  match s with
  | "" => None
  | String c s' =>
      if Ascii.eqb c sep then Some ("", s')
      else match Cut s' sep with
           | Some (k, v) => Some (String c k, v)
           | None => None
           end
  end.

(** [strings.Cut] with a separator of any length, and [strings.CutPrefix]. *)
Fixpoint CutString (s sep : string) : option (string * string) :=
  if HasPrefix s sep then Some ("", str_drop (String.length sep) s)
  else match s with
       | "" => None
       | String c s' =>
           match CutString s' sep with
           | Some (k, v) => Some (String c k, v)
           | None => None
           end
       end.
Definition CutPrefix (s p : string) : option string :=
  if HasPrefix s p then Some (str_drop (String.length p) s) else None.

Fixpoint trim_left_char (c : ascii) (s : string) : string :=
  match s with
  | String d s' => if Ascii.eqb d c then trim_left_char c s' else s
  | "" => ""
  end.
(** [strings.TrimRight] with a one-byte cutset. *)
Definition TrimRight (s : string) (c : ascii) : string :=
  String.rev (trim_left_char c (String.rev s)).

Fixpoint Join (parts : list string) (sep : string) : string :=
  match parts with
  | [] => ""
  | [x] => x
  | x :: rest => x ^^ sep ^^ Join rest sep
  end.

(** [unicode.IsSpace] on the UTF-8 encodings of one, two and three bytes. *)
Definition space1 (a : ascii) : bool :=
  let n := N_of_ascii a in ((9 <=? n) && (n <=? 13) || (n =? 32))%N.
Definition space2 (a b : ascii) : bool :=
  ((N_of_ascii a =? 194) && ((N_of_ascii b =? 133) || (N_of_ascii b =? 160)))%N.
Definition space3 (a b c : ascii) : bool :=
  let x := N_of_ascii a in let y := N_of_ascii b in let z := N_of_ascii c in
  ((x =? 225) && (y =? 154) && (z =? 128)
   || (x =? 226) && (y =? 128) && ((128 <=? z) && (z <=? 138) || (z =? 168) || (z =? 169) || (z =? 175))
   || (x =? 226) && (y =? 129) && (z =? 159)
   || (x =? 227) && (y =? 128) && (z =? 128))%N.

Fixpoint trim_spaces (s2 : ascii -> ascii -> bool) (s3 : ascii -> ascii -> ascii -> bool)
    (s : string) : string :=
  match s with
  | "" => ""
  | String a r =>
      if space1 a then trim_spaces s2 s3 r
      else match r with
           | "" => s
           | String b r2 =>
               if s2 a b then trim_spaces s2 s3 r2
               else match r2 with
                    | "" => s
                    | String c r3 => if s3 a b c then trim_spaces s2 s3 r3 else s
                    end
           end
  end.

Definition TrimSpace (s : string) : string :=
  String.rev (trim_spaces (fun a b => space2 b a) (fun a b c => space3 c b a)
                (String.rev (trim_spaces space2 space3 s))).

(** [strings.TrimSpace(s) == ""]. *)
Definition blank (s : string) : bool := String.eqb (TrimSpace s) "".

(** [strings.EqualFold] against an ASCII word without the letters K and S,
    whose case folding leaves ASCII. *)
Definition to_lower (c : ascii) : ascii :=
  let n := N_of_ascii c in if ((65 <=? n) && (n <=? 90))%N then ascii_of_N (n + 32) else c.
Fixpoint EqualFold (s t : string) : bool :=
  match s, t with
  | "", "" => true
  | String a s', String b t' => Ascii.eqb (to_lower a) (to_lower b) && EqualFold s' t'
  | _, _ => false
  end.

(** ** [strconv] and [fmt]: decimal and hexadecimal *)

Definition decimal_N (n : N) : string := NilEmpty.string_of_uint (N.to_uint n).
Definition decimal_Z (z : Z) : string :=
  if (z <? 0)%Z then String "-" (decimal_N (Z.to_N (- z))) else decimal_N (Z.to_N z).

Definition hex_digit (n : N) : ascii :=
  ascii_of_N (if (n <? 10)%N then n + 48 else n + 87)%N.
Fixpoint hex (l : list N) : string :=
  match l with
  | [] => ""
  | b :: l' => String (hex_digit (b / 16)) (String (hex_digit (b mod 16)) (hex l'))
  end.

(** ** [base64.RawURLEncoding] *)

Definition base64_char (n : N) : ascii :=
  ascii_of_N (if n <? 26 then n + 65
              else if n <? 52 then n + 71
              else if n <? 62 then n - 4
              else if n =? 62 then 45 else 95)%N.

Fixpoint base64_sextets (l : list N) : list N :=
  match l with
  | [] => []
  | [a] => [a / 4; (a mod 4) * 16]
  | [a; b] => [a / 4; (a mod 4) * 16 + b / 16; (b mod 16) * 4]
  | a :: b :: c :: l' =>
      a / 4 :: (a mod 4) * 16 + b / 16 :: (b mod 16) * 4 + c / 64 :: c mod 64
        :: base64_sextets l'
  end%N.

Definition base64_bytes (l : list N) : string :=
  String.string_of_list_ascii (base64_char <$> base64_sextets l).

(** [base64.RawURLEncoding.DecodeString]: the decoder skips carriage returns
    and line feeds, fails on any other byte outside the alphabet, and accepts an
    incomplete last quantum of two or three characters. *)
Definition base64_value (c : ascii) : option N :=
  let n := N_of_ascii c in
  (if (65 <=? n) && (n <=? 90) then Some (n - 65)
  else if (97 <=? n) && (n <=? 122) then Some (n - 71)
  else if (48 <=? n) && (n <=? 57) then Some (n + 4)
  else if n =? 45 then Some 62
  else if n =? 95 then Some 63
  else None)%N.

Fixpoint base64_quanta (l : list N) : option (list N) :=
  match l with
  | [] => Some []
  | [_] => None
  | [a; b] => Some [a * 4 + b / 16]
  | [a; b; c] => Some [a * 4 + b / 16; (b mod 16) * 16 + c / 4]
  | a :: b :: c :: d :: l' =>
      (fun rest => a * 4 + b / 16 :: (b mod 16) * 16 + c / 4 :: (c mod 4) * 64 + d :: rest)
        <$> base64_quanta l'
  end%N.

Definition base64_skipped (c : ascii) : bool := ((N_of_ascii c =? 10) || (N_of_ascii c =? 13))%N.
Definition DecodeString (s : string) : option (list N) :=
  match mapM base64_value (List.filter (fun c => negb (base64_skipped c)) (String.list_ascii_of_string s)) with
  | Some sextets => base64_quanta sextets
  | None => None
  end.

(** [hash/fnv.New32a] over the bytes of a string. *)
Definition fnv32a (s : string) : Z :=
  Z.of_N (foldl (fun h b => (N.lxor h b * 16777619) mod 4294967296)%N 2166136261%N (bytes_of s)).

(** ** Lemmas *)

#[local] Arguments String.append : simpl nomatch.

Lemma append_assoc (a b c : string) : (a ^^ b) ^^ c = a ^^ (b ^^ c).
Proof. induction a as [|x a IH]; simpl; [done|]. by rewrite IH. Qed.

Lemma append_nil_r (a : string) : a ^^ "" = a.
Proof. induction a as [|x a IH]; simpl; [done|]. by rewrite IH. Qed.

Lemma length_append (a b : string) :
  String.length (a ^^ b) = String.length a + String.length b.
Proof. induction a as [|x a IH]; simpl; [done|]. by rewrite IH. Qed.

Lemma append_inj_l (a b c : string) : a ^^ b = a ^^ c -> b = c.
Proof. induction a as [|x a IH]; simpl; [done|]. intros [=]. auto. Qed.

Lemma append_inj (a a' b b' : string) :
  String.length a = String.length a' -> a ^^ b = a' ^^ b' -> a = a' /\ b = b'.
Proof.
  revert a'. induction a as [|x a IH]; intros [|y a'] Hl H; simpl in *; try lia; [done|].
  injection H as -> H. destruct (IH a') as [-> ->]; [lia|done|done].
Qed.

Lemma prefix_cons c d p s :
  String.prefix (String c p) (String d s) =
  if ascii_dec c d then String.prefix p s else false.
Proof. reflexivity. Qed.

Lemma prefix_iff p s : HasPrefix s p = true <-> exists r, s = p ^^ r.
Proof.
  unfold HasPrefix. revert s. induction p as [|c p IH]; intros s; simpl.
  - split; [intros _; by exists s | by destruct s].
  - destruct s as [|d s]; [split; [done|intros [r ?]; done]|].
    rewrite prefix_cons. destruct (ascii_dec c d) as [->|Hne].
    + rewrite IH. split; intros [r H]; exists r; [by rewrite H | by injection H].
    + split; [done|]. by intros [r [= -> _]].
Qed.

Lemma HasPrefix_append p r : HasPrefix (p ^^ r) p = true.
Proof. apply prefix_iff. by exists r. Qed.

Lemma HasPrefix_refl p : HasPrefix p p = true.
Proof. rewrite <- (append_nil_r p) at 1. apply HasPrefix_append. Qed.

Lemma str_drop_append p r : str_drop (String.length p) (p ^^ r) = r.
Proof. induction p as [|c p IH]; simpl; [done|exact IH]. Qed.

Lemma TrimPrefix_append p r : TrimPrefix (p ^^ r) p = r.
Proof. unfold TrimPrefix. by rewrite HasPrefix_append, str_drop_append. Qed.

Lemma str_take_le n s : String.length (str_take n s) <= n.
Proof. revert s. induction n as [|n IH]; intros [|c s]; simpl; try lia. specialize (IH s). lia. Qed.

(** [c] does not occur in [s]. *)
Fixpoint str_without (c : ascii) (s : string) : bool :=
  match s with "" => true | String d s' => negb (Ascii.eqb d c) && str_without c s' end.

Lemma Cut_append k v c : str_without c k = true -> Cut (k ^^ String c v) c = Some (k, v).
Proof.
  induction k as [|d k IH]; simpl.
  - by rewrite Ascii.eqb_refl.
  - intros [Hd Hk]%andb_true_iff. apply negb_true_iff in Hd. rewrite Hd.
    by rewrite (IH Hk).
Qed.

Lemma Cut_inv s c k v : Cut s c = Some (k, v) -> s = k ^^ String c v /\ str_without c k = true.
Proof.
  revert k. induction s as [|d s IH]; intros k H; simpl in H; [done|].
  destruct (Ascii.eqb d c) eqn:E.
  - injection H as <- <-. apply Ascii.eqb_eq in E as ->. done.
  - destruct (Cut s c) as [[k' v']|]; [|done]. injection H as <- <-.
    destruct (IH k') as [-> Hw]; [done|]. simpl. by rewrite E, Hw.
Qed.

Lemma str_without_append c a b :
  str_without c (a ^^ b) = str_without c a && str_without c b.
Proof. induction a as [|d a IH]; simpl; [done|]. by rewrite IH, andb_assoc. Qed.

(** Two strings that agree after a separator neither contains before it. *)
Lemma sep_inj c a a' b b' :
  str_without c a = true -> str_without c a' = true ->
  a ^^ String c b = a' ^^ String c b' -> a = a' /\ b = b'.
Proof.
  intros Ha Ha' H. apply (Cut_append _ b) in Ha. apply (Cut_append _ b') in Ha'.
  rewrite H, Ha' in Ha. by simplify_eq.
Qed.

Lemma bytes_of_bound s : Forall (fun b => b < 256)%N (bytes_of s).
Proof.
  unfold bytes_of. apply Forall_fmap, Forall_true. intros a. apply N_ascii_bounded.
Qed.

Lemma string_of_bytes_of s : string_of_bytes (bytes_of s) = s.
Proof.
  unfold string_of_bytes, bytes_of. induction s as [|c s IH]; [done|].
  cbn [String.list_ascii_of_string fmap list_fmap]. cbn [String.string_of_list_ascii].
  by rewrite ascii_N_embedding, IH.
Qed.

Lemma bytes_of_inj s t : bytes_of s = bytes_of t -> s = t.
Proof. intros H. by rewrite <- (string_of_bytes_of s), H, string_of_bytes_of. Qed.

Lemma length_bytes_of s : length (bytes_of s) = String.length s.
Proof. unfold bytes_of. rewrite length_fmap. induction s; simpl; auto. Qed.

(** *** Decimal numbers *)

Lemma string_of_uint_digits (c : ascii) u :
  (N_of_ascii c <? 48)%N || (57 <? N_of_ascii c)%N = true ->
  str_without c (NilEmpty.string_of_uint u) = true.
Proof.
  intros Hc. induction u; [done|..]; cbn [NilEmpty.string_of_uint str_without];
    (rewrite IHu, andb_true_r; apply negb_true_iff, Ascii.eqb_neq;
     intros <-; by vm_compute in Hc).
Qed.

Lemma decimal_N_without c n :
  (N_of_ascii c <? 48)%N || (57 <? N_of_ascii c)%N = true ->
  str_without c (decimal_N n) = true.
Proof. apply string_of_uint_digits. Qed.

Lemma decimal_N_inj n m : decimal_N n = decimal_N m -> n = m.
Proof.
  unfold decimal_N. intros H. apply (f_equal NilEmpty.uint_of_string) in H.
  rewrite !NilEmpty.usu in H. injection H as H.
  by apply Unsigned.to_uint_inj.
Qed.

(** *** Base64 *)

Lemma base64_char_inj a b :
  (a < 64)%N -> (b < 64)%N -> base64_char a = base64_char b -> a = b.
Proof.
  unfold base64_char. intros Ha Hb H. apply (f_equal N_of_ascii) in H.
  rewrite !N_ascii_embedding in H by (repeat case_match; lia).
  repeat (case_match; try lia);
    rewrite ?N.ltb_lt, ?N.ltb_ge, ?N.eqb_eq, ?N.eqb_neq in *; lia.
Qed.

Lemma base64_sextets_ind (P : list N -> Prop) :
  P [] -> (forall a, P [a]) -> (forall a b, P [a; b]) ->
  (forall a b c l, P l -> P (a :: b :: c :: l)) -> forall l, P l.
Proof.
  intros H0 H1 H2 H3. fix IH 1. intros [|a [|b [|c l]]]; [done|apply H1|apply H2|].
  apply H3, IH.
Qed.

Lemma base64_sextets_bound l :
  Forall (fun b => b < 256)%N l -> Forall (fun b => b < 64)%N (base64_sextets l).
Proof.
  induction l as [|a|a b|a b c l IH] using base64_sextets_ind; intros Hl;
    cbn [base64_sextets]; rewrite ?Forall_cons in Hl; rewrite ?Forall_cons;
    destruct_and?; repeat split; auto; divlia.
Qed.

Lemma div_mod_eq (n a b : N) :
  (n ≠ 0 -> a / n = b / n -> a mod n = b mod n -> a = b)%N.
Proof.
  intros Hn Hd Hm. by rewrite (N.div_mod a n), (N.div_mod b n), Hd, Hm by done.
Qed.

(** Two digits of a mixed radix number. *)
Lemma radix_eq (k r q r' q' : N) :
  (q < k -> q' < k -> r * k + q = r' * k + q' -> r = r' /\ q = q')%N.
Proof.
  intros Hq Hq' H. assert (r = r')%N as ->; [|split; lia].
  apply (f_equal (fun x => x / k)%N) in H.
  rewrite !N.div_add_l in H by lia. rewrite !N.div_small in H by done. lia.
Qed.

Lemma base64_sextets_inj l l' :
  Forall (fun b => b < 256)%N l -> Forall (fun b => b < 256)%N l' ->
  base64_sextets l = base64_sextets l' -> l = l'.
Proof.
  assert (forall a m n, (a < m * n -> n ≠ 0 -> a / n < m)%N) as Hdiv
    by (intros; apply N.Div0.div_lt_upper_bound; lia).
  revert l'. induction l as [|a|a b|a b c l IH] using base64_sextets_ind;
    intros [|a' [|b' [|c' l']]] Hl Hl' H; simpl in H; try done;
    rewrite ?Forall_cons in Hl, Hl'; destruct_and?.
  - injection H as ? ?. f_equal. apply (div_mod_eq 4); lia.
  - injection H as Ha Hab Hb. apply radix_eq in Hab as [? ?]; [|by apply Hdiv..].
    f_equal; [by apply (div_mod_eq 4)|]. f_equal. apply (div_mod_eq 16); lia.
  - injection H as Ha Hab Hbc Hc Hr. apply IH in Hr; [|done..]. subst.
    apply radix_eq in Hab as [? ?]; [|by apply Hdiv..].
    apply radix_eq in Hbc as [? ?]; [|by apply Hdiv..].
    f_equal; [by apply (div_mod_eq 4)|].
    f_equal; [by apply (div_mod_eq 16)|]. f_equal. by apply (div_mod_eq 64).
Qed.

Lemma string_of_list_ascii_inj l l' :
  String.string_of_list_ascii l = String.string_of_list_ascii l' -> l = l'.
Proof.
  intros H. by rewrite <- (String.list_ascii_of_string_of_list_ascii l), H,
    String.list_ascii_of_string_of_list_ascii.
Qed.

Lemma base64_bytes_inj l l' :
  Forall (fun b => b < 256)%N l -> Forall (fun b => b < 256)%N l' ->
  base64_bytes l = base64_bytes l' -> l = l'.
Proof.
  intros Hl Hl' H%string_of_list_ascii_inj. apply base64_sextets_inj; [done..|].
  apply base64_sextets_bound in Hl, Hl'.
  revert H Hl Hl'. generalize (base64_sextets l) (base64_sextets l').
  intros k. induction k as [|x k IH]; intros [|y k'] H; simpl in H; try done.
  rewrite !Forall_cons. intros [??] [??]. injection H as Hxy H.
  f_equal; [by apply base64_char_inj|by apply IH].
Qed.

Lemma length_string_of_list_ascii l :
  String.length (String.string_of_list_ascii l) = length l.
Proof. induction l; simpl; auto. Qed.

Lemma base64_bytes_length l :
  String.length (base64_bytes l) = (length l * 4 + 2) / 3.
Proof.
  unfold base64_bytes. rewrite length_string_of_list_ascii, length_fmap.
  induction l as [|a|a b|a b c l IH] using base64_sextets_ind; try done.
  cbn [base64_sextets length]. rewrite IH.
  replace (S (S (S (length l))) * 4 + 2) with (length l * 4 + 2 + 4 * 3) by lia.
  rewrite Nat.div_add by lia. lia.
Qed.

(** The encoding of a non-empty value starts with the character of its first
    six bits. *)
Lemma base64_bytes_head a l :
  exists s, base64_bytes (a :: l) = String (base64_char (a / 4)%N) s.
Proof.
  unfold base64_bytes. destruct l as [|b [|c l]]; simpl; eauto.
Qed.

(** *** Decoding undoes encoding *)

Lemma base64_value_char n : (n < 64)%N -> base64_value (base64_char n) = Some n.
Proof.
  intros Hn. unfold base64_value, base64_char.
  rewrite N_ascii_embedding by (repeat case_match; lia).
  repeat (case_match; bool_hyps; rewrite ?N.leb_le, ?N.leb_gt, ?N.ltb_lt, ?N.ltb_ge, ?N.eqb_eq, ?N.eqb_neq, ?andb_false_iff in *);
    try (f_equal; lia); lia.
Qed.

Lemma base64_char_kept n : (n < 64)%N -> base64_skipped (base64_char n) = false.
Proof.
  intros Hn. unfold base64_skipped, base64_char.
  rewrite N_ascii_embedding by (repeat case_match; lia).
  apply orb_false_iff; rewrite !N.eqb_neq;
    repeat (case_match; rewrite ?N.ltb_lt, ?N.ltb_ge, ?N.eqb_eq, ?N.eqb_neq in *); lia.
Qed.

Lemma base64_quanta_sextets l :
  Forall (fun b => b < 256)%N l -> base64_quanta (base64_sextets l) = Some l.
Proof.
  induction l as [|a|a b|a b c l IH] using base64_sextets_ind; intros Hl;
    rewrite ?Forall_cons in Hl; destruct_and?; cbn [base64_sextets base64_quanta].
  - done.
  - do 2 f_equal. divlia.
  - do 2 f_equal; [divlia|f_equal; divlia].
  - rewrite IH by done. cbn. do 2 f_equal; [divlia|f_equal; [divlia|f_equal; divlia]].
Qed.

(** What the controller encodes, the audit decodes. *)
Lemma DecodeString_base64_bytes l :
  Forall (fun b => b < 256)%N l -> DecodeString (base64_bytes l) = Some l.
Proof.
  intros Hl. unfold DecodeString, base64_bytes.
  rewrite String.list_ascii_of_string_of_list_ascii.
  pose proof (base64_sextets_bound l Hl) as Hb.
  assert (List.filter (fun c => negb (base64_skipped c)) (base64_char <$> base64_sextets l)
          = base64_char <$> base64_sextets l) as ->.
  { induction Hb as [|n k Hn Hk IH]; cbn; [done|]. by rewrite base64_char_kept, IH. }
  assert (mapM base64_value (base64_char <$> base64_sextets l) = Some (base64_sextets l)) as ->.
  { induction Hb as [|n k Hn Hk IH]; cbn; [done|]. rewrite base64_value_char by done. cbn.
    cbn in IH. by rewrite IH. }
  by apply base64_quanta_sextets.
Qed.
