(* ===== verification/GoSha256.v ===== *)
(** * Go's [crypto/sha256]

    SHA-256 (FIPS 180-4) over byte lists, executable, with the test vectors of
    the standard.  The ownership metadata of the controller is built on it: long
    identity values and Neutron descriptions carry digests. *)
From S2P Require Import Prelude GoStrings.
From stdpp Require Import base list strings.
From Stdlib Require Import NArith Lia.

Set Default Goal Selector "!".
Local Open Scope N_scope.

Definition w32 (x : N) : N := N.land x 4294967295.
Definition add32 (x y : N) : N := w32 (x + y).
Definition rotr (k x : N) : N := N.lor (N.shiftr x k) (w32 (N.shiftl x (32 - k))).
Definition Ch (x y z : N) : N := N.lxor (N.land x y) (N.land (N.lxor x 4294967295) z).
Definition Maj (x y z : N) : N := N.lxor (N.lxor (N.land x y) (N.land x z)) (N.land y z).
Definition bsig0 (x : N) : N := N.lxor (N.lxor (rotr 2 x) (rotr 13 x)) (rotr 22 x).
Definition bsig1 (x : N) : N := N.lxor (N.lxor (rotr 6 x) (rotr 11 x)) (rotr 25 x).
Definition ssig0 (x : N) : N := N.lxor (N.lxor (rotr 7 x) (rotr 18 x)) (N.shiftr x 3).
Definition ssig1 (x : N) : N := N.lxor (N.lxor (rotr 17 x) (rotr 19 x)) (N.shiftr x 10).

Definition sha_k : list N :=
  [1116352408; 1899447441; 3049323471; 3921009573; 961987163; 1508970993; 2453635748; 2870763221;
   3624381080; 310598401; 607225278; 1426881987; 1925078388; 2162078206; 2614888103; 3248222580;
   3835390401; 4022224774; 264347078; 604807628; 770255983; 1249150122; 1555081692; 1996064986;
   2554220882; 2821834349; 2952996808; 3210313671; 3336571891; 3584528711; 113926993; 338241895;
   666307205; 773529912; 1294757372; 1396182291; 1695183700; 1986661051; 2177026350; 2456956037;
   2730485921; 2820302411; 3259730800; 3345764771; 3516065817; 3600352804; 4094571909; 275423344;
   430227734; 506948616; 659060556; 883997877; 958139571; 1322822218; 1537002063; 1747873779;
   1955562222; 2024104815; 2227730452; 2361852424; 2428436474; 2756734187; 3204031479; 3329325298].
Definition sha_h0 : list N :=
  [1779033703; 3144134277; 1013904242; 2773480762; 1359893119; 2600822924; 528734635; 1541459225].

(** Padding: a one bit, zeros, and the bit length in 64 bits. *)
Definition sha_pad (m : list N) : list N :=
  let l := length m in
  let z := ((119 - l mod 64) mod 64)%nat in
  m ++ [128] ++ replicate z 0
    ++ ((fun i => N.land (N.shiftr (N.of_nat (l * 8)%nat) (8 * (7 - N.of_nat i))) 255) <$> seq 0 8).

Fixpoint be_words (l : list N) : list N :=
  match l with
  | a :: b :: c :: d :: l' => a * 16777216 + b * 65536 + c * 256 + d :: be_words l'
  | _ => []
  end.

(** The message schedule, kept as its last sixteen words, newest first. *)
Definition sha_next (w : list N) : N :=
  add32 (add32 (ssig1 (nth 1 w 0)) (nth 6 w 0)) (add32 (ssig0 (nth 14 w 0)) (nth 15 w 0)).
Fixpoint sha_schedule (n : nat) (recent : list N) : list N :=
  match n with
  | O => []
  | S n' => let x := sha_next recent in x :: sha_schedule n' (x :: take 15 recent)
  end.

Definition sha_round (st : list N) (kw : N * N) : list N :=
  match st with
  | [a; b; c; d; e; f; g; h] =>
      let t1 := add32 (add32 (add32 h (bsig1 e)) (add32 (Ch e f g) (fst kw))) (snd kw) in
      let t2 := add32 (bsig0 a) (Maj a b c) in
      [add32 t1 t2; a; b; c; add32 d t1; e; f; g]
  | _ => st
  end.

Definition sha_block (st : list N) (block : list N) : list N :=
  let w := block ++ sha_schedule 48 (reverse block) in
  zip_with add32 st (foldl sha_round st (zip sha_k w)).

Fixpoint sha_blocks (fuel : nat) (st ws : list N) : list N :=
  match fuel with
  | O => st
  | S n => match ws with
           | [] => st
           | _ => sha_blocks n (sha_block st (take 16 ws)) (drop 16 ws)
           end
  end.

Definition word_bytes (x : N) : list N :=
  [N.land (N.shiftr x 24) 255; N.land (N.shiftr x 16) 255; N.land (N.shiftr x 8) 255; N.land x 255].

Definition sha256 (m : list N) : list N :=
  let ws := be_words (sha_pad m) in
  concat (word_bytes <$> sha_blocks (length ws) sha_h0 ws).

(** [sha256.Sum256([]byte(s))]. *)
Definition Sum256 (s : string) : list N := sha256 (bytes_of s).

Example sha256_empty :
  hex (Sum256 "") = "e3b0c44298fc1c149afbf4c8996fb92427ae41e4649b934ca495991b7852b855".
Proof. vm_compute. reflexivity. Qed.

Example sha256_abc :
  hex (Sum256 "abc") = "ba7816bf8f01cfea414140de5dae2223b00361a396177a9cb410ff61f20015ad".
Proof. vm_compute. reflexivity. Qed.

Example sha256_two_blocks :
  hex (Sum256 "abcdbcdecdefdefgefghfghighijhijkijkljklmklmnlmnomnopnopq")
  = "248d6a61d20638b8e5c026930c3e6039a33ce45964ff2167f6ecedd419db06c1".
Proof. vm_compute. reflexivity. Qed.

(** A digest always has 32 bytes. *)
Lemma sha_round_length st kw : length st = 8%nat -> length (sha_round st kw) = 8%nat.
Proof. intros H. do 9 (destruct st as [|? st]; try done). Qed.

Lemma sha_rounds_length kws st :
  length st = 8%nat -> length (foldl sha_round st kws) = 8%nat.
Proof.
  revert st. induction kws as [|kw kws IH]; intros st H; simpl; [done|].
  by apply IH, sha_round_length.
Qed.

Lemma sha_blocks_length fuel st ws :
  length st = 8%nat -> length (sha_blocks fuel st ws) = 8%nat.
Proof.
  revert st ws. induction fuel as [|n IH]; intros st ws H; simpl; [done|].
  destruct ws; [done|]. apply IH. unfold sha_block.
  rewrite length_zip_with, sha_rounds_length, H; done.
Qed.

Lemma sha256_length m : length (sha256 m) = 32%nat.
Proof.
  unfold sha256. generalize (sha_blocks_length (length (be_words (sha_pad m)))
    sha_h0 (be_words (sha_pad m)) eq_refl).
  generalize (sha_blocks (length (be_words (sha_pad m))) sha_h0 (be_words (sha_pad m))).
  intros st Hst. assert (forall l, length (concat (word_bytes <$> l)) = 4 * length l)%nat as ->.
  { induction l as [|x l IH]; [done|]. cbn [fmap list_fmap concat word_bytes].
    rewrite length_app, IH. change (length (word_bytes x)) with 4%nat. cbn [length]. lia. }
  lia.
Qed.

(** Every byte of a digest is a byte. *)
Lemma land_255_bound x : N.land x 255 < 256.
Proof.
  change 255 with (N.ones 8). rewrite N.land_ones. by apply N.mod_lt.
Qed.

Lemma sha256_bound m : Forall (fun b => b < 256) (sha256 m).
Proof.
  unfold sha256. generalize (sha_blocks (length (be_words (sha_pad m))) sha_h0
    (be_words (sha_pad m))).
  intros l. apply Forall_concat, Forall_fmap, Forall_true. intros x. unfold word_bytes; simpl.
  repeat (constructor; [apply land_255_bound|]). constructor.
Qed.

#[global] Arguments sha256 : simpl never.
#[global] Arguments Sum256 : simpl never.
