(* ===== verification/GoNetip.v ===== *)
(** * Go's [net/netip]

    [ParseAddr], [Addr.String] and [AddrPort.String], executable, following the
    loops of the package: IPv4 with exactly four decimal fields, IPv6 with one
    ellipsis, an embedded IPv4 tail and a zone, and the canonical output with
    the longest run of zero groups compressed. *)
From stdpp Require Import base list strings.
From Stdlib Require Import Ascii NArith ZArith Lia.
From S2P Require Import Prelude GoStrings.

Set Default Goal Selector "!".

(** Four bytes, or eight 16-bit groups with a zone. *)
Inductive Addr :=
| IPv4 (fields : list N)
| IPv6 (groups : list N) (zone : string).

#[export] Instance Addr_eq_dec : EqDecision Addr.
Proof. solve_decision. Defined.

Definition digit_val (c : ascii) : option N :=
  let n := N_of_ascii c in
  if ((48 <=? n) && (n <=? 57))%N then Some (n - 48)%N else None.

Definition hex_val (c : ascii) : option N :=
  let n := N_of_ascii c in
  if ((48 <=? n) && (n <=? 57))%N then Some (n - 48)%N
  else if ((97 <=? n) && (n <=? 102))%N then Some (n - 87)%N
  else if ((65 <=? n) && (n <=? 70))%N then Some (n - 55)%N
  else None.

(** [parseIPv4Fields]; [digLen] digits of the current field have value [val],
    and [fields] are complete.  A dot at the start, after a dot or at the end
    leaves an empty field. *)
Fixpoint parse4_loop (s : string) (val : N) (digLen : nat) (fields : list N) : option (list N) :=
  match s with
  | "" => if length fields <? 3 then None else Some (fields ++ [val])
  | String c s' =>
      match digit_val c with
      | Some d =>
          if (digLen =? 1)%nat && (val =? 0)%N then None
          else let val' := (val * 10 + d)%N in
               if (255 <? val')%N then None else parse4_loop s' val' (S digLen) fields
      | None =>
          if Ascii.eqb c "." then
            if (digLen =? 0)%nat || String.eqb s' "" then None
            else if (length fields =? 3)%nat then None
            else parse4_loop s' 0%N 0 (fields ++ [val])
          else None
      end
  end.
Definition parseIPv4Fields (s : string) : option (list N) := parse4_loop s 0%N 0 [].

(** A hexadecimal group of at most four digits and what follows it. *)
Fixpoint scan_hex (s : string) (off : nat) (acc : N) : option (N * nat * string) :=
  match s with
  | "" => Some (acc, off, s)
  | String c s' =>
      match hex_val c with
      | Some d => if 3 <? off then None else scan_hex s' (S off) (acc * 16 + d)%N
      | None => Some (acc, off, s)
      end
  end.

(** The loop of [parseIPv6].  Every iteration adds a group and at most eight
    fit, so eight units of fuel are enough. *)
Fixpoint parse6_loop (fuel : nat) (groups : list N) (ellipsis : option nat) (s : string)
    : option (list N * option nat * string) :=
  match fuel with
  | O => Some (groups, ellipsis, s)
  | S n =>
      if negb (length groups <? 8) then Some (groups, ellipsis, s)
      else
        match scan_hex s 0 0%N with
        | None => None
        | Some (acc, off, rest) =>
            if (off =? 0)%nat then None
            else
              let groups' := groups ++ [acc] in
              match rest with
              | "" => Some (groups', ellipsis, "")
              | String c r =>
                  if Ascii.eqb c "." then
                    if match ellipsis with None => negb (length groups =? 6)%nat | _ => false end
                    then None
                    else if 8 <? length groups + 2 then None
                    else match parseIPv4Fields s with
                         | Some [a; b; c; d] =>
                             Some (groups ++ [a * 256 + b; c * 256 + d]%N, ellipsis, "")
                         | _ => None
                         end
                  else if Ascii.eqb c ":" then
                    match r with
                    | "" => None
                    | String c2 r2 =>
                        if Ascii.eqb c2 ":" then
                          match ellipsis with
                          | Some _ => None
                          | None =>
                              if String.eqb r2 "" then Some (groups', Some (length groups'), "")
                              else parse6_loop n groups' (Some (length groups')) r2
                          end
                        else parse6_loop n groups' ellipsis r
                    end
                  else None
              end
        end
  end.

Definition parse6_body (s : string) (zone : string) : option Addr :=
  let finish (st : option (list N * option nat * string)) :=
    match st with
    | Some (groups, ellipsis, "") =>
        if length groups <? 8 then
          match ellipsis with
          | None => None
          | Some e =>
              Some (IPv6 (take e groups ++ replicate (8 - length groups) 0%N ++ drop e groups) zone)
          end
        else match ellipsis with
             | Some _ => None
             | None => Some (IPv6 groups zone)
             end
    | _ => None
    end in
  if HasPrefix s "::" then
    let rest := str_drop 2 s in
    if String.eqb rest "" then Some (IPv6 (replicate 8 0%N) zone)
    else finish (parse6_loop 8 [] (Some 0) rest)
  else finish (parse6_loop 8 [] None s).

Definition parseIPv6 (s : string) : option Addr :=
  match Cut s "%" with
  | Some (body, zone) => if String.eqb zone "" then None else parse6_body body zone
  | None => parse6_body s ""
  end.

(** [ParseAddr]: the first separator decides the family. *)
Fixpoint addr_family (s : string) : option ascii :=
  match s with
  | "" => None
  | String c s' =>
      if Ascii.eqb c "." || Ascii.eqb c ":" || Ascii.eqb c "%" then Some c else addr_family s'
  end.
Definition ParseAddr (s : string) : option Addr :=
  match addr_family s with
  | Some c =>
      if Ascii.eqb c "." then
        match parseIPv4Fields s with Some fields => Some (IPv4 fields) | None => None end
      else if Ascii.eqb c ":" then parseIPv6 s
      else None
  | None => None
  end.

(** ** Output *)

Definition string4 (fields : list N) : string := Join (decimal_N <$> fields) ".".

(** A group in hexadecimal without leading zeros. *)
Definition hex16 (x : N) : string :=
  if (x <? 16)%N then String (hex_digit x) ""
  else if (x <? 256)%N then String (hex_digit (x / 16)) (String (hex_digit (x mod 16)) "")
  else if (x <? 4096)%N
  then String (hex_digit (x / 256)) (String (hex_digit (x / 16 mod 16)) (String (hex_digit (x mod 16)) ""))
  else hex [(x / 256)%N; (x mod 256)%N].

Fixpoint zero_run (groups : list N) : nat :=
  match groups with
  | g :: rest => if (g =? 0)%N then S (zero_run rest) else 0
  | [] => 0
  end.

(** The first longest run of at least two zero groups: position and length. *)
Fixpoint longest_zeros (i : nat) (groups : list N) (best : nat * nat) : nat * nat :=
  match groups with
  | [] => best
  | _ :: rest =>
      let l := zero_run groups in
      longest_zeros (S i) rest (if (2 <=? l) && (snd best <? l) then (i, l) else best)
  end.

Definition string6 (groups : list N) : string :=
  let '(start, len) := longest_zeros 0 groups (0, 0) in
  if (len =? 0)%nat then Join (hex16 <$> groups) ":"
  else Join (hex16 <$> take start groups) ":" ^^ "::" ^^ Join (hex16 <$> drop (start + len) groups) ":".

Definition is4In6 (groups : list N) : bool :=
  match groups with
  | [a; b; c; d; e; f; _; _] =>
      ((a =? 0) && (b =? 0) && (c =? 0) && (d =? 0) && (e =? 0) && (f =? 65535))%N
  | _ => false
  end.

(** [Addr.String]. *)
Definition AddrString (a : Addr) : string :=
  match a with
  | IPv4 fields => string4 fields
  | IPv6 groups zone =>
      (if is4In6 groups
       then match drop 6 groups with
            | [x; y] => "::ffff:" ^^ string4 [x / 256; x mod 256; y / 256; y mod 256]%N
            | _ => ""
            end
       else string6 groups)
      ^^ (if String.eqb zone "" then "" else "%" ^^ zone)
  end.

(** [AddrPortFrom(addr, port).String()]. *)
Definition AddrPortString (a : Addr) (port : Z) : string :=
  match a with
  | IPv4 _ => AddrString a
  | IPv6 _ _ => "[" ^^ AddrString a ^^ "]"
  end ^^ ":" ^^ decimal_Z port.

#[global] Arguments ParseAddr : simpl never.
#[global] Arguments AddrString : simpl never.
#[global] Arguments AddrPortString : simpl never.

(** ** Examples *)

Example parse_v4 : ParseAddr "10.0.0.7" = Some (IPv4 [10; 0; 0; 7]%N).
Proof. reflexivity. Qed.
Example parse_v4_bad :
  ParseAddr <$> ["10.0.0"; "10.0.0.256"; "10.0.0.07"; "10.0.0.7."; "10..0.7"; "1.2.3.4.5"; "ten"]
  = replicate 7 None.
Proof. reflexivity. Qed.
Example parse_v6 :
  (fun s => AddrString <$> ParseAddr s) <$>
    ["2001:DB8:0:0:0:0:0:1"; "::"; "fe80::1%eth0"; "::FFFF:10.0.0.7"; "1:0:0:2:0:0:0:3"; "1::"; "64:ff9b::1.2.3.4"]
  = Some <$> ["2001:db8::1"; "::"; "fe80::1%eth0"; "::ffff:10.0.0.7"; "1:0:0:2::3"; "1::"; "64:ff9b::102:304"].
Proof. reflexivity. Qed.
Example parse_v6_bad :
  ParseAddr <$> ["1::2::3"; "12345::"; ":1"; "1:2:3:4:5:6:7:8:9"; "1:2:3"; "fe80::%"; "1:2:3:4:5:6:7::8"]
  = replicate 6 None ++ [None].
Proof. reflexivity. Qed.
Example addr_port :
  (fun s => (fun a => AddrPortString a 8080) <$> ParseAddr s) <$> ["10.0.0.7"; "::1"]
  = [Some "10.0.0.7:8080"; Some "[::1]:8080"].
Proof. reflexivity. Qed.
