(* ===== verification/Cloud.v ===== *)
(** * The provider-neutral cloud boundary

    Models [internal/cloud]: identities and specifications ([types.go]),
    outcomes ([outcome.go]) and classified provider errors ([errors.go]),
    together with the part of Go's [errors] package the repository relies on:
    wrapping with [%w], [errors.Join], [errors.As] and [errors.Is]. *)
From S2P Require Import Prelude GoStrings.
From stdpp Require Import base list strings.
From Stdlib Require Import ZArith Lia.

Set Default Goal Selector "!".

(** ** Identities and specifications (types.go) *)

Record Identity := mkIdentity {
  OpenStackProjectID : string;
  ClusterID : string;
  Controller : string;
  ControllerVersion : string;
  GatewayNamespace : string;
  GatewayName : string;
  GatewayUID : string;
  RouteNamespace : string;
  RouteName : string;
  RouteUID : string
}.

#[export] Instance Identity_eq_dec : EqDecision Identity.
Proof. solve_decision. Defined.

Record GatewaySpec := mkGatewaySpec {
  gs_Identity : Identity;
  gs_Provider : string;
  gs_VIPSubnetID : string;
  gs_ExternalNetworkID : string;
  gs_ListenerName : string;
  gs_ListenerPort : Z
}.

Record GatewayState := mkGatewayState {
  LoadBalancerID : string;
  VIPPortID : string;
  VIPAddress : string;
  FloatingIPID : string;
  FloatingIPAddress : string;
  ListenerID : string
}.

Definition zeroGatewayState : GatewayState := mkGatewayState "" "" "" "" "" "".

Record GatewayRequirements := mkGatewayRequirements {
  gr_Provider : string;
  gr_VIPSubnetID : string;
  gr_ExternalNetworkID : string;
  gr_ListenerPort : Z
}.

(** [GatewayState.Address]. *)
Definition Address (s : GatewayState) : string :=
  if String.eqb (FloatingIPAddress s) "" then VIPAddress s else FloatingIPAddress s.

(** [PathMatchType] is a Go string type; [PathMatchOther] stands for every
    value other than the two constants. *)
Inductive PathMatchType :=
| PathMatchExact
| PathMatchPrefix
| PathMatchOther (value : string).

#[export] Instance PathMatchType_eq_dec : EqDecision PathMatchType.
Proof. solve_decision. Defined.

Record Member := mkMember { m_Address : string; m_Port : Z }.

#[export] Instance Member_eq_dec : EqDecision Member.
Proof. solve_decision. Defined.

Record RouteSpec := mkRouteSpec {
  rs_Identity : Identity;
  rs_Gateway : GatewayState;
  rs_GatewayRequirements : GatewayRequirements;
  rs_MemberSubnetID : string;
  rs_HealthPath : string;
  rs_Hostname : string;
  rs_PathType : PathMatchType;
  rs_PathValue : string;
  rs_Members : list Member
}.

Record RouteState := mkRouteState {
  PoolID : string;
  MemberIDs : list string;
  MonitorID : string;
  L7PolicyIDs : list string;
  L7RuleIDs : list string
}.

Definition zeroRouteState : RouteState := mkRouteState "" [] "" [] [].

(** ** Errors *)

(** A Go string type with nine constants; [CategoryOther] stands for every
    other value. *)
Inductive ErrorCategory :=
| ErrorCategoryAuthentication
| ErrorCategoryAuthorization
| ErrorCategoryQuota
| ErrorCategoryRateLimit
| ErrorCategoryTimeout
| ErrorCategoryRetryableService
| ErrorCategoryTerminalValidation
| ErrorCategoryResourceFailure
| ErrorCategoryOwnershipConflict
| CategoryOther (value : string).

#[export] Instance ErrorCategory_eq_dec : EqDecision ErrorCategory.
Proof. solve_decision. Defined.

(** The body of an unexpected HTTP response, through the two questions the
    repository asks of it: is it empty, and what does [json.Unmarshal] find
    under [NeutronError.type].  [None]: not JSON of that shape; [Some None]: no
    [NeutronError]; [Some (Some t)]: its type is [t]. *)
Record ResponseBody := mkBody {
  body_empty : bool;
  body_fault : option (option string)
}.

(** An error value of another package, through the tests the repository makes
    of it: which [errors.Is] targets and which [errors.As] types this value
    itself satisfies. *)
Record Foreign := mkForeign {
  f_text : string;
  f_canceled : bool;                       (* context.Canceled *)
  f_deadlineExceeded : bool;               (* context.DeadlineExceeded *)
  f_gophercloudTimeout : bool;             (* gophercloud.ErrTimeOut *)
  f_response : option (Z * ResponseBody);  (* gophercloud.ErrUnexpectedResponseCode *)
  f_invalidInput : bool;                   (* ErrInvalidInput, ErrMissingInput, ErrServiceNotFound, ErrEndpointNotFound *)
  f_eof : bool;                            (* io.EOF, io.ErrUnexpectedEOF *)
  f_certificate : bool;                    (* x509 authority, host name and validity errors *)
  f_netTimeout : option bool;              (* net.Error, with Timeout() *)
  f_dnsNotFound : option bool;             (* *net.DNSError, with IsNotFound *)
  f_operation : bool;                      (* *net.OpError *)
  f_url : bool                             (* *url.Error *)
}.

(** Go error values.  [Errorf] is [fmt.Errorf]: its format, its rendered
    arguments and the error it wraps with [%w], if any.  [Sentinel] is a package
    variable made with [errors.New], compared by identity; the repository's have
    different texts.  [CustomError] is a pointer to an error struct of the
    repository, by its type's name. *)
Inductive error : Type :=
| Sentinel (text : string)
| CustomError (type : string) (fields : list string) (unwrap : option error)
| Errorf (format : string) (args : list string) (wrapped : option error)
| ProviderError (category : ErrorCategory) (err : option error)
| JoinError (first : error) (second : option error)
| ReconcileError (message : string) (cause : error)
| ErrErrorAfterReauthentication (original : option error)
| ErrUnableToReauthenticate (reauth : option error)
| ForeignError (value : Foreign) (unwrap : option error).

Abbreviation outcome_of := (result error).

(** [errors.As]: the first value of the unwrap tree, in preorder, that [f]
    accepts.  The two reauthentication errors of Gophercloud do not unwrap. *)
Fixpoint errorsAs {A} (f : error -> option A) (e : error) : option A :=
  match f e with
  | Some a => Some a
  | None =>
      match e with
      | Errorf _ _ (Some c) => errorsAs f c
      | ProviderError _ (Some c) => errorsAs f c
      | ReconcileError _ c => errorsAs f c
      | ForeignError _ (Some c) => errorsAs f c
      | CustomError _ _ (Some c) => errorsAs f c
      | JoinError a b =>
          match errorsAs f a with
          | Some x => Some x
          | None => match b with Some c => errorsAs f c | None => None end
          end
      | _ => None
      end
  end.

Definition onForeign {A} (f : Foreign -> option A) (e : error) : option A :=
  match e with ForeignError v _ => f v | _ => None end.

(** A test of [errors.Is] against a sentinel, or of [errors.As] whose target is
    not read afterwards. *)
Definition foreignIs (f : Foreign -> bool) (e : error) : bool :=
  match errorsAs (onForeign (fun v => if f v then Some tt else None)) e with
  | Some _ => true
  | None => false
  end.

(** The sentinel [ErrOwnershipConflict] and its siblings: a classified error
    without a cause. *)
Definition sentinel (c : ErrorCategory) : error := ProviderError c None.
Definition ErrOwnershipConflict : error := sentinel ErrorCategoryOwnershipConflict.

(** [NewProviderError]; the argument is a possibly nil error. *)
Definition NewProviderError (c : ErrorCategory) (e : option error) : error := ProviderError c e.

(** [ErrorCategoryOf]. *)
Definition ErrorCategoryOf (e : error) : option ErrorCategory :=
  errorsAs (fun x => match x with ProviderError c _ => Some c | _ => None end) e.

(** [ProviderError.Is]: provider errors compare by category. *)
Definition ProviderErrorIs (e target : error) : bool :=
  match e, target with
  | ProviderError c _, ProviderError c' _ => bool_decide (c = c')
  | _, _ => false
  end.

(** [errors.Is] against a provider error target. *)
Definition errorsIsProvider (e target : error) : bool :=
  match errorsAs (fun x => if ProviderErrorIs x target then Some tt else None) e with
  | Some _ => true
  | None => false
  end.

Definition errorCategoryMessage (c : ErrorCategory) : string :=
  match c with
  | ErrorCategoryAuthentication => "OpenStack authentication failed"
  | ErrorCategoryAuthorization => "OpenStack authorization failed"
  | ErrorCategoryQuota => "OpenStack quota exceeded"
  | ErrorCategoryRateLimit => "OpenStack rate limit exceeded"
  | ErrorCategoryTimeout => "OpenStack request timed out"
  | ErrorCategoryRetryableService => "retryable OpenStack service failure"
  | ErrorCategoryTerminalValidation => "OpenStack request validation failed"
  | ErrorCategoryResourceFailure => "OpenStack resource entered an error state"
  | ErrorCategoryOwnershipConflict => "OpenStack resource ownership conflict"
  | CategoryOther _ => "unclassified OpenStack provider failure"
  end.

(** ** Identity validation *)

Definition requireFields (fields : list (string * string)) : outcome_of unit :=
  forM_ (fun field =>
    if String.eqb (snd field) ""
    then Err (Errorf "%s must not be empty" [fst field] None)
    else Ok tt) fields.

Definition ValidateGatewayIdentity (id : Identity) : outcome_of unit :=
  requireFields
    [("cluster ID", ClusterID id); ("controller", Controller id);
     ("Gateway namespace", GatewayNamespace id); ("Gateway name", GatewayName id);
     ("Gateway UID", GatewayUID id)].

Definition ValidateRouteIdentity (id : Identity) : outcome_of unit :=
  let? _ := ValidateGatewayIdentity id in
  requireFields
    [("HTTPRoute namespace", RouteNamespace id); ("HTTPRoute name", RouteName id);
     ("HTTPRoute UID", RouteUID id)].

(** ** Outcomes (outcome.go) *)

(** A Go string type with two constants. *)
Inductive OutcomeState :=
| OutcomeReady
| OutcomeProgressing
| OutcomeOther (value : string).

#[export] Instance OutcomeState_eq_dec : EqDecision OutcomeState.
Proof. solve_decision. Defined.

(** [RequeueAfter] is a [time.Duration] in nanoseconds. *)
Record Outcome := mkOutcome {
  o_State : OutcomeState;
  o_Message : string;
  o_RequeueAfter : Z
}.

Definition zeroOutcome : Outcome := mkOutcome (OutcomeOther "") "" 0.

(** [Outcome.Validate]. *)
Definition Validate (o : Outcome) : outcome_of unit :=
  match o_State o with
  | OutcomeReady =>
      if (o_RequeueAfter o =? 0)%Z then Ok tt
      else Err (Errorf "ready provider outcome has a requeue interval" [] None)
  | OutcomeProgressing => Ok tt
  | OutcomeOther s => Err (Errorf "provider returned unknown outcome state %q" [s] None)
  end.

Definition ReadyOutcome : Outcome := mkOutcome OutcomeReady "" 0.
Definition ProgressingOutcome (message : string) (requeueAfter : Z) : Outcome :=
  mkOutcome OutcomeProgressing message requeueAfter.

Record GatewayResult := mkGatewayResult { g_State : GatewayState; g_Outcome : Outcome }.
Definition GatewayReadyResult (state : GatewayState) : GatewayResult :=
  mkGatewayResult state ReadyOutcome.
Definition GatewayProgressingResult (message : string) (requeueAfter : Z) : GatewayResult :=
  mkGatewayResult zeroGatewayState (ProgressingOutcome message requeueAfter).

Record RouteResult := mkRouteResult { r_State : RouteState; r_Outcome : Outcome }.
Definition RouteReadyResult (state : RouteState) : RouteResult :=
  mkRouteResult state ReadyOutcome.
Definition RouteProgressingResult (message : string) (requeueAfter : Z) : RouteResult :=
  mkRouteResult zeroRouteState (ProgressingOutcome message requeueAfter).

Definition isProgressing (o : Outcome) : bool := bool_decide (o_State o = OutcomeProgressing).
Arguments isProgressing : simpl never.

(** ** Lemmas *)

Lemma ErrorCategoryOf_provider c e : ErrorCategoryOf (ProviderError c e) = Some c.
Proof. done. Qed.

(** Wrapping with [%w] keeps the classification, which is what callers up the
    stack rely on. *)
Lemma ErrorCategoryOf_wrap f args e :
  ErrorCategoryOf (Errorf f args (Some e)) = ErrorCategoryOf e.
Proof. done. Qed.

Lemma requireFields_ok fields :
  requireFields fields = Ok tt <-> Forall (fun f => snd f <> "") fields.
Proof.
  unfold requireFields. rewrite forM_ok. apply Forall_proper; [|done]. intros f.
  destruct (String.eqb_spec (snd f) ""); naive_solver.
Qed.

Lemma ValidateGatewayIdentity_ok id :
  ValidateGatewayIdentity id = Ok tt <->
  ClusterID id <> "" /\ Controller id <> "" /\ GatewayNamespace id <> "" /\
  GatewayName id <> "" /\ GatewayUID id <> "".
Proof.
  unfold ValidateGatewayIdentity. rewrite requireFields_ok, !Forall_cons. simpl.
  intuition constructor.
Qed.

Lemma ValidateRouteIdentity_ok id :
  ValidateRouteIdentity id = Ok tt <->
  ValidateGatewayIdentity id = Ok tt /\
  RouteNamespace id <> "" /\ RouteName id <> "" /\ RouteUID id <> "".
Proof.
  unfold ValidateRouteIdentity. destruct (ValidateGatewayIdentity id) as [[]|]; simpl.
  - rewrite requireFields_ok, !Forall_cons. simpl. intuition constructor.
  - naive_solver.
Qed.
