(* ===== verification/Kube.v ===== *)
(** * The Kubernetes side of the boundary

    The fields of Kubernetes and Gateway API objects the repository reads or
    writes, and the functions of controller-runtime and apimachinery it calls on
    them.  Those libraries are not part of the repository: their functions are
    fields of a class, and a companion class states the documented behaviour the
    theorems rely on.  The instances at the end show that the laws can hold. *)
From stdpp Require Import base list strings gmap.
From Stdlib Require Import ZArith Lia.
From S2P Require Import Prelude GoStrings.

Set Default Goal Selector "!".

(** ** Object metadata *)

(** [metav1.ObjectMeta].  A nil map reads as empty but cannot be written, so it
    is kept apart from the empty map. *)
Record ObjectMeta := mkObjectMeta {
  om_Namespace : string;
  om_Name : string;
  om_UID : string;
  om_Generation : Z;
  om_ResourceVersion : string;
  om_DeletionTimestamp : option Z;       (* an instant, None when nil *)
  om_Annotations : option (gmap string string);
  om_Finalizers : list string;
  om_CreationTimestamp : Z               (* an instant *)
}.

#[export] Instance ObjectMeta_eq_dec : EqDecision ObjectMeta.
Proof. solve_decision. Defined.

(** [!object.DeletionTimestamp.IsZero()]. *)
Definition om_Deleting (o : ObjectMeta) : bool :=
  match om_DeletionTimestamp o with Some _ => true | None => false end.
Arguments om_Deleting : simpl never.

(** [types.NamespacedName] and [client.ObjectKeyFromObject]. *)
Record NamespacedName := mkNamespacedName { nn_Namespace : string; nn_Name : string }.

#[export] Instance NamespacedName_eq_dec : EqDecision NamespacedName.
Proof. solve_decision. Defined.

Definition ObjectKey (o : ObjectMeta) : NamespacedName := mkNamespacedName (om_Namespace o) (om_Name o).

(** [object.Annotations[key]]: the zero value when the key is absent. *)
Definition annotation (o : ObjectMeta) (key : string) : string :=
  default "" (default ∅ (om_Annotations o) !! key).

Definition withAnnotations (o : ObjectMeta) (a : option (gmap string string)) : ObjectMeta :=
  mkObjectMeta (om_Namespace o) (om_Name o) (om_UID o) (om_Generation o) (om_ResourceVersion o)
    (om_DeletionTimestamp o) a (om_Finalizers o) (om_CreationTimestamp o).
Definition withFinalizers (o : ObjectMeta) (l : list string) : ObjectMeta :=
  mkObjectMeta (om_Namespace o) (om_Name o) (om_UID o) (om_Generation o) (om_ResourceVersion o)
    (om_DeletionTimestamp o) (om_Annotations o) l (om_CreationTimestamp o).

(** [if o.Annotations == nil { o.Annotations = map[string]string{} }], an
    assignment to a map that is not nil, and [delete], which accepts nil. *)
Definition makeAnnotations (o : ObjectMeta) : ObjectMeta :=
  withAnnotations o (Some (default ∅ (om_Annotations o))).
Definition setAnnotation (o : ObjectMeta) (key value : string) : ObjectMeta :=
  withAnnotations o (<[key := value]> <$> om_Annotations o).
Definition deleteAnnotation (o : ObjectMeta) (key : string) : ObjectMeta :=
  withAnnotations o (delete key <$> om_Annotations o).

Lemma annotation_set o key key' value :
  is_Some (om_Annotations o) ->
  annotation (setAnnotation o key value) key' = if String.eqb key key' then value else annotation o key'.
Proof.
  intros [m Hm]. unfold annotation, setAnnotation. simpl. rewrite Hm. simpl.
  destruct (String.eqb_spec key key') as [->|Hne]; [by rewrite lookup_insert_eq|by rewrite lookup_insert_ne].
Qed.

Lemma annotation_delete o key key' :
  annotation (deleteAnnotation o key) key' = if String.eqb key key' then "" else annotation o key'.
Proof.
  unfold annotation, deleteAnnotation. simpl. destruct (om_Annotations o) as [m|]; simpl.
  - destruct (String.eqb_spec key key') as [->|Hne]; [by rewrite lookup_delete_eq|by rewrite lookup_delete_ne].
  - rewrite lookup_empty. by destruct (String.eqb key key').
Qed.

Lemma annotation_make o key : annotation (makeAnnotations o) key = annotation o key.
Proof. unfold annotation, makeAnnotations. by destruct (om_Annotations o). Qed.

(** ** controllerutil *)

(** [controllerutil.ContainsFinalizer], [AddFinalizer] and [RemoveFinalizer] on
    the finalizers of an object. *)
Class ControllerUtil := {
  ContainsFinalizer : list string -> string -> bool;
  AddFinalizer : list string -> string -> list string;
  RemoveFinalizer : list string -> string -> list string
}.

(** Their documentation: "checks that the finalizer is present", "adds the
    finalizer if not present", "removes the finalizer if present". *)
Class ControllerUtilLaws `{ControllerUtil} : Prop := {
  contains_spec l f : ContainsFinalizer l f = true <-> f ∈ l;
  add_spec l f g : g ∈ AddFinalizer l f <-> g = f \/ g ∈ l;
  remove_spec l f g : g ∈ RemoveFinalizer l f <-> g ∈ l /\ g <> f
}.

(** ** Conditions *)

(** [metav1.ConditionStatus]. *)
Inductive ConditionStatus := ConditionTrue | ConditionFalse | ConditionUnknown | ConditionUnset.

#[export] Instance ConditionStatus_eq_dec : EqDecision ConditionStatus.
Proof. solve_decision. Defined.

(** [metav1.Condition].  The repository leaves the transition time, an instant,
    to apimachinery. *)
Record Condition := mkCondition {
  c_Type : string; c_Status : ConditionStatus; c_ObservedGeneration : Z; c_Reason : string;
  c_Message : string; c_LastTransitionTime : Z }.

Definition sinceTime (c : Condition) (t : Z) : Condition :=
  mkCondition (c_Type c) (c_Status c) (c_ObservedGeneration c) (c_Reason c) (c_Message c) t.

#[export] Instance Condition_eq_dec : EqDecision Condition.
Proof. solve_decision. Defined.

(** [meta.FindStatusCondition] and [meta.SetStatusCondition]. *)
Class ApiMeta := {
  FindStatusCondition : list Condition -> string -> option Condition;
  SetStatusCondition : list Condition -> Condition -> list Condition
}.

(** A condition that was set is the one found for its type, with a transition
    time, and the conditions of the other types stay. *)
Class ApiMetaLaws `{ApiMeta} : Prop := {
  find_set_same l c : exists t, FindStatusCondition (SetStatusCondition l c) (c_Type c) = Some (sinceTime c t);
  find_set_other l c t : t <> c_Type c ->
    FindStatusCondition (SetStatusCondition l c) t = FindStatusCondition l t
}.

(** ** The laws can hold *)

Module Reference.
Definition contains (l : list string) (f : string) : bool := bool_decide (f ∈ l).
Definition add (l : list string) (f : string) : list string := if contains l f then l else l ++ [f].
Definition remove (l : list string) (f : string) : list string :=
  List.filter (fun g => negb (String.eqb g f)) l.
#[export] Instance controllerUtil : ControllerUtil :=
  {| ContainsFinalizer := contains; AddFinalizer := add; RemoveFinalizer := remove |}.
#[export] Instance controllerUtilLaws : ControllerUtilLaws.
Proof.
  split; intros l f; cbn.
  - apply bool_decide_eq_true.
  - intros g. unfold add. unfold contains. case_bool_decide; set_solver.
  - intros g. unfold remove. rewrite !list_elem_of_In, List.filter_In, negb_true_iff, String.eqb_neq. done.
Qed.

Definition find (l : list Condition) (t : string) : option Condition :=
  List.find (fun c => String.eqb (c_Type c) t) l.
(** The time does not pass: a condition that changes its status gets time 1. *)
Fixpoint set (l : list Condition) (c : Condition) : list Condition :=
  match l with
  | [] => [sinceTime c (if (c_LastTransitionTime c =? 0)%Z then 1 else c_LastTransitionTime c)]
  | d :: l' =>
      if String.eqb (c_Type d) (c_Type c)
      then sinceTime c (if bool_decide (c_Status d = c_Status c) then c_LastTransitionTime d else 1) :: l'
      else d :: set l' c
  end.
#[export] Instance apiMeta : ApiMeta := {| FindStatusCondition := find; SetStatusCondition := set |}.
#[export] Instance apiMetaLaws : ApiMetaLaws.
Proof.
  split; intros l c; cbn.
  - unfold find. induction l as [|d l IH]; simpl; [eexists; by rewrite String.eqb_refl|].
    destruct (String.eqb (c_Type d) (c_Type c)) eqn:E; simpl; [eexists; by rewrite String.eqb_refl|by rewrite E].
  - intros t Ht%not_eq_sym. unfold find. induction l as [|d l IH]; simpl.
    + by rewrite (proj2 (String.eqb_neq _ _) Ht).
    + destruct (String.eqb_spec (c_Type d) (c_Type c)) as [E|E]; simpl.
      * by rewrite E, !(proj2 (String.eqb_neq _ _) Ht).
      * by rewrite IH.
Qed.
End Reference.
