(* ===== verification/KubeObjects.v ===== *)
(** * Kubernetes objects and requests

    The objects of the Kubernetes and Gateway APIs that the reconcilers read or
    write, with the fields the repository looks at, and the requests it makes
    through the clients of controller-runtime.  A field of which only the
    presence matters is a [bool] ([!= nil]), one of which only the length matters
    a [nat].  Nothing is assumed of the API server here: a request is answered by
    any object of the right type or by any error. *)
From stdpp Require Import base list strings gmap.
From Stdlib Require Import ZArith Lia.
From S2P Require Import Prelude GoStrings Kube.

Set Default Goal Selector "!".

(** ** Gateway API *)

(** [gatewayv1.RouteGroupKind]. *)
Record RouteGroupKind := mkRouteGroupKind { rgk_Group : option string; rgk_Kind : string }.

(** [gatewayv1.AllowedRoutes]: [Namespaces.From], [None] when [Namespaces] or
    [From] is nil. *)
Record AllowedRoutes := mkAllowedRoutes { ar_From : option string; ar_Kinds : list RouteGroupKind }.

(** [gatewayv1.Listener]. *)
Record GatewayListener := mkGatewayListener {
  gl_Name : string; gl_Port : Z; gl_Protocol : string; gl_TLS : bool; gl_Hostname : option string;
  gl_AllowedRoutes : option AllowedRoutes }.

(** [gatewayv1.ListenerStatus]. *)
Record ListenerStatus := mkListenerStatus {
  lst_Name : string; lst_SupportedKinds : list RouteGroupKind; lst_AttachedRoutes : Z;
  lst_Conditions : list Condition }.

(** [gatewayv1.GatewayStatus]; an address is its type and value. *)
Record GatewayStatus := mkGatewayStatus {
  gst_Addresses : list (string * string); gst_Conditions : list Condition;
  gst_Listeners : list ListenerStatus }.

(** [gatewayv1.Gateway] with its spec inlined. *)
Record Gateway := mkGateway {
  gw_Meta : ObjectMeta;
  gw_GatewayClassName : string;
  gw_Addresses : nat;                    (* len(spec.addresses) *)
  gw_Infrastructure : bool;
  gw_AllowedListeners : bool;
  gw_TLS : bool;
  gw_Listeners : list GatewayListener;
  gw_Status : GatewayStatus }.

(** [gatewayv1.GatewayClass]. *)
Record GatewayClass := mkGatewayClass {
  gc_Meta : ObjectMeta; gc_ControllerName : string; gc_ParametersRef : bool;
  gc_Conditions : list Condition; gc_SupportedFeatures : list string }.

(** [gatewayv1.ParentReference]; a nil pointer is [None]. *)
Record ParentReference := mkParentReference {
  pr_Group : option string; pr_Kind : option string; pr_Namespace : option string; pr_Name : string;
  pr_SectionName : option string; pr_Port : option Z }.

(** [gatewayv1.HTTPPathMatch] and [HTTPRouteMatch]. *)
Record HTTPPathMatch := mkHTTPPathMatch { hpm_Type : option string; hpm_Value : option string }.
Record HTTPRouteMatch := mkHTTPRouteMatch {
  hm_Path : option HTTPPathMatch; hm_Headers : nat; hm_QueryParams : nat; hm_Method : bool }.

(** [gatewayv1.HTTPBackendRef]. *)
Record HTTPBackendRef := mkHTTPBackendRef {
  hb_Group : option string; hb_Kind : option string; hb_Name : string; hb_Namespace : option string;
  hb_Port : option Z; hb_Weight : option Z; hb_Filters : nat }.

(** [gatewayv1.HTTPRouteRule]. *)
Record HTTPRouteRule := mkHTTPRouteRule {
  hru_Name : option string; hru_Matches : list HTTPRouteMatch; hru_Filters : nat;
  hru_BackendRefs : list HTTPBackendRef; hru_Timeouts : bool; hru_Retry : bool;
  hru_SessionPersistence : bool }.

(** [gatewayv1.RouteParentStatus]. *)
Record RouteParentStatus := mkRouteParentStatus {
  rps_ParentRef : ParentReference; rps_ControllerName : string; rps_Conditions : list Condition }.

(** [gatewayv1.HTTPRoute].  The statuses are compared with [reflect.DeepEqual],
    which tells a nil slice from an empty one. *)
Record HTTPRoute := mkHTTPRoute {
  hr_Meta : ObjectMeta;
  hr_ParentRefs : list ParentReference;
  hr_Hostnames : list string;
  hr_Rules : list HTTPRouteRule;
  hr_StatusParents : option (list RouteParentStatus) }.

(** ** Core and discovery *)

(** [corev1.Service]. *)
Record ServicePort := mkServicePort {
  sp_Port : Z; sp_Protocol : string; sp_AppProtocol : option string; sp_NodePort : Z }.
Record Service := mkService {
  sv_Meta : ObjectMeta; sv_Type : string; sv_ExternalTrafficPolicy : string; sv_Ports : list ServicePort }.

(** [discoveryv1.EndpointSlice], with the value of its service name label and
    whether its deletion timestamp is set. *)
Record Endpoint := mkEndpoint {
  ep_Ready : option bool; ep_Terminating : option bool; ep_NodeName : option string }.
Record EndpointSlice := mkEndpointSlice {
  es_Namespace : string; es_ServiceName : string; es_Deleting : bool; es_Endpoints : list Endpoint }.

(** [corev1.Node]: conditions and addresses are type and value. *)
Record Node := mkNode {
  nd_Meta : ObjectMeta; nd_Unschedulable : bool; nd_Conditions : list (string * string);
  nd_Addresses : list (string * string) }.

#[export] Instance RouteGroupKind_eq_dec : EqDecision RouteGroupKind.
Proof. solve_decision. Defined.
#[export] Instance ListenerStatus_eq_dec : EqDecision ListenerStatus.
Proof. solve_decision. Defined.
#[export] Instance GatewayStatus_eq_dec : EqDecision GatewayStatus.
Proof. solve_decision. Defined.
#[export] Instance ParentReference_eq_dec : EqDecision ParentReference.
Proof. solve_decision. Defined.
#[export] Instance RouteParentStatus_eq_dec : EqDecision RouteParentStatus.
Proof. solve_decision. Defined.

(** Copies of an object with one field replaced. *)
Definition withMeta (g : Gateway) (m : ObjectMeta) : Gateway :=
  mkGateway m (gw_GatewayClassName g) (gw_Addresses g) (gw_Infrastructure g) (gw_AllowedListeners g)
    (gw_TLS g) (gw_Listeners g) (gw_Status g).
Definition withStatus (g : Gateway) (s : GatewayStatus) : Gateway :=
  mkGateway (gw_Meta g) (gw_GatewayClassName g) (gw_Addresses g) (gw_Infrastructure g)
    (gw_AllowedListeners g) (gw_TLS g) (gw_Listeners g) s.
Definition withRouteMeta (r : HTTPRoute) (m : ObjectMeta) : HTTPRoute :=
  mkHTTPRoute m (hr_ParentRefs r) (hr_Hostnames r) (hr_Rules r) (hr_StatusParents r).
Definition withParents (r : HTTPRoute) (l : option (list RouteParentStatus)) : HTTPRoute :=
  mkHTTPRoute (hr_Meta r) (hr_ParentRefs r) (hr_Hostnames r) (hr_Rules r) l.
Definition withClassMeta (c : GatewayClass) (m : ObjectMeta) : GatewayClass :=
  mkGatewayClass m (gc_ControllerName c) (gc_ParametersRef c) (gc_Conditions c) (gc_SupportedFeatures c).
Definition withClassStatus (c : GatewayClass) (conditions : list Condition) (features : list string)
    : GatewayClass :=
  mkGatewayClass (gc_Meta c) (gc_ControllerName c) (gc_ParametersRef c) conditions features.

(** ** Requests *)

(** [r.Client], which reads the shared cache, and [r.APIReader], which reads the
    API server. *)
Inductive reader := Cached | Live.

#[export] Instance reader_eq_dec : EqDecision reader.
Proof. solve_decision. Defined.

(** Besides the clients, the two operations of the graph coordinator as one
    reconciler sees them. *)
Inductive kubeRequest : Type :=
| KGetGateway (from : reader) (key : NamespacedName)
| KGetGatewayClass (from : reader) (name : string)
| KGetHTTPRoute (from : reader) (key : NamespacedName)
| KGetService (from : reader) (key : NamespacedName)
| KListEndpointSlices (from : reader) (namespace serviceName : string)
| KListEndpointSlicesByService (index : string)
| KListNodes (from : reader)
| KListHTTPRoutes (from : reader) (namespace : option string) (index : option (string * string))
| KListGateways (index : string * string)
| KListAllGateways (from : reader)
| KListGatewayClasses (index : string * string)
| KListCustomResourceDefinitions (from : reader)
| KPatchGateway (base target : Gateway)
| KPatchGatewayStatus (base target : Gateway)
| KPatchHTTPRoute (base target : HTTPRoute)
| KPatchHTTPRouteStatus (base target : HTTPRoute)
| KPatchGatewayClass (base target : GatewayClass)
| KPatchGatewayClassStatus (base target : GatewayClass)
| KAcquireGraph (gatewayUID : string)
| KReleaseGraph (gatewayUID : string).

(** A patch returns the object as the server stored it. *)
Definition kubeResponse (r : kubeRequest) : Type :=
  match r with
  | KGetGateway _ _ | KPatchGateway _ _ | KPatchGatewayStatus _ _ => Gateway
  | KGetGatewayClass _ _ | KPatchGatewayClass _ _ | KPatchGatewayClassStatus _ _ => GatewayClass
  | KGetHTTPRoute _ _ | KPatchHTTPRoute _ _ | KPatchHTTPRouteStatus _ _ => HTTPRoute
  | KGetService _ _ => Service
  | KListEndpointSlices _ _ _ | KListEndpointSlicesByService _ => list EndpointSlice
  | KListNodes _ => list Node
  | KListHTTPRoutes _ _ _ => list HTTPRoute
  | KListGateways _ | KListAllGateways _ => list Gateway
  | KListGatewayClasses _ => list GatewayClass
  | KListCustomResourceDefinitions _ => list ObjectMeta
  | KAcquireGraph _ | KReleaseGraph _ => unit
  end.

(** Requests that change an object of the API server. *)
Definition isKubeWrite (r : kubeRequest) : bool :=
  match r with
  | KPatchGateway _ _ | KPatchGatewayStatus _ _ | KPatchHTTPRoute _ _ | KPatchHTTPRouteStatus _ _
  | KPatchGatewayClass _ _ | KPatchGatewayClassStatus _ _ => true
  | _ => false
  end.
