(* ===== verification/ApiErrors.v ===== *)
(** * Error classification at the adapter boundary

    Models [internal/cloud/openstack/apierrors/classify.go]: how an error of
    Gophercloud, of the network or of the operating system becomes one of the
    provider-neutral categories of Cloud.v.  The Go functions recurse into the
    error a reauthentication failure carries; the recursion is bounded here by
    the size of the error value, which is proved to be enough. *)
From S2P Require Import Prelude GoStrings Cloud.
From stdpp Require Import base list strings.
From Stdlib Require Import ZArith Lia.

Set Default Goal Selector "!".

(** The number of values in an error tree. *)
Fixpoint error_size (e : error) : nat :=
  let opt o := match o with Some c => error_size c | None => 0 end in
  S match e with
    | Sentinel _ => 0
    | CustomError _ _ w => opt w
    | Errorf _ _ w => opt w
    | ProviderError _ w => opt w
    | JoinError a b => error_size a + opt b
    | ReconcileError _ c => error_size c
    | ErrErrorAfterReauthentication o => opt o
    | ErrUnableToReauthenticate o => opt o
    | ForeignError _ w => opt w
    end.

Definition opt_size (o : option error) : nat :=
  match o with Some c => error_size c | None => 0 end.

(** ** Tests on an error value *)

(** [errorAfterReauthentication]: the original error, which may be nil. *)
Definition errorAfterReauthentication (e : error) : option (option error) :=
  errorsAs (fun x => match x with ErrErrorAfterReauthentication o => Some o | _ => None end) e.

(** [reauthenticationFailure]: why reauthentication failed, which may be nil. *)
Definition reauthenticationFailure (e : error) : option (option error) :=
  errorsAs (fun x => match x with ErrUnableToReauthenticate o => Some o | _ => None end) e.

Definition isGophercloudTimeout (e : error) : bool := foreignIs f_gophercloudTimeout e.
Definition isInvalidGophercloudInput (e : error) : bool := foreignIs f_invalidInput e.

(** [openStackResponse]. *)
Fixpoint openStackResponse_fuel (fuel : nat) (e : error) : option (Z * ResponseBody) :=
  match fuel with
  | O => None
  | S n =>
      match errorsAs (onForeign f_response) e with
      | Some response => Some response
      | None =>
          match errorAfterReauthentication e with
          | Some (Some original) => openStackResponse_fuel n original
          | _ => None
          end
      end
  end.
Definition openStackResponse (e : error) : option (Z * ResponseBody) :=
  openStackResponse_fuel (error_size e) e.

Definition isNeutronQuotaResponse (body : ResponseBody) : bool :=
  if body_empty body then false
  else match body_fault body with
       | Some (Some type) => EqualFold (TrimSpace type) "OverQuota"
       | _ => false
       end.

Definition openStackInvalidTokenStatus : Z := 498.

Definition categoryForResponse (status : Z) (body : ResponseBody) : option ErrorCategory :=
  if ((status =? 403) || (status =? 409))%Z && isNeutronQuotaResponse body
  then Some ErrorCategoryQuota
  else if (status =? 401)%Z then Some ErrorCategoryAuthentication
  else if (status =? 403)%Z then Some ErrorCategoryAuthorization
  else if (status =? 404)%Z then None
  else if ((status =? 408) || (status =? 504))%Z then Some ErrorCategoryTimeout
  else if ((status =? 409) || (status =? 412))%Z then None
  else if (status =? 413)%Z then Some ErrorCategoryQuota
  else if ((status =? 429) || (status =? openStackInvalidTokenStatus))%Z
  then Some ErrorCategoryRateLimit
  else if ((status =? 400) || (status =? 405) || (status =? 406) || (status =? 415)
           || (status =? 422) || (status =? 501) || (status =? 505))%Z
  then Some ErrorCategoryTerminalValidation
  else if ((status =? 500) || (status =? 502) || (status =? 503))%Z
  then Some ErrorCategoryRetryableService
  else None.

Definition transportErrorCategory (e : error) : option ErrorCategory :=
  if foreignIs f_eof e then Some ErrorCategoryRetryableService
  else if foreignIs f_certificate e then Some ErrorCategoryTerminalValidation
  else
    let network :=
      match errorsAs (onForeign f_netTimeout) e with
      | Some true => Some ErrorCategoryTimeout
      | Some false =>
          match errorsAs (onForeign f_dnsNotFound) e with
          | Some true => Some ErrorCategoryTerminalValidation
          | Some false => Some ErrorCategoryRetryableService
          | None => if foreignIs f_operation e then Some ErrorCategoryRetryableService else None
          end
      | None => None
      end in
    match network with
    | Some c => Some c
    | None => if foreignIs f_url e then Some ErrorCategoryTerminalValidation else None
    end.

(** ** [Classify] *)

(** One level of [Classify], with the recursive call as an argument. *)
Definition classify_step (rec : error -> error) (e : error) : error :=
  match ErrorCategoryOf e with
  | Some _ => e
  | None =>
      if foreignIs f_canceled e then e
      else if foreignIs f_deadlineExceeded e || isGophercloudTimeout e
      then NewProviderError ErrorCategoryTimeout (Some e)
      else
        match errorAfterReauthentication e with
        | Some original =>
            (* classifyWrappedOpenStackError *)
            match original with
            | Some cause =>
                match ErrorCategoryOf (rec cause) with
                | Some c => NewProviderError c (Some (JoinError e (Some cause)))
                | None => e
                end
            | None => e
            end
        | None =>
            match reauthenticationFailure e with
            | Some reauth =>
                let category :=
                  match reauth with Some r => ErrorCategoryOf (rec r) | None => None end in
                let kept :=
                  match category with
                  | Some ErrorCategoryTimeout => ErrorCategoryTimeout
                  | Some ErrorCategoryRateLimit => ErrorCategoryRateLimit
                  | Some ErrorCategoryRetryableService => ErrorCategoryRetryableService
                  | _ => ErrorCategoryAuthentication
                  end in
                NewProviderError kept (Some (JoinError e reauth))
            | None =>
                match openStackResponse e with
                | Some (status, body) =>
                    match categoryForResponse status body with
                    | Some c => NewProviderError c (Some e)
                    | None => e
                    end
                | None =>
                    if isInvalidGophercloudInput e
                    then NewProviderError ErrorCategoryTerminalValidation (Some e)
                    else match transportErrorCategory e with
                         | Some c => NewProviderError c (Some e)
                         | None => e
                         end
                end
            end
        end
  end.

Fixpoint classify_fuel (fuel : nat) (e : error) : error :=
  match fuel with
  | O => e
  | S n => classify_step (classify_fuel n) e
  end.
Definition Classify (e : error) : error := classify_fuel (error_size e) e.

(** [classifyWrappedOpenStackError]. *)
Definition classifyWrappedOpenStackError (wrapper cause : error) : error :=
  match ErrorCategoryOf (Classify cause) with
  | Some c => NewProviderError c (Some (JoinError wrapper (Some cause)))
  | None => wrapper
  end.

(** [ClassifyOctaviaMutation]. *)
Definition ClassifyOctaviaMutation (e : error) : error :=
  match openStackResponse e with
  | Some (status, _) =>
      if (status =? 409)%Z then NewProviderError ErrorCategoryRetryableService (Some e) else e
  | None => e
  end.

(** ** The recursion is well founded *)

(** Induction over error values and the optional errors they carry. *)
Lemma error_size_ind (P : error -> Prop) :
  (forall e, (forall e', error_size e' < error_size e -> P e') -> P e) -> forall e, P e.
Proof. intros H e. induction e using (induction_ltof1 _ error_size). by apply H. Qed.

(** What [errors.As] finds is a value of the tree, hence not larger. *)
Lemma errorsAs_sub {A} (f : error -> option A) e a :
  errorsAs f e = Some a -> exists x, f x = Some a /\ error_size x <= error_size e.
Proof.
  induction e as [e IH] using error_size_ind. intros H.
  assert (forall c, error_size c < error_size e -> errorsAs f c = Some a ->
    exists x, f x = Some a /\ error_size x <= error_size e) as Hsub.
  { intros c Hc Hf. destruct (IH c Hc Hf) as (x & ? & ?). exists x. split; [done|lia]. }
  destruct e as [?|? ? []|? ? []|? []|e1 [e2|]|? c|o|o|v []]; cbn [errorsAs] in H;
    match type of H with context [match f ?e with _ => _ end] => destruct (f e) eqn:Ef end;
    simplify_eq; eauto; try (eapply Hsub, H; simpl; lia).
  - destruct (errorsAs f e1) eqn:E1; simplify_eq; [eapply Hsub, E1|eapply Hsub, H]; simpl; lia.
  - destruct (errorsAs f e1) eqn:E1; simplify_eq. eapply Hsub, E1; simpl; lia.
Qed.

Lemma errorAfterReauthentication_size e o :
  errorAfterReauthentication e = Some o -> opt_size o < error_size e.
Proof.
  intros (x & Hx & Hs)%errorsAs_sub. destruct x; simplify_eq. simpl in *. unfold opt_size. lia.
Qed.

Lemma reauthenticationFailure_size e o :
  reauthenticationFailure e = Some o -> opt_size o < error_size e.
Proof.
  intros (x & Hx & Hs)%errorsAs_sub. destruct x; simplify_eq. simpl in *. unfold opt_size. lia.
Qed.

(** A level of [Classify] only calls itself on smaller errors. *)
Lemma classify_step_ext f g e :
  (forall e', error_size e' < error_size e -> f e' = g e') ->
  classify_step f e = classify_step g e.
Proof.
  intros H. unfold classify_step.
  destruct (ErrorCategoryOf e); [done|]. destruct (foreignIs f_canceled e); [done|].
  destruct (_ || _); [done|].
  destruct (errorAfterReauthentication e) as [[c|]|] eqn:Ea; [|done|].
  { apply errorAfterReauthentication_size in Ea. by rewrite H. }
  destruct (reauthenticationFailure e) as [[c|]|] eqn:Er; [|done..].
  apply reauthenticationFailure_size in Er. by rewrite H.
Qed.

Lemma classify_fuel_enough n e :
  error_size e <= n -> classify_fuel n e = Classify e.
Proof.
  unfold Classify. revert n. induction e as [e IH] using error_size_ind. intros n Hn.
  destruct n as [|n]; [destruct e; simpl in Hn; lia|].
  destruct (error_size e) as [|m] eqn:Es; [destruct e; simpl in Es; lia|].
  cbn [classify_fuel]. apply classify_step_ext. intros e' He'.
  rewrite (IH e'), <- (IH e' ltac:(lia) m); [done|lia..].
Qed.

(** [Classify] satisfies the recursive equation of the source. *)
Lemma Classify_unfold e : Classify e = classify_step Classify e.
Proof.
  unfold Classify at 1. destruct (error_size e) as [|m] eqn:Es; [destruct e; simpl in Es; lia|].
  cbn [classify_fuel]. apply classify_step_ext. intros e' He'.
  apply classify_fuel_enough. lia.
Qed.

(** The error is returned as it is, or below one [ProviderError]. *)
Lemma Classify_cases e :
  Classify e = e \/
  (exists c, Classify e = ProviderError c (Some e)) \/
  (exists c o, Classify e = ProviderError c (Some (JoinError e o))).
Proof.
  rewrite Classify_unfold. unfold classify_step, NewProviderError.
  repeat case_match; eauto 6.
Qed.

(** ** Properties *)

(** Classification is idempotent: a provider method may classify an error
    that a helper has classified already. *)
Theorem Classify_idempotent e : Classify (Classify e) = Classify e.
Proof.
  destruct (Classify_cases e) as [H|[[c H]|(c & o & H)]]; rewrite H; [done|..];
    by rewrite Classify_unfold.
Qed.

(** Classification never hides the original error: whatever errors.As finds
    in an error, other than the wrappers classification adds, it still finds
    after it. *)
Theorem Classify_transparent {A} (f : error -> option A) e a :
  (forall c o, f (ProviderError c o) = None) ->
  (forall x y, f (JoinError x y) = None) ->
  errorsAs f e = Some a -> errorsAs f (Classify e) = Some a.
Proof.
  intros Hp Hj H. destruct (Classify_cases e) as [E|[[c E]|(c & o & E)]]; rewrite E; [done|..];
    cbn [errorsAs]; rewrite Hp; [done|]. by rewrite Hj, H.
Qed.

(** An error that carries a category keeps that very category. *)
Lemma Classify_classified e c : ErrorCategoryOf e = Some c -> Classify e = e.
Proof. intros H. rewrite Classify_unfold. unfold classify_step. by rewrite H. Qed.

(** A failed reauthentication is reported as an authentication failure,
    unless the reauthentication itself failed for a transient reason, which
    keeps its category. *)
Theorem Classify_reauthentication e reauth :
  ErrorCategoryOf e = None ->
  foreignIs f_canceled e = false -> foreignIs f_deadlineExceeded e = false ->
  isGophercloudTimeout e = false -> errorAfterReauthentication e = None ->
  reauthenticationFailure e = Some reauth ->
  exists c, ErrorCategoryOf (Classify e) = Some c /\
    (c = ErrorCategoryAuthentication \/
     (c = ErrorCategoryTimeout \/ c = ErrorCategoryRateLimit \/ c = ErrorCategoryRetryableService)
     /\ exists r, reauth = Some r /\ ErrorCategoryOf (Classify r) = Some c).
Proof.
  intros Hc Hx Hd Ht Ha Hr. rewrite Classify_unfold. unfold classify_step.
  rewrite Hc, Hx, Hd, Ht, Ha, Hr. simpl. eexists. split; [done|].
  destruct reauth as [r|]; [|by left].
  destruct (ErrorCategoryOf (Classify r)) as [[]|] eqn:E; auto; right; split; eauto.
Qed.
