(* ===== verification/References.v ===== *)
(** * Parent references and reconcile requests

    Models [internal/controller/parentref.go] and [requests.go]. *)
From stdpp Require Import base list strings gmap.
From Stdlib Require Import ZArith Lia Sorted.
From S2P Require Import Prelude GoStrings Kube KubeObjects.

Set Default Goal Selector "!".

(** ** Parent references (parentref.go) *)

Definition GroupName : string := "gateway.networking.k8s.io".

Definition IsGatewayParentRef (parent : ParentReference) : bool :=
  match pr_Group parent with None => true | Some g => String.eqb g GroupName end &&
  match pr_Kind parent with None => true | Some k => String.eqb k "Gateway" end.

Definition stringPointerEqual (left right : option string) : bool :=
  match left, right with
  | None, None => true
  | Some l, Some r => String.eqb l r
  | _, _ => false
  end.
Definition int32PointerEqual (left right : option Z) : bool :=
  match left, right with
  | None, None => true
  | Some l, Some r => (l =? r)%Z
  | _, _ => false
  end.

Definition ParentRefsEqual (left : ParentReference) (leftRouteNamespace : string)
    (right : ParentReference) (rightRouteNamespace : string) : bool :=
  let leftGroup := default GroupName (pr_Group left) in
  let rightGroup := default GroupName (pr_Group right) in
  let leftKind := default "Gateway" (pr_Kind left) in
  let rightKind := default "Gateway" (pr_Kind right) in
  let leftNamespace := default leftRouteNamespace (pr_Namespace left) in
  let rightNamespace := default rightRouteNamespace (pr_Namespace right) in
  String.eqb leftGroup rightGroup && String.eqb leftKind rightKind &&
  String.eqb leftNamespace rightNamespace && String.eqb (pr_Name left) (pr_Name right) &&
  stringPointerEqual (pr_SectionName left) (pr_SectionName right) &&
  int32PointerEqual (pr_Port left) (pr_Port right).

Definition withoutSection (p : ParentReference) : ParentReference :=
  mkParentReference (pr_Group p) (pr_Kind p) (pr_Namespace p) (pr_Name p) None None.

Definition SameGatewayTarget (left : ParentReference) (leftRouteNamespace : string)
    (right : ParentReference) (rightRouteNamespace : string) : bool :=
  ParentRefsEqual (withoutSection left) leftRouteNamespace (withoutSection right) rightRouteNamespace.

(** What a reference of a route in a namespace denotes. *)
Definition denotes (ns : string) (p : ParentReference)
    : string * string * string * string * option string * option Z :=
  (default GroupName (pr_Group p), default "Gateway" (pr_Kind p), default ns (pr_Namespace p),
   pr_Name p, pr_SectionName p, pr_Port p).

Lemma stringPointerEqual_spec l r : stringPointerEqual l r = true <-> l = r.
Proof. destruct l, r; simpl; rewrite ?String.eqb_eq; naive_solver. Qed.
Lemma int32PointerEqual_spec l r : int32PointerEqual l r = true <-> l = r.
Proof. destruct l, r; simpl; rewrite ?Z.eqb_eq; naive_solver. Qed.

Lemma ParentRefsEqual_spec l nl r nr : ParentRefsEqual l nl r nr = true <-> denotes nl l = denotes nr r.
Proof.
  unfold ParentRefsEqual, denotes. cbv zeta.
  rewrite !andb_true_iff, !String.eqb_eq, stringPointerEqual_spec, int32PointerEqual_spec.
  split; [by intros (((((-> & ->) & ->) & ->) & ->) & ->)|]. by intros [= -> -> -> -> -> ->].
Qed.

(** Equal parent references target the same Gateway, and references to
    Gateways target the same one exactly when their defaulted namespaces and
    their names agree. *)
Theorem SameGatewayTarget_by_name l nl r nr :
  (ParentRefsEqual l nl r nr = true -> SameGatewayTarget l nl r nr = true) /\
  (IsGatewayParentRef l = true -> IsGatewayParentRef r = true ->
   SameGatewayTarget l nl r nr = true <->
   default nl (pr_Namespace l) = default nr (pr_Namespace r) /\ pr_Name l = pr_Name r).
Proof.
  unfold SameGatewayTarget. rewrite !ParentRefsEqual_spec. unfold denotes. simpl. split.
  - intros [= -> -> -> -> _ _]. done.
  - unfold IsGatewayParentRef. rewrite !andb_true_iff. intros [Hg Hk] [Hg' Hk'].
    assert (forall (o : option string) d, match o with None => true | Some g => String.eqb g d end = true ->
      default d o = d) as Hd by (intros [x|] d; simpl; [apply String.eqb_eq|done]).
    rewrite (Hd _ _ Hg), (Hd _ _ Hg'), (Hd _ _ Hk), (Hd _ _ Hk').
    split; [by intros [= -> ->]|by intros [-> ->]].
Qed.

(** ** Requests (requests.go) *)

Definition requestLess (a b : NamespacedName) : bool :=
  if negb (String.eqb (nn_Namespace a) (nn_Namespace b))
  then String.ltb (nn_Namespace a) (nn_Namespace b)
  else String.ltb (nn_Name a) (nn_Name b).

(** [SortedRequests]: [keys] are the keys of the map in the order the range
    statement visits them, which Go leaves open; a [reconcile.Request] holds
    just the name. *)
Definition SortedRequests (keys : list NamespacedName) : list NamespacedName :=
  sort_slice requestLess keys.
