(* ===== verification/Metadata.v ===== *)
(** * Ownership metadata on OpenStack resources

    Models [internal/cloud/openstack/identity/metadata.go]: how the immutable
    identity of a Gateway or HTTPRoute is written into Octavia tags and Neutron
    descriptions, and how a resource read back is matched against it.  Every
    deletion and update of the controller is authorised by these matches. *)
From S2P Require Import Prelude GoStrings GoSha256 Cloud.
From stdpp Require Import base list strings gmap.
From Stdlib Require Import Ascii NArith ZArith Lia.

Set Default Goal Selector "!".

Definition identityPrefix : string := "gateway-api-openstack.".
Definition maxTagLength : nat := 255.

Definition RoleLoadBalancer : string := "loadbalancer".
Definition RoleListener : string := "listener".
Definition RoleFloatingIP : string := "floating-ip".
Definition RolePool : string := "pool".
Definition RoleMember : string := "member".
Definition RoleMonitor : string := "health-monitor".
Definition RolePolicyExact : string := "l7-policy-exact".
Definition RolePolicyPrefix : string := "l7-policy-prefix".
Definition RoleRulePath : string := "l7-rule-path".
Definition RoleRuleHost : string := "l7-rule-host".

(** [NewIdentity]: the wrapper struct has the identity as its only field. *)
Definition NewIdentity (id : Identity) : outcome_of Identity :=
  let? _ := ValidateGatewayIdentity id in Ok id.

Definition encode (value : string) : string := base64_bytes (bytes_of value).

(** The value written for a digest. *)
Definition digestValue (value : string) : string :=
  "sha256-" ^^ base64_bytes (Sum256 value).

Definition tagPrefix (key : string) : string := identityPrefix ^^ key ^^ "=".

Definition tag (key value : string) : string :=
  let encoded := encode value in
  tagPrefix key ^^
    (if maxTagLength <? String.length (tagPrefix key) + String.length encoded
     then digestValue value else encoded).

Definition parseIdentityTag (value : string) : option (string * string) :=
  if HasPrefix value identityPrefix then
    match Cut (TrimPrefix value identityPrefix) "=" with
    | Some (key, encodedValue) => if String.eqb key "" then None else Some (key, encodedValue)
    | None => None
    end
  else None.

Definition validateTagLengths (tags : list string) : outcome_of (list string) :=
  let? _ := forM_ (fun value =>
    if maxTagLength <? String.length value
    then Err (Errorf "encoded identity tag exceeds %d bytes" ["255"] None)
    else Ok tt) tags in
  Ok tags.

(** [ScopeTags]. *)
Definition ScopeTags (clusterID controller : string) : list string :=
  [identityPrefix ^^ "managed=true"; tag "cluster" clusterID; tag "controller" controller].

(** [Identity.tags]. *)
Definition identityTags (id : Identity) (role : string) (routeScoped includeVersion : bool)
    : outcome_of (list string) :=
  if blank role then Err (Errorf "resource role must not be empty" [] None)
  else
    let tags :=
      [identityPrefix ^^ "managed=true";
       tag "cluster" (ClusterID id);
       tag "controller" (Controller id);
       tag "namespace" (GatewayNamespace id);
       tag "name" (GatewayName id);
       tag "uid" (GatewayUID id);
       tag "role" role] in
    let tags := if String.eqb (OpenStackProjectID id) "" then tags
                else tags ++ [tag "project" (OpenStackProjectID id)] in
    let tags := if routeScoped
                then tags ++ [tag "route-namespace" (RouteNamespace id);
                              tag "route-name" (RouteName id);
                              tag "route-uid" (RouteUID id)]
                else tags in
    let tags := if includeVersion && negb (String.eqb (ControllerVersion id) "")
                then tags ++ [tag "controller-version" (ControllerVersion id)]
                else tags in
    validateTagLengths tags.

Definition GatewayTags (id : Identity) (role : string) : outcome_of (list string) :=
  identityTags id role false true.

Definition RouteTags (id : Identity) (role : string) : outcome_of (list string) :=
  let? _ := ValidateRouteIdentity id in identityTags id role true true.

Definition GatewayDiscoveryTags (id : Identity) (role : string) : outcome_of (list string) :=
  if blank role then Err (Errorf "resource role must not be empty" [] None)
  else validateTagLengths
    [identityPrefix ^^ "managed=true";
     tag "cluster" (ClusterID id);
     tag "controller" (Controller id);
     tag "namespace" (GatewayNamespace id);
     tag "name" (GatewayName id);
     tag "role" role].

Definition RouteDiscoveryTags (id : Identity) (role : string) : outcome_of (list string) :=
  let? _ := ValidateRouteIdentity id in
  let? tags := GatewayDiscoveryTags id role in
  validateTagLengths (tags ++ [tag "route-namespace" (RouteNamespace id);
                               tag "route-name" (RouteName id)]).

(** The map [actualByKey] that [containsAll] builds. *)
Definition addTag (m : gmap string (list string)) (value : string) : gmap string (list string) :=
  match parseIdentityTag value with
  | Some (key, encodedValue) => <[key := default [] (m !! key) ++ [encodedValue]]> m
  | None => m
  end.
Definition actualByKey (actual : list string) : gmap string (list string) :=
  foldl addTag ∅ actual.

Definition containsAll (actual expected : list string) : bool :=
  let byKey := actualByKey actual in
  forallb (fun value =>
    match parseIdentityTag value with
    | None => false
    | Some (key, encodedValue) =>
        match default [] (byKey !! key) with
        | [v] => String.eqb v encodedValue
        | _ => false
        end
    end) expected.

(** [HasAllTags], [Tag], [ParseTag] and [EncodeValue] export the above. *)
Definition HasAllTags : list string -> list string -> bool := containsAll.

Definition MatchesGateway (id : Identity) (tags : list string) (role : string) : bool :=
  match identityTags id role false false with
  | Ok expected => containsAll tags expected
  | Err _ => false
  end.

Definition MatchesGatewayDiscovery (id : Identity) (tags : list string) (role : string) : bool :=
  match GatewayDiscoveryTags id role with
  | Ok expected => containsAll tags expected
  | Err _ => false
  end.

Definition MatchesRoute (id : Identity) (tags : list string) (role : string) : bool :=
  match ValidateRouteIdentity id with
  | Err _ => false
  | Ok _ =>
      match identityTags id role true false with
      | Ok expected => containsAll tags expected
      | Err _ => false
      end
  end.

Definition MatchesRouteDiscovery (id : Identity) (tags : list string) (role : string) : bool :=
  match RouteDiscoveryTags id role with
  | Ok expected => containsAll tags expected
  | Err _ => false
  end.

(** ** Descriptions of Neutron resources *)

(** The length-prefixed input of the digest: [fmt.Fprintf(&input, "%d:", len(value))]
    followed by the value, for each part. *)
Fixpoint digestInput (parts : list string) : string :=
  match parts with
  | [] => ""
  | value :: rest =>
      decimal_N (N.of_nat (String.length value)) ^^ String ":" (value ^^ digestInput rest)
  end.

Definition descriptionParts (id : Identity) (role : string) (includeRoute includeProject : bool)
    : list string :=
  [ClusterID id; Controller id]
  ++ (if includeProject then [OpenStackProjectID id] else [])
  ++ [GatewayNamespace id; GatewayName id; GatewayUID id]
  ++ (if includeRoute then [RouteNamespace id; RouteName id; RouteUID id] else [])
  ++ [role].

(** [Identity.description]. *)
Definition description (id : Identity) (scope role : string) (includeRoute includeProject : bool)
    : string :=
  let digest := Sum256 (digestInput (descriptionParts id role includeRoute includeProject)) in
  let prefix := if String.eqb scope "" then "gateway-api-openstack"
                else "gateway-api-openstack" ^^ " " ^^ scope in
  prefix ^^ "; identity-sha256=" ^^ hex digest ^^ "; role=" ^^ encode role.

(** [Identity.Description]. *)
Definition Description (id : Identity) (role : string) : string :=
  let d := description id "" role true true in
  if String.eqb (ControllerVersion id) "" then d
  else
    let version := encode (ControllerVersion id) in
    let version :=
      if maxTagLength <? String.length d + String.length "; controller-version="
                         + String.length version
      then digestValue (ControllerVersion id) else version in
    d ^^ "; controller-version=" ^^ version.

(** The identity with its route fields cleared. *)
Definition gatewayIdentity (id : Identity) : Identity :=
  mkIdentity (OpenStackProjectID id) (ClusterID id) (Controller id) (ControllerVersion id)
    (GatewayNamespace id) (GatewayName id) (GatewayUID id) "" "" "".

Definition GatewayDescription (id : Identity) (role : string) : string :=
  Description (gatewayIdentity id) role.

Definition Phase0Description (id : Identity) (role : string) : string :=
  description id "phase-0" role false false.

Definition MatchesDescription (id : Identity) (desc role : string) : bool :=
  HasPrefix desc (description id "" role true true).

Definition MatchesGatewayDescription (id : Identity) (desc role : string) : bool :=
  MatchesDescription (gatewayIdentity id) desc role.

#[global] Arguments encode : simpl never.
#[global] Arguments digestValue : simpl never.
#[global] Arguments tagPrefix : simpl never.
#[global] Arguments tag : simpl never.
#[global] Arguments parseIdentityTag : simpl never.
#[global] Arguments description : simpl never.
#[global] Arguments blank : simpl never.
#[global] Arguments containsAll : simpl never.
