(* ===== verification/MetadataFacts.v ===== *)
(** * Properties of the ownership metadata

    What the tags and descriptions of Metadata.v guarantee: they fit Octavia's
    limit, a resource the controller creates is recognised again, and no
    resource is recognised for two different identities. *)
From stdpp Require Import base list strings gmap.
From Stdlib Require Import Ascii NArith ZArith Lia.
From S2P Require Import Prelude GoStrings GoSha256 Cloud Metadata.

Set Default Goal Selector "!".

(** ** The encoded value of a tag *)

Definition tagValue (key value : string) : string :=
  if maxTagLength <? String.length (tagPrefix key) + String.length (encode value)
  then digestValue value else encode value.

Lemma tag_eq key value : tag key value = tagPrefix key ^^ tagValue key value.
Proof. unfold tag, tagValue. by case_match. Qed.

#[local] Opaque tag.

(** Tag keys that can be read back: non-empty and without the separator. *)
Definition goodKey (key : string) : bool :=
  negb (String.eqb key "") && str_without "=" key.

Lemma parse_prefixed key value :
  goodKey key = true -> parseIdentityTag (tagPrefix key ^^ value) = Some (key, value).
Proof.
  unfold goodKey. intros [Hk Hw]%andb_true_iff. unfold parseIdentityTag, tagPrefix.
  rewrite !append_assoc, HasPrefix_append, TrimPrefix_append.
  change ("=" ^^ value) with (String "=" value). rewrite Cut_append by done.
  apply negb_true_iff in Hk. by rewrite Hk.
Qed.

Lemma parse_tag key value :
  goodKey key = true -> parseIdentityTag (tag key value) = Some (key, tagValue key value).
Proof. intros H. rewrite tag_eq. by apply parse_prefixed. Qed.

Lemma parse_managed : parseIdentityTag (identityPrefix ^^ "managed=true") = Some ("managed", "true").
Proof. reflexivity. Qed.

Lemma digestValue_length value : String.length (digestValue value) = 50.
Proof.
  unfold digestValue, Sum256.
  by rewrite length_append, base64_bytes_length, sha256_length.
Qed.

(** Every tag fits the limit when its key leaves room for a digest. *)
Lemma tag_length key value :
  String.length key <= 182 -> String.length (tag key value) <= maxTagLength.
Proof.
  intros Hk. rewrite tag_eq, length_append. unfold tagValue.
  destruct (Nat.ltb_spec maxTagLength
    (String.length (tagPrefix key) + String.length (encode value))) as [_|H]; [|done].
  rewrite digestValue_length. unfold tagPrefix. rewrite !length_append.
  unfold identityPrefix, maxTagLength. simpl. lia.
Qed.

Lemma validateTagLengths_ok tags :
  Forall (fun t => String.length t <= maxTagLength) tags -> validateTagLengths tags = Ok tags.
Proof.
  intros H. unfold validateTagLengths.
  enough (forM_ _ tags = Ok tt) as -> by done.
  apply forM_ok. eapply Forall_impl; [exact H|]. intros t Ht.
  by rewrite (proj2 (Nat.ltb_ge _ _)).
Qed.

Lemma validateTagLengths_inv tags tags' :
  validateTagLengths tags = Ok tags' -> tags' = tags.
Proof. unfold validateTagLengths. intros H. inv_result. done. Qed.

(** The tags of an identity, as a plain list. *)
Definition baseTags (id : Identity) (role : string) : list string :=
  [identityPrefix ^^ "managed=true"; tag "cluster" (ClusterID id);
   tag "controller" (Controller id); tag "namespace" (GatewayNamespace id);
   tag "name" (GatewayName id); tag "uid" (GatewayUID id); tag "role" role].
Definition projectTags (id : Identity) : list string :=
  if String.eqb (OpenStackProjectID id) "" then [] else [tag "project" (OpenStackProjectID id)].
Definition routeTags (id : Identity) : list string :=
  [tag "route-namespace" (RouteNamespace id); tag "route-name" (RouteName id);
   tag "route-uid" (RouteUID id)].
Definition versionTags (id : Identity) : list string :=
  if String.eqb (ControllerVersion id) "" then [] else [tag "controller-version" (ControllerVersion id)].
Definition allTags (id : Identity) (role : string) (routeScoped includeVersion : bool) : list string :=
  baseTags id role ++ projectTags id ++ (if routeScoped then routeTags id else [])
  ++ (if includeVersion then versionTags id else []).

Lemma allTags_short id role rs iv :
  Forall (fun t => String.length t <= maxTagLength) (allTags id role rs iv).
Proof.
  unfold allTags, baseTags, projectTags, routeTags, versionTags.
  repeat first
    [ apply Forall_app; split
    | apply Forall_cons; split
    | by apply Forall_nil
    | apply tag_length; apply Nat.leb_le; reflexivity
    | case_match ].
  apply Nat.leb_le; reflexivity.
Qed.

(** The length check of [tags] never fails: a value that would not fit is
    replaced by its digest first.  The only error is a blank role. *)
Lemma identityTags_eq id role rs iv :
  identityTags id role rs iv =
  if blank role then Err (Errorf "resource role must not be empty" [] None)
  else Ok (allTags id role rs iv).
Proof.
  unfold identityTags. destruct (blank role); [done|].
  rewrite <- (validateTagLengths_ok _ (allTags_short id role rs iv)).
  unfold allTags, baseTags, projectTags, routeTags, versionTags. f_equal.
  destruct (String.eqb (OpenStackProjectID id) ""), rs, iv,
    (String.eqb (ControllerVersion id) ""); simpl; done.
Qed.

Definition discoveryTags (id : Identity) (role : string) : list string :=
  [identityPrefix ^^ "managed=true"; tag "cluster" (ClusterID id);
   tag "controller" (Controller id); tag "namespace" (GatewayNamespace id);
   tag "name" (GatewayName id); tag "role" role].

Lemma discoveryTags_sub id role : discoveryTags id role ⊆ baseTags id role.
Proof. unfold discoveryTags, baseTags. set_solver. Qed.

Lemma GatewayDiscoveryTags_eq id role :
  GatewayDiscoveryTags id role =
  if blank role then Err (Errorf "resource role must not be empty" [] None)
  else Ok (discoveryTags id role).
Proof.
  unfold GatewayDiscoveryTags. destruct (blank role); [done|].
  apply validateTagLengths_ok. pose proof (allTags_short id role false false) as H.
  rewrite Forall_forall in *. intros t Ht. apply H. unfold allTags.
  apply elem_of_app. left. by apply discoveryTags_sub.
Qed.

(** ** [containsAll] *)

(** The values of one key among the identity tags of a resource. *)
Definition tagValues (tags : list string) (key : string) : list string :=
  omap (fun t => match parseIdentityTag t with
                 | Some (k, v) => if String.eqb k key then Some v else None
                 | None => None
                 end) tags.

Lemma actualByKey_lookup tags key :
  default [] (actualByKey tags !! key) = tagValues tags key.
Proof.
  unfold actualByKey.
  assert (forall m, default [] (foldl addTag m tags !! key)
                    = default [] (m !! key) ++ tagValues tags key) as H.
  { induction tags as [|t tags IH]; intros m; cbn [foldl tagValues omap list_omap].
    { by rewrite app_nil_r. }
    rewrite IH. unfold addTag. destruct (parseIdentityTag t) as [[k v]|]; [|done].
    destruct (String.eqb_spec k key) as [->|Hne].
    - rewrite lookup_insert_eq. simpl. by rewrite <- app_assoc.
    - rewrite lookup_insert_ne by done. done. }
  rewrite H, lookup_empty. done.
Qed.

(** Each expected tag is present, with its key exactly once. *)
Definition hasTag (tags : list string) (t : string) : Prop :=
  exists key value, parseIdentityTag t = Some (key, value) /\ tagValues tags key = [value].

Lemma containsAll_spec actual expected :
  containsAll actual expected = true <-> Forall (hasTag actual) expected.
Proof.
  unfold containsAll. rewrite forallb_forall, Forall_forall.
  setoid_rewrite <- list_elem_of_In. apply forall_proper. intros t.
  apply imp_iff_compat_l. unfold hasTag.
  destruct (parseIdentityTag t) as [[k v]|];
    [|by split; [|intros (? & ? & ? & ?)]].
  rewrite actualByKey_lookup. destruct (tagValues actual k) as [|x [|y l]] eqn:E;
    [by split; [|intros (? & ? & ? & ?); simplify_eq; congruence]| |
     by split; [|intros (? & ? & ? & ?); simplify_eq; congruence]].
  rewrite String.eqb_eq. split.
  - intros ->. eauto.
  - intros (? & ? & ? & ?); simplify_eq. congruence.
Qed.

Lemma containsAll_mono actual expected expected' :
  expected' ⊆ expected -> containsAll actual expected = true -> containsAll actual expected' = true.
Proof. rewrite !containsAll_spec, !Forall_forall. auto. Qed.

Lemma hasTag_tag tags key value :
  goodKey key = true -> hasTag tags (tag key value) <-> tagValues tags key = [tagValue key value].
Proof.
  intros Hk. unfold hasTag. rewrite parse_tag by done. naive_solver.
Qed.

Lemma hasTag_managed tags :
  hasTag tags (identityPrefix ^^ "managed=true") <-> tagValues tags "managed" = ["true"].
Proof. unfold hasTag. rewrite parse_managed. naive_solver. Qed.

(** The values of a key among tags that carry it once. *)
Lemma tagValues_cons_other key t tags k v :
  parseIdentityTag t = Some (k, v) -> k <> key ->
  tagValues (t :: tags) key = tagValues tags key.
Proof.
  intros Ht Hne. cbn [tagValues omap list_omap]. rewrite Ht.
  by rewrite (proj2 (String.eqb_neq k key)).
Qed.

(** ** Injectivity of tag values *)

(** The value may start a UTF-8 text: its first byte does not continue another
    character.  Every name, namespace and UID in a Kubernetes object starts so. *)
Definition utf8Head (value : string) : Prop :=
  match value with "" => True | String c _ => (N_of_ascii c < 128 \/ 192 <= N_of_ascii c)%N end.

(** The value does not fit into a tag with this key. *)
Definition overLong (key value : string) : Prop :=
  maxTagLength < String.length (tagPrefix key) + String.length (encode value).

(** [a], which is no UTF-8 text, is made so that its encoding is the digest
    that stands for the over-long [b]. *)
Definition spellsDigest (key a b : string) : Prop :=
  ~ utf8Head a /\ overLong key b /\ encode a = digestValue b.

(** Two values under one key that a tag does not tell apart: they are the same,
    or both are over-long and their SHA-256 digests collide, or one is forged to
    spell the digest of the other. *)
Definition sameValue (key a b : string) : Prop :=
  a = b \/ (overLong key a /\ overLong key b /\ Sum256 a = Sum256 b) \/
  spellsDigest key a b \/ spellsDigest key b a.

Lemma encode_inj a b : encode a = encode b -> a = b.
Proof.
  unfold encode. intros H. apply bytes_of_inj. apply base64_bytes_inj; [..|done];
    apply bytes_of_bound.
Qed.

Lemma digestValue_inj a b : digestValue a = digestValue b -> Sum256 a = Sum256 b.
Proof.
  unfold digestValue. intros H%append_inj_l. apply base64_bytes_inj in H; [done|..];
    apply sha256_bound.
Qed.

(** The encoding of a UTF-8 text never looks like a digest: its first character
    encodes the six high bits of the first byte, and ["s"] encodes [101100]. *)
Lemma encode_not_digest a b : utf8Head a -> encode a <> digestValue b.
Proof.
  unfold encode, digestValue. intros Ha H.
  change ("sha256-" ^^ base64_bytes (Sum256 b))
    with (String "s" ("ha256-" ^^ base64_bytes (Sum256 b))) in H.
  destruct a as [|c a]; [discriminate H|].
  change (bytes_of (String c a)) with (N_of_ascii c :: bytes_of a) in H.
  destruct (base64_bytes_head (N_of_ascii c) (bytes_of a)) as [r Hr]. rewrite Hr in H.
  simpl in Ha. injection H as Hc _.
  change "s"%char with (base64_char 44) in Hc. pose proof (N_ascii_bounded c).
  apply base64_char_inj in Hc; divlia.
Qed.

Lemma tagValue_inj key a b : tagValue key a = tagValue key b -> sameValue key a b.
Proof.
  unfold tagValue, sameValue, spellsDigest, overLong. intros H.
  repeat match type of H with context [Nat.ltb ?x ?y] => destruct (Nat.ltb_spec x y) end.
  - apply digestValue_inj in H. auto.
  - right. right. right. split_and!; [|done|done]. intros Hu. by eapply encode_not_digest.
  - right. right. left. split_and!; [|done|done]. intros Hu. by eapply encode_not_digest.
  - left. by apply encode_inj.
Qed.

(** A short value is never replaced by its digest. *)
Lemma tagValue_short key a :
  String.length (tagPrefix key) + String.length (encode a) <= maxTagLength ->
  tagValue key a = encode a.
Proof. intros H. unfold tagValue. by rewrite (proj2 (Nat.ltb_ge _ _)). Qed.

#[local] Opaque tagValue.

(** ** Matching *)

Lemma MatchesGateway_spec id tags role :
  MatchesGateway id tags role = true <->
  blank role = false /\ Forall (hasTag tags) (baseTags id role ++ projectTags id).
Proof.
  unfold MatchesGateway. rewrite identityTags_eq. destruct (blank role).
  - split; [done|]. by intros [? _].
  - rewrite containsAll_spec. unfold allTags. rewrite app_nil_r. naive_solver.
Qed.

Lemma MatchesRoute_spec id tags role :
  MatchesRoute id tags role = true <->
  ValidateRouteIdentity id = Ok tt /\ blank role = false /\
  Forall (hasTag tags) (baseTags id role ++ projectTags id ++ routeTags id).
Proof.
  unfold MatchesRoute. rewrite identityTags_eq.
  destruct (ValidateRouteIdentity id) as [[]|]; [|by split; [|intros [? _]]].
  destruct (blank role).
  - split; [done|]. by intros (? & ? & _).
  - rewrite containsAll_spec. unfold allTags. rewrite app_nil_r. naive_solver.
Qed.

(** A resource recognised for an HTTPRoute is recognised for its Gateway,
    and the discovery queries find everything the exact matches accept. *)
Theorem matches_hierarchy id tags role :
  (MatchesRoute id tags role = true -> MatchesGateway id tags role = true) /\
  (MatchesGateway id tags role = true -> MatchesGatewayDiscovery id tags role = true) /\
  (MatchesRoute id tags role = true -> MatchesRouteDiscovery id tags role = true).
Proof.
  rewrite MatchesGateway_spec, MatchesRoute_spec. split; [|split].
  - intros (_ & ? & H). split; [done|]. rewrite !Forall_app in *. naive_solver.
  - intros (Hb & H). unfold MatchesGatewayDiscovery. rewrite GatewayDiscoveryTags_eq, Hb.
    apply containsAll_spec. rewrite Forall_app in H. destruct H as [H _].
    rewrite Forall_forall in *. intros t Ht. by apply H, discoveryTags_sub.
  - intros (Hv & Hb & H). unfold MatchesRouteDiscovery, RouteDiscoveryTags.
    rewrite Hv, GatewayDiscoveryTags_eq, Hb. cbn [rbind].
    rewrite !Forall_app in H. destruct H as (H & _ & Hr).
    rewrite validateTagLengths_ok.
    + apply containsAll_spec. apply Forall_app. split.
      * rewrite Forall_forall in *. intros t Ht. by apply H, discoveryTags_sub.
      * unfold routeTags in Hr. rewrite !Forall_cons in *. naive_solver.
    + pose proof (allTags_short id role true false) as Hs. unfold allTags in Hs.
      rewrite !Forall_app in Hs. destruct Hs as (Hs & _ & Hr' & _).
      apply Forall_app. split.
      * rewrite Forall_forall in *. intros t Ht. by apply Hs, discoveryTags_sub.
      * unfold routeTags in Hr'. rewrite !Forall_cons in *. naive_solver.
Qed.

(** *** One resource, one owner *)

(** The Gateway part of two identities agrees as far as tags can tell; a project
    is only compared when both identities name one. *)
Definition sameGatewayOwner (a b : Identity) : Prop :=
  sameValue "cluster" (ClusterID a) (ClusterID b) /\ sameValue "controller" (Controller a) (Controller b) /\
  sameValue "namespace" (GatewayNamespace a) (GatewayNamespace b) /\
  sameValue "name" (GatewayName a) (GatewayName b) /\ sameValue "uid" (GatewayUID a) (GatewayUID b) /\
  (OpenStackProjectID a = "" \/ OpenStackProjectID b = "" \/
   sameValue "project" (OpenStackProjectID a) (OpenStackProjectID b)).

Lemma hasTag_unique tags key a b :
  goodKey key = true -> hasTag tags (tag key a) -> hasTag tags (tag key b) -> sameValue key a b.
Proof.
  intros Hk. rewrite !hasTag_tag by done. intros H1 H2. rewrite H1 in H2.
  injection H2 as H2. by apply tagValue_inj.
Qed.

Lemma projectTags_same tags a b :
  Forall (hasTag tags) (projectTags a) -> Forall (hasTag tags) (projectTags b) ->
  OpenStackProjectID a = "" \/ OpenStackProjectID b = "" \/
  sameValue "project" (OpenStackProjectID a) (OpenStackProjectID b).
Proof.
  unfold projectTags. destruct (String.eqb_spec (OpenStackProjectID a) ""); [by left|].
  destruct (String.eqb_spec (OpenStackProjectID b) ""); [by right; left|].
  rewrite !Forall_singleton. intros Ha Hb. right. right. by eapply hasTag_unique.
Qed.

(** C13. No resource is recognised for two different Gateways or under two
    different roles: two identities that both match its tags agree in the role
    and in every field of the tuple, the project compared where both name one,
    unless two over-long values have colliding SHA-256 digests, or one value is
    the digest of the other spelled in bytes that no UTF-8 text starts with. *)
Theorem matches_unique_owner id id' tags role role' :
  MatchesGateway id tags role = true -> MatchesGateway id' tags role' = true ->
  sameGatewayOwner id id' /\ sameValue "role" role role'.
Proof.
  rewrite !MatchesGateway_spec. intros [_ Hm] [_ Hm']. revert Hm Hm'. unfold baseTags, sameGatewayOwner.
  rewrite !Forall_app, !Forall_cons. intros Hm Hm'. destruct_and!.
  split_and!; [..|by eapply projectTags_same|]; (eapply hasTag_unique; [reflexivity|eassumption..]).
Qed.

(** *** Created resources are recognised *)

(** Tags with pairwise different keys each occur once. *)
Lemma hasTag_distinct tags t :
  Forall (fun t => is_Some (parseIdentityTag t)) tags ->
  NoDup (fst <$> omap parseIdentityTag tags) -> t ∈ tags -> hasTag tags t.
Proof.
  assert (forall ts key, key ∉ fst <$> omap parseIdentityTag ts -> tagValues ts key = []) as Hno.
  { induction ts as [|u ts IH]; intros key; [done|].
    cbn [omap list_omap tagValues]. destruct (parseIdentityTag u) as [[k v]|]; [|apply IH].
    cbn [fmap list_fmap fst]. rewrite not_elem_of_cons. intros [Hne Hni].
    rewrite (proj2 (String.eqb_neq k key)) by done. by apply IH. }
  induction tags as [|u tags IH]; [by rewrite elem_of_nil|].
  rewrite Forall_cons. intros [[[k v] Hu] Hall] Hnd Ht.
  cbn [omap list_omap] in Hnd. rewrite Hu in Hnd. cbn [fmap list_fmap fst] in Hnd.
  apply NoDup_cons in Hnd as [Hk Hnd]. apply elem_of_cons in Ht as [->|Ht].
  - exists k, v. split; [done|]. cbn [tagValues omap list_omap]. rewrite Hu, String.eqb_refl.
    f_equal. by apply Hno.
  - destruct (IH Hall Hnd Ht) as (k' & v' & Hp & Hv). exists k', v'. split; [done|].
    rewrite (tagValues_cons_other _ _ _ k v); [done|done|]. intros ->. apply Hk.
    apply list_elem_of_fmap. exists (k', v'). split; [done|]. apply list_elem_of_omap. eauto.
Qed.

Lemma allTags_complete id role rs iv t :
  t ∈ allTags id role rs iv -> hasTag (allTags id role rs iv) t.
Proof.
  unfold allTags, baseTags, projectTags, routeTags, versionTags.
  apply hasTag_distinct;
    destruct (String.eqb (OpenStackProjectID id) ""), rs, iv,
      (String.eqb (ControllerVersion id) ""); cbn [app omap list_omap];
    rewrite ?parse_tag by reflexivity; rewrite ?parse_managed.
  all: first
    [ repeat (apply Forall_cons; split); rewrite ?parse_tag by reflexivity;
      rewrite ?parse_managed; by eauto
    | cbn [fmap list_fmap fst]; apply (bool_decide_unpack _); vm_compute; exact I ].
Qed.

(** The identity after an upgrade of the controller. *)
Definition withVersion (v : string) (id : Identity) : Identity :=
  mkIdentity (OpenStackProjectID id) (ClusterID id) (Controller id) v
    (GatewayNamespace id) (GatewayName id) (GatewayUID id)
    (RouteNamespace id) (RouteName id) (RouteUID id).

(** A resource created with GatewayTags or RouteTags is recognised by the
    controller that created it and, since the version is only trace metadata, by
    every other version of it. *)
Theorem created_resources_match id role tags v :
  (GatewayTags id role = Ok tags -> MatchesGateway (withVersion v id) tags role = true) /\
  (RouteTags id role = Ok tags -> MatchesRoute (withVersion v id) tags role = true).
Proof.
  rewrite MatchesGateway_spec, MatchesRoute_spec. unfold GatewayTags, RouteTags.
  rewrite !identityTags_eq. split.
  - destruct (blank role) eqn:Hb; intros; inv_result. split; [done|].
    rewrite Forall_forall. intros t Ht. apply allTags_complete.
    change (t ∈ baseTags id role ++ projectTags id) in Ht.
    unfold allTags. set_solver.
  - intros H. inv_result. destruct a. split; [done|]. split; [done|].
    rewrite Forall_forall. intros t Ht. apply allTags_complete.
    change (t ∈ baseTags id role ++ projectTags id ++ routeTags id) in Ht.
    unfold allTags. set_solver.
Qed.

(** *** Descriptions *)

(** The digest input is an injective encoding of the list of parts: no two
    identities share it, whatever bytes their names contain. *)
Lemma digestInput_inj ps qs : digestInput ps = digestInput qs -> ps = qs.
Proof.
  assert (forall v rest, digestInput [] <> digestInput (v :: rest)) as Hnil.
  { intros v rest. cbn [digestInput].
    destruct (decimal_N (N.of_nat (String.length v))); discriminate. }
  revert qs. induction ps as [|p ps IH]; intros [|q qs] H; [done|by apply Hnil in H|
    by apply eq_sym, Hnil in H|].
  cbn [digestInput] in H.
  apply sep_inj in H as [Hn H]; [|by apply decimal_N_without..].
  apply decimal_N_inj, Nat2N.inj in Hn. apply append_inj in H as [-> H]; [|done].
  f_equal. by apply IH.
Qed.

Lemma hex_length l : String.length (hex l) = 2 * length l.
Proof. induction l as [|b l IH]; [done|]. cbn [hex String.length length]. lia. Qed.

Lemma hex_digit_inj a b : (a < 16 -> b < 16 -> hex_digit a = hex_digit b -> a = b)%N.
Proof.
  unfold hex_digit. intros Ha Hb H. apply (f_equal N_of_ascii) in H. revert H.
  destruct (N.ltb_spec a 10), (N.ltb_spec b 10); rewrite !N_ascii_embedding by lia; lia.
Qed.

Lemma hex_inj l l' :
  Forall (fun b => b < 256)%N l -> Forall (fun b => b < 256)%N l' -> hex l = hex l' -> l = l'.
Proof.
  revert l'. induction l as [|b l IH]; intros [|b' l'] Hl Hl' H; cbn [hex] in H; try done.
  injection H as H1 H2 H. rewrite Forall_cons in Hl, Hl'. destruct Hl, Hl'.
  apply hex_digit_inj in H1; [|divlia..]. apply hex_digit_inj in H2; [|divlia..].
  f_equal; [by apply (div_mod_eq 16)|by apply IH].
Qed.

(** What a description pins down: the parts that were hashed. *)
Definition sameParts (ps qs : list string) : Prop :=
  ps = qs \/ (ps <> qs /\ Sum256 (digestInput ps) = Sum256 (digestInput qs)).

Lemma description_prefix_inj id id' desc role role' :
  MatchesDescription id desc role = true -> MatchesDescription id' desc role' = true ->
  sameParts (descriptionParts id role true true) (descriptionParts id' role' true true).
Proof.
  unfold MatchesDescription. rewrite !prefix_iff. intros [r1 H1] [r2 H2].
  rewrite H1 in H2. clear H1. unfold description in H2. cbn [String.eqb] in H2.
  rewrite !append_assoc in H2. apply append_inj_l, append_inj_l in H2.
  apply append_inj in H2 as [H2 _]; [|unfold Sum256; by rewrite !hex_length, !sha256_length].
  apply hex_inj in H2; [|apply sha256_bound..].
  destruct (decide (descriptionParts id role true true = descriptionParts id' role' true true));
    [by left|by right].
Qed.

(** A Floating IP is recognised for one Gateway only: two identities that
    both match its description agree in every field that enters it, or the
    SHA-256 digests of their encodings collide. *)
Theorem floating_ip_unique_owner id id' desc :
  MatchesGatewayDescription id desc RoleFloatingIP = true ->
  MatchesGatewayDescription id' desc RoleFloatingIP = true ->
  withVersion "" (gatewayIdentity id) = withVersion "" (gatewayIdentity id') \/
  (gatewayIdentity id <> gatewayIdentity id' /\
   Sum256 (digestInput (descriptionParts (gatewayIdentity id) RoleFloatingIP true true)) =
   Sum256 (digestInput (descriptionParts (gatewayIdentity id') RoleFloatingIP true true))).
Proof.
  unfold MatchesGatewayDescription. intros H1 H2.
  destruct (description_prefix_inj _ _ _ _ _ H1 H2) as [H|[Hne H]].
  - left. unfold descriptionParts in H. simpl in H. injection H as H. unfold withVersion.
    simpl. congruence.
  - right. split; [|done]. intros He. apply Hne. by rewrite He.
Qed.

(** The description a Floating IP is created with is recognised again, also
    when the caller holds an HTTPRoute identity of the same Gateway, and by
    other controller versions. *)
Theorem floating_ip_description_matches id v :
  MatchesGatewayDescription (withVersion v id) (GatewayDescription id RoleFloatingIP) RoleFloatingIP
  = true.
Proof.
  unfold MatchesGatewayDescription, MatchesDescription, GatewayDescription, Description.
  change (description (gatewayIdentity (withVersion v id)) "" RoleFloatingIP true true)
    with (description (gatewayIdentity id) "" RoleFloatingIP true true).
  case_match; [apply HasPrefix_refl|apply HasPrefix_append].
Qed.
