(* ===== verification/OpenStack.v ===== *)
(** * The OpenStack services as seen by the adapter

    The resources and requests of Octavia and Neutron that the repository uses
    through Gophercloud, the programs that issue them, and the thin services of
    [internal/cloud/openstack/octavia] and [internal/cloud/openstack/neutron].

    Neither Gophercloud nor OpenStack is part of the repository, so no behaviour
    of theirs is defined here: a program is a tree that branches on every
    response it may receive, and the theorems about programs quantify over all
    of them. *)
From stdpp Require Import base list strings.
From Stdlib Require Import ZArith Lia.
From S2P Require Import Prelude GoStrings Cloud Kube KubeObjects ApiErrors.

Set Default Goal Selector "!".

(** ** Resources: the fields the repository reads *)

Record LoadBalancer := mkLoadBalancer {
  lb_ID : string; lb_ProjectID : string; lb_Tags : list string;
  lb_VipSubnetID : string; lb_VipPortID : string; lb_VipAddress : string;
  lb_Provider : string; lb_ProvisioningStatus : string; lb_AdminStateUp : bool
}.

Record Listener := mkListener {
  ls_ID : string; ls_ProjectID : string; ls_Tags : list string;
  ls_Loadbalancers : list string; ls_Protocol : string; ls_ProtocolPort : Z;
  ls_ProvisioningStatus : string; ls_AdminStateUp : bool
}.

Record Pool := mkPool {
  pl_ID : string; pl_ProjectID : string; pl_Tags : list string;
  pl_Loadbalancers : list string; pl_Protocol : string; pl_LBMethod : string;
  pl_ProvisioningStatus : string; pl_AdminStateUp : bool
}.

Record PoolMember := mkPoolMember {
  mb_ID : string; mb_ProjectID : string; mb_Tags : list string;
  mb_PoolID : string; mb_Address : string; mb_ProtocolPort : Z; mb_SubnetID : string;
  mb_ProvisioningStatus : string; mb_AdminStateUp : bool
}.

Record Monitor := mkMonitor {
  mn_ID : string; mn_ProjectID : string; mn_Tags : list string;
  mn_Pools : list string; mn_Type : string; mn_Delay : Z; mn_Timeout : Z;
  mn_MaxRetries : Z; mn_MaxRetriesDown : Z; mn_URLPath : string; mn_HTTPMethod : string;
  mn_ExpectedCodes : string; mn_ProvisioningStatus : string; mn_AdminStateUp : bool
}.

Record L7Policy := mkL7Policy {
  lp_ID : string; lp_ProjectID : string; lp_Tags : list string;
  lp_ListenerID : string; lp_Position : Z; lp_Action : string; lp_RedirectPoolID : string;
  lp_ProvisioningStatus : string; lp_AdminStateUp : bool
}.

Record Rule := mkRule {
  lr_ID : string; lr_ProjectID : string; lr_Tags : list string;
  lr_RuleType : string; lr_CompareType : string; lr_Value : string; lr_Invert : bool;
  lr_ProvisioningStatus : string; lr_AdminStateUp : bool
}.

Record FloatingIP := mkFloatingIP {
  fip_ID : string; fip_ProjectID : string; fip_TenantID : string;
  fip_Description : string; fip_PortID : string; fip_FloatingNetworkID : string;
  fip_FloatingIP : string
}.

(** ** Request options *)

(** List options: an empty string or list means that the query does not filter
    by that attribute. *)
Record ListOpts := mkListOpts { lo_ParentID : string; lo_ProjectID : string; lo_Tags : list string }.
Definition listBy (parent project : string) : ListOpts := mkListOpts parent project [].

Record CreateLoadBalancerOpts := mkCreateLoadBalancerOpts {
  clb_Name : string; clb_Description : string; clb_VipSubnetID : string; clb_Provider : string;
  clb_AdminStateUp : option bool; clb_Tags : list string }.
Record CreateListenerOpts := mkCreateListenerOpts {
  cls_LoadbalancerID : string; cls_Protocol : string; cls_ProtocolPort : Z; cls_Name : string;
  cls_Description : string; cls_AdminStateUp : option bool; cls_Tags : list string }.
Record CreatePoolOpts := mkCreatePoolOpts {
  cpl_LBMethod : string; cpl_Protocol : string; cpl_LoadbalancerID : string; cpl_Name : string;
  cpl_Description : string; cpl_AdminStateUp : option bool; cpl_Tags : list string }.
Record CreateMemberOpts := mkCreateMemberOpts {
  cmb_Address : string; cmb_ProtocolPort : Z; cmb_Name : string; cmb_SubnetID : string;
  cmb_AdminStateUp : option bool; cmb_Tags : list string }.
Record CreateMonitorOpts := mkCreateMonitorOpts {
  cmn_PoolID : string; cmn_Type : string; cmn_Delay : Z; cmn_Timeout : Z; cmn_MaxRetries : Z;
  cmn_MaxRetriesDown : Z; cmn_URLPath : string; cmn_HTTPMethod : string;
  cmn_ExpectedCodes : string; cmn_Name : string; cmn_AdminStateUp : option bool;
  cmn_Tags : list string }.
Record CreatePolicyOpts := mkCreatePolicyOpts {
  clp_Name : string; clp_ListenerID : string; clp_Action : string; clp_Position : Z;
  clp_Description : string; clp_RedirectPoolID : string; clp_AdminStateUp : option bool;
  clp_Tags : list string }.
Record CreateRuleOpts := mkCreateRuleOpts {
  clr_RuleType : string; clr_CompareType : string; clr_Value : string;
  clr_AdminStateUp : option bool; clr_Tags : list string }.
Record CreateFloatingIPOpts := mkCreateFloatingIPOpts {
  cfip_Description : string; cfip_FloatingNetworkID : string; cfip_PortID : string }.

(** Update options: [None] leaves the attribute alone. *)
Record UpdatePoolOpts := mkUpdatePoolOpts { upl_LBMethod : string; upl_AdminStateUp : option bool }.
Record UpdateMonitorOpts := mkUpdateMonitorOpts {
  umn_Delay : Z; umn_Timeout : Z; umn_MaxRetries : Z; umn_MaxRetriesDown : Z;
  umn_URLPath : string; umn_HTTPMethod : string; umn_ExpectedCodes : string;
  umn_AdminStateUp : option bool }.
Record UpdatePolicyOpts := mkUpdatePolicyOpts {
  ulp_Action : string; ulp_Position : Z; ulp_RedirectPoolID : option string;
  ulp_AdminStateUp : option bool }.
Record UpdateRuleOpts := mkUpdateRuleOpts {
  ulr_RuleType : string; ulr_CompareType : string; ulr_Value : string; ulr_Invert : option bool;
  ulr_AdminStateUp : option bool }.

(** ** Requests *)

(** What the capability probe asks for beyond the requests of the controller: of
    OpenStack, of the clock (how many ticks pass before a context is done, and its
    error), of the file system, whose files are known by their names, and of the
    load balancer it has made. *)
Record httpResponse := mkHTTPResponse {
  hp_StatusCode : Z;
  hp_body : outcome_of string;    (* io.ReadAll of at most 4096 bytes *)
  hp_close : option error
}.

Inductive probeRequest : Type :=
| PNewServiceClients (region microversion : string) (allowInsecure : bool)
| PListProviders
| PGetListener (id : string)
| PGetPool (id : string)
| PGetMember (poolID id : string)
| PGetMonitor (id : string)
| PGetPolicy (id : string)
| PGetRule (policyID id : string)
| PGetFloatingIP (id : string)
| PUpdateLoadBalancer (id description : string) (tags : list string)
| PUpdateListener (id description : string) (tags : list string)
| PUpdatePool (id description : string) (tags : list string)
| PUpdateMember (poolID id name : string) (tags : list string)
| PUpdateMonitor (id name : string) (tags : list string)
| PUpdatePolicy (id description : string) (tags : list string)
| PUpdateRule (policyID id ruleType compareType value : string) (tags : list string)
| PUpdateFloatingIP (id description : string)
| PTicks (timeout interval : Z)
| PMkdirAll (dir : string)
| POpenExclusive (path : string)
| PCreateTemp (dir pattern : string)
| PChmod (file : string)
| PWrite (file data : string)
| PSync (file : string)
| PClose (file : string)
| PRename (from to : string)
| PRemove (path : string)
| PReadFile (path : string)
| PWriteFile (path data : string)
| PNewHTTPRequest (url : string)
| PDo (url host : string).

Definition probeResponse (r : probeRequest) : Type :=
  match r with
  | PListProviders => outcome_of (list (string * string))
  | PGetListener _ | PUpdateListener _ _ _ => Listener
  | PGetPool _ | PUpdatePool _ _ _ => Pool
  | PGetMember _ _ | PUpdateMember _ _ _ _ => PoolMember
  | PGetMonitor _ | PUpdateMonitor _ _ _ => Monitor
  | PGetPolicy _ | PUpdatePolicy _ _ _ => L7Policy
  | PGetRule _ _ | PUpdateRule _ _ _ _ _ _ => Rule
  | PGetFloatingIP _ | PUpdateFloatingIP _ _ => FloatingIP
  | PUpdateLoadBalancer _ _ _ => LoadBalancer
  | PTicks _ _ => nat * error
  | PCreateTemp _ _ | PReadFile _ => string
  | PDo _ _ => httpResponse
  | _ => unit
  end.

(** Updates change OpenStack; the other requests do not. *)
Definition isProbeUpdate (r : probeRequest) : bool :=
  match r with
  | PUpdateLoadBalancer _ _ _ | PUpdateListener _ _ _ | PUpdatePool _ _ _ | PUpdateMember _ _ _ _
  | PUpdateMonitor _ _ _ | PUpdatePolicy _ _ _ | PUpdateRule _ _ _ _ _ _ | PUpdateFloatingIP _ _ => true
  | _ => false
  end.

(** To OpenStack, [ReqKube] to the API server, and [ReqProbe] from the probe. *)
Inductive request : Type :=
| ReqListLoadBalancers (opts : ListOpts)
| ReqGetLoadBalancer (id : string)
| ReqCreateLoadBalancer (opts : CreateLoadBalancerOpts)
| ReqUpdateLoadBalancer (id : string) (adminStateUp : option bool)
| ReqDeleteLoadBalancer (id : string)
| ReqListListeners (opts : ListOpts)
| ReqCreateListener (opts : CreateListenerOpts)
| ReqUpdateListener (id : string) (adminStateUp : option bool)
| ReqDeleteListener (id : string)
| ReqListPools (opts : ListOpts)
| ReqCreatePool (opts : CreatePoolOpts)
| ReqUpdatePool (id : string) (opts : UpdatePoolOpts)
| ReqDeletePool (id : string)
| ReqListMembers (poolID : string) (opts : ListOpts)
| ReqCreateMember (poolID : string) (opts : CreateMemberOpts)
| ReqUpdateMember (poolID id : string) (adminStateUp : option bool)
| ReqDeleteMember (poolID id : string)
| ReqListMonitors (opts : ListOpts)
| ReqCreateMonitor (opts : CreateMonitorOpts)
| ReqUpdateMonitor (id : string) (opts : UpdateMonitorOpts)
| ReqDeleteMonitor (id : string)
| ReqListPolicies (opts : ListOpts)
| ReqCreatePolicy (opts : CreatePolicyOpts)
| ReqUpdatePolicy (id : string) (opts : UpdatePolicyOpts)
| ReqDeletePolicy (id : string)
| ReqListRules (policyID : string) (opts : ListOpts)
| ReqCreateRule (policyID : string) (opts : CreateRuleOpts)
| ReqUpdateRule (policyID id : string) (opts : UpdateRuleOpts)
| ReqDeleteRule (policyID id : string)
| ReqListFloatingIPs (opts : ListOpts)
| ReqCreateFloatingIP (opts : CreateFloatingIPOpts)
| ReqDeleteFloatingIP (id : string)
| ReqKube (r : kubeRequest)
| ReqProbe (r : probeRequest).

(** What a successful request returns.  A list request first collects the pages
    and then extracts the items, which may fail on its own. *)
Definition response (r : request) : Type :=
  match r with
  | ReqListLoadBalancers _ => outcome_of (list LoadBalancer)
  | ReqGetLoadBalancer _ | ReqCreateLoadBalancer _ | ReqUpdateLoadBalancer _ _ => LoadBalancer
  | ReqListListeners _ => outcome_of (list Listener)
  | ReqCreateListener _ | ReqUpdateListener _ _ => Listener
  | ReqListPools _ => outcome_of (list Pool)
  | ReqCreatePool _ | ReqUpdatePool _ _ => Pool
  | ReqListMembers _ _ => outcome_of (list PoolMember)
  | ReqCreateMember _ _ | ReqUpdateMember _ _ _ => PoolMember
  | ReqListMonitors _ => outcome_of (list Monitor)
  | ReqCreateMonitor _ | ReqUpdateMonitor _ _ => Monitor
  | ReqListPolicies _ => outcome_of (list L7Policy)
  | ReqCreatePolicy _ | ReqUpdatePolicy _ _ => L7Policy
  | ReqListRules _ _ => outcome_of (list Rule)
  | ReqCreateRule _ _ | ReqUpdateRule _ _ _ => Rule
  | ReqListFloatingIPs _ => outcome_of (list FloatingIP)
  | ReqCreateFloatingIP _ => FloatingIP
  | ReqKube k => kubeResponse k
  | ReqProbe k => probeResponse k
  | ReqDeleteLoadBalancer _ | ReqDeleteListener _ | ReqDeletePool _ | ReqDeleteMember _ _
  | ReqDeleteMonitor _ | ReqDeletePolicy _ | ReqDeleteRule _ _ | ReqDeleteFloatingIP _ => unit
  end.

(** Requests that change OpenStack state. *)
Definition isMutation (r : request) : bool :=
  match r with
  | ReqListLoadBalancers _ | ReqGetLoadBalancer _ | ReqListListeners _ | ReqListPools _
  | ReqListMembers _ _ | ReqListMonitors _ | ReqListPolicies _ | ReqListRules _ _
  | ReqListFloatingIPs _ | ReqKube _ => false
  | ReqProbe k => isProbeUpdate k
  | _ => true
  end.

Definition isDeletion (r : request) : bool :=
  match r with
  | ReqDeleteLoadBalancer _ | ReqDeleteListener _ | ReqDeletePool _ | ReqDeleteMember _ _
  | ReqDeleteMonitor _ | ReqDeletePolicy _ | ReqDeleteRule _ _ | ReqDeleteFloatingIP _ => true
  | _ => false
  end.

(** ** Programs *)

Inductive prog (A : Type) : Type :=
| Ret (a : A)
| Call (r : request) (k : outcome_of (response r) -> prog A).
Arguments Ret {A} a.
Arguments Call {A} r k.

Fixpoint bind {A B} (m : prog A) (f : A -> prog B) : prog B :=
  match m with
  | Ret a => f a
  | Call r k => Call r (fun x => bind (k x) f)
  end.

(** A Go method that talks to OpenStack and returns [(A, error)]. *)
Abbreviation M A := (prog (outcome_of A)).

Definition ret {A} (a : A) : M A := Ret (Ok a).
Definition raise {A} (e : error) : M A := Ret (Err e).
Definition lift {A} (m : outcome_of A) : M A := Ret m.

Definition mbind {A B} (m : M A) (f : A -> M B) : M B :=
  bind m (fun x => match x with Ok a => f a | Err e => Ret (Err e) end).

(** The error of a call is handed to the caller, not returned at once. *)
Definition try {A B} (m : M A) (f : outcome_of A -> M B) : M B := bind m f.

(** [fmt.Errorf(format, args..., err)] around the error of a call. *)
Definition onError {A} (g : error -> error) (m : M A) : M A :=
  bind m (fun x => Ret (match x with Ok a => Ok a | Err e => Err (g e) end)).
Definition wrap {A} (format : string) (args : list string) (m : M A) : M A :=
  onError (fun e => Errorf format args (Some e)) m.

#[global] Arguments mbind {A B} m f : simpl never.
#[global] Arguments try {A B} m f : simpl never.
#[global] Arguments onError {A} g m : simpl never.

Definition call (r : request) : M (response r) := Call r (fun x => Ret x).

Notation "'let!' x ':=' m 'in' k" := (mbind m (fun x => k))
  (at level 10, x pattern, m at level 100, k at level 200) : go_scope.
Notation "'guard!' b 'else' e 'in' k" := (if b then k else raise e)
  (at level 10, b at level 100, e at level 100, k at level 200) : go_scope.

(** A loop with an accumulator and early return. *)
Fixpoint mfold {A B} (f : B -> A -> M B) (acc : B) (l : list A) : M B :=
  match l with
  | [] => ret acc
  | x :: l' => let! acc' := f acc x in mfold f acc' l'
  end.

(** ** Gophercloud *)

(** [gophercloud.ResponseCodeIs], the only function of the SDK whose result the
    adapter branches on. *)
Class Gophercloud := { ResponseCodeIs : error -> Z -> bool }.

Definition isNotFound `{Gophercloud} (e : error) : bool := ResponseCodeIs e 404.

(** ** The services (octavia, neutron) *)

Definition listItems {A} (what : string) (r : outcome_of (outcome_of (list A)))
    : outcome_of (list A) :=
  match r with
  | Err e => Err (Errorf ("list " ^^ what ^^ ": %w") [] (Some e))
  | Ok (Err e) => Err (Errorf ("extract " ^^ what ^^ ": %w") [] (Some e))
  | Ok (Ok items) => Ok items
  end.

Definition ListLoadBalancers (opts : ListOpts) : M (list LoadBalancer) :=
  Call (ReqListLoadBalancers opts) (fun r => Ret (listItems "load balancers" r)).
Definition GetLoadBalancer (id : string) : M LoadBalancer := call (ReqGetLoadBalancer id).
Definition CreateLoadBalancer (opts : CreateLoadBalancerOpts) : M LoadBalancer :=
  call (ReqCreateLoadBalancer opts).
Definition UpdateLoadBalancer (id : string) (up : option bool) : M LoadBalancer :=
  call (ReqUpdateLoadBalancer id up).
Definition DeleteLoadBalancer (id : string) : M unit := call (ReqDeleteLoadBalancer id).

Definition ListListeners (opts : ListOpts) : M (list Listener) :=
  Call (ReqListListeners opts) (fun r => Ret (listItems "listeners" r)).
Definition CreateListener (opts : CreateListenerOpts) : M Listener := call (ReqCreateListener opts).
Definition UpdateListener (id : string) (up : option bool) : M Listener :=
  call (ReqUpdateListener id up).
Definition DeleteListener (id : string) : M unit := call (ReqDeleteListener id).

Definition ListPools (opts : ListOpts) : M (list Pool) :=
  Call (ReqListPools opts) (fun r => Ret (listItems "pools" r)).
Definition CreatePool (opts : CreatePoolOpts) : M Pool := call (ReqCreatePool opts).
Definition UpdatePool (id : string) (opts : UpdatePoolOpts) : M Pool := call (ReqUpdatePool id opts).
Definition DeletePool (id : string) : M unit := call (ReqDeletePool id).

Definition ListMembers (poolID : string) (opts : ListOpts) : M (list PoolMember) :=
  Call (ReqListMembers poolID opts) (fun r => Ret (listItems "pool members" r)).
Definition CreateMember (poolID : string) (opts : CreateMemberOpts) : M PoolMember :=
  call (ReqCreateMember poolID opts).
Definition UpdateMember (poolID id : string) (up : option bool) : M PoolMember :=
  call (ReqUpdateMember poolID id up).
Definition DeleteMember (poolID id : string) : M unit := call (ReqDeleteMember poolID id).

Definition ListMonitors (opts : ListOpts) : M (list Monitor) :=
  Call (ReqListMonitors opts) (fun r => Ret (listItems "health monitors" r)).
Definition CreateMonitor (opts : CreateMonitorOpts) : M Monitor := call (ReqCreateMonitor opts).
Definition UpdateMonitor (id : string) (opts : UpdateMonitorOpts) : M Monitor :=
  call (ReqUpdateMonitor id opts).
Definition DeleteMonitor (id : string) : M unit := call (ReqDeleteMonitor id).

Definition ListPolicies (opts : ListOpts) : M (list L7Policy) :=
  Call (ReqListPolicies opts) (fun r => Ret (listItems "L7 policies" r)).
Definition CreatePolicy (opts : CreatePolicyOpts) : M L7Policy := call (ReqCreatePolicy opts).
Definition UpdatePolicy (id : string) (opts : UpdatePolicyOpts) : M L7Policy :=
  call (ReqUpdatePolicy id opts).
Definition DeletePolicy (id : string) : M unit := call (ReqDeletePolicy id).

Definition ListRules (policyID : string) (opts : ListOpts) : M (list Rule) :=
  Call (ReqListRules policyID opts) (fun r => Ret (listItems "L7 rules" r)).
Definition CreateRule (policyID : string) (opts : CreateRuleOpts) : M Rule :=
  call (ReqCreateRule policyID opts).
Definition UpdateRule (policyID id : string) (opts : UpdateRuleOpts) : M Rule :=
  call (ReqUpdateRule policyID id opts).
Definition DeleteRule (policyID id : string) : M unit := call (ReqDeleteRule policyID id).

Definition ListFloatingIPs (opts : ListOpts) : M (list FloatingIP) :=
  Call (ReqListFloatingIPs opts) (fun r => Ret (listItems "Floating IPs" r)).
Definition CreateFloatingIP (opts : CreateFloatingIPOpts) : M FloatingIP :=
  call (ReqCreateFloatingIP opts).
Definition DeleteFloatingIP (id : string) : M unit := call (ReqDeleteFloatingIP id).
