(* ===== verification/ProgramLogic.v ===== *)
(** * Reasoning about programs that call OpenStack

    Executions of the programs of OpenStack.v: a program, the trace of requests
    it made with the responses it got, and its result.  Nothing constrains the
    responses, so what is proved of every execution holds whatever the cloud,
    the network or a concurrent actor does.  [ReadOnly] and [AtMostOne] are
    classes, so that instance search derives them along the structure of a
    program. *)
From stdpp Require Import base list strings.
From Stdlib Require Import ZArith Lia.
From S2P Require Import Prelude GoStrings Cloud OpenStack.

Set Default Goal Selector "!".

(** One request and its response. *)
Record event := Ev { ev_req : request; ev_resp : outcome_of (response ev_req) }.

(** [exec m tr a]: with the responses of [tr], [m] returns [a]. *)
Fixpoint exec {A} (m : prog A) (tr : list event) (a : A) : Prop :=
  match m with
  | Ret b => tr = [] /\ a = b
  | Call r k => exists x tr', tr = Ev r x :: tr' /\ exec (k x) tr' a
  end.

(** The mutating requests of a trace, in order. *)
Definition mutations (tr : list event) : list request :=
  List.filter isMutation (ev_req <$> tr).

Lemma mutations_app tr tr' : mutations (tr ++ tr') = mutations tr ++ mutations tr'.
Proof. unfold mutations. by rewrite fmap_app, List.filter_app. Qed.

Lemma mutations_cons e tr :
  mutations (e :: tr) = (if isMutation (ev_req e) then [ev_req e] else []) ++ mutations tr.
Proof. unfold mutations. cbn. by destruct (isMutation (ev_req e)). Qed.

(** ** Executions of composed programs *)

Lemma exec_bind {A B} (m : prog A) (f : A -> prog B) tr b :
  exec (bind m f) tr b <->
  exists tr1 tr2 a, tr = tr1 ++ tr2 /\ exec m tr1 a /\ exec (f a) tr2 b.
Proof.
  revert tr. induction m as [a|r k IH]; intros tr; cbn [bind exec].
  - split.
    + intros H. exists [], tr, a. done.
    + intros (tr1 & tr2 & a' & -> & [-> ->] & H). done.
  - split.
    + intros (x & tr' & -> & (tr1 & tr2 & a & -> & H1 & H2)%IH).
      exists (Ev r x :: tr1), tr2, a. eauto 8.
    + intros (tr1 & tr2 & a & -> & (x & tr' & -> & H1) & H2).
      exists x, (tr' ++ tr2). split; [done|]. apply IH. eauto 8.
Qed.

Lemma exec_mbind {A B} (m : M A) (f : A -> M B) tr r :
  exec (mbind m f) tr r <->
  (exists e, r = Err e /\ exec m tr (Err e)) \/
  (exists tr1 tr2 a, tr = tr1 ++ tr2 /\ exec m tr1 (Ok a) /\ exec (f a) tr2 r).
Proof.
  unfold mbind. rewrite exec_bind. split.
  - intros (tr1 & tr2 & [a|e] & -> & H1 & H2); [right; eauto 8|].
    destruct H2 as [-> ->]. left. exists e. by rewrite app_nil_r.
  - intros [(e & -> & H)|(tr1 & tr2 & a & -> & H1 & H2)].
    + exists tr, [], (Err e). by rewrite app_nil_r.
    + exists tr1, tr2, (Ok a). done.
Qed.

Lemma exec_onError {A} (g : error -> error) (m : M A) tr r :
  exec (onError g m) tr r <->
  exists r0, exec m tr r0 /\ r = match r0 with Ok a => Ok a | Err e => Err (g e) end.
Proof.
  unfold onError. rewrite exec_bind. split.
  - intros (tr1 & tr2 & r0 & -> & H & [-> ->]). exists r0. by rewrite app_nil_r.
  - intros (r0 & H & ->). exists tr, [], r0. by rewrite app_nil_r.
Qed.
(** Normal termination, the case most proofs look at. *)
Lemma exec_mbind_ok {A B} (m : M A) (f : A -> M B) tr b :
  exec (mbind m f) tr (Ok b) <->
  exists tr1 tr2 a, tr = tr1 ++ tr2 /\ exec m tr1 (Ok a) /\ exec (f a) tr2 (Ok b).
Proof. rewrite exec_mbind. naive_solver. Qed.

Lemma exec_onError_ok {A} g (m : M A) tr a : exec (onError g m) tr (Ok a) <-> exec m tr (Ok a).
Proof. rewrite exec_onError. split; [|by eauto]. intros ([] & ? & [=]); by subst. Qed.

Lemma exec_ret {A} (a : A) tr r : exec (ret a) tr r <-> tr = [] /\ r = Ok a.
Proof. done. Qed.
Lemma exec_raise {A} e tr (r : outcome_of A) : exec (raise e) tr r <-> tr = [] /\ r = Err e.
Proof. done. Qed.
Lemma exec_lift {A} (m r : outcome_of A) tr : exec (lift m) tr r <-> tr = [] /\ r = m.
Proof. done. Qed.

(** ** Running a program against a handler *)

Section run.
Context {W : Type} (handle : forall r, W -> outcome_of (response r) * W).

Fixpoint run {A} (m : prog A) (w : W) : A * W * list event :=
  match m with
  | Ret a => (a, w, [])
  | Call r k =>
      let '(x, w1) := handle r w in
      let '(a, w2, tr) := run (k x) w1 in
      (a, w2, Ev r x :: tr)
  end.

Lemma run_exec {A} (m : prog A) w a w' tr : run m w = (a, w', tr) -> exec m tr a.
Proof.
  revert w w' tr. induction m as [b|r k IH]; intros w w' tr; cbn [run exec].
  - intros [= -> _ <-]. done.
  - destruct (handle r w) as [x w1]. destruct (run (k x) w1) as [[b w2] tr'] eqn:E.
    intros [= -> _ <-]. eauto.
Qed.
End run.

(** ** Classes of programs *)

Class ReadOnly {A} (m : prog A) : Prop :=
  read_only : forall tr a, exec m tr a -> mutations tr = [].

Class AtMostOne {A} (m : prog A) : Prop :=
  at_most_one : forall tr a, exec m tr a -> length (mutations tr) <= 1.

#[export] Hint Mode ReadOnly + ! : typeclass_instances.
#[export] Hint Mode AtMostOne + ! : typeclass_instances.

#[export] Instance ReadOnly_Ret {A} (a : A) : ReadOnly (Ret a).
Proof. by intros tr b [-> ->]. Qed.

Lemma ReadOnly_Call {A} r (k : _ -> prog A) :
  isMutation r = false -> (forall x, ReadOnly (k x)) -> ReadOnly (Call r k).
Proof.
  intros Hr Hk tr a (x & tr' & -> & H). rewrite mutations_cons. simpl. rewrite Hr.
  by apply (Hk x) in H.
Qed.

Lemma ReadOnly_bind {A B} (m : prog A) (f : A -> prog B) :
  ReadOnly m -> (forall a, ReadOnly (f a)) -> ReadOnly (bind m f).
Proof.
  intros Hm Hf tr b (tr1 & tr2 & a & -> & H1 & H2)%exec_bind. rewrite mutations_app.
  by rewrite (Hm _ _ H1), (Hf _ _ _ H2).
Qed.

Lemma ReadOnly_mbind {A B} (m : M A) (f : A -> M B) :
  ReadOnly m -> (forall a, ReadOnly (f a)) -> ReadOnly (mbind m f).
Proof. intros Hm Hf. apply ReadOnly_bind; [done|]. intros [a|e]; [done|apply _]. Qed.

Lemma ReadOnly_mfold {A B} (f : B -> A -> M B) acc l :
  (forall b x, ReadOnly (f b x)) -> ReadOnly (mfold f acc l).
Proof.
  intros Hf. revert acc. induction l as [|x l IH]; intros acc; [apply ReadOnly_Ret|].
  cbn [mfold]. by apply ReadOnly_mbind.
Qed.

(** A single request of any kind. *)
Lemma AtMostOne_Call {A} r (k : _ -> prog A) :
  (forall x, ReadOnly (k x)) -> AtMostOne (Call r k).
Proof.
  intros Hk tr a (x & tr' & -> & H). rewrite mutations_cons, (Hk x _ _ H).
  destruct (isMutation _); simpl; lia.
Qed.

Lemma AtMostOne_ReadOnly {A} (m : prog A) : ReadOnly m -> AtMostOne m.
Proof. intros Hm tr a H. rewrite (Hm _ _ H). simpl. lia. Qed.

(** First observe, then change at most one thing. *)
Lemma AtMostOne_bind {A B} (m : prog A) (f : A -> prog B) :
  ReadOnly m -> (forall a, AtMostOne (f a)) -> AtMostOne (bind m f).
Proof.
  intros Hm Hf tr b (tr1 & tr2 & a & -> & H1 & H2)%exec_bind. rewrite mutations_app.
  rewrite (Hm _ _ H1). by apply (Hf a) in H2.
Qed.

(** Change at most one thing, then only look at the response. *)
Lemma AtMostOne_bind_l {A B} (m : prog A) (f : A -> prog B) :
  AtMostOne m -> (forall a, ReadOnly (f a)) -> AtMostOne (bind m f).
Proof.
  intros Hm Hf tr b (tr1 & tr2 & a & -> & H1 & H2)%exec_bind. rewrite mutations_app.
  rewrite (Hf a _ _ H2), app_nil_r. by apply Hm in H1.
Qed.

(** [Transition quiet m]: an execution of [m] changes at most one thing, and
    nothing at all when its result is quiet (the caller may go on). *)
Class Transition {A} (quiet : A -> bool) (m : M A) : Prop :=
  transition : forall tr r, exec m tr r ->
    length (mutations tr) <= 1 /\
    match r with Ok a => quiet a = true -> mutations tr = [] | Err _ => True end.

Lemma Transition_ReadOnly {A} (quiet : A -> bool) (m : M A) : ReadOnly m -> Transition quiet m.
Proof.
  intros Hm tr r Hr. rewrite (Hm _ _ Hr). split; [simpl; lia|]. by destruct r.
Qed.

(** Go on after an observation, or after a transition whose result is quiet;
    otherwise return a result that is not quiet. *)
Lemma Transition_mbind {A B} (q : A -> bool) (q' : B -> bool) (m : M A) (f : A -> M B) :
  Transition q m ->
  (forall a, if q a then Transition q' (f a) else exists b, f a = ret b /\ q' b = false) ->
  Transition q' (mbind m f).
Proof.
  intros Hm Hf tr r [(e & -> & H)|(tr1 & tr2 & a & -> & H1 & H2)]%exec_mbind.
  - by destruct (Hm _ _ H).
  - destruct (Hm _ _ H1) as [Hle Hq]. rewrite mutations_app. specialize (Hf a).
    destruct (q a).
    + rewrite Hq by done. exact (Hf _ _ H2).
    + destruct Hf as (b & Hb & Hq'). rewrite Hb in H2. apply exec_ret in H2 as [-> ->].
      change (mutations []) with (@nil request). rewrite app_nil_r. split; [done|congruence].
Qed.

Lemma Transition_mbind_readonly {A B} (q : B -> bool) (m : M A) (f : A -> M B) :
  ReadOnly m -> (forall a, Transition q (f a)) -> Transition q (mbind m f).
Proof.
  intros Hm Hf. apply (Transition_mbind (fun _ => true)); [|exact Hf].
  by apply Transition_ReadOnly.
Qed.

(** A last request whose result is not quiet. *)
Lemma Transition_last {A} (q : A -> bool) (m : M A) :
  AtMostOne m -> (forall tr a, exec m tr (Ok a) -> q a = false) -> Transition q m.
Proof.
  intros Hm Hq tr r Hr. split; [by apply Hm in Hr|]. destruct r as [a|]; [|done].
  by rewrite (Hq _ _ Hr).
Qed.

Lemma Transition_onError {A} (q : A -> bool) g (m : M A) : Transition q m -> Transition q (onError g m).
Proof.
  intros Hm tr r ([a|e] & Hr & ->)%exec_onError; by destruct (Hm _ _ Hr).
Qed.

(** A loop invariant over the processed prefix and the trace so far. *)
Lemma exec_mfold_inv {A B} (f : B -> A -> M B) (P : B -> list A -> list event -> Prop) acc l tr acc' :
  P acc [] [] ->
  (forall b pre t x t' b', x ∈ l -> P b pre t -> exec (f b x) t' (Ok b') ->
                           P b' (pre ++ [x]) (t ++ t')) ->
  exec (mfold f acc l) tr (Ok acc') -> P acc' l tr.
Proof.
  enough (forall pre t acc tr, P acc pre t -> exec (mfold f acc l) tr (Ok acc') ->
    (forall b pre t x t' b', x ∈ l -> P b pre t -> exec (f b x) t' (Ok b') ->
                             P b' (pre ++ [x]) (t ++ t')) ->
    P acc' (pre ++ l) (t ++ tr)) as Hgen by (intros; by apply (Hgen [] [] acc tr)).
  clear acc tr. induction l as [|x l IH]; intros pre t acc tr H0 H Hs; cbn [mfold] in H.
  - apply exec_ret in H as [-> [= ->]]. by rewrite !app_nil_r.
  - apply exec_mbind_ok in H as (tr1 & tr2 & b & -> & H1 & H2).
    rewrite (app_assoc t). replace (pre ++ x :: l) with ((pre ++ [x]) ++ l) by by rewrite <- app_assoc.
    eapply IH; [|exact H2|].
    + eapply Hs; [by left|done|done].
    + intros. eapply Hs; [by right|done|done].
Qed.

(** [solve_readonly]: read-only along the structure of the program, using the
    instances already proved for the procedures it calls. *)
Ltac solve_readonly_step :=
  first
    [ apply _
    | apply ReadOnly_mbind; [|intros ?]
    | apply ReadOnly_bind; [|intros ?]
    | apply ReadOnly_mfold; intros ? ?
    | apply ReadOnly_Call; [reflexivity|intros ?]
    | match goal with |- ReadOnly (match ?x with _ => _ end) => destruct x end
    | match goal with |- ReadOnly ?m => progress unfold call, wrap, onError, ret, raise, lift, try end ].
Ltac solve_readonly := intros; repeat solve_readonly_step.

(** [solve_at_most_one]: reads first, at most one mutation, then nothing. *)
Ltac solve_at_most_one_step :=
  first
    [ apply _
    | apply AtMostOne_ReadOnly; solve [solve_readonly]
    | apply AtMostOne_Call; solve [solve_readonly]
    | match goal with
      | |- AtMostOne (mbind _ _) => unfold mbind
      | |- AtMostOne (match ?x with _ => _ end) => destruct x
      | |- AtMostOne ?m => progress unfold call, wrap, onError, ret, raise, lift, try
      end
    | apply AtMostOne_bind; [solve [solve_readonly]|intros ?]
    | apply AtMostOne_bind_l; [|intros ?; solve [solve_readonly]] ].
Ltac solve_at_most_one := intros; repeat solve_at_most_one_step.

(** ** Successful requests *)

Lemma exec_wrap_ok {A} fmt args (m : M A) tr a :
  exec (wrap fmt args m) tr (Ok a) <-> exec m tr (Ok a).
Proof. apply exec_onError_ok. Qed.

Lemma listItems_ok {A} what (r : outcome_of (outcome_of (list A))) items :
  listItems what r = Ok items <-> r = Ok (Ok items).
Proof. destruct r as [[]|]; simpl; naive_solver. Qed.

Ltac solve_exec_list :=
  intros; cbn [exec]; split;
  [ intros (x & tr' & -> & -> & Hx); symmetry in Hx; apply listItems_ok in Hx; by rewrite Hx
  | intros ->; eexists _, []; split; [done|]; done ].

Lemma exec_ListLoadBalancers opts tr items :
  exec (ListLoadBalancers opts) tr (Ok items) <-> tr = [Ev (ReqListLoadBalancers opts) (Ok (Ok items))].
Proof. solve_exec_list. Qed.
Lemma exec_ListListeners opts tr items :
  exec (ListListeners opts) tr (Ok items) <-> tr = [Ev (ReqListListeners opts) (Ok (Ok items))].
Proof. solve_exec_list. Qed.
Lemma exec_ListPools opts tr items :
  exec (ListPools opts) tr (Ok items) <-> tr = [Ev (ReqListPools opts) (Ok (Ok items))].
Proof. solve_exec_list. Qed.
Lemma exec_ListMembers id opts tr items :
  exec (ListMembers id opts) tr (Ok items) <-> tr = [Ev (ReqListMembers id opts) (Ok (Ok items))].
Proof. solve_exec_list. Qed.
Lemma exec_ListMonitors opts tr items :
  exec (ListMonitors opts) tr (Ok items) <-> tr = [Ev (ReqListMonitors opts) (Ok (Ok items))].
Proof. solve_exec_list. Qed.
Lemma exec_ListPolicies opts tr items :
  exec (ListPolicies opts) tr (Ok items) <-> tr = [Ev (ReqListPolicies opts) (Ok (Ok items))].
Proof. solve_exec_list. Qed.
Lemma exec_ListRules id opts tr items :
  exec (ListRules id opts) tr (Ok items) <-> tr = [Ev (ReqListRules id opts) (Ok (Ok items))].
Proof. solve_exec_list. Qed.
Lemma exec_ListFloatingIPs opts tr items :
  exec (ListFloatingIPs opts) tr (Ok items) <-> tr = [Ev (ReqListFloatingIPs opts) (Ok (Ok items))].
Proof. solve_exec_list. Qed.

Lemma exec_call r tr a : exec (call r) tr a <-> tr = [Ev r a].
Proof.
  unfold call. cbn [exec]. split.
  - intros (x & tr' & -> & -> & ->). done.
  - intros ->. eexists _, []. done.
Qed.

(** [inv_exec]: take apart executions that ended normally. *)
Ltac inv_exec_step :=
  match goal with
  | u : unit |- _ => destruct u
  | H : exec (mbind _ _) _ (Ok _) |- _ =>
      apply exec_mbind_ok in H as (? & ? & ? & -> & ? & ?)
  | H : exec (ret _) _ (Ok _) |- _ =>
      apply exec_ret in H as [-> H]; simplify_eq
  | H : exec (raise _) _ (Ok _) |- _ => by apply exec_raise in H as [_ ?]
  | H : exec (lift _) _ _ |- _ => apply exec_lift in H as [-> H]; symmetry in H
  | H : exec (wrap _ _ _) _ (Ok _) |- _ => apply exec_wrap_ok in H
  | H : exec (onError _ _) _ (Ok _) |- _ => apply exec_onError_ok in H
  | H : exec (ListLoadBalancers _) _ (Ok _) |- _ => apply exec_ListLoadBalancers in H as ->
  | H : exec (ListListeners _) _ (Ok _) |- _ => apply exec_ListListeners in H as ->
  | H : exec (ListPools _) _ (Ok _) |- _ => apply exec_ListPools in H as ->
  | H : exec (ListMembers _ _) _ (Ok _) |- _ => apply exec_ListMembers in H as ->
  | H : exec (ListMonitors _) _ (Ok _) |- _ => apply exec_ListMonitors in H as ->
  | H : exec (ListPolicies _) _ (Ok _) |- _ => apply exec_ListPolicies in H as ->
  | H : exec (ListRules _ _) _ (Ok _) |- _ => apply exec_ListRules in H as ->
  | H : exec (ListFloatingIPs _) _ (Ok _) |- _ => apply exec_ListFloatingIPs in H as ->
  end.
Ltac inv_exec := repeat inv_exec_step.

(** A loop that validates each item and appends one element per item. *)
Lemma exec_check_loop {A B} (check : A -> outcome_of unit) (step : A -> B) base l tr plan :
  exec (mfold (fun plan x => let! _ := lift (check x) in ret (plan ++ [step x])) base l) tr (Ok plan) ->
  tr = [] /\ plan = base ++ (step <$> l) /\ Forall (fun x => check x = Ok tt) l.
Proof.
  intros H. eapply (exec_mfold_inv _ (fun plan pre t =>
    t = [] /\ plan = base ++ (step <$> pre) /\ Forall (fun x => check x = Ok tt) pre)) in H; [done| |].
  - simpl. by rewrite app_nil_r.
  - clear. intros b pre t x t' b' _ (-> & -> & Hc) H. inv_exec.
    rewrite fmap_app, Forall_app. simpl. rewrite app_assoc. naive_solver.
Qed.

(** ** Observe, then change one thing *)

(** Either nothing was changed, or the last request is the only change and [P]
    holds of what was observed before it. *)
Definition LastMutation (P : list event -> request -> Prop) (tr : list event) : Prop :=
  mutations tr = [] \/
  exists tr0 m x, tr = tr0 ++ [Ev m x] /\ mutations tr0 = [] /\ isMutation m = true /\ P tr0 m.

Lemma LastMutation_impl (P Q : list event -> request -> Prop) tr :
  (forall t m, P t m -> Q t m) -> LastMutation P tr -> LastMutation Q tr.
Proof. intros HPQ [?|(t & m & x & -> & ? & ? & ?)]; [by left|]. right. exists t, m, x. auto. Qed.

Lemma LastMutation_prefix P t1 t2 :
  mutations t1 = [] -> LastMutation (fun t => P (t1 ++ t)) t2 -> LastMutation P (t1 ++ t2).
Proof.
  intros H1 [H2|(t & m & x & -> & H2 & Hm & HP)].
  - left. by rewrite mutations_app, H1, H2.
  - right. exists (t1 ++ t), m, x. rewrite mutations_app, H1, H2. by rewrite <- app_assoc.
Qed.

Lemma LastMutation_mbind {A B} P (m : M A) (f : A -> M B) tr r :
  exec (mbind m f) tr r -> ReadOnly m ->
  (forall t1 a t2, exec m t1 (Ok a) -> exec (f a) t2 r -> LastMutation (fun t => P (t1 ++ t)) t2) ->
  LastMutation P tr.
Proof.
  intros [(e & -> & H)|(t1 & t2 & a & -> & H1 & H2)]%exec_mbind Hm Hf.
  - left. by apply Hm in H.
  - apply LastMutation_prefix; [by apply Hm in H1|]. by eapply Hf.
Qed.

Lemma LastMutation_nil P : LastMutation P [].
Proof. by left. Qed.

Lemma LastMutation_single (P : list event -> request -> Prop) q x :
  (isMutation q = true -> P [] q) -> LastMutation P [Ev q x].
Proof.
  intros HP. destruct (isMutation q) eqn:Hq.
  - right. exists [], q, x. auto.
  - left. unfold mutations. simpl. by rewrite Hq.
Qed.

Lemma LastMutation_at_most_one P tr : LastMutation P tr -> length (mutations tr) <= 1.
Proof.
  intros [->|(t & m & x & -> & H & Hm & _)]; [simpl; lia|].
  rewrite mutations_app, H, mutations_cons. simpl. by rewrite Hm.
Qed.

(** A stage that may change something and then makes the caller return. *)
Lemma LastMutation_stage {A B} (q : A -> bool) P (m : M A) (f : A -> M B) tr r :
  exec (mbind m f) tr r -> Transition q m ->
  (forall t a, exec m t a -> LastMutation P t) ->
  (forall a, q a = false -> exists b, f a = ret b) ->
  (forall t1 a t2, exec m t1 (Ok a) -> q a = true -> exec (f a) t2 r ->
                   LastMutation (fun t => P (t1 ++ t)) t2) ->
  LastMutation P tr.
Proof.
  intros [(e & -> & H)|(t1 & t2 & a & -> & H1 & H2)]%exec_mbind Hm HP Hstop Hf; [by eapply HP|].
  destruct (q a) eqn:Hq.
  - apply LastMutation_prefix; [by apply (Hm _ _ H1)|]. by eapply Hf.
  - destruct (Hstop a Hq) as [b Hb]. rewrite Hb in H2. apply exec_ret in H2 as [-> _].
    rewrite app_nil_r. by eapply HP.
Qed.

(** A mutation followed by a progressing result. *)
Lemma Transition_mutate {A B} (q : B -> bool) (m : M A) (f : A -> M B) :
  AtMostOne m -> (forall a, ReadOnly (f a)) ->
  (forall a tr b, exec (f a) tr (Ok b) -> q b = false) -> Transition q (mbind m f).
Proof.
  intros Hm Hr Hq. apply Transition_last.
  - apply AtMostOne_bind_l; [done|]. intros []; [apply Hr|apply _].
  - intros tr b (tr1 & tr2 & a & -> & _ & H2)%exec_mbind_ok. by eapply Hq.
Qed.

(** [progressing]: the result is a progressing outcome. *)
Ltac progressing :=
  intros; repeat match goal with
  | H : exec (mbind _ _) _ (Ok _) |- _ => apply exec_mbind_ok in H as (?&?&?&?&?&?)
  | H : exec (ret _) _ _ |- _ => apply exec_ret in H as [? [= ->]]
  end; reflexivity.

(** [mutate] and [observe]: one last change, or observations first. *)
Ltac mutate := apply Transition_mutate; [solve_at_most_one|solve_readonly|progressing].
Ltac observe :=
  repeat first
    [ apply Transition_ReadOnly; solve [solve_readonly]
    | apply Transition_mbind_readonly; [solve [solve_readonly]|intros ?]
    | match goal with |- Transition _ (match ?x with _ => _ end) => destruct x end ].
