(* ===== verification/GatewayGraph.v ===== *)
(** * The Gateway graph

    Models the Gateway half of [internal/cloud/openstack/graph]: the provider
    and its identity checks ([provider.go]), the observation of the load
    balancer ([loadbalancer_status.go]), the deletion plan
    ([gateway_deletion_plan.go]), [EnsureGateway] and [GetGateway]
    ([gateway.go]) and [DeleteGateway] ([delete.go]).  Contexts and timeouts
    only show as errors of requests. *)
From stdpp Require Import base list strings.
From Stdlib Require Import Ascii NArith ZArith Lia.
From S2P Require Import Prelude GoStrings Cloud ApiErrors Metadata OpenStack.

Set Default Goal Selector "!".

(** ** The provider (provider.go) *)

Record Provider := mkProvider {
  p_projectID : string;
  p_operationTimeout : Z;
  p_pollInterval : Z
}.

Definition second : Z := 1000000000.

Definition NewProvider (projectID : string) (operationTimeout pollInterval : Z) : Provider :=
  mkProvider projectID
    (if (operationTimeout <=? 0)%Z then (600 * second)%Z else operationTimeout)
    (if (pollInterval <=? 0)%Z then (2 * second)%Z else pollInterval).

(** An ownership conflict with its message. *)
Definition conflict (format : string) (args : list string) : error :=
  Errorf ("%w: " ^^ format) args (Some ErrOwnershipConflict).

(** [Provider.identity]. *)
Definition provider_identity (p : Provider) (id : Identity) : outcome_of Identity :=
  if blank (p_projectID p)
  then Err (Errorf "authenticated OpenStack project ID is missing from service clients" [] None)
  else if blank (OpenStackProjectID id)
  then Err (Errorf "controller resource identity must include an OpenStack project ID" [] None)
  else if negb (String.eqb (OpenStackProjectID id) (p_projectID p))
  then Err (conflict "identity project %s does not match authenticated project %s"
              [OpenStackProjectID id; p_projectID p])
  else NewIdentity id.

Definition validateLoadBalancerProject (p : Provider) (id projectID : string) : outcome_of unit :=
  if String.eqb projectID (p_projectID p) then Ok tt
  else Err (conflict "load balancer %s belongs to project %s, not authenticated project %s"
              [id; projectID; p_projectID p]).

Definition validateFloatingIPProject (p : Provider) (id projectID tenantID : string)
    : outcome_of unit :=
  let projectID := if String.eqb projectID "" then tenantID else projectID in
  if String.eqb projectID (p_projectID p) then Ok tt
  else Err (conflict "Floating IP %s belongs to project %s, not authenticated project %s"
              [id; projectID; p_projectID p]).

Definition validateOptionalProject (p : Provider) (resource id projectID : string)
    : outcome_of unit :=
  if negb (String.eqb projectID "") && negb (String.eqb projectID (p_projectID p))
  then Err (conflict "%s %s belongs to project %s, not authenticated project %s"
              [resource; id; projectID; p_projectID p])
  else Ok tt.

(** [progressingOutcome]. *)
Definition progressingOutcome (p : Provider) (message : string) : Outcome :=
  ProgressingOutcome message (p_pollInterval p).

(** Orders used with [sort.Slice]. *)
Definition byID {A} (id : A -> string) (x y : A) : bool := String.ltb (id x) (id y).

(** [delete.go] and [gateway.go] treat "not found" as success when they delete. *)
Definition ignoreNotFound `{Gophercloud} (g : error -> error) (m : M unit) : M unit :=
  try m (fun r => Ret match r with
                      | Ok _ => Ok tt
                      | Err e => if isNotFound e then Ok tt else Err (g e)
                      end).

(** ** Resource names (gateway.go) *)

Definition validNameChar (c : ascii) : bool :=
  let n := N_of_ascii c in
  ((65 <=? n) && (n <=? 90) || (97 <=? n) && (n <=? 122) || (48 <=? n) && (n <=? 57) || (n =? 45))%N.

(** Each maximal run of characters outside [A-Za-z0-9-] becomes one dash. *)
Fixpoint replaceInvalid (inRun : bool) (s : string) : string :=
  match s with
  | "" => ""
  | String c s' =>
      if validNameChar c then String c (replaceInvalid false s')
      else if inRun then replaceInvalid true s'
      else String "-" (replaceInvalid true s')
  end.

Definition openStackResourceNamePrefix : string := "gateway-api-openstack".

Definition resourceName (id : Identity) (role : string) : string :=
  let name := openStackResourceNamePrefix ^^ "-" ^^ GatewayNamespace id ^^ "-"
              ^^ GatewayName id ^^ "-" ^^ role in
  let name := replaceInvalid false name in
  if 200 <? String.length name then str_take 200 name else name.

(** ** Observation of the load balancer (loadbalancer_status.go) *)

(** The three phases, with the load balancer where the source sets it. *)
Inductive loadBalancerObservation :=
| phaseActive (loadBalancer : LoadBalancer)
| phasePending (loadBalancer : LoadBalancer) (outcome : Outcome)
| phaseAbsent.

Definition observedLoadBalancer (o : loadBalancerObservation) : option LoadBalancer :=
  match o with
  | phaseActive lb => Some lb
  | phasePending lb _ => Some lb
  | phaseAbsent => None
  end.

Section provider.
Context `{Gophercloud} (p : Provider).

Definition observeLoadBalancerOnce (loadBalancerID : string) : M loadBalancerObservation :=
  try (GetLoadBalancer loadBalancerID) (fun r =>
    match r with
    | Err e =>
        if isNotFound e then ret phaseAbsent
        else raise (Errorf "get load balancer: %w" [] (Some e))
    | Ok lb =>
        if String.eqb (lb_ProvisioningStatus lb) "ACTIVE" then ret (phaseActive lb)
        else if HasPrefix (lb_ProvisioningStatus lb) "PENDING_" then
          ret (phasePending lb
                 (progressingOutcome p ("Octavia load balancer is " ^^ lb_ProvisioningStatus lb)))
        else if String.eqb (lb_ProvisioningStatus lb) "ERROR" then
          raise (NewProviderError ErrorCategoryResourceFailure
            (Some (Errorf "octavia load balancer provisioning status is ERROR" [] None)))
        else
          raise (NewProviderError ErrorCategoryResourceFailure
            (Some (Errorf "octavia load balancer has unknown provisioning status %q"
                     [lb_ProvisioningStatus lb] None)))
    end).

(** ** Discovery (delete.go, gateway.go) *)

Definition findGatewayLoadBalancer (identity : Identity) : M (option LoadBalancer) :=
  let! tags := lift (GatewayDiscoveryTags identity RoleLoadBalancer) in
  let! items := wrap "list managed load balancers: %w" []
                  (ListLoadBalancers (mkListOpts "" (p_projectID p) tags)) in
  match items with
  | [] => ret None
  | [item] =>
      let! _ := lift (validateLoadBalancerProject p (lb_ID item) (lb_ProjectID item)) in
      ret (Some item)
  | _ => raise (conflict "found %d load balancers for one Gateway"
                  [decimal_Z (Z.of_nat (length items))])
  end.

(** One iteration of [findManagedGatewayListener]. *)
Definition manageListener (identity : Identity) (loadBalancerID : string)
    (owned : option Listener) (listener : Listener) : outcome_of (option Listener) :=
  let? _ := validateOptionalProject p "listener" (ls_ID listener) (ls_ProjectID listener) in
  if negb (MatchesGatewayDiscovery identity (ls_Tags listener) RoleListener)
     || negb (MatchesGateway identity (ls_Tags listener) RoleListener)
  then Err (conflict "load balancer %s contains listener %s with an incomplete or foreign identity"
              [loadBalancerID; ls_ID listener])
  else
    match owned with
    | Some _ => Err (conflict "found multiple listeners for one Gateway" [])
    | None =>
        let? _ := forM_ (fun parent =>
          if String.eqb parent loadBalancerID then Ok tt
          else Err (conflict "listener %s reports load balancer %s instead of %s"
                      [ls_ID listener; parent; loadBalancerID])) (ls_Loadbalancers listener) in
        Ok (Some listener)
    end.

Definition findManagedGatewayListener (identity : Identity) (loadBalancerID : string)
    : M (option Listener) :=
  let! listenerList := wrap "list Gateway listeners: %w" []
                         (ListListeners (listBy loadBalancerID (p_projectID p))) in
  lift (foldM (manageListener identity loadBalancerID) None listenerList).

Definition findGatewayListener (identity : Identity) (spec : GatewaySpec) (loadBalancerID : string)
    : M (option Listener) :=
  let! item := findManagedGatewayListener identity loadBalancerID in
  match item with
  | None => ret None
  | Some listener =>
      if negb (String.eqb (ls_Protocol listener) "HTTP")
         || negb (ls_ProtocolPort listener =? gs_ListenerPort spec)%Z
      then raise (conflict "listener %s has protocol %s/%d"
                    [ls_ID listener; ls_Protocol listener; decimal_Z (ls_ProtocolPort listener)])
      else ret (Some listener)
  end.

(** One iteration of the loop of [listGatewayFloatingIPs]. *)
Definition checkGatewayFloatingIP (identity : Identity) (vipPortID : string) (item : FloatingIP)
    : outcome_of unit :=
  let? _ := validateFloatingIPProject p (fip_ID item) (fip_ProjectID item) (fip_TenantID item) in
  if negb (MatchesGatewayDescription identity (fip_Description item) RoleFloatingIP)
  then Err (conflict "VIP port %s has unmanaged Floating IP %s" [vipPortID; fip_ID item])
  else if negb (String.eqb (fip_PortID item) "") && negb (String.eqb (fip_PortID item) vipPortID)
  then Err (conflict "Floating IP %s reports VIP port %s instead of %s"
              [fip_ID item; fip_PortID item; vipPortID])
  else Ok tt.

Definition listGatewayFloatingIPs (identity : Identity) (vipPortID : string)
    : M (list FloatingIP) :=
  let! items := wrap "list Floating IPs on VIP port: %w" []
                  (ListFloatingIPs (listBy vipPortID "")) in
  let! _ := lift (forM_ (checkGatewayFloatingIP identity vipPortID) items) in
  ret (sort_slice (byID fip_ID) items).
End provider.

(** ** The deletion plan (gateway_deletion_plan.go) *)

(** A Go string type with six constants. *)
Inductive gatewayDeletionResource :=
| gatewayDeletionL7Rule
| gatewayDeletionL7Policy
| gatewayDeletionListener
| gatewayDeletionMonitor
| gatewayDeletionMember
| gatewayDeletionPool
| gatewayDeletionOther (value : string).

#[export] Instance gatewayDeletionResource_eq_dec : EqDecision gatewayDeletionResource.
Proof. solve_decision. Defined.

Definition deletionResourceName (r : gatewayDeletionResource) : string :=
  match r with
  | gatewayDeletionL7Rule => "L7 rule"
  | gatewayDeletionL7Policy => "L7 policy"
  | gatewayDeletionListener => "listener"
  | gatewayDeletionMonitor => "health monitor"
  | gatewayDeletionMember => "member"
  | gatewayDeletionPool => "pool"
  | gatewayDeletionOther value => value
  end.

Record gatewayDeletionStep := mkStep {
  st_resource : gatewayDeletionResource;
  st_resourceID : string;
  st_parentID : string
}.

#[export] Instance gatewayDeletionStep_eq_dec : EqDecision gatewayDeletionStep.
Proof. solve_decision. Defined.

Record gatewayDeletionPlan := mkDeletionPlan {
  dp_listeners : list gatewayDeletionStep;
  dp_routes : list gatewayDeletionStep;
  dp_pools : list gatewayDeletionStep
}.

Definition nonEmpty {A} (l : list A) : bool := match l with [] => false | _ => true end.

Definition hasRouteResources (plan : gatewayDeletionPlan) : bool :=
  nonEmpty (dp_routes plan) || nonEmpty (dp_pools plan).

Definition orderedSteps (plan : gatewayDeletionPlan) : list gatewayDeletionStep :=
  dp_routes plan ++ dp_pools plan ++ dp_listeners plan.

Definition firstStep (plan : gatewayDeletionPlan) : option gatewayDeletionStep :=
  head (orderedSteps plan).

Definition matchesAnyGatewayRole (identity : Identity) (tags : list string) (roles : list string)
    : bool := existsb (MatchesGateway identity tags) roles.

(** The comparisons of [sort.Slice] that are not by ID alone. *)
Definition byPosition (x y : L7Policy) : bool :=
  if (lp_Position x =? lp_Position y)%Z then String.ltb (lp_ID x) (lp_ID y)
  else (lp_Position x <? lp_Position y)%Z.
Definition byEndpoint (x y : PoolMember) : bool :=
  if String.eqb (mb_Address x) (mb_Address y) then
    if (mb_ProtocolPort x =? mb_ProtocolPort y)%Z then String.ltb (mb_ID x) (mb_ID y)
    else (mb_ProtocolPort x <? mb_ProtocolPort y)%Z
  else String.ltb (mb_Address x) (mb_Address y).

(** Every reported parent must be the expected one: the inner loops over
    [Loadbalancers] and [Pools]. *)
Definition validateParents (format id : string) (expected : string) (parents : list string)
    : outcome_of unit :=
  forM_ (fun parent => if String.eqb parent expected then Ok tt
                       else Err (conflict format [id; parent; expected])) parents.

Section deletionPlan.
Context (p : Provider).

(** The checks of one iteration of each loop, in the order of the source. *)
Definition checkDeletionListener (identity : Identity) (loadBalancerID : string)
    (listener : Listener) : outcome_of unit :=
  let? _ := validateOptionalProject p "listener" (ls_ID listener) (ls_ProjectID listener) in
  guard? MatchesGateway identity (ls_Tags listener) RoleListener
    else conflict "listener %s" [ls_ID listener] in
  validateParents "listener %s reports load balancer %s instead of %s" (ls_ID listener)
    loadBalancerID (ls_Loadbalancers listener).

Definition checkDeletionPolicy (identity : Identity) (listenerID : string) (policy : L7Policy)
    : outcome_of unit :=
  let? _ := validateOptionalProject p "L7 policy" (lp_ID policy) (lp_ProjectID policy) in
  guard? matchesAnyGatewayRole identity (lp_Tags policy) [RolePolicyExact; RolePolicyPrefix]
    else conflict "L7 policy %s" [lp_ID policy] in
  if negb (String.eqb (lp_ListenerID policy) "")
     && negb (String.eqb (lp_ListenerID policy) listenerID)
  then Err (conflict "L7 policy %s reports listener %s instead of %s"
              [lp_ID policy; lp_ListenerID policy; listenerID])
  else Ok tt.

Definition checkDeletionRule (identity : Identity) (rule : Rule) : outcome_of unit :=
  let? _ := validateOptionalProject p "L7 rule" (lr_ID rule) (lr_ProjectID rule) in
  guard? matchesAnyGatewayRole identity (lr_Tags rule) [RoleRulePath; RoleRuleHost]
    else conflict "L7 rule %s" [lr_ID rule] in
  Ok tt.

Definition validateGatewayDeletionPool (identity : Identity) (pool : Pool)
    (loadBalancerID : string) : outcome_of unit :=
  let? _ := validateOptionalProject p "pool" (pl_ID pool) (pl_ProjectID pool) in
  guard? MatchesGateway identity (pl_Tags pool) RolePool else conflict "pool %s" [pl_ID pool] in
  validateParents "pool %s reports load balancer %s instead of %s" (pl_ID pool)
    loadBalancerID (pl_Loadbalancers pool).

Definition checkDeletionMonitor (identity : Identity) (poolID : string) (monitor : Monitor)
    : outcome_of unit :=
  let? _ := validateOptionalProject p "health monitor" (mn_ID monitor) (mn_ProjectID monitor) in
  guard? MatchesGateway identity (mn_Tags monitor) RoleMonitor
    else conflict "monitor %s" [mn_ID monitor] in
  validateParents "health monitor %s reports pool %s instead of %s" (mn_ID monitor)
    poolID (mn_Pools monitor).

Definition checkDeletionMember (identity : Identity) (poolID : string) (member : PoolMember)
    : outcome_of unit :=
  let? _ := validateOptionalProject p "member" (mb_ID member) (mb_ProjectID member) in
  guard? MatchesGateway identity (mb_Tags member) RoleMember
    else conflict "member %s" [mb_ID member] in
  if negb (String.eqb (mb_PoolID member) "") && negb (String.eqb (mb_PoolID member) poolID)
  then Err (conflict "member %s reports pool %s instead of %s"
              [mb_ID member; mb_PoolID member; poolID])
  else Ok tt.

Definition buildGatewayMemberDeletionPlan (identity : Identity) (poolID : string)
    : M (list gatewayDeletionStep) :=
  let! memberList := wrap "list members beneath pool %s before Gateway deletion: %w" [poolID]
                       (ListMembers poolID (listBy "" (p_projectID p))) in
  mfold (fun plan member =>
    let! _ := lift (checkDeletionMember identity poolID member) in
    ret (plan ++ [mkStep gatewayDeletionMember (mb_ID member) poolID]))
    [] (sort_slice byEndpoint memberList).

Definition buildGatewayMonitorDeletionPlan (identity : Identity) (poolID : string)
    : M (list gatewayDeletionStep) :=
  let! monitorList := wrap "list health monitors beneath pool %s before Gateway deletion: %w" [poolID]
                        (ListMonitors (listBy poolID (p_projectID p))) in
  mfold (fun plan monitor =>
    let! _ := lift (checkDeletionMonitor identity poolID monitor) in
    ret (plan ++ [mkStep gatewayDeletionMonitor (mn_ID monitor) poolID]))
    [] (sort_slice (byID mn_ID) monitorList).

Definition buildGatewayPoolSubtreeDeletionPlan (identity : Identity) (poolID : string)
    : M (list gatewayDeletionStep) :=
  let! monitorPlan := buildGatewayMonitorDeletionPlan identity poolID in
  let! memberPlan := buildGatewayMemberDeletionPlan identity poolID in
  ret (monitorPlan ++ memberPlan ++ [mkStep gatewayDeletionPool poolID ""]).

Definition buildGatewayPoolDeletionPlan (identity : Identity) (loadBalancerID : string)
    : M (list gatewayDeletionStep) :=
  let! poolList := wrap "list pools before Gateway deletion: %w" []
                     (ListPools (listBy loadBalancerID (p_projectID p))) in
  mfold (fun plan pool =>
    let! _ := lift (validateGatewayDeletionPool identity pool loadBalancerID) in
    let! subtree := buildGatewayPoolSubtreeDeletionPlan identity (pl_ID pool) in
    ret (plan ++ subtree))
    [] (sort_slice (byID pl_ID) poolList).

(** The body of the loop over the policies of a listener. *)
Definition planPolicyDeletion (identity : Identity) (listenerID : string)
    (plan : list gatewayDeletionStep) (policy : L7Policy) : M (list gatewayDeletionStep) :=
  let! _ := lift (checkDeletionPolicy identity listenerID policy) in
  let! ruleList := wrap "list L7 rules beneath policy %s before Gateway deletion: %w" [lp_ID policy]
                     (ListRules (lp_ID policy) (listBy "" (p_projectID p))) in
  let! plan := mfold (fun plan rule =>
    let! _ := lift (checkDeletionRule identity rule) in
    ret (plan ++ [mkStep gatewayDeletionL7Rule (lr_ID rule) (lp_ID policy)]))
    plan (sort_slice (byID lr_ID) ruleList) in
  ret (plan ++ [mkStep gatewayDeletionL7Policy (lp_ID policy) ""]).

Definition buildGatewayRouteDeletionPlan (identity : Identity) (listenerID : string)
    : M (list gatewayDeletionStep) :=
  let! policyList := wrap "list L7 policies beneath listener %s before Gateway deletion: %w"
                       [listenerID] (ListPolicies (listBy listenerID (p_projectID p))) in
  mfold (planPolicyDeletion identity listenerID) [] (sort_slice byPosition policyList).

(** The body of the loop over the listeners, and the loop: the listener plan
    and the route plan. *)
Definition planListenerDeletion (identity : Identity) (loadBalancerID : string)
    (plans : list gatewayDeletionStep * list gatewayDeletionStep) (listener : Listener)
    : M (list gatewayDeletionStep * list gatewayDeletionStep) :=
  let! _ := lift (checkDeletionListener identity loadBalancerID listener) in
  let! listenerRoutePlan := buildGatewayRouteDeletionPlan identity (ls_ID listener) in
  ret (fst plans ++ [mkStep gatewayDeletionListener (ls_ID listener) ""],
       snd plans ++ listenerRoutePlan).

Definition buildGatewayListenerDeletionPlans (identity : Identity) (loadBalancerID : string)
    : M (list gatewayDeletionStep * list gatewayDeletionStep) :=
  let! listenerList := wrap "list listeners before Gateway deletion: %w" []
                         (ListListeners (listBy loadBalancerID (p_projectID p))) in
  mfold (planListenerDeletion identity loadBalancerID) ([], [])
    (sort_slice (byID ls_ID) listenerList).

Definition buildGatewayDeletionPlan (identity : Identity) (loadBalancerID : string)
    : M gatewayDeletionPlan :=
  let! (listenerPlan, routePlan) := buildGatewayListenerDeletionPlans identity loadBalancerID in
  let! poolPlan := buildGatewayPoolDeletionPlan identity loadBalancerID in
  ret (mkDeletionPlan listenerPlan routePlan poolPlan).
End deletionPlan.

(** ** EnsureGateway and GetGateway (gateway.go) *)

(** A nil pointer that the source would dereference: the error stands for the
    panic.  [ensureLoadBalancer_ready] and its siblings show that no
    dereference of the source meets it. *)
Definition nilDereference : error := Errorf "invalid memory address or nil pointer dereference" [] None.
Definition deref {A} (x : option A) : outcome_of A :=
  match x with Some a => Ok a | None => Err nilDereference end.

Section gateway.
Context `{Gophercloud} (p : Provider).

(** The immutable fields a managed load balancer must have. *)
Definition immutableFieldsDiffer (identity : Identity) (spec : GatewaySpec) (lb : LoadBalancer)
    : bool :=
  negb (MatchesGateway identity (lb_Tags lb) RoleLoadBalancer)
  || negb (String.eqb (lb_VipSubnetID lb) (gs_VIPSubnetID spec))
  || negb (String.eqb (gs_Provider spec) "") && negb (String.eqb (lb_Provider lb) (gs_Provider spec)).

Definition ensureLoadBalancer (identity : Identity) (spec : GatewaySpec)
    : M (option LoadBalancer * Outcome) :=
  let! tags := lift (GatewayTags identity RoleLoadBalancer) in
  let! discoveryTags := lift (GatewayDiscoveryTags identity RoleLoadBalancer) in
  let! items := wrap "list managed load balancers: %w" []
                  (ListLoadBalancers (mkListOpts "" (p_projectID p) discoveryTags)) in
  match items with
  | [] =>
      let! created := onError (fun e => Errorf "create load balancer: %w" []
                                          (Some (ClassifyOctaviaMutation e)))
        (CreateLoadBalancer
           (mkCreateLoadBalancerOpts (resourceName (gs_Identity spec) RoleLoadBalancer)
              (Description identity RoleLoadBalancer) (gs_VIPSubnetID spec) (gs_Provider spec)
              (Some true) tags)) in
      let! _ := lift (validateLoadBalancerProject p (lb_ID created) (lb_ProjectID created)) in
      ret (None, progressingOutcome p "Created Octavia load balancer")
  | [item] =>
      let! _ := lift (validateLoadBalancerProject p (lb_ID item) (lb_ProjectID item)) in
      if immutableFieldsDiffer identity spec item
      then raise (conflict "load balancer %s does not match the desired immutable fields" [lb_ID item])
      else
        let! observation := observeLoadBalancerOnce p (lb_ID item) in
        match observation with
        | phaseAbsent =>
            ret (None, progressingOutcome p "Octavia load balancer disappeared during observation")
        | phasePending _ outcome => ret (None, outcome)
        | phaseActive observed =>
            let! _ := lift (validateLoadBalancerProject p (lb_ID observed) (lb_ProjectID observed)) in
            if immutableFieldsDiffer identity spec observed
            then raise (conflict "load balancer %s changed immutable fields during observation"
                          [lb_ID observed])
            else ret (Some observed, ReadyOutcome)
        end
  | _ => raise (conflict "found %d load balancers for one Gateway"
                  [decimal_Z (Z.of_nat (length items))])
  end.

Definition enableLoadBalancer (loadBalancerID : string) : M unit :=
  let! _ := onError (fun e => Errorf "enable load balancer: %w" [] (Some (ClassifyOctaviaMutation e)))
              (UpdateLoadBalancer loadBalancerID (Some true)) in
  ret tt.

Definition enableListener (listenerID : string) : M unit :=
  let! _ := onError (fun e => Errorf "enable listener: %w" [] (Some (ClassifyOctaviaMutation e)))
              (UpdateListener listenerID (Some true)) in
  ret tt.

Definition ensureListener (identity : Identity) (spec : GatewaySpec) (loadBalancerID : string)
    (observed : option Listener) (allowAdminRepair : bool) : M (option Listener * Outcome) :=
  match observed with
  | Some listener =>
      if negb (ls_AdminStateUp listener) then
        if negb allowAdminRepair then
          ret (Some listener, progressingOutcome p
                 "Waiting for HTTPRoute validation before enabling the Octavia listener")
        else
          let! _ := enableListener (ls_ID listener) in
          ret (None, progressingOutcome p "Enabled Octavia listener")
      else ret (Some listener, ReadyOutcome)
  | None =>
      let! tags := lift (GatewayTags identity RoleListener) in
      let! created := onError (fun e => Errorf "create listener: %w" []
                                          (Some (ClassifyOctaviaMutation e)))
        (CreateListener
           (mkCreateListenerOpts loadBalancerID "HTTP" (gs_ListenerPort spec) (gs_ListenerName spec)
              (Description identity RoleListener) (Some true) tags)) in
      ret (Some created, progressingOutcome p "Created Octavia listener")
  end.

(** The loop of [ensureFloatingIP]. *)
Definition ownFloatingIP (networkID vipPortID : string) (owned : option FloatingIP)
    (fip : FloatingIP) : outcome_of (option FloatingIP) :=
  if negb (String.eqb (fip_FloatingNetworkID fip) networkID)
  then Err (conflict "Floating IP %s on VIP port %s belongs to external network %s, not %s"
              [fip_ID fip; vipPortID; fip_FloatingNetworkID fip; networkID])
  else match owned with
       | Some _ => Err (conflict "VIP port %s has multiple managed Floating IPs" [vipPortID])
       | None => Ok (Some fip)
       end.

Definition ensureFloatingIP (identity : Identity) (networkID vipPortID : string)
    : M (option FloatingIP * Outcome) :=
  let! floatingIPs := listGatewayFloatingIPs p identity vipPortID in
  let! owned := lift (foldM (ownFloatingIP networkID vipPortID) None floatingIPs) in
  match owned with
  | Some fip => ret (Some fip, ReadyOutcome)
  | None =>
      let! created := wrap "create Floating IP: %w" []
        (CreateFloatingIP (mkCreateFloatingIPOpts (GatewayDescription identity RoleFloatingIP)
                             networkID vipPortID)) in
      let! _ := lift (validateFloatingIPProject p (fip_ID created) (fip_ProjectID created)
                        (fip_TenantID created)) in
      ret (Some created, progressingOutcome p "Allocated Floating IP")
  end.

Definition ensureNoFloatingIP (identity : Identity) (vipPortID : string) : M Outcome :=
  let! items := listGatewayFloatingIPs p identity vipPortID in
  match items with
  | [] => ret ReadyOutcome
  | item :: _ =>
      let! _ := ignoreNotFound
        (fun e => Errorf "delete no-longer-configured Floating IP %s: %w" [fip_ID item] (Some e))
        (DeleteFloatingIP (fip_ID item)) in
      ret (progressingOutcome p "Removed a no-longer-configured Floating IP")
  end.

Definition gatewayFloatingIPReadyForTraffic (identity : Identity)
    (vipPortID externalNetworkID : string) : M bool :=
  let! items := listGatewayFloatingIPs p identity vipPortID in
  if String.eqb externalNetworkID "" then ret (negb (nonEmpty items))
  else
    match items with
    | [] => ret false
    | [item] =>
        if String.eqb (fip_FloatingNetworkID item) externalNetworkID then ret true
        else raise (conflict "Floating IP %s on VIP port %s belongs to external network %s, not %s"
                      [fip_ID item; vipPortID; fip_FloatingNetworkID item; externalNetworkID])
    | _ => raise (conflict "VIP port %s has multiple managed Floating IPs" [vipPortID])
    end.

(** The Floating IP stage of [EnsureGateway]: an outcome to return early, or
    the ID and the address for the state. *)
Definition ensureGatewayFloatingIP (identity : Identity) (spec : GatewaySpec) (vipPortID : string)
    : M (Outcome + string * string) :=
  if negb (String.eqb (gs_ExternalNetworkID spec) "") then
    let! (floatingIP, outcome) := ensureFloatingIP identity (gs_ExternalNetworkID spec) vipPortID in
    if isProgressing outcome then ret (inl outcome)
    else
      let! fip := lift (deref floatingIP) in
      ret (inr (fip_ID fip, fip_FloatingIP fip))
  else
    let! outcome := ensureNoFloatingIP identity vipPortID in
    if isProgressing outcome then ret (inl outcome) else ret (inr ("", "")).

(** The stages of [EnsureGateway] after the graph below the load balancer was
    validated: Floating IP, listener, administrative state. *)
Definition ensureValidatedGateway (identity : Identity) (spec : GatewaySpec)
    (loadBalancer : LoadBalancer) (routeResources : bool) (observedListener : option Listener)
    : M GatewayResult :=
  let lbID := lb_ID loadBalancer in
  let vipPortID := lb_VipPortID loadBalancer in
  let state fipID fipAddress listenerID :=
    mkGatewayState lbID vipPortID (lb_VipAddress loadBalancer) fipID fipAddress listenerID in
  let! floatingIP := ensureGatewayFloatingIP identity spec vipPortID in
  match floatingIP with
  | inl outcome => ret (mkGatewayResult (state "" "" "") outcome)
  | inr (fipID, fipAddress) =>
      let! (listener, listenerOutcome) :=
        ensureListener identity spec lbID observedListener (negb routeResources) in
      if isProgressing listenerOutcome
      then ret (mkGatewayResult (state fipID fipAddress "") listenerOutcome)
      else
        let! listener := lift (deref listener) in
        let state := state fipID fipAddress (ls_ID listener) in
        if negb (lb_AdminStateUp loadBalancer) then
          if routeResources then
            ret (mkGatewayResult state (progressingOutcome p
                   "Waiting for HTTPRoute validation before enabling the Octavia load balancer"))
          else
            let! _ := enableLoadBalancer lbID in
            ret (mkGatewayResult state (progressingOutcome p "Enabled Octavia load balancer"))
        else ret (GatewayReadyResult state)
  end.

(** [EnsureGateway] before the deferred classification of its error. *)
Definition ensureGateway (spec : GatewaySpec) : M GatewayResult :=
  let! identity := lift (provider_identity p (gs_Identity spec)) in
  if blank (gs_VIPSubnetID spec) then
    raise (NewProviderError ErrorCategoryTerminalValidation
             (Some (Errorf "VIP subnet ID must not be empty" [] None)))
  else if ((gs_ListenerPort spec <? 1) || (65535 <? gs_ListenerPort spec))%Z then
    raise (NewProviderError ErrorCategoryTerminalValidation
             (Some (Errorf "listener port %d is outside 1-65535"
                      [decimal_Z (gs_ListenerPort spec)] None)))
  else
    let! (found, outcome) := ensureLoadBalancer identity spec in
    if isProgressing outcome then ret (mkGatewayResult zeroGatewayState outcome)
    else
      let! loadBalancer := lift (deref found) in
      let! deletionPlan := wrap "validate Gateway graph before mutation: %w" []
                             (buildGatewayDeletionPlan p identity (lb_ID loadBalancer)) in
      let! observedListener := findGatewayListener p identity spec (lb_ID loadBalancer) in
      ensureValidatedGateway identity spec loadBalancer (hasRouteResources deletionPlan)
        observedListener.

Definition EnsureGateway (spec : GatewaySpec) : M GatewayResult :=
  onError Classify (ensureGateway spec).

(** The loop of [GetGateway] over the Floating IPs. *)
Definition recordFloatingIP (vipPortID : string) (state : GatewayState) (item : FloatingIP)
    : outcome_of GatewayState :=
  if negb (String.eqb (FloatingIPID state) "")
  then Err (conflict "VIP port %s has multiple managed Floating IPs" [vipPortID])
  else Ok (mkGatewayState (LoadBalancerID state) (VIPPortID state) (VIPAddress state)
             (fip_ID item) (fip_FloatingIP item) (ListenerID state)).

(** The part of [GetGateway] after the load balancer was found active. *)
Definition getActiveGateway (identity : Identity) (loadBalancer : LoadBalancer)
    : M (GatewayResult * bool) :=
  let! _ := lift (validateLoadBalancerProject p (lb_ID loadBalancer) (lb_ProjectID loadBalancer)) in
  if negb (MatchesGateway identity (lb_Tags loadBalancer) RoleLoadBalancer)
  then raise (conflict "load balancer %s changed immutable identity during observation"
                [lb_ID loadBalancer])
  else if negb (lb_AdminStateUp loadBalancer)
  then ret (GatewayProgressingResult "Octavia load balancer is administratively disabled"
              (p_pollInterval p), true)
  else
    let! found := findManagedGatewayListener p identity (lb_ID loadBalancer) in
    match found with
    | None => ret (GatewayProgressingResult "Octavia listener has not been created"
                     (p_pollInterval p), true)
    | Some listener =>
        if negb (String.eqb (ls_Protocol listener) "HTTP")
        then raise (conflict "listener %s has protocol %s" [ls_ID listener; ls_Protocol listener])
        else if negb (ls_AdminStateUp listener)
        then ret (GatewayProgressingResult "Octavia listener is administratively disabled"
                    (p_pollInterval p), true)
        else
          let state := mkGatewayState (lb_ID loadBalancer) (lb_VipPortID loadBalancer)
                         (lb_VipAddress loadBalancer) "" "" (ls_ID listener) in
          let! items := listGatewayFloatingIPs p identity (lb_VipPortID loadBalancer) in
          let! state := lift (foldM (recordFloatingIP (lb_VipPortID loadBalancer)) state items) in
          ret (GatewayReadyResult state, true)
    end.

Definition zeroGatewayResult : GatewayResult := mkGatewayResult zeroGatewayState zeroOutcome.

(** The result and whether a Gateway was found. *)
Definition GetGateway (resourceIdentity : Identity) : M (GatewayResult * bool) :=
  onError Classify (
    let! identity := lift (provider_identity p resourceIdentity) in
    let! found := findGatewayLoadBalancer p identity in
    match found with
    | None => ret (zeroGatewayResult, false)
    | Some loadBalancer =>
        if negb (MatchesGateway identity (lb_Tags loadBalancer) RoleLoadBalancer)
        then raise (conflict "load balancer %s has an incomplete or stale identity"
                      [lb_ID loadBalancer])
        else
          let! observation := observeLoadBalancerOnce p (lb_ID loadBalancer) in
          match observation with
          | phaseAbsent => ret (zeroGatewayResult, false)
          | phasePending _ outcome => ret (mkGatewayResult zeroGatewayState outcome, true)
          | phaseActive loadBalancer => getActiveGateway identity loadBalancer
          end
    end).

(** ** DeleteGateway (delete.go) *)

Definition deleteGatewayResource (step : gatewayDeletionStep) : M unit :=
  match st_resource step with
  | gatewayDeletionL7Rule => DeleteRule (st_parentID step) (st_resourceID step)
  | gatewayDeletionL7Policy => DeletePolicy (st_resourceID step)
  | gatewayDeletionListener => DeleteListener (st_resourceID step)
  | gatewayDeletionMonitor => DeleteMonitor (st_resourceID step)
  | gatewayDeletionMember => DeleteMember (st_parentID step) (st_resourceID step)
  | gatewayDeletionPool => DeletePool (st_resourceID step)
  | gatewayDeletionOther value => raise (Errorf "unsupported Gateway deletion resource %q" [value] None)
  end.

Definition executeGatewayDeletionStep (step : gatewayDeletionStep) : M unit :=
  ignoreNotFound
    (fun e => Errorf "delete %s %s: %w" [deletionResourceName (st_resource step); st_resourceID step]
                (Some (ClassifyOctaviaMutation e)))
    (deleteGatewayResource step).

(** The checks of [DeleteGateway] on the load balancer it observed. *)
Definition checkObservedLoadBalancer (identity : Identity) (managedID : string)
    (o : loadBalancerObservation) : outcome_of unit :=
  match observedLoadBalancer o with
  | None => Ok tt
  | Some lb =>
      if negb (String.eqb (lb_ID lb) managedID)
      then Err (conflict "requested load balancer %s but OpenStack returned %s" [managedID; lb_ID lb])
      else
        let? _ := validateLoadBalancerProject p (lb_ID lb) (lb_ProjectID lb) in
        if negb (MatchesGateway identity (lb_Tags lb) RoleLoadBalancer)
        then Err (conflict "load balancer %s changed identity after discovery" [lb_ID lb])
        else Ok tt
  end.

Definition checkDeletionFloatingIP (identity : Identity) (floatingIP : FloatingIP)
    : outcome_of unit :=
  let? _ := validateFloatingIPProject p (fip_ID floatingIP) (fip_ProjectID floatingIP)
              (fip_TenantID floatingIP) in
  guard? MatchesGatewayDescription identity (fip_Description floatingIP) RoleFloatingIP
    else conflict "Floating IP %s" [fip_ID floatingIP] in
  Ok tt.

(** The part of [DeleteGateway] that runs once the graph is validated. *)
Definition deleteValidatedGateway (loadBalancerID : string) (plan : gatewayDeletionPlan)
    (floatingIPs : list FloatingIP) : M Outcome :=
  match firstStep plan with
  | Some step =>
      let! _ := executeGatewayDeletionStep step in
      ret (progressingOutcome p ("Deleting controller-owned " ^^ deletionResourceName (st_resource step)))
  | None =>
      match sort_slice (byID fip_ID) floatingIPs with
      | fip :: _ =>
          let! _ := ignoreNotFound (fun e => Errorf "delete Floating IP %s: %w" [fip_ID fip] (Some e))
                      (DeleteFloatingIP (fip_ID fip)) in
          ret (progressingOutcome p "Deleting controller-owned Floating IP")
      | [] =>
          let! _ := ignoreNotFound
                      (fun e => Errorf "delete load balancer %s without cascade: %w" [loadBalancerID]
                                  (Some (ClassifyOctaviaMutation e)))
                      (DeleteLoadBalancer loadBalancerID) in
          ret (progressingOutcome p "Deleting Octavia load balancer")
      end
  end.

(** Deletion of an active load balancer's graph. *)
Definition deleteActiveGateway (identity : Identity) (lb : LoadBalancer) : M Outcome :=
  let! deletionPlan := buildGatewayDeletionPlan p identity (lb_ID lb) in
  let! floatingIPs := wrap "list Floating IPs before Gateway deletion: %w" []
                        (ListFloatingIPs (listBy (lb_VipPortID lb) (p_projectID p))) in
  let! _ := lift (forM_ (checkDeletionFloatingIP identity) floatingIPs) in
  deleteValidatedGateway (lb_ID lb) deletionPlan floatingIPs.

Definition DeleteGateway (cloudIdentity : Identity) : M Outcome :=
  onError Classify (
    let! identity := lift (provider_identity p cloudIdentity) in
    let! found := findGatewayLoadBalancer p identity in
    match found with
    | None => ret ReadyOutcome
    | Some managed =>
        if negb (MatchesGateway identity (lb_Tags managed) RoleLoadBalancer)
        then raise (conflict "load balancer %s" [lb_ID managed])
        else
          let! observation := observeLoadBalancerOnce p (lb_ID managed) in
          let! _ := lift (checkObservedLoadBalancer identity (lb_ID managed) observation) in
          match observation with
          | phaseAbsent => ret ReadyOutcome
          | phasePending _ outcome => ret outcome
          | phaseActive lb => deleteActiveGateway identity lb
          end
    end).
End gateway.
