(* ===== verification/GatewayFacts.v ===== *)
(** * Theorems about the Gateway graph

    For every execution of [EnsureGateway], [GetGateway] and [DeleteGateway],
    whatever OpenStack answers: how many requests change anything, what the
    provider has checked before one does, and the order of a deletion. *)
From stdpp Require Import base list strings sets.
From Stdlib Require Import ZArith Lia.
From S2P Require Import Prelude GoStrings Cloud ApiErrors Metadata OpenStack ProgramLogic GatewayGraph.

Set Default Goal Selector "!".

(** ** Observation never changes anything *)

Section readonly.
Context `{Gophercloud} (p : Provider).

#[export] Instance observeLoadBalancerOnce_ReadOnly id : ReadOnly (observeLoadBalancerOnce p id).
Proof. unfold observeLoadBalancerOnce, GetLoadBalancer. solve_readonly. Qed.

#[export] Instance findGatewayLoadBalancer_ReadOnly identity :
  ReadOnly (findGatewayLoadBalancer p identity).
Proof. unfold findGatewayLoadBalancer, ListLoadBalancers. solve_readonly. Qed.

#[export] Instance findManagedGatewayListener_ReadOnly identity id :
  ReadOnly (findManagedGatewayListener p identity id).
Proof. unfold findManagedGatewayListener, ListListeners. solve_readonly. Qed.

#[export] Instance findGatewayListener_ReadOnly identity spec id :
  ReadOnly (findGatewayListener p identity spec id).
Proof. unfold findGatewayListener. solve_readonly. Qed.

#[export] Instance listGatewayFloatingIPs_ReadOnly identity port :
  ReadOnly (listGatewayFloatingIPs p identity port).
Proof. unfold listGatewayFloatingIPs, ListFloatingIPs. solve_readonly. Qed.

#[export] Instance gatewayFloatingIPReadyForTraffic_ReadOnly identity port net :
  ReadOnly (gatewayFloatingIPReadyForTraffic p identity port net).
Proof. unfold gatewayFloatingIPReadyForTraffic. solve_readonly. Qed.

#[export] Instance buildGatewayMemberDeletionPlan_ReadOnly identity id :
  ReadOnly (buildGatewayMemberDeletionPlan p identity id).
Proof. unfold buildGatewayMemberDeletionPlan, ListMembers. solve_readonly. Qed.

#[export] Instance buildGatewayMonitorDeletionPlan_ReadOnly identity id :
  ReadOnly (buildGatewayMonitorDeletionPlan p identity id).
Proof. unfold buildGatewayMonitorDeletionPlan, ListMonitors. solve_readonly. Qed.

#[export] Instance buildGatewayPoolDeletionPlan_ReadOnly identity id :
  ReadOnly (buildGatewayPoolDeletionPlan p identity id).
Proof.
  unfold buildGatewayPoolDeletionPlan, buildGatewayPoolSubtreeDeletionPlan, ListPools.
  solve_readonly.
Qed.

#[export] Instance buildGatewayRouteDeletionPlan_ReadOnly identity id :
  ReadOnly (buildGatewayRouteDeletionPlan p identity id).
Proof.
  unfold buildGatewayRouteDeletionPlan, planPolicyDeletion, ListPolicies, ListRules.
  solve_readonly.
Qed.

#[export] Instance buildGatewayDeletionPlan_ReadOnly identity id :
  ReadOnly (buildGatewayDeletionPlan p identity id).
Proof.
  unfold buildGatewayDeletionPlan, buildGatewayListenerDeletionPlans,
    planListenerDeletion, ListListeners.
  solve_readonly.
Qed.

(** GetGateway, which route reconciliation and the probe run beside the
    Gateway reconciler, issues no request that changes OpenStack. *)
Theorem GetGateway_read_only identity tr r :
  exec (GetGateway p identity) tr r -> mutations tr = [].
Proof. revert tr r. change (ReadOnly (GetGateway p identity)). unfold GetGateway, getActiveGateway. solve_readonly. Qed.

(** A result that lets the caller go on. *)
Definition settled {A} (x : A * Outcome) : bool := negb (isProgressing (snd x)).

Lemma ignoreNotFound_AtMostOne g m : AtMostOne m -> AtMostOne (ignoreNotFound g m).
Proof. intros Hm. apply AtMostOne_bind_l; [done|]. intros; apply _. Qed.

#[export] Instance ensureLoadBalancer_Transition identity spec :
  Transition settled (ensureLoadBalancer p identity spec).
Proof. unfold ensureLoadBalancer, ListLoadBalancers. observe. mutate. Qed.

#[export] Instance ensureListener_Transition identity spec id observed allow :
  Transition settled (ensureListener p identity spec id observed allow).
Proof. unfold ensureListener, enableListener. observe; mutate. Qed.

#[export] Instance ensureFloatingIP_Transition identity net port :
  Transition settled (ensureFloatingIP p identity net port).
Proof. unfold ensureFloatingIP. observe. mutate. Qed.

#[export] Instance ensureNoFloatingIP_Transition identity port :
  Transition (fun o => negb (isProgressing o)) (ensureNoFloatingIP p identity port).
Proof.
  unfold ensureNoFloatingIP. observe. apply Transition_mutate; [|solve_readonly|progressing].
  apply ignoreNotFound_AtMostOne. solve_at_most_one.
Qed.

Definition stageSettled {A} (x : Outcome + A) : bool :=
  match x with inl o => negb (isProgressing o) | inr _ => true end.

#[export] Instance ensureGatewayFloatingIP_Transition identity spec port :
  Transition stageSettled (ensureGatewayFloatingIP p identity spec port).
Proof.
  unfold ensureGatewayFloatingIP. destruct (negb _).
  - apply (Transition_mbind settled); [apply _|]. intros [fip o]. unfold settled; simpl.
    destruct (isProgressing o) eqn:Eo; simpl; [eexists; split; [done|]; simpl; by rewrite Eo|].
    observe.
  - apply (Transition_mbind (fun o => negb (isProgressing o))); [apply _|]. intros o.
    destruct (isProgressing o) eqn:Eo; simpl; [eexists; split; [done|]; simpl; by rewrite Eo|].
    observe.
Qed.

Definition gatewaySettled (r : GatewayResult) : bool := negb (isProgressing (g_Outcome r)).

Lemma gatewaySettled_progressing st o :
  isProgressing o = true -> exists b, @ret GatewayResult (mkGatewayResult st o) = ret b /\ gatewaySettled b = false.
Proof. intros E. eexists. split; [done|]. unfold gatewaySettled. simpl. by rewrite E. Qed.

#[export] Instance ensureValidatedGateway_Transition identity spec lb routes observed :
  Transition gatewaySettled (ensureValidatedGateway p identity spec lb routes observed).
Proof.
  unfold ensureValidatedGateway. cbv zeta.
  apply (Transition_mbind stageSettled); [apply _|]. intros [o'|[fid faddr]]; simpl.
  { destruct (isProgressing o') eqn:Eo'; simpl; [by apply gatewaySettled_progressing|]. observe. }
  apply (Transition_mbind settled); [apply _|]. intros [ls o']. unfold settled; simpl.
  destruct (isProgressing o') eqn:Eo'; simpl; [by apply gatewaySettled_progressing|].
  unfold enableLoadBalancer. observe. mutate.
Qed.

#[export] Instance ensureGateway_Transition spec : Transition gatewaySettled (ensureGateway p spec).
Proof.
  unfold ensureGateway. observe.
  apply (Transition_mbind settled); [apply _|]. intros [found o]. unfold settled; simpl.
  destruct (isProgressing o) eqn:Eo; simpl; [by apply gatewaySettled_progressing|].
  observe. apply _.
Qed.

(** One call of EnsureGateway issues at most one request that changes
    OpenStack, whatever it is answered. *)
Theorem EnsureGateway_at_most_one_mutation spec tr r :
  exec (EnsureGateway p spec) tr r -> length (mutations tr) <= 1.
Proof. intros H0. apply (Transition_onError gatewaySettled Classify) in H0; [by destruct H0|apply _]. Qed.
End readonly.

(** ** What the provider knows before it deletes *)

(** The response of a successful list request. *)
Abbreviation Listed r items := (Ev r (Ok (Ok items))) (only parsing).

Section owned.
Context (p : Provider) (identity : Identity).

(** A resource whose project is not another one and whose tags carry the
    Gateway's identity in one of the given roles. *)
Definition ownedTags (projectID : string) (tags : list string) (roles : list string) : Prop :=
  (projectID = "" \/ projectID = p_projectID p) /\
  exists role, role ∈ roles /\ MatchesGateway identity tags role = true.

Definition ownedLoadBalancer (lb : LoadBalancer) : Prop :=
  lb_ProjectID lb = p_projectID p /\ MatchesGateway identity (lb_Tags lb) RoleLoadBalancer = true.
Definition ownedFloatingIP (f : FloatingIP) : Prop :=
  (if String.eqb (fip_ProjectID f) "" then fip_TenantID f else fip_ProjectID f) = p_projectID p /\
  MatchesGatewayDescription identity (fip_Description f) RoleFloatingIP = true.
Definition ownedListener l := ownedTags (ls_ProjectID l) (ls_Tags l) [RoleListener].
Definition ownedPool x := ownedTags (pl_ProjectID x) (pl_Tags x) [RolePool].
Definition ownedMember x := ownedTags (mb_ProjectID x) (mb_Tags x) [RoleMember].
Definition ownedMonitor x := ownedTags (mn_ProjectID x) (mn_Tags x) [RoleMonitor].
Definition ownedPolicy x :=
  ownedTags (lp_ProjectID x) (lp_Tags x) [RolePolicyExact; RolePolicyPrefix].
Definition ownedRule x := ownedTags (lr_ProjectID x) (lr_Tags x) [RoleRulePath; RoleRuleHost].

(** Every resource that the response of an event shows is owned. *)
Definition showsOwned (e : event) : Prop :=
  match e with
  | Listed (ReqListLoadBalancers _) items => Forall ownedLoadBalancer items
  | Ev (ReqGetLoadBalancer _) (Ok lb) => ownedLoadBalancer lb
  | Listed (ReqListListeners _) items => Forall ownedListener items
  | Listed (ReqListPools _) items => Forall ownedPool items
  | Listed (ReqListMembers _ _) items => Forall ownedMember items
  | Listed (ReqListMonitors _) items => Forall ownedMonitor items
  | Listed (ReqListPolicies _) items => Forall ownedPolicy items
  | Listed (ReqListRules _ _) items => Forall ownedRule items
  | Listed (ReqListFloatingIPs _) items => Forall ownedFloatingIP items
  | _ => True
  end.
End owned.

Lemma validateOptionalProject_ok p what id project :
  validateOptionalProject p what id project = Ok tt -> project = "" \/ project = p_projectID p.
Proof.
  unfold validateOptionalProject.
  destruct (String.eqb_spec project "") as [->|]; [by left|].
  destruct (String.eqb_spec project (p_projectID p)) as [->|]; [by right|]. done.
Qed.

Lemma matchesAnyGatewayRole_ok identity tags roles :
  matchesAnyGatewayRole identity tags roles = true ->
  exists role, role ∈ roles /\ MatchesGateway identity tags role = true.
Proof. intros (role & ? & ?)%existsb_exists. exists role. by rewrite list_elem_of_In. Qed.

(** The validation of each kind of resource implies ownership. *)
Ltac solve_owned :=
  intros; repeat match goal with
  | H : rbind (validateOptionalProject ?p ?w ?i ?x) _ = Ok _ |- _ =>
      let E := fresh "E" in destruct (validateOptionalProject p w i x) as [[]|] eqn:E;
      simpl in H; [|discriminate H]; apply validateOptionalProject_ok in E
  | H : (if ?b then _ else Err _) = Ok _ |- _ =>
      let E := fresh "E" in destruct b eqn:E; [|discriminate H]
  end;
  split; [assumption|];
  first [by apply matchesAnyGatewayRole_ok | eexists; split; [by apply list_elem_of_singleton|assumption]].

Section checks.
Context (p : Provider) (identity : Identity).

Lemma checkDeletionListener_owned lb l :
  checkDeletionListener p identity lb l = Ok tt -> ownedListener p identity l.
Proof. unfold checkDeletionListener. solve_owned. Qed.
Lemma checkDeletionPolicy_owned ls x :
  checkDeletionPolicy p identity ls x = Ok tt -> ownedPolicy p identity x.
Proof. unfold checkDeletionPolicy. solve_owned. Qed.
Lemma checkDeletionRule_owned x :
  checkDeletionRule p identity x = Ok tt -> ownedRule p identity x.
Proof. unfold checkDeletionRule. solve_owned. Qed.
Lemma validateGatewayDeletionPool_owned x lb :
  validateGatewayDeletionPool p identity x lb = Ok tt -> ownedPool p identity x.
Proof. unfold validateGatewayDeletionPool. solve_owned. Qed.
Lemma checkDeletionMonitor_owned pool x :
  checkDeletionMonitor p identity pool x = Ok tt -> ownedMonitor p identity x.
Proof. unfold checkDeletionMonitor. solve_owned. Qed.
Lemma checkDeletionMember_owned pool x :
  checkDeletionMember p identity pool x = Ok tt -> ownedMember p identity x.
Proof. unfold checkDeletionMember. solve_owned. Qed.
Lemma checkDeletionFloatingIP_owned x :
  checkDeletionFloatingIP p identity x = Ok tt -> ownedFloatingIP p identity x.
Proof.
  unfold checkDeletionFloatingIP, validateFloatingIPProject, ownedFloatingIP.
  destruct (String.eqb_spec (if String.eqb (fip_ProjectID x) "" then fip_TenantID x
                             else fip_ProjectID x) (p_projectID p)); simpl; [|done].
  by destruct (MatchesGatewayDescription _ _ _).
Qed.
End checks.

Lemma validateLoadBalancerProject_ok p id project :
  validateLoadBalancerProject p id project = Ok tt -> project = p_projectID p.
Proof. unfold validateLoadBalancerProject. by destruct (String.eqb_spec project (p_projectID p)). Qed.

(** ** The deletion plan: leaves first *)

(** A step deletes a resource that the trace lists, under its parent. *)
Definition stepListed (tr : list event) (s : gatewayDeletionStep) : Prop :=
  match st_resource s with
  | gatewayDeletionL7Rule => exists opts items x,
      Listed (ReqListRules (st_parentID s) opts) items ∈ tr /\ x ∈ items /\ lr_ID x = st_resourceID s
  | gatewayDeletionL7Policy => exists opts items x,
      Listed (ReqListPolicies opts) items ∈ tr /\ x ∈ items /\ lp_ID x = st_resourceID s
  | gatewayDeletionListener => exists opts items x,
      Listed (ReqListListeners opts) items ∈ tr /\ x ∈ items /\ ls_ID x = st_resourceID s
  | gatewayDeletionMonitor => exists opts items x,
      Listed (ReqListMonitors opts) items ∈ tr /\ x ∈ items /\ mn_ID x = st_resourceID s
  | gatewayDeletionMember => exists opts items x,
      Listed (ReqListMembers (st_parentID s) opts) items ∈ tr /\ x ∈ items /\ mb_ID x = st_resourceID s
  | gatewayDeletionPool => exists opts items x,
      Listed (ReqListPools opts) items ∈ tr /\ x ∈ items /\ pl_ID x = st_resourceID s
  | gatewayDeletionOther _ => False
  end.

Section leafFirst.
Context (p : Provider) (tr : list event).

(** Whatever the trace lists below a resource is deleted by an earlier step. *)
Definition childrenBefore (before : list gatewayDeletionStep) (s : gatewayDeletionStep) : Prop :=
  match st_resource s with
  | gatewayDeletionL7Policy => exists items,
      Listed (ReqListRules (st_resourceID s) (listBy "" (p_projectID p))) items ∈ tr /\
      forall x, x ∈ items -> mkStep gatewayDeletionL7Rule (lr_ID x) (st_resourceID s) ∈ before
  | gatewayDeletionPool => exists monitors members,
      Listed (ReqListMonitors (listBy (st_resourceID s) (p_projectID p))) monitors ∈ tr /\
      Listed (ReqListMembers (st_resourceID s) (listBy "" (p_projectID p))) members ∈ tr /\
      (forall x, x ∈ monitors -> mkStep gatewayDeletionMonitor (mn_ID x) (st_resourceID s) ∈ before) /\
      (forall x, x ∈ members -> mkStep gatewayDeletionMember (mb_ID x) (st_resourceID s) ∈ before)
  | gatewayDeletionListener => exists items,
      Listed (ReqListPolicies (listBy (st_resourceID s) (p_projectID p))) items ∈ tr /\
      forall x, x ∈ items -> mkStep gatewayDeletionL7Policy (lp_ID x) "" ∈ before
  | _ => True
  end.

Fixpoint leafFirst (before plan : list gatewayDeletionStep) : Prop :=
  match plan with
  | [] => True
  | s :: plan' => (stepListed tr s /\ childrenBefore before s) /\ leafFirst (before ++ [s]) plan'
  end.

Lemma leafFirst_app before a b :
  leafFirst before (a ++ b) <-> leafFirst before a /\ leafFirst (before ++ a) b.
Proof.
  revert before. induction a as [|s a IH]; intros before; simpl.
  - rewrite app_nil_r. tauto.
  - rewrite IH, <- app_assoc. simpl. tauto.
Qed.

(** Steps without children of their own. *)
Lemma leafFirst_leaves before plan :
  Forall (fun s => stepListed tr s /\ forall b, childrenBefore b s) plan -> leafFirst before plan.
Proof. intros H. revert before. induction H as [|s plan [? ?] ? IH]; simpl; naive_solver. Qed.
End leafFirst.

(** More is known later in an execution, and more has been deleted. *)
Lemma stepListed_mono tr tr' s : tr ⊆ tr' -> stepListed tr s -> stepListed tr' s.
Proof. unfold stepListed. destruct (st_resource s); set_solver. Qed.

Lemma childrenBefore_mono p tr tr' b b' s :
  tr ⊆ tr' -> b ⊆ b' -> childrenBefore p tr b s -> childrenBefore p tr' b' s.
Proof.
  intros Ht Hb. unfold childrenBefore. destruct (st_resource s); try done.
  - intros (items & ? & ?). exists items. set_solver.
  - intros (items & ? & ?). exists items. set_solver.
  - intros (monitors & members & ? & ? & ? & ?). exists monitors, members. repeat split; set_solver.
Qed.

Lemma leafFirst_mono p tr tr' b b' plan :
  tr ⊆ tr' -> b ⊆ b' -> leafFirst p tr b plan -> leafFirst p tr' b' plan.
Proof.
  intros Ht. revert b b'. induction plan as [|s plan IH]; intros b b' Hb; simpl; [done|].
  intros [[? ?] ?]. split.
  - eauto using stepListed_mono, childrenBefore_mono.
  - eapply IH; [|done]. set_solver.
Qed.

(** A plan built from a trace: everything the trace shows is owned, and the
    plan deletes leaves first. *)
Definition planBuilt (p : Provider) (identity : Identity) (tr : list event)
    (plan : list gatewayDeletionStep) : Prop :=
  Forall (showsOwned p identity) tr /\ leafFirst p tr [] plan.

Lemma planBuilt_app p identity tr tr' a b :
  planBuilt p identity tr a -> planBuilt p identity tr' b -> planBuilt p identity (tr ++ tr') (a ++ b).
Proof.
  intros [Ho Hl] [Ho' Hl']. split; [by apply Forall_app|]. apply leafFirst_app. split.
  - eapply leafFirst_mono; [..|exact Hl]; set_solver.
  - eapply leafFirst_mono; [..|exact Hl']; set_solver.
Qed.

Section build.
Context (p : Provider) (identity : Identity).

Lemma buildGatewayMemberDeletionPlan_ok poolID tr plan :
  exec (buildGatewayMemberDeletionPlan p identity poolID) tr (Ok plan) ->
  exists items, tr = [Listed (ReqListMembers poolID (listBy "" (p_projectID p))) items] /\
    plan = (fun x => mkStep gatewayDeletionMember (mb_ID x) poolID) <$> sort_slice byEndpoint items /\
    Forall (ownedMember p identity) items.
Proof.
  unfold buildGatewayMemberDeletionPlan. intros H. inv_exec.
  apply exec_check_loop in H0 as (-> & -> & Hc). eexists. split_and!; [done|done|].
  apply sort_slice_Forall in Hc. eapply Forall_impl; [exact Hc|]. intros x. apply checkDeletionMember_owned.
Qed.

Lemma buildGatewayMonitorDeletionPlan_ok poolID tr plan :
  exec (buildGatewayMonitorDeletionPlan p identity poolID) tr (Ok plan) ->
  exists items, tr = [Listed (ReqListMonitors (listBy poolID (p_projectID p))) items] /\
    plan = (fun x => mkStep gatewayDeletionMonitor (mn_ID x) poolID) <$> sort_slice (byID mn_ID) items /\
    Forall (ownedMonitor p identity) items.
Proof.
  unfold buildGatewayMonitorDeletionPlan. intros H. inv_exec.
  apply exec_check_loop in H0 as (-> & -> & Hc). eexists. split_and!; [done|done|].
  apply sort_slice_Forall in Hc. eapply Forall_impl; [exact Hc|]. intros x. apply checkDeletionMonitor_owned.
Qed.

Lemma buildGatewayPoolSubtreeDeletionPlan_ok poolID tr plan t0 :
  exec (buildGatewayPoolSubtreeDeletionPlan p identity poolID) tr (Ok plan) ->
  (exists opts items x, Listed (ReqListPools opts) items ∈ t0 /\ x ∈ items /\ pl_ID x = poolID) ->
  Forall (showsOwned p identity) tr /\ leafFirst p (t0 ++ tr) [] plan /\
  mkStep gatewayDeletionPool poolID "" ∈ plan.
Proof.
  unfold buildGatewayPoolSubtreeDeletionPlan. intros H Ht. inv_exec.
  apply buildGatewayMonitorDeletionPlan_ok in H as (mons & -> & -> & Hmon).
  apply buildGatewayMemberDeletionPlan_ok in H0 as (mems & -> & -> & Hmem).
  split_and!; [by repeat constructor| |set_solver].
  rewrite !leafFirst_app. split_and!.
  - apply leafFirst_leaves, Forall_fmap, sort_slice_Forall, Forall_forall. intros x Hx. split; [|done].
    exists (listBy poolID (p_projectID p)), mons, x. set_solver.
  - apply leafFirst_leaves, Forall_fmap, sort_slice_Forall, Forall_forall. intros x Hx. split; [|done].
    exists (listBy "" (p_projectID p)), mems, x. set_solver.
  - split; [|done]. split.
    { destruct Ht as (opts & items & x & ? & ? & ?). exists opts, items, x. set_solver. }
    exists mons, mems. simpl.
    split_and!; [set_solver|set_solver| |]; intros x Hx;
      rewrite !elem_of_app, !list_elem_of_fmap; setoid_rewrite sort_slice_elem; naive_solver.
Qed.

Definition poolStep (x : Pool) : gatewayDeletionStep := mkStep gatewayDeletionPool (pl_ID x) "".

Lemma buildGatewayPoolDeletionPlan_ok lbID tr plan :
  exec (buildGatewayPoolDeletionPlan p identity lbID) tr (Ok plan) ->
  planBuilt p identity tr plan /\
  exists items, Listed (ReqListPools (listBy lbID (p_projectID p))) items ∈ tr /\
    forall x, x ∈ items -> poolStep x ∈ plan.
Proof.
  unfold buildGatewayPoolDeletionPlan. intros H. inv_exec. rename x1 into items.
  set (e := Listed (ReqListPools (listBy lbID (p_projectID p))) items).
  eapply (exec_mfold_inv _ (fun plan pre t =>
    Forall (ownedPool p identity) pre /\ Forall (showsOwned p identity) t /\
    leafFirst p (e :: t) [] plan /\ forall x, x ∈ pre -> poolStep x ∈ plan)) in H0 as (Ho & Ht & Hl & Hs).
  - apply sort_slice_Forall in Ho. split; [split; [by constructor|done]|].
    exists items. split; [by left|]. intros x Hx. apply Hs. by apply sort_slice_elem.
  - split_and!; [constructor..|done|set_solver].
  - clear. intros plan pre t x t' plan' Hx (Ho & Ht & Hl & Hs) H. inv_exec.
    apply validateGatewayDeletionPool_owned in H.
    apply sort_slice_elem in Hx.
    apply (buildGatewayPoolSubtreeDeletionPlan_ok _ _ _ [e]) in H0 as (Ht' & Hl' & Hin).
    2: { eexists _, items, x. split; [by left|done]. }
    change ([] ++ ?l) with l. rewrite app_nil_r. split_and!.
    + apply Forall_app. split; [done|]. by apply Forall_singleton.
    + by apply Forall_app.
    + apply leafFirst_app. split; eapply leafFirst_mono; try eassumption; set_solver.
    + intros y [Hy| ->%list_elem_of_singleton]%elem_of_app; apply elem_of_app; [left; by apply Hs|by right].
Qed.

Definition policyStep (x : L7Policy) : gatewayDeletionStep :=
  mkStep gatewayDeletionL7Policy (lp_ID x) "".
Definition listenerStep (x : Listener) : gatewayDeletionStep :=
  mkStep gatewayDeletionListener (ls_ID x) "".

Lemma planPolicyDeletion_ok lsID plan x tr plan' t0 opts items :
  exec (planPolicyDeletion p identity lsID plan x) tr (Ok plan') ->
  Listed (ReqListPolicies opts) items ∈ t0 -> x ∈ items ->
  leafFirst p t0 [] plan ->
  ownedPolicy p identity x /\ Forall (showsOwned p identity) tr /\
  leafFirst p (t0 ++ tr) [] plan' /\ plan ⊆ plan' /\ policyStep x ∈ plan'.
Proof.
  unfold planPolicyDeletion. intros H Hlist Hx Hl. inv_exec.
  match goal with r : list Rule |- _ => rename r into rules end.
  apply checkDeletionPolicy_owned in H. apply exec_check_loop in H1 as (-> & -> & Hc).
  assert (Forall (ownedRule p identity) rules) as Hr.
  { apply sort_slice_Forall in Hc. eapply Forall_impl; [exact Hc|]. intros y. apply checkDeletionRule_owned. }
  split_and!; [done|by repeat constructor| |set_solver|unfold policyStep; set_solver].
  rewrite !leafFirst_app. split_and!.
  - eapply leafFirst_mono; [..|exact Hl]; set_solver.
  - apply leafFirst_leaves, Forall_fmap, sort_slice_Forall, Forall_forall. intros y Hy. split; [|done].
    exists (listBy "" (p_projectID p)), rules, y. simpl. set_solver.
  - split; [|done]. split.
    { exists opts, items, x. set_solver. }
    exists rules. simpl. split; [set_solver|]. intros y Hy.
    rewrite !elem_of_app, !list_elem_of_fmap. setoid_rewrite sort_slice_elem. naive_solver.
Qed.

Lemma buildGatewayRouteDeletionPlan_ok lsID tr plan :
  exec (buildGatewayRouteDeletionPlan p identity lsID) tr (Ok plan) ->
  planBuilt p identity tr plan /\
  exists items, Listed (ReqListPolicies (listBy lsID (p_projectID p))) items ∈ tr /\
    forall x, x ∈ items -> policyStep x ∈ plan.
Proof.
  unfold buildGatewayRouteDeletionPlan. intros H. inv_exec. rename x1 into items.
  set (e := Listed (ReqListPolicies (listBy lsID (p_projectID p))) items).
  eapply (exec_mfold_inv _ (fun plan pre t =>
    Forall (ownedPolicy p identity) pre /\ Forall (showsOwned p identity) t /\
    leafFirst p (e :: t) [] plan /\ forall x, x ∈ pre -> policyStep x ∈ plan)) in H0 as (Ho & Ht & Hl & Hs).
  - apply sort_slice_Forall in Ho. split; [split; [by constructor|done]|].
    exists items. split; [by left|]. intros x Hx. apply Hs. by apply sort_slice_elem.
  - split_and!; [constructor..|done|set_solver].
  - clear. intros plan pre t x t' plan' Hx (Ho & Ht & Hl & Hs) H.
    apply sort_slice_elem in Hx.
    eapply (planPolicyDeletion_ok _ _ _ _ _ (e :: t)) in H as (Hox & Ht' & Hl' & Hsub & Hin);
      [|by left|done|done].
    split_and!; [|by apply Forall_app|done|].
    + apply Forall_app. split; [done|]. by apply Forall_singleton.
    + intros y [Hy| ->%list_elem_of_singleton]%elem_of_app; [apply Hsub; by apply Hs|done].
Qed.

Lemma buildGatewayListenerDeletionPlans_ok lbID tr plans :
  exec (buildGatewayListenerDeletionPlans p identity lbID) tr (Ok plans) ->
  planBuilt p identity tr (snd plans) /\ leafFirst p tr (snd plans) (fst plans) /\
  exists items, Listed (ReqListListeners (listBy lbID (p_projectID p))) items ∈ tr /\
    (forall x, x ∈ items -> listenerStep x ∈ fst plans) /\
    forall x, x ∈ items -> exists pols,
      Listed (ReqListPolicies (listBy (ls_ID x) (p_projectID p))) pols ∈ tr /\
      forall y, y ∈ pols -> policyStep y ∈ snd plans.
Proof.
  unfold buildGatewayListenerDeletionPlans. intros H. inv_exec. rename x1 into items.
  set (e := Listed (ReqListListeners (listBy lbID (p_projectID p))) items).
  eapply (exec_mfold_inv _ (fun plans pre t =>
    Forall (ownedListener p identity) pre /\ Forall (showsOwned p identity) t /\
    leafFirst p (e :: t) [] (snd plans) /\ leafFirst p (e :: t) (snd plans) (fst plans) /\
    (forall x, x ∈ pre -> listenerStep x ∈ fst plans) /\
    (forall x, x ∈ pre -> exists pols,
      Listed (ReqListPolicies (listBy (ls_ID x) (p_projectID p))) pols ∈ t /\
      forall y, y ∈ pols -> policyStep y ∈ snd plans))) in H0 as (Ho & Ht & Hr & Hl & Hs & Hp).
  - apply sort_slice_Forall in Ho. split_and!; [split; [by constructor|done]|done|].
    exists items. split_and!; [by left|..].
    + intros x Hx. apply Hs. by apply sort_slice_elem.
    + intros x Hx. destruct (Hp x) as (pols & ? & ?); [by apply sort_slice_elem|].
      exists pols. split; [by right|done].
  - split_and!; [constructor..|done|done|set_solver|set_solver].
  - clear. intros plans pre t x t' plans' Hx (Ho & Ht & Hr & Hl & Hs & Hp) H.
    apply sort_slice_elem in Hx. unfold planListenerDeletion in H. inv_exec.
    apply checkDeletionListener_owned in H.
    apply buildGatewayRouteDeletionPlan_ok in H0 as ([Ht' Hl'] & pols & Hpols & Hin). simpl.
    rewrite app_nil_r. split_and!.
    + apply Forall_app. split; [done|]. by apply Forall_singleton.
    + by apply Forall_app.
    + apply leafFirst_app. split; eapply leafFirst_mono; try eassumption; set_solver.
    + apply leafFirst_app. split.
      * eapply leafFirst_mono; [..|exact Hl]; set_solver.
      * split; [|done]. split; [exists (listBy lbID (p_projectID p)), items, x; set_solver|].
        exists pols. split; [simpl; set_solver|]. intros y Hy.
        apply Hin in Hy. unfold policyStep in Hy. set_solver.
    + intros y [Hy| ->%list_elem_of_singleton]%elem_of_app; apply elem_of_app; [left; by apply Hs|by right; left].
    + intros y [Hy| ->%list_elem_of_singleton]%elem_of_app.
      * destruct (Hp y Hy) as (pols' & ? & ?). exists pols'. set_solver.
      * exists pols. set_solver.
Qed.

Lemma buildGatewayDeletionPlan_ok lbID tr plan :
  exec (buildGatewayDeletionPlan p identity lbID) tr (Ok plan) ->
  planBuilt p identity tr (orderedSteps plan) /\
  (exists items, Listed (ReqListListeners (listBy lbID (p_projectID p))) items ∈ tr /\
     (forall x, x ∈ items -> listenerStep x ∈ dp_listeners plan) /\
     forall x, x ∈ items -> exists pols,
       Listed (ReqListPolicies (listBy (ls_ID x) (p_projectID p))) pols ∈ tr /\
       forall y, y ∈ pols -> policyStep y ∈ dp_routes plan) /\
  (exists items, Listed (ReqListPools (listBy lbID (p_projectID p))) items ∈ tr /\
     forall x, x ∈ items -> poolStep x ∈ dp_pools plan).
Proof.
  unfold buildGatewayDeletionPlan. intros H. inv_exec. destruct x1 as [listeners routes]. inv_exec.
  apply buildGatewayListenerDeletionPlans_ok in H as ([Ho Hr] & Hl & ls & Hls & Hlin & Hpol).
  apply buildGatewayPoolDeletionPlan_ok in H0 as ([Ho' Hp] & pools & Hpools & Hpin). simpl in *.
  rewrite app_nil_r. split_and!.
  - split; [by apply Forall_app|]. unfold orderedSteps. simpl. rewrite !leafFirst_app.
    split_and!; (eapply leafFirst_mono; [..|eassumption]); set_solver.
  - exists ls. split_and!; [set_solver|set_solver|]. intros l Hin.
    destruct (Hpol l Hin) as (pols & ? & ?). exists pols. set_solver.
  - exists pools. set_solver.
Qed.
End build.

Lemma provider_identity_ok p id id' :
  provider_identity p id = Ok id' ->
  id' = id /\ OpenStackProjectID id = p_projectID p /\ ValidateGatewayIdentity id = Ok tt.
Proof.
  unfold provider_identity, NewIdentity. intros H. inv_result. bool_hyps. destruct a. done.
Qed.

(** ** DeleteGateway *)

(** What must have been observed before a deletion is sent: the target was
    listed, and whatever could depend on it was listed and found absent. *)
Definition safeToDelete (p : Provider) (tr : list event) (m : request) : Prop :=
  let project := p_projectID p in
  match m with
  | ReqDeleteRule policyID id => exists opts items x,
      Listed (ReqListRules policyID opts) items ∈ tr /\ x ∈ items /\ lr_ID x = id
  | ReqDeletePolicy id =>
      (exists opts items x, Listed (ReqListPolicies opts) items ∈ tr /\ x ∈ items /\ lp_ID x = id) /\
      Listed (ReqListRules id (listBy "" project)) [] ∈ tr
  | ReqDeleteMonitor id => exists opts items x,
      Listed (ReqListMonitors opts) items ∈ tr /\ x ∈ items /\ mn_ID x = id
  | ReqDeleteMember poolID id => exists opts items x,
      Listed (ReqListMembers poolID opts) items ∈ tr /\ x ∈ items /\ mb_ID x = id
  | ReqDeletePool id =>
      (exists opts items x, Listed (ReqListPools opts) items ∈ tr /\ x ∈ items /\ pl_ID x = id) /\
      Listed (ReqListMonitors (listBy id project)) [] ∈ tr /\
      Listed (ReqListMembers id (listBy "" project)) [] ∈ tr
  | ReqDeleteListener id =>
      (exists opts items x, Listed (ReqListListeners opts) items ∈ tr /\ x ∈ items /\ ls_ID x = id) /\
      Listed (ReqListPolicies (listBy id project)) [] ∈ tr
  | ReqDeleteFloatingIP id => exists opts items x,
      Listed (ReqListFloatingIPs opts) items ∈ tr /\ x ∈ items /\ fip_ID x = id
  | ReqDeleteLoadBalancer id => exists lb,
      Ev (ReqGetLoadBalancer id) (Ok lb) ∈ tr /\ lb_ID lb = id /\
      Listed (ReqListListeners (listBy id project)) [] ∈ tr /\
      Listed (ReqListPools (listBy id project)) [] ∈ tr /\
      Listed (ReqListFloatingIPs (listBy (lb_VipPortID lb) project)) [] ∈ tr
  | _ => False
  end.

Definition stepRequest (s : gatewayDeletionStep) : option request :=
  match st_resource s with
  | gatewayDeletionL7Rule => Some (ReqDeleteRule (st_parentID s) (st_resourceID s))
  | gatewayDeletionL7Policy => Some (ReqDeletePolicy (st_resourceID s))
  | gatewayDeletionListener => Some (ReqDeleteListener (st_resourceID s))
  | gatewayDeletionMonitor => Some (ReqDeleteMonitor (st_resourceID s))
  | gatewayDeletionMember => Some (ReqDeleteMember (st_parentID s) (st_resourceID s))
  | gatewayDeletionPool => Some (ReqDeletePool (st_resourceID s))
  | gatewayDeletionOther _ => None
  end.

Lemma no_items {A B} (items : list A) (f : A -> B) : (forall x, x ∈ items -> f x ∈ []) -> items = [].
Proof. destruct items as [|x items]; [done|]. intros H. specialize (H x). set_solver. Qed.

(** The first step of a plan that deletes leaves first is safe. *)
Lemma leafFirst_head p tr s plan m :
  leafFirst p tr [] (s :: plan) -> stepRequest s = Some m -> safeToDelete p tr m.
Proof.
  intros [[Hl Hc] _]. unfold stepListed, childrenBefore, stepRequest in *.
  destruct (st_resource s); intros [= <-]; simpl; try done.
  - destruct Hc as (items & Hi & Hn). by apply no_items in Hn as ->.
  - destruct Hc as (items & Hi & Hn). by apply no_items in Hn as ->.
  - destruct Hc as (mons & mems & Hi & Hi' & Hn & Hn').
    apply no_items in Hn as ->. by apply no_items in Hn' as ->.
Qed.

(** Requests are safe with respect to the trace that precedes them. *)
Lemma exec_ignoreNotFound `{Gophercloud} g m tr r :
  exec (ignoreNotFound g m) tr r -> exists r', exec m tr r'.
Proof.
  unfold ignoreNotFound, try. intros (tr1 & tr2 & r' & -> & H1 & [-> _])%exec_bind.
  rewrite app_nil_r. eauto.
Qed.

(** The request is sent on what was observed: everything shown was owned by
    this Gateway, and the target is safe to delete. *)
Definition authorisedDeletion (p : Provider) (identity : Identity) (tr : list event) (m : request)
    : Prop :=
  isDeletion m = true /\ Forall (showsOwned p identity) tr /\ safeToDelete p tr m.

Section delete.
Context `{Gophercloud} (p : Provider).

Lemma exec_delete_then {B} g (m : M unit) (b : B) tr r :
  exec (let! _ := ignoreNotFound g m in ret b) tr r -> exists r', exec m tr r'.
Proof.
  intros [(e & -> & H1)|(t1 & t2 & a & -> & H1 & [-> _])]%exec_mbind.
  - by eapply exec_ignoreNotFound.
  - rewrite app_nil_r. by eapply exec_ignoreNotFound.
Qed.

Lemma executeStep_last P s (b : Outcome) tr r :
  exec (let! _ := executeGatewayDeletionStep s in ret b) tr r ->
  (forall q, stepRequest s = Some q -> P [] q) -> LastMutation P tr.
Proof.
  intros (r' & H1)%exec_delete_then HP. revert H1 HP.
  unfold stepRequest, deleteGatewayResource.
  destruct (st_resource s); try (intros ->%exec_call HP; apply LastMutation_single; auto).
  intros [-> _]%exec_raise _. apply LastMutation_nil.
Qed.

Lemma deleteValidatedGateway_last (P : list event -> request -> Prop) lbID plan fips tr r :
  exec (deleteValidatedGateway p lbID plan fips) tr r ->
  (forall s q, head (orderedSteps plan) = Some s -> stepRequest s = Some q -> P [] q) ->
  (forall f, f ∈ fips -> P [] (ReqDeleteFloatingIP (fip_ID f))) ->
  (orderedSteps plan = [] -> fips = [] -> P [] (ReqDeleteLoadBalancer lbID)) ->
  LastMutation P tr.
Proof.
  unfold deleteValidatedGateway, firstStep. intros H0 Hstep Hfip Hlb.
  destruct (orderedSteps plan) as [|s plan'] eqn:Eplan; simpl in H0.
  - destruct (sort_slice (byID fip_ID) fips) as [|f rest] eqn:Es.
    + apply sort_slice_nil_inv in Es. apply exec_delete_then in H0 as (r' & ->%exec_call).
      apply LastMutation_single. auto.
    + apply exec_delete_then in H0 as (r' & ->%exec_call).
      apply LastMutation_single. intros _. apply Hfip.
      apply (sort_slice_elem (byID fip_ID)). rewrite Es. by left.
  - eapply executeStep_last; [exact H0|]. naive_solver.
Qed.

Lemma stepRequest_deletion s q : stepRequest s = Some q -> isDeletion q = true.
Proof. unfold stepRequest. destruct (st_resource s); by intros [= <-]. Qed.

(** The graph of an active load balancer that was found owned. *)
Lemma deleteActiveGateway_last identity lb t0 tr r :
  exec (deleteActiveGateway p identity lb) tr r ->
  Ev (ReqGetLoadBalancer (lb_ID lb)) (Ok lb) ∈ t0 -> Forall (showsOwned p identity) t0 ->
  LastMutation (fun t => authorisedDeletion p identity (t0 ++ t)) tr.
Proof.
  unfold deleteActiveGateway. intros H0 Hlb Ho.
  eapply LastMutation_mbind; [exact H0|apply _|]. clear H0 tr. intros t1 plan t2 H1 H2.
  apply buildGatewayDeletionPlan_ok in H1 as ([Ho1 Hl1] & (ls & Hls & Hlin & _) & (pools & Hp & Hpin)).
  eapply LastMutation_mbind; [exact H2|unfold ListFloatingIPs; solve_readonly|]. clear H2 t2.
  intros t2 fips t3 H2 H3. inv_exec.
  eapply LastMutation_mbind; [exact H3|solve_readonly|]. clear H3 t3. intros t3 [] t4 H3 H4. inv_exec.
  apply forM_ok in H3. eapply Forall_impl in H3; [|intros x; apply (checkDeletionFloatingIP_owned p)].
  assert (Forall (showsOwned p identity) (t0 ++ t1 ++ [Listed (ReqListFloatingIPs (listBy (lb_VipPortID lb) (p_projectID p))) fips])) as Hall.
  { rewrite !Forall_app. split_and!; [done|done|by repeat constructor]. }
  eapply deleteValidatedGateway_last; [exact H4|..].
  - intros s q Hs Hq. simpl. split_and!; [by eapply stepRequest_deletion|done|].
    destruct (orderedSteps plan) as [|s' plan'] eqn:E; [done|]. injection Hs as ->.
    eapply leafFirst_head; [|exact Hq]. eapply leafFirst_mono; [..|exact Hl1]; set_solver.
  - intros f Hf. simpl. split_and!; [done|done|].
    exists (listBy (lb_VipPortID lb) (p_projectID p)), fips, f. set_solver.
  - intros Eplan ->. simpl. split_and!; [done|done|].
    unfold orderedSteps in Eplan. apply app_eq_nil in Eplan as [_ [Ep El]%app_eq_nil].
    rewrite El in Hlin. rewrite Ep in Hpin. apply no_items in Hlin as ->. apply no_items in Hpin as ->.
    exists lb. split_and!; set_solver.
Qed.

Lemma findGatewayLoadBalancer_some identity tr lb :
  exec (findGatewayLoadBalancer p identity) tr (Ok (Some lb)) ->
  exists tags, tr = [Listed (ReqListLoadBalancers (mkListOpts "" (p_projectID p) tags)) [lb]] /\
    GatewayDiscoveryTags identity RoleLoadBalancer = Ok tags /\ lb_ProjectID lb = p_projectID p.
Proof.
  unfold findGatewayLoadBalancer. intros H0. inv_exec.
  match goal with l : list LoadBalancer |- _ => destruct l as [|x []] end; inv_exec.
  eexists. split_and!; [done|done|]. by eapply validateLoadBalancerProject_ok.
Qed.

Lemma observeLoadBalancerOnce_active id tr lb :
  exec (observeLoadBalancerOnce p id) tr (Ok (phaseActive lb)) ->
  tr = [Ev (ReqGetLoadBalancer id) (Ok lb)] /\ lb_ProvisioningStatus lb = "ACTIVE".
Proof.
  unfold observeLoadBalancerOnce, try. intros (t1 & t2 & [lb'|e] & -> & ->%exec_call & H2)%exec_bind.
  - destruct (String.eqb_spec (lb_ProvisioningStatus lb') "ACTIVE").
    + apply exec_ret in H2 as [-> [= ->]]. done.
    + destruct (HasPrefix _ _); [by apply exec_ret in H2 as [_ ?]|].
      destruct (String.eqb _ _); by apply exec_raise in H2 as [_ ?].
  - destruct (isNotFound e); [by apply exec_ret in H2 as [_ ?]|by apply exec_raise in H2 as [_ ?]].
Qed.

Lemma checkObservedLoadBalancer_active identity id lb :
  checkObservedLoadBalancer p identity id (phaseActive lb) = Ok tt ->
  lb_ID lb = id /\ ownedLoadBalancer p identity lb.
Proof.
  unfold checkObservedLoadBalancer. simpl. intros H0.
  destruct (String.eqb_spec (lb_ID lb) id); simpl in H0; [|done].
  destruct (validateLoadBalancerProject p (lb_ID lb) (lb_ProjectID lb)) as [[]|] eqn:E; [|done].
  apply validateLoadBalancerProject_ok in E. simpl in H0.
  destruct (MatchesGateway _ _ _) eqn:Em; [|done]. by split_and!.
Qed.

(** C7. In every execution of DeleteGateway, whatever OpenStack answers, at most
    one request changes anything, and when it is issued everything listed before
    it was checked to be owned by this Gateway, and the resource it deletes is a
    leaf: no listed resource below it is left. *)
Theorem DeleteGateway_authorised id tr r :
  exec (DeleteGateway p id) tr r -> LastMutation (authorisedDeletion p id) tr.
Proof.
  unfold DeleteGateway. intros (r' & H0 & _)%exec_onError.
  eapply LastMutation_mbind; [exact H0|solve_readonly|]. clear H0 tr. intros t1 id' t2 H1 H2. inv_exec.
  apply provider_identity_ok in H1 as (-> & _ & _).
  eapply LastMutation_mbind; [exact H2|apply _|]. clear H2 t2. intros t1 [lb|] t2 H1 H2.
  2: { apply exec_ret in H2 as [-> _]. apply LastMutation_nil. }
  apply findGatewayLoadBalancer_some in H1 as (tags & -> & _ & Hproj).
  destruct (MatchesGateway id (lb_Tags lb) RoleLoadBalancer) eqn:Em; cbn [negb] in H2;
    [|apply exec_raise in H2 as [-> _]; apply LastMutation_nil].
  eapply LastMutation_mbind; [exact H2|apply _|]. clear H2 t2. intros t1 obs t2 H1 H2.
  eapply LastMutation_mbind; [exact H2|solve_readonly|]. clear H2 t2. intros t1' [] t2 H1' H2.
  apply exec_lift in H1' as [-> Hc]. symmetry in Hc.
  destruct obs as [lb'|lb' o|]; try (apply exec_ret in H2 as [-> _]; apply LastMutation_nil).
  apply observeLoadBalancerOnce_active in H1 as [-> _].
  apply checkObservedLoadBalancer_active in Hc as [Hid Hown]. rewrite <- Hid.
  eapply (deleteActiveGateway_last _ _ (_ :: _ :: [])); [exact H2|set_solver|].
  apply Forall_cons_2; [by apply Forall_singleton|]. by apply Forall_singleton.
Qed.
End delete.

(** ** EnsureGateway *)

(** No pool and no L7 policy was found below a load balancer and its listeners. *)
Definition noRouteResources (p : Provider) (tr : list event) (lbID : string) : Prop :=
  Listed (ReqListPools (listBy lbID (p_projectID p))) [] ∈ tr /\
  exists items, Listed (ReqListListeners (listBy lbID (p_projectID p))) items ∈ tr /\
    forall l, l ∈ items -> Listed (ReqListPolicies (listBy (ls_ID l) (p_projectID p))) [] ∈ tr.

(** The load balancer was read, active and owned. *)
Definition activeLoadBalancer (p : Provider) (identity : Identity) (tr : list event) (lb : LoadBalancer) : Prop :=
  ownedLoadBalancer p identity lb /\ lb_ProvisioningStatus lb = "ACTIVE" /\
  exists id, Ev (ReqGetLoadBalancer id) (Ok lb) ∈ tr.

(** The only changes [EnsureGateway] makes, and what it has observed then. *)
Definition allowedChange (p : Provider) (spec : GatewaySpec) (tr : list event) (m : request) : Prop :=
  let identity := gs_Identity spec in
  let project := p_projectID p in
  match m with
  | ReqCreateLoadBalancer opts =>
      (exists tags, GatewayDiscoveryTags identity RoleLoadBalancer = Ok tags /\
                    tr = [Listed (ReqListLoadBalancers (mkListOpts "" project tags)) []]) /\
      GatewayTags identity RoleLoadBalancer = Ok (clb_Tags opts) /\
      clb_VipSubnetID opts = gs_VIPSubnetID spec
  | ReqCreateFloatingIP opts =>
      gs_ExternalNetworkID spec <> "" /\ cfip_FloatingNetworkID opts = gs_ExternalNetworkID spec /\
      cfip_Description opts = GatewayDescription identity RoleFloatingIP /\
      exists lb, activeLoadBalancer p identity tr lb /\ cfip_PortID opts = lb_VipPortID lb /\
        Listed (ReqListFloatingIPs (listBy (lb_VipPortID lb) "")) [] ∈ tr
  | ReqDeleteFloatingIP id =>
      gs_ExternalNetworkID spec = "" /\
      exists lb items f, activeLoadBalancer p identity tr lb /\
        Listed (ReqListFloatingIPs (listBy (lb_VipPortID lb) "")) items ∈ tr /\
        f ∈ items /\ fip_ID f = id /\ ownedFloatingIP p identity f
  | ReqCreateListener opts =>
      GatewayTags identity RoleListener = Ok (cls_Tags opts) /\
      cls_Protocol opts = "HTTP" /\ cls_ProtocolPort opts = gs_ListenerPort spec /\
      exists lb, activeLoadBalancer p identity tr lb /\ cls_LoadbalancerID opts = lb_ID lb /\
        Listed (ReqListListeners (listBy (lb_ID lb) project)) [] ∈ tr
  | ReqUpdateListener id up =>
      up = Some true /\ exists lb l, activeLoadBalancer p identity tr lb /\ noRouteResources p tr (lb_ID lb) /\
        Listed (ReqListListeners (listBy (lb_ID lb) project)) [l] ∈ tr /\ ls_ID l = id /\ ownedListener p identity l
  | ReqUpdateLoadBalancer id up =>
      up = Some true /\ noRouteResources p tr id /\
      exists lb, activeLoadBalancer p identity tr lb /\ lb_ID lb = id
  | _ => False
  end.

Definition authorisedChange (p : Provider) (spec : GatewaySpec) (tr : list event) (m : request) : Prop :=
  Forall (showsOwned p (gs_Identity spec)) tr /\ allowedChange p spec tr m.

Lemma noRouteResources_mono p tr tr' id :
  tr ⊆ tr' -> noRouteResources p tr id -> noRouteResources p tr' id.
Proof. intros Ht (H1 & items & H2 & H3). split; [set_solver|]. exists items. set_solver. Qed.

Lemma activeLoadBalancer_mono p identity tr tr' lb :
  tr ⊆ tr' -> activeLoadBalancer p identity tr lb -> activeLoadBalancer p identity tr' lb.
Proof. intros Ht (H1 & H2 & id & H3). split_and!; [done..|]. exists id. by apply Ht. Qed.

Section ensure.
Context `{Gophercloud} (p : Provider).

Lemma buildGatewayDeletionPlan_noRouteResources identity lbID tr plan :
  exec (buildGatewayDeletionPlan p identity lbID) tr (Ok plan) ->
  hasRouteResources plan = false -> noRouteResources p tr lbID.
Proof.
  intros (_ & (ls & Hls & _ & Hpol) & pools & Hp & Hpin)%buildGatewayDeletionPlan_ok.
  unfold hasRouteResources. destruct (dp_routes plan) eqn:Er, (dp_pools plan); try done. intros _.
  apply no_items in Hpin as ->. split; [done|]. exists ls. split; [done|].
  intros l (pols & Hl & Hn)%Hpol. by apply no_items in Hn as ->.
Qed.

Lemma manageListener_ok identity lbID owned l owned' :
  manageListener p identity lbID owned l = Ok owned' ->
  owned = None /\ owned' = Some l /\ ownedListener p identity l.
Proof.
  unfold manageListener. destruct (validateOptionalProject _ _ _ _) as [[]|] eqn:E; [|done].
  apply validateOptionalProject_ok in E. cbn [rbind].
  destruct (MatchesGatewayDiscovery _ _ _), (MatchesGateway _ _ _) eqn:Em; try done. cbn [negb orb].
  destruct owned; [done|]. destruct (forM_ _ _) as [[]|]; [|done]. intros [= <-].
  split_and!; [done|done|]. split; [done|]. exists RoleListener. split; [by left|done].
Qed.

(** At most one listener, which is owned. *)
Lemma findManagedGatewayListener_ok identity lbID tr owned :
  exec (findManagedGatewayListener p identity lbID) tr (Ok owned) ->
  tr = [Listed (ReqListListeners (listBy lbID (p_projectID p)))
          (match owned with Some l => [l] | None => [] end)] /\
  match owned with Some l => ownedListener p identity l | None => True end.
Proof.
  unfold findManagedGatewayListener. intros H0. inv_exec.
  match goal with Hf : foldM _ None _ = _ |- _ =>
    eapply (foldM_at_most_one _ (ownedListener p identity)) in Hf as [-> Hown];
      [|apply manageListener_ok] end.
  split; [done|]. destruct owned; [|done]. by apply Forall_cons in Hown as [? _].
Qed.

Lemma checkGatewayFloatingIP_owned identity port f :
  checkGatewayFloatingIP p identity port f = Ok tt -> ownedFloatingIP p identity f.
Proof.
  unfold checkGatewayFloatingIP, validateFloatingIPProject, ownedFloatingIP.
  destruct (String.eqb_spec (if String.eqb (fip_ProjectID f) "" then fip_TenantID f
                             else fip_ProjectID f) (p_projectID p)); simpl; [|done].
  by destruct (MatchesGatewayDescription _ _ _).
Qed.

Lemma listGatewayFloatingIPs_ok identity port tr fips :
  exec (listGatewayFloatingIPs p identity port) tr (Ok fips) ->
  exists items, tr = [Listed (ReqListFloatingIPs (listBy port "")) items] /\
    fips = sort_slice (byID fip_ID) items /\ Forall (ownedFloatingIP p identity) items.
Proof.
  unfold listGatewayFloatingIPs. intros H0. inv_exec.
  eexists. split_and!; [done|done|].
  match goal with Hc : forM_ _ _ = _ |- _ => apply forM_ok in Hc; eapply Forall_impl; [exact Hc|] end.
  intros f. apply checkGatewayFloatingIP_owned.
Qed.

(** What makes a load balancer acceptable for a specification. *)
Definition acceptable (spec : GatewaySpec) (lb : LoadBalancer) : Prop :=
  ownedLoadBalancer p (gs_Identity spec) lb /\ lb_VipSubnetID lb = gs_VIPSubnetID spec /\
  (gs_Provider spec <> "" -> lb_Provider lb = gs_Provider spec).

Lemma acceptable_intro spec lb :
  validateLoadBalancerProject p (lb_ID lb) (lb_ProjectID lb) = Ok tt ->
  immutableFieldsDiffer (gs_Identity spec) spec lb = false -> acceptable spec lb.
Proof.
  intros Hp%validateLoadBalancerProject_ok Hd. unfold immutableFieldsDiffer in Hd. bool_hyps.
  split_and!; [by split|done|]. intros Hne. destruct (String.eqb_spec (gs_Provider spec) ""); [done|].
  simpl in *. by bool_hyps.
Qed.

Lemma isProgressing_progressing m : isProgressing (progressingOutcome p m) = true.
Proof. done. Qed.

Lemma observeLoadBalancerOnce_pending id tr lb o :
  exec (observeLoadBalancerOnce p id) tr (Ok (phasePending lb o)) ->
  tr = [Ev (ReqGetLoadBalancer id) (Ok lb)] /\ isProgressing o = true.
Proof.
  unfold observeLoadBalancerOnce, try. intros (t1 & t2 & [lb'|e] & -> & ->%exec_call & H2)%exec_bind.
  - destruct (String.eqb _ "ACTIVE"); [by apply exec_ret in H2 as [_ ?]|].
    destruct (HasPrefix _ _); [by apply exec_ret in H2 as [-> [= -> ->]]|].
    destruct (String.eqb _ _); by apply exec_raise in H2 as [_ ?].
  - destruct (isNotFound e); [by apply exec_ret in H2 as [_ ?]|by apply exec_raise in H2 as [_ ?]].
Qed.

Lemma ensureLoadBalancer_ready spec tr found o :
  exec (ensureLoadBalancer p (gs_Identity spec) spec) tr (Ok (found, o)) -> isProgressing o = false ->
  exists lb, found = Some lb /\ o = ReadyOutcome /\ acceptable spec lb /\
    lb_ProvisioningStatus lb = "ACTIVE" /\ Forall (showsOwned p (gs_Identity spec)) tr /\
    exists id, Ev (ReqGetLoadBalancer id) (Ok lb) ∈ tr.
Proof.
  unfold ensureLoadBalancer. intros H0 Ho. inv_exec.
  match goal with l : list LoadBalancer |- _ => destruct l as [|item []] end; inv_exec.
  destruct (immutableFieldsDiffer _ _ item) eqn:Ei; inv_exec.
  match goal with obs : loadBalancerObservation |- _ => destruct obs as [lb|lb o'|] end; inv_exec.
  - destruct (immutableFieldsDiffer _ _ lb) eqn:El; inv_exec.
    match goal with Hx : exec (observeLoadBalancerOnce _ _) _ _ |- _ =>
      apply observeLoadBalancerOnce_active in Hx as [-> Hact] end.
    assert (acceptable spec item) as [Hitem _] by by apply acceptable_intro.
    assert (acceptable spec lb) as Hlb by by apply acceptable_intro.
    exists lb. split_and!; [done..| |].
    + apply Forall_cons_2; [by apply Forall_singleton|]. apply Forall_singleton, Hlb.
    + exists (lb_ID item). set_solver.
  - match goal with Hx : exec (observeLoadBalancerOnce _ _) _ _ |- _ =>
      apply observeLoadBalancerOnce_pending in Hx as [_ Hp] end. congruence.
Qed.

Lemma onError_call_then {B} g q (k : response q -> M B) tr r :
  exec (mbind (onError g (call q)) k) tr r -> (forall a t b, exec (k a) t b -> t = []) ->
  exists x, tr = [Ev q x].
Proof.
  intros [(e & -> & H1)|(t1 & t2 & a & -> & H1 & H2)]%exec_mbind Hk;
    apply exec_onError in H1 as (r0 & ->%exec_call & _); [by eexists|].
  apply Hk in H2 as ->. by eexists.
Qed.

(** A continuation that issues no request. *)
Ltac no_request :=
  intros; repeat match goal with
  | H : exec (mbind _ _) _ _ |- _ => apply exec_mbind in H as [(?&?&H)|(?&?&?&->&?&H)]
  | H : exec (lift _) _ _ |- _ => apply exec_lift in H as [-> ?]
  | H : exec (ret _) _ _ |- _ => apply exec_ret in H as [-> ?]
  end; done.

Lemma ensureLoadBalancer_authorised spec tr r :
  exec (ensureLoadBalancer p (gs_Identity spec) spec) tr r -> LastMutation (authorisedChange p spec) tr.
Proof.
  unfold ensureLoadBalancer. intros H0.
  eapply LastMutation_mbind; [exact H0|solve_readonly|]. clear H0 tr. intros t1 tags t2 H1 H2. inv_exec.
  eapply LastMutation_mbind; [exact H2|solve_readonly|]. clear H2 t2. intros t1 dtags t2 H1' H2. inv_exec.
  eapply LastMutation_mbind; [exact H2|unfold ListLoadBalancers; solve_readonly|].
  clear H2 t2. intros t1 items t2 H3 H2. inv_exec.
  destruct items as [|item [|]].
  - apply onError_call_then in H2 as [x ->]; [|no_request].
    apply LastMutation_single. intros _. simpl. split; [by repeat constructor|].
    split_and!; [by exists dtags|done|done].
  - left. eapply @read_only; [|exact H2]. solve_readonly.
  - apply exec_raise in H2 as [-> _]. apply LastMutation_nil.
Qed.

(** *** The Floating IP stage *)

Lemma ownFloatingIP_ok net port owned f owned' :
  ownFloatingIP net port owned f = Ok owned' ->
  owned = None /\ owned' = Some f /\ fip_FloatingNetworkID f = net.
Proof.
  unfold ownFloatingIP. destruct (String.eqb_spec (fip_FloatingNetworkID f) net); simpl; [|done].
  destruct owned; [done|]. by intros [= <-].
Qed.

Lemma ownFloatingIP_fold net port fips owned :
  foldM (ownFloatingIP net port) None fips = Ok owned ->
  fips = match owned with Some f => [f] | None => [] end /\
  match owned with Some f => fip_FloatingNetworkID f = net | None => True end.
Proof.
  intros Hf. eapply (foldM_at_most_one _ (fun f => fip_FloatingNetworkID f = net)) in Hf as [-> Hn];
    [|apply ownFloatingIP_ok].
  destruct owned; [|done]. by apply Forall_cons in Hn as [? _].
Qed.

Lemma ensureGatewayFloatingIP_authorised spec lb t0 tr r :
  exec (ensureGatewayFloatingIP p (gs_Identity spec) spec (lb_VipPortID lb)) tr r ->
  Forall (showsOwned p (gs_Identity spec)) t0 -> activeLoadBalancer p (gs_Identity spec) t0 lb ->
  LastMutation (fun t => authorisedChange p spec (t0 ++ t)) tr.
Proof.
  unfold ensureGatewayFloatingIP. intros H0 Ho Hlb.
  assert (forall t, activeLoadBalancer p (gs_Identity spec) (t0 ++ t) lb) as Hlb'
    by (intros t; eapply activeLoadBalancer_mono; [|exact Hlb]; set_solver).
  destruct (String.eqb_spec (gs_ExternalNetworkID spec) "") as [En|En]; cbn [negb] in H0.
  - eapply (LastMutation_stage (fun o => negb (isProgressing o))); [exact H0|apply _|..]; clear H0 tr.
    + unfold ensureNoFloatingIP. intros t a H0.
      eapply LastMutation_mbind; [exact H0|apply _|]. clear H0 t. intros t1 fips t2 H1 H2.
      apply listGatewayFloatingIPs_ok in H1 as (items & -> & -> & Hf).
      destruct (sort_slice _ items) as [|f rest] eqn:Es; [apply exec_ret in H2 as [-> _]; apply LastMutation_nil|].
      apply exec_delete_then in H2 as (r' & ->%exec_call). apply LastMutation_single. intros _.
      assert (f ∈ items). { apply (sort_slice_elem (byID fip_ID)). rewrite Es. by left. }
      split; [apply Forall_app; split; [done|by apply Forall_singleton]|].
      split; [done|]. exists lb, items, f. rewrite Forall_forall in Hf. split_and!; [done|set_solver|done|done|by apply Hf].
    + intros o Hq%negb_false_iff. cbn beta. rewrite Hq. by eexists.
    + intros t1 o t2 _ Hq H2. apply negb_true_iff in Hq. cbn beta in H2. rewrite Hq in H2.
      apply exec_ret in H2 as [-> _]. apply LastMutation_nil.
  - eapply (LastMutation_stage settled); [exact H0|apply _|..]; clear H0 tr.
    + unfold ensureFloatingIP. intros t a H0.
      eapply LastMutation_mbind; [exact H0|apply _|]. clear H0 t. intros t1 fips t2 H1 H2.
      apply listGatewayFloatingIPs_ok in H1 as (items & -> & -> & Hf).
      eapply LastMutation_mbind; [exact H2|solve_readonly|]. clear H2 t2. intros t1 owned t2 H1 H2. inv_exec.
      apply ownFloatingIP_fold in H1 as [Hs _].
      destruct owned; [apply exec_ret in H2 as [-> _]; apply LastMutation_nil|].
      apply sort_slice_nil_inv in Hs as ->.
      apply onError_call_then in H2 as [x ->]; [|no_request]. apply LastMutation_single. intros _.
      split; [apply Forall_app; split; [done|by apply Forall_singleton]|].
      split_and!; [done|done|done|]. exists lb. split_and!; [done|done|set_solver].
    + intros [f o] Hq%negb_false_iff. change (isProgressing o = true) in Hq. cbn beta iota. rewrite Hq. by eexists.
    + intros t1 [f o] t2 _ Hq%negb_true_iff H2. change (isProgressing o = false) in Hq. cbn beta iota in H2. rewrite Hq in H2.
      left. eapply @read_only; [|exact H2]. solve_readonly.
Qed.

(** The Floating IP a settled stage leaves: none without an external network,
    and otherwise exactly one, on that network. *)
Definition floatingIPInPlace (spec : GatewaySpec) (items : list FloatingIP) (id address : string)
    : Prop :=
  if String.eqb (gs_ExternalNetworkID spec) "" then items = [] /\ id = "" /\ address = ""
  else exists f, items = [f] /\ fip_FloatingNetworkID f = gs_ExternalNetworkID spec /\
                 id = fip_ID f /\ address = fip_FloatingIP f.

Lemma ensureGatewayFloatingIP_ready spec port tr id address :
  exec (ensureGatewayFloatingIP p (gs_Identity spec) spec port) tr (Ok (inr (id, address))) ->
  exists items, tr = [Listed (ReqListFloatingIPs (listBy port "")) items] /\
    Forall (ownedFloatingIP p (gs_Identity spec)) items /\ floatingIPInPlace spec items id address.
Proof.
  unfold ensureGatewayFloatingIP, floatingIPInPlace. intros H0.
  destruct (String.eqb (gs_ExternalNetworkID spec) ""); cbn [negb] in H0; inv_exec.
  - destruct (isProgressing _) eqn:Eo; inv_exec. unfold ensureNoFloatingIP in *. inv_exec.
    match goal with Hl : exec (listGatewayFloatingIPs _ _ _) _ _ |- _ =>
      apply listGatewayFloatingIPs_ok in Hl as (items & -> & -> & Hf) end.
    destruct (sort_slice _ items) eqn:Es; inv_exec.
    apply sort_slice_nil_inv in Es as ->. by exists [].
  - match goal with x : option FloatingIP * Outcome |- _ => destruct x as [found o] end.
    destruct (isProgressing o) eqn:Eo; inv_exec. unfold ensureFloatingIP in *. inv_exec.
    match goal with Hl : exec (listGatewayFloatingIPs _ _ _) _ _ |- _ =>
      apply listGatewayFloatingIPs_ok in Hl as (items & -> & -> & Hf) end.
    match goal with Hw : foldM _ _ _ = Ok ?x |- _ =>
      apply ownFloatingIP_fold in Hw as [Hs Hn]; destruct x as [f|]; inv_exec end.
    pose proof (sort_slice_perm (byID fip_ID) items) as Hperm. rewrite Hs in Hperm.
    apply Permutation_singleton_l in Hperm as <-. simplify_eq/=. eexists. split_and!; [done|done|].
    by eexists.
Qed.

(** *** The listener stage *)

(** What [findGatewayListener] leaves for the listener stage. *)
Definition listenerObserved (t0 : list event) (lbID : string) (observed : option Listener) : Prop :=
  Listed (ReqListListeners (listBy lbID (p_projectID p)))
    (match observed with Some l => [l] | None => [] end) ∈ t0.

Lemma findGatewayListener_ok identity spec lbID tr observed :
  exec (findGatewayListener p identity spec lbID) tr (Ok observed) ->
  Forall (showsOwned p identity) tr /\ listenerObserved tr lbID observed /\
  match observed with
  | Some l => ls_Protocol l = "HTTP" /\ ls_ProtocolPort l = gs_ListenerPort spec
  | None => True
  end.
Proof.
  unfold findGatewayListener, listenerObserved. intros H0. inv_exec.
  match goal with Hl : exec (findManagedGatewayListener _ _ _) _ (Ok ?x) |- _ =>
    apply findManagedGatewayListener_ok in Hl as [-> Hown]; destruct x as [l|] end; inv_exec.
  - destruct (negb _ || negb _) eqn:E; inv_exec. bool_hyps.
    split_and!; [|set_solver|done|done]. apply Forall_singleton. by apply Forall_singleton.
  - split_and!; [|set_solver|done]. by repeat constructor.
Qed.

Lemma ensureListener_authorised spec lb observed allow t0 tr r :
  exec (ensureListener p (gs_Identity spec) spec (lb_ID lb) observed allow) tr r ->
  Forall (showsOwned p (gs_Identity spec)) t0 -> listenerObserved t0 (lb_ID lb) observed ->
  activeLoadBalancer p (gs_Identity spec) t0 lb -> (allow = true -> noRouteResources p t0 (lb_ID lb)) ->
  LastMutation (fun t => authorisedChange p spec (t0 ++ t)) tr.
Proof.
  unfold ensureListener, enableListener. intros H0 Ho Hobs Hlb Hallow. destruct observed as [l|].
  - destruct (ls_AdminStateUp l); cbn [negb] in H0; [apply exec_ret in H0 as [-> _]; apply LastMutation_nil|].
    destruct allow; cbn [negb] in H0; [|apply exec_ret in H0 as [-> _]; apply LastMutation_nil].
    assert (exists x, tr = [Ev (ReqUpdateListener (ls_ID l) (Some true)) x]) as [x ->].
    { apply exec_mbind in H0 as [(e & -> & H1)|(t1 & t2 & [] & -> & H1 & [-> _])].
      - by apply onError_call_then in H1; [|no_request].
      - rewrite app_nil_r. by apply onError_call_then in H1; [|no_request]. }
    apply LastMutation_single. intros _. rewrite app_nil_r. split; [done|].
    split; [done|]. exists lb, l. split_and!; [done|by apply Hallow|done|done|].
    rewrite Forall_forall in Ho. apply Ho in Hobs. cbn in Hobs. by apply Forall_inv in Hobs.
  - eapply LastMutation_mbind; [exact H0|solve_readonly|]. clear H0 tr. intros t1 tags t2 H1 H2. inv_exec.
    apply onError_call_then in H2 as [x ->]; [|no_request].
    apply LastMutation_single. intros _. simpl. rewrite app_nil_r. split; [done|]. cbn. split_and!; [done..|]. by exists lb.
Qed.

Lemma ensureListener_ready identity spec lbID observed allow tr found o :
  exec (ensureListener p identity spec lbID observed allow) tr (Ok (found, o)) ->
  isProgressing o = false ->
  tr = [] /\ o = ReadyOutcome /\
  exists l, observed = Some l /\ found = Some l /\ ls_AdminStateUp l = true.
Proof.
  unfold ensureListener. intros H0 Hq. destruct observed as [l|]; [|by inv_exec].
  destruct (ls_AdminStateUp l) eqn:El; cbn [negb] in H0; [inv_exec; naive_solver|].
  destruct allow; cbn [negb] in H0; by inv_exec.
Qed.

(** *** The stages after the graph was validated *)

Lemma enableLoadBalancer_request id (b : GatewayResult) tr r :
  exec (let! _ := enableLoadBalancer id in ret b) tr r ->
  exists x, tr = [Ev (ReqUpdateLoadBalancer id (Some true)) x].
Proof.
  unfold enableLoadBalancer.
  intros [(e & -> & H1)|(t1 & t2 & [] & -> & H1 & [-> _])]%exec_mbind; [|rewrite app_nil_r];
    by apply onError_call_then in H1; [|no_request].
Qed.

Lemma ensureValidatedGateway_authorised spec lb routes observed t0 tr r :
  exec (ensureValidatedGateway p (gs_Identity spec) spec lb routes observed) tr r ->
  Forall (showsOwned p (gs_Identity spec)) t0 -> listenerObserved t0 (lb_ID lb) observed ->
  activeLoadBalancer p (gs_Identity spec) t0 lb -> (routes = false -> noRouteResources p t0 (lb_ID lb)) ->
  LastMutation (fun t => authorisedChange p spec (t0 ++ t)) tr.
Proof.
  unfold ensureValidatedGateway. cbv zeta. intros H2 Hall Hobs Hlb Hno.
  eapply (LastMutation_stage stageSettled); [exact H2|apply _|..]; clear H2 tr.
  { intros t a Hx. by eapply ensureGatewayFloatingIP_authorised. }
  { intros [o|[id addr]] Hs; [by eexists|done]. }
  intros t4 [o|[fid addr]] t5 H1 Hs H2; [apply exec_ret in H2 as [-> _]; apply LastMutation_nil|].
  apply ensureGatewayFloatingIP_ready in H1 as (fips & -> & Hof & _).
  set (T := t0 ++ [Listed (ReqListFloatingIPs (listBy (lb_VipPortID lb) "")) fips]).
  assert (Forall (showsOwned p (gs_Identity spec)) T) as HT.
  { apply Forall_app. split; [done|by apply Forall_singleton]. }
  assert (routes = false -> noRouteResources p T (lb_ID lb)) as HnoT.
  { intros E. eapply noRouteResources_mono; [|by apply Hno]. set_solver. }
  assert (activeLoadBalancer p (gs_Identity spec) T lb) as HlbT
    by (eapply activeLoadBalancer_mono; [|exact Hlb]; set_solver).
  apply LastMutation_impl with (fun t => authorisedChange p spec (T ++ t)).
  { intros t m. unfold T. by rewrite <- app_assoc. }
  eapply (LastMutation_stage settled); [exact H2|apply _|..]; clear H2 t5.
  { intros t a Hx. eapply ensureListener_authorised; [exact Hx|exact HT|..].
    - unfold listenerObserved in *. set_solver.
    - exact HlbT.
    - intros Ha%negb_true_iff. by apply HnoT. }
  { intros [found o] Hq%negb_false_iff. cbn beta iota. cbn [snd] in Hq. rewrite Hq. by eexists. }
  intros t5 [found o] t6 H1 Hq%negb_true_iff H2. cbn beta iota in H2. cbn [snd] in Hq. rewrite Hq in H2.
  apply ensureListener_ready in H1 as (-> & _); [|done].
  eapply LastMutation_mbind; [exact H2|solve_readonly|]. clear H2 t6. intros t6 ls t7 H3 H2. inv_exec.
  destruct (lb_AdminStateUp lb); cbn [negb] in H2; [apply exec_ret in H2 as [-> _]; apply LastMutation_nil|].
  destruct routes; [apply exec_ret in H2 as [-> _]; apply LastMutation_nil|].
  apply enableLoadBalancer_request in H2 as [x ->]. apply LastMutation_single. intros _. simpl.
  rewrite app_nil_r. split; [done|]. split_and!; [done|by apply HnoT|by exists lb].
Qed.

(** C9. In every execution of EnsureGateway at most one request changes
    anything, it comes last, and it is a change the observations before it
    justify: a creation only of what was listed as absent, an activation or
    removal only of a resource that was read and found owned, on the owned and
    active load balancer, an activation only while no route resource exists. *)
Theorem EnsureGateway_authorised spec tr r :
  exec (EnsureGateway p spec) tr r -> LastMutation (authorisedChange p spec) tr.
Proof.
  unfold EnsureGateway, ensureGateway. intros (r' & H0 & _)%exec_onError. clear r.
  eapply LastMutation_mbind; [exact H0|solve_readonly|]. clear H0 tr. intros t1 id t2 H1 H2. inv_exec.
  apply provider_identity_ok in H1 as (-> & _ & _).
  destruct (blank _); [apply exec_raise in H2 as [-> _]; apply LastMutation_nil|].
  destruct (_ || _); [apply exec_raise in H2 as [-> _]; apply LastMutation_nil|].
  eapply (LastMutation_stage settled); [exact H2|apply _|by apply ensureLoadBalancer_authorised|..];
    clear H2 t2.
  { intros [found o] Hq%negb_false_iff. cbn beta iota. cbn [snd] in Hq. rewrite Hq. by eexists. }
  intros t1 [found o] t2 H1 Hq%negb_true_iff H2. cbn beta iota in H2. cbn [snd] in Hq. rewrite Hq in H2.
  apply ensureLoadBalancer_ready in H1 as (lb & -> & -> & [Hlb _] & Hact & Ho & q & Hq'); [|done].
  eapply LastMutation_mbind; [exact H2|solve_readonly|]. clear H2 t2. intros t1' lb' t2 H1 H2. inv_exec.
  injection H1 as <-.
  eapply LastMutation_mbind; [exact H2|solve_readonly|]. clear H2 t2. intros t2 plan t3 H1 H2. inv_exec.
  pose proof H1 as ([Hop _] & _)%buildGatewayDeletionPlan_ok.
  pose proof (buildGatewayDeletionPlan_noRouteResources _ _ _ _ H1) as Hno. clear H1.
  eapply LastMutation_mbind; [exact H2|apply _|]. clear H2 t3. intros t3 observed t4 H1 H2.
  apply findGatewayListener_ok in H1 as (Hol & Hobs & _).
  eapply LastMutation_impl; [|eapply (ensureValidatedGateway_authorised _ _ _ _ (t1 ++ t2 ++ t3)); [exact H2|..]].
  - intros t m. simpl. by rewrite <- !app_assoc.
  - by rewrite !Forall_app.
  - unfold listenerObserved in *. set_solver.
  - split_and!; [done..|]. exists q. set_solver.
  - intros E. eapply noRouteResources_mono; [|by apply Hno]. set_solver.
Qed.

(** *** A ready Gateway *)

Definition gatewayInPlace (spec : GatewaySpec) (tr : list event) (s : GatewayState) : Prop :=
  exists lb l fips id,
    Ev (ReqGetLoadBalancer id) (Ok lb) ∈ tr /\
    Listed (ReqListListeners (listBy (lb_ID lb) (p_projectID p))) [l] ∈ tr /\
    Listed (ReqListFloatingIPs (listBy (lb_VipPortID lb) "")) fips ∈ tr /\
    acceptable spec lb /\ lb_ProvisioningStatus lb = "ACTIVE" /\ lb_AdminStateUp lb = true /\
    ls_Protocol l = "HTTP" /\ ls_ProtocolPort l = gs_ListenerPort spec /\ ls_AdminStateUp l = true /\
    floatingIPInPlace spec fips (FloatingIPID s) (FloatingIPAddress s) /\
    LoadBalancerID s = lb_ID lb /\ VIPPortID s = lb_VipPortID lb /\ VIPAddress s = lb_VipAddress lb /\
    ListenerID s = ls_ID l.

Lemma ensureGatewayFloatingIP_progressing identity spec port tr o :
  exec (ensureGatewayFloatingIP p identity spec port) tr (Ok (inl o)) -> isProgressing o = true.
Proof.
  unfold ensureGatewayFloatingIP. intros H0. destruct (negb _); inv_exec.
  - match goal with x : (option FloatingIP * Outcome)%type |- _ => destruct x as [found o'] end.
    destruct (isProgressing o') eqn:Eo; by inv_exec.
  - destruct (isProgressing _) eqn:Eo; by inv_exec.
Qed.

Lemma ensureValidatedGateway_ready spec lb routes observed tr result :
  exec (ensureValidatedGateway p (gs_Identity spec) spec lb routes observed) tr (Ok result) ->
  isProgressing (g_Outcome result) = false ->
  exists l fips,
    g_Outcome result = ReadyOutcome /\ lb_AdminStateUp lb = true /\
    observed = Some l /\ ls_AdminStateUp l = true /\
    tr = [Listed (ReqListFloatingIPs (listBy (lb_VipPortID lb) "")) fips] /\
    Forall (ownedFloatingIP p (gs_Identity spec)) fips /\
    exists fid addr, floatingIPInPlace spec fips fid addr /\
      g_State result = mkGatewayState (lb_ID lb) (lb_VipPortID lb) (lb_VipAddress lb) fid addr (ls_ID l).
Proof.
  unfold ensureValidatedGateway. cbv zeta. intros H0 Hq. inv_exec.
  match goal with x : (Outcome + string * string)%type |- _ => destruct x as [o|[fid addr]] end; inv_exec.
  { match goal with Hf : exec (ensureGatewayFloatingIP _ _ _ _) _ _ |- _ =>
      apply ensureGatewayFloatingIP_progressing in Hf end. simpl in *. congruence. }
  match goal with x : (option Listener * Outcome)%type |- _ => destruct x as [found o] end.
  destruct (isProgressing o) eqn:Eo; inv_exec; [simpl in *; congruence|].
  match goal with Hl : exec (ensureListener _ _ _ _ _ _) _ _ |- _ =>
    apply ensureListener_ready in Hl as (-> & -> & l & -> & -> & Hl); [|done] end.
  match goal with Hf : exec (ensureGatewayFloatingIP _ _ _ _) _ _ |- _ =>
    apply ensureGatewayFloatingIP_ready in Hf as (fips & -> & Hown & Hplace) end.
  simpl in *. simplify_eq. destruct (lb_AdminStateUp lb) eqn:Elb; cbn [negb] in *.
  - inv_exec. eexists _, fips. split_and!; try done. by exists fid, addr.
  - destruct routes; by inv_exec.
Qed.

Lemma EnsureGateway_ready spec tr result :
  exec (EnsureGateway p spec) tr (Ok result) -> isProgressing (g_Outcome result) = false ->
  mutations tr = [] /\ g_Outcome result = ReadyOutcome /\
  Forall (showsOwned p (gs_Identity spec)) tr /\ gatewayInPlace spec tr (g_State result).
Proof.
  intros H0 Hq. split.
  { apply (Transition_onError gatewaySettled Classify (ensureGateway p spec)) in H0; [|apply _].
    apply H0. unfold gatewaySettled. by rewrite Hq. }
  unfold EnsureGateway, ensureGateway in H0. inv_exec.
  match goal with Hi : provider_identity _ _ = _ |- _ => apply provider_identity_ok in Hi as (-> & _) end.
  destruct (blank _); [by inv_exec|]. destruct (_ || _); [by inv_exec|]. inv_exec.
  match goal with x : (option LoadBalancer * Outcome)%type |- _ => destruct x as [found o] end.
  destruct (isProgressing o) eqn:Eo; inv_exec; [simpl in *; congruence|].
  match goal with Hl : exec (ensureLoadBalancer _ _ _) _ _ |- _ =>
    apply ensureLoadBalancer_ready in Hl as (lb & -> & -> & Hacc & Hact & Hown & id & Hget); [|done] end.
  match goal with Hd : deref (Some _) = Ok _ |- _ => injection Hd as <- end.
  match goal with Hl : exec (findGatewayListener _ _ _ _) _ _ |- _ =>
    apply findGatewayListener_ok in Hl as (Hown' & Hobs & Hhttp) end.
  match goal with Hl : exec (buildGatewayDeletionPlan _ _ _) _ _ |- _ =>
    apply buildGatewayDeletionPlan_ok in Hl as ([Hown'' _] & _) end.
  match goal with Hl : exec (ensureValidatedGateway _ _ _ _ _ _) _ _ |- _ =>
    apply ensureValidatedGateway_ready in Hl as
      (l & fips & Hr & Hup & -> & Hlup & -> & Hf & fid & addr & Hplace & Hstate); [|done] end.
  split_and!; [done| |].
  - rewrite !Forall_app. split_and!; try done. by apply Forall_singleton.
  - exists lb, l, fips, id. rewrite Hstate. simpl.
    unfold listenerObserved in Hobs. split_and!; try done; try set_solver; apply Hhttp.
Qed.

(** C11. When EnsureGateway reports Ready, it has changed nothing, everything it
    was shown is owned by the Gateway, and the state it reports describes an
    active load balancer with the desired subnet and provider, one enabled HTTP
    listener on the desired port and the desired Floating IP. *)
Theorem EnsureGateway_ready_sound spec tr result :
  exec (EnsureGateway p spec) tr (Ok result) -> isProgressing (g_Outcome result) = false ->
  mutations tr = [] /\ g_Outcome result = ReadyOutcome /\
  Forall (showsOwned p (gs_Identity spec)) tr /\ gatewayInPlace spec tr (g_State result).
Proof. apply EnsureGateway_ready. Qed.
End ensure.

Section gone.
Context `{Gophercloud} (p : Provider).

Lemma findGatewayLoadBalancer_none identity tr :
  exec (findGatewayLoadBalancer p identity) tr (Ok None) ->
  exists tags, GatewayDiscoveryTags identity RoleLoadBalancer = Ok tags /\
    tr = [Listed (ReqListLoadBalancers (mkListOpts "" (p_projectID p) tags)) []].
Proof.
  unfold findGatewayLoadBalancer. intros H0. inv_exec.
  match goal with l : list LoadBalancer |- _ => destruct l as [|x []] end; inv_exec. eauto.
Qed.

Lemma observeLoadBalancerOnce_absent id tr :
  exec (observeLoadBalancerOnce p id) tr (Ok phaseAbsent) ->
  exists e, tr = [Ev (ReqGetLoadBalancer id) (Err e)] /\ isNotFound e = true.
Proof.
  unfold observeLoadBalancerOnce, try. intros (t1 & t2 & [lb'|e] & -> & ->%exec_call & H2)%exec_bind.
  - destruct (String.eqb _ "ACTIVE"); [by apply exec_ret in H2 as [_ ?]|].
    destruct (HasPrefix _ _); [by apply exec_ret in H2 as [_ ?]|].
    destruct (String.eqb _ _); by apply exec_raise in H2 as [_ ?].
  - destruct (isNotFound e) eqn:E; [|by apply exec_raise in H2 as [_ ?]].
    apply exec_ret in H2 as [-> _]. by exists e.
Qed.

(** The load balancer of a Gateway is gone: the list of those that carry the
    Gateway's names is empty, or the only one in it is the Gateway's and was not
    found when it was read after that.  Nothing else was asked. *)
Definition gatewayGone (id : Identity) (tr : list event) : Prop :=
  exists tags, GatewayDiscoveryTags id RoleLoadBalancer = Ok tags /\
    let query := ReqListLoadBalancers (mkListOpts "" (p_projectID p) tags) in
    (tr = [Listed query []] \/
     exists lb e, MatchesGateway id (lb_Tags lb) RoleLoadBalancer = true /\ isNotFound e = true /\
       tr = [Listed query [lb]; Ev (ReqGetLoadBalancer (lb_ID lb)) (Err e)]).

Lemma deleteActiveGateway_progressing identity lb tr o :
  exec (deleteActiveGateway p identity lb) tr (Ok o) -> isProgressing o = true.
Proof.
  unfold deleteActiveGateway, deleteValidatedGateway. intros H0. inv_exec.
  destruct (firstStep _); inv_exec; [done|].
  destruct (sort_slice _ _); by inv_exec.
Qed.

(** When DeleteGateway reports Ready, which lets the finalizer go, it has
    changed nothing and OpenStack has shown that no load balancer with the
    Gateway's identity exists. *)
Lemma DeleteGateway_ready_gone id tr o :
  exec (DeleteGateway p id) tr (Ok o) -> isProgressing o = false ->
  o = ReadyOutcome /\ mutations tr = [] /\ gatewayGone id tr.
Proof.
  unfold DeleteGateway, gatewayGone. intros H0 Hq. inv_exec.
  match goal with Hx : provider_identity _ _ = _ |- _ => apply provider_identity_ok in Hx as (-> & _) end.
  match goal with Hl : exec (findGatewayLoadBalancer _ _) _ (Ok ?f) |- _ => destruct f as [lb|] end.
  - match goal with Hl : exec (findGatewayLoadBalancer _ _) _ _ |- _ =>
      apply findGatewayLoadBalancer_some in Hl as (tags & -> & Ht & _) end.
    destruct (MatchesGateway _ _ _) eqn:Em; cbn [negb] in *; [|by inv_exec]. inv_exec.
    match goal with Hl : exec (observeLoadBalancerOnce _ _) _ (Ok ?f) |- _ => destruct f as [lb'|lb' o'|] end.
    + match goal with Hx : exec (deleteActiveGateway _ _ _) _ _ |- _ =>
        apply deleteActiveGateway_progressing in Hx end. congruence.
    + inv_exec. match goal with Hl : exec (observeLoadBalancerOnce _ _) _ _ |- _ =>
        apply observeLoadBalancerOnce_pending in Hl as [_ Hl] end. congruence.
    + inv_exec. match goal with Hl : exec (observeLoadBalancerOnce _ _) _ _ |- _ =>
        apply observeLoadBalancerOnce_absent in Hl as (e & -> & He) end.
      split_and!; [done|done|]. exists tags. split; [done|]. right. by exists lb, e.
  - inv_exec. match goal with Hl : exec (findGatewayLoadBalancer _ _) _ _ |- _ =>
      apply findGatewayLoadBalancer_none in Hl as (tags & Ht & ->) end.
    split_and!; [done|done|]. exists tags. split; [done|]. by left.
Qed.
End gone.
