(* ===== verification/RoutePlan.v ===== *)
(** * Route plans

    Models the pure part of the HTTPRoute graph: the desired route and the
    observed graph ([route.go], [route_graph.go]), [buildDesiredRoute],
    [policiesFor], [rulesFor], [memberKey], [buildRouteEnsurePlan],
    [buildRoutePolicyPlan] and [buildRouteDeletionPlan].  Go maps are [gmap]s;
    where the source ranges over one, it sorts what it collects, and so does
    the model.  The strings of Octavia's protocols, algorithms, actions and
    comparisons are the documented values of its API. *)
From stdpp Require Import base list strings gmap.
From Stdlib Require Import Ascii ZArith Lia.
From S2P Require Import Prelude GoStrings GoNetip Cloud Metadata OpenStack GatewayGraph.

Set Default Goal Selector "!".

(** ** Desired state (route.go) *)

Record desiredPolicy := mkDesiredPolicy {
  dpo_role : string; dpo_position : Z; dpo_compareType : string; dpo_path : string }.
Record desiredRule := mkDesiredRule {
  dr_role : string; dr_ruleType : string; dr_compareType : string; dr_value : string }.
Record desiredRoute := mkDesiredRoute {
  d_identity : Identity; d_spec : RouteSpec; d_members : list Member;
  d_healthPath : string; d_policies : list desiredPolicy }.

Definition zeroPolicy : desiredPolicy := mkDesiredPolicy "" 0 "" "".
Definition zeroRule : desiredRule := mkDesiredRule "" "" "" "".
Definition zeroMember : Member := mkMember "" 0.

Definition CompareTypeEqual : string := "EQUAL_TO".
Definition CompareTypeStartWith : string := "STARTS_WITH".
Definition TypePath : string := "PATH".
Definition TypeHostName : string := "HOST_NAME".
Definition ActionRedirectToPool : string := "REDIRECT_TO_POOL".
Definition LBMethodRoundRobin : string := "ROUND_ROBIN".
Definition ProtocolHTTP : string := "HTTP".
Definition TypeHTTP : string := "HTTP".
Definition MethodGet : string := "GET".

Definition memberKey (address : string) (port : Z) : string :=
  match ParseAddr address with
  | Some parsed =>
      if ((port <? 1) || (65535 <? port))%Z then address ^^ ":" ^^ decimal_Z port
      else AddrPortString parsed port
  | None => address ^^ ":" ^^ decimal_Z port
  end.

Definition policiesFor (spec : RouteSpec) : list desiredPolicy :=
  let path := if String.eqb (rs_PathValue spec) "" then "/" else rs_PathValue spec in
  if bool_decide (rs_PathType spec = PathMatchExact)
  then [mkDesiredPolicy RolePolicyExact 1 CompareTypeEqual path]
  else
    let path := TrimRight path "/"%char in
    let path := if String.eqb path "" then "/" else path in
    if String.eqb path "/"
    then [mkDesiredPolicy RolePolicyPrefix 1 CompareTypeStartWith "/"]
    else [mkDesiredPolicy RolePolicyExact 1 CompareTypeEqual path;
          mkDesiredPolicy RolePolicyPrefix 2 CompareTypeStartWith (path ^^ "/")].

Definition rulesFor (policy : desiredPolicy) (hostname : string) : list desiredRule :=
  mkDesiredRule RoleRulePath TypePath (dpo_compareType policy) (dpo_path policy)
  :: (if String.eqb hostname "" then []
      else [mkDesiredRule RoleRuleHost TypeHostName CompareTypeEqual hostname]).

(** The keys of a Go map, sorted with [sort.Strings]. *)
Definition sortedKeys {A} (m : gmap string A) : list string :=
  sort_slice String.ltb (fst <$> map_to_list m).

(** The values of a map in the order of its sorted keys. *)
Definition sortedValues {A} (m : gmap string A) : list A := omap (fun k => m !! k) (sortedKeys m).

(** [buildDesiredRoute]'s [invalid]. *)
Definition invalidRoute {A} (e : error) : outcome_of A :=
  Err (NewProviderError ErrorCategoryTerminalValidation (Some e)).

(** The error of [netip.ParseAddr], of a type the repository never tests for. *)
Definition parseAddrError (address : string) : error :=
  ForeignError (mkForeign ("ParseAddr(" ^^ address ^^ ")") false false false None false false false
                  None None false false) None.

(** One iteration of the loop over the members of the specification. *)
Definition collectMember (membersByKey : gmap string Member) (member : Member)
    : outcome_of (gmap string Member) :=
  if ((m_Port member <? 1) || (65535 <? m_Port member))%Z
  then invalidRoute (Errorf "member %s has invalid port %d"
                       [m_Address member; decimal_Z (m_Port member)] None)
  else
    match ParseAddr (m_Address member) with
    | None => invalidRoute (Errorf "member address %q is not a valid IP address: %w"
                              [m_Address member] (Some (parseAddrError (m_Address member))))
    | Some address =>
        let member := mkMember (AddrString address) (m_Port member) in
        Ok (<[memberKey (m_Address member) (m_Port member) := member]> membersByKey)
    end.

Definition routeRoles : list string :=
  [RolePool; RoleMember; RoleMonitor; RolePolicyExact; RolePolicyPrefix; RoleRulePath; RoleRuleHost].

Definition buildDesiredRoute (p : Provider) (spec : RouteSpec) : outcome_of desiredRoute :=
  let requirements := rs_GatewayRequirements spec in
  let? identity := provider_identity p (rs_Identity spec) in
  let? _ := forM_ (fun role =>
    match RouteTags identity role with
    | Ok _ => Ok tt
    | Err e => invalidRoute (Errorf "build %s identity tags: %w" [role] (Some e))
    end) routeRoles in
  if blank (gr_Provider requirements)
  then invalidRoute (Errorf "gateway provider must not be empty" [] None)
  else if blank (gr_VIPSubnetID requirements)
  then invalidRoute (Errorf "gateway VIP subnet ID must not be empty" [] None)
  else if ((gr_ListenerPort requirements <? 1) || (65535 <? gr_ListenerPort requirements))%Z
  then invalidRoute (Errorf "gateway listener port %d is outside 1-65535"
                       [decimal_Z (gr_ListenerPort requirements)] None)
  else if negb (nonEmpty (rs_Members spec))
  then invalidRoute (Errorf "at least one ready backend member is required" [] None)
  else if blank (rs_MemberSubnetID spec)
  then invalidRoute (Errorf "member subnet ID must not be empty" [] None)
  else
    match rs_PathType spec with
    | PathMatchOther value => invalidRoute (Errorf "unsupported path match type %q" [value] None)
    | _ =>
        let? membersByKey := foldM collectMember ∅ (rs_Members spec) in
        let healthPath := if String.eqb (rs_HealthPath spec) "" then "/" else rs_HealthPath spec in
        if negb (HasPrefix healthPath "/")
        then invalidRoute (Errorf "health check path %q must start with /" [healthPath] None)
        else Ok (mkDesiredRoute identity spec (sortedValues membersByKey) healthPath (policiesFor spec))
    end.

(** ** Observed state (route_graph.go) *)

Record observedRouteRule := mkObservedRule { or_rule : Rule; or_role : string }.
Record observedRoutePolicy := mkObservedPolicy {
  op_policy : L7Policy; op_role : string; op_rules : list observedRouteRule }.
Record observedRouteGraph := mkObservedGraph {
  og_pool : option Pool; og_members : list PoolMember; og_monitor : option Monitor;
  og_policies : list observedRoutePolicy }.

Definition routeMonitorDelay : Z := 10.
Definition routeMonitorTimeout : Z := 5.
Definition routeMonitorMaxRetries : Z := 3.
Definition routeMonitorMaxRetriesDown : Z := 3.
Definition routeMonitorExpectedCodes : string := "200-399".

(** ** Mutations *)

(** A [uint8] with seventeen constants. *)
Inductive routeMutationKind :=
| routeMutationCreatePool
| routeMutationUpdatePool
| routeMutationDeleteMember
| routeMutationCreateMember
| routeMutationUpdateMember
| routeMutationCreateMonitor
| routeMutationUpdateMonitor
| routeMutationDisablePolicy
| routeMutationDeleteRule
| routeMutationDeletePolicy
| routeMutationCreatePolicy
| routeMutationUpdatePolicy
| routeMutationCreateRule
| routeMutationUpdateRule
| routeMutationEnablePolicy
| routeMutationDeleteMonitor
| routeMutationDeletePool
| routeMutationOther (n : N).

#[export] Instance routeMutationKind_eq_dec : EqDecision routeMutationKind.
Proof. solve_decision. Defined.

Record routeMutation := mkMutation {
  rm_kind : routeMutationKind; rm_id : string; rm_parentID : string;
  rm_member : Member; rm_policy : desiredPolicy; rm_rule : desiredRule }.

(** The composite literals of the source, which leave the other fields zero. *)
Definition mutate (kind : routeMutationKind) (id parentID : string) : routeMutation :=
  mkMutation kind id parentID zeroMember zeroPolicy zeroRule.
Definition mutateMember (kind : routeMutationKind) (parentID : string) (m : Member) : routeMutation :=
  mkMutation kind "" parentID m zeroPolicy zeroRule.
Definition mutatePolicy (kind : routeMutationKind) (id parentID : string) (d : desiredPolicy)
    : routeMutation := mkMutation kind id parentID zeroMember d zeroRule.
Definition mutateRule (kind : routeMutationKind) (id parentID : string) (d : desiredRule)
    : routeMutation := mkMutation kind id parentID zeroMember zeroPolicy d.

Definition message (s : routeMutation) : string :=
  match rm_kind s with
  | routeMutationCreatePool => "Created Octavia pool"
  | routeMutationUpdatePool => "Updated Octavia pool"
  | routeMutationDeleteMember => "Deleted stale Octavia member"
  | routeMutationCreateMember => "Created Octavia member"
  | routeMutationUpdateMember => "Updated Octavia member"
  | routeMutationCreateMonitor => "Created Octavia health monitor"
  | routeMutationUpdateMonitor => "Updated Octavia health monitor"
  | routeMutationDisablePolicy => "Disabled Octavia L7 policy before changing rules"
  | routeMutationDeleteRule => "Deleted Octavia L7 rule"
  | routeMutationDeletePolicy => "Deleted Octavia L7 policy"
  | routeMutationCreatePolicy => "Created Octavia L7 policy"
  | routeMutationUpdatePolicy => "Updated Octavia L7 policy"
  | routeMutationCreateRule => "Created Octavia L7 rule"
  | routeMutationUpdateRule => "Updated Octavia L7 rule"
  | routeMutationEnablePolicy => "Enabled converged Octavia L7 policy"
  | routeMutationDeleteMonitor => "Deleted Octavia health monitor"
  | routeMutationDeletePool => "Deleted Octavia pool"
  | routeMutationOther _ => "Changed Octavia route graph"
  end.

Definition isRouteDeletion (kind : routeMutationKind) : bool :=
  match kind with
  | routeMutationDeleteMember | routeMutationDeleteRule | routeMutationDeletePolicy
  | routeMutationDeleteMonitor | routeMutationDeletePool => true
  | _ => false
  end.

(** ** The ensure plan *)

(** State of the loop over the observed members: the desired members that are
    still missing, the IDs kept and the plan. *)
Definition planMember (memberSubnetID poolID : string)
    (acc : gmap string Member * list string * list routeMutation) (member : PoolMember)
    : gmap string Member * list string * list routeMutation :=
  let '(desiredMembers, memberIDs, plan) := acc in
  let key := memberKey (mb_Address member) (mb_ProtocolPort member) in
  if negb (bool_decide (is_Some (desiredMembers !! key)))
     || negb (String.eqb (mb_SubnetID member) memberSubnetID)
  then (desiredMembers, memberIDs,
        plan ++ [mutate routeMutationDeleteMember (mb_ID member) poolID])
  else (delete key desiredMembers, memberIDs ++ [mb_ID member],
        if mb_AdminStateUp member then plan
        else plan ++ [mutate routeMutationUpdateMember (mb_ID member) poolID]).

Definition monitorDiffers (healthPath : string) (monitor : Monitor) : bool :=
  negb (mn_Delay monitor =? routeMonitorDelay)%Z
  || negb (mn_Timeout monitor =? routeMonitorTimeout)%Z
  || negb (mn_MaxRetries monitor =? routeMonitorMaxRetries)%Z
  || negb (mn_MaxRetriesDown monitor =? routeMonitorMaxRetriesDown)%Z
  || negb (String.eqb (mn_URLPath monitor) healthPath)
  || negb (String.eqb (mn_HTTPMethod monitor) MethodGet)
  || negb (String.eqb (mn_ExpectedCodes monitor) routeMonitorExpectedCodes)
  || negb (mn_AdminStateUp monitor).

Definition desiredMemberMap (members : list Member) : gmap string Member :=
  foldl (fun m member => <[memberKey (m_Address member) (m_Port member) := member]> m) ∅ members.

(** The branch of [buildRouteEnsurePlan] with a pool: the plan, the member IDs
    and the monitor ID. *)
Definition planPool (desired : desiredRoute) (pool : Pool) (members : list PoolMember)
    (monitor : option Monitor) : outcome_of (list routeMutation * list string * string) :=
  if negb (String.eqb (pl_Protocol pool) ProtocolHTTP)
  then Err (conflict "pool %s has protocol %s" [pl_ID pool; pl_Protocol pool])
  else
    let plan := if negb (String.eqb (pl_LBMethod pool) LBMethodRoundRobin) || negb (pl_AdminStateUp pool)
                then [mutate routeMutationUpdatePool (pl_ID pool) ""] else [] in
    let '(missing, memberIDs, plan) :=
      foldl (planMember (rs_MemberSubnetID (d_spec desired)) (pl_ID pool))
        (desiredMemberMap (d_members desired), [], plan) members in
    let plan := plan ++ (mutateMember routeMutationCreateMember (pl_ID pool) <$> sortedValues missing) in
    match monitor with
    | None => Ok (plan ++ [mutate routeMutationCreateMonitor "" (pl_ID pool)], memberIDs, "")
    | Some m =>
        if negb (String.eqb (mn_Type m) TypeHTTP)
        then Err (conflict "health monitor %s has type %s" [mn_ID m; mn_Type m])
        else Ok (if monitorDiffers (d_healthPath desired) m
                 then plan ++ [mutate routeMutationUpdateMonitor (mn_ID m) (pl_ID pool)] else plan,
                 memberIDs, mn_ID m)
    end.

Definition policyDiffers (wanted : desiredPolicy) (poolID : string) (policy : L7Policy) : bool :=
  negb (String.eqb (lp_Action policy) ActionRedirectToPool)
  || negb (String.eqb (lp_RedirectPoolID policy) poolID)
  || negb (lp_Position policy =? dpo_position wanted)%Z.

Definition ruleDiffers (wanted : desiredRule) (rule : Rule) : bool :=
  negb (String.eqb (lr_RuleType rule) (dr_ruleType wanted))
  || negb (String.eqb (lr_CompareType rule) (dr_compareType wanted))
  || negb (String.eqb (lr_Value rule) (dr_value wanted))
  || lr_Invert rule || negb (lr_AdminStateUp rule).

(** The accumulator of [buildRoutePolicyPlan]: plan, policy IDs, rule IDs and
    whether there is a semantic difference. *)
Record policyAcc := mkPolicyAcc {
  pa_plan : list routeMutation; pa_policyIDs : list string; pa_ruleIDs : list string;
  pa_semanticDiff : bool }.

Definition withSteps (acc : policyAcc) (steps : list routeMutation) : policyAcc :=
  mkPolicyAcc (pa_plan acc ++ steps) (pa_policyIDs acc) (pa_ruleIDs acc) true.
Definition withPolicyID (acc : policyAcc) (id : string) : policyAcc :=
  mkPolicyAcc (pa_plan acc) (pa_policyIDs acc ++ [id]) (pa_ruleIDs acc) (pa_semanticDiff acc).
Definition withRuleID (acc : policyAcc) (id : string) : policyAcc :=
  mkPolicyAcc (pa_plan acc) (pa_policyIDs acc) (pa_ruleIDs acc ++ [id]) (pa_semanticDiff acc).

(** A policy whose role is not wanted. *)
Definition planUnwantedPolicy (desiredPolicies : gmap string desiredPolicy) (acc : policyAcc)
    (policy : observedRoutePolicy) : policyAcc :=
  if bool_decide (is_Some (desiredPolicies !! op_role policy)) then acc
  else
    withSteps acc
      (((fun rule => mutate routeMutationDeleteRule (lr_ID (or_rule rule)) (lp_ID (op_policy policy)))
          <$> op_rules policy)
       ++ [mutate routeMutationDeletePolicy (lp_ID (op_policy policy)) ""]).

(** One wanted rule, with the observed rules that are left. *)
Definition planRule (policyID : string) (st : policyAcc * gmap string observedRouteRule)
    (wanted : desiredRule) : policyAcc * gmap string observedRouteRule :=
  let '(acc, actualRules) := st in
  match actualRules !! dr_role wanted with
  | None => (withSteps acc [mutateRule routeMutationCreateRule "" policyID wanted], actualRules)
  | Some observed =>
      let rule := or_rule observed in
      let acc := withRuleID acc (lr_ID rule) in
      let acc := if ruleDiffers wanted rule
                 then withSteps acc [mutateRule routeMutationUpdateRule (lr_ID rule) policyID wanted]
                 else acc in
      (acc, delete (dr_role wanted) actualRules)
  end.

Definition staleRules (actualRules : gmap string observedRouteRule) : list observedRouteRule :=
  sort_slice (byID (fun r => lr_ID (or_rule r))) (snd <$> map_to_list actualRules).

(** The steps after the loop over the wanted rules; ranging over nothing leaves
    the accumulator alone. *)
Definition planStaleRules (policyID : string) (acc : policyAcc) (stale : list observedRouteRule)
    : policyAcc :=
  foldl (fun acc rule =>
    withSteps acc [mutate routeMutationDeleteRule (lr_ID (or_rule rule)) policyID]) acc stale.

Definition rulesByRole (rules : list observedRouteRule) : gmap string observedRouteRule :=
  foldl (fun m rule => <[or_role rule := rule]> m) ∅ rules.
Definition policiesByRole (policies : list observedRoutePolicy) : gmap string observedRoutePolicy :=
  foldl (fun m policy => <[op_role policy := policy]> m) ∅ policies.
Definition desiredByRole (policies : list desiredPolicy) : gmap string desiredPolicy :=
  foldl (fun m policy => <[dpo_role policy := policy]> m) ∅ policies.

Definition planWantedPolicy (hostname poolID : string)
    (actualPolicies : gmap string observedRoutePolicy) (acc : policyAcc) (wanted : desiredPolicy)
    : policyAcc :=
  match actualPolicies !! dpo_role wanted with
  | None => withSteps acc [mutatePolicy routeMutationCreatePolicy "" poolID wanted]
  | Some observed =>
      let policy := op_policy observed in
      let acc := withPolicyID acc (lp_ID policy) in
      let acc := if policyDiffers wanted poolID policy
                 then withSteps acc [mutatePolicy routeMutationUpdatePolicy (lp_ID policy) poolID wanted]
                 else acc in
      let '(acc, rest) := foldl (planRule (lp_ID policy)) (acc, rulesByRole (op_rules observed))
                            (rulesFor wanted hostname) in
      planStaleRules (lp_ID policy) acc (staleRules rest)
  end.

Definition buildRoutePolicyPlan (desired : desiredRoute) (actual : list observedRoutePolicy)
    (poolID : string) : policyAcc :=
  let acc := foldl (planUnwantedPolicy (desiredByRole (d_policies desired)))
               (mkPolicyAcc [] [] [] false) actual in
  foldl (planWantedPolicy (rs_Hostname (d_spec desired)) poolID (policiesByRole actual))
    acc (d_policies desired).

(** The first wanted policy that is observed and disabled. *)
Definition policyToEnable (desired : list desiredPolicy) (actual : list observedRoutePolicy)
    : option observedRoutePolicy :=
  head (wanted ← desired;
        filter (fun policy => op_role policy = dpo_role wanted /\
                              lp_AdminStateUp (op_policy policy) = false) actual).

Definition disableSteps (actual : list observedRoutePolicy) : list routeMutation :=
  (fun policy => mutate routeMutationDisablePolicy (lp_ID (op_policy policy)) "") <$>
    filter (fun policy => lp_AdminStateUp (op_policy policy) = true) actual.

Definition buildRouteEnsurePlan (desired : desiredRoute) (actual : observedRouteGraph)
    : outcome_of (list routeMutation * RouteState) :=
  let? (poolID, nonPolicyPlan, memberIDs, monitorID) :=
    match og_pool actual with
    | None => Ok ("", [mutate routeMutationCreatePool "" ""], [], "")
    | Some pool =>
        let? (plan, memberIDs, monitorID) := planPool desired pool (og_members actual) (og_monitor actual) in
        Ok (pl_ID pool, plan, memberIDs, monitorID)
    end in
  let acc := buildRoutePolicyPlan desired (og_policies actual) poolID in
  let state := mkRouteState poolID memberIDs monitorID (pa_policyIDs acc) (pa_ruleIDs acc) in
  if pa_semanticDiff acc
  then Ok (disableSteps (og_policies actual) ++ nonPolicyPlan ++ pa_plan acc, state)
  else if nonEmpty nonPolicyPlan then Ok (nonPolicyPlan, state)
  else
    match policyToEnable (d_policies desired) (og_policies actual) with
    | Some policy => Ok ([mutate routeMutationEnablePolicy (lp_ID (op_policy policy)) ""], state)
    | None => Ok ([], state)
    end.

(** ** The deletion plan *)

Definition buildRouteDeletionPlan (actual : observedRouteGraph) : outcome_of (list routeMutation) :=
  let policies := og_policies actual in
  let plan := disableSteps policies
    ++ (policy ← policies;
        (fun rule => mutate routeMutationDeleteRule (lr_ID (or_rule rule)) (lp_ID (op_policy policy)))
          <$> op_rules policy)
    ++ ((fun policy => mutate routeMutationDeletePolicy (lp_ID (op_policy policy)) "") <$> policies) in
  let? monitorSteps :=
    match og_monitor actual with
    | None => Ok []
    | Some m => let? pool := deref (og_pool actual) in
                Ok [mutate routeMutationDeleteMonitor (mn_ID m) (pl_ID pool)]
    end in
  let? memberSteps :=
    match og_members actual with
    | [] => Ok []
    | members => let? pool := deref (og_pool actual) in
                 Ok ((fun m => mutate routeMutationDeleteMember (mb_ID m) (pl_ID pool)) <$> members)
    end in
  let poolSteps := match og_pool actual with
                   | None => []
                   | Some pool => [mutate routeMutationDeletePool (pl_ID pool) ""]
                   end in
  Ok (plan ++ monitorSteps ++ memberSteps ++ poolSteps).
