(* ===== verification/RoutePlanFacts.v ===== *)
(** * Theorems about route plans

    The ensure plan is empty exactly when the observed graph is the desired one;
    policies are disabled before anything about them changes and enabled last;
    the deletion plan removes leaves first; and the L7 policies of a route match
    the paths its HTTPRoute match means. *)
From stdpp Require Import base list strings gmap sets.
From Stdlib Require Import Ascii ZArith Lia.
From S2P Require Import Prelude GoStrings GoNetip Cloud Metadata OpenStack GatewayGraph RoutePlan.

Set Default Goal Selector "!".

(** ** Maps built by a loop *)

Section by_key.
Context {A : Type} (key : A -> string).

Lemma foldl_insert_lookup (l : list A) (m : gmap string A) k x :
  NoDup (key <$> l) ->
  foldl (fun m x => <[key x := x]> m) m l !! k = Some x <->
  x ∈ l /\ key x = k \/ k ∉ (key <$> l) /\ m !! k = Some x.
Proof.
  revert m. induction l as [|y l IH]; intros m; cbn [foldl fmap list_fmap].
  - set_solver.
  - intros [Hy Hnd]%NoDup_cons. rewrite IH by done. clear IH.
    destruct (decide (key y = k)) as [<-|Hk].
    + rewrite lookup_insert_eq. set_solver.
    + rewrite lookup_insert_ne by done. set_solver.
Qed.

Lemma byKey_Some (l : list A) k x :
  NoDup (key <$> l) ->
  foldl (fun m x => <[key x := x]> m) (∅ : gmap string A) l !! k = Some x <-> x ∈ l /\ key x = k.
Proof. intros Hnd. rewrite foldl_insert_lookup by done. rewrite lookup_empty. naive_solver. Qed.

Lemma byKey_is_Some (l : list A) k :
  NoDup (key <$> l) ->
  is_Some (foldl (fun m x => <[key x := x]> m) (∅ : gmap string A) l !! k) <-> k ∈ (key <$> l).
Proof.
  intros Hnd. unfold is_Some. setoid_rewrite byKey_Some; [|done].
  rewrite list_elem_of_fmap. naive_solver.
Qed.

Lemma byKey_unique (l : list A) x y : NoDup (key <$> l) -> x ∈ l -> y ∈ l -> key x = key y -> x = y.
Proof.
  intros Hnd [i Hi]%list_elem_of_lookup [j Hj]%list_elem_of_lookup Hk.
  assert (i = j) as ->; [|congruence].
  eapply NoDup_lookup; [exact Hnd|..]; rewrite list_lookup_fmap.
  - rewrite Hi. simpl. by rewrite Hk.
  - by rewrite Hj.
Qed.
End by_key.

Lemma sortedKeys_elem {A} (m : gmap string A) k : k ∈ sortedKeys m <-> is_Some (m !! k).
Proof.
  unfold sortedKeys. rewrite sort_slice_elem, list_elem_of_fmap. split.
  - intros ([k' x] & -> & ?%elem_of_map_to_list). by exists x.
  - intros [x Hx]. exists (k, x). by rewrite elem_of_map_to_list.
Qed.

Lemma sortedValues_elem {A} (m : gmap string A) x : x ∈ sortedValues m <-> exists k, m !! k = Some x.
Proof.
  unfold sortedValues. rewrite list_elem_of_omap. setoid_rewrite sortedKeys_elem. naive_solver.
Qed.

Lemma sortedValues_nil {A} (m : gmap string A) : sortedValues m = [] <-> m = ∅.
Proof.
  split.
  - intros H. apply map_eq. intros k. rewrite lookup_empty. destruct (m !! k) as [x|] eqn:E; [|done].
    assert (x ∈ sortedValues m) as Hx by (apply sortedValues_elem; eauto). rewrite H in Hx. set_solver.
  - intros ->. done.
Qed.

(** ** Members *)

Definition memberKeyOf (m : Member) : string := memberKey (m_Address m) (m_Port m).
Definition poolMemberKey (m : PoolMember) : string := memberKey (mb_Address m) (mb_ProtocolPort m).

Section members.
Context (subnet poolID : string).

Definition memberKept (D : gmap string Member) (m : PoolMember) : Prop :=
  is_Some (D !! poolMemberKey m) /\ mb_SubnetID m = subnet /\ mb_AdminStateUp m = true.

(** The loop over the observed members adds nothing to the plan exactly when
    every observed member is wanted and enabled; it then leaves the desired
    members that were not observed. *)
Lemma planMember_fold D ids plan ms :
  NoDup (poolMemberKey <$> ms) ->
  let '(D', _, plan') := foldl (planMember subnet poolID) (D, ids, plan) ms in
  (plan' = [] <-> plan = [] /\ Forall (memberKept D) ms) /\
  (Forall (memberKept D) ms ->
   forall k, is_Some (D' !! k) <-> is_Some (D !! k) /\ k ∉ (poolMemberKey <$> ms)).
Proof.
  revert D ids plan. induction ms as [|m ms IH]; intros D ids plan; cbn [foldl fmap list_fmap].
  - intros _. split; [|set_solver]. split; [|tauto]. intros ->. split; [done|constructor].
  - intros [Hm Hnd]%NoDup_cons. cbn [planMember]. fold (poolMemberKey m).
    assert (forall D' : gmap string Member, (forall k, k <> poolMemberKey m -> D' !! k = D !! k) ->
      Forall (memberKept D') ms <-> Forall (memberKept D) ms) as Hsame.
    { intros D' HD. rewrite !Forall_forall. unfold memberKept.
      split; intros H x Hx; specialize (H x Hx); rewrite HD in *; set_solver. }
    destruct (negb (bool_decide _) || negb _) eqn:E.
    + specialize (IH D ids (plan ++ [mutate routeMutationDeleteMember (mb_ID m) poolID]) Hnd).
      destruct (foldl _ _ ms) as [[D' ids'] plan']. destruct IH as [IH1 IH2].
      assert (~ memberKept D m) as Hno.
      { intros (H1 & H2 & _). apply orb_true_iff in E as [E|E]; bool_hyps; done. }
      split; [rewrite IH1, Forall_cons|rewrite Forall_cons; tauto].
      split; [|tauto]. intros [Hn _]. by apply app_nil in Hn as [_ ?].
    + bool_hyps.
      set (plan1 := if mb_AdminStateUp m then plan else _).
      specialize (IH (delete (poolMemberKey m) D) (ids ++ [mb_ID m]) plan1 Hnd).
      destruct (foldl _ _ ms) as [[D' ids'] plan']. destruct IH as [IH1 IH2].
      rewrite Hsame in IH1, IH2 by (intros; by rewrite lookup_delete_ne).
      rewrite Forall_cons. split.
      * rewrite IH1. unfold plan1, memberKept at 2. destruct (mb_AdminStateUp m); [tauto|].
        split; [intros [Hn _]; by apply app_nil in Hn as [_ ?]|]. naive_solver.
      * intros [Hk Hf] k. rewrite IH2 by done.
        destruct (decide (k = poolMemberKey m)) as [->|Hne].
        -- rewrite lookup_delete_eq. split; [by intros [[? [=]] _]|set_solver].
        -- rewrite lookup_delete_ne by done. set_solver.
Qed.
End members.

(** ** What it means for a graph to be the desired one *)

Definition monitorInPlace (healthPath : string) (m : Monitor) : Prop :=
  mn_Type m = TypeHTTP /\ mn_Delay m = routeMonitorDelay /\ mn_Timeout m = routeMonitorTimeout /\
  mn_MaxRetries m = routeMonitorMaxRetries /\ mn_MaxRetriesDown m = routeMonitorMaxRetriesDown /\
  mn_URLPath m = healthPath /\ mn_HTTPMethod m = MethodGet /\
  mn_ExpectedCodes m = routeMonitorExpectedCodes /\ mn_AdminStateUp m = true.

Definition poolInPlace (desired : desiredRoute) (pool : Pool) (members : list PoolMember)
    (monitor : option Monitor) : Prop :=
  pl_Protocol pool = ProtocolHTTP /\ pl_LBMethod pool = LBMethodRoundRobin /\ pl_AdminStateUp pool = true /\
  (forall x, x ∈ members -> exists m, m ∈ d_members desired /\ memberKeyOf m = poolMemberKey x) /\
  (forall x, x ∈ members -> mb_SubnetID x = rs_MemberSubnetID (d_spec desired) /\ mb_AdminStateUp x = true) /\
  (forall m, m ∈ d_members desired -> exists x, x ∈ members /\ poolMemberKey x = memberKeyOf m) /\
  exists mon, monitor = Some mon /\ monitorInPlace (d_healthPath desired) mon.

Definition ruleInPlace (wanted : desiredRule) (rule : Rule) : Prop :=
  lr_RuleType rule = dr_ruleType wanted /\ lr_CompareType rule = dr_compareType wanted /\
  lr_Value rule = dr_value wanted /\ lr_Invert rule = false /\ lr_AdminStateUp rule = true.

Definition policyInPlace (hostname poolID : string) (wanted : desiredPolicy) (o : observedRoutePolicy)
    : Prop :=
  lp_Action (op_policy o) = ActionRedirectToPool /\ lp_RedirectPoolID (op_policy o) = poolID /\
  lp_Position (op_policy o) = dpo_position wanted /\
  (forall w, w ∈ rulesFor wanted hostname ->
     exists r, r ∈ op_rules o /\ or_role r = dr_role w /\ ruleInPlace w (or_rule r)) /\
  (forall r, r ∈ op_rules o -> exists w, w ∈ rulesFor wanted hostname /\ dr_role w = or_role r).

(** The policies, up to their administrative state. *)
Definition policiesInPlace (desired : desiredRoute) (poolID : string) (actual : list observedRoutePolicy)
    : Prop :=
  (forall w, w ∈ d_policies desired ->
     exists o, o ∈ actual /\ op_role o = dpo_role w /\ policyInPlace (rs_Hostname (d_spec desired)) poolID w o) /\
  (forall o, o ∈ actual -> exists w, w ∈ d_policies desired /\ dpo_role w = op_role o).

Definition converged (desired : desiredRoute) (actual : observedRouteGraph) : Prop :=
  exists pool, og_pool actual = Some pool /\
    poolInPlace desired pool (og_members actual) (og_monitor actual) /\
    policiesInPlace desired (pl_ID pool) (og_policies actual) /\
    Forall (fun o => lp_AdminStateUp (op_policy o) = true) (og_policies actual).

(** What [observeRouteGraph] and [buildDesiredRoute] establish: the keys that
    the plan looks up are unique. *)
Record uniqueKeys (desired : desiredRoute) (actual : observedRouteGraph) : Prop := {
  uk_desired_members : NoDup (memberKeyOf <$> d_members desired);
  uk_desired_policies : NoDup (dpo_role <$> d_policies desired);
  uk_members : NoDup (poolMemberKey <$> og_members actual);
  uk_policies : NoDup (op_role <$> og_policies actual);
  uk_rules : Forall (fun o => NoDup (or_role <$> op_rules o)) (og_policies actual)
}.

Lemma monitorDiffers_false path m :
  mn_Type m = TypeHTTP -> monitorDiffers path m = false <-> monitorInPlace path m.
Proof.
  unfold monitorDiffers, monitorInPlace. intros HT. rewrite !orb_false_iff, !negb_false_iff.
  rewrite !Z.eqb_eq, !String.eqb_eq. tauto.
Qed.

Lemma ruleDiffers_false w r : ruleDiffers w r = false <-> ruleInPlace w r.
Proof.
  unfold ruleDiffers, ruleInPlace. rewrite !orb_false_iff, !negb_false_iff, !String.eqb_eq. tauto.
Qed.

Lemma snoc_not_nil {A} (l : list A) x : l ++ [x] <> [].
Proof. by intros [_ ?]%app_nil. Qed.

Lemma desiredMemberMap_Some members k :
  NoDup (memberKeyOf <$> members) ->
  is_Some (desiredMemberMap members !! k) <-> exists m, m ∈ members /\ memberKeyOf m = k.
Proof.
  intros Hnd. unfold desiredMemberMap. change (fun m member => <[memberKey (m_Address member) (m_Port member):=member]> m)
    with (fun (m : gmap string Member) member => <[memberKeyOf member := member]> m).
  rewrite (byKey_is_Some memberKeyOf) by done. rewrite list_elem_of_fmap. naive_solver.
Qed.

(** The member steps of the plan, deletions, updates and creations together. *)
Lemma planMembers_nil subnet poolID desired members plan0 :
  NoDup (memberKeyOf <$> desired) -> NoDup (poolMemberKey <$> members) ->
  let '(missing, _, plan) :=
    foldl (planMember subnet poolID) (desiredMemberMap desired, [], plan0) members in
  plan ++ (mutateMember routeMutationCreateMember poolID <$> sortedValues missing) = [] <->
  plan0 = [] /\
  (forall x, x ∈ members -> exists m, m ∈ desired /\ memberKeyOf m = poolMemberKey x) /\
  (forall x, x ∈ members -> mb_SubnetID x = subnet /\ mb_AdminStateUp x = true) /\
  (forall m, m ∈ desired -> exists x, x ∈ members /\ poolMemberKey x = memberKeyOf m).
Proof.
  intros Hd Hm.
  pose proof (planMember_fold subnet poolID (desiredMemberMap desired) [] plan0 members Hm) as Hf.
  destruct (foldl _ _ members) as [[D ids] plan1]. destruct Hf as [Hf1 Hf2].
  assert (Forall (memberKept subnet (desiredMemberMap desired)) members <->
    (forall x, x ∈ members -> exists m, m ∈ desired /\ memberKeyOf m = poolMemberKey x) /\
    (forall x, x ∈ members -> mb_SubnetID x = subnet /\ mb_AdminStateUp x = true)) as Hk.
  { rewrite Forall_forall. unfold memberKept. setoid_rewrite desiredMemberMap_Some; [|done]. naive_solver. }
  assert (forall (l : list Member), (mutateMember routeMutationCreateMember poolID <$> l = []) <-> l = []) as Hmap.
  { intros []; simpl; naive_solver. }
  rewrite app_nil, Hmap, sortedValues_nil, Hf1.
  assert (Forall (memberKept subnet (desiredMemberMap desired)) members -> D = ∅ <->
    forall m, m ∈ desired -> exists x, x ∈ members /\ poolMemberKey x = memberKeyOf m) as HD.
  { intros Hall. specialize (Hf2 Hall). setoid_rewrite desiredMemberMap_Some in Hf2; [|done].
    setoid_rewrite list_elem_of_fmap in Hf2. split.
    - intros -> m Hin. destruct (decide (memberKeyOf m ∈ (poolMemberKey <$> members))) as [Hi|Hi].
      + apply list_elem_of_fmap in Hi as (x & ? & ?). by exists x.
      + rewrite list_elem_of_fmap in Hi. destruct (Hf2 (memberKeyOf m)) as [_ [x Hx]]; [by eauto|].
        by rewrite lookup_empty in Hx.
    - intros H. apply map_eq. intros k. rewrite lookup_empty. apply eq_None_not_Some. rewrite Hf2.
      intros [(m & Hin & <-) Hnot]. destruct (H m Hin) as (x & ? & ?). apply Hnot. by exists x. }
  tauto.
Qed.

Lemma planPool_nil desired pool members monitor plan ids mid :
  NoDup (memberKeyOf <$> d_members desired) -> NoDup (poolMemberKey <$> members) ->
  planPool desired pool members monitor = Ok (plan, ids, mid) ->
  plan = [] <-> poolInPlace desired pool members monitor.
Proof.
  intros Hd Hm. unfold planPool, poolInPlace.
  destruct (String.eqb_spec (pl_Protocol pool) ProtocolHTTP) as [Hp|]; [|done]. cbn [negb].
  set (plan0 := if negb (String.eqb (pl_LBMethod pool) _) || _ then _ else _).
  assert (plan0 = [] <-> pl_LBMethod pool = LBMethodRoundRobin /\ pl_AdminStateUp pool = true) as Hplan0.
  { unfold plan0. destruct (String.eqb_spec (pl_LBMethod pool) LBMethodRoundRobin), (pl_AdminStateUp pool);
      simpl; naive_solver. }
  pose proof (planMembers_nil (rs_MemberSubnetID (d_spec desired)) (pl_ID pool) _ _ plan0 Hd Hm) as Hf.
  destruct (foldl _ _ members) as [[D ids'] plan1].
  destruct monitor as [m|].
  - destruct (String.eqb_spec (mn_Type m) TypeHTTP) as [Ht|]; [|done]. cbn [negb].
    intros [= <- _ _]. pose proof (monitorDiffers_false (d_healthPath desired) m Ht) as Hmon.
    destruct (monitorDiffers _ m); [|naive_solver].
    split; [by intros ?%snoc_not_nil|naive_solver].
  - intros [= <- _ _]. split; [by intros ?%snoc_not_nil|naive_solver].
Qed.

(** ** Policies *)

(** [semanticDiff] is set exactly when steps are planned. *)
Definition accOK (acc : policyAcc) : Prop := pa_semanticDiff acc = false <-> pa_plan acc = [].

Lemma withSteps_OK acc steps : steps <> [] -> accOK (withSteps acc steps).
Proof. intros Hs. split; [done|]. simpl. by intros [_ ?]%app_nil. Qed.

Lemma foldl_preserves {A B} (P : B -> Prop) (f : B -> A -> B) acc l :
  P acc -> (forall b x, P b -> P (f b x)) -> P (foldl f acc l).
Proof. intros H0 Hs. revert acc H0. induction l; simpl; eauto. Qed.

(** A loop that sets [semanticDiff] for every element that is not in order. *)
Lemma foldl_diff {A} (f : policyAcc -> A -> policyAcc) (ok : A -> Prop) acc l :
  (forall acc x, pa_semanticDiff (f acc x) = false <-> pa_semanticDiff acc = false /\ ok x) ->
  pa_semanticDiff (foldl f acc l) = false <-> pa_semanticDiff acc = false /\ Forall ok l.
Proof.
  intros Hf. revert acc. induction l as [|x l IH]; intros acc; cbn [foldl].
  - naive_solver.
  - rewrite IH, Hf, Forall_cons. tauto.
Qed.

Lemma planUnwantedPolicy_diff D acc o :
  pa_semanticDiff (planUnwantedPolicy D acc o) = false <->
  pa_semanticDiff acc = false /\ is_Some (D !! op_role o).
Proof. unfold planUnwantedPolicy. case_bool_decide; simpl; naive_solver. Qed.

(** One wanted rule. *)
Lemma planRule_diff policyID acc M w :
  let '(acc', M') := planRule policyID (acc, M) w in
  (pa_semanticDiff acc' = false <->
   pa_semanticDiff acc = false /\ exists r, M !! dr_role w = Some r /\ ruleInPlace w (or_rule r)) /\
  forall k, M' !! k = if decide (k = dr_role w) then None else M !! k.
Proof.
  cbn [planRule]. destruct (M !! dr_role w) as [o|] eqn:E.
  - split.
    + pose proof (ruleDiffers_false w (or_rule o)). destruct (ruleDiffers w (or_rule o)); simpl; naive_solver.
    + intros k. destruct (decide (k = dr_role w)) as [->|Hk]; [by rewrite lookup_delete_eq|].
      by rewrite lookup_delete_ne.
  - split; [simpl; naive_solver|]. intros k. by destruct (decide (k = dr_role w)) as [->|Hk].
Qed.

Lemma planRules_diff policyID acc M ws :
  NoDup (dr_role <$> ws) ->
  let '(acc', M') := foldl (planRule policyID) (acc, M) ws in
  (pa_semanticDiff acc' = false <->
   pa_semanticDiff acc = false /\
   forall w, w ∈ ws -> exists r, M !! dr_role w = Some r /\ ruleInPlace w (or_rule r)) /\
  forall k, M' !! k = if decide (k ∈ (dr_role <$> ws)) then None else M !! k.
Proof.
  revert acc M. induction ws as [|w ws IH]; intros acc M; cbn [foldl fmap list_fmap].
  - intros _. split; [set_solver|done].
  - intros [Hw Hnd]%NoDup_cons. pose proof (planRule_diff policyID acc M w) as H1.
    destruct (planRule policyID (acc, M) w) as [acc1 M1]. destruct H1 as [H1 H1'].
    specialize (IH acc1 M1 Hnd). destruct (foldl _ _ ws) as [acc' M']. destruct IH as [H2 H2']. split.
    + rewrite H2, H1. split.
      * intros [[H3 H4] H5]. split; [done|]. intros v [->|Hv]%elem_of_cons; [done|].
        destruct (H5 v Hv) as (r & Hr & ?). exists r. split; [|done].
        rewrite H1' in Hr. by destruct (decide _).
      * intros [H3 H4]. split_and!; [done|apply H4; by left|]. intros v Hv.
        destruct (H4 v) as (r & Hr & ?); [by right|]. exists r. split; [|done]. rewrite H1'.
        destruct (decide _) as [Hd|]; [|done]. destruct Hw. rewrite <- Hd. by apply list_elem_of_fmap_2.
    + intros k. rewrite H2', H1'. rewrite list_elem_of_fmap in *.
      destruct (decide (k ∈ dr_role <$> ws)), (decide (k = dr_role w)), (decide (k ∈ dr_role w :: (dr_role <$> ws)));
        set_solver.
Qed.

Lemma planStaleRules_diff policyID acc stale :
  pa_semanticDiff (planStaleRules policyID acc stale) = false <->
  pa_semanticDiff acc = false /\ stale = [].
Proof.
  unfold planStaleRules. rewrite (foldl_diff _ (fun _ => False)) by (simpl; naive_solver).
  destruct stale; [naive_solver|]. rewrite Forall_cons. naive_solver.
Qed.

Lemma staleRules_nil (M : gmap string observedRouteRule) : staleRules M = [] <-> M = ∅.
Proof.
  unfold staleRules. split.
  - intros H%sort_slice_nil_inv%fmap_nil_inv. by apply map_to_list_empty_iff in H.
  - intros ->. done.
Qed.

Lemma rulesFor_roles w hostname : NoDup (dr_role <$> rulesFor w hostname).
Proof.
  unfold rulesFor. destruct (String.eqb hostname ""); simpl; repeat constructor; set_solver.
Qed.

(** The wanted rules are in place, and no other rule remains. *)
Lemma wantedRules_spec (rules : list observedRouteRule) (ws : list desiredRule) (rest : gmap string observedRouteRule) :
  NoDup (or_role <$> rules) ->
  (forall k, rest !! k = if decide (k ∈ (dr_role <$> ws)) then None else rulesByRole rules !! k) ->
  ((forall w, w ∈ ws -> exists r, rulesByRole rules !! dr_role w = Some r /\ ruleInPlace w (or_rule r)) <->
   forall w, w ∈ ws -> exists r, r ∈ rules /\ or_role r = dr_role w /\ ruleInPlace w (or_rule r)) /\
  (rest = ∅ <-> forall r, r ∈ rules -> exists w, w ∈ ws /\ dr_role w = or_role r).
Proof.
  intros Hnd Hrest. split.
  { unfold rulesByRole. setoid_rewrite (byKey_Some or_role); [|done]. naive_solver. }
  split.
  - intros -> r Hin. specialize (Hrest (or_role r)). rewrite lookup_empty in Hrest.
    destruct (decide (or_role r ∈ _)) as [Hd|Hd].
    + apply list_elem_of_fmap in Hd as (v & ? & ?). by exists v.
    + assert (rulesByRole rules !! or_role r = Some r) as Hx by by apply (byKey_Some or_role). congruence.
  - intros H. apply map_eq. intros k. rewrite lookup_empty, Hrest. destruct (decide _) as [|Hd]; [done|].
    destruct (rulesByRole rules !! k) as [r|] eqn:Ek; [|done].
    apply (byKey_Some or_role) in Ek as [Hin <-]; [|done]. destruct (H r Hin) as (v & ? & Hv).
    destruct Hd. rewrite <- Hv. by apply list_elem_of_fmap_2.
Qed.

Lemma policyDiffers_false w poolID policy :
  policyDiffers w poolID policy = false <->
  lp_Action policy = ActionRedirectToPool /\ lp_RedirectPoolID policy = poolID /\
  lp_Position policy = dpo_position w.
Proof.
  unfold policyDiffers. rewrite !orb_false_iff, !negb_false_iff, !String.eqb_eq, Z.eqb_eq. tauto.
Qed.

Lemma planWantedPolicy_diff hostname poolID actual acc w :
  NoDup (op_role <$> actual) -> Forall (fun o => NoDup (or_role <$> op_rules o)) actual ->
  pa_semanticDiff (planWantedPolicy hostname poolID (policiesByRole actual) acc w) = false <->
  pa_semanticDiff acc = false /\
  exists o, o ∈ actual /\ op_role o = dpo_role w /\ policyInPlace hostname poolID w o.
Proof.
  intros Hnd Hrules. unfold planWantedPolicy.
  destruct (policiesByRole actual !! dpo_role w) as [o|] eqn:E.
  - apply (byKey_Some op_role) in E as [Hin Hrole]; [|done].
    pose proof (proj1 (Forall_forall _ _) Hrules o Hin) as Hnr. simpl in Hnr.
    set (acc1 := if policyDiffers w poolID (op_policy o) then _ else _).
    assert (pa_semanticDiff acc1 = false <->
      pa_semanticDiff acc = false /\ policyDiffers w poolID (op_policy o) = false) as Hacc1.
    { unfold acc1. destruct (policyDiffers _ _ _); simpl; naive_solver. }
    pose proof (planRules_diff (lp_ID (op_policy o)) acc1 (rulesByRole (op_rules o)) _
      (rulesFor_roles w hostname)) as Hr.
    destruct (foldl _ _ _) as [acc2 rest]. destruct Hr as [Hr1 Hr2].
    destruct (wantedRules_spec _ _ rest Hnr Hr2) as [Hwanted Hrest].
    rewrite planStaleRules_diff, staleRules_nil, Hr1, Hacc1, policyDiffers_false, Hrest, Hwanted.
    unfold policyInPlace. split.
    + intros. split; [tauto|]. exists o. tauto.
    + intros (Hacc & o' & Hin' & Hrole' & H).
      rewrite (byKey_unique op_role actual o' o) in H by (done || congruence). tauto.
  - simpl. split; [done|]. intros (_ & o & Hin & Hrole & _).
    assert (policiesByRole actual !! dpo_role w = Some o) as Hx by by apply (byKey_Some op_role). congruence.
Qed.

Lemma buildRoutePolicyPlan_diff desired actual poolID :
  NoDup (dpo_role <$> d_policies desired) -> NoDup (op_role <$> actual) ->
  Forall (fun o => NoDup (or_role <$> op_rules o)) actual ->
  pa_semanticDiff (buildRoutePolicyPlan desired actual poolID) = false <->
  policiesInPlace desired poolID actual.
Proof.
  intros Hd Ha Hr. unfold buildRoutePolicyPlan, policiesInPlace.
  rewrite (foldl_diff _ (fun w => exists o, o ∈ actual /\ op_role o = dpo_role w /\
    policyInPlace (rs_Hostname (d_spec desired)) poolID w o)) by (intros; by apply planWantedPolicy_diff).
  rewrite (foldl_diff _ (fun o => is_Some (desiredByRole (d_policies desired) !! op_role o)))
    by apply planUnwantedPolicy_diff.
  rewrite !Forall_forall. unfold desiredByRole. setoid_rewrite (byKey_is_Some dpo_role); [|done].
  setoid_rewrite list_elem_of_fmap. simpl. naive_solver.
Qed.

(** Steps that change a policy or its rules, or remove them. *)
Definition changesPolicy (k : routeMutationKind) : bool :=
  match k with
  | routeMutationDeleteRule | routeMutationDeletePolicy | routeMutationCreatePolicy
  | routeMutationUpdatePolicy | routeMutationCreateRule | routeMutationUpdateRule => true
  | _ => false
  end.

(** An invariant that every kind of step of the policy plan preserves. *)
Lemma buildRoutePolicyPlan_inv (P : policyAcc -> Prop) desired actual poolID :
  P (mkPolicyAcc [] [] [] false) ->
  (forall acc id, P acc -> P (withPolicyID acc id)) ->
  (forall acc id, P acc -> P (withRuleID acc id)) ->
  (forall acc steps, P acc -> steps <> [] ->
     Forall (fun m => changesPolicy (rm_kind m) = true) steps -> P (withSteps acc steps)) ->
  P (buildRoutePolicyPlan desired actual poolID).
Proof.
  intros H0 Hpid Hrid Hsteps. unfold buildRoutePolicyPlan. apply foldl_preserves.
  - apply foldl_preserves; [done|]. intros acc o Hacc. unfold planUnwantedPolicy.
    case_bool_decide; [done|]. apply Hsteps; [done|apply snoc_not_nil|].
    apply Forall_app. split; [|by repeat constructor]. apply Forall_fmap. by apply Forall_true.
  - intros acc w Hacc. unfold planWantedPolicy.
    destruct (_ !! _) as [o|]; [|by apply Hsteps; [| |repeat constructor]].
    set (acc1 := if policyDiffers w poolID (op_policy o) then _ else _).
    assert (P acc1) as H1.
    { unfold acc1. destruct (policyDiffers _ _ _); [apply Hsteps; [|done|by repeat constructor]|]; by apply Hpid. }
    assert (P (fst (foldl (planRule (lp_ID (op_policy o))) (acc1, rulesByRole (op_rules o))
      (rulesFor w (rs_Hostname (d_spec desired)))))) as H2.
    { apply (foldl_preserves (fun st => P (fst st))); [done|].
      intros [acc' M] v Hacc'. cbn [planRule]. destruct (M !! _); [|by apply Hsteps; [| |repeat constructor]].
      destruct (ruleDiffers _ _); [apply Hsteps; [|done|by repeat constructor]|]; by apply Hrid. }
    destruct (foldl _ _ _) as [acc' rest]. unfold planStaleRules. apply foldl_preserves; [done|].
    intros b x Hb. by apply Hsteps; [| |repeat constructor].
Qed.

Lemma buildRoutePolicyPlan_OK desired actual poolID : accOK (buildRoutePolicyPlan desired actual poolID).
Proof. apply buildRoutePolicyPlan_inv; [done..|]. intros. by apply withSteps_OK. Qed.

Lemma buildRoutePolicyPlan_kinds desired actual poolID :
  Forall (fun m => changesPolicy (rm_kind m) = true) (pa_plan (buildRoutePolicyPlan desired actual poolID)).
Proof.
  apply (buildRoutePolicyPlan_inv (fun acc => Forall _ (pa_plan acc))); [done..|].
  intros. by apply Forall_app.
Qed.

Lemma policyToEnable_None desired actual :
  policyToEnable desired actual = None <->
  forall w o, w ∈ desired -> o ∈ actual -> op_role o = dpo_role w -> lp_AdminStateUp (op_policy o) = true.
Proof.
  unfold policyToEnable. rewrite head_None. split.
  - intros H w o Hw Ho Hrole. destruct (lp_AdminStateUp (op_policy o)) eqn:E; [done|].
    assert (o ∈ (wanted ← desired; filter (fun policy => op_role policy = dpo_role wanted /\
      lp_AdminStateUp (op_policy policy) = false) actual)) as Hin.
    { apply list_elem_of_bind. exists w. by rewrite list_elem_of_filter. }
    rewrite H in Hin. set_solver.
  - intros H. apply elem_of_nil_inv. intros o (w & [[Hr Hup] Ho]%list_elem_of_filter & Hw)%list_elem_of_bind.
    by rewrite (H w o) in Hup.
Qed.

Lemma ensure_plan_nil desired actual plan state :
  uniqueKeys desired actual -> buildRouteEnsurePlan desired actual = Ok (plan, state) ->
  plan = [] <-> converged desired actual.
Proof.
  intros [Hdm Hdp Hm Hp Hr]. unfold buildRouteEnsurePlan, converged.
  destruct (og_pool actual) as [pool|].
  2: { cbn [rbind]. destruct (pa_semanticDiff _).
       - intros [= <- _]. split; [|naive_solver]. by intros [_ ?]%app_nil.
       - intros [= <- _]. naive_solver. }
  destruct (planPool _ _ _ _) as [[[nonPolicy ids] mid]|] eqn:Epool; [|done]. cbn [rbind].
  apply planPool_nil in Epool; [|done|done].
  pose proof (buildRoutePolicyPlan_diff desired (og_policies actual) (pl_ID pool) Hdp Hp Hr) as Hdiff.
  pose proof (buildRoutePolicyPlan_OK desired (og_policies actual) (pl_ID pool)) as HOK.
  destruct (pa_semanticDiff _) eqn:Ed.
  - intros [= <- _]. split; [|naive_solver]. intros [_ [_ Hn]%app_nil]%app_nil. apply HOK in Hn. congruence.
  - destruct nonPolicy as [|s nonPolicy]; cbn [nonEmpty]; [|intros [= <- _]; naive_solver].
    assert (policiesInPlace desired (pl_ID pool) (og_policies actual)) as Hplace by by apply Hdiff.
    pose proof (policyToEnable_None (d_policies desired) (og_policies actual)) as Hen.
    assert (Forall (fun o => lp_AdminStateUp (op_policy o) = true) (og_policies actual) <->
      policyToEnable (d_policies desired) (og_policies actual) = None) as Hall.
    { rewrite Hen, Forall_forall. destruct Hplace as [_ Hback]. split; [naive_solver|].
      intros H o Ho. destruct (Hback o Ho) as (w & ? & ?). eauto. }
    destruct (policyToEnable _ _); intros [= <- _]; naive_solver.
Qed.

(** A pool in place is planned without an error. *)
Lemma planPool_total desired pool members monitor :
  poolInPlace desired pool members monitor -> exists r, planPool desired pool members monitor = Ok r.
Proof.
  intros (Hp & _ & _ & _ & _ & _ & mon & -> & Ht & _). unfold planPool. rewrite Hp, String.eqb_refl.
  cbn [negb]. destruct (foldl _ _ members) as [[D ids] plan]. rewrite Ht, String.eqb_refl. cbn [negb]. eauto.
Qed.

(** C12. The ensure plan of a graph whose keys are unique is empty exactly when
    the observed graph is the desired one. *)
Theorem ensure_plan_empty_iff_converged desired actual :
  uniqueKeys desired actual ->
  (exists state, buildRouteEnsurePlan desired actual = Ok ([], state)) <-> converged desired actual.
Proof.
  intros Hu. split.
  - intros [state Hs]. by apply (ensure_plan_nil _ _ _ _ Hu Hs).
  - intros Hc. assert (exists r, buildRouteEnsurePlan desired actual = Ok r) as [[plan state] Hr].
    { destruct Hc as (pool & Hpool & Hp & _). unfold buildRouteEnsurePlan. rewrite Hpool.
      destruct (planPool_total _ _ _ _ Hp) as [[[plan ids] mid] ->]. cbn [rbind].
      destruct (pa_semanticDiff _); [eauto|]. destruct (nonEmpty _); [eauto|].
      destruct (policyToEnable _ _); eauto. }
    exists state. by rewrite Hr, (proj2 (ensure_plan_nil _ _ _ _ Hu Hr) Hc).
Qed.

(** Everything outside the policies that the plan would change. *)
Definition poolConverged (desired : desiredRoute) (actual : observedRouteGraph) : Prop :=
  exists pool, og_pool actual = Some pool /\
    poolInPlace desired pool (og_members actual) (og_monitor actual).

Lemma planPool_kinds desired pool members monitor plan ids mid :
  planPool desired pool members monitor = Ok (plan, ids, mid) ->
  Forall (fun m => changesPolicy (rm_kind m) = false /\ rm_kind m <> routeMutationEnablePolicy) plan.
Proof.
  set (Q := fun m => changesPolicy (rm_kind m) = false /\ rm_kind m <> routeMutationEnablePolicy).
  unfold planPool. destruct (String.eqb _ ProtocolHTTP); [|done]. cbn [negb].
  set (plan0 := if negb _ || _ then _ else _).
  assert (Forall Q plan0) as H0 by (unfold plan0; destruct (negb _ || _); by repeat constructor).
  clearbody plan0.
  assert (Forall Q (snd (foldl (planMember (rs_MemberSubnetID (d_spec desired)) (pl_ID pool))
    (desiredMemberMap (d_members desired), [], plan0) members))) as H.
  { apply (foldl_preserves (fun st => Forall Q (snd st))); [done|].
    intros [[D ids'] plan'] m Hst. cbn [planMember]. destruct (negb _ || negb _); simpl.
    - apply Forall_app. by repeat constructor.
    - destruct (mb_AdminStateUp m); [done|]. apply Forall_app. by repeat constructor. }
  destruct (foldl _ _ members) as [[D ids'] plan1]. simpl in H.
  assert (Forall Q (plan1 ++ (mutateMember routeMutationCreateMember (pl_ID pool) <$> sortedValues D))) as H2.
  { apply Forall_app. split; [done|]. apply Forall_fmap. by apply Forall_true. }
  destruct monitor as [m|].
  - destruct (String.eqb _ TypeHTTP); [|done]. cbn [negb]. intros [= <- _ _].
    destruct (monitorDiffers _ m); [|done]. apply Forall_app. split; [done|by repeat constructor].
  - intros [= <- _ _]. apply Forall_app. split; [done|by repeat constructor].
Qed.

(** The first step of an ensure plan, by the stage of the plan it belongs to. *)
Lemma ensure_plan_head desired actual step rest state :
  uniqueKeys desired actual -> buildRouteEnsurePlan desired actual = Ok (step :: rest, state) ->
  (rm_kind step = routeMutationDisablePolicy) \/
  (changesPolicy (rm_kind step) = false /\ rm_kind step <> routeMutationEnablePolicy) \/
  (changesPolicy (rm_kind step) = true /\ poolConverged desired actual /\
   Forall (fun o => lp_AdminStateUp (op_policy o) = false) (og_policies actual)) \/
  (rm_kind step = routeMutationEnablePolicy /\ poolConverged desired actual /\ rest = [] /\
   (forall pool, og_pool actual = Some pool -> policiesInPlace desired (pl_ID pool) (og_policies actual)) /\
   exists o, o ∈ og_policies actual /\ lp_ID (op_policy o) = rm_id step).
Proof.
  intros [Hdm Hdp Hm Hp Hr]. unfold buildRouteEnsurePlan, poolConverged.
  set (stage := match og_pool actual with Some _ => _ | None => _ end).
  assert (forall poolID nonPolicy ids mid, stage = Ok (poolID, nonPolicy, ids, mid) ->
    Forall (fun m => changesPolicy (rm_kind m) = false /\ rm_kind m <> routeMutationEnablePolicy) nonPolicy /\
    (nonPolicy = [] -> exists pool, og_pool actual = Some pool /\ poolID = pl_ID pool /\
       poolInPlace desired pool (og_members actual) (og_monitor actual))) as Hstage.
  { intros poolID nonPolicy ids mid. unfold stage. destruct (og_pool actual) as [pool|].
    - destruct (planPool _ _ _ _) as [[[plan ids'] mid']|] eqn:E; [|done]. intros [= <- <- <- <-].
      split; [by eapply planPool_kinds|]. intros ->. exists pool. split_and!; [done|done|].
      by apply planPool_nil in E; [apply E|..].
    - intros [= <- <- <- <-]. split; [by repeat constructor|done]. }
  destruct stage as [[[[poolID nonPolicy] ids] mid]|]; [|done]. cbn [rbind].
  destruct (Hstage _ _ _ _ eq_refl) as [Hkinds Hnil]. clear Hstage.
  pose proof (buildRoutePolicyPlan_kinds desired (og_policies actual) poolID) as Hpk.
  pose proof (buildRoutePolicyPlan_diff desired (og_policies actual) poolID Hdp Hp Hr) as Hdiff.
  destruct (pa_semanticDiff _).
  - unfold disableSteps. destruct (filter _ (og_policies actual)) as [|o os] eqn:Ef; cbn [fmap list_fmap app].
    2: { intros [= <- _ _]. by left. }
    destruct nonPolicy as [|s nonPolicy]; cbn [app].
    2: { intros [= <- _ _]. right. left. by apply Forall_cons in Hkinds as [? _]. }
    destruct (pa_plan _) as [|s plan]; [done|]. intros [= <- _ _]. do 2 right. left.
    apply Forall_cons in Hpk as [Hk _]. split_and!; [done|naive_solver|].
    apply Forall_forall. intros o Ho. destruct (lp_AdminStateUp (op_policy o)) eqn:Eo; [|done].
    assert (o ∈ filter (fun policy => lp_AdminStateUp (op_policy policy) = true) (og_policies actual)) as Hin
      by by apply list_elem_of_filter. rewrite Ef in Hin. set_solver.
  - destruct nonPolicy as [|s nonPolicy]; cbn [nonEmpty].
    2: { intros [= <- _ _]. right. left. by apply Forall_cons in Hkinds as [? _]. }
    destruct Hnil as (pool & Hpool & -> & Hin); [done|].
    destruct (policyToEnable _ _) as [o|] eqn:Een; [|done]. intros [= <- <- _]. do 3 right.
    split_and!; [done|naive_solver|done| |].
    + intros pool' Hpool'. rewrite Hpool in Hpool'. injection Hpool' as <-. by apply Hdiff.
    + exists o. split; [|done]. unfold policyToEnable in Een. apply head_Some_elem_of in Een.
      apply list_elem_of_bind in Een as (w & [_ Ho]%list_elem_of_filter & _). done.
Qed.

(** When the next step of the ensure plan changes a policy or a rule, no
    policy of the route carries traffic and the pool behind them is already in
    place. *)
Theorem policies_change_only_while_disabled desired actual step rest state :
  uniqueKeys desired actual -> buildRouteEnsurePlan desired actual = Ok (step :: rest, state) ->
  changesPolicy (rm_kind step) = true ->
  poolConverged desired actual /\
  Forall (fun o => lp_AdminStateUp (op_policy o) = false) (og_policies actual).
Proof.
  intros Hu Hp Hc. destruct (ensure_plan_head _ _ _ _ _ Hu Hp) as [H|[[H _]|[(_ & H)|(H & _)]]];
    [|congruence|done|]; by rewrite H in Hc.
Qed.

(** A policy is activated only as the single step of a plan, when the pool
    and every policy and rule are in place. *)
Theorem policies_enabled_last desired actual step rest state :
  uniqueKeys desired actual -> buildRouteEnsurePlan desired actual = Ok (step :: rest, state) ->
  rm_kind step = routeMutationEnablePolicy ->
  poolConverged desired actual /\ rest = [] /\
  (forall pool, og_pool actual = Some pool -> policiesInPlace desired (pl_ID pool) (og_policies actual)) /\
  exists o, o ∈ og_policies actual /\ lp_ID (op_policy o) = rm_id step.
Proof.
  intros Hu Hp Hc. destruct (ensure_plan_head _ _ _ _ _ Hu Hp) as [H|[[_ H]|[(H & _)|(_ & H)]]];
    [congruence|done|by rewrite Hc in H|done].
Qed.

(** ** Deletion *)

(** What the observed graph must look like for a deletion step to come first. *)
Definition deletableNow (actual : observedRouteGraph) (step : routeMutation) : Prop :=
  let policies := og_policies actual in
  let disabled := Forall (fun o => lp_AdminStateUp (op_policy o) = false) policies in
  match rm_kind step with
  | routeMutationDisablePolicy =>
      exists o, o ∈ policies /\ lp_ID (op_policy o) = rm_id step /\ lp_AdminStateUp (op_policy o) = true
  | routeMutationDeleteRule =>
      disabled /\ exists o r, o ∈ policies /\ r ∈ op_rules o /\
        lp_ID (op_policy o) = rm_parentID step /\ lr_ID (or_rule r) = rm_id step
  | routeMutationDeletePolicy =>
      disabled /\ Forall (fun o => op_rules o = []) policies /\
      exists o, o ∈ policies /\ lp_ID (op_policy o) = rm_id step
  | routeMutationDeleteMonitor =>
      policies = [] /\ exists m, og_monitor actual = Some m /\ mn_ID m = rm_id step
  | routeMutationDeleteMember =>
      policies = [] /\ og_monitor actual = None /\
      exists m pool, m ∈ og_members actual /\ mb_ID m = rm_id step /\
        og_pool actual = Some pool /\ pl_ID pool = rm_parentID step
  | routeMutationDeletePool =>
      policies = [] /\ og_monitor actual = None /\ og_members actual = [] /\
      exists pool, og_pool actual = Some pool /\ pl_ID pool = rm_id step
  | _ => False
  end.

(** Members and monitors are only observed below a pool. *)
Definition childrenHavePool (actual : observedRouteGraph) : Prop :=
  og_pool actual = None -> og_members actual = [] /\ og_monitor actual = None.

Lemma disableSteps_nil policies :
  disableSteps policies = [] <-> Forall (fun o => lp_AdminStateUp (op_policy o) = false) policies.
Proof.
  unfold disableSteps. split.
  - intros H%fmap_nil_inv. apply Forall_forall. intros o Ho.
    destruct (lp_AdminStateUp (op_policy o)) eqn:E; [|done].
    assert (o ∈ filter (fun policy => lp_AdminStateUp (op_policy policy) = true) policies) as Hin
      by by apply list_elem_of_filter. rewrite H in Hin. set_solver.
  - intros H. induction H as [|o os Ho ? IH]; [done|]. rewrite filter_cons_False by congruence. done.
Qed.

Definition ruleDeletions (policies : list observedRoutePolicy) : list routeMutation :=
  policy ← policies;
  (fun rule => mutate routeMutationDeleteRule (lr_ID (or_rule rule)) (lp_ID (op_policy policy)))
    <$> op_rules policy.

Lemma ruleDeletions_nil policies :
  ruleDeletions policies = [] <-> Forall (fun o => op_rules o = []) policies.
Proof.
  unfold ruleDeletions. induction policies as [|o os IH]; [done|].
  rewrite bind_cons, app_nil, Forall_cons, <- IH. destruct (op_rules o); simpl; naive_solver.
Qed.

Definition policyDeletions (policies : list observedRoutePolicy) : list routeMutation :=
  disableSteps policies ++ ruleDeletions policies
  ++ ((fun policy => mutate routeMutationDeletePolicy (lp_ID (op_policy policy)) "") <$> policies).

Lemma policyDeletions_head actual :
  og_policies actual <> [] ->
  exists step rest, policyDeletions (og_policies actual) = step :: rest /\ deletableNow actual step.
Proof.
  intros Hne. unfold policyDeletions.
  destruct (disableSteps (og_policies actual)) as [|s rest] eqn:Ed.
  - apply disableSteps_nil in Ed. cbn [app].
    destruct (ruleDeletions (og_policies actual)) as [|s rest] eqn:Er; cbn [app].
    + apply ruleDeletions_nil in Er. destruct (og_policies actual) as [|o os] eqn:Eo; [done|].
      cbn [fmap list_fmap]. eexists _, _. split; [reflexivity|]. unfold deletableNow. cbn. rewrite Eo.
      split_and!; [done|done|]. exists o. set_solver.
    + eexists _, _. split; [reflexivity|].
      assert (s ∈ ruleDeletions (og_policies actual)) as Hs by (rewrite Er; by left).
      apply list_elem_of_bind in Hs as (o & (r & -> & Hr)%list_elem_of_fmap & Ho).
      split; [done|]. by exists o, r.
  - eexists _, _. split; [reflexivity|].
    assert (s ∈ disableSteps (og_policies actual)) as Hs by (rewrite Ed; by left).
    apply list_elem_of_fmap in Hs as (o & -> & [Hup Ho]%list_elem_of_filter). by exists o.
Qed.

(** The part of the deletion plan below the policies. *)
Definition poolDeletions (actual : observedRouteGraph) : list routeMutation :=
  match og_pool actual with
  | None => []
  | Some pool =>
      (match og_monitor actual with
       | Some m => [mutate routeMutationDeleteMonitor (mn_ID m) (pl_ID pool)] | None => [] end)
      ++ ((fun m => mutate routeMutationDeleteMember (mb_ID m) (pl_ID pool)) <$> og_members actual)
      ++ [mutate routeMutationDeletePool (pl_ID pool) ""]
  end.

(** The plan exists: no nil pool is dereferenced. *)
Lemma buildRouteDeletionPlan_eq actual :
  childrenHavePool actual ->
  buildRouteDeletionPlan actual = Ok (policyDeletions (og_policies actual) ++ poolDeletions actual).
Proof.
  unfold childrenHavePool, buildRouteDeletionPlan, policyDeletions, poolDeletions.
  fold (ruleDeletions (og_policies actual)). intros Hc.
  destruct (og_pool actual) as [pool|].
  - destruct (og_monitor actual), (og_members actual); cbn; by rewrite <- !app_assoc.
  - destruct Hc as [-> ->]; [done|]. cbn. by rewrite <- !app_assoc.
Qed.

(** A graph is deleted from its leaves, and the plan is empty only when nothing
    is left. *)
Lemma deletion_plan_cases actual :
  childrenHavePool actual ->
  exists plan, buildRouteDeletionPlan actual = Ok plan /\
    match plan with
    | [] => og_pool actual = None /\ og_members actual = [] /\ og_monitor actual = None /\
            og_policies actual = []
    | step :: _ => deletableNow actual step
    end.
Proof.
  intros Hc. eexists. split; [by apply buildRouteDeletionPlan_eq|].
  destruct (og_policies actual) as [|o os] eqn:Epol.
  - unfold policyDeletions, poolDeletions, deletableNow. cbn. rewrite Epol.
    destruct (og_pool actual) as [pool|] eqn:Ep; [|by destruct Hc].
    destruct (og_monitor actual) as [m|]; cbn; [by eauto|].
    destruct (og_members actual) as [|x xs]; cbn; [by eauto 6|].
    split_and!; [done|done|]. exists x, pool. split_and!; [by left|done..].
  - rewrite <- Epol. destruct (policyDeletions_head actual) as (s & rest & -> & Hs); [congruence|].
    exact Hs.
Qed.

(** ** Paths *)

(** The path elements of the Gateway API: [strings.Split(path, "/")]. *)
Fixpoint pathElements (s : string) : list string :=
  match s with
  | "" => [""]
  | String a s' =>
      if Ascii.eqb a "/" then "" :: pathElements s'
      else match pathElements s' with
           | [] => [String a ""]
           | h :: t => String a h :: t
           end
  end.

(** The documented meaning of an L7 policy whose only rule is on the path. *)
Definition policyMatchesPath (policy : desiredPolicy) (path : string) : bool :=
  if String.eqb (dpo_compareType policy) CompareTypeEqual then String.eqb path (dpo_path policy)
  else if String.eqb (dpo_compareType policy) CompareTypeStartWith then HasPrefix path (dpo_path policy)
  else false.

Lemma pathElements_cons s : exists h t, pathElements s = h :: t.
Proof.
  destruct s as [|a s]; simpl; [eauto|]. destruct (Ascii.eqb a "/"); [eauto|].
  destruct (pathElements s); eauto.
Qed.

Lemma pathElements_slash v r : pathElements (v ^^ String "/" r) = pathElements v ++ pathElements r.
Proof.
  induction v as [|a v IH]; [done|]. change (String a v ^^ String "/" r) with (String a (v ^^ String "/" r)).
  cbn [pathElements]. rewrite IH. destruct (Ascii.eqb a "/"); [done|].
  destruct (pathElements_cons v) as (h & t & ->). done.
Qed.

Lemma Join_cons x l sep : l <> [] -> Join (x :: l) sep = x ^^ sep ^^ Join l sep.
Proof. by destruct l. Qed.

Lemma Join_pathElements s : Join (pathElements s) "/" = s.
Proof.
  induction s as [|a s IH]; [done|]. cbn [pathElements].
  destruct (pathElements_cons s) as (h & t & E). rewrite E in IH |- *.
  destruct (Ascii.eqb_spec a "/") as [->|].
  - rewrite Join_cons by done. by rewrite IH.
  - destruct t as [|h' t]; [simpl in *; by rewrite IH|].
    rewrite Join_cons in IH |- * by done. by rewrite <- IH.
Qed.

Lemma Join_app a b : a <> [] -> b <> [] -> Join (a ++ b) "/" = Join a "/" ^^ String "/" (Join b "/").
Proof.
  intros Ha Hb. induction a as [|x a IH]; [done|].
  destruct a as [|y a]; [simpl app; by rewrite Join_cons|].
  rewrite <- app_comm_cons, !Join_cons by (done || by intros [_ ?]%app_nil).
  rewrite IH by done. by rewrite !append_assoc.
Qed.

(** Element-wise prefixes are what "equal, or starting with the value and a
    slash" tests. *)
Lemma pathElements_prefix v path :
  pathElements v `prefix_of` pathElements path <->
  path = v \/ HasPrefix path (v ^^ "/") = true.
Proof.
  split.
  - intros [l Hl]. destruct l as [|x l].
    + left. rewrite app_nil_r in Hl. by rewrite <- (Join_pathElements path), Hl, Join_pathElements.
    + right. apply prefix_iff. exists (Join (x :: l) "/").
      rewrite <- (Join_pathElements path), Hl, Join_app.
      * by rewrite Join_pathElements, append_assoc.
      * destruct (pathElements_cons v) as (h & t & ->). done.
      * done.
  - intros [->|[r ->]%prefix_iff]; [done|].
    rewrite append_assoc. change ("/" ^^ r) with (String "/" r).
    rewrite pathElements_slash. by apply prefix_app_r.
Qed.

Lemma length_rev_app a b : String.length (String.rev_app a b) = String.length a + String.length b.
Proof. revert b. induction a as [|c a IH]; intros b; [done|]. simpl. rewrite IH. simpl. lia. Qed.

Lemma TrimRight_not_char s c : TrimRight s c <> String c "".
Proof.
  unfold TrimRight. set (t := String.rev s). intros H.
  assert (String.length (String.rev (trim_left_char c t)) = 1) as Hl by by rewrite H.
  unfold String.rev in Hl. rewrite length_rev_app in Hl. simpl in Hl.
  destruct (trim_left_char c t) as [|d [|]] eqn:E; simpl in Hl; [lia| |lia].
  injection H as ->. clear Hl. induction t as [|e t IH]; [done|]. simpl in E.
  destruct (Ascii.eqb_spec e c); [by apply IH|]. congruence.
Qed.

(** C39. The policies of a PathPrefix match accept exactly the request paths
    whose elements start with those of the value without its trailing slashes.
    *)
Theorem path_prefix_policies_sound_and_complete spec path :
  rs_PathType spec = PathMatchPrefix -> HasPrefix path "/" = true ->
  existsb (fun policy => policyMatchesPath policy path) (policiesFor spec) = true <->
  pathElements (TrimRight (rs_PathValue spec) "/") `prefix_of` pathElements path.
Proof.
  intros HT Hpath. unfold policiesFor. rewrite HT. rewrite bool_decide_eq_false_2 by done.
  assert (forall v, TrimRight (if String.eqb v "" then "/" else v) "/" = TrimRight v "/") as ->.
  { intros v. by destruct (String.eqb_spec v "") as [->|]. }
  set (v := TrimRight (rs_PathValue spec) "/").
  destruct (String.eqb_spec v "") as [->|Hne].
  - cbn. rewrite Hpath. split; [intros _|done].
    apply prefix_iff in Hpath as [r ->]. exists (pathElements r). done.
  - destruct (String.eqb_spec v "/") as [E|Hv].
    + by destruct (TrimRight_not_char (rs_PathValue spec) "/").
    + cbn [existsb]. unfold policyMatchesPath. cbn [dpo_compareType dpo_path].
      rewrite pathElements_prefix. cbn. rewrite orb_false_r, orb_true_iff, String.eqb_eq. done.
Qed.

(** ** The desired route *)

Definition validMember (m : Member) : Prop :=
  (1 <= m_Port m <= 65535)%Z /\ exists a, m_Address m = AddrString a.

Lemma collectMember_inv spec_members M :
  foldM collectMember ∅ spec_members = Ok M ->
  forall k m, M !! k = Some m -> k = memberKeyOf m /\ validMember m /\
    exists x a, x ∈ spec_members /\ ParseAddr (m_Address x) = Some a /\
                m_Address m = AddrString a /\ m_Port m = m_Port x.
Proof.
  intros H. refine (foldM_inv _ (fun M pre => forall k m, M !! k = Some m -> k = memberKeyOf m /\
    validMember m /\ exists x a, x ∈ pre /\ ParseAddr (m_Address x) = Some a /\
                     m_Address m = AddrString a /\ m_Port m = m_Port x) _ _ _ _ _ H).
  - intros k m. by rewrite lookup_empty.
  - clear. intros M pre x M' HM. unfold collectMember.
    destruct (_ || _)%Z eqn:Ep; [done|]. destruct (ParseAddr (m_Address x)) as [a|] eqn:Ea; [|done].
    intros [= <-] k m. apply orb_false_iff in Ep as [E1%Z.ltb_ge E2%Z.ltb_ge].
    rewrite lookup_insert_Some. intros [[<- <-]|[_ Hm]].
    + split_and!; [done|split; [simpl; lia|by exists a]|]. exists x, a. set_solver.
    + destruct (HM k m Hm) as (? & ? & y & b & ? & ?). split_and!; [done..|]. exists y, b. set_solver.
Qed.

Lemma sortedValues_keys (M : gmap string Member) :
  (forall k m, M !! k = Some m -> k = memberKeyOf m) -> memberKeyOf <$> sortedValues M = sortedKeys M.
Proof.
  intros HM. unfold sortedValues.
  assert (forall l : list string, (forall k, k ∈ l -> is_Some (M !! k)) ->
    memberKeyOf <$> omap (fun k => M !! k) l = l) as Hl.
  { induction l as [|k l IH]; intros Hk; [done|]. cbn [omap list_omap].
    destruct (Hk k) as [m Hm]; [by left|]. rewrite Hm. cbn [fmap list_fmap].
    rewrite <- (HM k m Hm). f_equal. apply IH. intros k' ?. apply Hk. by right. }
  apply Hl. intros k. apply sortedKeys_elem.
Qed.

Lemma sortedKeys_NoDup {A} (M : gmap string A) : NoDup (sortedKeys M).
Proof. unfold sortedKeys. rewrite sort_slice_perm. apply NoDup_fst_map_to_list. Qed.

Lemma policiesFor_roles spec : NoDup (dpo_role <$> policiesFor spec).
Proof.
  unfold policiesFor. cbv zeta. repeat case_match; simpl; repeat constructor; set_solver.
Qed.

Lemma buildDesiredRoute_ok p spec desired :
  buildDesiredRoute p spec = Ok desired ->
  d_identity desired = rs_Identity spec /\ d_spec desired = spec /\
  d_policies desired = policiesFor spec /\ OpenStackProjectID (rs_Identity spec) = p_projectID p /\
  NoDup (memberKeyOf <$> d_members desired) /\ Forall validMember (d_members desired) /\
  (forall m, m ∈ d_members desired -> exists x a, x ∈ rs_Members spec /\
     ParseAddr (m_Address x) = Some a /\ m_Address m = AddrString a /\ m_Port m = m_Port x).
Proof.
  unfold buildDesiredRoute. destruct (provider_identity p (rs_Identity spec)) as [id|] eqn:Eid; [|done].
  assert (id = rs_Identity spec /\ OpenStackProjectID (rs_Identity spec) = p_projectID p) as [-> Hproj].
  { unfold provider_identity, NewIdentity in Eid. inv_result. bool_hyps. done. }
  cbn [rbind]. destruct (forM_ _ _); [|done]. cbn [rbind].
  destruct (blank _); [done|]. destruct (blank _); [done|]. destruct (_ || _)%Z; [done|].
  destruct (negb _); [done|]. destruct (blank _); [done|].
  destruct (rs_PathType spec); try done;
    (destruct (foldM collectMember ∅ _) as [M|] eqn:EM; [|done]; cbn [rbind];
     destruct (negb _); [done|]; intros [= <-]; cbn;
     pose proof (collectMember_inv _ _ EM) as HM;
     split_and!; [done..| | |];
     [rewrite sortedValues_keys by (intros k m Hk; apply (HM k m Hk)); apply sortedKeys_NoDup
     |apply Forall_forall; intros m [k Hk]%sortedValues_elem; apply (HM k m Hk)
     |intros m [k Hk]%sortedValues_elem; apply (HM k m Hk)]).
Qed.

(** Every member the specification names is in the desired route, under its
    canonical address. *)
Lemma foldM_collect_complete l M0 M :
  foldM collectMember M0 l = Ok M ->
  (forall k, is_Some (M0 !! k) -> is_Some (M !! k)) /\
  forall x, x ∈ l -> exists a, ParseAddr (m_Address x) = Some a /\
    is_Some (M !! memberKey (AddrString a) (m_Port x)).
Proof.
  revert M0. induction l as [|y l IH]; intros M0; cbn [foldM].
  - intros [= <-]. split; [done|set_solver].
  - unfold collectMember at 1. destruct (_ || _)%Z; [done|].
    destruct (ParseAddr (m_Address y)) as [a|] eqn:Ea; [|done]. cbn [rbind m_Address m_Port].
    intros [H1 H2]%IH. split.
    + intros k Hk. apply H1. destruct (decide (memberKey (AddrString a) (m_Port y) = k)) as [<-|];
        [by rewrite lookup_insert_eq|by rewrite lookup_insert_ne].
    + intros x [->|Hx]%elem_of_cons; [|by apply H2]. exists a. split; [done|].
      apply H1. by rewrite lookup_insert_eq.
Qed.
