(* ===== verification/RouteGraph.v ===== *)
(** * The HTTPRoute graph

    Models the part of [internal/cloud/openstack/graph] that observes and
    changes the resources of an HTTPRoute: [observeRouteGateway],
    [observeRouteGraph] and [executeRouteMutation] ([route_graph.go]),
    [EnsureRoute] and [repairRouteGatewayAdminState] ([route.go]) and
    [DeleteRoute] ([delete.go]). *)
From stdpp Require Import base list strings gmap.
From Stdlib Require Import Ascii ZArith Lia.
From S2P Require Import Prelude GoStrings GoNetip Cloud ApiErrors Metadata OpenStack GatewayGraph RoutePlan.

Set Default Goal Selector "!".

Record routeGatewayObservation := mkRouteGateway {
  rg_state : GatewayState; rg_outcome : Outcome;
  rg_loadBalancerAdminStateUp : bool; rg_listenerAdminStateUp : bool }.

(** [routePolicyRole] and [routeRuleRole]: the first role that matches; a role
    that only matches for discovery is a stale identity. *)
Fixpoint routeRole (identity : Identity) (tags : list string) (what : string) (roles : list string)
    : outcome_of string :=
  match roles with
  | [] => Err (conflict (what ^^ " is not owned by the selected HTTPRoute") [])
  | role :: roles' =>
      if MatchesRoute identity tags role then Ok role
      else if MatchesRouteDiscovery identity tags role
      then Err (conflict (what ^^ " has an incomplete or stale identity") [])
      else routeRole identity tags what roles'
  end.
Definition routePolicyRole (identity : Identity) (tags : list string) : outcome_of string :=
  routeRole identity tags "policy" [RolePolicyExact; RolePolicyPrefix].
Definition routeRuleRole (identity : Identity) (tags : list string) : outcome_of string :=
  routeRole identity tags "rule" [RoleRulePath; RoleRuleHost].

(** [if existingID := seen[key]; existingID != "" { return err }; seen[key] = id]. *)
Definition markUnique (seen : gmap string string) (key id : string) (e : string -> error)
    : outcome_of (gmap string string) :=
  let existingID := default "" (seen !! key) in
  if negb (String.eqb existingID "") then Err (e existingID) else Ok (<[key := id]> seen).

Section route.
Context `{Gophercloud} (p : Provider).

(** The part of [observeRouteGateway] after the load balancer was found active. *)
Definition observeActiveRouteGateway (identity : Identity)
    (requirements : option GatewayRequirements) (requireListener : bool) (lb : LoadBalancer)
    : M (option routeGatewayObservation) :=
  let! _ := lift (validateLoadBalancerProject p (lb_ID lb) (lb_ProjectID lb)) in
  if negb (MatchesGateway identity (lb_Tags lb) RoleLoadBalancer)
  then raise (conflict "load balancer %s changed immutable identity during observation" [lb_ID lb])
  else if match requirements with
          | Some req => negb (String.eqb (lb_Provider lb) (gr_Provider req))
                        || negb (String.eqb (lb_VipSubnetID lb) (gr_VIPSubnetID req))
          | None => false
          end
  then raise (conflict "load balancer %s does not match the Gateway provider and VIP subnet" [lb_ID lb])
  else
    let state listenerID :=
      mkGatewayState (lb_ID lb) (lb_VipPortID lb) (lb_VipAddress lb) "" "" listenerID in
    let! found := findManagedGatewayListener p identity (lb_ID lb) in
    match found with
    | None =>
        if requireListener
        then ret (Some (mkRouteGateway (state "")
                          (progressingOutcome p "Octavia listener has not been created") false false))
        else ret (Some (mkRouteGateway (state "") ReadyOutcome false false))
    | Some listener =>
        if negb (String.eqb (ls_Protocol listener) ProtocolHTTP)
        then raise (conflict "listener %s has protocol %s" [ls_ID listener; ls_Protocol listener])
        else
          match requirements with
          | Some req =>
              if negb (ls_ProtocolPort listener =? gr_ListenerPort req)%Z
              then raise (conflict "listener %s has port %d instead of %d"
                            [ls_ID listener; decimal_Z (ls_ProtocolPort listener);
                             decimal_Z (gr_ListenerPort req)])
              else ret (Some (mkRouteGateway (state (ls_ID listener)) ReadyOutcome
                                (lb_AdminStateUp lb) (ls_AdminStateUp listener)))
          | None => ret (Some (mkRouteGateway (state (ls_ID listener)) ReadyOutcome
                                 (lb_AdminStateUp lb) (ls_AdminStateUp listener)))
          end
    end.

(** [None]: not found. *)
Definition observeRouteGateway (identity : Identity) (requirements : option GatewayRequirements)
    (requireListener : bool) : M (option routeGatewayObservation) :=
  let! found := findGatewayLoadBalancer p identity in
  match found with
  | None => ret None
  | Some loadBalancer =>
      if negb (MatchesGateway identity (lb_Tags loadBalancer) RoleLoadBalancer)
      then raise (conflict "load balancer %s has an incomplete or stale identity" [lb_ID loadBalancer])
      else
        let! observation := observeLoadBalancerOnce p (lb_ID loadBalancer) in
        match observation with
        | phaseAbsent => ret None
        | phasePending _ outcome => ret (Some (mkRouteGateway zeroGatewayState outcome false false))
        | phaseActive lb => observeActiveRouteGateway identity requirements requireListener lb
        end
  end.

(** ** Observation of the route graph *)

(** One iteration over the pools of the load balancer. *)
Definition observePool (identity : Identity) (lbID : string) (found : option Pool) (pool : Pool)
    : outcome_of (option Pool) :=
  let? _ := validateOptionalProject p "pool" (pl_ID pool) (pl_ProjectID pool) in
  if negb (MatchesRouteDiscovery identity (pl_Tags pool) RolePool)
     || negb (MatchesRoute identity (pl_Tags pool) RolePool)
  then Err (conflict "load balancer %s contains pool %s not owned by the selected HTTPRoute"
              [lbID; pl_ID pool])
  else
    let? _ := validateParents "pool %s reports load balancer %s instead of %s" (pl_ID pool) lbID
                (pl_Loadbalancers pool) in
    match found with
    | Some _ => Err (conflict "found multiple pools for one HTTPRoute" [])
    | None => Ok (Some pool)
    end.

(** The member with its address in canonical form. *)
Definition normalizedMember (m : PoolMember) (address : Addr) : PoolMember :=
  mkPoolMember (mb_ID m) (mb_ProjectID m) (mb_Tags m) (mb_PoolID m) (AddrString address)
    (mb_ProtocolPort m) (mb_SubnetID m) (mb_ProvisioningStatus m) (mb_AdminStateUp m).

(** One iteration over the members: the members so far, and the IDs by key. *)
Definition observeMember (identity : Identity) (poolID : string)
    (acc : list PoolMember * gmap string string) (member : PoolMember)
    : outcome_of (list PoolMember * gmap string string) :=
  let? _ := validateOptionalProject p "member" (mb_ID member) (mb_ProjectID member) in
  if negb (MatchesRoute identity (mb_Tags member) RoleMember)
  then Err (conflict "pool %s contains member %s not owned by the selected HTTPRoute"
              [poolID; mb_ID member])
  else if negb (String.eqb (mb_PoolID member) "") && negb (String.eqb (mb_PoolID member) poolID)
  then Err (conflict "member %s reports pool %s instead of %s" [mb_ID member; mb_PoolID member; poolID])
  else
    let invalid := Err (conflict "member %s has invalid address or port %s:%d"
                          [mb_ID member; mb_Address member; decimal_Z (mb_ProtocolPort member)]) in
    match ParseAddr (mb_Address member) with
    | None => invalid
    | Some address =>
        if ((mb_ProtocolPort member <? 1) || (65535 <? mb_ProtocolPort member))%Z then invalid
        else
          let member := normalizedMember member address in
          let key := memberKey (mb_Address member) (mb_ProtocolPort member) in
          let? seen := markUnique (snd acc) key (mb_ID member) (fun existingID =>
            conflict "pool %s has duplicate members %s and %s for %s"
              [poolID; existingID; mb_ID member; key]) in
          Ok (fst acc ++ [member], seen)
    end.

Definition observeMonitor (identity : Identity) (poolID : string) (found : option Monitor)
    (monitor : Monitor) : outcome_of (option Monitor) :=
  let? _ := validateOptionalProject p "health monitor" (mn_ID monitor) (mn_ProjectID monitor) in
  if negb (MatchesRoute identity (mn_Tags monitor) RoleMonitor)
  then Err (conflict "pool %s contains health monitor %s not owned by the selected HTTPRoute"
              [poolID; mn_ID monitor])
  else
    let? _ := validateParents "health monitor %s reports pool %s instead of %s" (mn_ID monitor)
                poolID (mn_Pools monitor) in
    match found with
    | Some _ => Err (conflict "pool %s has multiple health monitors" [poolID])
    | None => Ok (Some monitor)
    end.

Definition observeRoutePoolChildren (identity : Identity) (poolID : string)
    : M (list PoolMember * option Monitor) :=
  let! members := wrap "list route pool members: %w" []
                    (ListMembers poolID (listBy "" (p_projectID p))) in
  let! (members, _) := lift (foldM (observeMember identity poolID) ([], ∅)
                               (sort_slice byEndpoint members)) in
  let! monitorItems := wrap "list route health monitors: %w" []
                         (ListMonitors (listBy poolID (p_projectID p))) in
  let! monitor := lift (foldM (observeMonitor identity poolID) None
                          (sort_slice (byID mn_ID) monitorItems)) in
  ret (members, monitor).

(** One iteration over the rules of a policy. *)
Definition observeRule (identity : Identity) (policyID : string)
    (acc : list observedRouteRule * gmap string string) (rule : Rule)
    : outcome_of (list observedRouteRule * gmap string string) :=
  let? _ := validateOptionalProject p "L7 rule" (lr_ID rule) (lr_ProjectID rule) in
  let? role := match routeRuleRole identity (lr_Tags rule) with
               | Ok role => Ok role
               | Err e => Err (Errorf "validate L7 rule %s beneath policy %s: %w"
                                 [lr_ID rule; policyID] (Some e))
               end in
  let? seen := markUnique (snd acc) role (lr_ID rule) (fun existingID =>
    conflict "policy %s has duplicate %s rules %s and %s" [policyID; role; existingID; lr_ID rule]) in
  Ok (fst acc ++ [mkObservedRule rule role], seen).

(** The checks on a policy that precede the listing of its rules. *)
Definition observePolicyRole (identity : Identity) (listenerID : string)
    (seen : gmap string string) (item : L7Policy) : outcome_of (string * gmap string string) :=
  let? _ := validateOptionalProject p "L7 policy" (lp_ID item) (lp_ProjectID item) in
  let? role := match routePolicyRole identity (lp_Tags item) with
               | Ok role => Ok role
               | Err e => Err (Errorf "validate L7 policy %s: %w" [lp_ID item] (Some e))
               end in
  let? seen := markUnique seen role (lp_ID item) (fun existingID =>
    conflict "duplicate %s policies %s and %s" [role; existingID; lp_ID item]) in
  if negb (String.eqb (lp_ListenerID item) "") && negb (String.eqb (lp_ListenerID item) listenerID)
  then Err (conflict "L7 policy %s reports listener %s instead of %s"
              [lp_ID item; lp_ListenerID item; listenerID])
  else Ok (role, seen).

Definition observePolicy (identity : Identity) (listenerID : string)
    (acc : list observedRoutePolicy * gmap string string) (item : L7Policy)
    : M (list observedRoutePolicy * gmap string string) :=
  let! (role, seen) := lift (observePolicyRole identity listenerID (snd acc) item) in
  let! ruleItems := wrap "list rules beneath L7 policy %s: %w" [lp_ID item]
                      (ListRules (lp_ID item) (listBy "" (p_projectID p))) in
  let! (rules, _) := lift (foldM (observeRule identity (lp_ID item)) ([], ∅)
                             (sort_slice (byID lr_ID) ruleItems)) in
  ret (fst acc ++ [mkObservedPolicy item role rules], seen).

Definition observeRoutePolicies (identity : Identity) (listenerID : string)
    : M (list observedRoutePolicy) :=
  let! items := wrap "list route L7 policies: %w" []
                  (ListPolicies (listBy listenerID (p_projectID p))) in
  let! (policies, _) := mfold (observePolicy identity listenerID) ([], ∅)
                          (sort_slice byPosition items) in
  ret policies.

Definition observeRouteGraph (identity : Identity) (gateway : GatewayState) : M observedRouteGraph :=
  let! poolItems := wrap "list pools beneath route Gateway: %w" []
                      (ListPools (listBy (LoadBalancerID gateway) (p_projectID p))) in
  let! pool := lift (foldM (observePool identity (LoadBalancerID gateway)) None
                       (sort_slice (byID pl_ID) poolItems)) in
  let! (members, monitor) :=
    match pool with
    | Some pool => observeRoutePoolChildren identity (pl_ID pool)
    | None => ret ([], None)
    end in
  let! policies := if negb (String.eqb (ListenerID gateway) "")
                   then observeRoutePolicies identity (ListenerID gateway) else ret [] in
  ret (mkObservedGraph pool members monitor policies).

(** ** Execution *)

(** [_, err = m]. *)
Definition discard {A} (m : M A) : M unit := let! _ := m in ret tt.

(** The treatment of [err] at the end of [executeRouteMutation]. *)
Definition settle (step : routeMutation) (m : M unit) : M unit :=
  try m (fun r => Ret
    match r with
    | Ok _ => Ok tt
    | Err e =>
        if isNotFound e && isRouteDeletion (rm_kind step) then Ok tt
        else Err (Errorf "%s: %w" [message step] (Some (ClassifyOctaviaMutation e)))
    end).

Definition executeRouteMutation (desired : desiredRoute) (step : routeMutation) : M unit :=
  let identity := d_identity desired in
  let spec := d_spec desired in
  let name role := resourceName (rs_Identity spec) role in
  match rm_kind step with
  | routeMutationCreatePool =>
      let! tags := lift (RouteTags identity RolePool) in
      settle step (discard (CreatePool
        (mkCreatePoolOpts LBMethodRoundRobin ProtocolHTTP (LoadBalancerID (rs_Gateway spec))
           (name RolePool) (Description identity RolePool) (Some true) tags)))
  | routeMutationUpdatePool =>
      settle step (discard (UpdatePool (rm_id step) (mkUpdatePoolOpts LBMethodRoundRobin (Some true))))
  | routeMutationDeleteMember => settle step (DeleteMember (rm_parentID step) (rm_id step))
  | routeMutationCreateMember =>
      let! tags := lift (RouteTags identity RoleMember) in
      settle step (discard (CreateMember (rm_parentID step)
        (mkCreateMemberOpts (m_Address (rm_member step)) (m_Port (rm_member step)) (name RoleMember)
           (rs_MemberSubnetID spec) (Some true) tags)))
  | routeMutationUpdateMember =>
      settle step (discard (UpdateMember (rm_parentID step) (rm_id step) (Some true)))
  | routeMutationCreateMonitor =>
      let! tags := lift (RouteTags identity RoleMonitor) in
      settle step (discard (CreateMonitor
        (mkCreateMonitorOpts (rm_parentID step) TypeHTTP routeMonitorDelay routeMonitorTimeout
           routeMonitorMaxRetries routeMonitorMaxRetriesDown (d_healthPath desired) MethodGet
           routeMonitorExpectedCodes (name RoleMonitor) (Some true) tags)))
  | routeMutationUpdateMonitor =>
      settle step (discard (UpdateMonitor (rm_id step)
        (mkUpdateMonitorOpts routeMonitorDelay routeMonitorTimeout routeMonitorMaxRetries
           routeMonitorMaxRetriesDown (d_healthPath desired) MethodGet routeMonitorExpectedCodes
           (Some true))))
  | routeMutationDisablePolicy =>
      settle step (discard (UpdatePolicy (rm_id step) (mkUpdatePolicyOpts "" 0 None (Some false))))
  | routeMutationDeleteRule => settle step (DeleteRule (rm_parentID step) (rm_id step))
  | routeMutationDeletePolicy => settle step (DeletePolicy (rm_id step))
  | routeMutationCreatePolicy =>
      let policy := rm_policy step in
      let! tags := lift (RouteTags identity (dpo_role policy)) in
      settle step (discard (CreatePolicy
        (mkCreatePolicyOpts (name (dpo_role policy)) (ListenerID (rs_Gateway spec))
           ActionRedirectToPool (dpo_position policy) (Description identity (dpo_role policy))
           (rm_parentID step) (Some false) tags)))
  | routeMutationUpdatePolicy =>
      settle step (discard (UpdatePolicy (rm_id step)
        (mkUpdatePolicyOpts ActionRedirectToPool (dpo_position (rm_policy step))
           (Some (rm_parentID step)) (Some false))))
  | routeMutationCreateRule =>
      let rule := rm_rule step in
      let! tags := lift (RouteTags identity (dr_role rule)) in
      settle step (discard (CreateRule (rm_parentID step)
        (mkCreateRuleOpts (dr_ruleType rule) (dr_compareType rule) (dr_value rule) (Some true) tags)))
  | routeMutationUpdateRule =>
      let rule := rm_rule step in
      settle step (discard (UpdateRule (rm_parentID step) (rm_id step)
        (mkUpdateRuleOpts (dr_ruleType rule) (dr_compareType rule) (dr_value rule) (Some false)
           (Some true))))
  | routeMutationEnablePolicy =>
      settle step (discard (UpdatePolicy (rm_id step) (mkUpdatePolicyOpts "" 0 None (Some true))))
  | routeMutationDeleteMonitor => settle step (DeleteMonitor (rm_id step))
  | routeMutationDeletePool => settle step (DeletePool (rm_id step))
  | routeMutationOther n =>
      raise (Errorf "unsupported route mutation %d" [decimal_N n] None)
  end.

(** ** EnsureRoute (route.go) *)

(** The outcome and whether the caller must return it. *)
Definition repairRouteGatewayAdminState (identity : Identity) (requirements : GatewayRequirements)
    (gateway : routeGatewayObservation) : M (Outcome * bool) :=
  if rg_listenerAdminStateUp gateway && rg_loadBalancerAdminStateUp gateway
  then ret (zeroOutcome, false)
  else
    let! floatingIPReady := gatewayFloatingIPReadyForTraffic p identity
                              (VIPPortID (rg_state gateway)) (gr_ExternalNetworkID requirements) in
    if negb floatingIPReady
    then ret (progressingOutcome p
           "Waiting for Gateway Floating IP reconciliation before restoring traffic", true)
    else if negb (rg_listenerAdminStateUp gateway)
    then
      let! _ := enableListener (ListenerID (rg_state gateway)) in
      ret (progressingOutcome p "Enabled Octavia listener after validating the HTTPRoute graph", true)
    else
      let! _ := enableLoadBalancer (LoadBalancerID (rg_state gateway)) in
      ret (progressingOutcome p "Enabled Octavia load balancer after validating the HTTPRoute graph", true).

Definition withGateway (desired : desiredRoute) (gateway : GatewayState) : desiredRoute :=
  let spec := d_spec desired in
  mkDesiredRoute (d_identity desired)
    (mkRouteSpec (rs_Identity spec) gateway (rs_GatewayRequirements spec) (rs_MemberSubnetID spec)
       (rs_HealthPath spec) (rs_Hostname spec) (rs_PathType spec) (rs_PathValue spec) (rs_Members spec))
    (d_members desired) (d_healthPath desired) (d_policies desired).

(** The IDs the caller expects, when it names any, are those observed. *)
Definition gatewayIDsDiffer (expected observed : GatewayState) : bool :=
  negb (String.eqb (LoadBalancerID expected) "")
    && negb (String.eqb (LoadBalancerID expected) (LoadBalancerID observed))
  || negb (String.eqb (ListenerID expected) "")
    && negb (String.eqb (ListenerID expected) (ListenerID observed)).

(** The part of [EnsureRoute] after its Gateway was found ready. *)
Definition ensureObservedRoute (desired : desiredRoute) (gateway : routeGatewayObservation)
    : M RouteResult :=
  if gatewayIDsDiffer (rs_Gateway (d_spec desired)) (rg_state gateway)
  then raise (conflict
         "route Gateway IDs do not match the controller-owned load balancer and listener" [])
  else
    let desired := withGateway desired (rg_state gateway) in
    let! actual := observeRouteGraph (d_identity desired) (rg_state gateway) in
    let! (plan, state) := lift (buildRouteEnsurePlan desired actual) in
    match plan with
    | [] =>
        let! (outcome, repaired) := repairRouteGatewayAdminState (d_identity desired)
                                      (rs_GatewayRequirements (d_spec desired)) gateway in
        if repaired then ret (mkRouteResult state outcome) else ret (RouteReadyResult state)
    | step :: _ =>
        let! _ := executeRouteMutation desired step in
        ret (mkRouteResult state (progressingOutcome p (message step)))
    end.

Definition EnsureRoute (spec : RouteSpec) : M RouteResult :=
  onError Classify (
    let! desired := lift (buildDesiredRoute p spec) in
    let! found := wrap "observe Gateway for HTTPRoute: %w" []
                    (observeRouteGateway (d_identity desired)
                       (Some (rs_GatewayRequirements (d_spec desired))) true) in
    match found with
    | None => ret (RouteProgressingResult
                     "Controller-owned Octavia load balancer has not been created" (p_pollInterval p))
    | Some gateway =>
        if isProgressing (rg_outcome gateway)
        then ret (mkRouteResult zeroRouteState (rg_outcome gateway))
        else ensureObservedRoute desired gateway
    end).

(** ** DeleteRoute (delete.go) *)

Definition zeroRequirements : GatewayRequirements := mkGatewayRequirements "" "" "" 0.
(** The specification [DeleteRoute] builds; an unset path type is the empty
    string. *)
Definition deletionSpec (value : Identity) (gateway : GatewayState) : RouteSpec :=
  mkRouteSpec value gateway zeroRequirements "" "" "" (PathMatchOther "") "" [].

Definition DeleteRoute (value : Identity) : M Outcome :=
  onError Classify (
    let! identity := lift (provider_identity p value) in
    let! found := wrap "observe Gateway before HTTPRoute deletion: %w" []
                    (observeRouteGateway identity None false) in
    match found with
    | None => ret ReadyOutcome
    | Some gateway =>
        if isProgressing (rg_outcome gateway) then ret (rg_outcome gateway)
        else
          let! actual := observeRouteGraph identity (rg_state gateway) in
          let! plan := lift (buildRouteDeletionPlan actual) in
          match plan with
          | [] => ret ReadyOutcome
          | step :: _ =>
              let desired := mkDesiredRoute identity (deletionSpec value (rg_state gateway)) [] "" [] in
              let! _ := executeRouteMutation desired step in
              ret (progressingOutcome p (message step))
          end
    end).
End route.
