(* ===== verification/RouteFacts.v ===== *)
(** * Theorems about the HTTPRoute graph

    For every execution of [EnsureRoute] and [DeleteRoute], whatever OpenStack
    answers: the one request that may change anything is the first step of the
    plan for what was observed, everything observed was owned, and a ready
    result means that the observed graph is the desired one. *)
From stdpp Require Import base list strings gmap sets.
From Stdlib Require Import Ascii ZArith Lia.
From S2P Require Import Prelude GoStrings GoNetip Cloud ApiErrors Metadata OpenStack ProgramLogic GatewayGraph GatewayFacts RoutePlan RoutePlanFacts RouteGraph.

Set Default Goal Selector "!".

Section readonly.
Context `{Gophercloud} (p : Provider).

#[export] Instance observeRouteGateway_ReadOnly identity req need :
  ReadOnly (observeRouteGateway p identity req need).
Proof. unfold observeRouteGateway, observeActiveRouteGateway. solve_readonly. Qed.

#[export] Instance observeRoutePolicies_ReadOnly identity id :
  ReadOnly (observeRoutePolicies p identity id).
Proof. unfold observeRoutePolicies, observePolicy, ListPolicies, ListRules. solve_readonly. Qed.

#[export] Instance observeRouteGraph_ReadOnly identity gw : ReadOnly (observeRouteGraph p identity gw).
Proof.
  unfold observeRouteGraph, observeRoutePoolChildren, ListPools, ListMembers, ListMonitors.
  solve_readonly.
Qed.
End readonly.

(** ** What the observation shows *)

Section owned.
Context (p : Provider) (identity : Identity).

Definition routeTags (projectID : string) (tags : list string) (roles : list string) : Prop :=
  (projectID = "" \/ projectID = p_projectID p) /\
  exists role, role ∈ roles /\ MatchesRoute identity tags role = true.

(** Every resource that an event shows belongs to the Gateway or to the route. *)
Definition showsRouteOwned (e : event) : Prop :=
  match e with
  | Listed (ReqListLoadBalancers _) items => Forall (ownedLoadBalancer p identity) items
  | Ev (ReqGetLoadBalancer _) (Ok lb) => ownedLoadBalancer p identity lb
  | Listed (ReqListListeners _) items => Forall (ownedListener p identity) items
  | Listed (ReqListPools _) items =>
      Forall (fun x => routeTags (pl_ProjectID x) (pl_Tags x) [RolePool]) items
  | Listed (ReqListMembers _ _) items =>
      Forall (fun x => routeTags (mb_ProjectID x) (mb_Tags x) [RoleMember]) items
  | Listed (ReqListMonitors _) items =>
      Forall (fun x => routeTags (mn_ProjectID x) (mn_Tags x) [RoleMonitor]) items
  | Listed (ReqListPolicies _) items =>
      Forall (fun x => routeTags (lp_ProjectID x) (lp_Tags x) [RolePolicyExact; RolePolicyPrefix]) items
  | Listed (ReqListRules _ _) items =>
      Forall (fun x => routeTags (lr_ProjectID x) (lr_Tags x) [RoleRulePath; RoleRuleHost]) items
  | Listed (ReqListFloatingIPs _) items => Forall (ownedFloatingIP p identity) items
  | _ => True
  end.

Lemma routeRole_ok tags what roles role :
  routeRole identity tags what roles = Ok role -> role ∈ roles /\ MatchesRoute identity tags role = true.
Proof.
  induction roles as [|r roles IH]; simpl; [done|].
  destruct (MatchesRoute identity tags r) eqn:E; [intros [= <-]; split; [by left|done]|].
  destruct (MatchesRouteDiscovery identity tags r); [done|]. intros [? ?]%IH. split; [by right|done].
Qed.

Lemma markUnique_ok seen key id e seen' :
  markUnique seen key id e = Ok seen' -> default "" (seen !! key) = "" /\ seen' = <[key := id]> seen.
Proof.
  unfold markUnique. destruct (String.eqb_spec (default "" (seen !! key)) ""); simpl; [|done].
  by intros [= <-].
Qed.
End owned.

Ltac inv_project :=
  match goal with
  | H : rbind (validateOptionalProject ?p ?w ?i ?x) _ = Ok _ |- _ =>
      let E := fresh "Hproj" in destruct (validateOptionalProject p w i x) as [[]|] eqn:E;
      cbn [rbind] in H; [|discriminate H]; apply validateOptionalProject_ok in E
  end.

Section observe.
Context (p : Provider) (identity : Identity).

Abbreviation routePool x := (routeTags p identity (pl_ProjectID x) (pl_Tags x) [RolePool]).
Abbreviation routeMember x := (routeTags p identity (mb_ProjectID x) (mb_Tags x) [RoleMember]).
Abbreviation routeMonitor x := (routeTags p identity (mn_ProjectID x) (mn_Tags x) [RoleMonitor]).
Abbreviation routePolicy x :=
  (routeTags p identity (lp_ProjectID x) (lp_Tags x) [RolePolicyExact; RolePolicyPrefix]).
Abbreviation routeRule x :=
  (routeTags p identity (lr_ProjectID x) (lr_Tags x) [RoleRulePath; RoleRuleHost]).

Lemma observePool_ok lbID found x found' :
  observePool p identity lbID found x = Ok found' -> found = None /\ found' = Some x /\ routePool x.
Proof.
  unfold observePool. intros H. inv_project.
  destruct (MatchesRouteDiscovery _ _ _), (MatchesRoute _ _ _) eqn:Em; try done. cbn [negb orb] in H.
  destruct (validateParents _ _ _ _); [|done]. cbn [rbind] in H. destruct found; [done|].
  injection H as <-. split_and!; [done|done|]. split; [done|]. exists RolePool. split; [by left|done].
Qed.

Lemma observeMonitor_ok poolID found x found' :
  observeMonitor p identity poolID found x = Ok found' -> found = None /\ found' = Some x /\ routeMonitor x.
Proof.
  unfold observeMonitor. intros H. inv_project.
  destruct (MatchesRoute _ _ _) eqn:Em; [|done]. cbn [negb] in H.
  destruct (validateParents _ _ _ _); [|done]. cbn [rbind] in H. destruct found; [done|].
  injection H as <-. split_and!; [done|done|]. split; [done|]. exists RoleMonitor. split; [by left|done].
Qed.

(** [seen] records a non-empty ID for every key collected so far. *)
Definition recorded {A} (key : A -> string) (l : list A) (seen : gmap string string) : Prop :=
  NoDup (key <$> l) /\ forall x, x ∈ l -> exists id, id <> "" /\ seen !! key x = Some id.

Lemma recorded_snoc {A} (key : A -> string) l seen x id e seen' :
  recorded key l seen -> markUnique seen (key x) id e = Ok seen' -> id <> "" ->
  recorded key (l ++ [x]) seen'.
Proof.
  intros [Hnd Hseen] [Hnew ->]%markUnique_ok Hid. split.
  - rewrite fmap_app. apply NoDup_app. split_and!; [done| |by apply NoDup_singleton].
    intros k (y & -> & Hy)%list_elem_of_fmap Hk%list_elem_of_singleton.
    destruct (Hseen y Hy) as (id' & Hne & Hlook). rewrite Hk in Hlook. rewrite Hlook in Hnew. done.
  - intros y [Hy| ->%list_elem_of_singleton]%elem_of_app.
    + destruct (decide (key x = key y)) as [->|Hne]; [exists id; by rewrite lookup_insert_eq|].
      rewrite lookup_insert_ne by done. by apply Hseen.
    + exists id. by rewrite lookup_insert_eq.
Qed.

(** A listed member and the member that the observation keeps for it: the same,
    with the address in canonical form. *)
Definition shownMember (x m : PoolMember) : Prop :=
  (exists a, ParseAddr (mb_Address x) = Some a /\ mb_Address m = AddrString a) /\
  (1 <= mb_ProtocolPort x <= 65535)%Z /\ mb_ProtocolPort m = mb_ProtocolPort x /\
  mb_ID m = mb_ID x /\ mb_ProjectID m = mb_ProjectID x /\ mb_Tags m = mb_Tags x /\ mb_PoolID m = mb_PoolID x /\
  mb_SubnetID m = mb_SubnetID x /\ mb_ProvisioningStatus m = mb_ProvisioningStatus x /\
  mb_AdminStateUp m = mb_AdminStateUp x.

Lemma observeMember_fold poolID items ms seen :
  foldM (observeMember p identity poolID) ([], ∅) items = Ok (ms, seen) ->
  Forall (fun x => routeMember x) items /\ Forall2 shownMember items ms /\
  (Forall (fun x => mb_ID x <> "") items -> recorded poolMemberKey ms seen).
Proof.
  intros H. refine (foldM_inv _ (fun st pre => Forall (fun x => routeMember x) pre /\
    Forall2 shownMember pre (fst st) /\
    (Forall (fun x => mb_ID x <> "") pre -> recorded poolMemberKey (fst st) (snd st))) _ _ _ _ _ H).
  - split_and!; [constructor|constructor|]. intros _. split; [constructor|set_solver].
  - clear. intros [ms seen] pre x [ms' seen'] (Hown & Hid & Hrec). unfold observeMember. intros H.
    inv_project. destruct (MatchesRoute _ _ _) eqn:Em; [|done]. cbn [negb] in H.
    destruct (_ && _); [done|]. destruct (ParseAddr (mb_Address x)) as [a|] eqn:Ea; [|done].
    destruct (_ || _)%Z eqn:Eport; [done|]. cbn [fst snd] in *.
    destruct (markUnique _ _ _ _) as [seen1|] eqn:Eu; [|done]. cbn [rbind] in H. injection H as <- <-.
    rewrite !Forall_app, !Forall_singleton. split_and!; [done| | |].
    + split; [done|]. exists RoleMember. split; [by left|done].
    + apply Forall2_app; [done|]. constructor; [|constructor]. split; [by exists a|].
      split_and!; try done; lia.
    + intros [Hpre Hx]. eapply recorded_snoc; [by apply Hrec|exact Eu|done].
Qed.

(** The role of a rule or a policy is one that its tags carry. *)
Definition ruleShown (r : observedRouteRule) : Prop :=
  or_role r ∈ [RoleRulePath; RoleRuleHost] /\ MatchesRoute identity (lr_Tags (or_rule r)) (or_role r) = true.
Definition policyShown (o : observedRoutePolicy) : Prop :=
  op_role o ∈ [RolePolicyExact; RolePolicyPrefix] /\ MatchesRoute identity (lp_Tags (op_policy o)) (op_role o) = true.

Lemma observeRule_fold policyID items rs seen :
  foldM (observeRule p identity policyID) ([], ∅) items = Ok (rs, seen) ->
  Forall (fun x => routeRule x) items /\ or_rule <$> rs = items /\ Forall ruleShown rs /\
  (Forall (fun x => lr_ID x <> "") items -> NoDup (or_role <$> rs)).
Proof.
  intros H. enough (Forall (fun x => routeRule x) items /\ or_rule <$> rs = items /\ Forall ruleShown rs /\
    (Forall (fun x => lr_ID x <> "") items -> recorded or_role rs seen)) as (? & ? & ? & Hr).
  { split_and!; [done..|]. intros Hid. by apply Hr. }
  refine (foldM_inv _ (fun st pre => Forall (fun x => routeRule x) pre /\ or_rule <$> fst st = pre /\
    Forall ruleShown (fst st) /\ (Forall (fun x => lr_ID x <> "") pre -> recorded or_role (fst st) (snd st))) _ _ _ _ _ H).
  - split_and!; [constructor|done|constructor|]. intros _. split; [constructor|set_solver].
  - clear. intros [rs seen] pre x [rs' seen'] (Hown & Hids & Hsh & Hrec). unfold observeRule. intros H.
    inv_project. destruct (routeRuleRole identity (lr_Tags x)) as [role|] eqn:Er; [|done]. cbn [rbind] in H.
    cbn [fst snd] in *. destruct (markUnique _ _ _ _) as [seen1|] eqn:Eu; [|done]. cbn [rbind] in H.
    injection H as <- <-. apply routeRole_ok in Er as [Hin Hm].
    rewrite !Forall_app, !Forall_singleton, fmap_app, Hids.
    split_and!; [done|by split; eauto|done|done|done|].
    intros [Hpre Hx]. eapply (recorded_snoc or_role _ _ (mkObservedRule x role)); [by apply Hrec|exact Eu|done].
Qed.

(** OpenStack gives every resource an ID. *)
Definition identified (e : event) : Prop :=
  match e with
  | Listed (ReqListMembers _ _) items => Forall (fun x => mb_ID x <> "") items
  | Listed (ReqListPolicies _) items => Forall (fun x => lp_ID x <> "") items
  | Listed (ReqListRules _ _) items => Forall (fun x => lr_ID x <> "") items
  | _ => True
  end.

#[export] Instance identified_dec e : Decision (identified e).
Proof. destruct e as [[] x]; cbn; try apply _; destruct x as [[]|]; apply _. Defined.

(** The rules of an observed policy are those the trace lists below it, and the
    roles are those in the tags. *)
Definition rulesObserved (tr : list event) (o : observedRoutePolicy) : Prop :=
  policyShown o /\ Forall ruleShown (op_rules o) /\
  exists rules, Listed (ReqListRules (lp_ID (op_policy o)) (listBy "" (p_projectID p))) rules ∈ tr /\
    or_rule <$> op_rules o = sort_slice (byID lr_ID) rules.

Lemma rulesObserved_mono tr tr' o : tr ⊆ tr' -> rulesObserved tr o -> rulesObserved tr' o.
Proof. intros Ht (? & ? & rules & ? & ?). split_and!; [done..|]. exists rules. set_solver. Qed.

Lemma observePolicyRole_ok listenerID seen x role seen' :
  observePolicyRole p identity listenerID seen x = Ok (role, seen') ->
  (routePolicy x /\ forall rs, policyShown (mkObservedPolicy x role rs)) /\
  exists e, markUnique seen role (lp_ID x) e = Ok seen'.
Proof.
  unfold observePolicyRole. intros H. inv_project.
  destruct (routePolicyRole identity (lp_Tags x)) as [role'|] eqn:Er; [|done]. cbn [rbind] in H.
  destruct (markUnique _ _ _ _) as [seen1|] eqn:Eu; [|done]. cbn [rbind] in H.
  destruct (_ && _); [done|]. injection H as -> ->. apply routeRole_ok in Er as [Hin Hm].
  split; [|by eauto]. split; [split; eauto|done].
Qed.

Lemma observePolicy_ok listenerID acc x tr acc' :
  exec (observePolicy p identity listenerID acc x) tr (Ok acc') ->
  exists role rules rs e,
    (routePolicy x /\ policyShown (mkObservedPolicy x role rs)) /\ tr = [Listed (ReqListRules (lp_ID x) (listBy "" (p_projectID p))) rules] /\
    Forall (fun r => routeRule r) rules /\ or_rule <$> rs = sort_slice (byID lr_ID) rules /\ Forall ruleShown rs /\
    (Forall (fun r => lr_ID r <> "") rules -> NoDup (or_role <$> rs)) /\
    fst acc' = fst acc ++ [mkObservedPolicy x role rs] /\
    markUnique (snd acc) role (lp_ID x) e = Ok (snd acc').
Proof.
  unfold observePolicy. intros H. inv_exec.
  match goal with x : (string * gmap string string)%type |- _ => destruct x as [role seen] end. inv_exec.
  match goal with x : (list observedRouteRule * _)%type |- _ => destruct x as [rs seenr] end. inv_exec.
  match goal with Hf : foldM _ _ _ = _ |- _ => apply observeRule_fold in Hf as (Hown & Hids & Hsh & Hnd) end.
  match goal with Hf : observePolicyRole _ _ _ _ _ = _ |- _ => apply observePolicyRole_ok in Hf as ([Hx Hps] & e & Hu) end.
  rewrite !sort_slice_Forall in *. exists role. eexists _, rs, e. by split_and!.
Qed.

Lemma observeRoutePolicies_ok listenerID tr policies :
  exec (observeRoutePolicies p identity listenerID) tr (Ok policies) ->
  Forall (showsRouteOwned p identity) tr /\ Forall (rulesObserved tr) policies /\
  (exists items, Listed (ReqListPolicies (listBy listenerID (p_projectID p))) items ∈ tr /\
     op_policy <$> policies = sort_slice byPosition items) /\
  (Forall identified tr ->
     NoDup (op_role <$> policies) /\ Forall (fun o => NoDup (or_role <$> op_rules o)) policies).
Proof.
  unfold observeRoutePolicies. intros H. inv_exec.
  match goal with x : (list observedRoutePolicy * _)%type |- _ => destruct x as [ps seen] end. inv_exec.
  match goal with l : list L7Policy |- _ => rename l into items end.
  match goal with Hf : exec (mfold _ _ _) _ _ |- _ => rename Hf into Hfold end.
  eapply (exec_mfold_inv _ (fun st pre t => Forall (fun x => routePolicy x) pre /\
    Forall (showsRouteOwned p identity) t /\ Forall (rulesObserved t) (fst st) /\ op_policy <$> fst st = pre /\
    (Forall identified t -> Forall (fun o => NoDup (or_role <$> op_rules o)) (fst st)) /\
    (Forall (fun x => lp_ID x <> "") pre -> recorded op_role (fst st) (snd st)))) in Hfold
    as (Hown & Hshow & Hrules & Hids & Hnr & Hrec).
  - cbn [fst snd] in *. rewrite !sort_slice_Forall in *. rewrite !Forall_app.
    split_and!; [by repeat constructor|done|constructor| | |].
    + eapply Forall_impl; [exact Hrules|]. intros o. apply rulesObserved_mono. set_solver.
    + exists items. set_solver.
    + intros ([Hi _]%Forall_cons & Ht & _). split; [by apply Hrec|by apply Hnr].
  - split_and!; [constructor..|done|constructor|]. intros _. split; [constructor|set_solver].
  - clear. intros [ps seen] pre t x t' [ps' seen'] Hx (Hown & Hshow & Hrules & Hids & Hnr & Hrec) H.
    apply observePolicy_ok in H as (role & rules & rs & e & [Hpx Hps] & -> & Hr & Hrs & Hsh & Hnd & Heq & Hu).
    cbn [fst snd] in *. subst ps'. rewrite !Forall_app, !Forall_singleton, fmap_app, Hids. split_and!; try done.
    + eapply Forall_impl; [exact Hrules|]. intros o. apply rulesObserved_mono. set_solver.
    + split_and!; [done|done|]. exists rules. set_solver.
    + intros [Ht Hi]. split; [by apply Hnr|]. by apply Hnd.
    + intros [Hpre Hi]. eapply (recorded_snoc op_role _ _ (mkObservedPolicy x role rs)); [by apply Hrec|exact Hu|done].
Qed.

(** The graph is what the trace lists: its pool, every member of it, its monitor,
    and every policy of the listener with every rule of it, and nothing else. *)
Definition graphObserved (tr : list event) (gateway : GatewayState) (g : observedRouteGraph) : Prop :=
  Listed (ReqListPools (listBy (LoadBalancerID gateway) (p_projectID p)))
    (match og_pool g with Some x => [x] | None => [] end) ∈ tr /\
  (forall pool, og_pool g = Some pool ->
     (exists members, Listed (ReqListMembers (pl_ID pool) (listBy "" (p_projectID p))) members ∈ tr /\
        Forall2 shownMember (sort_slice byEndpoint members) (og_members g)) /\
     Listed (ReqListMonitors (listBy (pl_ID pool) (p_projectID p)))
       (match og_monitor g with Some x => [x] | None => [] end) ∈ tr) /\
  (og_pool g = None -> og_members g = [] /\ og_monitor g = None) /\
  (ListenerID gateway = "" -> og_policies g = []) /\
  (ListenerID gateway <> "" ->
     exists items, Listed (ReqListPolicies (listBy (ListenerID gateway) (p_projectID p))) items ∈ tr /\
       op_policy <$> og_policies g = sort_slice byPosition items) /\
  Forall (rulesObserved tr) (og_policies g).

Lemma sort_slice_option {A} (less : A -> A -> bool) items (o : option A) :
  sort_slice less items = match o with Some x => [x] | None => [] end ->
  items = match o with Some x => [x] | None => [] end.
Proof.
  intros H. pose proof (sort_slice_perm less items) as Hp. rewrite H in Hp. destruct o.
  - by apply Permutation_singleton_l in Hp.
  - by apply Permutation_nil_l in Hp.
Qed.

Lemma observeRoutePoolChildren_ok poolID tr ms mon :
  exec (observeRoutePoolChildren p identity poolID) tr (Ok (ms, mon)) ->
  Forall (showsRouteOwned p identity) tr /\
  (exists members, Listed (ReqListMembers poolID (listBy "" (p_projectID p))) members ∈ tr /\
     Forall2 shownMember (sort_slice byEndpoint members) ms) /\
  Listed (ReqListMonitors (listBy poolID (p_projectID p)))
    (match mon with Some x => [x] | None => [] end) ∈ tr /\
  (Forall identified tr -> NoDup (poolMemberKey <$> ms)).
Proof.
  unfold observeRoutePoolChildren. intros H. inv_exec.
  match goal with x : (list PoolMember * gmap _ _)%type |- _ => destruct x as [ms' seen] end. inv_exec.
  match goal with Hf : foldM (observeMember _ _ _) _ _ = _ |- _ =>
    apply observeMember_fold in Hf as (Hown & Hids & Hrec) end.
  match goal with Hf : foldM (observeMonitor _ _ _) _ _ = _ |- _ =>
    eapply (foldM_at_most_one _ (fun x => routeMonitor x)) in Hf as [Hs Hmon]; [|apply observeMonitor_ok] end.
  apply sort_slice_Forall in Hmon. rewrite (sort_slice_option _ _ _ Hs) in *.
  rewrite !sort_slice_Forall in *. split_and!.
  - by repeat constructor.
  - eexists. split; [by left|exact Hids].
  - set_solver.
  - intros [Hi _]%Forall_cons. by apply Hrec.
Qed.

Lemma observeRouteGraph_ok gateway tr g :
  exec (observeRouteGraph p identity gateway) tr (Ok g) ->
  Forall (showsRouteOwned p identity) tr /\ childrenHavePool g /\ graphObserved tr gateway g /\
  (Forall identified tr -> NoDup (poolMemberKey <$> og_members g) /\ NoDup (op_role <$> og_policies g) /\
     Forall (fun o => NoDup (or_role <$> op_rules o)) (og_policies g)).
Proof.
  unfold observeRouteGraph. intros H. inv_exec.
  match goal with x : (list PoolMember * option Monitor)%type |- _ => destruct x as [ms mon] end. inv_exec.
  match goal with Hf : foldM (observePool _ _ _) _ _ = Ok ?o |- _ => rename o into pool;
    eapply (foldM_at_most_one _ (fun x => routePool x)) in Hf as [Hs Hpool]; [|apply observePool_ok] end.
  apply sort_slice_Forall in Hpool. rewrite (sort_slice_option _ _ _ Hs) in *.
  match goal with l : list observedRoutePolicy, Hp : exec (if _ then _ else _) ?t _ |- _ =>
    rename l into policies, t into tp, Hp into Hpol end.
  match goal with Hc : exec (match pool with Some _ => _ | None => _ end) ?t _ |- _ =>
    rename t into tc, Hc into Hch end.
  assert (Forall (showsRouteOwned p identity) tp /\ Forall (rulesObserved tp) policies /\
    (ListenerID gateway = "" -> policies = []) /\
    (ListenerID gateway <> "" -> exists items, Listed (ReqListPolicies (listBy (ListenerID gateway) (p_projectID p))) items ∈ tp /\
       op_policy <$> policies = sort_slice byPosition items) /\
    (Forall identified tp -> NoDup (op_role <$> policies) /\ Forall (fun o => NoDup (or_role <$> op_rules o)) policies))
    as (Hp1 & Hp2 & Hp3 & Hp4 & Hp5).
  { destruct (String.eqb_spec (ListenerID gateway) ""); cbn [negb] in Hpol.
    - inv_exec. split_and!; [constructor|constructor|done|done|]. intros _. split; constructor.
    - apply observeRoutePolicies_ok in Hpol as (? & ? & ? & ?). by split_and!. }
  assert (Forall (showsRouteOwned p identity) tc /\ (pool = None -> ms = [] /\ mon = None) /\
    (forall x, pool = Some x -> (exists members, Listed (ReqListMembers (pl_ID x) (listBy "" (p_projectID p))) members ∈ tc /\
        Forall2 shownMember (sort_slice byEndpoint members) ms) /\
      Listed (ReqListMonitors (listBy (pl_ID x) (p_projectID p))) (match mon with Some y => [y] | None => [] end) ∈ tc) /\
    (Forall identified tc -> NoDup (poolMemberKey <$> ms))) as (Hc1 & Hc2 & Hc3 & Hc4).
  { destruct pool as [x'|].
    - apply observeRoutePoolChildren_ok in Hch as (? & ? & ? & ?). split_and!; [done|done| |done].
      intros ? [= <-]. done.
    - inv_exec. split_and!; [constructor|done|done|]. intros _. constructor. }
  split_and!.
  - cbn [app]. rewrite app_nil_r. apply Forall_cons_2; [exact Hpool|]. by apply Forall_app.
  - exact Hc2.
  - cbn [og_pool og_members og_monitor og_policies]. split; [by left|]. split_and!.
    + intros x' Hx'. destruct (Hc3 x' Hx') as [(members & ? & ?) ?]. split; [exists members; split; [set_solver|done]|set_solver].
    + exact Hc2.
    + done.
    + intros Hne. destruct (Hp4 Hne) as (items & ? & ?). exists items. set_solver.
    + eapply Forall_impl; [exact Hp2|]. intros o. apply rulesObserved_mono. set_solver.
  - cbn [app]. rewrite app_nil_r. intros [_ [Ht1 Ht2]%Forall_app]%Forall_cons.
    destruct (Hp5 Ht2). split_and!; [by apply Hc4|done|done].
Qed.
End observe.

(** ** The request of a step *)

(** The request [executeRouteMutation] sends for a step. *)
Definition routeRequest (desired : desiredRoute) (step : routeMutation) (q : request) : Prop :=
  let identity := d_identity desired in
  let spec := d_spec desired in
  match rm_kind step, q with
  | routeMutationCreatePool, ReqCreatePool opts =>
      RouteTags identity RolePool = Ok (cpl_Tags opts) /\
      cpl_LoadbalancerID opts = LoadBalancerID (rs_Gateway spec) /\ cpl_Protocol opts = ProtocolHTTP
  | routeMutationUpdatePool, ReqUpdatePool id opts => id = rm_id step
  | routeMutationDeleteMember, ReqDeleteMember pool id => pool = rm_parentID step /\ id = rm_id step
  | routeMutationCreateMember, ReqCreateMember pool opts =>
      pool = rm_parentID step /\ RouteTags identity RoleMember = Ok (cmb_Tags opts) /\
      mkMember (cmb_Address opts) (cmb_ProtocolPort opts) = rm_member step /\
      cmb_SubnetID opts = rs_MemberSubnetID spec
  | routeMutationUpdateMember, ReqUpdateMember pool id up =>
      pool = rm_parentID step /\ id = rm_id step /\ up = Some true
  | routeMutationCreateMonitor, ReqCreateMonitor opts =>
      cmn_PoolID opts = rm_parentID step /\ RouteTags identity RoleMonitor = Ok (cmn_Tags opts) /\
      cmn_URLPath opts = d_healthPath desired
  | routeMutationUpdateMonitor, ReqUpdateMonitor id opts =>
      id = rm_id step /\ umn_URLPath opts = d_healthPath desired
  | routeMutationDisablePolicy, ReqUpdatePolicy id opts =>
      id = rm_id step /\ ulp_AdminStateUp opts = Some false
  | routeMutationDeleteRule, ReqDeleteRule policy id => policy = rm_parentID step /\ id = rm_id step
  | routeMutationDeletePolicy, ReqDeletePolicy id => id = rm_id step
  | routeMutationCreatePolicy, ReqCreatePolicy opts =>
      RouteTags identity (dpo_role (rm_policy step)) = Ok (clp_Tags opts) /\
      clp_ListenerID opts = ListenerID (rs_Gateway spec) /\ clp_RedirectPoolID opts = rm_parentID step /\
      clp_AdminStateUp opts = Some false
  | routeMutationUpdatePolicy, ReqUpdatePolicy id opts =>
      id = rm_id step /\ ulp_AdminStateUp opts = Some false /\ ulp_RedirectPoolID opts = Some (rm_parentID step)
  | routeMutationCreateRule, ReqCreateRule policy opts =>
      policy = rm_parentID step /\ RouteTags identity (dr_role (rm_rule step)) = Ok (clr_Tags opts) /\
      clr_Value opts = dr_value (rm_rule step)
  | routeMutationUpdateRule, ReqUpdateRule policy id opts =>
      policy = rm_parentID step /\ id = rm_id step /\ ulr_Value opts = dr_value (rm_rule step)
  | routeMutationEnablePolicy, ReqUpdatePolicy id opts =>
      id = rm_id step /\ ulp_AdminStateUp opts = Some true
  | routeMutationDeleteMonitor, ReqDeleteMonitor id => id = rm_id step
  | routeMutationDeletePool, ReqDeletePool id => id = rm_id step
  | _, _ => False
  end.

Section execute.
Context `{Gophercloud} (p : Provider).

Lemma settle_exec step m tr r : exec (settle step m) tr r -> exists r', exec m tr r'.
Proof.
  unfold settle, try. intros (t1 & t2 & r' & -> & H1 & [-> _])%exec_bind. rewrite app_nil_r. eauto.
Qed.

Lemma discard_exec q tr r : exec (discard (call q)) tr r -> exists x, tr = [Ev q x].
Proof.
  unfold discard. intros [(e & -> & ->%exec_call)|(t1 & t2 & a & -> & ->%exec_call & [-> _])]%exec_mbind; eauto.
Qed.

(** At most one request, and it is the one for the step. *)
Lemma executeRouteMutation_exec desired step tr r :
  exec (executeRouteMutation desired step) tr r ->
  tr = [] \/ exists q x, tr = [Ev q x] /\ routeRequest desired step q.
Proof.
  unfold executeRouteMutation, routeRequest. cbv zeta. intros H0.
  assert (forall {A} (m : outcome_of A) f t, exec (mbind (lift m) f) t r ->
    (exists e, r = Err e /\ t = []) \/ exists a, m = Ok a /\ exec (f a) t r) as Hlift.
  { intros A m f t [(e & -> & [-> _]%exec_lift)|(t1 & t2 & a & -> & [-> Ha]%exec_lift & Hf)]%exec_mbind; eauto. }
  destruct (rm_kind step);
    try (apply Hlift in H0 as [(e & _ & ->)|(tags & Ht & H0)]; [by left|]);
    try (apply exec_raise in H0 as [-> _]; by left);
    apply settle_exec in H0 as [r' H0];
    right; (apply discard_exec in H0 as [x ->] || (apply exec_call in H0 as ->));
    match goal with |- exists q x, [Ev ?q0 ?x0] = _ /\ _ => exists q0, x0 end;
    (split; [reflexivity|]); cbn; try done; split_and!; try done.
  by destruct (rm_member step).
Qed.
End execute.

(** ** The Gateway of a route *)

Section gateway.
Context `{Gophercloud} (p : Provider) (identity : Identity).

(** The load balancer and the listener behind an observed Gateway. *)
Definition gatewayBehind (req : option GatewayRequirements) (tr : list event)
    (g : routeGatewayObservation) (listener : option Listener) : Prop :=
  exists id lb,
    Ev (ReqGetLoadBalancer id) (Ok lb) ∈ tr /\ ownedLoadBalancer p identity lb /\
    lb_ProvisioningStatus lb = "ACTIVE" /\
    LoadBalancerID (rg_state g) = lb_ID lb /\ VIPPortID (rg_state g) = lb_VipPortID lb /\
    Listed (ReqListListeners (listBy (lb_ID lb) (p_projectID p)))
      (match listener with Some l => [l] | None => [] end) ∈ tr /\
    match req with
    | Some r => lb_Provider lb = gr_Provider r /\ lb_VipSubnetID lb = gr_VIPSubnetID r
    | None => True
    end /\
    match listener with
    | Some l => ListenerID (rg_state g) = ls_ID l /\ ls_Protocol l = ProtocolHTTP /\
        rg_loadBalancerAdminStateUp g = lb_AdminStateUp lb /\ rg_listenerAdminStateUp g = ls_AdminStateUp l /\
        match req with Some r => ls_ProtocolPort l = gr_ListenerPort r | None => True end
    | None => ListenerID (rg_state g) = ""
    end.

Lemma observeActiveRouteGateway_ok req need lb tr g id :
  exec (observeActiveRouteGateway p identity req need lb) tr (Ok (Some g)) ->
  isProgressing (rg_outcome g) = false -> lb_ProvisioningStatus lb = "ACTIVE" ->
  ownedLoadBalancer p identity lb /\ Forall (showsRouteOwned p identity) tr /\ rg_outcome g = ReadyOutcome /\
  exists listener, (need = true -> is_Some listener) /\
    forall t0, Ev (ReqGetLoadBalancer id) (Ok lb) ∈ t0 -> gatewayBehind req (t0 ++ tr) g listener.
Proof.
  unfold observeActiveRouteGateway. intros H0 Hq Hact. inv_exec.
  match goal with Hp : validateLoadBalancerProject _ _ _ = _ |- _ => apply validateLoadBalancerProject_ok in Hp end.
  destruct (MatchesGateway _ _ _) eqn:Em; cbn [negb] in *; [|by inv_exec].
  assert (ownedLoadBalancer p identity lb) as Hown by by split.
  match goal with Hx : exec (if ?b then _ else _) _ _ |- _ => destruct b eqn:Ereq; [by inv_exec|] end.
  inv_exec.
  assert (match req with Some r => lb_Provider lb = gr_Provider r /\ lb_VipSubnetID lb = gr_VIPSubnetID r
          | None => True end) as Hreq.
  { destruct req as [r|]; [|done]. by bool_hyps. }
  match goal with Hl : exec (findManagedGatewayListener _ _ _) _ (Ok ?o) |- _ =>
    apply findManagedGatewayListener_ok in Hl as [-> Hls]; destruct o as [l|] end.
  - destruct (String.eqb_spec (ls_Protocol l) ProtocolHTTP) as [Hhttp|]; cbn [negb] in *; [|by inv_exec].
    match goal with Hx : exec (match req with Some _ => _ | None => _ end) ?t _ |- _ => rename t into tl end.
    assert (g = mkRouteGateway (mkGatewayState (lb_ID lb) (lb_VipPortID lb) (lb_VipAddress lb) "" "" (ls_ID l))
        ReadyOutcome (lb_AdminStateUp lb) (ls_AdminStateUp l) /\
      match req with Some r => ls_ProtocolPort l = gr_ListenerPort r | None => True end /\ tl = [])
      as (-> & Hport & ->).
    { destruct req as [r|]; [|by inv_exec].
      destruct (Z.eqb_spec (ls_ProtocolPort l) (gr_ListenerPort r)); cbn [negb] in *; by inv_exec. }
    split_and!; [done|cbn [app]; apply Forall_singleton; by apply Forall_singleton|done|]. exists (Some l). split; [done|]. intros t0 Ht0.
    exists id, lb. cbn. split_and!; try done; set_solver.
  - destruct need; inv_exec. split_and!; [done|by repeat constructor|done|].
    exists None. split; [done|]. intros t0 Ht0. exists id, lb. cbn. split_and!; try done; set_solver.
Qed.

Lemma observeRouteGateway_ok req need tr g :
  exec (observeRouteGateway p identity req need) tr (Ok (Some g)) ->
  isProgressing (rg_outcome g) = false ->
  Forall (showsRouteOwned p identity) tr /\ rg_outcome g = ReadyOutcome /\
  exists listener, (need = true -> is_Some listener) /\ gatewayBehind req tr g listener.
Proof.
  unfold observeRouteGateway. intros H0 Hq. inv_exec.
  match goal with Hl : exec (findGatewayLoadBalancer _ _) _ (Ok ?o) |- _ =>
    destruct o as [lb|]; [apply findGatewayLoadBalancer_some in Hl as (tags & -> & _ & Hproj)|by inv_exec] end.
  destruct (MatchesGateway _ _ _) eqn:Em; cbn [negb] in *; [|by inv_exec]. inv_exec.
  match goal with o : loadBalancerObservation |- _ => destruct o as [lb'|lb' o'|] end; inv_exec.
  - match goal with Hl : exec (observeLoadBalancerOnce _ _) _ _ |- _ =>
      apply observeLoadBalancerOnce_active in Hl as [-> Hact] end.
    match goal with Hl : exec (observeActiveRouteGateway _ _ _ _ _) _ _ |- _ =>
      apply (observeActiveRouteGateway_ok _ _ _ _ _ (lb_ID lb)) in Hl as (Hown & Hall & Ho & l & Hl & Hb);
      [|done|done] end.
    split_and!; [|done|].
    + cbn [app]. apply Forall_cons_2; [by apply Forall_singleton|]. by apply Forall_cons_2.
    + exists l. split; [done|]. rewrite app_assoc. apply Hb. set_solver.
  - match goal with Hl : exec (observeLoadBalancerOnce _ _) _ _ |- _ =>
      apply observeLoadBalancerOnce_pending in Hl as [_ Hp] end. cbn in Hq. congruence.
Qed.
End gateway.

(** ** EnsureRoute and DeleteRoute *)

Section top.
Context `{Gophercloud} (p : Provider).

(** What a change by [EnsureRoute] is based on: an owned graph, observed in
    this call, whose plan starts with the change; or, when the graph is
    already the desired one, the administrative state of the Gateway. *)
Definition plannedChange (spec : RouteSpec) (tr : list event) (m : request) : Prop :=
  Forall (showsRouteOwned p (rs_Identity spec)) tr /\
  exists desired gateway listener actual, buildDesiredRoute p spec = Ok desired /\
    gatewayBehind p (rs_Identity spec) (Some (rs_GatewayRequirements spec)) tr gateway (Some listener) /\
    let gw := rg_state gateway in
    graphObserved p (rs_Identity spec) tr gw actual /\
    (Forall identified tr -> uniqueKeys (withGateway desired gw) actual) /\
    ((exists step rest state, buildRouteEnsurePlan (withGateway desired gw) actual = Ok (step :: rest, state) /\
        routeRequest (withGateway desired gw) step m) \/
     (exists state, buildRouteEnsurePlan (withGateway desired gw) actual = Ok ([], state) /\
        (m = ReqUpdateListener (ListenerID gw) (Some true) \/
         m = ReqUpdateLoadBalancer (LoadBalancerID gw) (Some true)))).

Lemma gatewayBehind_mono identity req tr tr' g l :
  tr ⊆ tr' -> gatewayBehind p identity req tr g l -> gatewayBehind p identity req tr' g l.
Proof. intros Ht (id & lb & H1 & H2). exists id, lb. split_and!; try apply H2; set_solver. Qed.

Lemma graphObserved_mono identity tr tr' gw g :
  tr ⊆ tr' -> graphObserved p identity tr gw g -> graphObserved p identity tr' gw g.
Proof.
  intros Ht (H1 & H2 & H3 & H3' & H4 & H5). split_and!; [set_solver| |done|done| |].
  - intros pool Hp. destruct (H2 pool Hp) as [(ms & ? & ?) ?]. split; [exists ms; split; [set_solver|done]|set_solver].
  - intros Hne. destruct (H4 Hne) as (items & ? & ?). exists items. set_solver.
  - eapply Forall_impl; [exact H5|]. intros o. by apply rulesObserved_mono.
Qed.

(** The requests of [repairRouteGatewayAdminState]. *)
Lemma repair_last P identity req gateway tr r :
  exec (repairRouteGatewayAdminState p identity req gateway) tr r ->
  (forall t, mutations t = [] -> Forall (showsRouteOwned p identity) t ->
     P t (ReqUpdateListener (ListenerID (rg_state gateway)) (Some true)) /\
     P t (ReqUpdateLoadBalancer (LoadBalancerID (rg_state gateway)) (Some true))) ->
  LastMutation P tr.
Proof.
  unfold repairRouteGatewayAdminState. intros H0 HP.
  destruct (_ && _); [apply exec_ret in H0 as [-> _]; apply LastMutation_nil|].
  eapply LastMutation_mbind; [exact H0|apply _|]. clear H0 tr. intros t1 ready t2 H1 H2.
  assert (Forall (showsRouteOwned p identity) t1) as Ht1.
  { unfold gatewayFloatingIPReadyForTraffic in H1. inv_exec.
    match goal with Hl : exec (listGatewayFloatingIPs _ _ _) _ _ |- _ =>
      apply listGatewayFloatingIPs_ok in Hl as (items & -> & -> & Hf) end.
    assert (x0 = []) as ->.
    { match goal with Hx : exec (if _ then _ else _) _ _ |- _ => revert Hx end.
      destruct (String.eqb _ ""); [by intros [-> _]%exec_ret|].
      destruct (sort_slice _ items) as [|f [|]]; [by intros [-> _]%exec_ret| |by intros [-> _]%exec_raise].
      destruct (String.eqb _ _); [by intros [-> _]%exec_ret|by intros [-> _]%exec_raise]. }
    by apply Forall_singleton. }
  destruct (HP t1) as [HP1 HP2]; [|done|].
  { eapply (gatewayFloatingIPReadyForTraffic_ReadOnly p); exact H1. }
  destruct ready; cbn [negb] in H2; [|apply exec_ret in H2 as [-> _]; apply LastMutation_nil].
  unfold enableListener, enableLoadBalancer in H2.
  assert (forall q g (b : Outcome * bool) t, exec (let! _ := (let! _ := onError g (call q) in ret tt) in ret b) t r ->
    exists x, t = [Ev q x]) as Hone.
  { intros q g b t [(e & -> & Hx)|(ta & tb & [] & -> & Hx & [-> _])]%exec_mbind; [|rewrite app_nil_r];
      (apply onError_call_then in Hx; [done|]; intros; by match goal with Hr : exec (ret _) _ _ |- _ => apply exec_ret in Hr as [-> _] end). }
  destruct (rg_listenerAdminStateUp gateway); cbn [negb] in H2;
    apply Hone in H2 as [x ->]; apply LastMutation_single; intros _; by rewrite app_nil_r.
Qed.

Lemma executeRouteStep_last {B} P desired step (b : B) tr r :
  exec (let! _ := executeRouteMutation desired step in ret b) tr r ->
  (forall q, routeRequest desired step q -> P [] q) -> LastMutation P tr.
Proof.
  intros H0 HP. assert (exists r', exec (executeRouteMutation desired step) tr r') as [r' H1].
  { apply exec_mbind in H0 as [(e & -> & H1)|(t1 & t2 & [] & -> & H1 & [-> _])]; [|rewrite app_nil_r]; eauto. }
  apply executeRouteMutation_exec in H1 as [->|(q & x & -> & Hq)]; [apply LastMutation_nil|].
  apply LastMutation_single. auto.
Qed.

Lemma repair_Transition identity req gateway :
  Transition (fun x => negb (snd x)) (repairRouteGatewayAdminState p identity req gateway).
Proof. unfold repairRouteGatewayAdminState, enableListener, enableLoadBalancer. observe; mutate. Qed.

Lemma desired_uniqueKeys spec desired gw tr g :
  buildDesiredRoute p spec = Ok desired ->
  (Forall identified tr -> NoDup (poolMemberKey <$> og_members g) /\ NoDup (op_role <$> og_policies g) /\
     Forall (fun o => NoDup (or_role <$> op_rules o)) (og_policies g)) ->
  Forall identified tr -> uniqueKeys (withGateway desired gw) g.
Proof.
  intros (_ & _ & Hp & _ & Hm & _)%buildDesiredRoute_ok Hg Ht. destruct (Hg Ht) as (? & ? & ?).
  split; try done. cbn. rewrite Hp. apply policiesFor_roles.
Qed.

Lemma withGateway_identity spec desired gw :
  buildDesiredRoute p spec = Ok desired -> d_identity (withGateway desired gw) = rs_Identity spec.
Proof. intros (Hi & _)%buildDesiredRoute_ok. exact Hi. Qed.

Lemma ensureObservedRoute_planned spec desired gateway listener t0 tr r :
  exec (ensureObservedRoute p desired gateway) tr r -> buildDesiredRoute p spec = Ok desired ->
  Forall (showsRouteOwned p (rs_Identity spec)) t0 ->
  gatewayBehind p (rs_Identity spec) (Some (rs_GatewayRequirements spec)) t0 gateway (Some listener) ->
  LastMutation (fun t => plannedChange spec (t0 ++ t)) tr.
Proof.
  unfold ensureObservedRoute. cbv zeta. intros H0 Hd Ht0 Hb.
  destruct (gatewayIDsDiffer _ _); [apply exec_raise in H0 as [-> _]; apply LastMutation_nil|].
  rewrite (withGateway_identity _ _ _ Hd) in H0.
  eapply LastMutation_mbind; [exact H0|apply _|]. clear H0 tr. intros t1 actual t2 H1 H2.
  apply observeRouteGraph_ok in H1 as (Hown & _ & Hobs & Hkeys).
  eapply LastMutation_mbind; [exact H2|solve_readonly|]. clear H2 t2. intros t1' [plan state] t2 H1 H2.
  apply exec_lift in H1 as [-> Hplan]. symmetry in Hplan. cbn [app].
  assert (forall t m, Forall (showsRouteOwned p (rs_Identity spec)) t ->
    ((exists step rest state, buildRouteEnsurePlan (withGateway desired (rg_state gateway)) actual = Ok (step :: rest, state) /\
        routeRequest (withGateway desired (rg_state gateway)) step m) \/
     (exists state, buildRouteEnsurePlan (withGateway desired (rg_state gateway)) actual = Ok ([], state) /\
        (m = ReqUpdateListener (ListenerID (rg_state gateway)) (Some true) \/
         m = ReqUpdateLoadBalancer (LoadBalancerID (rg_state gateway)) (Some true)))) ->
    plannedChange spec (t0 ++ t1 ++ t) m) as Hchange.
  { intros t m Ht Hm. split; [by rewrite !Forall_app|]. exists desired, gateway, listener, actual. cbv zeta.
    split_and!; [done| | | |done].
    - eapply gatewayBehind_mono; [|exact Hb]. set_solver.
    - eapply graphObserved_mono; [|exact Hobs]. set_solver.
    - rewrite !Forall_app. intros (_ & Hi & _). by eapply desired_uniqueKeys. }
  destruct plan as [|step rest].
  - eapply (LastMutation_stage (fun x => negb (snd x))); [exact H2| | | |].
    + apply repair_Transition.
    + intros t a Hx. eapply repair_last; [exact Hx|]. intros t' _ Ht'. split; apply Hchange; eauto 6.
    + intros [o []] [=]. by eexists.
    + intros t [o b] t' _ _ Hx. destruct b; apply exec_ret in Hx as [-> _]; apply LastMutation_nil.
  - eapply executeRouteStep_last; [exact H2|]. intros q Hq. apply Hchange; [constructor|]. left. eauto 6.
Qed.

Lemma EnsureRoute_last spec tr r :
  exec (EnsureRoute p spec) tr r -> LastMutation (plannedChange spec) tr.
Proof.
  unfold EnsureRoute. intros (r' & H0 & _)%exec_onError. clear r.
  eapply LastMutation_mbind; [exact H0|solve_readonly|]. clear H0 tr. intros t1 desired t2 H1 H2.
  apply exec_lift in H1 as [-> Hd]. symmetry in Hd. cbn [app].
  pose proof (buildDesiredRoute_ok _ _ _ Hd) as (Hid & Hspec & _).
  eapply LastMutation_mbind; [exact H2|solve_readonly|]. clear H2 t2. intros t1 found t2 H1 H2.
  destruct found as [gateway|]; [|apply exec_ret in H2 as [-> _]; apply LastMutation_nil].
  destruct (isProgressing (rg_outcome gateway)) eqn:Eo; [apply exec_ret in H2 as [-> _]; apply LastMutation_nil|].
  inv_exec. rewrite Hid, Hspec in H1. apply observeRouteGateway_ok in H1 as (Hown & _ & l & Hl & Hb); [|done].
  destruct Hl as [listener ->]; [done|]. by eapply ensureObservedRoute_planned.
Qed.


(** Requests that let traffic reach the route. *)
Definition enablesTraffic (m : request) : bool :=
  match m with
  | ReqUpdatePolicy _ opts => bool_decide (ulp_AdminStateUp opts = Some true)
  | ReqCreatePolicy opts => negb (bool_decide (clp_AdminStateUp opts = Some false))
  | ReqUpdateListener _ up | ReqUpdateLoadBalancer _ up => bool_decide (up = Some true)
  | _ => false
  end.

(** C10. A request of EnsureRoute that lets traffic in (activating a policy, the
    listener or the load balancer) is issued only when the pool with its members
    and monitor and all policies with their rules were observed to be the
    desired ones, every listed member, policy and rule among them; provided
    OpenStack gives every member, policy and rule it lists an ID. *)
Theorem EnsureRoute_enables_traffic_last spec tr r m :
  exec (EnsureRoute p spec) tr r -> Forall identified tr -> m ∈ mutations tr -> enablesTraffic m = true ->
  exists desired gateway listener actual pool, buildDesiredRoute p spec = Ok desired /\
    gatewayBehind p (rs_Identity spec) (Some (rs_GatewayRequirements spec)) tr gateway (Some listener) /\
    let gw := rg_state gateway in
    graphObserved p (rs_Identity spec) tr gw actual /\
    og_pool actual = Some pool /\
    poolInPlace (withGateway desired gw) pool (og_members actual) (og_monitor actual) /\
    policiesInPlace (withGateway desired gw) (pl_ID pool) (og_policies actual).
Proof.
  intros H0 Hi Hm He. apply EnsureRoute_last in H0 as [Hn|(tr0 & q & x & -> & Hmut & Hq & Hplan)].
  { rewrite Hn in Hm. set_solver. }
  rewrite mutations_app, Hmut, mutations_cons in Hm. cbn [ev_req] in Hm. rewrite Hq in Hm.
  apply list_elem_of_singleton in Hm as ->. apply Forall_app in Hi as [Hi _].
  destruct Hplan as (_ & desired & gateway & listener & actual & Hd & Hb & Hobs & Hu & Hplan). specialize (Hu Hi).
  set (gw := rg_state gateway) in *. cbv zeta.
  assert (exists pool, og_pool actual = Some pool /\
    poolInPlace (withGateway desired gw) pool (og_members actual) (og_monitor actual) /\
    policiesInPlace (withGateway desired gw) (pl_ID pool) (og_policies actual)) as (pool & Hpool & Hin & Hpol).
  { destruct Hplan as [(step & rest & state & Hp & Hr)|(state & Hp & _)].
    - destruct (ensure_plan_head _ _ _ _ _ Hu Hp) as [Hk|[[Hk1 Hk2]|[(Hk & _)|(Hk & Hc & _ & Hpol & _)]]].
      + exfalso. unfold routeRequest in Hr. rewrite Hk in Hr. destruct q; try done.
        destruct Hr as [_ Hr]. simpl in He. rewrite Hr in He. done.
      + exfalso. unfold routeRequest in Hr. destruct (rm_kind step), q; try done.
        destruct Hr as [_ Hr]. simpl in He. by rewrite Hr in He.
      + exfalso. unfold routeRequest in Hr. destruct (rm_kind step), q; try done;
          [destruct Hr as (_ & _ & _ & Hr)|destruct Hr as (_ & Hr & _)]; simpl in He; by rewrite Hr in He.
      + destruct Hc as (pool & Hpool & Hin). exists pool. split_and!; [done|done|by apply Hpol].
    - apply ensure_plan_nil in Hp; [|done]. destruct Hp as [Hp _]. destruct Hp as (pool & ? & ? & ? & _); [done|]. by exists pool. }
  exists desired, gateway, listener, actual, pool. cbv zeta. split_and!; [done| | |done..].
  - eapply gatewayBehind_mono; [|exact Hb]. set_solver.
  - eapply graphObserved_mono; [|exact Hobs]. set_solver.
Qed.

(** A ready route: the graph is the desired one, and the load balancer and
    the listener in front of it are enabled. *)
Definition routeInPlace (spec : RouteSpec) (tr : list event) : Prop :=
  exists desired gateway actual listener,
    buildDesiredRoute p spec = Ok desired /\
    gatewayBehind p (rs_Identity spec) (Some (rs_GatewayRequirements spec)) tr gateway (Some listener) /\
    rg_loadBalancerAdminStateUp gateway = true /\ rg_listenerAdminStateUp gateway = true /\
    graphObserved p (rs_Identity spec) tr (rg_state gateway) actual /\
    converged (withGateway desired (rg_state gateway)) actual.

Lemma repair_ready identity req gateway tr o (repaired : bool) :
  exec (repairRouteGatewayAdminState p identity req gateway) tr (Ok (o, repaired)) ->
  if repaired then isProgressing o = true
  else tr = [] /\ rg_listenerAdminStateUp gateway = true /\ rg_loadBalancerAdminStateUp gateway = true.
Proof.
  unfold repairRouteGatewayAdminState. intros H0.
  destruct (_ && _) eqn:E; [inv_exec; by apply andb_true_iff in E|]. inv_exec.
  match goal with b : bool, Hx : exec (if negb ?b then _ else _) _ _ |- _ => destruct b; cbn [negb] in Hx end; [|by inv_exec].
  destruct (rg_listenerAdminStateUp gateway); cbn [negb] in *; by inv_exec.
Qed.

Lemma ensureObservedRoute_ready spec desired gateway tr result :
  exec (ensureObservedRoute p desired gateway) tr (Ok result) -> buildDesiredRoute p spec = Ok desired ->
  Forall identified tr -> isProgressing (r_Outcome result) = false ->
  r_Outcome result = ReadyOutcome /\ mutations tr = [] /\ Forall (showsRouteOwned p (rs_Identity spec)) tr /\
  rg_loadBalancerAdminStateUp gateway = true /\ rg_listenerAdminStateUp gateway = true /\
  exists actual, graphObserved p (rs_Identity spec) tr (rg_state gateway) actual /\
    converged (withGateway desired (rg_state gateway)) actual.
Proof.
  unfold ensureObservedRoute. cbv zeta. intros H0 Hd Hi Hq.
  destruct (gatewayIDsDiffer _ _); [by inv_exec|]. rewrite (withGateway_identity _ _ _ Hd) in H0. inv_exec.
  match goal with x : (list routeMutation * RouteState)%type |- _ => destruct x as [[|step rest] state] end; inv_exec.
  match goal with x : (Outcome * bool)%type |- _ => destruct x as [o repaired] end.
  match goal with Hx : exec (repairRouteGatewayAdminState _ _ _ _) _ _ |- _ => apply repair_ready in Hx as Hrep end.
  match goal with Hx : exec (observeRouteGraph _ _ _) _ _ |- _ =>
    pose proof (observeRouteGraph_ReadOnly _ _ _ _ _ Hx) as Hro;
    apply observeRouteGraph_ok in Hx as (Hown & _ & Hobs & Hkeys) end.
  destruct repaired; inv_exec; [cbn in Hq; congruence|]. destruct Hrep as (-> & Hls & Hlb).
  cbn [app] in *. rewrite app_nil_r in *. split_and!; try done.
  match goal with a : observedRouteGraph |- _ => exists a end. split; [done|].
  eapply ensure_plan_nil; [|eassumption|done]. by eapply desired_uniqueKeys.
Qed.

Lemma EnsureRoute_ready spec tr result :
  exec (EnsureRoute p spec) tr (Ok result) -> Forall identified tr ->
  isProgressing (r_Outcome result) = false ->
  mutations tr = [] /\ r_Outcome result = ReadyOutcome /\
  Forall (showsRouteOwned p (rs_Identity spec)) tr /\ routeInPlace spec tr.
Proof.
  intros H0 Hi Hq. unfold EnsureRoute in H0. inv_exec.
  match goal with Hx : buildDesiredRoute _ _ = Ok ?d |- _ => rename Hx into Hd, d into desired end.
  pose proof (buildDesiredRoute_ok _ _ _ Hd) as (Hid & Hspec & _).
  match goal with o : option routeGatewayObservation |- _ => destruct o as [gateway|] end; [|by inv_exec].
  destruct (isProgressing (rg_outcome gateway)) eqn:Eo; [inv_exec; cbn in Hq; congruence|].
  match goal with Hx : exec (observeRouteGateway _ _ _ _) _ _ |- _ => rewrite Hid, Hspec in Hx;
    pose proof (observeRouteGateway_ReadOnly _ _ _ _ _ _ Hx) as Hro;
    apply observeRouteGateway_ok in Hx as (Hown & _ & l & Hl & Hb); [|done] end.
  destruct Hl as [listener ->]; [done|].
  match goal with Hx : exec (ensureObservedRoute _ _ _) _ _ |- _ =>
    eapply ensureObservedRoute_ready in Hx as (Ho & Hm & Hown' & Hu1 & Hu2 & actual & Hobs & Hc);
    [|exact Hd|by rewrite !Forall_app in Hi; apply Hi|done] end.
  split_and!; [|done| |].
  - by rewrite !mutations_app, Hm, Hro.
  - rewrite !Forall_app. by split_and!.
  - exists desired, gateway, actual, listener. split_and!; try done.
    + eapply gatewayBehind_mono; [|exact Hb]. set_solver.
    + eapply graphObserved_mono; [|exact Hobs]. set_solver.
Qed.

(** C8. When EnsureRoute reports Ready, it has changed nothing, everything it
    was shown is owned by the route or its Gateway, and what it was shown is the
    desired graph: pool, members, monitor, policies and rules in place,
    policies, listener and load balancer enabled, with every listed member,
    policy and rule accounted for; provided OpenStack gives every member, policy
    and rule it lists an ID. *)
Theorem EnsureRoute_ready_sound spec tr result :
  exec (EnsureRoute p spec) tr (Ok result) -> Forall identified tr ->
  isProgressing (r_Outcome result) = false ->
  mutations tr = [] /\ r_Outcome result = ReadyOutcome /\
  Forall (showsRouteOwned p (rs_Identity spec)) tr /\ routeInPlace spec tr.
Proof. apply EnsureRoute_ready. Qed.

(** What a change by [DeleteRoute] is based on. *)
Definition plannedDeletion (identity : Identity) (tr : list event) (m : request) : Prop :=
  Forall (showsRouteOwned p identity) tr /\
  exists gateway listener actual desired step, gatewayBehind p identity None tr gateway listener /\
    graphObserved p identity tr (rg_state gateway) actual /\ deletableNow actual step /\
    d_identity desired = identity /\ routeRequest desired step m.

(** C15. Every change DeleteRoute makes is to a resource owned by the route and
    first disables its policies, then removes rules, policies, monitor, members
    and pool in that order: a deleted resource has none of the listed resources
    below it. *)
Theorem DeleteRoute_leaves_first id tr r :
  exec (DeleteRoute p id) tr r -> LastMutation (plannedDeletion id) tr.
Proof.
  unfold DeleteRoute. intros (r' & H0 & _)%exec_onError. clear r.
  eapply LastMutation_mbind; [exact H0|solve_readonly|]. clear H0 tr. intros t1 id' t2 H1 H2. inv_exec.
  apply provider_identity_ok in H1 as (-> & _).
  eapply LastMutation_mbind; [exact H2|solve_readonly|]. clear H2 t2. intros t1 found t2 H1 H2. inv_exec.
  destruct found as [gateway|]; [|apply exec_ret in H2 as [-> _]; apply LastMutation_nil].
  destruct (isProgressing (rg_outcome gateway)) eqn:Eo; [apply exec_ret in H2 as [-> _]; apply LastMutation_nil|].
  apply observeRouteGateway_ok in H1 as (Hown & _ & l & _ & Hb); [|done].
  eapply LastMutation_mbind; [exact H2|apply _|]. clear H2 t2. intros t2 actual t3 H1 H2.
  apply observeRouteGraph_ok in H1 as (Hown' & Hc & Hobs & _).
  eapply LastMutation_mbind; [exact H2|solve_readonly|]. clear H2 t3. intros t3 plan t4 H1 H2.
  apply exec_lift in H1 as [-> Hplan]. symmetry in Hplan.
  destruct (deletion_plan_cases actual Hc) as (plan' & Hplan' & Hcase).
  rewrite Hplan in Hplan'. injection Hplan' as <-.
  destruct plan as [|step rest]; [apply exec_ret in H2 as [-> _]; apply LastMutation_nil|].
  eapply executeRouteStep_last; [exact H2|]. intros q Hq. cbn [app]. rewrite app_nil_r.
  split; [by apply Forall_app|]. eexists gateway, l, actual, _, step. split_and!; [| |done| |exact Hq]; [| |done].
  - eapply gatewayBehind_mono; [|exact Hb]. set_solver.
  - eapply graphObserved_mono; [|exact Hobs]. set_solver.
Qed.

(** A finished deletion: the Gateway's load balancer is gone, or it was read and
    holds no pool, and its listener, if any, no policy. *)
Definition routeGone (id : Identity) (tr : list event) : Prop :=
  gatewayGone p id tr \/
  (exists gateway listener, gatewayBehind p id None tr gateway listener /\
     Listed (ReqListPools (listBy (LoadBalancerID (rg_state gateway)) (p_projectID p))) [] ∈ tr /\
     (ListenerID (rg_state gateway) <> "" ->
      Listed (ReqListPolicies (listBy (ListenerID (rg_state gateway)) (p_projectID p))) [] ∈ tr)).

Lemma observeActiveRouteGateway_some identity req need lb tr g :
  exec (observeActiveRouteGateway p identity req need lb) tr (Ok g) -> is_Some g.
Proof.
  unfold observeActiveRouteGateway. intros H0. inv_exec.
  destruct (negb _); [by inv_exec|]. match goal with Hx : exec (if ?b then _ else _) _ _ |- _ => destruct b end; inv_exec.
  match goal with o : option Listener |- _ => destruct o end.
  - destruct (negb _); [by inv_exec|]. destruct req; [destruct (negb _)|]; inv_exec; done.
  - destruct need; inv_exec; done.
Qed.

Lemma observeRouteGateway_none identity tr req need :
  exec (observeRouteGateway p identity req need) tr (Ok None) -> gatewayGone p identity tr.
Proof.
  unfold observeRouteGateway, gatewayGone. intros H0. inv_exec.
  match goal with Hl : exec (findGatewayLoadBalancer _ _) _ (Ok ?o) |- _ => destruct o as [lb|] end.
  - match goal with Hl : exec (findGatewayLoadBalancer _ _) _ _ |- _ =>
      apply findGatewayLoadBalancer_some in Hl as (tags & -> & Ht & _) end.
    destruct (MatchesGateway _ _ _) eqn:Em; cbn [negb] in *; [|by inv_exec]. inv_exec.
    match goal with o : loadBalancerObservation |- _ => destruct o as [lb'|lb' o'|] end; inv_exec.
    + match goal with Hx : exec (observeActiveRouteGateway _ _ _ _ _) _ _ |- _ =>
        by apply observeActiveRouteGateway_some in Hx as [? [=]] end.
    + match goal with Hl : exec (observeLoadBalancerOnce _ _) _ _ |- _ =>
        apply observeLoadBalancerOnce_absent in Hl as (e & -> & He) end.
      exists tags. split; [done|]. right. by exists lb, e.
  - inv_exec. match goal with Hl : exec (findGatewayLoadBalancer _ _) _ _ |- _ =>
      apply findGatewayLoadBalancer_none in Hl as (tags & Ht & ->) end. exists tags. split; [done|]. by left.
Qed.

(** When DeleteRoute reports Ready, which lets the route's finalizers go,
    it has changed nothing and OpenStack has shown that the load balancer is
    gone or that no pool and no policy is left below it. *)
Lemma DeleteRoute_ready_gone id tr o :
  exec (DeleteRoute p id) tr (Ok o) -> isProgressing o = false ->
  o = ReadyOutcome /\ mutations tr = [] /\ routeGone id tr.
Proof.
  unfold DeleteRoute. intros H0 Hq. inv_exec.
  match goal with Hx : provider_identity _ _ = _ |- _ => apply provider_identity_ok in Hx as (-> & _) end.
  match goal with Hx : exec (observeRouteGateway _ _ _ _) _ (Ok ?f) |- _ =>
    pose proof (observeRouteGateway_ReadOnly _ _ _ _ _ _ Hx) as Hro; rename Hx into Hgw; destruct f as [gateway|] end.
  - destruct (isProgressing (rg_outcome gateway)) eqn:Eo; [inv_exec; congruence|].
    apply observeRouteGateway_ok in Hgw as (_ & _ & l & _ & Hb); [|done]. inv_exec.
    match goal with Hx : exec (observeRouteGraph _ _ _) _ (Ok ?a) |- _ =>
      pose proof (observeRouteGraph_ReadOnly _ _ _ _ _ Hx) as Hro'; rename a into actual;
      apply observeRouteGraph_ok in Hx as (_ & Hc & Hobs & _) end.
    destruct (deletion_plan_cases actual Hc) as (plan & Hplan & Hcase).
    match goal with Hx : buildRouteDeletionPlan _ = Ok ?l |- _ => rewrite Hplan in Hx; injection Hx as <- end.
    destruct plan as [|step rest]; inv_exec. destruct Hcase as (Hp & _ & _ & Hpol).
    split_and!; [done|by rewrite !mutations_app, Hro, Hro'|]. right.
    destruct Hobs as (H1 & _ & _ & _ & H2 & _). rewrite Hp in H1. rewrite Hpol in H2.
    exists gateway, l. split_and!; [eapply gatewayBehind_mono; [|exact Hb]|..]; [set_solver|set_solver|].
    intros Hne. destruct (H2 Hne) as (items & Hi & Hs). symmetry in Hs.
    apply sort_slice_nil_inv in Hs as ->. set_solver.
  - inv_exec. split_and!; [done|by rewrite !mutations_app, Hro|].
    left. apply observeRouteGateway_none in Hgw. by rewrite app_nil_r.
Qed.
End top.
