(* ===== verification/RouteTermination.v ===== *)
(** * Deleting a route's graph terminates

    The caller repeats [DeleteRoute] until it reports Ready.  Every call that
    changes something removes one item of what it has listed: a resource of the
    route, or the enablement of a policy.  As long as nobody adds to the graph and
    what OpenStack has deleted is not listed again, the calls that change something
    are no more than the items that the first of them has listed. *)
From stdpp Require Import base list strings gmap sets.
From Stdlib Require Import ZArith Lia Sorted.
From S2P Require Import Prelude GoStrings Cloud Metadata OpenStack ProgramLogic GatewayGraph GatewayFacts RoutePlan RoutePlanFacts RouteGraph RouteFacts.

Set Default Goal Selector "!".

(** ** Work that a call sees *)

(** The kind of an item, the ID of its parent where that is part of its address,
    and its ID. *)
Abbreviation workItem := (string * string * string)%type.

(** The items in an answer: the resources, and the policies that are enabled. *)
Definition workIn (e : event) : list workItem :=
  match e with
  | Listed (ReqListPools _) items => (fun x => ("pool", "", pl_ID x)) <$> items
  | Listed (ReqListMembers pool _) items => (fun x => ("member", pool, mb_ID x)) <$> items
  | Listed (ReqListMonitors _) items => (fun x => ("monitor", "", mn_ID x)) <$> items
  | Listed (ReqListPolicies _) items =>
      ((fun x => ("policy", "", lp_ID x)) <$> items) ++
      ((fun x => ("enabled policy", "", lp_ID x)) <$> List.filter lp_AdminStateUp items)
  | Listed (ReqListRules policy _) items => (fun x => ("rule", policy, lr_ID x)) <$> items
  | _ => []
  end.
Definition work (tr : list event) : gset workItem := list_to_set (concat (workIn <$> tr)).

(** The item that a request removes. *)
Definition removes (m : request) : option workItem :=
  match m with
  | ReqDeletePool id => Some ("pool", "", id)
  | ReqDeleteMember pool id => Some ("member", pool, id)
  | ReqDeleteMonitor id => Some ("monitor", "", id)
  | ReqDeletePolicy id => Some ("policy", "", id)
  | ReqUpdatePolicy id opts =>
      if bool_decide (ulp_AdminStateUp opts = Some false) then Some ("enabled policy", "", id) else None
  | ReqDeleteRule policy id => Some ("rule", policy, id)
  | _ => None
  end.

Lemma work_elem tr w : w ∈ work tr <-> exists e, e ∈ tr /\ w ∈ workIn e.
Proof.
  unfold work. rewrite elem_of_list_to_set, list_elem_of_In, List.in_concat. setoid_rewrite <- list_elem_of_In.
  setoid_rewrite list_elem_of_fmap. naive_solver.
Qed.

Lemma work_mono tr tr' : tr ⊆ tr' -> work tr ⊆ work tr'.
Proof. intros Ht w. rewrite !work_elem. intros (e & He & Hw). exists e. auto. Qed.

Section deletion.
Context `{Gophercloud} (p : Provider).

(** OpenStack did what was asked, or the resource was already gone. *)
Definition succeeded {A} (x : outcome_of A) : Prop := match x with Ok _ => True | Err e => isNotFound e = true end.
Definition done_by (e : event) : Prop := succeeded (ev_resp e).

(** What may happen between two calls: items go away, and what a request of the
    first call has removed is not there in the second. *)
Definition undisturbed (tr tr' : list event) : Prop :=
  work tr' ⊆ work tr /\
  Forall (fun e => forall w, removes (ev_req e) = Some w -> done_by e -> w ∉ work tr') tr.

(** A step that may be taken first removes something that was listed. *)
Lemma deletable_work identity tr gw g desired step m :
  graphObserved p identity tr gw g -> deletableNow g step -> routeRequest desired step m ->
  exists w, removes m = Some w /\ w ∈ work tr.
Proof.
  intros (Hpool & Hchildren & Hnone & Hnopol & Hpol & Hrules) Hd Hm. unfold deletableNow, routeRequest in *. cbv zeta in *.
  setoid_rewrite work_elem.
  assert (forall o, o ∈ og_policies g -> exists items, Listed (ReqListPolicies (listBy (ListenerID gw) (p_projectID p))) items ∈ tr /\
    op_policy o ∈ items) as Hlisted.
  { intros o Ho. destruct (decide (ListenerID gw = "")) as [He|He]; [rewrite (Hnopol He) in Ho; by apply elem_of_nil in Ho|].
    destruct (Hpol He) as (items & Hi & Hs). exists items. split; [done|]. apply (sort_slice_elem byPosition).
    rewrite <- Hs. by apply list_elem_of_fmap_2. }
  destruct (rm_kind step), m; try done; cbn [removes].
  - (* member *)
    destruct Hm as [-> ->], Hd as (_ & _ & x & pool & Hx & Hid & Hp & Hpid).
    destruct (Hchildren pool Hp) as [(members & Hl & Hsh) _]. eexists. split; [done|]. eexists. split; [exact Hl|].
    apply list_elem_of_lookup in Hx as [i Hi]. destruct (Forall2_lookup_r _ _ _ _ _ Hsh Hi) as (y & Hy & Hxy).
    apply list_elem_of_lookup_2, sort_slice_elem in Hy. cbn. apply list_elem_of_fmap. exists y. split; [|done].
    destruct Hxy as (_ & _ & _ & E & _). congruence.
  - (* disabling *)
    destruct Hm as [-> Hup], Hd as (o & Ho & Hid & Hen). rewrite bool_decide_true by done.
    destruct (Hlisted o Ho) as (items & Hl & Hin). eexists. split; [done|]. eexists. split; [exact Hl|].
    cbn. apply elem_of_app. right. apply list_elem_of_fmap. exists (op_policy o). split; [congruence|].
    apply list_elem_of_In, List.filter_In. split; [by apply list_elem_of_In|done].
  - (* rule *)
    destruct Hm as [-> ->], Hd as (_ & o & x & Ho & Hx & Hpid & Hid). rewrite Forall_forall in Hrules.
    destruct (Hrules o Ho) as (_ & _ & rules & Hl & Hs). eexists. split; [done|]. eexists. split; [exact Hl|].
    cbn. apply list_elem_of_fmap. exists (or_rule x). split; [congruence|]. apply (sort_slice_elem (byID lr_ID)).
    rewrite <- Hs. by apply list_elem_of_fmap_2.
  - (* policy *)
    subst id. destruct Hd as (_ & _ & o & Ho & Hid). destruct (Hlisted o Ho) as (items & Hl & Hin).
    eexists. split; [done|]. eexists. split; [exact Hl|]. cbn. apply elem_of_app. left.
    apply list_elem_of_fmap. exists (op_policy o). split; [congruence|done].
  - (* monitor *)
    subst id. destruct Hd as (_ & x & Hx & Hid). destruct (og_pool g) as [pool|] eqn:Hp.
    2: { destruct (Hnone eq_refl) as [_ Hn]. congruence. }
    destruct (Hchildren pool eq_refl) as [_ Hl]. rewrite Hx in Hl. eexists. split; [done|]. eexists.
    split; [exact Hl|]. cbn. rewrite Hid. by left.
  - (* pool *)
    subst id. destruct Hd as (_ & _ & _ & pool & Hp & Hid). rewrite Hp in Hpool. eexists. split; [done|]. eexists.
    split; [exact Hpool|]. cbn. rewrite Hid. by left.
Qed.

(** A step that was executed without an error was done. *)
Lemma executeRouteMutation_done desired step tr :
  exec (executeRouteMutation desired step) tr (Ok tt) ->
  tr = [] \/ exists q x, tr = [Ev q x] /\ routeRequest desired step q /\ done_by (Ev q x).
Proof.
  intros Hx. pose proof Hx as [->|(q & x & -> & Hq)]%executeRouteMutation_exec; [by left|right].
  exists q, x. split; [done|]. split; [done|].
  assert (forall m t, exec (settle step m) t (Ok tt) -> exists y, exec m t y /\ succeeded y) as Hsettle.
  { intros m t. unfold settle, try. intros (t1 & t2 & y & -> & Hm & [-> Hy])%exec_bind. rewrite app_nil_r.
    exists y. split; [done|]. destruct y as [|e]; [done|]. cbn. by destruct (isNotFound e). }
  assert (forall q' t, (exists y, exec (call q') t y /\ succeeded y) -> t = [Ev q x] -> done_by (Ev q x)) as Hcall.
  { intros q' t (y & ->%exec_call & Hd) Hy. apply (f_equal (default (Ev q x) ∘ head)) in Hy. cbn in Hy. by rewrite <- Hy. }
  assert (forall q' t, (exists y, exec (discard (call q')) t y /\ succeeded y) -> t = [Ev q x] ->
    done_by (Ev q x)) as Hdiscard.
  { intros q' t (y & Hy & Hd) Ht. eapply (Hcall q'); [|exact Ht]. unfold discard in Hy.
    apply exec_mbind in Hy as [(e & -> & Hy)|(t1 & t2 & a & -> & Hy & [-> _]%exec_ret)]; [by exists (Err e)|].
    rewrite app_nil_r. by exists (Ok a). }
  unfold executeRouteMutation in Hx. cbv zeta in Hx. remember [Ev q x] as t.
  destruct (rm_kind step); inv_exec;
    match goal with Hs : exec (settle _ _) _ _ |- _ =>
      apply Hsettle in Hs; first
        [ exact (Hdiscard _ _ Hs eq_refl)
        | exact (Hcall (ReqDeleteMember _ _) _ Hs eq_refl) | exact (Hcall (ReqDeleteRule _ _) _ Hs eq_refl)
        | exact (Hcall (ReqDeletePolicy _) _ Hs eq_refl) | exact (Hcall (ReqDeleteMonitor _) _ Hs eq_refl)
        | exact (Hcall (ReqDeletePool _) _ Hs eq_refl) ] end.
Qed.

(** A call that changes something has removed an item that it had listed. *)
Lemma DeleteRoute_removes id tr o :
  exec (DeleteRoute p id) tr (Ok o) ->
  mutations tr = [] \/
  exists e w, e ∈ tr /\ done_by e /\ removes (ev_req e) = Some w /\ w ∈ work tr.
Proof.
  unfold DeleteRoute. intros H0. inv_exec.
  match goal with Hx : provider_identity _ _ = _ |- _ => apply provider_identity_ok in Hx as (-> & _) end.
  match goal with Hx : exec (observeRouteGateway _ _ _ _) _ (Ok ?f) |- _ =>
    pose proof (observeRouteGateway_ReadOnly _ _ _ _ _ _ Hx) as Hro; destruct f as [gateway|] end;
    [|inv_exec; left; by rewrite !mutations_app, Hro].
  destruct (isProgressing (rg_outcome gateway)); inv_exec; [left; by rewrite !mutations_app, Hro|].
  match goal with Hx : exec (observeRouteGraph _ _ _) _ (Ok ?a) |- _ =>
    pose proof (observeRouteGraph_ReadOnly _ _ _ _ _ Hx) as Hro'; rename a into actual;
    apply observeRouteGraph_ok in Hx as (_ & Hc & Hobs & _) end.
  destruct (deletion_plan_cases actual Hc) as (plan & Hplan & Hcase).
  match goal with Hx : buildRouteDeletionPlan _ = Ok ?l |- _ => rewrite Hplan in Hx; injection Hx as <- end.
  destruct plan as [|step rest]; inv_exec; [left; by rewrite !mutations_app, Hro, Hro'|].
  match goal with Hx : exec (executeRouteMutation _ _) _ _ |- _ =>
    apply executeRouteMutation_done in Hx as [->|(q & y & -> & Hq & Hy)] end; [left; by rewrite !mutations_app, Hro, Hro'|right].
  destruct (deletable_work _ _ _ _ _ _ _ Hobs Hcase Hq) as (w & Hw & Hin). exists (Ev q y), w.
  split_and!; [set_solver|done|done|]. eapply work_mono; [|exact Hin]. set_solver.
Qed.

Lemma undisturbed_smaller tr tr' e w :
  e ∈ tr -> done_by e -> removes (ev_req e) = Some w -> w ∈ work tr -> undisturbed tr tr' -> size (work tr') < size (work tr).
Proof.
  intros He Hd Hr Hw [Hsub Hgone]. rewrite Forall_forall in Hgone. specialize (Hgone e He w Hr Hd).
  apply subset_size. set_solver.
Qed.

(** C32. Repeated deletion of a route's graph terminates: of any sequence of
    successful calls of DeleteRoute that change something there are at most as
    many as the first has listed resources and enabled policies, provided that
    from each call to the next nothing is added to what is listed and nothing
    that was successfully removed is listed again; and a call that neither
    changes anything nor reports progress has shown that nothing of the route is
    left. *)
Theorem route_deletion_terminates id tr rest :
  Forall (fun t => mutations t <> [] /\ exists o, exec (DeleteRoute p id) t (Ok o)) (tr :: rest) ->
  Sorted undisturbed (tr :: rest) ->
  length (tr :: rest) <= size (work tr) /\
  forall t o, exec (DeleteRoute p id) t (Ok o) -> mutations t = [] -> isProgressing o = false -> routeGone p id t.
Proof.
  intros Hcalls Hs. split; [|intros t o Hx _ Ho; by apply DeleteRoute_ready_gone in Hx as (_ & _ & ?)].
  revert tr Hcalls Hs. induction rest as [|tr' rest IH]; intros tr [[Hm [o Hx]] Hcalls]%Forall_cons [Hs Hhd]%Sorted_inv;
    apply DeleteRoute_removes in Hx as [|(e & w & He & Hd & Hr & Hw)]; try done; cbn [length].
  - assert (size (work tr) <> 0); [|lia]. intros Hz%size_empty_iff. set_solver.
  - apply HdRel_inv in Hhd. pose proof (undisturbed_smaller _ _ _ _ He Hd Hr Hw Hhd).
    specialize (IH tr' Hcalls Hs). cbn [length] in IH. lia.
Qed.
End deletion.
