(* ===== verification/Outcomes.v ===== *)
(** * Retry and reporting of provider outcomes

    Models [internal/controller/provider_outcomes.go] and the conditions of
    [provider_events.go]: how soon a reconciler runs again, and how a classified
    provider error is reported.  Durations are [int64] nanoseconds; every
    operation on them wraps around as Go's does. *)
From stdpp Require Import base list strings gmap.
From Stdlib Require Import ZArith Lia.
From S2P Require Import Prelude GoStrings Cloud ApiErrors Kube.

Set Default Goal Selector "!".

(** ** Durations *)

(** Two's complement wrap-around to 64 bits. *)
Definition int64 (z : Z) : Z := ((z + 2 ^ 63) mod 2 ^ 64 - 2 ^ 63)%Z.
Definition maximumDuration : Z := (2 ^ 63 - 1)%Z.

Definition Second : Z := 1000000000.
Definition Minute : Z := (60 * Second)%Z.
Definition minimumProviderProgressRequeue : Z := Second.
Definition defaultProviderProgressRequeue : Z := (5 * Second)%Z.
Definition maximumProviderProgressRequeue : Z := (30 * Second)%Z.
Definition providerFailureRequeue : Z := (2 * Minute)%Z.
Definition ownershipConflictRequeue : Z := (10 * Minute)%Z.

(** [stableJitter]; Go's division truncates towards zero. *)
Definition stableJitter (base : Z) (key : string) : Z :=
  if (base <=? 0)%Z then base
  else
    let offsetPermille := (fnv32a key mod 401 - 200)%Z in
    let delta := int64 (int64 (Z.quot base 1000 * offsetPermille)
                        + Z.quot (int64 (Z.rem base 1000 * offsetPermille)) 1000) in
    if ((0 <? delta) && (int64 (maximumDuration - delta) <? base))%Z then maximumDuration
    else int64 (base + delta).

Definition ProviderProgressRequeueAfter (outcome : Outcome) (uid : string) : Z :=
  let after := o_RequeueAfter outcome in
  let interval :=
    if (after <=? 0)%Z then defaultProviderProgressRequeue
    else if (after <? minimumProviderProgressRequeue)%Z then minimumProviderProgressRequeue
    else if (maximumProviderProgressRequeue <? after)%Z then maximumProviderProgressRequeue
    else after in
  let requeueAfter := stableJitter interval (uid ^^ "/progress") in
  if (requeueAfter <? minimumProviderProgressRequeue)%Z then minimumProviderProgressRequeue
  else if (maximumProviderProgressRequeue <? requeueAfter)%Z then maximumProviderProgressRequeue
  else requeueAfter.

Definition OpenStackResyncAfter (interval : Z) (uid : string) : Z :=
  stableJitter interval (uid ^^ "/resync").

Definition ProviderProgressMessage (outcome : Outcome) (fallback : string) : string :=
  let message := TrimSpace (o_Message outcome) in
  if String.eqb message "" then fallback else message.

(** ** Failure policies *)

Record ProviderFailurePolicy := mkPolicy {
  fp_Category : ErrorCategory;
  fp_ConditionStatus : ConditionStatus;
  fp_Reason : string;
  fp_Message : string;
  fp_ReturnError : bool;
  fp_RequeueAfter : Z;
  fp_EmitEvent : bool;
  fp_AdvancesObservedGeneration : bool
}.

Definition ProviderFailurePolicyFor (e : error) : option ProviderFailurePolicy :=
  match ErrorCategoryOf e with
  | None => None
  | Some category => Some
      match category with
      | ErrorCategoryAuthentication =>
          mkPolicy category ConditionUnknown "AuthenticationFailed"
            "The controller could not authenticate to OpenStack" false providerFailureRequeue true false
      | ErrorCategoryAuthorization =>
          mkPolicy category ConditionUnknown "AuthorizationFailed"
            "OpenStack denied the requested operation" false providerFailureRequeue true false
      | ErrorCategoryQuota =>
          mkPolicy category ConditionFalse "QuotaExceeded"
            "OpenStack quota is insufficient for the requested resources" false providerFailureRequeue
            true true
      | ErrorCategoryRateLimit =>
          mkPolicy category ConditionUnknown "RateLimited"
            "OpenStack rate limited the requested operation" true 0 false false
      | ErrorCategoryTimeout =>
          mkPolicy category ConditionUnknown "RequestTimedOut"
            "The OpenStack request timed out" true 0 false false
      | ErrorCategoryRetryableService =>
          mkPolicy category ConditionUnknown "ProviderUnavailable"
            "OpenStack could not complete the request" true 0 false false
      | ErrorCategoryTerminalValidation =>
          mkPolicy category ConditionFalse "InvalidProviderConfiguration"
            "OpenStack rejected the requested configuration" false 0 true true
      | ErrorCategoryResourceFailure =>
          mkPolicy category ConditionFalse "ResourceFailed"
            "An OpenStack resource entered an error state" false providerFailureRequeue true true
      | ErrorCategoryOwnershipConflict =>
          mkPolicy category ConditionFalse "OwnershipConflict"
            "The OpenStack resource identity does not match the controller binding" false
            ownershipConflictRequeue true true
      | CategoryOther _ =>
          mkPolicy category ConditionUnknown "ProviderUnavailable"
            "OpenStack could not complete the request" true 0 false false
      end
  end.

Definition cleanupMessage (category : ErrorCategory) : string :=
  match category with
  | ErrorCategoryAuthentication => " cleanup cannot continue because OpenStack authentication failed"
  | ErrorCategoryAuthorization => " cleanup cannot continue because OpenStack denied the delete operation"
  | ErrorCategoryQuota => " cleanup cannot continue because OpenStack reported insufficient quota"
  | ErrorCategoryRateLimit => " cleanup is waiting for the OpenStack rate limit to clear"
  | ErrorCategoryTimeout => " cleanup is waiting after an OpenStack request timed out"
  | ErrorCategoryRetryableService => " cleanup is waiting for OpenStack to become available"
  | ErrorCategoryTerminalValidation => " cleanup cannot continue because OpenStack rejected the delete operation"
  | ErrorCategoryResourceFailure => " cleanup cannot continue because an OpenStack resource is in an error state"
  | ErrorCategoryOwnershipConflict =>
      " cleanup cannot continue because the OpenStack resource identity does not match the controller binding"
  | CategoryOther _ => " cleanup is waiting for OpenStack to complete the delete operation"
  end.

Definition ProviderCleanupFailurePolicy (policy : ProviderFailurePolicy) (resourceKind : string)
    : ProviderFailurePolicy :=
  mkPolicy (fp_Category policy) (fp_ConditionStatus policy) (fp_Reason policy)
    (resourceKind ^^ cleanupMessage (fp_Category policy)) (fp_ReturnError policy) (fp_RequeueAfter policy)
    (fp_EmitEvent policy) (fp_AdvancesObservedGeneration policy).

Definition SafeProviderReconcileError (policy : ProviderFailurePolicy) (cause : error) : error :=
  ReconcileError (fp_Message policy) cause.

Definition categoryString (c : ErrorCategory) : string :=
  match c with
  | ErrorCategoryAuthentication => "Authentication"
  | ErrorCategoryAuthorization => "Authorization"
  | ErrorCategoryQuota => "Quota"
  | ErrorCategoryRateLimit => "RateLimit"
  | ErrorCategoryTimeout => "Timeout"
  | ErrorCategoryRetryableService => "RetryableService"
  | ErrorCategoryTerminalValidation => "TerminalValidation"
  | ErrorCategoryResourceFailure => "ResourceFailure"
  | ErrorCategoryOwnershipConflict => "OwnershipConflict"
  | CategoryOther value => value
  end.

(** [ctrl.Result], through the two fields the repository sets. *)
Record Result := mkResult { Requeue : bool; RequeueAfter : Z }.
Definition noResult : Result := mkResult false 0.
Definition requeueAfter (d : Z) : Result := mkResult false d.
Definition requeue : Result := mkResult true 0.

Definition providerFailureResultForOperation (policy : ProviderFailurePolicy) (cause : error)
    (key : string) (finalizing : bool) : outcome_of Result :=
  if fp_ReturnError policy then Err (SafeProviderReconcileError policy cause)
  else
    let interval := if finalizing && (fp_RequeueAfter policy =? 0)%Z then providerFailureRequeue
                        else fp_RequeueAfter policy in
    if (interval =? 0)%Z then Ok noResult
    else Ok (requeueAfter (stableJitter interval (key ^^ "/" ^^ categoryString (fp_Category policy)))).

Definition ProviderFailureResult (policy : ProviderFailurePolicy) (cause : error) (key : string) :=
  providerFailureResultForOperation policy cause key false.
Definition ProviderFinalizationFailureResult (policy : ProviderFailurePolicy) (cause : error) (key : string) :=
  providerFailureResultForOperation policy cause key true.

(** ** Conditions (provider_events.go, status.go) *)

Definition ConditionTransitioned `{ApiMeta} (conditions : list Condition) (conditionType : string)
    (status : ConditionStatus) (reason message : string) (generation : Z) : bool :=
  match FindStatusCondition conditions conditionType with
  | None => true
  | Some existing =>
      negb (bool_decide (c_Status existing = status)) || negb (String.eqb (c_Reason existing) reason)
      || negb (String.eqb (c_Message existing) message)
      || negb (c_ObservedGeneration existing =? generation)%Z
  end.

Definition ConditionObservedGeneration `{ApiMeta} (conditions : list Condition) (conditionType : string)
    (currentGeneration : Z) (advance : bool) : Z :=
  if advance then currentGeneration
  else match FindStatusCondition conditions conditionType with
       | None => 0
       | Some existing => c_ObservedGeneration existing
       end.

(** ** Theorems *)

Lemma int64_id z : (- 2 ^ 63 <= z < 2 ^ 63)%Z -> int64 z = z.
Proof. intros H. unfold int64. rewrite Z.mod_small by lia. lia. Qed.

Lemma offset_bounds key : (-200 <= fnv32a key mod 401 - 200 <= 200)%Z.
Proof. pose proof (Z.mod_pos_bound (fnv32a key) 401). lia. Qed.

(** The jitter without wrap-around. *)
Definition jitterDelta (base offset : Z) : Z :=
  (base / 1000 * offset + Z.quot (base mod 1000 * offset) 1000)%Z.

Lemma jitterDelta_bounds base o :
  (0 < base -> -200 <= o <= 200 -> - base <= 5 * jitterDelta base o <= base)%Z.
Proof.
  intros Hb Ho. unfold jitterDelta.
  pose proof (Z.div_mod base 1000). pose proof (Z.mod_pos_bound base 1000).
  set (q := (base / 1000)%Z) in *. set (m := (base mod 1000)%Z) in *.
  assert (0 <= q)%Z by (apply Z.div_pos; lia).
  assert (- (200 * q) <= q * o <= 200 * q)%Z by nia.
  assert (- (200 * m) <= m * o <= 200 * m)%Z by nia.
  assert (- m <= 5 * Z.quot (m * o) 1000 <= m)%Z; [|lia].
  destruct (Z_le_gt_dec 0 (m * o)).
  - rewrite Z.quot_div_nonneg by lia. pose proof (Z.div_mod (m * o) 1000). pose proof (Z.mod_pos_bound (m * o) 1000). lia.
  - replace (m * o)%Z with (- - (m * o))%Z by lia. rewrite Z.quot_opp_l by lia.
    rewrite Z.quot_div_nonneg by lia. pose proof (Z.div_mod (- (m * o)) 1000).
    pose proof (Z.mod_pos_bound (- (m * o)) 1000). lia.
Qed.

Lemma stableJitter_eq base key :
  (0 < base < 2 ^ 63)%Z ->
  stableJitter base key =
    Z.min maximumDuration (base + jitterDelta base (fnv32a key mod 401 - 200)).
Proof.
  intros Hb. unfold stableJitter. destruct (Z.leb_spec base 0); [lia|].
  pose proof (offset_bounds key) as Ho. set (o := (fnv32a key mod 401 - 200)%Z) in *. cbv zeta.
  pose proof (jitterDelta_bounds base o ltac:(lia) Ho) as Hd.
  assert (int64 (int64 (Z.quot base 1000 * o) + Z.quot (int64 (Z.rem base 1000 * o)) 1000) = jitterDelta base o) as ->.
  { rewrite Z.quot_div_nonneg, Z.rem_mod_nonneg by lia. unfold jitterDelta in *.
    pose proof (Z.mod_pos_bound base 1000).
    assert (0 <= base / 1000)%Z by (apply Z.div_pos; lia).
    assert (base / 1000 <= base)%Z by (apply Z.div_le_upper_bound; lia).
    assert (1000 * (base / 1000) <= base)%Z by (apply Z.mul_div_le; lia).
    assert (- base <= base / 1000 * o <= base)%Z by nia.
    assert (- 200000 <= base mod 1000 * o <= 200000)%Z by nia.
    rewrite (int64_id (base / 1000 * o)), (int64_id (base mod 1000 * o)) by lia.
    apply int64_id. lia. }
  set (d := jitterDelta base o) in *. unfold maximumDuration.
  destruct (Z.ltb_spec 0 d); cbn [andb].
  - rewrite int64_id by lia. destruct (Z.ltb_spec (2 ^ 63 - 1 - d) base); [lia|].
    rewrite int64_id by lia. lia.
  - rewrite int64_id by lia. lia.
Qed.

(** Jitter moves a positive 64-bit interval by at most a fifth of it,
    saturates instead of overflowing, and never makes it zero or negative. *)
Theorem stableJitter_bounds base key :
  (0 < base < 2 ^ 63)%Z ->
  (4 * base <= 5 * stableJitter base key <= 6 * base)%Z /\
  (0 < stableJitter base key <= maximumDuration)%Z.
Proof.
  intros Hb. rewrite stableJitter_eq by done.
  pose proof (jitterDelta_bounds base _ ltac:(lia) (offset_bounds key)). unfold maximumDuration. lia.
Qed.

Lemma stableJitter_positive base key : (0 < base < 2 ^ 63)%Z -> (4 * base <= 5 * stableJitter base key <= 6 * base)%Z.
Proof.
  intros Hb. rewrite stableJitter_eq by done.
  pose proof (jitterDelta_bounds base _ ltac:(lia) (offset_bounds key)). unfold maximumDuration. lia.
Qed.

(** C40. A progressing operation is looked at again after one to thirty seconds,
    whatever interval the provider asks for, and within a fifth of that interval
    when it is in range. *)
Theorem ProviderProgressRequeueAfter_bounds outcome uid :
  let r := ProviderProgressRequeueAfter outcome uid in
  (minimumProviderProgressRequeue <= r <= maximumProviderProgressRequeue)%Z /\
  ((minimumProviderProgressRequeue <= o_RequeueAfter outcome <= maximumProviderProgressRequeue)%Z ->
   (4 * o_RequeueAfter outcome <= 5 * r <= 6 * o_RequeueAfter outcome)%Z).
Proof.
  unfold ProviderProgressRequeueAfter. cbv zeta.
  set (interval := if (o_RequeueAfter outcome <=? 0)%Z then _ else _).
  set (r := stableJitter interval _).
  assert ((minimumProviderProgressRequeue <= o_RequeueAfter outcome <= maximumProviderProgressRequeue)%Z ->
    interval = o_RequeueAfter outcome /\ (4 * interval <= 5 * r <= 6 * interval)%Z) as Hr.
  { unfold minimumProviderProgressRequeue, maximumProviderProgressRequeue, Second. intros Hin.
    assert (interval = o_RequeueAfter outcome) as Hi.
    { unfold interval, minimumProviderProgressRequeue, maximumProviderProgressRequeue, Second.
      destruct (Z.leb_spec (o_RequeueAfter outcome) 0); [lia|].
      destruct (Z.ltb_spec (o_RequeueAfter outcome) 1000000000); [lia|].
      destruct (Z.ltb_spec (30 * 1000000000) (o_RequeueAfter outcome)); lia. }
    split; [done|]. apply stableJitter_positive. rewrite Hi. lia. }
  clearbody r interval. unfold minimumProviderProgressRequeue, maximumProviderProgressRequeue, Second in *.
  destruct (Z.ltb_spec r 1000000000); [lia|]. destruct (Z.ltb_spec (30 * 1000000000) r); lia.
Qed.

(** Every classified failure of a deletion is retried: by the work queue
    with the classification intact, or after a delay between 96 seconds and
    twelve minutes. *)
Theorem finalization_never_stalls e policy kind key :
  ProviderFailurePolicyFor e = Some policy ->
  match ProviderFinalizationFailureResult (ProviderCleanupFailurePolicy policy kind) e key with
  | Ok r => (96 * Second <= RequeueAfter r <= 720 * Second)%Z
  | Err e' => ErrorCategoryOf e' = ErrorCategoryOf e /\ fp_ReturnError policy = true
  end.
Proof.
  unfold ProviderFailurePolicyFor. destruct (ErrorCategoryOf e) as [c|] eqn:Ec; [|done].
  intros [= <-]. unfold ProviderFinalizationFailureResult, providerFailureResultForOperation.
  assert (forall base k, (0 < base < 2 ^ 63)%Z -> (120 * Second <= base <= 600 * Second)%Z ->
    (96 * Second <= stableJitter base k <= 720 * Second)%Z) as Hj.
  { intros base k H1 H2. pose proof (stableJitter_positive base k H1). lia. }
  destruct c; cbn -[stableJitter Z.mul Second]; try (split; [exact Ec|reflexivity]);
    apply Hj; vm_compute; split; (reflexivity || discriminate).
Qed.

(** Outside deletion, the only classified failure that waits for the object
    to change is a terminal validation failure. *)
Theorem reconcile_waits_only_for_validation e policy key :
  ProviderFailurePolicyFor e = Some policy ->
  ProviderFailureResult policy e key = Ok noResult <->
  ErrorCategoryOf e = Some ErrorCategoryTerminalValidation.
Proof.
  unfold ProviderFailurePolicyFor. destruct (ErrorCategoryOf e) as [c|] eqn:Ec; [|done].
  intros [= <-]. unfold ProviderFailureResult, providerFailureResultForOperation.
  assert (forall base k, (0 < base < 2 ^ 63)%Z -> stableJitter base k <> 0%Z) as Hj.
  { intros base k H1. pose proof (stableJitter_positive base k H1). lia. }
  destruct c; cbn -[stableJitter]; split; try done;
    intros [= H]; exfalso; revert H; apply Hj; vm_compute; split; reflexivity.
Qed.
