(* ===== verification/Coordinator.v ===== *)
(** * The Gateway graph coordinator

    Models [internal/controller/graph/coordinator.go]: the lock per Gateway UID
    that serialises provider operations.  The coordinator is shared by
    goroutines, so the model is a step relation: a critical section under the
    mutex is one step, and so is one operation on the channel of an entry, a
    buffer of capacity one.  Contexts may be cancelled at any time.  The
    theorems hold in every state reachable by any number of goroutines in any
    interleaving. *)
From stdpp Require Import base list strings gmap.
From Stdlib Require Import ZArith Lia.
From S2P Require Import Prelude GoStrings Cloud.

Set Default Goal Selector "!".

(** ** The shared state *)

(** [graphCoordinatorEntry]: whether the buffered channel [ready] holds its
    token, and the reference count. *)
Record graphCoordinatorEntry := mkEntry { ready : bool; refs : Z }.

(** [Coordinator]: the map, and the entries its pointers point to. *)
Record Coordinator := mkCoordinator {
  entries : gmap string nat;
  heap : gmap nat graphCoordinatorEntry;
  nextEntry : nat
}.

Definition newCoordinator : Coordinator := mkCoordinator ∅ ∅ 0.

Definition withEntry (c : Coordinator) (e : nat) (entry : graphCoordinatorEntry) : Coordinator :=
  mkCoordinator (entries c) (<[e := entry]> (heap c)) (nextEntry c).

(** [retain], under the mutex: the entry of the UID, made if absent, with one
    more reference. *)
Definition retain (c : Coordinator) (gatewayUID : string) : nat * Coordinator :=
  match entries c !! gatewayUID with
  | Some e =>
      match heap c !! e with
      | Some entry => (e, withEntry c e (mkEntry (ready entry) (refs entry + 1)))
      | None => (e, c)
      end
  | None =>
      let e := nextEntry c in
      (e, mkCoordinator (<[gatewayUID := e]> (entries c)) (<[e := mkEntry true 1]> (heap c)) (S e))
  end.

(** [releaseReference], under the mutex. *)
Definition releaseReference (c : Coordinator) (gatewayUID : string) (e : nat) : Coordinator :=
  match heap c !! e with
  | None => c
  | Some entry =>
      let refs := (refs entry - 1)%Z in
      let c := withEntry c e (mkEntry (ready entry) refs) in
      if ((refs =? 0)%Z && bool_decide (entries c !! gatewayUID = Some e))
      then mkCoordinator (delete gatewayUID (entries c)) (heap c) (nextEntry c)
      else c
  end.

(** [entry.ready <- struct{}{}] and [<-entry.ready]; [None] blocks. *)
Definition sendReady (c : Coordinator) (e : nat) : option Coordinator :=
  match heap c !! e with
  | Some entry => if ready entry then None else Some (withEntry c e (mkEntry true (refs entry)))
  | None => None
  end.
Definition receiveReady (c : Coordinator) (e : nat) : option Coordinator :=
  match heap c !! e with
  | Some entry => if ready entry then Some (withEntry c e (mkEntry false (refs entry))) else None
  | None => None
  end.

(** ** Goroutines *)

(** Where a goroutine is in [acquire] and in the release function it returns. *)
Inductive goroutine :=
| Idle
| Waiting (gatewayUID : string) (e : nat)     (* in the select *)
| Received (gatewayUID : string) (e : nat)    (* took the token, checks its context *)
| Returning (gatewayUID : string) (e : nat)   (* context cancelled: gives the token back *)
| Holding (gatewayUID : string) (e : nat)     (* acquire returned: owns the graph *)
| Releasing (gatewayUID : string) (e : nat)   (* in once.Do, before the send *)
| Dropping (gatewayUID : string) (e : nat).   (* before releaseReference *)

(** [acquire] up to the select: the errors it returns at once, or the retained
    entry.  [cancelled] is [ctx.Err() != nil]. *)
Definition errEmptyGatewayUID : error := Sentinel "gateway UID is empty".
Definition acquireEntry (c : Coordinator) (gatewayUID : string) (cancelled : option error)
    : outcome_of (nat * Coordinator) :=
  if String.eqb gatewayUID "" then Err errEmptyGatewayUID
  else match cancelled with
       | Some e => Err e
       | None => Ok (retain c gatewayUID)
       end.

Record system := mkSystem { shared : Coordinator; goroutines : list goroutine }.

Definition update (s : system) (c : Coordinator) (i : nat) (g : goroutine) : system :=
  mkSystem c (<[i := g]> (goroutines s)).

Inductive step (s : system) : system -> Prop :=
| step_acquire i uid cancelled e c' :
    goroutines s !! i = Some Idle -> acquireEntry (shared s) uid cancelled = Ok (e, c') ->
    step s (update s c' i (Waiting uid e))
| step_cancelled i uid e :
    goroutines s !! i = Some (Waiting uid e) -> step s (update s (shared s) i (Dropping uid e))
| step_receive i uid e c' :
    goroutines s !! i = Some (Waiting uid e) -> receiveReady (shared s) e = Some c' ->
    step s (update s c' i (Received uid e))
| step_acquired i uid e :
    goroutines s !! i = Some (Received uid e) -> step s (update s (shared s) i (Holding uid e))
| step_received_cancelled i uid e :
    goroutines s !! i = Some (Received uid e) -> step s (update s (shared s) i (Returning uid e))
| step_return i uid e c' :
    goroutines s !! i = Some (Returning uid e) -> sendReady (shared s) e = Some c' ->
    step s (update s c' i (Dropping uid e))
| step_release i uid e :
    goroutines s !! i = Some (Holding uid e) -> step s (update s (shared s) i (Releasing uid e))
| step_send i uid e c' :
    goroutines s !! i = Some (Releasing uid e) -> sendReady (shared s) e = Some c' ->
    step s (update s c' i (Dropping uid e))
| step_drop i uid e :
    goroutines s !! i = Some (Dropping uid e) ->
    step s (update s (releaseReference (shared s) uid e) i Idle).

(** Any number of goroutines that have not called [Acquire] yet. *)
Definition initial (s : system) : Prop :=
  shared s = newCoordinator /\ Forall (fun g => g = Idle) (goroutines s).

Inductive reachable : system -> Prop :=
| reachable_initial s : initial s -> reachable s
| reachable_step s s' : reachable s -> step s s' -> reachable s'.

(** ** The invariant *)

(** The entry a goroutine has retained, and the one whose token it has. *)
Definition retained (g : goroutine) : option (string * nat) :=
  match g with
  | Idle => None
  | Waiting u e | Received u e | Returning u e | Holding u e | Releasing u e | Dropping u e => Some (u, e)
  end.
Definition hasToken (g : goroutine) : option nat :=
  match g with
  | Received _ e | Returning _ e | Holding _ e | Releasing _ e => Some e
  | _ => None
  end.

Definition refersTo (e : nat) (g : goroutine) : bool := bool_decide (snd <$> retained g = Some e).
Definition holdsToken (e : nat) (g : goroutine) : bool := bool_decide (hasToken g = Some e).

Fixpoint count (P : goroutine -> bool) (l : list goroutine) : Z :=
  match l with [] => 0 | g :: l' => Z.b2z (P g) + count P l' end.

Lemma count_insert P l i g g' :
  l !! i = Some g -> count P (<[i := g']> l) = (count P l - Z.b2z (P g) + Z.b2z (P g'))%Z.
Proof.
  revert i. induction l as [|x l IH]; intros [|i] H; simplify_eq/=; [lia|].
  rewrite (IH i) by done. lia.
Qed.

Lemma count_nonneg P l : (0 <= count P l)%Z.
Proof. induction l as [|g l IH]; simpl; [lia|]. destruct (P g); simpl; lia. Qed.

Lemma count_zero P l : (forall g, g ∈ l -> P g = false) -> count P l = 0%Z.
Proof. induction l as [|g l IH]; intros H; simpl; [done|]. rewrite H by left. rewrite IH; [done|]. intros; apply H; by right. Qed.

Lemma count_pos P l i g : l !! i = Some g -> P g = true -> (1 <= count P l)%Z.
Proof.
  revert i. induction l as [|x l IH]; intros [|i] Hi HP; simplify_eq/=.
  - rewrite HP. pose proof (count_nonneg P l). simpl. lia.
  - specialize (IH i Hi HP). destruct (P x); simpl; lia.
Qed.

(** Two goroutines that satisfy [P] make the count at least two. *)
Lemma count_two P l i j g g' :
  l !! i = Some g -> l !! j = Some g' -> i <> j -> P g = true -> P g' = true -> (2 <= count P l)%Z.
Proof.
  revert i j. induction l as [|x l IH]; intros [|i] [|j] Hi Hj Hne HP HP'; simplify_eq/=.
  - rewrite HP. pose proof (count_pos P l j g' Hj HP'). simpl. lia.
  - rewrite HP'. pose proof (count_pos P l i g Hi HP). simpl. lia.
  - specialize (IH i j Hi Hj ltac:(lia) HP HP'). destruct (P x); simpl; lia.
Qed.

(** What holds in every reachable state. *)
Record invariant (s : system) : Prop := {
  (* a retained entry is the current entry of its UID *)
  inv_current : forall i g uid e, goroutines s !! i = Some g -> retained g = Some (uid, e) ->
    entries (shared s) !! uid = Some e;
  (* a current entry counts its references and has exactly one token *)
  inv_entry : forall uid e, entries (shared s) !! uid = Some e ->
    exists entry, heap (shared s) !! e = Some entry /\
      refs entry = count (refersTo e) (goroutines s) /\ (0 < refs entry)%Z /\
      (Z.b2z (ready entry) + count (holdsToken e) (goroutines s) = 1)%Z;
  (* UIDs have entries of their own, made earlier *)
  inv_distinct : forall uid uid' e, entries (shared s) !! uid = Some e ->
    entries (shared s) !! uid' = Some e -> uid = uid';
  inv_fresh : forall uid e, entries (shared s) !! uid = Some e -> e < nextEntry (shared s)
}.

Lemma invariant_initial s : initial s -> invariant s.
Proof.
  intros [Hs Hg]. rewrite Forall_forall in Hg. split; rewrite Hs; cbn; try (intros *; by rewrite ?lookup_empty).
  intros i g uid e Hi Hr. rewrite (Hg g) in Hr by by eapply list_elem_of_lookup_2. done.
Qed.

(** A goroutine moves on and an entry changes, and nothing else. *)
Lemma invariant_move s i g g' uid e entry entry' :
  invariant s -> goroutines s !! i = Some g ->
  retained g = Some (uid, e) -> retained g' = Some (uid, e) ->
  heap (shared s) !! e = Some entry -> refs entry' = refs entry ->
  (Z.b2z (ready entry') + Z.b2z (holdsToken e g') = Z.b2z (ready entry) + Z.b2z (holdsToken e g))%Z ->
  invariant (update s (withEntry (shared s) e entry') i g').
Proof.
  intros [Hc He Hd Hf] Hi Hr Hr' Hh Hrefs Htok. split; cbn; [| |exact Hd|exact Hf].
  - intros j h uid' e' [(-> & -> & _)|[_ Hj]]%list_lookup_insert_Some Hrj; [|by eapply Hc].
    rewrite Hr' in Hrj. simplify_eq. by eapply Hc.
  - intros uid' e' Hcur. destruct (He uid' e' Hcur) as (en & Hen & Href & Hpos & Ht).
    rewrite !(count_insert _ _ _ _ _ Hi).
    assert (refersTo e' g = refersTo e' g') as Heq by (unfold refersTo; by rewrite Hr, Hr').
    destruct (decide (e' = e)) as [->|Hne].
    + exists entry'. rewrite lookup_insert_eq, Heq. simplify_eq. split_and!; [done|lia|lia|lia].
    + exists en. rewrite lookup_insert_ne by done. rewrite Heq.
      assert (holdsToken e' g = false /\ holdsToken e' g' = false) as [-> ->].
      { unfold holdsToken. split; apply bool_decide_eq_false_2.
        - destruct g; simpl in *; congruence.
        - destruct g'; simpl in *; congruence. }
      split_and!; [done|lia|lia|simpl; lia].
Qed.

Lemma invariant_retained s i g uid e :
  invariant s -> goroutines s !! i = Some g -> retained g = Some (uid, e) ->
  entries (shared s) !! uid = Some e /\
  exists entry, heap (shared s) !! e = Some entry /\ refs entry = count (refersTo e) (goroutines s) /\
    (Z.b2z (ready entry) + count (holdsToken e) (goroutines s) = 1)%Z.
Proof.
  intros Hinv Hi Hr. pose proof (inv_current _ Hinv _ _ _ _ Hi Hr) as Hc. split; [done|].
  destruct (inv_entry _ Hinv _ _ Hc) as (entry & ? & ? & _ & ?). eauto.
Qed.

(** Steps that only move a goroutine. *)
Lemma invariant_goto s i g g' uid e :
  invariant s -> goroutines s !! i = Some g ->
  retained g = Some (uid, e) -> retained g' = Some (uid, e) -> hasToken g' = hasToken g ->
  invariant (update s (shared s) i g').
Proof.
  intros Hinv Hi Hr Hr' Ht. destruct (invariant_retained _ _ _ _ _ Hinv Hi Hr) as (_ & entry & Hh & _).
  replace (shared s) with (withEntry (shared s) e entry).
  - eapply invariant_move; try done. unfold holdsToken. by rewrite Ht.
  - unfold withEntry. rewrite insert_id by done. by destruct (shared s).
Qed.

Lemma invariant_acquire s i uid cancelled e c' :
  invariant s -> goroutines s !! i = Some Idle -> acquireEntry (shared s) uid cancelled = Ok (e, c') ->
  invariant (update s c' i (Waiting uid e)).
Proof.
  intros Hinv Hi. pose proof Hinv as [Hc He Hd Hf]. unfold acquireEntry, retain.
  destruct (String.eqb uid ""), cancelled; try done.
  assert (forall e', holdsToken e' Idle = false /\ holdsToken e' (Waiting uid e) = false) as Hno by done.
  assert (forall e', refersTo e' (Waiting uid e) = bool_decide (e = e')) as Href.
  { intros e'. unfold refersTo. cbn. apply bool_decide_ext. naive_solver. }
  destruct (entries (shared s) !! uid) as [e0|] eqn:Eu.
  - destruct (He uid e0 Eu) as (entry & Hh & Hrefs & Hpos & Ht). rewrite Hh. intros [= -> <-].
    split; cbn; [| |exact Hd|exact Hf].
    + intros j g uid' e' [(-> & <- & _)|[_ Hj]]%list_lookup_insert_Some Hr; [by injection Hr as <- <-|by eapply Hc].
    + intros uid' e' Hcur. destruct (He uid' e' Hcur) as (en & Hen & Hrefs' & Hpos' & Ht').
      rewrite !(count_insert _ _ _ _ _ Hi), Href. destruct (Hno e') as [-> ->].
      change (refersTo e' Idle) with false. destruct (decide (e' = e)) as [->|Hne].
      * rewrite lookup_insert_eq, bool_decide_eq_true_2 by done. simplify_eq. eexists. split; [done|]. simpl. lia.
      * rewrite lookup_insert_ne, bool_decide_eq_false_2 by done. exists en. simpl. split_and!; [done|lia|lia|lia].
  - intros [= <- <-]. assert (forall uid' e', entries (shared s) !! uid' = Some e' -> e' <> nextEntry (shared s)) as Hnew.
    { intros uid' e' ?%Hf. lia. }
    assert (count (refersTo (nextEntry (shared s))) (goroutines s) = 0%Z /\
            count (holdsToken (nextEntry (shared s))) (goroutines s) = 0%Z) as [Hz1 Hz2].
    { split; apply count_zero; intros g [j Hj]%list_elem_of_lookup; apply bool_decide_eq_false_2; intros Hg.
      - destruct (retained g) as [[u e']|] eqn:Er; [|done]. injection Hg as ->. by eapply Hnew; [eapply Hc|].
      - destruct g; simplify_eq/=; by eapply Hnew; [eapply Hc; [exact Hj|done]|]. }
    split; cbn.
    + intros j g uid' e' [(-> & <- & _)|[_ Hj]]%list_lookup_insert_Some Hr.
      * injection Hr as <- <-. by rewrite lookup_insert_eq.
      * pose proof (Hc _ _ _ _ Hj Hr). rewrite lookup_insert_ne by congruence. done.
    + intros uid' e' Hcur. rewrite !(count_insert _ _ _ _ _ Hi), Href. destruct (Hno e') as [-> ->].
      change (refersTo e' Idle) with false.
      apply lookup_insert_Some in Hcur as [[<- <-]|[Hne Hcur]].
      * rewrite lookup_insert_eq, bool_decide_eq_true_2 by done. eexists. split; [done|]. cbn. lia.
      * destruct (He uid' e' Hcur) as (en & Hen & Hrefs' & Hpos' & Ht'). pose proof (Hnew _ _ Hcur).
        rewrite lookup_insert_ne, bool_decide_eq_false_2 by done. exists en. simpl. split_and!; [done|lia|lia|lia].
    + intros u u' e' [[<- <-]|[? H1]]%lookup_insert_Some [[<- ?]|[? H2]]%lookup_insert_Some; try done.
      * by destruct (Hnew _ _ H2).
      * by destruct (Hnew _ _ H1).
      * by eapply Hd.
    + intros u e' [[<- <-]|[? H1%Hf]]%lookup_insert_Some; lia.
Qed.

Lemma invariant_drop s i uid e :
  invariant s -> goroutines s !! i = Some (Dropping uid e) ->
  invariant (update s (releaseReference (shared s) uid e) i Idle).
Proof.
  intros Hinv Hi. pose proof Hinv as [Hc He Hd Hf].
  pose proof (Hc _ _ _ _ Hi eq_refl) as Hcur. destruct (He uid e Hcur) as (entry & Hh & Hrefs & Hpos & Ht).
  assert (forall e', Z.b2z (refersTo e' (Dropping uid e)) = Z.b2z (bool_decide (e = e'))) as Href.
  { intros e'. unfold refersTo. cbn. f_equal. apply bool_decide_ext. naive_solver. }
  assert (forall uid' e' en, entries (shared s) !! uid' = Some e' -> e' <> e -> heap (shared s) !! e' = Some en ->
    refs en = count (refersTo e') (goroutines s) ->
    (refs en = count (refersTo e') (goroutines s) - Z.b2z (refersTo e' (Dropping uid e)) + 0)%Z) as Hother.
  { intros uid' e' en _ Hne _ ->. rewrite Href, bool_decide_eq_false_2 by done. simpl. lia. }
  unfold releaseReference. rewrite Hh. cbn [entries withEntry]. rewrite bool_decide_eq_true_2, andb_true_r by done.
  destruct (Z.eqb_spec (refs entry - 1) 0) as [Hlast|Hmore].
  - (* the last reference: no goroutine refers to the entry any more *)
    assert (forall j g, <[i := Idle]> (goroutines s) !! j = Some g -> refersTo e g = false) as Hnone.
    { intros j g Hj. destruct (refersTo e g) eqn:E; [|done].
      pose proof (count_pos (refersTo e) _ _ _ Hj E) as H1. rewrite (count_insert _ _ _ _ _ Hi) in H1.
      rewrite Href, bool_decide_eq_true_2 in H1 by done. change (refersTo e Idle) with false in H1. simpl in H1. lia. }
    split; cbn.
    + intros j g uid' e' Hj Hr. pose proof (Hnone j g Hj) as Hn.
      assert (e' <> e). { intros ->. unfold refersTo in Hn. rewrite Hr in Hn. by apply bool_decide_eq_false in Hn. }
      apply list_lookup_insert_Some in Hj as [(-> & <- & _)|[_ Hj]]; [done|].
      pose proof (Hc _ _ _ _ Hj Hr). rewrite lookup_delete_ne by congruence. done.
    + intros uid' e' [Hne Hcur']%lookup_delete_Some. assert (e' <> e) by (intros ->; by apply Hne; eapply Hd).
      destruct (He uid' e' Hcur') as (en & Hen & Hrefs' & Hpos' & Ht'). exists en.
      rewrite lookup_insert_ne by done. rewrite !(count_insert _ _ _ _ _ Hi).
      split_and!; [done|by eapply Hother|lia|]; change (holdsToken e' Idle) with false; change (holdsToken e' (Dropping uid e)) with false; simpl; lia.
    + intros u u' e' [_ ?]%lookup_delete_Some [_ ?]%lookup_delete_Some. by eapply Hd.
    + intros u e' [_ ?]%lookup_delete_Some. by eapply Hf.
  - split; cbn; [| |exact Hd|exact Hf].
    + intros j g uid' e' [(-> & <- & _)|[_ Hj]]%list_lookup_insert_Some Hr; [done|by eapply Hc].
    + intros uid' e' Hcur'. destruct (He uid' e' Hcur') as (en & Hen & Hrefs' & Hpos' & Ht').
      rewrite !(count_insert _ _ _ _ _ Hi). destruct (decide (e' = e)) as [->|Hne].
      * rewrite lookup_insert_eq. eexists. split; [done|]. simplify_eq.
        rewrite Href, bool_decide_eq_true_2 by done. change (refersTo e Idle) with false.
        change (holdsToken e Idle) with false. change (holdsToken e (Dropping uid e)) with false. simpl. lia.
      * rewrite lookup_insert_ne by done. exists en. split_and!; [done|by eapply Hother|lia|]; change (holdsToken e' Idle) with false; change (holdsToken e' (Dropping uid e)) with false; simpl; lia.
Qed.

Lemma invariant_step s s' : invariant s -> step s s' -> invariant s'.
Proof.
  intros Hinv Hs. inversion Hs as [i uid ca e c' Hi Ha|i uid e Hi|i uid e c' Hi Hch|i uid e Hi|i uid e Hi
    |i uid e c' Hi Hch|i uid e Hi|i uid e c' Hi Hch|i uid e Hi]; subst s'.
  - by eapply invariant_acquire.
  - by eapply invariant_goto.
  - unfold receiveReady in Hch. destruct (heap (shared s) !! e) as [[[] r]|] eqn:Eh; simplify_eq/=.
    eapply invariant_move; try done. unfold holdsToken. cbn [hasToken ready].
    by rewrite (bool_decide_eq_true_2 (Some e = Some e)), (bool_decide_eq_false_2 (None = Some e)).
  - by eapply invariant_goto.
  - by eapply invariant_goto.
  - unfold sendReady in Hch. destruct (heap (shared s) !! e) as [[[] r]|] eqn:Eh; simplify_eq/=.
    eapply invariant_move; try done. unfold holdsToken. cbn [hasToken ready].
    by rewrite (bool_decide_eq_true_2 (Some e = Some e)), (bool_decide_eq_false_2 (None = Some e)).
  - by eapply invariant_goto.
  - unfold sendReady in Hch. destruct (heap (shared s) !! e) as [[[] r]|] eqn:Eh; simplify_eq/=.
    eapply invariant_move; try done. unfold holdsToken. cbn [hasToken ready].
    by rewrite (bool_decide_eq_true_2 (Some e = Some e)), (bool_decide_eq_false_2 (None = Some e)).
  - by eapply invariant_drop.
Qed.

Lemma reachable_invariant s : reachable s -> invariant s.
Proof. induction 1; [by apply invariant_initial|by eapply invariant_step]. Qed.

(** ** What the coordinator promises *)

(** C17. In every state that any number of goroutines can reach in any
    interleaving, at most one goroutine owns the graph of a Gateway. *)
Theorem coordinator_mutual_exclusion s i j uid e e' :
  reachable s -> goroutines s !! i = Some (Holding uid e) -> goroutines s !! j = Some (Holding uid e') -> i = j.
Proof.
  intros Hr%reachable_invariant Hi Hj.
  destruct (invariant_retained _ _ _ _ _ Hr Hi eq_refl) as (Hc & entry & _ & _ & Ht).
  destruct (invariant_retained _ _ _ _ _ Hr Hj eq_refl) as (Hc' & _). simplify_eq.
  destruct (decide (i = j)) as [|Hne]; [done|].
  pose proof (count_two (holdsToken e) _ _ _ _ _ Hi Hj Hne) as H2.
  unfold holdsToken in H2 at 1 2. cbn [hasToken] in H2. rewrite !bool_decide_eq_true_2 in H2 by done.
  specialize (H2 eq_refl eq_refl). destruct (ready entry); simpl in Ht; lia.
Qed.

(** A goroutine that has the token of a Gateway's entry can always give it
    back: the send never blocks. *)
Theorem coordinator_release_never_blocks s i g e :
  reachable s -> goroutines s !! i = Some g -> hasToken g = Some e -> is_Some (sendReady (shared s) e).
Proof.
  intros Hr%reachable_invariant Hi Hg.
  assert (exists uid, retained g = Some (uid, e)) as [uid Hret] by (destruct g; simplify_eq/=; eauto).
  destruct (invariant_retained _ _ _ _ _ Hr Hi Hret) as (_ & entry & Hh & _ & Ht).
  unfold sendReady. rewrite Hh. destruct (ready entry); [|done].
  pose proof (count_pos (holdsToken e) _ _ _ Hi) as H1. unfold holdsToken in H1 at 1.
  rewrite bool_decide_eq_true_2 in H1 by done. specialize (H1 eq_refl). simpl in Ht. lia.
Qed.

(** No wake-up is lost: a goroutine waits for a graph only while the token
    is there to take or another goroutine has it. *)
Theorem coordinator_waiting_has_cause s i uid e :
  reachable s -> goroutines s !! i = Some (Waiting uid e) ->
  is_Some (receiveReady (shared s) e) \/ exists j g, goroutines s !! j = Some g /\ hasToken g = Some e /\ i <> j.
Proof.
  intros Hr%reachable_invariant Hi.
  destruct (invariant_retained _ _ _ _ _ Hr Hi eq_refl) as (_ & entry & Hh & _ & Ht).
  unfold receiveReady. rewrite Hh. destruct (ready entry); [by left; eexists|]. right. simpl in Ht.
  destruct (decide (Exists (fun g => hasToken g = Some e) (goroutines s))) as [Hex|Hno].
  - apply Exists_exists in Hex as (g & [j Hj]%list_elem_of_lookup & Hg). exists j, g. split_and!; [done..|].
    intros <-. simplify_eq.
  - rewrite count_zero in Ht; [done|]. intros g Hg. apply bool_decide_eq_false_2. intros Hx.
    apply Hno, Exists_exists. eauto.
Qed.

(** When no goroutine is inside the coordinator, its map is empty. *)
Theorem coordinator_no_leak s :
  reachable s -> Forall (fun g => g = Idle) (goroutines s) -> entries (shared s) = ∅.
Proof.
  intros Hr%reachable_invariant Hidle. apply map_eq. intros uid. rewrite lookup_empty.
  destruct (entries (shared s) !! uid) as [e|] eqn:E; [|done].
  destruct (inv_entry _ Hr _ _ E) as (entry & _ & Href & Hpos & _).
  rewrite count_zero in Href; [lia|]. intros g Hg. rewrite Forall_forall in Hidle. by rewrite (Hidle g Hg).
Qed.
