(* ===== verification/Binding.v ===== *)
(** * Durable bindings between Kubernetes objects and OpenStack graphs

    Models [internal/controller/config.go], [identity.go] and [binding.go], and
    the metadata functions of [gateway/gateway_binding.go],
    [gateway/gateway_scope.go], [gateway/gateway_snapshot.go] and
    [httproute/httproute_binding.go]: which annotations and finalizers record the
    identity of a graph, how they are written, checked and removed. *)
From stdpp Require Import base list strings gmap.
From Stdlib Require Import ZArith Lia Ascii.
From S2P Require Import Prelude GoStrings GoSha256 Cloud Kube.

Set Default Goal Selector "!".

(** ** Configuration (config.go) *)

Record Config := mkConfig {
  cfg_ControllerName : string;
  cfg_ControllerVersion : string;
  cfg_OpenStackProjectID : string;
  cfg_ClusterID : string;
  cfg_Provider : string;
  cfg_VIPSubnetID : string;
  cfg_ExternalNetworkID : string;
  cfg_MemberSubnetID : string;
  cfg_MemberMode : string;
  cfg_NodeAddressType : string;
  cfg_HealthPath : string;
  cfg_OpenStackResyncInterval : Z
}.

Definition isLowerAlnum (c : ascii) : bool :=
  let n := N_of_ascii c in ((97 <=? n) && (n <=? 122) || (48 <=? n) && (n <=? 57))%N.
Definition isLabelChar (c : ascii) : bool := isLowerAlnum c || Ascii.eqb c "-".
Definition isPathChar (c : ascii) : bool :=
  let n := N_of_ascii c in
  ((97 <=? n) && (n <=? 122) || (65 <=? n) && (n <=? 90) || (48 <=? n) && (n <=? 57))%N
  || existsb (Ascii.eqb c) (String.list_ascii_of_string "/-._~%!$&'()*+,;=:").

(** [[a-z0-9]([-a-z0-9]*[a-z0-9])?]: the first and the last character are
    alphanumeric, those between may be hyphens. *)
Definition isLabel (l : list ascii) : bool :=
  match l, rev l with
  | first :: _, last :: _ => isLowerAlnum first && isLowerAlnum last && forallb isLabelChar l
  | _, _ => false
  end.

(** The labels of a name, separated by dots. *)
Fixpoint labels (l : list ascii) (current : list ascii) : list (list ascii) :=
  match l with
  | [] => [rev current]
  | c :: l' => if Ascii.eqb c "." then rev current :: labels l' [] else labels l' (c :: current)
  end.

(** [IsValidControllerName]: [gatewayControllerNamePattern] reads labels
    separated by dots up to the first slash, which no label contains, and path
    characters after it. *)
Definition IsValidControllerName (name : string) : bool :=
  (String.length name <=? 253) &&
  match Cut name "/" with
  | None => false
  | Some (domain, path) =>
      forallb isLabel (labels (String.list_ascii_of_string domain) []) &&
      negb (String.eqb path "") && forallb isPathChar (String.list_ascii_of_string path)
  end.

Definition configFieldBlank (field : string * string) : outcome_of unit :=
  if blank (snd field) then Err (Errorf "%s must not be empty" [fst field] None) else Ok tt.

(** [Config.Validate]. *)
Definition ValidateConfig (c : Config) : outcome_of unit :=
  if negb (IsValidControllerName (cfg_ControllerName c)) then
    Err (Errorf "controller name %q must be a domain prefixed path" [cfg_ControllerName c] None)
  else
    let? _ := forM_ configFieldBlank
      [("cluster ID", cfg_ClusterID c); ("octavia provider", cfg_Provider c);
       ("VIP subnet ID", cfg_VIPSubnetID c); ("member subnet ID", cfg_MemberSubnetID c)] in
    if negb (String.eqb (cfg_Provider c) "amphora") then
      Err (Errorf "octavia provider %q is unsupported in Phase 1; only amphora has been verified"
             [cfg_Provider c] None)
    else if negb (String.eqb (cfg_MemberMode c) "NodePort") then
      Err (Errorf "member mode %q is unsupported in Phase 1; use %s" [cfg_MemberMode c; "NodePort"] None)
    else if negb (String.eqb (cfg_NodeAddressType c) "InternalIP") &&
            negb (String.eqb (cfg_NodeAddressType c) "ExternalIP") then
      Err (Errorf "node address type must be InternalIP or ExternalIP" [] None)
    else if negb (HasPrefix (cfg_HealthPath c) "/") then
      Err (Errorf "health path must begin with '/'" [] None)
    else if (cfg_OpenStackResyncInterval c <=? 0)%Z then
      Err (Errorf "OpenStack resync interval must be greater than zero" [] None)
    else Ok tt.

(** *** Keys *)

(** [fmt.Sprintf("%x", digest[:6])] of a digest. *)
Definition shortDigest (input : string) : string := hex (firstn 6 (Sum256 input)).

Definition Domain (c : Config) : string :=
  match Cut (cfg_ControllerName c) "/" with
  | Some (domain, _) => domain
  | None => cfg_ControllerName c
  end.
Definition controllerKey (c : Config) : string := shortDigest (cfg_ControllerName c).

Definition GatewayFinalizer (c : Config) : string := Domain c ^^ "/gateway-finalizer-" ^^ controllerKey c.
Definition RouteFinalizer (c : Config) : string := Domain c ^^ "/httproute-finalizer-" ^^ controllerKey c.
Definition RouteBindingFinalizerPrefix (c : Config) : string :=
  Domain c ^^ "/httproute-binding-" ^^ controllerKey c ^^ "-".
Definition NUL : ascii := ascii_of_N 0.
Definition bindingInput (clusterID projectID gatewayNamespace gatewayName gatewayUID : string) : string :=
  Join [clusterID; projectID; gatewayNamespace; gatewayName; gatewayUID] (String NUL "").
Definition RouteBindingFinalizer (c : Config)
    (clusterID projectID gatewayNamespace gatewayName gatewayUID : string) : string :=
  RouteBindingFinalizerPrefix c ^^
    shortDigest (bindingInput clusterID projectID gatewayNamespace gatewayName gatewayUID).

Definition RouteGatewayNamespaceAnnotation (c : Config) : string :=
  Domain c ^^ "/route-gateway-namespace-" ^^ controllerKey c.
Definition RouteGatewayNameAnnotation (c : Config) : string :=
  Domain c ^^ "/route-gateway-name-" ^^ controllerKey c.
Definition RouteGatewayUIDAnnotation (c : Config) : string :=
  Domain c ^^ "/route-gateway-uid-" ^^ controllerKey c.
Definition GatewayListenerPortAnnotation (c : Config) : string :=
  Domain c ^^ "/gateway-listener-port-" ^^ controllerKey c.
Definition GatewayClusterIDAnnotation (c : Config) : string :=
  Domain c ^^ "/gateway-cluster-id-" ^^ controllerKey c.
Definition GatewayProjectIDAnnotation (c : Config) : string :=
  Domain c ^^ "/gateway-project-id-" ^^ controllerKey c.
Definition RouteClusterIDAnnotation (c : Config) : string :=
  Domain c ^^ "/route-cluster-id-" ^^ controllerKey c.
Definition RouteProjectIDAnnotation (c : Config) : string :=
  Domain c ^^ "/route-project-id-" ^^ controllerKey c.
Definition RouteCleanupFailureAnnotation (c : Config) : string :=
  Domain c ^^ "/httproute-cleanup-failure-" ^^ controllerKey c.

(** ** Identities (identity.go) *)

Definition GatewayIdentity (cfg : Config) (gateway : ObjectMeta) : Identity :=
  mkIdentity (cfg_OpenStackProjectID cfg) (cfg_ClusterID cfg) (cfg_ControllerName cfg)
    (cfg_ControllerVersion cfg) (om_Namespace gateway) (om_Name gateway) (om_UID gateway) "" "" "".

Definition RouteIdentity (cfg : Config) (gateway route : ObjectMeta) : Identity :=
  let value := GatewayIdentity cfg gateway in
  mkIdentity (OpenStackProjectID value) (ClusterID value) (Controller value) (ControllerVersion value)
    (GatewayNamespace value) (GatewayName value) (GatewayUID value)
    (om_Namespace route) (om_Name route) (om_UID route).

Definition SameGatewayIdentity (left right : Identity) : bool :=
  String.eqb (GatewayNamespace left) (GatewayNamespace right) &&
  String.eqb (GatewayName left) (GatewayName right) && String.eqb (GatewayUID left) (GatewayUID right).

Section binding.
Context `{ControllerUtil} (config : Config).

(** ** The binding of a Gateway (binding.go, gateway_scope.go) *)

Definition gatewayBindingAnnotationKeys : list string :=
  [GatewayListenerPortAnnotation config; GatewayClusterIDAnnotation config;
   GatewayProjectIDAnnotation config].

Definition incompleteGatewayBinding (gateway : ObjectMeta) : error :=
  Errorf "gateway %s/%s has an incomplete stored OpenStack resource binding; restore the original annotations before reconciling"
    [om_Namespace gateway; om_Name gateway] None.
Definition gatewayClusterDiffers : error :=
  Errorf "controller cluster identity differs from this Gateway's existing resource binding; restore the original cluster ID before reconciling" [] None.
Definition gatewayProjectDiffers : error :=
  Errorf "authenticated OpenStack project differs from this Gateway's existing resource binding; restore access to the original project before reconciling" [] None.

Definition ValidateGatewayBinding (gateway : ObjectMeta) : outcome_of unit :=
  let bindingValues := annotation gateway <$> gatewayBindingAnnotationKeys in
  let populatedBindingCount :=
    length (List.filter (fun value => negb (String.eqb value "")) bindingValues) in
  if negb (populatedBindingCount =? length bindingValues) &&
     (negb (populatedBindingCount =? 0) ||
      ContainsFinalizer (om_Finalizers gateway) (GatewayFinalizer config))
  then Err (incompleteGatewayBinding gateway)
  else
    let stored := annotation gateway (GatewayClusterIDAnnotation config) in
    if negb (String.eqb stored "") && negb (String.eqb stored (cfg_ClusterID config))
    then Err gatewayClusterDiffers
    else
      let stored := annotation gateway (GatewayProjectIDAnnotation config) in
      if negb (String.eqb stored "") && negb (String.eqb stored (cfg_OpenStackProjectID config))
      then Err gatewayProjectDiffers
      else Ok tt.

Definition GatewayHasControllerBinding (gateway : ObjectMeta) : bool :=
  ContainsFinalizer (om_Finalizers gateway) (GatewayFinalizer config) ||
  existsb (fun key => negb (String.eqb (annotation gateway key) "")) gatewayBindingAnnotationKeys.

Definition GatewayBindingMetadataEqual (left right : ObjectMeta) : bool :=
  if negb (Bool.eqb (ContainsFinalizer (om_Finalizers left) (GatewayFinalizer config))
             (ContainsFinalizer (om_Finalizers right) (GatewayFinalizer config)))
  then false
  else forallb (fun key => String.eqb (annotation left key) (annotation right key))
         gatewayBindingAnnotationKeys.

Definition gatewayOwnedMetadataChanged (left right : ObjectMeta) : bool :=
  if negb (Bool.eqb (ContainsFinalizer (om_Finalizers left) (GatewayFinalizer config))
             (ContainsFinalizer (om_Finalizers right) (GatewayFinalizer config)))
  then true
  else existsb (fun key => negb (String.eqb (annotation left key) (annotation right key)))
         gatewayBindingAnnotationKeys.

Definition copyAnnotation (desired target : ObjectMeta) (key : string) : ObjectMeta :=
  let value := annotation desired key in
  if negb (String.eqb value "") then setAnnotation target key value else deleteAnnotation target key.

Definition copyGatewayOwnedMetadata (target desired : ObjectMeta) : ObjectMeta :=
  let target :=
    if ContainsFinalizer (om_Finalizers desired) (GatewayFinalizer config)
    then withFinalizers target (AddFinalizer (om_Finalizers target) (GatewayFinalizer config))
    else withFinalizers target (RemoveFinalizer (om_Finalizers target) (GatewayFinalizer config)) in
  foldl (copyAnnotation desired) (makeAnnotations target) gatewayBindingAnnotationKeys.

(** The changes of [bindGateway] to the Gateway's metadata. *)
Definition applyGatewayBinding (gateway : ObjectMeta) (desiredListenerPort : string) : ObjectMeta :=
  let gateway := makeAnnotations gateway in
  let gateway := setAnnotation gateway (GatewayListenerPortAnnotation config) desiredListenerPort in
  let gateway := setAnnotation gateway (GatewayClusterIDAnnotation config) (cfg_ClusterID config) in
  let gateway := setAnnotation gateway (GatewayProjectIDAnnotation config)
                   (cfg_OpenStackProjectID config) in
  withFinalizers gateway (AddFinalizer (om_Finalizers gateway) (GatewayFinalizer config)).

Definition gatewayBindingComplete (gateway : ObjectMeta) : bool :=
  ContainsFinalizer (om_Finalizers gateway) (GatewayFinalizer config) &&
  negb (String.eqb (annotation gateway (GatewayListenerPortAnnotation config)) "") &&
  negb (String.eqb (annotation gateway (GatewayClusterIDAnnotation config)) "") &&
  negb (String.eqb (annotation gateway (GatewayProjectIDAnnotation config)) "").

Definition StoredGatewayIdentity (gateway : ObjectMeta) : Identity :=
  let identity := GatewayIdentity config gateway in
  let cluster := annotation gateway (GatewayClusterIDAnnotation config) in
  let project := annotation gateway (GatewayProjectIDAnnotation config) in
  mkIdentity
    (if negb (String.eqb project "") then project else OpenStackProjectID identity)
    (if negb (String.eqb cluster "") then cluster else ClusterID identity)
    (Controller identity) (ControllerVersion identity) (GatewayNamespace identity)
    (GatewayName identity) (GatewayUID identity)
    (RouteNamespace identity) (RouteName identity) (RouteUID identity).

(** ** The binding of an HTTPRoute (binding.go, httproute_binding.go) *)

Definition routeBindingAnnotationKeys : list string :=
  [RouteGatewayNamespaceAnnotation config; RouteGatewayNameAnnotation config;
   RouteGatewayUIDAnnotation config; RouteClusterIDAnnotation config; RouteProjectIDAnnotation config].

Definition isRouteBindingFinalizer (finalizer : string) : bool :=
  HasPrefix finalizer (RouteBindingFinalizerPrefix config).

Definition hasRouteBindingFinalizer (route : ObjectMeta) : bool :=
  existsb isRouteBindingFinalizer (om_Finalizers route).

Definition routeHasBindingAnnotations (route : ObjectMeta) : bool :=
  existsb (fun key => negb (String.eqb (annotation route key) "")) routeBindingAnnotationKeys.

Definition RouteHasControllerBinding (route : ObjectMeta) : bool :=
  ContainsFinalizer (om_Finalizers route) (RouteFinalizer config) ||
  hasRouteBindingFinalizer route || routeHasBindingAnnotations route.

Definition incompleteRouteBinding (route : ObjectMeta) : error :=
  Errorf "HTTPRoute %s/%s has an incomplete stored Gateway identity" [om_Namespace route; om_Name route] None.
Definition routeClusterDiffers (route : ObjectMeta) : error :=
  Errorf "controller cluster identity differs from HTTPRoute %s/%s's existing resource binding; restore the original cluster ID before reconciling"
    [om_Namespace route; om_Name route] None.
Definition routeProjectDiffers (route : ObjectMeta) : error :=
  Errorf "authenticated OpenStack project differs from HTTPRoute %s/%s's existing resource binding; restore access to the original project before reconciling"
    [om_Namespace route; om_Name route] None.
Definition routeFinalizerDiffers (route : ObjectMeta) : error :=
  Errorf "HTTPRoute %s/%s stored Gateway identity does not match its binding finalizer; restore the original binding before reconciling"
    [om_Namespace route; om_Name route] None.
Definition routeFinalizerConflict (route : ObjectMeta) : error :=
  Errorf "HTTPRoute %s/%s has a conflicting Gateway binding finalizer" [om_Namespace route; om_Name route] None.

(** [StoredRouteIdentity]: [Ok None] is [(_, false, nil)]. *)
Definition StoredRouteIdentity (route : ObjectMeta) : outcome_of (option Identity) :=
  let ns := annotation route (RouteGatewayNamespaceAnnotation config) in
  let name := annotation route (RouteGatewayNameAnnotation config) in
  let uid := annotation route (RouteGatewayUIDAnnotation config) in
  let values := [ns; name; uid] in
  let empty := length (List.filter (fun value => String.eqb value "") values) in
  if empty =? length values then
    if negb (String.eqb (annotation route (RouteClusterIDAnnotation config)) "") ||
       negb (String.eqb (annotation route (RouteProjectIDAnnotation config)) "") ||
       hasRouteBindingFinalizer route
    then Err (incompleteRouteBinding route)
    else Ok None
  else if negb (empty =? 0) then Err (incompleteRouteBinding route)
  else
    let clusterID := let v := annotation route (RouteClusterIDAnnotation config) in
                     if String.eqb v "" then cfg_ClusterID config else v in
    let projectID := let v := annotation route (RouteProjectIDAnnotation config) in
                     if String.eqb v "" then cfg_OpenStackProjectID config else v in
    let identity := mkIdentity projectID clusterID (cfg_ControllerName config)
      (cfg_ControllerVersion config) ns name uid (om_Namespace route) (om_Name route) (om_UID route) in
    if negb (String.eqb (ClusterID identity) (cfg_ClusterID config)) then Err (routeClusterDiffers route)
    else if negb (String.eqb (OpenStackProjectID identity) (cfg_OpenStackProjectID config))
    then Err (routeProjectDiffers route)
    else
      let? _ := ValidateRouteIdentity identity in
      let expected := RouteBindingFinalizer config (ClusterID identity) (OpenStackProjectID identity)
        (GatewayNamespace identity) (GatewayName identity) (GatewayUID identity) in
      if ContainsFinalizer (om_Finalizers route) (RouteFinalizer config) &&
         negb (ContainsFinalizer (om_Finalizers route) expected)
      then Err (routeFinalizerDiffers route)
      else if existsb (fun f => isRouteBindingFinalizer f && negb (String.eqb f expected))
                (om_Finalizers route)
      then Err (routeFinalizerConflict route)
      else Ok (Some identity).

Definition removeStaleRouteBindingFinalizers (route : ObjectMeta) (expected : string) : ObjectMeta :=
  withFinalizers route
    (List.filter (fun f => negb (isRouteBindingFinalizer f && negb (String.eqb f expected)))
       (om_Finalizers route)).

Definition applyRouteBinding (route gateway : ObjectMeta) : ObjectMeta :=
  let route := makeAnnotations route in
  let route := setAnnotation route (RouteGatewayNamespaceAnnotation config) (om_Namespace gateway) in
  let route := setAnnotation route (RouteGatewayNameAnnotation config) (om_Name gateway) in
  let route := setAnnotation route (RouteGatewayUIDAnnotation config) (om_UID gateway) in
  let route := setAnnotation route (RouteClusterIDAnnotation config) (cfg_ClusterID config) in
  let route := setAnnotation route (RouteProjectIDAnnotation config) (cfg_OpenStackProjectID config) in
  let route := deleteAnnotation route (RouteCleanupFailureAnnotation config) in
  let bindingFinalizer := RouteBindingFinalizer config (cfg_ClusterID config)
    (cfg_OpenStackProjectID config) (om_Namespace gateway) (om_Name gateway) (om_UID gateway) in
  let route := removeStaleRouteBindingFinalizers route bindingFinalizer in
  let route := withFinalizers route (AddFinalizer (om_Finalizers route) bindingFinalizer) in
  withFinalizers route (AddFinalizer (om_Finalizers route) (RouteFinalizer config)).

(** The loop runs over a copy of the finalizers it removes from. *)
Definition removeRouteBindingFinalizers (route : ObjectMeta) : ObjectMeta :=
  foldl (fun route finalizer =>
      if isRouteBindingFinalizer finalizer
      then withFinalizers route (RemoveFinalizer (om_Finalizers route) finalizer) else route)
    route (om_Finalizers route).

Definition clearRouteBinding (route : ObjectMeta) : ObjectMeta :=
  let route := withFinalizers route (RemoveFinalizer (om_Finalizers route) (RouteFinalizer config)) in
  let route := removeRouteBindingFinalizers route in
  let route := deleteAnnotation route (RouteGatewayNamespaceAnnotation config) in
  let route := deleteAnnotation route (RouteGatewayNameAnnotation config) in
  let route := deleteAnnotation route (RouteGatewayUIDAnnotation config) in
  let route := deleteAnnotation route (RouteClusterIDAnnotation config) in
  let route := deleteAnnotation route (RouteProjectIDAnnotation config) in
  deleteAnnotation route (RouteCleanupFailureAnnotation config).

Definition sameHTTPRouteRevision (route : ObjectMeta) (uid : string) (generation : Z) (isDeleting : bool)
    : bool :=
  String.eqb (om_UID route) uid && (om_Generation route =? generation)%Z &&
  Bool.eqb (om_Deleting route) isDeleting.
End binding.
