(* ===== verification/BindingFacts.v ===== *)
(** * Theorems about durable bindings

    A binding that was written is read back; a cleared one is gone and nothing
    else of the object has changed; edited annotations are not followed to
    another Gateway's graph; controllers do not touch each other's bindings. *)
From stdpp Require Import base list strings gmap.
From Stdlib Require Import ZArith Lia Ascii.
From S2P Require Import Prelude GoStrings GoSha256 Cloud Kube Binding.

Set Default Goal Selector "!".

(** ** Keys *)

Lemma Cut_None s c : Cut s c = None -> str_without c s = true.
Proof.
  induction s as [|d s IH]; simpl; [done|]. destruct (Ascii.eqb d c); [done|].
  destruct (Cut s c) as [[]|]; [done|]. intros _. by rewrite IH.
Qed.

Lemma Domain_without_slash c : str_without "/" (Domain c) = true.
Proof.
  unfold Domain. destruct (Cut _ _) as [[d p]|] eqn:E; [by apply Cut_inv in E as [_ ?]|by apply Cut_None].
Qed.

Lemma length_hex l : String.length (hex l) = 2 * length l.
Proof. induction l as [|b l IH]; [done|]. cbn. rewrite IH. lia. Qed.

Lemma length_shortDigest s : String.length (shortDigest s) = 12.
Proof.
  unfold shortDigest. rewrite length_hex, length_firstn. unfold Sum256. rewrite sha256_length. done.
Qed.
Opaque shortDigest.

(** Every key but the binding finalizers has this form. *)
Definition key (c : Config) (role : string) : string := Domain c ^^ "/" ^^ role ^^ controllerKey c.

Lemma append_inj_r a a' b b' :
  String.length b = String.length b' -> a ^^ b = a' ^^ b' -> a = a' /\ b = b'.
Proof.
  intros Hl He. apply append_inj; [|done]. apply (f_equal String.length) in He.
  rewrite !length_append in He. lia.
Qed.

Lemma slash_inj c c' r r' :
  Domain c ^^ "/" ^^ r = Domain c' ^^ "/" ^^ r' -> Domain c = Domain c' /\ r = r'.
Proof. apply sep_inj; apply Domain_without_slash. Qed.

Lemma key_inj c c' r r' : key c r = key c' r' -> controllerKey c = controllerKey c' /\ r = r'.
Proof.
  intros [_ H]%slash_inj. apply append_inj_r in H as [-> ->]; [done|]. unfold controllerKey.
  by rewrite !length_shortDigest.
Qed.

Lemma eqb_key c r r' : String.eqb (key c r) (key c r') = String.eqb r r'.
Proof.
  destruct (String.eqb_spec r r') as [->|Hne]; [apply String.eqb_refl|].
  apply String.eqb_neq. by intros [_ ?]%key_inj.
Qed.

Lemma eqb_key_other c c' r r' :
  controllerKey c <> controllerKey c' -> String.eqb (key c r) (key c' r') = false.
Proof. intros Hne. apply String.eqb_neq. by intros [? _]%key_inj. Qed.

Lemma isRouteBindingFinalizer_spec c f :
  isRouteBindingFinalizer c f = true <->
  exists rest, f = Domain c ^^ "/" ^^ "httproute-binding-" ^^ controllerKey c ^^ "-" ^^ rest.
Proof.
  unfold isRouteBindingFinalizer, RouteBindingFinalizerPrefix. rewrite prefix_iff.
  split; intros [rest ->]; exists rest; [|cbn]; by rewrite !append_assoc.
Qed.

Lemma RouteBindingFinalizer_is_binding c a b d e g :
  isRouteBindingFinalizer c (RouteBindingFinalizer c a b d e g) = true.
Proof. apply HasPrefix_append. Qed.

(** The other finalizer of an HTTPRoute is no binding finalizer, and no binding
    finalizer belongs to two controllers. *)
Lemma RouteFinalizer_not_binding c c' : isRouteBindingFinalizer c (RouteFinalizer c') = false.
Proof.
  apply not_true_iff_false. rewrite isRouteBindingFinalizer_spec. intros [rest H].
  by apply (slash_inj c' c ("httproute-finalizer-" ^^ controllerKey c')) in H as [_ H].
Qed.

Lemma binding_finalizer_owner c c' f :
  isRouteBindingFinalizer c f = true -> isRouteBindingFinalizer c' f = true ->
  controllerKey c = controllerKey c'.
Proof.
  rewrite !isRouteBindingFinalizer_spec. intros [r ->] [r' [_ H]%slash_inj].
  apply append_inj_l, append_inj in H as [H _]; [done|]. unfold controllerKey. by rewrite !length_shortDigest.
Qed.

Lemma RouteBindingFinalizer_inj c a b d e g a' b' d' e' g' :
  RouteBindingFinalizer c a b d e g = RouteBindingFinalizer c a' b' d' e' g' ->
  shortDigest (bindingInput a b d e g) = shortDigest (bindingInput a' b' d' e' g').
Proof. apply append_inj_l. Qed.

(** *** The encoding of a binding *)

Fixpoint occurrences (c : ascii) (s : string) : nat :=
  match s with
  | EmptyString => 0
  | String d s' => (if Ascii.eqb d c then 1 else 0) + occurrences c s'
  end.

Lemma occurrences_append c a b : occurrences c (a ^^ b) = occurrences c a + occurrences c b.
Proof. induction a as [|d a IH]; simpl; [done|]. rewrite IH. lia. Qed.

Lemma occurrences_zero c s : occurrences c s = 0 <-> str_without c s = true.
Proof.
  induction s as [|d s IH]; simpl; [done|]. destruct (Ascii.eqb d c); simpl; [done|]. exact IH.
Qed.

(** Three fields without the separator cannot be read as three other fields. *)
Lemma three_fields_inj c x y z x' y' z' :
  str_without c x = true -> str_without c y = true -> str_without c z = true ->
  x ^^ String c (y ^^ String c z) = x' ^^ String c (y' ^^ String c z') ->
  x = x' /\ y = y' /\ z = z'.
Proof.
  intros Hx Hy Hz H. pose proof (f_equal (occurrences c) H) as Ho.
  rewrite !occurrences_append in Ho. simpl in Ho. rewrite !occurrences_append in Ho. simpl in Ho.
  rewrite Ascii.eqb_refl in Ho. rewrite <- !occurrences_zero in Hx, Hy, Hz.
  assert (occurrences c x' = 0 /\ occurrences c y' = 0) as [Hx' Hy'] by lia.
  rewrite occurrences_zero in *.
  apply sep_inj in H as [-> H]; [|done..]. by apply sep_inj in H as [-> ->].
Qed.

Lemma bindingInput_inj c p x y z x' y' z' :
  str_without NUL x = true -> str_without NUL y = true -> str_without NUL z = true ->
  bindingInput c p x y z = bindingInput c p x' y' z' -> x = x' /\ y = y' /\ z = z'.
Proof.
  intros Hx Hy Hz H. unfold bindingInput in H. cbn [Join] in H.
  apply append_inj_l, append_inj_l, append_inj_l, append_inj_l in H.
  by apply (three_fields_inj NUL).
Qed.

(** *** Reading annotations back *)

Lemma annotation_withFinalizers o l k : annotation (withFinalizers o l) k = annotation o k.
Proof. done. Qed.

Lemma made_annotations o : is_Some (om_Annotations (makeAnnotations o)).
Proof. by eexists. Qed.
Lemma set_annotations o k v : is_Some (om_Annotations o) -> is_Some (om_Annotations (setAnnotation o k v)).
Proof. intros [m Hm]. simpl. rewrite Hm. by eexists. Qed.
Lemma delete_annotations o k : is_Some (om_Annotations o) -> is_Some (om_Annotations (deleteAnnotation o k)).
Proof. intros [m Hm]. simpl. rewrite Hm. by eexists. Qed.

Create HintDb binding.
#[export] Hint Resolve made_annotations set_annotations delete_annotations : binding.

(** Brings every key into the form of [key] and evaluates the reads. *)
Ltac keys :=
  repeat match goal with |- context [?f ?c] =>
    match f with
    | RouteGatewayNamespaceAnnotation => change (f c) with (key c "route-gateway-namespace-")
    | RouteGatewayNameAnnotation => change (f c) with (key c "route-gateway-name-")
    | RouteGatewayUIDAnnotation => change (f c) with (key c "route-gateway-uid-")
    | GatewayListenerPortAnnotation => change (f c) with (key c "gateway-listener-port-")
    | GatewayClusterIDAnnotation => change (f c) with (key c "gateway-cluster-id-")
    | GatewayProjectIDAnnotation => change (f c) with (key c "gateway-project-id-")
    | RouteClusterIDAnnotation => change (f c) with (key c "route-cluster-id-")
    | RouteProjectIDAnnotation => change (f c) with (key c "route-project-id-")
    | RouteCleanupFailureAnnotation => change (f c) with (key c "httproute-cleanup-failure-")
    end
  end.
Ltac annotations :=
  keys; repeat first
    [ rewrite annotation_withFinalizers | rewrite annotation_delete | rewrite annotation_make
    | rewrite annotation_set by eauto 10 with binding ];
  rewrite ?eqb_key; cbn [String.eqb Ascii.eqb Bool.eqb].

Section facts.
Context `{ControllerUtilLaws} (config : Config).

(** ** Gateways *)

(** A validated binding never redirects the controller: the identity read from
    it, which cleanup uses, is the one the configuration gives. *)
Lemma ValidateGatewayBinding_identity gateway :
  ValidateGatewayBinding config gateway = Ok tt ->
  StoredGatewayIdentity config gateway = GatewayIdentity config gateway.
Proof.
  unfold ValidateGatewayBinding, StoredGatewayIdentity, GatewayIdentity. cbv zeta.
  destruct (_ && (_ || _)); [done|]. cbn [OpenStackProjectID ClusterID Controller ControllerVersion
    GatewayNamespace GatewayName GatewayUID RouteNamespace RouteName RouteUID].
  destruct (String.eqb_spec (annotation gateway (GatewayClusterIDAnnotation config)) ""); simpl;
    [|destruct (String.eqb_spec (annotation gateway (GatewayClusterIDAnnotation config)) (cfg_ClusterID config));
      simpl; [|done]];
  (destruct (String.eqb_spec (annotation gateway (GatewayProjectIDAnnotation config)) ""); simpl;
    [|destruct (String.eqb_spec (annotation gateway (GatewayProjectIDAnnotation config)) (cfg_OpenStackProjectID config));
      simpl; [|done]]); intros _; congruence.
Qed.

(** What [bindGateway] stores. *)
Lemma applyGatewayBinding_read gateway port :
  let bound := applyGatewayBinding config gateway port in
  annotation bound (GatewayListenerPortAnnotation config) = port /\
  annotation bound (GatewayClusterIDAnnotation config) = cfg_ClusterID config /\
  annotation bound (GatewayProjectIDAnnotation config) = cfg_OpenStackProjectID config /\
  ContainsFinalizer (om_Finalizers bound) (GatewayFinalizer config) = true.
Proof.
  cbv zeta. unfold applyGatewayBinding. split_and!; [annotations; done..|].
  apply contains_spec. simpl. apply add_spec. by left.
Qed.

(** A Gateway that was bound passes the binding check, counts as completely
    bound, and the identity cleanup reads from it is the configured one. *)
Theorem gateway_binding_round_trip gateway port :
  port <> "" -> cfg_ClusterID config <> "" -> cfg_OpenStackProjectID config <> "" ->
  let bound := applyGatewayBinding config gateway port in
  ValidateGatewayBinding config bound = Ok tt /\ gatewayBindingComplete config bound = true /\
  GatewayHasControllerBinding config bound = true /\
  StoredGatewayIdentity config bound = GatewayIdentity config gateway.
Proof.
  intros Hp Hc Hj. cbv zeta. pose proof (applyGatewayBinding_read gateway port) as (Hp' & Hc' & Hj' & Hf).
  set (bound := applyGatewayBinding config gateway port) in *.
  apply String.eqb_neq in Hp, Hc, Hj.
  assert (ValidateGatewayBinding config bound = Ok tt) as Hv.
  { unfold ValidateGatewayBinding, gatewayBindingAnnotationKeys. cbn [fmap list_fmap].
    rewrite Hp', Hc', Hj'. cbn [List.filter]. rewrite Hp, Hc, Hj, !String.eqb_refl. done. }
  split_and!; [done|..].
  - unfold gatewayBindingComplete. by rewrite Hf, Hp', Hc', Hj', Hp, Hc, Hj.
  - unfold GatewayHasControllerBinding. by rewrite Hf.
  - by apply ValidateGatewayBinding_identity in Hv.
Qed.

Lemma copyAnnotation_read desired target k k' :
  is_Some (om_Annotations target) ->
  annotation (copyAnnotation desired target k) k' =
  if String.eqb k k' then annotation desired k else annotation target k'.
Proof.
  intros Hs. unfold copyAnnotation. destruct (String.eqb_spec (annotation desired k) "") as [E|E]; simpl.
  - rewrite annotation_delete, E. done.
  - by rewrite annotation_set.
Qed.

Lemma copyAnnotation_annotations desired target k :
  is_Some (om_Annotations target) -> is_Some (om_Annotations (copyAnnotation desired target k)).
Proof. unfold copyAnnotation. case_match; auto with binding. Qed.
Hint Resolve copyAnnotation_annotations : binding.

Lemma copyAnnotation_Finalizers desired target k :
  om_Finalizers (copyAnnotation desired target k) = om_Finalizers target.
Proof. unfold copyAnnotation. by case_match. Qed.

(** Copying the owned metadata makes the target agree with the desired
    Gateway on it and changes no other annotation or finalizer. *)
Theorem copyGatewayOwnedMetadata_copies target desired :
  let copied := copyGatewayOwnedMetadata config target desired in
  gatewayOwnedMetadataChanged config copied desired = false /\
  (forall k, k ∉ gatewayBindingAnnotationKeys config -> annotation copied k = annotation target k) /\
  (forall f, f <> GatewayFinalizer config -> f ∈ om_Finalizers copied <-> f ∈ om_Finalizers target).
Proof.
  cbv zeta. unfold copyGatewayOwnedMetadata.
  set (t := if ContainsFinalizer _ _ then _ else _).
  assert (forall k, annotation t k = annotation target k) as Ht by (intros; unfold t; by case_match).
  assert (forall f, f ∈ om_Finalizers t <->
    if decide (f = GatewayFinalizer config) then GatewayFinalizer config ∈ om_Finalizers desired
    else f ∈ om_Finalizers target) as Hf.
  { intros f. unfold t. destruct (ContainsFinalizer _ _) eqn:E; simpl;
      [apply contains_spec in E; rewrite add_spec|rewrite remove_spec; apply not_true_iff_false in E;
       rewrite contains_spec in E]; case_decide; naive_solver. }
  clearbody t. unfold gatewayBindingAnnotationKeys. cbn [foldl]. split_and!.
  - unfold gatewayOwnedMetadataChanged. rewrite !copyAnnotation_Finalizers.
    assert (ContainsFinalizer (om_Finalizers (makeAnnotations t)) (GatewayFinalizer config) =
      ContainsFinalizer (om_Finalizers desired) (GatewayFinalizer config)) as ->.
    { apply eq_true_iff_eq. rewrite !contains_spec. etrans; [apply Hf|]. by rewrite decide_True. }
    rewrite Bool.eqb_reflx. cbn [negb]. unfold gatewayBindingAnnotationKeys. keys. cbn [existsb].
    rewrite !copyAnnotation_read by auto 10 with binding. rewrite !eqb_key.
    cbn [String.eqb Ascii.eqb Bool.eqb]. by rewrite !String.eqb_refl.
  - intros k Hk. rewrite !copyAnnotation_read, annotation_make, Ht by auto 10 with binding.
    rewrite !not_elem_of_cons in Hk. destruct Hk as (H1 & H2 & H3 & _).
    by rewrite !(proj2 (String.eqb_neq _ _)) by congruence.
  - intros f Hne. rewrite !copyAnnotation_Finalizers. etrans; [apply Hf|]. by rewrite decide_False.
Qed.

(** ** HTTPRoutes *)

Definition boundFinalizer (gateway : ObjectMeta) : string :=
  RouteBindingFinalizer config (cfg_ClusterID config) (cfg_OpenStackProjectID config)
    (om_Namespace gateway) (om_Name gateway) (om_UID gateway).

Lemma applyRouteBinding_finalizers route gateway f :
  f ∈ om_Finalizers (applyRouteBinding config route gateway) <->
  f = RouteFinalizer config \/ f = boundFinalizer gateway \/
  f ∈ om_Finalizers route /\ isRouteBindingFinalizer config f = false.
Proof.
  unfold applyRouteBinding. cbn [om_Finalizers withFinalizers]. rewrite !add_spec.
  unfold removeStaleRouteBindingFinalizers. cbn [om_Finalizers withFinalizers].
  change (RouteBindingFinalizer config _ _ _ _ _) with (boundFinalizer gateway).
  rewrite list_elem_of_In, List.filter_In, <- list_elem_of_In.
  change (om_Finalizers (deleteAnnotation _ _)) with (om_Finalizers route).
  destruct (String.eqb_spec f (boundFinalizer gateway)); destruct (isRouteBindingFinalizer config f); simpl;
    naive_solver.
Qed.

Lemma applyRouteBinding_read route gateway :
  let bound := applyRouteBinding config route gateway in
  annotation bound (RouteGatewayNamespaceAnnotation config) = om_Namespace gateway /\
  annotation bound (RouteGatewayNameAnnotation config) = om_Name gateway /\
  annotation bound (RouteGatewayUIDAnnotation config) = om_UID gateway /\
  annotation bound (RouteClusterIDAnnotation config) = cfg_ClusterID config /\
  annotation bound (RouteProjectIDAnnotation config) = cfg_OpenStackProjectID config.
Proof.
  cbv zeta. unfold applyRouteBinding, removeStaleRouteBindingFinalizers. split_and!; annotations; done.
Qed.

(** The identity a route's annotations spell out, with the defaults of the
    configuration. *)
Definition annotatedIdentity (route : ObjectMeta) : Identity :=
  let orElse v d := if String.eqb v "" then d else v in
  mkIdentity (orElse (annotation route (RouteProjectIDAnnotation config)) (cfg_OpenStackProjectID config))
    (orElse (annotation route (RouteClusterIDAnnotation config)) (cfg_ClusterID config))
    (cfg_ControllerName config) (cfg_ControllerVersion config)
    (annotation route (RouteGatewayNamespaceAnnotation config))
    (annotation route (RouteGatewayNameAnnotation config))
    (annotation route (RouteGatewayUIDAnnotation config))
    (om_Namespace route) (om_Name route) (om_UID route).

(** When a stored identity is accepted. *)
Lemma StoredRouteIdentity_some route id :
  StoredRouteIdentity config route = Ok (Some id) <->
  id = annotatedIdentity route /\ ClusterID id = cfg_ClusterID config /\
  OpenStackProjectID id = cfg_OpenStackProjectID config /\ ValidateRouteIdentity id = Ok tt /\
  (forall f, f ∈ om_Finalizers route -> isRouteBindingFinalizer config f = true ->
     f = RouteBindingFinalizer config (ClusterID id) (OpenStackProjectID id)
           (GatewayNamespace id) (GatewayName id) (GatewayUID id)) /\
  (RouteFinalizer config ∈ om_Finalizers route ->
     RouteBindingFinalizer config (ClusterID id) (OpenStackProjectID id)
       (GatewayNamespace id) (GatewayName id) (GatewayUID id) ∈ om_Finalizers route).
Proof.
  unfold StoredRouteIdentity. cbv zeta. change (mkIdentity _ _ _ _ _ _ _ _ _ _) with (annotatedIdentity route).
  assert (ValidateRouteIdentity (annotatedIdentity route) = Ok tt ->
    annotation route (RouteGatewayNamespaceAnnotation config) <> "" /\
    annotation route (RouteGatewayNameAnnotation config) <> "" /\
    annotation route (RouteGatewayUIDAnnotation config) <> "") as Hne.
  { rewrite ValidateRouteIdentity_ok, ValidateGatewayIdentity_ok. simpl. naive_solver. }
  set (A := annotatedIdentity route) in *. cbn [List.filter length].
  destruct (String.eqb_spec (annotation route (RouteGatewayNamespaceAnnotation config)) "") as [E1|E1];
  destruct (String.eqb_spec (annotation route (RouteGatewayNameAnnotation config)) "") as [E2|E2];
  destruct (String.eqb_spec (annotation route (RouteGatewayUIDAnnotation config)) "") as [E3|E3];
    cbn [List.filter length Nat.eqb negb];
    try (split; [by try case_match|intros (-> & _ & _ & Hv & _); naive_solver]).
  destruct (String.eqb_spec (ClusterID A) (cfg_ClusterID config)) as [Hc|Hc]; cbn [negb];
    [|split; [done|by intros (-> & ? & _)]].
  destruct (String.eqb_spec (OpenStackProjectID A) (cfg_OpenStackProjectID config)) as [Hj|Hj];
    cbn [negb]; [|split; [done|by intros (-> & _ & ? & _)]].
  destruct (ValidateRouteIdentity A) as [[]|] eqn:Ev; cbn [rbind];
    [|split; [done|intros (-> & _ & _ & Hv & _); congruence]].
  set (expected := RouteBindingFinalizer _ _ _ _ _ _).
  destruct (existsb _ (om_Finalizers route)) eqn:Ex.
  - split; [by case_match|]. intros (-> & _ & _ & _ & Hb & _). exfalso.
    apply existsb_exists in Ex as (f & Hf%list_elem_of_In & [Hp Hq%negb_true_iff%String.eqb_neq]%andb_true_iff).
    by apply Hq, Hb.
  - assert (forall f, f ∈ om_Finalizers route -> isRouteBindingFinalizer config f = true -> f = expected) as Hb.
    { intros f Hf Hp. destruct (String.eqb_spec f expected) as [|Hq]; [done|exfalso].
      apply not_true_iff_false in Ex. apply Ex, existsb_exists. exists f. split; [by apply list_elem_of_In|].
      by rewrite Hp, (proj2 (String.eqb_neq _ _) Hq). }
    destruct (ContainsFinalizer (om_Finalizers route) (RouteFinalizer config)) eqn:E4;
    destruct (ContainsFinalizer (om_Finalizers route) expected) eqn:E5; cbn [andb negb];
      rewrite ?contains_spec, <- ?not_true_iff_false, ?contains_spec in *;
      (split; [intros [= <-]; split_and!; done|intros (-> & _ & _ & _ & _ & Hx)]); try done; by destruct E5; apply Hx.
Qed.

Lemma StoredRouteIdentity_none route :
  StoredRouteIdentity config route = Ok None <->
  routeHasBindingAnnotations config route = false /\ hasRouteBindingFinalizer config route = false.
Proof.
  unfold StoredRouteIdentity, routeHasBindingAnnotations, routeBindingAnnotationKeys. cbv zeta.
  cbn [List.filter length existsb].
  destruct (String.eqb (annotation route (RouteGatewayNamespaceAnnotation config)) "");
  destruct (String.eqb (annotation route (RouteGatewayNameAnnotation config)) "");
  destruct (String.eqb (annotation route (RouteGatewayUIDAnnotation config)) "");
    cbn [List.filter length Nat.eqb negb orb]; try (split; [done|naive_solver]).
  - do 2 destruct (String.eqb (annotation route _) ""); destruct (hasRouteBindingFinalizer config route);
      naive_solver.
  - split; [|naive_solver]. unfold rbind. by repeat case_match.
Qed.

(** C35. The identity read back from an HTTPRoute after its binding was written
    is the identity of the route and its Gateway, whatever annotations and stale
    binding finalizers it had. *)
Theorem route_binding_round_trip route gateway :
  ValidateRouteIdentity (RouteIdentity config gateway route) = Ok tt ->
  StoredRouteIdentity config (applyRouteBinding config route gateway) =
    Ok (Some (RouteIdentity config gateway route)).
Proof.
  intros Hv. apply StoredRouteIdentity_some.
  pose proof (applyRouteBinding_read route gateway) as (E1 & E2 & E3 & E4 & E5).
  split_and!; [|done..| |].
  - unfold annotatedIdentity. cbv zeta. rewrite E1, E2, E3, E4, E5.
    assert (forall v, (if String.eqb v "" then v else v) = v) as Hif by (intros; by case_match).
    rewrite !Hif. done.
  - intros f [->|[->|[_ Hf]]]%applyRouteBinding_finalizers Hb; [|done|congruence].
    by rewrite RouteFinalizer_not_binding in Hb.
  - intros _. apply applyRouteBinding_finalizers. by right; left.
Qed.

Lemma removeRouteBindingFinalizers_annotations route :
  om_Annotations (removeRouteBindingFinalizers config route) = om_Annotations route.
Proof.
  unfold removeRouteBindingFinalizers. generalize (om_Finalizers route) as l. intros l. revert route.
  induction l as [|f l IH]; intros route; simpl; [done|]. rewrite IH. by case_match.
Qed.

Lemma removeRouteBindingFinalizers_finalizers route f :
  f ∈ om_Finalizers (removeRouteBindingFinalizers config route) <->
  f ∈ om_Finalizers route /\ isRouteBindingFinalizer config f = false.
Proof.
  unfold removeRouteBindingFinalizers.
  assert (forall l route, f ∈ om_Finalizers (foldl (fun route g => if isRouteBindingFinalizer config g
      then withFinalizers route (RemoveFinalizer (om_Finalizers route) g) else route) route l) <->
    f ∈ om_Finalizers route /\ ~ (f ∈ l /\ isRouteBindingFinalizer config f = true)) as ->.
  { induction l as [|g l IH]; intros o; simpl; [set_solver|]. rewrite IH.
    destruct (isRouteBindingFinalizer config g) eqn:E; simpl; [rewrite remove_spec|];
      rewrite elem_of_cons; destruct (decide (f = g)) as [<-|]; rewrite ?E; intuition congruence. }
  destruct (isRouteBindingFinalizer config f); naive_solver.
Qed.

Lemma clearRouteBinding_finalizers route f :
  f ∈ om_Finalizers (clearRouteBinding config route) <->
  f ∈ om_Finalizers route /\ f <> RouteFinalizer config /\ isRouteBindingFinalizer config f = false.
Proof.
  unfold clearRouteBinding. cbn [om_Finalizers deleteAnnotation withAnnotations].
  rewrite removeRouteBindingFinalizers_finalizers. cbn [om_Finalizers withFinalizers].
  rewrite remove_spec. tauto.
Qed.

Lemma clearRouteBinding_read route k :
  annotation (clearRouteBinding config route) k =
  if bool_decide (k ∈ RouteCleanupFailureAnnotation config :: routeBindingAnnotationKeys config) then ""
  else annotation route k.
Proof.
  unfold clearRouteBinding. rewrite !annotation_delete.
  assert (forall o, annotation (removeRouteBindingFinalizers config o) k = annotation o k) as ->
    by (intros; unfold annotation; by rewrite removeRouteBindingFinalizers_annotations).
  rewrite annotation_withFinalizers. unfold routeBindingAnnotationKeys.
  case_bool_decide as Hk.
  - repeat (apply elem_of_cons in Hk as [->|Hk]; [rewrite String.eqb_refl; by repeat case_match|]). set_solver.
  - rewrite !not_elem_of_cons in Hk. destruct_and!.
    by rewrite !(proj2 (String.eqb_neq _ _)) by congruence.
Qed.

Lemma removeRouteBindingFinalizers_name route :
  om_Namespace (removeRouteBindingFinalizers config route) = om_Namespace route /\
  om_Name (removeRouteBindingFinalizers config route) = om_Name route /\
  om_UID (removeRouteBindingFinalizers config route) = om_UID route.
Proof.
  unfold removeRouteBindingFinalizers. generalize (om_Finalizers route) as l. intros l. revert route.
  induction l as [|f l IH]; intros route; simpl; [done|].
  destruct (IH (if isRouteBindingFinalizer config f
    then withFinalizers route (RemoveFinalizer (om_Finalizers route) f) else route)) as (-> & -> & ->).
  by case_match.
Qed.

Lemma clearRouteBinding_name route :
  om_Namespace (clearRouteBinding config route) = om_Namespace route /\
  om_Name (clearRouteBinding config route) = om_Name route /\
  om_UID (clearRouteBinding config route) = om_UID route.
Proof. apply (removeRouteBindingFinalizers_name (withFinalizers route _)). Qed.

(** Clearing the binding of an HTTPRoute removes every trace of this
    controller and leaves the annotations and finalizers of others as they were.
    *)
Theorem route_binding_cleared route :
  let cleared := clearRouteBinding config route in
  RouteHasControllerBinding config cleared = false /\ StoredRouteIdentity config cleared = Ok None /\
  (forall k, k ∉ RouteCleanupFailureAnnotation config :: routeBindingAnnotationKeys config ->
     annotation cleared k = annotation route k) /\
  (forall f, f <> RouteFinalizer config -> isRouteBindingFinalizer config f = false ->
     f ∈ om_Finalizers cleared <-> f ∈ om_Finalizers route).
Proof.
  cbv zeta.
  assert (hasRouteBindingFinalizer config (clearRouteBinding config route) = false) as Hf.
  { apply not_true_iff_false. intros (f & Hf%list_elem_of_In & Hb)%existsb_exists.
    apply clearRouteBinding_finalizers in Hf as (_ & _ & Hf). congruence. }
  assert (routeHasBindingAnnotations config (clearRouteBinding config route) = false) as Ha.
  { apply not_true_iff_false. intros (k & Hk%list_elem_of_In & Hb)%existsb_exists.
    rewrite clearRouteBinding_read, bool_decide_eq_true_2 in Hb by (by right). done. }
  split_and!.
  - unfold RouteHasControllerBinding. rewrite Hf, Ha, !orb_false_r. apply not_true_iff_false.
    rewrite contains_spec, clearRouteBinding_finalizers. tauto.
  - by apply StoredRouteIdentity_none.
  - intros k Hk. by rewrite clearRouteBinding_read, bool_decide_eq_false_2.
  - intros f Hne Hnb. rewrite clearRouteBinding_finalizers. tauto.
Qed.

(** C34. However the annotations of a bound HTTPRoute are edited while its
    finalizers stay, the stored identity is that of the bound Gateway, or an
    error; it takes a collision of the truncated digest to redirect the
    controller. *)
Theorem edited_route_binding_fails_closed route gateway edited :
  str_without NUL (om_Namespace gateway) = true -> str_without NUL (om_Name gateway) = true ->
  str_without NUL (om_UID gateway) = true ->
  om_Finalizers edited = om_Finalizers (applyRouteBinding config route gateway) ->
  match StoredRouteIdentity config edited with
  | Err _ => True
  | Ok None => False
  | Ok (Some id) =>
      let stored := bindingInput (cfg_ClusterID config) (cfg_OpenStackProjectID config)
        (GatewayNamespace id) (GatewayName id) (GatewayUID id) in
      let bound := bindingInput (cfg_ClusterID config) (cfg_OpenStackProjectID config)
        (om_Namespace gateway) (om_Name gateway) (om_UID gateway) in
      id = RouteIdentity config gateway edited \/ (stored <> bound /\ shortDigest stored = shortDigest bound)
  end.
Proof.
  intros H1 H2 H3 Hf. assert (boundFinalizer gateway ∈ om_Finalizers edited) as Hin.
  { rewrite Hf. apply applyRouteBinding_finalizers. by right; left. }
  destruct (StoredRouteIdentity config edited) as [[id|]|] eqn:E; [| |done].
  - apply StoredRouteIdentity_some in E as (Hid & Hc & Hp & _ & Hb & _).
    specialize (Hb _ Hin (RouteBindingFinalizer_is_binding _ _ _ _ _ _)). rewrite Hc, Hp in Hb.
    apply RouteBindingFinalizer_inj in Hb. cbv zeta.
    destruct (decide (bindingInput (cfg_ClusterID config) (cfg_OpenStackProjectID config)
      (GatewayNamespace id) (GatewayName id) (GatewayUID id) = bindingInput (cfg_ClusterID config)
      (cfg_OpenStackProjectID config) (om_Namespace gateway) (om_Name gateway) (om_UID gateway))) as [Hi|];
      [left|by right].
    symmetry in Hi. apply bindingInput_inj in Hi as (Hn & Hm & Hu); [|done..].
    destruct id. cbn in *. injection Hid as -> -> -> -> -> -> -> -> -> ->. unfold RouteIdentity. cbn. by rewrite Hn, Hm, Hu, Hc, Hp.
  - apply StoredRouteIdentity_none in E as [_ E]. apply not_true_iff_false in E. apply E, existsb_exists.
    exists (boundFinalizer gateway). split; [by apply list_elem_of_In|apply RouteBindingFinalizer_is_binding].
Qed.
End facts.

(** ** Controllers beside each other *)

Section controllers.
Context `{ControllerUtilLaws} (config other : Config).

Definition routeFinalizerOf (f : string) : Prop :=
  f = RouteFinalizer other \/ isRouteBindingFinalizer other f = true.

Lemma contains_ext l l' f : (f ∈ l <-> f ∈ l') -> ContainsFinalizer l f = ContainsFinalizer l' f.
Proof. intros E. apply eq_true_iff_eq. by rewrite !contains_spec. Qed.

Lemma existsb_ext_in (P : string -> bool) l l' :
  (forall f, P f = true -> f ∈ l <-> f ∈ l') -> existsb P l = existsb P l'.
Proof.
  intros E. apply eq_true_iff_eq. rewrite !existsb_exists.
  split; intros (f & Hf%list_elem_of_In & Hp); exists f; (split; [apply list_elem_of_In, E; done|done]).
Qed.

(** The binding of a route is read from these parts of its metadata. *)
Lemma StoredRouteIdentity_ext route route' :
  om_Namespace route = om_Namespace route' -> om_Name route = om_Name route' -> om_UID route = om_UID route' ->
  (forall k, k ∈ routeBindingAnnotationKeys other -> annotation route k = annotation route' k) ->
  (forall f, routeFinalizerOf f -> f ∈ om_Finalizers route <-> f ∈ om_Finalizers route') ->
  StoredRouteIdentity other route = StoredRouteIdentity other route' /\
  RouteHasControllerBinding other route = RouteHasControllerBinding other route'.
Proof.
  intros Hn Hm Hu Ha Hf. unfold RouteHasControllerBinding, routeHasBindingAnnotations.
  assert (Forall (fun k => annotation route k = annotation route' k) (routeBindingAnnotationKeys other)) as Ha'
    by (by apply Forall_forall).
  unfold routeBindingAnnotationKeys in *. rewrite !Forall_cons in Ha'. destruct Ha' as (E1 & E2 & E3 & E4 & E5 & _).
  assert (hasRouteBindingFinalizer other route = hasRouteBindingFinalizer other route') as Eb.
  { apply existsb_ext_in. intros f Hp. apply Hf. by right. }
  assert (ContainsFinalizer (om_Finalizers route) (RouteFinalizer other) =
    ContainsFinalizer (om_Finalizers route') (RouteFinalizer other)) as Er.
  { apply contains_ext, Hf. by left. }
  cbn [existsb]. split; [|by rewrite E1, E2, E3, E4, E5, Eb, Er].
  unfold StoredRouteIdentity, incompleteRouteBinding, routeClusterDiffers, routeProjectDiffers,
    routeFinalizerDiffers, routeFinalizerConflict.
  rewrite E1, E2, E3, E4, E5, Eb, Er, Hn, Hm, Hu. cbv zeta. set (id := mkIdentity _ _ _ _ _ _ _ _ _ _).
  set (expected := RouteBindingFinalizer _ _ _ _ _ _).
  assert (ContainsFinalizer (om_Finalizers route) expected = ContainsFinalizer (om_Finalizers route') expected) as ->.
  { apply contains_ext, Hf. right. apply RouteBindingFinalizer_is_binding. }
  rewrite (existsb_ext_in _ _ (om_Finalizers route')); [done|].
  intros f [Hp _]%andb_true_iff. apply Hf. by right.
Qed.

Context (distinct : controllerKey config <> controllerKey other).

Lemma other_finalizers f :
  routeFinalizerOf f -> f <> RouteFinalizer config /\ isRouteBindingFinalizer config f = false.
Proof.
  intros [->|Hb].
  - split; [|apply RouteFinalizer_not_binding].
    change (key other "httproute-finalizer-" <> key config "httproute-finalizer-").
    intros [? _]%key_inj. congruence.
  - split.
    + intros ->. by rewrite RouteFinalizer_not_binding in Hb.
    + apply not_true_iff_false. intros Hc. by apply distinct, (binding_finalizer_owner _ _ f).
Qed.

Lemma annotation_key c k :
  k ∈ RouteCleanupFailureAnnotation c :: routeBindingAnnotationKeys c -> exists r, k = key c r.
Proof.
  unfold routeBindingAnnotationKeys. rewrite !elem_of_cons.
  intros [->|[->|[->|[->|[->|[->|Hk]]]]]]; [by eexists..|set_solver].
Qed.

Lemma other_annotations k :
  k ∈ routeBindingAnnotationKeys other ->
  k ∉ RouteCleanupFailureAnnotation config :: routeBindingAnnotationKeys config.
Proof.
  intros Hk Hk'. destruct (annotation_key other k) as [r ->]; [by right|].
  apply annotation_key in Hk' as [r' [? _]%key_inj]. congruence.
Qed.

Lemma applyRouteBinding_read_other route gateway k :
  k ∉ RouteCleanupFailureAnnotation config :: routeBindingAnnotationKeys config ->
  annotation (applyRouteBinding config route gateway) k = annotation route k.
Proof.
  unfold routeBindingAnnotationKeys, applyRouteBinding, removeStaleRouteBindingFinalizers.
  rewrite !not_elem_of_cons. intros Hk. destruct_and!.
  repeat first [ rewrite annotation_withFinalizers | rewrite annotation_delete | rewrite annotation_make
    | rewrite annotation_set by eauto 10 with binding ].
  by rewrite !(proj2 (String.eqb_neq _ _)) by congruence.
Qed.

(** A controller whose name has another key neither loses nor gains a
    binding when this controller binds or releases the same HTTPRoute. *)
Theorem controllers_do_not_interfere route gateway :
  StoredRouteIdentity other (applyRouteBinding config route gateway) = StoredRouteIdentity other route /\
  RouteHasControllerBinding other (applyRouteBinding config route gateway) = RouteHasControllerBinding other route /\
  StoredRouteIdentity other (clearRouteBinding config route) = StoredRouteIdentity other route /\
  RouteHasControllerBinding other (clearRouteBinding config route) = RouteHasControllerBinding other route.
Proof.
  pose proof (clearRouteBinding_name config route) as (Hn & Hm & Hu).
  apply and_assoc. split; apply StoredRouteIdentity_ext; [reflexivity..| | |done|done|done| |].
  - intros k Hk. by apply applyRouteBinding_read_other, other_annotations.
  - intros f Hf. rewrite applyRouteBinding_finalizers. pose proof (other_finalizers f Hf) as [Hne Hnb].
    split; [|by auto]. intros [->|[->|[? _]]]; [done| |done].
    unfold boundFinalizer in Hnb. by rewrite RouteBindingFinalizer_is_binding in Hnb.
  - intros k Hk. rewrite clearRouteBinding_read, bool_decide_eq_false_2; [done|]. by apply other_annotations.
  - intros f Hf. rewrite clearRouteBinding_finalizers. pose proof (other_finalizers f Hf). tauto.
Qed.
End controllers.
