(* ===== verification/Indexes.v ===== *)
(** * Field indexes of the shared cache

    Models [internal/controller/indexes.go]: the keys under which the cache files
    each object.  An index is a function from objects to keys; listing by an
    index value returns the objects that have it among their keys. *)
From stdpp Require Import base list strings gmap.
From Stdlib Require Import ZArith Lia Ascii.
From S2P Require Import Prelude GoStrings Kube KubeObjects References Binding.

Set Default Goal Selector "!".

Definition IndexGatewayClassByController : string := "spec.controllerName".
Definition IndexGatewayByClass : string := "spec.gatewayClassName".
Definition IndexHTTPRouteByParentGateway : string := "spec.parentGateway".
Definition IndexHTTPRouteByStatusGateway : string := "status.parentGateway".
Definition IndexHTTPRouteByBackendService : string := "spec.backendService".
Definition IndexHTTPRouteByBoundGateway : string := "metadata.boundGateway".
Definition indexHTTPRouteByBoundGatewayUID : string := "metadata.boundGatewayUID".
Definition IndexHTTPRouteByNodeBackend : string := "spec.nodeBackend".
Definition IndexEndpointSliceByService : string := "metadata.service".
Definition NodeBackendIndexValue : string := "true".

(** [NamespacedName.String]. *)
Definition ObjectKeyString (key : NamespacedName) : string := nn_Namespace key ^^ "/" ^^ nn_Name key.

(** [sortedIndexKeys] on the keys collected in a map, here in the order of their
    insertion. *)
Definition sortedIndexKeys (keys : list string) : list string :=
  sort_slice String.ltb (remove_dups keys).

(** The key of a referenced object, unless its name or namespace is empty. *)
Definition referenceKey (routeNamespace : string) (namespace : option string) (name : string) : option string :=
  let ns := default routeNamespace namespace in
  if String.eqb name "" || String.eqb ns "" then None else Some (ObjectKeyString (mkNamespacedName ns name)).

Definition parentKey (route : HTTPRoute) (parent : ParentReference) : option string :=
  if IsGatewayParentRef parent
  then referenceKey (om_Namespace (hr_Meta route)) (pr_Namespace parent) (pr_Name parent) else None.

Definition ParentGatewayKeys (route : HTTPRoute) : list string :=
  sortedIndexKeys (omap (parentKey route) (hr_ParentRefs route)).

Definition statusParentGatewayKeys (config : Config) (route : HTTPRoute) : list string :=
  sortedIndexKeys (omap (fun parent =>
    if String.eqb (rps_ControllerName parent) (cfg_ControllerName config)
    then parentKey route (rps_ParentRef parent) else None) (default [] (hr_StatusParents route))).

Definition isCoreServiceBackend (backend : HTTPBackendRef) : bool :=
  match hb_Group backend with None => true | Some g => String.eqb g "" end &&
  match hb_Kind backend with None => true | Some k => String.eqb k "Service" end.

Definition backendServiceKeys (route : HTTPRoute) : list string :=
  sortedIndexKeys (omap (fun backend =>
    if isCoreServiceBackend backend
    then referenceKey (om_Namespace (hr_Meta route)) (hb_Namespace backend) (hb_Name backend) else None)
    (concat (hru_BackendRefs <$> hr_Rules route))).

Definition hasCoreServiceBackend (route : HTTPRoute) : bool :=
  existsb (fun rule => existsb isCoreServiceBackend (hru_BackendRefs rule)) (hr_Rules route).

(** [None] for the empty key. *)
Definition boundGatewayKey (config : Config) (route : HTTPRoute) : option string :=
  let value key := annotation (hr_Meta route) key in
  let namespace := value (RouteGatewayNamespaceAnnotation config) in
  let name := value (RouteGatewayNameAnnotation config) in
  if String.eqb namespace "" || String.eqb name "" || String.eqb (value (RouteGatewayUIDAnnotation config)) ""
  then None else Some (ObjectKeyString (mkNamespacedName namespace name)).

(** ** The indexes ([controllerFieldIndexes]) *)

Definition gatewayClassIndex (c : GatewayClass) : list string :=
  if String.eqb (gc_ControllerName c) "" then [] else [gc_ControllerName c].
Definition gatewayIndex (g : Gateway) : list string :=
  if String.eqb (gw_GatewayClassName g) "" then [] else [gw_GatewayClassName g].
Definition endpointSliceIndex (s : EndpointSlice) : list string :=
  if String.eqb (es_Namespace s) "" || String.eqb (es_ServiceName s) "" then []
  else [ObjectKeyString (mkNamespacedName (es_Namespace s) (es_ServiceName s))].
Definition httpRouteIndex (config : Config) (field : string) (route : HTTPRoute) : list string :=
  if String.eqb field IndexHTTPRouteByParentGateway then ParentGatewayKeys route
  else if String.eqb field IndexHTTPRouteByStatusGateway then statusParentGatewayKeys config route
  else if String.eqb field IndexHTTPRouteByBackendService then backendServiceKeys route
  else if String.eqb field IndexHTTPRouteByBoundGateway then option_list (boundGatewayKey config route)
  else if String.eqb field indexHTTPRouteByBoundGatewayUID then
    match boundGatewayKey config route with
    | Some _ => [annotation (hr_Meta route) (RouteGatewayUIDAnnotation config)]
    | None => []
    end
  else if String.eqb field IndexHTTPRouteByNodeBackend then
    if hasCoreServiceBackend route then [NodeBackendIndexValue] else []
  else [].

(** Listing the cached routes by an index value. *)
Definition indexedRoutes (config : Config) (field value : string) (routes : list HTTPRoute) : list HTTPRoute :=
  List.filter (fun route => bool_decide (value ∈ httpRouteIndex config field route)) routes.

(** ** Lemmas *)

Lemma sortedIndexKeys_elem keys k : k ∈ sortedIndexKeys keys <-> k ∈ keys.
Proof. unfold sortedIndexKeys. rewrite sort_slice_elem. apply elem_of_remove_dups. Qed.

Lemma referenceKey_some ns o name k :
  referenceKey ns o name = Some k <->
  name <> "" /\ default ns o <> "" /\ k = ObjectKeyString (mkNamespacedName (default ns o) name).
Proof.
  unfold referenceKey. destruct (String.eqb_spec name ""), (String.eqb_spec (default ns o) ""); simpl; naive_solver.
Qed.

(** Keys of names without a slash identify the object. *)
Lemma ObjectKeyString_inj a b :
  str_without "/" (nn_Namespace a) = true -> str_without "/" (nn_Namespace b) = true ->
  ObjectKeyString a = ObjectKeyString b -> a = b.
Proof.
  destruct a as [n1 m1], b as [n2 m2]. cbn [nn_Namespace]. intros H1 H2 H.
  change (n1 ^^ String "/" m1 = n2 ^^ String "/" m2) in H.
  apply (sep_inj "/") in H as [-> ->]; done.
Qed.
