(* ===== verification/KubeClient.v ===== *)
(** * What the reconcilers share

    Texts of errors ([fmt], [errors]), the functions of apimachinery and
    client-go that the reconcilers call, programs that thread a mutable scope,
    the cloud provider as the reconcilers see it ([internal/cloud/types.go]), the
    graph lock ([controller/graph/coordinator.go], [Acquire]), and
    [internal/controller/status.go], [errors.go] and [gateway_api_version.go]. *)
From stdpp Require Import base list strings gmap.
From Stdlib Require Import ZArith Lia Ascii.
From S2P Require Import Prelude GoStrings Cloud Kube KubeObjects References OpenStack Outcomes Coordinator.

Set Default Goal Selector "!".

(** ** Texts *)

Definition byte_in (c : ascii) (lo hi : N) : bool := ((lo <=? N_of_ascii c) && (N_of_ascii c <=? hi))%N.

(** [strconv.Quote].  Bytes from 128 on stand for themselves, as the runes of a
    printable text do. *)
Definition quote_byte (c : ascii) : string :=
  let n := N_of_ascii c in
  if (n =? 34)%N || (n =? 92)%N then String "\" (String c "")
  else if byte_in c 7 13 then String "\" (String (default "?"%char (String.get (N.to_nat n - 7) "abtnvfr")) "")
  else if (n <? 32)%N || (n =? 127)%N then "\x" ^^ hex [n]
  else String c "".
Fixpoint quote_bytes (s : string) : string :=
  match s with "" => "" | String c s' => quote_byte c ^^ quote_bytes s' end.
Definition dquote : string := String (ascii_of_N 34) "".
Definition Quote (s : string) : string := dquote ^^ quote_bytes s ^^ dquote.

(** [fmt.Sprintf] with the verbs the repository uses; [wrapped] is the text of
    the error of [%w]. *)
Fixpoint Sprintf (format : string) (args : list string) (wrapped : string) : string :=
  match format with
  | "" => ""
  | String "%" (String v rest) =>
      if Ascii.eqb v "%" then String "%" (Sprintf rest args wrapped)
      else if Ascii.eqb v "w" then wrapped ^^ Sprintf rest args wrapped
      else match args with
           | a :: args' => (if Ascii.eqb v "q" then Quote a else a) ^^ Sprintf rest args' wrapped
           | [] => "%!" ^^ String v "(MISSING)" ^^ Sprintf rest [] wrapped
           end
  | String c rest => String c (Sprintf rest args wrapped)
  end.

(** The texts of the two reauthentication errors of Gophercloud. *)
Class ForeignTexts := { reauthenticationText : error -> string }.

(** [err.Error()].  The first field of an error struct of the repository is its
    message; one without fields shows the error it wraps. *)
Fixpoint errorText `{ForeignTexts} (e : error) : string :=
  match e with
  | Sentinel text => text
  | CustomError _ (message :: _) _ => message
  | CustomError _ [] w => match w with Some c => errorText c | None => "" end
  | Errorf format args w => Sprintf format args (match w with Some c => errorText c | None => "" end)
  | ProviderError c None => errorCategoryMessage c
  | ProviderError c (Some cause) => errorCategoryMessage c ^^ ": " ^^ errorText cause
  | JoinError a None => errorText a
  | JoinError a (Some b) => errorText a ^^ String (ascii_of_N 10) (errorText b)
  | ReconcileError message _ => message
  | ErrErrorAfterReauthentication _ | ErrUnableToReauthenticate _ => reauthenticationText e
  | ForeignError v _ => f_text v
  end.

(** [errors.Is] against a sentinel, and [errors.As] for an error struct. *)
Definition errorsIs (e : error) (text : string) : bool :=
  match errorsAs (fun x => match x with Sentinel t => if String.eqb t text then Some tt else None | _ => None end) e with
  | Some _ => true
  | None => false
  end.
Definition errorsAsCustom (type : string) (e : error) : option (list string) :=
  errorsAs (fun x => match x with CustomError t fields _ => if String.eqb t type then Some fields else None | _ => None end) e.

(** [errors.Join]: nil errors are dropped. *)
Fixpoint errorsJoin (l : list (option error)) : option error :=
  match l with
  | [] => None
  | None :: l' => errorsJoin l'
  | Some e :: l' => Some (JoinError e (errorsJoin l'))
  end.
Definition joinWith (e : error) (other : option error) : error := JoinError e other.

(** ** apimachinery and client-go *)

Class KubeErrors := {
  IsNotFound : error -> bool;               (* apierrors.IsNotFound *)
  IsConflict : error -> bool;               (* apierrors.IsConflict *)
  NewConflict : string -> string -> error -> error; (* apierrors.NewConflict, by resource and name *)
  IgnoreNotFound : error -> option error;   (* client.IgnoreNotFound *)
  retrySteps : nat                          (* retry.DefaultRetry.Steps, less the first attempt *)
}.

(** "IgnoreNotFound returns nil on NotFound errors. All other values that are
    not NotFound errors or nil are returned unmodified." *)
Class KubeErrorsLaws `{KubeErrors} : Prop := {
  ignore_not_found e : IgnoreNotFound e = if IsNotFound e then None else Some e
}.

(** [return zero, client.IgnoreNotFound(err)]. *)
Definition ignoringNotFound {A} `{KubeErrors} (zero : A) (e : error) : outcome_of A :=
  match IgnoreNotFound e with None => Ok zero | Some e' => Err e' end.

(** ** Programs over a mutable scope *)

(** A method that may change the state [S] its receiver or arguments point to;
    a change stays when the method returns an error. *)
Definition SM (S A : Type) : Type := S -> prog (S * outcome_of A).

Definition sret {S A} (a : A) : SM S A := fun s => Ret (s, Ok a).
Definition sraise {S A} (e : error) : SM S A := fun s => Ret (s, Err e).
Definition sbind {S A B} (m : SM S A) (f : A -> SM S B) : SM S B := fun s =>
  bind (m s) (fun x => match x with (s', Ok a) => f a s' | (s', Err e) => Ret (s', Err e) end).
Definition slift {S A} (m : M A) : SM S A := fun s => bind m (fun x => Ret (s, x)).
Definition sget {S} : SM S S := fun s => Ret (s, Ok s).
Definition smodify {S} (f : S -> S) : SM S unit := fun s => Ret (f s, Ok tt).
(** The error of a call is handed to the caller. *)
Definition stry {S A} (m : SM S A) : SM S (outcome_of A) := fun s =>
  bind (m s) (fun x => Ret (fst x, Ok (snd x))).

Notation "'do!' x ':=' m 'in' k" := (sbind m (fun x => k))
  (at level 10, x pattern, m at level 100, k at level 200) : go_scope.

(** [retry.RetryOnConflict(retry.DefaultRetry, fn)]: "fn is called again while
    it returns a Conflict error", up to a number of steps; the first argument of
    [fn] is the number of attempts made before. *)
Fixpoint retryOnConflict `{KubeErrors} {S A} (steps attempt : nat) (fn : nat -> SM S A) : SM S A := fun s =>
  bind (fn attempt s) (fun x =>
    match x, steps with
    | (s', Err e), Datatypes.S steps' => if IsConflict e then retryOnConflict steps' (Datatypes.S attempt) fn s' else Ret x
    | _, _ => Ret x
    end).
Definition RetryOnConflict `{KubeErrors} {S A} (fn : nat -> SM S A) : SM S A := retryOnConflict retrySteps 0 fn.

(** Requests to the API server. *)
Definition getGateway (from : reader) (key : NamespacedName) : M Gateway := call (ReqKube (KGetGateway from key)).
Definition getClass (from : reader) (name : string) : M GatewayClass := call (ReqKube (KGetGatewayClass from name)).
Definition getHTTPRoute (from : reader) (key : NamespacedName) : M HTTPRoute := call (ReqKube (KGetHTTPRoute from key)).
Definition getService (from : reader) (key : NamespacedName) : M Service := call (ReqKube (KGetService from key)).
Definition listEndpointSlices (from : reader) (namespace serviceName : string) : M (list EndpointSlice) :=
  call (ReqKube (KListEndpointSlices from namespace serviceName)).
Definition listNodes (from : reader) : M (list Node) := call (ReqKube (KListNodes from)).
Definition listHTTPRoutes (from : reader) (namespace : option string) (index : option (string * string))
    : M (list HTTPRoute) := call (ReqKube (KListHTTPRoutes from namespace index)).
Definition listGateways (index : string * string) : M (list Gateway) := call (ReqKube (KListGateways index)).
Definition listDefinitions (from : reader) : M (list ObjectMeta) := call (ReqKube (KListCustomResourceDefinitions from)).
Definition patchGatewayObject (base target : Gateway) : M Gateway := call (ReqKube (KPatchGateway base target)).
Definition patchGatewayStatus (base target : Gateway) : M Gateway := call (ReqKube (KPatchGatewayStatus base target)).
Definition patchRoute (base target : HTTPRoute) : M HTTPRoute := call (ReqKube (KPatchHTTPRoute base target)).
Definition patchRouteStatus (base target : HTTPRoute) : M HTTPRoute := call (ReqKube (KPatchHTTPRouteStatus base target)).
Definition patchClass (base target : GatewayClass) : M GatewayClass := call (ReqKube (KPatchGatewayClass base target)).
Definition patchClassStatus (base target : GatewayClass) : M GatewayClass :=
  call (ReqKube (KPatchGatewayClassStatus base target)).

(** ** The provider as the reconcilers see it (types.go) *)

(** The interface [cloud.Provider], without [GetGateway], which no reconciler
    calls. *)
Class CloudProvider := {
  Provider_EnsureGateway : GatewaySpec -> M GatewayResult;
  Provider_DeleteGateway : Identity -> M Outcome;
  Provider_EnsureRoute : RouteSpec -> M RouteResult;
  Provider_DeleteRoute : Identity -> M Outcome
}.

(** ** The graph lock (coordinator.go) *)

Definition ErrCoordinatorRequired : string := "gateway graph coordinator is required".

(** [graph.Acquire]; [coordinator] tells whether the pointer is not nil.  What
    [acquire] does concurrently is the subject of Coordinator.v. *)
Definition Acquire (coordinator : bool) (gatewayUID : string) : M unit :=
  guard! coordinator else Sentinel ErrCoordinatorRequired in
  guard! negb (String.eqb gatewayUID "") else errEmptyGatewayUID in
  call (ReqKube (KAcquireGraph gatewayUID)).

(** [release, err := graph.Acquire(...)], [defer release()] and the rest of the
    method. *)
Definition locked {S A} (coordinator : bool) (gatewayUID : string) (body : SM S A) : SM S A :=
  do! _ := slift (wrap "acquire Gateway graph: %w" [] (Acquire coordinator gatewayUID)) in
  fun s => bind (body s) (fun x => Call (ReqKube (KReleaseGraph gatewayUID)) (fun _ => Ret x)).

(** ** Conditions (status.go) *)

(** [controller.Condition] and [SetCondition]. *)
Definition newCondition (conditionType : string) (status : ConditionStatus) (reason message : string)
    (generation : Z) : Condition :=
  mkCondition conditionType status generation reason message 0.
Definition SetCondition `{ApiMeta} (conditions : list Condition) (value : Condition) : list Condition :=
  SetStatusCondition conditions value.

(** ** The installed Gateway API version (gateway_api_version.go) *)

Definition ErrAPIReaderRequired : string := "uncached API reader is required".
Definition ErrUnsupportedGatewayAPIVersion : string := "installed Gateway API CRD version is unsupported".
Definition UnsupportedGatewayAPIVersionMessage : string :=
  "GatewayClass does not support the installed Gateway API CRD version".
Definition gatewayAPIExperimentalGroup : string := "gateway.networking.x-k8s.io".

Definition requiredGatewayAPICRDs : list string :=
  ["gatewayclasses.gateway.networking.k8s.io"; "gateways.gateway.networking.k8s.io";
   "httproutes.gateway.networking.k8s.io"].

Definition gatewayAPIVersionRequeue : Z := Minute.
Definition GatewayAPIVersionRequeueAfter (uid : string) : Z :=
  stableJitter gatewayAPIVersionRequeue (uid ^^ "/gateway-api-version").

Definition isGatewayAPIGroup (group : string) : bool :=
  String.eqb group GroupName || String.eqb group gatewayAPIExperimentalGroup.
Definition IsGatewayAPICRDName (name : string) : bool :=
  match Cut name "." with
  | Some (resource, group) => negb (String.eqb resource "") && isGatewayAPIGroup group
  | None => false
  end.

(** The version the repository is built for and the annotation that carries it,
    constants of [sigs.k8s.io/gateway-api/pkg/consts]. *)
Class GatewayConsts := { BundleVersionAnnotation : string; BundleVersion : string }.

Section version.
Context `{GatewayConsts, ApiMeta}.

(** The issue of one definition: the body of the first loop. *)
Definition definitionIssue (definition : ObjectMeta) : option string :=
  if om_Deleting definition then Some (Sprintf "%s is being deleted" [om_Name definition] "")
  else
    let installedVersion := annotation definition BundleVersionAnnotation in
    if String.eqb installedVersion ""
    then Some (Sprintf "%s has no bundle version annotation" [om_Name definition] "")
    else if negb (String.eqb installedVersion BundleVersion)
    then Some (Sprintf "%s uses bundle version %s" [om_Name definition; installedVersion] "")
    else None.

Definition versionIssues (definitions : list ObjectMeta) : list string :=
  let gatewayAPI := List.filter (fun d => IsGatewayAPICRDName (om_Name d)) definitions in
  omap definitionIssue gatewayAPI ++
  ((fun name => Sprintf "%s is not installed" [name] "") <$>
     List.filter (fun name => negb (existsb (fun d => String.eqb (om_Name d) name) gatewayAPI))
       requiredGatewayAPICRDs).

Record GatewayAPIVersionObservation := mkVersionObservation { vo_Supported : bool; vo_Message : string }.

Definition ObserveGatewayAPIVersion (from : reader) : M GatewayAPIVersionObservation :=
  let! definitions := wrap "list Gateway API custom resource definitions: %w" []
                        (listDefinitions from) in
  let issues := versionIssues definitions in
  match issues with
  | [] => ret (mkVersionObservation true
            (Sprintf "Installed Gateway API CRDs use supported bundle version %s" [BundleVersion] ""))
  | _ => ret (mkVersionObservation false
            (Sprintf "Installed Gateway API CRDs do not match supported bundle version %s: %s"
               [BundleVersion; Join (sort_slice String.ltb issues) ", "] ""))
  end.

Definition SupportedVersion : string := "SupportedVersion".

Definition GatewayClassSupportsInstalledVersion (gatewayClass : GatewayClass) : bool :=
  match FindStatusCondition (gc_Conditions gatewayClass) SupportedVersion with
  | Some condition =>
      bool_decide (c_Status condition = ConditionTrue) &&
      (c_ObservedGeneration condition =? om_Generation (gc_Meta gatewayClass))%Z
  | None => false
  end.

(** [reader] tells whether the live reader is not nil. *)
Definition ValidateInstalledGatewayAPIVersion (reader : bool) : M unit :=
  guard! reader else Sentinel ErrAPIReaderRequired in
  let! observation := ObserveGatewayAPIVersion Live in
  guard! vo_Supported observation else Sentinel ErrUnsupportedGatewayAPIVersion in
  ret tt.
End version.
