(* ===== verification/GatewayModel.v ===== *)
(** * The Gateway reconciler: decisions and status

    The pure half of [internal/controller/gateway]: [gateway_validation.go], the
    phase decision of [gateway_snapshot.go] and the status of
    [gateway_status.go], as functions from a Gateway to a Gateway. *)
From stdpp Require Import base list strings gmap.
From Stdlib Require Import ZArith Lia.
From S2P Require Import Prelude GoStrings Cloud Kube KubeObjects References OpenStack Outcomes Binding KubeClient.

Set Default Goal Selector "!".

(** Constants of the Gateway API: condition types and reasons. *)
Definition Accepted : string := "Accepted".
Definition Programmed : string := "Programmed".
Definition ResolvedRefs : string := "ResolvedRefs".
Definition Conflicted : string := "Conflicted".
Definition ReasonPending : string := "Pending".
Definition ReasonInvalid : string := "Invalid".
Definition ReasonNoResources : string := "NoResources".
Definition ReasonInvalidParameters : string := "InvalidParameters".
Definition ReasonListenersNotValid : string := "ListenersNotValid".
Definition ReasonUnsupportedAddress : string := "UnsupportedAddress".
Definition ReasonUnsupportedValue : string := "UnsupportedValue".
Definition ReasonUnsupportedProtocol : string := "UnsupportedProtocol".
Definition ReasonInvalidRouteKinds : string := "InvalidRouteKinds".
Definition ReasonNoConflicts : string := "NoConflicts".
Definition HTTPProtocolType : string := "HTTP".
Definition NamespacesFromSame : string := "Same".
Definition IPAddressType : string := "IPAddress".

(** ** Validation (gateway_validation.go) *)

(** [gatewayValidationError]: message, invalidRouteKinds, gatewayReason. *)
Definition gatewayValidationError (message : string) (invalidRouteKinds : bool) (gatewayReason : string) : error :=
  CustomError "gatewayValidationError" [message; if invalidRouteKinds then "true" else "false"; gatewayReason] None.

Definition isHTTPRouteGroupKind (routeKind : RouteGroupKind) : bool :=
  String.eqb (default GroupName (rgk_Group routeKind)) GroupName && String.eqb (rgk_Kind routeKind) "HTTPRoute".

Definition listenerAllowsHTTPRoute (listener : GatewayListener) : bool :=
  match gl_AllowedRoutes listener with
  | None => true
  | Some allowed => match ar_Kinds allowed with [] => true | kinds => existsb isHTTPRouteGroupKind kinds end
  end.

(** [*listener.AllowedRoutes.Namespaces.From != Same], when all of it is set. *)
Definition otherNamespaces (listener : GatewayListener) : bool :=
  match gl_AllowedRoutes listener with
  | Some allowed => match ar_From allowed with Some from => negb (String.eqb from NamespacesFromSame) | None => false end
  | None => false
  end.
Definition allowedKinds (listener : GatewayListener) : list RouteGroupKind :=
  match gl_AllowedRoutes listener with Some allowed => ar_Kinds allowed | None => [] end.

Definition Validate (gateway : Gateway) : outcome_of GatewayListener :=
  guard? (gw_Addresses gateway =? 0)%nat
    else gatewayValidationError "spec.addresses is not supported in Phase 1" false ReasonUnsupportedAddress in
  guard? negb (gw_Infrastructure gateway)
    else gatewayValidationError "spec.infrastructure is not supported in Phase 1" false ReasonInvalidParameters in
  guard? negb (gw_AllowedListeners gateway)
    else gatewayValidationError "spec.allowedListeners and ListenerSet attachment are not supported in Phase 1"
           false ReasonInvalidParameters in
  guard? negb (gw_TLS gateway)
    else gatewayValidationError "gateway-wide spec.tls is not supported in Phase 1" false ReasonInvalidParameters in
  match gw_Listeners gateway with
  | [listener] =>
      guard? String.eqb (gl_Protocol listener) HTTPProtocolType && negb (gl_TLS listener)
        else Errorf "only a plain HTTP listener is supported in Phase 1" [] None in
      guard? bool_decide (gl_Hostname listener = None)
        else Errorf "listener hostname is not supported in Phase 1; put one exact hostname on HTTPRoute" [] None in
      guard? negb (otherNamespaces listener)
        else Errorf "only same-namespace HTTPRoutes are supported in Phase 1" [] None in
      guard? forallb isHTTPRouteGroupKind (allowedKinds listener)
        else gatewayValidationError "only HTTPRoute is supported in listener allowedRoutes.kinds in Phase 1" true "" in
      Ok listener
  | _ => Err (Errorf "exactly one listener is supported in Phase 1" [] None)
  end.

(** ** The phase of a reconciliation (gateway_snapshot.go) *)

(** [gatewayPhaseDecision]: the phase with the fields the code sets for it. *)
Inductive gatewayPhaseDecision :=
| PhaseIgnore
| PhaseCleanupUnmanaged
| PhaseUnsupportedVersion
| PhaseInvalidBinding (validation : error)
| PhaseUnsupportedParameters
| PhaseInvalidSpec (validation : error)
| PhaseReplaceGraph (listener : GatewayListener) (listenerPort : string)
| PhaseBind (listener : GatewayListener) (listenerPort : string)
| PhaseEnsure (listener : GatewayListener) (listenerPort : string).

Section decisions.
Context `{ControllerUtil, ApiMeta, GatewayConsts} (config : Config).

(** [managed] and [gatewayClass] are fields of the scope. *)
Definition decideGatewayPhase (gateway : Gateway) (managed : bool) (gatewayClass : option GatewayClass)
    : gatewayPhaseDecision :=
  let meta := gw_Meta gateway in
  if negb managed then
    if GatewayHasControllerBinding config meta then PhaseCleanupUnmanaged else PhaseIgnore
  else if match gatewayClass with Some c => negb (GatewayClassSupportsInstalledVersion c) | None => false end
  then PhaseUnsupportedVersion
  else match ValidateGatewayBinding config meta with
  | Err e => PhaseInvalidBinding e
  | Ok _ =>
      if match gatewayClass with Some c => gc_ParametersRef c | None => false end then PhaseUnsupportedParameters
      else match Validate gateway with
      | Err e => PhaseInvalidSpec e
      | Ok listener =>
          let listenerPort := decimal_Z (gl_Port listener) in
          let storedListenerPort := annotation meta (GatewayListenerPortAnnotation config) in
          if negb (String.eqb storedListenerPort "") && negb (String.eqb storedListenerPort listenerPort)
          then PhaseReplaceGraph listener listenerPort
          else if negb (gatewayBindingComplete config meta) then PhaseBind listener listenerPort
          else PhaseEnsure listener listenerPort
      end
  end.
End decisions.

(** ** Status (gateway_status.go) *)

Definition supportedHTTPRouteKinds : list RouteGroupKind := [mkRouteGroupKind (Some GroupName) "HTTPRoute"].

Definition existingListenerConditionsFrom (statuses : list ListenerStatus) (listenerName : string) : list Condition :=
  match List.find (fun s => String.eqb (lst_Name s) listenerName) statuses with
  | Some s => lst_Conditions s
  | None => []
  end.
Definition existingListenerConditions (gateway : Gateway) (listenerName : string) : list Condition :=
  existingListenerConditionsFrom (gst_Listeners (gw_Status gateway)) listenerName.

Definition isControllerOwnedListenerCondition (conditionType : string) : bool :=
  bool_decide (conditionType ∈ [Accepted; ResolvedRefs; Conflicted; Programmed]).

Definition listenerStatusesWithoutControllerConditions (gateway : Gateway) : list ListenerStatus :=
  omap (fun existing =>
    match List.filter (fun c => negb (isControllerOwnedListenerCondition (c_Type c))) (lst_Conditions existing) with
    | [] => None
    | conditions => Some (mkListenerStatus (lst_Name existing) [] 0 conditions)
    end) (gst_Listeners (gw_Status gateway)).

Definition gatewayProviderFailureReasons (category : ErrorCategory) : string * string :=
  match category with
  | ErrorCategoryQuota => (ReasonNoResources, ReasonPending)
  | ErrorCategoryTerminalValidation => (ReasonInvalid, ReasonInvalid)
  | ErrorCategoryResourceFailure => ("ResourceFailed", "ResourceFailed")
  | ErrorCategoryOwnershipConflict => ("OwnershipConflict", "OwnershipConflict")
  | _ => (ReasonPending, ReasonPending)
  end.

Section status.
Context `{ApiMeta, ForeignTexts}.

(** [SetCondition] several times. *)
Definition setConditions (conditions : list Condition) (values : list Condition) : list Condition :=
  fold_left SetCondition values conditions.

Definition gatewayGeneration (gateway : Gateway) : Z := om_Generation (gw_Meta gateway).

(** The status of one listener in [setGatewayFailure]. *)
Definition failedListenerStatus (generation : Z) (message : string) (invalidRouteKinds listenerSpecific : bool)
    (existingListeners : list ListenerStatus) (listener : GatewayListener) : ListenerStatus :=
  let kinds := if negb invalidRouteKinds || listenerAllowsHTTPRoute listener then supportedHTTPRouteKinds else [] in
  let '(acceptedStatus, acceptedReason, acceptedMessage, programmedReason) :=
    if negb listenerSpecific
    then (ConditionTrue, Accepted, "Listener configuration is accepted", ReasonPending)
    else (ConditionFalse,
          if negb (String.eqb (gl_Protocol listener) HTTPProtocolType) then ReasonUnsupportedProtocol
          else ReasonUnsupportedValue,
          message, ReasonInvalid) in
  let '(resolvedStatus, resolvedReason, resolvedMessage) :=
    if invalidRouteKinds then (ConditionFalse, ReasonInvalidRouteKinds, message)
    else (ConditionTrue, ResolvedRefs, "Listener has no unresolved references") in
  mkListenerStatus (gl_Name listener) kinds 0
    (setConditions (existingListenerConditionsFrom existingListeners (gl_Name listener))
       [newCondition Accepted acceptedStatus acceptedReason acceptedMessage generation;
        newCondition ResolvedRefs resolvedStatus resolvedReason resolvedMessage generation;
        newCondition Conflicted ConditionFalse ReasonNoConflicts "Listener has no conflicts" generation;
        newCondition Programmed ConditionFalse programmedReason message generation]).

Definition setGatewayFailure (gateway : Gateway) (validationErr : error) : Gateway :=
  let message := errorText validationErr in
  let detailed := errorsAsCustom "gatewayValidationError" validationErr in
  let invalidRouteKinds := match detailed with Some [_; kinds; _] => String.eqb kinds "true" | _ => false end in
  let detailedReason := match detailed with Some [_; _; reason] => reason | _ => "" end in
  let listenerSpecific := String.eqb detailedReason "" in
  let gatewayReason := if listenerSpecific then ReasonListenersNotValid else detailedReason in
  let generation := gatewayGeneration gateway in
  let status := gw_Status gateway in
  withStatus gateway (mkGatewayStatus []
    (setConditions (gst_Conditions status)
       [newCondition Accepted ConditionFalse gatewayReason message generation;
        newCondition Programmed ConditionFalse ReasonInvalid message generation])
    (failedListenerStatus generation message invalidRouteKinds listenerSpecific (gst_Listeners status)
       <$> gw_Listeners gateway)).

Definition setGatewayFailureReason (gateway : Gateway) (reason message : string) : Gateway :=
  let generation := gatewayGeneration gateway in
  withStatus gateway (mkGatewayStatus []
    (setConditions (gst_Conditions (gw_Status gateway))
       [newCondition Accepted ConditionFalse reason message generation;
        newCondition Programmed ConditionFalse ReasonInvalid message generation])
    (listenerStatusesWithoutControllerConditions gateway)).

Definition acceptedListenerConditions (generation : Z) : list Condition :=
  [newCondition Accepted ConditionTrue Accepted "Listener is accepted" generation;
   newCondition ResolvedRefs ConditionTrue ResolvedRefs "Listener references are resolved" generation;
   newCondition Conflicted ConditionFalse ReasonNoConflicts "Listener has no conflicts" generation].
Definition setAcceptedListenerConditions (conditions : list Condition) (generation : Z) : list Condition :=
  setConditions conditions (acceptedListenerConditions generation).

(** [setGatewayProvisioningStatus] once the attached routes are counted. *)
Definition provisioningStatus (gateway : Gateway) (listener : GatewayListener) (attachedRoutes : Z)
    (programmed : ConditionStatus) (gatewayReason listenerReason message : string)
    (advanceProgrammedGeneration : bool) : Gateway :=
  let generation := gatewayGeneration gateway in
  let status := gw_Status gateway in
  let programmedGeneration :=
    ConditionObservedGeneration (gst_Conditions status) Programmed generation advanceProgrammedGeneration in
  let conditions := setAcceptedListenerConditions (existingListenerConditions gateway (gl_Name listener)) generation in
  let listenerProgrammedGeneration :=
    ConditionObservedGeneration conditions Programmed generation advanceProgrammedGeneration in
  withStatus gateway (mkGatewayStatus (gst_Addresses status)
    (setConditions (gst_Conditions status)
       [newCondition Accepted ConditionTrue Accepted "Gateway configuration is accepted" generation;
        newCondition Programmed programmed gatewayReason message programmedGeneration])
    [mkListenerStatus (gl_Name listener) supportedHTTPRouteKinds attachedRoutes
       (SetCondition conditions
          (newCondition Programmed programmed listenerReason message listenerProgrammedGeneration))]).

(** [setGatewayProgrammed] once the attached routes are counted. *)
Definition programmedStatus (gateway : Gateway) (listener : GatewayListener) (attachedRoutes : Z)
    (gatewayState : GatewayState) : Gateway :=
  let generation := gatewayGeneration gateway in
  withStatus gateway (mkGatewayStatus [(IPAddressType, Address gatewayState)]
    (setConditions (gst_Conditions (gw_Status gateway))
       [newCondition Accepted ConditionTrue Accepted "Gateway configuration is accepted" generation;
        newCondition Programmed ConditionTrue Programmed "Octavia load balancer and listener are active" generation])
    [mkListenerStatus (gl_Name listener) supportedHTTPRouteKinds attachedRoutes
       (SetCondition
          (setAcceptedListenerConditions (existingListenerConditions gateway (gl_Name listener)) generation)
          (newCondition Programmed ConditionTrue Programmed "Octavia listener is active" generation))]).

Definition setGatewayCleanupFailure (gateway : Gateway) (policy : ProviderFailurePolicy)
    (gatewayReason listenerReason : string) : Gateway :=
  let generation := gatewayGeneration gateway in
  let status := gw_Status gateway in
  let programmed conditions reason :=
    SetCondition conditions
      (newCondition Programmed (fp_ConditionStatus policy) reason (fp_Message policy)
         (ConditionObservedGeneration conditions Programmed generation (fp_AdvancesObservedGeneration policy))) in
  withStatus gateway (mkGatewayStatus (gst_Addresses status)
    (programmed (gst_Conditions status) gatewayReason)
    ((fun l => mkListenerStatus (lst_Name l) (lst_SupportedKinds l) (lst_AttachedRoutes l)
                 (programmed (lst_Conditions l) listenerReason)) <$> gst_Listeners status)).

(** [attachedRouteCount] on the listed routes: the first status of a route that
    targets the listener decides. *)
Definition routeParentStatusTargetsListener (parentStatus : RouteParentStatus) (gateway : Gateway)
    (listener : GatewayListener) (controllerName : string) : bool :=
  let parentRef := rps_ParentRef parentStatus in
  String.eqb (rps_ControllerName parentStatus) controllerName && IsGatewayParentRef parentRef &&
  String.eqb (pr_Name parentRef) (om_Name (gw_Meta gateway)) &&
  match pr_Namespace parentRef with Some ns => String.eqb ns (om_Namespace (gw_Meta gateway)) | None => true end &&
  match pr_SectionName parentRef with Some s => String.eqb s (gl_Name listener) | None => true end &&
  match pr_Port parentRef with Some port => (port =? gl_Port listener)%Z | None => true end.

Definition statusParents (route : HTTPRoute) : list RouteParentStatus := default [] (hr_StatusParents route).

Definition routeAttached (gateway : Gateway) (listener : GatewayListener) (controllerName : string)
    (route : HTTPRoute) : bool :=
  match List.find (fun s => routeParentStatusTargetsListener s gateway listener controllerName) (statusParents route) with
  | None => false
  | Some parentStatus =>
      match FindStatusCondition (rps_Conditions parentStatus) Accepted with
      | Some accepted =>
          bool_decide (c_Status accepted = ConditionTrue) &&
          (c_ObservedGeneration accepted =? om_Generation (hr_Meta route))%Z
      | None => false
      end
  end.
Definition countAttachedRoutes (gateway : Gateway) (listener : GatewayListener) (controllerName : string)
    (routes : list HTTPRoute) : Z :=
  Z.of_nat (length (List.filter (routeAttached gateway listener controllerName) routes)).
End status.
