(* ===== verification/ReconcileLogic.v ===== *)
(** * Reasoning about reconcilers

    Executions of programs over a mutable scope, and two classes of programs:
    [Avoids P m], no execution of [m] makes a request in [P]; [Guarded P G m], a
    request in [P] is only made after a trace that satisfies [G].  Both are
    closed under the composition of programs, so that a property of a whole
    reconciler follows from the procedures where the requests are made. *)
From stdpp Require Import base list strings.
From Stdlib Require Import ZArith Lia.
From S2P Require Import Prelude GoStrings Cloud Kube KubeObjects OpenStack ProgramLogic KubeClient.

Set Default Goal Selector "!".

(** ** Requests that are never made *)

Definition avoids (P : request -> bool) (tr : list event) : Prop := Forall (fun e => P (ev_req e) = false) tr.

Class Avoids (P : request -> bool) {A} (m : prog A) : Prop :=
  avoiding : forall tr a, exec m tr a -> avoids P tr.

#[export] Hint Mode Avoids + + ! : typeclass_instances.

(** Any two classes of requests. *)
Definition orRequest (P Q : request -> bool) (r : request) : bool := P r || Q r.
Definition isKube (r : request) : bool := match r with ReqKube _ => true | _ => false end.
Definition isLock (r : request) : bool :=
  match r with ReqKube (KAcquireGraph _) | ReqKube (KReleaseGraph _) => true | _ => false end.
Definition isWrite (r : request) : bool := match r with ReqKube k => isKubeWrite k | _ => false end.

Section avoids.
Context (P : request -> bool).

#[export] Instance Avoids_Ret {A} (a : A) : Avoids P (Ret a).
Proof. intros tr b [-> _]. constructor. Qed.

Lemma Avoids_Call {A} r (k : _ -> prog A) : P r = false -> (forall x, Avoids P (k x)) -> Avoids P (Call r k).
Proof. intros Hr Hk tr a (x & tr' & -> & Hx). constructor; [done|]. exact (Hk _ _ _ Hx). Qed.

Lemma Avoids_bind {A B} (m : prog A) (f : A -> prog B) :
  Avoids P m -> (forall a, Avoids P (f a)) -> Avoids P (bind m f).
Proof.
  intros Hm Hf tr b (tr1 & tr2 & a & -> & H1 & H2)%exec_bind. apply Forall_app.
  split; [exact (Hm _ _ H1)|exact (Hf _ _ _ H2)].
Qed.

Lemma Avoids_mbind {A B} (m : M A) (f : A -> M B) :
  Avoids P m -> (forall a, Avoids P (f a)) -> Avoids P (mbind m f).
Proof. intros Hm Hf. apply Avoids_bind; [done|]. intros [a|e]; [done|apply _]. Qed.

Lemma Avoids_mfold {A B} (f : B -> A -> M B) acc l : (forall b x, Avoids P (f b x)) -> Avoids P (mfold f acc l).
Proof.
  intros Hf. revert acc. induction l as [|x l IH]; intros acc; [apply Avoids_Ret|]. by apply Avoids_mbind.
Qed.

Lemma Avoids_sbind {S A B} (m : SM S A) (f : A -> SM S B) s :
  Avoids P (m s) -> (forall a s', Avoids P (f a s')) -> Avoids P (sbind m f s).
Proof. intros Hm Hf. apply Avoids_bind; [done|]. intros [s' [a|e]]; [done|apply _]. Qed.

Lemma Avoids_slift {S A} (m : M A) (s : S) : Avoids P m -> Avoids P (slift m s).
Proof. intros Hm. apply Avoids_bind; [done|]. intros; apply _. Qed.

Lemma Avoids_stry {S A} (m : SM S A) s : Avoids P (m s) -> Avoids P (stry m s).
Proof. intros Hm. apply Avoids_bind; [done|]. intros; apply _. Qed.

Lemma Avoids_retry `{KubeErrors} {S A} (fn : nat -> SM S A) steps n s :
  (forall k s, Avoids P (fn k s)) -> Avoids P (retryOnConflict steps n fn s).
Proof.
  intros Hf. revert n s. induction steps as [|steps IH]; intros n s; cbn [retryOnConflict];
    (apply Avoids_bind; [apply Hf|]; intros [s' [a|e]]; try apply _).
  destruct (IsConflict e); [apply IH|apply _].
Qed.
End avoids.

Lemma Avoids_weaken (P Q : request -> bool) {A} (m : prog A) :
  (forall r, Q r = true -> P r = true) -> Avoids P m -> Avoids Q m.
Proof.
  intros HQ Hm tr a H. eapply Forall_impl; [exact (Hm _ _ H)|]. intros e He. cbn in *.
  destruct (Q (ev_req e)) eqn:E; [apply HQ in E; congruence|done].
Qed.

Lemma ReadOnly_Avoids {A} (m : prog A) : ReadOnly m <-> Avoids isMutation m.
Proof.
  split; intros Hm tr a H.
  - apply Hm in H. unfold mutations in H. unfold avoids. induction tr as [|e tr IH]; [constructor|].
    cbn in H. destruct (isMutation (ev_req e)) eqn:E; [done|]. constructor; auto.
  - apply Hm in H. unfold mutations. induction H as [|e tr He _ IH]; [done|]. cbn. by rewrite He.
Qed.

(** [solve_avoids]: along the structure of the program; [unfold_head] opens the
    definition of the procedure in front. *)
Ltac head_of t := lazymatch t with ?f _ => head_of f | _ => t end.
Ltac unfold_head m :=
  let h := head_of m in
  progress unfold h; cbv beta zeta.
Ltac avoids_step :=
  match goal with
  | |- Avoids _ (let _ := _ in _) => cbv zeta
  | |- Avoids _ (match ?x with _ => _ end) => destruct x
  | |- Avoids _ ((match ?x with _ => _ end) _) => destruct x
  | |- Avoids _ (bind _ _) => apply Avoids_bind; [|intros ?]
  | |- Avoids _ (try _ _) => apply Avoids_bind; [|intros ?]
  | |- Avoids _ (onError _ _) => apply Avoids_bind; [|intros ?]
  | |- Avoids _ (mbind _ _) => apply Avoids_mbind; [|intros ?]
  | |- Avoids _ (sbind _ _ _) => apply Avoids_sbind; [|intros ? ?]
  | |- Avoids _ (slift _ _) => apply Avoids_slift
  | |- Avoids _ (stry _ _) => apply Avoids_stry
  | |- Avoids _ (retryOnConflict _ _ _ _) => apply Avoids_retry; intros ? ?
  | |- Avoids _ (mfold _ _ _) => apply Avoids_mfold; intros ? ?
  | |- Avoids _ (Call _ _) => apply Avoids_Call; [reflexivity|intros ?]
  | |- Avoids _ (Ret _) => apply Avoids_Ret
  | |- Avoids _ _ => solve [apply _]
  | |- Avoids _ ?m => unfold_head m
  end.
Ltac solve_avoids := intros; repeat avoids_step.

(** ** Requests that are only made after something *)

Section guarded.
Context (P : request -> bool) (G : list event -> request -> Prop).

(** [GuardedFrom pre m]: in executions of [m] that follow the trace [pre]. *)
Definition GuardedFrom (pre : list event) {A} (m : prog A) : Prop :=
  forall tr a, exec m tr a ->
    forall t1 e t2, tr = t1 ++ e :: t2 -> P (ev_req e) = true -> G (pre ++ t1) (ev_req e).

Lemma GuardedFrom_Avoids pre {A} (m : prog A) : Avoids P m -> GuardedFrom pre m.
Proof.
  intros Hm tr a H t1 e t2 -> He. apply Hm in H. apply Forall_app in H as [_ H].
  apply Forall_cons in H as [H _]. congruence.
Qed.

Lemma GuardedFrom_bind pre {A B} (m : prog A) (f : A -> prog B) :
  GuardedFrom pre m -> (forall tr a, exec m tr a -> GuardedFrom (pre ++ tr) (f a)) -> GuardedFrom pre (bind m f).
Proof.
  intros Hm Hf tr b (tr1 & tr2 & a & -> & H1 & H2)%exec_bind t1 e t2 Ht He.
  apply app_eq_inv in Ht as [(l & -> & Hl)|(l & -> & Hl)].
  - destruct l as [|e' l]; simplify_eq/=.
    + rewrite app_nil_r in H1. pose proof (Hf _ _ H1 _ _ H2 [] e t2 eq_refl He) as Hg. by rewrite app_nil_r in Hg.
    + exact (Hm _ _ H1 t1 e' l eq_refl He).
  - rewrite (app_assoc pre). exact (Hf _ _ H1 _ _ H2 l e t2 Hl He).
Qed.

Lemma GuardedFrom_mbind pre {A B} (m : M A) (f : A -> M B) :
  GuardedFrom pre m -> (forall tr a, exec m tr (Ok a) -> GuardedFrom (pre ++ tr) (f a)) ->
  GuardedFrom pre (mbind m f).
Proof.
  intros Hm Hf. apply GuardedFrom_bind; [done|]. intros tr [a|e] H; [by apply Hf|apply GuardedFrom_Avoids, _].
Qed.

Lemma GuardedFrom_sbind pre {S A B} (m : SM S A) (f : A -> SM S B) s :
  GuardedFrom pre (m s) -> (forall tr a s', exec (m s) tr (s', Ok a) -> GuardedFrom (pre ++ tr) (f a s')) ->
  GuardedFrom pre (sbind m f s).
Proof.
  intros Hm Hf. apply GuardedFrom_bind; [done|]. intros tr [s' [a|e]] H; [by apply Hf|apply GuardedFrom_Avoids, _].
Qed.

Class Guarded {A} (m : prog A) : Prop := guarded : forall pre, GuardedFrom pre m.

Lemma Guarded_Avoids {A} (m : prog A) : Avoids P m -> Guarded m.
Proof. intros Hm pre. by apply GuardedFrom_Avoids. Qed.

Lemma Guarded_bind {A B} (m : prog A) (f : A -> prog B) :
  Guarded m -> (forall a, Guarded (f a)) -> Guarded (bind m f).
Proof. intros Hm Hf pre. apply GuardedFrom_bind; [by apply Hm|]. intros. apply Hf. Qed.

Lemma Guarded_mbind {A B} (m : M A) (f : A -> M B) :
  Guarded m -> (forall a, Guarded (f a)) -> Guarded (mbind m f).
Proof.
  intros Hm Hf. apply Guarded_bind; [done|]. intros [a|e]; [done|apply Guarded_Avoids, _].
Qed.

Lemma Guarded_sbind {S A B} (m : SM S A) (f : A -> SM S B) s :
  Guarded (m s) -> (forall a s', Guarded (f a s')) -> Guarded (sbind m f s).
Proof.
  intros Hm Hf. apply Guarded_bind; [done|]. intros [s' [a|e]]; [done|apply Guarded_Avoids, _].
Qed.

Lemma Guarded_slift {S A} (m : M A) (s : S) : Guarded m -> Guarded (slift m s).
Proof. intros Hm. apply Guarded_bind; [done|]. intros; apply Guarded_Avoids, _. Qed.

Lemma Guarded_stry {S A} (m : SM S A) s : Guarded (m s) -> Guarded (stry m s).
Proof. intros Hm. apply Guarded_bind; [done|]. intros; apply Guarded_Avoids, _. Qed.
Context (G_app : forall t0 t1 r, G t1 r -> G (t0 ++ t1) r).

Lemma Guarded_closed {A} (m : prog A) : GuardedFrom [] m -> Guarded m.
Proof. intros Hm pre tr a H t1 e t2 Ht He. by eapply G_app, Hm. Qed.

End guarded.

(** [solve_guarded tac]: along the structure; [tac] proves the procedures that
    make the requests. *)
Ltac guarded_step :=
  match goal with
  | |- Guarded _ _ (let _ := _ in _) => cbv zeta
  | |- Guarded _ _ (match ?x with _ => _ end) => destruct x
  | |- Guarded _ _ ((match ?x with _ => _ end) _) => destruct x
  | |- Guarded _ _ _ => solve [apply _]
  | |- Guarded _ _ _ => solve [apply Guarded_Avoids; solve_avoids]
  | |- Guarded _ _ (bind _ _) => apply Guarded_bind; [|intros ?]
  | |- Guarded _ _ (try _ _) => apply Guarded_bind; [|intros ?]
  | |- Guarded _ _ (onError _ _) => apply Guarded_bind; [|intros ?]
  | |- Guarded _ _ (mbind _ _) => apply Guarded_mbind; [|intros ?]
  | |- Guarded _ _ (sbind _ _ _) => apply Guarded_sbind; [|intros ? ?]
  | |- Guarded _ _ (slift _ _) => apply Guarded_slift
  | |- Guarded _ _ (stry _ _) => apply Guarded_stry
  | |- Guarded _ _ ?m => unfold_head m
  end.
Ltac solve_guarded := intros; repeat guarded_step.

(** ** Executions over a scope *)

Lemma exec_sbind {S A B} (m : SM S A) (f : A -> SM S B) s tr s' x :
  exec (sbind m f s) tr (s', x) <->
  (exists e, x = Err e /\ exec (m s) tr (s', Err e)) \/
  (exists tr1 tr2 s1 a, tr = tr1 ++ tr2 /\ exec (m s) tr1 (s1, Ok a) /\ exec (f a s1) tr2 (s', x)).
Proof.
  unfold sbind. rewrite exec_bind. split.
  - intros (tr1 & tr2 & [s1 [a|e]] & -> & H1 & H2); [right; eauto 10|].
    destruct H2 as [-> [= -> ->]]. left. exists e. by rewrite app_nil_r.
  - intros [(e & -> & H)|(tr1 & tr2 & s1 & a & -> & H1 & H2)].
    + exists tr, [], (s', Err e). by rewrite app_nil_r.
    + exists tr1, tr2, (s1, Ok a). done.
Qed.

Lemma exec_slift {S A} (m : M A) (s : S) tr s' x : exec (slift m s) tr (s', x) <-> s' = s /\ exec m tr x.
Proof.
  unfold slift. rewrite exec_bind. split.
  - intros (tr1 & tr2 & y & -> & H & [-> [= -> ->]]). by rewrite app_nil_r.
  - intros [-> H]. exists tr, [], x. by rewrite app_nil_r.
Qed.

Lemma exec_stry {S A} (m : SM S A) (s : S) tr s' x :
  exec (stry m s) tr (s', x) <-> exists y, x = Ok y /\ exec (m s) tr (s', y).
Proof.
  unfold stry. rewrite exec_bind. split.
  - intros (tr1 & tr2 & [s1 y] & -> & H & [-> [= -> ->]]). rewrite app_nil_r. eauto.
  - intros (y & -> & H). exists tr, [], (s', y). by rewrite app_nil_r.
Qed.

Lemma exec_sget {S} (s : S) tr s' x : exec (sget s) tr (s', x) <-> tr = [] /\ s' = s /\ x = Ok s.
Proof. cbn. naive_solver. Qed.
Lemma exec_smodify {S} (f : S -> S) s tr s' x : exec (smodify f s) tr (s', x) <-> tr = [] /\ s' = f s /\ x = Ok tt.
Proof. cbn. naive_solver. Qed.
Lemma exec_sret {S A} (a : A) (s : S) tr s' x : exec (sret a s) tr (s', x) <-> tr = [] /\ s' = s /\ x = Ok a.
Proof. cbn. naive_solver. Qed.
Lemma exec_sraise {S A} e (s : S) tr s' (x : outcome_of A) :
  exec (sraise e s) tr (s', x) <-> tr = [] /\ s' = s /\ x = Err e.
Proof. cbn. naive_solver. Qed.

Lemma sbind_sget {S A} (f : S -> SM S A) s : sbind sget f s = f s s.
Proof. done. Qed.
Lemma sbind_smodify {S A} g (f : unit -> SM S A) s : sbind (smodify g) f s = f tt (g s).
Proof. done. Qed.

(** A whole execution under the lock. *)
Lemma exec_locked {S A} c uid (body : SM S A) s tr s' x :
  exec (locked c uid body s) tr (s', x) <->
  (exists e, x = Err e /\ s' = s /\ exec (wrap "acquire Gateway graph: %w" [] (Acquire c uid)) tr (Err e)) \/
  (c = true /\ uid <> "" /\ exists t y,
     tr = Ev (ReqKube (KAcquireGraph uid)) (Ok tt) :: t ++ [Ev (ReqKube (KReleaseGraph uid)) y] /\
     exec (body s) t (s', x)).
Proof.
  unfold locked. rewrite exec_sbind. split.
  - intros [(e & -> & [-> H]%exec_slift)|(tr1 & tr2 & s1 & [] & -> & [-> H1]%exec_slift & H2)]; [left; eauto|].
    right. apply exec_wrap_ok in H1. unfold Acquire in H1.
    destruct c; [|by apply exec_raise in H1 as [_ ?]].
    destruct (String.eqb_spec uid ""); [by apply exec_raise in H1 as [_ ?]|]. cbn [negb] in H1.
    apply exec_call in H1 as ->. split; [done|]. split; [done|].
    apply exec_bind in H2 as (t & t' & y & -> & Hb & (z & t'' & -> & -> & Hy)). subst y. by exists t, z.
  - intros [(e & -> & -> & H)|(-> & Hu & t & y & -> & H)].
    + left. exists e. split; [done|]. by apply exec_slift.
    + right. exists [Ev (ReqKube (KAcquireGraph uid)) (Ok tt)], (t ++ [Ev (ReqKube (KReleaseGraph uid)) y]), s, tt.
      split; [done|]. split.
      * apply exec_slift. split; [done|]. apply exec_wrap_ok. unfold Acquire.
        destruct (String.eqb_spec uid ""); [done|]. by apply exec_call.
      * apply exec_bind. exists t, [Ev (ReqKube (KReleaseGraph uid)) y], (s', x). split; [done|]. split; [done|].
        exists y, []. done.
Qed.

(** A body that is guarded once the lock is held. *)
Lemma GuardedFrom_locked (P : request -> bool) G {S A} c uid (body : SM S A) s pre :
  P (ReqKube (KAcquireGraph uid)) = false -> P (ReqKube (KReleaseGraph uid)) = false ->
  GuardedFrom P G (pre ++ [Ev (ReqKube (KAcquireGraph uid)) (Ok tt)]) (body s) ->
  GuardedFrom P G pre (locked c uid body s).
Proof.
  intros Ha Hr Hb tr [s' x] Hl t1 e t2 Ht He.
  apply exec_locked in Hl as [(e' & -> & -> & (y & Hl & _)%exec_onError)|(_ & _ & t & y & -> & Hl)].
  - unfold Acquire in Hl. destruct c; [|by apply exec_raise in Hl as [-> _]; destruct t1].
    destruct (negb _); [|by apply exec_raise in Hl as [-> _]; destruct t1].
    apply exec_call in Hl as ->. destruct t1 as [|? []]; simplify_eq/=. congruence.
  - destruct t1 as [|e1 t1]; [simplify_eq/=; congruence|]. injection Ht as <- Ht.
    apply app_eq_inv in Ht as [(l & -> & Hl')|(l & -> & Hl')].
    + destruct l as [|e' l]; simplify_eq/=; [congruence|].
      specialize (Hb _ _ Hl t1 e' l eq_refl He). by rewrite <- app_assoc in Hb.
    + destruct l as [|? []]; simplify_eq/=. congruence.
Qed.

(** Every attempt of a retried function is guarded; [J] holds again after an
    attempt that failed. *)
Lemma GuardedFrom_retry_with (P : request -> bool) G `{KubeErrors} {S A} (J : S -> Prop) (fn : nat -> SM S A) steps n s pre :
  (forall k s t, J s -> GuardedFrom P G (pre ++ t) (fn k s)) ->
  (forall k s t s' e, J s -> exec (fn k s) t (s', Err e) -> J s') ->
  J s -> GuardedFrom P G pre (retryOnConflict steps n fn s).
Proof.
  intros Hf HJ. enough (forall t, J s -> GuardedFrom P G (pre ++ t) (retryOnConflict steps n fn s)) as Hr.
  { specialize (Hr []). by rewrite app_nil_r in Hr. }
  revert n s. induction steps as [|steps IH]; intros n s t Hs; cbn [retryOnConflict];
    (apply GuardedFrom_bind; [by apply Hf|]; intros tr [s' [a|e]] Hx; try (apply GuardedFrom_Avoids, _)).
  destruct (IsConflict e); [rewrite <- app_assoc; apply IH; by eapply HJ|apply GuardedFrom_Avoids, _].
Qed.

Lemma GuardedFrom_retry (P : request -> bool) G `{KubeErrors} {S A} (fn : nat -> SM S A) steps n s pre :
  (forall k s t, GuardedFrom P G (pre ++ t) (fn k s)) -> GuardedFrom P G pre (retryOnConflict steps n fn s).
Proof. intros Hf. apply (GuardedFrom_retry_with P G (fun _ => True)); auto. Qed.

(** [inv_kube]: [inv_exec] with requests to the API server and guards. *)
Ltac inv_kube_step :=
  match goal with
  | H : exec (getGateway _ _) _ _ |- _ => apply exec_call in H as ->
  | H : exec (getClass _ _) _ _ |- _ => apply exec_call in H as ->
  | H : exec (getHTTPRoute _ _) _ _ |- _ => apply exec_call in H as ->
  | H : exec (getService _ _) _ _ |- _ => apply exec_call in H as ->
  | H : exec (listEndpointSlices _ _ _) _ _ |- _ => apply exec_call in H as ->
  | H : exec (listNodes _) _ _ |- _ => apply exec_call in H as ->
  | H : exec (listHTTPRoutes _ _ _) _ _ |- _ => apply exec_call in H as ->
  | H : exec (listGateways _) _ _ |- _ => apply exec_call in H as ->
  | H : exec (listDefinitions _) _ _ |- _ => apply exec_call in H as ->
  | H : exec (patchGatewayObject _ _) _ _ |- _ => apply exec_call in H as ->
  | H : exec (patchGatewayStatus _ _) _ _ |- _ => apply exec_call in H as ->
  | H : exec (patchRoute _ _) _ _ |- _ => apply exec_call in H as ->
  | H : exec (patchRouteStatus _ _) _ _ |- _ => apply exec_call in H as ->
  | H : exec (patchClass _ _) _ _ |- _ => apply exec_call in H as ->
  | H : exec (patchClassStatus _ _) _ _ |- _ => apply exec_call in H as ->
  | H : exec (if ?b then _ else raise _) _ (Ok _) |- _ =>
      let E := fresh "E" in destruct b eqn:E; [|by apply exec_raise in H as [_ ?]]
  | H : exec (let _ := _ in _) _ _ |- _ => cbv zeta in H
  | _ => inv_exec_step
  end.
Ltac inv_kube := repeat inv_kube_step.

(** ** The graph lock *)

Definition locks (tr : list event) : list event := List.filter (fun e => isLock (ev_req e)) tr.

(** The lock operations of one reconciliation: a lock that was granted is
    released before anything else is asked for. *)
Inductive balanced : list event -> Prop :=
| balanced_nil : balanced []
| balanced_refused uid e l : balanced l -> balanced (Ev (ReqKube (KAcquireGraph uid)) (Err e) :: l)
| balanced_held uid x l :
    balanced l -> balanced (Ev (ReqKube (KAcquireGraph uid)) (Ok tt) :: Ev (ReqKube (KReleaseGraph uid)) x :: l).

Lemma balanced_app l l' : balanced l -> balanced l' -> balanced (l ++ l').
Proof. intros Hl Hl'. induction Hl; cbn [app]; [done|by constructor..]. Qed.

Lemma locks_app t t' : locks (t ++ t') = locks t ++ locks t'.
Proof. apply List.filter_app. Qed.

Lemma locks_avoids t : avoids isLock t -> locks t = [].
Proof. unfold locks. induction 1 as [|e t He _ IH]; [done|]. cbn. by rewrite He. Qed.

Class Balanced {A} (m : prog A) : Prop := balancing : forall tr a, exec m tr a -> balanced (locks tr).

Lemma Balanced_Avoids {A} (m : prog A) : Avoids isLock m -> Balanced m.
Proof. intros Hm tr a H. rewrite locks_avoids; [constructor|exact (Hm _ _ H)]. Qed.

Lemma Balanced_bind {A B} (m : prog A) (f : A -> prog B) :
  Balanced m -> (forall a, Balanced (f a)) -> Balanced (bind m f).
Proof.
  intros Hm Hf tr b (tr1 & tr2 & a & -> & H1 & H2)%exec_bind. rewrite locks_app.
  apply balanced_app; [exact (Hm _ _ H1)|exact (Hf _ _ _ H2)].
Qed.

Lemma Balanced_mbind {A B} (m : M A) (f : A -> M B) :
  Balanced m -> (forall a, Balanced (f a)) -> Balanced (mbind m f).
Proof. intros Hm Hf. apply Balanced_bind; [done|]. intros [a|e]; [done|apply Balanced_Avoids, _]. Qed.

Lemma Balanced_sbind {S A B} (m : SM S A) (f : A -> SM S B) s :
  Balanced (m s) -> (forall a s', Balanced (f a s')) -> Balanced (sbind m f s).
Proof. intros Hm Hf. apply Balanced_bind; [done|]. intros [s' [a|e]]; [done|apply Balanced_Avoids, _]. Qed.

Lemma Balanced_slift {S A} (m : M A) (s : S) : Balanced m -> Balanced (slift m s).
Proof. intros Hm. apply Balanced_bind; [done|]. intros; apply Balanced_Avoids, _. Qed.

Lemma Balanced_stry {S A} (m : SM S A) s : Balanced (m s) -> Balanced (stry m s).
Proof. intros Hm. apply Balanced_bind; [done|]. intros; apply Balanced_Avoids, _. Qed.

Lemma Balanced_locked {S A} c uid (body : SM S A) s :
  (forall s, Avoids isLock (body s)) -> Balanced (locked c uid body s).
Proof.
  intros Hb tr [s' x] [(e & -> & -> & Hx)|(_ & _ & t & y & -> & Hx)]%exec_locked.
  - apply exec_onError in Hx as ([]& Hx & [=]). unfold Acquire in Hx.
    destruct c; [|apply exec_raise in Hx as [-> _]; constructor].
    destruct (negb _); [|apply exec_raise in Hx as [-> _]; constructor].
    apply exec_call in Hx as ->. by repeat constructor.
  - cbn. rewrite List.filter_app. cbn. fold (locks t). rewrite (locks_avoids t); [by repeat constructor|exact (Hb _ _ _ Hx)].
Qed.

Ltac balanced_step :=
  match goal with
  | |- Balanced (let _ := _ in _) => cbv zeta
  | |- Balanced (match ?x with _ => _ end) => destruct x
  | |- Balanced ((match ?x with _ => _ end) _) => destruct x
  | |- Balanced _ => solve [apply _]
  | |- Balanced _ => solve [apply Balanced_Avoids; solve_avoids]
  | |- Balanced (bind _ _) => apply Balanced_bind; [|intros ?]
  | |- Balanced (try _ _) => apply Balanced_bind; [|intros ?]
  | |- Balanced (onError _ _) => apply Balanced_bind; [|intros ?]
  | |- Balanced (mbind _ _) => apply Balanced_mbind; [|intros ?]
  | |- Balanced (sbind _ _ _) => apply Balanced_sbind; [|intros ? ?]
  | |- Balanced (slift _ _) => apply Balanced_slift
  | |- Balanced (stry _ _) => apply Balanced_stry
  | |- Balanced (locked _ _ _ _) => apply Balanced_locked; intros ?; solve_avoids
  | |- Balanced ?m => unfold_head m
  end.
Ltac solve_balanced := intros; repeat balanced_step.

(** ** Invariants of the scope and the trace *)

Section keeps.
Context {S : Type} (I : list event -> S -> Prop).

(** [Keeps m]: [I] holds again after [m], however it ends. *)
Class Keeps {A} (m : SM S A) : Prop :=
  keeping : forall t s t' s' x, I t s -> exec (m s) t' (s', x) -> I (t ++ t') s'.

Context (I_app : forall t t' s, I t s -> I (t ++ t') s).

Lemma Keeps_slift {A} (m : M A) : Keeps (slift m).
Proof. intros t s t' s' x HI [-> _]%exec_slift. by apply I_app. Qed.
Lemma Keeps_sret {A} (a : A) : Keeps (sret a).
Proof. intros t s t' s' x HI (-> & -> & _)%exec_sret. by apply I_app. Qed.
Lemma Keeps_sraise {A} e : Keeps (A := A) (sraise e).
Proof. intros t s t' s' x HI (-> & -> & _)%exec_sraise. by apply I_app. Qed.
Lemma Keeps_sget : Keeps sget.
Proof. intros t s t' s' x HI (-> & -> & _)%exec_sget. by apply I_app. Qed.
Lemma Keeps_smodify f : (forall t s, I t s -> I t (f s)) -> Keeps (smodify f).
Proof. intros Hf t s t' s' x HI (-> & -> & _)%exec_smodify. rewrite app_nil_r. by apply Hf. Qed.
Lemma Keeps_stry {A} (m : SM S A) : Keeps m -> Keeps (stry m).
Proof. intros Hm t s t' s' x HI (y & _ & Hx)%exec_stry. by eapply Hm. Qed.
Lemma Keeps_sbind {A B} (m : SM S A) (f : A -> SM S B) : Keeps m -> (forall a, Keeps (f a)) -> Keeps (sbind m f).
Proof.
  intros Hm Hf t s t' s' x HI [(e & -> & Hx)|(t1 & t2 & s1 & a & -> & H1 & H2)]%exec_sbind; [by eapply Hm|].
  rewrite app_assoc. eapply Hf; [|exact H2]. by eapply Hm.
Qed.
End keeps.

Ltac keeps_step mono :=
  match goal with
  | |- Keeps _ (let _ := _ in _) => cbv zeta
  | |- Keeps _ (match ?x with _ => _ end) => destruct x
  | |- Keeps _ _ => solve [apply _]
  | |- Keeps _ (sbind _ _) => apply Keeps_sbind; [|intros ?]
  | |- Keeps _ (stry _) => apply Keeps_stry
  | |- Keeps _ (slift _) => apply (Keeps_slift _ mono)
  | |- Keeps _ (sret _) => apply (Keeps_sret _ mono)
  | |- Keeps _ (sraise _) => apply (Keeps_sraise _ mono)
  | |- Keeps _ sget => apply (Keeps_sget _ mono)
  | |- Keeps _ (smodify _) => apply Keeps_smodify; intros ? ? ?
  | |- Keeps _ ?m => unfold_head m
  end.
Ltac solve_keeps mono := intros; repeat keeps_step mono.
