(* ===== verification/OpenStackProvider.v ===== *)
(** * The OpenStack provider behind the interface of the reconcilers

    [internal/cloud/openstack/provider.go]: the facade delegates to the graph
    package.  The reconcilers only rely on the interface and on its law: a
    provider talks to the cloud alone. *)
From stdpp Require Import base list strings.
From Stdlib Require Import ZArith Lia.
From S2P Require Import Prelude GoStrings Cloud Kube KubeObjects Metadata OpenStack ProgramLogic GatewayGraph GatewayFacts RoutePlan RouteGraph RouteFacts KubeClient ReconcileLogic.

Set Default Goal Selector "!".

(** What the reconcilers rely on: no call reaches the API server. *)
Class CloudProviderLaws `{CloudProvider} : Prop := {
  ensure_gateway_on_cloud spec :: Avoids isKube (Provider_EnsureGateway spec);
  delete_gateway_on_cloud id :: Avoids isKube (Provider_DeleteGateway id);
  ensure_route_on_cloud spec :: Avoids isKube (Provider_EnsureRoute spec);
  delete_route_on_cloud id :: Avoids isKube (Provider_DeleteRoute id)
}.

(** Requests to the API server of any kind. *)
Class KubeOnly (P : request -> bool) : Prop := kube_only : forall q, P q = true -> isKube q = true.
#[export] Instance isLock_kube : KubeOnly isLock.
Proof. by intros []. Qed.

Section laws.
Context `{CloudProviderLaws} (P : request -> bool) `{!KubeOnly P}.
Lemma ensure_gateway_avoids spec : Avoids P (Provider_EnsureGateway spec).
Proof. apply (Avoids_weaken isKube); [exact kube_only|apply _]. Qed.
Lemma delete_gateway_avoids id : Avoids P (Provider_DeleteGateway id).
Proof. apply (Avoids_weaken isKube); [exact kube_only|apply _]. Qed.
Lemma ensure_route_avoids spec : Avoids P (Provider_EnsureRoute spec).
Proof. apply (Avoids_weaken isKube); [exact kube_only|apply _]. Qed.
Lemma delete_route_avoids id : Avoids P (Provider_DeleteRoute id).
Proof. apply (Avoids_weaken isKube); [exact kube_only|apply _]. Qed.
End laws.

(** [NewProvider] of the facade. *)
#[export] Instance graphProvider `{Gophercloud} (p : Provider) : CloudProvider :=
  {| Provider_EnsureGateway := EnsureGateway p; Provider_DeleteGateway := DeleteGateway p;
     Provider_EnsureRoute := EnsureRoute p; Provider_DeleteRoute := DeleteRoute p |}.

#[export] Instance graphProvider_laws `{Gophercloud} (p : Provider) : @CloudProviderLaws (graphProvider p).
Proof. split; cbn; solve_avoids. Qed.
