(* ===== verification/GatewayReconciler.v ===== *)
(** * The Gateway reconciler: calls and their order

    The effectful half of [internal/controller/gateway]: the scope
    ([gateway_scope.go]), the live snapshots that authorise a change
    ([gateway_snapshot.go]), binding ([gateway_binding.go]), the two calls of the
    provider under the graph lock ([gateway_graph.go], [gateway_cleanup.go]),
    failures and versions ([gateway_status.go], [gateway_version_status.go]) and
    [Reconcile] ([gateway_controller.go]). *)
From stdpp Require Import base list strings gmap.
From Stdlib Require Import ZArith Lia.
From S2P Require Import Prelude GoStrings Cloud Kube KubeObjects References OpenStack Outcomes Binding Indexes KubeClient GatewayModel.

Set Default Goal Selector "!".

(** [Reconciler]: whether the coordinator and the live reader are set, and the
    configuration. *)
Record Reconciler := mkReconciler { rc_Coordinator : bool; rc_APIReader : bool; rc_Config : Config }.

Definition errGatewayChanged : string := "gateway changed during reconciliation".

(** [object.Annotations[key]] in its two-value form. *)
Definition hasAnnotation (o : ObjectMeta) (key : string) : bool :=
  match default ∅ (om_Annotations o) !! key with Some _ => true | None => false end.

(** [equality.Semantic.DeepEqual] on metadata: a nil map equals an empty one. *)
Definition metadataEqual (left right : ObjectMeta) : bool :=
  bool_decide (makeAnnotations left = makeAnnotations right).

(** ** The scope (gateway_scope.go) *)

Record gatewayScope := mkGatewayScope {
  sc_gateway : Gateway;
  sc_original : Gateway;
  sc_gatewayClass : option GatewayClass;
  sc_managed : bool;
  sc_skipPatch : bool;
  sc_warnings : list (ProviderFailurePolicy * string);
  sc_patchCause : option error }.

Definition setGateway (s : gatewayScope) (g : Gateway) : gatewayScope :=
  mkGatewayScope g (sc_original s) (sc_gatewayClass s) (sc_managed s) (sc_skipPatch s) (sc_warnings s) (sc_patchCause s).
Definition setOriginal (s : gatewayScope) (g : Gateway) : gatewayScope :=
  mkGatewayScope (sc_gateway s) g (sc_gatewayClass s) (sc_managed s) (sc_skipPatch s) (sc_warnings s) (sc_patchCause s).
Definition setSkipPatch (s : gatewayScope) : gatewayScope :=
  mkGatewayScope (sc_gateway s) (sc_original s) (sc_gatewayClass s) (sc_managed s) true (sc_warnings s) (sc_patchCause s).
Definition setWarnings (s : gatewayScope) (l : list (ProviderFailurePolicy * string)) : gatewayScope :=
  mkGatewayScope (sc_gateway s) (sc_original s) (sc_gatewayClass s) (sc_managed s) (sc_skipPatch s) l (sc_patchCause s).
Definition setPatchCause (s : gatewayScope) (e : error) : gatewayScope :=
  mkGatewayScope (sc_gateway s) (sc_original s) (sc_gatewayClass s) (sc_managed s) (sc_skipPatch s) (sc_warnings s) (Some e).

Definition queueWarning (s : gatewayScope) (policy : ProviderFailurePolicy) (operation : string) : gatewayScope :=
  setWarnings s (sc_warnings s ++ [(policy, operation)]).

Definition statusChanged (s : gatewayScope) : bool :=
  negb (bool_decide (gw_Status (sc_original s) = gw_Status (sc_gateway s))).

(** [refresh]: an observed Gateway replaces the cached one; a pending status is
    kept unless the stored status changed as well. *)
Definition refresh (s : gatewayScope) (gateway : Gateway) : outcome_of gatewayScope :=
  let desiredStatus := gw_Status (sc_gateway s) in
  let changed := statusChanged s in
  if changed && negb (bool_decide (gw_Status (sc_original s) = gw_Status gateway))
  then Err (Sentinel errGatewayChanged)
  else Ok (setOriginal (setGateway s (if changed then withStatus gateway desiredStatus else gateway)) gateway).

Definition refreshScope (gateway : Gateway) : SM gatewayScope unit := fun s =>
  match refresh s gateway with Ok s' => Ret (s', Ok tt) | Err e => Ret (s, Err e) end.

Inductive gatewayBindingRequirement := gatewayBindingOptional | gatewayBindingRequired.

#[export] Instance gatewayBindingRequirement_eq_dec : EqDecision gatewayBindingRequirement.
Proof. solve_decision. Defined.

Record gatewayMutationSnapshot := mkMutationSnapshot {
  ms_gateway : Gateway; ms_gatewayClass : GatewayClass; ms_listener : GatewayListener;
  ms_binding : gatewayBindingRequirement }.

Inductive gatewayCleanupDisposition := gatewayCleanupDelete | gatewayCleanupHold.

Record gatewayCleanupSnapshot := mkCleanupSnapshot {
  cs_identity : Identity; cs_disposition : gatewayCleanupDisposition }.

(** [resourceDisplayName] (gateway_graph.go). *)
Definition openStackResourceNamePrefix : string := "gateway-api-openstack".
Definition resourceDisplayName (parts : list string) : string :=
  let name := Join (openStackResourceNamePrefix :: parts) "-" in
  if (200 <? String.length name)%nat then str_take 200 name else name.

Section reconciler.
Context `{ControllerUtil, ApiMeta, KubeErrors, ForeignTexts, GatewayConsts, CloudProvider} (r : Reconciler).

Definition config : Config := rc_Config r.
Definition gatewayChanged {A} : M A := raise (Sentinel errGatewayChanged).
Definition gatewayKey (g : Gateway) : NamespacedName := ObjectKey (gw_Meta g).

Definition requireAPIReader {A} (m : M A) : M A :=
  guard! rc_APIReader r else Sentinel ErrAPIReaderRequired in m.

(** A live read whose error is joined to [errGatewayChanged], NotFound apart. *)
Definition unlessChanged {A} (m : M A) : M A :=
  onError (fun e => joinWith (Sentinel errGatewayChanged) (IgnoreNotFound e)) m.

(** ** Snapshots (gateway_snapshot.go) *)

(** The GatewayClass still belongs to this controller, without parameters. *)
Definition classAssigned (gatewayClass : GatewayClass) : bool :=
  String.eqb (gc_ControllerName gatewayClass) (cfg_ControllerName config) && negb (gc_ParametersRef gatewayClass).

Definition observeGatewayMutationSnapshot (expected : Gateway) (binding : gatewayBindingRequirement)
    (expectedListenerPort : string) : M gatewayMutationSnapshot :=
  requireAPIReader (
  let! gateway := unlessChanged (getGateway Live (gatewayKey expected)) in
  let meta := gw_Meta gateway in
  guard! String.eqb (om_UID meta) (om_UID (gw_Meta expected)) &&
         (om_Generation meta =? om_Generation (gw_Meta expected))%Z && negb (om_Deleting meta)
    else Sentinel errGatewayChanged in
  let! gatewayClass := unlessChanged (getClass Live (gw_GatewayClassName gateway)) in
  guard! classAssigned gatewayClass else Sentinel errGatewayChanged in
  guard! GatewayClassSupportsInstalledVersion gatewayClass else Sentinel ErrUnsupportedGatewayAPIVersion in
  guard! negb (bool_decide (binding = gatewayBindingRequired)) ||
         ContainsFinalizer (om_Finalizers meta) (GatewayFinalizer config)
    else Sentinel errGatewayChanged in
  match ValidateGatewayBinding config meta with
  | Err e => raise (joinWith (Sentinel errGatewayChanged) (Some e))
  | Ok _ =>
      match GatewayModel.Validate gateway with
      | Err _ => gatewayChanged
      | Ok listener =>
          let listenerPort := decimal_Z (gl_Port listener) in
          guard! String.eqb expectedListenerPort "" || String.eqb listenerPort expectedListenerPort
            else Sentinel errGatewayChanged in
          guard! negb (bool_decide (binding = gatewayBindingRequired)) ||
                 String.eqb (annotation meta (GatewayListenerPortAnnotation config)) listenerPort
            else Sentinel errGatewayChanged in
          ret (mkMutationSnapshot gateway gatewayClass listener binding)
      end
  end).

(** The checks of the second read when the binding must be in place. *)
Definition bindingSealed (meta : ObjectMeta) : bool :=
  ContainsFinalizer (om_Finalizers meta) (GatewayFinalizer config) &&
  negb (String.eqb (annotation meta (GatewayListenerPortAnnotation config)) "") &&
  negb (String.eqb (annotation meta (GatewayClusterIDAnnotation config)) "") &&
  negb (String.eqb (annotation meta (GatewayProjectIDAnnotation config)) "") &&
  match ValidateGatewayBinding config meta with Ok _ => true | Err _ => false end.

Definition sealGatewayMutationSnapshot (snapshot : gatewayMutationSnapshot) : M unit :=
  let! _ := ValidateInstalledGatewayAPIVersion (rc_APIReader r) in
  let expected := gw_Meta (ms_gateway snapshot) in
  let! gateway := unlessChanged (getGateway Live (ObjectKey expected)) in
  let meta := gw_Meta gateway in
  guard! String.eqb (om_UID meta) (om_UID expected) && (om_Generation meta =? om_Generation expected)%Z &&
         negb (om_Deleting meta) && GatewayBindingMetadataEqual config meta expected
    else Sentinel errGatewayChanged in
  guard! negb (bool_decide (ms_binding snapshot = gatewayBindingRequired)) || bindingSealed meta
    else Sentinel errGatewayChanged in
  guard! String.eqb (gw_GatewayClassName gateway) (om_Name (gc_Meta (ms_gatewayClass snapshot)))
    else Sentinel errGatewayChanged in
  let! gatewayClass := unlessChanged (getClass Live (om_Name (gc_Meta (ms_gatewayClass snapshot)))) in
  guard! classAssigned gatewayClass else Sentinel errGatewayChanged in
  guard! GatewayClassSupportsInstalledVersion gatewayClass else Sentinel ErrUnsupportedGatewayAPIVersion in
  ret tt.

(** The part of [observeGatewayCleanupSnapshot] after the Gateway was read, for
    a Gateway that is not being deleted. *)
Definition cleanupAuthority (gateway : Gateway) : M gatewayCleanupDisposition :=
  let meta := gw_Meta gateway in
  try (getClass Live (gw_GatewayClassName gateway)) (fun found =>
    match found with
    | Err e =>
        if IsNotFound e then let! _ := ValidateInstalledGatewayAPIVersion (rc_APIReader r) in ret gatewayCleanupDelete
        else raise (Errorf "get GatewayClass before Gateway cleanup: %w" [] (Some e))
    | Ok gatewayClass =>
        if negb (String.eqb (gc_ControllerName gatewayClass) (cfg_ControllerName config)) then ret gatewayCleanupDelete
        else
        guard! GatewayClassSupportsInstalledVersion gatewayClass else Sentinel ErrUnsupportedGatewayAPIVersion in
        let! _ := ValidateInstalledGatewayAPIVersion (rc_APIReader r) in
        if gc_ParametersRef gatewayClass then ret gatewayCleanupDelete
        else match GatewayModel.Validate gateway with
        | Err _ => ret gatewayCleanupDelete
        | Ok listener =>
            let storedListenerPort := annotation meta (GatewayListenerPortAnnotation config) in
            if negb (String.eqb storedListenerPort "") && negb (String.eqb storedListenerPort (decimal_Z (gl_Port listener)))
            then ret gatewayCleanupDelete else ret gatewayCleanupHold
        end
    end).

Definition observeGatewayCleanupSnapshot (expected : Gateway) : M gatewayCleanupSnapshot :=
  requireAPIReader (
  let! gateway := unlessChanged (getGateway Live (gatewayKey expected)) in
  let meta := gw_Meta gateway in
  guard! String.eqb (om_UID meta) (om_UID (gw_Meta expected)) &&
         (om_Generation meta =? om_Generation (gw_Meta expected))%Z &&
         String.eqb (om_ResourceVersion meta) (om_ResourceVersion (gw_Meta expected)) &&
         Bool.eqb (om_Deleting meta) (om_Deleting (gw_Meta expected))
    else Sentinel errGatewayChanged in
  match ValidateGatewayBinding config meta with
  | Err e => raise (joinWith (Sentinel errGatewayChanged) (Some e))
  | Ok _ =>
      let identity := StoredGatewayIdentity config meta in
      if om_Deleting meta then ret (mkCleanupSnapshot identity gatewayCleanupDelete)
      else let! disposition := cleanupAuthority gateway in ret (mkCleanupSnapshot identity disposition)
  end).

(** ** The provider under the graph lock (gateway_graph.go, gateway_cleanup.go) *)

Definition gatewaySpec (gateway : Gateway) (listener : GatewayListener) : GatewaySpec :=
  mkGatewaySpec (GatewayIdentity config (gw_Meta gateway)) (cfg_Provider config) (cfg_VIPSubnetID config)
    (cfg_ExternalNetworkID config)
    (resourceDisplayName [om_Namespace (gw_Meta gateway); om_Name (gw_Meta gateway); gl_Name listener])
    (gl_Port listener).

(** What runs under the lock of [ensureGateway] and [deleteGateway]. *)
Definition ensureLockedGateway (expected : Gateway) : M GatewayResult :=
  let! snapshot := observeGatewayMutationSnapshot expected gatewayBindingRequired "" in
  let desired := gatewaySpec (ms_gateway snapshot) (ms_listener snapshot) in
  let! _ := sealGatewayMutationSnapshot snapshot in
  let! result := Provider_EnsureGateway desired in
  let! _ := wrap "validate Gateway provider outcome: %w" [] (lift (Cloud.Validate (g_Outcome result))) in
  ret result.
Definition deleteLockedGateway (expected : Gateway) : M Outcome :=
  let! snapshot := observeGatewayCleanupSnapshot expected in
  match cs_disposition snapshot with
  | gatewayCleanupDelete => Provider_DeleteGateway (cs_identity snapshot)
  | gatewayCleanupHold => gatewayChanged
  end.

Definition lockedGateway {A} (expected : Gateway) (body : M A) : M A :=
  requireAPIReader
    (bind (locked (rc_Coordinator r) (om_UID (gw_Meta expected)) (slift body) tt) (fun x => Ret (snd x))).

Definition ensureGateway (expected : Gateway) : M GatewayResult :=
  lockedGateway expected (ensureLockedGateway expected).
Definition deleteGateway (expected : Gateway) : M Outcome :=
  lockedGateway expected (deleteLockedGateway expected).

(** ** Binding (gateway_binding.go) *)

Definition bindGateway (expected : Gateway) (desiredListenerPort : string) : M unit :=
  let! snapshot := observeGatewayMutationSnapshot expected gatewayBindingOptional desiredListenerPort in
  let metadataBase := ms_gateway snapshot in
  let gateway := withMeta metadataBase (applyGatewayBinding config (gw_Meta metadataBase) desiredListenerPort) in
  if metadataEqual (gw_Meta metadataBase) (gw_Meta gateway) then ret tt
  else
  let! _ := sealGatewayMutationSnapshot snapshot in
  let! _ := wrap "patch Gateway resource binding: %w" [] (patchGatewayObject metadataBase gateway) in
  ret tt.

(** ** Patches (gateway_scope.go) *)

Definition patchGateway : SM gatewayScope unit :=
  do! scope := sget in
  if sc_skipPatch scope then sret tt
  else
  do! _ := (if statusChanged scope then
    let desired := sc_gateway scope in
    do! statusTarget := slift (wrap "patch Gateway status: %w" []
                          (patchGatewayStatus (withStatus desired (gw_Status (sc_original scope))) desired)) in
    smodify (fun s => setOriginal (setGateway s statusTarget) statusTarget)
  else sret tt) in
  smodify (fun s => setWarnings s []).

Definition patchGatewayMetadata : SM gatewayScope unit :=
  do! scope := sget in
  if negb (gatewayOwnedMetadataChanged config (gw_Meta (sc_original scope)) (gw_Meta (sc_gateway scope))) then sret tt
  else
  let desiredStatus := gw_Status (sc_gateway scope) in
  let metadataBase := sc_original scope in
  let metadataTarget :=
    withMeta metadataBase (copyGatewayOwnedMetadata config (gw_Meta metadataBase) (gw_Meta (sc_gateway scope))) in
  do! stored := slift (wrap "patch Gateway metadata: %w" [] (patchGatewayObject metadataBase metadataTarget)) in
  smodify (fun s => setOriginal (setGateway s (withStatus stored desiredStatus)) stored).

(** ** Status that needs the API (gateway_status.go, gateway_version_status.go) *)

Definition attachedRouteCount (gateway : Gateway) (listener : GatewayListener) : M Z :=
  let! routes := listHTTPRoutes Cached None (Some (IndexHTTPRouteByStatusGateway, ObjectKeyString (gatewayKey gateway))) in
  ret (countAttachedRoutes gateway listener (cfg_ControllerName config) routes).

Definition setGatewayProvisioningStatus (listener : GatewayListener) (programmed : ConditionStatus)
    (gatewayReason listenerReason message : string) (advance : bool) : SM gatewayScope unit :=
  do! scope := sget in
  do! attachedRoutes := slift (attachedRouteCount (sc_gateway scope) listener) in
  smodify (fun s => setGateway s
    (provisioningStatus (sc_gateway s) listener attachedRoutes programmed gatewayReason listenerReason message advance)).

Definition setGatewayProgressing (listener : GatewayListener) (message : string) : SM gatewayScope unit :=
  setGatewayProvisioningStatus listener ConditionFalse ReasonNoResources ReasonPending message true.

Definition setGatewayProgrammed (listener : GatewayListener) (gatewayState : GatewayState) : SM gatewayScope unit :=
  do! scope := sget in
  do! attachedRoutes := slift (attachedRouteCount (sc_gateway scope) listener) in
  smodify (fun s => setGateway s (programmedStatus (sc_gateway s) listener attachedRoutes gatewayState)).

(** The condition this failure publishes is not there yet. *)
Definition programmedTransitioned (gateway : Gateway) (policy : ProviderFailurePolicy) : bool :=
  let conditions := gst_Conditions (gw_Status gateway) in
  ConditionTransitioned conditions Programmed (fp_ConditionStatus policy)
    (fst (gatewayProviderFailureReasons (fp_Category policy))) (fp_Message policy)
    (ConditionObservedGeneration conditions Programmed (gatewayGeneration gateway) (fp_AdvancesObservedGeneration policy)).

(** The end of both failure handlers: the event and the cause of a failed patch. *)
Definition recordFailure (transitioned : bool) (policy : ProviderFailurePolicy) (operation : string)
    (providerErr : error) (s : gatewayScope) : gatewayScope :=
  let s1 := if transitioned then queueWarning s policy operation else s in
  if negb (fp_ReturnError policy) then setPatchCause s1 (SafeProviderReconcileError policy providerErr) else s1.

Definition handleGatewayProviderFailure (listener : GatewayListener) (providerErr : error) : SM gatewayScope Result :=
  match ProviderFailurePolicyFor providerErr with
  | None => sraise providerErr
  | Some policy =>
      do! scope := sget in
      let '(gatewayReason, listenerReason) := gatewayProviderFailureReasons (fp_Category policy) in
      let transitioned := programmedTransitioned (sc_gateway scope) policy in
      do! published := stry (setGatewayProvisioningStatus listener (fp_ConditionStatus policy) gatewayReason
                               listenerReason (fp_Message policy) (fp_AdvancesObservedGeneration policy)) in
      match published with
      | Err e => sraise (joinWith (SafeProviderReconcileError policy providerErr) (Some e))
      | Ok _ =>
          do! _ := smodify (recordFailure transitioned policy "EnsureGateway" providerErr) in
          slift (lift (ProviderFailureResult policy providerErr (om_UID (gw_Meta (sc_gateway scope)))))
      end
  end.

Definition handleGatewayDeleteFailure (providerErr : error) : SM gatewayScope Result :=
  match ProviderFailurePolicyFor providerErr with
  | None => sraise providerErr
  | Some policy0 =>
      do! scope := sget in
      let policy := ProviderCleanupFailurePolicy policy0 "Gateway" in
      let '(gatewayReason, listenerReason) := gatewayProviderFailureReasons (fp_Category policy) in
      let transitioned := programmedTransitioned (sc_gateway scope) policy in
      do! _ := smodify (fun s => setGateway s (setGatewayCleanupFailure (sc_gateway s) policy gatewayReason listenerReason)) in
      do! _ := smodify (recordFailure transitioned policy "DeleteGateway" providerErr) in
      slift (lift (ProviderFinalizationFailureResult policy providerErr (om_UID (gw_Meta (sc_gateway scope)))))
  end.

(** [gatewayStillManaged]: [None] when it is not. *)
Definition gatewayStillManaged (expected : Gateway) : M (option (Gateway * GatewayClass)) :=
  requireAPIReader (
  try (getGateway Live (gatewayKey expected)) (fun found =>
    match found with
    | Err e => if IsNotFound e then ret None else raise (Errorf "get Gateway before status update: %w" [] (Some e))
    | Ok gateway =>
        let meta := gw_Meta gateway in
        if negb (String.eqb (om_UID meta) (om_UID (gw_Meta expected))) ||
           negb (om_Generation meta =? om_Generation (gw_Meta expected))%Z || om_Deleting meta then ret None
        else try (getClass Live (gw_GatewayClassName gateway)) (fun found' =>
          match found' with
          | Err e => if IsNotFound e then ret None
                     else raise (Errorf "get GatewayClass before Gateway status update: %w" [] (Some e))
          | Ok gatewayClass =>
              if negb (String.eqb (gc_ControllerName gatewayClass) (cfg_ControllerName config)) then ret None
              else ret (Some (gateway, gatewayClass))
          end)
    end)).

(** The status of [setGatewayUnsupportedVersion]. *)
Definition unsupportedVersionStatus (gateway : Gateway) : Gateway :=
  let generation := gatewayGeneration gateway in
  let status := gw_Status gateway in
  let pending type :=
    newCondition type ConditionUnknown ReasonPending UnsupportedGatewayAPIVersionMessage generation in
  let conditions := SetCondition (gst_Conditions status) (pending Accepted) in
  let current := match FindStatusCondition conditions Programmed with
                 | Some programmed => (c_ObservedGeneration programmed =? generation)%Z
                 | None => false
                 end in
  withStatus gateway (mkGatewayStatus (gst_Addresses status)
    (if current then conditions else SetCondition conditions (pending Programmed)) (gst_Listeners status)).

Definition setGatewayUnsupportedVersion : SM gatewayScope Result :=
  do! scope := sget in
  do! managed := slift (gatewayStillManaged (sc_gateway scope)) in
  match managed with
  | None => do! _ := smodify setSkipPatch in sret noResult
  | Some (gateway, gatewayClass) =>
      do! _ := refreshScope gateway in
      do! recheckVersion := (if GatewayClassSupportsInstalledVersion gatewayClass then
        do! version := stry (slift (ValidateInstalledGatewayAPIVersion (rc_APIReader r))) in
        match version with
        | Ok _ => sraise (Sentinel errGatewayChanged)
        | Err e => if errorsIs e ErrUnsupportedGatewayAPIVersion then sret true else sraise e
        end
      else sret false) in
      do! _ := smodify (fun s => setGateway s (unsupportedVersionStatus (sc_gateway s))) in
      do! scope' := sget in
      sret (if recheckVersion : bool then requeueAfter (GatewayAPIVersionRequeueAfter (om_UID (gw_Meta (sc_gateway scope'))))
            else noResult)
  end.

(** ** Cleanup (gateway_cleanup.go) *)

Definition clearGatewayBinding (meta : ObjectMeta) : ObjectMeta :=
  fold_left deleteAnnotation
    [GatewayListenerPortAnnotation config; GatewayClusterIDAnnotation config; GatewayProjectIDAnnotation config]
    (withFinalizers meta (RemoveFinalizer (om_Finalizers meta) (GatewayFinalizer config))).

Definition hasGatewayBinding (meta : ObjectMeta) : bool :=
  hasAnnotation meta (GatewayListenerPortAnnotation config) ||
  hasAnnotation meta (GatewayClusterIDAnnotation config) ||
  hasAnnotation meta (GatewayProjectIDAnnotation config).

(** The end of [cleanupGateway]: the provider reported that nothing is left. *)
Definition dropGatewayBinding : SM gatewayScope Result :=
  do! _ := smodify (fun s => setGateway s (withMeta (sc_gateway s) (clearGatewayBinding (gw_Meta (sc_gateway s))))) in
  do! patched := stry patchGatewayMetadata in
  do! _ := (match patched with
            | Ok _ => sret tt
            | Err e => if IsNotFound e then smodify setSkipPatch
                       else sraise (Errorf "remove Gateway resource binding: %w" [] (Some e))
            end) in
  do! scope := sget in
  do! _ := (if om_Deleting (gw_Meta (sc_gateway scope)) then smodify setSkipPatch else sret tt) in
  sret noResult.

(** What [cleanupGateway] does with the outcome of the deletion. *)
Definition finishCleanup (deleted : outcome_of Outcome) : SM gatewayScope Result :=
  match deleted with
  | Err e =>
      if errorsIs e ErrUnsupportedGatewayAPIVersion then setGatewayUnsupportedVersion
      else if errorsIs e errGatewayChanged then sraise e
      else handleGatewayDeleteFailure (Errorf "delete OpenStack resources for Gateway: %w" [] (Some e))
  | Ok outcome =>
      match Cloud.Validate outcome with
      | Err e => sraise (Errorf "validate Gateway deletion outcome: %w" [] (Some e))
      | Ok _ =>
          if isProgressing outcome then
            do! scope := sget in
            sret (requeueAfter (ProviderProgressRequeueAfter outcome (om_UID (gw_Meta (sc_gateway scope)))))
          else dropGatewayBinding
      end
  end.

Definition cleanupGateway : SM gatewayScope Result :=
  do! scope := sget in
  let expectedResourceVersion := om_ResourceVersion (gw_Meta (sc_gateway scope)) in
  do! found := stry (slift (getGateway Cached (gatewayKey (sc_gateway scope)))) in
  match found with
  | Err e =>
      do! _ := (if IsNotFound e then smodify setSkipPatch else sret tt) in
      slift (lift (ignoringNotFound noResult e))
  | Ok gateway =>
      if negb (String.eqb expectedResourceVersion "") &&
         negb (String.eqb (om_ResourceVersion (gw_Meta gateway)) expectedResourceVersion)
      then sraise (NewConflict "gateways.gateway.networking.k8s.io" (om_Name (gw_Meta gateway))
                     (Errorf "gateway changed before OpenStack resource cleanup" [] None))
      else
      do! _ := refreshScope gateway in
      do! scope' := sget in
      let meta := gw_Meta (sc_gateway scope') in
      if negb (ContainsFinalizer (om_Finalizers meta) (GatewayFinalizer config)) && negb (hasGatewayBinding meta)
      then sret noResult
      else
      do! _ := slift (lift (ValidateGatewayBinding config meta)) in
      do! deleted := stry (slift (deleteGateway (sc_gateway scope'))) in
      finishCleanup deleted
  end.

Definition cleanupGatewayAfterStatusCheckpoint : SM gatewayScope Result :=
  do! scope := sget in
  if statusChanged scope then sret requeue else cleanupGateway.

(** ** Reconcile (gateway_controller.go) *)

Definition reconcileDelete : SM gatewayScope Result := cleanupGateway.
Definition reconcileUnmanagedGateway : SM gatewayScope Result := cleanupGateway.

(** [reconcileRejectedGateway], by the status it sets. *)
Definition reconcileRejectedGateway (reject : Gateway -> Gateway) : SM gatewayScope Result :=
  do! _ := smodify (fun s => setGateway s (reject (sc_gateway s))) in
  cleanupGatewayAfterStatusCheckpoint.

Definition reconcileGatewayReplacement (listener : GatewayListener) : SM gatewayScope Result :=
  do! _ := setGatewayProgressing listener
             "Listener port changed; replacing the controller-owned OpenStack resource graph" in
  cleanupGatewayAfterStatusCheckpoint.

Definition reconcileGatewayBinding (listenerPort : string) : SM gatewayScope Result :=
  do! scope := sget in
  do! bound := stry (slift (bindGateway (sc_gateway scope) listenerPort)) in
  match bound with
  | Err e => if errorsIs e ErrUnsupportedGatewayAPIVersion then setGatewayUnsupportedVersion else sraise e
  | Ok _ => sret requeue
  end.

Definition finishEnsure (listener : GatewayListener) (ensured : outcome_of GatewayResult) : SM gatewayScope Result :=
  match ensured with
  | Err e =>
      if errorsIs e ErrUnsupportedGatewayAPIVersion then setGatewayUnsupportedVersion
      else if errorsIs e errGatewayChanged then sraise e
      else handleGatewayProviderFailure listener e
  | Ok result =>
      do! scope := sget in
      let uid := om_UID (gw_Meta (sc_gateway scope)) in
      if isProgressing (g_Outcome result) then
        do! _ := setGatewayProgressing listener
                   (ProviderProgressMessage (g_Outcome result) "Octavia resources for the Gateway are still progressing") in
        sret (requeueAfter (ProviderProgressRequeueAfter (g_Outcome result) uid))
      else
        do! _ := setGatewayProgrammed listener (g_State result) in
        sret (requeueAfter (OpenStackResyncAfter (cfg_OpenStackResyncInterval config) uid))
  end.

Definition reconcileGatewayGraph (listener : GatewayListener) : SM gatewayScope Result :=
  do! scope := sget in
  do! ensured := stry (slift (ensureGateway (sc_gateway scope))) in
  finishEnsure listener ensured.

Definition reconcileNormal : SM gatewayScope Result :=
  do! scope := sget in
  match decideGatewayPhase config (sc_gateway scope) (sc_managed scope) (sc_gatewayClass scope) with
  | PhaseIgnore => sret noResult
  | PhaseCleanupUnmanaged => reconcileUnmanagedGateway
  | PhaseUnsupportedVersion => setGatewayUnsupportedVersion
  | PhaseInvalidBinding validation =>
      do! _ := smodify (fun s => setGateway s
                 (setGatewayFailureReason (sc_gateway s) ReasonInvalidParameters (errorText validation))) in
      sret noResult
  | PhaseUnsupportedParameters =>
      reconcileRejectedGateway (fun g => setGatewayFailureReason g ReasonInvalidParameters
        "GatewayClass parametersRef is not supported in Phase 1")
  | PhaseInvalidSpec validation => reconcileRejectedGateway (fun g => setGatewayFailure g validation)
  | PhaseReplaceGraph listener _ => reconcileGatewayReplacement listener
  | PhaseBind _ listenerPort => reconcileGatewayBinding listenerPort
  | PhaseEnsure listener _ => reconcileGatewayGraph listener
  end.

Definition getGatewayClass (gateway : Gateway) : M (option GatewayClass * bool) :=
  try (getClass Cached (gw_GatewayClassName gateway)) (fun found =>
    match found with
    | Err e => if IsNotFound e then ret (None, false)
               else raise (Errorf "get GatewayClass %q: %w" [gw_GatewayClassName gateway] (Some e))
    | Ok gatewayClass => ret (Some gatewayClass, String.eqb (gc_ControllerName gatewayClass) (cfg_ControllerName config))
    end).

(** [newGatewayScope]: [None] when this controller is not responsible. *)
Definition newGatewayScope (key : NamespacedName) : M (option gatewayScope) :=
  try (getGateway Cached key) (fun found =>
    match found with
    | Err e => lift (ignoringNotFound None e)
    | Ok gateway =>
        let bound := GatewayHasControllerBinding config (gw_Meta gateway) in
        if om_Deleting (gw_Meta gateway) then
          ret (if bound then Some (mkGatewayScope gateway gateway None false false [] None) else None)
        else
        let! (gatewayClass, managed) := getGatewayClass gateway in
        ret (if managed || bound then Some (mkGatewayScope gateway gateway gatewayClass managed false [] None) else None)
    end).

(** The deferred patch: its error is joined to the result. *)
Definition deferredPatch (s : gatewayScope) (x : outcome_of Result) : M Result :=
  bind (patchGateway s) (fun y =>
    match y with
    | (_, Ok _) => Ret x
    | (s', Err e) =>
        let retErr := match x with Ok _ => None | Err e' => Some e' end in
        raise (default e (errorsJoin [retErr; sc_patchCause s'; Some e]))
    end).

Definition Reconcile (key : NamespacedName) : M Result :=
  let! found := newGatewayScope key in
  match found with
  | None => ret noResult
  | Some scope =>
      bind ((if om_Deleting (gw_Meta (sc_gateway scope)) then reconcileDelete else reconcileNormal) scope)
        (fun y => deferredPatch (fst y) (snd y))
  end.
End reconciler.
