(* ===== verification/GatewayReconcilerFacts.v ===== *)
(** * What the Gateway reconciler guarantees

    For every execution of [Reconcile], whatever the API server, the cloud and
    other actors do: each change of OpenStack is made by a provider call that
    follows, under the graph lock, the live reads that authorise it; the
    finalizer goes last; [Programmed] is only published for what the provider
    found in place. *)
From stdpp Require Import base list strings gmap.
From Stdlib Require Import ZArith Lia.
From S2P Require Import Prelude GoStrings Cloud Kube KubeObjects References OpenStack ProgramLogic Outcomes Binding BindingFacts Indexes KubeClient ReconcileLogic OpenStackProvider GatewayModel GatewayReconciler.

Set Default Goal Selector "!".

(** A live read that returned [x], as an event. *)
Abbreviation Read k x := (Ev (ReqKube k) (Ok x)) (only parsing).

(** The next request that [m] makes after the trace [p]. *)
Definition nextRequest {A} (m : prog A) (p : list event) (r : request) : Prop :=
  exists x p' a, exec m (p ++ Ev r x :: p') a.

Section facts.
Context `{ControllerUtil, ApiMeta, KubeErrors, ForeignTexts, GatewayConsts, CloudProvider} (r : Reconciler).

Abbreviation cfg := (config r).

(** ** The live reads behind a change *)

(** Two reads of one Gateway that nobody changed in between. *)
Definition sameGateway (gw gw' : Gateway) : Prop :=
  om_UID (gw_Meta gw') = om_UID (gw_Meta gw) /\ om_Generation (gw_Meta gw') = om_Generation (gw_Meta gw) /\
  om_Deleting (gw_Meta gw') = false /\ GatewayBindingMetadataEqual cfg (gw_Meta gw') (gw_Meta gw) = true.

(** The class is ours, without parameters, and supports the installed version. *)
Definition usableClass (c : GatewayClass) : Prop :=
  classAssigned r c = true /\ GatewayClassSupportsInstalledVersion c = true.

(** The two reads of the snapshot, from which the desired graph is computed. *)
Definition modelReads (gw : Gateway) (class : GatewayClass) (seen : list event) : Prop :=
  exists key, seen = [Read (KGetGateway Live key) gw; Read (KGetGatewayClass Live (gw_GatewayClassName gw)) class].

(** The three reads of the seal, just before the change. *)
Definition sealReads (gw : Gateway) (class : GatewayClass) (required : bool) (seen : list event) : Prop :=
  exists definitions gw' class',
    seen = [Read (KListCustomResourceDefinitions Live) definitions; Read (KGetGateway Live (gatewayKey gw)) gw';
            Read (KGetGatewayClass Live (om_Name (gc_Meta class))) class'] /\
    versionIssues definitions = [] /\ sameGateway gw gw' /\
    (required = true -> bindingSealed r (gw_Meta gw') = true) /\
    gw_GatewayClassName gw' = om_Name (gc_Meta class) /\ usableClass class'.

(** What the snapshot checked. *)
Definition modelled (gw : Gateway) (class : GatewayClass) (listener : GatewayListener) : Prop :=
  om_Deleting (gw_Meta gw) = false /\ usableClass class /\ ValidateGatewayBinding cfg (gw_Meta gw) = Ok tt /\
  GatewayModel.Validate gw = Ok listener.

(** The graph lock, the model and the seal precede the provider call. *)
Definition gatewayFence (pre : list event) (gw : Gateway) (listener : GatewayListener) : Prop :=
  exists t0 t1 t2 class,
    pre = t0 ++ Read (KAcquireGraph (om_UID (gw_Meta gw))) tt :: t1 ++ t2 /\
    modelReads gw class t1 /\ modelled gw class listener /\
    ContainsFinalizer (om_Finalizers (gw_Meta gw)) (GatewayFinalizer cfg) = true /\
    annotation (gw_Meta gw) (GatewayListenerPortAnnotation cfg) = decimal_Z (gl_Port listener) /\
    sealReads gw class true t2.

(** Why a Gateway that is not being deleted has no claim to its graph: its class
    is gone or another controller's, or it asks for something else. *)
Definition unwanted (gw : Gateway) (seen : list event) : Prop :=
  let name := gw_GatewayClassName gw in
  (exists e definitions,
     seen = [Ev (ReqKube (KGetGatewayClass Live name)) (Err e); Read (KListCustomResourceDefinitions Live) definitions] /\
     IsNotFound e = true /\ versionIssues definitions = []) \/
  (exists class, seen = [Read (KGetGatewayClass Live name) class] /\
     gc_ControllerName class <> cfg_ControllerName cfg) \/
  (exists class definitions,
     seen = [Read (KGetGatewayClass Live name) class; Read (KListCustomResourceDefinitions Live) definitions] /\
     GatewayClassSupportsInstalledVersion class = true /\ versionIssues definitions = [] /\
     (gc_ParametersRef class = true \/ (exists e, GatewayModel.Validate gw = Err e) \/
      exists listener, GatewayModel.Validate gw = Ok listener /\
        annotation (gw_Meta gw) (GatewayListenerPortAnnotation cfg) <> "" /\
        annotation (gw_Meta gw) (GatewayListenerPortAnnotation cfg) <> decimal_Z (gl_Port listener))).

(** The graph lock and the reads that authorise deletion. *)
Definition cleanupFence (pre : list event) (gw : Gateway) : Prop :=
  exists t0 key seen,
    pre = t0 ++ Read (KAcquireGraph (om_UID (gw_Meta gw))) tt :: Read (KGetGateway Live key) gw :: seen /\
    ValidateGatewayBinding cfg (gw_Meta gw) = Ok tt /\
    (om_Deleting (gw_Meta gw) = true /\ seen = [] \/ om_Deleting (gw_Meta gw) = false /\ unwanted gw seen).

(** The provider call that makes the request [q] after the trace [t]. *)
Definition gatewayAuthority (t : list event) (q : request) : Prop :=
  exists pre p, t = pre ++ p /\
    ((exists gw listener, gatewayFence pre gw listener /\
        nextRequest (Provider_EnsureGateway (gatewaySpec r gw listener)) p q) \/
     (exists gw, cleanupFence pre gw /\
        nextRequest (Provider_DeleteGateway (StoredGatewayIdentity cfg (gw_Meta gw))) p q)).

Lemma gatewayAuthority_app t0 t q : gatewayAuthority t q -> gatewayAuthority (t0 ++ t) q.
Proof.
  intros (pre & p & -> & Hp). exists (t0 ++ pre), p. split; [by rewrite app_assoc|].
  destruct Hp as [(gw & l & (s0 & t1 & t2 & class & -> & Hf) & Hn)|(gw & (s0 & key & seen & -> & Hf) & Hn)].
  - left. exists gw, l. split; [|done]. exists (t0 ++ s0), t1, t2, class. split; [by rewrite app_assoc|done].
  - right. exists gw. split; [|done]. exists (t0 ++ s0), key, seen. split; [by rewrite app_assoc|done].
Qed.

(** ** Inversion of the snapshots *)

Lemma exec_unlessChanged_ok {A} (m : M A) tr a : exec (unlessChanged m) tr (Ok a) -> exec m tr (Ok a).
Proof. apply exec_onError_ok. Qed.

Lemma exec_requireAPIReader_ok {A} (m : M A) tr a :
  exec (requireAPIReader r m) tr (Ok a) <-> rc_APIReader r = true /\ exec m tr (Ok a).
Proof.
  unfold requireAPIReader. destruct (rc_APIReader r); [naive_solver|].
  split; [by intros [_ ?]%exec_raise|by intros [? _]].
Qed.

Ltac inv_read :=
  repeat (first
    [ inv_kube_step
    | match goal with
      | H : exec (unlessChanged _) _ (Ok _) |- _ => apply exec_unlessChanged_ok in H
      | H : exec (requireAPIReader _ _) _ (Ok _) |- _ => apply exec_requireAPIReader_ok in H as [? H]
      | H : exec (gatewayChanged) _ (Ok _) |- _ => by apply exec_raise in H as [_ ?]
      end ]); cbn [app].

Lemma ObserveGatewayAPIVersion_ok tr o :
  exec (ObserveGatewayAPIVersion Live) tr (Ok o) -> exists definitions,
    tr = [Read (KListCustomResourceDefinitions Live) definitions] /\
    (vo_Supported o = true <-> versionIssues definitions = []).
Proof.
  unfold ObserveGatewayAPIVersion. intros Hx. inv_read.
  match goal with H : context [versionIssues ?d] |- _ => exists d; destruct (versionIssues d) end; by inv_read.
Qed.

Lemma ValidateInstalledGatewayAPIVersion_ok b tr :
  exec (ValidateInstalledGatewayAPIVersion b) tr (Ok tt) -> exists definitions,
    tr = [Read (KListCustomResourceDefinitions Live) definitions] /\ versionIssues definitions = [].
Proof.
  unfold ValidateInstalledGatewayAPIVersion. intros Hx. inv_read.
  match goal with H : exec (ObserveGatewayAPIVersion _) _ _ |- _ =>
    apply ObserveGatewayAPIVersion_ok in H as (definitions & -> & Hv) end.
  exists definitions. split; [done|]. by apply Hv.
Qed.

Lemma observeGatewayMutationSnapshot_ok expected binding port tr snapshot :
  exec (observeGatewayMutationSnapshot r expected binding port) tr (Ok snapshot) ->
  modelReads (ms_gateway snapshot) (ms_gatewayClass snapshot) tr /\
  modelled (ms_gateway snapshot) (ms_gatewayClass snapshot) (ms_listener snapshot) /\
  ms_binding snapshot = binding /\ om_UID (gw_Meta (ms_gateway snapshot)) = om_UID (gw_Meta expected) /\
  om_Generation (gw_Meta (ms_gateway snapshot)) = om_Generation (gw_Meta expected) /\
  (binding = gatewayBindingRequired ->
     ContainsFinalizer (om_Finalizers (gw_Meta (ms_gateway snapshot))) (GatewayFinalizer cfg) = true /\
     annotation (gw_Meta (ms_gateway snapshot)) (GatewayListenerPortAnnotation cfg)
       = decimal_Z (gl_Port (ms_listener snapshot))).
Proof.
  unfold observeGatewayMutationSnapshot. intros Hx. inv_read.
  destruct (ValidateGatewayBinding _ _) as [[]|] eqn:Eb; [|by inv_read].
  destruct (GatewayModel.Validate _) as [listener|] eqn:Ev; [|by inv_read]. inv_read. bool_hyps.
  split; [by eexists|]. do 4 (split; [done|]). intros ->.
  rewrite bool_decide_eq_true_2 in E2, E4 by done. cbn [negb orb] in *. by bool_hyps.
Qed.

Lemma sealGatewayMutationSnapshot_ok snapshot tr :
  exec (sealGatewayMutationSnapshot r snapshot) tr (Ok tt) ->
  sealReads (ms_gateway snapshot) (ms_gatewayClass snapshot)
    (bool_decide (ms_binding snapshot = gatewayBindingRequired)) tr.
Proof.
  unfold sealGatewayMutationSnapshot. intros Hx. inv_read.
  match goal with H : exec (ValidateInstalledGatewayAPIVersion _) _ _ |- _ =>
    apply ValidateInstalledGatewayAPIVersion_ok in H as (definitions & -> & Hv) end.
  bool_hyps. do 3 eexists. split; [done|]. split; [done|]. split; [done|].
  split; [|done]. intros Hb.
  match goal with H : negb _ || _ = true |- _ => rewrite Hb in H; exact H end.
Qed.

(** ** Every change is authorised *)

Lemma nextRequest_split {A} (m : prog A) tr a t1 e t2 :
  exec m tr a -> tr = t1 ++ e :: t2 -> nextRequest m t1 (ev_req e).
Proof. intros Hx ->. destruct e as [q x]. by exists x, t2, a. Qed.

Lemma ensureLockedGateway_guarded expected t0 :
  GuardedFrom isMutation gatewayAuthority (t0 ++ [Read (KAcquireGraph (om_UID (gw_Meta expected))) tt])
    (ensureLockedGateway r expected).
Proof.
  unfold ensureLockedGateway.
  apply GuardedFrom_mbind; [apply GuardedFrom_Avoids; solve_avoids|]. intros tr1 snapshot Hx1. cbv zeta.
  apply GuardedFrom_mbind; [apply GuardedFrom_Avoids; solve_avoids|]. intros tr2 [] Hx2.
  apply GuardedFrom_bind; [|intros tr3 [] _; apply GuardedFrom_Avoids; solve_avoids].
  intros tr3 result Hx3 t1 e t2 Ht _.
  apply observeGatewayMutationSnapshot_ok in Hx1 as (Hreads & Hm & Hb & Hu & _ & Hbound).
  apply sealGatewayMutationSnapshot_ok in Hx2. rewrite Hb, bool_decide_eq_true_2 in Hx2 by done.
  destruct (Hbound eq_refl) as [Hf Hp].
  eexists _, t1. split; [done|]. left. exists (ms_gateway snapshot), (ms_listener snapshot).
  split; [|by eapply nextRequest_split].
  exists t0, tr1, tr2, (ms_gatewayClass snapshot). rewrite Hu. split; [by rewrite <- !app_assoc|done].
Qed.

Lemma cleanupAuthority_ok gateway tr :
  exec (cleanupAuthority r gateway) tr (Ok gatewayCleanupDelete) -> unwanted gateway tr.
Proof.
  unfold cleanupAuthority, unwanted. intros (t1 & t2 & found & -> & Hf & Hx)%exec_bind. inv_read.
  destruct found as [class|e].
  - destruct (String.eqb_spec (gc_ControllerName class) (cfg_ControllerName cfg)); cbn [negb] in Hx; inv_read.
    2: { right; left. by exists class. }
    match goal with H : exec (ValidateInstalledGatewayAPIVersion _) _ _ |- _ =>
      apply ValidateInstalledGatewayAPIVersion_ok in H as (definitions & -> & Hv) end.
    right; right. exists class, definitions.
    destruct (gc_ParametersRef class) eqn:Ep; [inv_read; auto 6|].
    destruct (GatewayModel.Validate gateway) as [listener|] eqn:Ev; [|inv_read; eauto 8].
    destruct (negb _ && _) eqn:Es; inv_read. bool_hyps. eauto 12.
  - destruct (IsNotFound e) eqn:En; inv_read.
    match goal with H : exec (ValidateInstalledGatewayAPIVersion _) _ _ |- _ =>
      apply ValidateInstalledGatewayAPIVersion_ok in H as (definitions & -> & Hv) end.
    left. by exists e, definitions.
Qed.

Lemma observeGatewayCleanupSnapshot_ok expected tr snapshot :
  exec (observeGatewayCleanupSnapshot r expected) tr (Ok snapshot) -> cs_disposition snapshot = gatewayCleanupDelete ->
  exists gw key seen, tr = Read (KGetGateway Live key) gw :: seen /\
    cs_identity snapshot = StoredGatewayIdentity cfg (gw_Meta gw) /\
    om_UID (gw_Meta gw) = om_UID (gw_Meta expected) /\ ValidateGatewayBinding cfg (gw_Meta gw) = Ok tt /\
    (om_Deleting (gw_Meta gw) = true /\ seen = [] \/ om_Deleting (gw_Meta gw) = false /\ unwanted gw seen).
Proof.
  unfold observeGatewayCleanupSnapshot. intros Hx Hd. inv_read.
  destruct (ValidateGatewayBinding _ _) as [[]|] eqn:Eb; [|by inv_read]. cbv zeta in *. bool_hyps.
  match goal with gw : Gateway, H : om_UID (gw_Meta ?gw) = om_UID (gw_Meta expected) |- _ =>
    exists gw; destruct (om_Deleting (gw_Meta gw)) eqn:Ed end; inv_read.
  - eexists _, []. auto 8.
  - match goal with d : gatewayCleanupDisposition |- _ => destruct d; [|done] end.
    match goal with H : exec (cleanupAuthority _ _) _ _ |- _ => apply cleanupAuthority_ok in H end.
    eexists _, _. rewrite app_nil_r. split; [done|]. auto 8.
Qed.

Lemma deleteLockedGateway_guarded expected t0 :
  GuardedFrom isMutation gatewayAuthority (t0 ++ [Read (KAcquireGraph (om_UID (gw_Meta expected))) tt])
    (deleteLockedGateway r expected).
Proof.
  unfold deleteLockedGateway.
  apply GuardedFrom_mbind; [apply GuardedFrom_Avoids; solve_avoids|]. intros tr1 snapshot Hx1.
  destruct (cs_disposition snapshot) eqn:Ed; [|apply GuardedFrom_Avoids; solve_avoids].
  intros tr2 result Hx2 t1 e t2 Ht _.
  apply observeGatewayCleanupSnapshot_ok in Hx1 as (gw & key & seen & -> & Hid & Hu & Hb & Hw); [|done].
  rewrite Hid in Hx2. eexists _, t1. split; [done|]. right. exists gw. split; [|by eapply nextRequest_split].
  exists t0, key, seen. rewrite Hu. split; [by rewrite <- app_assoc|done].
Qed.

(** A body that is guarded after the lock was taken. *)
Lemma lockedGateway_guarded {A} expected (body : M A) :
  (forall t0, GuardedFrom isMutation gatewayAuthority (t0 ++ [Read (KAcquireGraph (om_UID (gw_Meta expected))) tt]) body) ->
  Guarded isMutation gatewayAuthority (lockedGateway r expected body).
Proof.
  intros Hb pre. unfold lockedGateway, requireAPIReader.
  destruct (rc_APIReader r); [|apply GuardedFrom_Avoids; solve_avoids].
  apply GuardedFrom_bind; [|intros; apply GuardedFrom_Avoids; solve_avoids]. apply GuardedFrom_locked; [done..|].
  apply GuardedFrom_bind; [apply Hb|intros; apply GuardedFrom_Avoids; solve_avoids].
Qed.

#[local] Instance ensureGateway_guarded expected : Guarded isMutation gatewayAuthority (ensureGateway r expected).
Proof. apply lockedGateway_guarded. intros. apply ensureLockedGateway_guarded. Qed.
#[local] Instance deleteGateway_guarded expected : Guarded isMutation gatewayAuthority (deleteGateway r expected).
Proof. apply lockedGateway_guarded. intros. apply deleteLockedGateway_guarded. Qed.

(** C1. Every request by which a reconciliation of a Gateway changes OpenStack
    is the next request of EnsureGateway or DeleteGateway, called under the lock
    of the Gateway's graph and after live reads that show the binding, the
    class, the listener and the installed version (or that the Gateway is
    deleted or unwanted), with nothing changed in between. *)
Theorem gateway_changes_are_authorised key tr result t1 e t2 :
  exec (Reconcile r key) tr result -> tr = t1 ++ e :: t2 -> isMutation (ev_req e) = true ->
  gatewayAuthority t1 (ev_req e).
Proof.
  intros Hx Ht He. enough (Guarded isMutation gatewayAuthority (Reconcile r key)) as Hg by exact (Hg [] _ _ Hx _ _ _ Ht He).
  solve_guarded.
Qed.

(** ** The lock is given back *)

Context `{!ControllerUtilLaws, !ApiMetaLaws, !CloudProviderLaws}.

(** A reconciliation takes at most one graph lock at a time and gives it back,
    however it ends. *)
Lemma gateway_locks_balanced key tr result : exec (Reconcile r key) tr result -> balanced (locks tr).
Proof.
  enough (Balanced (Reconcile r key)) as Hb by exact (Hb tr result).
  pose proof (ensure_gateway_avoids isLock). pose proof (delete_gateway_avoids isLock).
  solve_balanced.
Qed.

(** ** The finalizer goes last *)

(** Patches that take the finalizer off a Gateway. *)
Definition dropsFinalizer (q : request) : bool :=
  match q with
  | ReqKube (KPatchGateway base target) =>
      ContainsFinalizer (om_Finalizers (gw_Meta base)) (GatewayFinalizer cfg) &&
      negb (ContainsFinalizer (om_Finalizers (gw_Meta target)) (GatewayFinalizer cfg))
  | _ => false
  end.
#[local] Instance dropsFinalizer_kube : KubeOnly dropsFinalizer.
Proof. by intros []. Qed.

(** An authorised deletion of the Gateway's graph that reported Ready has just
    given the lock back. *)
Definition deletionConfirmed (t : list event) (uid : string) : Prop :=
  exists pre p y gw o, t = pre ++ p ++ [Ev (ReqKube (KReleaseGraph uid)) y] /\
    om_UID (gw_Meta gw) = uid /\ cleanupFence pre gw /\
    exec (Provider_DeleteGateway (StoredGatewayIdentity cfg (gw_Meta gw))) p (Ok o) /\ isProgressing o = false.

Definition finalizerAuthority (t : list event) (q : request) : Prop :=
  match q with ReqKube (KPatchGateway base _) => deletionConfirmed t (om_UID (gw_Meta base)) | _ => False end.

Lemma exec_lockedGateway_ok {A} expected (body : M A) tr a :
  exec (lockedGateway r expected body) tr (Ok a) ->
  exists t y, tr = Read (KAcquireGraph (om_UID (gw_Meta expected))) tt :: t ++
                   [Ev (ReqKube (KReleaseGraph (om_UID (gw_Meta expected)))) y] /\ exec body t (Ok a).
Proof.
  unfold lockedGateway. intros [_ (tr1 & tr2 & [s x] & -> & Hl & [-> Hx])%exec_bind]%exec_requireAPIReader_ok.
  cbn [snd] in Hx. subst x. rewrite app_nil_r.
  apply exec_locked in Hl as [(e' & [=] & _)|(_ & _ & t & y & -> & [-> Hl]%exec_slift)]. by exists t, y.
Qed.

Lemma deleteGateway_confirmed expected pre tr o :
  exec (deleteGateway r expected) tr (Ok o) -> isProgressing o = false ->
  deletionConfirmed (pre ++ tr) (om_UID (gw_Meta expected)).
Proof.
  intros (t & y & -> & Hx)%exec_lockedGateway_ok Hq. unfold deleteLockedGateway in Hx. inv_read.
  match goal with H : exec (observeGatewayCleanupSnapshot _ _) _ (Ok ?s) |- _ => rename H into Hs, s into snapshot end.
  destruct (cs_disposition snapshot) eqn:Ed; [|by inv_read].
  apply observeGatewayCleanupSnapshot_ok in Hs as (gw & key & seen & -> & Hid & Hu & Hb & Hw); [|done].
  match goal with H : exec (Provider_DeleteGateway _) ?p (Ok o) |- _ => rewrite Hid in H;
    exists (pre ++ Read (KAcquireGraph (om_UID (gw_Meta expected))) tt :: Read (KGetGateway Live key) gw :: seen), p, y, gw, o end.
  split; [rewrite <- app_assoc; cbn [app]; by rewrite <- app_assoc|]. split; [done|]. split; [|done].
  exists pre, key, seen. by rewrite Hu.
Qed.

Lemma dropGatewayBinding_guarded pre s uid :
  deletionConfirmed pre uid -> om_UID (gw_Meta (sc_original s)) = uid ->
  GuardedFrom dropsFinalizer finalizerAuthority pre (dropGatewayBinding r s).
Proof.
  intros Hd Hu. unfold dropGatewayBinding. rewrite sbind_smodify.
  apply GuardedFrom_sbind; [|intros; apply GuardedFrom_Avoids; solve_avoids].
  unfold stry. apply GuardedFrom_bind; [|intros; apply GuardedFrom_Avoids; apply _].
  unfold patchGatewayMetadata. rewrite sbind_sget.
  destruct (negb _); [apply GuardedFrom_Avoids; solve_avoids|]. cbv zeta.
  apply GuardedFrom_sbind; [|intros; apply GuardedFrom_Avoids; solve_avoids].
  intros tr [s' x] [-> (x' & Hx & _)%exec_onError]%exec_slift t1 e t2 Ht He. apply exec_call in Hx as ->.
  destruct t1 as [|? []]; simplify_eq/=. by rewrite app_nil_r.
Qed.

Lemma refreshScope_ok gateway s tr s' :
  exec (refreshScope gateway s) tr (s', Ok tt) ->
  tr = [] /\ sc_original s' = gateway /\ gw_Meta (sc_gateway s') = gw_Meta gateway.
Proof.
  unfold refreshScope, refresh. destruct (_ && _); [by intros [_ [=]]|]. intros [-> [= ->]].
  split; [done|]. split; [done|]. cbn. by destruct (statusChanged s).
Qed.

#[local] Instance cleanupGateway_drops s : Guarded dropsFinalizer finalizerAuthority (cleanupGateway r s).
Proof.
  intros pre. unfold cleanupGateway. rewrite sbind_sget. cbv zeta.
  apply GuardedFrom_sbind; [apply GuardedFrom_Avoids; solve_avoids|]. intros tr1 [gateway|e] s1 Hx1.
  2: { apply GuardedFrom_Avoids; solve_avoids. }
  destruct (_ && _); [apply GuardedFrom_Avoids; solve_avoids|].
  apply GuardedFrom_sbind; [apply GuardedFrom_Avoids; solve_avoids|]. intros tr2 [] s2 Hx2.
  apply refreshScope_ok in Hx2 as (-> & Ho & Hm). rewrite sbind_sget. cbv zeta.
  destruct (_ && _); [apply GuardedFrom_Avoids; solve_avoids|].
  apply GuardedFrom_sbind; [apply GuardedFrom_Avoids; solve_avoids|]. intros tr3 [] s3 [-> [-> _]]%exec_slift.
  pose proof (delete_gateway_avoids dropsFinalizer).
  apply GuardedFrom_sbind; [apply GuardedFrom_Avoids; solve_avoids|].
  intros tr4 deleted s4 (y & [= <-] & [-> Hx4]%exec_slift)%exec_stry.
  unfold finishCleanup. destruct deleted as [o|e]; [|apply GuardedFrom_Avoids; solve_avoids].
  destruct (Cloud.Validate o) eqn:Ev; [|apply GuardedFrom_Avoids; solve_avoids].
  destruct (isProgressing o) eqn:Eo; [apply GuardedFrom_Avoids; solve_avoids|].
  eapply dropGatewayBinding_guarded; [by eapply deleteGateway_confirmed|]. by rewrite Ho, Hm.
Qed.

Lemma applyGatewayBinding_finalizer meta port :
  ContainsFinalizer (om_Finalizers (applyGatewayBinding cfg meta port)) (GatewayFinalizer cfg) = true.
Proof. apply contains_spec. unfold applyGatewayBinding. cbn. apply add_spec. by left. Qed.

#[local] Instance bindGateway_drops expected port : Guarded dropsFinalizer finalizerAuthority (bindGateway r expected port).
Proof.
  apply Guarded_Avoids. unfold bindGateway.
  apply Avoids_mbind; [solve_avoids|]. intros snapshot. cbv zeta. destruct (metadataEqual _ _); [solve_avoids|].
  apply Avoids_mbind; [solve_avoids|]. intros []. apply Avoids_mbind; [|solve_avoids].
  apply Avoids_bind; [|solve_avoids]. apply Avoids_Call; [|solve_avoids].
  unfold dropsFinalizer, withMeta. cbn [gw_Meta]. by rewrite applyGatewayBinding_finalizer, andb_false_r.
Qed.

(** The finalizer is only taken off a Gateway after the provider, authorised to
    delete its graph, reported that nothing of it is left. *)
Lemma gateway_finalizer_dropped_last key tr result t1 base target x t2 :
  exec (Reconcile r key) tr result -> tr = t1 ++ Ev (ReqKube (KPatchGateway base target)) x :: t2 ->
  dropsFinalizer (ReqKube (KPatchGateway base target)) = true -> deletionConfirmed t1 (om_UID (gw_Meta base)).
Proof.
  intros Hx Ht He.
  enough (Guarded dropsFinalizer finalizerAuthority (Reconcile r key)) as Hg by exact (Hg [] _ _ Hx _ _ _ Ht He).
  pose proof (ensure_gateway_avoids dropsFinalizer). solve_guarded.
Qed.

(** ** Programmed is not made up *)

(** The Gateway a response of the API server carries. *)
Definition eventGateway (e : event) : option Gateway :=
  match e with
  | Ev q x =>
      match q return outcome_of (response q) -> option Gateway with
      | ReqKube (KGetGateway _ _) | ReqKube (KPatchGateway _ _) | ReqKube (KPatchGatewayStatus _ _) =>
          fun x => match x with Ok g => Some g | Err _ => None end
      | _ => fun _ => None
      end x
  end.

Definition programmedIn (g : Gateway) (c : Condition) : Prop :=
  FindStatusCondition (gst_Conditions (gw_Status g)) Programmed = Some c /\ c_Status c = ConditionTrue.

(** A Gateway with this condition was returned by the API server. *)
Definition storedProgrammed (t : list event) (c : Condition) : Prop :=
  exists e g, e ∈ t /\ eventGateway e = Some g /\ programmedIn g c.

(** The scope shows no [Programmed] condition but stored ones. *)
Definition noFreshProgrammed (t : list event) (s : gatewayScope) : Prop :=
  forall c, programmedIn (sc_gateway s) c -> storedProgrammed t c.

Lemma storedProgrammed_app t t' c : storedProgrammed t c -> storedProgrammed (t ++ t') c.
Proof. intros (e & g & He & Hg). exists e, g. split; [set_solver|done]. Qed.

Lemma noFreshProgrammed_app t t' s : noFreshProgrammed t s -> noFreshProgrammed (t ++ t') s.
Proof. intros Hs c Hc. by apply storedProgrammed_app, Hs. Qed.

(** The condition set last is the one that is found. *)
Lemma set_Programmed l status reason message generation c :
  FindStatusCondition (SetCondition l (newCondition Programmed status reason message generation)) Programmed = Some c ->
  c_Status c = status /\ c_ObservedGeneration c = generation.
Proof.
  destruct (find_set_same l (newCondition Programmed status reason message generation)) as [t Ht].
  unfold SetCondition. change Programmed with (c_Type (newCondition Programmed status reason message generation)) at 2.
  rewrite Ht. by intros [= <-].
Qed.

Lemma provisioningStatus_programmed g listener n status gr lr message advance c :
  programmedIn (provisioningStatus g listener n status gr lr message advance) c -> status = ConditionTrue.
Proof. intros [Hf Ht]. apply set_Programmed in Hf as [Hs _]. congruence. Qed.

Lemma setGatewayFailure_programmed g e c : ~ programmedIn (setGatewayFailure g e) c.
Proof. intros [Hf Ht]. apply set_Programmed in Hf as [Hs _]. congruence. Qed.

Lemma setGatewayFailureReason_programmed g reason message c : ~ programmedIn (setGatewayFailureReason g reason message) c.
Proof. intros [Hf Ht]. apply set_Programmed in Hf as [Hs _]. congruence. Qed.

Lemma setGatewayCleanupFailure_programmed g policy gr lr c :
  programmedIn (setGatewayCleanupFailure g policy gr lr) c -> fp_ConditionStatus policy = ConditionTrue.
Proof. intros [Hf Ht]. apply set_Programmed in Hf as [Hs _]. congruence. Qed.

Lemma unsupportedVersionStatus_programmed g c : programmedIn (unsupportedVersionStatus g) c -> programmedIn g c.
Proof.
  intros [Hf Ht]. unfold unsupportedVersionStatus in Hf. cbn [withStatus gw_Status gst_Conditions] in Hf.
  destruct (match FindStatusCondition _ _ with Some _ => _ | None => _ end).
  - unfold SetCondition in Hf. rewrite find_set_other in Hf by done. done.
  - apply set_Programmed in Hf as [Hs _]. congruence.
Qed.

Lemma policy_not_true e policy : ProviderFailurePolicyFor e = Some policy -> fp_ConditionStatus policy <> ConditionTrue.
Proof. unfold ProviderFailurePolicyFor. destruct (ErrorCategoryOf e) as [[]|]; [intros [= <-]; done..|done]. Qed.

Abbreviation KeepsStored := (Keeps noFreshProgrammed).

Lemma setGatewayProvisioningStatus_keeps listener status gr lr message advance :
  status <> ConditionTrue -> KeepsStored (setGatewayProvisioningStatus r listener status gr lr message advance).
Proof.
  intros Hs. solve_keeps noFreshProgrammed_app. intros c Hc. by apply provisioningStatus_programmed in Hc.
Qed.

Lemma setGatewayProgressing_keeps listener message : KeepsStored (setGatewayProgressing r listener message).
Proof. unfold setGatewayProgressing. apply setGatewayProvisioningStatus_keeps. discriminate. Qed.

(** Only the status of the scope's Gateway matters. *)
Lemma noFresh_status t s s' :
  gw_Status (sc_gateway s') = gw_Status (sc_gateway s) -> noFreshProgrammed t s -> noFreshProgrammed t s'.
Proof. intros He Hs c Hc. apply Hs. unfold programmedIn in *. by rewrite <- He. Qed.

Lemma recordFailure_status transitioned policy op e s :
  gw_Status (sc_gateway (recordFailure transitioned policy op e s)) = gw_Status (sc_gateway s).
Proof. unfold recordFailure. by destruct transitioned, (fp_ReturnError policy). Qed.

Lemma handleGatewayProviderFailure_keeps listener e : KeepsStored (handleGatewayProviderFailure r listener e).
Proof.
  unfold handleGatewayProviderFailure. destruct (ProviderFailurePolicyFor e) as [policy|] eqn:Ep.
  2: { solve_keeps noFreshProgrammed_app. }
  apply policy_not_true in Ep. apply Keeps_sbind; [apply (Keeps_sget _ noFreshProgrammed_app)|]. intros scope.
  destruct (gatewayProviderFailureReasons _) as [gr lr]. cbv zeta.
  apply Keeps_sbind; [apply Keeps_stry; by apply setGatewayProvisioningStatus_keeps|]. intros [[]|e'].
  - solve_keeps noFreshProgrammed_app. eapply noFresh_status; [apply recordFailure_status|done].
  - solve_keeps noFreshProgrammed_app.
Qed.

Lemma handleGatewayDeleteFailure_keeps e : KeepsStored (handleGatewayDeleteFailure e).
Proof.
  unfold handleGatewayDeleteFailure. destruct (ProviderFailurePolicyFor e) as [policy|] eqn:Ep.
  2: { solve_keeps noFreshProgrammed_app. }
  apply policy_not_true in Ep. apply Keeps_sbind; [apply (Keeps_sget _ noFreshProgrammed_app)|]. intros scope.
  cbv zeta. destruct (gatewayProviderFailureReasons _) as [gr lr].
  apply Keeps_sbind; [|intros []; apply Keeps_sbind; [|intros []]].
  - apply Keeps_smodify. intros t s _ c Hc. by apply setGatewayCleanupFailure_programmed in Hc.
  - apply Keeps_smodify. intros t s Hs. eapply noFresh_status; [apply recordFailure_status|done].
  - solve_keeps noFreshProgrammed_app.
Qed.

(** A Gateway that the API server returned replaces the one of the scope. *)
Lemma refreshScope_keeps t s gateway t' s' x :
  (exists e, e ∈ t /\ eventGateway e = Some gateway) -> noFreshProgrammed t s ->
  exec (refreshScope gateway s) t' (s', x) -> noFreshProgrammed (t ++ t') s'.
Proof.
  intros (e & He & Hg) Hs. unfold refreshScope, refresh. destruct (_ && _); intros [-> [= -> ->]]; [by apply noFreshProgrammed_app|].
  rewrite app_nil_r. cbn. destruct (statusChanged s); [exact Hs|]. intros c Hc. by exists e, gateway.
Qed.

Lemma gatewayStillManaged_ok expected tr gateway class :
  exec (gatewayStillManaged r expected) tr (Ok (Some (gateway, class))) -> exists e, e ∈ tr /\ eventGateway e = Some gateway.
Proof.
  unfold gatewayStillManaged. intros [_ (t1 & t2 & found & -> & Hf & Hx)%exec_bind]%exec_requireAPIReader_ok. inv_read.
  destruct found as [g|e]; [|by destruct (IsNotFound e); inv_read].
  destruct (_ || _); [by inv_read|]. apply exec_bind in Hx as (t1 & t3 & found' & -> & Hf & Hx). inv_read.
  destruct found' as [c|e]; [|by destruct (IsNotFound e); inv_read].
  destruct (negb _); inv_read. eexists. split; [by left|done].
Qed.

Lemma setGatewayUnsupportedVersion_keeps : KeepsStored (setGatewayUnsupportedVersion r).
Proof.
  intros t s t' s' x HI. unfold setGatewayUnsupportedVersion. rewrite sbind_sget.
  intros [(e & -> & [-> _]%exec_slift)|(t1 & t2 & s1 & managed & -> & [-> Hm]%exec_slift & Hx)]%exec_sbind.
  { by apply noFreshProgrammed_app. }
  rewrite app_assoc. apply (noFreshProgrammed_app _ t1) in HI. destruct managed as [[gateway class]|].
  2: { refine ((_ : KeepsStored _) _ _ _ _ _ HI Hx). solve_keeps noFreshProgrammed_app. by eapply noFresh_status. }
  apply gatewayStillManaged_ok in Hm as (e & He & Hg).
  assert (exists e0, e0 ∈ t ++ t1 /\ eventGateway e0 = Some gateway) as Hseen by (exists e; split; [set_solver|done]).
  apply exec_sbind in Hx as [(e' & -> & Hx)|(t3 & t4 & s2 & [] & -> & Hr & Hx)].
  { exact (refreshScope_keeps _ _ _ _ _ _ Hseen HI Hx). }
  rewrite app_assoc. apply (refreshScope_keeps _ _ _ _ _ _ Hseen HI) in Hr.
  revert Hr Hx. generalize ((t ++ t1) ++ t3). intros t5 Hr Hx.
  refine ((_ : KeepsStored _) _ _ _ _ _ Hr Hx). clear dependent t5 t4 s2.
  apply Keeps_sbind; [solve_keeps noFreshProgrammed_app|]. intros recheck.
  apply Keeps_sbind; [|intros []; solve_keeps noFreshProgrammed_app].
  apply Keeps_smodify. intros t6 s6 Hs c Hc. by apply unsupportedVersionStatus_programmed, Hs in Hc.
Qed.

#[local] Instance patchGatewayMetadata_keeps : KeepsStored (patchGatewayMetadata r).
Proof.
  intros t s t' s' x HI. unfold patchGatewayMetadata. rewrite sbind_sget.
  destruct (negb _); [intros (-> & -> & _)%exec_sret; by apply noFreshProgrammed_app|]. cbv zeta.
  intros [(e & -> & [-> _]%exec_slift)|(t1 & t2 & s1 & g & -> & [-> _]%exec_slift & (-> & -> & _)%exec_smodify)]%exec_sbind;
    apply noFreshProgrammed_app; [done|by eapply noFresh_status].
Qed.

Lemma dropGatewayBinding_keeps : KeepsStored (dropGatewayBinding r).
Proof. solve_keeps noFreshProgrammed_app; by eapply noFresh_status. Qed.

Lemma finishCleanup_keeps deleted : KeepsStored (finishCleanup r deleted).
Proof.
  unfold finishCleanup. destruct deleted as [o|e].
  - destruct (Cloud.Validate o); [|apply (Keeps_sraise _ noFreshProgrammed_app)].
    destruct (isProgressing o); [solve_keeps noFreshProgrammed_app|apply dropGatewayBinding_keeps].
  - destruct (errorsIs e _); [apply setGatewayUnsupportedVersion_keeps|].
    destruct (errorsIs e _); [apply (Keeps_sraise _ noFreshProgrammed_app)|apply handleGatewayDeleteFailure_keeps].
Qed.

Lemma cleanupGateway_keeps : KeepsStored (cleanupGateway r).
Proof.
  intros t s t' s' x HI. unfold cleanupGateway. rewrite sbind_sget. cbv zeta.
  intros [(e & -> & (y & [=] & _)%exec_stry)|(t1 & t2 & s1 & found & -> & (y & [= <-] & [-> Hf]%exec_slift)%exec_stry & Hx)]%exec_sbind.
  rewrite app_assoc. apply (noFreshProgrammed_app _ t1) in HI. inv_read. destruct found as [gateway|e].
  2: { refine ((_ : KeepsStored _) _ _ _ _ _ HI Hx). solve_keeps noFreshProgrammed_app. by eapply noFresh_status. }
  destruct (_ && _); [refine ((_ : KeepsStored _) _ _ _ _ _ HI Hx); solve_keeps noFreshProgrammed_app|].
  match type of HI with noFreshProgrammed ?t0 _ =>
    assert (exists e0, e0 ∈ t0 /\ eventGateway e0 = Some gateway) as Hseen
      by (eexists; split; [apply elem_of_app; right; apply list_elem_of_singleton; reflexivity|done]) end.
  apply exec_sbind in Hx as [(e' & -> & Hx)|(t3 & t4 & s2 & [] & -> & Hr & Hx)].
  { exact (refreshScope_keeps _ _ _ _ _ _ Hseen HI Hx). }
  rewrite app_assoc. apply (refreshScope_keeps _ _ _ _ _ _ Hseen HI) in Hr.
  refine ((_ : KeepsStored _) _ _ _ _ _ Hr Hx). clear dependent s2 t4.
  apply Keeps_sbind; [apply (Keeps_sget _ noFreshProgrammed_app)|]. intros scope. cbv zeta.
  destruct (_ && _); [solve_keeps noFreshProgrammed_app|].
  apply Keeps_sbind; [apply (Keeps_slift _ noFreshProgrammed_app)|]. intros [].
  apply Keeps_sbind; [apply Keeps_stry, (Keeps_slift _ noFreshProgrammed_app)|]. intros deleted. apply finishCleanup_keeps.
Qed.

Lemma cleanupCheckpoint_keeps : KeepsStored (cleanupGatewayAfterStatusCheckpoint r).
Proof.
  apply Keeps_sbind; [apply (Keeps_sget _ noFreshProgrammed_app)|]. intros scope.
  destruct (statusChanged scope); [apply (Keeps_sret _ noFreshProgrammed_app)|apply cleanupGateway_keeps].
Qed.

(** The provider found everything of the Gateway in place, under the fence, and
    the scope shows the address it reported. *)
Definition ensuredGateway (t : list event) (g : Gateway) : Prop :=
  exists pre p t' gw listener result,
    t = pre ++ p ++ t' /\ gatewayFence pre gw listener /\
    om_UID (gw_Meta gw) = om_UID (gw_Meta g) /\ om_Generation (gw_Meta gw) = om_Generation (gw_Meta g) /\
    exec (Provider_EnsureGateway (gatewaySpec r gw listener)) p (Ok result) /\
    isProgressing (g_Outcome result) = false /\
    gst_Addresses (gw_Status g) = [(IPAddressType, Address (g_State result))].

Lemma ensureGateway_ok pre expected tr result :
  exec (ensureGateway r expected) tr (Ok result) -> exists pre' p t' gw listener,
    pre ++ tr = pre' ++ p ++ t' /\ gatewayFence pre' gw listener /\
    om_UID (gw_Meta gw) = om_UID (gw_Meta expected) /\ om_Generation (gw_Meta gw) = om_Generation (gw_Meta expected) /\
    exec (Provider_EnsureGateway (gatewaySpec r gw listener)) p (Ok result).
Proof.
  intros (t & y & -> & Hx)%exec_lockedGateway_ok. unfold ensureLockedGateway in Hx. inv_read.
  match goal with H : exec (observeGatewayMutationSnapshot _ _ _ _) ?a (Ok ?s) |- _ =>
    rename H into Ho, s into snapshot, a into ta end.
  match goal with H : exec (sealGatewayMutationSnapshot _ _) ?a _ |- _ => rename H into Hs, a into tb end.
  match goal with H : exec (Provider_EnsureGateway _) ?a (Ok _) |- _ => rename H into Hp, a into tp end.
  apply observeGatewayMutationSnapshot_ok in Ho as (Hreads & Hm & Hb & Hu & Hg & Hbound).
  apply sealGatewayMutationSnapshot_ok in Hs. rewrite Hb, bool_decide_eq_true_2 in Hs by done.
  destruct (Hbound eq_refl) as [Hf Hport].
  exists (pre ++ Read (KAcquireGraph (om_UID (gw_Meta expected))) tt :: ta ++ tb), tp, [Ev (ReqKube (KReleaseGraph (om_UID (gw_Meta expected)))) y],
    (ms_gateway snapshot), (ms_listener snapshot).
  split. { rewrite app_nil_r, <- !app_assoc. cbn [app]. by rewrite <- !app_assoc. }
  split; [|done]. exists pre, ta, tb, (ms_gatewayClass snapshot). by rewrite Hu.
Qed.

Lemma programmedStatus_fields g listener n state :
  gw_Meta (programmedStatus g listener n state) = gw_Meta g /\
  gst_Addresses (gw_Status (programmedStatus g listener n state)) = [(IPAddressType, Address state)].
Proof. done. Qed.

(** What a reconciliation leaves in the scope. *)
Definition programmedSound (t : list event) (s : gatewayScope) : Prop :=
  noFreshProgrammed t s \/ ensuredGateway t (sc_gateway s).

Lemma reconcileGatewayGraph_sound listener t s t' s' x :
  noFreshProgrammed t s -> exec (reconcileGatewayGraph r listener s) t' (s', x) -> programmedSound (t ++ t') s'.
Proof.
  intros HI. unfold reconcileGatewayGraph. rewrite sbind_sget.
  intros [(e & -> & (y & [=] & _)%exec_stry)|(t1 & t2 & s1 & ensured & -> & (y & [= <-] & [-> He]%exec_slift)%exec_stry & Hx)]%exec_sbind.
  apply (noFreshProgrammed_app _ t1) in HI. rewrite app_assoc. unfold finishEnsure in Hx. destruct ensured as [result|e].
  2: { left. refine ((_ : KeepsStored _) _ _ _ _ _ HI Hx).
       destruct (errorsIs e _); [apply setGatewayUnsupportedVersion_keeps|].
       destruct (errorsIs e _); [apply (Keeps_sraise _ noFreshProgrammed_app)|apply handleGatewayProviderFailure_keeps]. }
  rewrite sbind_sget in Hx. cbv zeta in Hx. destruct (isProgressing (g_Outcome result)) eqn:Eo.
  { left. refine ((_ : KeepsStored _) _ _ _ _ _ HI Hx).
    apply Keeps_sbind; [apply setGatewayProgressing_keeps|]. intros []. apply (Keeps_sret _ noFreshProgrammed_app). }
  unfold setGatewayProgrammed in Hx.
  apply exec_sbind in Hx as [(e & -> & Hx)|(t3 & t4 & s2 & [] & -> & Hx & (-> & -> & _)%exec_sret)];
    rewrite sbind_sget in Hx; apply exec_sbind in Hx as [(e' & ? & [-> Hc]%exec_slift)|(t5 & t6 & s3 & n & -> & [-> Hc]%exec_slift & (-> & -> & ?)%exec_smodify)]; try done.
  { left. by apply noFreshProgrammed_app. }
  right. apply (ensureGateway_ok t) in He as (pre & p & t7 & gw & l & Heq & Hf & Hu & Hg & Hp).
  exists pre, p, (t7 ++ t5), gw, l, result. rewrite Heq, !app_nil_r, <- !app_assoc. done.
Qed.

Lemma rejected_keeps reject :
  (forall g c, ~ programmedIn (reject g) c) -> KeepsStored (reconcileRejectedGateway r reject).
Proof.
  intros Hr. apply Keeps_sbind; [|intros []; apply cleanupCheckpoint_keeps].
  apply Keeps_smodify. intros t s _ c Hc. by apply Hr in Hc.
Qed.

Lemma gatewayNormal_sound t s t' s' x :
  noFreshProgrammed t s -> exec (reconcileNormal r s) t' (s', x) -> programmedSound (t ++ t') s'.
Proof.
  intros HI. unfold reconcileNormal. rewrite sbind_sget.
  destruct (decideGatewayPhase _ _ _ _); intros Hx; [left; refine ((_ : KeepsStored _) _ _ _ _ _ HI Hx)..|].
  - apply (Keeps_sret _ noFreshProgrammed_app).
  - apply cleanupGateway_keeps.
  - apply setGatewayUnsupportedVersion_keeps.
  - apply Keeps_sbind; [|intros []; apply (Keeps_sret _ noFreshProgrammed_app)].
    apply Keeps_smodify. intros ? ? _ c Hc. by apply setGatewayFailureReason_programmed in Hc.
  - apply rejected_keeps. intros g. apply setGatewayFailureReason_programmed.
  - apply rejected_keeps. intros g. apply setGatewayFailure_programmed.
  - apply Keeps_sbind; [apply setGatewayProgressing_keeps|]. intros []. apply cleanupCheckpoint_keeps.
  - unfold reconcileGatewayBinding.
    apply Keeps_sbind; [apply (Keeps_sget _ noFreshProgrammed_app)|]. intros scope.
    apply Keeps_sbind; [apply Keeps_stry, (Keeps_slift _ noFreshProgrammed_app)|]. intros [[]|e].
    + apply (Keeps_sret _ noFreshProgrammed_app).
    + destruct (errorsIs e _); [apply setGatewayUnsupportedVersion_keeps|apply (Keeps_sraise _ noFreshProgrammed_app)].
  - by eapply reconcileGatewayGraph_sound.
Qed.

Definition patchesStatus (q : request) : bool := match q with ReqKube (KPatchGatewayStatus _ _) => true | _ => false end.
#[local] Instance patchesStatus_kube : KubeOnly patchesStatus.
Proof. by intros []. Qed.

(** A status that shows [Programmed] repeats a stored condition or follows an
    execution of the provider that found everything in place. *)
Definition programmedAuthority (t : list event) (q : request) : Prop :=
  match q with
  | ReqKube (KPatchGatewayStatus _ target) =>
      (forall c, programmedIn target c -> storedProgrammed t c) \/ ensuredGateway t target
  | _ => True
  end.

Lemma deferredPatch_sound t s x :
  programmedSound t s -> GuardedFrom patchesStatus programmedAuthority t (deferredPatch s x).
Proof.
  intros Hs. unfold deferredPatch. apply GuardedFrom_bind; [|intros tr [s' [[]|e]] _; apply GuardedFrom_Avoids; solve_avoids].
  unfold patchGateway. rewrite sbind_sget. destruct (sc_skipPatch s); [apply GuardedFrom_Avoids; solve_avoids|].
  apply GuardedFrom_sbind; [|intros; apply GuardedFrom_Avoids; solve_avoids].
  destruct (statusChanged s); [|apply GuardedFrom_Avoids; solve_avoids].
  apply GuardedFrom_sbind; [|intros; apply GuardedFrom_Avoids; solve_avoids].
  intros tr [s' y] [-> (x' & Hx & _)%exec_onError]%exec_slift t1 e t2 Ht He. apply exec_call in Hx as ->.
  destruct t1 as [|? []]; simplify_eq/=. rewrite app_nil_r. exact Hs.
Qed.

Lemma newGatewayScope_stored key tr s :
  exec (newGatewayScope r key) tr (Ok (Some s)) -> noFreshProgrammed tr s.
Proof.
  unfold newGatewayScope. intros (t1 & t2 & found & -> & Hf & Hx)%exec_bind. inv_read. destruct found as [g|e].
  2: { unfold ignoringNotFound in Hx. destruct (IgnoreNotFound e); by inv_read. }
  assert (sc_gateway s = g) as Hg.
  { destruct (om_Deleting (gw_Meta g)); inv_read.
    - destruct (GatewayHasControllerBinding _ _); by simplify_eq/=.
    - match goal with p : (_ * bool)%type |- _ => destruct p as [c m] end. inv_read.
      destruct (_ || _); by simplify_eq/=. }
  intros c Hc. rewrite Hg in Hc. eexists _, g. split; [by left|]. done.
Qed.

Lemma gateway_programmed_authorised key tr result t1 base target x t2 :
  exec (Reconcile r key) tr result -> tr = t1 ++ Ev (ReqKube (KPatchGatewayStatus base target)) x :: t2 ->
  (forall c, programmedIn target c -> storedProgrammed t1 c) \/ ensuredGateway t1 target.
Proof.
  intros Hx Ht.
  enough (GuardedFrom patchesStatus programmedAuthority [] (Reconcile r key)) as Hg by exact (Hg _ _ Hx _ _ _ Ht eq_refl).
  pose proof (ensure_gateway_avoids patchesStatus). pose proof (delete_gateway_avoids patchesStatus).
  unfold Reconcile. apply GuardedFrom_mbind; [apply GuardedFrom_Avoids; solve_avoids|].
  intros tr1 [s|] Hs; [|apply GuardedFrom_Avoids; solve_avoids]. apply newGatewayScope_stored in Hs.
  apply GuardedFrom_bind; [apply GuardedFrom_Avoids; destruct (om_Deleting _); solve_avoids|].
  intros tr2 [s' y] Hb. apply deferredPatch_sound. cbn [fst].
  destruct (om_Deleting _).
  - left. exact (cleanupGateway_keeps _ _ _ _ _ Hs Hb).
  - exact (gatewayNormal_sound _ _ _ _ _ Hs Hb).
Qed.
End facts.
