(* ===== verification/RouteModel.v ===== *)
(** * The HTTPRoute reconciler: from Kubernetes objects to a desired route

    Models [internal/controller/httproute]: [httproute_model.go],
    [httproute_backend.go], [httproute_parent.go] and [httproute_selection.go].
    The functions that read take the reader they use; [Cached] is [r.Client],
    [Live] is [r.APIReader]. *)
From stdpp Require Import base list strings gmap.
From Stdlib Require Import ZArith Lia Ascii.
From S2P Require Import Prelude GoStrings GoNetip Cloud Kube KubeObjects References OpenStack Outcomes Binding Indexes KubeClient GatewayModel.

Set Default Goal Selector "!".

(** ** Errors (httproute_model.go) *)

Definition routeErrorUnsupported : string := "Unsupported".
Definition routeErrorInvalidKind : string := "InvalidKind".
Definition routeErrorRefNotPermitted : string := "RefNotPermitted".
Definition routeErrorUnsupportedProtocol : string := "UnsupportedProtocol".
Definition routeErrorNoMatchingParent : string := "NoMatchingParent".
Definition routeErrorNotAllowed : string := "NotAllowedByListeners".
Definition routeErrorPending : string := "Pending".

(** [routeBuildError], with its message and kind. *)
Definition newRouteBuildError (kind format : string) (args : list string) : error :=
  CustomError "routeBuildError" [Sprintf format args ""; kind] None.
Definition asRouteBuildError (e : error) : option (string * string) :=
  match errorsAsCustom "routeBuildError" e with Some [message; kind] => Some (message, kind) | _ => None end.

(** The runtime error of an index or pointer that the callers have checked. *)
Definition runtimePanic : error := Sentinel "runtime error".

(** ** Matches (httproute_model.go) *)

Definition validHTTPPath (value : string) : bool :=
  if negb (HasPrefix value "/") || Contains value "//" || Contains value "/./" || Contains value "/../" then false
  else negb (String.eqb value "/.") && negb (String.eqb value "/..") &&
       negb (HasSuffix value "/.") && negb (HasSuffix value "/..").

Definition matchExact : string := "Exact".
Definition matchPathPrefix : string := "PathPrefix".

Definition supportedMatch (matches : list HTTPRouteMatch) : outcome_of (PathMatchType * string) :=
  match matches with
  | [] => Ok (PathMatchPrefix, "/")
  | [m] =>
      guard? (hm_Headers m =? 0)%nat && (hm_QueryParams m =? 0)%nat && negb (hm_Method m)
        else newRouteBuildError routeErrorUnsupported
               "header, query parameter, and method matches are not supported in Phase 1" [] in
      let pathType := default matchPathPrefix (hm_Path m ≫= hpm_Type) in
      let pathValue := default "/" (hm_Path m ≫= hpm_Value) in
      guard? validHTTPPath pathValue
        else newRouteBuildError routeErrorUnsupported "path %q is not a valid absolute Gateway API path" [pathValue] in
      if String.eqb pathType matchExact then Ok (PathMatchExact, pathValue)
      else if String.eqb pathType matchPathPrefix then Ok (PathMatchPrefix, pathValue)
      else Err (newRouteBuildError routeErrorUnsupported "path match type %q is not supported" [pathType])
  | _ => Err (newRouteBuildError routeErrorUnsupported "Phase 1 supports at most one HTTPRoute match" [])
  end.

Definition wildcard (hostname : string) : bool := HasPrefix hostname "*.".
Definition plainRule (rule : HTTPRouteRule) : bool :=
  bool_decide (hru_Name rule = None) && (hru_Filters rule =? 0)%nat && negb (hru_Timeouts rule) &&
  negb (hru_Retry rule) && negb (hru_SessionPersistence rule).

Definition routeNamespace (route : HTTPRoute) : string := om_Namespace (hr_Meta route).
Definition backendNamespace (route : HTTPRoute) (backend : HTTPBackendRef) : string :=
  default (routeNamespace route) (hb_Namespace backend).

Definition structurallySupportedRoute (route : HTTPRoute) : bool :=
  match hr_ParentRefs route, hr_Rules route with
  | [_], [rule] =>
      match hr_Hostnames route with [] => true | [h] => negb (wildcard h) | _ => false end &&
      plainRule rule &&
      match hru_BackendRefs rule with
      | [backend] =>
          match supportedMatch (hru_Matches rule) with Ok _ => true | Err _ => false end &&
          ((hb_Filters backend =? 0)%nat &&
           match hb_Weight backend with None => true | Some w => negb (w =? 0)%Z end &&
           match hb_Group backend with None => true | Some g => String.eqb g "" end &&
           match hb_Kind backend with None => true | Some k => String.eqb k "Service" end &&
           String.eqb (backendNamespace route backend) (routeNamespace route) &&
           match hb_Port backend with Some _ => true | None => false end)
      | _ => false
      end
  | _, _ => false
  end.

(** ** Backends (httproute_backend.go) *)

Definition ServiceTypeNodePort : string := "NodePort".
Definition TrafficPolicyLocal : string := "Local".

(** The checks on the Service port that was found. *)
Definition checkServicePort (candidate : ServicePort) (port : Z) : outcome_of ServicePort :=
  guard? String.eqb (sp_Protocol candidate) "" || String.eqb (sp_Protocol candidate) "TCP"
    else newRouteBuildError routeErrorUnsupportedProtocol "backend Service port %d must use TCP" [decimal_Z port] in
  match sp_AppProtocol candidate with
  | Some p =>
      if negb (String.eqb p "http") && negb (String.eqb p "kubernetes.io/http")
      then Err (newRouteBuildError routeErrorUnsupportedProtocol "backend Service appProtocol %q is unsupported" [p])
      else guard? negb (sp_NodePort candidate =? 0)%Z
             else newRouteBuildError routeErrorUnsupported "backend Service port %d has no allocated NodePort" [decimal_Z port] in
           Ok candidate
  | None => guard? negb (sp_NodePort candidate =? 0)%Z
             else newRouteBuildError routeErrorUnsupported "backend Service port %d has no allocated NodePort" [decimal_Z port] in
           Ok candidate
  end.

Definition nodePortForBackend (service : Service) (port : Z) : outcome_of ServicePort :=
  match List.find (fun candidate => sp_Port candidate =? port)%Z (sv_Ports service) with
  | Some candidate => checkServicePort candidate port
  | None => Err (newRouteBuildError routeErrorPending "backend Service %s does not expose port %d"
                   [om_Name (sv_Meta service); decimal_Z port])
  end.

Definition endpointReady (endpoint : Endpoint) : bool :=
  if default false (ep_Terminating endpoint) then false else default true (ep_Ready endpoint).

Definition readyNode (node : Node) : bool :=
  if om_Deleting (nd_Meta node) || nd_Unschedulable node then false
  else match List.find (fun c => String.eqb (fst c) "Ready") (nd_Conditions node) with
       | Some (_, status) => String.eqb status "True"
       | None => false
       end.

(** [net.ParseIP(s) != nil]: an address without a zone. *)
Definition ParseIP (s : string) : bool :=
  match ParseAddr s with Some (IPv4 _) => true | Some (IPv6 _ zone) => String.eqb zone "" | None => false end.

Definition nodeAddress (node : Node) (addressType : string) : string :=
  match List.find (fun a => String.eqb (fst a) addressType && ParseIP (snd a)) (nd_Addresses node) with
  | Some (_, address) => address
  | None => ""
  end.

(** [net.JoinHostPort]. *)
Definition JoinHostPort (host port : string) : string :=
  if str_without ":" host then host ^^ ":" ^^ port else "[" ^^ host ^^ "]:" ^^ port.

(** The Nodes that ready endpoints name. *)
Definition readyEndpoints (slices : list EndpointSlice) : list Endpoint :=
  List.filter endpointReady (concat (es_Endpoints <$> slices)).
Definition localNodes (slices : list EndpointSlice) : list string := omap ep_NodeName (readyEndpoints slices).

(** The loop over the Nodes: the members so far and the keys seen. *)
Definition addNodeMember (config : Config) (service : Service) (nodePort : Z) (local : list string)
    (acc : list Member * list string) (node : Node) : list Member * list string :=
  let '(members, seen) := acc in
  if negb (readyNode node) then acc
  else if String.eqb (sv_ExternalTrafficPolicy service) TrafficPolicyLocal &&
          negb (bool_decide (om_Name (nd_Meta node) ∈ local)) then acc
  else
    let address := nodeAddress node (cfg_NodeAddressType config) in
    if String.eqb address "" then acc
    else
      let key := JoinHostPort address (decimal_Z nodePort) in
      if bool_decide (key ∈ seen) then acc
      else (members ++ [mkMember address nodePort], key :: seen).

Definition memberLess (a b : Member) : bool :=
  if String.eqb (m_Address a) (m_Address b) then (m_Port a <? m_Port b)%Z
  else String.ltb (m_Address a) (m_Address b).

(** The members for the Nodes and endpoints that were listed. *)
Definition membersOf (config : Config) (service : Service) (nodePort : Z) (slices : list EndpointSlice)
    (nodes : list Node) : list Member :=
  sort_slice memberLess (fst (fold_left (addNodeMember config service nodePort (localNodes slices)) nodes ([], []))).

Definition nodePortMembersWithReader (config : Config) (from : reader) (service : Service) (nodePort : Z)
    : M (list Member) :=
  let name := om_Name (sv_Meta service) in
  let! slices := wrap "list backend EndpointSlices: %w" []
                   (listEndpointSlices from (om_Namespace (sv_Meta service)) name) in
  guard! negb (bool_decide (readyEndpoints slices = []))
    else newRouteBuildError routeErrorPending "backend Service %s has no ready endpoints" [name] in
  guard! negb (String.eqb (sv_ExternalTrafficPolicy service) TrafficPolicyLocal && bool_decide (localNodes slices = []))
    else newRouteBuildError routeErrorPending
           "backend Service %s uses externalTrafficPolicy Local but ready endpoints do not identify their Nodes" [name] in
  let! nodes := wrap "list backend Nodes: %w" [] (listNodes from) in
  let members := membersOf config service nodePort slices nodes in
  guard! negb (bool_decide (members = []))
    else newRouteBuildError routeErrorPending "backend Service %s has no ready Nodes with a %s address"
           [name; cfg_NodeAddressType config] in
  ret members.

(** ** The desired route (httproute_model.go) *)

(** The checks on the route itself: host name, path and backend. *)
Definition routeShape (route : HTTPRoute) : outcome_of (string * PathMatchType * string * HTTPBackendRef * Z) :=
  let? hostname := (match hr_Hostnames route with
                    | [] => Ok ""
                    | [h] => guard? negb (wildcard h)
                               else newRouteBuildError routeErrorUnsupported "wildcard hostnames are not supported in Phase 1" [] in Ok h
                    | _ => Err (newRouteBuildError routeErrorUnsupported "Phase 1 supports at most one exact hostname" [])
                    end) in
  match hr_Rules route with
  | [rule] =>
      guard? plainRule rule
        else newRouteBuildError routeErrorUnsupported
               "named rules, filters, timeouts, retries, and session persistence are not supported in Phase 1" [] in
      let? (pathType, pathValue) := supportedMatch (hru_Matches rule) in
      match hru_BackendRefs rule with
      | [backend] =>
          guard? (hb_Filters backend =? 0)%nat
            else newRouteBuildError routeErrorUnsupported "backendRef filters are not supported in Phase 1" [] in
          guard? negb (bool_decide (hb_Weight backend = Some 0%Z))
            else newRouteBuildError routeErrorUnsupported "a single Phase 1 backendRef must have non-zero weight" [] in
          guard? match hb_Group backend with None => true | Some g => String.eqb g "" end
            else newRouteBuildError routeErrorInvalidKind "backendRef group %q is unsupported; use a core Service"
                   [default "" (hb_Group backend)] in
          guard? match hb_Kind backend with None => true | Some k => String.eqb k "Service" end
            else newRouteBuildError routeErrorInvalidKind "backendRef kind %q is unsupported; use Service"
                   [default "" (hb_Kind backend)] in
          guard? String.eqb (backendNamespace route backend) (routeNamespace route)
            else newRouteBuildError routeErrorRefNotPermitted
                   "cross-namespace backendRefs require ReferenceGrant and are deferred until Phase 5" [] in
          match hb_Port backend with
          | None => Err (newRouteBuildError routeErrorUnsupported "backendRef port is required" [])
          | Some port => Ok (hostname, pathType, pathValue, backend, port)
          end
      | _ => Err (newRouteBuildError routeErrorUnsupported "Phase 1 supports exactly one backendRef" [])
      end
  | _ => Err (newRouteBuildError routeErrorUnsupported "Phase 1 supports exactly one HTTPRoute rule" [])
  end.

Definition serviceNotNodePort (service : Service) : error :=
  newRouteBuildError routeErrorUnsupported "backend Service %s must be type NodePort in Phase 1" [om_Name (sv_Meta service)].

Definition buildRouteSpecWithReader (config : Config) (from : reader) (route : HTTPRoute) (gateway : Gateway)
    : M RouteSpec :=
  let! (hostname, pathType, pathValue, backend, port) := lift (routeShape route) in
  let! service := wrap "get backend Service: %w" []
                    (getService from (mkNamespacedName (backendNamespace route backend) (hb_Name backend))) in
  guard! String.eqb (sv_Type service) ServiceTypeNodePort else serviceNotNodePort service in
  let! servicePort := lift (nodePortForBackend service port) in
  let! members := nodePortMembersWithReader config from service (sp_NodePort servicePort) in
  match gw_Listeners gateway with
  | [] => raise runtimePanic
  | listener :: _ =>
      ret (mkRouteSpec (RouteIdentity config (gw_Meta gateway) (hr_Meta route)) zeroGatewayState
             (mkGatewayRequirements (cfg_Provider config) (cfg_VIPSubnetID config) (cfg_ExternalNetworkID config)
                (gl_Port listener))
             (cfg_MemberSubnetID config) (cfg_HealthPath config) hostname pathType pathValue members)
  end.

(** ** Parents (httproute_parent.go) *)

Record managedRouteParent := mkManagedParent {
  mp_ref : ParentReference; mp_gateway : Gateway; mp_gatewayClass : GatewayClass; mp_listener : option GatewayListener }.

(** The only listener of a Gateway that has one. *)
Definition soleListener (gateway : Gateway) : option GatewayListener :=
  match gw_Listeners gateway with [listener] => Some listener | _ => None end.

Definition parentGatewayKey (route : HTTPRoute) (ref : ParentReference) : NamespacedName :=
  mkNamespacedName (default (routeNamespace route) (pr_Namespace ref)) (pr_Name ref).

Definition managedParentsWithReader `{KubeErrors} (config : Config) (from : reader) (route : HTTPRoute)
    : M (list managedRouteParent) :=
  mfold (fun parents parentRef =>
    if negb (IsGatewayParentRef parentRef) then ret parents
    else try (getGateway from (parentGatewayKey route parentRef)) (fun found =>
      match found with
      | Err e => if IsNotFound e then ret parents else raise (Errorf "get parent Gateway: %w" [] (Some e))
      | Ok gateway =>
          try (getClass from (gw_GatewayClassName gateway)) (fun found' =>
            match found' with
            | Err e => if IsNotFound e then ret parents else raise (Errorf "get parent GatewayClass: %w" [] (Some e))
            | Ok class =>
                if negb (String.eqb (gc_ControllerName class) (cfg_ControllerName config)) then ret parents
                else ret (parents ++ [mkManagedParent parentRef gateway class (soleListener gateway)])
            end)
      end)) [] (hr_ParentRefs route).

(** The listener, the Gateway and the reference of a parent that is validated
    without its class. *)
Definition validateParent (route : HTTPRoute) (ref : ParentReference) (gateway : Gateway)
    (sole : option GatewayListener) : outcome_of unit :=
  guard? negb (om_Deleting (gw_Meta gateway)) else newRouteBuildError routeErrorPending "parent Gateway is being deleted" [] in
  guard? String.eqb (om_Namespace (gw_Meta gateway)) (routeNamespace route)
    else newRouteBuildError routeErrorNotAllowed "cross-namespace parentRefs are not supported in Phase 1" [] in
  match sole with
  | None => Err (newRouteBuildError routeErrorUnsupported "parent Gateway must have exactly one listener in Phase 1" [])
  | Some listener =>
      guard? String.eqb (gl_Protocol listener) HTTPProtocolType && negb (gl_TLS listener)
        else newRouteBuildError routeErrorUnsupported "parent listener is not a supported plain HTTP listener" [] in
      guard? match pr_SectionName ref with Some s => String.eqb s (gl_Name listener) | None => true end
        else newRouteBuildError routeErrorNoMatchingParent "parentRef sectionName %q does not select listener %q"
               [default "" (pr_SectionName ref); gl_Name listener] in
      guard? match pr_Port ref with Some p => (p =? gl_Port listener)%Z | None => true end
        else newRouteBuildError routeErrorNoMatchingParent "parentRef port %d does not select listener port %d"
               [decimal_Z (default 0%Z (pr_Port ref)); decimal_Z (gl_Port listener)] in
      guard? listenerAllowsHTTPRoute listener
        else newRouteBuildError routeErrorNotAllowed "listener allowedRoutes does not include HTTPRoute" [] in
      guard? negb (otherNamespaces listener)
        else newRouteBuildError routeErrorNotAllowed "Phase 1 listeners only allow same-namespace HTTPRoutes" [] in
      Ok tt
  end.
Definition validateRouteParent (route : HTTPRoute) (parent : managedRouteParent) : outcome_of unit :=
  validateParent route (mp_ref parent) (mp_gateway parent) (mp_listener parent).

(** ** Selection (httproute_selection.go) *)

Record routeSlotDecision := mkSlot { rsd_canReserve : bool; rsd_rejection : option error }.

(** What [evaluateRouteSlot] concludes from the backend Service. *)
Definition slotForService (service : Service) (port : Z) : routeSlotDecision :=
  if negb (String.eqb (sv_Type service) ServiceTypeNodePort) then mkSlot false (Some (serviceNotNodePort service))
  else match nodePortForBackend service port with
       | Ok _ => mkSlot true None
       | Err e =>
           match asRouteBuildError e with
           | Some (_, kind) => if String.eqb kind routeErrorPending then mkSlot true None else mkSlot false (Some e)
           | None => mkSlot false (Some e)
           end
       end.

(** [route.Spec.Rules[0].BackendRefs[0]] with its port. *)
Definition soleBackend (route : HTTPRoute) : option (HTTPBackendRef * Z) :=
  match hr_Rules route with
  | rule :: _ => match hru_BackendRefs rule with
                 | backend :: _ => match hb_Port backend with Some port => Some (backend, port) | None => None end
                 | [] => None
                 end
  | [] => None
  end.

Definition routePrecedes (left right : HTTPRoute) : bool :=
  if negb (om_CreationTimestamp (hr_Meta left) =? om_CreationTimestamp (hr_Meta right))%Z
  then (om_CreationTimestamp (hr_Meta left) <? om_CreationTimestamp (hr_Meta right))%Z
  else String.ltb (routeNamespace left ^^ "/" ^^ om_Name (hr_Meta left))
                  (routeNamespace right ^^ "/" ^^ om_Name (hr_Meta right)).

(** The guards of the loop over candidates, before the backend is looked at. *)
Definition contends (route : HTTPRoute) (parent : managedRouteParent) (candidate : HTTPRoute) : bool :=
  negb (String.eqb (om_Name (hr_Meta candidate)) (om_Name (hr_Meta route))) &&
  negb (om_Deleting (hr_Meta candidate)) &&
  match hr_ParentRefs candidate with
  | [ref] =>
      SameGatewayTarget ref (routeNamespace candidate) (mp_ref parent) (routeNamespace route) &&
      match validateParent candidate ref (mp_gateway parent) (mp_listener parent) with Ok _ => true | Err _ => false end &&
      structurallySupportedRoute candidate
  | _ => false
  end.

Section selection.
Context `{KubeErrors} (config : Config).

Definition evaluateRouteSlotWithReader (from : reader) (route : HTTPRoute) : M routeSlotDecision :=
  match soleBackend route with
  | None => raise runtimePanic
  | Some (backend, port) =>
      try (getService from (mkNamespacedName (routeNamespace route) (hb_Name backend))) (fun found =>
        match found with
        | Err e => if IsNotFound e then ret (mkSlot true None)
                   else raise (Errorf "get candidate backend Service: %w" [] (Some e))
        | Ok service => ret (slotForService service port)
        end)
  end.

Definition routeCanReserveSlotWithReader (from : reader) (route : HTTPRoute) : M bool :=
  let! decision := evaluateRouteSlotWithReader from route in ret (rsd_canReserve decision).

Definition considerCandidate (from : reader) (route : HTTPRoute) (parent : managedRouteParent)
    (winner candidate : HTTPRoute) : M HTTPRoute :=
  if negb (contends route parent candidate) then ret winner
  else
  let! canReserve := routeCanReserveSlotWithReader from candidate in
  ret (if canReserve && routePrecedes candidate winner then candidate else winner).

Definition isSelectedRouteWithReader (from : reader) (route : HTTPRoute) (parent : managedRouteParent)
    (useCacheIndex : bool) : M bool :=
  let index := if useCacheIndex
               then Some (IndexHTTPRouteByParentGateway, ObjectKeyString (ObjectKey (gw_Meta (mp_gateway parent))))
               else None in
  let! routes := wrap "list HTTPRoutes for Phase 1 attachment selection: %w" []
                   (listHTTPRoutes from (Some (routeNamespace route)) index) in
  let! winner := mfold (considerCandidate from route parent) route routes in
  ret (String.eqb (om_Name (hr_Meta winner)) (om_Name (hr_Meta route))).
End selection.
