(* ===== verification/RouteModelFacts.v ===== *)
(** * What the model of an HTTPRoute guarantees

    The members of a pool, the supported subset of routes and the selection of
    the one route of a Gateway, as the pure parts of RouteModel.v compute them. *)
From stdpp Require Import base list strings gmap sorting.
From Stdlib Require Import ZArith Lia Ascii.
From S2P Require Import Prelude GoStrings GoNetip Cloud Kube KubeObjects References OpenStack ProgramLogic Outcomes Binding BindingFacts Indexes KubeClient GatewayModel RouteModel ReconcileLogic.

Set Default Goal Selector "!".

(** ** The supported subset *)

(** The quick structural check accepts exactly the routes with one parent
    whose shape the model builder accepts. *)
Theorem structurallySupportedRoute_spec route :
  structurallySupportedRoute route = true <->
  length (hr_ParentRefs route) = 1 /\ exists shape, routeShape route = Ok shape.
Proof.
  unfold structurallySupportedRoute, routeShape.
  assert (forall o : option Z, match o with None => true | Some w => negb (w =? 0)%Z end = negb (bool_decide (o = Some 0%Z))) as Hw.
  { intros [w|]; [|done]. destruct (Z.eqb_spec w 0); [by subst|]. symmetry. apply negb_true_iff, bool_decide_eq_false. by intros [= ->]. }
  destruct (hr_ParentRefs route) as [|ref [|]]; [by split; [|intros [[=] _]]| |by split; [|intros [[=] _]]].
  destruct (hr_Hostnames route) as [|h [|]], (hr_Rules route) as [|rule [|]]; unfold andb;
    repeat first
      [ by split; [done|intros [_ [? [=]]]]
      | match goal with
        | |- context [negb (wildcard h)] => destruct (negb (wildcard h))
        | |- context [plainRule rule] => destruct (plainRule rule)
        | |- context [supportedMatch ?m] => destruct (supportedMatch m) as [[]|]
        | |- context [hru_BackendRefs rule] => destruct (hru_BackendRefs rule) as [|backend []]
        end; cbn; rewrite ?Hw
      | case_match ]; split; eauto.
Qed.

(** ** Members *)

(** The host of an endpoint, in brackets when it has a colon. *)
Definition bracketed (host : string) : string := if str_without ":" host then host else "[" ^^ host ^^ "]".

Lemma JoinHostPort_bracketed host port : JoinHostPort host port = bracketed host ^^ ":" ^^ port.
Proof. unfold JoinHostPort, bracketed. destruct (str_without ":" host); [done|]. by rewrite !append_assoc. Qed.

Lemma bracketed_without host : str_without ":" (bracketed host) = str_without ":" host.
Proof.
  unfold bracketed. destruct (str_without ":" host) eqn:E; [done|]. rewrite !str_without_append, E. done.
Qed.

Lemma JoinHostPort_inj a b port : JoinHostPort a port = JoinHostPort b port -> a = b.
Proof.
  rewrite !JoinHostPort_bracketed. intros [H _]%append_inj_r; [|done].
  pose proof (f_equal (str_without ":") H) as Hw. rewrite !bracketed_without in Hw. unfold bracketed in H. rewrite Hw in H.
  destruct (str_without ":" b); [done|]. apply append_inj_l in H. by apply append_inj_r in H as [-> _].
Qed.

Section members.
Context (config : Config) (service : Service) (nodePort : Z).

(** The member a Node stands for, if any. *)
Definition nodeMember (local : list string) (node : Node) : option Member :=
  let address := nodeAddress node (cfg_NodeAddressType config) in
  if readyNode node &&
     negb (String.eqb (sv_ExternalTrafficPolicy service) TrafficPolicyLocal && negb (bool_decide (om_Name (nd_Meta node) ∈ local))) &&
     negb (String.eqb address "")
  then Some (mkMember address nodePort) else None.

Lemma addNodeMember_cases local members seen node :
  addNodeMember config service nodePort local (members, seen) node =
  match nodeMember local node with
  | None => (members, seen)
  | Some m => let key := JoinHostPort (m_Address m) (decimal_Z nodePort) in
              if bool_decide (key ∈ seen) then (members, seen) else (members ++ [m], key :: seen)
  end.
Proof.
  unfold addNodeMember, nodeMember. destruct (readyNode node); [|done]. cbn [negb andb].
  destruct (_ && _); [done|]. cbn [negb andb]. cbv zeta. by destruct (String.eqb _ "").
Qed.

(** The loop collects the members of the Nodes, each once. *)
Lemma addNodeMembers_spec local nodes members seen :
  NoDup members -> (forall m, m ∈ members -> m_Port m = nodePort) ->
  (forall k, k ∈ seen <-> exists m, m ∈ members /\ k = JoinHostPort (m_Address m) (decimal_Z nodePort)) ->
  let all := fst (fold_left (addNodeMember config service nodePort local) nodes (members, seen)) in
  NoDup all /\ forall m, m ∈ all <-> m ∈ members \/ exists node, node ∈ nodes /\ nodeMember local node = Some m.
Proof.
  cbv zeta. revert members seen. induction nodes as [|node nodes IH]; intros members seen Hnd Hport Hseen.
  { split; [done|]. intros m. set_solver. }
  cbn [fold_left]. rewrite addNodeMember_cases. destruct (nodeMember local node) as [m0|] eqn:En; cbv zeta.
  2: { destruct (IH _ _ Hnd Hport Hseen) as [Hn Hm]. split; [done|]. intros m. rewrite Hm. set_solver. }
  assert (m_Port m0 = nodePort) as Hp0.
  { unfold nodeMember in En. destruct (_ && _); [by injection En as <-|done]. }
  destruct (bool_decide_reflect (JoinHostPort (m_Address m0) (decimal_Z nodePort) ∈ seen)) as [Hin|Hout].
  - apply Hseen in Hin as (m1 & Hm1 & He%JoinHostPort_inj).
    assert (m1 = m0) as -> by (destruct m0, m1; pose proof (Hport _ Hm1); cbn in *; congruence).
    destruct (IH _ _ Hnd Hport Hseen) as [Hn Hm]. split; [done|]. intros m. rewrite Hm. set_solver.
  - assert (m0 ∉ members) as Hni by (intros Hm0; apply Hout, Hseen; eauto).
    destruct (IH (members ++ [m0]) (JoinHostPort (m_Address m0) (decimal_Z nodePort) :: seen)) as [Hn Hm].
    + apply NoDup_app. split; [done|]. split; [set_solver|apply NoDup_singleton].
    + intros m [Hm| ->%list_elem_of_singleton]%elem_of_app; auto.
    + intros k. rewrite elem_of_cons, Hseen. set_solver.
    + split; [done|]. intros m. rewrite Hm. set_solver.
Qed.
End members.

#[export] Instance memberLess_linear : LinearLess memberLess.
Proof.
  set (key := fun m : Member => (m_Address m, m_Port m)). assert (Inj (=) (=) key) by (intros [] [] [= -> ->]; done).
  apply (LinearLess_by (lexLess String.ltb Z.ltb) key); [apply _..|]. intros a b. unfold memberLess, lexLess. cbn.
  destruct (String.eqb_spec (m_Address a) (m_Address b)); [by rewrite bool_decide_eq_true_2|by rewrite bool_decide_eq_false_2].
Qed.

(** *** The Nodes that carry traffic *)

(** [x] is the first of a list for which [P] holds. *)
Definition firstWith {A} (P : A -> Prop) (l : list A) (x : A) : Prop :=
  exists before after, l = before ++ x :: after /\ P x /\ Forall (fun y => ~ P y) before.

Lemma find_firstWith {A} (f : A -> bool) (P : A -> Prop) l x :
  (forall y, f y = true <-> P y) -> List.find f l = Some x <-> firstWith P l x.
Proof.
  intros Hf. unfold firstWith. induction l as [|y l IH]; cbn.
  - split; [done|]. by intros ([] & ? & [=] & _).
  - destruct (f y) eqn:Ey.
    + split.
      * intros [= <-]. exists [], l. split_and!; [done|by apply Hf|constructor].
      * intros ([|z before] & after & [= -> ->] & Hx & Hb); [done|]. apply Forall_inv in Hb. by apply Hf in Ey.
    + rewrite IH. split.
      * intros (before & after & -> & Hx & Hb). exists (y :: before), after. split_and!; [done|done|].
        constructor; [|done]. rewrite <- Hf, Ey. done.
      * intros ([|z before] & after & [= -> ->] & Hx & Hb); [by apply Hf in Hx; rewrite Hx in Ey|].
        apply Forall_cons in Hb as [_ Hb]. by exists before, after.
Qed.

(** A Node to which the scheduler may send Pods and whose Ready condition, the
    first of that type, is True. *)
Definition readyForTraffic (node : Node) : Prop :=
  om_Deleting (nd_Meta node) = false /\ nd_Unschedulable node = false /\
  firstWith (fun c => fst c = "Ready") (nd_Conditions node) ("Ready", "True").

(** An IP address without a zone. *)
Definition plainAddress (s : string) : Prop :=
  exists ip, ParseAddr s = Some ip /\ match ip with IPv4 _ => True | IPv6 _ zone => zone = "" end.

(** The first IP address of the type among the addresses of the Node. *)
Definition reachableAt (addressType : string) (node : Node) (address : string) : Prop :=
  firstWith (fun a => fst a = addressType /\ plainAddress (snd a)) (nd_Addresses node) (addressType, address).

(** An endpoint that is not terminating and not known to be unready. *)
Definition servesTraffic (endpoint : Endpoint) : Prop :=
  ep_Terminating endpoint <> Some true /\ ep_Ready endpoint <> Some false.

(** The Node carries traffic for a Service behind a node port, at an address: it
    is ready, and with the traffic policy Local it runs a serving endpoint. *)
Definition servingNode (config : Config) (service : Service) (slices : list EndpointSlice) (node : Node)
    (address : string) : Prop :=
  readyForTraffic node /\ reachableAt (cfg_NodeAddressType config) node address /\
  (sv_ExternalTrafficPolicy service = TrafficPolicyLocal ->
     exists slice endpoint, slice ∈ slices /\ endpoint ∈ es_Endpoints slice /\ servesTraffic endpoint /\
       ep_NodeName endpoint = Some (om_Name (nd_Meta node))).

Lemma readyNode_spec node : readyNode node = true <-> readyForTraffic node.
Proof.
  unfold readyNode, readyForTraffic. destruct (om_Deleting (nd_Meta node)), (nd_Unschedulable node); cbn [orb];
    [naive_solver..|].
  rewrite <- (find_firstWith (fun c => String.eqb (fst c) "Ready")) by (intros y; apply String.eqb_eq).
  destruct (List.find _ _) as [[t status]|] eqn:E; [|naive_solver].
  apply List.find_some in E as [_ E]. apply String.eqb_eq in E. cbn in E. subst t. rewrite String.eqb_eq. naive_solver.
Qed.

Lemma ParseIP_spec s : ParseIP s = true <-> plainAddress s.
Proof.
  unfold ParseIP, plainAddress. destruct (ParseAddr s) as [[|? zone]|]; [naive_solver| |naive_solver].
  rewrite String.eqb_eq. naive_solver.
Qed.

Lemma nodeAddress_spec node addressType address :
  reachableAt addressType node address <-> address <> "" /\ nodeAddress node addressType = address.
Proof.
  unfold reachableAt, nodeAddress.
  rewrite <- (find_firstWith (fun a => String.eqb (fst a) addressType && ParseIP (snd a)))
    by (intros y; by rewrite andb_true_iff, String.eqb_eq, ParseIP_spec).
  destruct (List.find _ _) as [[t a]|] eqn:E; [|naive_solver].
  apply List.find_some in E as [_ [E Ha]%andb_true_iff]. apply String.eqb_eq in E. cbn in E, Ha. subst t.
  assert (a <> "") by by intros ->. naive_solver.
Qed.

Lemma endpointReady_spec endpoint : endpointReady endpoint = true <-> servesTraffic endpoint.
Proof.
  unfold endpointReady, servesTraffic. destruct (ep_Terminating endpoint) as [[]|], (ep_Ready endpoint) as [[]|]; naive_solver.
Qed.

Lemma localNodes_spec slices name :
  name ∈ localNodes slices <->
  exists slice endpoint, slice ∈ slices /\ endpoint ∈ es_Endpoints slice /\ servesTraffic endpoint /\
    ep_NodeName endpoint = Some name.
Proof.
  unfold localNodes, readyEndpoints. rewrite list_elem_of_omap. setoid_rewrite list_elem_of_In.
  setoid_rewrite List.filter_In. setoid_rewrite List.in_concat. setoid_rewrite <- list_elem_of_In.
  setoid_rewrite list_elem_of_fmap. setoid_rewrite endpointReady_spec. naive_solver.
Qed.

Lemma nodeMember_spec config service nodePort slices node m :
  nodeMember config service nodePort (localNodes slices) node = Some m <->
  exists address, servingNode config service slices node address /\ m = mkMember address nodePort.
Proof.
  unfold nodeMember, servingNode. cbv zeta. setoid_rewrite nodeAddress_spec. setoid_rewrite <- readyNode_spec.
  setoid_rewrite <- localNodes_spec. destruct (readyNode node); cbn [andb]; [|naive_solver].
  destruct (String.eqb_spec (nodeAddress node (cfg_NodeAddressType config)) ""); [rewrite andb_false_r; naive_solver|].
  rewrite andb_true_r.
  destruct (String.eqb_spec (sv_ExternalTrafficPolicy service) TrafficPolicyLocal); cbn [andb negb]; [|naive_solver].
  destruct (bool_decide_reflect (om_Name (nd_Meta node) ∈ localNodes slices)); cbn [negb]; naive_solver.
Qed.

Lemma membersOf_nodeMember config service nodePort slices nodes :
  NoDup (membersOf config service nodePort slices nodes) /\
  StronglySorted (fun a b => memberLess b a = false) (membersOf config service nodePort slices nodes) /\
  forall m, m ∈ membersOf config service nodePort slices nodes <->
    exists node, node ∈ nodes /\ nodeMember config service nodePort (localNodes slices) node = Some m.
Proof.
  unfold membersOf.
  destruct (addNodeMembers_spec config service nodePort (localNodes slices) nodes [] []) as [Hn Hm];
    [constructor|by intros ? ?%elem_of_nil|set_solver|].
  split; [by rewrite sort_slice_perm|]. split; [apply sort_slice_linear, _|].
  intros m. rewrite sort_slice_elem, Hm. set_solver.
Qed.

Lemma membersOf_serving config service nodePort slices nodes m :
  m ∈ membersOf config service nodePort slices nodes <->
  exists node address, node ∈ nodes /\ servingNode config service slices node address /\ m = mkMember address nodePort.
Proof.
  rewrite (proj2 (proj2 (membersOf_nodeMember config service nodePort slices nodes))). setoid_rewrite nodeMember_spec. naive_solver.
Qed.

(** Members that differ only in their addresses are sorted by them. *)
Lemma sorted_by_address port (l : list Member) :
  Forall (fun m => m_Port m = port) l -> NoDup l -> StronglySorted (fun a b => memberLess b a = false) l ->
  StronglySorted (fun a b => String.ltb (m_Address a) (m_Address b) = true) l.
Proof.
  intros Hp Hn Hs. induction Hs as [|a l Hs IH Ha]; [constructor|].
  apply Forall_cons in Hp as [Hpa Hp]. apply NoDup_cons in Hn as [Hna Hn]. constructor; [by apply IH|].
  rewrite Forall_forall in Ha, Hp |- *. intros b Hb. specialize (Ha b Hb). specialize (Hp b Hb).
  destruct (less_total (less := memberLess) a b) as [->|[Hab|Hba]]; [done| |congruence].
  unfold memberLess in Hab. rewrite Hpa, Hp in Hab. by destruct (String.eqb_spec (m_Address a) (m_Address b)); [lia|].
Qed.

(** Equal sets of members are equal lists. *)
Lemma membersOf_ext config service service' nodePort slices slices' nodes nodes' :
  (forall m, m ∈ membersOf config service nodePort slices nodes <-> m ∈ membersOf config service' nodePort slices' nodes') ->
  membersOf config service nodePort slices nodes = membersOf config service' nodePort slices' nodes'.
Proof.
  intros He. assert (AntiSymm (=) (fun a b => memberLess b a = false)).
  { intros x y Hx Hy. destruct (less_total x y) as [|[]]; [done|congruence..]. }
  destruct (membersOf_nodeMember config service nodePort slices nodes) as (Hn & Hs & _).
  destruct (membersOf_nodeMember config service' nodePort slices' nodes') as (Hn' & Hs' & _).
  eapply (StronglySorted_unique (fun a b => memberLess b a = false)); [done..|]. by apply NoDup_Permutation.
Qed.

(** C36. The members of a pool are the addresses of exactly the serving Nodes:
    not deleted, schedulable, with a Ready condition that is True, at their
    first zone-free IP address of the configured type, and under the traffic
    policy Local running an endpoint that is neither terminating nor known to be
    unready. Addresses do not repeat and increase, and the members are the same
    for every order in which the API lists Nodes and EndpointSlices. *)
Theorem membersOf_spec config service nodePort slices nodes :
  let members := membersOf config service nodePort slices nodes in
  NoDup members /\ StronglySorted (fun a b => String.ltb (m_Address a) (m_Address b) = true) members /\
  (forall m, m ∈ members <-> exists node address, node ∈ nodes /\ servingNode config service slices node address /\
     m = mkMember address nodePort) /\
  forall slices' nodes', slices ≡ₚ slices' -> nodes ≡ₚ nodes' ->
    membersOf config service nodePort slices' nodes' = members.
Proof.
  cbv zeta. destruct (membersOf_nodeMember config service nodePort slices nodes) as (Hn & Hs & _).
  split; [done|]. split.
  { apply (sorted_by_address nodePort); [|done|done]. apply Forall_forall. by intros m (? & ? & _ & _ & ->)%membersOf_serving. }
  split; [apply membersOf_serving|]. intros slices' nodes' Hp Hp'. apply membersOf_ext. intros m. rewrite !membersOf_serving.
  unfold servingNode. setoid_rewrite Hp. by setoid_rewrite Hp'.
Qed.
