(* ===== verification/RouteSelectionFacts.v ===== *)
(** * One route per Gateway

    The selection of [httproute_selection.go] against a state of the API server:
    the indexed and the plain list lead to the same decision, and of all the
    routes that may attach to a Gateway exactly one is selected. *)
From stdpp Require Import base list strings gmap.
From Stdlib Require Import ZArith Lia.
From S2P Require Import Prelude GoStrings Cloud Kube KubeObjects References OpenStack ProgramLogic Outcomes Binding Indexes KubeClient GatewayModel RouteModel ReconcileLogic.

Set Default Goal Selector "!".

(** What the selection reads of the API server. *)
Record routeWorld := mkRouteWorld { rw_routes : list HTTPRoute; rw_service : NamespacedName -> outcome_of Service }.

Definition routesIn (w : routeWorld) (ns : string) : list HTTPRoute :=
  List.filter (fun c => String.eqb (routeNamespace c) ns) (rw_routes w).

Section selection.
Context `{KubeErrors} (config : Config) (w : routeWorld).

(** The answer to a request, when it is determined by [w]. *)
Definition worldAnswer (q : request) : option (outcome_of (response q)) :=
  match q return option (outcome_of (response q)) with
  | ReqKube k =>
      match k return option (outcome_of (kubeResponse k)) with
      | KListHTTPRoutes _ (Some ns) None => Some (Ok (routesIn w ns))
      | KListHTTPRoutes _ (Some ns) (Some (field, value)) => Some (Ok (indexedRoutes config field value (routesIn w ns)))
      | KListHTTPRoutes _ None (Some (field, value)) => Some (Ok (indexedRoutes config field value (rw_routes w)))
      | KGetService _ key => Some (rw_service w key)
      | _ => None
      end
  | _ => None
  end.

(** A trace in which the API server answers from [w]. *)
Definition answeredBy (tr : list event) : Prop :=
  Forall (fun e => forall x, worldAnswer (ev_req e) = Some x -> ev_resp e = x) tr.

(** The route can take the slot of its Gateway. *)
Definition reserves (route : HTTPRoute) : bool :=
  match soleBackend route with
  | None => false
  | Some (backend, port) =>
      match rw_service w (mkNamespacedName (routeNamespace route) (hb_Name backend)) with
      | Err e => IsNotFound e
      | Ok service => rsd_canReserve (slotForService service port)
      end
  end.

(** A competitor that goes first. *)
Definition outranks (route : HTTPRoute) (parent : managedRouteParent) (c : HTTPRoute) : bool :=
  contends route parent c && reserves c && routePrecedes c route.

Lemma routeCanReserve_answered from route tr b :
  exec (routeCanReserveSlotWithReader from route) tr (Ok b) -> answeredBy tr -> b = reserves route.
Proof.
  unfold routeCanReserveSlotWithReader, evaluateRouteSlotWithReader, reserves. intros Hx Ha. inv_kube.
  destruct (soleBackend route) as [[backend port]|]; [|by inv_kube].
  match goal with H : exec (try _ _) _ _ |- _ => apply exec_bind in H as (t1 & t2 & found & -> & ->%exec_call & Hx) end.
  rewrite app_nil_r in Ha. apply Forall_cons in Ha as [Ha _]. rewrite <- (Ha _ eq_refl). cbn.
  destruct found as [service|e]; [|destruct (IsNotFound e)]; by inv_kube; simplify_eq.
Qed.

(** The loop, with the answers filled in. *)
Definition considerAnswered (route : HTTPRoute) (parent : managedRouteParent) (winner c : HTTPRoute) : HTTPRoute :=
  if contends route parent c && reserves c && routePrecedes c winner then c else winner.

Lemma considerCandidates_answered from route parent winner l tr winner' :
  exec (mfold (considerCandidate from route parent) winner l) tr (Ok winner') -> answeredBy tr ->
  winner' = fold_left (considerAnswered route parent) l winner.
Proof.
  revert winner tr. induction l as [|c l IH]; intros winner tr Hx Ha; [by apply exec_ret in Hx as [_ [= ->]]|].
  apply exec_mbind_ok in Hx as (t1 & t2 & next & -> & Hc & Hx). apply Forall_app in Ha as [Ha1 Ha2].
  cbn [fold_left]. apply IH in Hx as ->; [|done]. f_equal. unfold considerCandidate in Hc. unfold considerAnswered.
  destruct (contends route parent c); cbn [negb andb] in *; [|by inv_kube].
  apply exec_mbind_ok in Hc as (t3 & t4 & b & -> & Hb & Hc). apply Forall_app in Ha1 as [Ha1 _].
  apply routeCanReserve_answered in Hb as ->; [|done]. by inv_kube.
Qed.

Lemma contends_name route parent c : contends route parent c = true -> om_Name (hr_Meta c) <> om_Name (hr_Meta route).
Proof. intros Hc. unfold contends in Hc. by bool_hyps. Qed.

Lemma winner_lost route parent l winner :
  om_Name (hr_Meta winner) <> om_Name (hr_Meta route) ->
  om_Name (hr_Meta (fold_left (considerAnswered route parent) l winner)) <> om_Name (hr_Meta route).
Proof.
  revert winner. induction l as [|c l IH]; intros winner Hw; [done|]. cbn [fold_left]. apply IH. unfold considerAnswered.
  destruct (_ && _) eqn:E; [|done]. bool_hyps. by eapply contends_name.
Qed.

Lemma winner_name route parent l :
  String.eqb (om_Name (hr_Meta (fold_left (considerAnswered route parent) l route))) (om_Name (hr_Meta route)) =
  negb (existsb (outranks route parent) l).
Proof.
  induction l as [|c l IH]; [apply String.eqb_refl|]. cbn [fold_left existsb]. unfold considerAnswered at 2.
  fold (outranks route parent c). destruct (outranks route parent c) eqn:E; cbn [orb negb]; [|done].
  unfold outranks in E. bool_hyps. apply String.eqb_neq, winner_lost. by eapply contends_name.
Qed.

(** ** The index *)

(** The reference of the parent names its Gateway. *)
Definition namesGateway (route : HTTPRoute) (ref : ParentReference) (gateway : Gateway) : Prop :=
  IsGatewayParentRef ref = true /\ parentGatewayKey route ref = ObjectKey (gw_Meta gateway) /\
  om_Name (gw_Meta gateway) <> "" /\ om_Namespace (gw_Meta gateway) <> "".

Lemma IsGatewayParentRef_spec ref :
  IsGatewayParentRef ref = true <-> default GroupName (pr_Group ref) = GroupName /\ default "Gateway" (pr_Kind ref) = "Gateway".
Proof.
  unfold IsGatewayParentRef. rewrite andb_true_iff. destruct (pr_Group ref), (pr_Kind ref); cbn; rewrite ?String.eqb_eq; tauto.
Qed.

Lemma SameGatewayTarget_spec l nl r nr :
  IsGatewayParentRef r = true ->
  SameGatewayTarget l nl r nr = true <->
  IsGatewayParentRef l = true /\ default nl (pr_Namespace l) = default nr (pr_Namespace r) /\ pr_Name l = pr_Name r.
Proof.
  intros Hr. unfold SameGatewayTarget. rewrite ParentRefsEqual_spec. unfold denotes. cbn.
  rewrite IsGatewayParentRef_spec in *. destruct Hr as [-> ->].
  split; [intros [= ? ? ? ?]; auto|by intros ([-> ->] & -> & ->)].
Qed.

(** A route is filed under the Gateways its parents name. *)
Lemma parent_indexed route ref gateway :
  ref ∈ hr_ParentRefs route -> namesGateway route ref gateway ->
  ObjectKeyString (ObjectKey (gw_Meta gateway)) ∈ ParentGatewayKeys route.
Proof.
  intros Hin (Hg & Hk & Hn & Hns). unfold ParentGatewayKeys. apply sortedIndexKeys_elem, list_elem_of_omap.
  exists ref. split; [done|]. unfold parentKey. rewrite Hg. apply referenceKey_some.
  unfold parentGatewayKey in Hk. injection Hk as Hk1 Hk2. unfold ObjectKey, routeNamespace in *. rewrite Hk1, Hk2. auto.
Qed.

(** Every competitor is filed under the Gateway. *)
Lemma contends_indexed route parent c :
  namesGateway route (mp_ref parent) (mp_gateway parent) -> contends route parent c = true ->
  ObjectKeyString (ObjectKey (gw_Meta (mp_gateway parent))) ∈ httpRouteIndex config IndexHTTPRouteByParentGateway c.
Proof.
  intros (Hg & Hk & Hn & Hns) Hc. unfold contends in Hc. bool_hyps.
  destruct (hr_ParentRefs c) as [|ref [|]] eqn:Er; [done| |done]. bool_hyps.
  match goal with H : SameGatewayTarget _ _ _ _ = true |- _ => apply SameGatewayTarget_spec in H as (Hl & Hns' & Hn'); [|done] end.
  unfold httpRouteIndex. rewrite String.eqb_refl. apply (parent_indexed c ref); [rewrite Er; by left|].
  split; [done|]. split; [|done]. unfold parentGatewayKey in *. by rewrite Hns', Hn'.
Qed.

Lemma existsb_filtered {A} (P Q : A -> bool) l :
  (forall x, P x = true -> Q x = true) -> existsb P (List.filter Q l) = existsb P l.
Proof.
  intros Hpq. induction l as [|x l IH]; [done|]. cbn. destruct (Q x) eqn:E; cbn; rewrite IH; [done|].
  destruct (P x) eqn:Ep; [|done]. apply Hpq in Ep. congruence.
Qed.

(** The decision, as a condition on the state of the API server. *)
Lemma isSelectedRoute_answered from route parent useCacheIndex tr b :
  namesGateway route (mp_ref parent) (mp_gateway parent) ->
  exec (isSelectedRouteWithReader from route parent useCacheIndex) tr (Ok b) -> answeredBy tr ->
  b = negb (existsb (outranks route parent) (routesIn w (routeNamespace route))).
Proof.
  intros Hg Hx Ha. unfold isSelectedRouteWithReader in Hx. cbv zeta in Hx.
  apply exec_mbind_ok in Hx as (t1 & t2 & routes & -> & ->%exec_wrap_ok%exec_call & Hx).
  apply exec_mbind_ok in Hx as (t3 & t4 & winner & -> & Hw & Hx). apply exec_ret in Hx as [-> [= ->]].
  apply Forall_app in Ha as [Ha1 [Ha2 _]%Forall_app]. apply considerCandidates_answered in Hw as ->; [|done].
  rewrite winner_name. f_equal. apply Forall_cons in Ha1 as [Ha1 _]. destruct useCacheIndex.
  - specialize (Ha1 _ eq_refl). injection Ha1 as ->. unfold indexedRoutes. apply existsb_filtered.
    intros c Hc. unfold outranks in Hc. bool_hyps. apply bool_decide_eq_true. by eapply contends_indexed.
  - specialize (Ha1 _ eq_refl). by injection Ha1 as ->.
Qed.

(** The selection from the cached index and the selection from a plain list
    of the namespace agree. *)
Theorem indexed_selection_agrees from from' route parent tr tr' b b' :
  namesGateway route (mp_ref parent) (mp_gateway parent) ->
  exec (isSelectedRouteWithReader from route parent true) tr (Ok b) -> answeredBy tr ->
  exec (isSelectedRouteWithReader from' route parent false) tr' (Ok b') -> answeredBy tr' -> b = b'.
Proof.
  intros Hg Hx Ha Hx' Ha'. rewrite (isSelectedRoute_answered _ _ _ _ _ _ Hg Hx Ha).
  by rewrite (isSelectedRoute_answered _ _ _ _ _ _ Hg Hx' Ha').
Qed.

(** ** Exactly one route *)

(** What makes a route a candidate for the Gateway. *)
Definition candidate (gateway : Gateway) (listener : option GatewayListener) (route : HTTPRoute) : Prop :=
  om_Deleting (hr_Meta route) = false /\ structurallySupportedRoute route = true /\ reserves route = true /\
  exists ref, hr_ParentRefs route = [ref] /\ namesGateway route ref gateway /\ validateParent route ref gateway listener = Ok tt.

#[local] Instance candidate_dec gateway listener route : Decision (candidate gateway listener route).
Proof.
  unfold candidate. destruct (hr_ParentRefs route) as [|ref [|]].
  - right. by intros (_ & _ & _ & ref & [=] & _).
  - destruct (decide (om_Deleting (hr_Meta route) = false /\ structurallySupportedRoute route = true /\ reserves route = true /\
      (IsGatewayParentRef ref = true /\ parentGatewayKey route ref = ObjectKey (gw_Meta gateway) /\
       om_Name (gw_Meta gateway) <> "" /\ om_Namespace (gw_Meta gateway) <> ""))) as [(Hd & Hs & Hr & Hn)|Hn].
    + destruct (validateParent route ref gateway listener) as [[]|e] eqn:Ev; [left; by eauto 8|right].
      intros (_ & _ & _ & ref' & [= <-] & _ & Hv). congruence.
    + right. intros (Hd & Hs & Hr & ref' & [= <-] & Hg & _). by apply Hn.
  - right. by intros (_ & _ & _ & ref' & [=] & _).
Qed.

Lemma validateParent_namespace route ref gateway listener :
  validateParent route ref gateway listener = Ok tt -> routeNamespace route = om_Namespace (gw_Meta gateway).
Proof.
  unfold validateParent. destruct (om_Deleting _); [done|]. cbn [negb].
  by destruct (String.eqb_spec (om_Namespace (gw_Meta gateway)) (routeNamespace route)).
Qed.

Lemma candidate_namespace gateway listener route :
  candidate gateway listener route -> routeNamespace route = om_Namespace (gw_Meta gateway).
Proof. intros (_ & _ & _ & ref & _ & _ & Hv). by eapply validateParent_namespace. Qed.

(** Candidates compete with each other and with nobody else. *)
Lemma contends_candidate gateway listener route parent c :
  candidate gateway listener route -> mp_gateway parent = gateway -> mp_listener parent = listener ->
  hr_ParentRefs route = [mp_ref parent] -> routeNamespace c = routeNamespace route ->
  contends route parent c && reserves c = true <->
  candidate gateway listener c /\ om_Name (hr_Meta c) <> om_Name (hr_Meta route).
Proof.
  intros (_ & _ & _ & ref & Href & (Hi & Hk & Hn & Hns) & Hv) Eg El Hp Ens. rewrite Hp in Href. injection Href as <-.
  unfold contends, candidate. rewrite Eg, El. split.
  - intros Hc. bool_hyps. destruct (hr_ParentRefs c) as [|ref' [|]]; [done| |done]. bool_hyps.
    match goal with H : SameGatewayTarget _ _ _ _ = true |- _ => apply SameGatewayTarget_spec in H as (Hl & Hns' & Hn'); [|done] end.
    destruct (validateParent c ref' gateway listener) as [[]|] eqn:Ev; [|done]. split; [|done].
    do 3 (split; [done|]). exists ref'. split; [done|]. split; [|done]. split; [done|]. split; [|done].
    unfold parentGatewayKey in *. by rewrite Hns', Hn'.
  - intros [(Hd & Hs & Hr & ref' & Er & (Hi' & Hk' & _) & Hv') Hname]. rewrite Hd, Hs, Hr, Er, Hv'.
    destruct (String.eqb_spec (om_Name (hr_Meta c)) (om_Name (hr_Meta route))); [done|]. cbn [negb andb].
    rewrite !andb_true_r. apply SameGatewayTarget_spec; [done|]. split; [done|].
    rewrite <- Hk' in Hk. unfold parentGatewayKey in Hk. by injection Hk as -> ->.
Qed.

(** The order of selection. *)
Definition routeRank (route : HTTPRoute) : Z * string :=
  (om_CreationTimestamp (hr_Meta route), routeNamespace route ^^ "/" ^^ om_Name (hr_Meta route)).

Lemma routePrecedes_rank a b : routePrecedes a b = lexLess Z.ltb String.ltb (routeRank a) (routeRank b).
Proof.
  unfold routePrecedes, lexLess. cbn.
  destruct (Z.eqb_spec (om_CreationTimestamp (hr_Meta a)) (om_CreationTimestamp (hr_Meta b)));
    [by rewrite bool_decide_eq_true_2|by rewrite bool_decide_eq_false_2].
Qed.

(** Names identify the routes of a namespace. *)
Hypothesis unique_names : forall a b, a ∈ rw_routes w -> b ∈ rw_routes w -> ObjectKey (hr_Meta a) = ObjectKey (hr_Meta b) -> a = b.

Lemma routesIn_elem ns c : c ∈ routesIn w ns <-> c ∈ rw_routes w /\ routeNamespace c = ns.
Proof. unfold routesIn. by rewrite list_elem_of_In, List.filter_In, <- list_elem_of_In, String.eqb_eq. Qed.

Lemma outranked_spec gateway listener route parent :
  candidate gateway listener route -> mp_gateway parent = gateway -> mp_listener parent = listener ->
  hr_ParentRefs route = [mp_ref parent] ->
  existsb (outranks route parent) (routesIn w (routeNamespace route)) = true <->
  exists c, c ∈ rw_routes w /\ candidate gateway listener c /\ om_Name (hr_Meta c) <> om_Name (hr_Meta route) /\
    routePrecedes c route = true.
Proof.
  intros Hc Eg El Hp. rewrite existsb_exists. setoid_rewrite <- list_elem_of_In. setoid_rewrite routesIn_elem.
  split; intros (c & Hc').
  - destruct Hc' as [[Hin Ens] Ho]. unfold outranks in Ho. apply andb_true_iff in Ho as [Ho Hpre].
    apply (contends_candidate gateway listener) in Ho as [Hcand Hname]; [|done..]. eauto 8.
  - destruct Hc' as (Hin & Hcand & Hname & Hpre).
    assert (routeNamespace c = routeNamespace route) as Ens by (by rewrite !(candidate_namespace gateway listener)).
    exists c. split; [done|]. unfold outranks. rewrite Hpre, andb_true_r. by apply (contends_candidate gateway listener).
Qed.

(** The older route goes first; of two of the same age, the one whose
    [namespace/name] is the smaller string. *)
Definition goesFirst (a b : HTTPRoute) : Prop :=
  (om_CreationTimestamp (hr_Meta a) < om_CreationTimestamp (hr_Meta b))%Z \/
  om_CreationTimestamp (hr_Meta a) = om_CreationTimestamp (hr_Meta b) /\
  String.ltb (routeNamespace a ^^ "/" ^^ om_Name (hr_Meta a)) (routeNamespace b ^^ "/" ^^ om_Name (hr_Meta b)) = true.

Lemma goesFirst_rank a b : lexLess Z.ltb String.ltb (routeRank a) (routeRank b) = true <-> goesFirst a b.
Proof.
  unfold lexLess, goesFirst. cbn.
  destruct (Z.eq_dec (om_CreationTimestamp (hr_Meta a)) (om_CreationTimestamp (hr_Meta b))) as [E|E].
  - rewrite bool_decide_eq_true_2 by done. split; [tauto|]. by intros [?|[_ ?]]; [lia|].
  - rewrite bool_decide_eq_false_2, Z.ltb_lt by done. split; [tauto|]. by intros [?|[? _]].
Qed.

(** Candidates of the same name, and so those of the same rank, are the same
    route. *)
Lemma same_name gateway listener a b :
  a ∈ rw_routes w -> b ∈ rw_routes w -> candidate gateway listener a -> candidate gateway listener b ->
  om_Name (hr_Meta a) = om_Name (hr_Meta b) -> a = b.
Proof.
  intros Ha Hb Hca Hcb He. apply unique_names; [done..|]. unfold ObjectKey.
  change (om_Namespace (hr_Meta ?x)) with (routeNamespace x). by rewrite He, !(candidate_namespace gateway listener) by done.
Qed.

Lemma same_rank gateway listener a b :
  a ∈ rw_routes w -> b ∈ rw_routes w -> candidate gateway listener a -> candidate gateway listener b ->
  routeRank a = routeRank b -> a = b.
Proof.
  intros Ha Hb Hca Hcb He. apply (same_name gateway listener); [done..|]. unfold routeRank in He.
  rewrite !(candidate_namespace gateway listener) in He by done. injection He as _ He.
  by apply append_inj_l, append_inj_l in He.
Qed.

(** C16. If some HTTPRoute may attach to a Gateway then exactly one of those
    that may is selected, whichever of them is reconciled, with whichever
    reader, indexed or not: the oldest, and of the oldest the one whose
    namespace/name is the smallest string. The reads are answered from one state
    of the API server, in which names identify routes. *)
Theorem route_selection_unique gateway listener :
  (exists route, route ∈ rw_routes w /\ candidate gateway listener route) ->
  exists winner, winner ∈ rw_routes w /\ candidate gateway listener winner /\
    (forall route, route ∈ rw_routes w -> candidate gateway listener route -> route = winner \/ goesFirst winner route) /\
    forall route parent from useCacheIndex tr b,
      route ∈ rw_routes w -> candidate gateway listener route ->
      mp_gateway parent = gateway -> mp_listener parent = listener -> hr_ParentRefs route = [mp_ref parent] ->
      exec (isSelectedRouteWithReader from route parent useCacheIndex) tr (Ok b) -> answeredBy tr ->
      (b = true <-> route = winner).
Proof.
  intros (r0 & Hin0 & Hc0).
  destruct (exists_minimal (lexLess Z.ltb String.ltb) routeRank
    (filter (candidate gateway listener) (rw_routes w))) as (winner & (Hcw & Hinw)%list_elem_of_filter & Hmin).
  { intros He. assert (r0 ∈ filter (candidate gateway listener) (rw_routes w)) as Hr by (by apply list_elem_of_filter).
    rewrite He in Hr. by apply elem_of_nil in Hr. }
  assert (forall c, c ∈ rw_routes w -> candidate gateway listener c -> routePrecedes c winner = false) as Hleast.
  { intros c Hin Hc. rewrite routePrecedes_rank. apply Hmin. by apply list_elem_of_filter. }
  assert (forall c, c ∈ rw_routes w -> candidate gateway listener c -> c = winner \/ goesFirst winner c) as Hfirst.
  { intros c Hin Hc. rewrite <- goesFirst_rank.
    destruct (less_total (less := lexLess Z.ltb String.ltb) (routeRank c) (routeRank winner)) as [He|[Hl|?]]; [|  |by right].
    - left. by apply (same_rank gateway listener).
    - rewrite <- routePrecedes_rank, Hleast in Hl by done. done. }
  exists winner. do 3 (split; [done|]). intros route parent from useCacheIndex tr b Hin Hc Eg El Hp Hx Ha.
  assert (namesGateway route (mp_ref parent) (mp_gateway parent)) as Hg.
  { destruct Hc as (_ & _ & _ & ref & Href & Hg & _). rewrite Hp in Href. injection Href as <-. by rewrite Eg. }
  rewrite (isSelectedRoute_answered _ _ _ _ _ _ Hg Hx Ha), negb_true_iff, <- not_true_iff_false.
  rewrite (outranked_spec gateway listener) by done. split.
  - intros Hno. destruct (Hfirst route Hin Hc) as [|Hf]; [done|]. exfalso. apply Hno. exists winner. do 2 (split; [done|]).
    rewrite routePrecedes_rank. split; [|by apply goesFirst_rank]. intros He.
    apply (same_name gateway listener) in He as <-; [|done..]. apply goesFirst_rank in Hf. by rewrite less_irrefl in Hf.
  - intros -> (c & Hinc & Hcc & _ & Hpre). rewrite Hleast in Hpre; done.
Qed.
End selection.
