(* ===== verification/RouteStatus.v ===== *)
(** * The HTTPRoute reconciler: statuses

    The pure half of [httproute_status.go] and [httproute_scope.go]: the status a
    decision stands for, and how a status plan changes the parent statuses of a
    route. *)
From stdpp Require Import base list strings gmap.
From Stdlib Require Import ZArith Lia.
From S2P Require Import Prelude GoStrings Cloud Kube KubeObjects References OpenStack Outcomes Binding KubeClient GatewayModel RouteModel.

Set Default Goal Selector "!".

Record routeReconcileStatus := mkRouteStatus {
  st_accepted : ConditionStatus; st_acceptedReason : string; st_acceptedMessage : string;
  st_resolved : ConditionStatus; st_resolvedReason : string; st_resolvedMessage : string;
  st_programmed : ConditionStatus; st_programmedReason : string; st_programmedMessage : string }.

Record parentStatusUpdate := mkUpdate { pu_parent : ParentReference; pu_status : routeReconcileStatus }.

Definition withProgrammed (s : routeReconcileStatus) (status : ConditionStatus) (reason message : string) :=
  mkRouteStatus (st_accepted s) (st_acceptedReason s) (st_acceptedMessage s) (st_resolved s) (st_resolvedReason s)
    (st_resolvedMessage s) status reason message.
Definition withResolved (s : routeReconcileStatus) (status : ConditionStatus) (reason message : string) :=
  mkRouteStatus (st_accepted s) (st_acceptedReason s) (st_acceptedMessage s) status reason message
    (st_programmed s) (st_programmedReason s) (st_programmedMessage s).
Definition withAccepted (s : routeReconcileStatus) (status : ConditionStatus) (reason message : string) :=
  mkRouteStatus status reason message (st_resolved s) (st_resolvedReason s) (st_resolvedMessage s)
    (st_programmed s) (st_programmedReason s) (st_programmedMessage s).

(** ** The statuses (httproute_status.go) *)

Definition programmedRouteStatus : routeReconcileStatus :=
  mkRouteStatus ConditionTrue Accepted "HTTPRoute is accepted by the Gateway"
    ConditionTrue ResolvedRefs "All backend references are resolved"
    ConditionTrue "Programmed" "Octavia pool, members, health monitor, and L7 policies are active".

Definition pendingRouteStatus (message : string) : routeReconcileStatus :=
  withProgrammed programmedRouteStatus ConditionFalse "Pending" message.

Definition unsupportedGatewayAPIVersionRouteStatus : routeReconcileStatus :=
  mkRouteStatus ConditionUnknown ReasonPending UnsupportedGatewayAPIVersionMessage
    ConditionUnknown ReasonPending "Backend references were not evaluated"
    ConditionFalse "Pending" UnsupportedGatewayAPIVersionMessage.

Definition rejectedRouteStatus (reason message : string) : routeReconcileStatus :=
  mkRouteStatus ConditionFalse reason message
    ConditionUnknown ReasonPending "Backend references were not evaluated because the route is unsupported"
    ConditionFalse "Invalid" message.

Definition unresolvedRouteStatus (reason message : string) : routeReconcileStatus :=
  withProgrammed (withResolved programmedRouteStatus ConditionFalse reason message) ConditionFalse "Invalid" message.

Definition providerFailureRouteStatus (policy : ProviderFailurePolicy) (referencesEvaluated : bool)
    : routeReconcileStatus :=
  let status := if referencesEvaluated then programmedRouteStatus
                else withResolved programmedRouteStatus ConditionUnknown ReasonPending
                       "Backend references have not been evaluated" in
  withProgrammed status (fp_ConditionStatus policy) (fp_Reason policy) (fp_Message policy).

Definition routeProviderFailureUpdates (updates : list parentStatusUpdate) (policy : ProviderFailurePolicy)
    : list parentStatusUpdate :=
  (fun u => mkUpdate (pu_parent u)
     (withProgrammed (pu_status u) (fp_ConditionStatus policy) (fp_Reason policy) (fp_Message policy))) <$> updates.

Definition isProviderFailureReason (reason : string) : bool :=
  bool_decide (reason ∈ ["AuthenticationFailed"; "AuthorizationFailed"; "QuotaExceeded"; "RateLimited";
    "RequestTimedOut"; "ProviderUnavailable"; "InvalidProviderConfiguration"; "ResourceFailed"; "OwnershipConflict"]).

Definition statusForRouteBuildError `{KubeErrors, ForeignTexts} (e : error) : routeReconcileStatus :=
  if IsNotFound e then unresolvedRouteStatus "BackendNotFound" (errorText e)
  else match asRouteBuildError e with
  | Some (message, kind) =>
      if String.eqb kind routeErrorInvalidKind then unresolvedRouteStatus "InvalidKind" message
      else if String.eqb kind routeErrorRefNotPermitted then unresolvedRouteStatus "RefNotPermitted" message
      else if String.eqb kind routeErrorUnsupportedProtocol then unresolvedRouteStatus "UnsupportedProtocol" message
      else if String.eqb kind routeErrorNoMatchingParent then rejectedRouteStatus "NoMatchingParent" message
      else if String.eqb kind routeErrorNotAllowed then rejectedRouteStatus "NotAllowedByListeners" message
      else if String.eqb kind routeErrorPending then pendingRouteStatus message
      else rejectedRouteStatus ReasonUnsupportedValue message
  | None => rejectedRouteStatus ReasonUnsupportedValue (errorText e)
  end.

Definition rejectedServiceProfileStatus `{KubeErrors, ForeignTexts} (e : error) : routeReconcileStatus :=
  withAccepted (statusForRouteBuildError e) ConditionFalse ReasonUnsupportedValue (errorText e).

(** ** Plans (httproute_scope.go) *)

(** [routeStatusPlan], by its kind. *)
Inductive routeStatusPlan :=
| PlanReplace (updates : list parentStatusUpdate) (validateOwnership : bool)
| PlanProviderFailure (updates : list parentStatusUpdate) (policy : ProviderFailurePolicy) (referencesEvaluated : bool)
| PlanDeletingFailure (parent : ParentReference) (policy : ProviderFailurePolicy).

Definition planUpdates (p : routeStatusPlan) : list parentStatusUpdate :=
  match p with PlanReplace u _ | PlanProviderFailure u _ _ => u | PlanDeletingFailure _ _ => [] end.
Definition planValidatesOwnership (p : routeStatusPlan) : bool :=
  match p with PlanReplace _ v => v | PlanProviderFailure _ _ _ => true | PlanDeletingFailure _ _ => false end.

Section plans.
Context `{ApiMeta} (config : Config).

Definition programmedType : string := Domain config ^^ "/Programmed".

Definition sameParent (route : HTTPRoute) (a b : ParentReference) : bool :=
  ParentRefsEqual a (routeNamespace route) b (routeNamespace route).

Definition ownStatus (route : HTTPRoute) (parent : ParentReference) (s : RouteParentStatus) : bool :=
  String.eqb (rps_ControllerName s) (cfg_ControllerName config) && sameParent route (rps_ParentRef s) parent.

(** [routeParentStatus]: a status for the parent with the conditions it has. *)
Definition routeParentStatus (route : HTTPRoute) (existing : list RouteParentStatus) (parent : ParentReference)
    : RouteParentStatus :=
  mkRouteParentStatus parent (cfg_ControllerName config)
    (match List.find (ownStatus route parent) existing with Some s => rps_Conditions s | None => [] end).

(** The updates whose parent did not appear earlier. *)
Fixpoint firstUpdates (route : HTTPRoute) (earlier updates : list parentStatusUpdate) : list parentStatusUpdate :=
  match updates with
  | [] => []
  | u :: rest =>
      (if existsb (fun e => sameParent route (pu_parent e) (pu_parent u)) earlier then [] else [u]) ++
      firstUpdates route (earlier ++ [u]) rest
  end.

Definition othersStatuses (route : HTTPRoute) : list RouteParentStatus :=
  List.filter (fun s => negb (String.eqb (rps_ControllerName s) (cfg_ControllerName config))) (statusParents route).

(** The three conditions of an update, with their generations. *)
Definition updateConditions (u : parentStatusUpdate) (accepted resolved programmed : Z) : list Condition :=
  let s := pu_status u in
  [newCondition Accepted (st_accepted s) (st_acceptedReason s) (st_acceptedMessage s) accepted;
   newCondition ResolvedRefs (st_resolved s) (st_resolvedReason s) (st_resolvedMessage s) resolved;
   newCondition programmedType (st_programmed s) (st_programmedReason s) (st_programmedMessage s) programmed].

Definition withConditions (s : RouteParentStatus) (l : list Condition) : RouteParentStatus :=
  mkRouteParentStatus (rps_ParentRef s) (rps_ControllerName s) l.

Definition routeGeneration (route : HTTPRoute) : Z := om_Generation (hr_Meta route).

Definition replaceStatus (route : HTTPRoute) (u : parentStatusUpdate) : RouteParentStatus :=
  let s := routeParentStatus route (statusParents route) (pu_parent u) in
  let g := routeGeneration route in
  withConditions s (setConditions (rps_Conditions s) (updateConditions u g g g)).

Definition applyRouteParentStatuses (route : HTTPRoute) (updates : list parentStatusUpdate) : HTTPRoute :=
  withParents route (Some (othersStatuses route ++ (replaceStatus route <$> firstUpdates route [] updates))).

(** The generation at which a provider failure leaves the last condition. *)
Definition failureGeneration (route : HTTPRoute) (policy : ProviderFailurePolicy) (conditions : list Condition) : Z :=
  ConditionObservedGeneration conditions programmedType (routeGeneration route) (fp_AdvancesObservedGeneration policy).

Definition failureStatus (route : HTTPRoute) (policy : ProviderFailurePolicy) (referencesEvaluated : bool)
    (u : parentStatusUpdate) : RouteParentStatus :=
  let s := routeParentStatus route (statusParents route) (pu_parent u) in
  let g := routeGeneration route in
  let resolved := ConditionObservedGeneration (rps_Conditions s) ResolvedRefs g referencesEvaluated in
  withConditions s (setConditions (rps_Conditions s)
    (updateConditions u g resolved (failureGeneration route policy (rps_Conditions s)))).

Definition failureTransitioned (route : HTTPRoute) (policy : ProviderFailurePolicy) (u : parentStatusUpdate) : bool :=
  let s := routeParentStatus route (statusParents route) (pu_parent u) in
  ConditionTransitioned (rps_Conditions s) programmedType (st_programmed (pu_status u))
    (st_programmedReason (pu_status u)) (st_programmedMessage (pu_status u))
    (failureGeneration route policy (rps_Conditions s)).

Definition applyRouteProviderFailureStatuses (route : HTTPRoute) (updates : list parentStatusUpdate)
    (policy : ProviderFailurePolicy) (referencesEvaluated : bool) : HTTPRoute * bool :=
  let first := firstUpdates route [] updates in
  (withParents route (Some (othersStatuses route ++ (failureStatus route policy referencesEvaluated <$> first))),
   existsb (failureTransitioned route policy) first).

(** The first own status of the parent gets the failure. *)
Fixpoint failDeleting (route : HTTPRoute) (parent : ParentReference) (policy : ProviderFailurePolicy)
    (l : list RouteParentStatus) : list RouteParentStatus * bool :=
  match l with
  | [] => ([], false)
  | s :: rest =>
      if ownStatus route parent s then
        let generation := failureGeneration route policy (rps_Conditions s) in
        (withConditions s (SetCondition (rps_Conditions s)
           (newCondition programmedType (fp_ConditionStatus policy) (fp_Reason policy) (fp_Message policy) generation)) :: rest,
         ConditionTransitioned (rps_Conditions s) programmedType (fp_ConditionStatus policy) (fp_Reason policy)
           (fp_Message policy) generation)
      else let '(rest', transitioned) := failDeleting route parent policy rest in (s :: rest', transitioned)
  end.

Definition applyDeletingRouteProviderFailure (route : HTTPRoute) (parent : ParentReference)
    (policy : ProviderFailurePolicy) : HTTPRoute * bool :=
  if negb (existsb (fun candidate => sameParent route candidate parent) (hr_ParentRefs route)) then (route, false)
  else let '(l, transitioned) := failDeleting route parent policy (statusParents route) in
       (withParents route (const l <$> hr_StatusParents route), transitioned).

(** [routeStatusPlan.apply]: the route and whether the failure is new. *)
Definition applyPlan (p : routeStatusPlan) (route : HTTPRoute) : HTTPRoute * bool :=
  match p with
  | PlanReplace updates _ => (applyRouteParentStatuses route updates, false)
  | PlanProviderFailure updates policy referencesEvaluated =>
      applyRouteProviderFailureStatuses route updates policy referencesEvaluated
  | PlanDeletingFailure parent policy => applyDeletingRouteProviderFailure route parent policy
  end.

(** The status shows a provider failure. *)
Definition showsFailure (s : RouteParentStatus) : bool :=
  match FindStatusCondition (rps_Conditions s) programmedType with
  | Some c => negb (bool_decide (c_Status c = ConditionTrue)) && isProviderFailureReason (c_Reason c)
  | None => false
  end.

Definition routeHasProviderFailureStatus (route : HTTPRoute) (updates : list parentStatusUpdate) : bool :=
  match updates with
  | [] => false
  | _ =>
      forallb (fun u => existsb (fun s => ownStatus route (pu_parent u) s && showsFailure s) (statusParents route)) updates &&
      forallb (fun s => negb (String.eqb (rps_ControllerName s) (cfg_ControllerName config)) ||
                        (existsb (fun u => sameParent route (rps_ParentRef s) (pu_parent u)) updates && showsFailure s))
        (statusParents route)
  end.

Definition parentRefForStoredGateway (route : HTTPRoute) (identity : Identity) : option ParentReference :=
  let namespace := if String.eqb (GatewayNamespace identity) (routeNamespace route) then None
                   else Some (GatewayNamespace identity) in
  let parent := mkParentReference None None namespace (GatewayName identity) None None in
  List.find (fun candidate => SameGatewayTarget candidate (routeNamespace route) parent (routeNamespace route))
    (hr_ParentRefs route).

(** The method [unsupportedGatewayAPIVersionRouteStatus]: a current
    [Programmed=True] stays. *)
Definition unsupportedVersionRouteStatus (route : HTTPRoute) (parentRef : ParentReference) : routeReconcileStatus :=
  match List.find (ownStatus route parentRef) (statusParents route) with
  | Some s =>
      match FindStatusCondition (rps_Conditions s) programmedType with
      | Some c =>
          if bool_decide (c_Status c = ConditionTrue) && (c_ObservedGeneration c =? routeGeneration route)%Z
          then withProgrammed unsupportedGatewayAPIVersionRouteStatus (c_Status c) (c_Reason c) (c_Message c)
          else unsupportedGatewayAPIVersionRouteStatus
      | None => unsupportedGatewayAPIVersionRouteStatus
      end
  | None => unsupportedGatewayAPIVersionRouteStatus
  end.
End plans.
