(* ===== verification/RouteReconciler.v ===== *)
(** * The HTTPRoute reconciler: calls and their order

    The effectful half of [internal/controller/httproute]: the scope and the
    status patch ([httproute_scope.go]), the live snapshots
    ([httproute_snapshot.go]), binding ([httproute_binding.go]), the provider
    calls under the graph lock ([httproute_graph.go], [httproute_cleanup.go]),
    failures and versions ([httproute_status.go], [httproute_version_status.go])
    and [Reconcile] ([httproute_controller.go]). *)
From stdpp Require Import base list strings gmap.
From Stdlib Require Import ZArith Lia.
From S2P Require Import Prelude GoStrings Cloud Kube KubeObjects References OpenStack Outcomes Binding Indexes KubeClient GatewayModel GatewayReconciler RouteModel RouteStatus.

Set Default Goal Selector "!".

Definition errHTTPRouteChanged : string := "HTTPRoute changed during reconciliation".

(** ** The scope (httproute_scope.go) *)

Record routeProviderWarning := mkWarning {
  rw_policy : ProviderFailurePolicy; rw_action : string; rw_cleanupCheckpointSaved : bool;
  rw_recordOnStatusChange : bool }.

Record httpRouteScope := mkRouteScope {
  rs_route : HTTPRoute; rs_statusPlan : option routeStatusPlan; rs_warning : option routeProviderWarning;
  rs_patchCause : option error; rs_skipPatch : bool }.

Definition setRoute (s : httpRouteScope) (route : HTTPRoute) : httpRouteScope :=
  mkRouteScope route (rs_statusPlan s) (rs_warning s) (rs_patchCause s) (rs_skipPatch s).
Definition setPlan (s : httpRouteScope) (p : option routeStatusPlan) : httpRouteScope :=
  mkRouteScope (rs_route s) p (rs_warning s) (rs_patchCause s) (rs_skipPatch s).
Definition queueRouteWarning (s : httpRouteScope) (w : routeProviderWarning) : httpRouteScope :=
  mkRouteScope (rs_route s) (rs_statusPlan s) (Some w) (rs_patchCause s) (rs_skipPatch s).
Definition setRoutePatchCause (s : httpRouteScope) (e : error) : httpRouteScope :=
  mkRouteScope (rs_route s) (rs_statusPlan s) (rs_warning s) (Some e) (rs_skipPatch s).
Definition skipRoutePatch (s : httpRouteScope) : httpRouteScope :=
  mkRouteScope (rs_route s) (rs_statusPlan s) (rs_warning s) (rs_patchCause s) true.

(** [setStatuses], [setProviderFailureStatuses] and [setDeletingFailureStatus]. *)
Definition setStatuses (updates : list parentStatusUpdate) (s : httpRouteScope) : httpRouteScope :=
  setPlan s (Some (PlanReplace updates true)).
Definition setProviderFailureStatuses (updates : list parentStatusUpdate) (policy : ProviderFailurePolicy)
    (referencesEvaluated : bool) (s : httpRouteScope) : httpRouteScope :=
  setPlan s (Some (PlanProviderFailure updates policy referencesEvaluated)).
Definition setDeletingFailureStatus (parent : ParentReference) (policy : ProviderFailurePolicy)
    (s : httpRouteScope) : httpRouteScope :=
  setPlan s (Some (PlanDeletingFailure parent policy)).

(** A method on the route the scope points to. *)
Definition onRoute {A} (m : SM HTTPRoute A) : SM httpRouteScope A := fun s =>
  bind (m (rs_route s)) (fun x => Ret (setRoute s (fst x), snd x)).

Definition routeKey (route : HTTPRoute) : NamespacedName := ObjectKey (hr_Meta route).
Definition isDeleting (route : HTTPRoute) : bool := om_Deleting (hr_Meta route).

(** [sameHTTPRouteRevision] against the route a caller knows. *)
Definition sameRevision (current expected : HTTPRoute) : bool :=
  sameHTTPRouteRevision (hr_Meta current) (om_UID (hr_Meta expected)) (om_Generation (hr_Meta expected))
    (isDeleting expected).

Definition routeBindingMetadataEqual (left right : ObjectMeta) : bool :=
  bool_decide (om_Annotations left = om_Annotations right) && bool_decide (om_Finalizers left = om_Finalizers right).

Inductive routeSnapshotPurpose := routeSnapshotForEnsure | routeSnapshotForBinding.
Inductive routeValidationDisposition := routeValidationGatewayPending | routeValidationBindingRequired | routeValidationReady.
Inductive routeBindingRequirement := routeBindingOptional | routeBindingRequired.
Inductive routeCleanupDisposition := routeCleanupRequired | routeCleanupStillDesired.

Record routeValidationSnapshot := mkValidationSnapshot {
  vs_route : HTTPRoute; vs_gateway : Gateway; vs_gatewayClass : GatewayClass;
  vs_binding : option Identity;              (* binding.identity, when present *)
  vs_desired : option RouteSpec;
  vs_gatewayProgrammed : bool; vs_disposition : routeValidationDisposition }.

Record routeCleanupSnapshot := mkRouteCleanup {
  rcs_route : HTTPRoute; rcs_identity : Identity; rcs_disposition : routeCleanupDisposition }.

Record routeParentObservation := mkObservation {
  po_ref : ParentReference; po_gateway : option Gateway; po_gatewayClass : option GatewayClass;
  po_listener : option GatewayListener; po_managed : bool }.

(** [routeGraphResult]: a binding checkpoint, or the outcome of the provider,
    [None] for the zero outcome of a Gateway that is not ready. *)
Inductive routeGraphResult := BindingCheckpoint | GraphOutcome (outcome : option Outcome).

Section reconciler.
Context `{ControllerUtil, ApiMeta, KubeErrors, ForeignTexts, GatewayConsts, CloudProvider} (r : Reconciler).

Abbreviation config := (rc_Config r).

Definition routeChanged {A} : M A := raise (Sentinel errHTTPRouteChanged).
Definition unlessRouteChanged {A} (m : M A) : M A :=
  onError (fun e => joinWith (Sentinel errHTTPRouteChanged) (IgnoreNotFound e)) m.

(** [routePatchReader]. *)
Definition routePatchReader : reader := if rc_APIReader r then Live else Cached.

Definition storedRouteIdentity (route : HTTPRoute) : outcome_of (option Identity) :=
  StoredRouteIdentity config (hr_Meta route).
Definition desiredIdentity (gateway : Gateway) (route : HTTPRoute) : Identity :=
  RouteIdentity config (gw_Meta gateway) (hr_Meta route).
Definition hasRouteFinalizer (route : HTTPRoute) : bool :=
  ContainsFinalizer (om_Finalizers (hr_Meta route)) (RouteFinalizer config).

(** ** Validation snapshots (httproute_snapshot.go) *)

Definition gatewayProgrammedForGeneration (gateway : Gateway) : bool :=
  match FindStatusCondition (gst_Conditions (gw_Status gateway)) Programmed with
  | Some c => bool_decide (c_Status c = ConditionTrue) && (c_ObservedGeneration c =? gatewayGeneration gateway)%Z
  | None => false
  end.

Definition routeSnapshotReadError (purpose : routeSnapshotPurpose) (e : error) : error :=
  match purpose with
  | routeSnapshotForBinding => joinWith (Sentinel errHTTPRouteChanged) (Some e)
  | routeSnapshotForEnsure => e
  end.
Definition routeSnapshotRejection (purpose : routeSnapshotPurpose) (rejection : error) : error :=
  match purpose with routeSnapshotForBinding => Sentinel errHTTPRouteChanged | routeSnapshotForEnsure => rejection end.

(** The Gateway carries this controller's finalizer and a valid binding. *)
Definition gatewayBound (gateway : Gateway) : bool :=
  ContainsFinalizer (om_Finalizers (gw_Meta gateway)) (GatewayFinalizer config) &&
  match ValidateGatewayBinding config (gw_Meta gateway) with Ok _ => true | Err _ => false end.

Definition classUsable (gatewayClass : GatewayClass) : bool :=
  String.eqb (gc_ControllerName gatewayClass) (cfg_ControllerName config) && negb (gc_ParametersRef gatewayClass).

Definition observeRouteValidationInputs (expectedRoute : HTTPRoute) (expectedGateway : Gateway)
    (purpose : routeSnapshotPurpose) : M (HTTPRoute * Gateway * GatewayClass) :=
  guard! rc_APIReader r else Sentinel ErrAPIReaderRequired in
  let! route := unlessRouteChanged (getHTTPRoute Live (routeKey expectedRoute)) in
  guard! sameRevision route expectedRoute else Sentinel errHTTPRouteChanged in
  let! gateway := unlessRouteChanged (getGateway Live (gatewayKey expectedGateway)) in
  guard! String.eqb (om_UID (gw_Meta gateway)) (om_UID (gw_Meta expectedGateway)) &&
         (om_Generation (gw_Meta gateway) =? om_Generation (gw_Meta expectedGateway))%Z &&
         negb (om_Deleting (gw_Meta gateway))
    else Sentinel errHTTPRouteChanged in
  let! gatewayClass := unlessRouteChanged (getClass Live (gw_GatewayClassName gateway)) in
  guard! classUsable gatewayClass &&
         match purpose with routeSnapshotForEnsure => (length (hr_ParentRefs route) =? 1)%nat | routeSnapshotForBinding => true end
    else Sentinel errHTTPRouteChanged in
  guard! GatewayClassSupportsInstalledVersion gatewayClass else Sentinel ErrUnsupportedGatewayAPIVersion in
  guard! gatewayBound gateway else Sentinel errHTTPRouteChanged in
  guard! (length (hr_ParentRefs route) =? 1)%nat else Sentinel errHTTPRouteChanged in
  ret (route, gateway, gatewayClass).

(** [validateRouteSnapshotParent]: [None] when the Gateway is not valid yet. *)
Definition validateRouteSnapshotParent (route : HTTPRoute) (gateway : Gateway) (gatewayClass : GatewayClass)
    (purpose : routeSnapshotPurpose) : outcome_of (option managedRouteParent) :=
  match GatewayModel.Validate gateway with
  | Err _ =>
      match purpose with
      | routeSnapshotForBinding => Err (Sentinel errHTTPRouteChanged)
      | routeSnapshotForEnsure => Ok None
      end
  | Ok listener =>
      match hr_ParentRefs route with
      | [] => Err runtimePanic
      | ref :: _ =>
          let parent := mkManagedParent ref gateway gatewayClass (Some listener) in
          match validateRouteParent route parent with
          | Err e => Err (routeSnapshotRejection purpose e)
          | Ok _ =>
              guard? String.eqb (annotation (gw_Meta gateway) (GatewayListenerPortAnnotation config)) (decimal_Z (gl_Port listener))
                else Sentinel errHTTPRouteChanged in
              Ok (Some parent)
          end
      end
  end.

Definition notSelectedError : error :=
  newRouteBuildError routeErrorUnsupported "Phase 1 supports one HTTPRoute per Gateway; an older route is already selected" [].

Definition selectAndBuildRouteModel (route : HTTPRoute) (gateway : Gateway) (parent : managedRouteParent)
    (purpose : routeSnapshotPurpose) : M RouteSpec :=
  let structurallySupported := structurallySupportedRoute route in
  guard! structurallySupported || match purpose with routeSnapshotForBinding => false | routeSnapshotForEnsure => true end
    else Sentinel errHTTPRouteChanged in
  let! decision := (if structurallySupported
                    then onError (routeSnapshotReadError purpose) (evaluateRouteSlotWithReader Live route)
                    else ret (mkSlot true None)) in
  guard! rsd_canReserve decision
    else routeSnapshotRejection purpose (default runtimePanic (rsd_rejection decision)) in
  let! selected := onError (routeSnapshotReadError purpose) (isSelectedRouteWithReader Live route parent false) in
  guard! selected else routeSnapshotRejection purpose notSelectedError in
  onError (routeSnapshotReadError purpose) (buildRouteSpecWithReader config Live route gateway).

(** [validateRouteBindingTransition]. *)
Definition validateRouteBindingTransition (snapshot : routeValidationSnapshot) : outcome_of unit :=
  guard? vs_gatewayProgrammed snapshot else Sentinel errHTTPRouteChanged in
  match vs_binding snapshot with
  | None =>
      guard? negb (hasRouteFinalizer (vs_route snapshot))
        else Errorf "HTTPRoute %s has the controller finalizer but no complete stored Gateway identity"
               [ObjectKeyString (routeKey (vs_route snapshot))] None in
      Ok tt
  | Some identity =>
      guard? SameGatewayIdentity identity (desiredIdentity (vs_gateway snapshot) (vs_route snapshot))
        else Sentinel errHTTPRouteChanged in
      Ok tt
  end.

(** [finishRouteBindingSnapshot]. *)
Definition finishRouteBindingSnapshot (route : HTTPRoute) (gateway : Gateway) (gatewayClass : GatewayClass)
    (desired : RouteSpec) (purpose : routeSnapshotPurpose) : outcome_of routeValidationSnapshot :=
  let? stored := storedRouteIdentity route in
  let programmed := gatewayProgrammedForGeneration gateway in
  let snapshot := mkValidationSnapshot route gateway gatewayClass stored (Some desired) programmed in
  match purpose with
  | routeSnapshotForBinding =>
      let? _ := validateRouteBindingTransition (snapshot routeValidationReady) in Ok (snapshot routeValidationReady)
  | routeSnapshotForEnsure =>
      let boundToCurrentGateway := bool_decide (stored = Some (desiredIdentity gateway route)) && hasRouteFinalizer route in
      if negb programmed && negb boundToCurrentGateway then Ok (snapshot routeValidationGatewayPending)
      else if negb (routeBindingMetadataEqual (hr_Meta route) (applyRouteBinding config (hr_Meta route) (gw_Meta gateway)))
      then Ok (snapshot routeValidationBindingRequired)
      else Ok (snapshot routeValidationReady)
  end.

Definition buildRouteValidationSnapshot (expectedRoute : HTTPRoute) (expectedGateway : Gateway)
    (purpose : routeSnapshotPurpose) : M routeValidationSnapshot :=
  let! (route, gateway, gatewayClass) := observeRouteValidationInputs expectedRoute expectedGateway purpose in
  let! parent := lift (validateRouteSnapshotParent route gateway gatewayClass purpose) in
  match parent with
  | None => ret (mkValidationSnapshot route gateway gatewayClass None None false routeValidationGatewayPending)
  | Some parent =>
      guard! match purpose with
             | routeSnapshotForBinding => gatewayProgrammedForGeneration gateway
             | routeSnapshotForEnsure => true
             end else Sentinel errHTTPRouteChanged in
      let! desired := selectAndBuildRouteModel route gateway parent purpose in
      lift (finishRouteBindingSnapshot route gateway gatewayClass desired purpose)
  end.

(** The route is bound to this Gateway and holds the finalizer. *)
Definition routeBoundTo (route : HTTPRoute) (gateway : Gateway) : outcome_of bool :=
  let? stored := storedRouteIdentity route in
  Ok (bool_decide (stored = Some (desiredIdentity gateway route)) && hasRouteFinalizer route).

Definition sealRouteMutationSnapshot (snapshot : routeValidationSnapshot) (requirement : routeBindingRequirement) : M unit :=
  let! _ := ValidateInstalledGatewayAPIVersion (rc_APIReader r) in
  let! route := unlessRouteChanged (getHTTPRoute Live (routeKey (vs_route snapshot))) in
  guard! sameRevision route (vs_route snapshot) else Sentinel errHTTPRouteChanged in
  let! gateway := unlessRouteChanged (getGateway Live (gatewayKey (vs_gateway snapshot))) in
  let expected := gw_Meta (vs_gateway snapshot) in
  guard! String.eqb (om_UID (gw_Meta gateway)) (om_UID expected) &&
         (om_Generation (gw_Meta gateway) =? om_Generation expected)%Z && negb (om_Deleting (gw_Meta gateway))
    else Sentinel errHTTPRouteChanged in
  guard! gatewayBound gateway && GatewayBindingMetadataEqual config (gw_Meta gateway) expected
    else Sentinel errHTTPRouteChanged in
  let! _ := (match requirement with
             | routeBindingRequired =>
                 let! bound := lift (routeBoundTo route gateway) in
                 guard! bound else Sentinel errHTTPRouteChanged in ret tt
             | routeBindingOptional => ret tt
             end) in
  let! gatewayClass := unlessRouteChanged (getClass Live (gw_GatewayClassName gateway)) in
  guard! classUsable gatewayClass else Sentinel errHTTPRouteChanged in
  guard! GatewayClassSupportsInstalledVersion gatewayClass else Sentinel ErrUnsupportedGatewayAPIVersion in
  ret tt.

(** ** Binding (httproute_binding.go) *)

(** One attempt of [bindRouteFromSnapshot]; the result tells whether a binding
    was stored. *)
Definition bindAttempt (gateway : Gateway) (initial : routeValidationSnapshot) (attempt : nat) : SM HTTPRoute bool :=
  do! route := sget in
  do! snapshot := slift (match attempt with
                         | 0 => ret initial
                         | _ => buildRouteValidationSnapshot route gateway routeSnapshotForBinding
                         end) in
  do! _ := slift (lift (validateRouteBindingTransition snapshot)) in
  do! _ := slift (sealRouteMutationSnapshot snapshot routeBindingOptional) in
  let base := vs_route snapshot in
  let desired := withRouteMeta base (applyRouteBinding config (hr_Meta base) (gw_Meta (vs_gateway snapshot))) in
  if routeBindingMetadataEqual (hr_Meta base) (hr_Meta desired)
  then do! _ := smodify (fun _ => desired) in sret false
  else
  do! stored := slift (patchRoute base desired) in
  do! _ := smodify (fun _ => stored) in
  sret true.

Definition bindRouteFromSnapshot (gateway : Gateway) (initial : routeValidationSnapshot) : SM HTTPRoute bool :=
  RetryOnConflict (bindAttempt gateway initial).

Definition bindRoute (gateway : Gateway) : SM HTTPRoute bool := fun route =>
  if negb (rc_APIReader r) then Ret (route, Err (Sentinel ErrAPIReaderRequired))
  else (do! snapshot := slift (buildRouteValidationSnapshot route gateway routeSnapshotForBinding) in
        bindRouteFromSnapshot gateway snapshot) route.

(** [getRouteBindingWithReader]: [None] when the route is gone. *)
Definition getRouteBindingWithReader (from : reader) (expected : HTTPRoute) : M (option (HTTPRoute * option Identity)) :=
  try (getHTTPRoute from (routeKey expected)) (fun found =>
    match found with
    | Err e => if IsNotFound e then ret None else raise e
    | Ok current =>
        guard! sameRevision current expected else Sentinel errHTTPRouteChanged in
        let! stored := lift (storedRouteIdentity current) in
        ret (Some (current, stored))
    end).

Definition clearAttempt (expected : option Identity) : SM HTTPRoute unit :=
  do! route := sget in
  do! found := slift (getRouteBindingWithReader Live route) in
  match found with
  | None => sret tt
  | Some (current, stored) =>
      if negb (bool_decide (stored = expected)) then sraise (Sentinel errHTTPRouteChanged)
      else
      let cleared := withRouteMeta current (clearRouteBinding config (hr_Meta current)) in
      if routeBindingMetadataEqual (hr_Meta current) (hr_Meta cleared) then smodify (fun _ => cleared)
      else
      do! patched := stry (slift (patchRoute current cleared)) in
      match patched with
      | Err e => slift (lift (ignoringNotFound tt e))
      | Ok stored' => smodify (fun _ => stored')
      end
  end.

Definition clearStoredRouteBinding (expected : option Identity) : SM HTTPRoute unit := fun route =>
  if negb (rc_APIReader r) then Ret (route, Err (Sentinel ErrAPIReaderRequired))
  else RetryOnConflict (fun _ => clearAttempt expected) route.

(** ** The provider under the graph lock (httproute_graph.go, httproute_cleanup.go) *)

Definition routeBindingCheckpointError (e : error) : error := CustomError "routeBindingCheckpointError" [] (Some e).

(** [ensureRouteGraph] once the lock is held. *)
Definition ensureLockedRoute (expectedGateway : Gateway) : SM HTTPRoute routeGraphResult :=
  do! expectedRoute := sget in
  do! snapshot := slift (buildRouteValidationSnapshot expectedRoute expectedGateway routeSnapshotForEnsure) in
  match vs_disposition snapshot with
  | routeValidationGatewayPending => sret (GraphOutcome None)
  | routeValidationBindingRequired =>
      do! bound := stry (bindRouteFromSnapshot expectedGateway snapshot) in
      match bound with
      | Err e => sraise (routeBindingCheckpointError e)
      | Ok _ => sret BindingCheckpoint
      end
  | routeValidationReady =>
      do! _ := slift (sealRouteMutationSnapshot snapshot routeBindingRequired) in
      match vs_desired snapshot with
      | None => sraise runtimePanic
      | Some desired =>
          do! result := slift (wrap "ensure OpenStack resources for HTTPRoute: %w" [] (Provider_EnsureRoute desired)) in
          do! _ := slift (wrap "validate HTTPRoute provider outcome: %w" [] (lift (Cloud.Validate (r_Outcome result)))) in
          sret (GraphOutcome (Some (r_Outcome result)))
      end
  end.

Definition lockedRoute {A} (gatewayUID : string) (body : SM HTTPRoute A) : SM HTTPRoute A := fun route =>
  if negb (rc_APIReader r) then Ret (route, Err (Sentinel ErrAPIReaderRequired))
  else locked (rc_Coordinator r) gatewayUID body route.

Definition ensureRouteGraph (expectedGateway : Gateway) : SM HTTPRoute routeGraphResult :=
  lockedRoute (om_UID (gw_Meta expectedGateway)) (ensureLockedRoute expectedGateway).

(** ** Cleanup snapshots (httproute_snapshot.go) *)

Definition observeParent (route : HTTPRoute) (parents : list routeParentObservation) (parentRef : ParentReference)
    : M (list routeParentObservation) :=
  if negb (IsGatewayParentRef parentRef) then ret parents
  else try (getGateway Live (parentGatewayKey route parentRef)) (fun found =>
    match found with
    | Err e =>
        if IsNotFound e then ret (parents ++ [mkObservation parentRef None None None false])
        else raise (Errorf "get parent Gateway during Gateway API version check: %w" [] (Some e))
    | Ok gateway =>
        try (getClass Live (gw_GatewayClassName gateway)) (fun found' =>
          match found' with
          | Err e =>
              if IsNotFound e then ret (parents ++ [mkObservation parentRef (Some gateway) None None false])
              else raise (Errorf "get parent GatewayClass during Gateway API version check: %w" [] (Some e))
          | Ok gatewayClass =>
              let managed := String.eqb (gc_ControllerName gatewayClass) (cfg_ControllerName config) in
              ret (parents ++ [mkObservation parentRef (Some gateway) (Some gatewayClass)
                                 (if managed then soleListener gateway else None) managed])
          end)
    end).

Definition observeRouteParentsForCleanup (route : HTTPRoute) : M (list routeParentObservation) :=
  mfold (observeParent route) [] (hr_ParentRefs route).

(** One parent of [routeCleanupAllowedDuringVersionMismatch]. *)
Definition parentAllowsCleanup (stored : Identity) (parent : routeParentObservation) : bool :=
  match po_gateway parent with
  | None => true
  | Some gateway =>
      match po_gatewayClass parent with
      | None => false
      | Some _ =>
          if negb (po_managed parent) then true
          else String.eqb (om_Namespace (gw_Meta gateway)) (GatewayNamespace stored) &&
               String.eqb (om_Name (gw_Meta gateway)) (GatewayName stored) &&
               String.eqb (om_UID (gw_Meta gateway)) (GatewayUID stored) && om_Deleting (gw_Meta gateway)
      end
  end.
Definition routeCleanupAllowedDuringVersionMismatch (parents : list routeParentObservation) (stored : Identity) : bool :=
  forallb (parentAllowsCleanup stored) parents.

Definition managedParentsFromObservations (observations : list routeParentObservation) : list managedRouteParent :=
  omap (fun o =>
    if po_managed o then
      match po_gateway o, po_gatewayClass o with
      | Some gateway, Some gatewayClass => Some (mkManagedParent (po_ref o) gateway gatewayClass (po_listener o))
      | _, _ => None
      end
    else None) observations.

(** The last part of [buildRouteCleanupSnapshot]: whether the route is still
    desired by its sole managed parent. *)
Definition cleanupStillDesired (route : HTTPRoute) (stored : Identity) (parent : managedRouteParent)
    : M routeCleanupDisposition :=
  guard! GatewayClassSupportsInstalledVersion (mp_gatewayClass parent) else Sentinel ErrUnsupportedGatewayAPIVersion in
  guard! negb (gc_ParametersRef (mp_gatewayClass parent)) else Sentinel errHTTPRouteChanged in
  if negb (match validateRouteParent route parent with Ok _ => true | Err _ => false end) ||
     negb (structurallySupportedRoute route) then ret routeCleanupRequired
  else
  let! decision := evaluateRouteSlotWithReader Live route in
  if negb (rsd_canReserve decision) then ret routeCleanupRequired
  else
  let! selected := isSelectedRouteWithReader Live route parent false in
  if negb selected then ret routeCleanupRequired
  else try (buildRouteSpecWithReader config Live route (mp_gateway parent)) (fun built =>
    match built with
    | Err e => match asRouteBuildError e with
               | Some _ => ret routeCleanupRequired
               | None => if IsNotFound e then ret routeCleanupRequired else raise e
               end
    | Ok desired => ret (if bool_decide (rs_Identity desired = stored) then routeCleanupStillDesired else routeCleanupRequired)
    end).

Definition routeCleanupDispositionFor (route : HTTPRoute) (stored : Identity) : M routeCleanupDisposition :=
  if isDeleting route then ret routeCleanupRequired
  else
  let! observations := observeRouteParentsForCleanup route in
  if routeCleanupAllowedDuringVersionMismatch observations stored then ret routeCleanupRequired
  else
  let! _ := ValidateInstalledGatewayAPIVersion (rc_APIReader r) in
  let! observations' := observeRouteParentsForCleanup route in
  match managedParentsFromObservations observations' with
  | [parent] => if (length (hr_ParentRefs route) =? 1)%nat then cleanupStillDesired route stored parent
                else ret routeCleanupRequired
  | _ => ret routeCleanupRequired
  end.

Definition buildRouteCleanupSnapshot (expected : HTTPRoute) (expectedIdentity : Identity) : M routeCleanupSnapshot :=
  guard! rc_APIReader r else Sentinel ErrAPIReaderRequired in
  let! route := unlessRouteChanged (getHTTPRoute Live (routeKey expected)) in
  guard! sameRevision route expected &&
         String.eqb (om_ResourceVersion (hr_Meta route)) (om_ResourceVersion (hr_Meta expected))
    else Sentinel errHTTPRouteChanged in
  let! stored := lift (storedRouteIdentity route) in
  guard! bool_decide (stored = Some expectedIdentity) else Sentinel errHTTPRouteChanged in
  let! disposition := routeCleanupDispositionFor route expectedIdentity in
  ret (mkRouteCleanup route expectedIdentity disposition).

Definition sealRouteCleanupSnapshot (snapshot : routeCleanupSnapshot) : M unit :=
  let! route := unlessRouteChanged (getHTTPRoute Live (routeKey (rcs_route snapshot))) in
  guard! sameRevision route (rcs_route snapshot) &&
         String.eqb (om_ResourceVersion (hr_Meta route)) (om_ResourceVersion (hr_Meta (rcs_route snapshot)))
    else Sentinel errHTTPRouteChanged in
  let! stored := lift (storedRouteIdentity route) in
  guard! bool_decide (stored = Some (rcs_identity snapshot)) else Sentinel errHTTPRouteChanged in
  ret tt.

Definition deleteLockedRoute (expected : HTTPRoute) (identity : Identity) : M Outcome :=
  let! snapshot := buildRouteCleanupSnapshot expected identity in
  match rcs_disposition snapshot with
  | routeCleanupStillDesired => routeChanged
  | routeCleanupRequired =>
      let! _ := sealRouteCleanupSnapshot snapshot in
      Provider_DeleteRoute (rcs_identity snapshot)
  end.

(** [deleteRoute] does not change the route it is given. *)
Definition deleteRoute (expected : HTTPRoute) (identity : Identity) : M Outcome :=
  bind (lockedRoute (GatewayUID identity) (slift (deleteLockedRoute expected identity)) expected) (fun x => Ret (snd x)).

(** ** Detaching and finalizing (httproute_cleanup.go) *)

Definition patchRouteCleanupFailure (reason : string) : SM HTTPRoute bool :=
  RetryOnConflict (fun _ =>
    do! route := sget in
    do! found := stry (slift (getHTTPRoute routePatchReader (routeKey route))) in
    match found with
    | Err e => slift (lift (ignoringNotFound false e))
    | Ok current =>
        if negb (sameRevision current route) then sraise (Sentinel errHTTPRouteChanged)
        else
        let key := RouteCleanupFailureAnnotation config in
        if String.eqb (annotation (hr_Meta current) key) reason then do! _ := smodify (fun _ => current) in sret false
        else
        let meta := if String.eqb reason "" then deleteAnnotation (hr_Meta current) key
                    else setAnnotation (makeAnnotations (hr_Meta current)) key reason in
        do! patched := stry (slift (patchRoute current (withRouteMeta current meta))) in
        match patched with
        | Err e => slift (lift (ignoringNotFound false e))
        | Ok stored => do! _ := smodify (fun _ => stored) in sret true
        end
    end).
Definition setRouteCleanupFailure (reason : string) : SM HTTPRoute bool := patchRouteCleanupFailure reason.
Definition clearRouteCleanupFailure : SM HTTPRoute unit := do! _ := patchRouteCleanupFailure "" in sret tt.

Definition incompleteIdentity (key : string) : error :=
  Errorf "HTTPRoute %s has the controller finalizer but no complete stored Gateway identity" [key] None.

(** [clearRouteCleanupFailure(ctx, current)] and [*route = *current]. *)
Definition clearedFailure (current : HTTPRoute) : SM HTTPRoute unit := fun route =>
  bind (clearRouteCleanupFailure current) (fun x =>
    match x with
    | (current', Ok _) => Ret (current', Ok tt)
    | (_, Err e) => Ret (route, Err (Errorf "clear HTTPRoute cleanup failure checkpoint: %w" [] (Some e)))
    end).

(** What follows a deletion that did not fail. *)
Definition afterDeletion (what : string) (current : HTTPRoute) (outcome : Outcome) (ready : SM HTTPRoute Result)
    : SM HTTPRoute Result :=
  match Cloud.Validate outcome with
  | Err e => sraise (Errorf what [] (Some e))
  | Ok _ =>
      if isProgressing outcome then
        do! _ := clearedFailure current in
        sret (requeueAfter (ProviderProgressRequeueAfter outcome (om_UID (hr_Meta current))))
      else ready
  end.

Definition detachRoute : SM HTTPRoute Result :=
  do! route := sget in
  do! found := slift (getRouteBindingWithReader Cached route) in
  match found with
  | None => sret noResult
  | Some (current, stored) =>
      let cleared := do! _ := clearStoredRouteBinding stored in sret noResult in
      match stored with
      | None => if hasRouteFinalizer current then sraise (incompleteIdentity (ObjectKeyString (routeKey route)))
                else cleared
      | Some identity =>
          do! outcome := slift (wrap "delete detached HTTPRoute resources: %w" [] (deleteRoute current identity)) in
          afterDeletion "validate detached HTTPRoute deletion outcome: %w" current outcome cleared
      end
  end.

Definition detachPreviousGateway (gateway : Gateway) : SM HTTPRoute Result :=
  do! route := sget in
  do! found := stry (slift (getHTTPRoute Cached (routeKey route))) in
  match found with
  | Err e => slift (lift (ignoringNotFound noResult e))
  | Ok current =>
      if negb (sameRevision current route) then sraise (Sentinel errHTTPRouteChanged)
      else
      do! _ := smodify (fun _ => current) in
      do! stored := slift (lift (storedRouteIdentity current)) in
      match stored with
      | None =>
          if hasRouteFinalizer current
          then sraise (incompleteIdentity (routeNamespace current ^^ "/" ^^ om_Name (hr_Meta current)))
          else sret noResult
      | Some identity =>
          if String.eqb (GatewayNamespace identity) (om_Namespace (gw_Meta gateway)) &&
             String.eqb (GatewayName identity) (om_Name (gw_Meta gateway)) &&
             String.eqb (GatewayUID identity) (om_UID (gw_Meta gateway)) then sret noResult
          else detachRoute
      end
  end.

(** [routeProviderWarning] and [patchCause] of a classified failure. *)
Definition recordRouteFailure (warning : routeProviderWarning) (providerErr : error) (s : httpRouteScope) : httpRouteScope :=
  let s1 := queueRouteWarning s warning in
  if negb (fp_ReturnError (rw_policy warning))
  then setRoutePatchCause s1 (SafeProviderReconcileError (rw_policy warning) providerErr) else s1.

Definition handleRouteFinalizationFailure (identity : Identity) (providerErr : error) : SM httpRouteScope Result :=
  match ProviderFailurePolicyFor providerErr with
  | None => sraise providerErr
  | Some policy0 =>
      let policy := ProviderCleanupFailurePolicy policy0 "HTTPRoute" in
      do! diagnostic := stry (onRoute (setRouteCleanupFailure (fp_Reason policy))) in
      do! scope := sget in
      do! _ := (match parentRefForStoredGateway (rs_route scope) identity with
                | Some parent => smodify (setDeletingFailureStatus parent policy)
                | None => sret tt
                end) in
      match diagnostic with
      | Err e => sraise (joinWith (SafeProviderReconcileError policy providerErr)
                           (Some (Errorf "publish HTTPRoute cleanup failure: %w" [] (Some e))))
      | Ok transitioned =>
          do! _ := smodify (recordRouteFailure (mkWarning policy "DeleteHTTPRoute" transitioned false) providerErr) in
          slift (lift (ProviderFinalizationFailureResult policy providerErr (om_UID (hr_Meta (rs_route scope)))))
      end
  end.

Definition finalizeRoute : SM httpRouteScope Result :=
  do! scope := sget in
  let route := rs_route scope in
  do! found := slift (getRouteBindingWithReader Cached route) in
  match found with
  | None => sret noResult
  | Some (current, stored) =>
      match stored with
      | None => if hasRouteFinalizer current then sraise (incompleteIdentity (ObjectKeyString (routeKey route)))
                else sret noResult
      | Some identity =>
          do! deleted := stry (slift (deleteRoute current identity)) in
          match deleted with
          | Err e =>
              do! _ := onRoute (smodify (fun _ => current)) in
              handleRouteFinalizationFailure identity
                (Errorf "delete HTTPRoute resources during finalization: %w" [] (Some e))
          | Ok outcome =>
              onRoute (afterDeletion "validate HTTPRoute finalization outcome: %w" current outcome
                (do! _ := clearStoredRouteBinding (Some identity) in sret noResult))
          end
      end
  end.

(** ** The status patch (httproute_scope.go) *)

(** [validateRouteStatusOwnership]: the managed parents are the planned ones. *)
Definition validateRouteStatusOwnership (route : HTTPRoute) (updates : list parentStatusUpdate) : M unit :=
  let! parents := managedParentsWithReader config routePatchReader route in
  guard! forallb (fun u => existsb (fun p => sameParent route (mp_ref p) (pu_parent u)) parents) updates &&
         forallb (fun p => existsb (fun u => sameParent route (mp_ref p) (pu_parent u)) updates) parents
    else Sentinel errHTTPRouteChanged in
  ret tt.

(** One attempt of [patchHTTPRouteStatus]: applied, changed, transitioned. *)
Definition patchStatusAttempt (plan : routeStatusPlan) : SM HTTPRoute (bool * bool * bool) :=
  do! route := sget in
  do! found := stry (slift (getHTTPRoute routePatchReader (routeKey route))) in
  match found with
  | Err e => if IsNotFound e then sret (false, false, false) else sraise e
  | Ok current =>
      if negb (sameRevision current route) then sraise (Sentinel errHTTPRouteChanged)
      else
      do! _ := (if planValidatesOwnership plan then slift (validateRouteStatusOwnership current (planUpdates plan))
                else sret tt) in
      let '(target, transitioned) := applyPlan config plan current in
      if bool_decide (hr_StatusParents current = hr_StatusParents target)
      then do! _ := smodify (fun _ => target) in sret (true, false, transitioned)
      else
      do! stored := slift (patchRouteStatus current target) in
      do! _ := smodify (fun _ => stored) in
      sret (true, true, transitioned)
  end.
Definition patchHTTPRouteStatus (plan : routeStatusPlan) : SM HTTPRoute (bool * bool * bool) :=
  RetryOnConflict (fun _ => patchStatusAttempt plan).

Definition setRouteParentStatuses (updates : list parentStatusUpdate) : SM HTTPRoute unit :=
  do! _ := patchHTTPRouteStatus (PlanReplace updates false) in sret tt.

(** [patchHTTPRoute]; the Event it may record has no effect on the state. *)
Definition patchHTTPRoute : SM httpRouteScope unit :=
  do! scope := sget in
  if rs_skipPatch scope then sret tt
  else match rs_statusPlan scope with
  | None => sret tt
  | Some plan =>
      do! patched := stry (onRoute (patchHTTPRouteStatus plan)) in
      match patched with
      | Err e => sraise (Errorf "patch HTTPRoute status: %w" [] (Some e))
      | Ok _ => sret tt
      end
  end.

(** The live route the checkpoints compare with. *)
Definition checkpointRoute (what : string) : SM httpRouteScope HTTPRoute :=
  do! scope := sget in
  do! current := slift (wrap what [] (getHTTPRoute routePatchReader (routeKey (rs_route scope)))) in
  if negb (sameRevision current (rs_route scope)) then sraise (Sentinel errHTTPRouteChanged) else sret current.

Definition routeStatusCheckpointNeeded : SM httpRouteScope bool :=
  do! scope := sget in
  match rs_statusPlan scope with
  | None => sret false
  | Some plan =>
      do! current := checkpointRoute "read HTTPRoute status checkpoint: %w" in
      do! _ := (if planValidatesOwnership plan then slift (validateRouteStatusOwnership current (planUpdates plan))
                else sret tt) in
      do! _ := smodify (fun s => setRoute s current) in
      sret (negb (bool_decide (hr_StatusParents current = hr_StatusParents (fst (applyPlan config plan current)))))
  end.

Definition routeProviderFailureCheckpointExists (updates : list parentStatusUpdate) : SM httpRouteScope bool :=
  do! current := checkpointRoute "read HTTPRoute provider failure checkpoint: %w" in
  do! _ := smodify (fun s => setRoute s current) in
  sret (routeHasProviderFailureStatus config current updates).

Definition routeCleanupStatusCheckpointNeeded (updates : list parentStatusUpdate) : SM httpRouteScope bool :=
  do! scope := sget in
  do! durable := (if routeHasProviderFailureStatus config (rs_route scope) updates
                  then routeProviderFailureCheckpointExists updates else sret false) in
  if durable : bool then sret false
  else
  do! _ := smodify (setStatuses updates) in
  routeStatusCheckpointNeeded.

(** ** Versions (httproute_version_status.go) *)

Definition setRouteUnsupportedVersion : SM httpRouteScope Result :=
  do! _ := smodify (fun s => setPlan s None) in
  do! scope := sget in
  let route := rs_route scope in
  if negb (rc_APIReader r) then sraise (Sentinel ErrAPIReaderRequired)
  else
  do! found := stry (slift (getHTTPRoute Live (routeKey route))) in
  match found with
  | Err e =>
      do! _ := (if IsNotFound e then smodify skipRoutePatch else sret tt) in
      slift (lift (ignoringNotFound noResult e))
  | Ok current =>
      if negb (sameHTTPRouteRevision (hr_Meta current) (om_UID (hr_Meta route)) (om_Generation (hr_Meta route)) false)
      then do! _ := smodify skipRoutePatch in sret noResult
      else
      do! parents := slift (managedParentsWithReader config Live current) in
      match parents with
      | [] => do! _ := smodify skipRoutePatch in sret noResult
      | _ =>
          let liveClassUnsupported :=
            existsb (fun p => negb (GatewayClassSupportsInstalledVersion (mp_gatewayClass p))) parents in
          do! recheckVersion := (if liveClassUnsupported then sret false
            else
            do! version := stry (slift (ValidateInstalledGatewayAPIVersion (rc_APIReader r))) in
            match version with
            | Ok _ => sraise (Sentinel errHTTPRouteChanged)
            | Err e => if errorsIs e ErrUnsupportedGatewayAPIVersion then sret true else sraise e
            end) in
          let updates := (fun p => mkUpdate (mp_ref p) (unsupportedVersionRouteStatus config current (mp_ref p))) <$> parents in
          do! _ := smodify (fun s => setStatuses updates (setRoute s current)) in
          sret (if recheckVersion : bool then requeueAfter (GatewayAPIVersionRequeueAfter (om_UID (hr_Meta current)))
                else noResult)
      end
  end.

(** ** Failures (httproute_status.go) *)

Definition handleRouteProviderFailure (parent : ParentReference) (referencesEvaluated : bool) (providerErr : error)
    (action : string) : SM httpRouteScope Result :=
  match ProviderFailurePolicyFor providerErr with
  | None => sraise providerErr
  | Some policy =>
      do! scope := sget in
      do! _ := smodify (setProviderFailureStatuses
                 [mkUpdate parent (providerFailureRouteStatus policy referencesEvaluated)] policy referencesEvaluated) in
      do! _ := smodify (recordRouteFailure (mkWarning policy action false false) providerErr) in
      slift (lift (ProviderFailureResult policy providerErr (om_UID (hr_Meta (rs_route scope)))))
  end.

(** The failure of a detachment, once its kind is known. *)
Definition handleDetachFailure (updates : list parentStatusUpdate) (cleanupErr : error) : SM httpRouteScope Result :=
  match ProviderFailurePolicyFor cleanupErr with
  | None => sraise cleanupErr
  | Some policy0 =>
      let policy := ProviderCleanupFailurePolicy policy0 "HTTPRoute" in
      do! diagnostic := stry (onRoute (setRouteCleanupFailure (fp_Reason policy))) in
      do! scope := sget in
      let providerUpdates := routeProviderFailureUpdates updates policy in
      let none := bool_decide (length providerUpdates = 0) in
      do! _ := smodify (if none then setStatuses [] else setProviderFailureStatuses providerUpdates policy true) in
      match diagnostic with
      | Err e => sraise (joinWith e (Some (SafeProviderReconcileError policy cleanupErr)))
      | Ok transitioned =>
          do! _ := smodify (recordRouteFailure (mkWarning policy "DeleteHTTPRoute" transitioned none) cleanupErr) in
          slift (lift (ProviderFinalizationFailureResult policy cleanupErr (om_UID (hr_Meta (rs_route scope)))))
      end
  end.

Definition setRouteStatusesAndDetach (updates : list parentStatusUpdate) : SM httpRouteScope Result :=
  do! scope := sget in
  let providerStatusPublished := routeHasProviderFailureStatus config (rs_route scope) updates in
  do! checkpointNeeded := routeCleanupStatusCheckpointNeeded updates in
  if checkpointNeeded : bool then sret requeue
  else
  do! detached := stry (onRoute detachRoute) in
  match detached with
  | Ok result => do! _ := (if providerStatusPublished then smodify (setStatuses updates) else sret tt) in sret result
  | Err cleanupErr =>
      if errorsIs cleanupErr ErrUnsupportedGatewayAPIVersion then
        do! scope' := sget in
        do! stored := slift (lift (storedRouteIdentity (rs_route scope'))) in
        match stored with None => sraise cleanupErr | Some _ => setRouteUnsupportedVersion end
      else handleDetachFailure updates cleanupErr
  end.

(** ** Reconcile (httproute_controller.go) *)

(** [cachedRouteDecision], by its disposition. *)
Inductive cachedRouteDecision :=
| CachedUnsupportedVersion
| CachedDetach (statusUpdates : list parentStatusUpdate)
| CachedReady (parent : managedRouteParent) (stored : option Identity).

Definition managedParentsSupportInstalledVersion (parents : list managedRouteParent) : bool :=
  forallb (fun p => GatewayClassSupportsInstalledVersion (mp_gatewayClass p)) parents.

Definition unsupportedParentCountUpdates (parents : list managedRouteParent) : list parentStatusUpdate :=
  (fun p => mkUpdate (mp_ref p)
     (rejectedRouteStatus ReasonUnsupportedValue "Phase 1 supports exactly one Gateway parentRef")) <$> parents.

Definition validateCachedRouteDecision (route : HTTPRoute) (parent : managedRouteParent) (stored : option Identity)
    : M cachedRouteDecision :=
  match validateRouteParent route parent with
  | Err e => ret (CachedDetach [mkUpdate (mp_ref parent) (statusForRouteBuildError e)])
  | Ok _ =>
      let! slot := (if structurallySupportedRoute route then evaluateRouteSlotWithReader Cached route
                    else ret (mkSlot true None)) in
      if negb (rsd_canReserve slot)
      then ret (CachedDetach [mkUpdate (mp_ref parent)
                  (rejectedServiceProfileStatus (default runtimePanic (rsd_rejection slot)))])
      else
      let! selected := isSelectedRouteWithReader Cached route parent true in
      if negb selected
      then ret (CachedDetach [mkUpdate (mp_ref parent) (rejectedRouteStatus ReasonUnsupportedValue
                  "Phase 1 supports one HTTPRoute per Gateway; an older route is already selected")])
      else ret (CachedReady parent stored)
  end.

Definition buildCachedRouteDecision (route : HTTPRoute) : M cachedRouteDecision :=
  try (managedParentsWithReader config Cached route) (fun found =>
    match found, storedRouteIdentity route with
    | _, Err bindingErr => raise bindingErr
    | Err e, Ok _ => raise e
    | Ok parents, Ok stored =>
        if negb (managedParentsSupportInstalledVersion parents) then ret CachedUnsupportedVersion
        else match parents with
        | [] => ret (CachedDetach [])
        | [parent] =>
            if (length (hr_ParentRefs route) =? 1)%nat then validateCachedRouteDecision route parent stored
            else ret (CachedDetach (unsupportedParentCountUpdates parents))
        | _ => ret (CachedDetach (unsupportedParentCountUpdates parents))
        end
    end).

Definition reconcileSelectedRouteGraph (parent : managedRouteParent) : SM httpRouteScope Result :=
  let publish status := smodify (setStatuses [mkUpdate (mp_ref parent) status]) in
  do! ensured := stry (onRoute (ensureRouteGraph (mp_gateway parent))) in
  do! scope := sget in
  let uid := om_UID (hr_Meta (rs_route scope)) in
  match ensured with
  | Err e =>
      if errorsIs e ErrUnsupportedGatewayAPIVersion then setRouteUnsupportedVersion
      else match errorsAsCustom "routeBindingCheckpointError" e with
      | Some _ => sraise (Errorf "bind HTTPRoute to Gateway: %w" [] (Some e))
      | None =>
          if match asRouteBuildError e with Some _ => true | None => IsNotFound e end
          then setRouteStatusesAndDetach [mkUpdate (mp_ref parent) (statusForRouteBuildError e)]
          else if errorsIs e errHTTPRouteChanged then sraise e
          else handleRouteProviderFailure (mp_ref parent) true e "EnsureHTTPRoute"
      end
  | Ok BindingCheckpoint => sret requeue
  | Ok (GraphOutcome None) =>
      do! _ := publish (pendingRouteStatus "Controller-owned Octavia load balancer or listener is not ready") in
      sret (requeueAfter (5 * Second))
  | Ok (GraphOutcome (Some outcome)) =>
      if isProgressing outcome then
        do! _ := publish (pendingRouteStatus
                   (ProviderProgressMessage outcome "Octavia resources for the HTTPRoute are still progressing")) in
        sret (requeueAfter (ProviderProgressRequeueAfter outcome uid))
      else if negb (bool_decide (o_State outcome = OutcomeReady)) then
        do! _ := publish (pendingRouteStatus "Controller-owned Octavia load balancer or listener is not ready") in
        sret (requeueAfter (5 * Second))
      else
        do! _ := publish programmedRouteStatus in
        sret (requeueAfter (OpenStackResyncAfter (cfg_OpenStackResyncInterval config) uid))
  end.

Definition reconcileSelectedRoute (parent : managedRouteParent) (stored : option Identity) : SM httpRouteScope Result :=
  do! scope := sget in
  let updates := [mkUpdate (mp_ref parent) (pendingRouteStatus "OpenStack resources for the previous Gateway are being removed")] in
  do! checkpointNeeded := (match stored with
    | Some identity =>
        if negb (SameGatewayIdentity identity (desiredIdentity (mp_gateway parent) (rs_route scope)))
        then routeCleanupStatusCheckpointNeeded updates else sret false
    | None => sret false
    end) in
  if checkpointNeeded : bool then sret requeue
  else
  do! detached := stry (onRoute (detachPreviousGateway (mp_gateway parent))) in
  match detached with
  | Err e =>
      if errorsIs e ErrUnsupportedGatewayAPIVersion then setRouteUnsupportedVersion
      else handleRouteProviderFailure (mp_ref parent) false e "DeleteHTTPRoute"
  | Ok result =>
      if (0 <? RequeueAfter result)%Z then do! _ := smodify (setStatuses updates) in sret result
      else reconcileSelectedRouteGraph parent
  end.

Definition reconcileNormal : SM httpRouteScope Result :=
  do! scope := sget in
  do! decision := slift (buildCachedRouteDecision (rs_route scope)) in
  match decision with
  | CachedUnsupportedVersion => setRouteUnsupportedVersion
  | CachedDetach statusUpdates => setRouteStatusesAndDetach statusUpdates
  | CachedReady parent stored => reconcileSelectedRoute parent stored
  end.

Definition reconcileDelete : SM httpRouteScope Result :=
  do! result := finalizeRoute in
  do! scope := sget in
  do! _ := (if (RequeueAfter result =? 0)%Z && negb (hasRouteFinalizer (rs_route scope)) then smodify skipRoutePatch
            else sret tt) in
  sret result.

Definition newHTTPRouteScope (key : NamespacedName) : M (option httpRouteScope) :=
  try (getHTTPRoute Cached key) (fun found =>
    match found with
    | Err e => lift (ignoringNotFound None e)
    | Ok route =>
        let scope := Some (mkRouteScope route None None None false) in
        if negb (isDeleting route) then ret scope
        else ret (if RouteHasControllerBinding config (hr_Meta route) then scope else None)
    end).

Definition deferredPatch (s : httpRouteScope) (x : outcome_of Result) : M Result :=
  bind (patchHTTPRoute s) (fun y =>
    match y with
    | (_, Ok _) => Ret x
    | (s', Err e) =>
        let retErr := match x with Ok _ => None | Err e' => Some e' end in
        raise (default e (errorsJoin [retErr; rs_patchCause s'; Some e]))
    end).

Definition Reconcile (key : NamespacedName) : M Result :=
  let! found := newHTTPRouteScope key in
  match found with
  | None => ret noResult
  | Some scope =>
      bind ((if isDeleting (rs_route scope) then reconcileDelete else reconcileNormal) scope)
        (fun y => deferredPatch (fst y) (snd y))
  end.
End reconciler.
