(* ===== verification/RouteReconcilerFacts.v ===== *)
(** * What the HTTPRoute reconciler guarantees

    For every execution of [Reconcile], whatever the API server, the cloud and
    other actors do: a route is attached to or taken off a load balancer only
    under the graph lock and after live reads that authorise it; the binding of
    a route goes after its resources; [Programmed] is only published for what
    the provider found in place. *)
From stdpp Require Import base list strings gmap.
From Stdlib Require Import ZArith Lia.
From S2P Require Import Prelude GoStrings Cloud Kube KubeObjects References OpenStack ProgramLogic Outcomes Binding BindingFacts Indexes KubeClient ReconcileLogic OpenStackProvider GatewayModel GatewayReconciler GatewayReconcilerFacts RouteModel RouteStatus RouteReconciler.

Set Default Goal Selector "!".

Section facts.
Context `{ControllerUtil, ApiMeta, KubeErrors, ForeignTexts, GatewayConsts, CloudProvider} (r : Reconciler).

Abbreviation cfg := (rc_Config r).

(** ** The live reads behind a change *)

(** The Gateway of the model, read again. *)
Definition sameBoundGateway (gw gw' : Gateway) : Prop :=
  om_UID (gw_Meta gw') = om_UID (gw_Meta gw) /\ om_Generation (gw_Meta gw') = om_Generation (gw_Meta gw) /\
  om_Deleting (gw_Meta gw') = false /\ gatewayBound r gw' = true /\
  GatewayBindingMetadataEqual cfg (gw_Meta gw') (gw_Meta gw) = true.

Definition usableRouteClass (c : GatewayClass) : Prop :=
  classUsable r c = true /\ GatewayClassSupportsInstalledVersion c = true.

(** The parent a route names, as the model sees it. *)
Definition soleParent (route : HTTPRoute) (gw : Gateway) (class : GatewayClass) (parent : managedRouteParent) : Prop :=
  exists ref listener, hr_ParentRefs route = [ref] /\ GatewayModel.Validate gw = Ok listener /\
    parent = mkManagedParent ref gw class (Some listener) /\ validateRouteParent route parent = Ok tt /\
    annotation (gw_Meta gw) (GatewayListenerPortAnnotation cfg) = decimal_Z (gl_Port listener).

(** The live reads from which the desired route is computed: the route, its
    Gateway and class, then the backend, the competing routes and the members. *)
Definition routeModelled (route : HTTPRoute) (gw : Gateway) (desired : RouteSpec) (seen : list event) : Prop :=
  exists k1 k2 class parent slot chosen built,
    seen = Read (KGetHTTPRoute Live k1) route :: Read (KGetGateway Live k2) gw ::
           Read (KGetGatewayClass Live (gw_GatewayClassName gw)) class :: slot ++ chosen ++ built /\
    om_Deleting (gw_Meta gw) = false /\ gatewayBound r gw = true /\ usableRouteClass class /\
    soleParent route gw class parent /\
    (structurallySupportedRoute route = true ->
       exists d, exec (evaluateRouteSlotWithReader Live route) slot (Ok d) /\ rsd_canReserve d = true) /\
    exec (isSelectedRouteWithReader Live route parent false) chosen (Ok true) /\
    exec (buildRouteSpecWithReader cfg Live route gw) built (Ok desired).

(** The four reads of the seal, just before the change. *)
Definition routeSealed (route : HTTPRoute) (gw : Gateway) (seen : list event) : Prop :=
  exists definitions route' gw' class',
    seen = [Read (KListCustomResourceDefinitions Live) definitions; Read (KGetHTTPRoute Live (routeKey route)) route';
            Read (KGetGateway Live (gatewayKey gw)) gw';
            Read (KGetGatewayClass Live (gw_GatewayClassName gw')) class'] /\
    versionIssues definitions = [] /\ sameRevision route' route = true /\ sameBoundGateway gw gw' /\
    storedRouteIdentity r route' = Ok (Some (desiredIdentity r gw' route')) /\ hasRouteFinalizer r route' = true /\
    usableRouteClass class'.

Definition routeFence (pre : list event) (route : HTTPRoute) (gw : Gateway) (desired : RouteSpec) : Prop :=
  exists t0 t1 t2,
    pre = t0 ++ Read (KAcquireGraph (om_UID (gw_Meta gw))) tt :: t1 ++ t2 /\
    routeModelled route gw desired t1 /\ routeSealed route gw t2.

(** Why the sole managed parent of a route does not claim it: the route does not
    fit the parent or the supported subset, cannot take the slot, is not the
    selected one, has no buildable model, or one for another graph. *)
Definition refusedByParent (route : HTTPRoute) (id : Identity) (parent : managedRouteParent) (seen : list event) : Prop :=
  (seen = [] /\ (validateRouteParent route parent <> Ok tt \/ structurallySupportedRoute route = false)) \/
  (exists d, exec (evaluateRouteSlotWithReader Live route) seen (Ok d) /\ rsd_canReserve d = false) \/
  (exists slot chosen, seen = slot ++ chosen /\ exec (isSelectedRouteWithReader Live route parent false) chosen (Ok false)) \/
  (exists s built x, seen = s ++ built /\ exec (buildRouteSpecWithReader cfg Live route (mp_gateway parent)) built x /\
     match x with
     | Ok desired => rs_Identity desired <> id
     | Err e => asRouteBuildError e <> None \/ IsNotFound e = true
     end).

(** Why a route may leave its graph: it is being deleted; no parent of it is
    ours, or only the stored Gateway, which is being deleted; or, under a
    supported version, it has not exactly one managed parent, or that parent
    refuses it. *)
Definition routeReleased (route : HTTPRoute) (id : Identity) (seen : list event) : Prop :=
  (isDeleting route = true /\ seen = []) \/
  (exists parents, exec (observeRouteParentsForCleanup r route) seen (Ok parents) /\
     routeCleanupAllowedDuringVersionMismatch parents id = true) \/
  (exists t1 definitions t2 t3 parents,
     seen = t1 ++ Read (KListCustomResourceDefinitions Live) definitions :: t2 ++ t3 /\ versionIssues definitions = [] /\
     exec (observeRouteParentsForCleanup r route) t2 (Ok parents) /\
     ((length (hr_ParentRefs route) <> 1 \/ length (managedParentsFromObservations parents) <> 1) /\ t3 = [] \/
      exists parent, managedParentsFromObservations parents = [parent] /\
        GatewayClassSupportsInstalledVersion (mp_gatewayClass parent) = true /\ refusedByParent route id parent t3)).

(** The graph lock, the live read of the binding and of what releases the
    route, and a last read that shows it unchanged. *)
Definition routeCleanupFence (pre : list event) (route : HTTPRoute) (id : Identity) : Prop :=
  exists t0 key seen route',
    pre = t0 ++ Read (KAcquireGraph (GatewayUID id)) tt :: Read (KGetHTTPRoute Live key) route :: seen ++
          [Read (KGetHTTPRoute Live (routeKey route)) route'] /\
    storedRouteIdentity r route = Ok (Some id) /\ routeReleased route id seen /\
    sameRevision route' route = true /\ om_ResourceVersion (hr_Meta route') = om_ResourceVersion (hr_Meta route) /\
    storedRouteIdentity r route' = Ok (Some id).

(** The provider call that makes the request [q] after the trace [t]. *)
Definition routeAuthority (t : list event) (q : request) : Prop :=
  exists pre p, t = pre ++ p /\
    ((exists route gw desired, routeFence pre route gw desired /\ nextRequest (Provider_EnsureRoute desired) p q) \/
     (exists route id, routeCleanupFence pre route id /\ nextRequest (Provider_DeleteRoute id) p q)).

(** ** Inversion of the snapshots *)

Lemma exec_unlessRouteChanged_ok {A} (m : M A) tr a : exec (unlessRouteChanged m) tr (Ok a) -> exec m tr (Ok a).
Proof. apply exec_onError_ok. Qed.

Ltac inv_read :=
  repeat (first
    [ inv_kube_step
    | match goal with
      | H : exec (unlessRouteChanged _) _ (Ok _) |- _ => apply exec_unlessRouteChanged_ok in H
      | H : exec routeChanged _ (Ok _) |- _ => by apply exec_raise in H as [_ ?]
      | H : exec (ValidateInstalledGatewayAPIVersion _) _ (Ok _) |- _ =>
          let d := fresh "definitions" in let Hv := fresh "Hversion" in
          apply ValidateInstalledGatewayAPIVersion_ok in H as (d & -> & Hv)
      end ]); cbn [app].

Lemma observeRouteValidationInputs_ok expectedRoute expectedGateway purpose tr route gw class :
  exec (observeRouteValidationInputs r expectedRoute expectedGateway purpose) tr (Ok (route, gw, class)) ->
  tr = [Read (KGetHTTPRoute Live (routeKey expectedRoute)) route; Read (KGetGateway Live (gatewayKey expectedGateway)) gw;
        Read (KGetGatewayClass Live (gw_GatewayClassName gw)) class] /\
  sameRevision route expectedRoute = true /\ om_UID (gw_Meta gw) = om_UID (gw_Meta expectedGateway) /\
  om_Deleting (gw_Meta gw) = false /\ gatewayBound r gw = true /\ usableRouteClass class /\ length (hr_ParentRefs route) = 1.
Proof.
  unfold observeRouteValidationInputs. intros Hx. inv_read. bool_hyps. unfold usableRouteClass.
  match goal with H : (_ =? 1)%nat = true |- _ => apply Nat.eqb_eq in H end. auto 12.
Qed.

Lemma validateRouteSnapshotParent_ok route gw class parent :
  validateRouteSnapshotParent r route gw class routeSnapshotForEnsure = Ok (Some parent) -> length (hr_ParentRefs route) = 1 ->
  soleParent route gw class parent.
Proof.
  unfold validateRouteSnapshotParent, soleParent. destruct (GatewayModel.Validate gw) as [listener|]; [|done].
  destruct (hr_ParentRefs route) as [|ref [|]]; [done| |done]. intros Hx _.
  destruct (validateRouteParent _ _) as [[]|] eqn:Ev; [|done].
  destruct (String.eqb_spec (annotation (gw_Meta gw) (GatewayListenerPortAnnotation cfg)) (decimal_Z (gl_Port listener))); [|done].
  exists ref, listener. injection Hx as <-. auto.
Qed.

Lemma selectAndBuildRouteModel_ok route gw parent tr desired :
  exec (selectAndBuildRouteModel r route gw parent routeSnapshotForEnsure) tr (Ok desired) -> exists slot chosen built,
    tr = slot ++ chosen ++ built /\
    (structurallySupportedRoute route = true ->
       exists d, exec (evaluateRouteSlotWithReader Live route) slot (Ok d) /\ rsd_canReserve d = true) /\
    exec (isSelectedRouteWithReader Live route parent false) chosen (Ok true) /\
    exec (buildRouteSpecWithReader cfg Live route gw) built (Ok desired).
Proof.
  unfold selectAndBuildRouteModel. intros Hx. inv_read. subst. do 3 eexists. split; [done|]. split; [|done].
  intros Hs. match goal with H : context [if structurallySupportedRoute route then _ else _] |- _ => rewrite Hs in H end.
  inv_read. eauto.
Qed.

(** A snapshot that allows the provider to be called. *)
Lemma buildRouteValidationSnapshot_ok expectedRoute expectedGateway tr snapshot :
  exec (buildRouteValidationSnapshot r expectedRoute expectedGateway routeSnapshotForEnsure) tr (Ok snapshot) ->
  vs_disposition snapshot = routeValidationReady ->
  sameRevision (vs_route snapshot) expectedRoute = true /\
  om_UID (gw_Meta (vs_gateway snapshot)) = om_UID (gw_Meta expectedGateway) /\
  exists desired, vs_desired snapshot = Some desired /\ routeModelled (vs_route snapshot) (vs_gateway snapshot) desired tr.
Proof.
  unfold buildRouteValidationSnapshot. intros Hx Hd. inv_read.
  match goal with p : (_ * _ * _)%type |- _ => destruct p as [[route gw] class] end. inv_read.
  match goal with H : exec (observeRouteValidationInputs _ _ _ _) _ _ |- _ =>
    apply observeRouteValidationInputs_ok in H as (-> & Hrev & Hu & Hdel & Hb & Hc & Hone) end.
  match goal with H : validateRouteSnapshotParent _ _ _ _ _ = Ok ?o |- _ => destruct o as [parent|]; [|by inv_read; simplify_eq] end.
  match goal with H : validateRouteSnapshotParent _ _ _ _ _ = Ok _ |- _ => apply validateRouteSnapshotParent_ok in H as Hp; [|done] end.
  inv_read.
  match goal with H : exec (selectAndBuildRouteModel _ _ _ _ _) _ (Ok ?d) |- _ =>
    apply selectAndBuildRouteModel_ok in H as (slot & chosen & built & -> & Hslot & Hsel & Hbuilt); rename d into desired end.
  match goal with H : finishRouteBindingSnapshot _ _ _ _ _ _ = Ok _ |- _ => rename H into Hf end.
  unfold finishRouteBindingSnapshot in Hf. destruct (storedRouteIdentity r route) as [stored|]; [|done]. cbn in Hf.
  assert (vs_route snapshot = route /\ vs_gateway snapshot = gw /\ vs_desired snapshot = Some desired) as (-> & -> & ->).
  { destruct (_ && _); [|destruct (negb _)]; by simplify_eq. }
  split; [done|]. split; [done|]. exists desired. split; [done|].
  eexists _, _, class, parent, slot, chosen, built. rewrite ?app_nil_r. auto 12.
Qed.

Lemma sealRouteMutationSnapshot_ok snapshot tr :
  exec (sealRouteMutationSnapshot r snapshot routeBindingRequired) tr (Ok tt) ->
  routeSealed (vs_route snapshot) (vs_gateway snapshot) tr.
Proof.
  unfold sealRouteMutationSnapshot. intros Hx. inv_read. bool_hyps.
  match goal with H : routeBoundTo _ ?x ?y = Ok true |- _ => rename H into Hb, x into route', y into gw' end.
  unfold routeBoundTo in Hb. destruct (storedRouteIdentity r route') as [stored|] eqn:Es; [|done].
  injection Hb as Hb. bool_hyps. subst stored. do 4 eexists. split; [done|]. by repeat split.
Qed.

Lemma cleanupStillDesired_ok route id parent tr :
  exec (cleanupStillDesired r route id parent) tr (Ok routeCleanupRequired) ->
  GatewayClassSupportsInstalledVersion (mp_gatewayClass parent) = true /\ refusedByParent route id parent tr.
Proof.
  unfold cleanupStillDesired, refusedByParent. intros Hx. inv_read. split; [done|].
  destruct (negb (match validateRouteParent _ _ with Ok _ => _ | Err _ => _ end) || _) eqn:Er.
  { inv_read. left. split; [done|]. apply orb_prop in Er as [Hv|Hs]; [left; by destruct (validateRouteParent _ _) |right; by apply negb_true_iff]. }
  inv_read. right. match goal with H : exec (evaluateRouteSlotWithReader _ _) ?t (Ok ?d) |- _ => rename d into slot, t into ts end.
  destruct (rsd_canReserve slot) eqn:Ec; cbn [negb] in *; inv_read; [|left; rewrite ?app_nil_r; eauto].
  right. match goal with H : exec (isSelectedRouteWithReader _ _ _ _) ?t (Ok ?b) |- _ => destruct b; cbn [negb] in *; rename t into tc end;
    inv_read; [|left; rewrite ?app_nil_r; eauto].
  right. match goal with H : exec (try _ _) _ _ |- _ => apply exec_bind in H as (tb & tb' & x & -> & Hb & Hx) end.
  exists (ts ++ tc), tb, x. destruct x as [desired|e]; [|destruct (asRouteBuildError e) eqn:Ea; [|destruct (IsNotFound e) eqn:En]];
    inv_read; rewrite <- ?app_assoc, ?app_nil_r; (split; [done|]; split; [done|]); [|by left|by right].
  destruct (bool_decide_reflect (rs_Identity desired = id)); by simplify_eq.
Qed.

Lemma routeCleanupDispositionFor_ok route id tr :
  exec (routeCleanupDispositionFor r route id) tr (Ok routeCleanupRequired) -> routeReleased route id tr.
Proof.
  unfold routeCleanupDispositionFor, routeReleased. intros Hx. destruct (isDeleting route); [inv_read; auto|]. right. inv_read.
  match goal with H : exec (observeRouteParentsForCleanup _ _) ?t (Ok ?o) |- _ => rename H into Ho, t into t1, o into parents0 end.
  destruct (routeCleanupAllowedDuringVersionMismatch _ _) eqn:Ea; inv_read; [left; rewrite ?app_nil_r; eauto|]. right.
  match goal with H : exec (observeRouteParentsForCleanup _ _) ?t (Ok ?o), H' : exec (match _ with [] => _ | _ => _ end) ?u _ |- _ =>
    rename H into Ho', t into t2, o into parents, H' into Hx, u into t3 end.
  exists t1, definitions, t2, t3, parents. split; [done|]. split; [done|]. split; [done|].
  destruct (managedParentsFromObservations parents) as [|parent [|]] eqn:Em; inv_read; [left; by auto| |left; by auto].
  destruct (Nat.eqb_spec (length (hr_ParentRefs route)) 1); [|inv_read; left; by auto].
  right. exists parent. split; [done|]. by apply cleanupStillDesired_ok.
Qed.

(** The two snapshots that precede a deletion make its fence. *)
Lemma routeCleanup_fence expected id tr1 snapshot tr2 t0 :
  exec (buildRouteCleanupSnapshot r expected id) tr1 (Ok snapshot) -> rcs_disposition snapshot = routeCleanupRequired ->
  exec (sealRouteCleanupSnapshot r snapshot) tr2 (Ok tt) ->
  rcs_identity snapshot = id /\
  routeCleanupFence (t0 ++ Read (KAcquireGraph (GatewayUID id)) tt :: tr1 ++ tr2) (rcs_route snapshot) id.
Proof.
  unfold buildRouteCleanupSnapshot, sealRouteCleanupSnapshot. intros Hx Hd Hy. inv_read. bool_hyps. cbn in *. subst.
  match goal with H : exec (routeCleanupDispositionFor _ _ _) _ _ |- _ => apply routeCleanupDispositionFor_ok in H end.
  split; [done|]. eexists t0, _, _, _. rewrite ?app_nil_r. by repeat split.
Qed.

(** ** Every change is authorised *)

Lemma routeAuthority_app t0 t q : routeAuthority t q -> routeAuthority (t0 ++ t) q.
Proof.
  intros (pre & p & -> & Hp). exists (t0 ++ pre), p. split; [by rewrite app_assoc|].
  destruct Hp as [(route & gw & d & (s0 & t1 & t2 & -> & Hf) & Hn)|(route & id & (s0 & key & seen & route' & -> & Hf) & Hn)].
  - left. exists route, gw, d. split; [|done]. exists (t0 ++ s0), t1, t2. split; [by rewrite app_assoc|done].
  - right. exists route, id. split; [|done]. exists (t0 ++ s0), key, seen, route'. split; [by rewrite app_assoc|done].
Qed.

Lemma ensureLockedRoute_guarded expected t0 route :
  GuardedFrom isMutation routeAuthority (t0 ++ [Read (KAcquireGraph (om_UID (gw_Meta expected))) tt])
    (ensureLockedRoute r expected route).
Proof.
  unfold ensureLockedRoute. rewrite sbind_sget.
  apply GuardedFrom_sbind; [apply GuardedFrom_Avoids; solve_avoids|]. intros tr1 snapshot s1 [-> Hx1]%exec_slift.
  destruct (vs_disposition snapshot) eqn:Ed; [apply GuardedFrom_Avoids; solve_avoids..|].
  apply buildRouteValidationSnapshot_ok in Hx1 as (_ & Hu & desired & Hdes & Hm); [|done].
  apply GuardedFrom_sbind; [apply GuardedFrom_Avoids; solve_avoids|]. intros tr2 [] s2 [-> Hx2]%exec_slift.
  apply sealRouteMutationSnapshot_ok in Hx2. rewrite Hdes.
  apply GuardedFrom_sbind; [|intros; apply GuardedFrom_Avoids; solve_avoids].
  apply GuardedFrom_bind; [|intros; apply GuardedFrom_Avoids; solve_avoids].
  apply GuardedFrom_bind; [|intros; apply GuardedFrom_Avoids; solve_avoids].
  intros tr3 result Hx3 t1 e t2 Ht _. eexists _, t1. split; [done|]. left.
  exists (vs_route snapshot), (vs_gateway snapshot), desired. split; [|by eapply nextRequest_split].
  exists t0, tr1, tr2. rewrite Hu. split; [by rewrite <- !app_assoc|done].
Qed.

Lemma deleteLockedRoute_guarded expected id t0 :
  GuardedFrom isMutation routeAuthority (t0 ++ [Read (KAcquireGraph (GatewayUID id)) tt]) (deleteLockedRoute r expected id).
Proof.
  unfold deleteLockedRoute.
  apply GuardedFrom_mbind; [apply GuardedFrom_Avoids; solve_avoids|]. intros tr1 snapshot Hx1.
  destruct (rcs_disposition snapshot) eqn:Ed; [|apply GuardedFrom_Avoids; solve_avoids].
  apply GuardedFrom_mbind; [apply GuardedFrom_Avoids; solve_avoids|]. intros tr2 [] Hx2.
  intros tr3 result Hx3 t1 e t2 Ht _.
  destruct (routeCleanup_fence _ _ _ _ _ t0 Hx1 Ed Hx2) as [Hid Hf]. rewrite Hid in Hx3.
  eexists _, t1. split; [done|]. right. exists (rcs_route snapshot), id. split; [|by eapply nextRequest_split].
  by rewrite <- !app_assoc.
Qed.

(** A body that is guarded after the lock was taken. *)
Lemma lockedRoute_guarded {A} uid (body : SM HTTPRoute A) s :
  (forall t0, GuardedFrom isMutation routeAuthority (t0 ++ [Read (KAcquireGraph uid) tt]) (body s)) ->
  Guarded isMutation routeAuthority (lockedRoute r uid body s).
Proof.
  intros Hb pre. unfold lockedRoute. destruct (negb _); [apply GuardedFrom_Avoids; solve_avoids|].
  by apply GuardedFrom_locked.
Qed.

#[local] Instance ensureRouteGraph_guarded expected s : Guarded isMutation routeAuthority (ensureRouteGraph r expected s).
Proof. apply lockedRoute_guarded. intros. apply ensureLockedRoute_guarded. Qed.
#[local] Instance deleteRoute_guarded expected id : Guarded isMutation routeAuthority (deleteRoute r expected id).
Proof.
  apply Guarded_bind; [|intros; apply Guarded_Avoids; solve_avoids]. apply lockedRoute_guarded. intros t0.
  apply GuardedFrom_bind; [apply deleteLockedRoute_guarded|]. intros; apply GuardedFrom_Avoids; solve_avoids.
Qed.

(** C2. Every request by which a reconciliation of an HTTPRoute changes
    OpenStack is the next request of EnsureRoute for the model built from live
    reads and sealed by a second read, or of DeleteRoute for the stored identity
    of a route that is released, always under the lock of the Gateway's graph.
    *)
Theorem route_changes_are_authorised key tr result t1 e t2 :
  exec (Reconcile r key) tr result -> tr = t1 ++ e :: t2 -> isMutation (ev_req e) = true ->
  routeAuthority t1 (ev_req e).
Proof.
  intros Hx Ht He. enough (Guarded isMutation routeAuthority (Reconcile r key)) as Hg by exact (Hg [] _ _ Hx _ _ _ Ht He).
  solve_guarded.
Qed.

(** ** The lock is given back *)

Context `{!ControllerUtilLaws, !ApiMetaLaws, !CloudProviderLaws}.

(** A reconciliation takes at most one graph lock at a time and gives it back,
    however it ends. *)
Lemma route_locks_balanced key tr result : exec (Reconcile r key) tr result -> balanced (locks tr).
Proof.
  enough (Balanced (Reconcile r key)) as Hb by exact (Hb tr result).
  pose proof (ensure_route_avoids isLock). pose proof (delete_route_avoids isLock).
  solve_balanced.
Qed.

(** ** The binding goes last *)

(** Patches that take the finalizer off a route. *)
Definition dropsRouteFinalizer (q : request) : bool :=
  match q with
  | ReqKube (KPatchHTTPRoute base target) => hasRouteFinalizer r base && negb (hasRouteFinalizer r target)
  | _ => false
  end.
#[local] Instance dropsRouteFinalizer_kube : KubeOnly dropsRouteFinalizer.
Proof. by intros []. Qed.

(** An authorised deletion of the route's part of the graph reported Ready. *)
Definition routeDeletionConfirmed (t : list event) (id : Identity) : Prop :=
  exists pre p rest route o, t = pre ++ p ++ rest /\ routeCleanupFence pre route id /\
    exec (Provider_DeleteRoute id) p (Ok o) /\ o_State o = OutcomeReady.

(** The route that loses the finalizer is bound to nothing, or to a Gateway from
    whose graph it was removed. *)
Definition routeFinalizerAuthority (t : list event) (q : request) : Prop :=
  match q with
  | ReqKube (KPatchHTTPRoute base _) =>
      exists stored, storedRouteIdentity r base = Ok stored /\
        match stored with Some id => routeDeletionConfirmed t id | None => True end
  | _ => False
  end.

Lemma routeDeletionConfirmed_app t t' id : routeDeletionConfirmed t id -> routeDeletionConfirmed (t ++ t') id.
Proof.
  intros (pre & p & rest & route & o & -> & Hd). exists pre, p, (rest ++ t'), route, o. by rewrite <- !app_assoc.
Qed.

Lemma deleteRoute_confirmed expected id pre tr o :
  exec (deleteRoute r expected id) tr (Ok o) -> o_State o = OutcomeReady -> routeDeletionConfirmed (pre ++ tr) id.
Proof.
  unfold deleteRoute, lockedRoute. intros (tr1 & tr2 & [s x] & -> & Hl & [-> Hx])%exec_bind Ho. cbn [snd] in Hx. subst x.
  destruct (negb _); [by destruct Hl as [_ [=]]|]. rewrite app_nil_r.
  apply exec_locked in Hl as [(e & [=] & _)|(_ & _ & t & y & -> & [-> Hl]%exec_slift)].
  unfold deleteLockedRoute in Hl. inv_read.
  match goal with H : exec (buildRouteCleanupSnapshot _ _ _) ?a (Ok ?s) |- _ => rename H into Hs, s into snapshot, a into ta end.
  destruct (rcs_disposition snapshot) eqn:Ed; inv_read.
  match goal with H : exec (sealRouteCleanupSnapshot _ _) ?a (Ok ?u) |- _ => destruct u; rename H into Hc, a into tb end.
  destruct (routeCleanup_fence _ _ _ _ _ pre Hs Ed Hc) as [Hid Hf]. rewrite Hid in *.
  match goal with H : exec (Provider_DeleteRoute id) ?a (Ok o) |- _ => rename H into Hp, a into tp end.
  eexists _, tp, _, _, o. split; [|done]. rewrite <- !app_assoc. cbn [app]. by rewrite <- !app_assoc.
Qed.

Lemma clearStoredRouteBinding_guarded expected s pre :
  match expected with Some id => routeDeletionConfirmed pre id | None => True end ->
  GuardedFrom dropsRouteFinalizer routeFinalizerAuthority pre (clearStoredRouteBinding r expected s).
Proof.
  intros He. unfold clearStoredRouteBinding. destruct (negb _); [apply GuardedFrom_Avoids; solve_avoids|].
  apply GuardedFrom_retry. intros _ route t. unfold clearAttempt. rewrite sbind_sget.
  apply GuardedFrom_sbind; [apply GuardedFrom_Avoids; solve_avoids|].
  intros tr [[current stored]|] s' [-> Hf]%exec_slift; [|apply GuardedFrom_Avoids; solve_avoids].
  destruct (bool_decide_reflect (stored = expected)) as [->|]; cbn [negb]; [|apply GuardedFrom_Avoids; solve_avoids].
  assert (storedRouteIdentity r current = Ok expected) as Hst.
  { unfold getRouteBindingWithReader in Hf. apply exec_bind in Hf as (t1 & t2 & found & -> & _ & Hf).
    destruct found as [c|e]; [|destruct (IsNotFound e)]; inv_read. by simplify_eq/=. }
  cbv zeta. destruct (routeBindingMetadataEqual _ _); [apply GuardedFrom_Avoids; solve_avoids|].
  apply GuardedFrom_sbind; [|intros; apply GuardedFrom_Avoids; solve_avoids].
  apply GuardedFrom_bind; [|intros; apply GuardedFrom_Avoids; solve_avoids].
  apply GuardedFrom_bind; [|intros; apply GuardedFrom_Avoids; solve_avoids].
  intros tr' x ->%exec_call t1 e t2 Ht _. destruct t1 as [|? []]; simplify_eq/=. exists expected. split; [done|].
  destruct expected; [|done]. rewrite <- !app_assoc. by apply routeDeletionConfirmed_app.
Qed.

(** The two other procedures that patch a route keep the finalizer. *)
#[local] Instance patchRouteCleanupFailure_keeps_finalizer reason s :
  Avoids dropsRouteFinalizer (patchRouteCleanupFailure r reason s).
Proof.
  apply Avoids_retry. intros _ route. apply Avoids_sbind; [solve_avoids|]. intros route' s'.
  apply Avoids_sbind; [solve_avoids|]. intros [current|e] s''; [|solve_avoids].
  destruct (negb _); [solve_avoids|]. cbv zeta. destruct (String.eqb (annotation _ _) _); [solve_avoids|].
  apply Avoids_sbind; [|solve_avoids]. apply Avoids_stry, Avoids_slift. apply Avoids_Call; [|solve_avoids].
  unfold dropsRouteFinalizer, hasRouteFinalizer. destruct (String.eqb reason ""); cbn;
    by destruct (ContainsFinalizer _ _).
Qed.

#[local] Instance bindRouteFromSnapshot_keeps_finalizer gateway initial s :
  Avoids dropsRouteFinalizer (bindRouteFromSnapshot r gateway initial s).
Proof.
  apply Avoids_retry. intros attempt route. unfold bindAttempt. apply Avoids_sbind; [solve_avoids|]. intros route' s'.
  do 3 (apply Avoids_sbind; [solve_avoids|]; intros ? ?). cbv zeta.
  destruct (routeBindingMetadataEqual _ _); [solve_avoids|].
  apply Avoids_sbind; [|solve_avoids]. apply Avoids_slift, Avoids_Call; [|solve_avoids].
  unfold dropsRouteFinalizer, hasRouteFinalizer. apply andb_false_intro2, negb_false_iff, contains_spec.
  cbn [withRouteMeta hr_Meta]. apply applyRouteBinding_finalizers. by left.
Qed.

Lemma valid_ready o : Cloud.Validate o = Ok tt -> isProgressing o = false -> o_State o = OutcomeReady.
Proof. destruct o as [[] ? ?]; cbn; [done|by intros _ ?%bool_decide_eq_false|done]. Qed.

Lemma afterDeletion_guarded what current o ready s pre id :
  (o_State o = OutcomeReady -> routeDeletionConfirmed pre id) ->
  (routeDeletionConfirmed pre id -> GuardedFrom dropsRouteFinalizer routeFinalizerAuthority pre (ready s)) ->
  GuardedFrom dropsRouteFinalizer routeFinalizerAuthority pre (afterDeletion r what current o ready s).
Proof.
  intros Ho Hr. unfold afterDeletion. destruct (Cloud.Validate o) as [[]|] eqn:Ev; [|apply GuardedFrom_Avoids; solve_avoids].
  destruct (isProgressing o) eqn:Ep; [apply GuardedFrom_Avoids; solve_avoids|]. by apply Hr, Ho, valid_ready.
Qed.

(** [clearStoredRouteBinding] once the deletion is confirmed. *)
Lemma clear_after_guarded pre id s :
  routeDeletionConfirmed pre id ->
  GuardedFrom dropsRouteFinalizer routeFinalizerAuthority pre
    (sbind (clearStoredRouteBinding r (Some id)) (fun _ => sret noResult) s).
Proof.
  intros Hd. apply GuardedFrom_sbind; [by apply clearStoredRouteBinding_guarded|]. intros; apply GuardedFrom_Avoids; solve_avoids.
Qed.

#[local] Instance detachRoute_guarded s : Guarded dropsRouteFinalizer routeFinalizerAuthority (detachRoute r s).
Proof.
  pose proof (delete_route_avoids dropsRouteFinalizer). intros pre. unfold detachRoute. rewrite sbind_sget.
  apply GuardedFrom_sbind; [apply GuardedFrom_Avoids; solve_avoids|]. intros tr1 [[current stored]|] s1 _.
  2: { apply GuardedFrom_Avoids; solve_avoids. }
  cbv zeta. destruct stored as [id|].
  - apply GuardedFrom_sbind; [apply GuardedFrom_Avoids; solve_avoids|]. intros tr2 o s2 [-> Hd%exec_wrap_ok]%exec_slift.
    eapply afterDeletion_guarded; [intros; by eapply deleteRoute_confirmed|]. intros. by apply clear_after_guarded.
  - destruct (hasRouteFinalizer _ _); [apply GuardedFrom_Avoids; solve_avoids|].
    apply GuardedFrom_sbind; [by apply clearStoredRouteBinding_guarded|]. intros; apply GuardedFrom_Avoids; solve_avoids.
Qed.

#[local] Instance finalizeRoute_guarded s : Guarded dropsRouteFinalizer routeFinalizerAuthority (finalizeRoute r s).
Proof.
  pose proof (delete_route_avoids dropsRouteFinalizer). intros pre. unfold finalizeRoute. rewrite sbind_sget. cbv zeta.
  apply GuardedFrom_sbind; [apply GuardedFrom_Avoids; solve_avoids|]. intros tr1 [[current stored]|] s1 _.
  2: { apply GuardedFrom_Avoids; solve_avoids. }
  destruct stored as [id|]; [|apply GuardedFrom_Avoids; solve_avoids].
  apply GuardedFrom_sbind; [apply GuardedFrom_Avoids; solve_avoids|].
  intros tr2 deleted s2 (y & [= <-] & [-> Hd]%exec_slift)%exec_stry. destruct deleted as [o|e]; [|apply GuardedFrom_Avoids; solve_avoids].
  apply GuardedFrom_bind; [|intros; apply GuardedFrom_Avoids; solve_avoids].
  eapply afterDeletion_guarded; [intros; by eapply deleteRoute_confirmed|]. intros. by apply clear_after_guarded.
Qed.

(** The finalizer is only taken off a route that is bound to nothing, or after
    the provider, authorised to remove it from the graph of the Gateway it is
    bound to, reported that nothing of it is left. *)
Lemma route_finalizer_dropped_last key tr result t1 base target x t2 :
  exec (Reconcile r key) tr result -> tr = t1 ++ Ev (ReqKube (KPatchHTTPRoute base target)) x :: t2 ->
  hasRouteFinalizer r base = true -> hasRouteFinalizer r target = false ->
  storedRouteIdentity r base = Ok None \/
  exists id, storedRouteIdentity r base = Ok (Some id) /\ routeDeletionConfirmed t1 id.
Proof.
  intros Hx Ht Hb Ht'.
  enough (Guarded dropsRouteFinalizer routeFinalizerAuthority (Reconcile r key)) as Hg.
  { destruct (Hg [] _ _ Hx _ _ _ Ht) as ([id|] & Hs & Hd); [by cbn; rewrite Hb, Ht'|right; eauto|by left]. }
  pose proof (ensure_route_avoids dropsRouteFinalizer). solve_guarded.
Qed.
End facts.
