(* ===== verification/RouteProgrammedFacts.v ===== *)
(** * Programmed routes

    A status of an HTTPRoute that says [Programmed=True] repeats one the API
    server returned, or follows an execution of the provider that found the
    route's resources in place. *)
From stdpp Require Import base list strings gmap.
From Stdlib Require Import ZArith Lia.
From S2P Require Import Prelude GoStrings Cloud Kube KubeObjects References OpenStack ProgramLogic Outcomes Binding Indexes KubeClient ReconcileLogic OpenStackProvider GatewayModel GatewayReconciler GatewayReconcilerFacts RouteModel RouteStatus RouteReconciler RouteReconcilerFacts.

Set Default Goal Selector "!".

Section facts.
Context `{ControllerUtil, ApiMeta, KubeErrors, ForeignTexts, GatewayConsts, CloudProvider} (r : Reconciler).
Context `{!ControllerUtilLaws, !ApiMetaLaws, !CloudProviderLaws}.

Abbreviation cfg := (rc_Config r).

(** ** Plans *)

(** [c] is the [Programmed=True] condition of a status of this controller. *)
Definition programmedBy (route : HTTPRoute) (s : RouteParentStatus) (c : Condition) : Prop :=
  s ∈ statusParents route /\ rps_ControllerName s = cfg_ControllerName cfg /\
  FindStatusCondition (rps_Conditions s) (programmedType cfg) = Some c /\ c_Status c = ConditionTrue.

(** The route shows [Programmed=True] for the parent at a generation. *)
Definition programmedAt (route : HTTPRoute) (parent : ParentReference) (generation : Z) : Prop :=
  exists s c, programmedBy route s c /\ c_ObservedGeneration c = generation /\
    denotes (routeNamespace route) (rps_ParentRef s) = denotes (routeNamespace route) parent.

(** No update says [Programmed=True] of its parent. *)
Definition noneProgrammed (updates : list parentStatusUpdate) : Prop :=
  Forall (fun u => st_programmed (pu_status u) <> ConditionTrue) updates.

(** A plan for a failure publishes one. *)
Definition failurePlan (p : routeStatusPlan) : Prop :=
  match p with
  | PlanReplace _ _ => True
  | PlanProviderFailure updates _ _ => noneProgrammed updates
  | PlanDeletingFailure _ policy => fp_ConditionStatus policy <> ConditionTrue
  end.

Lemma firstUpdates_subset route earlier updates u : u ∈ firstUpdates route earlier updates -> u ∈ updates.
Proof.
  revert earlier. induction updates as [|v updates IH]; intros earlier; [done|]. cbn [firstUpdates].
  intros [Hu|Hu]%elem_of_app; [|right; by eapply IH]. destruct (existsb _ _); [by apply elem_of_nil in Hu|].
  apply list_elem_of_singleton in Hu as ->. by left.
Qed.

(** The condition set last is the one that is found. *)
Lemma setConditions_programmed l u a b g c :
  FindStatusCondition (setConditions l (updateConditions cfg u a b g)) (programmedType cfg) = Some c ->
  c_Status c = st_programmed (pu_status u) /\ c_ObservedGeneration c = g.
Proof.
  unfold setConditions, updateConditions. cbn [fold_left]. unfold SetCondition at 1.
  match goal with |- context [SetStatusCondition ?l ?v] => destruct (find_set_same l v) as [t Ht]; change (programmedType cfg) with (c_Type v) at 2 end.
  rewrite Ht. by intros [= <-].
Qed.

Lemma failDeleting_programmed route parent policy l s :
  fp_ConditionStatus policy <> ConditionTrue -> s ∈ fst (failDeleting cfg route parent policy l) ->
  s ∈ l \/ forall c, FindStatusCondition (rps_Conditions s) (programmedType cfg) = Some c -> c_Status c <> ConditionTrue.
Proof.
  intros Hp. induction l as [|s0 l IH]; cbn [failDeleting fst]; [by left|]. destruct (ownStatus _ _ _ _).
  - intros [->|Hs]%elem_of_cons; [|left; by right]. right. cbn [withConditions rps_Conditions]. unfold SetCondition. intros c.
    match goal with |- context [SetStatusCondition ?l ?v] => destruct (find_set_same l v) as [t Ht]; change (programmedType cfg) with (c_Type v) at 2 end.
    rewrite Ht. by intros [= <-].
  - destruct (failDeleting cfg route parent policy l) as [rest b]. cbn [fst] in *.
    intros [->|Hs]%elem_of_cons; [left; by left|]. destruct (IH Hs); [left; by right|by right].
Qed.

Lemma othersStatuses_own route s : s ∈ othersStatuses cfg route -> rps_ControllerName s <> cfg_ControllerName cfg.
Proof.
  unfold othersStatuses. rewrite list_elem_of_In, List.filter_In. intros [_ Hs]. by destruct (String.eqb_spec (rps_ControllerName s) (cfg_ControllerName cfg)).
Qed.

(** What a plan leaves as programmed was so before, or the plan says so, at the
    generation of the route. *)
Lemma applyPlan_programmed p route s c :
  failurePlan p -> programmedBy (fst (applyPlan cfg p route)) s c ->
  programmedBy route s c \/
  c_ObservedGeneration c = routeGeneration route /\
  exists u, u ∈ planUpdates p /\ rps_ParentRef s = pu_parent u /\ st_programmed (pu_status u) = ConditionTrue.
Proof.
  intros Hp (Hs & Hc & Hf & Ht). destruct p as [updates v|updates policy e|parent policy].
  1-2: right; cbn in Hs; apply elem_of_app in Hs as [Hs%othersStatuses_own|(u & -> & Hu%firstUpdates_subset)%list_elem_of_fmap];
    [done|]; cbn in Hf; apply setConditions_programmed in Hf as [Hst Hg]; rewrite Ht in Hst.
  - split; [done|]. exists u. by split_and!.
  - cbn in Hp. unfold noneProgrammed in Hp. rewrite Forall_forall in Hp. by apply Hp in Hu.
  - left. cbn [applyPlan] in Hs. unfold applyDeletingRouteProviderFailure in Hs. destruct (negb _); [done|].
    pose proof (failDeleting_programmed route parent policy (statusParents route) s Hp) as Hd.
    destruct (failDeleting _ _ _ _ _) as [l b]. split_and!; [|done..]. unfold statusParents in *. cbn in Hs.
    destruct (hr_StatusParents route) as [parents|]; cbn in *; [|by apply elem_of_nil in Hs].
    destruct (Hd Hs) as [Hin|Hn]; [done|by destruct (Hn _ Hf)].
Qed.

Lemma statusForRouteBuildError_programmed e : st_programmed (statusForRouteBuildError e) <> ConditionTrue.
Proof.
  unfold statusForRouteBuildError. destruct (IsNotFound e); [done|]. destruct (asRouteBuildError e) as [[m k]|]; [|done].
  by repeat destruct (String.eqb k _).
Qed.

(** ** The scope *)

(** The route a response of the API server carries. *)
Definition eventRoute (e : event) : option HTTPRoute :=
  match e with
  | Ev q x =>
      match q return outcome_of (response q) -> option HTTPRoute with
      | ReqKube (KGetHTTPRoute _ _) | ReqKube (KPatchHTTPRoute _ _) | ReqKube (KPatchHTTPRouteStatus _ _) =>
          fun x => match x with Ok g => Some g | Err _ => None end
      | _ => fun _ => None
      end x
  end.

(** The API server returned the route with this object ID, and it showed
    [Programmed=True] for the parent at the generation. *)
Definition repeatsStored (t : list event) (route : HTTPRoute) (parent : ParentReference) (generation : Z) : Prop :=
  exists e stored, e ∈ t /\ eventRoute e = Some stored /\ om_UID (hr_Meta stored) = om_UID (hr_Meta route) /\
    programmedAt stored parent generation.

Lemma repeatsStored_app t t' route parent g : repeatsStored t route parent g -> repeatsStored (t ++ t') route parent g.
Proof. intros (e & stored & He & Hr). exists e, stored. split; [set_solver|done]. Qed.

(** The plan of the scope says [Programmed=True] of nothing. *)
Definition noFreshPlan (t : list event) (s : httpRouteScope) : Prop :=
  forall p, rs_statusPlan s = Some p -> failurePlan p /\ noneProgrammed (planUpdates p).

Lemma noFreshPlan_app t t' s : noFreshPlan t s -> noFreshPlan (t ++ t') s.
Proof. done. Qed.

Lemma noFreshPlan_same t s s' : rs_statusPlan s' = rs_statusPlan s -> noFreshPlan t s -> noFreshPlan t s'.
Proof. intros He Hs p. rewrite He. apply Hs. Qed.

Abbreviation KeepsPlan := (Keeps noFreshPlan).

#[local] Instance onRoute_keeps {A} (m : SM HTTPRoute A) : KeepsPlan (onRoute m).
Proof.
  intros t s t' s' x Hs (t1 & t2 & [route y] & -> & _ & [-> [= -> ->]])%exec_bind.
  apply noFreshPlan_app. by eapply noFreshPlan_same.
Qed.

Lemma setStatuses_noFresh t updates s : noneProgrammed updates -> noFreshPlan t (setStatuses updates s).
Proof. by intros Hu p [= <-]. Qed.

Lemma setFailure_noFresh t updates policy evaluated s :
  noneProgrammed updates -> noFreshPlan t (setProviderFailureStatuses updates policy evaluated s).
Proof. by intros Hu p [= <-]. Qed.

Lemma setDeleting_noFresh t parent policy s :
  fp_ConditionStatus policy <> ConditionTrue -> noFreshPlan t (setDeletingFailureStatus parent policy s).
Proof. intros Hp p [= <-]. split; [done|by apply List.Forall_nil]. Qed.

Lemma recordRouteFailure_noFresh t w e s : noFreshPlan t s -> noFreshPlan t (recordRouteFailure w e s).
Proof. apply noFreshPlan_same. unfold recordRouteFailure. by destruct (negb _). Qed.

Lemma one_update parent status : st_programmed status <> ConditionTrue -> noneProgrammed [mkUpdate parent status].
Proof. by repeat constructor. Qed.

Lemma routeProviderFailureUpdates_none updates policy :
  fp_ConditionStatus policy <> ConditionTrue -> noneProgrammed (routeProviderFailureUpdates updates policy).
Proof. intros Hp. apply Forall_fmap, Forall_true. done. Qed.

(** [keep_plan]: along the structure of a procedure over the scope. *)
Ltac keep_plan :=
  solve_keeps noFreshPlan_app;
  repeat match goal with
  | |- noFreshPlan _ (setRoute _ _) => eapply noFreshPlan_same; [reflexivity|]
  | |- noFreshPlan _ (skipRoutePatch _) => eapply noFreshPlan_same; [reflexivity|]
  | |- noFreshPlan _ (setPlan _ None) => by intros ? [=]
  | |- noFreshPlan _ (recordRouteFailure _ _ _) => apply recordRouteFailure_noFresh
  | |- noFreshPlan _ (setStatuses _ _) => apply setStatuses_noFresh
  | |- noFreshPlan _ (setProviderFailureStatuses _ _ _ _) => apply setFailure_noFresh
  | |- noFreshPlan _ (setDeletingFailureStatus _ _ _) => apply setDeleting_noFresh
  end; try done.

#[local] Instance routeStatusCheckpointNeeded_keeps : KeepsPlan (routeStatusCheckpointNeeded r).
Proof. keep_plan. Qed.

Lemma routeCleanupStatusCheckpointNeeded_keeps updates :
  noneProgrammed updates -> KeepsPlan (routeCleanupStatusCheckpointNeeded r updates).
Proof. intros Hu. keep_plan. Qed.

Lemma handleRouteProviderFailure_keeps parent evaluated e action : KeepsPlan (handleRouteProviderFailure parent evaluated e action).
Proof.
  unfold handleRouteProviderFailure. destruct (ProviderFailurePolicyFor e) as [policy|] eqn:Ep; [|keep_plan].
  apply policy_not_true in Ep. keep_plan. apply one_update. by destruct evaluated.
Qed.

Lemma handleRouteFinalizationFailure_keeps id e : KeepsPlan (handleRouteFinalizationFailure r id e).
Proof.
  unfold handleRouteFinalizationFailure. destruct (ProviderFailurePolicyFor e) as [policy|] eqn:Ep; [|keep_plan].
  apply policy_not_true in Ep. keep_plan.
Qed.

Lemma handleDetachFailure_keeps updates e : KeepsPlan (handleDetachFailure r updates e).
Proof.
  unfold handleDetachFailure. destruct (ProviderFailurePolicyFor e) as [policy|] eqn:Ep; [|keep_plan].
  apply policy_not_true in Ep. keep_plan.
  all: destruct (bool_decide _); keep_plan; [constructor|by apply routeProviderFailureUpdates_none].
Qed.

Lemma finalizeRoute_keeps : KeepsPlan (finalizeRoute r).
Proof. pose proof handleRouteFinalizationFailure_keeps. keep_plan. Qed.

Lemma reconcileDelete_keeps : KeepsPlan (reconcileDelete r).
Proof. pose proof finalizeRoute_keeps. keep_plan. Qed.

(** ** Programmed is not made up *)

(** The provider found everything of this revision of the route in place, under
    the fence. *)
Definition routeEnsured (t : list event) (route : HTTPRoute) : Prop :=
  exists pre p t' route0 gw desired result,
    t = pre ++ p ++ t' /\ routeFence r pre route0 gw desired /\
    om_UID (hr_Meta route0) = om_UID (hr_Meta route) /\ om_Generation (hr_Meta route0) = om_Generation (hr_Meta route) /\
    exec (Provider_EnsureRoute desired) p (Ok result) /\ o_State (r_Outcome result) = OutcomeReady.

Lemma routeEnsured_app t t' route : routeEnsured t route -> routeEnsured (t ++ t') route.
Proof.
  intros (pre & p & t0 & route0 & gw & desired & result & -> & Hr).
  exists pre, p, (t0 ++ t'), route0, gw, desired, result. by rewrite <- !app_assoc.
Qed.

Lemma sameRevision_spec a b :
  sameRevision a b = true -> om_UID (hr_Meta a) = om_UID (hr_Meta b) /\ om_Generation (hr_Meta a) = om_Generation (hr_Meta b).
Proof. unfold sameRevision, sameHTTPRouteRevision. intros Hs. by bool_hyps. Qed.

Lemma ensureRouteGraph_ready expected pre route tr route' o :
  exec (ensureRouteGraph r expected route) tr (route', Ok (GraphOutcome (Some o))) -> o_State o = OutcomeReady ->
  route' = route /\ routeEnsured (pre ++ tr) route.
Proof.
  unfold ensureRouteGraph, lockedRoute. destruct (negb _); [by intros [_ [=]]|].
  intros [(e & [=] & _)|(_ & _ & t & y & -> & Hx)]%exec_locked Ho. unfold ensureLockedRoute in Hx. rewrite sbind_sget in Hx.
  apply exec_sbind in Hx as [(e & [=] & _)|(t1 & t2 & s1 & snapshot & -> & [-> Hs]%exec_slift & Hx)].
  destruct (vs_disposition snapshot) eqn:Ed.
  - by apply exec_sret in Hx as (_ & _ & [=]).
  - apply exec_sbind in Hx as [(e & [=] & _)|(t3 & t4 & s2 & [b|e] & -> & _ & Hx)];
      [by apply exec_sret in Hx as (_ & _ & [=])|by apply exec_sraise in Hx as (_ & _ & [=])].
  - apply buildRouteValidationSnapshot_ok in Hs as (Hrev & Hu & desired & Hdes & Hm); [|done].
    apply sameRevision_spec in Hrev as [Hru Hrg]. rewrite Hdes in Hx.
    apply exec_sbind in Hx as [(e & [=] & _)|(t3 & t4 & s2 & [] & -> & [-> Hseal]%exec_slift & Hx)].
    apply sealRouteMutationSnapshot_ok in Hseal.
    apply exec_sbind in Hx as [(e & [=] & _)|(t5 & t6 & s3 & result & -> & [-> Hp%exec_wrap_ok]%exec_slift & Hx)].
    apply exec_sbind in Hx as [(e & [=] & _)|(t7 & t8 & s4 & [] & -> & [-> Hv]%exec_slift & Hx)].
    apply exec_sret in Hx as (-> & -> & [= ->]). split; [done|].
    exists (pre ++ Read (KAcquireGraph (om_UID (gw_Meta expected))) tt :: t1 ++ t3), t5,
      (t7 ++ [Ev (ReqKube (KReleaseGraph (om_UID (gw_Meta expected)))) y]), (vs_route snapshot), (vs_gateway snapshot), desired, result.
    split; [rewrite <- !app_assoc; cbn [app]; by rewrite <- !app_assoc|]. split; [|done].
    exists pre, t1, t3. by rewrite Hu.
Qed.

(** A plan that is sound for the revision of a route: what it says is programmed
    was so already, at the generation of the route, or is in place. *)
Definition soundFor (t : list event) (p : routeStatusPlan) (route : HTTPRoute) : Prop :=
  failurePlan p /\
  forall u, u ∈ planUpdates p -> st_programmed (pu_status u) = ConditionTrue ->
    repeatsStored t route (pu_parent u) (routeGeneration route) \/ routeEnsured t route.

(** What a reconciliation leaves in the scope. *)
Definition planSound (t : list event) (s : httpRouteScope) : Prop :=
  forall p, rs_statusPlan s = Some p -> soundFor t p (rs_route s).

Lemma noFreshPlan_sound t s : noFreshPlan t s -> planSound t s.
Proof.
  intros Hs p Hp. destruct (Hs p Hp) as [Hf Hn]. split; [done|]. intros u Hu Ht. unfold noneProgrammed in Hn.
  rewrite Forall_forall in Hn. by apply Hn in Hu.
Qed.

(** A procedure that ends with a sound plan when it starts without one. *)
Class Settles {A} (m : SM httpRouteScope A) : Prop :=
  settling : forall t s t' s' x, noFreshPlan t s -> exec (m s) t' (s', x) -> planSound (t ++ t') s'.

Lemma Settles_keeps {A} (m : SM httpRouteScope A) : KeepsPlan m -> Settles m.
Proof. intros Hm t s t' s' x Hs Hx. apply noFreshPlan_sound. by eapply Hm. Qed.

Lemma Settles_sbind {A B} (m : SM httpRouteScope A) (f : A -> SM httpRouteScope B) :
  KeepsPlan m -> (forall a, Settles (f a)) -> Settles (sbind m f).
Proof.
  intros Hm Hf t s t' s' x HI [(e & -> & Hx)|(t1 & t2 & s1 & a & -> & Hx1 & Hx2)]%exec_sbind.
  - apply noFreshPlan_sound. by eapply Hm.
  - rewrite app_assoc. eapply Hf; [|exact Hx2]. by eapply Hm.
Qed.

Lemma unsupportedVersionRouteStatus_programmed t route stored parent :
  Read (KGetHTTPRoute Live (routeKey route)) stored ∈ t ->
  st_programmed (unsupportedVersionRouteStatus cfg stored parent) = ConditionTrue ->
  repeatsStored t stored parent (routeGeneration stored).
Proof.
  intros He. unfold unsupportedVersionRouteStatus. destruct (List.find _ _) as [s|] eqn:Es; [|done].
  destruct (FindStatusCondition _ _) as [c|] eqn:Ec; [|done].
  destruct (bool_decide_reflect (c_Status c = ConditionTrue)) as [Ht|]; [|done].
  destruct (Z.eqb_spec (c_ObservedGeneration c) (routeGeneration stored)) as [Hg|]; [|done]. intros _.
  apply List.find_some in Es as [Hin Ho]. unfold ownStatus, sameParent in Ho. rewrite andb_true_iff, String.eqb_eq, ParentRefsEqual_spec in Ho.
  destruct Ho as [Ho Hd]. eexists _, stored. split; [exact He|]. do 2 (split; [done|]). exists s, c.
  rewrite <- list_elem_of_In in Hin. by split.
Qed.

#[local] Instance setRouteUnsupportedVersion_settles : Settles (setRouteUnsupportedVersion r).
Proof.
  intros t s t' s' x HI. unfold setRouteUnsupportedVersion. rewrite sbind_smodify, sbind_sget. cbv zeta.
  assert (noFreshPlan t (setPlan s None)) as HI' by (intros ? [=]). clear HI. revert HI'.
  generalize (setPlan s None). intros s0 HI.
  assert (forall A (m : SM httpRouteScope A) y t' t0, KeepsPlan m -> exec (m s0) t' (s', y) -> planSound t0 s') as Hk.
  { intros A m y u u' Hm Hx. apply noFreshPlan_sound. exact (Hm _ _ _ _ _ HI Hx). }
  destruct (negb _); [apply Hk; keep_plan|].
  intros [(e & -> & (y & [=] & _)%exec_stry)|(t1 & t2 & s1 & found & -> & (y & [= <-] & [-> Hf]%exec_slift)%exec_stry & Hx)]%exec_sbind.
  apply exec_call in Hf as ->. destruct found as [current|e].
  2: { revert Hx. apply Hk. keep_plan. }
  destruct (negb _); [revert Hx; apply Hk; keep_plan|].
  apply exec_sbind in Hx as [(e' & -> & [-> Hx]%exec_slift)|(t3 & t4 & s2 & parents & -> & [-> _]%exec_slift & Hx)].
  { by apply noFreshPlan_sound. }
  destruct parents as [|p0 parents]; [revert Hx; apply Hk; keep_plan|]. cbv zeta in Hx.
  apply exec_sbind in Hx as [(e' & -> & Hx)|(t5 & t6 & s3 & recheck & -> & Hr & Hx)].
  { revert Hx. apply Hk. keep_plan. }
  rewrite sbind_smodify in Hx. apply exec_sret in Hx as (-> & -> & _). intros p [= <-]. split; [done|]. intros u Hin Hu.
  change (u ∈ (fun p => mkUpdate (mp_ref p) (unsupportedVersionRouteStatus cfg current (mp_ref p))) <$> p0 :: parents) in Hin.
  apply list_elem_of_fmap in Hin as (p1 & -> & _). left.
  eapply unsupportedVersionRouteStatus_programmed; [|exact Hu]. apply elem_of_app. right. by left.
Qed.

(** [settle_plan]: along the structure of a procedure, up to its last step. *)
Ltac settle_step :=
  match goal with
  | |- Settles (let _ := _ in _) => cbv zeta
  | |- Settles (match ?x with _ => _ end) => destruct x
  | |- Settles _ => solve [apply _ | auto | apply Settles_keeps; keep_plan; auto]
  | |- Settles (sbind _ _) => apply Settles_sbind; [keep_plan|intros ?]
  end.

#[local] Instance setRouteStatusesAndDetach_settles updates : noneProgrammed updates -> Settles (setRouteStatusesAndDetach r updates).
Proof.
  intros Hu. pose proof (routeCleanupStatusCheckpointNeeded_keeps updates Hu). pose proof (handleDetachFailure_keeps updates).
  unfold setRouteStatusesAndDetach. repeat settle_step.
Qed.

Lemma reconcileSelectedRouteGraph_sound parent : Settles (reconcileSelectedRouteGraph r parent).
Proof.
  intros t s t' s' x HI. unfold reconcileSelectedRouteGraph.
  intros [(e & -> & (y & [=] & _)%exec_stry)|(t1 & t2 & s1 & ensured & -> & (y & [= <-] & He)%exec_stry & Hx)]%exec_sbind.
  assert (noFreshPlan (t ++ t1) s1) as HI1 by exact (onRoute_keeps _ _ _ _ _ _ HI He).
  rewrite sbind_sget in Hx. cbv zeta in Hx. rewrite app_assoc.
  pose proof handleRouteProviderFailure_keeps.
  assert (forall e, Settles (setRouteStatusesAndDetach r [mkUpdate (mp_ref parent) (statusForRouteBuildError e)])).
  { intros e. apply setRouteStatusesAndDetach_settles, one_update, statusForRouteBuildError_programmed. }
  destruct ensured as [[|[o|]]|e].
  4: refine ((_ : Settles _) _ _ _ _ _ HI1 Hx); repeat settle_step.
  1,3: refine ((_ : Settles _) _ _ _ _ _ HI1 Hx); apply Settles_keeps; keep_plan; by apply one_update.
  destruct (isProgressing o); [refine ((_ : Settles _) _ _ _ _ _ HI1 Hx); apply Settles_keeps; keep_plan; by apply one_update|].
  destruct (bool_decide_reflect (o_State o = OutcomeReady)) as [Ho|]; cbn [negb] in Hx.
  2: { refine ((_ : Settles _) _ _ _ _ _ HI1 Hx); apply Settles_keeps; keep_plan; by apply one_update. }
  rewrite sbind_smodify in Hx. apply exec_sret in Hx as (-> & -> & _). rewrite app_nil_r. intros p [= <-]. split; [done|].
  intros u _ _. right. apply exec_bind in He as (t3 & t4 & [route y] & -> & He & [-> [= -> <-]]). rewrite app_nil_r.
  by apply (ensureRouteGraph_ready _ t) in He as [-> He].
Qed.

Lemma buildCachedRouteDecision_none route tr updates :
  exec (buildCachedRouteDecision r route) tr (Ok (CachedDetach updates)) -> noneProgrammed updates.
Proof.
  unfold buildCachedRouteDecision. intros (t1 & t2 & found & -> & _ & Hx)%exec_bind.
  assert (forall parents, noneProgrammed (unsupportedParentCountUpdates parents)) as Hc
    by (intros; apply Forall_fmap, Forall_true; done).
  destruct found as [parents|e], (storedRouteIdentity r route); [|by inv_kube..].
  destruct (negb _); [by inv_kube|]. destruct parents as [|parent [|p2 parents]]; [inv_kube; by apply List.Forall_nil| |inv_kube; exact (Hc (parent :: p2 :: parents))].
  destruct (_ =? _)%nat; [|inv_kube; exact (Hc [parent])]. unfold validateCachedRouteDecision in Hx.
  destruct (validateRouteParent _ _); [|inv_kube; apply one_update, statusForRouteBuildError_programmed].
  apply exec_mbind_ok in Hx as (t3 & t4 & slot & -> & _ & Hx).
  destruct (negb _); [inv_kube; apply one_update, statusForRouteBuildError_programmed|].
  apply exec_mbind_ok in Hx as (t5 & t6 & selected & -> & _ & Hx).
  destruct (negb _); [inv_kube; by apply one_update|by inv_kube].
Qed.

Lemma routeNormal_sound : Settles (RouteReconciler.reconcileNormal r).
Proof.
  intros t s t' s' x HI. unfold RouteReconciler.reconcileNormal. rewrite sbind_sget.
  intros [(e & -> & [-> _]%exec_slift)|(t1 & t2 & s1 & decision & -> & [-> Hd]%exec_slift & Hx)]%exec_sbind.
  { by apply noFreshPlan_sound. }
  apply (noFreshPlan_app _ t1) in HI. rewrite app_assoc. refine ((_ : Settles _) _ _ _ _ _ HI Hx). clear Hx HI.
  destruct decision as [|updates|parent stored]; [apply _|by eapply setRouteStatusesAndDetach_settles, buildCachedRouteDecision_none|].
  unfold reconcileSelectedRoute. pose proof (reconcileSelectedRouteGraph_sound parent). pose proof handleRouteProviderFailure_keeps.
  assert (noneProgrammed [mkUpdate (mp_ref parent) (pendingRouteStatus "OpenStack resources for the previous Gateway are being removed")]) as Hn
    by (by apply one_update). pose proof (routeCleanupStatusCheckpointNeeded_keeps _ Hn). cbv zeta.
  repeat settle_step.
Qed.

Definition patchesRouteStatus (q : request) : bool := match q with ReqKube (KPatchHTTPRouteStatus _ _) => true | _ => false end.
#[local] Instance patchesRouteStatus_kube : KubeOnly patchesRouteStatus.
Proof. by intros []. Qed.

Definition routeProgrammedAuthority (t : list event) (q : request) : Prop :=
  match q with
  | ReqKube (KPatchHTTPRouteStatus _ target) =>
      forall s c, programmedBy target s c ->
        repeatsStored t target (rps_ParentRef s) (c_ObservedGeneration c) \/
        c_ObservedGeneration c = routeGeneration target /\ routeEnsured t target
  | _ => True
  end.

Lemma applyPlan_meta p route : hr_Meta (fst (applyPlan cfg p route)) = hr_Meta route.
Proof.
  destruct p; [done|done|]. cbn. unfold applyDeletingRouteProviderFailure. destruct (negb _); [done|]. by destruct (failDeleting _ _ _ _ _).
Qed.

Lemma patchStatusAttempt_failed p route t route' e :
  exec (patchStatusAttempt r p route) t (route', Err e) -> route' = route.
Proof.
  unfold patchStatusAttempt. rewrite sbind_sget.
  intros [(e' & _ & (y & [=] & _)%exec_stry)|(t1 & t2 & s1 & found & -> & (y & [= <-] & [-> _]%exec_slift)%exec_stry & Hx)]%exec_sbind.
  destruct found as [current|e'].
  2: { destruct (IsNotFound e'); [by apply exec_sret in Hx as (_ & -> & _)|by apply exec_sraise in Hx as (_ & -> & _)]. }
  destruct (negb _); [by apply exec_sraise in Hx as (_ & -> & _)|].
  apply exec_sbind in Hx as [(e' & _ & Hx)|(t3 & t4 & s2 & [] & -> & Hv & Hx)].
  { destruct (planValidatesOwnership p); [by apply exec_slift in Hx as [-> _]|by apply exec_sret in Hx as (_ & -> & _)]. }
  assert (s2 = route) as -> by (destruct (planValidatesOwnership p); [by apply exec_slift in Hv as [-> _]|by apply exec_sret in Hv as (_ & -> & _)]).
  destruct (applyPlan _ p current) as [target b]. destruct (bool_decide _).
  - rewrite sbind_smodify in Hx. by apply exec_sret in Hx as (_ & _ & [=]).
  - apply exec_sbind in Hx as [(e' & _ & [-> _]%exec_slift)|(t5 & t6 & s3 & stored & -> & _ & Hx)]; [done|].
    rewrite sbind_smodify in Hx. by apply exec_sret in Hx as (_ & _ & [=]).
Qed.

Lemma patchStatusAttempt_guarded p route pre :
  soundFor pre p route -> GuardedFrom patchesRouteStatus routeProgrammedAuthority pre (patchStatusAttempt r p route).
Proof.
  intros [Hp Hs]. unfold patchStatusAttempt. rewrite sbind_sget.
  apply GuardedFrom_sbind; [apply GuardedFrom_Avoids; solve_avoids|].
  intros t1 found s1 (y & [= <-] & [-> Hf]%exec_slift)%exec_stry. destruct found as [current|e]; [|apply GuardedFrom_Avoids; solve_avoids].
  destruct (sameRevision current route) eqn:Er; cbn [negb]; [|apply GuardedFrom_Avoids; solve_avoids].
  apply sameRevision_spec in Er as [Eu Eg]. apply exec_call in Hf as ->.
  apply GuardedFrom_sbind; [apply GuardedFrom_Avoids; solve_avoids|]. intros t2 [] s2 _.
  pose proof (applyPlan_meta p current) as Hmeta. pose proof (fun s c => applyPlan_programmed p current s c Hp) as Hprog.
  destruct (applyPlan _ p current) as [target b]. cbn [fst] in *. destruct (bool_decide _); [apply GuardedFrom_Avoids; solve_avoids|].
  apply GuardedFrom_sbind; [|intros; apply GuardedFrom_Avoids; solve_avoids].
  intros tr [s' x] [-> ->%exec_call]%exec_slift u1 e u2 Ht _. destruct u1 as [|? []]; simplify_eq/=. rewrite app_nil_r.
  intros s c [Hc|(Hg & u & Hu & -> & Ht)]%Hprog.
  - left. eexists _, current. split; [apply elem_of_app; left; apply elem_of_app; right; by left|]. split; [done|].
    split; [by rewrite Hmeta|]. by exists s, c.
  - unfold routeGeneration in *. rewrite Hg, Hmeta, Eg. rewrite <- app_assoc.
    destruct (Hs u Hu Ht) as [(e & stored & He & Hr & Hsu & Ha)|Hr]; [left|right].
    + exists e, stored. split; [set_solver|]. by rewrite Hmeta, Eu.
    + split; [done|]. apply routeEnsured_app. unfold routeEnsured in *. rewrite Hmeta, Eu, Eg. exact Hr.
Qed.

Lemma soundFor_app t t' p route : soundFor t p route -> soundFor (t ++ t') p route.
Proof.
  intros [Hp Hs]. split; [done|]. intros u Hu Ht. destruct (Hs u Hu Ht); [left; by apply repeatsStored_app|right; by apply routeEnsured_app].
Qed.

Lemma routeDeferredPatch_sound t s x :
  planSound t s -> GuardedFrom patchesRouteStatus routeProgrammedAuthority t (RouteReconciler.deferredPatch r s x).
Proof.
  intros Hs. apply GuardedFrom_bind; [|intros tr [s' [[]|e]] _; apply GuardedFrom_Avoids; solve_avoids].
  unfold patchHTTPRoute. rewrite sbind_sget. destruct (rs_skipPatch s); [apply GuardedFrom_Avoids; solve_avoids|].
  destruct (rs_statusPlan s) as [p|] eqn:Ep; [|apply GuardedFrom_Avoids; solve_avoids].
  pose proof (Hs _ Ep) as Hp.
  apply GuardedFrom_sbind; [|intros; apply GuardedFrom_Avoids; solve_avoids].
  apply GuardedFrom_bind; [|intros; apply GuardedFrom_Avoids; solve_avoids].
  apply GuardedFrom_bind; [|intros; apply GuardedFrom_Avoids; solve_avoids].
  apply (GuardedFrom_retry_with _ _ (fun route => route = rs_route s)); [| |done].
  - intros k route t' ->. by apply patchStatusAttempt_guarded, soundFor_app.
  - intros k route t' route' e -> Hx. by apply patchStatusAttempt_failed in Hx.
Qed.

(** A condition [Programmed=True] of a status patch is one that the API server
    returned for this parent and generation, or is for the revision of the route
    whose resources the provider, under the fence, found in place. *)
Lemma route_programmed_authorised key tr result t1 base target x t2 s c :
  exec (RouteReconciler.Reconcile r key) tr result -> tr = t1 ++ Ev (ReqKube (KPatchHTTPRouteStatus base target)) x :: t2 ->
  programmedBy target s c ->
  repeatsStored t1 target (rps_ParentRef s) (c_ObservedGeneration c) \/
  c_ObservedGeneration c = routeGeneration target /\ routeEnsured t1 target.
Proof.
  intros Hx Ht.
  enough (GuardedFrom patchesRouteStatus routeProgrammedAuthority [] (RouteReconciler.Reconcile r key)) as Hg
    by exact (Hg _ _ Hx _ _ _ Ht eq_refl s c).
  clear s c. pose proof (ensure_route_avoids patchesRouteStatus). pose proof (delete_route_avoids patchesRouteStatus).
  unfold RouteReconciler.Reconcile. apply GuardedFrom_mbind; [apply GuardedFrom_Avoids; solve_avoids|].
  intros tr1 [s|] Hs; [|apply GuardedFrom_Avoids; solve_avoids].
  assert (noFreshPlan tr1 s) as HI.
  { unfold newHTTPRouteScope in Hs. apply exec_bind in Hs as (u1 & u2 & found & -> & _ & Hs).
    enough (rs_statusPlan s = None) as E by (intros p; by rewrite E).
    destruct found as [route|e]; [|unfold ignoringNotFound in Hs; destruct (IgnoreNotFound e); by inv_kube].
    destruct (negb _); [by inv_kube; simplify_eq|]. destruct (RouteHasControllerBinding _ _); by inv_kube; simplify_eq. }
  apply GuardedFrom_bind; [apply GuardedFrom_Avoids; destruct (isDeleting _); solve_avoids|].
  intros tr2 [s' y] Hb. apply routeDeferredPatch_sound. cbn [fst]. destruct (isDeleting _).
  - apply noFreshPlan_sound. exact (reconcileDelete_keeps _ _ _ _ _ HI Hb).
  - exact (routeNormal_sound _ _ _ _ _ HI Hb).
Qed.
End facts.
