(* ===== verification/Composition.v ===== *)
(** * The reconcilers on top of the OpenStack provider

    The guarantees of the reconcilers, stated for the provider of the graph
    package: what the API server is told about a Gateway or a route is what the
    cloud showed. *)
From stdpp Require Import base list strings gmap.
From Stdlib Require Import ZArith Lia.
From S2P Require Import Prelude GoStrings Cloud Kube KubeObjects References Metadata OpenStack ProgramLogic GatewayGraph GatewayFacts RoutePlan RouteGraph RouteFacts Outcomes Binding KubeClient ReconcileLogic OpenStackProvider GatewayModel GatewayReconciler GatewayReconcilerFacts RouteModel RouteStatus RouteReconciler RouteReconcilerFacts RouteProgrammedFacts.

Set Default Goal Selector "!".

Section system.
Context `{ControllerUtilLaws, ApiMetaLaws, KubeErrors, ForeignTexts, GatewayConsts, Gophercloud} (p : Provider) (r : Reconciler).

#[local] Instance openstack : CloudProvider := graphProvider p.
#[local] Instance openstack_laws : CloudProviderLaws := graphProvider_laws p.

Lemma ready_not_progressing o : o_State o = OutcomeReady -> isProgressing o = false.
Proof. unfold isProgressing. by intros ->. Qed.

(** ** The graph lock *)

(** C18. A reconciliation of a Gateway or an HTTPRoute holds at most one graph
    lock at a time and gives back every lock it was granted, on every path. *)
Theorem reconcilers_release_locks key tr :
  (forall result, exec (GatewayReconciler.Reconcile r key) tr result -> balanced (locks tr)) /\
  (forall result, exec (RouteReconciler.Reconcile r key) tr result -> balanced (locks tr)).
Proof. split; intros result Hx; [exact (gateway_locks_balanced r _ _ _ Hx)|exact (route_locks_balanced r _ _ _ Hx)]. Qed.

(** ** Gateways *)

(** C3. A Gateway loses its finalizer only after a deletion was authorised and
    the run of DeleteGateway directly before showed, without changing anything,
    that no load balancer with its stored identity exists: the list of those
    with its names is empty, or holds one that matches the identity and that
    then answered 404. *)
Theorem gateway_finalizer_waits_for_cloud key tr result t1 base target x t2 :
  exec (GatewayReconciler.Reconcile r key) tr result ->
  tr = t1 ++ Ev (ReqKube (KPatchGateway base target)) x :: t2 -> dropsFinalizer r (ReqKube (KPatchGateway base target)) = true ->
  exists pre q y gw, t1 = pre ++ q ++ [Ev (ReqKube (KReleaseGraph (om_UID (gw_Meta base)))) y] /\
    om_UID (gw_Meta gw) = om_UID (gw_Meta base) /\ cleanupFence r pre gw /\
    mutations q = [] /\ gatewayGone p (StoredGatewayIdentity (rc_Config r) (gw_Meta gw)) q.
Proof.
  intros Hx Ht Hd.
  destruct (gateway_finalizer_dropped_last _ _ _ _ _ _ _ _ _ Hx Ht Hd) as (pre & q & y & gw & o & -> & Hu & Hf & Hp & Ho).
  apply DeleteGateway_ready_gone in Hp as (_ & Hm & Hg); [|done]. by exists pre, q, y, gw.
Qed.

(** C5. A status patch that newly says Programmed of a Gateway follows a run of
    EnsureGateway under the fence, for this revision, that changed nothing and
    found the graph the Gateway asks for in place; the address it publishes is
    the one found. *)
Theorem gateway_programmed_in_cloud key tr result t1 base target x t2 :
  exec (GatewayReconciler.Reconcile r key) tr result ->
  tr = t1 ++ Ev (ReqKube (KPatchGatewayStatus base target)) x :: t2 ->
  (forall c, programmedIn target c -> storedProgrammed t1 c) \/
  exists pre q t' gw listener state,
    t1 = pre ++ q ++ t' /\ gatewayFence r pre gw listener /\
    om_UID (gw_Meta gw) = om_UID (gw_Meta target) /\ om_Generation (gw_Meta gw) = om_Generation (gw_Meta target) /\
    mutations q = [] /\ Forall (showsOwned p (gs_Identity (gatewaySpec r gw listener))) q /\
    gatewayInPlace p (gatewaySpec r gw listener) q state /\
    gst_Addresses (gw_Status target) = [(IPAddressType, Address state)].
Proof.
  intros Hx Ht.
  destruct (gateway_programmed_authorised _ _ _ _ _ _ _ _ _ Hx Ht) as [|(pre & q & t' & gw & l & res & -> & Hf & Hu & Hg & Hp & Ho & Ha)];
    [by left|right].
  apply EnsureGateway_ready in Hp as (Hm & _ & Hown & Hin); [|done]. exists pre, q, t', gw, l, (g_State res). auto 12.
Qed.

(** ** Routes *)

(** C4. An HTTPRoute that is bound to a Gateway loses its finalizer only after
    its removal was authorised and a run of DeleteRoute showed, without changing
    anything, that nothing of it is left in OpenStack: the load balancer of the
    stored identity is gone, or was read, is owned, and lists no pool, nor its
    listener, if any, a policy. *)
Theorem route_finalizer_waits_for_cloud key tr result t1 base target x t2 :
  exec (RouteReconciler.Reconcile r key) tr result -> tr = t1 ++ Ev (ReqKube (KPatchHTTPRoute base target)) x :: t2 ->
  hasRouteFinalizer r base = true -> hasRouteFinalizer r target = false ->
  storedRouteIdentity r base = Ok None \/
  exists id pre q rest route, storedRouteIdentity r base = Ok (Some id) /\ t1 = pre ++ q ++ rest /\
    routeCleanupFence r pre route id /\ mutations q = [] /\ routeGone p id q.
Proof.
  intros Hx Ht Hb Ht'.
  destruct (route_finalizer_dropped_last _ _ _ _ _ _ _ _ _ Hx Ht Hb Ht') as [|(id & Hs & pre & q & rest & route & o & -> & Hf & Hp & Ho)];
    [by left|right].
  apply DeleteRoute_ready_gone in Hp as (_ & Hm & Hg); [|by apply ready_not_progressing]. by exists id, pre, q, rest, route.
Qed.

Lemma identified_inner pre q t : Forall identified (pre ++ q ++ t) -> Forall identified q.
Proof. by intros [_ [? _]%Forall_app]%Forall_app. Qed.

(** C6. Each Programmed=True condition that a status patch of an HTTPRoute
    publishes for a parent is one that the API server returned for the same
    object, parent and observed generation, or it is for the current generation
    and follows a run of EnsureRoute under the fence, for this revision, that
    changed nothing and found the desired pool, members, monitor, policies and
    rules in place, provided OpenStack gives every member, policy and rule it
    lists an ID. *)
Theorem route_programmed_in_cloud key tr result t1 base target x t2 s c :
  exec (RouteReconciler.Reconcile r key) tr result -> Forall identified t1 ->
  tr = t1 ++ Ev (ReqKube (KPatchHTTPRouteStatus base target)) x :: t2 -> programmedBy r target s c ->
  repeatsStored r t1 target (rps_ParentRef s) (c_ObservedGeneration c) \/
  c_ObservedGeneration c = om_Generation (hr_Meta target) /\
  exists pre q t' route gw desired,
    t1 = pre ++ q ++ t' /\ routeFence r pre route gw desired /\
    om_UID (hr_Meta route) = om_UID (hr_Meta target) /\ om_Generation (hr_Meta route) = om_Generation (hr_Meta target) /\
    mutations q = [] /\ Forall (showsRouteOwned p (rs_Identity desired)) q /\ routeInPlace p desired q.
Proof.
  intros Hx Hi Ht Hs.
  destruct (route_programmed_authorised _ _ _ _ _ _ _ _ _ _ _ Hx Ht Hs)
    as [|[Hc (pre & q & t' & route & gw & desired & res & -> & Hf & Hu & Hg & Hp & Ho)]]; [by left|right; split; [done|]].
  apply identified_inner in Hi. apply EnsureRoute_ready in Hp as (Hm & _ & Hown & Hin); [|done|by apply ready_not_progressing].
  exists pre, q, t', route, gw, desired. auto 12.
Qed.
End system.
