(* ===== verification/GatewayClassReconciler.v ===== *)
(** * The GatewayClass reconciler

    Models [internal/controller/gatewayclass]: the capabilities a class is said
    to have and the finalizer that keeps a class while Gateways refer to it. *)
From stdpp Require Import base list strings gmap.
From Stdlib Require Import ZArith Lia.
From S2P Require Import Prelude GoStrings Cloud Kube KubeObjects References OpenStack Outcomes Binding Indexes KubeClient GatewayModel.

Set Default Goal Selector "!".

(** Constants of the Gateway API. *)
Definition GatewayClassFinalizerGatewaysExist : string := "gateway-exists-finalizer.gateway.networking.k8s.io".
Definition ReasonUnsupportedVersion : string := "UnsupportedVersion".

(** [Reconciler]: whether the live reader is not nil, and the configuration. *)
Record ClassReconciler := mkClassReconciler { cr_APIReader : bool; cr_Config : Config }.

(** ** The scope (gatewayclass_scope.go) *)

Record gatewayClassScope := mkClassScope { cls_gatewayClass : GatewayClass; cls_original : GatewayClass }.

Definition classFinalizers (c : GatewayClass) : list string := om_Finalizers (gc_Meta c).

Definition finalizerChanged (s : gatewayClassScope) : bool :=
  negb (bool_decide (classFinalizers (cls_original s) = classFinalizers (cls_gatewayClass s))).

Definition setClass (c : GatewayClass) (s : gatewayClassScope) : gatewayClassScope := mkClassScope c (cls_original s).

Definition withResourceVersion (o : ObjectMeta) (version : string) : ObjectMeta :=
  mkObjectMeta (om_Namespace o) (om_Name o) (om_UID o) (om_Generation o) version (om_DeletionTimestamp o)
    (om_Annotations o) (om_Finalizers o) (om_CreationTimestamp o).

Section reconciler.
Context `{ControllerUtil, ApiMeta, KubeErrors, GatewayConsts} (r : ClassReconciler).

Definition newGatewayClassScope (name : string) : M (option gatewayClassScope) :=
  try (getClass Cached name) (fun found =>
    match found with
    | Err e => lift (ignoringNotFound None e)
    | Ok gatewayClass =>
        if negb (String.eqb (gc_ControllerName gatewayClass) (cfg_ControllerName (cr_Config r))) then ret None
        else ret (Some (mkClassScope gatewayClass gatewayClass))
    end).

(** The metadata patch of [patchGatewayClass]: the class to publish, with the
    resource version the server returned. *)
Definition patchClassMetadata (s : gatewayClassScope) : M GatewayClass :=
  let desired := cls_gatewayClass s in
  if negb (finalizerChanged s) then ret desired
  else
  let base := cls_original s in
  let target := withClassMeta base (withFinalizers (gc_Meta base) (classFinalizers desired)) in
  let! stored := wrap "patch GatewayClass metadata: %w" [] (patchClass base target) in
  ret (withClassMeta desired (withResourceVersion (gc_Meta desired) (om_ResourceVersion (gc_Meta stored)))).

Definition statusEqual (a b : GatewayClass) : bool :=
  bool_decide (gc_Conditions a = gc_Conditions b) && bool_decide (gc_SupportedFeatures a = gc_SupportedFeatures b).

Definition patchGatewayClass : SM gatewayClassScope unit :=
  do! scope := sget in
  let statusChanged := negb (statusEqual (cls_original scope) (cls_gatewayClass scope)) in
  do! desired := slift (patchClassMetadata scope) in
  if negb statusChanged then sret tt
  else
  let original := cls_original scope in
  let base := withClassStatus desired (gc_Conditions original) (gc_SupportedFeatures original) in
  do! stored := slift (wrap "patch GatewayClass status: %w" [] (patchClassStatus base desired)) in
  smodify (setClass stored).

(** ** Reconcile (gatewayclass_controller.go) *)

Definition hasReferencingGateways (className : string) : M bool :=
  let! gateways := listGateways (IndexGatewayByClass, className) in
  ret (negb (bool_decide (length gateways = 0))).

Definition setFinalizer (present : bool) (c : GatewayClass) : GatewayClass :=
  let change := if present then AddFinalizer else RemoveFinalizer in
  withClassMeta c (withFinalizers (gc_Meta c) (change (classFinalizers c) GatewayClassFinalizerGatewaysExist)).

Definition reconcileGatewayClassReferences : SM gatewayClassScope bool :=
  do! scope := sget in
  do! hasGateways := slift (wrap "list Gateways referencing GatewayClass: %w" []
                       (hasReferencingGateways (om_Name (gc_Meta (cls_gatewayClass scope))))) in
  do! _ := smodify (fun s => setClass (setFinalizer hasGateways (cls_gatewayClass s)) s) in
  sret hasGateways.

Definition phase1SupportedFeatures : list string := [].

(** The status for an observation of the installed version. *)
Definition classStatus (gatewayClass : GatewayClass) (o : GatewayAPIVersionObservation) : GatewayClass :=
  let condition type status reason message := newCondition type status reason message (om_Generation (gc_Meta gatewayClass)) in
  let set c l features := withClassStatus c (setConditions (gc_Conditions c) l) features in
  let c := if vo_Supported o
           then set gatewayClass [condition SupportedVersion ConditionTrue SupportedVersion (vo_Message o)]
                  (gc_SupportedFeatures gatewayClass)
           else set gatewayClass [condition SupportedVersion ConditionFalse ReasonUnsupportedVersion (vo_Message o);
                                  condition Accepted ConditionFalse ReasonUnsupportedVersion (vo_Message o)] [] in
  if vo_Supported o && gc_ParametersRef gatewayClass
  then set c [condition Accepted ConditionFalse ReasonInvalidParameters
                "GatewayClass parametersRef is not supported in Phase 1"] []
  else if vo_Supported o
  then set c [condition Accepted ConditionTrue Accepted "GatewayClass is accepted"] phase1SupportedFeatures
  else c.

Definition reconcileGatewayClassStatus : SM gatewayClassScope Result :=
  do! observation := slift (ObserveGatewayAPIVersion Live) in
  do! _ := smodify (fun s => setClass (classStatus (cls_gatewayClass s) observation) s) in
  do! scope := sget in
  sret (if vo_Supported observation then noResult
        else requeueAfter (GatewayAPIVersionRequeueAfter (om_UID (gc_Meta (cls_gatewayClass scope))))).

Definition reconcileDelete : SM gatewayClassScope Result :=
  do! hasGateways := reconcileGatewayClassReferences in
  do! scope := sget in
  if finalizerChanged scope then sret noResult
  else if negb hasGateways then sret noResult
  else reconcileGatewayClassStatus.

Definition reconcileNormal : SM gatewayClassScope Result :=
  do! _ := reconcileGatewayClassReferences in
  do! scope := sget in
  if finalizerChanged scope then sret noResult else reconcileGatewayClassStatus.

Definition Reconcile (name : string) : M Result :=
  guard! cr_APIReader r else Sentinel ErrAPIReaderRequired in
  let! found := newGatewayClassScope name in
  match found with
  | None => ret noResult
  | Some scope =>
      bind ((if om_Deleting (gc_Meta (cls_gatewayClass scope)) then reconcileDelete else reconcileNormal) scope) (fun x =>
        let '(s, result) := x in
        bind (patchGatewayClass s) (fun y =>
          match snd y with
          | Ok _ => Ret result
          | Err e =>
              let retErr := match result with Ok _ => None | Err e' => Some e' end in
              raise (default e (errorsJoin [retErr; Some e]))
          end))
  end.
End reconciler.
