(* ===== verification/GatewayClassFacts.v ===== *)
(** * What the GatewayClass reconciler guarantees

    In every execution of [Reconcile] only classes of this controller are
    changed; the finalizer of a class says whether Gateways refer to it; its
    status says what the installed version of the Gateway API is. *)
From stdpp Require Import base list strings gmap.
From Stdlib Require Import ZArith Lia.
From S2P Require Import Prelude GoStrings Cloud Kube KubeObjects References OpenStack ProgramLogic Outcomes Binding Indexes KubeClient ReconcileLogic GatewayModel GatewayReconcilerFacts GatewayClassReconciler.

Set Default Goal Selector "!".

Section facts.
Context `{ControllerUtilLaws, ApiMetaLaws, KubeErrors, GatewayConsts} (r : ClassReconciler).

Definition gatewaysExist (c : GatewayClass) : bool := ContainsFinalizer (classFinalizers c) GatewayClassFinalizerGatewaysExist.

(** [Accepted=True] for the current generation. *)
Definition classAccepted (c : GatewayClass) : bool :=
  match FindStatusCondition (gc_Conditions c) Accepted with
  | Some a => bool_decide (c_Status a = ConditionTrue) && (c_ObservedGeneration a =? om_Generation (gc_Meta c))%Z
  | None => false
  end.

Lemma setFinalizer_present b c : gatewaysExist (setFinalizer b c) = b.
Proof.
  unfold gatewaysExist, setFinalizer. cbn. destruct b.
  - apply contains_spec, add_spec. by left.
  - apply not_true_is_false. rewrite contains_spec, remove_spec. tauto.
Qed.

Lemma setFinalizer_others b c f : f <> GatewayClassFinalizerGatewaysExist -> f ∈ classFinalizers (setFinalizer b c) <-> f ∈ classFinalizers c.
Proof. intros Hf. unfold setFinalizer. cbn. destruct b; [rewrite add_spec|rewrite remove_spec]; tauto. Qed.

(** The condition set last is found, and conditions of other types stay. *)
Lemma find_SetCondition_same l type status reason message generation :
  exists t, FindStatusCondition (SetCondition l (newCondition type status reason message generation)) type =
    Some (sinceTime (newCondition type status reason message generation) t).
Proof. exact (find_set_same l (newCondition type status reason message generation)). Qed.

Lemma find_SetCondition_other l v type : type <> c_Type v -> FindStatusCondition (SetCondition l v) type = FindStatusCondition l type.
Proof. apply find_set_other. Qed.

Lemma classStatus_version c o :
  GatewayClassSupportsInstalledVersion (classStatus c o) = vo_Supported o /\
  classAccepted (classStatus c o) = vo_Supported o && negb (gc_ParametersRef c) /\
  gc_ParametersRef (classStatus c o) = gc_ParametersRef c /\ gc_ControllerName (classStatus c o) = gc_ControllerName c /\
  gc_Meta (classStatus c o) = gc_Meta c.
Proof.
  unfold GatewayClassSupportsInstalledVersion, classAccepted, classStatus. cbv zeta.
  destruct (vo_Supported o), (gc_ParametersRef c) eqn:Ep; cbn [andb negb withClassStatus gc_Conditions gc_Meta gc_ParametersRef gc_ControllerName setConditions fold_left].
  all: rewrite ?(find_SetCondition_other _ _ SupportedVersion) by done.
  all: repeat match goal with |- context [FindStatusCondition (SetCondition ?l (newCondition ?t ?s ?re ?m ?g)) ?t] =>
    let x := fresh "t" in let Hx := fresh "Hx" in destruct (find_SetCondition_same l t s re m g) as [x Hx]; rewrite Hx; clear Hx end.
  all: cbn [sinceTime newCondition c_Status c_ObservedGeneration]; rewrite ?Z.eqb_refl; by repeat split.
Qed.

(** ** The scope that is published *)

(** What the body of [Reconcile] made of the class [c]: nothing, the finalizer
    that its Gateways ask for, or with it the status of the installed version. *)
Definition classOutcome (c : GatewayClass) (t : list event) (s : gatewayClassScope) : Prop :=
  cls_original s = c /\
  (cls_gatewayClass s = c \/
   exists gateways : list Gateway,
     Read (KListGateways (IndexGatewayByClass, om_Name (gc_Meta c))) gateways ∈ t /\
     let c1 := setFinalizer (negb (bool_decide (length gateways = 0))) c in
     cls_gatewayClass s = c1 \/
     exists definitions o, Read (KListCustomResourceDefinitions Live) definitions ∈ t /\
       (vo_Supported o = true <-> versionIssues definitions = []) /\ cls_gatewayClass s = classStatus c1 o).

Lemma references_ok c t s x :
  exec (reconcileGatewayClassReferences (mkClassScope c c)) t (s, x) ->
  (s = mkClassScope c c /\ exists e, x = Err e) \/
  exists gateways : list Gateway, t = [Read (KListGateways (IndexGatewayByClass, om_Name (gc_Meta c))) gateways] /\
    s = mkClassScope (setFinalizer (negb (bool_decide (length gateways = 0))) c) c.
Proof.
  unfold reconcileGatewayClassReferences. rewrite sbind_sget. cbn [cls_gatewayClass].
  intros [(e & -> & [-> _]%exec_slift)|(t1 & t2 & s1 & b & -> & [-> Hb%exec_wrap_ok]%exec_slift & Hx)]%exec_sbind; [left; eauto|right].
  rewrite sbind_smodify in Hx. apply exec_sret in Hx as (-> & -> & _). unfold hasReferencingGateways in Hb. inv_kube. eauto.
Qed.

Lemma status_ok c t s t0 x :
  (exists gateways : list Gateway, Read (KListGateways (IndexGatewayByClass, om_Name (gc_Meta c))) gateways ∈ t0 /\
     s = mkClassScope (setFinalizer (negb (bool_decide (length gateways = 0))) c) c) ->
  forall s', exec (reconcileGatewayClassStatus s) t (s', x) -> classOutcome c (t0 ++ t) s'.
Proof.
  intros (gateways & Hg & ->) s'. unfold reconcileGatewayClassStatus.
  intros [(e & -> & [-> _]%exec_slift)|(t1 & t2 & s1 & o & -> & [-> Ho]%exec_slift & Hx)]%exec_sbind.
  { split; [done|]. right. exists gateways. split; [set_solver|by left]. }
  rewrite sbind_smodify, sbind_sget in Hx. apply exec_sret in Hx as (-> & -> & _).
  apply ObserveGatewayAPIVersion_ok in Ho as (definitions & -> & Hv).
  split; [done|]. right. exists gateways. split; [set_solver|]. right. exists definitions, o. split; [set_solver|done].
Qed.

Lemma body_ok c t s x :
  exec ((if om_Deleting (gc_Meta c) then reconcileDelete else reconcileNormal) (mkClassScope c c)) t (s, x) ->
  classOutcome c t s.
Proof.
  unfold reconcileDelete, reconcileNormal.
  destruct (om_Deleting _);
    intros [(e & -> & [[-> _]|(gateways & -> & ->)]%references_ok)|(t1 & t2 & s1 & b & -> & [[_ [e [=]]]|(gateways & -> & ->)]%references_ok & Hx)]%exec_sbind.
  1,4: by split; [|left].
  1,3: split; [done|]; right; exists gateways; split; [set_solver|by left].
  all: assert (exists g : list Gateway, Read (KListGateways (IndexGatewayByClass, om_Name (gc_Meta c))) g ∈
    [Read (KListGateways (IndexGatewayByClass, om_Name (gc_Meta c))) gateways] /\
     mkClassScope (setFinalizer (negb (bool_decide (length gateways = 0))) c) c =
     mkClassScope (setFinalizer (negb (bool_decide (length g = 0))) c) c) as Hg by (exists gateways; split; [set_solver|done]).
  all: rewrite sbind_sget in Hx; destruct (finalizerChanged _);
    [apply exec_sret in Hx as (-> & -> & _); split; [done|]; right; exists gateways; split; [set_solver|by left]|].
  - destruct (negb b); [apply exec_sret in Hx as (-> & -> & _); split; [done|]; right; exists gateways; split; [set_solver|by left]|].
    exact (status_ok _ _ _ _ _ Hg _ Hx).
  - exact (status_ok _ _ _ _ _ Hg _ Hx).
Qed.

(** ** What is patched *)

Definition ownClass (c : GatewayClass) : Prop := gc_ControllerName c = cfg_ControllerName (cr_Config r).

(** The finalizer of a class says whether Gateways refer to it; no other
    finalizer changes. *)
Definition finalizerRight (t : list event) (base target : GatewayClass) : Prop :=
  exists gateways : list Gateway,
    Read (KListGateways (IndexGatewayByClass, om_Name (gc_Meta base))) gateways ∈ t /\
    gatewaysExist target = negb (bool_decide (length gateways = 0)) /\
    (forall f, f <> GatewayClassFinalizerGatewaysExist -> f ∈ classFinalizers target <-> f ∈ classFinalizers base).

(** The status says what version is installed. *)
Definition statusRight (t : list event) (target : GatewayClass) : Prop :=
  exists definitions, Read (KListCustomResourceDefinitions Live) definitions ∈ t /\
    (GatewayClassSupportsInstalledVersion target = true <-> versionIssues definitions = []) /\
    (classAccepted target = true <-> versionIssues definitions = [] /\ gc_ParametersRef target = false).

Definition classAuthority (t : list event) (q : request) : Prop :=
  match q with
  | ReqKube (KPatchGatewayClass base target) => ownClass base /\ finalizerRight t base target
  | ReqKube (KPatchGatewayClassStatus base target) => ownClass base /\ statusRight t target
  | _ => True
  end.

Lemma outcome_finalizer c t s :
  classOutcome c t s -> finalizerChanged s = true ->
  finalizerRight t (cls_original s) (withClassMeta (cls_original s)
    (withFinalizers (gc_Meta (cls_original s)) (classFinalizers (cls_gatewayClass s)))).
Proof.
  intros [Ho Hs] Hf. unfold finalizerChanged in Hf. rewrite Ho in *.
  destruct Hs as [E|(gateways & Hg & Hs)]; [by rewrite E, bool_decide_eq_true_2 in Hf|].
  exists gateways. split; [done|]. set (b := negb (bool_decide (length gateways = 0))) in *.
  assert (classFinalizers (cls_gatewayClass s) = classFinalizers (setFinalizer b c)) as E.
  { destruct Hs as [->|(defs & o & _ & _ & ->)]; [done|]. unfold classFinalizers.
    by rewrite (proj2 (proj2 (proj2 (proj2 (classStatus_version _ o))))). }
  rewrite E. split; [exact (setFinalizer_present b c)|]. intros f Hne. by apply setFinalizer_others.
Qed.

Lemma outcome_status c t s :
  classOutcome c t s -> statusEqual (cls_original s) (cls_gatewayClass s) = false ->
  statusRight t (cls_gatewayClass s).
Proof.
  intros [Ho Hs] Hf. unfold statusEqual in Hf. rewrite Ho in *.
  assert (forall c', gc_Conditions c' = gc_Conditions c -> gc_SupportedFeatures c' = gc_SupportedFeatures c -> cls_gatewayClass s <> c') as Hne.
  { intros c' E1 E2 E3. rewrite E3, E1, E2, !bool_decide_eq_true_2 in Hf by done. done. }
  destruct Hs as [E|(gateways & _ & [E|(defs & o & Hd & Hv & ->)])]; [by apply Hne in E|by apply Hne in E|].
  exists defs. split; [done|].
  destruct (classStatus_version (setFinalizer (negb (bool_decide (length gateways = 0))) c) o) as (Hs & Ha & Hp & _).
  rewrite Hs, Ha, Hp, andb_true_iff, negb_true_iff. tauto.
Qed.

(** The resource version does not matter. *)
Lemma statusRight_meta t target version :
  statusRight t target -> statusRight t (withClassMeta target (withResourceVersion (gc_Meta target) version)).
Proof. done. Qed.

Lemma ownClass_outcome c t s : ownClass c -> classOutcome c t s -> ownClass (cls_gatewayClass s).
Proof.
  intros Hc [_ [E|(gateways & _ & [E|(defs & o & _ & _ & E)])]]; rewrite E; [done|done|].
  unfold ownClass. by rewrite (proj1 (proj2 (proj2 (proj2 (classStatus_version _ o))))).
Qed.

Lemma patchGatewayClass_guarded c t s :
  ownClass c -> classOutcome c t s -> GuardedFrom isWrite classAuthority t (patchGatewayClass s).
Proof.
  intros Hc Ho. unfold patchGatewayClass. rewrite sbind_sget. cbv zeta.
  assert (cls_original s = c) as Eo by apply Ho.
  apply GuardedFrom_sbind.
  - apply GuardedFrom_bind; [|intros; apply GuardedFrom_Avoids; solve_avoids].
    unfold patchClassMetadata. cbv zeta. destruct (finalizerChanged s) eqn:Ef; cbn [negb]; [|apply GuardedFrom_Avoids; solve_avoids].
    apply GuardedFrom_mbind; [|intros; apply GuardedFrom_Avoids; solve_avoids].
    apply GuardedFrom_bind; [|intros; apply GuardedFrom_Avoids; solve_avoids].
    intros tr x ->%exec_call u1 e u2 Ht _. destruct u1 as [|? []]; simplify_eq/=. rewrite app_nil_r.
    split; [done|by eapply outcome_finalizer].
  - intros t1 desired s1 [-> Hd]%exec_slift. destruct (statusEqual _ _) eqn:Es; cbn [negb]; [apply GuardedFrom_Avoids; solve_avoids|].
    apply GuardedFrom_sbind; [|intros; apply GuardedFrom_Avoids; solve_avoids].
    apply GuardedFrom_bind; [|intros; apply GuardedFrom_Avoids; solve_avoids].
    apply GuardedFrom_bind; [|intros; apply GuardedFrom_Avoids; solve_avoids].
    intros tr x ->%exec_call u1 e u2 Ht _. destruct u1 as [|? []]; simplify_eq/=. rewrite app_nil_r.
    assert (ownClass desired /\ statusRight t desired) as [Hown Hright].
    { pose proof (ownClass_outcome _ _ _ Hc Ho). pose proof (outcome_status _ _ _ Ho Es).
      unfold patchClassMetadata in Hd. destruct (negb (finalizerChanged s)); inv_kube; [done|]. split; [done|by apply statusRight_meta]. }
    split; [done|]. destruct Hright as (defs & Hin & Hr). exists defs. split; [set_solver|done].
Qed.

(** C38. Every patch of a GatewayClass concerns a class of this controller: the
    finalizer follows a list of the Gateways that refer to it, and the status
    says what a live read of the installed definitions showed. *)
Theorem gatewayclass_patches_justified name tr result t1 e t2 :
  exec (Reconcile r name) tr result -> tr = t1 ++ e :: t2 -> isWrite (ev_req e) = true -> classAuthority t1 (ev_req e).
Proof.
  intros Hx Ht He. enough (GuardedFrom isWrite classAuthority [] (Reconcile r name)) as Hg by exact (Hg _ _ Hx _ _ _ Ht He).
  unfold Reconcile. destruct (cr_APIReader r); [|apply GuardedFrom_Avoids; solve_avoids].
  apply GuardedFrom_mbind; [apply GuardedFrom_Avoids; solve_avoids|].
  intros tr1 [s|] Hs; [|apply GuardedFrom_Avoids; solve_avoids].
  assert (exists c, s = mkClassScope c c /\ ownClass c) as (c & -> & Hc).
  { unfold newGatewayClassScope in Hs. apply exec_bind in Hs as (u1 & u2 & [c|e'] & -> & _ & Hs).
    - exists c. destruct (String.eqb_spec (gc_ControllerName c) (cfg_ControllerName (cr_Config r))); cbn [negb] in Hs; inv_kube; by simplify_eq.
    - unfold ignoringNotFound in Hs. destruct (IgnoreNotFound e'); by inv_kube. }
  apply GuardedFrom_bind.
  { apply GuardedFrom_Avoids. cbn [cls_gatewayClass]. destruct (om_Deleting _); solve_avoids. }
  intros tr2 [s x] Hb. apply body_ok in Hb.
  apply GuardedFrom_bind; [|intros; apply GuardedFrom_Avoids; solve_avoids].
  eapply patchGatewayClass_guarded; [exact Hc|]. destruct Hb as [Ho Hb]. split; [done|]. clear Ho. set_solver.
Qed.
End facts.
