(* ===== verification/Predicates.v ===== *)
(** * Which events lead to a reconciliation

    Models [internal/controller/predicates.go]: the filters on watch events.  An
    update is let through when a part of the object changed that some
    reconciler reads. *)
From stdpp Require Import base list strings gmap sorting.
From Stdlib Require Import ZArith Lia Ascii.
From S2P Require Import Prelude GoStrings Cloud Kube KubeObjects References OpenStack Outcomes Binding Indexes KubeClient GatewayModel RouteModel GatewayClassReconciler.

Set Default Goal Selector "!".

(** ** Events *)

(** The events of controller-runtime for objects of one type; [None] is a nil
    interface. *)
Inductive watchEvent (A : Type) :=
| CreateEvent (object : option A)
| DeleteEvent (object : option A)
| UpdateEvent (objectOld objectNew : option A)
| GenericEvent (object : option A).
Arguments CreateEvent {_}. Arguments DeleteEvent {_}. Arguments UpdateEvent {_}. Arguments GenericEvent {_}.

(** [updatePredicate]: [predicate.Funcs] lets events through for which it has no
    function. *)
Definition updatePredicate {A} (changed : A -> A -> bool) (e : watchEvent A) : bool :=
  match e with
  | UpdateEvent (Some objectOld) (Some objectNew) => changed objectOld objectNew
  | _ => true
  end.

Definition generationOrDeletionChanged (oldObject newObject : ObjectMeta) : bool :=
  negb (om_Generation oldObject =? om_Generation newObject)%Z ||
  negb (bool_decide (om_DeletionTimestamp oldObject = om_DeletionTimestamp newObject)).

Definition GenerationOrDeletionChangedPredicate : watchEvent ObjectMeta -> bool := updatePredicate generationOrDeletionChanged.

Definition containsString (values : list string) (expected : string) : bool :=
  existsb (fun value => String.eqb value expected) values.
Definition finalizerPresenceChanged (oldObject newObject : ObjectMeta) (finalizer : string) : bool :=
  negb (Bool.eqb (containsString (om_Finalizers oldObject) finalizer) (containsString (om_Finalizers newObject) finalizer)).

Section predicates.
Context `{ApiMeta} (config : Config).

(** [programmedState] and [gatewayClassConditionState]: [None] when no such
    condition is present. *)
Definition conditionState (conditions : list Condition) (type : string) : option (ConditionStatus * string * Z) :=
  match FindStatusCondition conditions type with
  | Some c => Some (c_Status c, c_Reason c, c_ObservedGeneration c)
  | None => None
  end.

Definition gatewayClassConditionStateFor (gatewayClass : GatewayClass) (type : string) :=
  conditionState (gc_Conditions gatewayClass) type.
Definition gatewayAcceptedState (gateway : Gateway) := conditionState (gst_Conditions (gw_Status gateway)) Accepted.
Definition gatewayProgrammedState (gateway : Gateway) := conditionState (gst_Conditions (gw_Status gateway)) Programmed.

Definition annotationChanged (oldObject newObject : ObjectMeta) (key : string) : bool :=
  negb (String.eqb (annotation oldObject key) (annotation newObject key)).

Definition gatewayBindingChanged (oldGateway newGateway : ObjectMeta) : bool :=
  finalizerPresenceChanged oldGateway newGateway (GatewayFinalizer config) ||
  existsb (annotationChanged oldGateway newGateway)
    [GatewayListenerPortAnnotation config; GatewayClusterIDAnnotation config; GatewayProjectIDAnnotation config].

Definition controllerRouteFinalizers (route : ObjectMeta) : list string :=
  sort_slice String.ltb
    (List.filter (fun f => String.eqb f (RouteFinalizer config) || isRouteBindingFinalizer config f) (om_Finalizers route)).

Definition routeBindingChanged (oldRoute newRoute : ObjectMeta) : bool :=
  existsb (annotationChanged oldRoute newRoute)
    [RouteGatewayNamespaceAnnotation config; RouteGatewayNameAnnotation config; RouteGatewayUIDAnnotation config;
     RouteClusterIDAnnotation config; RouteProjectIDAnnotation config] ||
  negb (bool_decide (controllerRouteFinalizers oldRoute = controllerRouteFinalizers newRoute)).

Definition controllerRouteParentStatuses (route : HTTPRoute) : list RouteParentStatus :=
  List.filter (fun s => String.eqb (rps_ControllerName s) (cfg_ControllerName config)) (statusParents route).

(** ** The predicates *)

Definition classConditionChanged (oldClass newClass : GatewayClass) (type : string) : bool :=
  negb (bool_decide (gatewayClassConditionStateFor oldClass type = gatewayClassConditionStateFor newClass type)).

Definition GatewayClassForGatewayPredicate : watchEvent GatewayClass -> bool := updatePredicate (fun oldClass newClass =>
  generationOrDeletionChanged (gc_Meta oldClass) (gc_Meta newClass) ||
  classConditionChanged oldClass newClass Accepted || classConditionChanged oldClass newClass SupportedVersion).

Definition GatewayClassReconcilePredicate : watchEvent GatewayClass -> bool := updatePredicate (fun oldClass newClass =>
  generationOrDeletionChanged (gc_Meta oldClass) (gc_Meta newClass) ||
  finalizerPresenceChanged (gc_Meta oldClass) (gc_Meta newClass) GatewayClassFinalizerGatewaysExist ||
  classConditionChanged oldClass newClass Accepted || classConditionChanged oldClass newClass SupportedVersion).

Definition GatewayReconcilePredicate : watchEvent Gateway -> bool := updatePredicate (fun oldGateway newGateway =>
  generationOrDeletionChanged (gw_Meta oldGateway) (gw_Meta newGateway) ||
  gatewayBindingChanged (gw_Meta oldGateway) (gw_Meta newGateway)).

Definition gatewayForRouteChanged (oldGateway newGateway : Gateway) : bool :=
  generationOrDeletionChanged (gw_Meta oldGateway) (gw_Meta newGateway) ||
  gatewayBindingChanged (gw_Meta oldGateway) (gw_Meta newGateway) ||
  negb (bool_decide (gatewayAcceptedState oldGateway = gatewayAcceptedState newGateway)) ||
  negb (bool_decide (gatewayProgrammedState oldGateway = gatewayProgrammedState newGateway)).
Definition GatewayForHTTPRoutePredicate : watchEvent Gateway -> bool := updatePredicate gatewayForRouteChanged.

Definition HTTPRouteReconcilePredicate : watchEvent HTTPRoute -> bool := updatePredicate (fun oldRoute newRoute =>
  generationOrDeletionChanged (hr_Meta oldRoute) (hr_Meta newRoute) ||
  routeBindingChanged (hr_Meta oldRoute) (hr_Meta newRoute)).

Definition HTTPRoutePeerPredicate : watchEvent HTTPRoute -> bool := updatePredicate (fun oldRoute newRoute =>
  generationOrDeletionChanged (hr_Meta oldRoute) (hr_Meta newRoute)).

Definition routeForGatewayChanged (oldRoute newRoute : HTTPRoute) : bool :=
  generationOrDeletionChanged (hr_Meta oldRoute) (hr_Meta newRoute) ||
  routeBindingChanged (hr_Meta oldRoute) (hr_Meta newRoute) ||
  negb (bool_decide (controllerRouteParentStatuses oldRoute = controllerRouteParentStatuses newRoute)).
Definition HTTPRouteForGatewayPredicate : watchEvent HTTPRoute -> bool := updatePredicate routeForGatewayChanged.
End predicates.

(** [GatewayAPICRDReconcilePredicate]. *)
Definition isGatewayAPICRD (object : option ObjectMeta) : bool :=
  match object with Some o => IsGatewayAPICRDName (om_Name o) | None => false end.

Definition GatewayAPICRDReconcilePredicate `{GatewayConsts} (e : watchEvent ObjectMeta) : bool :=
  match e with
  | CreateEvent o | DeleteEvent o | GenericEvent o => isGatewayAPICRD o
  | UpdateEvent (Some objectOld) (Some objectNew) =>
      if negb (IsGatewayAPICRDName (om_Name objectOld)) && negb (IsGatewayAPICRDName (om_Name objectNew)) then false
      else generationOrDeletionChanged objectOld objectNew ||
           negb (String.eqb (om_Name objectOld) (om_Name objectNew)) ||
           annotationChanged objectOld objectNew BundleVersionAnnotation
  | UpdateEvent _ _ => true
  end.

(** ** Backends *)

Record endpointBackendState := mkEndpointState {
  ebs_serviceName : string; ebs_hasReady : bool; ebs_readyNodes : string; ebs_deleting : bool }.

#[export] Instance endpointBackendState_eq_dec : EqDecision endpointBackendState.
Proof. solve_decision. Defined.

Definition nulSeparator : string := String (ascii_of_N 0) "".

Definition endpointSliceBackendState (endpointSlice : EndpointSlice) : endpointBackendState :=
  let ready := List.filter endpointReady (es_Endpoints endpointSlice) in
  mkEndpointState (es_ServiceName endpointSlice) (negb (bool_decide (length ready = 0)))
    (Join (sortedIndexKeys (omap ep_NodeName ready)) nulSeparator) (es_Deleting endpointSlice).

Definition EndpointSlicePredicate : watchEvent EndpointSlice -> bool := updatePredicate (fun oldSlice newSlice =>
  negb (bool_decide (endpointSliceBackendState oldSlice = endpointSliceBackendState newSlice))).

Record nodeBackendState := mkNodeState {
  nbs_address : string; nbs_ready : option string; nbs_unschedulable : bool; nbs_deleting : bool }.

#[export] Instance nodeBackendState_eq_dec : EqDecision nodeBackendState.
Proof. solve_decision. Defined.

(** The fields [ready] and [readyPresent] are an option here. *)
Definition nodeBackendStateFor (node : Node) (addressType : string) : nodeBackendState :=
  mkNodeState (nodeAddress node addressType)
    (snd <$> List.find (fun c => String.eqb (fst c) "Ready") (nd_Conditions node))
    (nd_Unschedulable node) (om_Deleting (nd_Meta node)).

Definition NodePredicate (addressType : string) : watchEvent Node -> bool := updatePredicate (fun oldNode newNode =>
  negb (bool_decide (nodeBackendStateFor oldNode addressType = nodeBackendStateFor newNode addressType))).
