(* ===== verification/PredicateFacts.v ===== *)
(** * Updates that may be ignored

    An update that a predicate of predicates.go filters out changes nothing that
    the reconciler behind it computes from the object: the members of a pool,
    what a route reads of its Gateway and class, and the binding of a route. *)
From stdpp Require Import base list strings gmap sorting.
From Stdlib Require Import ZArith Lia Ascii.
From S2P Require Import Prelude GoStrings Cloud Kube KubeObjects References OpenStack ProgramLogic Outcomes Binding BindingFacts Indexes KubeClient ReconcileLogic GatewayModel GatewayReconciler RouteModel RouteModelFacts RouteReconciler GatewayClassReconciler Predicates.

Set Default Goal Selector "!".

(** ** Nodes *)

Lemma nodeState_member config service nodePort local old new :
  nodeBackendStateFor old (cfg_NodeAddressType config) = nodeBackendStateFor new (cfg_NodeAddressType config) ->
  om_Name (nd_Meta old) = om_Name (nd_Meta new) ->
  nodeMember config service nodePort local old = nodeMember config service nodePort local new.
Proof.
  intros Hs Hn. injection Hs as Ha Hr Hu Hd. unfold nodeMember, readyNode. rewrite Ha, Hn, Hu, Hd.
  destruct (_ || _); [done|].
  destruct (List.find _ (nd_Conditions old)) as [[]|], (List.find _ (nd_Conditions new)) as [[]|]; by simplify_eq/=.
Qed.

(** Members only depend on the members of the Nodes and the sets of ready
    endpoints' Nodes. *)
Lemma membersOf_nodes config service nodePort slices nodes nodes' :
  (forall m, (exists node, node ∈ nodes /\ nodeMember config service nodePort (localNodes slices) node = Some m) <->
             (exists node, node ∈ nodes' /\ nodeMember config service nodePort (localNodes slices) node = Some m)) ->
  membersOf config service nodePort slices nodes = membersOf config service nodePort slices nodes'.
Proof.
  intros He. apply membersOf_ext. intros m.
  rewrite (proj2 (proj2 (membersOf_nodeMember config service nodePort slices nodes))).
  rewrite (proj2 (proj2 (membersOf_nodeMember config service nodePort slices nodes'))).
  apply He.
Qed.

Lemma membersOf_node_update config service nodePort slices before old new after :
  NodePredicate (cfg_NodeAddressType config) (UpdateEvent (Some old) (Some new)) = false ->
  om_Name (nd_Meta old) = om_Name (nd_Meta new) ->
  membersOf config service nodePort slices (before ++ old :: after) =
  membersOf config service nodePort slices (before ++ new :: after).
Proof.
  intros Hp Hn. apply negb_false_iff, bool_decide_eq_true in Hp. apply membersOf_nodes. intros m.
  pose proof (nodeState_member config service nodePort (localNodes slices) old new Hp Hn) as Hm.
  split; intros (node & Hin & Hs); apply elem_of_app in Hin as [Hin|[->|Hin]%elem_of_cons].
  1,3,4,6: exists node; split; [set_solver|done].
  - exists new. split; [set_solver|congruence].
  - exists old. split; [set_solver|congruence].
Qed.

(** ** Endpoints *)

(** Names of Nodes: not empty and without NUL. *)
Definition nodeNamed (slice : EndpointSlice) : Prop :=
  forall e n, e ∈ es_Endpoints slice -> ep_NodeName e = Some n -> n <> "" /\ str_without (ascii_of_N 0) n = true.

Lemma Join_inj c l l' :
  Forall (fun s => s <> "" /\ str_without c s = true) l -> Forall (fun s => s <> "" /\ str_without c s = true) l' ->
  Join l (String c "") = Join l' (String c "") -> l = l'.
Proof.
  assert (forall x y rest, str_without c x = true -> x <> Join (y :: rest) (String c "") \/ rest = [] /\ x = y) as Hone.
  { intros x y [|z rest] Hx; [|left].
    - destruct (decide (x = y)); [by right|by left].
    - intros ->. cbn [Join] in Hx. rewrite !str_without_append in Hx. cbn [str_without] in Hx. rewrite Ascii.eqb_refl in Hx.
      cbn in Hx. by rewrite andb_false_r in Hx. }
  intros Hl. revert l'. induction Hl as [|x l [Hne Hx] Hl IH]; intros l' Hl' He.
  - destruct Hl' as [|y [|z l'] [Hne Hy] Hl']; [done|cbn in He; congruence|].
    cbn [Join] in He. destruct y; [done|]. by cbn in He.
  - destruct Hl' as [|y l' [Hney Hy] Hl'].
    { destruct l; cbn [Join] in He; [congruence|]. destruct x; [done|]. by cbn in He. }
    destruct l as [|x' l].
    { destruct (Hone x y l' Hx) as [Hn|[-> ->]]; [by destruct Hn|done]. }
    destruct l' as [|y' l'].
    { destruct (Hone y x (x' :: l) Hy) as [Hn|[[=] _]]. by destruct Hn. }
    change (x ^^ String c (Join (x' :: l) (String c "")) = y ^^ String c (Join (y' :: l') (String c ""))) in He.
    apply (sep_inj c) in He as [-> He]; [|done..]. f_equal. by apply IH.
Qed.

(** What a backend reads of an EndpointSlice. *)
Lemma sliceState_ready old new :
  nodeNamed old -> nodeNamed new -> endpointSliceBackendState old = endpointSliceBackendState new ->
  (List.filter endpointReady (es_Endpoints old) = [] <-> List.filter endpointReady (es_Endpoints new) = []) /\
  forall n, n ∈ omap ep_NodeName (List.filter endpointReady (es_Endpoints old)) <->
            n ∈ omap ep_NodeName (List.filter endpointReady (es_Endpoints new)).
Proof.
  intros Ho Hn Hs. injection Hs as _ Hr Hj _. split.
  - rewrite <- !length_zero_iff_nil. destruct (bool_decide_reflect (length (List.filter endpointReady (es_Endpoints old)) = 0)),
      (bool_decide_reflect (length (List.filter endpointReady (es_Endpoints new)) = 0)); cbn in Hr; try discriminate Hr; tauto.
  - intros n. rewrite <- (sortedIndexKeys_elem (omap ep_NodeName (List.filter endpointReady (es_Endpoints old)))).
    rewrite <- (sortedIndexKeys_elem (omap ep_NodeName (List.filter endpointReady (es_Endpoints new)))).
    apply Join_inj in Hj as ->; [done|..]; apply Forall_forall; intros s Hin; rewrite sortedIndexKeys_elem in Hin;
      apply list_elem_of_omap in Hin as (e & Hin & He); rewrite list_elem_of_In, List.filter_In, <- list_elem_of_In in Hin;
      destruct Hin as [Hin _]; [by eapply Ho|by eapply Hn].
Qed.

(** The list of slices with one replaced. *)
Lemma readyEndpoints_app l l' : readyEndpoints (l ++ l') = readyEndpoints l ++ readyEndpoints l'.
Proof. unfold readyEndpoints. by rewrite fmap_app, List.concat_app, List.filter_app. Qed.
Lemma readyEndpoints_cons slice l : readyEndpoints (slice :: l) = List.filter endpointReady (es_Endpoints slice) ++ readyEndpoints l.
Proof. unfold readyEndpoints. cbn. apply List.filter_app. Qed.

Lemma slice_update before old new after :
  nodeNamed old -> nodeNamed new -> EndpointSlicePredicate (UpdateEvent (Some old) (Some new)) = false ->
  (readyEndpoints (before ++ old :: after) = [] <-> readyEndpoints (before ++ new :: after) = []) /\
  forall n, n ∈ localNodes (before ++ old :: after) <-> n ∈ localNodes (before ++ new :: after).
Proof.
  intros Ho Hn Hp. apply negb_false_iff, bool_decide_eq_true in Hp.
  destruct (sliceState_ready old new Ho Hn Hp) as [He Hm]. unfold localNodes.
  rewrite !readyEndpoints_app, !readyEndpoints_cons. split.
  - rewrite !app_nil. tauto.
  - intros n. rewrite !omap_app, !elem_of_app. rewrite Hm. tauto.
Qed.

Lemma membersOf_slices config service nodePort slices slices' nodes :
  (forall n, n ∈ localNodes slices <-> n ∈ localNodes slices') ->
  membersOf config service nodePort slices nodes = membersOf config service nodePort slices' nodes.
Proof.
  intros Hl. apply membersOf_ext. intros m.
  rewrite (proj2 (proj2 (membersOf_nodeMember config service nodePort slices nodes))).
  rewrite (proj2 (proj2 (membersOf_nodeMember config service nodePort slices' nodes))).
  unfold nodeMember.
  assert (forall n, bool_decide (n ∈ localNodes slices) = bool_decide (n ∈ localNodes slices')) as Hb by (intros; by apply bool_decide_ext).
  by setoid_rewrite Hb.
Qed.

(** The result of [nodePortMembers] for the objects that were listed. *)
Definition membersResult (config : Config) (service : Service) (nodePort : Z) (slices : list EndpointSlice)
    (nodes : list Node) : outcome_of (list Member) :=
  let name := om_Name (sv_Meta service) in
  let members := membersOf config service nodePort slices nodes in
  guard? negb (bool_decide (readyEndpoints slices = []))
    else newRouteBuildError routeErrorPending "backend Service %s has no ready endpoints" [name] in
  guard? negb (String.eqb (sv_ExternalTrafficPolicy service) TrafficPolicyLocal && bool_decide (localNodes slices = []))
    else newRouteBuildError routeErrorPending
           "backend Service %s uses externalTrafficPolicy Local but ready endpoints do not identify their Nodes" [name] in
  guard? negb (bool_decide (members = []))
    else newRouteBuildError routeErrorPending "backend Service %s has no ready Nodes with a %s address"
           [name; cfg_NodeAddressType config] in
  Ok members.

Definition backendAnswer (slices : list EndpointSlice) (nodes : list Node) (e : event) : Prop :=
  match e with
  | Ev q x =>
      match q return outcome_of (response q) -> Prop with
      | ReqKube (KListEndpointSlices _ _ _) => fun x => x = Ok slices
      | ReqKube (KListNodes _) => fun x => x = Ok nodes
      | _ => fun _ => True
      end x
  end.

Lemma nodePortMembers_answered config from service nodePort slices nodes tr x :
  exec (nodePortMembersWithReader config from service nodePort) tr x -> Forall (backendAnswer slices nodes) tr ->
  x = membersResult config service nodePort slices nodes.
Proof.
  unfold nodePortMembersWithReader, membersResult. cbv zeta.
  intros [(e & -> & (y & ->%exec_call & Hy)%exec_onError)|(t1 & t2 & l & -> & ->%exec_wrap_ok%exec_call & Hx)]%exec_mbind Ha.
  { apply Forall_cons in Ha as [Ha _]. cbn in Ha. subst y. done. }
  apply Forall_app in Ha as [[Hl _]%Forall_cons Ha]. cbn in Hl. injection Hl as ->.
  destruct (bool_decide _); cbn [negb] in *; [by apply exec_raise in Hx as [_ ->]|].
  destruct (_ && _); cbn [negb] in *; [by apply exec_raise in Hx as [_ ->]|].
  apply exec_mbind in Hx as [(e & -> & (y & ->%exec_call & Hy)%exec_onError)|(t3 & t4 & l & -> & ->%exec_wrap_ok%exec_call & Hx)].
  { apply Forall_cons in Ha as [Ha _]. cbn in Ha. subst y. done. }
  apply Forall_app in Ha as [[Hl _]%Forall_cons Ha]. cbn in Hl. injection Hl as ->.
  destruct (bool_decide _); cbn [negb] in *; [by apply exec_raise in Hx as [_ ->]|by apply exec_ret in Hx as [_ ->]].
Qed.

(** C27. An update of an EndpointSlice and of a Node that the event filters
    ignore changes nothing for a backend: read with the old and with the new
    version of both, whatever else is listed, the members of the pool, or the
    reason why there are none, are the same. The lists are answered from these
    versions, a Node keeps its name, and the Node names in EndpointSlices are
    not empty and without NUL. *)
Theorem ignored_backend_updates config from service nodePort slices slices' old new nodes nodes' oldNode newNode tr tr' x x' :
  EndpointSlicePredicate (UpdateEvent (Some old) (Some new)) = false -> nodeNamed old -> nodeNamed new ->
  NodePredicate (cfg_NodeAddressType config) (UpdateEvent (Some oldNode) (Some newNode)) = false ->
  om_Name (nd_Meta oldNode) = om_Name (nd_Meta newNode) ->
  exec (nodePortMembersWithReader config from service nodePort) tr x ->
  Forall (backendAnswer (slices ++ old :: slices') (nodes ++ oldNode :: nodes')) tr ->
  exec (nodePortMembersWithReader config from service nodePort) tr' x' ->
  Forall (backendAnswer (slices ++ new :: slices') (nodes ++ newNode :: nodes')) tr' ->
  x = x'.
Proof.
  intros Hs Ho Hn Hp Hname Hx Ha Hx' Ha'.
  rewrite (nodePortMembers_answered _ _ _ _ _ _ _ _ Hx Ha), (nodePortMembers_answered _ _ _ _ _ _ _ _ Hx' Ha').
  destruct (slice_update slices old new slices' Ho Hn Hs) as [Hempty Hlocal].
  assert (membersOf config service nodePort (slices ++ old :: slices') (nodes ++ oldNode :: nodes') =
          membersOf config service nodePort (slices ++ new :: slices') (nodes ++ newNode :: nodes')) as Hm.
  { rewrite (membersOf_node_update _ _ _ _ nodes oldNode newNode nodes') by done. by apply membersOf_slices. }
  unfold membersResult. rewrite Hm.
  rewrite (bool_decide_ext _ _ Hempty). 
  rewrite (bool_decide_ext (localNodes (slices ++ old :: slices') = []) (localNodes (slices ++ new :: slices') = [])); [done|].
  split; intros E; apply elem_of_nil_inv; intros n Hin; apply Hlocal in Hin; rewrite E in Hin; by apply elem_of_nil in Hin.
Qed.

(** ** Gateways, classes and routes *)

(** Two versions of one object: "A sequence number representing a specific
    generation of the desired state", so an equal generation means an equal
    spec. *)
Definition sameObject (old new : ObjectMeta) : Prop :=
  om_Namespace old = om_Namespace new /\ om_Name old = om_Name new /\ om_UID old = om_UID new.
Definition gatewayVersions (old new : Gateway) : Prop :=
  sameObject (gw_Meta old) (gw_Meta new) /\
  (om_Generation (gw_Meta old) = om_Generation (gw_Meta new) ->
   new = withStatus (withMeta old (gw_Meta new)) (gw_Status new)).
Definition classVersions (old new : GatewayClass) : Prop :=
  om_Generation (gc_Meta old) = om_Generation (gc_Meta new) ->
  gc_ControllerName old = gc_ControllerName new /\ gc_ParametersRef old = gc_ParametersRef new.

Section updates.
Context `{ControllerUtilLaws, ApiMetaLaws, KubeErrors, ForeignTexts, GatewayConsts} (r : Reconciler).

Abbreviation cfg := (rc_Config r).

Lemma generation_unchanged old new :
  generationOrDeletionChanged old new = false -> om_Generation old = om_Generation new /\ om_Deleting old = om_Deleting new.
Proof.
  unfold generationOrDeletionChanged, om_Deleting. intros [Hg Hd]%orb_false_iff.
  apply negb_false_iff, Z.eqb_eq in Hg. apply negb_false_iff, bool_decide_eq_true in Hd. by rewrite Hd.
Qed.

Lemma containsString_spec l f : containsString l f = ContainsFinalizer l f.
Proof.
  apply eq_true_iff_eq. unfold containsString. rewrite contains_spec, existsb_exists. setoid_rewrite String.eqb_eq.
  setoid_rewrite <- list_elem_of_In. naive_solver.
Qed.

Lemma finalizer_unchanged old new f :
  finalizerPresenceChanged old new f = false -> ContainsFinalizer (om_Finalizers old) f = ContainsFinalizer (om_Finalizers new) f.
Proof. unfold finalizerPresenceChanged. rewrite !containsString_spec. by intros ?%negb_false_iff%eqb_prop. Qed.

Lemma annotation_unchanged old new keys :
  existsb (annotationChanged old new) keys = false -> Forall (fun k => annotation old k = annotation new k) keys.
Proof.
  intros Hk. apply Forall_forall. intros k Hin. destruct (String.eqb_spec (annotation old k) (annotation new k)) as [|Hne]; [done|].
  assert (existsb (annotationChanged old new) keys = true); [|congruence].
  apply existsb_exists. exists k. split; [by apply list_elem_of_In|]. unfold annotationChanged. by apply negb_true_iff, String.eqb_neq.
Qed.

Lemma gatewayBinding_unchanged old new :
  gatewayBindingChanged cfg old new = false ->
  ContainsFinalizer (om_Finalizers old) (GatewayFinalizer cfg) = ContainsFinalizer (om_Finalizers new) (GatewayFinalizer cfg) /\
  annotation old (GatewayListenerPortAnnotation cfg) = annotation new (GatewayListenerPortAnnotation cfg) /\
  annotation old (GatewayClusterIDAnnotation cfg) = annotation new (GatewayClusterIDAnnotation cfg) /\
  annotation old (GatewayProjectIDAnnotation cfg) = annotation new (GatewayProjectIDAnnotation cfg).
Proof.
  unfold gatewayBindingChanged. intros [Hf%finalizer_unchanged Ha%annotation_unchanged]%orb_false_iff.
  apply Forall_cons in Ha as [H1' Ha]. apply Forall_cons in Ha as [H2' Ha]. by apply Forall_cons in Ha as [H3' _].
Qed.

(** An update of a Gateway that the predicate filters out changes nothing
    the route reconciler computes from it: binding, programmed state, validation
    of parents, the model of a route. *)
Theorem ignored_gateway_update old new :
  GatewayForHTTPRoutePredicate cfg (UpdateEvent (Some old) (Some new)) = false -> gatewayVersions old new ->
  om_Deleting (gw_Meta old) = om_Deleting (gw_Meta new) /\
  gatewayBound r old = gatewayBound r new /\ gatewayProgrammedForGeneration old = gatewayProgrammedForGeneration new /\
  GatewayModel.Validate old = GatewayModel.Validate new /\
  GatewayBindingMetadataEqual cfg (gw_Meta old) (gw_Meta new) = true /\
  forall from route, buildRouteSpecWithReader cfg from route old = buildRouteSpecWithReader cfg from route new /\
    forall ref listener, validateParent route ref old listener = validateParent route ref new listener.
Proof.
  intros Hp [(Hns & Hn & Hu) Hspec]. unfold GatewayForHTTPRoutePredicate, updatePredicate, gatewayForRouteChanged in Hp.
  apply orb_false_iff in Hp as [Hp Hprog]. apply orb_false_iff in Hp as [Hp _].
  apply orb_false_iff in Hp as [[Hg Hd]%generation_unchanged (Hf & Hport & Hc & Hpr)%gatewayBinding_unchanged].
  apply negb_false_iff, bool_decide_eq_true in Hprog. specialize (Hspec Hg).
  split; [done|]. split.
  { unfold gatewayBound, ValidateGatewayBinding, gatewayBindingAnnotationKeys, incompleteGatewayBinding. cbn [fmap list_fmap].
    by rewrite Hf, Hport, Hc, Hpr, Hns, Hn. }
  split.
  { unfold gatewayProgrammedForGeneration, gatewayProgrammedState, conditionState, gatewayGeneration in *. rewrite Hg.
    do 2 destruct (FindStatusCondition _ _); try done; by injection Hprog as -> _ ->. }
  split; [by rewrite Hspec|]. split.
  { unfold GatewayBindingMetadataEqual, gatewayBindingAnnotationKeys. cbn [forallb].
    by rewrite Hf, Hport, Hc, Hpr, eqb_reflx, !String.eqb_refl. }
  intros from route. split.
  - assert (gw_Listeners old = gw_Listeners new) as Hl by (by rewrite Hspec).
    assert (RouteIdentity cfg (gw_Meta old) (hr_Meta route) = RouteIdentity cfg (gw_Meta new) (hr_Meta route)) as Hid
      by (unfold RouteIdentity, GatewayIdentity; by rewrite Hns, Hn, Hu).
    unfold buildRouteSpecWithReader. by rewrite Hid, Hl.
  - intros ref listener. unfold validateParent. by rewrite Hd, Hns.
Qed.

(** What both reconcilers read of a class. *)
Lemma ignored_class_update old new :
  GatewayClassForGatewayPredicate (UpdateEvent (Some old) (Some new)) = false -> classVersions old new ->
  classUsable r old = classUsable r new /\
  GatewayClassSupportsInstalledVersion old = GatewayClassSupportsInstalledVersion new.
Proof.
  intros Hp Hv. unfold GatewayClassForGatewayPredicate, updatePredicate in Hp. apply orb_false_iff in Hp as [Hp Hs].
  apply orb_false_iff in Hp as [[Hg _]%generation_unchanged _]. destruct (Hv Hg) as [Hn Hr].
  unfold classConditionChanged in Hs. apply negb_false_iff, bool_decide_eq_true in Hs.
  unfold classUsable. rewrite Hn, Hr. split; [done|]. unfold GatewayClassSupportsInstalledVersion. rewrite Hg.
  unfold gatewayClassConditionStateFor, conditionState in Hs.
  do 2 destruct (FindStatusCondition _ _); try done; by injection Hs as -> _ ->.
Qed.

Lemma controllerRouteFinalizers_elem route f :
  f ∈ controllerRouteFinalizers cfg route <-> f ∈ om_Finalizers route /\ (f = RouteFinalizer cfg \/ isRouteBindingFinalizer cfg f = true).
Proof.
  unfold controllerRouteFinalizers. rewrite sort_slice_elem, list_elem_of_In, List.filter_In, <- list_elem_of_In.
  by rewrite orb_true_iff, String.eqb_eq.
Qed.

(** An update of an HTTPRoute that the predicate filters out keeps the
    revision and the stored binding the reconciler reads from it. *)
Theorem ignored_route_update old new :
  HTTPRouteReconcilePredicate cfg (UpdateEvent (Some old) (Some new)) = false -> sameObject (hr_Meta old) (hr_Meta new) ->
  storedRouteIdentity r old = storedRouteIdentity r new /\ hasRouteFinalizer r old = hasRouteFinalizer r new /\
  RouteHasControllerBinding cfg (hr_Meta old) = RouteHasControllerBinding cfg (hr_Meta new) /\ sameRevision old new = true.
Proof.
  intros Hp (Hns & Hn & Hu). unfold HTTPRouteReconcilePredicate, updatePredicate in Hp.
  apply orb_false_iff in Hp as [[Hg Hd]%generation_unchanged Hb]. unfold routeBindingChanged in Hb.
  apply orb_false_iff in Hb as [Ha%annotation_unchanged Hf%negb_false_iff%bool_decide_eq_true].
  assert (forall f, f = RouteFinalizer cfg \/ isRouteBindingFinalizer cfg f = true ->
    f ∈ om_Finalizers (hr_Meta old) <-> f ∈ om_Finalizers (hr_Meta new)) as Hf'.
  { intros f Hr. pose proof (controllerRouteFinalizers_elem (hr_Meta old) f) as Ho.
    rewrite Hf, controllerRouteFinalizers_elem in Ho. tauto. }
  destruct (StoredRouteIdentity_ext cfg (hr_Meta old) (hr_Meta new)) as [Hs Hc]; [done..| |exact Hf'|].
  { intros k Hk. rewrite Forall_forall in Ha. by apply Ha. }
  split; [exact Hs|]. split; [apply contains_ext, Hf'; by left|]. split; [exact Hc|].
  unfold sameRevision, sameHTTPRouteRevision, isDeleting. by rewrite Hu, Hg, Hd, String.eqb_refl, Z.eqb_refl, eqb_reflx.
Qed.
End updates.
