(* ===== verification/Watches.v ===== *)
(** * From events to requests

    The watch mappers of [gateway_watch.go], [httproute_watch.go] and
    [gatewayclass_controller.go]: which objects are reconciled when another one
    changes.  A mapper that cannot list logs the error and goes on. *)
From stdpp Require Import base list strings gmap.
From Stdlib Require Import ZArith Lia.
From S2P Require Import Prelude GoStrings Cloud Kube KubeObjects References OpenStack Outcomes Binding Indexes KubeClient GatewayModel RouteModel.

Set Default Goal Selector "!".

(** [controller.SortedRequests] of the keys collected in a map. *)
Definition requestsFor (keys : list NamespacedName) : list NamespacedName := SortedRequests (remove_dups keys).

(** A list that failed is logged and counts as empty. *)
Definition orElse {A B} (m : M A) (zero : B) (f : A -> M B) : M B :=
  try m (fun x => match x with Ok a => f a | Err _ => ret zero end).

(** ** Gateways (gateway_watch.go) *)

Definition parentRequest (route : HTTPRoute) (parentRef : ParentReference) : option NamespacedName :=
  if negb (IsGatewayParentRef parentRef) || String.eqb (pr_Name parentRef) "" then None
  else Some (mkNamespacedName (default (om_Namespace (hr_Meta route)) (pr_Namespace parentRef)) (pr_Name parentRef)).

Definition gatewayRequestsForHTTPRoute (config : Config) (route : HTTPRoute) : list NamespacedName :=
  let own := List.filter (fun s => String.eqb (rps_ControllerName s) (cfg_ControllerName config)) (statusParents route) in
  let value key := annotation (hr_Meta route) key in
  let boundNamespace := value (RouteGatewayNamespaceAnnotation config) in
  let boundName := value (RouteGatewayNameAnnotation config) in
  let boundUID := value (RouteGatewayUIDAnnotation config) in
  requestsFor (omap (parentRequest route) (hr_ParentRefs route) ++
    omap (parentRequest route) (rps_ParentRef <$> own) ++
    (if negb (String.eqb boundNamespace "") && negb (String.eqb boundName "") && negb (String.eqb boundUID "")
     then [mkNamespacedName boundNamespace boundName] else [])).

Definition gatewayRequestsForGatewayClass (gatewayClass : GatewayClass) : M (list NamespacedName) :=
  orElse (listGateways (IndexGatewayByClass, om_Name (gc_Meta gatewayClass))) [] (fun gateways =>
    ret (requestsFor ((fun g => ObjectKey (gw_Meta g)) <$> gateways))).

(** ** Classes (gatewayclass_controller.go) *)

Definition gatewayClassRequestsForGateway (gateway : Gateway) : list NamespacedName :=
  [mkNamespacedName "" (gw_GatewayClassName gateway)].

Definition gatewayClassRequestsForGatewayAPICRD (config : Config) (object : option ObjectMeta) : M (list NamespacedName) :=
  match object with
  | Some o =>
      if negb (IsGatewayAPICRDName (om_Name o)) then ret []
      else orElse (call (ReqKube (KListGatewayClasses (IndexGatewayClassByController, cfg_ControllerName config)))) []
             (fun classes => ret (requestsFor ((fun c => mkNamespacedName "" (om_Name (gc_Meta c))) <$> classes)))
  | None => ret []
  end.

(** ** Routes (httproute_watch.go) *)

Definition routeKeys (routes : list HTTPRoute) : list NamespacedName := (fun route => ObjectKey (hr_Meta route)) <$> routes.

(** The keys of the cached routes under some index values. *)
Definition addIndexed (keys : list NamespacedName) (index : string * string) : M (list NamespacedName) :=
  orElse (listHTTPRoutes Cached None (Some index)) keys (fun routes => ret (keys ++ routeKeys routes)).
Definition indexedKeys (keys : list NamespacedName) (indexes : list (string * string)) : M (list NamespacedName) :=
  mfold addIndexed keys indexes.

Definition byParent (gatewayKeys : list string) : list (string * string) :=
  (fun k => (IndexHTTPRouteByParentGateway, k)) <$> gatewayKeys.

Definition enqueueHTTPRoutePeers (route : HTTPRoute) : M (list NamespacedName) :=
  let! keys := indexedKeys [] (byParent (ParentGatewayKeys route)) in ret (requestsFor keys).

Definition enqueueHTTPRoutesForGateway (gateway : Gateway) : M (list NamespacedName) :=
  let gatewayKey := ObjectKeyString (ObjectKey (gw_Meta gateway)) in
  let! keys := indexedKeys [] [(IndexHTTPRouteByParentGateway, gatewayKey); (IndexHTTPRouteByStatusGateway, gatewayKey);
                               (IndexHTTPRouteByBoundGateway, gatewayKey)] in
  ret (requestsFor keys).

Definition enqueueHTTPRoutesForServiceKey (serviceKey : NamespacedName) : M (list NamespacedName) :=
  orElse (listHTTPRoutes Cached None (Some (IndexHTTPRouteByBackendService, ObjectKeyString serviceKey))) [] (fun direct =>
    let! keys := mfold (fun keys route => indexedKeys (keys ++ [ObjectKey (hr_Meta route)]) (byParent (ParentGatewayKeys route)))
                   [] direct in
    ret (requestsFor keys)).

Definition enqueueHTTPRoutesForService (service : Service) : M (list NamespacedName) :=
  enqueueHTTPRoutesForServiceKey (ObjectKey (sv_Meta service)).

Definition enqueueHTTPRoutesForEndpointSlice (slice : EndpointSlice) : M (list NamespacedName) :=
  if String.eqb (es_ServiceName slice) "" then ret []
  else enqueueHTTPRoutesForServiceKey (mkNamespacedName (es_Namespace slice) (es_ServiceName slice)).

Definition nodeHasReadyEndpoint (serviceKey : NamespacedName) (nodeName : string) : M bool :=
  let! slices := call (ReqKube (KListEndpointSlicesByService (ObjectKeyString serviceKey))) in
  ret (existsb (fun slice => existsb (fun endpoint =>
         bool_decide (ep_NodeName endpoint = Some nodeName) && endpointReady endpoint) (es_Endpoints slice)) slices).

Section nodes.
Context `{KubeErrors} (config : Config).

(** One route of the loop of [enqueueHTTPRoutesForNode]. *)
Definition addForNode (node : Node) (keys : list NamespacedName) (route : HTTPRoute) : M (list NamespacedName) :=
  let added := keys ++ [ObjectKey (hr_Meta route)] in
  if negb (structurallySupportedRoute route) then ret keys
  else orElse (managedParentsWithReader config Cached route) keys (fun parents =>
    if bool_decide (length parents = 0) then ret keys
    else match soleBackend route with
    | None => raise runtimePanic
    | Some (backend, _) =>
        let serviceKey := mkNamespacedName (routeNamespace route) (hb_Name backend) in
        orElse (getService Cached serviceKey) keys (fun service =>
          if negb (String.eqb (sv_Type service) ServiceTypeNodePort) then ret keys
          else if String.eqb (sv_ExternalTrafficPolicy service) TrafficPolicyLocal
          then orElse (nodeHasReadyEndpoint serviceKey (om_Name (nd_Meta node))) keys
                 (fun localNode => ret (if localNode : bool then added else keys))
          else ret added)
    end).

Definition enqueueHTTPRoutesForNode (node : Node) : M (list NamespacedName) :=
  orElse (listHTTPRoutes Cached None (Some (IndexHTTPRouteByNodeBackend, NodeBackendIndexValue))) [] (fun routes =>
    let! keys := mfold (addForNode node) [] routes in ret (requestsFor keys)).
End nodes.
