(* ===== verification/WatchFacts.v ===== *)
(** * Events reach the routes they concern

    When a route, a Gateway or a backend changes, the mappers of Watches.v
    request every route whose selection or parents depend on it. *)
From stdpp Require Import base list strings gmap.
From Stdlib Require Import ZArith Lia.
From S2P Require Import Prelude GoStrings Cloud Kube KubeObjects References OpenStack ProgramLogic Outcomes Binding Indexes KubeClient ReconcileLogic GatewayModel RouteModel RouteModelFacts RouteSelectionFacts Watches.

Set Default Goal Selector "!".

Lemma requestsFor_elem keys k : k ∈ requestsFor keys <-> k ∈ keys.
Proof. unfold requestsFor, SortedRequests. rewrite sort_slice_elem. apply elem_of_remove_dups. Qed.

(** ** Mappers do not fail *)

(** Whatever the API server answers, the program has a result. *)
Class Succeeds {A} (m : M A) : Prop := succeeds : forall tr x, exec m tr x -> exists a, x = Ok a.

#[local] Instance Succeeds_ret {A} (a : A) : Succeeds (ret a).
Proof. intros tr x [_ ->]%exec_ret. by exists a. Qed.
#[local] Instance Succeeds_mbind {A B} (m : M A) (f : A -> M B) : Succeeds m -> (forall a, Succeeds (f a)) -> Succeeds (mbind m f).
Proof.
  intros Hm Hf tr x [(e & -> & Hx)|(t1 & t2 & a & -> & _ & Hx)]%exec_mbind; [by apply Hm in Hx as (? & [=])|by apply Hf in Hx].
Qed.
#[local] Instance Succeeds_orElse {A B} (m : M A) (zero : B) f : (forall a, Succeeds (f a)) -> Succeeds (orElse m zero f).
Proof.
  intros Hf tr x (t1 & t2 & found & -> & _ & Hx)%exec_bind. destruct found as [a|e]; [by apply Hf in Hx|].
  apply exec_ret in Hx as [_ ->]. by exists zero.
Qed.
#[local] Instance Succeeds_mfold {A B} (f : B -> A -> M B) acc l : (forall acc a, Succeeds (f acc a)) -> Succeeds (mfold f acc l).
Proof. intros Hf. revert acc. induction l as [|a l IH]; intros acc; cbn [mfold]; apply _. Qed.

#[local] Instance indexedKeys_succeeds keys indexes : Succeeds (indexedKeys keys indexes).
Proof. unfold indexedKeys, addIndexed. apply _. Qed.

Lemma soleBackend_some route : structurallySupportedRoute route = true -> is_Some (soleBackend route).
Proof.
  unfold structurallySupportedRoute, soleBackend. destruct (hr_ParentRefs route) as [|? []], (hr_Rules route) as [|rule []]; try done.
  destruct (hru_BackendRefs rule) as [|backend []]; [by rewrite andb_false_r| |by rewrite andb_false_r].
  destruct (hb_Port backend) as [port|]; [done|]. by rewrite !andb_false_r.
Qed.

#[local] Instance addForNode_succeeds `{KubeErrors} config node keys route : Succeeds (addForNode config node keys route).
Proof.
  unfold addForNode. cbv zeta. destruct (structurallySupportedRoute route) eqn:Hs; cbn [negb]; [|apply _].
  apply Succeeds_orElse. intros parents. case_bool_decide; [apply _|].
  destruct (soleBackend_some route Hs) as [[backend port] ->]. apply Succeeds_orElse. intros service.
  destruct (negb _); [apply _|]. destruct (String.eqb _ _); apply _.
Qed.

Lemma mappers_succeed `{KubeErrors} config :
  (forall c, Succeeds (enqueueHTTPRoutePeers c)) /\ (forall gateway, Succeeds (enqueueHTTPRoutesForGateway gateway)) /\
  (forall key, Succeeds (enqueueHTTPRoutesForServiceKey key)) /\ (forall node, Succeeds (enqueueHTTPRoutesForNode config node)).
Proof. split_and!; intros; unfold enqueueHTTPRoutePeers, enqueueHTTPRoutesForGateway, enqueueHTTPRoutesForServiceKey, enqueueHTTPRoutesForNode; apply _. Qed.

(** ** Who is requested *)

Section watches.
Context `{KubeErrors} (config : Config) (w : routeWorld).

(** The cached routes under an index value. *)
Definition filedUnder (index : string * string) (route : HTTPRoute) : Prop :=
  route ∈ rw_routes w /\ snd index ∈ httpRouteIndex config (fst index) route.

Lemma listIndexed_answered index tr x :
  exec (listHTTPRoutes Cached None (Some index)) tr x -> answeredBy config w tr ->
  exists routes, x = Ok routes /\ forall route, route ∈ routes <-> filedUnder index route.
Proof.
  intros ->%exec_call [Ha _]%Forall_cons. destruct index as [field value]. specialize (Ha _ eq_refl). cbn in Ha. subst x.
  eexists. split; [done|]. intros route. unfold indexedRoutes, filedUnder.
  rewrite list_elem_of_In, List.filter_In, <- list_elem_of_In. cbn. by rewrite bool_decide_eq_true.
Qed.

Lemma indexedKeys_answered indexes keys tr x :
  exec (indexedKeys keys indexes) tr x -> answeredBy config w tr ->
  exists keys', x = Ok keys' /\ forall k, k ∈ keys' <->
    k ∈ keys \/ exists index route, index ∈ indexes /\ filedUnder index route /\ k = ObjectKey (hr_Meta route).
Proof.
  revert keys tr. induction indexes as [|index indexes IH]; intros keys tr Hx Ha.
  { apply exec_ret in Hx as [_ ->]. eexists. split; [done|]. set_solver. }
  assert (forall t y, exec (addIndexed keys index) t y -> answeredBy config w t ->
    exists keys', y = Ok keys' /\ forall k, k ∈ keys' <-> k ∈ keys \/ exists route, filedUnder index route /\ k = ObjectKey (hr_Meta route)) as Hadd.
  { intros t y (t1 & t2 & found & -> & Hl & Hy)%exec_bind [Ha1 _]%Forall_app.
    apply listIndexed_answered in Hl as (routes & -> & Hr); [|done]. apply exec_ret in Hy as [_ ->].
    eexists. split; [done|]. intros k. unfold routeKeys. rewrite elem_of_app, list_elem_of_fmap. setoid_rewrite Hr. naive_solver. }
  apply exec_mbind in Hx as [(e & -> & Hx)|(t1 & t2 & keys1 & -> & H1 & Hx)].
  { apply Hadd in Hx as (? & [=] & _). done. }
  apply Forall_app in Ha as [Ha1 Ha2]. apply Hadd in H1 as (keys1' & [= <-] & Hk1); [|done].
  apply IH in Hx as (keys' & -> & Hk); [|done]. exists keys'. split; [done|].
  intros k. rewrite Hk, Hk1. setoid_rewrite elem_of_cons. naive_solver.
Qed.

(** Routes that share a Gateway with [c]. *)
Lemma peers_answered c tr x :
  exec (enqueueHTTPRoutePeers c) tr x -> answeredBy config w tr ->
  exists requests, x = Ok requests /\ forall k, k ∈ requests <->
    exists gatewayKey route, gatewayKey ∈ ParentGatewayKeys c /\ route ∈ rw_routes w /\
      gatewayKey ∈ ParentGatewayKeys route /\ k = ObjectKey (hr_Meta route).
Proof.
  intros [(e & -> & Hx)|(t1 & t2 & keys & -> & Hk & [-> ->]%exec_ret)]%exec_mbind Ha.
  { by apply indexedKeys_answered in Hx as (? & [=] & _). }
  apply Forall_app in Ha as [Ha _]. apply indexedKeys_answered in Hk as (keys' & [= <-] & Hk); [|done].
  eexists. split; [done|]. intros k. rewrite requestsFor_elem, Hk. unfold byParent, filedUnder.
  setoid_rewrite list_elem_of_fmap. split.
  - intros [?%elem_of_nil|(index & route & (gk & -> & Hgk) & (Hin & Hi) & ->)]; [done|]. exists gk, route.
    by change (gk ∈ ParentGatewayKeys route) in Hi.
  - intros (gk & route & Hgk & Hin & Hi & ->). right. exists (IndexHTTPRouteByParentGateway, gk), route.
    split; [eauto|]. split; [|done]. split; [done|]. by change (gk ∈ ParentGatewayKeys route).
Qed.

(** Routes with a backend [key], and the routes that share a Gateway with them. *)
Lemma service_answered key tr x :
  exec (enqueueHTTPRoutesForServiceKey key) tr x -> answeredBy config w tr ->
  exists requests, x = Ok requests /\ forall c, c ∈ rw_routes w -> ObjectKeyString key ∈ backendServiceKeys c ->
    ObjectKey (hr_Meta c) ∈ requests /\
    forall gatewayKey route, gatewayKey ∈ ParentGatewayKeys c -> route ∈ rw_routes w ->
      gatewayKey ∈ ParentGatewayKeys route -> ObjectKey (hr_Meta route) ∈ requests.
Proof.
  intros (t1 & t2 & found & -> & Hl & Hx)%exec_bind [Ha1 Ha2]%Forall_app.
  apply listIndexed_answered in Hl as (direct & -> & Hd); [|done].
  set (loop := mfold _ _ _) in Hx.
  assert (forall l keys t y, exec (mfold (fun keys route => indexedKeys (keys ++ [ObjectKey (hr_Meta route)])
      (byParent (ParentGatewayKeys route))) keys l) t y -> answeredBy config w t ->
    exists keys', y = Ok keys' /\ keys ⊆ keys' /\ forall c, c ∈ l -> ObjectKey (hr_Meta c) ∈ keys' /\
      forall gk route, gk ∈ ParentGatewayKeys c -> route ∈ rw_routes w -> gk ∈ ParentGatewayKeys route ->
        ObjectKey (hr_Meta route) ∈ keys') as Hloop.
  { clear. induction l as [|c l IH]; intros keys t y Hx Ha.
    { apply exec_ret in Hx as [_ ->]. eexists. split; [done|]. set_solver. }
    apply exec_mbind in Hx as [(e & -> & Hx)|(t1 & t2 & keys1 & -> & H1 & Hx)].
    { by apply indexedKeys_answered in Hx as (? & [=] & _). }
    apply Forall_app in Ha as [Ha1 Ha2]. apply indexedKeys_answered in H1 as (keys1' & [= <-] & Hk1); [|done].
    apply IH in Hx as (keys' & -> & Hsub & Hc); [|done]. exists keys'. split; [done|]. split.
    { intros k Hk. apply Hsub, Hk1. left. set_solver. }
    intros c' [->|Hin]%elem_of_cons; [|by apply Hc]. split; [apply Hsub, Hk1; left; set_solver|].
    intros gk route Hgk Hin Hgr. apply Hsub, Hk1. right. exists (IndexHTTPRouteByParentGateway, gk), route.
    split; [unfold byParent; apply list_elem_of_fmap; eauto|]. split; [|done]. split; [done|]. by change (gk ∈ ParentGatewayKeys route). }
  apply exec_mbind in Hx as [(e & -> & Hx)|(t3 & t4 & keys & -> & Hk & [-> ->]%exec_ret)].
  { by apply Hloop in Hx as (? & [=] & _). }
  apply Forall_app in Ha2 as [Ha2 _]. apply Hloop in Hk as (keys' & [= <-] & _ & Hk); [|done].
  eexists. split; [done|]. intros c Hin Hb. setoid_rewrite requestsFor_elem. apply Hk, Hd. split; [done|].
  by change (ObjectKeyString key ∈ backendServiceKeys c).
Qed.

(** The backend of a route in the supported subset is indexed. *)
Lemma backend_indexed c backend port :
  structurallySupportedRoute c = true -> soleBackend c = Some (backend, port) ->
  routeNamespace c <> "" -> hb_Name backend <> "" ->
  ObjectKeyString (mkNamespacedName (routeNamespace c) (hb_Name backend)) ∈ backendServiceKeys c.
Proof.
  unfold structurallySupportedRoute, soleBackend, backendServiceKeys. intros Hs Hb Hns Hn.
  destruct (hr_ParentRefs c) as [|? []], (hr_Rules c) as [|rule []]; try done.
  destruct (hru_BackendRefs rule) as [|b [|]] eqn:Er; [by rewrite andb_false_r in Hs| |by rewrite andb_false_r in Hs].
  destruct (hb_Port b) as [prt|] eqn:Ep; [|done]. injection Hb as -> ->. bool_hyps.
  apply sortedIndexKeys_elem, list_elem_of_omap. exists backend. split; [cbn; rewrite Er; by left|].
  unfold isCoreServiceBackend.
  match goal with Hg : match hb_Group backend with _ => _ end = true, Hk : match hb_Kind backend with _ => _ end = true |- _ =>
    rewrite Hg, Hk end. cbn [andb].
  apply referenceKey_some. unfold backendNamespace, routeNamespace in *.
  match goal with Hd : default _ _ = _ |- _ => rewrite Hd end. done.
Qed.

Lemma contends_supported route parent c : contends route parent c = true -> structurallySupportedRoute c = true.
Proof. intros Hc. unfold contends in Hc. bool_hyps. destruct (hr_ParentRefs c) as [|? []]; [done| |done]. by bool_hyps. Qed.

(** C37. A change of a route that competes for a Gateway, or of the Service
    behind it, leads to a request for every competing route, when the lists are
    answered from one state of the API server and the names of Gateway, route
    namespace and Service are not empty; and no mapper of routes ever fails,
    whatever the API server answers. *)
Theorem events_reach_competitors :
  ((forall c tr x, exec (enqueueHTTPRoutePeers c) tr x -> exists requests, x = Ok requests) /\
   (forall gateway tr x, exec (enqueueHTTPRoutesForGateway gateway) tr x -> exists requests, x = Ok requests) /\
   (forall key tr x, exec (enqueueHTTPRoutesForServiceKey key) tr x -> exists requests, x = Ok requests) /\
   (forall node tr x, exec (enqueueHTTPRoutesForNode config node) tr x -> exists requests, x = Ok requests)) /\
  forall route parent c tr x,
    route ∈ rw_routes w -> c ∈ rw_routes w -> mp_ref parent ∈ hr_ParentRefs route ->
    namesGateway route (mp_ref parent) (mp_gateway parent) -> contends route parent c = true -> answeredBy config w tr ->
    (exec (enqueueHTTPRoutePeers c) tr x ->
       exists requests, x = Ok requests /\ ObjectKey (hr_Meta route) ∈ requests) /\
    (forall backend port, soleBackend c = Some (backend, port) -> routeNamespace c <> "" -> hb_Name backend <> "" ->
       exec (enqueueHTTPRoutesForServiceKey (mkNamespacedName (routeNamespace c) (hb_Name backend))) tr x ->
       exists requests, x = Ok requests /\ ObjectKey (hr_Meta route) ∈ requests /\ ObjectKey (hr_Meta c) ∈ requests).
Proof.
  split; [destruct (mappers_succeed config) as (Hp & Hg & Hs & Hn); split_and!; [exact Hp|exact Hg|exact Hs|exact Hn]|].
  intros route parent c tr x Hr Hc Hp Hg Hcon Ha. pose proof (contends_indexed config route parent c Hg Hcon) as Hic.
  change (ObjectKeyString (ObjectKey (gw_Meta (mp_gateway parent))) ∈ ParentGatewayKeys c) in Hic.
  pose proof (parent_indexed _ _ _ Hp Hg) as Hir. split.
  - intros Hx. apply peers_answered in Hx as (requests & -> & Hk); [|done]. exists requests. split; [done|].
    apply Hk. eauto 8.
  - intros backend port Hb Hns Hn Hx. apply service_answered in Hx as (requests & -> & Hk); [|done].
    exists requests. split; [done|]. destruct (Hk c Hc) as [Hown Hpeers]; [|split; [by eapply Hpeers|done]].
    eapply backend_indexed; [by eapply contends_supported|done..].
Qed.
End watches.
