(* ===== verification/AuditReport.v ===== *)
(** * The ownership audit report

    Models [internal/audit]: the provider-neutral records of an ownership audit
    ([types.go]) and the operator report built from one Kubernetes snapshot and
    one OpenStack inventory ([report.go]).  The JSON encoding of the report is
    not modelled. *)
From stdpp Require Import base list strings gmap.
From Stdlib Require Import ZArith NArith Lia Ascii.
From S2P Require Import Prelude GoStrings Cloud.

Set Default Goal Selector "!".

(** ** [slices] and [strings] *)

(** The separator of composite keys, a zero byte. *)
Definition nul : string := String "000"%char "".

(** [slices.SortFunc]: the order among elements that compare equal is not
    specified; this picks the stable one. *)
Definition SortFunc {A} (cmp : A -> A -> comparison) (l : list A) : list A :=
  sort_slice (fun x y => match cmp x y with Lt => true | _ => false end) l.

(** [slices.CompactFunc]: an element that equals the one before it is dropped. *)
Fixpoint compactFrom {A} (eq : A -> A -> bool) (prev : A) (l : list A) : list A :=
  match l with
  | [] => []
  | x :: l' => if eq x prev then compactFrom eq x l' else x :: compactFrom eq x l'
  end.
Definition CompactFunc {A} (eq : A -> A -> bool) (l : list A) : list A :=
  match l with [] => [] | x :: l' => x :: compactFrom eq x l' end.

(** [for index, x := range l { if err := f index x; err != nil { return err } }]. *)
Definition forIndex {E A} (f : nat -> A -> result E unit) (l : list A) : result E unit :=
  forM_ (fun p => f (fst p) (snd p)) (imap pair l).

Definition decimal (n : nat) : string := decimal_N (N.of_nat n).

(** [TrimSpace(field.value) == ""] for a list of named fields. *)
Definition requireNonBlank (fields : list (string * string)) : outcome_of unit :=
  forM_ (fun field =>
    if blank (snd field) then Err (Errorf "%s must not be empty" [fst field] None) else Ok tt) fields.

(** ** types.go *)

Record Scope := mkScope { sc_ClusterID : string; sc_ControllerName : string; sc_OpenStackProjectID : string }.

(** [Scope.Validate]. *)
Definition ScopeValidate (s : Scope) : outcome_of unit :=
  requireNonBlank [("cluster ID", sc_ClusterID s); ("controller name", sc_ControllerName s);
                   ("OpenStack project ID", sc_OpenStackProjectID s)].

Record ObjectReference := mkObjectReference {
  or_APIVersion : string; or_Kind : string; or_Namespace : string; or_Name : string; or_UID : string
}.
#[export] Instance ObjectReference_eq_dec : EqDecision ObjectReference.
Proof. solve_decision. Defined.

Record OwnershipRecord := mkOwnershipRecord { rec_Identity : Identity; rec_Objects : list ObjectReference }.

Record KubernetesIssue := mkKubernetesIssue {
  is_Object : ObjectReference; is_Reason : string; is_Message : string
}.

Record KubernetesSnapshot := mkKubernetesSnapshot {
  sn_Records : list OwnershipRecord; sn_Issues : list KubernetesIssue
}.

(** A Go string type with five constants; [DispositionOther] stands for every
    other value, the zero value included. *)
Inductive Disposition :=
| DispositionMatched
| DispositionOrphanCandidate
| DispositionStaleUID
| DispositionOwnershipConflict
| DispositionUnresolved
| DispositionOther (value : string).
#[export] Instance Disposition_eq_dec : EqDecision Disposition.
Proof. solve_decision. Defined.

Definition dispositionText (d : Disposition) : string :=
  match d with
  | DispositionMatched => "matched"
  | DispositionOrphanCandidate => "orphanCandidate"
  | DispositionStaleUID => "staleUID"
  | DispositionOwnershipConflict => "ownershipConflict"
  | DispositionUnresolved => "unresolved"
  | DispositionOther value => value
  end.

Record ResourceFinding := mkResourceFinding {
  f_Service : string; f_Type : string; f_ID : string; f_ParentID : string; f_Role : string;
  f_ProvisioningStatus : string; f_Disposition : Disposition; f_Reason : string; f_Message : string;
  f_Objects : list ObjectReference
}.
#[export] Instance ResourceFinding_eq_dec : EqDecision ResourceFinding.
Proof. solve_decision. Defined.

Record Inventory := mkInventory { inv_Resources : list ResourceFinding; inv_Limitations : list string }.

Definition objectReferenceKey (o : ObjectReference) : string :=
  Join [or_APIVersion o; or_Kind o; or_Namespace o; or_Name o; or_UID o] nul.
Definition compareObjectReferences (left right : ObjectReference) : comparison :=
  String.compare (objectReferenceKey left) (objectReferenceKey right).
Definition sameObjectReference (left right : ObjectReference) : bool :=
  match compareObjectReferences left right with Eq => true | _ => false end.

Definition SortObjectReferences (objects : list ObjectReference) : list ObjectReference :=
  CompactFunc sameObjectReference (SortFunc compareObjectReferences objects).

(** ** report.go *)

Definition ReportFormatVersion : string := "v1alpha1".
Definition gatewayAPIVersion : string := "gateway.networking.k8s.io/v1".

(** A Go string type; the report takes one of its two constants. *)
Inductive Assessment := AssessmentComplete | AssessmentIncomplete.

Definition readOnlyAdvisory : string :=
  "This command only reads Kubernetes and OpenStack. The report does not authorize adoption, deletion, or finalizer removal.".
Definition consistencyAdvisory : string :=
  "Kubernetes and OpenStack are listed separately. Let reconciliation settle and run the audit again before acting on a finding.".
Definition sharingAdvisory : string :=
  "This report contains local resource and Kubernetes object identifiers. Review and sanitize it before sharing.".
Definition invalidBindingAdvisory : string :=
  "At least one Kubernetes binding is invalid. Restore its metadata before evaluating orphan candidates.".
Definition desiredGraphLimitation : string :=
  "The audit does not verify that every Kubernetes binding has a complete desired OpenStack graph.".

Record Summary := mkSummary {
  sm_KubernetesBindings : nat; sm_KubernetesIssues : nat; sm_OpenStackResources : nat;
  sm_Matched : nat; sm_OrphanCandidates : nat; sm_StaleUIDs : nat;
  sm_OwnershipConflicts : nat; sm_Unresolved : nat
}.

(** Instants count from Go's zero time, so that [IsZero] is a test for zero;
    [UTC] changes the location, not the instant. *)
Record Report := mkReport {
  rp_FormatVersion : string; rp_ToolVersion : string; rp_GeneratedAt : Z;
  rp_ScopeClusterID : string; rp_ScopeControllerName : string;
  rp_Assessment : Assessment; rp_Summary : Summary;
  rp_KubernetesIssues : list KubernetesIssue; rp_Resources : list ResourceFinding;
  rp_Advisories : list string; rp_Limitations : list string
}.

Definition isRouteIdentity (id : Identity) : bool :=
  negb (String.eqb (RouteNamespace id) "") || negb (String.eqb (RouteName id) "")
  || negb (String.eqb (RouteUID id) "").

Definition objectMatchesIdentity (object : ObjectReference) (id : Identity) (isRoute : bool) : bool :=
  if negb (String.eqb (or_APIVersion object) gatewayAPIVersion) then false
  else if isRoute then
    String.eqb (or_Kind object) "HTTPRoute" && String.eqb (or_Namespace object) (RouteNamespace id)
    && String.eqb (or_Name object) (RouteName id) && String.eqb (or_UID object) (RouteUID id)
  else
    String.eqb (or_Kind object) "Gateway" && String.eqb (or_Namespace object) (GatewayNamespace id)
    && String.eqb (or_Name object) (GatewayName id) && String.eqb (or_UID object) (GatewayUID id).

Definition validateObjectReference (object : ObjectReference) : outcome_of unit :=
  requireNonBlank [("API version", or_APIVersion object); ("kind", or_Kind object);
                   ("name", or_Name object); ("UID", or_UID object)].

(** [fmt.Errorf(format, args..., err)] around the error of a check. *)
Definition annotate {A} (format : string) (args : list string) (m : outcome_of A) : outcome_of A :=
  match m with Ok a => Ok a | Err e => Err (Errorf format args (Some e)) end.

(** The body of the loop over the records. *)
Definition validateSnapshotRecord (scope : Scope) (index : nat) (record : OwnershipRecord) : outcome_of unit :=
  let id := rec_Identity record in
  guard? (String.eqb (ClusterID id) (sc_ClusterID scope) && String.eqb (Controller id) (sc_ControllerName scope)
          && String.eqb (OpenStackProjectID id) (sc_OpenStackProjectID scope))
  else (Errorf "ownership record %d is outside the report scope" [decimal index] None) in
  let isRoute := isRouteIdentity id in
  let? _ := annotate "validate ownership record %d: %w" [decimal index]
              (if isRoute then ValidateRouteIdentity id else ValidateGatewayIdentity id) in
  match rec_Objects record with
  | [object] =>
      let? _ := annotate "validate ownership record %d object %d: %w" [decimal index; decimal 0]
                  (validateObjectReference object) in
      guard? objectMatchesIdentity object id isRoute
      else (Errorf "ownership record %d object does not match its identity" [decimal index] None) in
      Ok tt
  | _ => Err (Errorf "ownership record %d must have exactly one Kubernetes object reference" [decimal index] None)
  end.

(** The body of the loop over the issues. *)
Definition validateSnapshotIssue (index : nat) (issue : KubernetesIssue) : outcome_of unit :=
  let? _ := annotate "validate Kubernetes issue %d: %w" [decimal index] (validateObjectReference (is_Object issue)) in
  if blank (is_Reason issue) || blank (is_Message issue)
  then Err (Errorf "kubernetes issue %d must have a reason and message" [decimal index] None)
  else Ok tt.

Definition validateSnapshot (scope : Scope) (snapshot : KubernetesSnapshot) : outcome_of unit :=
  let? _ := forIndex (validateSnapshotRecord scope) (sn_Records snapshot) in
  forIndex validateSnapshotIssue (sn_Issues snapshot).

Definition knownDisposition (d : Disposition) : bool :=
  match d with DispositionOther _ => false | _ => true end.

Definition findingKey (f : ResourceFinding) : string := Join [f_Service f; f_Type f; f_ID f] nul.

(** The body of the loop over the findings, with [seenResources]. *)
Definition validateInventoryFinding (seen : gset string) (entry : nat * ResourceFinding) : outcome_of (gset string) :=
  let '(index, finding) := entry in
  if blank (f_Service finding) || blank (f_Type finding) || blank (f_ID finding)
     || blank (f_Reason finding) || blank (f_Message finding)
  then Err (Errorf "openstack finding %d is incomplete" [decimal index] None)
  else
    guard? knownDisposition (f_Disposition finding)
    else (Errorf "openstack finding %d has an unknown disposition" [decimal index] None) in
    if bool_decide (findingKey finding ∈ seen)
    then Err (Errorf "openstack finding %d duplicates a resource" [decimal index] None)
    else
      let? _ := forIndex (fun objectIndex object =>
                  annotate "validate OpenStack finding %d object %d: %w" [decimal index; decimal objectIndex]
                    (validateObjectReference object)) (f_Objects finding) in
      Ok ({[findingKey finding]} ∪ seen).

Definition validateInventory (inventory : Inventory) : outcome_of unit :=
  let? _ := foldM validateInventoryFinding ∅ (imap pair (inv_Resources inventory)) in
  forIndex (fun index limitation =>
    if blank limitation then Err (Errorf "inventory limitation %d must not be empty" [decimal index] None)
    else Ok tt) (inv_Limitations inventory).

Definition countFinding (s : Summary) (f : ResourceFinding) : Summary :=
  let '(mkSummary b i r m o u c n) := s in
  match f_Disposition f with
  | DispositionMatched => mkSummary b i r (S m) o u c n
  | DispositionOrphanCandidate => mkSummary b i r m (S o) u c n
  | DispositionStaleUID => mkSummary b i r m o (S u) c n
  | DispositionOwnershipConflict => mkSummary b i r m o u (S c) n
  | DispositionUnresolved => mkSummary b i r m o u c (S n)
  | DispositionOther _ => s
  end.

Definition summarize (records : list OwnershipRecord) (issues : list KubernetesIssue)
    (resources : list ResourceFinding) : Summary :=
  foldl countFinding (mkSummary (length records) (length issues) (length resources) 0 0 0 0 0) resources.

Definition compareIssues (left right : KubernetesIssue) : comparison :=
  match compareObjectReferences (is_Object left) (is_Object right) with
  | Eq => String.compare (is_Reason left ^^ nul ^^ is_Message left) (is_Reason right ^^ nul ^^ is_Message right)
  | c => c
  end.
Definition copyAndSortIssues (issues : list KubernetesIssue) : list KubernetesIssue :=
  SortFunc compareIssues issues.

Definition findingSortKey (f : ResourceFinding) : string :=
  Join [f_Service f; f_Type f; f_ID f; f_ParentID f; f_Role f; dispositionText (f_Disposition f)] nul.
Definition withObjects (f : ResourceFinding) (objects : list ObjectReference) : ResourceFinding :=
  mkResourceFinding (f_Service f) (f_Type f) (f_ID f) (f_ParentID f) (f_Role f) (f_ProvisioningStatus f)
    (f_Disposition f) (f_Reason f) (f_Message f) objects.
Definition copyAndSortFindings (findings : list ResourceFinding) : list ResourceFinding :=
  SortFunc (fun left right => String.compare (findingSortKey left) (findingSortKey right))
    ((fun f => withObjects f (SortObjectReferences (f_Objects f))) <$> findings).

Definition sortUniqueStrings (values : list string) : list string :=
  CompactFunc String.eqb (sort_slice String.ltb values).

Definition BuildReport (generatedAt : Z) (toolVersion : string) (scope : Scope)
    (snapshot : KubernetesSnapshot) (inventory : Inventory) : outcome_of Report :=
  if (generatedAt =? 0)%Z then Err (Errorf "report generation time must not be zero" [] None)
  else if blank toolVersion then Err (Errorf "report tool version must not be empty" [] None)
  else
    let? _ := annotate "validate report scope: %w" [] (ScopeValidate scope) in
    let? _ := validateSnapshot scope snapshot in
    let? _ := validateInventory inventory in
    let issues := copyAndSortIssues (sn_Issues snapshot) in
    let resources := copyAndSortFindings (inv_Resources inventory) in
    let invalid := negb (bool_decide (issues = [])) in
    Ok {| rp_FormatVersion := ReportFormatVersion;
          rp_ToolVersion := toolVersion;
          rp_GeneratedAt := generatedAt;
          rp_ScopeClusterID := sc_ClusterID scope;
          rp_ScopeControllerName := sc_ControllerName scope;
          rp_Assessment := if invalid then AssessmentIncomplete else AssessmentComplete;
          rp_Summary := summarize (sn_Records snapshot) issues resources;
          rp_KubernetesIssues := issues;
          rp_Resources := resources;
          rp_Advisories := [readOnlyAdvisory; consistencyAdvisory; sharingAdvisory]
                           ++ (if invalid then [invalidBindingAdvisory] else []);
          rp_Limitations := sortUniqueStrings (inv_Limitations inventory ++ [desiredGraphLimitation]) |}.

(** [Report.HasFindings]. *)
Definition HasFindings (r : Report) : bool :=
  let s := rp_Summary r in
  (0 <? sm_KubernetesIssues s) || (0 <? sm_OrphanCandidates s) || (0 <? sm_StaleUIDs s)
  || (0 <? sm_OwnershipConflicts s) || (0 <? sm_Unresolved s).

#[global] Arguments validateObjectReference : simpl never.
#[global] Arguments objectMatchesIdentity : simpl never.
#[global] Arguments isRouteIdentity : simpl never.
#[global] Arguments SortObjectReferences : simpl never.
#[global] Arguments blank : simpl never.
#[global] Arguments findingKey : simpl never.
