(* ===== verification/Inventory.v ===== *)
(** * The OpenStack ownership inventory: collection

    Models [internal/cloud/openstack/inventory/scanner.go] up to [Scan] itself,
    which needs the classification of Classification.v and is there: the
    candidate set, and the list requests that fill it.  A Go map is a [gmap] or a
    [gset] here; where the source ranges over one, the order is unspecified, and
    [candidateValues] picks one.  The deadline that [operationContext] sets on the
    requests is not modelled: a request may fail at any time. *)
From stdpp Require Import base list strings gmap.
From Stdlib Require Import ZArith NArith Lia Ascii.
From S2P Require Import Prelude GoStrings Cloud Metadata OpenStack AuditReport.

Set Default Goal Selector "!".

Definition auditServiceOctavia : string := "Octavia".
Definition auditServiceNeutron : string := "Neutron".
Definition auditTypeLoadBalancer : string := "LoadBalancer".
Definition auditTypeListener : string := "Listener".
Definition auditTypePool : string := "Pool".
Definition auditTypeMember : string := "Member".
Definition auditTypeMonitor : string := "HealthMonitor".
Definition auditTypeL7Policy : string := "L7Policy".
Definition auditTypeL7Rule : string := "L7Rule".
Definition auditTypeFloatingIP : string := "FloatingIP".

Definition auditInventoryLimitations : list string :=
  ["Resources whose cluster or controller identity tags were removed cannot be found by the scoped Octavia queries.";
   "Members and L7 rules are scanned only beneath trusted pools and policies. A child whose complete ancestor chain lost its controller identity may not appear.";
   "An unmatched detached Floating IP cannot be attributed to a cluster or controller from its description digest and is omitted."].

(** [Scanner]: which of the two services it has, its project and its timeout in
    nanoseconds. *)
Record Scanner := mkScanner {
  s_octavia : bool; s_neutron : bool; s_projectID : string; s_operationTimeout : Z
}.

(** [NewScanner]: [loadBalancer] and [network] say whether the client is present. *)
Definition NewScanner (loadBalancer network : bool) (projectID : string) (operationTimeout : Z) : Scanner :=
  mkScanner loadBalancer network projectID
    (if (operationTimeout <=? 0)%Z then 10 * 60 * 1000000000 else operationTimeout)%Z.

(** ** Sets of strings *)

Definition sortedStrings (values : list string) : list string := sort_slice String.ltb values.
Definition singletonStringSet (value : string) : gset string :=
  if String.eqb value "" then ∅ else {[value]}.
Definition singletonStringSetIf (include : bool) (value : string) : gset string :=
  if include then singletonStringSet value else ∅.
Definition sortedSetValues (values : gset string) : list string := sort_slice String.ltb (elements values).

(** ** Records *)

Record preparedAuditRecord := mkPrepared {
  pr_record : OwnershipRecord; pr_identity : Identity; pr_isRoute : bool
}.

(** The body of the loop of [prepareAuditRecords]. *)
Definition prepareAuditRecord (scope : Scope) (index : nat) (record : OwnershipRecord)
    : outcome_of preparedAuditRecord :=
  let id := rec_Identity record in
  guard? (String.eqb (ClusterID id) (sc_ClusterID scope) && String.eqb (Controller id) (sc_ControllerName scope)
          && String.eqb (OpenStackProjectID id) (sc_OpenStackProjectID scope))
  else (Errorf "ownership record %d is outside the requested audit scope" [decimal index] None) in
  let isRoute := isRouteIdentity id in
  let? _ := annotate "validate ownership record %d: %w" [decimal index]
              (if isRoute then ValidateRouteIdentity id else ValidateGatewayIdentity id) in
  let? identity := annotate "prepare ownership record %d: %w" [decimal index] (NewIdentity id) in
  Ok (mkPrepared (mkOwnershipRecord id (SortObjectReferences (rec_Objects record))) identity isRoute).

Definition prepareAuditRecords (scope : Scope) (records : list OwnershipRecord)
    : outcome_of (list preparedAuditRecord) :=
  foldM (fun prepared entry =>
    let? record := prepareAuditRecord scope (fst entry) (snd entry) in Ok (prepared ++ [record]))
    [] (imap pair records).

(** ** Candidates *)

Record auditCandidate := mkCandidate {
  c_service : string; c_resourceType : string; c_id : string;
  c_projectID : string; c_tenantID : string; c_provider : string; c_provisioningStatus : string;
  c_tags : list string; c_description : string; c_portID : string; c_redirectPoolID : string;
  c_reportedParents : gset string; c_observedParents : gset string; c_observationChanged : bool
}.

Abbreviation auditCandidateSet := (gmap string auditCandidate).

Definition candidateKey (c : auditCandidate) : string :=
  c_service c ^^ nul ^^ c_resourceType c ^^ nul ^^ c_id c.

Definition withSortedTags (c : auditCandidate) : auditCandidate :=
  mkCandidate (c_service c) (c_resourceType c) (c_id c) (c_projectID c) (c_tenantID c) (c_provider c)
    (c_provisioningStatus c) (sortedStrings (c_tags c)) (c_description c) (c_portID c) (c_redirectPoolID c)
    (c_reportedParents c) (c_observedParents c) (c_observationChanged c).

(** A second observation of a resource: the first one stays, what differs is
    recorded and the parents are merged. *)
Definition mergeCandidate (existing candidate : auditCandidate) : auditCandidate :=
  let changed :=
    negb (String.eqb (c_projectID existing) (c_projectID candidate)
          && String.eqb (c_tenantID existing) (c_tenantID candidate)
          && String.eqb (c_provider existing) (c_provider candidate)
          && bool_decide (c_tags existing = c_tags candidate)
          && String.eqb (c_description existing) (c_description candidate)
          && String.eqb (c_portID existing) (c_portID candidate)
          && String.eqb (c_redirectPoolID existing) (c_redirectPoolID candidate))
    || negb (String.eqb (c_provisioningStatus existing) (c_provisioningStatus candidate)) in
  mkCandidate (c_service existing) (c_resourceType existing) (c_id existing) (c_projectID existing)
    (c_tenantID existing) (c_provider existing) (c_provisioningStatus existing) (c_tags existing)
    (c_description existing) (c_portID existing) (c_redirectPoolID existing)
    (c_reportedParents existing ∪ c_reportedParents candidate)
    (c_observedParents existing ∪ c_observedParents candidate)
    (c_observationChanged existing || changed).

(** [auditCandidateSet.add]. *)
Definition addCandidate (s : auditCandidateSet) (candidate : auditCandidate) : auditCandidateSet :=
  let candidate := withSortedTags candidate in
  match s !! candidateKey candidate with
  | None => <[candidateKey candidate := candidate]> s
  | Some existing => <[candidateKey candidate := mergeCandidate existing candidate]> s
  end.

(** [for _, candidate := range s]. *)
Definition candidateValues (s : auditCandidateSet) : list auditCandidate := (map_to_list s).*2.

Definition candidateProject (c : auditCandidate) : string :=
  if String.eqb (c_projectID c) "" then c_tenantID c else c_projectID c.

Definition scopedIDs (s : auditCandidateSet) (resourceType : string) (scopeTags : list string)
    (projectID : string) : gset string :=
  list_to_set (c_id <$> List.filter (fun c =>
    String.eqb (c_resourceType c) resourceType && String.eqb (candidateProject c) projectID
    && HasAllTags (c_tags c) scopeTags) (candidateValues s)).

(** An Octavia candidate from the fields its literals set. *)
Definition octaviaCandidate (resourceType id projectID status : string) (tags : list string)
    (reported observed : gset string) : auditCandidate :=
  mkCandidate auditServiceOctavia resourceType id projectID "" "" status tags "" "" "" reported observed false.

Definition loadBalancerCandidate (item : LoadBalancer) : auditCandidate :=
  mkCandidate auditServiceOctavia auditTypeLoadBalancer (lb_ID item) (lb_ProjectID item) "" (lb_Provider item)
    (lb_ProvisioningStatus item) (lb_Tags item) "" (lb_VipPortID item) "" ∅ ∅ false.
Definition listenerCandidate (observedParent : string) (item : Listener) : auditCandidate :=
  octaviaCandidate auditTypeListener (ls_ID item) (ls_ProjectID item) (ls_ProvisioningStatus item) (ls_Tags item)
    (list_to_set (ls_Loadbalancers item)) (singletonStringSet observedParent).
Definition poolCandidate (observedParent : string) (item : Pool) : auditCandidate :=
  octaviaCandidate auditTypePool (pl_ID item) (pl_ProjectID item) (pl_ProvisioningStatus item) (pl_Tags item)
    (list_to_set (pl_Loadbalancers item)) (singletonStringSet observedParent).
Definition policyCandidate (descendant : bool) (item : L7Policy) : auditCandidate :=
  mkCandidate auditServiceOctavia auditTypeL7Policy (lp_ID item) (lp_ProjectID item) "" ""
    (lp_ProvisioningStatus item) (lp_Tags item) "" "" (lp_RedirectPoolID item)
    (singletonStringSet (lp_ListenerID item)) (singletonStringSetIf descendant (lp_ListenerID item)) false.
Definition memberCandidate (poolID : string) (item : PoolMember) : auditCandidate :=
  octaviaCandidate auditTypeMember (mb_ID item) (mb_ProjectID item) (mb_ProvisioningStatus item) (mb_Tags item)
    (singletonStringSet (mb_PoolID item)) (singletonStringSet poolID).
Definition monitorCandidate (observedParent : string) (item : Monitor) : auditCandidate :=
  octaviaCandidate auditTypeMonitor (mn_ID item) (mn_ProjectID item) (mn_ProvisioningStatus item) (mn_Tags item)
    (list_to_set (mn_Pools item)) (singletonStringSet observedParent).
Definition ruleCandidate (policyID : string) (item : Rule) : auditCandidate :=
  octaviaCandidate auditTypeL7Rule (lr_ID item) (lr_ProjectID item) (lr_ProvisioningStatus item) (lr_Tags item)
    ∅ (singletonStringSet policyID).
Definition floatingIPCandidate (parents : gset string) (item : FloatingIP) : auditCandidate :=
  mkCandidate auditServiceNeutron auditTypeFloatingIP (fip_ID item) (fip_ProjectID item) (fip_TenantID item) "" ""
    [] (fip_Description item) (fip_PortID item) "" parents ∅ false.

(** ** Collection *)

Section collection.
Context (p : Scanner).

Definition collectAuditLoadBalancers (candidates : auditCandidateSet) (scopeTags : list string)
    : M auditCandidateSet :=
  let! items := wrap "list load balancers for ownership inventory: %w" []
                  (ListLoadBalancers (mkListOpts "" (s_projectID p) scopeTags)) in
  ret (foldl addCandidate candidates (loadBalancerCandidate <$> items)).

Definition listAuditListeners (candidates : auditCandidateSet) (opts : ListOpts) (observedParent : string)
    : M auditCandidateSet :=
  let! items := wrap "list listeners for ownership inventory: %w" [] (ListListeners opts) in
  ret (foldl addCandidate candidates (listenerCandidate observedParent <$> items)).

Definition collectAuditListeners (candidates : auditCandidateSet) (scopeTags : list string)
    (loadBalancerIDs : gset string) : M auditCandidateSet :=
  let! candidates := listAuditListeners candidates (mkListOpts "" (s_projectID p) scopeTags) "" in
  mfold (fun candidates loadBalancerID =>
    listAuditListeners candidates (listBy loadBalancerID (s_projectID p)) loadBalancerID)
    candidates (sortedSetValues loadBalancerIDs).

Definition listAuditPools (candidates : auditCandidateSet) (opts : ListOpts) (observedParent : string)
    : M auditCandidateSet :=
  let! items := wrap "list pools for ownership inventory: %w" [] (ListPools opts) in
  ret (foldl addCandidate candidates (poolCandidate observedParent <$> items)).

Definition collectAuditPools (candidates : auditCandidateSet) (scopeTags : list string)
    (loadBalancerIDs : gset string) : M auditCandidateSet :=
  let! candidates := listAuditPools candidates (mkListOpts "" (s_projectID p) scopeTags) "" in
  mfold (fun candidates loadBalancerID =>
    listAuditPools candidates (listBy loadBalancerID (s_projectID p)) loadBalancerID)
    candidates (sortedSetValues loadBalancerIDs).

Definition collectAuditPolicies (candidates : auditCandidateSet) (scopeTags : list string)
    (listenerIDs : gset string) : M auditCandidateSet :=
  let! items := wrap "list L7 policies for ownership inventory: %w" [] (ListPolicies (listBy "" (s_projectID p))) in
  ret (foldl (fun candidates item =>
    let descendant := bool_decide (lp_ListenerID item ∈ listenerIDs) in
    if negb (HasAllTags (lp_Tags item) scopeTags) && negb descendant then candidates
    else addCandidate candidates (policyCandidate descendant item)) candidates items).

Definition collectAuditMembers (candidates : auditCandidateSet) (poolIDs : gset string) : M auditCandidateSet :=
  mfold (fun candidates poolID =>
    let! items := wrap "list members beneath pool %s for ownership inventory: %w" [poolID]
                    (ListMembers poolID (listBy "" (s_projectID p))) in
    ret (foldl addCandidate candidates (memberCandidate poolID <$> items)))
    candidates (sortedSetValues poolIDs).

Definition listAuditMonitors (candidates : auditCandidateSet) (opts : ListOpts) (observedParent : string)
    : M auditCandidateSet :=
  let! items := wrap "list health monitors for ownership inventory: %w" [] (ListMonitors opts) in
  ret (foldl addCandidate candidates (monitorCandidate observedParent <$> items)).

Definition collectAuditMonitors (candidates : auditCandidateSet) (scopeTags : list string)
    (poolIDs : gset string) : M auditCandidateSet :=
  let! candidates := listAuditMonitors candidates (mkListOpts "" (s_projectID p) scopeTags) "" in
  mfold (fun candidates poolID =>
    listAuditMonitors candidates (listBy poolID (s_projectID p)) poolID)
    candidates (sortedSetValues poolIDs).

Definition collectAuditRules (candidates : auditCandidateSet) (policyIDs : gset string) : M auditCandidateSet :=
  mfold (fun candidates policyID =>
    let! items := wrap "list rules beneath L7 policy %s for ownership inventory: %w" [policyID]
                    (ListRules policyID (listBy "" (s_projectID p))) in
    ret (foldl addCandidate candidates (ruleCandidate policyID <$> items)))
    candidates (sortedSetValues policyIDs).

Definition auditDescriptionPrefix : string := "gateway-api-openstack; identity-sha256=".

Definition auditDescriptionMatchesRecord (description : string) (records : list preparedAuditRecord) : bool :=
  if HasPrefix description auditDescriptionPrefix
  then existsb (fun r => MatchesGatewayDescription (pr_identity r) description RoleFloatingIP) records
  else false.

(** [loadBalancersByPort[portID]]: the scoped load balancers with that VIP port. *)
Definition loadBalancersByPort (candidates : auditCandidateSet) (loadBalancerIDs : gset string)
    (portID : string) : gset string :=
  if String.eqb portID "" then ∅ else
  list_to_set (c_id <$> List.filter (fun c =>
    String.eqb (c_resourceType c) auditTypeLoadBalancer && String.eqb (c_portID c) portID
    && bool_decide (c_id c ∈ loadBalancerIDs)) (candidateValues candidates)).

Definition collectAuditFloatingIPs (candidates : auditCandidateSet) (loadBalancerIDs : gset string)
    (records : list preparedAuditRecord) : M auditCandidateSet :=
  let byPort := loadBalancersByPort candidates loadBalancerIDs in
  let! items := wrap "list Floating IPs for ownership inventory: %w" []
                  (ListFloatingIPs (listBy "" (s_projectID p))) in
  ret (foldl (fun candidates item =>
    let parents := byPort (fip_PortID item) in
    if bool_decide (parents = ∅) && negb (auditDescriptionMatchesRecord (fip_Description item) records)
    then candidates
    else addCandidate candidates (floatingIPCandidate parents item)) candidates items).
End collection.
