(* ===== verification/Classification.v ===== *)
(** * The OpenStack ownership inventory: classification

    Models [internal/cloud/openstack/inventory/classification.go], and [Scan] of
    [scanner.go], which collects the candidates (Inventory.v) and classifies
    them. *)
From stdpp Require Import base list strings gmap.
From Stdlib Require Import ZArith NArith Lia Ascii.
From S2P Require Import Prelude GoStrings Cloud ApiErrors Metadata OpenStack KubeClient AuditReport Inventory.

Set Default Goal Selector "!".

(** ** Identity tags *)

(** [singleAuditTagValue]: the value of the last tag with the key, and whether
    there is exactly one. *)
Definition singleAuditTagValue (tags : list string) (wantedKey : string) : string * bool :=
  let '(found, count) := foldl (fun acc value =>
    match parseIdentityTag value with
    | Some (key, encodedValue) => if String.eqb key wantedKey then (encodedValue, S (snd acc)) else acc
    | None => acc
    end) ("", 0) tags in
  (found, Nat.eqb count 1).

Definition auditCandidateRole (resourceType : string) (tags : list string) : outcome_of (string * bool) :=
  let '(encodedRole, ok) := singleAuditTagValue tags "role" in
  if negb ok then Err (Errorf "resource has a missing or duplicate role identity tag" [] None)
  else match DecodeString encodedRole with
       | None => Err (Errorf "resource has an invalid role identity tag" [] None)
       | Some decodedRole =>
           let role := string_of_bytes decodedRole in
           let has := String.eqb role in
           let '(valid, routeScoped) :=
             if String.eqb resourceType auditTypeLoadBalancer then (has RoleLoadBalancer, false)
             else if String.eqb resourceType auditTypeListener then (has RoleListener, false)
             else if String.eqb resourceType auditTypePool then (has RolePool, true)
             else if String.eqb resourceType auditTypeMember then (has RoleMember, true)
             else if String.eqb resourceType auditTypeMonitor then (has RoleMonitor, true)
             else if String.eqb resourceType auditTypeL7Policy then (has RolePolicyExact || has RolePolicyPrefix, true)
             else if String.eqb resourceType auditTypeL7Rule then (has RoleRulePath || has RoleRuleHost, true)
             else (false, false) in
           guard? valid else (Errorf "resource role does not match its OpenStack type" [] None) in
           Ok (role, routeScoped)
       end.

Definition validAuditEncodedValue (value : string) : bool :=
  match CutPrefix value "sha256-" with
  | Some digest => match DecodeString digest with Some decoded => Nat.eqb (length decoded) 32 | None => false end
  | None => match DecodeString value with Some _ => true | None => false end
  end.

Definition gatewayIdentityKeys : list string :=
  ["managed"; "cluster"; "controller"; "project"; "namespace"; "name"; "uid"].
Definition routeIdentityKeys : list string := ["route-namespace"; "route-name"; "route-uid"].

Definition validateAuditIdentityTags (tags : list string) (routeScoped : bool) : outcome_of unit :=
  let required := gatewayIdentityKeys ++ ["role"] ++ (if routeScoped then routeIdentityKeys else []) in
  forM_ (fun key =>
    let '(value, ok) := singleAuditTagValue tags key in
    if negb ok || String.eqb value ""
    then Err (Errorf "resource has a missing or duplicate %s identity tag" [key] None)
    else if String.eqb key "managed" && negb (String.eqb value "true")
    then Err (Errorf "resource managed identity tag is not true" [] None)
    else if negb (String.eqb key "managed") && negb (validAuditEncodedValue value)
    then Err (Errorf "resource has an invalid %s identity tag" [key] None)
    else Ok tt) required.

Definition auditTagValuesEqual (left right keys : list string) : bool :=
  forallb (fun key =>
    let '(leftValue, leftOK) := singleAuditTagValue left key in
    let '(rightValue, rightOK) := singleAuditTagValue right key in
    leftOK && rightOK && String.eqb leftValue rightValue) keys.

(** [uniqueAuditTags]: the value of each key, or "" when the key repeats. *)
Definition uniqueAuditTags (tags : list string) : gmap string string :=
  let '(result, duplicates) := foldl (fun acc value =>
    match parseIdentityTag value with
    | Some (key, encodedValue) =>
        (<[key := encodedValue]> (fst acc),
         if bool_decide (is_Some (fst acc !! key)) then {[key]} ∪ snd acc else snd acc)
    | None => acc
    end) (∅, (∅ : gset string)) tags in
  set_fold (fun key (m : gmap string string) => <[key := ""]> m) result duplicates.

(** ** Records that match *)

Definition sameAuditOwnershipIdentity (left right : Identity) : bool :=
  let unversioned id := mkIdentity (OpenStackProjectID id) (ClusterID id) (Controller id) ""
    (GatewayNamespace id) (GatewayName id) (GatewayUID id) (RouteNamespace id) (RouteName id) (RouteUID id) in
  bool_decide (unversioned left = unversioned right).

(** A record of the same identity absorbs the objects of the new one. *)
Fixpoint appendUniqueAuditRecord (records : list preparedAuditRecord) (candidate : preparedAuditRecord)
    : list preparedAuditRecord :=
  match records with
  | [] => [candidate]
  | r :: rest =>
      if sameAuditOwnershipIdentity (rec_Identity (pr_record r)) (rec_Identity (pr_record candidate))
      then mkPrepared (mkOwnershipRecord (rec_Identity (pr_record r))
             (SortObjectReferences (rec_Objects (pr_record r) ++ rec_Objects (pr_record candidate))))
             (pr_identity r) (pr_isRoute r) :: rest
      else r :: appendUniqueAuditRecord rest candidate
  end.

Definition auditMatches : Type := list preparedAuditRecord * list preparedAuditRecord * list preparedAuditRecord.

Definition matchAuditRecord (tags : list string) (role : string) (routeScoped : bool)
    (acc : auditMatches) (record : preparedAuditRecord) : auditMatches :=
  let '(exact, discovery, routeGateway) := acc in
  let id := pr_identity record in
  if routeScoped then
    if negb (pr_isRoute record) then acc
    else if MatchesRoute id tags role then (appendUniqueAuditRecord exact record, discovery, routeGateway)
    else if MatchesRouteDiscovery id tags role then (exact, appendUniqueAuditRecord discovery record, routeGateway)
    else acc
  else if pr_isRoute record then
    if MatchesGateway id tags role then (exact, discovery, appendUniqueAuditRecord routeGateway record) else acc
  else if MatchesGateway id tags role then (appendUniqueAuditRecord exact record, discovery, routeGateway)
  else if MatchesGatewayDiscovery id tags role then (exact, appendUniqueAuditRecord discovery record, routeGateway)
  else acc.

Definition matchingAuditRecords (records : list preparedAuditRecord) (tags : list string) (role : string)
    (routeScoped : bool) : auditMatches :=
  foldl (matchAuditRecord tags role routeScoped) ([], [], []) records.

Definition auditObjects (records : list preparedAuditRecord) : list ObjectReference :=
  SortObjectReferences (mjoin ((fun r => rec_Objects (pr_record r)) <$> records)).

Definition onlyAuditUIDsDiffer (tags : list string) (record : preparedAuditRecord) (role : string)
    (routeScoped : bool) : bool :=
  match (if routeScoped then RouteTags (pr_identity record) role else GatewayTags (pr_identity record) role) with
  | Err _ => false
  | Ok expectedTags =>
      let actual := uniqueAuditTags tags in
      let expected := uniqueAuditTags expectedTags in
      let differences := List.filter (fun key =>
        negb (String.eqb (default "" (actual !! key)) (default "" (expected !! key))))
        (gatewayIdentityKeys ++ ["role"] ++ routeIdentityKeys) in
      negb (bool_decide (differences = []))
      && forallb (fun key => String.eqb key "uid" || String.eqb key "route-uid") differences
  end.

(** ** Parents *)

Definition auditResourceNeedsParent (resourceType : string) : bool :=
  existsb (String.eqb resourceType)
    [auditTypeListener; auditTypePool; auditTypeMember; auditTypeMonitor; auditTypeL7Policy; auditTypeL7Rule].
Definition auditResourceRequiresParentObservation (resourceType : string) : bool :=
  existsb (String.eqb resourceType) [auditTypeListener; auditTypePool; auditTypeMonitor].

Definition auditParentType (childType : string) : string :=
  if existsb (String.eqb childType) [auditTypeListener; auditTypePool; auditTypeFloatingIP]
  then auditTypeLoadBalancer
  else if existsb (String.eqb childType) [auditTypeMember; auditTypeMonitor] then auditTypePool
  else if String.eqb childType auditTypeL7Policy then auditTypeListener
  else if String.eqb childType auditTypeL7Rule then auditTypeL7Policy
  else "".

(** The first candidate of the type with the ID, in the order of the range. *)
Definition findCandidate (candidates : auditCandidateSet) (resourceType id : string) : option auditCandidate :=
  List.find (fun c => String.eqb (c_resourceType c) resourceType && String.eqb (c_id c) id)
    (candidateValues candidates).
Definition auditCandidateExists (candidates : auditCandidateSet) (resourceType id : string) : bool :=
  existsb (fun c => String.eqb (c_resourceType c) resourceType && String.eqb (c_id c) id)
    (candidateValues candidates).
Definition auditParentCandidate (candidates : auditCandidateSet) (childType parentID : string)
    : option auditCandidate := findCandidate candidates (auditParentType childType) parentID.
Definition auditParentExists (candidates : auditCandidateSet) (childType parentID : string) : bool :=
  match auditParentCandidate candidates childType parentID with Some _ => true | None => false end.

(** [auditCandidateParent]: the parent's ID, or why there is no single one. *)
Definition auditCandidateParent (candidate : auditCandidate) : string * string :=
  match sortedSetValues (c_reportedParents candidate), sortedSetValues (c_observedParents candidate) with
  | _ :: _ :: _, _ | _, _ :: _ :: _ => ("", "Resource reports more than one parent in a graph that requires one")
  | [reported], [observed] =>
      if String.eqb reported observed then (observed, "")
      else ("", "Resource reports a different parent from the collection in which it was observed")
  | _, [observed] => (observed, "")
  | [reported], _ => (reported, "")
  | _, _ => ("", "")
  end.

Definition validateAuditParentIdentity (candidates : auditCandidateSet) (child : auditCandidate)
    (parentID : string) : outcome_of unit :=
  match auditParentCandidate candidates (c_resourceType child) parentID with
  | None => Ok tt
  | Some parent =>
      let keys := gatewayIdentityKeys ++
        (if existsb (String.eqb (c_resourceType child)) [auditTypeMember; auditTypeMonitor; auditTypeL7Rule]
         then routeIdentityKeys else []) in
      guard? auditTagValuesEqual (c_tags child) (c_tags parent) keys
      else (Errorf "resource identity does not match its scoped parent" [] None) in
      Ok tt
  end.

Definition validateAuditPolicyPool (candidates : auditCandidateSet) (policy : auditCandidate) (poolID : string)
    : outcome_of unit :=
  match findCandidate candidates auditTypePool poolID with
  | None => Ok tt
  | Some pool =>
      guard? auditTagValuesEqual (c_tags policy) (c_tags pool) (gatewayIdentityKeys ++ routeIdentityKeys)
      else (Errorf "policy identity does not match its redirect pool" [] None) in
      Ok tt
  end.

(** ** One candidate *)

Definition auditFinding (finding : ResourceFinding) (disposition : Disposition) (reason message : string)
    : ResourceFinding :=
  mkResourceFinding (f_Service finding) (f_Type finding) (f_ID finding) (f_ParentID finding) (f_Role finding)
    (f_ProvisioningStatus finding) disposition reason message (f_Objects finding).
Definition withRole (f : ResourceFinding) (role : string) : ResourceFinding :=
  mkResourceFinding (f_Service f) (f_Type f) (f_ID f) (f_ParentID f) role (f_ProvisioningStatus f)
    (f_Disposition f) (f_Reason f) (f_Message f) (f_Objects f).

Definition conflict (finding : ResourceFinding) := auditFinding finding DispositionOwnershipConflict.
Definition unresolved (finding : ResourceFinding) := auditFinding finding DispositionUnresolved.

Definition exactGatewayRecords (records : list preparedAuditRecord) (description : string) (isRoute : bool)
    : list preparedAuditRecord :=
  foldl appendUniqueAuditRecord []
    (List.filter (fun r => MatchesGatewayDescription (pr_identity r) description RoleFloatingIP
                           && Bool.eqb (pr_isRoute r) isRoute) records).

Definition parentMatchesGateway (candidates : auditCandidateSet) (parentID : string)
    (record : preparedAuditRecord) : bool :=
  match auditParentCandidate candidates auditTypeFloatingIP parentID with
  | None => false
  | Some parent => MatchesGateway (pr_identity record) (c_tags parent) RoleLoadBalancer
  end.

Definition classifyAuditFloatingIP (candidates : auditCandidateSet) (candidate : auditCandidate)
    (finding : ResourceFinding) (records : list preparedAuditRecord) : ResourceFinding :=
  if negb (HasPrefix (c_description candidate) auditDescriptionPrefix) then
    conflict finding "InvalidIdentity"
      "Floating IP attached to a managed VIP port does not carry the expected ownership description"
  else
    let exactGateway := exactGatewayRecords records (c_description candidate) false in
    let routeGateway := exactGatewayRecords records (c_description candidate) true in
    let parentID := fst (auditCandidateParent candidate) in
    match exactGateway, routeGateway with
    | _ :: _ :: _, _ =>
        conflict (withObjects finding (auditObjects exactGateway)) "InvalidIdentity"
          "More than one durable Gateway binding matches this Floating IP"
    | [record], _ =>
        let finding := withObjects finding (auditObjects exactGateway) in
        if String.eqb parentID "" then
          unresolved finding "DetachedFloatingIP"
            "Floating IP matches a Gateway binding but is detached from the scoped load balancer VIP port"
        else if negb (auditParentExists candidates auditTypeFloatingIP parentID) then
          unresolved finding "MissingParent"
            "Floating IP matches a binding, but its load balancer is not present in the scoped inventory"
        else if negb (parentMatchesGateway candidates parentID record) then
          conflict finding "ParentMismatch"
            "Floating IP binding does not match the identity of its attached load balancer"
        else
          auditFinding finding DispositionMatched "ExactBinding"
            "Floating IP matches a current Gateway ownership binding and VIP port"
    | [], record :: _ =>
        let finding := withObjects finding (auditObjects routeGateway) in
        if negb (String.eqb parentID "") && negb (parentMatchesGateway candidates parentID record) then
          conflict finding "ParentMismatch"
            "Floating IP route binding does not match the identity of its attached load balancer"
        else
          unresolved finding "MissingGatewayBinding"
            "An HTTPRoute binding refers to this Floating IP identity, but no durable Gateway binding matches it"
    | [], [] =>
        if negb (String.eqb parentID "") then
          unresolved finding "UnattributedDescription"
            "Floating IP is attached to a scoped load balancer, but its description digest does not match a current Gateway binding"
        else
          unresolved finding "UnattributedDescription"
            "Detached Floating IP has a controller description whose project, cluster, and object identity cannot be recovered"
    end.

Section classification.
Context `{ForeignTexts}.

(** The checks of a tagged candidate between the record match and the verdict:
    the finding they return, if any. *)
Definition auditGraphProblem (candidates : auditCandidateSet) (candidate : auditCandidate) (parentID : string)
    (finding : ResourceFinding) : option ResourceFinding :=
  let resourceType := c_resourceType candidate in
  if String.eqb resourceType auditTypeLoadBalancer && String.eqb (c_provider candidate) "" then
    Some (unresolved finding "ProviderNotReported" "OpenStack did not report the load balancer provider")
  else if String.eqb resourceType auditTypeLoadBalancer && negb (String.eqb (c_provider candidate) "amphora") then
    Some (conflict finding "InvalidIdentity" "Managed load balancer does not use the Amphora provider")
  else if negb (String.eqb parentID "") && auditResourceRequiresParentObservation resourceType
       && auditParentExists candidates resourceType parentID
       && bool_decide (c_observedParents candidate = ∅) then
    Some (unresolved finding "ParentNotObserved"
      "Resource reported a scoped parent but was absent from the parent-scoped observation")
  else
    match (if String.eqb parentID "" then Ok tt else validateAuditParentIdentity candidates candidate parentID) with
    | Err e => Some (conflict finding "ParentMismatch" (errorText e))
    | Ok _ =>
        if negb (String.eqb resourceType auditTypeL7Policy) then None
        else if String.eqb (c_redirectPoolID candidate) "" then
          Some (unresolved finding "MissingBackendPool" "L7 policy does not report its redirect pool")
        else if negb (auditCandidateExists candidates auditTypePool (c_redirectPoolID candidate)) then
          Some (unresolved finding "MissingBackendPool"
            "L7 policy redirect pool is not present in the scoped inventory")
        else match validateAuditPolicyPool candidates candidate (c_redirectPoolID candidate) with
             | Err e => Some (conflict finding "ParentMismatch" (errorText e))
             | Ok _ => None
             end
    end.

(** The verdict on a tagged candidate from the records that match it. *)
Definition auditVerdict (candidates : auditCandidateSet) (candidate : auditCandidate) (parentID role : string)
    (routeScoped : bool) (matches : auditMatches) (finding : ResourceFinding) : ResourceFinding :=
  let '(exact, discovery, routeGateway) := matches in
  match exact with
  | _ :: _ :: _ =>
      conflict (withObjects finding (auditObjects exact)) "InvalidIdentity"
        "More than one durable Kubernetes binding exactly matches this resource"
  | [_] =>
      let finding := withObjects finding (auditObjects exact) in
      let finding := auditFinding finding DispositionMatched "ExactBinding"
        "Resource matches a current Kubernetes ownership binding" in
      if auditResourceNeedsParent (c_resourceType candidate)
         && (String.eqb parentID "" || negb (auditParentExists candidates (c_resourceType candidate) parentID))
      then unresolved finding "MissingParent"
             "Resource matches a binding, but its expected parent is not present in the scoped inventory"
      else finding
  | [] =>
      if negb routeScoped && negb (match routeGateway with [] => true | _ => false end) then
        unresolved (withObjects finding (auditObjects routeGateway)) "MissingGatewayBinding"
          "An HTTPRoute binding refers to this Gateway identity, but no durable Gateway binding matches it"
      else match discovery with
        | _ :: _ :: _ =>
            conflict (withObjects finding (auditObjects discovery)) "InvalidIdentity"
              "Stable Kubernetes object names match more than one durable binding"
        | [record] =>
            let finding := withObjects finding (auditObjects discovery) in
            if onlyAuditUIDsDiffer (c_tags candidate) record role routeScoped then
              auditFinding finding DispositionStaleUID "StaleUID"
                "Resource names match a current binding, but a Kubernetes UID differs"
            else
              conflict finding "InvalidIdentity"
                "Stable object names match a current binding, but another immutable identity field differs"
        | [] =>
            auditFinding finding DispositionOrphanCandidate "NoBinding"
              "Resource belongs to this controller scope, but no current durable binding matches it"
        end
  end.

(** [finding.Objects] before the graph is checked. *)
Definition auditMatchObjects (matches : auditMatches) (finding : ResourceFinding) : ResourceFinding :=
  let '(exact, discovery, routeGateway) := matches in
  match exact, routeGateway, discovery with
  | _ :: _, _, _ => withObjects finding (auditObjects exact)
  | [], _ :: _, _ => withObjects finding (auditObjects routeGateway)
  | [], [], _ :: _ => withObjects finding (auditObjects discovery)
  | [], [], [] => finding
  end.

Definition classifyAuditCandidate (candidates : auditCandidateSet) (candidate : auditCandidate)
    (records : list preparedAuditRecord) (scopeTags : list string) (scopeProjectID : string) : ResourceFinding :=
  let '(parentID, parentReason) := auditCandidateParent candidate in
  let finding := mkResourceFinding (c_service candidate) (c_resourceType candidate) (c_id candidate) parentID ""
    (c_provisioningStatus candidate) (DispositionOther "") "" "" [] in
  let resourceProjectID := candidateProject candidate in
  if blank (c_id candidate) then
    conflict finding "InvalidIdentity" "OpenStack resource does not report an ID"
  else if c_observationChanged candidate then
    unresolved finding "ObservationChanged"
      "Resource identity or relationship changed while the inventory was being collected"
  else if String.eqb resourceProjectID "" then
    unresolved finding "ProjectNotReported" "OpenStack did not report the resource project"
  else if negb (String.eqb resourceProjectID scopeProjectID) then
    conflict finding "ProjectMismatch" "Resource project differs from the authenticated audit project"
  else if negb (String.eqb parentReason "") then
    conflict finding "ParentMismatch" parentReason
  else if String.eqb (c_resourceType candidate) auditTypeFloatingIP then
    classifyAuditFloatingIP candidates candidate (withRole finding RoleFloatingIP) records
  else if negb (HasAllTags (c_tags candidate) scopeTags) then
    conflict finding "InvalidIdentity"
      "Resource was discovered in a managed graph but does not carry the controller scope identity"
  else
    match auditCandidateRole (c_resourceType candidate) (c_tags candidate) with
    | Err e => conflict finding "InvalidIdentity" (errorText e)
    | Ok (role, routeScoped) =>
        let finding := withRole finding role in
        match validateAuditIdentityTags (c_tags candidate) routeScoped with
        | Err e => conflict finding "InvalidIdentity" (errorText e)
        | Ok _ =>
            if negb (HasAllTags (c_tags candidate) [tag "project" scopeProjectID]) then
              conflict finding "ProjectMismatch"
                "Resource identity tag does not match the authenticated audit project"
            else
              let matches := matchingAuditRecords records (c_tags candidate) role routeScoped in
              let finding := auditMatchObjects matches finding in
              match auditGraphProblem candidates candidate parentID finding with
              | Some problem => problem
              | None => auditVerdict candidates candidate parentID role routeScoped matches finding
              end
        end
    end.

(** ** All candidates *)

Record classifiedAuditCandidate := mkClassified { cl_candidate : auditCandidate; cl_finding : ResourceFinding }.

Definition auditResourceOrder (resourceType : string) : nat :=
  if String.eqb resourceType auditTypeLoadBalancer then 0
  else if String.eqb resourceType auditTypeListener then 1
  else if String.eqb resourceType auditTypePool then 2
  else if String.eqb resourceType auditTypeMember then 3
  else if String.eqb resourceType auditTypeMonitor then 4
  else if String.eqb resourceType auditTypeL7Policy then 5
  else if String.eqb resourceType auditTypeL7Rule then 6
  else if String.eqb resourceType auditTypeFloatingIP then 7
  else 99.

Definition auditCardinalityKey (candidate : auditCandidate) (finding : ResourceFinding) : string :=
  let resourceType := c_resourceType candidate in
  if bool_decide (f_Disposition finding = DispositionOwnershipConflict)
     || String.eqb resourceType auditTypeMember then ""
  else if String.eqb resourceType auditTypeFloatingIP then
    let description := match CutString (c_description candidate) "; controller-version=" with
                       | Some (before, _) => before
                       | None => c_description candidate
                       end in
    if String.eqb description "" then "" else resourceType ^^ nul ^^ description
  else
    let stableKeys := ["cluster"; "controller"; "namespace"; "name"; "role"]
      ++ (if existsb (String.eqb resourceType) [auditTypePool; auditTypeMonitor; auditTypeL7Policy; auditTypeL7Rule]
          then ["route-namespace"; "route-name"] else []) in
    match mapM (fun key => let '(value, ok) := singleAuditTagValue (c_tags candidate) key in
                           if ok then Some value else None) stableKeys with
    | None => ""
    | Some values =>
        Join ([resourceType] ++ values
              ++ (if String.eqb resourceType auditTypeL7Rule then [f_ParentID finding] else [])) nul
    end.

Definition setFinding (item : classifiedAuditCandidate) (finding : ResourceFinding) : classifiedAuditCandidate :=
  mkClassified (cl_candidate item) finding.

(** [markDuplicateAuditIdentities].  An item is in the group of its own key and
    in no other, so marking the groups with two members or more is marking each
    item whose group has two.  The keys are computed before any finding changes. *)
Definition itemCardinalityKey (item : classifiedAuditCandidate) : string :=
  auditCardinalityKey (cl_candidate item) (cl_finding item).
Definition auditGroup (classified : list classifiedAuditCandidate) (key : string) : list classifiedAuditCandidate :=
  List.filter (fun item => String.eqb (itemCardinalityKey item) key) classified.
Definition markDuplicateAuditIdentities (classified : list classifiedAuditCandidate)
    : list classifiedAuditCandidate :=
  (fun item =>
     let key := itemCardinalityKey item in
     if String.eqb key "" || (length (auditGroup classified key) <? 2) then item
     else setFinding item (conflict (cl_finding item) "DuplicateIdentity"
            "More than one OpenStack resource has the same logical controller identity")) <$> classified.

(** [propagateAuditParentFindings].  [byResource] points into the slice, so a
    child reads the finding its parent has by then. *)
Definition resourceKey (resourceType id : string) : string := resourceType ^^ nul ^^ id.
Definition auditByResource (classified : list classifiedAuditCandidate) : gmap string nat :=
  foldl (fun m entry =>
    <[resourceKey (f_Type (cl_finding (snd entry))) (f_ID (cl_finding (snd entry))) := fst entry]> m)
    ∅ (imap pair classified).

Definition auditParentReferences (item : classifiedAuditCandidate) : list (string * string) :=
  (auditParentType (f_Type (cl_finding item)), f_ParentID (cl_finding item))
  :: (if String.eqb (f_Type (cl_finding item)) auditTypeL7Policy
      then [(auditTypePool, c_redirectPoolID (cl_candidate item))] else []).

(** What the first parent that is not matched does to the finding. *)
Fixpoint applyParents (byResource : string -> option ResourceFinding) (parents : list (string * string))
    (finding : ResourceFinding) : ResourceFinding :=
  match parents with
  | [] => finding
  | (resourceType, id) :: rest =>
      if String.eqb resourceType "" || String.eqb id "" then applyParents byResource rest finding
      else
        match byResource (resourceKey resourceType id) with
        | None => applyParents byResource rest finding
        | Some parent =>
            match f_Disposition parent with
            | DispositionMatched => applyParents byResource rest finding
            | DispositionOwnershipConflict =>
                conflict finding "ParentConflict" "Resource parent has an ownership conflict"
            | _ => unresolved finding "ParentUnresolved" "Resource parent is not fully matched to a current binding"
            end
        end
  end.

Definition propagateAuditItem (byResource : gmap string nat) (order : nat)
    (classified : list classifiedAuditCandidate) (index : nat) : list classifiedAuditCandidate :=
  match classified !! index with
  | None => classified
  | Some item =>
      if negb (Nat.eqb (auditResourceOrder (f_Type (cl_finding item))) order)
         || negb (bool_decide (f_Disposition (cl_finding item) = DispositionMatched))
      then classified
      else <[index := setFinding item
               (applyParents (fun key => cl_finding <$> (byResource !! key ≫= (classified !!.)))
                  (auditParentReferences item) (cl_finding item))]> classified
  end.

Definition propagateAuditParentFindings (classified : list classifiedAuditCandidate)
    : list classifiedAuditCandidate :=
  let byResource := auditByResource classified in
  foldl (fun classified order =>
    foldl (propagateAuditItem byResource order) classified (seq 0 (length classified)))
    classified (seq 1 (auditResourceOrder auditTypeFloatingIP)).

(** The key of [compareClassifiedAuditCandidates]: [%02d] pads the order. *)
Definition classifiedSortKey (item : classifiedAuditCandidate) : string :=
  let f := cl_finding item in
  let order := auditResourceOrder (f_Type f) in
  f_Service f ^^ nul ^^ (if order <? 10 then "0" ^^ decimal order else decimal order)
  ^^ nul ^^ f_ParentID f ^^ nul ^^ f_ID f.
Definition compareClassifiedAuditCandidates (left right : classifiedAuditCandidate) : comparison :=
  String.compare (classifiedSortKey left) (classifiedSortKey right).

(** [order] is the order in which the loop over the candidate map meets them. *)
Definition classifyAuditCandidates (order : list auditCandidate) (candidates : auditCandidateSet)
    (records : list preparedAuditRecord) (scopeTags : list string) (scopeProjectID : string)
    : list ResourceFinding :=
  let classified := (fun candidate => mkClassified candidate
    (classifyAuditCandidate candidates candidate records scopeTags scopeProjectID)) <$> order in
  let classified := markDuplicateAuditIdentities classified in
  let classified := propagateAuditParentFindings classified in
  let classified := SortFunc compareClassifiedAuditCandidates classified in
  (fun item => withObjects (cl_finding item) (SortObjectReferences (f_Objects (cl_finding item)))) <$> classified.

(** ** [Scan] *)

(** The requests of [Scan]: the candidate set of one scan. *)
Definition collectCandidates (p : Scanner) (scopeTags : list string) (records : list preparedAuditRecord)
    : M auditCandidateSet :=
  let! candidates := collectAuditLoadBalancers p ∅ scopeTags in
  let loadBalancerIDs := scopedIDs candidates auditTypeLoadBalancer scopeTags (s_projectID p) in
  let! candidates := collectAuditListeners p candidates scopeTags loadBalancerIDs in
  let! candidates := collectAuditPools p candidates scopeTags loadBalancerIDs in
  let listenerIDs := scopedIDs candidates auditTypeListener scopeTags (s_projectID p) in
  let poolIDs := scopedIDs candidates auditTypePool scopeTags (s_projectID p) in
  let! candidates := collectAuditPolicies p candidates scopeTags listenerIDs in
  let! candidates := collectAuditMembers p candidates poolIDs in
  let! candidates := collectAuditMonitors p candidates scopeTags poolIDs in
  let policyIDs := scopedIDs candidates auditTypeL7Policy scopeTags (s_projectID p) in
  let! candidates := collectAuditRules p candidates policyIDs in
  collectAuditFloatingIPs p candidates loadBalancerIDs records.

Definition Scan (p : Scanner) (scope : Scope) (records : list OwnershipRecord) : M Inventory :=
  onError Classify
    match ScopeValidate scope with
    | Err e => raise (NewProviderError ErrorCategoryTerminalValidation (Some e))
    | Ok _ =>
        guard! String.eqb (sc_OpenStackProjectID scope) (s_projectID p)
        else (Errorf "%w: audit scope does not match the authenticated OpenStack project" [] (Some ErrOwnershipConflict)) in
        guard! s_octavia p && s_neutron p
        else (NewProviderError ErrorCategoryTerminalValidation
               (Some (Errorf "both Octavia and Neutron clients are required for an ownership inventory" [] None))) in
        match prepareAuditRecords scope records with
        | Err e => raise (NewProviderError ErrorCategoryTerminalValidation (Some e))
        | Ok preparedRecords =>
            let scopeTags := ScopeTags (sc_ClusterID scope) (sc_ControllerName scope) in
            let! candidates := collectCandidates p scopeTags preparedRecords in
            ret (mkInventory
              (classifyAuditCandidates (candidateValues candidates) candidates preparedRecords scopeTags
                 (sc_OpenStackProjectID scope))
              auditInventoryLimitations)
        end
    end.
End classification.
