(* ===== verification/OwnershipAudit.v ===== *)
(** * The ownership audit command

    Models [internal/controller/ownershipaudit/collector.go], which reads the
    durable bindings of all Gateways and HTTPRoutes, and the audit command of
    [cmd/openstack-gateway-audit/command.go], which scans OpenStack for the
    resources they own and reports the difference.  Parsing the command line and
    making the clients is a library's work: their results are arguments. *)
From stdpp Require Import base list strings gmap.
From Stdlib Require Import ZArith NArith Lia Ascii.
From S2P Require Import Prelude GoStrings Cloud Kube KubeObjects References Metadata OpenStack Outcomes Binding KubeClient AuditReport Inventory Classification.

Set Default Goal Selector "!".

(** ** collector.go *)

Definition invalidBindingReason : string := "InvalidBinding".
Definition invalidBindingMessage : string :=
  "Controller binding is incomplete or does not match the configured cluster and OpenStack project".

(** [reader.List] without options. *)
Definition listAllGateways (from : reader) : M (list Gateway) := call (ReqKube (KListAllGateways from)).

Section collector.
Context `{ControllerUtil} (config : Config).

Definition validateOwnershipSnapshotConfig : outcome_of unit :=
  guard? IsValidControllerName (cfg_ControllerName config)
  else (Errorf "controller name %q must be a domain prefixed path" [cfg_ControllerName config] None) in
  annotate "validate ownership audit scope: %w" []
    (ScopeValidate (mkScope (cfg_ClusterID config) (cfg_ControllerName config) (cfg_OpenStackProjectID config))).

Definition auditReference (kind : string) (meta : ObjectMeta) : ObjectReference :=
  mkObjectReference (GroupName ^^ "/v1") kind (om_Namespace meta) (om_Name meta) (om_UID meta).
Definition gatewayAuditReference (gateway : Gateway) : ObjectReference := auditReference "Gateway" (gw_Meta gateway).
Definition routeAuditReference (route : HTTPRoute) : ObjectReference := auditReference "HTTPRoute" (hr_Meta route).

Definition invalidBindingIssue (object : ObjectReference) : KubernetesIssue :=
  mkKubernetesIssue object invalidBindingReason invalidBindingMessage.

Definition addRecord (s : KubernetesSnapshot) (r : OwnershipRecord) : KubernetesSnapshot :=
  mkKubernetesSnapshot (sn_Records s ++ [r]) (sn_Issues s).
Definition addIssue (s : KubernetesSnapshot) (i : KubernetesIssue) : KubernetesSnapshot :=
  mkKubernetesSnapshot (sn_Records s) (sn_Issues s ++ [i]).

(** The bodies of the two loops. *)
Definition collectGateway (snapshot : KubernetesSnapshot) (gateway : Gateway) : KubernetesSnapshot :=
  let meta := gw_Meta gateway in
  if negb (GatewayHasControllerBinding config meta) then snapshot
  else
    let object := gatewayAuditReference gateway in
    match ValidateGatewayBinding config meta with
    | Err _ => addIssue snapshot (invalidBindingIssue object)
    | Ok _ =>
        let identity := StoredGatewayIdentity config meta in
        match ValidateGatewayIdentity identity with
        | Err _ => addIssue snapshot (invalidBindingIssue object)
        | Ok _ => addRecord snapshot (mkOwnershipRecord identity [object])
        end
    end.

Definition collectRoute (snapshot : KubernetesSnapshot) (route : HTTPRoute) : KubernetesSnapshot :=
  let meta := hr_Meta route in
  if negb (RouteHasControllerBinding config meta) then snapshot
  else
    let object := routeAuditReference route in
    match StoredRouteIdentity config meta with
    | Err _ | Ok None => addIssue snapshot (invalidBindingIssue object)
    | Ok (Some identity) => addRecord snapshot (mkOwnershipRecord identity [object])
    end.

Definition ownershipRecordSortKey (record : OwnershipRecord) : string :=
  match rec_Objects record with [] => "" | object :: _ => objectReferenceKey object end.

Definition sortOwnershipSnapshot (snapshot : KubernetesSnapshot) : KubernetesSnapshot :=
  let records := (fun r => mkOwnershipRecord (rec_Identity r) (SortObjectReferences (rec_Objects r)))
                   <$> sn_Records snapshot in
  mkKubernetesSnapshot
    (SortFunc (fun left right => String.compare (ownershipRecordSortKey left) (ownershipRecordSortKey right)) records)
    (SortFunc (fun left right =>
       String.compare (objectReferenceKey (is_Object left)) (objectReferenceKey (is_Object right)))
       (sn_Issues snapshot)).

(** The snapshot of complete lists. *)
Definition snapshotOf (gateways : list Gateway) (routes : list HTTPRoute) : KubernetesSnapshot :=
  sortOwnershipSnapshot (foldl collectRoute (foldl collectGateway (mkKubernetesSnapshot [] []) gateways) routes).

Definition CollectOwnershipSnapshot (from : option reader) : M KubernetesSnapshot :=
  match from with
  | None => raise (Errorf "kubernetes API reader must not be nil" [] None)
  | Some from =>
      let! _ := lift validateOwnershipSnapshotConfig in
      let! gateways := wrap "list Gateways for ownership audit: %w" [] (listAllGateways from) in
      let! routes := wrap "list HTTPRoutes for ownership audit: %w" [] (listHTTPRoutes from None None) in
      ret (snapshotOf gateways routes)
  end.
End collector.

(** ** command.go *)

Definition exitSuccess : Z := 0.
Definition exitFailure : Z := 1.
Definition exitFindings : Z := 2.

(** The options that the command itself reads. *)
Record commandOptions := mkCommandOptions {
  co_controllerName : string; co_clusterID : string; co_operationTimeout : Z; co_failOnFindings : bool
}.

(** What the command takes from the service clients. *)
Record ServiceClients := mkServiceClients { svc_LoadBalancer : bool; svc_Network : bool; svc_ProjectID : string }.

(** The results of the dependencies that reach outside. *)
Record commandDependencies := mkCommandDependencies {
  dep_now : Z;
  dep_loadKubeConfig : commandOptions -> outcome_of unit;
  dep_newKubeReader : outcome_of reader;
  dep_newServiceClients : commandOptions -> outcome_of ServiceClients
}.

Definition newCommandError (message : string) (cause : option error) : error :=
  CustomError "commandError" [message] cause.
Definition newOpenStackCommandError (message : string) (cause : error) : error :=
  newCommandError (match ErrorCategoryOf cause with
                   | Some category => message ^^ " (" ^^ categoryString category ^^ ")"
                   | None => message
                   end) (Some cause).

(** [return audit.Report{}, f(err)]. *)
Definition failing {A} (f : error -> error) (m : M A) : M A := onError f m.

Section command.
Context `{ControllerUtil} `{ForeignTexts} (version : string).

Definition executeAudit (options : commandOptions) (dependencies : commandDependencies) : M Report :=
  let! _ := failing (fun e => newCommandError "could not load Kubernetes client configuration" (Some e))
              (lift (dep_loadKubeConfig dependencies options)) in
  let! from := failing (fun e => newCommandError "could not create Kubernetes API client" (Some e))
                 (lift (dep_newKubeReader dependencies)) in
  let! serviceClients := failing (newOpenStackCommandError "could not create OpenStack service clients")
                           (lift (dep_newServiceClients dependencies options)) in
  let projectID := svc_ProjectID serviceClients in
  let controllerConfig := mkConfig (co_controllerName options) version projectID (co_clusterID options)
                            "" "" "" "" "" "" "" 0 in
  let! snapshot := failing (fun e => newCommandError "could not read Kubernetes ownership bindings" (Some e))
                     (CollectOwnershipSnapshot controllerConfig (Some from)) in
  let scope := mkScope (co_clusterID options) (co_controllerName options) projectID in
  let scanner := NewScanner (svc_LoadBalancer serviceClients) (svc_Network serviceClients) projectID
                   (co_operationTimeout options) in
  let! inventory := failing (newOpenStackCommandError "could not scan OpenStack ownership")
                      (Scan scanner scope (sn_Records snapshot)) in
  failing (fun e => newCommandError "could not build audit report" (Some e))
    (lift (BuildReport (dep_now dependencies) version scope snapshot inventory)).

(** What [parseOptions] returned. *)
Inductive parsedOptions := ParsedHelp | ParsedError (e : error) | Parsed (options : commandOptions).

Definition newline : string := String "010"%char "".

(** [runCommand]: the exit code, what it wrote to standard error and whether it
    wrote the report.  [encode] is [json.MarshalIndent], [write] is the writer of
    standard output: how many bytes it took, and its error. *)
Definition runCommand (parsed : parsedOptions) (dependencies : commandDependencies)
    (encode : Report -> outcome_of string) (write : string -> nat * option error) : prog (Z * string) :=
  let failed e := Ret (exitFailure, "error: " ^^ errorText e ^^ newline) in
  match parsed with
  | ParsedHelp => Ret (exitSuccess, "")
  | ParsedError e => failed e
  | Parsed options =>
      bind (executeAudit options dependencies) (fun result =>
        match result with
        | Err e => failed e
        | Ok report =>
            match encode report with
            | Err e => failed (newCommandError "could not encode audit report" (Some e))
            | Ok output =>
                let output := output ^^ newline in
                match write output with
                | (_, Some e) => failed (newCommandError "could not write audit report" (Some e))
                | (written, None) =>
                    if negb (Nat.eqb written (String.length output))
                    then failed (newCommandError "could not write audit report" (Some (Sentinel "short write")))
                    else if co_failOnFindings options && HasFindings report
                    then Ret (exitFindings, "")
                    else Ret (exitSuccess, "")
                end
            end
        end)
  end.
End command.
