(* ===== verification/AuditFacts.v ===== *)
(** * The audit report is a faithful account

    What [BuildReport] accepts, and what the summary, the assessment and
    [HasFindings] of a report say about the inventory it was built from. *)
From stdpp Require Import base list strings gmap sorting.
From Stdlib Require Import ZArith NArith Lia Ascii.
From S2P Require Import Prelude GoStrings Cloud AuditReport.

Set Default Goal Selector "!".

(** ** [slices] *)

Lemma SortFunc_perm {A} (cmp : A -> A -> comparison) l : SortFunc cmp l ≡ₚ l.
Proof. apply sort_slice_perm. Qed.

(** Sorting by a key that no two elements share does not depend on the order. *)
Lemma StronglySorted_fmap {A B} (R : B -> B -> Prop) (f : A -> B) l :
  StronglySorted (fun x y => R (f x) (f y)) l -> StronglySorted R (f <$> l).
Proof. induction 1; cbn; constructor; [done|]. by apply Forall_fmap. Qed.

Lemma SortFunc_key_sorted {A} (key : A -> string) l :
  StronglySorted (fun a b => String.ltb b a = false)
    (key <$> SortFunc (fun x y => String.compare (key x) (key y)) l).
Proof.
  apply StronglySorted_fmap. unfold SortFunc. change (fun x y => match String.compare (key x) (key y) with Lt => true | _ => false end)
    with (fun x y => String.ltb (key x) (key y)).
  apply (sort_slice_sorted (fun x y => String.ltb (key x) (key y))).
  - intros x y. apply (less_asym String.ltb).
  - intros x y z. apply (nless_trans String.ltb).
Qed.

Lemma NoDup_key_eq {A K} (key : A -> K) (l1 l2 : list A) :
  NoDup (key <$> l1) -> l1 ≡ₚ l2 -> key <$> l1 = key <$> l2 -> l1 = l2.
Proof.
  intros Hnd Hp He. assert (forall x y, x ∈ l1 -> y ∈ l1 -> key x = key y -> x = y) as Hinj.
  { intros x y (i & Hi)%list_elem_of_lookup (j & Hj)%list_elem_of_lookup Hk.
    assert (i = j) as ->; [|congruence].
    eapply NoDup_lookup; [exact Hnd|by rewrite list_lookup_fmap, Hi|by rewrite list_lookup_fmap, Hj, Hk]. }
  apply list_eq. intros i. apply (f_equal (.!! i)) in He. rewrite !list_lookup_fmap in He.
  destruct (l1 !! i) as [x|] eqn:E1, (l2 !! i) as [y|] eqn:E2; cbn in He; simplify_eq; [|done].
  f_equal. apply Hinj; [by eapply list_elem_of_lookup_2| |done].
  rewrite Hp. by eapply list_elem_of_lookup_2.
Qed.

Lemma SortFunc_canonical {A} (key : A -> string) (l l' : list A) :
  NoDup (key <$> l) -> l ≡ₚ l' ->
  SortFunc (fun x y => String.compare (key x) (key y)) l = SortFunc (fun x y => String.compare (key x) (key y)) l'.
Proof.
  intros Hnd Hp. assert (SortFunc (fun x y => String.compare (key x) (key y)) l
    ≡ₚ SortFunc (fun x y => String.compare (key x) (key y)) l') as Hs by by rewrite !SortFunc_perm.
  apply (NoDup_key_eq key); [by rewrite SortFunc_perm|done|].
  assert (AntiSymm (=) (fun a b => String.ltb b a = false)).
  { intros x y Hx Hy. destruct (less_total x y) as [|[]]; [done|congruence..]. }
  eapply (StronglySorted_unique (fun a b => String.ltb b a = false)); [apply SortFunc_key_sorted..|by rewrite Hs].
Qed.

Lemma compactFrom_sub {A} (eq : A -> A -> bool) prev l x : x ∈ compactFrom eq prev l -> x ∈ l.
Proof.
  revert prev. induction l as [|y l IH]; intros prev; cbn; [done|]. destruct (eq y prev); set_solver.
Qed.
Lemma CompactFunc_sub {A} (eq : A -> A -> bool) l x : x ∈ CompactFunc eq l -> x ∈ l.
Proof. destruct l; cbn; [done|]. rewrite !elem_of_cons. intros [|?%compactFrom_sub]; auto. Qed.

Lemma SortObjectReferences_sub l o : o ∈ SortObjectReferences l -> o ∈ l.
Proof. intros H%CompactFunc_sub. by rewrite SortFunc_perm in H. Qed.

Lemma SortObjectReferences_single o : SortObjectReferences [o] = [o].
Proof. done. Qed.

(** ** Loops with an index *)

Lemma forIndex_ok {E A} (f : nat -> A -> result E unit) l :
  forIndex f l = Ok tt <-> forall i x, l !! i = Some x -> f i x = Ok tt.
Proof.
  unfold forIndex. rewrite forM_ok, Forall_lookup. split.
  - intros Hf i x Hx. apply (Hf i (i, x)). by rewrite list_lookup_imap, Hx.
  - intros Hf i p. rewrite list_lookup_imap. destruct (l !! i) as [x|] eqn:Ex; [|done]. cbn. intros [= <-]. by apply Hf.
Qed.

Lemma requireNonBlank_ok fields : requireNonBlank fields = Ok tt <-> Forall (fun f => blank (snd f) = false) fields.
Proof.
  unfold requireNonBlank. rewrite forM_ok. apply Forall_proper; [|done]. intros f.
  destruct (blank (snd f)); naive_solver.
Qed.

Lemma annotate_ok {A} format args (m : outcome_of A) a : annotate format args m = Ok a <-> m = Ok a.
Proof. destruct m; cbn; naive_solver. Qed.

Lemma validateObjectReference_ok o :
  validateObjectReference o = Ok tt <->
  blank (or_APIVersion o) = false /\ blank (or_Kind o) = false /\ blank (or_Name o) = false /\ blank (or_UID o) = false.
Proof. unfold validateObjectReference. rewrite requireNonBlank_ok, !Forall_cons. cbn. intuition constructor. Qed.

(** ** What a snapshot and an inventory must satisfy *)

Definition inScope (scope : Scope) (id : Identity) : Prop :=
  ClusterID id = sc_ClusterID scope /\ Controller id = sc_ControllerName scope /\
  OpenStackProjectID id = sc_OpenStackProjectID scope.

Definition validIdentity (id : Identity) : Prop :=
  (if isRouteIdentity id then ValidateRouteIdentity id else ValidateGatewayIdentity id) = Ok tt.

(** A record of exactly one object, the one its identity names. *)
Definition wellFormedRecord (scope : Scope) (r : OwnershipRecord) : Prop :=
  inScope scope (rec_Identity r) /\ validIdentity (rec_Identity r) /\
  exists o, rec_Objects r = [o] /\ validateObjectReference o = Ok tt /\
    objectMatchesIdentity o (rec_Identity r) (isRouteIdentity (rec_Identity r)) = true.

Definition wellFormedIssue (i : KubernetesIssue) : Prop :=
  validateObjectReference (is_Object i) = Ok tt /\ blank (is_Reason i) = false /\ blank (is_Message i) = false.

Lemma validateSnapshotRecord_ok scope i r :
  validateSnapshotRecord scope i r = Ok tt <-> wellFormedRecord scope r.
Proof.
  unfold validateSnapshotRecord, wellFormedRecord, inScope, validIdentity.
  destruct (_ && _ && _) eqn:Es.
  2: { split; [done|]. intros [(H1 & H2 & H3) _]. rewrite H1, H2, H3, !String.eqb_refl in Es. done. }
  bool_hyps. destruct (if isRouteIdentity _ then _ else _) as [[]|] eqn:Ev; cbn.
  2: { split; [done|]. by intros (_ & ? & _). }
  destruct (rec_Objects r) as [|o [|o' os]].
  1,3: split; [done|]; intros (_ & _ & ? & [=] & _).
  destruct (validateObjectReference o) as [[]|] eqn:Eo; cbn.
  2: { split; [done|]. intros (_ & _ & ? & [= <-] & ? & _). congruence. }
  destruct (objectMatchesIdentity _ _ _) eqn:Em; split; try done.
  - intros _. eauto 10.
  - intros (_ & _ & ? & [= <-] & _ & ?). congruence.
Qed.

Lemma validateSnapshotIssue_ok i issue : validateSnapshotIssue i issue = Ok tt <-> wellFormedIssue issue.
Proof.
  unfold validateSnapshotIssue, wellFormedIssue.
  destruct (validateObjectReference _) as [[]|]; cbn; [|naive_solver].
  destruct (blank (is_Reason issue)), (blank (is_Message issue)); cbn; naive_solver.
Qed.

Lemma forall_lookup_Forall {A} (P : A -> Prop) (l : list A) :
  (forall i x, l !! i = Some x -> P x) <-> Forall P l.
Proof. rewrite Forall_lookup. naive_solver. Qed.

Lemma validateSnapshot_ok scope s :
  validateSnapshot scope s = Ok tt <->
  Forall (wellFormedRecord scope) (sn_Records s) /\ Forall wellFormedIssue (sn_Issues s).
Proof.
  unfold validateSnapshot. rewrite <- !forall_lookup_Forall.
  setoid_rewrite <- validateSnapshotIssue_ok. rewrite <- (forIndex_ok (fun i => validateSnapshotIssue i)).
  assert ((forall i x, sn_Records s !! i = Some x -> wellFormedRecord scope x) <->
          forIndex (validateSnapshotRecord scope) (sn_Records s) = Ok tt) as ->.
  { rewrite forIndex_ok. by setoid_rewrite validateSnapshotRecord_ok. }
  destruct (forIndex (validateSnapshotRecord scope) _) as [[]|]; cbn; naive_solver.
Qed.

Definition completeFinding (f : ResourceFinding) : Prop :=
  blank (f_Service f) = false /\ blank (f_Type f) = false /\ blank (f_ID f) = false /\
  blank (f_Reason f) = false /\ blank (f_Message f) = false /\
  knownDisposition (f_Disposition f) = true /\
  Forall (fun o => validateObjectReference o = Ok tt) (f_Objects f).

Lemma validateInventoryFinding_ok seen i f s :
  validateInventoryFinding seen (i, f) = Ok s <->
  completeFinding f /\ findingKey f ∉ seen /\ s = {[findingKey f]} ∪ seen.
Proof.
  unfold validateInventoryFinding, completeFinding.
  rewrite <- forall_lookup_Forall.
  assert ((forall j o, f_Objects f !! j = Some o -> validateObjectReference o = Ok tt) <->
    forIndex (fun j o => annotate "validate OpenStack finding %d object %d: %w" [decimal i; decimal j]
      (validateObjectReference o)) (f_Objects f) = Ok tt) as ->.
  { rewrite forIndex_ok. by setoid_rewrite annotate_ok. }
  destruct (blank (f_Service f)), (blank (f_Type f)), (blank (f_ID f)), (blank (f_Reason f)), (blank (f_Message f));
    cbn; try (split; [done|naive_solver]).
  destruct (knownDisposition _); [|split; [done|naive_solver]].
  case_bool_decide as Hs; [split; [done|]; by intros (_ & ? & _)|].
  destruct (forIndex _ _) as [[]|]; cbn.
  - split; [intros [= <-]; by repeat split|]. by intros (_ & _ & ->).
  - split; [done|]. intros ((_ & _ & _ & _ & _ & _ & ?) & _). done.
Qed.

Lemma foldM_findings_ok seen entries :
  (exists s, foldM validateInventoryFinding seen entries = Ok s) <->
  Forall completeFinding entries.*2 /\ NoDup (findingKey <$> entries.*2) /\
  Forall (fun f => findingKey f ∉ seen) entries.*2.
Proof.
  revert seen. induction entries as [|[i f] l IH]; intros seen.
  { cbn. split; [|eauto]. intros _. repeat constructor. }
  rewrite !fmap_cons, !Forall_cons, NoDup_cons. cbn [foldM snd].
  assert ((exists s, rbind (validateInventoryFinding seen (i, f)) (fun acc' => foldM validateInventoryFinding acc' l) = Ok s) <->
    exists s', validateInventoryFinding seen (i, f) = Ok s' /\ exists s, foldM validateInventoryFinding s' l = Ok s) as ->.
  { destruct (validateInventoryFinding seen (i, f)); cbn; naive_solver. }
  setoid_rewrite validateInventoryFinding_ok. setoid_rewrite IH. split.
  - intros (s' & (Hc & Hk & ->) & Hl & Hnd & Hs). rewrite Forall_forall in Hs.
    refine (conj (conj Hc Hl) (conj (conj _ Hnd) (conj Hk _))).
    + intros (g & Hg & Hin)%list_elem_of_fmap. apply (Hs g Hin). rewrite Hg. set_solver.
    + apply Forall_forall. intros g Hin Hg. apply (Hs g Hin). set_solver.
  - intros ((Hc & Hl) & (Hn & Hnd) & Hk & Hs). rewrite Forall_forall in Hs. exists ({[findingKey f]} ∪ seen).
    refine (conj (conj Hc (conj Hk eq_refl)) (conj Hl (conj Hnd _))). apply Forall_forall. intros g Hin.
    apply not_elem_of_union. split; [|by apply Hs]. intros Hg%elem_of_singleton.
    apply Hn. rewrite <- Hg. by apply list_elem_of_fmap_2.
Qed.

Lemma imap_pair_snd {A} (l : list A) : (imap pair l).*2 = l.
Proof.
  rewrite fmap_imap. trans ((fun x : A => x) <$> l); [|apply list_fmap_id].
  rewrite <- imap_const. by apply imap_ext.
Qed.

Lemma validateInventory_ok inv :
  validateInventory inv = Ok tt <->
  Forall completeFinding (inv_Resources inv) /\ NoDup (findingKey <$> inv_Resources inv) /\
  Forall (fun l => blank l = false) (inv_Limitations inv).
Proof.
  unfold validateInventory. pose proof (foldM_findings_ok ∅ (imap pair (inv_Resources inv))) as Hf.
  rewrite imap_pair_snd in Hf.
  assert (Forall (fun l => blank l = false) (inv_Limitations inv) <->
    forIndex (fun index limitation => if blank limitation then
      Err (Errorf "inventory limitation %d must not be empty" [decimal index] None) else Ok tt)
      (inv_Limitations inv) = Ok tt) as ->.
  { rewrite forIndex_ok, <- forall_lookup_Forall. split; intros Hl i x Hx; specialize (Hl i x Hx).
    - by rewrite Hl.
    - by destruct (blank x). }
  assert (Forall (fun f => findingKey f ∉ (∅ : gset string)) (inv_Resources inv)) by (apply Forall_true; set_solver).
  destruct (foldM _ _ _) as [s|]; cbn; [|naive_solver].
  assert (exists s', @Ok error _ s = Ok s') as Hs by eauto. apply Hf in Hs as (? & ? & ?). naive_solver.
Qed.

(** ** The summary *)

Definition hasDisposition (d : Disposition) (f : ResourceFinding) : bool := bool_decide (f_Disposition f = d).
Definition countOf (d : Disposition) (l : list ResourceFinding) : nat := length (List.filter (hasDisposition d) l).

Lemma foldl_countFinding l b i r m o u c n :
  foldl countFinding (mkSummary b i r m o u c n) l =
  mkSummary b i r (m + countOf DispositionMatched l) (o + countOf DispositionOrphanCandidate l)
    (u + countOf DispositionStaleUID l) (c + countOf DispositionOwnershipConflict l)
    (n + countOf DispositionUnresolved l).
Proof.
  unfold countOf, hasDisposition. revert m o u c n.
  induction l as [|f l IH]; intros; cbn [foldl List.filter length]; [by rewrite !Nat.add_0_r|].
  unfold countFinding at 2. destruct (f_Disposition f); rewrite IH;
    repeat (case_bool_decide; [try done|try done]); cbn [length]; f_equal; lia.
Qed.

Lemma summarize_eq records issues resources :
  summarize records issues resources =
  mkSummary (length records) (length issues) (length resources) (countOf DispositionMatched resources)
    (countOf DispositionOrphanCandidate resources) (countOf DispositionStaleUID resources)
    (countOf DispositionOwnershipConflict resources) (countOf DispositionUnresolved resources).
Proof. unfold summarize. by rewrite foldl_countFinding. Qed.

Lemma countOf_zero d l : countOf d l = 0 <-> Forall (fun f => f_Disposition f <> d) l.
Proof.
  unfold countOf, hasDisposition. induction l as [|f l IH]; cbn; [split; [constructor|done]|].
  rewrite Forall_cons. case_bool_decide; cbn; [naive_solver lia|]. rewrite IH. naive_solver.
Qed.

Lemma countOf_total l :
  Forall (fun f => knownDisposition (f_Disposition f) = true) l ->
  countOf DispositionMatched l + countOf DispositionOrphanCandidate l + countOf DispositionStaleUID l
  + countOf DispositionOwnershipConflict l + countOf DispositionUnresolved l = length l.
Proof.
  unfold countOf, hasDisposition. induction 1 as [|f l Hf Hl IH]; [done|]. cbn [List.filter length].
  destruct (f_Disposition f); try done; repeat (case_bool_decide; [try done|try done]); cbn [length]; lia.
Qed.

Lemma all_matched l :
  Forall (fun f => knownDisposition (f_Disposition f) = true) l ->
  countOf DispositionOrphanCandidate l = 0 -> countOf DispositionStaleUID l = 0 ->
  countOf DispositionOwnershipConflict l = 0 -> countOf DispositionUnresolved l = 0 ->
  Forall (fun f => f_Disposition f = DispositionMatched) l.
Proof.
  rewrite !countOf_zero, !Forall_forall. intros Hk H1 H2 H3 H4 f Hf.
  specialize (Hk f Hf). specialize (H1 f Hf). specialize (H2 f Hf). specialize (H3 f Hf). specialize (H4 f Hf).
  by destruct (f_Disposition f).
Qed.

(** ** Reports *)

Lemma ScopeValidate_ok s :
  ScopeValidate s = Ok tt <->
  blank (sc_ClusterID s) = false /\ blank (sc_ControllerName s) = false /\ blank (sc_OpenStackProjectID s) = false.
Proof. unfold ScopeValidate. rewrite requireNonBlank_ok, !Forall_cons. cbn. intuition constructor. Qed.

(** What [BuildReport] requires of its arguments. *)
Definition reportable (generatedAt : Z) (toolVersion : string) (scope : Scope) (snapshot : KubernetesSnapshot)
    (inventory : Inventory) : Prop :=
  generatedAt <> 0%Z /\ blank toolVersion = false /\ ScopeValidate scope = Ok tt /\
  validateSnapshot scope snapshot = Ok tt /\ validateInventory inventory = Ok tt.

Lemma BuildReport_ok generatedAt toolVersion scope snapshot inventory :
  (exists report, BuildReport generatedAt toolVersion scope snapshot inventory = Ok report) <->
  reportable generatedAt toolVersion scope snapshot inventory.
Proof.
  unfold BuildReport, reportable. destruct (Z.eqb_spec generatedAt 0); [naive_solver|].
  destruct (blank toolVersion); [naive_solver|].
  destruct (ScopeValidate scope) as [[]|]; cbn [annotate rbind]; [|naive_solver].
  destruct (validateSnapshot scope snapshot) as [[]|]; cbn [rbind]; [|naive_solver].
  destruct (validateInventory inventory) as [[]|]; cbn [rbind]; [|naive_solver]. naive_solver.
Qed.

Lemma BuildReport_inv generatedAt toolVersion scope snapshot inventory report :
  BuildReport generatedAt toolVersion scope snapshot inventory = Ok report ->
  reportable generatedAt toolVersion scope snapshot inventory /\
  rp_Resources report = copyAndSortFindings (inv_Resources inventory) /\
  rp_KubernetesIssues report = copyAndSortIssues (sn_Issues snapshot) /\
  rp_Summary report = summarize (sn_Records snapshot) (copyAndSortIssues (sn_Issues snapshot))
                        (copyAndSortFindings (inv_Resources inventory)) /\
  rp_Assessment report =
    (if bool_decide (copyAndSortIssues (sn_Issues snapshot) = []) then AssessmentComplete else AssessmentIncomplete).
Proof.
  intros Hr. split; [apply BuildReport_ok; eauto|]. revert Hr. unfold BuildReport.
  destruct (_ =? _)%Z; [done|]. destruct (blank toolVersion); [done|].
  destruct (annotate _ _ _); cbn [rbind]; [|done]. destruct (validateSnapshot _ _); cbn [rbind]; [|done].
  destruct (validateInventory _); cbn [rbind]; [|done]. intros [= <-]. cbn. by case_bool_decide.
Qed.

Lemma copyAndSortFindings_perm l :
  copyAndSortFindings l ≡ₚ (fun f => withObjects f (SortObjectReferences (f_Objects f))) <$> l.
Proof. apply SortFunc_perm. Qed.

Lemma countOf_copy d l : countOf d (copyAndSortFindings l) = countOf d l.
Proof.
  unfold countOf. assert (forall l l', l ≡ₚ l' ->
    length (List.filter (hasDisposition d) l) = length (List.filter (hasDisposition d) l')) as Hp.
  { intros l1 l2. induction 1; cbn; repeat case_match; cbn; lia. }
  rewrite (Hp _ _ (copyAndSortFindings_perm l)). induction l as [|f l IH]; [done|]. rewrite fmap_cons.
  cbn [List.filter]. change (hasDisposition d (withObjects f _)) with (hasDisposition d f).
  destruct (hasDisposition d f); cbn [length]; by rewrite IH.
Qed.

Lemma copyAndSortIssues_nil l : copyAndSortIssues l = [] <-> l = [].
Proof. split; [apply sort_slice_nil_inv|by intros ->]. Qed.

Lemma known_dispositions inv :
  validateInventory inv = Ok tt -> Forall (fun f => knownDisposition (f_Disposition f) = true) (inv_Resources inv).
Proof. intros (Hc & _ & _)%validateInventory_ok. eapply Forall_impl; [exact Hc|]. unfold completeFinding. tauto. Qed.

(** [HasFindings] in terms of what was audited. *)
Lemma HasFindings_spec generatedAt toolVersion scope snapshot inventory report :
  BuildReport generatedAt toolVersion scope snapshot inventory = Ok report ->
  HasFindings report = false <->
  sn_Issues snapshot = [] /\ Forall (fun f => f_Disposition f = DispositionMatched) (inv_Resources inventory).
Proof.
  intros ((_ & _ & _ & _ & Hv) & _ & _ & Hs & _)%BuildReport_inv. apply known_dispositions in Hv.
  unfold HasFindings. rewrite Hs, summarize_eq. cbn -[Nat.ltb]. rewrite !countOf_copy, !orb_false_iff, !Nat.ltb_ge.
  rewrite !Nat.le_0_r, length_zero_iff_nil, copyAndSortIssues_nil. split.
  - intros ((((? & ?) & ?) & ?) & ?). split; [done|]. by apply all_matched.
  - intros [? Hm]. rewrite !countOf_zero. split_and!; try done; (eapply Forall_impl; [exact Hm|]; intros f ->; done).
Qed.

(** The report accounts for every resource of the inventory under exactly
    one disposition: its findings are those of the inventory, the counts are
    theirs and add up, the assessment is complete exactly when no binding was
    invalid, and a report without findings means that everything matched. *)
Theorem report_accounts_for_inventory generatedAt toolVersion scope snapshot inventory report :
  BuildReport generatedAt toolVersion scope snapshot inventory = Ok report ->
  rp_Resources report ≡ₚ (fun f => withObjects f (SortObjectReferences (f_Objects f))) <$> inv_Resources inventory /\
  (let s := rp_Summary report in
   sm_Matched s = countOf DispositionMatched (inv_Resources inventory) /\
   sm_OrphanCandidates s = countOf DispositionOrphanCandidate (inv_Resources inventory) /\
   sm_StaleUIDs s = countOf DispositionStaleUID (inv_Resources inventory) /\
   sm_OwnershipConflicts s = countOf DispositionOwnershipConflict (inv_Resources inventory) /\
   sm_Unresolved s = countOf DispositionUnresolved (inv_Resources inventory) /\
   sm_Matched s + sm_OrphanCandidates s + sm_StaleUIDs s + sm_OwnershipConflicts s + sm_Unresolved s
     = length (inv_Resources inventory) /\
   sm_KubernetesBindings s = length (sn_Records snapshot) /\ sm_KubernetesIssues s = length (sn_Issues snapshot)) /\
  (rp_Assessment report = AssessmentComplete <-> sn_Issues snapshot = []) /\
  (HasFindings report = false <->
   sn_Issues snapshot = [] /\ Forall (fun f => f_Disposition f = DispositionMatched) (inv_Resources inventory)).
Proof.
  intros Hr. pose proof (HasFindings_spec _ _ _ _ _ _ Hr) as Hf.
  apply BuildReport_inv in Hr as ((_ & _ & _ & _ & Hv) & Hres & _ & Hs & Ha).
  split_and!; [rewrite Hres; apply copyAndSortFindings_perm| | |exact Hf].
  - rewrite Hs, summarize_eq. cbn. rewrite !countOf_copy. split_and!; try done.
    + by apply countOf_total, known_dispositions.
    + apply Permutation_length, SortFunc_perm.
  - rewrite Ha. case_bool_decide as E; rewrite copyAndSortIssues_nil in E; by split.
Qed.
