(* ===== verification/InventoryFacts.v ===== *)
(** * The candidates of a scan

    A scan holds each resource once, under its type and ID; every candidate is a
    resource that OpenStack listed during the scan, and every resource that a list
    of load balancers, listeners, pools, members, health monitors or rules returned
    is a candidate. *)
From stdpp Require Import base list strings gmap.
From Stdlib Require Import ZArith NArith Lia Ascii.
From S2P Require Import Prelude GoStrings Cloud Metadata OpenStack ProgramLogic KubeClient AuditReport Inventory Classification.

Set Default Goal Selector "!".

(** ** The candidate set *)

Definition auditTypes : list string :=
  [auditTypeLoadBalancer; auditTypeListener; auditTypePool; auditTypeMember; auditTypeMonitor;
   auditTypeL7Policy; auditTypeL7Rule; auditTypeFloatingIP].

(** Floating IPs are Neutron's, everything else is Octavia's. *)
Definition serviceOf (resourceType : string) : string :=
  if String.eqb resourceType auditTypeFloatingIP then auditServiceNeutron else auditServiceOctavia.

Definition knownCandidate (c : auditCandidate) : Prop :=
  c_resourceType c ∈ auditTypes /\ c_service c = serviceOf (c_resourceType c).

Definition wellKeyed (s : auditCandidateSet) : Prop :=
  map_Forall (fun k c => k = candidateKey c /\ knownCandidate c) s.

Lemma candidateValues_elem s c : c ∈ candidateValues s <-> exists k, s !! k = Some c.
Proof.
  unfold candidateValues. rewrite list_elem_of_fmap. split.
  - intros ([k c'] & -> & Hk%elem_of_map_to_list). by exists k.
  - intros [k Hk]. exists (k, c). split; [done|]. by apply elem_of_map_to_list.
Qed.

Lemma addCandidate_wellKeyed s c : wellKeyed s -> knownCandidate c -> wellKeyed (addCandidate s c).
Proof.
  intros Hs Hc. unfold addCandidate. cbn zeta.
  destruct (s !! candidateKey (withSortedTags c)) as [e|] eqn:Ee; apply map_Forall_insert_2; auto.
  destruct (Hs _ _ Ee) as [Hk Hn]. by rewrite Hk.
Qed.

Lemma foldl_inv {A B} (P : B -> Prop) (f : B -> A -> B) acc l :
  P acc -> (forall b x, P b -> x ∈ l -> P (f b x)) -> P (foldl f acc l).
Proof.
  revert acc. induction l as [|x l IH]; intros acc H0 Hf; cbn; [done|].
  apply IH; [apply Hf; [done|by left]|]. intros b y Hb Hy. apply Hf; [done|by right].
Qed.

Lemma addCandidate_keys s c k :
  is_Some (addCandidate s c !! k) <-> k = candidateKey c \/ is_Some (s !! k).
Proof.
  unfold addCandidate. cbn zeta. change (candidateKey (withSortedTags c)) with (candidateKey c).
  destruct (s !! candidateKey c) as [e|] eqn:Ee; (destruct (decide (candidateKey c = k)) as [<-|Hne];
    [rewrite lookup_insert_eq; naive_solver|rewrite lookup_insert_ne by done; naive_solver]).
Qed.

(** ** What a list request shows *)

(** The candidates in the response of one request.  Parents depend on how the
    request was made and on what else is known, and are left out. *)
Definition eventCandidates (e : event) : list auditCandidate :=
  match e with
  | Ev (ReqListLoadBalancers _) (Ok (Ok items)) => loadBalancerCandidate <$> items
  | Ev (ReqListListeners _) (Ok (Ok items)) => listenerCandidate "" <$> items
  | Ev (ReqListPools _) (Ok (Ok items)) => poolCandidate "" <$> items
  | Ev (ReqListMembers _ _) (Ok (Ok items)) => memberCandidate "" <$> items
  | Ev (ReqListMonitors _) (Ok (Ok items)) => monitorCandidate "" <$> items
  | Ev (ReqListPolicies _) (Ok (Ok items)) => policyCandidate false <$> items
  | Ev (ReqListRules _ _) (Ok (Ok items)) => ruleCandidate "" <$> items
  | Ev (ReqListFloatingIPs _) (Ok (Ok items)) => floatingIPCandidate ∅ <$> items
  | _ => []
  end.

(** L7 policies and Floating IPs are listed for the whole project and filtered. *)
Definition keepsAll (e : event) : bool :=
  match e with
  | Ev (ReqListPolicies _) _ | Ev (ReqListFloatingIPs _) _ => false
  | _ => true
  end.

(** The same observation, apart from the parents. *)
Definition sameFields (c c0 : auditCandidate) : Prop :=
  c_service c = c_service c0 /\ c_resourceType c = c_resourceType c0 /\ c_id c = c_id c0 /\
  c_projectID c = c_projectID c0 /\ c_tenantID c = c_tenantID c0 /\ c_provider c = c_provider c0 /\
  c_tags c = c_tags c0 /\ c_description c = c_description c0 /\ c_portID c = c_portID c0 /\
  c_redirectPoolID c = c_redirectPoolID c0.

(** [c] was listed: its fields are those of a resource in a response of [tr]. *)
Definition listed (tr : list event) (c : auditCandidate) : Prop :=
  exists e c0, e ∈ tr /\ c0 ∈ eventCandidates e /\ sameFields c (withSortedTags c0).

Definition traced (tr : list event) (s : auditCandidateSet) : Prop :=
  wellKeyed s /\ (forall k c, s !! k = Some c -> listed tr c) /\
  (forall e c0, e ∈ tr -> keepsAll e = true -> c0 ∈ eventCandidates e -> is_Some (s !! candidateKey c0)).

Lemma listed_app tr tr' c : listed tr c -> listed (tr ++ tr') c.
Proof. intros (e & c0 & He & Hc & Hs). exists e, c0. set_solver. Qed.

(** Adding candidates that an event of the trace shows. *)
Definition addsFrom (e : event) (s s' : auditCandidateSet) : Prop :=
  forall tr, e ∈ tr -> wellKeyed s -> (forall k c, s !! k = Some c -> listed tr c) ->
  wellKeyed s' /\ (forall k c, s' !! k = Some c -> listed tr c) /\ (forall k, is_Some (s !! k) -> is_Some (s' !! k)).

Lemma addsFrom_refl e s : addsFrom e s s.
Proof. intros tr He Hs Hl. auto. Qed.
Lemma addsFrom_trans e s1 s2 s3 : addsFrom e s1 s2 -> addsFrom e s2 s3 -> addsFrom e s1 s3.
Proof.
  intros H1 H2 tr He Hs Hl. destruct (H1 tr He Hs Hl) as (Hs2 & Hl2 & Hk2).
  destruct (H2 tr He Hs2 Hl2) as (Hs3 & Hl3 & Hk3). auto.
Qed.

Lemma addsFrom_add e s c c0 :
  knownCandidate c -> c0 ∈ eventCandidates e -> sameFields c c0 -> addsFrom e s (addCandidate s c).
Proof.
  intros Hc Hc0 Hf tr He Hs Hl. split_and!; [by apply addCandidate_wellKeyed| |].
  2: { intros k Hk. apply addCandidate_keys. by right. }
  assert (listed tr (withSortedTags c)) as Hc'.
  { exists e, c0. split_and!; [done..|]. unfold sameFields in *. cbn. destruct_and! Hf. split_and!; congruence. }
  intros k c'. unfold addCandidate. cbn zeta. destruct (s !! candidateKey (withSortedTags c)) as [x|] eqn:Ex;
    (destruct (decide (candidateKey (withSortedTags c) = k)) as [<-|Hne];
     [rewrite lookup_insert_eq|rewrite lookup_insert_ne by done; by apply Hl]); intros [= <-]; [|done].
  destruct (Hl _ _ Ex) as (e' & c1 & He' & Hc1 & Hf'). exists e', c1. by split_and!.
Qed.

Lemma addsFrom_foldl {A} e (f : auditCandidateSet -> A -> auditCandidateSet) s items :
  (forall s x, x ∈ items -> addsFrom e s (f s x)) -> addsFrom e s (foldl f s items).
Proof.
  revert s. induction items as [|x items IH]; intros s Hf; cbn; [apply addsFrom_refl|].
  eapply addsFrom_trans; [apply Hf; by left|]. apply IH. intros s' y Hy. apply Hf. by right.
Qed.

(** Candidates made from every item of a response. *)
Lemma addsFrom_items {A} e (f f0 : A -> auditCandidate) s items :
  eventCandidates e = f0 <$> items -> (forall x, knownCandidate (f x) /\ sameFields (f x) (f0 x)) ->
  addsFrom e s (foldl addCandidate s (f <$> items)).
Proof.
  intros He Hf. apply addsFrom_foldl. intros s' c (x & -> & Hx)%list_elem_of_fmap.
  destruct (Hf x). eapply addsFrom_add; [done| |done]. rewrite He. by apply list_elem_of_fmap_2.
Qed.

Lemma foldl_addCandidate_keys s l c : c ∈ l -> is_Some (foldl addCandidate s l !! candidateKey c).
Proof.
  assert (forall l s k, is_Some (s !! k) -> is_Some (foldl addCandidate s l !! k)) as Hmono.
  { intros l'. induction l' as [|x l' IH]; intros s' k Hk; cbn; [done|]. apply IH, addCandidate_keys. by right. }
  revert s. induction l as [|x l IH]; intros s; [set_solver|]. intros [->|Hc]%elem_of_cons; cbn; [|by apply IH].
  apply Hmono, addCandidate_keys. by left.
Qed.

(** An execution keeps the set traced. *)
Definition keepsTraced (m : auditCandidateSet -> M auditCandidateSet) : Prop :=
  forall s t tr s', traced t s -> exec (m s) tr (Ok s') -> traced (t ++ tr) s'.

Lemma keepsTraced_mfold {A} (f : auditCandidateSet -> A -> M auditCandidateSet) l :
  (forall x, keepsTraced (fun s => f s x)) -> keepsTraced (fun s => mfold f s l).
Proof.
  intros Hf s t tr s' Hs He.
  eapply (exec_mfold_inv f (fun s _ tr => traced (t ++ tr) s)); [by rewrite app_nil_r| |exact He].
  intros b pre t0 x t' b' _ Hb Hx. rewrite app_assoc. eapply (Hf x); [exact Hb|exact Hx].
Qed.

(** One list request whose items become candidates. *)
Lemma keepsTraced_list {A} (g : auditCandidateSet -> list A -> auditCandidateSet) format args (m : M (list A))
    (ev : list A -> event) :
  (forall tr items, exec m tr (Ok items) -> tr = [ev items]) ->
  (forall s items, addsFrom (ev items) s (g s items) /\
     (keepsAll (ev items) = true -> forall c0, c0 ∈ eventCandidates (ev items) -> is_Some (g s items !! candidateKey c0))) ->
  keepsTraced (fun s => let! items := wrap format args m in ret (g s items)).
Proof.
  intros Hev Hg s t tr s' (Hs & Hl & Hk) (tr1 & tr2 & items & -> & H1 & [-> [= ->]]%exec_ret)%exec_mbind_ok.
  apply exec_onError_ok, Hev in H1 as ->. rewrite app_nil_r. destruct (Hg s items) as [Ha Hall].
  destruct (Ha (t ++ [ev items])) as (Hs' & Hl' & Hk'); [set_solver|done|intros; by eapply listed_app, Hl|].
  split_and!; [done..|]. intros e c0 [He| ->%list_elem_of_singleton]%elem_of_app Hke Hc0; [|by apply Hall].
  by apply Hk', (Hk e).
Qed.

Lemma known_type c : c_resourceType c ∈ auditTypes -> c_service c = serviceOf (c_resourceType c) -> knownCandidate c.
Proof. done. Qed.

Ltac known := apply known_type; [unfold auditTypes; cbn; set_solver|reflexivity].
Ltac from_items :=
  intros; split; [eapply addsFrom_items; [reflexivity|]; intros; split; [known|by unfold sameFields]
  |intros _ ? (? & -> & ?)%list_elem_of_fmap;
   match goal with
   | |- is_Some (foldl _ ?s (?f <$> ?l) !! candidateKey (_ ?x)) =>
       change (is_Some (foldl addCandidate s (f <$> l) !! candidateKey (f x)));
       apply foldl_addCandidate_keys; by apply list_elem_of_fmap_2
   end].

Section collected.
Context (p : Scanner).

Lemma listAuditListeners_traced opts parent : keepsTraced (fun s => listAuditListeners s opts parent).
Proof. apply (keepsTraced_list _ _ _ _ (fun items => Ev (ReqListListeners opts) (Ok (Ok items)))); [apply exec_ListListeners|from_items]. Qed.
Lemma listAuditPools_traced opts parent : keepsTraced (fun s => listAuditPools s opts parent).
Proof. apply (keepsTraced_list _ _ _ _ (fun items => Ev (ReqListPools opts) (Ok (Ok items)))); [apply exec_ListPools|from_items]. Qed.
Lemma listAuditMonitors_traced opts parent : keepsTraced (fun s => listAuditMonitors s opts parent).
Proof. apply (keepsTraced_list _ _ _ _ (fun items => Ev (ReqListMonitors opts) (Ok (Ok items)))); [apply exec_ListMonitors|from_items]. Qed.

(** A list for the whole scope, then one beneath each parent. *)
Lemma listThenBeneath_traced (list : auditCandidateSet -> ListOpts -> string -> M auditCandidateSet) opts ids :
  (forall opts parent, keepsTraced (fun s => list s opts parent)) ->
  keepsTraced (fun s => let! s := list s opts "" in mfold (fun s id => list s (listBy id (s_projectID p)) id) s ids).
Proof.
  intros Hl s t tr s' Hs (tr1 & tr2 & s1 & -> & H1 & H2)%exec_mbind_ok. rewrite app_assoc.
  eapply (keepsTraced_mfold (fun s x => list s (listBy x (s_projectID p)) x)); [by intros; apply Hl| |exact H2].
  by eapply (Hl opts "").
Qed.

Lemma collectAuditMembers_traced ids : keepsTraced (fun s => collectAuditMembers p s ids).
Proof.
  apply keepsTraced_mfold. intros x.
  apply (keepsTraced_list _ _ _ _ (fun items => Ev (ReqListMembers x (listBy "" (s_projectID p))) (Ok (Ok items))));
    [apply exec_ListMembers|from_items].
Qed.

Lemma collectAuditRules_traced ids : keepsTraced (fun s => collectAuditRules p s ids).
Proof.
  apply keepsTraced_mfold. intros x.
  apply (keepsTraced_list _ _ _ _ (fun items => Ev (ReqListRules x (listBy "" (s_projectID p))) (Ok (Ok items))));
    [apply exec_ListRules|from_items].
Qed.

Lemma collectAuditPolicies_traced tags ids : keepsTraced (fun s => collectAuditPolicies p s tags ids).
Proof.
  apply (keepsTraced_list _ _ _ _ (fun items => Ev (ReqListPolicies (listBy "" (s_projectID p))) (Ok (Ok items))));
    [apply exec_ListPolicies|]. intros s items. split; [|done]. apply addsFrom_foldl. intros s' x Hx. cbn zeta.
  destruct (_ && _); [apply addsFrom_refl|]. apply (addsFrom_add _ _ _ (policyCandidate false x)); [known| |done].
  by apply list_elem_of_fmap_2.
Qed.

Lemma collectAuditFloatingIPs_traced ids records : keepsTraced (fun s => collectAuditFloatingIPs p s ids records).
Proof.
  intros s t tr s' Hs. unfold collectAuditFloatingIPs. cbn zeta. set (byPort := loadBalancersByPort s ids). clearbody byPort.
  revert s t tr s' Hs.
  apply (keepsTraced_list _ _ _ _ (fun items => Ev (ReqListFloatingIPs (listBy "" (s_projectID p))) (Ok (Ok items))));
    [apply exec_ListFloatingIPs|]. intros s items. split; [|done]. apply addsFrom_foldl. intros s' x Hx. cbn zeta.
  destruct (_ && _); [apply addsFrom_refl|]. apply (addsFrom_add _ _ _ (floatingIPCandidate ∅ x)); [known| |done].
  by apply list_elem_of_fmap_2.
Qed.

Lemma collectCandidates_traced tags records tr s :
  exec (collectCandidates p tags records) tr (Ok s) -> traced tr s.
Proof.
  unfold collectCandidates. intros He.
  apply exec_mbind_ok in He as (t1 & ? & s1 & -> & H1 & He).
  apply exec_mbind_ok in He as (t2 & ? & s2 & -> & H2 & He).
  apply exec_mbind_ok in He as (t3 & ? & s3 & -> & H3 & He).
  apply exec_mbind_ok in He as (t4 & ? & s4 & -> & H4 & He).
  apply exec_mbind_ok in He as (t5 & ? & s5 & -> & H5 & He).
  apply exec_mbind_ok in He as (t6 & ? & s6 & -> & H6 & He).
  apply exec_mbind_ok in He as (t7 & ? & s7 & -> & H7 & He). rewrite !app_assoc.
  eapply collectAuditFloatingIPs_traced; [|exact He]. eapply collectAuditRules_traced; [|exact H7].
  eapply (listThenBeneath_traced listAuditMonitors); [apply listAuditMonitors_traced| |exact H6].
  eapply collectAuditMembers_traced; [|exact H5]. eapply collectAuditPolicies_traced; [|exact H4].
  eapply (listThenBeneath_traced listAuditPools); [apply listAuditPools_traced| |exact H3].
  eapply (listThenBeneath_traced listAuditListeners); [apply listAuditListeners_traced| |exact H2].
  change t1 with ([] ++ t1). revert H1.
  apply (keepsTraced_list (fun s items => foldl addCandidate s (loadBalancerCandidate <$> items)) _ _ _
    (fun items => Ev (ReqListLoadBalancers (mkListOpts "" (s_projectID p) tags)) (Ok (Ok items))));
    [apply exec_ListLoadBalancers|from_items|].
  split_and!; [by apply map_Forall_empty|intros ? ? ?%lookup_empty_Some; done|set_solver].
Qed.
End collected.
