(* ===== verification/ClassificationFacts.v ===== *)
(** * The inventory's findings

    Looking candidates up by type and ID, and the identity of a finding: whatever
    the verdict, a finding carries the service, type, ID and parent of its
    candidate. *)
From stdpp Require Import base list strings gmap sorting.
From Stdlib Require Import ZArith NArith Lia Ascii.
From S2P Require Import Prelude GoStrings Cloud ApiErrors Metadata MetadataFacts OpenStack ProgramLogic KubeClient AuditReport AuditFacts Inventory InventoryFacts Classification.

Set Default Goal Selector "!".

(** ** Looking a candidate up *)

Lemma wellKeyed_unique s c c' :
  wellKeyed s -> c ∈ candidateValues s -> c' ∈ candidateValues s ->
  c_resourceType c = c_resourceType c' -> c_id c = c_id c' -> c = c'.
Proof.
  intros Hs [k Hk]%candidateValues_elem [k' Hk']%candidateValues_elem Ht Hi.
  destruct (Hs _ _ Hk) as [-> [_ Hsv]], (Hs _ _ Hk') as [-> [_ Hsv']].
  assert (candidateKey c = candidateKey c') as He by (unfold candidateKey; congruence).
  rewrite He in Hk. congruence.
Qed.

Lemma find_spec {A} (f : A -> bool) (l : list A) x : List.find f l = Some x -> x ∈ l /\ f x = true.
Proof. intros [Hin Hf]%List.find_some. split; [by apply list_elem_of_In|done]. Qed.

Lemma findCandidate_sound s t i c :
  findCandidate s t i = Some c -> c ∈ candidateValues s /\ c_resourceType c = t /\ c_id c = i.
Proof. intros [Hin Hb]%find_spec. bool_hyps. auto. Qed.

Lemma findCandidate_spec s t i c :
  wellKeyed s ->
  findCandidate s t i = Some c <-> c ∈ candidateValues s /\ c_resourceType c = t /\ c_id c = i.
Proof.
  intros Hs. split; [apply findCandidate_sound|]. intros (Hin & <- & <-).
  destruct (findCandidate s (c_resourceType c) (c_id c)) as [c'|] eqn:E.
  - apply findCandidate_sound in E as (Hin' & Ht & Hi). f_equal. by eapply wellKeyed_unique.
  - apply (List.find_none _ _) with (x := c) in E; [|by apply list_elem_of_In]. by rewrite !String.eqb_refl in E.
Qed.

Lemma auditCandidateExists_find s t i :
  auditCandidateExists s t i = match findCandidate s t i with Some _ => true | None => false end.
Proof.
  unfold auditCandidateExists, findCandidate. induction (candidateValues s) as [|c l IH]; cbn; [done|].
  by destruct (_ && _).
Qed.

(** A finding is about its candidate, whatever the verdict. *)
Definition about (c : auditCandidate) (f : ResourceFinding) : Prop :=
  f_Service f = c_service c /\ f_Type f = c_resourceType c /\ f_ID f = c_id c /\
  f_ParentID f = fst (auditCandidateParent c).

Lemma auditFinding_about c f d r m : about c f -> about c (auditFinding f d r m).
Proof. done. Qed.
Lemma conflict_about c f r m : about c f -> about c (conflict f r m).
Proof. done. Qed.
Lemma unresolved_about c f r m : about c f -> about c (unresolved f r m).
Proof. done. Qed.
Lemma withObjects_about c f o : about c f -> about c (withObjects f o).
Proof. done. Qed.
Lemma withRole_about c f r : about c f -> about c (withRole f r).
Proof. done. Qed.

Create HintDb audit discriminated.
#[export] Hint Resolve auditFinding_about conflict_about unresolved_about withObjects_about withRole_about : audit.

Lemma classifyAuditFloatingIP_about s c f records :
  about c f -> about c (classifyAuditFloatingIP s c f records).
Proof.
  intros Hf. unfold classifyAuditFloatingIP. cbn zeta. repeat case_match; auto with audit.
Qed.

Lemma auditMatchObjects_about c f matches : about c f -> about c (auditMatchObjects matches f).
Proof. intros Hf. destruct matches as [[[|? ?] [|? ?]] [|? ?]]; cbn; auto with audit. Qed.
#[export] Hint Resolve classifyAuditFloatingIP_about auditMatchObjects_about : audit.

Section classified.
Context `{ForeignTexts}.

Lemma auditGraphProblem_about s c parent f problem :
  about c f -> auditGraphProblem s c parent f = Some problem -> about c problem.
Proof.
  intros Hf. unfold auditGraphProblem. cbn zeta.
  destruct (_ && _); [intros [= <-]; auto with audit|].
  destruct (_ && _); [intros [= <-]; auto with audit|].
  destruct (_ && _); [intros [= <-]; auto with audit|].
  destruct (if String.eqb parent "" then _ else _); [|intros [= <-]; auto with audit].
  destruct (negb _); [done|]. destruct (String.eqb (c_redirectPoolID c) ""); [intros [= <-]; auto with audit|].
  destruct (negb _); [intros [= <-]; auto with audit|].
  destruct (validateAuditPolicyPool _ _ _); [done|intros [= <-]; auto with audit].
Qed.

Lemma auditVerdict_about s c parent role rs matches f :
  about c f -> about c (auditVerdict s c parent role rs matches f).
Proof.
  intros Hf. unfold auditVerdict. destruct matches as [[exact discovery] routeGateway].
  destruct exact as [|? [|? ?]]; repeat case_match; auto with audit.
Qed.

Lemma classifyAuditCandidate_about s c records tags project :
  about c (classifyAuditCandidate s c records tags project).
Proof.
  unfold classifyAuditCandidate. destruct (auditCandidateParent c) as [parent reason] eqn:Ep.
  set (f := mkResourceFinding _ _ _ _ _ _ _ _ _ _).
  assert (about c f) as Hf by (unfold about; cbn; by rewrite Ep). clearbody f. cbn zeta.
  do 6 (case_match; [auto with audit|]). case_match; [auto with audit|].
  destruct (auditCandidateRole _ _) as [[role rs]|]; [|auto with audit].
  destruct (validateAuditIdentityTags _ _); [|auto with audit]. case_match; [auto with audit|].
  destruct (auditGraphProblem _ _ _ _) as [problem|] eqn:Eg.
  - eapply auditGraphProblem_about, Eg. auto with audit.
  - apply auditVerdict_about. auto with audit.
Qed.
End classified.
