(* ===== verification/AuditPropagation.v ===== *)
(** * Propagation along the graph, as an equation

    [propagateAuditParentFindings] updates a slice in place, in seven passes.
    Its result is given here by an equation for each item, [settled]: a matched
    item keeps its finding when the parents that are present are settled as
    matched, and is demoted otherwise.  The equation does not mention the order of
    the slice. *)
From stdpp Require Import base list strings gmap.
From Stdlib Require Import ZArith NArith Lia Ascii.
From S2P Require Import Prelude GoStrings Cloud AuditReport AuditFacts Inventory InventoryFacts Classification ClassificationFacts.

Set Default Goal Selector "!".

Definition keyOf (item : classifiedAuditCandidate) : string :=
  resourceKey (f_Type (cl_finding item)) (f_ID (cl_finding item)).
Definition rank (item : classifiedAuditCandidate) : nat := auditResourceOrder (f_Type (cl_finding item)).
Definition matched (f : ResourceFinding) : bool := bool_decide (f_Disposition f = DispositionMatched).

Definition wellClassified (l : list classifiedAuditCandidate) : Prop :=
  NoDup (keyOf <$> l) /\ Forall (fun x => f_Type (cl_finding x) ∈ auditTypes) l.

(** ** Ranks *)

Ltac each_type H := unfold auditTypes in H; rewrite !elem_of_cons, elem_of_nil in H; destruct_or? H.

Lemma rank_bound t : t ∈ auditTypes -> auditResourceOrder t <= 7.
Proof. intros Ht. each_type Ht; subst; cbn; (lia || done). Qed.

Lemma type_without_nul t : t ∈ auditTypes -> str_without "000" t = true.
Proof. intros Ht. each_type Ht; subst; done. Qed.

Lemma parent_rank x t i :
  f_Type (cl_finding x) ∈ auditTypes -> (t, i) ∈ auditParentReferences x -> t <> "" ->
  t ∈ auditTypes /\ auditResourceOrder t < rank x.
Proof.
  intros Hx Hr Ht. unfold auditParentReferences, rank in *. each_type Hx; rewrite Hx in *; cbn in Hr |- *;
    rewrite ?elem_of_cons, ?elem_of_nil in Hr; destruct_or? Hr; simplify_eq; try done;
    (split; [unfold auditTypes; set_solver|cbn; lia]).
Qed.

Lemma resourceKey_inj t t' i i' :
  t ∈ auditTypes -> t' ∈ auditTypes -> resourceKey t i = resourceKey t' i' -> t = t' /\ i = i'.
Proof. intros Ht Ht'. apply sep_inj; by apply type_without_nul. Qed.

(** ** The equation *)

Definition findItem (l : list classifiedAuditCandidate) (key : string) : option classifiedAuditCandidate :=
  List.find (fun y => String.eqb (keyOf y) key) l.

Lemma findItem_spec l key x :
  NoDup (keyOf <$> l) -> findItem l key = Some x <-> x ∈ l /\ keyOf x = key.
Proof.
  intros Hnd. split.
  - intros [Hin Hk]%find_spec. bool_hyps. done.
  - intros [Hin <-]. destruct (findItem l (keyOf x)) as [y|] eqn:E.
    + apply find_spec in E as [Hy Hk]. bool_hyps. f_equal.
      apply list_elem_of_lookup in Hin as [i Hi], Hy as [j Hj]. assert (i = j) as ->; [|congruence].
      eapply NoDup_lookup; [exact Hnd|by rewrite list_lookup_fmap, Hi|by rewrite list_lookup_fmap, Hj; cbn; f_equal].
    + apply (List.find_none _ _) with (x := x) in E; [|by apply list_elem_of_In]. by rewrite String.eqb_refl in E.
Qed.

Lemma findItem_perm l l' key :
  NoDup (keyOf <$> l) -> l ≡ₚ l' -> findItem l key = findItem l' key.
Proof.
  intros Hnd Hp. assert (NoDup (keyOf <$> l')) as Hnd' by by rewrite <- Hp.
  apply option_eq. intros x. rewrite !findItem_spec by done. by rewrite Hp.
Qed.

Fixpoint settle (n : nat) (l : list classifiedAuditCandidate) (x : classifiedAuditCandidate) : ResourceFinding :=
  match n with
  | O => cl_finding x
  | S n =>
      if matched (cl_finding x)
      then applyParents (fun key => settle n l <$> findItem l key) (auditParentReferences x) (cl_finding x)
      else cl_finding x
  end.

(** The order of a resource type is at most 7. *)
Definition settled : list classifiedAuditCandidate -> classifiedAuditCandidate -> ResourceFinding := settle 8.
#[global] Arguments settled : simpl never.

Lemma applyParents_ext g g' parents f :
  (forall t i, (t, i) ∈ parents -> t <> "" -> g (resourceKey t i) = g' (resourceKey t i)) ->
  applyParents g parents f = applyParents g' parents f.
Proof.
  induction parents as [|[t i] rest IH]; intros Hg; cbn [applyParents]; [done|].
  assert (applyParents g rest f = applyParents g' rest f) as -> by (apply IH; intros; apply Hg; [by right|done]).
  destruct (String.eqb_spec t ""); cbn [orb]; [done|]. destruct (String.eqb i ""); [done|].
  rewrite (Hg t i) by (by left || done). done.
Qed.

Lemma applyParents_cases g parents f :
  applyParents g parents f = f \/
  exists r m, applyParents g parents f = conflict f r m \/ applyParents g parents f = unresolved f r m.
Proof.
  induction parents as [|[t i] rest IH]; cbn [applyParents]; [by left|].
  destruct (_ || _); [done|]. destruct (g _) as [parent|]; [|done]. destruct (f_Disposition parent); eauto.
Qed.

Lemma findItem_known l t i y :
  wellClassified l -> t ∈ auditTypes -> findItem l (resourceKey t i) = Some y ->
  y ∈ l /\ f_Type (cl_finding y) = t /\ f_ID (cl_finding y) = i.
Proof.
  intros [Hnd Ht] Hk [Hy He]%findItem_spec; [|done]. rewrite Forall_forall in Ht.
  apply resourceKey_inj in He as [? ?]; auto.
Qed.

Lemma settle_fuel l n m x :
  wellClassified l -> f_Type (cl_finding x) ∈ auditTypes -> rank x < n -> rank x < m -> settle n l x = settle m l x.
Proof.
  intros Hl. revert m x. induction n as [|n IH]; intros m x Hx Hn Hm; [lia|]. destruct m as [|m]; [lia|].
  cbn [settle]. destruct (matched _); [|done]. apply applyParents_ext. intros t i Hr Ht.
  destruct (parent_rank x t i Hx Hr Ht) as [Hk Hlt].
  destruct (findItem l (resourceKey t i)) as [y|] eqn:Ey; [|done]. cbn. f_equal.
  destruct (findItem_known _ _ _ _ Hl Hk Ey) as (Hy & Hyt & _).
  apply IH; unfold rank; rewrite Hyt; (done || lia).
Qed.

Lemma settled_eq l x :
  wellClassified l -> f_Type (cl_finding x) ∈ auditTypes ->
  settled l x =
  if matched (cl_finding x)
  then applyParents (fun key => settled l <$> findItem l key) (auditParentReferences x) (cl_finding x)
  else cl_finding x.
Proof.
  intros Hl Hx. unfold settled. assert (rank x <= 7) by by apply rank_bound.
  rewrite (settle_fuel l 8 9 x) by (done || lia). done.
Qed.

Lemma settle_perm n l l' x :
  NoDup (keyOf <$> l) -> l ≡ₚ l' -> settle n l x = settle n l' x.
Proof.
  intros Hnd Hp. revert x. induction n as [|n IH]; intros x; cbn [settle]; [done|].
  destruct (matched _); [|done]. apply applyParents_ext. intros t i _ _.
  rewrite (findItem_perm l l') by done. destruct (findItem l' _) as [y|]; [|done]. cbn. by rewrite IH.
Qed.

(** An item keeps its finding or is demoted. *)
Lemma settle_cases n l x :
  settle n l x = cl_finding x \/
  matched (cl_finding x) = true /\
  exists r m, settle n l x = conflict (cl_finding x) r m \/ settle n l x = unresolved (cl_finding x) r m.
Proof.
  destruct n as [|n]; cbn [settle]; [by left|]. destruct (matched _); [|by left].
  edestruct applyParents_cases as [He|He]; [left; exact He|right; eauto].
Qed.

Lemma settled_about l x c : about c (cl_finding x) -> about c (settled l x).
Proof. destruct (settle_cases 8 l x) as [He|(_ & r & m & [He|He])]; unfold settled; by rewrite He. Qed.

Lemma settled_type l x : f_Type (settled l x) = f_Type (cl_finding x) /\ f_ID (settled l x) = f_ID (cl_finding x).
Proof. destruct (settle_cases 8 l x) as [He|(_ & r & m & [He|He])]; unfold settled; by rewrite He. Qed.

(** ** The loops compute it *)

Lemma auditByResource_spec l key i :
  NoDup (keyOf <$> l) ->
  auditByResource l !! key = Some i <-> exists y, l !! i = Some y /\ keyOf y = key.
Proof.
  unfold auditByResource. induction l as [|x l IH] using rev_ind; intros Hnd.
  { cbn. rewrite lookup_empty. split; [done|]. by intros (y & ? & _). }
  rewrite fmap_app, NoDup_app in Hnd. destruct Hnd as (Hl & Hd & _).
  rewrite imap_app, foldl_app. cbn [imap foldl fst snd]. rewrite Nat.add_0_r.
  change (resourceKey (f_Type (cl_finding x)) (f_ID (cl_finding x))) with (keyOf x).
  destruct (decide (keyOf x = key)) as [<-|Hne].
  - rewrite lookup_insert_eq. split.
    + intros [= <-]. exists x. split; [|done]. by rewrite lookup_app_r, Nat.sub_diag.
    + intros (y & Hy & Hk). f_equal. destruct (decide (i < length l)) as [Hlt|Hge].
      * rewrite lookup_app_l in Hy by done. exfalso. apply (Hd (keyOf y)); [|set_solver].
        apply list_elem_of_fmap_2. by eapply list_elem_of_lookup_2.
      * apply lookup_lt_Some in Hy. rewrite length_app in Hy. cbn in Hy. lia.
  - rewrite lookup_insert_ne by done. rewrite IH by done. split; intros (y & Hy & Hk); exists y; (split; [|done]).
    + by apply lookup_app_l_Some.
    + apply lookup_app_Some in Hy as [Hy|[Hle Hy]]; [done|].
      destruct (i - length l); cbn in Hy; [|done]. by simplify_eq.
Qed.

Lemma byResource_find l key :
  NoDup (keyOf <$> l) -> auditByResource l !! key ≫= (l !!.) = findItem l key.
Proof.
  intros Hnd. apply option_eq. intros x. rewrite findItem_spec by done.
  split.
  - intros (i & (y & Hy & Hk)%auditByResource_spec & Hx)%bind_Some; [|done]. cbn in Hx.
    assert (x = y) as -> by congruence. split; [by eapply list_elem_of_lookup_2|done].
  - intros [[i Hi]%list_elem_of_lookup Hk]. apply bind_Some. exists i. split; [|done].
    apply auditByResource_spec; eauto.
Qed.

(** The slice when the passes below [k] are over and pass [k] has handled the
    first [j] items. *)
Definition passed (k j i : nat) (x : classifiedAuditCandidate) : bool :=
  (rank x <? k) || ((rank x =? k) && (i <? j)).
Definition midway (l : list classifiedAuditCandidate) (k j : nat) : list classifiedAuditCandidate :=
  imap (fun i x => setFinding x (if passed k j i x then settled l x else cl_finding x)) l.

Lemma midway_lookup l k j i :
  midway l k j !! i = (fun x => setFinding x (if passed k j i x then settled l x else cl_finding x)) <$> l !! i.
Proof. unfold midway. by rewrite list_lookup_imap. Qed.

Lemma setFinding_eta x : setFinding x (cl_finding x) = x.
Proof. by destruct x. Qed.

Lemma midway_rank l k j i x y : l !! i = Some x -> midway l k j !! i = Some y -> rank y = rank x.
Proof.
  rewrite midway_lookup. intros ->. cbn. intros [= <-]. unfold rank. cbn [setFinding cl_finding].
  destruct (passed k j i x); [|done]. by rewrite (proj1 (settled_type l x)).
Qed.

Section passes.
Context (l : list classifiedAuditCandidate) (Hl : wellClassified l).

(** What a child reads of its parents: their settled findings. *)
Lemma midway_parents k j x :
  f_Type (cl_finding x) ∈ auditTypes -> rank x = k ->
  applyParents (fun key => cl_finding <$> (auditByResource l !! key ≫= (midway l k j !!.)))
    (auditParentReferences x) (cl_finding x) =
  applyParents (fun key => settled l <$> findItem l key) (auditParentReferences x) (cl_finding x).
Proof.
  intros Hx Hk. apply applyParents_ext. intros t i Hr Ht. destruct (parent_rank x t i Hx Hr Ht) as [Hkn Hlt].
  rewrite <- byResource_find by apply Hl.
  destruct (auditByResource l !! _) as [idx|] eqn:Ei; [|done]. cbn.
  apply auditByResource_spec in Ei as (y & Hy & Hky); [|apply Hl]. rewrite midway_lookup, Hy. cbn.
  assert (f_Type (cl_finding y) = t) as Hyt.
  { apply (findItem_known l t i y Hl Hkn). apply findItem_spec; [apply Hl|]. split; [by eapply list_elem_of_lookup_2|done]. }
  unfold passed. assert (rank y < k) as Hlt' by (unfold rank in *; rewrite Hyt; lia).
  apply Nat.ltb_lt in Hlt'. by rewrite Hlt'.
Qed.

Lemma midway_step k j : j < length l -> propagateAuditItem (auditByResource l) k (midway l k j) j = midway l k (S j).
Proof.
  intros [x Hx]%lookup_lt_is_Some_2.
  assert (f_Type (cl_finding x) ∈ auditTypes) as Ht.
  { destruct Hl as [_ Hty]. rewrite Forall_forall in Hty. apply Hty. by eapply list_elem_of_lookup_2. }
  assert (forall f, f = (if passed k (S j) j x then settled l x else cl_finding x) ->
    <[j := setFinding x f]> (midway l k j) = midway l k (S j)) as Hset.
  { intros f ->. apply list_eq. intros i. rewrite midway_lookup. destruct (decide (i = j)) as [->|Hne].
    - rewrite list_lookup_insert_eq by (apply lookup_lt_Some in Hx; unfold midway; by rewrite length_imap). by rewrite Hx.
    - rewrite list_lookup_insert_ne by done. rewrite midway_lookup. destruct (l !! i) as [y|]; [|done]. cbn. do 2 f_equal.
      unfold passed. assert ((i <? j) = (i <? S j)) as ->; [|done]. destruct (Nat.ltb_spec i j), (Nat.ltb_spec i (S j)); lia || done. }
  assert (midway l k j !! j = Some (setFinding x (if passed k j j x then settled l x else cl_finding x))) as Hj
    by by rewrite midway_lookup, Hx.
  unfold propagateAuditItem. rewrite Hj. pose proof (midway_rank l k j j x _ Hx Hj) as Hr. unfold rank in Hr at 1. cbn [cl_finding setFinding] in Hr |- *.
  rewrite Hr. destruct (Nat.eqb_spec (rank x) k) as [Hk|Hk]; cbn [negb orb].
  - assert (passed k j j x = false) as Hp.
    { unfold passed. rewrite Hk, Nat.ltb_irrefl, Nat.ltb_irrefl, andb_false_r. done. }
    assert (passed k (S j) j x = true) as Hp'.
    { unfold passed. rewrite Hk, Nat.eqb_refl, (proj2 (Nat.ltb_lt j (S j))) by lia. apply orb_true_r. }
    rewrite Hp in Hj |- *. rewrite Hp' in Hset. pose proof (settled_eq l x Hl Ht) as Hs. unfold matched in Hs.
    case_bool_decide; cbn [negb].
    + rewrite setFinding_eta. apply Hset. by rewrite midway_parents.
    + rewrite <- (Hset _ eq_refl), Hs. symmetry. apply list_insert_id. by rewrite Hj.
  - rewrite <- (Hset _ eq_refl). symmetry. apply list_insert_id. rewrite Hj. do 2 f_equal.
    unfold passed. assert ((rank x =? k) = false) as -> by by apply Nat.eqb_neq. done.
Qed.

Lemma midway_pass k : foldl (propagateAuditItem (auditByResource l) k) (midway l k 0) (seq 0 (length l)) = midway l (S k) 0.
Proof.
  assert (forall n, n <= length l ->
    foldl (propagateAuditItem (auditByResource l) k) (midway l k 0) (seq 0 n) = midway l k n) as Hn.
  { induction n as [|n IH]; intros Hn; [done|]. rewrite seq_S, foldl_app, IH by lia. cbn. apply midway_step. lia. }
  rewrite Hn by done. apply list_eq. intros i. rewrite !midway_lookup. destruct (l !! i) as [x|] eqn:Hx; [|done].
  cbn. do 2 f_equal. unfold passed. apply lookup_lt_Some in Hx. apply Nat.ltb_lt in Hx. rewrite Hx.
  rewrite (proj2 (Nat.ltb_ge i 0)) by lia. rewrite andb_true_r, andb_false_r, orb_false_r.
  destruct (Nat.ltb_spec (rank x) k), (Nat.eqb_spec (rank x) k), (Nat.ltb_spec (rank x) (S k)); lia || done.
Qed.

(** The seven passes of the code settle every item. *)
Lemma propagate_settled :
  propagateAuditParentFindings l = (fun x => setFinding x (settled l x)) <$> l.
Proof.
  unfold propagateAuditParentFindings. change (auditResourceOrder auditTypeFloatingIP) with 7.
  assert (forall n k, foldl (fun classified order =>
    foldl (propagateAuditItem (auditByResource l) order) classified (seq 0 (length classified)))
    (midway l k 0) (seq k n) = midway l (k + n) 0) as Hn.
  { induction n as [|n IH]; intros k; cbn [seq foldl]; [by rewrite Nat.add_0_r|].
    unfold midway at 2. rewrite length_imap, midway_pass, IH. f_equal. lia. }
  assert (l = midway l 1 0) as Hstart.
  { apply list_eq. intros i. rewrite midway_lookup. destruct (l !! i) as [x|] eqn:Hx; [|done]. cbn. f_equal.
    unfold passed. rewrite (proj2 (Nat.ltb_ge i 0)) by lia. rewrite andb_false_r, orb_false_r. destruct (Nat.ltb_spec (rank x) 1); [|by rewrite setFinding_eta].
    assert (f_Type (cl_finding x) ∈ auditTypes) as Ht.
    { destruct Hl as [_ Hty]. rewrite Forall_forall in Hty. apply Hty. by eapply list_elem_of_lookup_2. }
    rewrite settled_eq by done. destruct (matched _); [|by rewrite setFinding_eta].
    assert (auditParentReferences x = [("", f_ParentID (cl_finding x))]) as ->.
    { unfold rank in *. unfold auditParentReferences. each_type Ht; rewrite Ht in *; cbn in *; done || lia. }
    cbn. by rewrite setFinding_eta. }
  specialize (Hn 7 1). rewrite <- Hstart in Hn. etrans; [exact Hn|]. apply list_eq. intros i. rewrite midway_lookup, list_lookup_fmap.
  destruct (l !! i) as [x|] eqn:Hx; [|done]. cbn. do 2 f_equal. unfold passed.
  destruct Hl as [_ Hty]. rewrite Forall_forall in Hty.
  assert (rank x <= 7) as Hb by (apply rank_bound, Hty; by eapply list_elem_of_lookup_2).
  destruct (Nat.ltb_spec (rank x) 8); [done|lia].
Qed.
End passes.
