(* ===== verification/AuditVerdicts.v ===== *)
(** * What the findings of an inventory prove

    The findings do not depend on the order in which the candidates are met, and
    each disposition is evidence: a matched resource has one current owner and an
    intact chain of matched parents, an orphan candidate has no current owner at
    all, a resource with a stale UID has none that owns it exactly. *)
From stdpp Require Import base list strings gmap sorting.
From Stdlib Require Import ZArith NArith Lia Ascii.
From S2P Require Import Prelude GoStrings Cloud ApiErrors Metadata MetadataFacts OpenStack ProgramLogic KubeClient AuditReport AuditFacts Inventory InventoryFacts Classification ClassificationFacts AuditPropagation.

Set Default Goal Selector "!".

(** ** Records that match, up to the version of the controller *)

Definition uniqueRecords (records : list preparedAuditRecord) : list preparedAuditRecord :=
  foldl appendUniqueAuditRecord [] records.
Definition sameOwner (r r' : preparedAuditRecord) : bool :=
  sameAuditOwnershipIdentity (rec_Identity (pr_record r)) (rec_Identity (pr_record r')).

Lemma sameOwner_refl r : sameOwner r r = true.
Proof. unfold sameOwner, sameAuditOwnershipIdentity. by apply bool_decide_eq_true. Qed.
Lemma sameOwner_sym r r' : sameOwner r r' = true -> sameOwner r' r = true.
Proof. unfold sameOwner, sameAuditOwnershipIdentity. rewrite !bool_decide_eq_true. done. Qed.
Lemma sameOwner_trans r r' r'' : sameOwner r r' = true -> sameOwner r' r'' = true -> sameOwner r r'' = true.
Proof. unfold sameOwner, sameAuditOwnershipIdentity. rewrite !bool_decide_eq_true. congruence. Qed.

(** An element of the result stands for a record: same identity, more objects. *)
Definition standsFor (r x : preparedAuditRecord) : Prop :=
  rec_Identity (pr_record r) = rec_Identity (pr_record x) /\ pr_identity r = pr_identity x /\ pr_isRoute r = pr_isRoute x.

Lemma appendUnique_sound records x r :
  r ∈ appendUniqueAuditRecord records x -> standsFor r x \/ exists r', r' ∈ records /\ standsFor r r'.
Proof.
  induction records as [|r0 rest IH]; cbn.
  - intros ->%list_elem_of_singleton. by left.
  - destruct (sameAuditOwnershipIdentity _ _).
    + intros [->|Hr]%elem_of_cons; right; [exists r0|exists r]; (split; [set_solver|done]).
    + intros [->|Hr]%elem_of_cons; [right; exists r0; split; [set_solver|done]|].
      destruct (IH Hr) as [|(r' & ? & ?)]; [by left|right; exists r'; split; [set_solver|done]].
Qed.

Lemma appendUnique_complete records x y :
  y = x \/ (exists r, r ∈ records /\ sameOwner r y = true) ->
  exists r, r ∈ appendUniqueAuditRecord records x /\ sameOwner r y = true.
Proof.
  induction records as [|r0 rest IH]; cbn; intros Hy.
  - destruct Hy as [->|(r & Hr & _)]; [|set_solver]. exists x. split; [set_solver|apply sameOwner_refl].
  - destruct (sameAuditOwnershipIdentity _ _) eqn:E.
    + destruct Hy as [->|(r & [->|Hr]%elem_of_cons & Hs)].
      * eexists. split; [by left|]. exact E.
      * eexists. split; [by left|]. exact Hs.
      * exists r. split; [by right|done].
    + destruct Hy as [->|(r & [->|Hr]%elem_of_cons & Hs)].
      * destruct IH as (r & ? & ?); [by left|]. exists r. split; [by right|done].
      * exists r0. split; [by left|done].
      * destruct IH as (r' & ? & ?); [right; eauto|]. exists r'. split; [by right|done].
Qed.

Lemma uniqueRecords_sound l r : r ∈ uniqueRecords l -> exists x, x ∈ l /\ standsFor r x.
Proof.
  unfold uniqueRecords. revert r. induction l as [|x l IH] using rev_ind; intros r; [cbn; set_solver|].
  rewrite foldl_snoc. intros [Hs|(r' & Hr' & Hs)]%appendUnique_sound.
  - exists x. set_solver.
  - destruct (IH _ Hr') as (y & Hy & (? & ? & ?)). destruct Hs as (? & ? & ?). exists y. split; [set_solver|].
    unfold standsFor. split_and!; congruence.
Qed.

Lemma uniqueRecords_complete l x : x ∈ l -> exists r, r ∈ uniqueRecords l /\ sameOwner r x = true.
Proof.
  unfold uniqueRecords. revert x. induction l as [|y l IH] using rev_ind; intros x; [set_solver|].
  rewrite foldl_snoc. intros [Hx| ->%list_elem_of_singleton]%elem_of_app; apply appendUnique_complete; auto.
Qed.

(** No two elements of the result have the same owner. *)
Fixpoint distinctOwners (l : list preparedAuditRecord) : Prop :=
  match l with
  | [] => True
  | x :: l' => Forall (fun y => sameOwner x y = false) l' /\ distinctOwners l'
  end.

Lemma appendUnique_distinct l x : distinctOwners l -> distinctOwners (appendUniqueAuditRecord l x).
Proof.
  induction l as [|r0 rest IH]; cbn [appendUniqueAuditRecord distinctOwners]; [by intros _; split; [constructor|]|].
  intros [Hr0 Hd]. destruct (sameAuditOwnershipIdentity _ _) eqn:E; [by split|]. split; [|by apply IH].
  apply Forall_forall. intros r [Hs|(r' & Hr' & Hs)]%appendUnique_sound; destruct Hs as [Hs _]; unfold sameOwner; rewrite Hs; [exact E|].
  rewrite Forall_forall in Hr0. by apply (Hr0 r').
Qed.

Lemma uniqueRecords_distinct l : distinctOwners (uniqueRecords l).
Proof.
  unfold uniqueRecords. induction l as [|x l IH] using rev_ind; [done|]. rewrite foldl_snoc. by apply appendUnique_distinct.
Qed.

Lemma uniqueRecords_nil l : uniqueRecords l = [] -> l = [].
Proof.
  intros He. destruct l as [|x l]; [done|]. destruct (uniqueRecords_complete (x :: l) x) as (r & Hr & _); [by left|].
  rewrite He in Hr. set_solver.
Qed.

Lemma uniqueRecords_single l r :
  uniqueRecords l = [r] -> (exists x, x ∈ l /\ standsFor r x) /\ forall y, y ∈ l -> sameOwner r y = true.
Proof.
  intros He. split; [apply uniqueRecords_sound; rewrite He; set_solver|].
  intros y Hy. destruct (uniqueRecords_complete l y Hy) as (r' & Hr' & Hs). rewrite He in Hr'. set_solver.
Qed.

(** The three lists of [matchingAuditRecords]. *)
Definition matchesExactly (tags : list string) (role : string) (routeScoped : bool) (r : preparedAuditRecord) : bool :=
  Bool.eqb (pr_isRoute r) routeScoped &&
  (if routeScoped then MatchesRoute (pr_identity r) tags role else MatchesGateway (pr_identity r) tags role).
Definition matchesNames (tags : list string) (role : string) (routeScoped : bool) (r : preparedAuditRecord) : bool :=
  Bool.eqb (pr_isRoute r) routeScoped &&
  (if routeScoped then MatchesRouteDiscovery (pr_identity r) tags role
   else MatchesGatewayDiscovery (pr_identity r) tags role).
Definition matchesThroughRoute (tags : list string) (role : string) (routeScoped : bool) (r : preparedAuditRecord) : bool :=
  pr_isRoute r && negb routeScoped && MatchesGateway (pr_identity r) tags role.

Lemma matchingAuditRecords_eq records tags role rs :
  matchingAuditRecords records tags role rs =
  (uniqueRecords (List.filter (matchesExactly tags role rs) records),
   uniqueRecords (List.filter (fun r => matchesNames tags role rs r && negb (matchesExactly tags role rs r)) records),
   uniqueRecords (List.filter (matchesThroughRoute tags role rs) records)).
Proof.
  unfold matchingAuditRecords, uniqueRecords. induction records as [|x l IH] using rev_ind; [done|].
  rewrite foldl_snoc, IH, !List.filter_app, !foldl_app. cbn [List.filter].
  unfold matchAuditRecord, matchesExactly, matchesNames, matchesThroughRoute.
  destruct rs, (pr_isRoute x); cbn [Bool.eqb andb negb]; try done.
  - destruct (MatchesRoute _ _ _); cbn [negb andb]; [by rewrite andb_false_r|]. rewrite andb_true_r.
    by destruct (MatchesRouteDiscovery _ _ _).
  - by destruct (MatchesGateway _ _ _).
  - destruct (MatchesGateway _ _ _); cbn [negb andb]; [by rewrite andb_false_r|]. rewrite andb_true_r.
    by destruct (MatchesGatewayDiscovery _ _ _).
Qed.

Lemma filter_nil_inv {A} (f : A -> bool) (l : list A) x : List.filter f l = [] -> x ∈ l -> f x = false.
Proof.
  intros He Hx. destruct (f x) eqn:Ef; [|done].
  assert (In x (List.filter f l)) as Hin by (apply List.filter_In; split; [by apply list_elem_of_In|done]).
  by rewrite He in Hin.
Qed.

Lemma filter_elem {A} (f : A -> bool) (l : list A) x : x ∈ List.filter f l <-> x ∈ l /\ f x = true.
Proof. rewrite !list_elem_of_In. apply List.filter_In. Qed.

(** ** One candidate *)

(** The dispositions that say something about ownership. *)
Definition decided (d : Disposition) : bool :=
  match d with DispositionMatched | DispositionOrphanCandidate | DispositionStaleUID => true | _ => false end.

(** *** The role of a candidate *)

Lemma tagValues_cons t tags key :
  tagValues (t :: tags) key =
  match parseIdentityTag t with
  | Some (k, v) => if String.eqb k key then v :: tagValues tags key else tagValues tags key
  | None => tagValues tags key
  end.
Proof. unfold tagValues. cbn. destruct (parseIdentityTag t) as [[k v]|]; [|done]. by destruct (String.eqb k key). Qed.

Lemma singleAuditTagValue_eq tags key :
  singleAuditTagValue tags key = (default "" (last (tagValues tags key)), Nat.eqb (length (tagValues tags key)) 1).
Proof.
  unfold singleAuditTagValue.
  assert (forall a n, foldl (fun acc value =>
    match parseIdentityTag value with
    | Some (k, v) => if String.eqb k key then (v, S (snd acc)) else acc
    | None => acc
    end) (a, n) tags = (default a (last (tagValues tags key)), n + length (tagValues tags key))) as Hf.
  { induction tags as [|t tags IH]; intros a n; [cbn; by rewrite Nat.add_0_r|]. rewrite tagValues_cons. cbn [foldl].
    destruct (parseIdentityTag t) as [[k v]|]; [|apply IH]. destruct (String.eqb k key); [|apply IH].
    cbn [snd]. rewrite IH. generalize (tagValues tags key). intros l. rewrite last_cons. f_equal; [by destruct (last l)|cbn; lia]. }
  by rewrite Hf.
Qed.

Lemma singleAuditTagValue_one tags key v : tagValues tags key = [v] -> singleAuditTagValue tags key = (v, true).
Proof. intros Hv. by rewrite singleAuditTagValue_eq, Hv. Qed.

Lemma DecodeString_encode v : DecodeString (encode v) = Some (bytes_of v).
Proof. apply DecodeString_base64_bytes, bytes_of_bound. Qed.

(** The roles that the resources of a type have, and whether they belong to a
    route. *)
Definition typeRoles (t : string) : list string :=
  if String.eqb t auditTypeLoadBalancer then [RoleLoadBalancer]
  else if String.eqb t auditTypeListener then [RoleListener]
  else if String.eqb t auditTypePool then [RolePool]
  else if String.eqb t auditTypeMember then [RoleMember]
  else if String.eqb t auditTypeMonitor then [RoleMonitor]
  else if String.eqb t auditTypeL7Policy then [RolePolicyExact; RolePolicyPrefix]
  else if String.eqb t auditTypeL7Rule then [RoleRulePath; RoleRuleHost]
  else [].
Definition routeScopedType (t : string) : bool :=
  existsb (String.eqb t) [auditTypePool; auditTypeMember; auditTypeMonitor; auditTypeL7Policy; auditTypeL7Rule].

Lemma auditCandidateRole_ok t tags role :
  t ∈ auditTypes -> role ∈ typeRoles t -> tagValues tags "role" = [tagValue "role" role] ->
  auditCandidateRole t tags = Ok (role, routeScopedType t).
Proof.
  intros Ht Hr Hv. unfold auditCandidateRole. rewrite (singleAuditTagValue_one _ _ _ Hv). cbn [negb].
  assert (tagValue "role" role = encode role) as ->.
  { clear Hv. each_type Ht; subst t; cbn in Hr; rewrite ?elem_of_cons, elem_of_nil in Hr; destruct_or? Hr; subst; done. }
  rewrite DecodeString_encode, string_of_bytes_of. clear Hv.
  each_type Ht; subst t; cbn in Hr; rewrite ?elem_of_cons, elem_of_nil in Hr; destruct_or? Hr; subst; done.
Qed.

Lemma auditCandidateRole_inv t tags role rs :
  auditCandidateRole t tags = Ok (role, rs) -> role ∈ typeRoles t /\ rs = routeScopedType t.
Proof.
  unfold auditCandidateRole. destruct (singleAuditTagValue tags "role") as [v [|]]; cbn [negb]; [|done].
  destruct (DecodeString v) as [bytes|]; [|done]. cbv zeta. unfold typeRoles, routeScopedType. cbn [existsb].
  set (r := string_of_bytes bytes). clearbody r.
  repeat match goal with |- context [String.eqb t ?x] => destruct (String.eqb_spec t x) as [->|]; cbn [orb] end; try done.
  all: repeat match goal with |- context [String.eqb ?y ?x] => is_var y; destruct (String.eqb_spec y x) as [->|] end; cbn.
  all: by try (intros [= <- <-]; set_solver).
Qed.

(** *** Owners *)

(** Some role of the candidate's type makes the record match its tags. *)
Definition underSomeRole (c : auditCandidate) (matches : list string -> string -> bool -> preparedAuditRecord -> bool)
    (r : preparedAuditRecord) : bool :=
  existsb (fun role => matches (c_tags c) role (routeScopedType (c_resourceType c)) r) (typeRoles (c_resourceType c)).

(** The record owns the candidate exactly: every identity field, UIDs included.
    A Floating IP carries a digest of its Gateway's identity instead of tags. *)
Definition ownsExactly (c : auditCandidate) (r : preparedAuditRecord) : bool :=
  if String.eqb (c_resourceType c) auditTypeFloatingIP
  then MatchesGatewayDescription (pr_identity r) (c_description c) RoleFloatingIP && Bool.eqb (pr_isRoute r) false
  else underSomeRole c matchesExactly r.

(** The record has the names, and perhaps not the UIDs, of the candidate. *)
Definition ownsByName (c : auditCandidate) : preparedAuditRecord -> bool := underSomeRole c matchesNames.

(** The record is a route's, and the candidate belongs to that route's Gateway. *)
Definition ownsThroughRoute (c : auditCandidate) : preparedAuditRecord -> bool := underSomeRole c matchesThroughRoute.

Lemma hasTags_role tags role (l : list string) :
  tag "role" role ∈ l -> Forall (hasTag tags) l -> tagValues tags "role" = [tagValue "role" role].
Proof. rewrite Forall_forall. intros Hin Hl. by apply (hasTag_tag tags "role" role eq_refl), Hl. Qed.

(** Tags that match under a role carry that role. *)
Definition carriesRole (matches : list string -> string -> bool -> preparedAuditRecord -> bool) : Prop :=
  forall tags role rs r, matches tags role rs r = true -> tagValues tags "role" = [tagValue "role" role].

Lemma role_base id role : tag "role" role ∈ baseTags id role.
Proof. unfold baseTags. set_solver. Qed.
Lemma role_discovery id role : tag "role" role ∈ discoveryTags id role.
Proof. unfold discoveryTags. set_solver. Qed.
Lemma MatchesGateway_role id tags role :
  MatchesGateway id tags role = true -> tagValues tags "role" = [tagValue "role" role].
Proof.
  intros [_ Hm]%MatchesGateway_spec. eapply hasTags_role; [|exact Hm]. apply elem_of_app. left. apply role_base.
Qed.
Lemma MatchesGatewayDiscovery_role id tags role :
  MatchesGatewayDiscovery id tags role = true -> tagValues tags "role" = [tagValue "role" role].
Proof.
  unfold MatchesGatewayDiscovery. rewrite GatewayDiscoveryTags_eq. destruct (blank role); [done|].
  rewrite containsAll_spec. intros Hm. eapply hasTags_role; [apply role_discovery|exact Hm].
Qed.
Lemma MatchesRouteDiscovery_role id tags role :
  MatchesRouteDiscovery id tags role = true -> tagValues tags "role" = [tagValue "role" role].
Proof.
  unfold MatchesRouteDiscovery, RouteDiscoveryTags. rewrite GatewayDiscoveryTags_eq.
  destruct (ValidateRouteIdentity id) as [[]|]; [|done]. destruct (blank role); [done|]. cbn [rbind].
  destruct (validateTagLengths _) as [tags'|] eqn:Ev; [|done]. apply validateTagLengths_inv in Ev as ->.
  rewrite containsAll_spec. intros Hm. eapply hasTags_role; [|exact Hm]. apply elem_of_app. left. apply role_discovery.
Qed.

Lemma matchesExactly_role : carriesRole matchesExactly.
Proof.
  intros tags role [] r [_ Hm]%andb_true_iff; [|by eapply MatchesGateway_role].
  by apply matches_hierarchy, MatchesGateway_role in Hm.
Qed.
Lemma matchesNames_role : carriesRole matchesNames.
Proof.
  intros tags role [] r [_ Hm]%andb_true_iff; [by eapply MatchesRouteDiscovery_role|by eapply MatchesGatewayDiscovery_role].
Qed.
Lemma matchesThroughRoute_role : carriesRole matchesThroughRoute.
Proof. intros tags role rs r [_ Hm]%andb_true_iff. by eapply MatchesGateway_role. Qed.

(** The audit reads the one role from the tags; no other role of the type can
    match. *)
Lemma underSomeRole_read c matches r :
  carriesRole matches -> c_resourceType c ∈ auditTypes ->
  underSomeRole c matches r =
  match auditCandidateRole (c_resourceType c) (c_tags c) with
  | Ok (role, rs) => matches (c_tags c) role rs r
  | Err _ => false
  end.
Proof.
  intros Hm Ht. apply Bool.eq_iff_eq_true. unfold underSomeRole. rewrite existsb_exists. setoid_rewrite <- list_elem_of_In. split.
  - intros (role & Hr & Hx). by rewrite (auditCandidateRole_ok _ _ role Ht Hr (Hm _ _ _ _ Hx)).
  - destruct (auditCandidateRole _ _) as [[role rs]|] eqn:E; [|done]. intros Hx.
    apply auditCandidateRole_inv in E as [Hr ->]. by exists role.
Qed.

Lemma ownsExactly_read c r :
  c_resourceType c ∈ auditTypes -> c_resourceType c <> auditTypeFloatingIP ->
  ownsExactly c r = match auditCandidateRole (c_resourceType c) (c_tags c) with
                    | Ok (role, rs) => matchesExactly (c_tags c) role rs r
                    | Err _ => false
                    end.
Proof.
  intros Ht Hf%String.eqb_neq. unfold ownsExactly. rewrite Hf. apply underSomeRole_read; [apply matchesExactly_role|done].
Qed.

Section verdicts.
Context `{ForeignTexts} (s : auditCandidateSet) (records : list preparedAuditRecord) (scopeTags : list string)
  (project : string).

Definition blankFinding (c : auditCandidate) : ResourceFinding :=
  mkResourceFinding (c_service c) (c_resourceType c) (c_id c) (fst (auditCandidateParent c)) ""
    (c_provisioningStatus c) (DispositionOther "") "" "" [].

Lemma classify_decided c :
  decided (f_Disposition (classifyAuditCandidate s c records scopeTags project)) = true ->
  blank (c_id c) = false /\ c_observationChanged c = false /\ candidateProject c = project /\
  ((c_resourceType c = auditTypeFloatingIP /\
    classifyAuditCandidate s c records scopeTags project =
      classifyAuditFloatingIP s c (withRole (blankFinding c) RoleFloatingIP) records) \/
   (c_resourceType c <> auditTypeFloatingIP /\ HasAllTags (c_tags c) scopeTags = true /\
    exists role rs f, auditCandidateRole (c_resourceType c) (c_tags c) = Ok (role, rs) /\
      validateAuditIdentityTags (c_tags c) rs = Ok tt /\
      HasAllTags (c_tags c) [tag "project" project] = true /\
      auditGraphProblem s c (fst (auditCandidateParent c)) f = None /\
      classifyAuditCandidate s c records scopeTags project =
        auditVerdict s c (fst (auditCandidateParent c)) role rs (matchingAuditRecords records (c_tags c) role rs) f)).
Proof.
  unfold classifyAuditCandidate, blankFinding. destruct (auditCandidateParent c) as [parent reason]. cbn [fst]. cbn zeta.
  destruct (blank (c_id c)); [done|]. destruct (c_observationChanged c); [done|].
  destruct (String.eqb (candidateProject c) ""); [done|].
  destruct (String.eqb_spec (candidateProject c) project) as [Hp|]; [|done]. cbn [negb].
  destruct (negb _); [done|]. destruct (String.eqb_spec (c_resourceType c) auditTypeFloatingIP) as [Ht|Ht].
  { intros _. split_and!; auto. }
  destruct (HasAllTags (c_tags c) scopeTags); [|done]. cbn [negb].
  destruct (auditCandidateRole _ _) as [[role rs]|]; [|done].
  destruct (validateAuditIdentityTags _ _) as [[]|] eqn:Ev; [|done].
  destruct (HasAllTags (c_tags c) [tag "project" project]) eqn:Et; [|done]. cbn [negb].
  destruct (auditGraphProblem _ _ _ _) as [problem|] eqn:Eg.
  - intros Hd. exfalso. revert Eg. unfold auditGraphProblem. cbn zeta.
    repeat (case_match; [by intros [= <-]|]).
    repeat (case_match; try (intros [= <-]; done)); done.
  - intros _. split_and!; auto. right. split_and!; auto. eauto 10.
Qed.

(** What a matched verdict rests on. *)
Lemma graphProblem_none c parent f :
  auditGraphProblem s c parent f = None ->
  (c_resourceType c = auditTypeLoadBalancer -> c_provider c = "amphora") /\
  (c_resourceType c = auditTypeL7Policy ->
   c_redirectPoolID c <> "" /\ exists pool, findCandidate s auditTypePool (c_redirectPoolID c) = Some pool).
Proof.
  unfold auditGraphProblem. cbn zeta. intros Hg. split.
  - intros Ht. rewrite Ht in Hg. cbn in Hg. destruct (String.eqb_spec (c_provider c) ""); [done|].
    destruct (String.eqb_spec (c_provider c) "amphora"); done.
  - intros Ht. rewrite Ht in Hg. change (String.eqb auditTypeL7Policy auditTypeLoadBalancer) with false in Hg.
    change (String.eqb auditTypeL7Policy auditTypeL7Policy) with true in Hg.
    change (auditResourceRequiresParentObservation auditTypeL7Policy) with false in Hg.
    rewrite andb_false_r in Hg. cbn [andb negb] in Hg.
    destruct (if String.eqb parent "" then _ else _); [|done].
    destruct (String.eqb_spec (c_redirectPoolID c) ""); [done|]. split; [done|].
    rewrite auditCandidateExists_find in Hg. destruct (findCandidate s auditTypePool (c_redirectPoolID c)); [eauto|done].
Qed.

Lemma auditTagValuesEqual_app l r keys keys' :
  auditTagValuesEqual l r (keys ++ keys') = true -> auditTagValuesEqual l r keys = true.
Proof. unfold auditTagValuesEqual. rewrite forallb_app. by intros [? _]%andb_true_iff. Qed.

(** The parent is present and of the same Gateway. *)
Lemma graphProblem_parent c parent f p :
  auditGraphProblem s c parent f = None -> parent <> "" -> auditParentCandidate s (c_resourceType c) parent = Some p ->
  auditTagValuesEqual (c_tags c) (c_tags p) gatewayIdentityKeys = true.
Proof.
  unfold auditGraphProblem. cbn zeta. intros Hg Hne Hp. apply String.eqb_neq in Hne. rewrite Hne in Hg.
  do 3 (destruct (_ && _) in Hg; [done|]).
  destruct (validateAuditParentIdentity s c parent) as [[]|] eqn:Ev; [|done]. unfold validateAuditParentIdentity in Ev.
  rewrite Hp in Ev. cbn zeta in Ev. destruct (auditTagValuesEqual _ _ (_ ++ _)) eqn:E; [|done].
  by eapply auditTagValuesEqual_app.
Qed.

Lemma verdict_matched c parent role rs matches f :
  f_Disposition (auditVerdict s c parent role rs matches f) = DispositionMatched ->
  (exists r, fst (fst matches) = [r]) /\
  (auditResourceNeedsParent (c_resourceType c) = true ->
   parent <> "" /\ exists p, auditParentCandidate s (c_resourceType c) parent = Some p).
Proof.
  unfold auditVerdict, auditParentExists. destruct matches as [[[|r [|? ?]] discovery] routeGateway]; cbn [fst]; try done.
  - repeat case_match; done.
  - cbn zeta. destruct (auditResourceNeedsParent _); cbn [andb].
    + destruct (String.eqb_spec parent ""); cbn [orb]; [done|].
      destruct (auditParentCandidate _ _ _); cbn [negb]; [|done]. split; eauto.
    + split; [eauto|done].
Qed.

Lemma verdict_unowned c parent role rs matches f d :
  f_Disposition (auditVerdict s c parent role rs matches f) = d ->
  (d = DispositionOrphanCandidate ->
   fst (fst matches) = [] /\ snd (fst matches) = [] /\ (rs = false -> snd matches = [])) /\
  (d = DispositionStaleUID ->
   fst (fst matches) = [] /\ (exists r, snd (fst matches) = [r] /\ onlyAuditUIDsDiffer (c_tags c) r role rs = true)).
Proof.
  intros <-. unfold auditVerdict. destruct matches as [[[|r [|? ?]] discovery] routeGateway]; cbn [fst snd].
  - destruct rs, routeGateway; cbn [negb andb]; try done;
      (destruct discovery as [|r0 [|? ?]]; cbn; [split; done| |split; done]);
      (destruct (onlyAuditUIDsDiffer _ _ _ _) eqn:Ed; cbn; split; try done; intros _; split; eauto).
  - cbn zeta. case_match; done.
  - done.
Qed.

(** A matched Floating IP. *)
Lemma floatingIP_matched c f :
  f_Disposition (classifyAuditFloatingIP s c f records) = DispositionMatched ->
  fst (auditCandidateParent c) <> "" /\
  exists r lb, uniqueRecords (List.filter (fun r =>
      MatchesGatewayDescription (pr_identity r) (c_description c) RoleFloatingIP && Bool.eqb (pr_isRoute r) false) records) = [r] /\
    findCandidate s auditTypeLoadBalancer (fst (auditCandidateParent c)) = Some lb /\
    MatchesGateway (pr_identity r) (c_tags lb) RoleLoadBalancer = true.
Proof.
  unfold classifyAuditFloatingIP, exactGatewayRecords. cbn zeta.
  change (foldl appendUniqueAuditRecord []) with uniqueRecords. destruct (negb _); [done|].
  destruct (uniqueRecords _) as [|r [|? ?]]; [|..|done].
  { destruct (uniqueRecords _); [by case_match|]. by case_match. }
  destruct (String.eqb_spec (fst (auditCandidateParent c)) ""); [done|]. destruct (negb _); [done|].
  destruct (parentMatchesGateway _ _ _) eqn:Ep; [|done]. intros _. split; [done|].
  unfold parentMatchesGateway, auditParentCandidate in Ep. change (auditParentType auditTypeFloatingIP) with auditTypeLoadBalancer in Ep.
  destruct (findCandidate _ _ _) as [lb|]; [|done]. eauto.
Qed.

Lemma floatingIP_undecided c f d :
  f_Disposition (classifyAuditFloatingIP s c f records) = d -> decided d = true -> d = DispositionMatched.
Proof.
  intros <-. unfold classifyAuditFloatingIP. cbn zeta. repeat (case_match; try done).
Qed.

Lemma needsParent_known t :
  t ∈ auditTypes -> t <> auditTypeLoadBalancer -> t <> auditTypeFloatingIP -> auditResourceNeedsParent t = true.
Proof. intros Ht H1 H2. each_type Ht; subst; done. Qed.

(** One owner, and only one up to the version of the controller. *)
Definition soleOwner (c : auditCandidate) (r : preparedAuditRecord) : Prop :=
  r ∈ records /\ ownsExactly c r = true /\ forall r', r' ∈ records -> ownsExactly c r' = true -> sameOwner r r' = true.

Lemma uniqueRecords_owner (P : preparedAuditRecord -> bool) r :
  uniqueRecords (List.filter P records) = [r] ->
  exists x, x ∈ records /\ P x = true /\ standsFor r x /\ forall y, y ∈ records -> P y = true -> sameOwner x y = true.
Proof.
  intros ((x & Hx & Hs) & Hall)%uniqueRecords_single. apply filter_elem in Hx as [Hx HP].
  exists x. split_and!; [done..|]. intros y Hy HPy. eapply sameOwner_trans; [apply sameOwner_sym, Hall; by apply filter_elem|].
  apply Hall. by apply filter_elem.
Qed.

Lemma classify_matched c :
  c_resourceType c ∈ auditTypes ->
  f_Disposition (classifyAuditCandidate s c records scopeTags project) = DispositionMatched ->
  candidateProject c = project /\ c_observationChanged c = false /\ (exists r, soleOwner c r) /\
  (c_resourceType c <> auditTypeLoadBalancer -> fst (auditCandidateParent c) <> "" /\
   exists p, findCandidate s (auditParentType (c_resourceType c)) (fst (auditCandidateParent c)) = Some p) /\
  (c_resourceType c = auditTypeL7Policy -> c_redirectPoolID c <> "" /\
   exists pool, findCandidate s auditTypePool (c_redirectPoolID c) = Some pool).
Proof.
  intros Ht Hm. pose proof (classify_decided c) as Hd. rewrite Hm in Hd.
  destruct (Hd eq_refl) as (_ & Ho & Hp & [[Hf He]|(Hf & _ & role & rs & f & Hr & _ & _ & Hg & He)]); rewrite He in Hm.
  - apply floatingIP_matched in Hm as (Hne & r & lb & Hu & Hlb & _).
    apply uniqueRecords_owner in Hu as (x & Hx & HP & _ & Hall). split_and!; [done..| | |].
    + exists x. unfold soleOwner, ownsExactly. rewrite Hf. done.
    + intros _. rewrite Hf. eauto.
    + rewrite Hf. done.
  - apply verdict_matched in Hm as [(r & Hu) Hpar]. rewrite matchingAuditRecords_eq in Hu. cbn [fst] in Hu.
    apply uniqueRecords_owner in Hu as (x & Hx & HP & _ & Hall). apply graphProblem_none in Hg as [_ Hpool].
    split_and!; [done..| | |exact Hpool].
    + exists x. unfold soleOwner. setoid_rewrite ownsExactly_read; [|done..]. by rewrite Hr.
    + intros Hlb. by apply Hpar, needsParent_known.
Qed.

Lemma classify_orphan c :
  c_resourceType c ∈ auditTypes ->
  f_Disposition (classifyAuditCandidate s c records scopeTags project) = DispositionOrphanCandidate ->
  c_resourceType c <> auditTypeFloatingIP /\ candidateProject c = project /\ HasAllTags (c_tags c) scopeTags = true /\
  forall r, r ∈ records -> ownsExactly c r = false /\ ownsByName c r = false /\ ownsThroughRoute c r = false.
Proof.
  intros Ht Hm. pose proof (classify_decided c) as Hd. rewrite Hm in Hd.
  destruct (Hd eq_refl) as (_ & _ & Hp & [[Hf He]|(Hf & Hs & role & rs & f & Hr & _ & _ & _ & He)]); rewrite He in Hm.
  - by apply floatingIP_undecided in Hm.
  - apply verdict_unowned in Hm as [Hm _]. destruct (Hm eq_refl) as (H1 & H2 & H3).
    rewrite matchingAuditRecords_eq in H1, H2, H3. cbn [fst snd] in H1, H2, H3. apply uniqueRecords_nil in H1, H2.
    split_and!; [done..|]. intros r Hin. rewrite ownsExactly_read by done. unfold ownsByName, ownsThroughRoute.
    rewrite !underSomeRole_read by (apply matchesNames_role || apply matchesThroughRoute_role || done). rewrite Hr.
    pose proof (filter_nil_inv _ _ _ H1 Hin) as E1. pose proof (filter_nil_inv _ _ _ H2 Hin) as E2. cbn beta in E2.
    rewrite E1, andb_true_r in E2. split_and!; [done..|]. unfold matchesThroughRoute.
    destruct rs; [by rewrite andb_false_r|]. specialize (H3 eq_refl). apply uniqueRecords_nil in H3.
    by apply (filter_nil_inv _ _ _ H3).
Qed.

Lemma classify_stale c :
  c_resourceType c ∈ auditTypes ->
  f_Disposition (classifyAuditCandidate s c records scopeTags project) = DispositionStaleUID ->
  c_resourceType c <> auditTypeFloatingIP /\ candidateProject c = project /\ HasAllTags (c_tags c) scopeTags = true /\
  (forall r, r ∈ records -> ownsExactly c r = false) /\ (exists r, r ∈ records /\ ownsByName c r = true).
Proof.
  intros Ht Hm. pose proof (classify_decided c) as Hd. rewrite Hm in Hd.
  destruct (Hd eq_refl) as (_ & _ & Hp & [[Hf He]|(Hf & Hs & role & rs & f & Hr & _ & _ & _ & He)]); rewrite He in Hm.
  - by apply floatingIP_undecided in Hm.
  - apply verdict_unowned in Hm as [_ Hm]. destruct (Hm eq_refl) as (H1 & (r & H2 & _)).
    rewrite matchingAuditRecords_eq in H1, H2. cbn [fst snd] in H1, H2. apply uniqueRecords_nil in H1.
    apply uniqueRecords_owner in H2 as (x & Hx & HP & _). apply andb_true_iff in HP as [HP _].
    split_and!; [done..| |].
    + intros y Hy. rewrite ownsExactly_read, Hr by done. by apply (filter_nil_inv _ _ _ H1).
    + exists x. unfold ownsByName. rewrite underSomeRole_read, Hr by (apply matchesNames_role || done). done.
Qed.

(** ** All candidates *)

Definition classifiedBase (order : list auditCandidate) : list classifiedAuditCandidate :=
  (fun c => mkClassified c (classifyAuditCandidate s c records scopeTags project)) <$> order.
Definition classifiedMarked (order : list auditCandidate) : list classifiedAuditCandidate :=
  markDuplicateAuditIdentities (classifiedBase order).

Lemma classifyAuditCandidates_eq order :
  wellClassified (classifiedMarked order) ->
  classifyAuditCandidates order s records scopeTags project =
  (fun item => withObjects (cl_finding item) (SortObjectReferences (f_Objects (cl_finding item)))) <$>
    SortFunc compareClassifiedAuditCandidates
      ((fun x => setFinding x (settled (classifiedMarked order) x)) <$> classifiedMarked order).
Proof. intros Hw. unfold classifyAuditCandidates. cbn zeta. rewrite <- propagate_settled by done. done. Qed.

(** An item of the marked list: its candidate, and its finding or a conflict. *)
Lemma classifiedMarked_elem order x :
  x ∈ classifiedMarked order ->
  cl_candidate x ∈ order /\ about (cl_candidate x) (cl_finding x) /\
  let f := classifyAuditCandidate s (cl_candidate x) records scopeTags project in
  ((cl_finding x = f /\
    (itemCardinalityKey (mkClassified (cl_candidate x) f) <> "" ->
     forall y, y ∈ order -> y <> cl_candidate x -> itemCardinalityKey (mkClassified (cl_candidate x) f) <>
       itemCardinalityKey (mkClassified y (classifyAuditCandidate s y records scopeTags project)))) \/
   f_Disposition (cl_finding x) = DispositionOwnershipConflict).
Proof.
  unfold classifiedMarked, markDuplicateAuditIdentities. intros (b & -> & Hb)%list_elem_of_fmap.
  pose proof Hb as (c & -> & Hc)%list_elem_of_fmap. cbn zeta. set (f := classifyAuditCandidate s c records scopeTags project).
  assert (about c f) as Ha by apply classifyAuditCandidate_about.
  set (key := itemCardinalityKey (mkClassified c f)). destruct (String.eqb_spec key ""); cbn [orb].
  { split_and!; [done..|]. left. done. }
  destruct (Nat.ltb_spec (length (auditGroup (classifiedBase order) key)) 2) as [Hlt|].
  2: { split_and!; [done..|by right]. }
  split_and!; [done..|]. left. split; [done|]. intros _ y Hy Hne He. cbn [cl_candidate] in Hne.
  set (g := mkClassified y (classifyAuditCandidate s y records scopeTags project)) in *.
  assert (mkClassified c f ∈ auditGroup (classifiedBase order) key) as H1.
  { apply filter_elem. split; [done|]. by apply String.eqb_refl. }
  assert (g ∈ auditGroup (classifiedBase order) key) as H2.
  { apply filter_elem. split; [unfold classifiedBase; apply list_elem_of_fmap; by exists y|]. apply String.eqb_eq. by rewrite <- He. }
  destruct (auditGroup _ _) as [|a [|? ?]]; [set_solver| |cbn in Hlt; lia].
  apply list_elem_of_singleton in H1, H2. subst a. by simplify_eq.
Qed.
End verdicts.
