(* ===== verification/ScanFacts.v ===== *)
(** * The OpenStack scan

    What an execution of [Scan] against any OpenStack shows: it only reads, its
    inventory covers what was listed, and its findings are sound. *)
From stdpp Require Import base list strings gmap sorting.
From Stdlib Require Import ZArith NArith Lia Ascii.
From S2P Require Import Prelude GoStrings Cloud ApiErrors Metadata MetadataFacts OpenStack ProgramLogic KubeClient AuditReport AuditFacts Inventory InventoryFacts Classification ClassificationFacts AuditPropagation AuditVerdicts.

Set Default Goal Selector "!".

(** ** Distinct keys *)

Lemma NoDup_fmap_via {A B C} (f : A -> B) (g : A -> C) (l : list A) :
  NoDup (f <$> l) -> (forall x y, x ∈ l -> y ∈ l -> g x = g y -> f x = f y) -> NoDup (g <$> l).
Proof.
  induction l as [|x l IH]; intros Hf Hg; [constructor|]. apply NoDup_cons in Hf as [Hx Hf]. apply NoDup_cons. split.
  - intros (y & Hy & Hin)%list_elem_of_fmap. apply Hx. rewrite (Hg x y); [by apply list_elem_of_fmap_2|by left|by right|done].
  - apply IH; [done|]. intros a b Ha Hb. apply Hg; by right.
Qed.

Lemma candidateValues_NoDup s : wellKeyed s -> NoDup (candidateKey <$> candidateValues s).
Proof.
  intros Hs. unfold candidateValues. rewrite <- list_fmap_compose.
  assert (candidateKey ∘ snd <$> map_to_list s = fst <$> map_to_list s) as ->.
  { apply list_fmap_ext. intros i [k c] Hi. cbn. symmetry. apply (Hs k c), elem_of_map_to_list.
    by eapply list_elem_of_lookup_2. }
  apply NoDup_fst_map_to_list.
Qed.

Lemma candidateValues_known s c : wellKeyed s -> c ∈ candidateValues s -> knownCandidate c.
Proof. intros Hs [k Hk]%candidateValues_elem. by destruct (Hs _ _ Hk). Qed.

Section scanned.
Context `{ForeignTexts} (s : auditCandidateSet) (records : list preparedAuditRecord) (scopeTags : list string)
  (project : string) (Hs : wellKeyed s).

Abbreviation marked := (classifiedMarked s records scopeTags project).
Abbreviation findings order := (classifyAuditCandidates order s records scopeTags project).

Lemma marked_candidates order : cl_candidate <$> marked order = order.
Proof.
  unfold classifiedMarked, markDuplicateAuditIdentities, classifiedBase. rewrite <- !list_fmap_compose.
  etrans; [|apply list_fmap_id]. apply list_fmap_ext. intros i c _. cbn. by destruct (_ || _).
Qed.

Lemma marked_key order x : x ∈ marked order -> keyOf x = resourceKey (c_resourceType (cl_candidate x)) (c_id (cl_candidate x)).
Proof. intros (_ & (_ & Ht & Hi & _) & _)%classifiedMarked_elem. unfold keyOf. by rewrite Ht, Hi. Qed.

Lemma marked_well order : order ≡ₚ candidateValues s -> wellClassified (marked order).
Proof.
  intros Hp. split.
  - apply (NoDup_fmap_via (candidateKey ∘ cl_candidate)).
    { rewrite list_fmap_compose, marked_candidates, Hp. by apply candidateValues_NoDup. }
    intros x y Hx Hy Hk. rewrite (marked_key order x Hx), (marked_key order y Hy) in Hk.
    assert (forall z, z ∈ marked order -> knownCandidate (cl_candidate z)) as Hkn.
    { intros z (Hz & _)%classifiedMarked_elem. rewrite Hp in Hz. by apply (candidateValues_known s). }
    destruct (Hkn x Hx) as [Htx Hsx], (Hkn y Hy) as [Hty Hsy].
    apply resourceKey_inj in Hk as [Ht Hi]; [|done..]. cbn. unfold candidateKey. by rewrite Hsx, Hsy, Ht, Hi.
  - apply Forall_forall. intros x (Hx & (_ & Ht & _) & _)%classifiedMarked_elem. rewrite Ht, Hp in *.
    by apply (candidateValues_known s).
Qed.

(** ** The findings do not depend on the order of the candidates *)

Lemma marked_perm order order' : order ≡ₚ order' -> marked order ≡ₚ marked order'.
Proof.
  intros Hp. unfold classifiedMarked, markDuplicateAuditIdentities.
  assert (classifiedBase s records scopeTags project order ≡ₚ classifiedBase s records scopeTags project order') as HB
    by (unfold classifiedBase; by rewrite Hp).
  assert (forall (l l' : list classifiedAuditCandidate) key, l ≡ₚ l' -> length (auditGroup l key) = length (auditGroup l' key)) as Hg.
  { intros l l' key. unfold auditGroup. induction 1; cbn; repeat case_match; cbn; lia. }
  etrans; [apply fmap_Permutation, HB|].
  match goal with |- ?x ≡ₚ ?y => cut (x = y); [by intros ->|] end.
  apply list_fmap_ext. intros i x _. cbn zeta. by rewrite (Hg _ _ _ HB).
Qed.

Lemma append_last_sep (a a' b b' : string) :
  str_without "000" b = true -> str_without "000" b' = true -> a ^^ nul ^^ b = a' ^^ nul ^^ b' -> b = b'.
Proof.
  intros Hb Hb'. unfold nul. revert a'. induction a as [|x a IH]; intros [|x' a'] He.
  - by injection He.
  - change (String "000" b = String x' (a' ^^ String "000" b')) in He. injection He as _ He.
    rewrite He, str_without_append in Hb. cbn in Hb. by rewrite andb_false_r in Hb.
  - change (String x (a ^^ String "000" b) = String "000" b') in He. injection He as _ He.
    rewrite <- He, str_without_append in Hb'. cbn in Hb'. by rewrite andb_false_r in Hb'.
  - change (String x (a ^^ String "000" b) = String x' (a' ^^ String "000" b')) in He. injection He as _ He. by eapply IH.
Qed.

Lemma order_inj t t' :
  t ∈ auditTypes -> t' ∈ auditTypes -> auditResourceOrder t = auditResourceOrder t' -> t = t'.
Proof. intros Ht Ht'. each_type Ht; each_type Ht'; subst; done. Qed.

Definition sortPrefix (t : string) : string :=
  serviceOf t ^^ nul ^^ (if auditResourceOrder t <? 10 then "0" ^^ decimal (auditResourceOrder t) else decimal (auditResourceOrder t)).

Lemma sortKey_inj t t' rest rest' :
  t ∈ auditTypes -> t' ∈ auditTypes -> sortPrefix t ^^ nul ^^ rest = sortPrefix t' ^^ nul ^^ rest' -> t = t' /\ rest = rest'.
Proof.
  intros Ht Ht' He. assert (sortPrefix t = sortPrefix t' -> t = t') as Hinj.
  { clear He. intros He. each_type Ht; each_type Ht'; subst; try done; vm_compute in He; discriminate He. }
  assert (String.length (sortPrefix t) = 10) as Hl by (clear - Ht; each_type Ht; subst; done).
  assert (String.length (sortPrefix t') = 10) as Hl' by (clear - Ht'; each_type Ht'; subst; done).
  apply append_inj in He as [Hp Hr]; [|by rewrite Hl, Hl']. split; [by apply Hinj|]. by injection Hr.
Qed.

Lemma sortKey_about c x f :
  knownCandidate c -> about c f ->
  classifiedSortKey (setFinding x f) = sortPrefix (c_resourceType c) ^^ nul ^^ (fst (auditCandidateParent c) ^^ nul ^^ c_id c).
Proof.
  intros [_ Hsv] (H1 & H2 & H3 & H4). unfold classifiedSortKey, sortPrefix. cbn [setFinding cl_finding].
  rewrite H1, H2, H3, H4, Hsv. by rewrite !append_assoc.
Qed.

Lemma findings_order_independent order order' :
  (forall c, c ∈ candidateValues s -> str_without "000" (c_id c) = true) ->
  order ≡ₚ candidateValues s -> order' ≡ₚ candidateValues s -> findings order = findings order'.
Proof.
  intros Hids Hp Hp'. pose proof (marked_well order Hp) as Hw. pose proof (marked_well order' Hp') as Hw'.
  rewrite !classifyAuditCandidates_eq by done. f_equal.
  assert (marked order ≡ₚ marked order') as Hm by (apply marked_perm; by rewrite Hp, Hp').
  apply SortFunc_canonical.
  - rewrite <- list_fmap_compose. apply (NoDup_fmap_via (candidateKey ∘ cl_candidate)).
    { rewrite list_fmap_compose, marked_candidates, Hp. by apply candidateValues_NoDup. }
    assert (forall x, x ∈ marked order -> cl_candidate x ∈ candidateValues s /\
      (classifiedSortKey ∘ (fun x => setFinding x (settled (marked order) x))) x =
      sortPrefix (c_resourceType (cl_candidate x)) ^^ nul ^^
        (fst (auditCandidateParent (cl_candidate x)) ^^ nul ^^ c_id (cl_candidate x))) as Hk.
    { intros x (Hx & Ha & _)%classifiedMarked_elem. rewrite Hp in Hx. split; [done|]. cbn.
      apply sortKey_about; [by apply (candidateValues_known s)|by apply settled_about]. }
    intros x y [Hx Kx]%Hk [Hy Ky]%Hk. rewrite Kx, Ky.
    destruct (candidateValues_known s _ Hs Hx) as [Htx Hsx], (candidateValues_known s _ Hs Hy) as [Hty Hsy].
    intros [Ht Hr]%sortKey_inj; [|done..]. apply append_last_sep in Hr; [|by apply Hids..].
    cbn. unfold candidateKey. by rewrite Hsx, Hsy, Ht, Hr.
  - etrans; [|apply fmap_Permutation, Hm].
    match goal with |- ?x ≡ₚ ?y => cut (x = y); [by intros ->|] end.
    apply list_fmap_ext. intros i x _. cbn. unfold settled. by rewrite (settle_perm 8 _ _ x (proj1 Hw) Hm).
Qed.

(** ** The findings are sound *)

Lemma findings_elem order f :
  order ≡ₚ candidateValues s -> f ∈ findings order ->
  exists x, x ∈ marked order /\
    f = withObjects (settled (marked order) x) (SortObjectReferences (f_Objects (settled (marked order) x))).
Proof.
  intros Hp. rewrite classifyAuditCandidates_eq by by apply marked_well.
  intros (y & -> & Hy)%list_elem_of_fmap. rewrite SortFunc_perm in Hy.
  apply list_elem_of_fmap in Hy as (x & -> & Hx). by exists x.
Qed.

Lemma elem_findings order x :
  order ≡ₚ candidateValues s -> x ∈ marked order ->
  withObjects (settled (marked order) x) (SortObjectReferences (f_Objects (settled (marked order) x))) ∈ findings order.
Proof.
  intros Hp Hx. rewrite classifyAuditCandidates_eq by by apply marked_well.
  apply list_elem_of_fmap. exists (setFinding x (settled (marked order) x)). split; [done|].
  rewrite SortFunc_perm. apply list_elem_of_fmap. by exists x.
Qed.

(** A disposition that is neither a conflict nor unresolved is the verdict on the
    candidate itself. *)
Lemma findings_decided order f :
  order ≡ₚ candidateValues s -> f ∈ findings order -> decided (f_Disposition f) = true ->
  exists x, x ∈ marked order /\ cl_candidate x ∈ candidateValues s /\ about (cl_candidate x) f /\
    f = withObjects (settled (marked order) x) (SortObjectReferences (f_Objects (settled (marked order) x))) /\
    f_Disposition f = f_Disposition (classifyAuditCandidate s (cl_candidate x) records scopeTags project).
Proof.
  intros Hp (x & Hx & ->)%findings_elem Hd; [|done]. exists x.
  pose proof Hx as (Hc & Ha & He)%classifiedMarked_elem. rewrite Hp in Hc. split_and!; [done..| |done|].
  - by apply withObjects_about, settled_about.
  - change (f_Disposition (withObjects ?a _)) with (f_Disposition a) in *.
    destruct (settle_cases 8 (marked order) x) as [E|(_ & r & m & [E|E])]; unfold settled in *; rewrite E in Hd |- *; try done.
    destruct He as [[-> _]|He]; [done|]. by rewrite He in Hd.
Qed.

(** The propagation leaves a matched item whose parents are all matched. *)
Lemma applyParents_matched g parents f t i q :
  f_Disposition (applyParents g parents f) = DispositionMatched ->
  (t, i) ∈ parents -> t <> "" -> i <> "" -> g (resourceKey t i) = Some q -> f_Disposition q = DispositionMatched.
Proof.
  induction parents as [|[t' i'] rest IH]; [set_solver|]. intros Hm Hin Ht Hi Hq. cbn [applyParents] in Hm.
  apply elem_of_cons in Hin as [[= <- <-]|Hin].
  - apply String.eqb_neq in Ht, Hi. rewrite Ht, Hi, Hq in Hm. cbn [orb] in Hm. by destruct (f_Disposition q).
  - destruct (_ || _); [by apply IH|]. destruct (g (resourceKey t' i')) as [q'|]; [|by apply IH].
    destruct (f_Disposition q'); try done. by apply IH.
Qed.

Lemma matched_reference order x t i p :
  order ≡ₚ candidateValues s -> x ∈ marked order ->
  f_Disposition (settled (marked order) x) = DispositionMatched ->
  (t, i) ∈ auditParentReferences x -> t <> "" -> i <> "" -> findCandidate s t i = Some p ->
  exists g, g ∈ findings order /\ f_Disposition g = DispositionMatched /\ f_Type g = t /\ f_ID g = i.
Proof.
  intros Hp Hx Hm Hr Ht Hi Hf. pose proof (marked_well order Hp) as Hw.
  pose proof Hx as (Hc & (_ & Hty & _) & _)%classifiedMarked_elem. rewrite Hp in Hc.
  destruct (candidateValues_known s _ Hs Hc) as [Hkn _]. rewrite <- Hty in Hkn.
  rewrite settled_eq in Hm by done. unfold matched in Hm.
  case_bool_decide as Hd; [|done].
  apply findCandidate_sound in Hf as (Hpin & Hpt & Hpi). rewrite <- Hp in Hpin.
  rewrite <- (marked_candidates order) in Hpin. apply list_elem_of_fmap in Hpin as (y & -> & Hy).
  assert (findItem (marked order) (resourceKey t i) = Some y) as Hfi.
  { apply findItem_spec; [apply Hw|]. split; [done|]. by rewrite (marked_key order y Hy), Hpt, Hpi. }
  exists (withObjects (settled (marked order) y) (SortObjectReferences (f_Objects (settled (marked order) y)))).
  split; [by apply elem_findings|].
  change (f_Disposition (withObjects ?a _)) with (f_Disposition a). change (f_Type (withObjects ?a _)) with (f_Type a).
  change (f_ID (withObjects ?a _)) with (f_ID a).
  pose proof Hy as (_ & (_ & Hyt & Hyi & _) & _)%classifiedMarked_elem.
  destruct (settled_type (marked order) y) as [-> ->]. rewrite Hyt, Hyi. split_and!; [|done..].
  eapply applyParents_matched; [exact Hm|exact Hr|done|done|]. cbn beta. by rewrite Hfi.
Qed.
End scanned.

(** ** Executions of [Scan] *)

Section scan.
Context `{ForeignTexts} (p : Scanner) (scope : Scope) (ownership : list OwnershipRecord).

Lemma Scan_inv tr inv :
  exec (Scan p scope ownership) tr (Ok inv) ->
  exists records s, ScopeValidate scope = Ok tt /\ sc_OpenStackProjectID scope = s_projectID p /\
    prepareAuditRecords scope ownership = Ok records /\
    exec (collectCandidates p (ScopeTags (sc_ClusterID scope) (sc_ControllerName scope)) records) tr (Ok s) /\
    inv = mkInventory (classifyAuditCandidates (candidateValues s) s records
                         (ScopeTags (sc_ClusterID scope) (sc_ControllerName scope)) (sc_OpenStackProjectID scope))
            auditInventoryLimitations.
Proof.
  unfold Scan. intros Hx%exec_onError_ok. destruct (ScopeValidate scope) as [[]|]; [|by destruct Hx].
  destruct (String.eqb_spec (sc_OpenStackProjectID scope) (s_projectID p)); [|by destruct Hx].
  destruct (s_octavia p && s_neutron p); [|by destruct Hx].
  destruct (prepareAuditRecords scope ownership) as [records|]; [|by destruct Hx]. cbn zeta in Hx.
  apply exec_mbind_ok in Hx as (tr1 & tr2 & s & -> & H1 & [-> [= ->]]%exec_ret). rewrite app_nil_r. eauto 10.
Qed.

(** A request that lists resources, and one that was answered. *)
Definition isList (r : request) : bool :=
  match r with
  | ReqListLoadBalancers _ | ReqListListeners _ | ReqListPools _ | ReqListMembers _ _ | ReqListMonitors _
  | ReqListPolicies _ | ReqListRules _ _ | ReqListFloatingIPs _ => true
  | _ => false
  end.
Definition answered (e : event) : bool :=
  match e with
  | Ev (ReqListLoadBalancers _) (Ok (Ok _)) | Ev (ReqListListeners _) (Ok (Ok _)) | Ev (ReqListPools _) (Ok (Ok _))
  | Ev (ReqListMembers _ _) (Ok (Ok _)) | Ev (ReqListMonitors _) (Ok (Ok _)) | Ev (ReqListPolicies _) (Ok (Ok _))
  | Ev (ReqListRules _ _) (Ok (Ok _)) | Ev (ReqListFloatingIPs _) (Ok (Ok _)) => true
  | _ => false
  end.

(** Every request is a list, and all were answered when there is a result. *)
Definition CompleteLists {A} (m : M A) : Prop :=
  forall tr r, exec m tr r -> Forall (fun e => isList (ev_req e) = true) tr /\
    forall a, r = Ok a -> Forall (fun e => answered e = true) tr.

Lemma CompleteLists_Ret {A} (r : outcome_of A) : CompleteLists (Ret r).
Proof. intros tr b [-> _]. split; constructor. Qed.
Lemma CompleteLists_mbind {A B} (m : M A) (f : A -> M B) :
  CompleteLists m -> (forall a, CompleteLists (f a)) -> CompleteLists (mbind m f).
Proof.
  intros Hm Hf tr r [(e & -> & Hx)|(tr1 & tr2 & a & -> & H1 & H2)]%exec_mbind.
  - destruct (Hm _ _ Hx). by split.
  - destruct (Hm _ _ H1) as [? Ha], (Hf _ _ _ H2) as [? Hb]. rewrite Forall_app. split; [done|].
    intros b ->. apply Forall_app. split; [by eapply Ha|by eapply Hb].
Qed.
Lemma CompleteLists_onError {A} g (m : M A) : CompleteLists m -> CompleteLists (onError g m).
Proof. intros Hm tr r ([a|e] & Hx & ->)%exec_onError; destruct (Hm _ _ Hx) as [? Ha]; (split; [done|]); [by eauto|done]. Qed.
Lemma CompleteLists_mfold {A B} (f : B -> A -> M B) acc l :
  (forall b x, CompleteLists (f b x)) -> CompleteLists (mfold f acc l).
Proof.
  intros Hf. revert acc. induction l as [|x l IH]; intros acc; [apply CompleteLists_Ret|]. cbn [mfold].
  by apply CompleteLists_mbind.
Qed.

(** One list request of the services. *)
Lemma CompleteLists_list {A} r (k : _ -> outcome_of A) :
  isList r = true -> (forall x a, k x = Ok a -> answered (Ev r x) = true) -> CompleteLists (Call r (fun x => Ret (k x))).
Proof.
  intros Hr Hk tr y (x & tr' & -> & -> & ->). split; [by repeat constructor|].
  intros a Ha. constructor; [by eapply Hk|constructor].
Qed.

Ltac complete_lists :=
  repeat first [ apply CompleteLists_Ret | apply CompleteLists_mbind; [|intros] | apply CompleteLists_onError
               | apply CompleteLists_mfold; intros
               | apply CompleteLists_list; [reflexivity|by intros [[?|?]|?] ? ?] ].

Lemma collectCandidates_lists tags records : CompleteLists (collectCandidates p tags records).
Proof.
  unfold collectCandidates, collectAuditLoadBalancers, collectAuditListeners, collectAuditPools, collectAuditPolicies,
    collectAuditMembers, collectAuditMonitors, collectAuditRules, collectAuditFloatingIPs, listAuditListeners,
    listAuditPools, listAuditMonitors, ListLoadBalancers, ListListeners, ListPools, ListMembers, ListMonitors,
    ListPolicies, ListRules, ListFloatingIPs, wrap. cbn zeta. complete_lists.
Qed.

Lemma Scan_lists : CompleteLists (Scan p scope ownership).
Proof.
  unfold Scan. apply CompleteLists_onError. destruct (ScopeValidate scope); [|apply CompleteLists_Ret].
  do 2 (case_match; [|apply CompleteLists_Ret]). destruct (prepareAuditRecords _ _); [|apply CompleteLists_Ret].
  apply CompleteLists_mbind; [apply collectCandidates_lists|]. intros. apply CompleteLists_Ret.
Qed.

Lemma eventCandidates_known e c0 : c0 ∈ eventCandidates e -> knownCandidate c0.
Proof.
  destruct e as [q x]. destruct q; cbn [eventCandidates]; try set_solver; destruct x as [[items|]|]; try set_solver;
    intros (y & -> & _)%list_elem_of_fmap; (split; [unfold auditTypes; cbn; set_solver|done]).
Qed.

(** The findings are about distinct candidates, one for each. *)
Lemma findings_candidates s records tags project :
  wellKeyed s ->
  let l := classifyAuditCandidates (candidateValues s) s records tags project in
  (forall f, f ∈ l -> exists c, c ∈ candidateValues s /\ about c f) /\
  (forall c, c ∈ candidateValues s -> exists f, f ∈ l /\ about c f) /\ NoDup (findingKey <$> l).
Proof.
  intros Hs l. split_and!.
  - intros f (x & Hx & ->)%findings_elem; [|done..]. exists (cl_candidate x).
    apply classifiedMarked_elem in Hx as (Hc & Ha & _). split; [done|]. by apply withObjects_about, settled_about.
  - intros c Hc. rewrite <- (marked_candidates s records tags project) in Hc. apply list_elem_of_fmap in Hc as (x & -> & Hx).
    eexists. split; [by apply elem_findings|]. apply classifiedMarked_elem in Hx as (_ & Ha & _).
    by apply withObjects_about, settled_about.
  - unfold l. rewrite classifyAuditCandidates_eq by by apply marked_well. rewrite <- list_fmap_compose, SortFunc_perm, <- list_fmap_compose.
    set (m := classifiedMarked s records tags project (candidateValues s)).
    apply (NoDup_fmap_via (candidateKey ∘ cl_candidate)).
    { rewrite list_fmap_compose. unfold m. rewrite marked_candidates. by apply candidateValues_NoDup. }
    assert (forall x, x ∈ m -> knownCandidate (cl_candidate x) /\
      (findingKey ∘ (fun item => withObjects (cl_finding item) (SortObjectReferences (f_Objects (cl_finding item))))
        ∘ (fun x => setFinding x (settled m x))) x = candidateKey (cl_candidate x)) as Hk.
    { intros x (Hc & Ha & _)%classifiedMarked_elem. split; [by apply (candidateValues_known s)|].
      apply (settled_about m) in Ha as (H1 & H2 & H3 & _). unfold findingKey, candidateKey. cbn. by rewrite H1, H2, H3. }
    intros x y [_ Kx]%Hk [_ Ky]%Hk. by rewrite Kx, Ky.
Qed.

(** What [prepareAuditRecords] makes of the records. *)
Definition prepares (o : OwnershipRecord) (r : preparedAuditRecord) : Prop :=
  inScope scope (rec_Identity o) /\ validIdentity (rec_Identity o) /\
  r = mkPrepared (mkOwnershipRecord (rec_Identity o) (SortObjectReferences (rec_Objects o))) (rec_Identity o)
        (isRouteIdentity (rec_Identity o)).

Lemma prepareAuditRecord_ok i o r : prepareAuditRecord scope i o = Ok r -> prepares o r.
Proof.
  unfold prepareAuditRecord, prepares, inScope, validIdentity, NewIdentity. intros Hr. inv_result.
  apply annotate_ok in E0. destruct a. apply annotate_ok in E1. inv_result. bool_hyps. done.
Qed.

Lemma prepareAuditRecords_ok l records : prepareAuditRecords scope l = Ok records -> Forall2 prepares l records.
Proof.
  unfold prepareAuditRecords. intros Hf.
  apply (foldM_inv _ (fun acc (pre : list (nat * OwnershipRecord)) => Forall2 prepares pre.*2 acc)) in Hf.
  - by rewrite imap_pair_snd in Hf.
  - constructor.
  - intros b pre [i o] b' Hb Hstep. cbn [fst snd] in Hstep. inv_result. apply prepareAuditRecord_ok in E.
    rewrite fmap_app. apply Forall2_app; [done|]. constructor; [exact E|constructor].
Qed.

(** Every listed resource has a finding, and every finding is about one. *)
Lemma scan_covers tr inv :
  exec (Scan p scope ownership) tr (Ok inv) ->
  (forall f, f ∈ inv_Resources inv -> exists c, listed tr c /\ about c f) /\
  (forall e c0, e ∈ tr -> keepsAll e = true -> c0 ∈ eventCandidates e ->
     exists f, f ∈ inv_Resources inv /\ f_Type f = c_resourceType c0 /\ f_ID f = c_id c0).
Proof.
  intros (records & s & _ & _ & _ & Hc & ->)%Scan_inv.
  apply collectCandidates_traced in Hc as (Hs & Hlist & Hall).
  destruct (findings_candidates s records (ScopeTags (sc_ClusterID scope) (sc_ControllerName scope))
    (sc_OpenStackProjectID scope) Hs) as (H1 & H2 & _). cbn [inv_Resources]. split.
  - intros f (c & [k Hk]%candidateValues_elem & Hf)%H1. exists c. split; [by eapply Hlist|done].
  - intros e c0 He Hk Hc0. destruct (Hall e c0 He Hk Hc0) as [c Hc].
    destruct (H2 c) as (f & Hf & (_ & Ht & Hi & _)); [apply candidateValues_elem; eauto|]. exists f. split; [done|].
    rewrite Ht, Hi. destruct (Hs _ _ Hc) as [He' [Hty Hsv]].
    destruct (eventCandidates_known _ _ Hc0) as [Hty0 Hsv0].
    unfold candidateKey in He'. rewrite Hsv, Hsv0 in He'.
    assert (str_without "000" (serviceOf (c_resourceType c)) = true) by (unfold serviceOf; by case_match).
    assert (str_without "000" (serviceOf (c_resourceType c0)) = true) by (unfold serviceOf; by case_match).
    apply sep_inj in He' as [_ He']; [|done..]. apply sep_inj in He' as [? ?]; [done|by apply type_without_nul..].
Qed.

(** The ownership scan only lists, returns an inventory only when every
    list was answered, and accounts for what was listed: every finding is about
    a listed resource, every listed load balancer, listener, pool, member,
    health monitor and rule has a finding, and no resource has two. *)
Theorem scan_accounts_for_listed_resources tr r :
  exec (Scan p scope ownership) tr r ->
  Forall (fun e => isList (ev_req e) = true) tr /\
  forall inv, r = Ok inv ->
    Forall (fun e => answered e = true) tr /\
    (forall f, f ∈ inv_Resources inv -> exists c, listed tr c /\ about c f) /\
    (forall e c0, e ∈ tr -> keepsAll e = true -> c0 ∈ eventCandidates e ->
       exists f, f ∈ inv_Resources inv /\ f_Type f = c_resourceType c0 /\ f_ID f = c_id c0) /\
    NoDup (findingKey <$> inv_Resources inv).
Proof.
  intros Hx. destruct (Scan_lists _ _ Hx) as [Hl Ha]. split; [done|]. intros inv ->.
  destruct (scan_covers _ _ Hx) as [H1 H2]. split_and!; [by eapply Ha|done|done|].
  apply Scan_inv in Hx as (records & s & _ & _ & _ & (Hs & _ & _)%collectCandidates_traced & ->).
  by apply findings_candidates.
Qed.

(** The owner of a matched resource, and its matched parents. *)
Lemma matched_evidence tr inv f :
  exec (Scan p scope ownership) tr (Ok inv) -> f ∈ inv_Resources inv -> f_Disposition f = DispositionMatched ->
  exists records c, Forall2 prepares ownership records /\ listed tr c /\ about c f /\
    candidateProject c = sc_OpenStackProjectID scope /\ (exists r, soleOwner records c r) /\
    (f_Type f <> auditTypeLoadBalancer -> exists g, g ∈ inv_Resources inv /\ f_Disposition g = DispositionMatched /\
       f_Type g = auditParentType (f_Type f) /\ f_ID g = f_ParentID f) /\
    (f_Type f = auditTypeL7Policy -> exists g, g ∈ inv_Resources inv /\ f_Disposition g = DispositionMatched /\
       f_Type g = auditTypePool /\ f_ID g = c_redirectPoolID c).
Proof.
  intros (records & s & _ & _ & Hpr & Hc & ->)%Scan_inv Hf Hm. cbn [inv_Resources] in *.
  apply collectCandidates_traced in Hc as (Hs & Hlist & _).
  destruct (findings_decided _ _ _ _ Hs _ f (reflexivity _) Hf) as (x & Hx & Hcx & Ha & He & Hd); [by rewrite Hm|].
  pose proof (candidateValues_known s _ Hs Hcx) as [Hty _]. rewrite Hm in Hd. symmetry in Hd.
  destruct (classify_matched _ _ _ _ _ Hty Hd) as (Hp & _ & Ho & Hpar & Hpool).
  pose proof Hx as (_ & (_ & Htx & _ & Hpx) & _)%classifiedMarked_elem.
  pose proof Ha as (_ & Htf & _ & Hpf). rewrite He in Hm.
  assert (forall t i q, (t, i) ∈ auditParentReferences x -> t <> "" -> i <> "" -> findCandidate s t i = Some q ->
    exists g, g ∈ classifyAuditCandidates (candidateValues s) s records
      (ScopeTags (sc_ClusterID scope) (sc_ControllerName scope)) (sc_OpenStackProjectID scope) /\
      f_Disposition g = DispositionMatched /\ f_Type g = t /\ f_ID g = i) as Href
    by (intros; by eapply matched_reference).
  exists records, (cl_candidate x). split_and!; [by apply prepareAuditRecords_ok|..|done|done|done| |].
  - apply candidateValues_elem in Hcx as [k Hk]. by eapply Hlist.
  - rewrite Htf, Hpf. intros Hlb. destruct (Hpar Hlb) as [Hne (q & Hq)]. eapply Href; [| |exact Hne|exact Hq].
    + unfold auditParentReferences. rewrite Htx, Hpx. by left.
    + clear -Hty Hlb. each_type Hty; rewrite Hty in *; done.
  - rewrite Htf. intros Hpol. destruct (Hpool Hpol) as [Hne (q & Hq)]. eapply Href; [|done|exact Hne|exact Hq].
    unfold auditParentReferences. rewrite Htx, Hpol. cbn. by right; left.
Qed.

Lemma matched_owner tr inv f :
  exec (Scan p scope ownership) tr (Ok inv) -> f ∈ inv_Resources inv -> f_Disposition f = DispositionMatched ->
  exists records c, Forall2 prepares ownership records /\ listed tr c /\ about c f /\ exists r, soleOwner records c r.
Proof. intros Hx Hf Hm. destruct (matched_evidence _ _ _ Hx Hf Hm) as (records & c & ? & ? & ? & _ & ? & _). eauto 10. Qed.

(** C30. A resource that the scan reports as matched was listed in the audited
    project, exactly one binding owns it, and its parent, for a policy also the
    pool it redirects to, is in the inventory and matched too: the whole chain
    up to the load balancer is. *)
Theorem matched_resources_are_owned tr inv f :
  exec (Scan p scope ownership) tr (Ok inv) -> f ∈ inv_Resources inv -> f_Disposition f = DispositionMatched ->
  exists records c, Forall2 prepares ownership records /\ listed tr c /\ about c f /\
    candidateProject c = sc_OpenStackProjectID scope /\ (exists r, soleOwner records c r) /\
    (f_Type f <> auditTypeLoadBalancer -> exists g, g ∈ inv_Resources inv /\ f_Disposition g = DispositionMatched /\
       f_Type g = auditParentType (f_Type f) /\ f_ID g = f_ParentID f) /\
    (f_Type f = auditTypeL7Policy -> exists g, g ∈ inv_Resources inv /\ f_Disposition g = DispositionMatched /\
       f_Type g = auditTypePool /\ f_ID g = c_redirectPoolID c).
Proof. apply matched_evidence. Qed.

(** What a finding of an unowned resource proves. *)
Lemma unowned_evidence tr inv f :
  exec (Scan p scope ownership) tr (Ok inv) -> f ∈ inv_Resources inv ->
  f_Disposition f = DispositionOrphanCandidate \/ f_Disposition f = DispositionStaleUID ->
  exists records c, Forall2 prepares ownership records /\ listed tr c /\ about c f /\
    candidateProject c = sc_OpenStackProjectID scope /\
    HasAllTags (c_tags c) (ScopeTags (sc_ClusterID scope) (sc_ControllerName scope)) = true /\
    (forall r, r ∈ records -> ownsExactly c r = false) /\
    (f_Disposition f = DispositionOrphanCandidate ->
     forall r, r ∈ records -> ownsByName c r = false /\ ownsThroughRoute c r = false) /\
    (f_Disposition f = DispositionStaleUID -> exists r, r ∈ records /\ ownsByName c r = true).
Proof.
  intros (records & s & _ & _ & Hpr & Hc & ->)%Scan_inv Hf Hd. cbn [inv_Resources] in *.
  apply collectCandidates_traced in Hc as (Hs & Hlist & _).
  destruct (findings_decided _ _ _ _ Hs _ f (reflexivity _) Hf) as (x & Hx & Hcx & Ha & _ & He).
  { by destruct Hd as [-> | ->]. }
  exists records, (cl_candidate x). apply prepareAuditRecords_ok in Hpr.
  assert (listed tr (cl_candidate x)) as Hl by (apply candidateValues_elem in Hcx as [k Hk]; by eapply Hlist).
  destruct (candidateValues_known s _ Hs Hcx) as [Hkn _].
  destruct Hd as [Hd|Hd]; rewrite Hd in He |- *; symmetry in He.
  - apply classify_orphan in He as (_ & Hp & Ht & Hall); [|done]. split_and!; try done.
    + intros r Hr. by apply Hall.
    + intros _ r Hr. split; by apply Hall.
  - apply classify_stale in He as (_ & Hp & Ht & Hall & Hr); [|done]. by split_and!.
Qed.

(** The inventory of a scan does not depend on the order in which the
    iteration over the candidate map meets them, provided no resource ID
    contains the zero byte that separates the parts of a sort key. *)
Theorem scan_order_irrelevant records tags project tr s order :
  exec (collectCandidates p tags records) tr (Ok s) ->
  (forall e c0, e ∈ tr -> c0 ∈ eventCandidates e -> str_without "000" (c_id c0) = true) ->
  order ≡ₚ candidateValues s ->
  classifyAuditCandidates order s records tags project =
  classifyAuditCandidates (candidateValues s) s records tags project.
Proof.
  intros (Hs & Hlist & _)%collectCandidates_traced Hids Hp. apply findings_order_independent; [done| |done|done].
  intros c [k Hk]%candidateValues_elem. destruct (Hlist _ _ Hk) as (e & c0 & He & Hc0 & (_ & _ & -> & _)).
  by apply (Hids e c0).
Qed.
End scan.
