(* ===== verification/AuditAgreement.v ===== *)
(** * The audit agrees with the controller

    A resource that the controller recognises as its own, by the tags it writes,
    passes every identity check of the audit: it is reported as matched unless its
    place in the graph is wrong.  The audit reads tags with code of its own
    ([singleAuditTagValue], [validAuditEncodedValue], a base64 decoder), so this is
    a statement about two implementations. *)
From stdpp Require Import base list strings gmap.
From Stdlib Require Import ZArith NArith Lia Ascii.
From S2P Require Import Prelude GoStrings GoSha256 Cloud ApiErrors Metadata MetadataFacts OpenStack KubeClient AuditReport AuditFacts Inventory InventoryFacts Classification ClassificationFacts AuditPropagation AuditVerdicts.

Set Default Goal Selector "!".

(** ** Tag values *)

Lemma encode_nonempty v : v <> "" -> encode v <> "".
Proof.
  destruct v as [|c v]; [done|]. intros _. unfold encode. change (bytes_of (String c v)) with (N_of_ascii c :: bytes_of v).
  destruct (base64_bytes_head (N_of_ascii c) (bytes_of v)) as [r ->]. done.
Qed.

Lemma tagValue_nonempty key v : v <> "" -> tagValue key v <> "".
Proof. intros Hv. unfold tagValue. case_match; [done|by apply encode_nonempty]. Qed.

(** The encoding of a UTF-8 text does not look like a digest. *)
Lemma encode_no_digest_prefix v : utf8Head v -> CutPrefix (encode v) "sha256-" = None.
Proof.
  intros Ha. unfold CutPrefix. destruct (HasPrefix (encode v) "sha256-") eqn:Hp; [|done]. exfalso.
  apply prefix_iff in Hp as [r Hr]. change ("sha256-" ^^ r) with (String "s" ("ha256-" ^^ r)) in Hr.
  unfold encode in Hr. destruct v as [|c v]; [discriminate Hr|].
  change (bytes_of (String c v)) with (N_of_ascii c :: bytes_of v) in Hr.
  destruct (base64_bytes_head (N_of_ascii c) (bytes_of v)) as [q Hq]. rewrite Hq in Hr. injection Hr as Hc _.
  change "s"%char with (base64_char 44) in Hc. cbn in Ha. pose proof (N_ascii_bounded c). apply base64_char_inj in Hc; divlia.
Qed.

Lemma validAuditEncodedValue_tag key v : utf8Head v -> validAuditEncodedValue (tagValue key v) = true.
Proof.
  intros Ha. unfold validAuditEncodedValue, tagValue. destruct (maxTagLength <? _).
  - unfold digestValue, CutPrefix. rewrite HasPrefix_append, str_drop_append.
    rewrite DecodeString_base64_bytes by apply sha256_bound. unfold Sum256. by rewrite sha256_length.
  - rewrite encode_no_digest_prefix by done. by rewrite DecodeString_encode.
Qed.

(** ** Identity tags *)

(** The fields of an identity with the keys of their tags. *)
Definition identityPairs (id : Identity) (role : string) (rs : bool) : list (string * string) :=
  [("cluster", ClusterID id); ("controller", Controller id); ("project", OpenStackProjectID id);
   ("namespace", GatewayNamespace id); ("name", GatewayName id); ("uid", GatewayUID id); ("role", role)]
  ++ (if rs then [("route-namespace", RouteNamespace id); ("route-name", RouteName id); ("route-uid", RouteUID id)] else []).

(** Fields that are present and start as UTF-8 texts do. *)
Definition writable (id : Identity) (rs : bool) : Prop :=
  Forall (fun v : string => v <> "" /\ utf8Head v)
    ([ClusterID id; Controller id; OpenStackProjectID id; GatewayNamespace id; GatewayName id; GatewayUID id]
     ++ (if rs then [RouteNamespace id; RouteName id; RouteUID id] else [])).

Definition carries (tags : list string) (kv : string * string) : Prop :=
  tagValues tags (fst kv) = [tagValue (fst kv) (snd kv)].

Lemma hasTags_pairs tags id role (rs : bool) :
  OpenStackProjectID id <> "" ->
  Forall (hasTag tags) (baseTags id role ++ projectTags id ++ (if rs then routeTags id else [])) ->
  tagValues tags "managed" = ["true"] /\ Forall (carries tags) (identityPairs id role rs).
Proof.
  intros Hp%String.eqb_neq. unfold baseTags, projectTags, routeTags, identityPairs, carries. rewrite Hp.
  rewrite !Forall_app, !Forall_cons, hasTag_managed, !hasTag_tag by reflexivity. intros Ht. destruct_and! Ht.
  split; [done|]. split; [by repeat constructor|]. destruct rs; [|constructor].
  match goal with Hx : Forall _ [_; _; _] |- _ => rewrite !Forall_cons, !hasTag_tag in Hx by reflexivity; destruct_and! Hx end.
  by repeat constructor.
Qed.

Lemma matchesExactly_pairs tags role rs r :
  OpenStackProjectID (pr_identity r) <> "" -> matchesExactly tags role rs r = true ->
  tagValues tags "managed" = ["true"] /\ Forall (carries tags) (identityPairs (pr_identity r) role rs).
Proof.
  intros Hp Hm. unfold matchesExactly in Hm. apply andb_true_iff in Hm as [_ Hm]. destruct rs.
  - apply MatchesRoute_spec in Hm as (_ & _ & Hm). by apply hasTags_pairs.
  - apply MatchesGateway_spec in Hm as (_ & Hm). apply hasTags_pairs; [done|]. by rewrite app_nil_r.
Qed.

Definition identityTagProblem (tags : list string) (key : string) : outcome_of unit :=
  let '(value, ok) := singleAuditTagValue tags key in
  if negb ok || String.eqb value ""
  then Err (Errorf "resource has a missing or duplicate %s identity tag" [key] None)
  else if String.eqb key "managed" && negb (String.eqb value "true")
  then Err (Errorf "resource managed identity tag is not true" [] None)
  else if negb (String.eqb key "managed") && negb (validAuditEncodedValue value)
  then Err (Errorf "resource has an invalid %s identity tag" [key] None)
  else Ok tt.

Lemma identityTagProblem_pair tags key v :
  carries tags (key, v) -> v <> "" -> utf8Head v -> identityTagProblem tags key = Ok tt \/ key = "managed".
Proof.
  intros Hc Hv Ha. unfold carries in Hc. cbn [fst snd] in Hc. unfold identityTagProblem. rewrite (singleAuditTagValue_one _ _ _ Hc). cbn [negb orb snd fst].
  rewrite (proj2 (String.eqb_neq _ _) (tagValue_nonempty key v Hv)).
  destruct (String.eqb_spec key "managed"); [by right|]. cbn [andb negb]. rewrite validAuditEncodedValue_tag by done. by left.
Qed.

Lemma validateAuditIdentityTags_ok tags id role rs :
  writable id rs -> role <> "" -> utf8Head role ->
  tagValues tags "managed" = ["true"] -> Forall (carries tags) (identityPairs id role rs) ->
  validateAuditIdentityTags tags rs = Ok tt.
Proof.
  intros Hw Hr Har Hm Hc. change (forM_ (identityTagProblem tags)
    (gatewayIdentityKeys ++ ["role"] ++ (if rs then routeIdentityKeys else [])) = Ok tt).
  apply forM_ok. assert (identityTagProblem tags "managed" = Ok tt).
  { unfold identityTagProblem. by rewrite (singleAuditTagValue_one _ _ _ Hm). }
  assert (forall key v, carries tags (key, v) -> v <> "" -> utf8Head v -> key <> "managed" ->
    identityTagProblem tags key = Ok tt) as Hk.
  { intros key v H1 H2 H3 H4. by destruct (identityTagProblem_pair tags key v H1 H2 H3). }
  unfold writable, identityPairs in *. rewrite Forall_app, !Forall_cons in Hw. rewrite Forall_app, !Forall_cons in Hc.
  destruct_and! Hw. destruct_and! Hc.
  unfold gatewayIdentityKeys, routeIdentityKeys. rewrite !Forall_app.
  split; [|split].
  - repeat (apply Forall_cons; split); try done; by eapply Hk.
  - apply Forall_cons. split; [by eapply Hk|constructor].
  - destruct rs; [|constructor].
    repeat match goal with Hx : Forall _ (_ :: _) |- _ => apply Forall_cons in Hx as [? Hx] end. destruct_and?.
    repeat (apply Forall_cons; split); try constructor; by eapply Hk.
Qed.

(** ** The theorem *)

Section agreement.
Context `{ForeignTexts} (s : auditCandidateSet) (records : list preparedAuditRecord) (scope : Scope).
Let scopeTags := ScopeTags (sc_ClusterID scope) (sc_ControllerName scope).
Let project := sc_OpenStackProjectID scope.

Lemma scopeTags_carried tags id role rs :
  inScope scope id -> tagValues tags "managed" = ["true"] -> Forall (carries tags) (identityPairs id role rs) ->
  HasAllTags tags scopeTags = true /\ HasAllTags tags [tag "project" project] = true.
Proof.
  intros (H1 & H2 & H3) Hm Hc. unfold identityPairs in Hc. rewrite Forall_app, !Forall_cons in Hc. destruct_and! Hc.
  unfold carries in *. cbn [fst snd] in *. unfold HasAllTags, scopeTags, ScopeTags, project. rewrite <- H1, <- H2, <- H3.
  rewrite !containsAll_spec, !Forall_cons, hasTag_managed, !hasTag_tag by reflexivity. split; [split_and!; try done; constructor|].
  split; [done|constructor].
Qed.

Lemma typeRoles_plain t role : t ∈ auditTypes -> role ∈ typeRoles t -> role <> "" /\ utf8Head role /\ t <> auditTypeFloatingIP.
Proof.
  intros Ht Hr. each_type Ht; subst t; cbn in Hr; rewrite ?elem_of_cons, elem_of_nil in Hr; destruct_or? Hr; subst; (split_and!; [done|by left|done]).
Qed.

Lemma uniqueRecords_sole (P : preparedAuditRecord -> bool) r :
  r ∈ records -> P r = true -> (forall y, y ∈ records -> P y = true -> sameOwner r y = true) ->
  exists x, uniqueRecords (List.filter P records) = [x].
Proof.
  intros Hr HP Hall. destruct (uniqueRecords (List.filter P records)) as [|x [|y l]] eqn:E.
  - apply uniqueRecords_nil in E. assert (r ∈ List.filter P records) as Hin by by apply filter_elem. rewrite E in Hin. set_solver.
  - by exists x.
  - exfalso. pose proof (uniqueRecords_distinct (List.filter P records)) as Hd. rewrite E in Hd.
    destruct Hd as [Hd _]. apply Forall_inv in Hd.
    destruct (uniqueRecords_sound (List.filter P records) x) as (x' & Hx' & Hs); [rewrite E; set_solver|].
    destruct (uniqueRecords_sound (List.filter P records) y) as (y' & Hy' & Hs'); [rewrite E; set_solver|].
    apply filter_elem in Hx' as [? ?], Hy' as [? ?].
    assert (sameOwner x' y' = true) as Hsame by (eapply sameOwner_trans; [apply sameOwner_sym|]; by apply Hall).
    destruct Hs as (E1 & _), Hs' as (E2 & _). unfold sameOwner in Hsame. rewrite <- E1, <- E2 in Hsame.
    unfold sameOwner in Hd. congruence.
Qed.

(** The place of the candidate in the graph gives no cause for doubt. *)
Definition soundPlace (c : auditCandidate) : Prop :=
  blank (c_id c) = false /\ c_observationChanged c = false /\ candidateProject c = project /\
  snd (auditCandidateParent c) = "" /\ (forall f, auditGraphProblem s c (fst (auditCandidateParent c)) f = None) /\
  (auditResourceNeedsParent (c_resourceType c) = true ->
   fst (auditCandidateParent c) <> "" /\ auditParentExists s (c_resourceType c) (fst (auditCandidateParent c)) = true).

(** C31. The audit and the controller agree about ownership: a resource whose
    tags the controller accepts for a bound Gateway or HTTPRoute, and for no
    other binding, is classified as matched when its place in the graph is
    sound. The binding is in the scope of the audit, and its identity fields are
    present and start with bytes that a UTF-8 text can start with, which
    Kubernetes guarantees for names and UIDs and the configuration has to for
    the cluster ID. *)
Theorem controller_owned_resources_are_matched c role r :
  c_resourceType c ∈ auditTypes -> role ∈ typeRoles (c_resourceType c) ->
  r ∈ records -> inScope scope (pr_identity r) -> writable (pr_identity r) (routeScopedType (c_resourceType c)) ->
  matchesExactly (c_tags c) role (routeScopedType (c_resourceType c)) r = true ->
  (forall y, y ∈ records -> matchesExactly (c_tags c) role (routeScopedType (c_resourceType c)) y = true ->
     sameOwner r y = true) ->
  soundPlace c ->
  f_Disposition (classifyAuditCandidate s c records scopeTags project) = DispositionMatched.
Proof.
  intros Ht Hrole Hr Hin Hw Hm Hsole (Hid & Hch & Hpr & Hpar & Hg & Hneeds).
  destruct (typeRoles_plain _ _ Ht Hrole) as (Hne & Ha & Hfip).
  assert (OpenStackProjectID (pr_identity r) <> "") as Hproj
    by (unfold writable in Hw; rewrite Forall_app, !Forall_cons in Hw; tauto).
  destruct (matchesExactly_pairs _ _ _ _ Hproj Hm) as [Hman Hcar].
  destruct (scopeTags_carried _ _ _ _ Hin Hman Hcar) as [Hst Hpt].
  assert (tagValues (c_tags c) "role" = [tagValue "role" role]) as Hrv.
  { unfold identityPairs in Hcar. rewrite Forall_app, !Forall_cons in Hcar. unfold carries in Hcar. cbn [fst snd] in Hcar. tauto. }
  unfold classifyAuditCandidate. destruct (auditCandidateParent c) as [parent reason]. cbn [fst snd] in Hpar, Hg, Hneeds.
  cbn zeta. rewrite Hid, Hch, Hpr, Hpar. assert (project <> "") as Hpn by (destruct Hin as (_ & _ & E); unfold project; by rewrite <- E).
  rewrite (proj2 (String.eqb_neq _ _) Hpn), String.eqb_refl, (proj2 (String.eqb_neq _ _) Hfip). cbn [negb String.eqb].
  rewrite Hst, (auditCandidateRole_ok _ _ role), (validateAuditIdentityTags_ok _ (pr_identity r) role), Hpt, Hg by done.
  cbn [negb]. unfold auditVerdict. rewrite matchingAuditRecords_eq.
  destruct (uniqueRecords_sole (matchesExactly (c_tags c) role (routeScopedType (c_resourceType c))) r) as [x Hx]; [done..|].
  rewrite Hx. cbn zeta. destruct (auditResourceNeedsParent _); [|done]. destruct (Hneeds eq_refl) as [H1 H2].
  by rewrite (proj2 (String.eqb_neq _ _) H1), H2.
Qed.
End agreement.
