(* ===== verification/FindingFacts.v ===== *)
(** * Findings that can be reported

    Every finding of the classification has a reason, a message and one of the
    five dispositions, and names only objects of the records it was given: what
    [validateInventory] requires of a finding, apart from the resource's ID, which
    is OpenStack's. *)
From stdpp Require Import base list strings gmap.
From Stdlib Require Import ZArith NArith Lia Ascii.
From S2P Require Import Prelude GoStrings Cloud ApiErrors Metadata OpenStack KubeClient AuditReport AuditFacts Inventory InventoryFacts Classification ClassificationFacts AuditPropagation AuditVerdicts ScanFacts.

Set Default Goal Selector "!".

(** ** The objects of records *)

Section objects.
Context (P : ObjectReference -> Prop).

Definition objectsOf (r : preparedAuditRecord) : list ObjectReference := rec_Objects (pr_record r).

Lemma SortObjectReferences_Forall l : Forall P l -> Forall P (SortObjectReferences l).
Proof. rewrite !Forall_forall. intros Hl o Ho%SortObjectReferences_sub. by apply Hl. Qed.

Lemma appendUnique_objects l x :
  Forall (fun r => Forall P (objectsOf r)) l -> Forall P (objectsOf x) ->
  Forall (fun r => Forall P (objectsOf r)) (appendUniqueAuditRecord l x).
Proof.
  intros Hl Hx. induction Hl as [|r l Hr Hl IH]; cbn [appendUniqueAuditRecord]; [by repeat constructor|].
  destruct (sameAuditOwnershipIdentity _ _); constructor; try done.
  apply SortObjectReferences_Forall. apply Forall_app. by split.
Qed.

Lemma uniqueRecords_objects l :
  Forall (fun r => Forall P (objectsOf r)) l -> Forall (fun r => Forall P (objectsOf r)) (uniqueRecords l).
Proof.
  unfold uniqueRecords. induction l as [|x l IH] using rev_ind; [done|].
  rewrite Forall_app, Forall_cons, foldl_snoc. intros (Hl & Hx & _). by apply appendUnique_objects; [apply IH|].
Qed.

Lemma filter_Forall {A} (Q : A -> Prop) (f : A -> bool) l : Forall Q l -> Forall Q (List.filter f l).
Proof. induction 1; cbn; [constructor|]. case_match; [by constructor|done]. Qed.

Lemma auditObjects_Forall l : Forall (fun r => Forall P (objectsOf r)) l -> Forall P (auditObjects l).
Proof. intros Hl. apply SortObjectReferences_Forall. induction Hl; cbn; [constructor|]. by apply Forall_app. Qed.
End objects.

(** ** Stated findings *)

Definition stated (P : ObjectReference -> Prop) (f : ResourceFinding) : Prop :=
  blank (f_Reason f) = false /\ blank (f_Message f) = false /\ knownDisposition (f_Disposition f) = true /\
  Forall P (f_Objects f).

Lemma stated_finding P f d r m :
  Forall P (f_Objects f) -> knownDisposition d = true -> blank r = false -> blank m = false ->
  stated P (auditFinding f d r m).
Proof. intros. by split_and!. Qed.

Ltac stated := apply stated_finding; [try done|reflexivity|reflexivity|try reflexivity].

Section findings.
Context `{ForeignTexts} (P : ObjectReference -> Prop) (s : auditCandidateSet) (records : list preparedAuditRecord)
  (scopeTags : list string) (project : string).
Hypothesis records_objects : Forall (fun r => Forall P (objectsOf r)) records.

Lemma parentReason_stated c : snd (auditCandidateParent c) <> "" -> blank (snd (auditCandidateParent c)) = false.
Proof. unfold auditCandidateParent. repeat case_match; cbn; (done || reflexivity). Qed.

Lemma auditCandidateRole_stated t tags e : auditCandidateRole t tags = Err e -> blank (errorText e) = false.
Proof.
  unfold auditCandidateRole. destruct (singleAuditTagValue _ _) as [v [|]]; cbn [negb]; [|intros [= <-]; reflexivity].
  destruct (DecodeString v); [|intros [= <-]; reflexivity]. cbn zeta.
  match goal with |- (let '(_, _) := ?x in _) = _ -> _ => destruct x as [[|] rs] end; [done|]. intros [= <-]. reflexivity.
Qed.

Lemma validateAuditIdentityTags_stated tags rs e :
  validateAuditIdentityTags tags rs = Err e -> blank (errorText e) = false.
Proof.
  intros (l1 & key & l2 & Hl & He & _)%forM_err.
  assert (key ∈ gatewayIdentityKeys ++ ["role"] ++ routeIdentityKeys) as Hk.
  { assert (key ∈ gatewayIdentityKeys ++ ["role"] ++ (if rs then routeIdentityKeys else [])) as Hin
      by (rewrite Hl; set_solver). destruct rs; set_solver. }
  destruct (singleAuditTagValue tags key) as [v ok]. cbn in Hk.
  repeat (apply elem_of_cons in Hk as [->|Hk]; [repeat (case_match; try done); simplify_eq; reflexivity|]).
  by apply elem_of_nil in Hk.
Qed.

Lemma validateAuditParentIdentity_stated c parent e :
  validateAuditParentIdentity s c parent = Err e -> blank (errorText e) = false.
Proof. unfold validateAuditParentIdentity. repeat case_match; try done; intros [= <-]; reflexivity. Qed.

Lemma validateAuditPolicyPool_stated c pool e : validateAuditPolicyPool s c pool = Err e -> blank (errorText e) = false.
Proof. unfold validateAuditPolicyPool. repeat case_match; try done; intros [= <-]; reflexivity. Qed.

Lemma exactGatewayRecords_objects d b : Forall P (auditObjects (exactGatewayRecords records d b)).
Proof. apply auditObjects_Forall. apply (uniqueRecords_objects P (List.filter _ records)). by apply filter_Forall. Qed.

Lemma floatingIP_stated c f : Forall P (f_Objects f) -> stated P (classifyAuditFloatingIP s c f records).
Proof.
  intros Hf. unfold classifyAuditFloatingIP. cbn zeta. destruct (negb _); [stated|].
  pose proof (exactGatewayRecords_objects (c_description c) false) as H1.
  pose proof (exactGatewayRecords_objects (c_description c) true) as H2.
  destruct (exactGatewayRecords _ _ false) as [|? [|? ?]]; [|..|stated].
  - destruct (exactGatewayRecords _ _ true); repeat case_match; stated.
  - repeat case_match; stated.
Qed.

Lemma graphProblem_stated c parent f problem :
  Forall P (f_Objects f) -> auditGraphProblem s c parent f = Some problem -> stated P problem.
Proof.
  intros Hf. unfold auditGraphProblem. cbn zeta. do 3 (destruct (_ && _); [intros [= <-]; stated|]).
  destruct (if String.eqb parent "" then _ else _) as [|e] eqn:Ev.
  2: { intros [= <-]. stated. destruct (String.eqb parent ""); [done|]. by apply validateAuditParentIdentity_stated in Ev. }
  destruct (negb _); [done|]. destruct (String.eqb (c_redirectPoolID c) ""); [intros [= <-]; stated|].
  destruct (negb _); [intros [= <-]; stated|].
  destruct (validateAuditPolicyPool _ _ _) as [|e] eqn:Ep; [done|]. intros [= <-]. stated.
  by apply validateAuditPolicyPool_stated in Ep.
Qed.

Lemma matching_objects tags role rs :
  let '(exact, discovery, routeGateway) := matchingAuditRecords records tags role rs in
  Forall P (auditObjects exact) /\ Forall P (auditObjects discovery) /\ Forall P (auditObjects routeGateway).
Proof.
  rewrite matchingAuditRecords_eq. split_and!; apply auditObjects_Forall, uniqueRecords_objects; by apply filter_Forall.
Qed.

Lemma verdict_stated c parent role rs matches f :
  (let '(exact, discovery, routeGateway) := matches in
   Forall P (auditObjects exact) /\ Forall P (auditObjects discovery) /\ Forall P (auditObjects routeGateway)) ->
  Forall P (f_Objects f) -> stated P (auditVerdict s c parent role rs matches f).
Proof.
  destruct matches as [[exact discovery] routeGateway]. intros (H1 & H2 & H3) Hf. unfold auditVerdict.
  destruct exact as [|? [|? ?]]; [|..|stated].
  - destruct (_ && _); [stated|]. destruct discovery as [|? [|? ?]]; [stated| |stated]. cbn zeta. case_match; stated.
  - cbn zeta. case_match; stated.
Qed.

Lemma classify_stated c : stated P (classifyAuditCandidate s c records scopeTags project).
Proof.
  unfold classifyAuditCandidate. pose proof (parentReason_stated c) as Hreason.
  destruct (auditCandidateParent c) as [parent reason]. cbn [snd] in Hreason. cbn zeta.
  set (f := mkResourceFinding _ _ _ _ _ _ _ _ _ _). assert (Forall P (f_Objects f)) as Hf by constructor. clearbody f.
  destruct (blank (c_id c)); [stated|]. destruct (c_observationChanged c); [stated|].
  destruct (String.eqb (candidateProject c) ""); [stated|]. destruct (String.eqb (candidateProject c) project); [|stated].
  cbn [negb]. destruct (String.eqb_spec reason "") as [_|]; cbn [negb].
  2: { stated. by apply Hreason. }
  destruct (String.eqb _ auditTypeFloatingIP); [by apply floatingIP_stated|]. destruct (negb _); [stated|].
  destruct (auditCandidateRole _ _) as [[role rs]|e] eqn:Er; [|stated; by apply auditCandidateRole_stated in Er].
  destruct (validateAuditIdentityTags _ _) as [|e] eqn:Ev; [|stated; by apply validateAuditIdentityTags_stated in Ev].
  destruct (negb _); [stated|]. pose proof (matching_objects (c_tags c) role rs) as Hm.
  assert (Forall P (f_Objects (auditMatchObjects (matchingAuditRecords records (c_tags c) role rs) (withRole f role)))) as Ho.
  { revert Hm. destruct (matchingAuditRecords _ _ _ _) as [[[|? ?] [|? ?]] [|? ?]]; intros (? & ? & ?); first [exact Hf|assumption]. }
  destruct (auditGraphProblem _ _ _ _) as [problem|] eqn:Eg; [by eapply graphProblem_stated|by apply verdict_stated].
Qed.

Lemma applyParents_stated g parents f : stated P f -> stated P (applyParents g parents f).
Proof.
  intros Hf. induction parents as [|[t i] rest IH]; cbn [applyParents]; [done|].
  destruct (_ || _); [done|]. destruct (g _) as [q|]; [|done]. destruct (f_Disposition q); try done; stated; apply Hf.
Qed.

Lemma findings_stated order f :
  wellKeyed s -> order ≡ₚ candidateValues s ->
  f ∈ classifyAuditCandidates order s records scopeTags project -> stated P f.
Proof.
  intros Hs Hp (x & Hx & ->)%findings_elem; [|done..].
  assert (stated P (cl_finding x)) as Hst.
  { unfold classifiedMarked, markDuplicateAuditIdentities in Hx. apply list_elem_of_fmap in Hx as (b & -> & Hb).
    apply list_elem_of_fmap in Hb as (c & -> & _). cbn zeta. destruct (_ || _); [apply classify_stated|].
    cbn [setFinding cl_finding]. stated. apply classify_stated. }
  assert (stated P (settled (classifiedMarked s records scopeTags project order) x)) as Hse.
  { unfold settled. cbn [settle]. destruct (matched _); [by apply applyParents_stated|done]. }
  destruct Hse as (? & ? & ? & Ho). split_and!; [done..|]. by apply SortObjectReferences_Forall.
Qed.
End findings.
