(* ===== verification/CollectorFacts.v ===== *)
(** * The Kubernetes side of the audit

    The snapshot of the collector: one record for each Gateway and route with a
    valid binding, one issue for each with an invalid one, and nothing else; and
    the report's validation accepts it. *)
From stdpp Require Import base list strings gmap.
From Stdlib Require Import ZArith NArith Lia Ascii.
From S2P Require Import Prelude GoStrings Cloud Kube KubeObjects References Metadata OpenStack ProgramLogic Outcomes Binding BindingFacts KubeClient AuditReport AuditFacts Inventory Classification OwnershipAudit.

Set Default Goal Selector "!".

Section collector.
Context `{ControllerUtil, !ControllerUtilLaws} (config : Config).

Definition gatewayRecord (g : Gateway) : option OwnershipRecord :=
  if GatewayHasControllerBinding config (gw_Meta g) then
    match ValidateGatewayBinding config (gw_Meta g), ValidateGatewayIdentity (StoredGatewayIdentity config (gw_Meta g)) with
    | Ok _, Ok _ => Some (mkOwnershipRecord (StoredGatewayIdentity config (gw_Meta g)) [gatewayAuditReference g])
    | _, _ => None
    end
  else None.
Definition gatewayIssue (g : Gateway) : option KubernetesIssue :=
  if GatewayHasControllerBinding config (gw_Meta g) then
    match gatewayRecord g with Some _ => None | None => Some (invalidBindingIssue (gatewayAuditReference g)) end
  else None.
Definition routeRecord (r : HTTPRoute) : option OwnershipRecord :=
  if RouteHasControllerBinding config (hr_Meta r) then
    match StoredRouteIdentity config (hr_Meta r) with
    | Ok (Some id) => Some (mkOwnershipRecord id [routeAuditReference r])
    | _ => None
    end
  else None.
Definition routeIssue (r : HTTPRoute) : option KubernetesIssue :=
  if RouteHasControllerBinding config (hr_Meta r) then
    match routeRecord r with Some _ => None | None => Some (invalidBindingIssue (routeAuditReference r)) end
  else None.

Lemma foldl_collect {A} (record : A -> option OwnershipRecord) (issue : A -> option KubernetesIssue)
    (f : KubernetesSnapshot -> A -> KubernetesSnapshot) acc l :
  (forall s x, f s x = mkKubernetesSnapshot (sn_Records s ++ option_list (record x)) (sn_Issues s ++ option_list (issue x))) ->
  foldl f acc l = mkKubernetesSnapshot (sn_Records acc ++ omap record l) (sn_Issues acc ++ omap issue l).
Proof.
  intros Hf. revert acc. induction l as [|x l IH]; intros acc; cbn [foldl omap list_omap].
  - rewrite !app_nil_r. by destruct acc.
  - rewrite IH, Hf. cbn [sn_Records sn_Issues]. rewrite <- !app_assoc. f_equal; f_equal.
    + by destruct (record x).
    + by destruct (issue x).
Qed.

Lemma collectGateway_eq s g :
  collectGateway config s g =
  mkKubernetesSnapshot (sn_Records s ++ option_list (gatewayRecord g)) (sn_Issues s ++ option_list (gatewayIssue g)).
Proof.
  unfold collectGateway, gatewayIssue, gatewayRecord. cbn zeta.
  destruct (GatewayHasControllerBinding _ _); cbn [negb]; [|cbn; rewrite !app_nil_r; by destruct s].
  destruct (ValidateGatewayBinding _ _); [|cbn; by rewrite app_nil_r].
  destruct (ValidateGatewayIdentity _); cbn; by rewrite app_nil_r.
Qed.

Lemma collectRoute_eq s r :
  collectRoute config s r =
  mkKubernetesSnapshot (sn_Records s ++ option_list (routeRecord r)) (sn_Issues s ++ option_list (routeIssue r)).
Proof.
  unfold collectRoute, routeIssue, routeRecord. cbn zeta.
  destruct (RouteHasControllerBinding _ _); cbn [negb]; [|cbn; rewrite !app_nil_r; by destruct s].
  destruct (StoredRouteIdentity _ _) as [[id|]|]; cbn; by rewrite app_nil_r.
Qed.

Definition sortedRecord (r : OwnershipRecord) : OwnershipRecord :=
  mkOwnershipRecord (rec_Identity r) (SortObjectReferences (rec_Objects r)).

Lemma snapshotOf_perm gateways routes :
  sn_Records (snapshotOf config gateways routes) ≡ₚ sortedRecord <$> (omap gatewayRecord gateways ++ omap routeRecord routes) /\
  sn_Issues (snapshotOf config gateways routes) ≡ₚ omap gatewayIssue gateways ++ omap routeIssue routes.
Proof.
  unfold snapshotOf. rewrite (foldl_collect routeRecord routeIssue) by apply collectRoute_eq.
  rewrite (foldl_collect gatewayRecord gatewayIssue) by apply collectGateway_eq.
  unfold sortOwnershipSnapshot. cbn [sn_Records sn_Issues app]. split; [apply SortFunc_perm|apply SortFunc_perm].
Qed.

(** ** The report accepts the snapshot *)

Definition auditScope : Scope := mkScope (cfg_ClusterID config) (cfg_ControllerName config) (cfg_OpenStackProjectID config).

(** The API server names every object and gives it a UID. *)
Definition named (meta : ObjectMeta) : Prop := blank (om_Name meta) = false /\ blank (om_UID meta) = false.

Lemma auditReference_valid kind meta :
  named meta -> blank kind = false -> validateObjectReference (auditReference kind meta) = Ok tt.
Proof. intros [Hn Hu] Hk. apply validateObjectReference_ok. by split_and!. Qed.

Lemma gatewayRecord_identity g r :
  gatewayRecord g = Some r ->
  ValidateGatewayBinding config (gw_Meta g) = Ok tt /\
  r = mkOwnershipRecord (GatewayIdentity config (gw_Meta g)) [gatewayAuditReference g] /\
  ValidateGatewayIdentity (GatewayIdentity config (gw_Meta g)) = Ok tt.
Proof.
  unfold gatewayRecord. destruct (GatewayHasControllerBinding _ _); [|done].
  destruct (ValidateGatewayBinding config (gw_Meta g)) as [[]|] eqn:Ev; [|done].
  rewrite (ValidateGatewayBinding_identity config _ Ev). destruct (ValidateGatewayIdentity _) as [[]|] eqn:Ei; [|done].
  by intros [= <-].
Qed.

Lemma gatewayRecord_wellFormed g r :
  named (gw_Meta g) -> gatewayRecord g = Some r -> wellFormedRecord auditScope (sortedRecord r).
Proof.
  intros Hn (_ & -> & Hi)%gatewayRecord_identity. split; [done|]. split; [done|].
  exists (gatewayAuditReference g). split_and!; [done|by apply auditReference_valid|].
  change (isRouteIdentity _) with false. unfold objectMatchesIdentity. cbn. by rewrite !String.eqb_refl.
Qed.

Lemma routeRecord_identity route r :
  routeRecord route = Some r ->
  exists id, StoredRouteIdentity config (hr_Meta route) = Ok (Some id) /\ r = mkOwnershipRecord id [routeAuditReference route].
Proof.
  unfold routeRecord. destruct (RouteHasControllerBinding _ _); [|done].
  destruct (StoredRouteIdentity _ _) as [[id|]|]; [|done..]. intros [= <-]. eauto.
Qed.

Lemma isRouteIdentity_valid id : ValidateRouteIdentity id = Ok tt -> isRouteIdentity id = true.
Proof.
  rewrite ValidateRouteIdentity_ok. intros (_ & Hn & _). unfold isRouteIdentity.
  by rewrite (proj2 (String.eqb_neq _ _) Hn).
Qed.

Lemma routeRecord_wellFormed route r :
  named (hr_Meta route) -> routeRecord route = Some r -> wellFormedRecord auditScope (sortedRecord r).
Proof.
  intros Hn (id & (He & Hc & Hp & Hv & _)%StoredRouteIdentity_some & ->)%routeRecord_identity; [|done..].
  unfold wellFormedRecord, validIdentity. cbn [rec_Identity sortedRecord]. rewrite (isRouteIdentity_valid id Hv).
  split; [|split; [done|]].
  - unfold inScope, auditScope. cbn. split_and!; [done| |done]. by rewrite He.
  - exists (routeAuditReference route). split_and!; [done|by apply auditReference_valid|].
    unfold objectMatchesIdentity. rewrite He. cbn. by rewrite !String.eqb_refl.
Qed.

Lemma issue_wellFormed object : validateObjectReference object = Ok tt -> wellFormedIssue (invalidBindingIssue object).
Proof. intros Ho. by split_and!. Qed.

Lemma snapshotOf_valid gateways routes :
  Forall (fun g => named (gw_Meta g)) gateways -> Forall (fun r => named (hr_Meta r)) routes ->
  validateSnapshot auditScope (snapshotOf config gateways routes) = Ok tt.
Proof.
  intros Hg Hr. rewrite Forall_forall in Hg. rewrite Forall_forall in Hr. apply validateSnapshot_ok. destruct (snapshotOf_perm gateways routes) as [H1 H2].
  rewrite H1, H2, Forall_fmap, !Forall_app, !Forall_forall. split_and!; intros x (y & Hy & Hx)%list_elem_of_omap; cbn.
  - eapply gatewayRecord_wellFormed; [by apply Hg|done].
  - eapply routeRecord_wellFormed; [by apply Hr|done].
  - unfold gatewayIssue in Hx. destruct (GatewayHasControllerBinding _ _); [|done].
    destruct (gatewayRecord y); [done|]. injection Hx as <-.
    apply issue_wellFormed, auditReference_valid; [by apply Hg|done].
  - unfold routeIssue in Hx. destruct (RouteHasControllerBinding _ _); [|done].
    destruct (routeRecord y); [done|]. injection Hx as <-.
    apply issue_wellFormed, auditReference_valid; [by apply Hr|done].
Qed.

(** The scan accepts the records of the snapshot. *)
Lemma wellFormed_prepared scope l :
  Forall (wellFormedRecord scope) l -> exists records, prepareAuditRecords scope l = Ok records.
Proof.
  unfold prepareAuditRecords. rewrite <- (imap_pair_snd l) at 1. generalize (imap pair l). clear l. intros entries.
  enough (forall acc, Forall (wellFormedRecord scope) entries.*2 -> exists records,
    foldM (fun prepared entry => let? record := prepareAuditRecord scope (fst entry) (snd entry) in
                                 Ok (prepared ++ [record])) acc entries = Ok records) as Hgen by apply Hgen.
  induction entries as [|[i r] entries IH]; intros acc; cbn [foldM]; [eauto|].
  rewrite fmap_cons, Forall_cons. cbn [snd]. intros [((Hc & Hn & Hp) & Hv & _) Hall]. cbn [fst snd].
  unfold prepareAuditRecord. rewrite Hc, Hn, Hp, !String.eqb_refl. cbn [andb].
  unfold validIdentity in Hv. assert (ValidateGatewayIdentity (rec_Identity r) = Ok tt) as Hg.
  { destruct (isRouteIdentity _); [by apply ValidateRouteIdentity_ok in Hv as [? _]|done]. }
  cbn [snd] in *. rewrite Hv. unfold NewIdentity. rewrite Hg. cbn [annotate rbind]. by apply IH.
Qed.

Lemma CollectOwnershipSnapshot_inv from tr snapshot :
  exec (CollectOwnershipSnapshot config (Some from)) tr (Ok snapshot) ->
  exists gateways routes, tr = [Ev (ReqKube (KListAllGateways from)) (Ok gateways);
                                Ev (ReqKube (KListHTTPRoutes from None None)) (Ok routes)] /\
    snapshot = snapshotOf config gateways routes /\ ScopeValidate auditScope = Ok tt.
Proof.
  unfold CollectOwnershipSnapshot, validateOwnershipSnapshotConfig. intros Hx.
  apply exec_mbind_ok in Hx as (t1 & t2 & [] & -> & [-> Hv] & Hx).
  apply exec_mbind_ok in Hx as (t3 & t4 & gateways & -> & Hg%exec_onError_ok & Hx).
  apply exec_mbind_ok in Hx as (t5 & t6 & routes & -> & Hr%exec_onError_ok & [-> [= ->]]).
  destruct Hg as (x & tr' & -> & -> & <-), Hr as (y & tr'' & -> & -> & <-).
  exists gateways, routes. split_and!; [done|done|]. destruct (IsValidControllerName _); [|done].
  symmetry in Hv. by apply annotate_ok in Hv.
Qed.
End collector.
