(* ===== verification/AuditSystemFacts.v ===== *)
(** * The audit from end to end

    The collector, the scan and the report together: the report is built exactly
    when every resource has an ID, a clean exit means that every binding is valid
    and every listed resource has its owner, and a reported orphan belongs to none
    of the objects in the cluster. *)
From stdpp Require Import base list strings gmap.
From Stdlib Require Import ZArith NArith Lia Ascii.
From S2P Require Import Prelude GoStrings Cloud Kube KubeObjects ApiErrors References Metadata OpenStack ProgramLogic Outcomes Binding BindingFacts KubeClient AuditReport AuditFacts Inventory InventoryFacts Classification ClassificationFacts AuditPropagation AuditVerdicts ScanFacts FindingFacts OwnershipAudit CollectorFacts.

Set Default Goal Selector "!".

(** ** The inventory of a scan can be reported *)

Section reported.
Context `{ForeignTexts} (p : Scanner) (scope : Scope) (ownership : list OwnershipRecord).

Lemma prepared_objects records :
  Forall (wellFormedRecord scope) ownership -> Forall2 (prepares scope) ownership records ->
  Forall (fun r => Forall (fun o => validateObjectReference o = Ok tt) (objectsOf r)) records.
Proof.
  intros Hw Hp. induction Hp as [|o r l l' Ho Hp IH]; [constructor|]. apply Forall_cons in Hw as [Hw1 Hw2].
  constructor; [|by apply IH]. destruct Ho as (_ & _ & ->). apply SortObjectReferences_Forall. cbn.
  destruct Hw1 as (_ & _ & object & -> & Hv & _). by repeat constructor.
Qed.

Lemma scanned_inventory_valid tr inv :
  Forall (wellFormedRecord scope) ownership -> exec (Scan p scope ownership) tr (Ok inv) ->
  validateInventory inv = Ok tt <-> Forall (fun f => blank (f_ID f) = false) (inv_Resources inv).
Proof.
  intros Hw (records & s & _ & _ & Hpr & Hc & ->)%Scan_inv. rewrite validateInventory_ok. cbn [inv_Resources inv_Limitations].
  apply collectCandidates_traced in Hc as (Hs & _ & _). apply prepareAuditRecords_ok in Hpr.
  set (l := classifyAuditCandidates _ _ _ _ _).
  destruct (findings_candidates s records (ScopeTags (sc_ClusterID scope) (sc_ControllerName scope))
    (sc_OpenStackProjectID scope) Hs) as (H1 & _ & H3). fold l in H1, H3. split.
  - intros (Hf & _ & _). eapply Forall_impl; [exact Hf|]. unfold completeFinding. tauto.
  - intros Hid. split_and!; [|done|by repeat constructor]. rewrite Forall_forall in Hid |- *. intros f Hf.
    destruct (findings_stated _ s records (ScopeTags (sc_ClusterID scope) (sc_ControllerName scope))
      (sc_OpenStackProjectID scope) (prepared_objects records Hw Hpr) _ f Hs (reflexivity _) Hf) as (Hr & Hm & Hd & Ho).
    destruct (H1 f Hf) as (c & Hcs & (Hsv & Hty & _)). destruct (candidateValues_known s c Hs Hcs) as [Hkn Hse].
    unfold completeFinding. rewrite Hsv, Hty, Hse. split_and!; try done; [..|by apply Hid];
      (clear -Hkn; each_type Hkn; rewrite Hkn; reflexivity).
Qed.
End reported.

(** ** The command *)

Section command.
Context `{ControllerUtil, !ControllerUtilLaws} `{ForeignTexts} (version : string).

(** C33. Whatever the cluster and OpenStack hold, what the collector and the
    scan return is accepted by the report, except in one case: the report is
    built exactly when every resource of the inventory reports an ID. *)
Theorem audit_report_is_built config from tr snapshot scanner tr' inv now :
  exec (CollectOwnershipSnapshot config (Some from)) tr (Ok snapshot) ->
  exec (Scan scanner (auditScope config) (sn_Records snapshot)) tr' (Ok inv) ->
  (forall gateways, Ev (ReqKube (KListAllGateways from)) (Ok gateways) ∈ tr -> Forall (fun g => named (gw_Meta g)) gateways) ->
  (forall routes, Ev (ReqKube (KListHTTPRoutes from None None)) (Ok routes) ∈ tr -> Forall (fun r => named (hr_Meta r)) routes) ->
  now <> 0%Z -> blank version = false ->
  (exists report, BuildReport now version (auditScope config) snapshot inv = Ok report) <->
  Forall (fun f => blank (f_ID f) = false) (inv_Resources inv).
Proof.
  intros (gateways & routes & -> & -> & Hsc)%CollectOwnershipSnapshot_inv Hscan Hg Hr Hnow Hver; [|done..].
  assert (validateSnapshot (auditScope config) (snapshotOf config gateways routes) = Ok tt) as Hv.
  { apply snapshotOf_valid; [apply Hg; set_solver|apply Hr; set_solver]. }
  rewrite BuildReport_ok. unfold reportable.
  assert (Forall (wellFormedRecord (auditScope config)) (sn_Records (snapshotOf config gateways routes))) as Hw
    by by apply validateSnapshot_ok in Hv as [? _].
  rewrite (scanned_inventory_valid _ _ _ _ _ Hw Hscan). tauto.
Qed.

Definition auditConfig (options : commandOptions) (projectID : string) : Config :=
  mkConfig (co_controllerName options) version projectID (co_clusterID options) "" "" "" "" "" "" "" 0.

Lemma executeAudit_inv options deps tr report :
  exec (executeAudit version options deps) tr (Ok report) ->
  exists from clients gateways routes tr' inv,
    let config := auditConfig options (svc_ProjectID clients) in
    dep_newServiceClients deps options = Ok clients /\
    tr = [Ev (ReqKube (KListAllGateways from)) (Ok gateways); Ev (ReqKube (KListHTTPRoutes from None None)) (Ok routes)] ++ tr' /\
    exec (Scan (NewScanner (svc_LoadBalancer clients) (svc_Network clients) (svc_ProjectID clients) (co_operationTimeout options))
            (auditScope config) (sn_Records (snapshotOf config gateways routes))) tr' (Ok inv) /\
    BuildReport (dep_now deps) version (auditScope config) (snapshotOf config gateways routes) inv = Ok report.
Proof.
  unfold executeAudit, failing. intros Hx.
  apply exec_mbind_ok in Hx as (t1 & t2 & [] & -> & [-> _]%exec_onError_ok & Hx).
  apply exec_mbind_ok in Hx as (t3 & t4 & from & -> & [-> _]%exec_onError_ok & Hx).
  apply exec_mbind_ok in Hx as (t5 & t6 & clients & -> & [-> Hc]%exec_onError_ok & Hx). cbn zeta in Hx.
  apply exec_mbind_ok in Hx as (t7 & t8 & snapshot & -> & Hs%exec_onError_ok & Hx).
  apply exec_mbind_ok in Hx as (t9 & t10 & inv & -> & Hi%exec_onError_ok & Hx%exec_onError_ok).
  destruct Hx as [-> Hb].
  apply CollectOwnershipSnapshot_inv in Hs as (gateways & routes & -> & -> & _); [|done..].
  exists from, clients, gateways, routes, t9, inv. cbn zeta. rewrite app_nil_r. by split_and!.
Qed.

(** The prepared form of a record. *)
Definition preparedOf (o : OwnershipRecord) : preparedAuditRecord :=
  mkPrepared (sortedRecord o) (rec_Identity o) (isRouteIdentity (rec_Identity o)).

Definition bindings (config : Config) (gateways : list Gateway) (routes : list HTTPRoute) : list OwnershipRecord :=
  omap (gatewayRecord config) gateways ++ omap (routeRecord config) routes.

Lemma prepared_bindings config gateways routes scope records r :
  Forall2 (prepares scope) (sn_Records (snapshotOf config gateways routes)) records ->
  (r ∈ records -> exists o, o ∈ bindings config gateways routes /\
     pr_identity r = pr_identity (preparedOf o) /\ pr_isRoute r = pr_isRoute (preparedOf o)) /\
  (forall o, o ∈ bindings config gateways routes -> exists r', r' ∈ records /\
     pr_identity r' = pr_identity (preparedOf o) /\ pr_isRoute r' = pr_isRoute (preparedOf o)).
Proof.
  intros Hf. destruct (snapshotOf_perm config gateways routes) as [Hp _]. fold (bindings config gateways routes) in Hp. split.
  - intros [i Hi]%list_elem_of_lookup. destruct (Forall2_lookup_r _ _ _ _ _ Hf Hi) as (o & Ho & (_ & _ & ->)).
    apply list_elem_of_lookup_2 in Ho. rewrite Hp in Ho. apply list_elem_of_fmap in Ho as (o' & -> & Ho'). by exists o'.
  - intros o Ho. assert (sortedRecord o ∈ sn_Records (snapshotOf config gateways routes)) as Hin
      by (rewrite Hp; by apply list_elem_of_fmap_2).
    apply list_elem_of_lookup in Hin as [i Hi]. destruct (Forall2_lookup_l _ _ _ _ _ Hf Hi) as (r' & Hr & (_ & _ & ->)).
    eexists. split; [by eapply list_elem_of_lookup_2|]. done.
Qed.

(** Only the identity of a record decides what it owns. *)
Lemma owns_ext c r r' :
  pr_identity r = pr_identity r' -> pr_isRoute r = pr_isRoute r' ->
  ownsExactly c r = ownsExactly c r' /\ ownsByName c r = ownsByName c r' /\ ownsThroughRoute c r = ownsThroughRoute c r'.
Proof.
  intros Hi Hr. unfold ownsExactly, ownsByName, ownsThroughRoute, underSomeRole, matchesExactly, matchesNames, matchesThroughRoute.
  by rewrite Hi, Hr.
Qed.

Lemma kube_no_candidates from gateways routes tr' e c0 :
  e ∈ [Ev (ReqKube (KListAllGateways from)) (Ok gateways); Ev (ReqKube (KListHTTPRoutes from None None)) (Ok routes)] ++ tr' ->
  c0 ∈ eventCandidates e -> e ∈ tr'.
Proof. intros [->|[->|He]%elem_of_cons]%elem_of_cons Hc; [by apply elem_of_nil in Hc..|done]. Qed.

(** C28. With fail-on-findings the audit command exits with status zero only
    when every Gateway and HTTPRoute that carries a binding of this controller
    has a valid one, and every load balancer, listener, pool, member, health
    monitor and rule that OpenStack listed is owned exactly by one of these
    bindings. *)
Theorem clean_audit_exit options deps encode write tr out :
  exec (runCommand version (Parsed options) deps encode write) tr (exitSuccess, out) ->
  co_failOnFindings options = true ->
  exists from clients gateways routes,
    let config := auditConfig options (svc_ProjectID clients) in
    dep_newServiceClients deps options = Ok clients /\
    Ev (ReqKube (KListAllGateways from)) (Ok gateways) ∈ tr /\
    Ev (ReqKube (KListHTTPRoutes from None None)) (Ok routes) ∈ tr /\
    (forall g, g ∈ gateways -> GatewayHasControllerBinding config (gw_Meta g) = true ->
       ValidateGatewayBinding config (gw_Meta g) = Ok tt) /\
    (forall r, r ∈ routes -> RouteHasControllerBinding config (hr_Meta r) = true ->
       exists id, StoredRouteIdentity config (hr_Meta r) = Ok (Some id)) /\
    (forall e c0, e ∈ tr -> keepsAll e = true -> c0 ∈ eventCandidates e ->
       exists c o, listed tr c /\ c_resourceType c = c_resourceType c0 /\ c_id c = c_id c0 /\
         o ∈ bindings config gateways routes /\ ownsExactly c (preparedOf o) = true).
Proof.
  intros (t1 & t2 & [report|e] & -> & Hx & Hr)%exec_bind Hfail; [|by destruct Hr].
  assert (t2 = [] /\ HasFindings report = false) as [-> Hclean].
  { destruct (encode report) as [output|]; [|by destruct Hr]. cbn zeta in Hr.
    destruct (write (output ^^ newline)) as [n [e|]]; [by destruct Hr|].
    destruct (negb _); [by destruct Hr|]. rewrite Hfail in Hr. cbn [andb] in Hr. by destruct (HasFindings report); destruct Hr. }
  rewrite app_nil_r. apply executeAudit_inv in Hx as (from & clients & gateways & routes & tr' & inv & Hcl & -> & Hscan & Hb).
  exists from, clients, gateways, routes. cbn zeta. set (config := auditConfig options (svc_ProjectID clients)) in *.
  apply (HasFindings_spec _ _ _ _ _ _ Hb) in Hclean as [Hissues Hmatched].
  destruct (snapshotOf_perm config gateways routes) as [_ Hp]. rewrite Hissues in Hp. apply Permutation_nil_l in Hp.
  symmetry in Hp. apply app_eq_nil in Hp as [Hgi Hri].
  split_and!; [done|set_solver|set_solver|..].
  - intros g Hg Hbound. assert (gatewayIssue config g = None) as Hn.
    { destruct (gatewayIssue config g) as [i|] eqn:Ei; [|done]. assert (i ∈ omap (gatewayIssue config) gateways) as Hi
        by (apply list_elem_of_omap; eauto). rewrite Hgi in Hi. set_solver. }
    unfold gatewayIssue in Hn. rewrite Hbound in Hn. destruct (gatewayRecord config g) as [o|] eqn:Eo; [|done].
    by apply gatewayRecord_identity in Eo as [? _].
  - intros r Hin Hbound. assert (routeIssue config r = None) as Hn.
    { destruct (routeIssue config r) as [i|] eqn:Ei; [|done]. assert (i ∈ omap (routeIssue config) routes) as Hi
        by (apply list_elem_of_omap; eauto). rewrite Hri in Hi. set_solver. }
    unfold routeIssue in Hn. rewrite Hbound in Hn. destruct (routeRecord config r) as [o|] eqn:Eo; [|done].
    apply routeRecord_identity in Eo as (id & ? & _). eauto.
  - intros e c0 He Hk Hc0. apply kube_no_candidates with (c0 := c0) in He; [|done].
    destruct (scan_covers _ _ _ _ _ Hscan) as [_ Hcov]. destruct (Hcov e c0 He Hk Hc0) as (f & Hf & Ht & Hi).
    rewrite Forall_forall in Hmatched.
    destruct (matched_owner _ _ _ _ _ f Hscan Hf (Hmatched f Hf)) as (records & c & Hpr & Hl & (_ & Hct & Hci & _) & (r & Hr1 & Hr2 & _)).
    destruct (prepared_bindings config gateways routes _ _ r Hpr) as [Hor _]. destruct (Hor Hr1) as (o & Ho & E1 & E2).
    exists c, o. split_and!; [|congruence|congruence|done|].
    + destruct Hl as (e' & c' & He' & Hc' & Hs). exists e', c'. set_solver.
    + by rewrite <- (proj1 (owns_ext c r (preparedOf o) E1 E2)).
Qed.

(** C29. A resource that the audit report calls an orphan candidate, or stale,
    is one that OpenStack listed and that no Gateway or HTTPRoute with a valid
    binding owns exactly; an orphan candidate does not even carry the names of
    one of them, directly or through a route of its Gateway, under any role that
    its type has. *)
Theorem reported_orphans_are_unowned options deps tr report f :
  exec (executeAudit version options deps) tr (Ok report) -> f ∈ rp_Resources report ->
  f_Disposition f = DispositionOrphanCandidate \/ f_Disposition f = DispositionStaleUID ->
  exists from clients gateways routes c,
    let config := auditConfig options (svc_ProjectID clients) in
    Ev (ReqKube (KListAllGateways from)) (Ok gateways) ∈ tr /\
    Ev (ReqKube (KListHTTPRoutes from None None)) (Ok routes) ∈ tr /\
    listed tr c /\ about c f /\
    forall o, o ∈ bindings config gateways routes ->
      ownsExactly c (preparedOf o) = false /\
      (f_Disposition f = DispositionOrphanCandidate ->
       ownsByName c (preparedOf o) = false /\ ownsThroughRoute c (preparedOf o) = false).
Proof.
  intros (from & clients & gateways & routes & tr' & inv & _ & -> & Hscan & Hb)%executeAudit_inv Hf Hd.
  exists from, clients, gateways, routes. cbn zeta. set (config := auditConfig options (svc_ProjectID clients)) in *.
  apply BuildReport_inv in Hb as (_ & Hres & _). rewrite Hres, copyAndSortFindings_perm in Hf.
  apply list_elem_of_fmap in Hf as (f0 & -> & Hf0). change (f_Disposition (withObjects f0 _)) with (f_Disposition f0) in *.
  destruct (unowned_evidence _ _ _ _ _ f0 Hscan Hf0 Hd) as (records & c & Hpr & Hl & Ha & _ & _ & Hex & Hor & _).
  exists c. split_and!; [set_solver|set_solver| |by apply withObjects_about|].
  - destruct Hl as (e' & c' & He' & Hc' & Hs). exists e', c'. set_solver.
  - intros o Ho. destruct (prepared_bindings config gateways routes _ _ (preparedOf o) Hpr) as [_ Hbk].
    destruct (Hbk o Ho) as (r & Hr & E1 & E2). destruct (owns_ext c r (preparedOf o) E1 E2) as (<- & <- & <-).
    split; [by apply Hex|]. intros Horph. by apply Hor.
Qed.
End command.
