(* ===== verification/ProbeState.v ===== *)
(** * The probe's identity, configuration and state file

    Models [internal/probe/identity.go], the checks of [config.go] (CommandLine.v
    has its flags and environment), [state.go] and the polling loops of
    [octavia/wait.go].  [encoding/json] is a class with the one law that a state
    whose texts are valid UTF-8 decodes from its encoding; the error tests of [os]
    are another. *)
From stdpp Require Import base list strings gmap.
From Stdlib Require Import ZArith NArith Lia Ascii.
From S2P Require Import Prelude GoStrings Cloud Metadata OpenStack KubeClient.

Set Default Goal Selector "!".

(** ** [strings], [path/filepath], [errors] *)

(** [strings.Split] at one character. *)
Fixpoint Split (s : string) (sep : ascii) : list string :=
  match s with
  | "" => [""]
  | String c rest =>
      if Ascii.eqb c sep then "" :: Split rest sep
      else match Split rest sep with
           | [] => [String c ""]
           | part :: parts => String c part :: parts
           end
  end.

(** [filepath.Clean]: the elements are pushed on a stack. *)
Definition cleanElement (rooted : bool) (stack : list string) (elem : string) : list string :=
  if String.eqb elem "" || String.eqb elem "." then stack
  else if negb (String.eqb elem "..") then elem :: stack
  else match stack with
       | [] => if rooted then [] else [".."]
       | top :: rest => if String.eqb top ".." then ".." :: stack else rest
       end.
Definition Clean (path : string) : string :=
  let rooted := HasPrefix path "/" in
  let body := Join (rev (foldl (cleanElement rooted) [] (Split path "/"))) "/" in
  if rooted then "/" ^^ body else if String.eqb body "" then "." else body.

(** [filepath.Dir]: everything up to the last separator, cleaned. *)
Fixpoint uptoLastSlash (s : string) : string :=
  match s with
  | "" => ""
  | String c rest =>
      let tail := uptoLastSlash rest in
      if negb (String.eqb tail "") then String c tail
      else if Ascii.eqb c "/" then String c "" else ""
  end.
Definition Dir (path : string) : string := Clean (uptoLastSlash path).

Example Clean_examples :
  (Clean <$> ["a//b/./c/.."; "/../a"; "../../x"; ""; "/"; "a/.."]) = ["a/b"; "/a"; "../../x"; "."; "/"; "."] /\
  (Dir <$> ["_artifacts/phase-0/probe-state.json"; "state"; "/state"]) = ["_artifacts/phase-0"; "."; "/"].
Proof. split; vm_compute; reflexivity. Qed.

(** [errors.Join(returnErr, err)] with a non-nil [err]. *)
Definition joinError (returnErr : outcome_of unit) (err : error) : outcome_of unit :=
  match returnErr with
  | Ok _ => Err (JoinError err None)
  | Err e => Err (JoinError e (Some err))
  end.

(** The tests of [os.ErrExist] and [os.ErrNotExist]. *)
Class OSErrors := { IsExist : error -> bool; IsNotExist : error -> bool }.

(** ** identity.go *)

Definition controllerIdentifier : string := "openstack-gateway-controller".

Record probeIdentity := mkProbeIdentity {
  pi_ClusterID : string; pi_Controller : string; pi_GatewayNamespace : string; pi_GatewayName : string;
  pi_GatewayUID : string
}.

Definition cloudIdentity (id : probeIdentity) : Identity :=
  mkIdentity "" (pi_ClusterID id) (pi_Controller id) "" (pi_GatewayNamespace id) (pi_GatewayName id)
    (pi_GatewayUID id) "" "" "".

Definition ValidateIdentity (id : probeIdentity) : outcome_of unit := ValidateGatewayIdentity (cloudIdentity id).

Definition Tags (id : probeIdentity) (role : string) : outcome_of (list string) :=
  let? value := NewIdentity (cloudIdentity id) in GatewayTags value role.

Definition Matches (id : probeIdentity) (tags : list string) (role : string) : bool :=
  match NewIdentity (cloudIdentity id) with Ok value => MatchesGateway value tags role | Err _ => false end.

Definition ProbeDescription (id : probeIdentity) (role : string) : string :=
  match NewIdentity (cloudIdentity id) with Ok value => Phase0Description value role | Err _ => "" end.

Definition ProbeMatchesDescription (id : probeIdentity) (description role : string) : bool :=
  match NewIdentity (cloudIdentity id) with
  | Ok value => HasPrefix description (Phase0Description value role)
  | Err _ => false
  end.

(** ** config.go *)

Record probeConfig := mkProbeConfig {
  pc_Region : string; pc_VIPSubnetID : string; pc_ExternalNetworkID : string; pc_Provider : string;
  pc_OctaviaMicroversion : string; pc_MemberAddresses : list string; pc_MemberPort : Z; pc_MemberSubnetID : string;
  pc_ListenerPort : Z; pc_HealthPath : string; pc_MatchPath : string; pc_RequestPath : string; pc_Host : string;
  pc_ClusterID : string; pc_GatewayNamespace : string; pc_GatewayName : string; pc_GatewayUID : string;
  pc_StateFile : string; pc_ReportFile : string; pc_OperationTimeout : Z; pc_PollInterval : Z; pc_TrafficTimeout : Z;
  pc_KeepResources : bool; pc_SkipTrafficCheck : bool; pc_AllowInsecureOpenStack : bool
}.

Record CleanupConfig := mkCleanupConfig {
  cc_Region : string; cc_StateFile : string; cc_OperationTimeout : Z; cc_PollInterval : Z;
  cc_AllowInsecureOpenStack : bool
}.

(** [probe.NewIdentity]. *)
Definition NewProbeIdentity (cfg : probeConfig) : probeIdentity :=
  mkProbeIdentity (pc_ClusterID cfg) controllerIdentifier (pc_GatewayNamespace cfg) (pc_GatewayName cfg) (pc_GatewayUID cfg).

(** The two maps of [Config.Validate]. *)
Definition requiredValues (cfg : probeConfig) : list (string * string) :=
  [("--vip-subnet-id", pc_VIPSubnetID cfg); ("--member-addresses", Join (pc_MemberAddresses cfg) ",");
   ("--cluster-id", pc_ClusterID cfg); ("--gateway-namespace", pc_GatewayNamespace cfg);
   ("--gateway-name", pc_GatewayName cfg); ("--gateway-uid", pc_GatewayUID cfg);
   ("--state-file", pc_StateFile cfg); ("--report-file", pc_ReportFile cfg)].
Definition pathValues (cfg : probeConfig) : list (string * string) :=
  [("--health-path", pc_HealthPath cfg); ("--match-path", pc_MatchPath cfg); ("--request-path", pc_RequestPath cfg)].

(** [Config.Validate]; [values] and [paths] are its two maps in the order in
    which the loops meet their entries. *)
Definition ValidateProbeConfig (cfg : probeConfig) (values paths : list (string * string)) : outcome_of unit :=
  let missing := (List.filter (fun entry => blank (snd entry)) values).*1 in
  guard? bool_decide (missing = []) else (Errorf "required values are missing: %s" [Join missing ", "] None) in
  guard? (1 <=? pc_MemberPort cfg)%Z && (pc_MemberPort cfg <=? 65535)%Z
  else (Errorf "--member-port must be between 1 and 65535" [] None) in
  guard? (1 <=? pc_ListenerPort cfg)%Z && (pc_ListenerPort cfg <=? 65535)%Z
  else (Errorf "--listener-port must be between 1 and 65535" [] None) in
  let? _ := forM_ (fun entry => guard? HasPrefix (snd entry) "/" else (Errorf "%s must start with /" [fst entry] None) in Ok tt)
              paths in
  guard? (0 <? pc_OperationTimeout cfg)%Z && (0 <? pc_PollInterval cfg)%Z && (0 <? pc_TrafficTimeout cfg)%Z
  else (Errorf "all timeouts and polling intervals must be positive" [] None) in
  guard? negb (String.eqb (Clean (pc_StateFile cfg)) (Clean (pc_ReportFile cfg)))
  else (Errorf "--state-file and --report-file must be different paths" [] None) in
  Ok tt.

Definition splitNonEmpty (value : string) : list string :=
  List.filter (fun item => negb (String.eqb item "")) (TrimSpace <$> Split value ",").

(** ** wait.go *)

Definition probe (r : probeRequest) : M (probeResponse r) := call (ReqProbe r).

(** The loop of [WaitLoadBalancerActive]: [ticks] times the ticker is ahead of
    the context, then the context is done with [cause]. *)
Fixpoint pollActive (loadBalancerID : string) (cause : error) (ticks : nat) : M LoadBalancer :=
  let! loadBalancer := wrap "get load balancer %s: %w" [loadBalancerID] (GetLoadBalancer loadBalancerID) in
  if String.eqb (lb_ProvisioningStatus loadBalancer) "ACTIVE" then ret loadBalancer
  else if String.eqb (lb_ProvisioningStatus loadBalancer) "ERROR" then
    raise (Errorf "load balancer %s entered ERROR" [loadBalancerID] None)
  else match ticks with
       | O => raise (Errorf "wait for load balancer %s to become ACTIVE: %w" [loadBalancerID] (Some cause))
       | S ticks' => pollActive loadBalancerID cause ticks'
       end.
Definition WaitLoadBalancerActive (loadBalancerID : string) (timeout pollInterval : Z) : M LoadBalancer :=
  let! (ticks, cause) := probe (PTicks timeout pollInterval) in
  pollActive loadBalancerID cause ticks.

Fixpoint pollDeleted `{Gophercloud} (loadBalancerID : string) (cause : error) (ticks : nat) : M unit :=
  try (GetLoadBalancer loadBalancerID) (fun x =>
    match x with
    | Err e =>
        if isNotFound e then ret tt
        else raise (Errorf "get deleting load balancer %s: %w" [loadBalancerID] (Some e))
    | Ok _ =>
        match ticks with
        | O => raise (Errorf "wait for load balancer %s deletion: %w" [loadBalancerID] (Some cause))
        | S ticks' => pollDeleted loadBalancerID cause ticks'
        end
    end).
Definition WaitLoadBalancerDeleted `{Gophercloud} (loadBalancerID : string) (timeout pollInterval : Z) : M unit :=
  let! (ticks, cause) := probe (PTicks timeout pollInterval) in
  pollDeleted loadBalancerID cause ticks.

(** ** state.go *)

Definition stateVersion : Z := 1.

Record State := mkState {
  st_Version : Z; st_CreatedAt : Z; st_Region : string; st_OctaviaMicroversion : string;
  st_Identity : probeIdentity; st_LoadBalancerID : string; st_VIPPortID : string; st_FloatingIPID : string;
  st_ListenerID : string; st_PoolID : string; st_MemberIDs : list string; st_MonitorID : string;
  st_L7PolicyID : string; st_L7RuleID : string
}.

(** [json.MarshalIndent] and [json.Unmarshal] at [State]. *)
Class StateJSON := {
  MarshalState : State -> outcome_of string;
  UnmarshalState : string -> outcome_of State
}.

(** [utf8.ValidString]: the documentation of [encoding/json] promises to write
    strings of valid UTF-8 faithfully and coerces others. *)
Definition byteIn (low high : N) (c : ascii) : bool := (low <=? N_of_ascii c)%N && (N_of_ascii c <=? high)%N.
Definition continuation : ascii -> bool := byteIn 128 191.
(** The second byte that may follow a first byte of three or four. *)
Definition secondByte (first : ascii) : ascii -> bool :=
  match N_of_ascii first with
  | 224%N => byteIn 160 191
  | 237%N => byteIn 128 159
  | 240%N => byteIn 144 191
  | 244%N => byteIn 128 143
  | _ => continuation
  end.
Fixpoint ValidString (s : string) : bool :=
  match s with
  | "" => true
  | String a rest =>
      if byteIn 0 127 a then ValidString rest
      else match rest with
      | "" => false
      | String b rest =>
          if byteIn 194 223 a then continuation b && ValidString rest
          else match rest with
          | "" => false
          | String c rest =>
              if byteIn 224 239 a then secondByte a b && continuation c && ValidString rest
              else match rest with
              | "" => false
              | String d rest =>
                  byteIn 240 244 a && secondByte a b && continuation c && continuation d && ValidString rest
              end
          end
      end
  end.

Definition stateTexts (s : State) : list string :=
  [st_Region s; st_OctaviaMicroversion s; pi_ClusterID (st_Identity s); pi_Controller (st_Identity s);
   pi_GatewayNamespace (st_Identity s); pi_GatewayName (st_Identity s); pi_GatewayUID (st_Identity s);
   st_LoadBalancerID s; st_VIPPortID s; st_FloatingIPID s; st_ListenerID s; st_PoolID s; st_MonitorID s;
   st_L7PolicyID s; st_L7RuleID s] ++ st_MemberIDs s.
Definition validTexts (s : State) : bool := forallb ValidString (stateTexts s).

(** White space after a JSON value is ignored. *)
Definition newline : string := String "010"%char "".
Class StateJSONLaws `{StateJSON} : Prop := {
  unmarshal_marshal s data :
    validTexts s = true -> MarshalState s = Ok data -> UnmarshalState (data ^^ newline) = Ok s
}.

Definition NewState (now : Z) (cfg : probeConfig) : State :=
  mkState stateVersion now (pc_Region cfg) (pc_OctaviaMicroversion cfg) (NewProbeIdentity cfg) "" "" "" "" "" [] "" "" "".

Section state.
Context `{StateJSON} `{OSErrors}.

Definition encodeState (state : State) : outcome_of string :=
  match MarshalState state with
  | Err e => Err (Errorf "encode state: %w" [] (Some e))
  | Ok data => Ok (data ^^ newline)
  end.

(** The deferred function of [CreateState] and [SaveState]: [(closed, keep)] are
    the flags the body has set. *)
Definition closeAndRemove (what file : string) (closed keep : bool) (returnErr : outcome_of unit) : M unit :=
  bind (if closed then Ret returnErr
        else bind (probe (PClose file)) (fun x => Ret (match x with
               | Ok _ => returnErr
               | Err e => joinError returnErr (Errorf ("close " ^^ what ^^ " state: %w") [] (Some e))
               end)))
    (fun returnErr =>
       if keep then Ret returnErr
       else bind (probe (PRemove file)) (fun x => Ret (match x with
              | Ok _ => returnErr
              | Err e => if IsNotExist e then returnErr
                         else joinError returnErr (Errorf ("remove " ^^ what ^^ " state: %w") [] (Some e))
              end))).

(** [m] with its deferred function; the state is the pair of flags. *)
Definition withDeferred (what file : string) (m : SM (bool * bool) unit) : M unit :=
  bind (m (false, false)) (fun '((closed, keep), result) => closeAndRemove what file closed keep result).
Definition setClosed : SM (bool * bool) unit := smodify (fun flags => (true, snd flags)).
Definition setKeep : SM (bool * bool) unit := smodify (fun flags => (fst flags, true)).
Definition step (text : string) (r : probeRequest) : SM (bool * bool) (probeResponse r) :=
  slift (wrap (text ^^ ": %w") [] (probe r)).

Definition CreateState (path : string) (state : State) : M unit :=
  if String.eqb path "" then raise (Errorf "state path must not be empty" [] None)
  else
    let! _ := wrap "create state directory: %w" [] (probe (PMkdirAll (Dir path))) in
    let! data := lift (encodeState state) in
    let! _ := onError (fun e =>
                 if IsExist e
                 then Errorf "state file %s already exists; clean up the previous run before starting another" [path] None
                 else Errorf "create state file: %w" [] (Some e)) (probe (POpenExclusive path)) in
    withDeferred "incomplete" path
      (do! _ := step "write initial state" (PWrite path data) in
       do! _ := step "sync initial state" (PSync path) in
       do! _ := step "close initial state" (PClose path) in
       do! _ := setClosed in
       setKeep).

Definition SaveState (path : string) (state : State) : M unit :=
  if String.eqb path "" then raise (Errorf "state path must not be empty" [] None)
  else
    let! _ := wrap "create state directory: %w" [] (probe (PMkdirAll (Dir path))) in
    let! data := lift (encodeState state) in
    let! tempName := wrap "create temporary state: %w" [] (probe (PCreateTemp (Dir path) ".probe-state-*.tmp")) in
    withDeferred "temporary" tempName
      (do! _ := step "protect temporary state" (PChmod tempName) in
       do! _ := step "write temporary state" (PWrite tempName data) in
       do! _ := step "sync temporary state" (PSync tempName) in
       do! _ := step "close temporary state" (PClose tempName) in
       do! _ := setClosed in
       do! _ := step "replace state" (PRename tempName path) in
       setKeep).

(** What [LoadState] does with the bytes it has read. *)
Definition decodeState (data : string) : outcome_of State :=
  match UnmarshalState data with
  | Err e => Err (Errorf "decode state: %w" [] (Some e))
  | Ok state =>
      guard? (st_Version state =? stateVersion)%Z
      else (Errorf "unsupported state version %d" [decimal_Z (st_Version state)] None) in
      match ValidateIdentity (st_Identity state) with
      | Err e => Err (Errorf "invalid state identity: %w" [] (Some e))
      | Ok _ => Ok state
      end
  end.
Definition LoadState (path : string) : M State :=
  let! data := wrap "read state: %w" [] (probe (PReadFile path)) in
  lift (decodeState data).
End state.
