(* ===== verification/Probe.v ===== *)
(** * The capability probe

    Models [internal/probe/runner.go], [cleanup.go] and [report.go]: a run creates,
    updates, inspects and deletes one load balancer with everything below it, and
    records what it has made in a state file, from which a later cleanup resumes.
    Points in time and durations of the report are left out, except the creation
    time of the state, an argument. *)
From stdpp Require Import base list strings gmap.
From Stdlib Require Import ZArith NArith Lia Ascii.
From S2P Require Import Prelude GoStrings GoSha256 Cloud Metadata OpenStack KubeClient ProbeState.

Set Default Goal Selector "!".

Definition roleLoadBalancer : string := "loadbalancer".
Definition roleListener : string := "listener".
Definition rolePool : string := "pool".
Definition roleMember : string := "member".
Definition roleMonitor : string := "health-monitor".
Definition roleL7Policy : string := "l7-policy".
Definition roleL7Rule : string := "l7-rule".
Definition roleFloatingIP : string := "floating-ip".

(** ** report.go *)

Record ReportEnvironment := mkReportEnvironment {
  re_Region : string; re_Provider : string; re_OctaviaMicroversion : string; re_VIPSubnetID : string;
  re_ExternalNetworkID : string; re_MemberAddresses : list string; re_MemberPort : Z; re_MemberSubnetID : string;
  re_ListenerPort : Z; re_Identity : probeIdentity
}.
Record ResourceRecord := mkResourceRecord {
  rr_LoadBalancerID : string; rr_VIPAddress : string; rr_FloatingIPID : string; rr_FloatingIP : string;
  rr_ListenerID : string; rr_PoolID : string; rr_MemberIDs : list string; rr_MonitorID : string;
  rr_L7PolicyID : string; rr_L7RuleID : string
}.
Record StepRecord := mkStepRecord {
  sr_Operation : string; sr_Resource : string; sr_ResourceID : string; sr_Succeeded : bool; sr_Error : string
}.
Record TrafficRecord := mkTrafficRecord {
  tr_URL : string; tr_Host : string; tr_StatusCode : Z; tr_BodySampleBytes : nat; tr_BodySampleSHA256 : string;
  tr_Succeeded : bool; tr_Error : string
}.
Record probeReport := mkProbeReport {
  pr_SchemaVersion : Z; pr_Outcome : string; pr_Error : string; pr_Environment : ReportEnvironment; pr_Providers : list (string * string);
  pr_Resources : ResourceRecord; pr_Steps : list StepRecord; pr_Traffic : option TrafficRecord;
  pr_CleanupAttempted : bool; pr_CleanupSucceeded : bool
}.

Definition newReport (cfg : probeConfig) : probeReport :=
  mkProbeReport 1 "running" ""
    (mkReportEnvironment (pc_Region cfg) (pc_Provider cfg) (pc_OctaviaMicroversion cfg) (pc_VIPSubnetID cfg)
       (pc_ExternalNetworkID cfg) (pc_MemberAddresses cfg) (pc_MemberPort cfg) (pc_MemberSubnetID cfg)
       (pc_ListenerPort cfg) (NewProbeIdentity cfg))
    [] (mkResourceRecord "" "" "" "" "" "" [] "" "" "") [] None false false.

(** [json.MarshalIndent] at [Report]. *)
Class ReportJSON := { MarshalReport : probeReport -> outcome_of string }.

Definition SaveReport `{ReportJSON} (path : string) (report : probeReport) : M unit :=
  let! _ := wrap "create report directory: %w" [] (probe (PMkdirAll (Dir path))) in
  match MarshalReport report with
  | Err e => raise (Errorf "encode report: %w" [] (Some e))
  | Ok data => wrap "write report: %w" [] (probe (PWriteFile path (data ^^ newline)))
  end.

(** ** Names *)

(** [strings.ToLower], as far as it makes ASCII letters: two other letters,
    U+0130 and U+212A, have one as their lower case. *)
Fixpoint toLower (s : string) : string :=
  match s with
  | "" => ""
  | String "196" (String "176" rest) => String "i" (toLower rest)
  | String "226" (String "132" (String "170" rest)) => String "k" (toLower rest)
  | String c rest => String (to_lower c) (toLower rest)
  end.

Definition allowedName (c : ascii) : bool :=
  let n := N_of_ascii c in ((97 <=? n) && (n <=? 122) || (48 <=? n) && (n <=? 57))%N.

(** The loop of [sanitizeName].  The bytes of a longer character are all not
    allowed and leave one dash, as the character does. *)
Fixpoint dashed (lastWasDash : bool) (s : string) : string :=
  match s with
  | "" => ""
  | String c rest =>
      if allowedName c then String c (dashed false rest)
      else if lastWasDash then dashed true rest
      else String "-" (dashed true rest)
  end.
Definition sanitizeName (value : string) : string :=
  TrimRight (trim_left_char "-" (dashed false (toLower value))) "-".

Definition shortValue (value : string) (length : nat) : string :=
  if String.length value <=? length then value else str_take length value.

Definition resourceName (identity : probeIdentity) (role : string) : string :=
  shortValue (sanitizeName (Join ["gateway-api-openstack-p0"; pi_GatewayNamespace identity; pi_GatewayName identity;
                                  shortValue (pi_GatewayUID identity) 8; role] "-")) 200.

(** ** runner.go *)

Record runner := mkRunner { rn_state : State; rn_report : probeReport }.

Definition onState (f : State -> State) (r : runner) : runner := mkRunner (f (rn_state r)) (rn_report r).
Definition onReport (f : probeReport -> probeReport) (r : runner) : runner := mkRunner (rn_state r) (f (rn_report r)).

(** The assignments to [r.state]. *)
Definition withLoadBalancer (s : State) (id port : string) : State :=
  mkState (st_Version s) (st_CreatedAt s) (st_Region s) (st_OctaviaMicroversion s) (st_Identity s) id port
    (st_FloatingIPID s) (st_ListenerID s) (st_PoolID s) (st_MemberIDs s) (st_MonitorID s) (st_L7PolicyID s) (st_L7RuleID s).
Definition withFloatingIP (s : State) (id : string) : State :=
  mkState (st_Version s) (st_CreatedAt s) (st_Region s) (st_OctaviaMicroversion s) (st_Identity s) (st_LoadBalancerID s)
    (st_VIPPortID s) id (st_ListenerID s) (st_PoolID s) (st_MemberIDs s) (st_MonitorID s) (st_L7PolicyID s) (st_L7RuleID s).
Definition withListener (s : State) (id : string) : State :=
  mkState (st_Version s) (st_CreatedAt s) (st_Region s) (st_OctaviaMicroversion s) (st_Identity s) (st_LoadBalancerID s)
    (st_VIPPortID s) (st_FloatingIPID s) id (st_PoolID s) (st_MemberIDs s) (st_MonitorID s) (st_L7PolicyID s) (st_L7RuleID s).
Definition withPool (s : State) (id : string) : State :=
  mkState (st_Version s) (st_CreatedAt s) (st_Region s) (st_OctaviaMicroversion s) (st_Identity s) (st_LoadBalancerID s)
    (st_VIPPortID s) (st_FloatingIPID s) (st_ListenerID s) id (st_MemberIDs s) (st_MonitorID s) (st_L7PolicyID s) (st_L7RuleID s).
Definition withMember (s : State) (id : string) : State :=
  mkState (st_Version s) (st_CreatedAt s) (st_Region s) (st_OctaviaMicroversion s) (st_Identity s) (st_LoadBalancerID s)
    (st_VIPPortID s) (st_FloatingIPID s) (st_ListenerID s) (st_PoolID s) (st_MemberIDs s ++ [id]) (st_MonitorID s)
    (st_L7PolicyID s) (st_L7RuleID s).
Definition withMonitor (s : State) (id : string) : State :=
  mkState (st_Version s) (st_CreatedAt s) (st_Region s) (st_OctaviaMicroversion s) (st_Identity s) (st_LoadBalancerID s)
    (st_VIPPortID s) (st_FloatingIPID s) (st_ListenerID s) (st_PoolID s) (st_MemberIDs s) id (st_L7PolicyID s) (st_L7RuleID s).
Definition withPolicy (s : State) (id : string) : State :=
  mkState (st_Version s) (st_CreatedAt s) (st_Region s) (st_OctaviaMicroversion s) (st_Identity s) (st_LoadBalancerID s)
    (st_VIPPortID s) (st_FloatingIPID s) (st_ListenerID s) (st_PoolID s) (st_MemberIDs s) (st_MonitorID s) id (st_L7RuleID s).
Definition withRule (s : State) (id : string) : State :=
  mkState (st_Version s) (st_CreatedAt s) (st_Region s) (st_OctaviaMicroversion s) (st_Identity s) (st_LoadBalancerID s)
    (st_VIPPortID s) (st_FloatingIPID s) (st_ListenerID s) (st_PoolID s) (st_MemberIDs s) (st_MonitorID s) (st_L7PolicyID s) id.

(** The assignments to [r.report]. *)
Definition withResources (f : ResourceRecord -> ResourceRecord) (r : probeReport) : probeReport :=
  mkProbeReport (pr_SchemaVersion r) (pr_Outcome r) (pr_Error r) (pr_Environment r) (pr_Providers r) (f (pr_Resources r)) (pr_Steps r)
    (pr_Traffic r) (pr_CleanupAttempted r) (pr_CleanupSucceeded r).
Definition withStep (step : StepRecord) (r : probeReport) : probeReport :=
  mkProbeReport (pr_SchemaVersion r) (pr_Outcome r) (pr_Error r) (pr_Environment r) (pr_Providers r) (pr_Resources r) (pr_Steps r ++ [step])
    (pr_Traffic r) (pr_CleanupAttempted r) (pr_CleanupSucceeded r).
Definition withProviders (l : list (string * string)) (r : probeReport) : probeReport :=
  mkProbeReport (pr_SchemaVersion r) (pr_Outcome r) (pr_Error r) (pr_Environment r) (pr_Providers r ++ l) (pr_Resources r) (pr_Steps r)
    (pr_Traffic r) (pr_CleanupAttempted r) (pr_CleanupSucceeded r).
Definition withTraffic (t : TrafficRecord) (r : probeReport) : probeReport :=
  mkProbeReport (pr_SchemaVersion r) (pr_Outcome r) (pr_Error r) (pr_Environment r) (pr_Providers r) (pr_Resources r) (pr_Steps r)
    (Some t) (pr_CleanupAttempted r) (pr_CleanupSucceeded r).
Definition withCleanup (succeeded : bool) (r : probeReport) : probeReport :=
  mkProbeReport (pr_SchemaVersion r) (pr_Outcome r) (pr_Error r) (pr_Environment r) (pr_Providers r) (pr_Resources r) (pr_Steps r)
    (pr_Traffic r) true succeeded.
Definition withOutcome (outcome error : string) (r : probeReport) : probeReport :=
  mkProbeReport (pr_SchemaVersion r) outcome error (pr_Environment r) (pr_Providers r) (pr_Resources r) (pr_Steps r)
    (pr_Traffic r) (pr_CleanupAttempted r) (pr_CleanupSucceeded r).

(** [fmt.Errorf(format, args..., err)] around the error of a method. *)
Definition swrap {S A} (format : string) (args : list string) (m : SM S A) : SM S A := fun s =>
  bind (m s) (fun x => Ret (fst x, match snd x with
                                   | Ok a => Ok a
                                   | Err e => Err (Errorf format args (Some e))
                                   end)).

Section runner.
Context `{Gophercloud} `{StateJSON} `{ReportJSON} `{OSErrors} `{ForeignTexts} (config : probeConfig).

Definition record (operation resource id : string) (result : option error) : SM runner unit :=
  smodify (onReport (withStep
    (mkStepRecord operation resource id (match result with None => true | Some _ => false end)
       (match result with None => "" | Some e => errorText e end)))).

(** [value, err := m; r.record(operation, resource, resourceID(value), started,
    err)]: a call that fails returns no resource. *)
Definition recorded {A} (operation resource : string) (resourceID : A -> string) (m : M A) : SM runner A :=
  do! x := stry (slift m) in
  match x with
  | Ok value => do! _ := record operation resource (resourceID value) None in sret value
  | Err e => do! _ := record operation resource "" (Some e) in sraise e
  end.
(** The same where the ID is known before. *)
Definition recordedAs {A} (operation resource id : string) (m : M A) : SM runner A :=
  do! x := stry (slift m) in
  match x with
  | Ok value => do! _ := record operation resource id None in sret value
  | Err e => do! _ := record operation resource id (Some e) in sraise e
  end.

Definition saveState : SM runner unit :=
  do! r := sget in slift (SaveState (pc_StateFile config) (rn_state r)).

Definition waitActive : SM runner unit :=
  do! r := sget in
  do! _ := slift (WaitLoadBalancerActive (st_LoadBalancerID (rn_state r)) (pc_OperationTimeout config) (pc_PollInterval config)) in
  sret tt.

(** [r.state.Identity]. *)
Definition identity : SM runner probeIdentity := do! r := sget in sret (st_Identity (rn_state r)).
Definition tagsFor (role : string) : SM runner (list string) :=
  do! id := identity in slift (lift (Tags id role)).

Definition discoverProviders : SM runner unit :=
  do! x := stry (slift (probe PListProviders)) in
  let extracted := match x with Ok (Ok available) => Ok available | Ok (Err e) => Err e | Err e => Err e end in
  match extracted with
  | Ok available =>
      do! _ := smodify (onReport (withProviders available)) in record "list" "octavia-providers" "" None
  | Err e => record "list" "octavia-providers" "" (Some e)
  end.

Definition createAndUpdateFloatingIP : SM runner unit :=
  do! r := sget in
  let id := st_Identity (rn_state r) in
  do! floatingIP := swrap "create Floating IP: %w" [] (recorded "create" roleFloatingIP fip_ID
    (call (ReqCreateFloatingIP (mkCreateFloatingIPOpts (ProbeDescription id roleFloatingIP ^^ "; phase=created")
       (pc_ExternalNetworkID config) (st_VIPPortID (rn_state r)))))) in
  do! _ := smodify (onState (fun s => withFloatingIP s (fip_ID floatingIP))) in
  do! _ := smodify (onReport (withResources (fun x => mkResourceRecord (rr_LoadBalancerID x) (rr_VIPAddress x)
             (fip_ID floatingIP) (fip_FloatingIP floatingIP) (rr_ListenerID x) (rr_PoolID x) (rr_MemberIDs x)
             (rr_MonitorID x) (rr_L7PolicyID x) (rr_L7RuleID x)))) in
  do! _ := saveState in
  do! _ := swrap "update Floating IP: %w" [] (recordedAs "update" roleFloatingIP (fip_ID floatingIP)
    (probe (PUpdateFloatingIP (fip_ID floatingIP) (ProbeDescription id roleFloatingIP ^^ "; phase=verified")))) in
  sret tt.

Definition createAndUpdateListener : SM runner unit :=
  do! tags := tagsFor roleListener in
  do! r := sget in
  let id := st_Identity (rn_state r) in
  do! listener := swrap "create listener: %w" [] (recorded "create" roleListener ls_ID
    (call (ReqCreateListener (mkCreateListenerOpts (st_LoadBalancerID (rn_state r)) "HTTP" (pc_ListenerPort config)
       (resourceName id roleListener) (ProbeDescription id roleListener ^^ "; phase=created") (Some true) tags)))) in
  do! _ := smodify (onState (fun s => withListener s (ls_ID listener))) in
  do! _ := smodify (onReport (withResources (fun x => mkResourceRecord (rr_LoadBalancerID x) (rr_VIPAddress x)
             (rr_FloatingIPID x) (rr_FloatingIP x) (ls_ID listener) (rr_PoolID x) (rr_MemberIDs x)
             (rr_MonitorID x) (rr_L7PolicyID x) (rr_L7RuleID x)))) in
  do! _ := saveState in
  do! _ := waitActive in
  do! _ := swrap "update listener: %w" [] (recordedAs "update" roleListener (ls_ID listener)
    (probe (PUpdateListener (ls_ID listener) (ProbeDescription id roleListener ^^ "; phase=verified") tags))) in
  waitActive.

Definition createAndUpdatePool : SM runner unit :=
  do! tags := tagsFor rolePool in
  do! r := sget in
  let id := st_Identity (rn_state r) in
  do! pool := swrap "create pool: %w" [] (recorded "create" rolePool pl_ID
    (call (ReqCreatePool (mkCreatePoolOpts "ROUND_ROBIN" "HTTP" (st_LoadBalancerID (rn_state r))
       (resourceName id rolePool) (ProbeDescription id rolePool ^^ "; phase=created") (Some true) tags)))) in
  do! _ := smodify (onState (fun s => withPool s (pl_ID pool))) in
  do! _ := smodify (onReport (withResources (fun x => mkResourceRecord (rr_LoadBalancerID x) (rr_VIPAddress x)
             (rr_FloatingIPID x) (rr_FloatingIP x) (rr_ListenerID x) (pl_ID pool) (rr_MemberIDs x)
             (rr_MonitorID x) (rr_L7PolicyID x) (rr_L7RuleID x)))) in
  do! _ := saveState in
  do! _ := waitActive in
  do! _ := swrap "update pool: %w" [] (recordedAs "update" rolePool (pl_ID pool)
    (probe (PUpdatePool (pl_ID pool) (ProbeDescription id rolePool ^^ "; phase=verified") tags))) in
  waitActive.

(** One round of the loop of [createAndUpdateMembers]. *)
Definition createAndUpdateMember (index : nat) (address : string) : SM runner unit :=
  do! tags := tagsFor roleMember in
  do! r := sget in
  let name := resourceName (st_Identity (rn_state r)) roleMember ^^ "-" ^^ decimal_N (N.of_nat index) in
  let poolID := st_PoolID (rn_state r) in
  do! member := swrap "create member %s: %w" [address] (recorded "create" roleMember mb_ID
    (call (ReqCreateMember poolID (mkCreateMemberOpts address (pc_MemberPort config) name
       (pc_MemberSubnetID config) (Some true) tags)))) in
  do! _ := smodify (onState (fun s => withMember s (mb_ID member))) in
  do! _ := smodify (onReport (withResources (fun x => mkResourceRecord (rr_LoadBalancerID x) (rr_VIPAddress x)
             (rr_FloatingIPID x) (rr_FloatingIP x) (rr_ListenerID x) (rr_PoolID x) (rr_MemberIDs x ++ [mb_ID member])
             (rr_MonitorID x) (rr_L7PolicyID x) (rr_L7RuleID x)))) in
  do! _ := saveState in
  do! _ := waitActive in
  do! _ := swrap "update member %s: %w" [address] (recordedAs "update" roleMember (mb_ID member)
    (probe (PUpdateMember poolID (mb_ID member) (name ^^ "-verified") tags))) in
  waitActive.

Fixpoint createAndUpdateMembersFrom (index : nat) (addresses : list string) : SM runner unit :=
  match addresses with
  | [] => sret tt
  | address :: rest =>
      do! _ := createAndUpdateMember index address in createAndUpdateMembersFrom (S index) rest
  end.
Definition createAndUpdateMembers : SM runner unit := createAndUpdateMembersFrom 0 (pc_MemberAddresses config).

Definition createAndUpdateMonitor : SM runner unit :=
  do! tags := tagsFor roleMonitor in
  do! r := sget in
  let name := resourceName (st_Identity (rn_state r)) roleMonitor in
  do! monitor := swrap "create health monitor: %w" [] (recorded "create" roleMonitor mn_ID
    (call (ReqCreateMonitor (mkCreateMonitorOpts (st_PoolID (rn_state r)) "HTTP" 10 5 3 3 (pc_HealthPath config) "GET"
       "200-399" name (Some true) tags)))) in
  do! _ := smodify (onState (fun s => withMonitor s (mn_ID monitor))) in
  do! _ := smodify (onReport (withResources (fun x => mkResourceRecord (rr_LoadBalancerID x) (rr_VIPAddress x)
             (rr_FloatingIPID x) (rr_FloatingIP x) (rr_ListenerID x) (rr_PoolID x) (rr_MemberIDs x)
             (mn_ID monitor) (rr_L7PolicyID x) (rr_L7RuleID x)))) in
  do! _ := saveState in
  do! _ := waitActive in
  do! _ := swrap "update health monitor: %w" [] (recordedAs "update" roleMonitor (mn_ID monitor)
    (probe (PUpdateMonitor (mn_ID monitor) (name ^^ "-verified") tags))) in
  waitActive.

Definition createAndUpdateL7Policy : SM runner unit :=
  do! tags := tagsFor roleL7Policy in
  do! r := sget in
  let id := st_Identity (rn_state r) in
  do! policy := swrap "create L7 policy: %w" [] (recorded "create" roleL7Policy lp_ID
    (call (ReqCreatePolicy (mkCreatePolicyOpts (resourceName id roleL7Policy) (st_ListenerID (rn_state r))
       "REDIRECT_TO_POOL" 1 (ProbeDescription id roleL7Policy ^^ "; phase=created") (st_PoolID (rn_state r))
       (Some true) tags)))) in
  do! _ := smodify (onState (fun s => withPolicy s (lp_ID policy))) in
  do! _ := smodify (onReport (withResources (fun x => mkResourceRecord (rr_LoadBalancerID x) (rr_VIPAddress x)
             (rr_FloatingIPID x) (rr_FloatingIP x) (rr_ListenerID x) (rr_PoolID x) (rr_MemberIDs x)
             (rr_MonitorID x) (lp_ID policy) (rr_L7RuleID x)))) in
  do! _ := saveState in
  do! _ := waitActive in
  do! _ := swrap "update L7 policy: %w" [] (recordedAs "update" roleL7Policy (lp_ID policy)
    (probe (PUpdatePolicy (lp_ID policy) (ProbeDescription id roleL7Policy ^^ "; phase=verified") tags))) in
  waitActive.

Definition createAndUpdateL7Rule : SM runner unit :=
  do! tags := tagsFor roleL7Rule in
  do! r := sget in
  let policyID := st_L7PolicyID (rn_state r) in
  do! rule := swrap "create L7 rule: %w" [] (recorded "create" roleL7Rule lr_ID
    (call (ReqCreateRule policyID (mkCreateRuleOpts "PATH" "STARTS_WITH" "/__gateway_api_openstack_initial_no_match"
       (Some true) tags)))) in
  do! _ := smodify (onState (fun s => withRule s (lr_ID rule))) in
  do! _ := smodify (onReport (withResources (fun x => mkResourceRecord (rr_LoadBalancerID x) (rr_VIPAddress x)
             (rr_FloatingIPID x) (rr_FloatingIP x) (rr_ListenerID x) (rr_PoolID x) (rr_MemberIDs x)
             (rr_MonitorID x) (rr_L7PolicyID x) (lr_ID rule)))) in
  do! _ := saveState in
  do! _ := waitActive in
  do! _ := swrap "update L7 rule: %w" [] (recordedAs "update" roleL7Rule (lr_ID rule)
    (probe (PUpdateRule policyID (lr_ID rule) "PATH" "STARTS_WITH" (pc_MatchPath config) tags))) in
  waitActive.

(** The first part of [createAndExerciseResources]. *)
Definition createAndUpdateLoadBalancer : SM runner unit :=
  do! tags := tagsFor roleLoadBalancer in
  do! id := identity in
  do! loadBalancer := swrap "create load balancer: %w" [] (recorded "create" roleLoadBalancer lb_ID
    (call (ReqCreateLoadBalancer (mkCreateLoadBalancerOpts (resourceName id roleLoadBalancer)
       (ProbeDescription id roleLoadBalancer ^^ "; phase=created") (pc_VIPSubnetID config) (pc_Provider config)
       (Some true) tags)))) in
  do! _ := smodify (onState (fun s => withLoadBalancer s (lb_ID loadBalancer) (lb_VipPortID loadBalancer))) in
  do! _ := smodify (onReport (withResources (fun x => mkResourceRecord (lb_ID loadBalancer) (lb_VipAddress loadBalancer)
             (rr_FloatingIPID x) (rr_FloatingIP x) (rr_ListenerID x) (rr_PoolID x) (rr_MemberIDs x)
             (rr_MonitorID x) (rr_L7PolicyID x) (rr_L7RuleID x)))) in
  do! _ := saveState in
  do! _ := waitActive in
  do! _ := swrap "update load balancer: %w" [] (recordedAs "update" roleLoadBalancer (lb_ID loadBalancer)
    (probe (PUpdateLoadBalancer (lb_ID loadBalancer) (ProbeDescription id roleLoadBalancer ^^ "; phase=verified") tags))) in
  waitActive.

Definition createAndExerciseResources : SM runner unit :=
  do! _ := createAndUpdateLoadBalancer in
  do! _ := if String.eqb (pc_ExternalNetworkID config) "" then sret tt else createAndUpdateFloatingIP in
  do! _ := createAndUpdateListener in
  do! _ := createAndUpdatePool in
  do! _ := createAndUpdateMembers in
  do! _ := createAndUpdateMonitor in
  do! _ := createAndUpdateL7Policy in
  createAndUpdateL7Rule.

(** [if err == nil && !identity.Matches(...) { err = mismatch }]. *)
Definition inspect {A} (get : M A) (ok : A -> bool) (mismatch : string) (args : list string) : M unit :=
  let! x := get in
  guard! ok x else (Errorf mismatch args None) in
  ret tt.

Fixpoint inspectMembers (identity : probeIdentity) (poolID : string) (ids : list string) : M unit :=
  match ids with
  | [] => ret tt
  | memberID :: rest =>
      let! _ := inspect (probe (PGetMember poolID memberID)) (fun x => Matches identity (mb_Tags x) roleMember)
                  "member %s identity mismatch" [memberID] in
      inspectMembers identity poolID rest
  end.

Definition inspectGraph (s : State) : M unit :=
  let id := st_Identity s in
  let! _ := inspect (GetLoadBalancer (st_LoadBalancerID s)) (fun x => Matches id (lb_Tags x) roleLoadBalancer)
              "load balancer identity mismatch" [] in
  let! _ := inspect (probe (PGetListener (st_ListenerID s))) (fun x => Matches id (ls_Tags x) roleListener)
              "listener identity mismatch" [] in
  let! _ := inspect (probe (PGetPool (st_PoolID s))) (fun x => Matches id (pl_Tags x) rolePool)
              "pool identity mismatch" [] in
  let! _ := inspectMembers id (st_PoolID s) (st_MemberIDs s) in
  let! _ := inspect (probe (PGetMonitor (st_MonitorID s))) (fun x => Matches id (mn_Tags x) roleMonitor)
              "health monitor identity mismatch" [] in
  let! _ := inspect (probe (PGetPolicy (st_L7PolicyID s))) (fun x => Matches id (lp_Tags x) roleL7Policy)
              "L7 policy identity mismatch" [] in
  let! _ := inspect (probe (PGetRule (st_L7PolicyID s) (st_L7RuleID s))) (fun x => Matches id (lr_Tags x) roleL7Rule)
              "L7 rule identity mismatch" [] in
  if String.eqb (st_FloatingIPID s) "" then ret tt
  else inspect (probe (PGetFloatingIP (st_FloatingIPID s)))
         (fun x => ProbeMatchesDescription id (fip_Description x) roleFloatingIP && String.eqb (fip_PortID x) (st_VIPPortID s))
         "floating IP identity mismatch" [].

Definition inspectResources : SM runner unit :=
  do! r := sget in
  swrap "inspect managed resources: %w" []
    (recordedAs "inspect" "resource-graph" (st_LoadBalancerID (rn_state r)) (inspectGraph (rn_state r))).

(** [net.JoinHostPort]. *)
Definition JoinHostPort (host port : string) : string :=
  if Contains host ":" || Contains host "%" then "[" ^^ host ^^ "]:" ^^ port else host ^^ ":" ^^ port.

(** The record of a request that was answered, and its error. *)
Definition trafficResult (target : string) (response : httpResponse) : TrafficRecord * option error :=
  let '(bytes, digest, err) := match hp_body response with
    | Err e => (0, "", Some e)
    | Ok body => (String.length body, hex (Sum256 body), None)
    end in
  let err := match err with
    | None => if (hp_StatusCode response <? 200)%Z || (400 <=? hp_StatusCode response)%Z
              then Some (Errorf "unexpected HTTP status %d" [decimal_Z (hp_StatusCode response)] None) else None
    | Some e => Some e
    end in
  let err := match err, hp_close response with
    | None, Some e => Some (Errorf "close traffic response: %w" [] (Some e))
    | err, _ => err
    end in
  (mkTrafficRecord target (pc_Host config) (hp_StatusCode response) bytes digest
     (match err with None => true | Some _ => false end) (match err with None => "" | Some e => errorText e end), err).

Definition checkTraffic : SM runner unit :=
  do! r := sget in
  let resources := pr_Resources (rn_report r) in
  let address := if String.eqb (rr_FloatingIP resources) "" then rr_VIPAddress resources else rr_FloatingIP resources in
  let target := "http://" ^^ JoinHostPort address (decimal_Z (pc_ListenerPort config)) ^^ pc_RequestPath config in
  let failed e := mkTrafficRecord target (pc_Host config) 0 0 "" false (errorText e) in
  do! request := stry (slift (probe (PNewHTTPRequest target))) in
  match request with
  | Err e =>
      do! _ := smodify (onReport (withTraffic (failed e))) in
      sraise (Errorf "build traffic request: %w" [] (Some e))
  | Ok _ =>
      do! response := stry (slift (probe (PDo target (pc_Host config)))) in
      let '(traffic, err) := match response with
        | Err e => (failed e, Some e)
        | Ok response => trafficResult target response
        end in
      do! _ := smodify (onReport (withTraffic traffic)) in
      do! _ := record "request" "backend-traffic" "" err in
      match err with
      | Some e => sraise (Errorf "traffic check: %w" [] (Some e))
      | None => sret tt
      end
  end.

(** ** cleanup.go *)

Definition waitAfterChildDelete (loadBalancerID : string) (timeout interval : Z) : M unit :=
  let! _ := WaitLoadBalancerActive loadBalancerID timeout interval in ret tt.

(** What the functions that delete one child do: [what] is its name in
    messages. *)
Definition deleteChild {A} (what : string) (args : list string) (get : M A) (owned : A -> bool) (remove wait : M unit)
    : M unit :=
  try get (fun x =>
    match x with
    | Err e =>
        if isNotFound e then ret tt
        else raise (Errorf ("inspect " ^^ what ^^ " before cleanup: %w") args (Some e))
    | Ok child =>
        guard! owned child else (Errorf ("refusing cleanup: " ^^ what ^^ " identity does not match state") args None) in
        let! _ := wrap ("delete " ^^ what ^^ ": %w") args remove in
        wait
    end).

Section cleanup.
Context (s : State) (timeout interval : Z).
Definition afterDelete : M unit := waitAfterChildDelete (st_LoadBalancerID s) timeout interval.

Definition deleteL7Rule : M unit :=
  if String.eqb (st_L7PolicyID s) "" || String.eqb (st_L7RuleID s) "" then ret tt
  else deleteChild "L7 rule" [] (probe (PGetRule (st_L7PolicyID s) (st_L7RuleID s)))
         (fun x => Matches (st_Identity s) (lr_Tags x) roleL7Rule)
         (DeleteRule (st_L7PolicyID s) (st_L7RuleID s)) afterDelete.

Definition deleteL7Policy : M unit :=
  if String.eqb (st_L7PolicyID s) "" then ret tt
  else deleteChild "L7 policy" [] (probe (PGetPolicy (st_L7PolicyID s)))
         (fun x => Matches (st_Identity s) (lp_Tags x) roleL7Policy) (DeletePolicy (st_L7PolicyID s)) afterDelete.

Definition deleteMonitor : M unit :=
  if String.eqb (st_MonitorID s) "" then ret tt
  else deleteChild "health monitor" [] (probe (PGetMonitor (st_MonitorID s)))
         (fun x => Matches (st_Identity s) (mn_Tags x) roleMonitor) (DeleteMonitor (st_MonitorID s)) afterDelete.

Fixpoint deleteMembersIn (ids : list string) : M unit :=
  match ids with
  | [] => ret tt
  | memberID :: rest =>
      let! _ := deleteChild "member %s" [memberID] (probe (PGetMember (st_PoolID s) memberID))
                  (fun x => Matches (st_Identity s) (mb_Tags x) roleMember)
                  (DeleteMember (st_PoolID s) memberID) afterDelete in
      deleteMembersIn rest
  end.
Definition deleteMembers : M unit := deleteMembersIn (st_MemberIDs s).

Definition deletePool : M unit :=
  if String.eqb (st_PoolID s) "" then ret tt
  else deleteChild "pool" [] (probe (PGetPool (st_PoolID s)))
         (fun x => Matches (st_Identity s) (pl_Tags x) rolePool) (DeletePool (st_PoolID s)) afterDelete.

Definition deleteListener : M unit :=
  if String.eqb (st_ListenerID s) "" then ret tt
  else deleteChild "listener" [] (probe (PGetListener (st_ListenerID s)))
         (fun x => Matches (st_Identity s) (ls_Tags x) roleListener) (DeleteListener (st_ListenerID s)) afterDelete.

(** Whether the load balancer of the state exists. *)
Definition findLoadBalancer : M bool :=
  if String.eqb (st_LoadBalancerID s) "" then ret false
  else try (GetLoadBalancer (st_LoadBalancerID s)) (fun x =>
    match x with
    | Ok loadBalancer =>
        guard! Matches (st_Identity s) (lb_Tags loadBalancer) roleLoadBalancer
        else (Errorf "refusing cleanup: load balancer identity does not match state" [] None) in
        ret true
    | Err e =>
        if isNotFound e then ret false
        else raise (Errorf "inspect load balancer before cleanup: %w" [] (Some e))
    end).

Definition deleteProbeFloatingIP : M unit :=
  if String.eqb (st_FloatingIPID s) "" then ret tt
  else try (probe (PGetFloatingIP (st_FloatingIPID s))) (fun x =>
    match x with
    | Ok floatingIP =>
        guard! ProbeMatchesDescription (st_Identity s) (fip_Description floatingIP) roleFloatingIP
               && String.eqb (fip_PortID floatingIP) (st_VIPPortID s)
        else (Errorf "refusing cleanup: Floating IP identity does not match state" [] None) in
        wrap "delete Floating IP: %w" [] (DeleteFloatingIP (st_FloatingIPID s))
    | Err e =>
        if isNotFound e then ret tt
        else raise (Errorf "inspect Floating IP before cleanup: %w" [] (Some e))
    end).

(** What is done below an existing load balancer, and to it. *)
Definition deleteGraph : M unit :=
  let! _ := deleteL7Rule in
  let! _ := deleteL7Policy in
  let! _ := deleteMonitor in
  let! _ := deleteMembers in
  let! _ := deletePool in
  let! _ := deleteListener in
  let! _ := wrap "delete load balancer: %w" [] (DeleteLoadBalancer (st_LoadBalancerID s)) in
  WaitLoadBalancerDeleted (st_LoadBalancerID s) timeout interval.

Definition cleanupWithClients (stateFile : string) : M unit :=
  let! loadBalancerExists := findLoadBalancer in
  let! _ := deleteProbeFloatingIP in
  let! _ := if loadBalancerExists then deleteGraph else ret tt in
  try (probe (PRemove stateFile)) (fun x =>
    match x with
    | Ok _ => ret tt
    | Err e => if IsNotExist e then ret tt else raise (Errorf "remove completed state file: %w" [] (Some e))
    end).
End cleanup.

Definition Cleanup (cfg : CleanupConfig) : M unit :=
  let! state := LoadState (cc_StateFile cfg) in
  let region := if String.eqb (cc_Region cfg) "" then st_Region state else cc_Region cfg in
  let! _ := probe (PNewServiceClients region (st_OctaviaMicroversion state) (cc_AllowInsecureOpenStack cfg)) in
  cleanupWithClients state (cc_OperationTimeout cfg) (cc_PollInterval cfg) (cc_StateFile cfg).

(** ** Run *)

Definition runBody : SM runner unit :=
  do! _ := recorded "authenticate" "openstack" (fun _ => "")
             (probe (PNewServiceClients (pc_Region config) (pc_OctaviaMicroversion config) (pc_AllowInsecureOpenStack config))) in
  do! r := sget in
  do! _ := slift (CreateState (pc_StateFile config) (rn_state r)) in
  do! _ := discoverProviders in
  do! _ := createAndExerciseResources in
  do! _ := inspectResources in
  if pc_SkipTrafficCheck config then sret tt else checkTraffic.

(** The deferred function: cleanup, then the report. *)
Definition finishCleanup (r : runner) (runErr : outcome_of unit) : prog (runner * outcome_of unit) :=
  if negb (pc_KeepResources config) && negb (String.eqb (st_LoadBalancerID (rn_state r)) "") then
    bind (cleanupWithClients (rn_state r) (pc_OperationTimeout config) (pc_PollInterval config) (pc_StateFile config))
      (fun x => Ret (match x with
         | Ok _ => (onReport (withCleanup true) r, runErr)
         | Err e => (onReport (withCleanup false) r, joinError runErr (Errorf "automatic cleanup: %w" [] (Some e)))
         end))
  else Ret (r, runErr).
Definition finishReport (r : runner) (runErr : outcome_of unit) : prog (probeReport * outcome_of unit) :=
  let report := match runErr with
    | Err e => withOutcome "failed" (errorText e) (rn_report r)
    | Ok _ => withOutcome "succeeded" (pr_Error (rn_report r)) (rn_report r)
    end in
  bind (SaveReport (pc_ReportFile config) report) (fun x =>
    Ret (report, match x with Ok _ => runErr | Err e => joinError runErr e end)).

Definition Run (now : Z) : prog (probeReport * outcome_of unit) :=
  bind (runBody (mkRunner (NewState now config) (newReport config))) (fun '(r, runErr) =>
    bind (finishCleanup r runErr) (fun '(r, runErr) => finishReport r runErr)).
End runner.
