(* ===== verification/ProbeLogic.v ===== *)
(** * A Hoare logic over traces

    [triple ok P m Q]: started after a trace that satisfies [P], every request
    that [m] makes is in [ok] after the trace so far, and [m] ends with a result and
    a trace that satisfy [Q].  Only executions whose events satisfy [honest] count.
    [striple] is the same for programs over a mutable scope, with a postcondition
    of its own for errors. *)
From stdpp Require Import base list strings gmap.
From Stdlib Require Import ZArith Lia.
From S2P Require Import Prelude GoStrings Cloud OpenStack ProgramLogic KubeClient ReconcileLogic.

Set Default Goal Selector "!".

Section allowed.
Context (ok : list event -> request -> Prop).

Fixpoint allowed (t tr : list event) : Prop :=
  match tr with [] => True | e :: tr' => ok t (ev_req e) /\ allowed (t ++ [e]) tr' end.

Lemma allowed_app t tr tr' : allowed t (tr ++ tr') <-> allowed t tr /\ allowed (t ++ tr) tr'.
Proof.
  revert t. induction tr as [|e tr IH]; intros t; cbn [allowed app].
  - rewrite app_nil_r. tauto.
  - rewrite IH, <- (assoc app t [e] tr). tauto.
Qed.

Lemma allowed_split t pre e post : allowed t (pre ++ e :: post) -> ok (t ++ pre) (ev_req e).
Proof. rewrite allowed_app. cbn. tauto. Qed.

End allowed.

(** ** Programs *)

Section logic.
Context (honest : event -> Prop) (ok : list event -> request -> Prop).

Definition triple {A} (P : list event -> Prop) (m : prog A) (Q : A -> list event -> Prop) : Prop :=
  forall t tr a, P t -> Forall honest tr -> exec m tr a -> allowed ok t tr /\ Q a (t ++ tr).

Lemma triple_ret {A} P (a : A) (Q : A -> list event -> Prop) : (forall t, P t -> Q a t) -> triple P (Ret a) Q.
Proof. intros HQ t tr b Hp _ [-> ->]. rewrite app_nil_r. by split; [|apply HQ]. Qed.

Lemma triple_call {A} P r (k : _ -> prog A) Q :
  (forall t, P t -> ok t r) ->
  (forall x, honest (Ev r x) -> triple (fun t => exists t0, P t0 /\ t = t0 ++ [Ev r x]) (k x) Q) -> triple P (Call r k) Q.
Proof.
  intros Hok Hk t tr a Hp Hh (x & tr' & -> & Hx). apply Forall_cons in Hh as [Hh Ht].
  destruct (Hk x Hh (t ++ [Ev r x]) tr' a) as [Ha Hq]; [eauto|done|done|].
  rewrite <- (assoc app) in Hq. split; [split; [by apply Hok|done]|done].
Qed.

Lemma triple_bind {A B} P (m : prog A) R (f : A -> prog B) Q :
  triple P m R -> (forall a, triple (R a) (f a) Q) -> triple P (bind m f) Q.
Proof.
  intros Hm Hf t tr b Hp Hh (tr1 & tr2 & a & -> & H1 & H2)%exec_bind. apply Forall_app in Hh as [Hh1 Hh2].
  destruct (Hm t tr1 a Hp Hh1 H1) as [Ha1 Hr]. destruct (Hf a (t ++ tr1) tr2 b Hr Hh2 H2) as [Ha2 Hq].
  rewrite <- (assoc app) in Hq. rewrite allowed_app. tauto.
Qed.

Lemma triple_weaken {A} (P P' : list event -> Prop) (m : prog A) (Q Q' : A -> list event -> Prop) :
  triple P' m Q' -> (forall t, P t -> P' t) -> (forall a t, Q' a t -> Q a t) -> triple P m Q.
Proof. intros Hm HP HQ t tr a Hp Hh Hx. destruct (Hm t tr a (HP _ Hp) Hh Hx). by split; [|apply HQ]. Qed.

(** The postcondition of a fallible program. *)
Definition onOk {A} (Q : A -> list event -> Prop) (E : list event -> Prop) (x : outcome_of A) : list event -> Prop :=
  match x with Ok a => Q a | Err _ => E end.

Lemma triple_mbind {A B} P (m : M A) R (f : A -> M B) Q E :
  triple P m (onOk R E) -> (forall a, triple (R a) (f a) (onOk Q E)) -> triple P (mbind m f) (onOk Q E).
Proof. intros Hm Hf. eapply triple_bind; [exact Hm|]. intros [a|e]; [apply Hf|by apply triple_ret]. Qed.

Lemma triple_onError {A} P g (m : M A) Q E : triple P m (onOk Q E) -> triple P (onError g m) (onOk Q E).
Proof. intros Hm. eapply triple_bind; [exact Hm|]. intros [a|e]; by apply triple_ret. Qed.

Lemma triple_request (r : request) P (Q : response r -> list event -> Prop) E :
  (forall t, P t -> ok t r) ->
  (forall x t, honest (Ev r x) -> P t -> onOk Q E x (t ++ [Ev r x])) -> triple P (call r) (onOk Q E).
Proof.
  intros Hok HQ. apply triple_call; [done|]. intros x Hh. apply triple_ret. intros t (t0 & Hp & ->). by apply HQ.
Qed.

(** A program all of whose requests are harmless keeps what harmless events keep. *)
Lemma triple_keeps {A} (harmful : request -> bool) (P : list event -> Prop) (m : prog A) :
  Avoids harmful m ->
  (forall t r, P t -> harmful r = false -> ok t r) ->
  (forall t e, P t -> harmful (ev_req e) = false -> P (t ++ [e])) ->
  triple P m (fun _ => P).
Proof.
  intros Hm Hok Hkeep t tr a Hp _ Hx. apply Hm in Hx. unfold avoids in Hx. clear Hm a m.
  revert t Hp. induction tr as [|e tr IH]; intros t Hp; cbn [allowed].
  - by rewrite app_nil_r.
  - apply Forall_cons in Hx as [He Htr]. destruct (IH Htr (t ++ [e])) as [Ha Hq]; [by apply Hkeep|].
    rewrite <- (assoc app) in Hq. split; [split; [by apply Hok|done]|done].
Qed.

End logic.

(** What is allowed in another way while [I] holds, which allowed requests keep. *)
Lemma triple_allow {A} honest ok ok' (P I : list event -> Prop) (m : prog A) Q :
  triple honest ok P m Q -> (forall t r, I t -> ok t r -> ok' t r) -> (forall t e, I t -> ok t (ev_req e) -> I (t ++ [e])) ->
  triple honest ok' (fun t => P t /\ I t) m (fun a t => Q a t /\ I t).
Proof.
  intros Hm Hok HI t tr a [Hp Hi] Hh Hx. destruct (Hm t tr a Hp Hh Hx) as [Ha Hq].
  enough (allowed ok' t tr /\ I (t ++ tr)) by tauto. clear -Hok HI Hi Ha.
  revert t Hi Ha. induction tr as [|e tr IH]; intros t Hi Ha; cbn [allowed] in *; [by rewrite app_nil_r|].
  destruct Ha as [He Ha]. destruct (IH (t ++ [e])) as [Ha' Hi']; [by apply HI|done|].
  rewrite <- (assoc app) in Hi'. by split; [split; [apply Hok|]|].
Qed.

(** ** Programs over a scope *)

Section scoped.
Context (honest : event -> Prop) (ok : list event -> request -> Prop).
Abbreviation triple := (triple honest ok).

Definition striple {S A} (P : list event -> S -> Prop) (m : SM S A) (Q : A -> list event -> S -> Prop)
    (E : list event -> S -> Prop) : Prop :=
  forall s, triple (fun t => P t s) (m s)
    (fun x t => match snd x with Ok a => Q a t (fst x) | Err _ => E t (fst x) end).

Context {S : Type}.
Implicit Types (P E : list event -> S -> Prop).

Lemma striple_bind {A B} P (m : SM S A) R (f : A -> SM S B) Q E :
  striple P m R E -> (forall a, striple (R a) (f a) Q E) -> striple P (sbind m f) Q E.
Proof.
  intros Hm Hf s. eapply triple_bind; [apply Hm|]. intros [s' [a|e]]; cbn [fst snd].
  - apply (Hf a s').
  - by apply triple_ret.
Qed.

Lemma striple_ret {A} P (a : A) (Q : A -> list event -> S -> Prop) E :
  (forall t s, P t s -> Q a t s) -> striple P (sret a) Q E.
Proof. intros HQ s. apply triple_ret. intros t Hp. by apply HQ. Qed.

Lemma striple_raise {A} P e (Q : A -> list event -> S -> Prop) E :
  (forall t s, P t s -> E t s) -> striple P (sraise e) Q E.
Proof. intros HE s. apply triple_ret. intros t Hp. by apply HE. Qed.

Lemma striple_get P E : striple P sget (fun s0 t s => P t s /\ s = s0) E.
Proof. intros s. by apply triple_ret. Qed.

Lemma striple_modify P (f : S -> S) (Q : unit -> list event -> S -> Prop) E :
  (forall t s, P t s -> Q tt t (f s)) -> striple P (smodify f) Q E.
Proof. intros HQ s. apply triple_ret. intros t Hp. by apply HQ. Qed.

Lemma striple_lift {A} P (m : M A) (Q : A -> list event -> S -> Prop) E :
  (forall s, triple (fun t => P t s) m (onOk (fun a t => Q a t s) (fun t => E t s))) -> striple P (slift m) Q E.
Proof.
  intros Hm s. eapply triple_bind; [apply Hm|]. intros [a|e]; apply triple_ret; intros t Ht; exact Ht.
Qed.

Lemma striple_try {A} P (m : SM S A) (Q : outcome_of A -> list event -> S -> Prop) E :
  striple P m (fun a => Q (Ok a)) (fun t s => forall e, Q (Err e) t s) -> striple P (stry m) Q E.
Proof.
  intros Hm s. eapply triple_bind; [apply Hm|]. intros [s' [a|e]]; apply triple_ret; cbn; intros t Ht; auto.
Qed.

Lemma striple_weaken {A} P P' (m : SM S A) (Q Q' : A -> list event -> S -> Prop) E :
  striple P' m Q' E -> (forall t s, P t s -> P' t s) -> (forall a t s, Q' a t s -> Q a t s) -> striple P m Q E.
Proof.
  intros Hm HP HQ s. eapply triple_weaken; [apply Hm|by intros t; apply HP|].
  intros [s' [a|e]] t; cbn; [apply HQ|done].
Qed.
End scoped.
