(* ===== verification/ProbeFacts.v ===== *)
(** * The probe's state file

    About its state file: saving is atomic, and creating never touches a file that
    exists.  The specifications of [SaveState] and [CreateState] are what
    ProbeCleanupFacts.v and ProbeRunFacts.v build on. *)
From stdpp Require Import base list strings gmap.
From Stdlib Require Import ZArith NArith Lia Ascii.
From S2P Require Import Prelude GoStrings Cloud Metadata OpenStack ProgramLogic KubeClient ReconcileLogic ProbeState Probe ProbeLogic.

Set Default Goal Selector "!".

(** ** The file system *)

(** The contents of files; [None] is unknown, after a write that failed. *)
Abbreviation files := (gmap string (option string)).

(** What an answered request does to the files. *)
Definition fileStep (f : files) (e : event) : files :=
  match e with
  | Ev (ReqProbe (POpenExclusive path)) (Ok _) => <[path := Some ""]> f
  | Ev (ReqProbe (PCreateTemp _ _)) (Ok name) => <[name := Some ""]> f
  | Ev (ReqProbe (PWrite file data)) (Ok _) => <[file := (fun old => old ^^ data) <$> default None (f !! file)]> f
  | Ev (ReqProbe (PWrite file _)) (Err _) => <[file := None]> f
  | Ev (ReqProbe (PRename from to)) (Ok _) =>
      match f !! from with Some content => <[to := content]> (delete from f) | None => f end
  | Ev (ReqProbe (PRemove path)) (Ok _) => delete path f
  | Ev (ReqProbe (PWriteFile path data)) (Ok _) => <[path := Some data]> f
  | Ev (ReqProbe (PWriteFile path _)) (Err _) => <[path := None]> f
  | _ => f
  end.
Definition filesAfter (f : files) (tr : list event) : files := foldl fileStep f tr.

Lemma filesAfter_app f tr tr' : filesAfter f (tr ++ tr') = filesAfter (filesAfter f tr) tr'.
Proof. apply foldl_app. Qed.

(** Requests that leave files alone whatever the answer. *)
Definition touchesFiles (r : request) : bool :=
  match r with
  | ReqProbe (POpenExclusive _) | ReqProbe (PCreateTemp _ _) | ReqProbe (PWrite _ _) | ReqProbe (PRename _ _)
  | ReqProbe (PRemove _) | ReqProbe (PWriteFile _ _) => true
  | _ => false
  end.
Lemma fileStep_quiet f e : touchesFiles (ev_req e) = false -> fileStep f e = f.
Proof. destruct e as [[] x]; try done. by destruct r. Qed.

Section state.
Context `{StateJSON} `{OSErrors}.

(** [os.CreateTemp] makes a new file: its name is not that of the state file. *)
Definition freshTemp (path : string) (e : event) : Prop :=
  match e with Ev (ReqProbe (PCreateTemp _ _)) (Ok name) => name <> path | _ => True end.

(** Executions of the two functions, request by request. *)
Lemma exec_step text r flags tr flags' x :
  exec (step text r flags) tr (flags', x) <->
  exists y, flags' = flags /\ tr = [Ev (ReqProbe r) y] /\
    x = match y with Ok a => Ok a | Err e => Err (Errorf (text ^^ ": %w") [] (Some e)) end.
Proof.
  unfold step, wrap. rewrite exec_slift, exec_onError. split.
  - intros (-> & y & Hy & ->). apply exec_call in Hy as ->. eauto.
  - intros (y & -> & -> & ->). split; [done|]. exists y. by split; [apply exec_call|].
Qed.

(** What the functions below do with files. *)
Definition isFileRequest (r : request) : bool :=
  match r with
  | ReqProbe (PMkdirAll _) | ReqProbe (POpenExclusive _) | ReqProbe (PCreateTemp _ _) | ReqProbe (PChmod _)
  | ReqProbe (PWrite _ _) | ReqProbe (PSync _) | ReqProbe (PClose _) | ReqProbe (PRename _ _) | ReqProbe (PRemove _) => true
  | _ => false
  end.

Section files.
Context (f : files) (path : string) (state : State) (ok : list event -> request -> Prop) (K : list event -> Prop).
Definition contentAt (t : list event) : option (option string) := filesAfter f t !! path.
Definition written (t : list event) : Prop := exists data, encodeState state = Ok data /\ contentAt t = Some (Some data).

Context (HK : forall t e, isFileRequest (ev_req e) = true -> K t -> K (t ++ [e])).

Lemma contentAt_snoc t e : contentAt (t ++ [e]) = fileStep (filesAfter f t) e !! path.
Proof. unfold contentAt. by rewrite filesAfter_app. Qed.

(** One file request that fails or succeeds; [I] is known before it. *)
Lemma step_triple text r (I : list event -> Prop) flags (Q : probeResponse r -> list event -> bool * bool -> Prop) E :
  (forall t, I t -> ok t (ReqProbe r)) ->
  (forall t x, freshTemp path (Ev (ReqProbe r) x) -> I t ->
     match x with Ok a => Q a (t ++ [Ev (ReqProbe r) x]) flags | Err _ => E (t ++ [Ev (ReqProbe r) x]) flags end) ->
  striple (freshTemp path) ok (fun t flags' => I t /\ flags' = flags) (step text r) Q E.
Proof.
  intros Hok HQ. apply striple_lift. intros flags'. apply triple_onError, (triple_request _ _ (ReqProbe r)).
  - intros t [Ht _]. by apply Hok.
  - intros x t Hh [Ht ->]. pose proof (HQ t x Hh Ht) as Hq. by destruct x.
Qed.

(** The deferred function leaves [path] alone when [file] is another one. *)
Lemma closeAndRemove_triple what file closed keep c e :
  file <> path ->
  (forall t q, isFileRequest q = true -> q <> ReqProbe (PRemove path) -> K t -> contentAt t = c -> ok t q) ->
  triple (freshTemp path) ok (fun t => contentAt t = c /\ K t) (closeAndRemove what file closed keep (Err e))
    (onOk (fun _ _ => False) (fun t => contentAt t = c /\ K t)).
Proof.
  intros Hne Hok. unfold closeAndRemove.
  eapply (triple_bind _ _ _ _ (fun x t => (exists e', x = Err e') /\ contentAt t = c /\ K t)).
  - destruct closed; [apply triple_ret; eauto|]. eapply triple_call; [intros t [? ?]; by apply Hok|]. intros x _.
    apply triple_ret. intros t (t0 & [Hc Hk] & ->). rewrite contentAt_snoc. split; [destruct x; eauto|].
    split; [by destruct x|by apply HK].
  - intros x. destruct x as [a|e'].
    { intros t tr b ((? & ?) & _). done. }
    destruct keep; [apply triple_ret; cbn; tauto|]. eapply triple_call; [intros t (_ & ? & ?); apply Hok; [done|congruence|done..]|].
    intros x _. apply triple_ret. intros t (t0 & (_ & Hc & Hk) & ->).
    assert (contentAt (t0 ++ [Ev (ReqProbe (PRemove file)) x]) = c /\ K (t0 ++ [Ev (ReqProbe (PRemove file)) x])) as Hp.
    { rewrite contentAt_snoc. split; [|by apply HK]. destruct x; [|done]. cbn. by rewrite lookup_delete_ne. }
    destruct x as [|e1]; [done|]. by destruct (IsNotExist e1).
Qed.

(** What is known of [path] and of a temporary file before a request. *)
Definition unchanged (c : option (option string)) (t : list event) : Prop := contentAt t = c /\ K t.
Definition withTemp (c : option (option string)) (name content : string) (t : list event) : Prop :=
  name <> path /\ filesAfter f t !! name = Some (Some content) /\ unchanged c t.

Lemma unchanged_snoc c t e :
  isFileRequest (ev_req e) = true -> fileStep (filesAfter f t) e !! path = filesAfter f t !! path ->
  unchanged c t -> unchanged c (t ++ [e]).
Proof. intros He Hs [Hc Hk]. split; [by rewrite contentAt_snoc, Hs|by apply HK]. Qed.

Lemma withTemp_quiet c name content t e :
  isFileRequest (ev_req e) = true -> touchesFiles (ev_req e) = false -> withTemp c name content t -> withTemp c name content (t ++ [e]).
Proof.
  intros He Hq (Hn & Ht & Hu). split_and!; [done|by rewrite filesAfter_app; cbn; rewrite fileStep_quiet|].
  apply unchanged_snoc; [done|by rewrite fileStep_quiet|done].
Qed.

Section save.
Context (c : option (option string)) (data : string) (Hdata : encodeState state = Ok data).
Context (Hok : forall t q, isFileRequest q = true -> q <> ReqProbe (PRemove path) -> K t -> contentAt t = c \/ written t -> ok t q).

Lemma ok_unchanged t r :
  isFileRequest (ReqProbe r) = true -> r <> PRemove path -> unchanged c t -> ok t (ReqProbe r).
Proof. intros Hr Hne [Hc Hk]. apply Hok; [done|congruence|auto..]. Qed.

(** A request that does not touch files, in the body of [SaveState]. *)
Lemma quiet_step text r name content flags :
  isFileRequest (ReqProbe r) = true -> touchesFiles (ReqProbe r) = false ->
  striple (freshTemp path) ok (fun t flags' => withTemp c name content t /\ flags' = flags) (step text r)
    (fun _ t flags' => withTemp c name content t /\ flags' = flags) (fun t _ => unchanged c t).
Proof.
  intros Hr Hq. apply step_triple; [intros t (_ & _ & Hu); apply ok_unchanged; [done|by intros ->|done]|].
  intros t x _ Ht. apply (withTemp_quiet _ _ _ _ (Ev (ReqProbe r) x)) in Ht; [|done..].
  destruct x; [done|]. by destruct Ht as (_ & _ & ?).
Qed.

Lemma saveBody_triple name :
  striple (freshTemp path) ok (fun t flags => withTemp c name "" t /\ flags = (false, false))
    (do! _ := step "protect temporary state" (PChmod name) in
     do! _ := step "write temporary state" (PWrite name data) in
     do! _ := step "sync temporary state" (PSync name) in
     do! _ := step "close temporary state" (PClose name) in
     do! _ := setClosed in
     do! _ := step "replace state" (PRename name path) in
     setKeep)
    (fun _ t flags => flags = (true, true) /\ written t /\ K t) (fun t _ => unchanged c t).
Proof.
  eapply striple_bind; [by apply quiet_step|]. intros ?.
  eapply (striple_bind _ _ _ _ (fun _ t flags => withTemp c name data t /\ flags = (false, false))).
  { apply step_triple; [intros t (_ & _ & Hu); by apply ok_unchanged|]. intros t x _ (Hn & Ht & Hu).
    assert (unchanged c (t ++ [Ev (ReqProbe (PWrite name data)) x])) as Hu'.
    { apply unchanged_snoc; [done| |done]. by destruct x; cbn; rewrite lookup_insert_ne. }
    destruct x as [[]|e]; [|done]. split; [|done]. split_and!; [done| |done].
    rewrite filesAfter_app. cbn. by rewrite Ht, lookup_insert_eq. }
  intros _. eapply striple_bind; [by apply quiet_step|]. intros ?.
  eapply striple_bind; [by apply quiet_step|]. intros ?.
  eapply (striple_bind _ _ _ _ (fun _ t flags => withTemp c name data t /\ flags = (true, false))).
  { apply striple_modify. by intros t [x y] [Ht [= -> ->]]. }
  intros _. eapply (striple_bind _ _ _ _ (fun _ t flags => (written t /\ K t) /\ flags = (true, false))).
  { apply step_triple; [intros t (_ & _ & Hu); by apply ok_unchanged|]. intros t x _ (Hn & Ht & Hc & Hk).
    destruct x as [[]|e].
    - split; [|done]. split; [|by apply HK]. exists data. split; [done|]. rewrite contentAt_snoc. cbn.
      by rewrite Ht, lookup_insert_eq.
    - apply unchanged_snoc; done. }
  intros _. apply striple_modify. by intros t [x y] [[Hw Hk] [= -> ->]].
Qed.
End save.

(** A request that only fails or succeeds. *)
Lemma probe_triple r (P : list event -> Prop) (Q : probeResponse r -> list event -> Prop) E :
  (forall t, P t -> ok t (ReqProbe r)) ->
  (forall (x : outcome_of (probeResponse r)) t, freshTemp path (Ev (ReqProbe r) x) -> P t ->
     onOk Q E x (t ++ [Ev (ReqProbe r) x])) ->
  triple (freshTemp path) ok P (probe r) (onOk Q E).
Proof. exact (triple_request (freshTemp path) ok (ReqProbe r) P Q E). Qed.

(** [SaveState]: the file holds what it held, or the new state; the new one when
    it returns no error. *)
Lemma SaveState_triple c :
  (forall t q, isFileRequest q = true -> q <> ReqProbe (PRemove path) -> K t -> contentAt t = c \/ written t -> ok t q) ->
  triple (freshTemp path) ok (unchanged c) (SaveState path state) (onOk (fun _ t => written t /\ K t) (unchanged c)).
Proof.
  intros Hok. unfold SaveState. destruct (String.eqb path ""); [by apply triple_ret|].
  eapply (triple_mbind _ _ _ _ (fun _ => unchanged c)).
  { apply triple_onError, probe_triple; [intros t; by apply (ok_unchanged c Hok)|].
    intros x t _ Hu. by destruct x; apply unchanged_snoc. }
  intros _. destruct (encodeState state) as [data|e] eqn:Ee; [|by apply triple_ret].
  eapply (triple_mbind _ _ _ _ (fun d t => d = data /\ unchanged c t)); [by apply triple_ret|].
  intros d t0 tr0 x0 [-> Hu]. revert t0 tr0 x0 Hu.
  eapply (triple_mbind _ _ _ _ (fun name => withTemp c name "")).
  { apply triple_onError, (probe_triple (PCreateTemp _ _)); [intros t; by apply (ok_unchanged c Hok)|].
    intros x t Hf Hu. destruct x as [name|e]; cbn [onOk freshTemp] in *; [|by apply unchanged_snoc].
    split_and!; [done|by rewrite filesAfter_app; cbn; rewrite lookup_insert_eq|].
    apply unchanged_snoc; [done|by cbn; rewrite lookup_insert_ne|done]. }
  intros name t0 tr0 x0 Ht0. pose proof (proj1 Ht0) as Hne. revert t0 tr0 x0 Ht0. unfold withDeferred.
  eapply triple_bind.
  { eapply triple_weaken; [apply (saveBody_triple c data Ee Hok name (false, false))|by intros|]. intros x t Hx. exact Hx. }
  intros [[closed keep] [[]|e]]; cbn [fst snd].
  - intros t tr x ([= -> ->] & Hw & Hk) _ [-> ->]. by rewrite app_nil_r.
  - eapply triple_weaken; [apply (closeAndRemove_triple _ _ _ _ c); [done|by auto]|done|by intros []].
Qed.

Section create.
Context (data : string) (Hdata : encodeState state = Ok data).
Context (Hok : forall t q, isFileRequest q = true -> K t -> ok t q).

Lemma written_step text r flags :
  isFileRequest (ReqProbe r) = true -> touchesFiles (ReqProbe r) = false ->
  striple (freshTemp path) ok (fun t flags' => (written t /\ K t) /\ flags' = flags) (step text r)
    (fun _ t flags' => (written t /\ K t) /\ flags' = flags) (fun t _ => K t).
Proof.
  intros Hr Hq. apply step_triple; [intros t [_ Hk]; by apply Hok|]. intros t x _ [(d & He & Hc) Hk].
  assert (written (t ++ [Ev (ReqProbe r) x])) as Hw.
  { exists d. split; [done|]. by rewrite contentAt_snoc, fileStep_quiet. }
  destruct x; [|by apply HK]. split; [|done]. split; [done|by apply HK].
Qed.

Lemma createBody_triple :
  striple (freshTemp path) ok (fun t flags => (contentAt t = Some (Some "") /\ K t) /\ flags = (false, false))
    (do! _ := step "write initial state" (PWrite path data) in
     do! _ := step "sync initial state" (PSync path) in
     do! _ := step "close initial state" (PClose path) in
     do! _ := setClosed in
     setKeep)
    (fun _ t flags => flags = (true, true) /\ written t /\ K t) (fun t _ => K t).
Proof.
  eapply (striple_bind _ _ _ _ (fun _ t flags => (written t /\ K t) /\ flags = (false, false))).
  { apply step_triple; [intros t [_ Hk]; by apply Hok|]. intros t x _ [Hc Hk]. destruct x as [[]|e]; [|by apply HK].
    split; [|done]. split; [|by apply HK]. exists data. split; [done|]. rewrite contentAt_snoc.
    unfold contentAt in Hc. cbn. by rewrite Hc, lookup_insert_eq. }
  intros _. eapply striple_bind; [by apply written_step|]. intros ?. eapply striple_bind; [by apply written_step|]. intros ?.
  eapply (striple_bind _ _ _ _ (fun _ t flags => (written t /\ K t) /\ flags = (true, false))).
  { apply striple_modify. by intros t [x y] [Ht [= -> ->]]. }
  intros _. apply striple_modify. by intros t [x y] [[Hw Hk] [= -> ->]].
Qed.

Lemma closeIncomplete_triple what file closed keep e :
  triple (freshTemp path) ok K (closeAndRemove what file closed keep (Err e)) (onOk (fun _ _ => False) K).
Proof.
  unfold closeAndRemove. eapply (triple_bind _ _ _ _ (fun x t => (exists e', x = Err e') /\ K t)).
  { destruct closed; [apply triple_ret; eauto|]. apply triple_call; [intros t; by apply Hok|]. intros x _. apply triple_ret.
    intros t (t0 & Hk & ->). split; [destruct x; eauto|by apply HK]. }
  intros [?|e']; [by intros t tr x [[? ?] _]|]. destruct keep; [by apply triple_ret; intros t [_ ?]|].
  apply triple_call; [intros t [_ ?]; by apply Hok|]. intros x _. apply triple_ret. intros t (t0 & [_ Hk] & ->).
  apply (HK _ (Ev (ReqProbe (PRemove file)) x)) in Hk; [|done]. destruct x as [|e1]; [done|]. by destruct (IsNotExist e1).
Qed.
End create.

(** [CreateState] leaves the state in the file when it returns no error. *)
Lemma CreateState_triple :
  (forall t q, isFileRequest q = true -> K t -> ok t q) ->
  triple (freshTemp path) ok K (CreateState path state) (onOk (fun _ t => written t /\ K t) K).
Proof.
  intros Hok. unfold CreateState. destruct (String.eqb path ""); [by apply triple_ret|].
  eapply (triple_mbind _ _ _ _ (fun _ => K)).
  { apply triple_onError, probe_triple; [intros t; by apply Hok|]. intros x t _ Hk. by destruct x; apply HK. }
  intros _. destruct (encodeState state) as [data|e] eqn:Ee; [|by apply triple_ret].
  eapply (triple_mbind _ _ _ _ (fun d t => d = data /\ K t)); [by apply triple_ret|].
  intros d t0 tr0 x0 [-> Hk]. revert t0 tr0 x0 Hk.
  eapply (triple_mbind _ _ _ _ (fun _ t => contentAt t = Some (Some "") /\ K t)).
  { apply triple_onError, probe_triple; [intros t; by apply Hok|]. intros x t _ Hk.
    destruct x; cbn [onOk]; [|by apply HK]. split; [|by apply HK]. rewrite contentAt_snoc. cbn. by rewrite lookup_insert_eq. }
  intros _. unfold withDeferred. eapply triple_bind.
  { eapply triple_weaken; [apply (createBody_triple data Ee Hok (false, false))|by intros|]. intros x t Hx. exact Hx. }
  intros [[closed keep] [[]|e]]; cbn [fst snd].
  - intros t tr x ([= -> ->] & Hw & Hk) _ [-> ->]. by rewrite app_nil_r.
  - eapply triple_weaken; [by apply closeIncomplete_triple|done|by intros []].
Qed.
End files.

(** C23. Saving the state of the probe is atomic: at every moment of SaveState
    the state file holds what it held before or the whole new state; it holds
    the new state when no error is returned, and the old content otherwise. *)
Theorem save_state_atomic f path state tr x :
  exec (SaveState path state) tr x -> Forall (freshTemp path) tr ->
  (forall pre post, tr = pre ++ post -> contentAt f path pre = f !! path \/ written f path state pre) /\
  match x with Ok _ => written f path state tr | Err _ => contentAt f path tr = f !! path end.
Proof.
  intros Hx Hf.
  edestruct (SaveState_triple f path state (fun t _ => contentAt f path t = f !! path \/ written f path state t) (fun _ => True))
    with (c := f !! path) (t := @nil event) as [Ha Hq]; [done|by auto|done|exact Hf|exact Hx|].
  cbn [app] in Hq. split; [|destruct x; apply Hq].
  intros pre post ->. destruct post as [|e post].
  - rewrite app_nil_r in Hq. destruct x; [right|left]; apply Hq.
  - by apply allowed_split in Ha.
Qed.
End state.
