(* ===== verification/ProbeCleanupFacts.v ===== *)
(** * What the probe's cleanup guarantees

    Cleanup deletes only resources of the state that it has just seen with the
    probe's identity, the load balancer only after everything below it, and it
    removes the state file only after the load balancer and the Floating IP were seen
    to be gone. *)
From stdpp Require Import base list strings gmap.
From Stdlib Require Import ZArith NArith Lia Ascii.
From S2P Require Import Prelude GoStrings Cloud Metadata OpenStack ProgramLogic KubeClient ReconcileLogic ProbeState Probe ProbeLogic ProbeFacts.

Set Default Goal Selector "!".

(** ** What a trace shows *)

(** Predicates that later events keep. *)
Class Monotone (K : list event -> Prop) : Prop := monotone t e : K t -> K (t ++ [e]).
#[export] Instance Monotone_True : Monotone (fun _ => True).
Proof. by intros. Qed.
#[export] Instance Monotone_and K L : Monotone K -> Monotone L -> Monotone (fun t => K t /\ L t).
Proof. intros HK HL t e [Hk Hl]. by split; [apply HK|apply HL]. Qed.
#[export] Instance Monotone_or K L : Monotone K -> Monotone L -> Monotone (fun t => K t \/ L t).
Proof. intros HK HL t e [Hk|Hl]; [left; by apply HK|right; by apply HL]. Qed.
#[export] Instance Monotone_const (P : Prop) : Monotone (fun _ => P).
Proof. by intros t e. Qed.
#[export] Instance Monotone_Forall {A} (K : A -> list event -> Prop) l :
  (forall x, Monotone (K x)) -> Monotone (fun t => Forall (fun x => K x t) l).
Proof. intros HK t e Hl. eapply Forall_impl; [exact Hl|]. intros x. by apply HK. Qed.
#[export] Instance Monotone_elem e : Monotone (fun t => e ∈ t).
Proof. intros t e' He. apply elem_of_app. by left. Qed.
Lemma Monotone_app K t tr : Monotone K -> K t -> K (t ++ tr).
Proof.
  intros HK. revert t. induction tr as [|e tr IH]; intros t Hk; [by rewrite app_nil_r|].
  rewrite (assoc app t [e] tr). by apply IH, HK.
Qed.

(** A change that is not a deletion: what is created or updated. *)
Definition isChange (r : request) : bool := isMutation r && negb (isDeletion r).
(** Requests that change nothing, neither OpenStack nor files. *)
Definition isEffect (r : request) : bool := isMutation r || touchesFiles r.

Section cleanup.
Context `{Gophercloud} `{OSErrors}.

Definition sawMissing (get : request) (t : list event) : Prop :=
  exists e, isNotFound e = true /\ Ev get (Err e) ∈ t.
Definition sawDeleted (del : request) (t : list event) : Prop := exists x, Ev del (Ok x) ∈ t.
Definition goneBy (get del : request) (t : list event) : Prop := sawMissing get t \/ sawDeleted del t.
Definition shown (get : request) (owned : response get -> bool) (t : list event) : Prop :=
  exists x, owned x = true /\ Ev get (Ok x) ∈ t.
(** The last answer. *)
Definition justShown (get : request) (owned : response get -> bool) (t : list event) : Prop :=
  exists x, owned x = true /\ last t = Some (Ev get (Ok x)).

#[export] Instance sawMissing_monotone get : Monotone (sawMissing get).
Proof. intros t e (x & Hx & Hin). exists x. split; [done|by apply (Monotone_elem (Ev get (Err x)))]. Qed.
#[export] Instance sawDeleted_monotone del : Monotone (sawDeleted del).
Proof. intros t e (x & Hx). exists x. by apply (Monotone_elem (Ev del (Ok x))). Qed.
#[export] Instance goneBy_monotone get del : Monotone (goneBy get del).
Proof. unfold goneBy. apply _. Qed.
#[export] Instance shown_monotone get owned : Monotone (shown get owned).
Proof. intros t e (x & Hx & Hin). exists x. split; [done|by apply (Monotone_elem (Ev get (Ok x)))]. Qed.

Section state.
Context (s : State) (stateFile : string).
Definition matches (role : string) (tags : list string) : bool := Matches (st_Identity s) tags role.
Definition ownsFloatingIP (x : FloatingIP) : bool :=
  ProbeMatchesDescription (st_Identity s) (fip_Description x) roleFloatingIP && String.eqb (fip_PortID x) (st_VIPPortID s).

(** Every child of the load balancer that the state records is gone. *)
Definition ruleGone (t : list event) : Prop :=
  st_L7PolicyID s = "" \/ st_L7RuleID s = "" \/
  goneBy (ReqProbe (PGetRule (st_L7PolicyID s) (st_L7RuleID s))) (ReqDeleteRule (st_L7PolicyID s) (st_L7RuleID s)) t.
Definition policyGone (t : list event) : Prop :=
  st_L7PolicyID s = "" \/ goneBy (ReqProbe (PGetPolicy (st_L7PolicyID s))) (ReqDeletePolicy (st_L7PolicyID s)) t.
Definition monitorGone (t : list event) : Prop :=
  st_MonitorID s = "" \/ goneBy (ReqProbe (PGetMonitor (st_MonitorID s))) (ReqDeleteMonitor (st_MonitorID s)) t.
Definition memberGone (id : string) : list event -> Prop :=
  goneBy (ReqProbe (PGetMember (st_PoolID s) id)) (ReqDeleteMember (st_PoolID s) id).
Definition membersGone (t : list event) : Prop := Forall (fun id => memberGone id t) (st_MemberIDs s).
Definition poolGone (t : list event) : Prop :=
  st_PoolID s = "" \/ goneBy (ReqProbe (PGetPool (st_PoolID s))) (ReqDeletePool (st_PoolID s)) t.
Definition listenerGone (t : list event) : Prop :=
  st_ListenerID s = "" \/ goneBy (ReqProbe (PGetListener (st_ListenerID s))) (ReqDeleteListener (st_ListenerID s)) t.
Definition childrenGone (t : list event) : Prop :=
  ruleGone t /\ policyGone t /\ monitorGone t /\ membersGone t /\ poolGone t /\ listenerGone t.

Definition loadBalancerGone (t : list event) : Prop :=
  st_LoadBalancerID s = "" \/ sawMissing (ReqGetLoadBalancer (st_LoadBalancerID s)) t.
Definition floatingIPGone (t : list event) : Prop :=
  st_FloatingIPID s = "" \/
  goneBy (ReqProbe (PGetFloatingIP (st_FloatingIPID s))) (ReqDeleteFloatingIP (st_FloatingIPID s)) t.
Definition allGone (t : list event) : Prop := loadBalancerGone t /\ floatingIPGone t.

Definition loadBalancerShown (t : list event) : Prop :=
  st_LoadBalancerID s <> "" /\
  shown (ReqGetLoadBalancer (st_LoadBalancerID s)) (fun x : LoadBalancer => matches roleLoadBalancer (lb_Tags x)) t.

(** What must have been seen before a deletion. *)
Definition deletable (t : list event) (r : request) : Prop :=
  match r with
  | ReqDeleteRule policyID id =>
      policyID = st_L7PolicyID s /\ id = st_L7RuleID s /\ id <> "" /\ loadBalancerShown t /\
      justShown (ReqProbe (PGetRule policyID id)) (fun x : Rule => matches roleL7Rule (lr_Tags x)) t
  | ReqDeletePolicy id =>
      id = st_L7PolicyID s /\ id <> "" /\ loadBalancerShown t /\ ruleGone t /\
      justShown (ReqProbe (PGetPolicy id)) (fun x : L7Policy => matches roleL7Policy (lp_Tags x)) t
  | ReqDeleteMonitor id =>
      id = st_MonitorID s /\ id <> "" /\ loadBalancerShown t /\
      justShown (ReqProbe (PGetMonitor id)) (fun x : Monitor => matches roleMonitor (mn_Tags x)) t
  | ReqDeleteMember poolID id =>
      poolID = st_PoolID s /\ id ∈ st_MemberIDs s /\ loadBalancerShown t /\
      justShown (ReqProbe (PGetMember poolID id)) (fun x : PoolMember => matches roleMember (mb_Tags x)) t
  | ReqDeletePool id =>
      id = st_PoolID s /\ id <> "" /\ loadBalancerShown t /\ policyGone t /\ monitorGone t /\ membersGone t /\
      justShown (ReqProbe (PGetPool id)) (fun x : Pool => matches rolePool (pl_Tags x)) t
  | ReqDeleteListener id =>
      id = st_ListenerID s /\ id <> "" /\ loadBalancerShown t /\ policyGone t /\ poolGone t /\
      justShown (ReqProbe (PGetListener id)) (fun x : Listener => matches roleListener (ls_Tags x)) t
  | ReqDeleteFloatingIP id =>
      id = st_FloatingIPID s /\ id <> "" /\ justShown (ReqProbe (PGetFloatingIP id)) ownsFloatingIP t
  | ReqDeleteLoadBalancer id =>
      id = st_LoadBalancerID s /\ loadBalancerShown t /\ childrenGone t /\ floatingIPGone t
  | _ => True
  end.

(** The requests cleanup may make after [t]. *)
Definition cleanupOk (t : list event) (r : request) : Prop :=
  isChange r = false /\ deletable t r /\ (r = ReqProbe (PRemove stateFile) -> allGone t).

Lemma cleanupOk_quiet t r : isEffect r = false -> cleanupOk t r.
Proof.
  unfold isEffect, cleanupOk, isChange. intros [Hm Hf]%orb_false_iff. rewrite Hm. split; [done|].
  split; [by destruct r|by intros ->].
Qed.

(** ** The functions of cleanup.go *)

Context (honest : event -> Prop).
Let T {A} := triple (A := A) honest cleanupOk.

Lemma quiet_triple {A} (m : M A) K :
  Monotone K -> Avoids isEffect m -> T K m (onOk (fun _ => K) (fun _ => True)).
Proof.
  intros HK Hm. eapply triple_weaken; [apply (triple_keeps _ _ isEffect K m Hm)|done|by intros []].
  - intros t r _. apply cleanupOk_quiet.
  - intros t e Hk _. by apply HK.
Qed.

(** One request; its answer is the last event. *)
Lemma answer_triple (q : request) P :
  (forall t, P t -> cleanupOk t q) ->
  T P (call q) (onOk (fun x t => exists t0, P t0 /\ t = t0 ++ [Ev q (Ok x)]) (fun _ => True)).
Proof. intros Hok. apply triple_request; [done|]. intros [x|e] t _ Hp; cbn; eauto. Qed.

Context (timeout interval : Z).

#[local] Instance pollActive_quiet id cause ticks : Avoids isEffect (pollActive id cause ticks).
Proof. induction ticks; cbn [pollActive]; solve_avoids. Qed.
#[local] Instance afterDelete_quiet : Avoids isEffect (afterDelete s timeout interval).
Proof. solve_avoids. Qed.

(** A child is left because it is missing, or shown and then deleted. *)
Lemma deleteChild_triple what args (qg qd : request) owned (remove : M unit) K :
  Monotone K -> isEffect qg = false ->
  (forall P, (forall t, P t -> cleanupOk t qd) -> T P remove (onOk (fun _ => sawDeleted qd) (fun _ => True))) ->
  (forall t, K t -> justShown qg owned t -> cleanupOk t qd) ->
  T K (deleteChild what args (call qg) owned remove (afterDelete s timeout interval))
    (onOk (fun _ t => K t /\ goneBy qg qd t) (fun _ => True)).
Proof.
  intros HK Hg Hdel Hok. apply triple_call; [intros t _; by apply cleanupOk_quiet|].
  intros [child|e] _; cbn [bind]; cycle 1.
  { destruct (isNotFound e) eqn:He; [|by apply triple_ret]. apply triple_ret. intros t (t0 & Hk & ->).
    split; [by apply HK|left]. exists e. split; [done|]. apply elem_of_app. right. by apply list_elem_of_singleton. }
  destruct (owned child) eqn:Ho; [|by apply triple_ret].
  eapply (triple_mbind _ _ _ _ (fun _ t => K t /\ goneBy qg qd t)).
  - apply triple_onError. intros t tr x (t0 & Hk & ->) Hh Hx.
    set (t1 := t0 ++ [Ev qg (Ok child)]). assert (K t1) as Hk1 by by apply HK.
    destruct (Hdel (fun t => t = t1)) with (t := t1) (tr := tr) (a := x) as [Ha Hq]; [|done..|].
    { intros ? ->. apply Hok; [done|]. exists child. split; [done|]. unfold t1. by rewrite last_snoc. }
    split; [done|]. destruct x; [|done]. split; [by apply Monotone_app|by right].
  - intros _. apply quiet_triple; apply _.
Qed.
Lemma remove_triple (qd : request) P :
  (forall t, P t -> cleanupOk t qd) -> T P (call qd) (onOk (fun _ => sawDeleted qd) (fun _ => True)).
Proof.
  intros Hok. eapply triple_weaken; [by apply answer_triple|done|]. intros [x|e] t; cbn; [|done].
  intros (t0 & _ & ->). exists x. apply elem_of_app. right. by apply list_elem_of_singleton.
Qed.

(** A deletion that is allowed by what was shown. *)
Lemma deletion_ok t r : isDeletion r = true -> deletable t r -> cleanupOk t r.
Proof. intros Hd Hs. unfold cleanupOk, isChange. rewrite Hd, andb_false_r. split_and!; [done..|]. by intros ->. Qed.

Section children.
Context (K : list event -> Prop) `{!Monotone K} (Hlb : forall t, K t -> loadBalancerShown t).
Let after (G : list event -> Prop) (m : M unit) : Prop := T K m (onOk (fun _ t => K t /\ G t) (fun _ => True)).

Lemma after_skip (G : list event -> Prop) : (forall t, G t) -> after G (ret tt).
Proof. intros HG. apply triple_ret. intros t Hk. by split. Qed.
Lemma after_weaken (G G' : list event -> Prop) m : after G' m -> (forall t, G' t -> G t) -> after G m.
Proof. intros Hm HG. eapply triple_weaken; [exact Hm|done|]. intros [x|e] t; cbn; [|done]. intros [Hk Hg]. auto. Qed.

(** Each function: skip when the state has no ID, else [deleteChild]. *)
Ltac child get del :=
  eapply after_weaken;
    [apply (deleteChild_triple _ _ (ReqProbe get) del); [apply _|reflexivity|exact (remove_triple del)|];
     intros t Hk Hs; apply deletion_ok; [reflexivity|]; cbn [deletable]; repeat (split; [by auto|]); by auto
    |intros t Hg; hnf; auto].

Lemma deleteL7Rule_triple : after ruleGone (deleteL7Rule s timeout interval).
Proof.
  unfold deleteL7Rule. destruct (String.eqb_spec (st_L7PolicyID s) ""); [apply after_skip; intros t; by left|].
  destruct (String.eqb_spec (st_L7RuleID s) ""); [apply after_skip; intros t; right; by left|]. cbn [orb].
  child (PGetRule (st_L7PolicyID s) (st_L7RuleID s)) (ReqDeleteRule (st_L7PolicyID s) (st_L7RuleID s)).
Qed.
Lemma deleteL7Policy_triple :
  (forall t, K t -> ruleGone t) -> after policyGone (deleteL7Policy s timeout interval).
Proof.
  intros Hrule. unfold deleteL7Policy. destruct (String.eqb_spec (st_L7PolicyID s) ""); [apply after_skip; intros t; by left|].
  child (PGetPolicy (st_L7PolicyID s)) (ReqDeletePolicy (st_L7PolicyID s)).
Qed.
Lemma deleteMonitor_triple : after monitorGone (deleteMonitor s timeout interval).
Proof.
  unfold deleteMonitor. destruct (String.eqb_spec (st_MonitorID s) ""); [apply after_skip; intros t; by left|].
  child (PGetMonitor (st_MonitorID s)) (ReqDeleteMonitor (st_MonitorID s)).
Qed.
Lemma deletePool_triple :
  (forall t, K t -> policyGone t) -> (forall t, K t -> monitorGone t) -> (forall t, K t -> membersGone t) ->
  after poolGone (deletePool s timeout interval).
Proof.
  intros Hpolicy Hmonitor Hmembers. unfold deletePool. destruct (String.eqb_spec (st_PoolID s) ""); [apply after_skip; intros t; by left|].
  child (PGetPool (st_PoolID s)) (ReqDeletePool (st_PoolID s)).
Qed.
Lemma deleteListener_triple :
  (forall t, K t -> policyGone t) -> (forall t, K t -> poolGone t) ->
  after listenerGone (deleteListener s timeout interval).
Proof.
  intros Hpolicy Hpool. unfold deleteListener. destruct (String.eqb_spec (st_ListenerID s) ""); [apply after_skip; intros t; by left|].
  child (PGetListener (st_ListenerID s)) (ReqDeleteListener (st_ListenerID s)).
Qed.
Lemma deleteMember_triple id :
  id ∈ st_MemberIDs s ->
  after (memberGone id)
    (deleteChild "member %s" [id] (probe (PGetMember (st_PoolID s) id)) (fun x => matches roleMember (mb_Tags x))
       (DeleteMember (st_PoolID s) id) (afterDelete s timeout interval)).
Proof. intros Hid. child (PGetMember (st_PoolID s) id) (ReqDeleteMember (st_PoolID s) id). Qed.
End children.

Lemma deleteMembersIn_triple (K : list event -> Prop) ids :
  Monotone K -> (forall t, K t -> loadBalancerShown t) -> ids ⊆ st_MemberIDs s ->
  T K (deleteMembersIn s timeout interval ids)
    (onOk (fun _ t => K t /\ Forall (fun id => memberGone id t) ids) (fun _ => True)).
Proof.
  revert K. induction ids as [|id ids IH]; intros K HK Hlb Hids; cbn [deleteMembersIn].
  - apply triple_ret. intros t Hk. by split.
  - eapply triple_mbind; [apply (deleteMember_triple K Hlb), Hids; by left|]. intros ?.
    eapply triple_weaken; [apply (IH (fun t => K t /\ memberGone id t))|done|].
    + unfold memberGone. apply _.
    + intros t [Hk _]. by apply Hlb.
    + intros x Hx. apply Hids. by right.
    + intros [x|e] t; cbn; [|done]. intros [[Hk Hm] Hms]. split; [done|by constructor].
Qed.

Lemma findLoadBalancer_triple :
  T (fun _ => True) (findLoadBalancer s)
    (onOk (fun b t => if b : bool then loadBalancerShown t else loadBalancerGone t) (fun _ => True)).
Proof.
  unfold findLoadBalancer. destruct (String.eqb_spec (st_LoadBalancerID s) "") as [He|Hne]; [apply triple_ret; by left|].
  apply triple_call; [intros t _; by apply cleanupOk_quiet|]. intros [x|e] _; cbn [bind].
  - destruct (Matches (st_Identity s) (lb_Tags x) roleLoadBalancer) eqn:Hm; apply triple_ret; [|done].
    intros t (t0 & _ & ->). split; [done|]. exists x. split; [done|]. apply elem_of_app. right.
    by apply list_elem_of_singleton.
  - destruct (isNotFound e) eqn:He; apply triple_ret; [|done]. intros t (t0 & _ & ->). right. exists e. split; [done|].
    apply elem_of_app. right. by apply list_elem_of_singleton.
Qed.
Lemma missing_snoc get e t : isNotFound e = true -> sawMissing get (t ++ [Ev get (Err e)]).
Proof. exists e. split; [done|]. apply elem_of_app. right. by apply list_elem_of_singleton. Qed.

(** The Floating IP has no load balancer to wait for. *)
Lemma deleteProbeFloatingIP_triple K :
  Monotone K -> T K (deleteProbeFloatingIP s) (onOk (fun _ t => K t /\ floatingIPGone t) (fun _ => True)).
Proof.
  intros HK. unfold deleteProbeFloatingIP.
  destruct (String.eqb_spec (st_FloatingIPID s) "") as [He|Hne]; [apply triple_ret; intros t Hk; by split; [|left]|].
  apply triple_call; [intros t _; by apply cleanupOk_quiet|]. intros [x|e] _; cbn [bind].
  - destruct (_ && _) eqn:Hm; [|by apply triple_ret]. apply triple_onError, (triple_request _ _ (ReqDeleteFloatingIP _)).
    + intros t (t0 & _ & ->). apply deletion_ok; [done|]. split; [done|]. split; [done|]. exists x. by rewrite last_snoc.
    + intros [y|e] t _ (t0 & Hk & ->); cbn; [|done]. split; [by apply HK, HK|]. right; right. exists y.
      apply elem_of_app. right. by apply list_elem_of_singleton.
  - destruct (isNotFound e) eqn:He; apply triple_ret; [|done]. intros t (t0 & Hk & ->). split; [by apply HK|].
    right; left. by apply missing_snoc.
Qed.

Lemma pollDeleted_triple id cause ticks K :
  Monotone K ->
  T K (pollDeleted id cause ticks) (onOk (fun _ t => K t /\ sawMissing (ReqGetLoadBalancer id) t) (fun _ => True)).
Proof.
  intros HK. induction ticks as [|ticks IH]; cbn [pollDeleted];
    (apply triple_call; [intros t _; by apply cleanupOk_quiet|]); intros [x|e] _; cbn [bind].
  - by apply triple_ret.
  - destruct (isNotFound e) eqn:He; apply triple_ret; [|done]. intros t (t0 & Hk & ->).
    split; [by apply HK|by apply missing_snoc].
  - eapply triple_weaken; [exact IH| |done]. intros t (t0 & Hk & ->). by apply HK.
  - destruct (isNotFound e) eqn:He; apply triple_ret; [|done]. intros t (t0 & Hk & ->).
    split; [by apply HK|by apply missing_snoc].
Qed.
Lemma WaitLoadBalancerDeleted_triple id K :
  Monotone K ->
  T K (WaitLoadBalancerDeleted id timeout interval)
    (onOk (fun _ t => K t /\ sawMissing (ReqGetLoadBalancer id) t) (fun _ => True)).
Proof.
  intros HK. eapply (triple_mbind _ _ _ _ (fun _ => K)); [apply quiet_triple; [done|solve_avoids]|].
  intros [ticks cause]. by apply pollDeleted_triple.
Qed.

#[local] Instance loadBalancerShown_monotone : Monotone loadBalancerShown.
Proof. unfold loadBalancerShown. apply _. Qed.
#[local] Instance loadBalancerGone_monotone : Monotone loadBalancerGone.
Proof. unfold loadBalancerGone. apply _. Qed.
#[local] Instance floatingIPGone_monotone : Monotone floatingIPGone.
Proof. unfold floatingIPGone. apply _. Qed.
Lemma children_monotone :
  Monotone ruleGone /\ Monotone policyGone /\ Monotone monitorGone /\ Monotone membersGone /\ Monotone poolGone /\
  Monotone listenerGone.
Proof.
  unfold ruleGone, policyGone, monitorGone, membersGone, memberGone, poolGone, listenerGone.
  split_and!; apply _.
Qed.

Lemma deleteGraph_triple :
  T (fun t => loadBalancerShown t /\ floatingIPGone t) (deleteGraph s timeout interval)
    (onOk (fun _ t => allGone t) (fun _ => True)).
Proof.
  destruct children_monotone as (? & ? & ? & ? & ? & ?). unfold deleteGraph.
  eapply triple_mbind; [apply deleteL7Rule_triple; [apply _|tauto]|intros ?].
  eapply triple_mbind; [apply deleteL7Policy_triple; [apply _|tauto..]|intros ?].
  eapply triple_mbind; [apply deleteMonitor_triple; [apply _|tauto]|intros ?].
  eapply triple_mbind; [apply deleteMembersIn_triple; [apply _|tauto|done]|intros ?]. fold membersGone.
  eapply triple_mbind; [apply deletePool_triple; [apply _|tauto..]|intros ?].
  eapply triple_mbind; [apply deleteListener_triple; [apply _|tauto..]|intros ?].
  eapply (triple_mbind _ _ _ _ (fun _ t => floatingIPGone t)).
  - apply triple_onError, (triple_request _ _ (ReqDeleteLoadBalancer _)).
    + intros t Ht. apply deletion_ok; [done|]. cbn [deletable]. unfold childrenGone. tauto.
    + intros [x|e] t _ Ht; cbn; [|done]. apply (monotone t). tauto.
  - intros _. eapply triple_weaken; [apply (WaitLoadBalancerDeleted_triple _ floatingIPGone), _|done|]. intros [x|e] t; cbn; [|done].
    intros [Hf Hm]. split; [by right|done].
Qed.

(** The file is removed, or was not there. *)
Definition removed (x : outcome_of unit) : Prop := x = Ok tt \/ exists e, x = Err e /\ IsNotExist e = true.

Lemma cleanupWithClients_triple :
  T (fun _ => True) (cleanupWithClients s timeout interval stateFile)
    (onOk (fun _ t => exists t0 x, allGone t0 /\ removed x /\ t = t0 ++ [Ev (ReqProbe (PRemove stateFile)) x]) (fun _ => True)).
Proof.
  unfold cleanupWithClients. eapply triple_mbind; [apply findLoadBalancer_triple|]. intros exists_.
  eapply triple_mbind; [apply deleteProbeFloatingIP_triple; destruct exists_; apply _|]. intros ?.
  eapply (triple_mbind _ _ _ _ (fun _ => allGone)).
  - destruct exists_; [apply deleteGraph_triple|by apply triple_ret].
  - intros _. apply triple_call.
    + intros t Ht. unfold cleanupOk, deletable. split_and!; done.
    + intros [[]|e] _; cbn [bind]; [apply triple_ret; intros t (t0 & Ht & ->); exists t0, (Ok tt); split_and!; [done|by left|done]|].
      destruct (IsNotExist e) eqn:He; apply triple_ret; [|done].
      intros t (t0 & Ht & ->). exists t0, (Err e). split_and!; [done|right; eauto|done].
Qed.
End state.

(** C20. Cleanup deletes only what the state names and what it has seen to be
    the probe's own: each child directly after it was shown with the identity of
    the state, a parent only after its children, and the load balancer only when
    everything else in the state is gone, by a 404 or by a deletion; it creates
    and updates nothing. *)
Theorem cleanup_deletes_only_its_own s timeout interval stateFile tr x pre e post :
  exec (cleanupWithClients s timeout interval stateFile) tr x -> tr = pre ++ e :: post ->
  isMutation (ev_req e) = true -> isDeletion (ev_req e) = true /\ deletable s pre (ev_req e).
Proof.
  intros Hx -> Hm.
  destruct (cleanupWithClients_triple s stateFile (fun _ => True) timeout interval [] (pre ++ e :: post) x) as [Ha _];
    [done|by apply Forall_true|done|].
  apply allowed_split in Ha as (Hc & Hd & _). split; [|done]. unfold isChange in Hc. rewrite Hm in Hc.
  by apply negb_false_iff in Hc.
Qed.

(** C21. Cleanup gives the state file up only when nothing is left: it removes
    it only after the load balancer answered 404 and the Floating IP answered
    404 or was deleted, and it succeeds only when its last request was the
    removal and the file was removed or no longer there. *)
Theorem cleanup_keeps_state_until_gone s timeout interval stateFile tr x :
  exec (cleanupWithClients s timeout interval stateFile) tr x ->
  (forall pre y post, tr = pre ++ Ev (ReqProbe (PRemove stateFile)) y :: post -> allGone s pre) /\
  (x = Ok tt -> exists pre y, tr = pre ++ [Ev (ReqProbe (PRemove stateFile)) y] /\ removed y).
Proof.
  intros Hx.
  destruct (cleanupWithClients_triple s stateFile (fun _ => True) timeout interval [] tr x) as [Ha Hq];
    [done|by apply Forall_true|done|]. split.
  - intros pre y post ->. apply allowed_split in Ha as (_ & _ & Hr). by apply Hr.
  - intros ->. destruct Hq as (t0 & y & _ & Hy & Ht). eauto.
Qed.
End cleanup.
