(* ===== verification/ProbeRunFacts.v ===== *)
(** * What a run of the probe guarantees

    At every moment when a run creates or updates something in OpenStack, its state
    file holds a state from which [Cleanup] knows everything the run has made; it
    deletes nothing that it has not made itself, and gives the state file up only
    when the load balancer and the Floating IP it has made are gone. *)
From stdpp Require Import base list strings gmap.
From Stdlib Require Import ZArith NArith Lia Ascii.
From S2P Require Import Prelude GoStrings Cloud Metadata OpenStack ProgramLogic KubeClient ReconcileLogic ProbeState Probe ProbeLogic ProbeFacts ProbeCleanupFacts.

Set Default Goal Selector "!".

(** ** What was made, and what the state knows of it *)

(** The order in which a run creates resources; 0 for every other request. *)
Definition createRank (r : request) : nat :=
  match r with
  | ReqCreateLoadBalancer _ => 1 | ReqCreateFloatingIP _ => 2 | ReqCreateListener _ => 3 | ReqCreatePool _ => 4
  | ReqCreateMember _ _ => 5 | ReqCreateMonitor _ => 6 | ReqCreatePolicy _ => 7 | ReqCreateRule _ _ => 8
  | _ => 0
  end.

(** The kind and the ID of a resource that was made. *)
Definition madeBy (e : event) : option (nat * string) :=
  match e with
  | Ev (ReqCreateLoadBalancer _) (Ok x) => Some (1, lb_ID x)
  | Ev (ReqCreateFloatingIP _) (Ok x) => Some (2, fip_ID x)
  | Ev (ReqCreateListener _) (Ok x) => Some (3, ls_ID x)
  | Ev (ReqCreatePool _) (Ok x) => Some (4, pl_ID x)
  | Ev (ReqCreateMember _ _) (Ok x) => Some (5, mb_ID x)
  | Ev (ReqCreateMonitor _) (Ok x) => Some (6, mn_ID x)
  | Ev (ReqCreatePolicy _) (Ok x) => Some (7, lp_ID x)
  | Ev (ReqCreateRule _ _) (Ok x) => Some (8, lr_ID x)
  | _ => None
  end.
Definition made (kind : nat) (id : string) (t : list event) : Prop := exists e, e ∈ t /\ madeBy e = Some (kind, id).

(** The kind and the ID of a resource that is deleted. *)
Definition deletedBy (r : request) : option (nat * string) :=
  match r with
  | ReqDeleteLoadBalancer id => Some (1, id)
  | ReqDeleteFloatingIP id => Some (2, id)
  | ReqDeleteListener id => Some (3, id)
  | ReqDeletePool id => Some (4, id)
  | ReqDeleteMember _ id => Some (5, id)
  | ReqDeleteMonitor id => Some (6, id)
  | ReqDeletePolicy id => Some (7, id)
  | ReqDeleteRule _ id => Some (8, id)
  | _ => None
  end.

(** The state has what cleanup needs of the resource that [e] made. *)
Definition recordedIn (s : State) (e : event) : Prop :=
  match e with
  | Ev (ReqCreateLoadBalancer _) (Ok x) => st_LoadBalancerID s = lb_ID x /\ st_VIPPortID s = lb_VipPortID x
  | Ev (ReqCreateFloatingIP _) (Ok x) => st_FloatingIPID s = fip_ID x
  | Ev (ReqCreateListener _) (Ok x) => st_ListenerID s = ls_ID x
  | Ev (ReqCreatePool _) (Ok x) => st_PoolID s = pl_ID x
  | Ev (ReqCreateMember _ _) (Ok x) => mb_ID x ∈ st_MemberIDs s
  | Ev (ReqCreateMonitor _) (Ok x) => st_MonitorID s = mn_ID x
  | Ev (ReqCreatePolicy _) (Ok x) => st_L7PolicyID s = lp_ID x
  | Ev (ReqCreateRule _ _) (Ok x) => st_L7RuleID s = lr_ID x
  | _ => True
  end.

(** Every ID in the state is that of a resource that was made. *)
Definition madeAll (s : State) (t : list event) : Prop :=
  (st_LoadBalancerID s = "" \/ made 1 (st_LoadBalancerID s) t) /\
  (st_FloatingIPID s = "" \/ made 2 (st_FloatingIPID s) t) /\
  (st_ListenerID s = "" \/ made 3 (st_ListenerID s) t) /\
  (st_PoolID s = "" \/ made 4 (st_PoolID s) t) /\
  Forall (fun id => made 5 id t) (st_MemberIDs s) /\
  (st_MonitorID s = "" \/ made 6 (st_MonitorID s) t) /\
  (st_L7PolicyID s = "" \/ made 7 (st_L7PolicyID s) t) /\
  (st_L7RuleID s = "" \/ made 8 (st_L7RuleID s) t).

(** The JSON decoder answers with valid UTF-8. *)
Definition validAnswer (e : event) : bool :=
  match e with
  | Ev (ReqCreateLoadBalancer _) (Ok x) => ValidString (lb_ID x) && ValidString (lb_VipPortID x)
  | _ => match madeBy e with Some (_, id) => ValidString id | None => true end
  end.

#[export] Instance made_monotone kind id : Monotone (made kind id).
Proof. intros t e (x & Hx & Hm). exists x. split; [|done]. by apply (Monotone_elem x). Qed.
#[export] Instance madeAll_monotone s : Monotone (madeAll s).
Proof. unfold madeAll. apply _. Qed.
Lemma made_snoc kind id t e : madeBy e = Some (kind, id) -> made kind id (t ++ [e]).
Proof. intros He. exists e. split; [|done]. apply elem_of_app. right. by apply list_elem_of_singleton. Qed.
Lemma recordedIn_other s e : createRank (ev_req e) = 0 -> recordedIn s e.
Proof. by destruct e as [[] []]. Qed.
Lemma recordedIn_failed s q e : recordedIn s (Ev q (Err e)).
Proof. by destruct q. Qed.
Lemma isChange_other r : isChange r = false -> createRank r = 0.
Proof. by destruct r. Qed.
Lemma isFileRequest_other r : isFileRequest r = true -> createRank r = 0 /\ isChange r = false /\ isDeletion r = false.
Proof. by destruct r as [| | | | | | | | | | | | | | | | | | | | | | | | | | | | | | | | |[]]. Qed.

Section run.
Context `{Gophercloud} `{StateJSON, !StateJSONLaws} `{ReportJSON} `{OSErrors} `{ForeignTexts}.
Context (config : probeConfig) (f : files).
Abbreviation path := (pc_StateFile config).

(** What is assumed of the answers. *)
Definition trusted (e : event) : Prop := freshTemp path e /\ validAnswer e = true.

(** A cleanup that starts from the file knows all that was made. *)
Definition journaled (t : list event) : Prop :=
  exists data s, filesAfter f t !! path = Some (Some data) /\ decodeState data = Ok s /\
    st_Identity s = NewProbeIdentity config /\ Forall (recordedIn s) t.

Definition bodyOk (t : list event) (r : request) : Prop :=
  (isChange r = true -> journaled t) /\
  (r = ReqProbe (PRemove path) -> Forall (fun e => createRank (ev_req e) = 0) t) /\ isDeletion r = false.

(** ** The invariant of a run *)

Definition meta (s : State) : Prop :=
  st_Version s = stateVersion /\ st_Identity s = NewProbeIdentity config /\ validTexts s = true.
Definition tracked (t : list event) (s : State) : Prop := Forall (recordedIn s) t /\ madeAll s t.
Definition below (k : nat) (t : list event) : Prop := Forall (fun e => createRank (ev_req e) < k) t.
Definition known (k : nat) (s : State) (t : list event) : Prop := tracked t s /\ below k t /\ meta s.
Definition J (k : nat) (t : list event) (s : State) : Prop :=
  written f path s t /\ known k s t /\ ValidateIdentity (NewProbeIdentity config) = Ok tt.

Lemma J_journaled k t s : J k t s -> journaled t.
Proof.
  intros ((data & He & Hc) & ((Hr & _) & _ & Hv & Hi & Ht) & Hid). exists data, s. split; [done|].
  split; [|done]. unfold decodeState. unfold encodeState in He.
  destruct (MarshalState s) as [text|e] eqn:Hm; [|done]. injection He as <-.
  by rewrite (unmarshal_marshal s text), Hv, Hi, Hid.
Qed.

Lemma known_snoc k s t e : 0 < k -> createRank (ev_req e) = 0 -> known k s t -> known k s (t ++ [e]).
Proof.
  intros Hk He ((Hr & Hm) & Hb & Hs). split; [split; [|by apply madeAll_monotone]|split; [|done]].
  - apply Forall_app. split; [done|]. constructor; [by apply recordedIn_other|done].
  - apply Forall_app. split; [done|]. constructor; [by rewrite He|done].
Qed.
Lemma J_quiet k s t e :
  0 < k -> createRank (ev_req e) = 0 -> touchesFiles (ev_req e) = false -> J k t s -> J k (t ++ [e]) s.
Proof.
  intros Hk He Hf ((data & Hd & Hc) & Hkn & Hid). split; [|by split; [apply known_snoc|]].
  exists data. split; [done|]. by rewrite contentAt_snoc, fileStep_quiet.
Qed.
Lemma J_tracked k t s : J k t s -> tracked t s.
Proof. by intros (_ & (Ht & _) & _). Qed.
Lemma J_weaken k k' t s : k <= k' -> J k t s -> J k' t s.
Proof.
  intros Hk (Hw & (Ht & Hb & Hs) & Hid). split; [done|]. split; [|done]. split; [done|]. split; [|done].
  eapply Forall_impl; [exact Hb|]. cbn. lia.
Qed.
(** ** Programs of the runner *)

Definition on (I : list event -> State -> Prop) (t : list event) (r : runner) : Prop := I t (rn_state r).
Let St {A} := striple (S := runner) (A := A) trusted bodyOk.

Lemma swrap_triple {A} format args (m : SM runner A) P Q E : St P m Q E -> St P (swrap format args m) Q E.
Proof.
  intros Hm s. eapply triple_bind; [apply Hm|]. intros [s' [a|e]]; apply triple_ret; intros t Ht; exact Ht.
Qed.

(** Reports are of no concern to a predicate on the state. *)
Lemma record_triple operation resource id result I E :
  St (on I) (record operation resource id result) (fun _ => on I) E.
Proof. apply striple_modify. intros t r Hr. exact Hr. Qed.

Lemma recordedWith_triple {A} operation resource (idOf : outcome_of A -> string) (m : M A) I Q E :
  (forall s, triple trusted bodyOk (fun t => I t s) m (onOk (fun a t => Q a t s) (fun t => E t s))) ->
  St (on I)
    (do! x := stry (slift m) in
     match x with
     | Ok value => do! _ := record operation resource (idOf (Ok value)) None in sret value
     | Err e => do! _ := record operation resource (idOf (Err e)) (Some e) in sraise e
     end) (fun a => on (Q a)) (on E).
Proof.
  intros Hm. eapply (striple_bind _ _ _ _ (fun x => on (fun t s => match x with Ok a => Q a t s | Err _ => E t s end))).
  - apply striple_try, striple_lift. intros r. eapply triple_weaken; [apply (Hm (rn_state r))|done|].
    intros [a|e] t Ht; [exact Ht|intros ?; exact Ht].
  - intros [a|e]; (eapply striple_bind; [apply record_triple|]); intros ?; [by apply striple_ret|by apply striple_raise].
Qed.
Lemma recorded_triple {A} operation resource (idOf : A -> string) (m : M A) I Q E :
  (forall s, triple trusted bodyOk (fun t => I t s) m (onOk (fun a t => Q a t s) (fun t => E t s))) ->
  St (on I) (recorded operation resource idOf m) (fun a => on (Q a)) (on E).
Proof. exact (recordedWith_triple _ _ (fun x => match x with Ok a => idOf a | Err _ => "" end) m I Q E). Qed.
Lemma recordedAs_triple {A} operation resource id (m : M A) I Q E :
  (forall s, triple trusted bodyOk (fun t => I t s) m (onOk (fun a t => Q a t s) (fun t => E t s))) ->
  St (on I) (recordedAs operation resource id m) (fun a => on (Q a)) (on E).
Proof. exact (recordedWith_triple _ _ (fun _ => id) m I Q E). Qed.

(** Requests that neither create nor delete nor touch files keep the invariant. *)
Definition disturbs (r : request) : bool := negb (createRank r =? 0) || touchesFiles r || isDeletion r.

Lemma undisturbed_triple {A} k s (m : M A) :
  0 < k -> Avoids disturbs m -> triple trusted bodyOk (fun t => J k t s) m (fun _ t => J k t s).
Proof.
  intros Hk Hm. apply (triple_keeps _ _ disturbs (fun t => J k t s) m Hm).
  - intros t r Hj [[Hc Hf]%orb_false_iff Hd]%orb_false_iff.
    split_and!; [intros _; by eapply J_journaled|by intros ->|done].
  - intros t e Hj [[Hc Hf]%orb_false_iff Hd]%orb_false_iff. apply J_quiet; [done| |done..].
    by apply negb_false_iff, Nat.eqb_eq in Hc.
Qed.
Lemma keep_triple {A} k s (m : M A) :
  0 < k -> Avoids disturbs m ->
  triple trusted bodyOk (fun t => J k t s) m (onOk (fun _ t => J k t s) (fun t => tracked t s)).
Proof.
  intros Hk Hm. eapply triple_weaken; [by apply (undisturbed_triple k s m)|done|].
  intros [a|e] t Ht; [done|by eapply J_tracked].
Qed.

#[local] Instance pollActive_undisturbed id cause ticks : Avoids disturbs (pollActive id cause ticks).
Proof. induction ticks; cbn [pollActive]; solve_avoids. Qed.

Lemma waitActive_triple k : 0 < k -> St (on (J k)) (waitActive config) (fun _ => on (J k)) (on tracked).
Proof.
  intros Hk. unfold waitActive. eapply striple_bind; [apply striple_get|]. intros r0.
  eapply (striple_bind _ _ _ _ (fun _ => on (J k))); [|intros _; by apply striple_ret].
  apply striple_lift. intros r. eapply triple_weaken; [apply (keep_triple k (rn_state r))|by intros t [Ht _]|done]; [done|solve_avoids].
Qed.

(** An update and the wait after it. *)
Lemma update_triple {A} k format args operation role id (m : M A) :
  0 < k -> Avoids disturbs m ->
  St (on (J k)) (swrap format args (recordedAs operation role id m)) (fun _ => on (J k)) (on tracked).
Proof. intros Hk Hm. apply swrap_triple, recordedAs_triple. intros s. by apply keep_triple. Qed.

Lemma file_ok t q : isFileRequest q = true -> q <> ReqProbe (PRemove path) -> bodyOk t q.
Proof. intros (Hr & Hc & Hd)%isFileRequest_other Hq. split; [by rewrite Hc|]. by split. Qed.

Lemma saveState_triple k :
  0 < k ->
  St (on (fun t s => known k s t /\ ValidateIdentity (NewProbeIdentity config) = Ok tt)) (saveState config)
    (fun _ => on (J k)) (on tracked).
Proof.
  intros Hk. unfold saveState. eapply striple_bind; [apply striple_get|]. intros r0. apply striple_lift. intros r t tr x.
  intros [[Hkn Hid] <-] Hh Hx.
  destruct (SaveState_triple f path (rn_state r) bodyOk (known k (rn_state r))
    (fun t e He => known_snoc k (rn_state r) t e Hk (proj1 (isFileRequest_other _ He))) (contentAt f path t))
    with (t := t) (tr := tr) (a := x) as [Ha Hq]; [| |by eapply Forall_impl; [exact Hh|]; intros ? []|done|].
  - intros ? q Hf Hq _ _. by apply file_ok.
  - done.
  - split; [done|]. destruct x; cbn [onOk] in *; [by destruct Hq|by destruct Hq as [_ []]].
Qed.

(** A resource is created, put into the state, and the state is saved. *)
Lemma create_triple k k' format args role (q : request) (idOf : response q -> string)
    (upd : response q -> State -> State) (rep : response q -> probeReport -> probeReport) (tail : response q -> SM runner unit) :
  k <= k' -> 0 < k -> createRank q < k' -> touchesFiles q = false -> isDeletion q = false ->
  (forall e s x, createRank (ev_req e) < k -> recordedIn s e -> recordedIn (upd x s) e) ->
  (forall s x, recordedIn (upd x s) (Ev q (Ok x))) ->
  (forall s x, validAnswer (Ev q (Ok x)) = true -> meta s -> meta (upd x s)) ->
  (forall s x t, madeAll s t -> madeAll (upd x s) (t ++ [Ev q (Ok x)])) ->
  (forall x, St (on (J k')) (tail x) (fun _ => on (J k')) (on tracked)) ->
  St (on (J k))
    (do! x := swrap format args (recorded "create" role idOf (call q)) in
     do! _ := smodify (onState (upd x)) in
     do! _ := smodify (onReport (rep x)) in
     do! _ := saveState config in
     tail x) (fun _ => on (J k')) (on tracked).
Proof.
  intros Hkk Hk Hq Hf Hd Hother Hself Hmeta Hmade Htail.
  set (Kn s t := known k' s t /\ ValidateIdentity (NewProbeIdentity config) = Ok tt).
  eapply (striple_bind _ _ _ _ (fun x => on (fun t s => Kn (upd x s) t))).
  { apply swrap_triple, recorded_triple. intros s. apply triple_request.
    - intros t Hj. split_and!; [intros _; by eapply J_journaled|by intros ->|done].
    - intros [x|e] t [_ Hv] (_ & ((Hr & Hm) & Hb & Hs) & Hid); cbn [onOk].
      + split; [|done]. split; [split; [|by apply Hmade]|split; [|by apply Hmeta]].
        * apply Forall_app. split; [|by repeat constructor]. apply Forall_forall. intros e He. apply Hother.
          -- exact (proj1 (Forall_forall _ _) Hb e He).
          -- exact (proj1 (Forall_forall _ _) Hr e He).
        * apply Forall_app. split; [|by repeat constructor]. eapply Forall_impl; [exact Hb|]. cbn. lia.
      + split; [|by apply madeAll_monotone]. apply Forall_app. split; [done|]. constructor; [|done]. apply recordedIn_failed. }
  intros x. eapply (striple_bind _ _ _ _ (fun _ => on (fun t s => Kn s t))); [by apply striple_modify|]. intros _.
  eapply (striple_bind _ _ _ _ (fun _ => on (fun t s => Kn s t))); [by apply striple_modify|]. intros _.
  eapply striple_bind; [apply saveState_triple; lia|]. intros ?. apply Htail.
Qed.
Lemma tagsFor_triple role I E : (forall t s, I t s -> E t s) -> St (on I) (tagsFor role) (fun _ => on I) (on E).
Proof.
  intros HE. unfold tagsFor, identity. eapply (striple_bind _ _ _ _ (fun _ => on I)).
  { eapply striple_bind; [apply striple_get|]. intros r0. apply striple_ret. intros t r [Hr _]. exact Hr. }
  intros id. apply striple_lift. intros r. unfold lift. apply triple_ret. intros t Hr. destruct (Tags id role); [done|by apply HE].
Qed.

(** What is read from the runner does not matter to the invariant. *)
Lemma get_triple {A} I (k : runner -> SM runner A) Q E :
  (forall r0, St (on I) (k r0) Q E) -> St (on I) (do! r := sget in k r) Q E.
Proof.
  intros Hk. eapply striple_bind; [apply striple_get|]. intros r0.
  eapply striple_weaken; [apply Hk|by intros t r [Ht _]|done].
Qed.

(** The side conditions of [create_triple]. *)
Ltac others := intros [q' [y|err]] s x; destruct q'; cbn; try done; lia.
Ltac texts :=
  intros s x Hv (Hver & Hid & Ht); split; [exact Hver|]; split; [exact Hid|];
  unfold validTexts, stateTexts in *; cbn in Hv, Ht |- *; rewrite ?forallb_app in *; cbn in *;
  rewrite ?andb_true_iff in *; tauto.
Ltac makes q :=
  intros s x t Hm; apply (madeAll_monotone s t (Ev q (Ok x))) in Hm;
  destruct Hm as (H1' & H2' & H3' & H4' & H5' & H6' & H7' & H8'); unfold madeAll; cbn;
  split_and!; first [assumption|right; by apply made_snoc|idtac].
Ltac create upd k k' :=
  lazymatch goal with |- context [call ?q] =>
  apply (create_triple k k' _ _ _ q _ upd); [lia|lia|cbn; lia|reflexivity|reflexivity|try by others|try done|try by texts|makes q|] end.

(** The wait, the update and the wait after the state was saved. *)
Lemma settle_triple {A} k format args operation role id (m : M A) :
  0 < k -> Avoids disturbs m ->
  St (on (J k))
    (do! _ := waitActive config in
     do! _ := swrap format args (recordedAs operation role id m) in
     waitActive config) (fun _ => on (J k)) (on tracked).
Proof.
  intros Hk Hm. eapply striple_bind; [by apply waitActive_triple|]. intros ?.
  eapply striple_bind; [by apply update_triple|]. intros ?. by apply waitActive_triple.
Qed.

Lemma createAndUpdateFloatingIP_triple :
  St (on (J 2)) (createAndUpdateFloatingIP config) (fun _ => on (J 3)) (on tracked).
Proof.
  apply get_triple. intros r0.
  create (fun (x : FloatingIP) s => withFloatingIP s (fip_ID x)) 2 3.
  intros x. eapply striple_bind; [apply update_triple; [lia|solve_avoids]|]. intros ?. by apply striple_ret.
Qed.
Lemma createAndUpdateListener_triple : St (on (J 3)) (createAndUpdateListener config) (fun _ => on (J 4)) (on tracked).
Proof.
  eapply striple_bind; [apply tagsFor_triple, J_tracked|]. intros tags. apply get_triple. intros r0.
  create (fun (x : Listener) s => withListener s (ls_ID x)) 3 4. intros x. apply settle_triple; [lia|solve_avoids].
Qed.
Lemma createAndUpdatePool_triple : St (on (J 4)) (createAndUpdatePool config) (fun _ => on (J 5)) (on tracked).
Proof.
  eapply striple_bind; [apply tagsFor_triple, J_tracked|]. intros tags. apply get_triple. intros r0.
  create (fun (x : Pool) s => withPool s (pl_ID x)) 4 5. intros x. apply settle_triple; [lia|solve_avoids].
Qed.

Lemma createAndUpdateMember_triple index address :
  St (on (J 6)) (createAndUpdateMember config index address) (fun _ => on (J 6)) (on tracked).
Proof.
  eapply striple_bind; [apply tagsFor_triple, J_tracked|]. intros tags. apply get_triple. intros r0.
  create (fun (x : PoolMember) s => withMember s (mb_ID x)) 6 6.
  - intros [q' [y|err]] s x; destruct q'; cbn; try done; try lia. intros _ Hy. apply elem_of_app. by left.
  - intros s x. cbn. apply elem_of_app. right. by apply list_elem_of_singleton.
  - apply Forall_app. split; [done|]. constructor; [|done]. by apply made_snoc.
  - intros x. apply settle_triple; [lia|solve_avoids].
Qed.
Lemma createAndUpdateMembers_triple index addresses :
  St (on (J 6)) (createAndUpdateMembersFrom config index addresses) (fun _ => on (J 6)) (on tracked).
Proof.
  revert index. induction addresses as [|address rest IH]; intros index.
  - by apply striple_ret.
  - eapply striple_bind; [apply createAndUpdateMember_triple|]. intros ?. apply IH.
Qed.
Lemma createAndUpdateMonitor_triple : St (on (J 6)) (createAndUpdateMonitor config) (fun _ => on (J 7)) (on tracked).
Proof.
  eapply striple_bind; [apply tagsFor_triple, J_tracked|]. intros tags. apply get_triple. intros r0.
  create (fun (x : Monitor) s => withMonitor s (mn_ID x)) 6 7. intros x. apply settle_triple; [lia|solve_avoids].
Qed.
Lemma createAndUpdateL7Policy_triple : St (on (J 7)) (createAndUpdateL7Policy config) (fun _ => on (J 8)) (on tracked).
Proof.
  eapply striple_bind; [apply tagsFor_triple, J_tracked|]. intros tags. apply get_triple. intros r0.
  create (fun (x : L7Policy) s => withPolicy s (lp_ID x)) 7 8. intros x. apply settle_triple; [lia|solve_avoids].
Qed.
Lemma createAndUpdateL7Rule_triple : St (on (J 8)) (createAndUpdateL7Rule config) (fun _ => on (J 9)) (on tracked).
Proof.
  eapply striple_bind; [apply tagsFor_triple, J_tracked|]. intros tags. apply get_triple. intros r0.
  create (fun (x : Rule) s => withRule s (lr_ID x)) 8 9. intros x. apply settle_triple; [lia|solve_avoids].
Qed.

(** Before the first resource: nothing is made, and the identity is not known to
    be valid until the tags of the load balancer were built from it. *)
Definition J0 (t : list event) (s : State) : Prop := written f path s t /\ known 1 s t.

Lemma createAndUpdateLoadBalancer_triple :
  St (on J0) (createAndUpdateLoadBalancer config) (fun _ => on (J 2)) (on tracked).
Proof.
  eapply (striple_bind _ _ _ _ (fun _ => on (J 1))).
  { eapply (striple_bind _ _ _ _ (fun id => on (fun t s => J0 t s /\ id = NewProbeIdentity config))).
    - eapply striple_bind; [apply striple_get|]. intros r0. apply striple_ret. intros t r [Hr <-].
      split; [exact Hr|]. by destruct Hr as (_ & _ & _ & _ & Hid & _).
    - intros id. apply striple_lift. intros r. unfold lift. apply triple_ret. intros t [[Hw Hk] ->]. unfold Tags.
      destruct (NewIdentity _) as [v|e] eqn:Hn; [|by destruct Hk]. cbn [rbind].
      assert (J 1 t (rn_state r)) as Hj; [|destruct (GatewayTags v roleLoadBalancer); [exact Hj|by eapply J_tracked]].
      split; [done|]. split; [done|]. unfold NewIdentity in Hn. unfold ValidateIdentity.
      by destruct (ValidateGatewayIdentity _) as [[]|]. }
  intros tags. eapply (striple_bind _ _ _ _ (fun _ => on (J 1))); [apply get_triple; intros r0; by apply striple_ret|].
  intros id. create (fun (x : LoadBalancer) s => withLoadBalancer s (lb_ID x) (lb_VipPortID x)) 1 2.
  intros x. apply settle_triple; [lia|solve_avoids].
Qed.

Lemma createAndExerciseResources_triple :
  St (on J0) (createAndExerciseResources config) (fun _ => on (J 9)) (on tracked).
Proof.
  unfold createAndExerciseResources. eapply striple_bind; [apply createAndUpdateLoadBalancer_triple|]. intros ?.
  eapply (striple_bind _ _ _ _ (fun _ => on (J 3))).
  { destruct (String.eqb _ ""); [|apply createAndUpdateFloatingIP_triple]. apply striple_ret.
    intros t r. apply J_weaken. lia. }
  intros _. eapply striple_bind; [apply createAndUpdateListener_triple|]. intros ?.
  eapply (striple_bind _ _ _ _ (fun _ => on (J 6))).
  { eapply striple_weaken; [apply createAndUpdatePool_triple|done|]. intros ? t r. apply J_weaken. lia. }
  intros _. eapply striple_bind; [apply createAndUpdateMembers_triple|]. intros ?.
  eapply striple_bind; [apply createAndUpdateMonitor_triple|]. intros ?.
  eapply striple_bind; [apply createAndUpdateL7Policy_triple|]. intros ?. apply createAndUpdateL7Rule_triple.
Qed.
(** ** The body of [Run] *)

Lemma isEffect_other r : isEffect r = false -> createRank r = 0 /\ isChange r = false /\ isDeletion r = false /\ touchesFiles r = false.
Proof. by destruct r as [| | | | | | | | | | | | | | | | | | | | | | | | | | | | | | | | |[]]. Qed.

(** Before anything is made, only requests without effect are harmless. *)
Lemma early_triple {A} (I : list event -> Prop) (m : M A) :
  Avoids isEffect m -> (forall t e, isEffect (ev_req e) = false -> I t -> I (t ++ [e])) ->
  triple trusted bodyOk I m (fun _ => I).
Proof.
  intros Hm HI. apply (triple_keeps _ _ isEffect I m Hm).
  - intros t r _ (_ & Hc & Hd & Hf)%isEffect_other. split; [by rewrite Hc|]. split; [by intros ->|done].
  - intros t e Hi He. by apply HI.
Qed.

Lemma known_early k s t e : 0 < k -> isEffect (ev_req e) = false -> known k s t -> known k s (t ++ [e]).
Proof. intros Hk (Hr & _)%isEffect_other. by apply known_snoc. Qed.
Lemma J0_early s t e : isEffect (ev_req e) = false -> J0 t s -> J0 (t ++ [e]) s.
Proof.
  intros He [(data & Hd & Hc) Hk]. split; [|apply known_early; [lia|done..]]. exists data. split; [done|].
  rewrite contentAt_snoc, fileStep_quiet; [done|]. by apply isEffect_other.
Qed.
Lemma J0_tracked t s : J0 t s -> tracked t s.
Proof. by intros [_ [? _]]. Qed.

#[local] Instance inspectMembers_undisturbed id poolID ids : Avoids disturbs (inspectMembers id poolID ids).
Proof. induction ids; cbn [inspectMembers]; solve_avoids. Qed.

Lemma tried_triple {A} k (m : M A) :
  0 < k -> Avoids disturbs m -> St (on (J k)) (stry (slift m)) (fun _ => on (J k)) (on tracked).
Proof.
  intros Hk Hm. apply striple_try, striple_lift. intros r.
  eapply triple_weaken; [by apply (undisturbed_triple k (rn_state r) m)|done|].
  intros [a|e] t Ht; [exact Ht|intros ?; exact Ht].
Qed.

Lemma checkTraffic_triple k : 0 < k -> St (on (J k)) (checkTraffic config) (fun _ => on (J k)) (on tracked).
Proof.
  intros Hk. apply get_triple. intros r0.
  eapply striple_bind; [apply tried_triple; [done|solve_avoids]|]. intros [u|e]; cycle 1.
  { eapply (striple_bind _ _ _ _ (fun _ => on (J k))); [by apply striple_modify|]. intros ?. apply striple_raise.
    intros t r. apply J_tracked. }
  eapply striple_bind; [apply tried_triple; [done|solve_avoids]|]. intros x.
  destruct (match x with Ok _ => _ | Err _ => _ end) as [traffic [e|]];
    (eapply (striple_bind _ _ _ _ (fun _ => on (J k))); [by apply striple_modify|]); intros ?;
    (eapply striple_bind; [apply record_triple|]); intros ?.
  - apply striple_raise. intros t r. apply J_tracked.
  - by apply striple_ret.
Qed.
Lemma discoverProviders_triple : St (on J0) discoverProviders (fun _ => on J0) (on tracked).
Proof.
  unfold discoverProviders. eapply (striple_bind _ _ _ _ (fun _ => on J0)).
  { apply striple_try, striple_lift. intros r.
    eapply triple_weaken; [apply (early_triple (fun t => J0 t (rn_state r)))|done|].
    - solve_avoids.
    - intros t e. apply J0_early.
    - intros [a|e] t Ht; [exact Ht|intros ?; exact Ht]. }
  intros x. destruct (match x with Ok _ => _ | Err _ => _ end) as [l|e]; [|apply record_triple].
  eapply (striple_bind _ _ _ _ (fun _ => on J0)); [by apply striple_modify|]. intros _. apply record_triple.
Qed.

(** The body starts with the empty state, before anything is made. *)
Lemma runBody_triple :
  St (on (fun t s => known 1 s t)) (runBody config) (fun _ => on tracked) (on tracked).
Proof.
  unfold runBody. eapply (striple_bind _ _ _ _ (fun _ => on (fun t s => known 1 s t))).
  { apply recorded_triple. intros s. eapply triple_weaken; [apply (early_triple (known 1 s))|done|].
    - solve_avoids.
    - intros t e. apply known_early. lia.
    - intros [a|e] t Ht; [exact Ht|apply Ht]. }
  intros _. eapply (striple_bind _ _ _ _ (fun r0 t r => known 1 (rn_state r) t /\ r = r0)); [apply striple_get|]. intros r0.
  eapply (striple_bind _ _ _ _ (fun _ => on J0)).
  { apply striple_lift. intros r t tr x [Hk <-] Hh Hx.
    destruct (CreateState_triple f path (rn_state r) bodyOk (known 1 (rn_state r))
      (fun t e He => known_snoc 1 (rn_state r) t e Nat.lt_0_1 (proj1 (isFileRequest_other _ He))))
      with (t := t) (tr := tr) (a := x) as [Ha Hq]; [|done|by eapply Forall_impl; [exact Hh|]; intros ? []|done|].
    - intros t' q (_ & Hc & Hd)%isFileRequest_other (_ & Hb & _). split; [by rewrite Hc|]. split; [|done].
      intros _. eapply Forall_impl; [exact Hb|]. cbn. lia.
    - split; [done|]. destruct x; [exact Hq|by destruct Hq]. }
  intros _. eapply striple_bind; [apply discoverProviders_triple|]. intros ?.
  eapply striple_bind; [apply createAndExerciseResources_triple|]. intros ?.
  eapply (striple_bind _ _ _ _ (fun _ => on (J 9))).
  { apply get_triple. intros r1. apply update_triple; [lia|solve_avoids]. }
  intros _. destruct (pc_SkipTrafficCheck config).
  - apply striple_ret. intros t r. apply J_tracked.
  - eapply striple_weaken; [apply (checkTraffic_triple 9); lia|done|]. intros ? t r. apply J_tracked.
Qed.
(** ** The whole run *)

(** A load balancer or a Floating IP that was made is seen to be gone. *)
Definition released (t : list event) (e : event) : Prop :=
  match e with
  | Ev (ReqCreateLoadBalancer _) (Ok x) => lb_ID x = "" \/ sawMissing (ReqGetLoadBalancer (lb_ID x)) t
  | Ev (ReqCreateFloatingIP _) (Ok x) =>
      fip_ID x = "" \/ goneBy (ReqProbe (PGetFloatingIP (fip_ID x))) (ReqDeleteFloatingIP (fip_ID x)) t
  | _ => True
  end.
Definition runOk (t : list event) (r : request) : Prop :=
  (isChange r = true -> journaled t) /\ (r = ReqProbe (PRemove path) -> Forall (released t) t) /\
  (forall kind id, deletedBy r = Some (kind, id) -> made kind id t).

Lemma bodyOk_runOk t r : bodyOk t r -> runOk t r.
Proof.
  intros (Hc & Hr & Hd). split; [done|]. split; [|intros kind id Hk; by destruct r].
  intros ->. eapply Forall_impl; [by apply Hr|]. intros [q x]. by destruct q.
Qed.

(** What cleanup may do, when its state knows exactly what was made. *)
Lemma cleanupOk_runOk s t r : tracked t s -> cleanupOk s path t r -> runOk t r.
Proof.
  intros (Hr & H1' & H2' & H3' & H4' & H5' & H6' & H7' & H8') (Hc & Hd & Hg). split; [by rewrite Hc|]. split.
  - intros Hq. destruct (Hg Hq) as [Hlb Hfip]. eapply Forall_impl; [exact Hr|]. intros [q [x|e]]; destruct q; try done; cbn.
    + intros [<- _]. exact Hlb.
    + intros <-. exact Hfip.
  - intros kind id Hk. destruct r; try done; injection Hk as <- <-; cbn [deletable] in Hd.
    all: repeat match goal with H : _ /\ _ |- _ => destruct H end; subst; try tauto.
    + match goal with H : loadBalancerShown _ _ |- _ => destruct H end. tauto.
    + by eapply Forall_forall in H5'.
Qed.

Lemma tracked_cleanup s t e : tracked t s -> cleanupOk s path t (ev_req e) -> tracked (t ++ [e]) s.
Proof.
  intros [Hr Hm] [Hc _]. split; [|by apply madeAll_monotone]. apply Forall_app. split; [done|]. constructor; [|done].
  by apply recordedIn_other, isChange_other.
Qed.

Lemma finishCleanup_triple r x :
  triple trusted runOk (fun t => tracked t (rn_state r)) (finishCleanup config r x) (fun _ _ => True).
Proof.
  unfold finishCleanup. destruct (_ && _); [|by apply triple_ret].
  eapply (triple_bind _ _ _ _ (fun _ _ => True)); [|intros y; by apply triple_ret].
  eapply triple_weaken;
    [eapply (triple_allow _ _ runOk _ (fun t => tracked t (rn_state r)));
       [apply (cleanupWithClients_triple (rn_state r) path)|intros t q; apply cleanupOk_runOk|intros t e; apply tracked_cleanup]
    |by intros t Ht|done].
Qed.

Lemma finishReport_triple r x : triple trusted runOk (fun _ => True) (finishReport config r x) (fun _ _ => True).
Proof.
  eapply triple_weaken; [apply (triple_keeps _ _ (fun q => isMutation q || match q with ReqProbe (PRemove _) => true | _ => false end)
    (fun _ => True))|done|done].
  - solve_avoids.
  - intros t q _ [Hm Hq]%orb_false_iff. unfold runOk, isChange. rewrite Hm. split; [done|]. split; [by intros ->|].
    intros kind id Hk. by destruct q.
  - done.
Qed.

Lemma Run_triple now :
  validTexts (NewState now config) = true -> triple trusted runOk (fun t => t = []) (Run config now) (fun _ _ => True).
Proof.
  intros Hv. unfold Run. eapply (triple_bind _ _ _ _ (fun x t => tracked t (rn_state (fst x)))).
  - eapply triple_weaken.
    + eapply (triple_allow _ _ runOk _ (fun _ => True)); [apply runBody_triple|by intros t q _; apply bodyOk_runOk|done].
    + intros t ->. split; [|done]. split; [split; [by apply Forall_nil|]|split; [by apply Forall_nil|done]].
      unfold madeAll. cbn. split_and!; try by left.
    + intros [r [[]|e]] t [Ht _]; exact Ht.
  - intros [r x]. eapply triple_bind; [apply finishCleanup_triple|]. intros [r' x'].
    eapply triple_weaken; [apply finishReport_triple|done|done].
Qed.

Lemma Run_allowed now tr result pre e post :
  validTexts (NewState now config) = true -> Forall trusted tr -> exec (Run config now) tr result ->
  tr = pre ++ e :: post -> runOk pre (ev_req e).
Proof.
  intros Hv Ht Hx ->. destruct (Run_triple now Hv [] (pre ++ e :: post) result eq_refl Ht Hx) as [Ha _].
  by apply allowed_split in Ha.
Qed.

(** C19. A run of the probe can always be cleaned up: whenever it creates or
    updates something in OpenStack, its state file decodes to a state with the
    identity of the run that records everything the run has made before; the
    texts of the configuration and the IDs that OpenStack answers are valid
    UTF-8, and a new temporary file has another name than the state file. *)
Theorem run_journals_what_it_makes now tr result pre e post :
  validTexts (NewState now config) = true -> Forall trusted tr -> exec (Run config now) tr result ->
  tr = pre ++ e :: post -> isChange (ev_req e) = true -> journaled pre.
Proof. intros Hv Ht Hx Hs. by eapply Run_allowed. Qed.

End run.

Section deletions.
Context `{Gophercloud} `{StateJSON, !StateJSONLaws} `{ReportJSON} `{OSErrors} `{ForeignTexts} (config : probeConfig).

(** C22. A run of the probe deletes only resources that it has made itself, and
    removes its state file only after the load balancer and the Floating IP it
    has made, if any, were seen to be gone; the texts of the configuration and
    the IDs that OpenStack answers are valid UTF-8, and a new temporary file has
    another name than the state file. *)
Theorem run_deletes_only_what_it_made now tr result pre e post :
  validTexts (NewState now config) = true -> Forall (trusted config) tr -> exec (Run config now) tr result ->
  tr = pre ++ e :: post ->
  (forall kind id, deletedBy (ev_req e) = Some (kind, id) -> made kind id pre) /\
  (ev_req e = ReqProbe (PRemove (pc_StateFile config)) -> Forall (released pre) pre).
Proof. intros Hv Ht Hx Hs. by destruct (Run_allowed config ∅ now tr result pre e post Hv Ht Hx Hs) as (_ & ? & ?). Qed.
End deletions.
