(* ===== verification/RequestObserver.v ===== *)
(** * Observing requests

    Models [clients/request_observer.go]: the service, the method and the status
    class under which a request is observed.  [net/url] and [strings.ToLower] are a
    class without laws.  [classify] is shown to find the service of the longest
    endpoint that covers a request, whatever the order of the endpoints. *)
From stdpp Require Import base list strings.
From Stdlib Require Import ZArith NArith Lia Ascii.
From S2P Require Import Prelude GoStrings Cloud ProbeState.

Set Default Goal Selector "!".

Abbreviation RequestService := string.
Definition RequestServiceKeystone : RequestService := "keystone".
Definition RequestServiceOctavia : RequestService := "octavia".
Definition RequestServiceNeutron : RequestService := "neutron".
Definition RequestServiceUnknown : RequestService := "unknown".

Abbreviation RequestMethod := string.
Definition RequestMethodGet : RequestMethod := "GET".
Definition RequestMethodHead : RequestMethod := "HEAD".
Definition RequestMethodPost : RequestMethod := "POST".
Definition RequestMethodPut : RequestMethod := "PUT".
Definition RequestMethodPatch : RequestMethod := "PATCH".
Definition RequestMethodDelete : RequestMethod := "DELETE".
Definition RequestMethodOptions : RequestMethod := "OPTIONS".
Definition RequestMethodOther : RequestMethod := "OTHER".

Abbreviation RequestStatusClass := string.
Definition RequestStatusClassInformational : RequestStatusClass := "1xx".
Definition RequestStatusClassSuccessful : RequestStatusClass := "2xx".
Definition RequestStatusClassRedirection : RequestStatusClass := "3xx".
Definition RequestStatusClassClientError : RequestStatusClass := "4xx".
Definition RequestStatusClassServerError : RequestStatusClass := "5xx".
Definition RequestStatusClassError : RequestStatusClass := "error".

(** ** Requests *)

(** [*http.Request]: the method, and [URL.String()] unless [URL] is nil. *)
Record httpRequest := mkHTTPRequest { hr_Method : string; hr_URL : option string }.
(** What [url.Parse] finds. *)
Record parsedURL := mkParsedURL { u_Scheme : string; u_Hostname : string; u_Port : string; u_Path : string }.
Class NetURL := {
  ParseURL : string -> outcome_of parsedURL;
  ToLower : string -> string
}.

(** ** Endpoints *)

Record serviceEndpoint := mkServiceEndpoint { se_service : RequestService; se_rawURL : string }.
Record normalizedServiceEndpoint := mkNormalizedServiceEndpoint {
  ne_service : RequestService; ne_scheme : string; ne_host : string; ne_port : string; ne_path : string
}.
Record requestServiceClassifier := mkRequestServiceClassifier { rc_endpoints : list normalizedServiceEndpoint }.

(** [path.Clean] is [filepath.Clean] on Unix. *)
Definition normalizeURLPath (value : string) : string := Clean ("/" ^^ TrimPrefix value "/").

Definition hasPathPrefix (value prefix : string) : bool :=
  String.eqb prefix "/" || String.eqb value prefix || HasPrefix value (prefix ^^ "/").

Definition matchesPath (e : normalizedServiceEndpoint) (value : string) : bool :=
  if String.eqb (ne_service e) RequestServiceKeystone && String.eqb (ne_path e) "/" then String.eqb value (ne_path e)
  else hasPathPrefix value (ne_path e).

Section classifier.
Context `{NetURL}.

Definition normalizeServiceEndpoint (endpoint : serviceEndpoint) : option normalizedServiceEndpoint :=
  match ParseURL (se_rawURL endpoint) with
  | Err _ => None
  | Ok parsed =>
      if String.eqb (u_Scheme parsed) "" || String.eqb (u_Hostname parsed) "" then None
      else
        let scheme := ToLower (u_Scheme parsed) in
        let port := u_Port parsed in
        let port := if String.eqb scheme "http" && String.eqb port "80" || String.eqb scheme "https" && String.eqb port "443"
                    then "" else port in
        Some (mkNormalizedServiceEndpoint (se_service endpoint) scheme (ToLower (u_Hostname parsed)) port
                (normalizeURLPath (u_Path parsed)))
  end.

Definition newRequestServiceClassifier (endpoints : list serviceEndpoint) : requestServiceClassifier :=
  mkRequestServiceClassifier (omap normalizeServiceEndpoint endpoints).

(** The condition of the loop of [classify]. *)
Definition covers (request endpoint : normalizedServiceEndpoint) : bool :=
  String.eqb (ne_scheme endpoint) (ne_scheme request) && String.eqb (ne_host endpoint) (ne_host request) &&
  String.eqb (ne_port endpoint) (ne_port request) && matchesPath endpoint (ne_path request).

(** One round of the loop: [(longestPath, service, ambiguous)]. *)
Definition classifyStep (request : normalizedServiceEndpoint) (acc : Z * RequestService * bool)
    (endpoint : normalizedServiceEndpoint) : Z * RequestService * bool :=
  let '(longestPath, service, ambiguous) := acc in
  if negb (covers request endpoint) then acc
  else
    let pathLength := Z.of_nat (String.length (ne_path endpoint)) in
    if (longestPath <? pathLength)%Z then (pathLength, ne_service endpoint, false)
    else if (pathLength =? longestPath)%Z && negb (String.eqb (ne_service endpoint) service)
    then (longestPath, service, true)
    else acc.

Definition classify (c : requestServiceClassifier) (request : option httpRequest) : RequestService :=
  match request with
  | Some (mkHTTPRequest _ (Some url)) =>
      match normalizeServiceEndpoint (mkServiceEndpoint RequestServiceUnknown url) with
      | None => RequestServiceUnknown
      | Some requestEndpoint =>
          let '(_, service, ambiguous) :=
            foldl (classifyStep requestEndpoint) ((-1)%Z, RequestServiceUnknown, false) (rc_endpoints c) in
          if ambiguous : bool then RequestServiceUnknown else service
      end
  | _ => RequestServiceUnknown
  end.
End classifier.

(** ** Methods and answers *)

(** [strings.ToUpper], as far as it makes ASCII letters: two other letters,
    U+0131 and U+017F, have one as their upper case. *)
Definition to_upper (c : ascii) : ascii :=
  let n := N_of_ascii c in if ((97 <=? n) && (n <=? 122))%N then ascii_of_N (n - 32) else c.
Fixpoint toUpper (s : string) : string :=
  match s with
  | "" => ""
  | String "196" (String "177" rest) => String "I" (toUpper rest)
  | String "197" (String "191" rest) => String "S" (toUpper rest)
  | String c rest => String (to_upper c) (toUpper rest)
  end.

Definition knownMethods : list RequestMethod :=
  [RequestMethodGet; RequestMethodHead; RequestMethodPost; RequestMethodPut; RequestMethodPatch; RequestMethodDelete;
   RequestMethodOptions].
Definition classifyRequestMethod (request : option httpRequest) : RequestMethod :=
  match request with
  | None => RequestMethodOther
  | Some r => let method := toUpper (hr_Method r) in
              if bool_decide (method ∈ knownMethods) then method else RequestMethodOther
  end.

(** The status code of an answer; the transport may return an error, or panic,
    in which case the deferred function sees neither an answer nor an error. *)
Definition classifyStatus (answer : outcome_of (option Z)) : RequestStatusClass :=
  match answer with
  | Err _ | Ok None => RequestStatusClassError
  | Ok (Some code) =>
      match (Z.quot code 100)%Z with
      | 1%Z => RequestStatusClassInformational
      | 2%Z => RequestStatusClassSuccessful
      | 3%Z => RequestStatusClassRedirection
      | 4%Z => RequestStatusClassClientError
      | 5%Z => RequestStatusClassServerError
      | _ => RequestStatusClassError
      end
  end.

(** ** What [classify] finds *)

Section best.
Context (request : normalizedServiceEndpoint).
Implicit Types (l : list normalizedServiceEndpoint) (s : RequestService).
Definition pathLength (e : normalizedServiceEndpoint) : Z := Z.of_nat (String.length (ne_path e)).

(** [s] is the service of every longest endpoint of [l] that covers the request. *)
Definition longestService l s : Prop :=
  exists e, e ∈ l /\ covers request e = true /\ ne_service e = s /\
    forall e', e' ∈ l -> covers request e' = true ->
      (pathLength e' <= pathLength e)%Z /\ (pathLength e' = pathLength e -> ne_service e' = s).

(** What the loop knows after the endpoints [l]. *)
Definition loopInvariant l (acc : Z * RequestService * bool) : Prop :=
  let '(longest, service, ambiguous) := acc in
  (longest = (-1)%Z /\ service = RequestServiceUnknown /\ ambiguous = false /\ (forall e, e ∈ l -> covers request e = false)) \/
  (0 <= longest /\
   (exists e, e ∈ l /\ covers request e = true /\ pathLength e = longest /\ ne_service e = service) /\
   (forall e, e ∈ l -> covers request e = true -> pathLength e <= longest)%Z /\
   if ambiguous : bool
   then exists e, e ∈ l /\ covers request e = true /\ pathLength e = longest /\ ne_service e <> service
   else forall e, e ∈ l -> covers request e = true -> pathLength e = longest -> ne_service e = service)%Z.

Lemma elem_of_snoc {A} (x y : A) (l : list A) : x ∈ l ++ [y] <-> x ∈ l \/ x = y.
Proof. rewrite elem_of_app, list_elem_of_singleton. done. Qed.

Lemma classifyStep_invariant l acc e : loopInvariant l acc -> loopInvariant (l ++ [e]) (classifyStep request acc e).
Proof.
  destruct acc as [[longest service] ambiguous]. unfold classifyStep. destruct (covers request e) eqn:Hc; cbn [negb].
  - change (Z.of_nat (String.length (ne_path e))) with (pathLength e). assert (0 <= pathLength e)%Z by (unfold pathLength; lia).
    destruct (longest <? pathLength e)%Z eqn:Hlt.
    + apply Z.ltb_lt in Hlt. intros Hinv. right. split; [lia|]. split; [exists e; rewrite elem_of_snoc; tauto|].
      assert (forall e', e' ∈ l -> covers request e' = true -> pathLength e' < pathLength e)%Z as Hle.
      { intros e' He' Hc'. destruct Hinv as [(_ & _ & _ & Hn)|(_ & _ & Hm & _)]; [by rewrite Hn in Hc'|].
        specialize (Hm e' He' Hc'). lia. }
      split; intros e' [He'| ->]%elem_of_snoc Hc'; [by apply Z.lt_le_incl, Hle|lia| |done].
      intros Heq. specialize (Hle e' He' Hc'). lia.
    + apply Z.ltb_ge in Hlt. intros [(-> & _)|(Hpos & (x & Hx & Hcx & Hlx & Hsx) & Hm & Ha)]; [lia|].
      assert (forall e', e' ∈ l ++ [e] -> covers request e' = true -> pathLength e' <= longest)%Z as Hm'.
      { intros e' [He'| ->]%elem_of_snoc Hc'; [by apply Hm|done]. }
      assert (exists y, y ∈ l ++ [e] /\ covers request y = true /\ pathLength y = longest /\ ne_service y = service) as Hx'.
      { exists x. rewrite elem_of_snoc. tauto. }
      destruct ((pathLength e =? longest)%Z && negb (String.eqb (ne_service e) service)) eqn:Hs; right.
      * apply andb_true_iff in Hs as [He%Z.eqb_eq Hn%negb_true_iff%String.eqb_neq].
        split; [done|]. split; [done|]. split; [done|]. exists e. rewrite elem_of_snoc. tauto.
      * split; [done|]. split; [done|]. split; [done|]. destruct ambiguous.
        -- destruct Ha as (y & Hy & Hr). exists y. rewrite elem_of_snoc. tauto.
        -- intros e' [He'| ->]%elem_of_snoc Hc' He; [by apply Ha|]. apply andb_false_iff in Hs as [Hs|Hs].
           ++ by apply Z.eqb_neq in Hs.
           ++ by apply negb_false_iff, String.eqb_eq in Hs.
  - intros [(-> & -> & -> & Hn)|(Hpos & (x & Hx & Hr) & Hm & Ha)]; [left|right].
    + split_and!; try done. intros e' [He'| ->]%elem_of_snoc; [by apply Hn|done].
    + split; [done|]. split; [exists x; rewrite elem_of_snoc; tauto|].
      split; [intros e' [He'| ->]%elem_of_snoc Hc'; [by apply Hm|congruence]|]. destruct ambiguous.
      * destruct Ha as (y & Hy & Hs). exists y. rewrite elem_of_snoc. tauto.
      * intros e' [He'| ->]%elem_of_snoc Hc'; [by apply Ha|congruence].
Qed.

Lemma classify_loop l :
  loopInvariant l (foldl (classifyStep request) ((-1)%Z, RequestServiceUnknown, false) l).
Proof.
  induction l as [|e l IH] using rev_ind; [left; split_and!; try done; by intros e ?%not_elem_of_nil|].
  rewrite foldl_snoc. by apply classifyStep_invariant.
Qed.

Lemma loopInvariant_service l longest service ambiguous s :
  loopInvariant l (longest, service, ambiguous) -> s <> RequestServiceUnknown ->
  ((if ambiguous : bool then RequestServiceUnknown else service) = s <-> longestService l s).
Proof.
  intros Hinv Hs. split.
  - intros <-. destruct ambiguous; [done|].
    destruct Hinv as [(_ & -> & _)|(_ & (e & He & Hc & Hl & Hse) & Hm & Ha)]; [done|].
    exists e. split; [done|]. split; [done|]. split; [done|]. intros e' He' Hc'. rewrite Hl. auto.
  - intros (e & He & Hc & Hse & Hbest). destruct Hinv as [(_ & _ & _ & Hn)|(_ & (x & Hx & Hcx & Hlx & Hsx) & Hm & Ha)].
    { by rewrite Hn in Hc. }
    assert (pathLength e = longest) as Hle.
    { destruct (Hbest x Hx Hcx) as [Hle _]. specialize (Hm e He Hc). lia. }
    assert (service = s) as -> by (rewrite <- Hsx; apply (Hbest x Hx Hcx); lia).
    destruct ambiguous; [|done]. destruct Ha as (y & Hy & Hcy & Hly & Hsy). destruct Hsy. apply (Hbest y Hy Hcy). lia.
Qed.
End best.

(** A request is observed under a service exactly when every longest endpoint
    that covers it belongs to that service; otherwise, also when two services
    share the longest endpoint, it is observed as unknown. *)
Theorem classify_finds_longest_endpoint `{NetURL} c method url requestEndpoint s :
  normalizeServiceEndpoint (mkServiceEndpoint RequestServiceUnknown url) = Some requestEndpoint ->
  s <> RequestServiceUnknown ->
  (classify c (Some (mkHTTPRequest method (Some url))) = s <-> longestService requestEndpoint (rc_endpoints c) s).
Proof.
  intros Hr Hs. unfold classify. rewrite Hr. pose proof (classify_loop requestEndpoint (rc_endpoints c)) as Hinv.
  destruct (foldl _ _ _) as [[longest service] ambiguous]. by eapply loopInvariant_service.
Qed.
