(* ===== verification/RequestMetrics.v ===== *)
(** * Metrics of requests

    Models [observability/metrics.go] and the transports of [clients]: what a
    request does to the metrics, step by step, while any number of other requests run
    in between.  Registration with Prometheus is left out but for the zero series
    it starts; a counter or a gauge is an integer, as it is in Prometheus below
    2^53, and its single operations are atomic.  The observer is never nil here. *)
From stdpp Require Import base list strings gmap.
From Stdlib Require Import ZArith NArith Lia Ascii.
From S2P Require Import Prelude GoStrings Cloud ProbeState RequestObserver.

Set Default Goal Selector "!".

(** ** Observations *)

Record RequestStartObservation := mkRequestStartObservation { so_Service : RequestService; so_Method : RequestMethod }.
Record RequestObservation := mkRequestObservation {
  ro_Service : RequestService; ro_Method : RequestMethod; ro_StatusClass : RequestStatusClass; ro_Duration : Z
}.

Abbreviation label := (string * string)%type.
Abbreviation label3 := (string * string * string)%type.

(** What a goroutine does, one atomic operation at a time. *)
Inductive action :=
| InFlightInc (l : label)
| InFlightDec (l : label)
| MutationsInc (l : label)
| RequestsInc (l : label3)
| DurationsObserve (l : label3) (duration : Z)
| TransportStart (request : option httpRequest)
| TransportEnd.

(** The interface between the transport and the metrics. *)
Class RequestObserver := {
  ObserveRequestStart : RequestStartObservation -> list action;
  ObserveRequest : RequestObservation -> list action
}.

(** ** metrics.go *)

Definition boundedService (service : RequestService) : RequestService :=
  if bool_decide (service ∈ [RequestServiceKeystone; RequestServiceOctavia; RequestServiceNeutron])
  then service else RequestServiceUnknown.
Definition boundedMethod (method : RequestMethod) : RequestMethod :=
  if bool_decide (method ∈ knownMethods) then method else RequestMethodOther.
Definition knownStatusClasses : list RequestStatusClass :=
  [RequestStatusClassInformational; RequestStatusClassSuccessful; RequestStatusClassRedirection;
   RequestStatusClassClientError; RequestStatusClassServerError].
Definition boundedStatusClass (statusClass : RequestStatusClass) : RequestStatusClass :=
  if bool_decide (statusClass ∈ knownStatusClasses) then statusClass else RequestStatusClassError.

Definition isBoundedMutation (service : RequestService) (method : RequestMethod) : bool :=
  if String.eqb service RequestServiceKeystone then false
  else negb (bool_decide (method ∈ [RequestMethodGet; RequestMethodHead; RequestMethodOptions])).

Definition observeRequestStart (observation : RequestStartObservation) : list action :=
  let service := boundedService (so_Service observation) in
  let method := boundedMethod (so_Method observation) in
  if negb (isBoundedMutation service method) then []
  else [InFlightInc (service, method); MutationsInc (service, method)].

Definition observeRequest (observation : RequestObservation) : list action :=
  let service := boundedService (ro_Service observation) in
  let method := boundedMethod (ro_Method observation) in
  let statusClass := boundedStatusClass (ro_StatusClass observation) in
  let duration := if (ro_Duration observation <? 0)%Z then 0%Z else ro_Duration observation in
  (if isBoundedMutation service method then [InFlightDec (service, method)] else []) ++
  [RequestsInc (service, method, statusClass); DurationsObserve (service, method, statusClass) duration].

#[export] Instance requestMetrics : RequestObserver :=
  {| ObserveRequestStart := observeRequestStart; ObserveRequest := observeRequest |}.

(** The state of the metrics. *)
Record metrics := mkMetrics {
  ms_inFlight : gmap label Z; ms_mutations : gmap label Z; ms_requests : gmap label3 Z; ms_durations : gmap label3 (list Z)
}.
Definition emptyMetrics : metrics := mkMetrics ∅ ∅ ∅ ∅.

(** The value of a series; one that does not exist yet counts from zero. *)
Definition series {K} `{Countable K} (m : gmap K Z) (k : K) : Z := default 0%Z (m !! k).
Definition add {K} `{Countable K} (k : K) (n : Z) (m : gmap K Z) : gmap K Z := <[k := (series m k + n)%Z]> m.

(** The end of [RegisterRequestMetrics]. *)
Definition startSeries (m : metrics) : metrics :=
  let l := (RequestServiceUnknown, RequestMethodOther) in
  mkMetrics (add l 0 (ms_inFlight m)) (add l 0 (ms_mutations m)) (ms_requests m) (ms_durations m).

Definition act (a : action) (m : metrics) : metrics :=
  match a with
  | InFlightInc l => mkMetrics (add l 1 (ms_inFlight m)) (ms_mutations m) (ms_requests m) (ms_durations m)
  | InFlightDec l => mkMetrics (add l (-1) (ms_inFlight m)) (ms_mutations m) (ms_requests m) (ms_durations m)
  | MutationsInc l => mkMetrics (ms_inFlight m) (add l 1 (ms_mutations m)) (ms_requests m) (ms_durations m)
  | RequestsInc l => mkMetrics (ms_inFlight m) (ms_mutations m) (add l 1 (ms_requests m)) (ms_durations m)
  | DurationsObserve l d =>
      mkMetrics (ms_inFlight m) (ms_mutations m) (ms_requests m)
        (<[l := default [] (ms_durations m !! l) ++ [d]]> (ms_durations m))
  | TransportStart _ | TransportEnd => m
  end.

(** ** The transports of client.go and request_observer.go *)

Inductive roundTripper :=
| DefaultTransport
| rateLimitedRoundTripper (next : roundTripper)
| requestObservingRoundTripper (next : roundTripper) (classifier : requestServiceClassifier).

(** What happens to one request: the error of the rate limiter, with the state
    of the request's context, and the answer of the server. *)
Record tripEnv := mkTripEnv {
  te_wait : option error; te_contextErr : option error; te_hasDeadline : bool;
  te_answer : outcome_of (option Z); te_duration : Z
}.
Definition contextDeadlineExceeded : error :=
  ForeignError (mkForeign "context deadline exceeded" false true false None false false false (Some true) None false false) None.

Section transports.
Context `{NetURL} `{RequestObserver}.

Definition installRequestObserver (classifier : requestServiceClassifier) (transport : option roundTripper) : roundTripper :=
  match transport with
  | Some (rateLimitedRoundTripper next) => rateLimitedRoundTripper (requestObservingRoundTripper next classifier)
  | Some next => requestObservingRoundTripper next classifier
  | None => requestObservingRoundTripper DefaultTransport classifier
  end.

(** The error of a request that was not admitted. *)
Definition waitError (env : tripEnv) (err : error) : error :=
  let err := match te_contextErr env with
    | Some contextErr => contextErr
    | None => if te_hasDeadline env then contextDeadlineExceeded else err
    end in
  Errorf "wait for OpenStack API request capacity: %w" [] (Some err).

(** The two [RoundTrip] methods around what the next transport does, which is
    the operations of the request and its result. *)
Definition limitedRoundTrip (env : tripEnv) (next : list action * outcome_of (option Z)) : list action * outcome_of (option Z) :=
  match te_wait env with
  | Some err => ([], Err (waitError env err))
  | None => next
  end.
(** The deferred observation also follows a panic of the transport. *)
Definition observedRoundTrip (classifier : requestServiceClassifier) (request : option httpRequest) (env : tripEnv)
    (next : list action * outcome_of (option Z)) : list action * outcome_of (option Z) :=
  let service := classify classifier request in
  let method := classifyRequestMethod request in
  let '(actions, answer) := next in
  (ObserveRequestStart (mkRequestStartObservation service method) ++
   [TransportStart request] ++ actions ++ [TransportEnd] ++
   ObserveRequest (mkRequestObservation service method (classifyStatus answer) (te_duration env)), answer).

Fixpoint RoundTrip (t : roundTripper) (request : option httpRequest) (env : tripEnv) : list action * outcome_of (option Z) :=
  match t with
  | DefaultTransport => ([], te_answer env)
  | rateLimitedRoundTripper next => limitedRoundTrip env (RoundTrip next request env)
  | requestObservingRoundTripper next classifier => observedRoundTrip classifier request env (RoundTrip next request env)
  end.
End transports.

(** ** Requests that run at the same time *)

Section concurrency.
Context `{NetURL} (classifier : requestServiceClassifier).

(** The transport of [newRateLimitedHTTPClient] with the observer installed. *)
Definition clientTransport : roundTripper :=
  installRequestObserver classifier (Some (rateLimitedRoundTripper DefaultTransport)).
Definition trip (request : option httpRequest) (env : tripEnv) : list action := fst (RoundTrip clientTransport request env).

(** The metrics and, for each request so far, what is left of it. *)
Record system := mkSystem { sy_metrics : metrics; sy_threads : list (list action) }.
Definition start : system := mkSystem (startSeries emptyMetrics) [].

(** A new request arrives, or one of them does its next operation. *)
Inductive sstep : system -> option action -> system -> Prop :=
| begins request env m threads : sstep (mkSystem m threads) None (mkSystem m (threads ++ [trip request env]))
| runs i a rest m threads :
    threads !! i = Some (a :: rest) ->
    sstep (mkSystem m threads) (Some a) (mkSystem (act a m) (<[i := rest]> threads)).
Inductive ssteps : system -> list (option action) -> system -> Prop :=
| ssteps_nil s : ssteps s [] s
| ssteps_cons s a s' tr s'' : sstep s a s' -> ssteps s' tr s'' -> ssteps s (a :: tr) s''.
Definition reachable (s : system) : Prop := exists tr, ssteps start tr s.

Lemma ssteps_app s1 tr1 s2 tr2 s3 : ssteps s1 tr1 s2 -> ssteps s2 tr2 s3 -> ssteps s1 (tr1 ++ tr2) s3.
Proof. induction 1; [done|]. intros. econstructor; eauto. Qed.
Lemma reachable_ssteps s tr s' : reachable s -> ssteps s tr s' -> reachable s'.
Proof. intros [tr0 H0] Hs. exists (tr0 ++ tr). by eapply ssteps_app. Qed.

(** An invariant holds at the start and is kept by every step. *)
Lemma reachable_ind (P : system -> Prop) :
  P start -> (forall s a s', P s -> sstep s a s' -> P s') -> forall s, reachable s -> P s.
Proof. intros H0 Hs s [tr Htr]. revert H0. induction Htr; eauto. Qed.

(** ** What is left of a request *)

Definition isTrip (th : list action) : Prop := exists request env, th `suffix_of` trip request env.

(** The label of a request, and whether it is counted as a mutation. *)
Definition labelOf (request : option httpRequest) : label :=
  (boundedService (classify classifier request), boundedMethod (classifyRequestMethod request)).
Definition countsAsMutation (request : option httpRequest) : bool := isBoundedMutation (fst (labelOf request)) (snd (labelOf request)).
(** The operation sends a request that is counted as a mutation. *)
Definition sendsMutation (a : action) : bool := match a with TransportStart request => countsAsMutation request | _ => false end.

Definition isInc (l : label) (a : action) : bool := match a with InFlightInc l' => bool_decide (l = l') | _ => false end.
Definition isDec (l : label) (a : action) : bool := match a with InFlightDec l' => bool_decide (l = l') | _ => false end.
(** The request has raised the gauge [l] and has yet to lower it. *)
Definition inFlightNow (l : label) (th : list action) : bool := existsb (isDec l) th && negb (existsb (isInc l) th).
Definition inFlightCount (l : label) (threads : list (list action)) : Z := Z.of_nat (length (List.filter (inFlightNow l) threads)).

(** A mutation is sent only after it was counted. *)
Fixpoint counted (th : list action) : bool :=
  match th with
  | [] => true
  | MutationsInc _ :: _ => true
  | a :: rest => negb (sendsMutation a) && counted rest
  end.

Lemma trip_cases request env :
  trip request env = [] \/
  exists l3 d,
    trip request env =
      (if countsAsMutation request then [InFlightInc (labelOf request); MutationsInc (labelOf request)] else []) ++
      [TransportStart request; TransportEnd] ++
      (if countsAsMutation request then [InFlightDec (labelOf request)] else []) ++ [RequestsInc l3; DurationsObserve l3 d].
Proof.
  unfold trip, clientTransport. cbn [installRequestObserver RoundTrip]. unfold limitedRoundTrip, observedRoundTrip. destruct (te_wait env); [by left|right].
  do 2 eexists. cbn [fst]. unfold countsAsMutation, labelOf.
  unfold ObserveRequestStart, ObserveRequest, requestMetrics, observeRequestStart, observeRequest. cbn [so_Service so_Method ro_Service ro_Method fst snd].
  by destruct (isBoundedMutation _ _).
Qed.

Lemma suffix_cons_cases {A} (x : A) (l k : list A) : k `suffix_of` x :: l -> k = x :: l \/ k `suffix_of` l.
Proof. intros [pre Hpre]. destruct pre as [|y pre]; [by left|right]. injection Hpre as -> ->. by exists pre. Qed.
Lemma suffix_nil_inv' {A} (k : list A) : k `suffix_of` [] -> k = [].
Proof. intros [pre Hpre]. by destruct pre, k. Qed.

(** Whatever is left of a request: nothing in flight means that a mutation still
    to be sent is still to be counted; doing an operation moves the gauge as it
    moves the count. *)
Lemma isTrip_counted th : isTrip th -> (forall l, inFlightNow l th = false) -> counted th = true.
Proof.
  intros (request & env & Hs) Hl. destruct (trip_cases request env) as [Ht|(l3 & d & Ht)]; rewrite Ht in Hs.
  - by apply suffix_nil_inv' in Hs as ->.
  - specialize (Hl (labelOf request)).
    destruct (countsAsMutation request) eqn:Hm; cbn [app] in Hs;
      repeat (apply suffix_cons_cases in Hs as [-> | Hs]); try (apply suffix_nil_inv' in Hs as ->);
      cbn; rewrite ?Hm; try done; unfold inFlightNow in Hl; cbn in Hl; by rewrite bool_decide_true in Hl.
Qed.

Ltac decides := repeat match goal with |- context [bool_decide ?P] => destruct (bool_decide P) end.
Definition delta (l : label) (a : action) : Z := (Z.b2z (isInc l a) - Z.b2z (isDec l a))%Z.
Lemma isTrip_delta th a rest l :
  isTrip th -> th = a :: rest -> Z.b2z (inFlightNow l rest) = (Z.b2z (inFlightNow l th) + delta l a)%Z.
Proof.
  intros (request & env & Hs) Heq. destruct (trip_cases request env) as [Ht|(l3 & d & Ht)]; rewrite Ht in Hs.
  - apply suffix_nil_inv' in Hs. congruence.
  - destruct (countsAsMutation request); cbn [app] in Hs;
      repeat (apply suffix_cons_cases in Hs as [-> | Hs]); try (apply suffix_nil_inv' in Hs; congruence);
      injection Heq as <- <-; unfold inFlightNow, delta; cbn; by decides.
Qed.
Lemma isTrip_rest a rest : isTrip (a :: rest) -> isTrip rest.
Proof. intros (request & env & [pre Hs]). exists request, env, (pre ++ [a]). by rewrite <- (assoc app). Qed.
Lemma trip_idle request env l : inFlightNow l (trip request env) = false.
Proof.
  destruct (trip_cases request env) as [->|(l3 & d & ->)]; [done|].
  destruct (countsAsMutation request); [|done]. unfold inFlightNow. cbn. by decides.
Qed.
Lemma trip_counted request env : counted (trip request env) = true.
Proof. apply isTrip_counted; [by exists request, env|]. intros l. apply trip_idle. Qed.

Lemma inFlightCount_insert l threads i th th' :
  threads !! i = Some th ->
  inFlightCount l (<[i := th']> threads) = (inFlightCount l threads - Z.b2z (inFlightNow l th) + Z.b2z (inFlightNow l th'))%Z.
Proof.
  unfold inFlightCount. revert i. induction threads as [|x threads IH]; intros [|i] Hi; [done..| |].
  - injection Hi as ->. cbn. destruct (inFlightNow l th), (inFlightNow l th'); cbn [length]; cbn [Z.b2z]; lia.
  - specialize (IH i Hi). change (<[S i := th']> (x :: threads)) with (x :: <[i := th']> threads). cbn [List.filter].
    destruct (inFlightNow l x); cbn [length]; lia.
Qed.
Lemma inFlightCount_snoc l threads th : inFlightNow l th = false -> inFlightCount l (threads ++ [th]) = inFlightCount l threads.
Proof. intros Hth. unfold inFlightCount. rewrite List.filter_app. cbn. rewrite Hth. by rewrite app_nil_r. Qed.

Lemma series_add {K} `{Countable K} (m : gmap K Z) k n k' :
  series (add k n m) k' = (series m k' + if bool_decide (k' = k) then n else 0)%Z.
Proof.
  unfold add, series at 1. destruct (decide (k' = k)) as [->|Hne].
  - rewrite lookup_insert_eq, bool_decide_true by done. done.
  - rewrite lookup_insert_ne, bool_decide_false by congruence. cbn. unfold series. lia.
Qed.
Lemma act_inFlight a m l : series (ms_inFlight (act a m)) l = (series (ms_inFlight m) l + delta l a)%Z.
Proof.
  destruct a; cbn [act ms_inFlight]; rewrite ?series_add; unfold delta; cbn [isInc isDec];
    decides; cbn; lia.
Qed.

Lemma start_series l : series (ms_inFlight (startSeries emptyMetrics)) l = 0%Z.
Proof. unfold startSeries. cbn [ms_inFlight]. rewrite series_add. unfold series. cbn. rewrite lookup_empty. by decides. Qed.

Lemma reachable_inFlight s :
  reachable s ->
  Forall isTrip (sy_threads s) /\ forall l, series (ms_inFlight (sy_metrics s)) l = inFlightCount l (sy_threads s).
Proof.
  revert s. apply reachable_ind; [split; [done|exact start_series]|].
  intros s a s' [Hth Hl] Hstep. destruct Hstep as [request env m threads|i a rest m threads Hi]; cbn [sy_threads sy_metrics] in *.
  - split; [apply Forall_app; split; [done|]; constructor; [by exists request, env|done]|].
    intros l. rewrite Hl. by rewrite inFlightCount_snoc by apply trip_idle.
  - assert (isTrip (a :: rest)) as Ht by by eapply Forall_lookup_1.
    split; [apply Forall_insert; [done|by eapply isTrip_rest]|].
    intros l. rewrite act_inFlight, Hl, (inFlightCount_insert _ _ _ _ _ Hi), (isTrip_delta _ a rest l Ht eq_refl). lia.
Qed.

(** The gauge shows exactly the requests in flight: in every state that any
    interleaving reaches, for every service and method, it is the number of
    requests that have raised it and not yet lowered it. *)
Theorem gauge_counts_requests_in_flight s l :
  reachable s -> series (ms_inFlight (sy_metrics s)) l = inFlightCount l (sy_threads s).
Proof. intros Hs. by apply reachable_inFlight. Qed.

(** ** Quiet windows *)

(** The sum of a family, which is what an observer compares. *)
Definition total {K} `{Countable K} (m : gmap K Z) : Z := map_fold (fun _ v acc => (v + acc)%Z) 0%Z m.

Lemma total_add {K} `{Countable K} (m : gmap K Z) k n : total (add k n m) = (total m + n)%Z.
Proof.
  unfold total, add, series. destruct (m !! k) as [v|] eqn:Hk; cbn.
  - rewrite <- insert_delete_eq, map_fold_insert_L, (map_fold_delete_L _ _ k v m); [lia|lia|done|lia|by apply lookup_delete_eq].
  - rewrite map_fold_insert_L; [lia|lia|done].
Qed.

Definition countsMutation (a : option action) : bool := match a with Some (MutationsInc _) => true | _ => false end.
Definition sends (a : option action) : bool := match a with Some a => sendsMutation a | None => false end.

Lemma ssteps_total s tr s' :
  ssteps s tr s' ->
  total (ms_mutations (sy_metrics s')) =
  (total (ms_mutations (sy_metrics s)) + Z.of_nat (length (List.filter countsMutation tr)))%Z.
Proof.
  induction 1 as [s|s a s' tr s'' Hstep _ IH]; [cbn; lia|]. rewrite IH. clear IH.
  destruct Hstep as [request env m threads|i a rest m threads Hi]; cbn [sy_metrics]; [done|].
  destruct a; cbn [act ms_mutations List.filter countsMutation]; rewrite ?total_add; cbn [length]; lia.
Qed.

(** While nothing is counted, nothing is sent. *)
Lemma ssteps_counted s tr s' :
  ssteps s tr s' -> Forall (fun th => counted th = true) (sy_threads s) ->
  Forall (fun a => countsMutation a = false) tr -> Forall (fun a => sends a = false) tr.
Proof.
  induction 1 as [s|s a s' tr s'' Hstep _ IH]; intros Hc Hn; [done|]. apply Forall_cons in Hn as [Ha Hn].
  destruct Hstep as [request env m threads|i a rest m threads Hi]; cbn [sy_threads] in *.
  - constructor; [done|]. apply IH; [|done]. apply Forall_app. split; [done|]. constructor; [apply trip_counted|done].
  - assert (counted (a :: rest) = true) as Hr by by eapply (Forall_lookup_1 _ _ _ _ Hc).
    assert (sendsMutation a = false /\ counted rest = true) as [Hs Hrest].
    { destruct a; try done; cbn in Hr; try (by split). apply andb_true_iff in Hr as [Hr%negb_true_iff Hr']. done. }
    constructor; [done|]. apply IH; [by apply Forall_insert|done].
Qed.

Lemma filter_nil_Forall {A} (f : A -> bool) l : length (List.filter f l) = 0 -> Forall (fun x => f x = false) l.
Proof. induction l as [|x l IH]; [done|]. cbn. destruct (f x) eqn:Hx; [done|]. intros Hl. constructor; auto. Qed.

(** A request that may change OpenStack: its method, in capitals, is not one of
    those that only read, and its URL does not belong to Keystone, in that the
    longest endpoints that cover it are not all Keystone's. *)
Definition mayChange (request : option httpRequest) : Prop :=
  match request with
  | None => True
  | Some (mkHTTPRequest method url) =>
      toUpper method <> "GET" /\ toUpper method <> "HEAD" /\ toUpper method <> "OPTIONS" /\
      forall u endpoint, url = Some u -> normalizeServiceEndpoint (mkServiceEndpoint RequestServiceUnknown u) = Some endpoint ->
        ~ longestService endpoint (rc_endpoints classifier) RequestServiceKeystone
  end.

Lemma classify_keystone method url :
  classify classifier (Some (mkHTTPRequest method url)) = RequestServiceKeystone ->
  exists u endpoint, url = Some u /\ normalizeServiceEndpoint (mkServiceEndpoint RequestServiceUnknown u) = Some endpoint /\
    longestService endpoint (rc_endpoints classifier) RequestServiceKeystone.
Proof.
  intros Hc. destruct url as [u|]; [|done].
  destruct (normalizeServiceEndpoint (mkServiceEndpoint RequestServiceUnknown u)) as [endpoint|] eqn:Hn.
  - exists u, endpoint. split_and!; [done..|]. by apply (classify_finds_longest_endpoint classifier method u).
  - unfold classify in Hc. by rewrite Hn in Hc.
Qed.

Lemma mayChange_counted request : mayChange request -> countsAsMutation request = true.
Proof.
  unfold countsAsMutation, labelOf, isBoundedMutation. destruct request as [[method url]|]; [|done].
  intros (Hg & Hh & Ho & Hk). cbn [fst snd].
  destruct (String.eqb_spec (boundedService (classify classifier (Some (mkHTTPRequest method url)))) RequestServiceKeystone) as [He|_].
  - assert (classify classifier (Some (mkHTTPRequest method url)) = RequestServiceKeystone) as Hc.
    { unfold boundedService in He. by destruct (bool_decide _). }
    apply classify_keystone in Hc as (u & endpoint & Hu & Hn & Hl). by destruct (Hk u endpoint Hu Hn).
  - apply negb_true_iff, bool_decide_eq_false. unfold boundedMethod, classifyRequestMethod. cbn [hr_Method].
    assert (toUpper method ∉ [RequestMethodGet; RequestMethodHead; RequestMethodOptions]).
    { rewrite !not_elem_of_cons. split_and!; [done..|]. apply not_elem_of_nil. }
    destruct (bool_decide_reflect (toUpper method ∈ knownMethods)) as [Hin|_]; [by rewrite bool_decide_true|].
    apply (bool_decide_unpack _). by vm_compute.
Qed.

(** The next operation sends such a request. *)
Definition sendsChange (a : option action) : Prop :=
  match a with Some (TransportStart request) => mayChange request | _ => False end.

(** C24. A quiet window proves that nothing was changed: if the mutations were
    counted in one state, no series of the in-flight gauge was raised in a later
    one, and the count is the same in a third, then no request that may change
    OpenStack, one to another service than Keystone with a method other than
    GET, HEAD and OPTIONS, was sent between the second and the third, in any
    interleaving of any number of requests. *)
Theorem quiet_window_has_no_mutation s1 tr s2 tr' s3 :
  reachable s1 -> ssteps s1 tr s2 -> ssteps s2 tr' s3 ->
  (forall l, series (ms_inFlight (sy_metrics s2)) l = 0%Z) ->
  total (ms_mutations (sy_metrics s1)) = total (ms_mutations (sy_metrics s3)) ->
  Forall (fun a => ~ sendsChange a) tr'.
Proof.
  intros H1 H12 H23 Hl Ht. apply (Forall_impl (fun a => sends a = false)).
  2: { intros [[]|] Hs Hc; try done. cbn in *. apply mayChange_counted in Hc. congruence. } destruct (reachable_inFlight s2) as [Hth Hc]; [by eapply reachable_ssteps|].
  apply (ssteps_counted s2 tr' s3 H23).
  - apply Forall_forall. intros th Hin. apply isTrip_counted; [by eapply Forall_forall in Hth|]. intros l.
    specialize (Hc l). rewrite Hl in Hc. unfold inFlightCount in Hc.
    assert (length (List.filter (inFlightNow l) (sy_threads s2)) = 0) as Hz by lia.
    apply filter_nil_Forall in Hz. by eapply Forall_forall in Hz.
  - apply filter_nil_Forall. apply ssteps_total in H12, H23. lia.
Qed.

(** ** Bounded labels *)

Definition services : list RequestService :=
  [RequestServiceKeystone; RequestServiceOctavia; RequestServiceNeutron; RequestServiceUnknown].
Definition methods : list RequestMethod := knownMethods ++ [RequestMethodOther].
Definition statusClasses : list RequestStatusClass := knownStatusClasses ++ [RequestStatusClassError].
Definition boundedLabel (l : label) : Prop := fst l ∈ services /\ snd l ∈ methods.
Definition boundedLabel3 (l : label3) : Prop := boundedLabel (fst l) /\ snd l ∈ statusClasses.
Definition boundedAction (a : action) : Prop :=
  match a with
  | InFlightInc l | InFlightDec l | MutationsInc l => boundedLabel l
  | RequestsInc l | DurationsObserve l _ => boundedLabel3 l
  | _ => True
  end.
Definition boundedMetrics (m : metrics) : Prop :=
  (forall l v, ms_inFlight m !! l = Some v -> boundedLabel l) /\ (forall l v, ms_mutations m !! l = Some v -> boundedLabel l) /\
  (forall l v, ms_requests m !! l = Some v -> boundedLabel3 l) /\ (forall l v, ms_durations m !! l = Some v -> boundedLabel3 l).

Lemma bounded_labels service method : boundedLabel (boundedService service, boundedMethod method).
Proof.
  split; cbn [fst snd].
  - unfold boundedService. case_bool_decide as Hs; [|set_solver]. unfold services. set_solver.
  - unfold boundedMethod, methods. case_bool_decide; set_solver.
Qed.
Lemma bounded_labels3 service method c :
  boundedLabel3 (boundedService service, boundedMethod method, boundedStatusClass c).
Proof.
  split; [apply bounded_labels|]. cbn [snd]. unfold boundedStatusClass, statusClasses. case_bool_decide; set_solver.
Qed.
Lemma trip_bounded request env : Forall boundedAction (trip request env).
Proof.
  unfold trip, clientTransport. cbn [installRequestObserver RoundTrip]. unfold limitedRoundTrip, observedRoundTrip. destruct (te_wait env); [done|]. cbn [fst].
  unfold ObserveRequestStart, ObserveRequest, requestMetrics, observeRequestStart, observeRequest. cbn [so_Service so_Method ro_Service ro_Method].
  pose proof bounded_labels3. pose proof bounded_labels.
  destruct (isBoundedMutation _ _); cbn [negb app];
    repeat (apply Forall_cons; split; [by cbn [boundedAction]; auto|]); by apply Forall_nil.
Qed.
Lemma bounded_insert {K V} `{Countable K} (P : K -> Prop) (m : gmap K V) k v :
  P k -> (forall k v, m !! k = Some v -> P k) -> forall k' v', <[k := v]> m !! k' = Some v' -> P k'.
Proof. intros Hk Hm k' v' [[-> _]|[_ Hl]]%lookup_insert_Some; eauto. Qed.
Lemma act_bounded a m : boundedAction a -> boundedMetrics m -> boundedMetrics (act a m).
Proof.
  intros Ha (H1' & H2' & H3' & H4'). destruct a; cbn [boundedAction] in Ha; split_and!; cbn; try done; by apply bounded_insert.
Qed.

(** C25. Whatever is requested and in whatever order requests run, only the
    known services, methods and status classes ever become labels of a series.
    *)
Theorem series_labels_are_bounded s : reachable s -> boundedMetrics (sy_metrics s).
Proof.
  intros Hs. enough (Forall (Forall boundedAction) (sy_threads s) /\ boundedMetrics (sy_metrics s)) as [_ Hb] by done.
  revert s Hs. apply reachable_ind.
  - split; [done|]. split_and!; cbn; try (by intros l v; rewrite lookup_empty);
      apply bounded_insert; [exact (bounded_labels "" "")|by intros l v; rewrite lookup_empty
                            |exact (bounded_labels "" "")|by intros l v; rewrite lookup_empty].
  - intros s a s' [Hth Hm] Hstep. destruct Hstep as [request env m threads|i a rest m threads Hi]; cbn [sy_threads sy_metrics] in *.
    + split; [|done]. apply Forall_app. split; [done|]. constructor; [apply trip_bounded|done].
    + pose proof (Forall_lookup_1 _ _ _ _ Hth Hi) as Hrest. apply Forall_cons in Hrest as [Ha Hrest].
      split; [by apply Forall_insert|by apply act_bounded].
Qed.

(** A request that the rate limiter does not admit is neither sent nor observed. *)
Lemma not_admitted request env err : te_wait env = Some err -> RoundTrip clientTransport request env = ([], Err (waitError env err)).
Proof. intros Hw. unfold clientTransport. cbn. unfold limitedRoundTrip. by rewrite Hw. Qed.
End concurrency.
