(* ===== verification/Clients.v ===== *)
(** * The OpenStack clients

    Models [clients/client.go]: the settings that are checked before anything is
    sent, how the authenticated clients are built, and the transport they share.
    Gophercloud and its parser of clouds.yaml are a class; a TLS configuration is
    what the code sets or looks at of it. *)
From stdpp Require Import base list strings.
From Stdlib Require Import ZArith NArith Lia Ascii DecimalString DecimalN.
From S2P Require Import Prelude GoStrings Cloud ApiErrors ProbeState RequestObserver RequestMetrics.

Set Default Goal Selector "!".

(** ** [strconv.Atoi] *)

Definition maxInt : Z := 2 ^ 63 - 1.
(** A number of at least one decimal digit. *)
Definition parseDigits (s : string) : option Z :=
  if String.eqb s "" then None else (fun u => Z.of_N (N.of_uint u)) <$> NilEmpty.uint_of_string s.
Definition Atoi (s : string) : option Z :=
  let '(negative, digits) := match s with
    | String "-" rest => (true, rest)
    | String "+" rest => (false, rest)
    | _ => (false, s)
    end in
  match parseDigits digits with
  | None => None
  | Some n =>
      if negative then (if (n <=? maxInt + 1)%Z then Some (- n)%Z else None)
      else if (n <=? maxInt)%Z then Some n else None
  end.

(** ** Settings *)

(** A [float64]: a finite one is [mantissa * 2 ^ exponent]. *)
Inductive float64 := Finite (mantissa exponent : Z) | Infinite (negative : bool) | NotANumber.
Definition float_le0 (x : float64) : bool :=
  match x with Finite m _ => (m <=? 0)%Z | Infinite negative => negative | NotANumber => false end.
Definition IsNaN (x : float64) : bool := match x with NotANumber => true | _ => false end.
Definition IsInf (x : float64) : bool := match x with Infinite _ => true | _ => false end.

Definition DefaultAPIQPS : float64 := Finite 10 0.
Definition DefaultAPIBurst : Z := 20.

Record ClientConfig := mkClientConfig {
  cl_Region : string; cl_Microversion : string; cl_CloudsYAMLPath : string; cl_CloudName : string;
  cl_AllowInsecure : bool; cl_APIQPS : float64; cl_APIBurst : Z; cl_RequestObserver : bool
}.

Definition ValidateMicroversion (value : string) : outcome_of unit :=
  match Split value "." with
  | [first; second] =>
      match Atoi first, Atoi second with
      | Some major, Some minor =>
          guard? negb ((major <? 0)%Z || (minor <? 0)%Z)
          else (Errorf "octavia microversion %q must contain non-negative integers" [value] None) in
          guard? negb ((major <? 2)%Z || (major =? 2)%Z && (minor <? 5)%Z)
          else (Errorf "octavia microversion %q is unsupported; 2.5 or newer is required for identity tags" [value] None) in
          Ok tt
      | _, _ => Err (Errorf "octavia microversion %q must contain non-negative integers" [value] None)
      end
  | _ => Err (Errorf "octavia microversion %q must have major.minor form" [value] None)
  end.

Definition ValidateClientConfig (cfg : ClientConfig) : outcome_of unit :=
  let? _ := ValidateMicroversion (cl_Microversion cfg) in
  guard? negb (float_le0 (cl_APIQPS cfg) || IsNaN (cl_APIQPS cfg) || IsInf (cl_APIQPS cfg))
  else (Errorf "request rate must be a finite number greater than zero" [] None) in
  guard? negb (cl_APIBurst cfg <=? 0)%Z else (Errorf "request burst must be greater than zero" [] None) in
  Ok tt.

(** ** Gophercloud *)

(** [ao_Scope] is a scope, and whether it is the zero value. *)
Record AuthOptions := mkAuthOptions {
  ao_IdentityEndpoint : string; ao_TokenID : string; ao_TenantID : string; ao_Scope : option bool; ao_AllowReauth : bool
}.
Record EndpointOpts := mkEndpointOpts { eo_Region : string }.
Record tlsConfig := mkTLSConfig { tls_InsecureSkipVerify : bool; tls_MinVersion : Z }.
Definition VersionTLS12 : Z := 771.

(** [http.Client] as [newRateLimitedHTTPClient] makes it. *)
Record httpClient := mkHTTPClient { hc_Transport : option roundTripper; hc_TLS : option tlsConfig; hc_QPS : float64; hc_Burst : Z }.
(** The answer of Keystone: the ID of the project or tenant of the token. *)
Inductive authResult :=
| V3CreateResult (project : outcome_of (option string))
| V3GetResult (project : outcome_of (option string))
| V2CreateResult (tenant : outcome_of string)
| OtherResult.
Record ProviderClient := mkProviderClient {
  pv_HTTPClient : httpClient; pv_IdentityEndpoint : string; pv_IdentityBase : string; pv_AuthResult : authResult
}.
Record ServiceClient := mkServiceClient { sv_ResourceBaseURL : string; sv_Microversion : string }.

Class GophercloudSDK := {
  AuthOptionsFromEnv : outcome_of AuthOptions;
  ParseClouds : string -> string -> option string -> outcome_of (AuthOptions * EndpointOpts * option tlsConfig);
  NewProviderClient : AuthOptions -> httpClient -> outcome_of ProviderClient;
  NewLoadBalancerV2 : ProviderClient -> EndpointOpts -> outcome_of ServiceClient;
  NewNetworkV2 : ProviderClient -> EndpointOpts -> outcome_of ServiceClient
}.
(** [WithHTTPClient]: the provider uses the client it is given. *)
Class GophercloudSDKLaws `{GophercloudSDK} : Prop := {
  provider_http_client auth client p : NewProviderClient auth client = Ok p -> pv_HTTPClient p = client
}.

(** ** Building the clients *)

Section clients.
Context `{GophercloudSDK} `{NetURL} `{ForeignTexts}.

Definition authenticationOptions (cfg : ClientConfig) : outcome_of (AuthOptions * EndpointOpts * option tlsConfig) :=
  if String.eqb (cl_CloudsYAMLPath cfg) "" then
    match AuthOptionsFromEnv with
    | Err e => Err (Errorf "read OpenStack authentication environment: %w" [] (Some e))
    | Ok authOptions =>
        guard? negb (blank (ao_IdentityEndpoint authOptions))
        else (Errorf "environment variable OS_AUTH_URL is required when --clouds-yaml is not set" [] None) in
        Ok (authOptions, mkEndpointOpts (cl_Region cfg), None)
    end
  else
    guard? negb (blank (cl_CloudName cfg)) else (Errorf "--openstack-cloud is required with --clouds-yaml" [] None) in
    match ParseClouds (cl_CloudName cfg) (cl_CloudsYAMLPath cfg)
            (if String.eqb (cl_Region cfg) "" then None else Some (cl_Region cfg)) with
    | Err e => Err (Errorf "parse clouds.yaml: %w" [] (Some e))
    | Ok parsed => Ok parsed
    end.

Definition allowReauthentication (authOptions : AuthOptions) : bool :=
  if String.eqb (ao_TokenID authOptions) "" then true
  else match ao_Scope authOptions with Some isZero => negb isZero | None => false end.

Definition newRateLimitedHTTPClient (tls : option tlsConfig) (qps : float64) (burst : Z) : httpClient :=
  mkHTTPClient (Some (rateLimitedRoundTripper DefaultTransport)) tls qps burst.

Definition projectOr (format : string) (project : outcome_of (option string)) (otherwise : outcome_of string) : outcome_of string :=
  match project with
  | Err e => Err (Errorf format [] (Some e))
  | Ok (Some id) => if String.eqb id "" then otherwise else Ok id
  | Ok None => otherwise
  end.
Definition authenticatedProjectID (provider : ProviderClient) (authOptions : AuthOptions) : outcome_of string :=
  let otherwise :=
    if String.eqb (ao_TenantID authOptions) ""
    then Err (Errorf "authentication must be scoped to an OpenStack project so managed resources have a stable project identity" [] None)
    else Ok (ao_TenantID authOptions) in
  match pv_AuthResult provider with
  | V3CreateResult project => projectOr "extract project from Keystone token: %w" project otherwise
  | V3GetResult project => projectOr "extract project from validated Keystone token: %w" project otherwise
  | V2CreateResult (Err e) => Err (Errorf "extract tenant from Keystone token: %w" [] (Some e))
  | V2CreateResult (Ok tenant) => if String.eqb tenant "" then otherwise else Ok tenant
  | OtherResult => otherwise
  end.

(** What [NewServiceClients] decides before it sends anything. *)
Definition prepareClient (cfg : ClientConfig) : outcome_of (AuthOptions * EndpointOpts * httpClient) :=
  let invalid e := NewProviderError ErrorCategoryTerminalValidation (Some e) in
  match ValidateClientConfig cfg with
  | Err e => Err (invalid e)
  | Ok _ =>
      match authenticationOptions cfg with
      | Err e => Err (invalid e)
      | Ok (authOptions, endpointOptions, tls) =>
          guard? negb (match tls with Some t => tls_InsecureSkipVerify t | None => false end && negb (cl_AllowInsecure cfg))
          else (invalid (Errorf "clouds.yaml disables TLS verification; pass --insecure only for an explicitly approved test cloud" [] None)) in
          let tls := if cl_AllowInsecure cfg
            then Some (mkTLSConfig true (match tls with Some t => tls_MinVersion t | None => VersionTLS12 end))
            else tls in
          let authOptions := mkAuthOptions (ao_IdentityEndpoint authOptions) (ao_TokenID authOptions)
            (ao_TenantID authOptions) (ao_Scope authOptions) (allowReauthentication authOptions) in
          Ok (authOptions, endpointOptions, newRateLimitedHTTPClient tls (cl_APIQPS cfg) (cl_APIBurst cfg))
      end
  end.

(** The clients and the transport that they share. *)
Record ServiceClients := mkServiceClients {
  scl_LoadBalancer : ServiceClient; scl_Network : ServiceClient; scl_ProjectID : string; scl_HTTPClient : httpClient
}.

(** The classifier of [installRequestObserver]. *)
Definition observedEndpoints (provider : ProviderClient) (loadBalancer network : ServiceClient) : requestServiceClassifier :=
  newRequestServiceClassifier
    [mkServiceEndpoint RequestServiceKeystone (pv_IdentityEndpoint provider);
     mkServiceEndpoint RequestServiceKeystone (pv_IdentityBase provider);
     mkServiceEndpoint RequestServiceOctavia (sv_ResourceBaseURL loadBalancer);
     mkServiceEndpoint RequestServiceNeutron (sv_ResourceBaseURL network)].

Definition newServiceClients (cfg : ClientConfig) : outcome_of ServiceClients :=
  let? (authOptions, endpointOptions, client) := prepareClient cfg in
  match NewProviderClient authOptions client with
  | Err e => Err (Errorf "authenticate to OpenStack: %w" [] (Some e))
  | Ok provider =>
      let? projectID := authenticatedProjectID provider authOptions in
      match NewLoadBalancerV2 provider endpointOptions with
      | Err e => Err (Errorf "create Octavia client: %w" [] (Some e))
      | Ok loadBalancer =>
          let loadBalancer := mkServiceClient (sv_ResourceBaseURL loadBalancer) (cl_Microversion cfg) in
          match NewNetworkV2 provider endpointOptions with
          | Err e => Err (Errorf "create Neutron client: %w" [] (Some e))
          | Ok network =>
              let client := pv_HTTPClient provider in
              let client := if cl_RequestObserver cfg
                then mkHTTPClient (Some (installRequestObserver (observedEndpoints provider loadBalancer network) (hc_Transport client)))
                       (hc_TLS client) (hc_QPS client) (hc_Burst client)
                else client in
              Ok (mkServiceClients loadBalancer network projectID client)
          end
      end
  end.
(** With the deferred classification of its error. *)
Definition NewServiceClients (cfg : ClientConfig) : outcome_of ServiceClients :=
  match newServiceClients cfg with Ok clients => Ok clients | Err e => Err (Classify e) end.
End clients.

(** ** Microversions *)

Lemma Split_append a b c : str_without c a = true -> Split (a ^^ String c b) c = a :: Split b c.
Proof.
  induction a as [|x a IH]; intros Ha.
  - change (Split (String c b) c = "" :: Split b c). cbn. by rewrite Ascii.eqb_refl.
  - cbn in Ha. apply andb_true_iff in Ha as [Hx%negb_true_iff Ha].
    change (Split (String x (a ^^ String c b)) c = String x a :: Split b c). cbn [Split]. by rewrite Hx, IH.
Qed.
Lemma Split_without a c : str_without c a = true -> Split a c = [a].
Proof.
  induction a as [|x a IH]; intros Ha; [done|]. cbn in Ha. apply andb_true_iff in Ha as [Hx%negb_true_iff Ha].
  cbn [Split]. by rewrite Hx, IH.
Qed.

Lemma Split_nonempty s c : Split s c <> [].
Proof. destruct s as [|x s]; [done|]. cbn. destruct (Ascii.eqb x c); [done|]. by destruct (Split s c). Qed.
Lemma Split_one s c a : Split s c = [a] -> s = a /\ str_without c a = true.
Proof.
  revert a. induction s as [|x s IH]; intros a; cbn; [by intros [= <-]|].
  destruct (Ascii.eqb x c) eqn:Hx.
  - intros [= _ Hs]. by apply Split_nonempty in Hs.
  - destruct (Split s c) as [|y l] eqn:Hs; [by apply Split_nonempty in Hs|]. intros [= <- ->].
    destruct (IH y eq_refl) as [-> Hy]. split; [done|]. cbn. by rewrite Hx, Hy.
Qed.
Lemma Split_two s c a b : Split s c = [a; b] -> s = a ^^ String c b /\ str_without c a = true /\ str_without c b = true.
Proof.
  revert a. induction s as [|x s IH]; intros a; [done|]. cbn [Split]. destruct (Ascii.eqb x c) eqn:Hx.
  - intros [= <- [-> Hb]%Split_one]. apply Ascii.eqb_eq in Hx as ->. done.
  - destruct (Split s c) as [|y l] eqn:Hs; [done|]. intros [= <- ->].
    destruct (IH y eq_refl) as (-> & Hy & Hb). split; [done|]. split; [|done]. cbn. by rewrite Hx, Hy.
Qed.

(** [value] is [major.minor], one dot between two integers, from 2.5 on. *)
Definition hasTags (value : string) : Prop :=
  exists first second major minor,
    value = first ^^ "." ^^ second /\ str_without "." first = true /\ str_without "." second = true /\
    Atoi first = Some major /\ Atoi second = Some minor /\ (2 < major \/ major = 2 /\ 5 <= minor)%Z.

Lemma ValidateMicroversion_ok value : ValidateMicroversion value = Ok tt -> hasTags value.
Proof.
  unfold ValidateMicroversion. destruct (Split value ".") as [|first [|second []]] eqn:Hs; try done.
  destruct (Atoi first) as [major|] eqn:Ha; [|done]. destruct (Atoi second) as [minor|] eqn:Hb; [|done].
  destruct (negb (_ || _)); [|done]. destruct (negb (_ || _)) eqn:Hv; [|done]. intros _.
  apply Split_two in Hs as (-> & H1 & H2). exists first, second, major, minor. split_and!; [done..|]. lia.
Qed.

(** A written number is read back. *)
Lemma Atoi_decimal (n : N) : (Z.of_N n <= maxInt)%Z -> Atoi (decimal_N n) = Some (Z.of_N n).
Proof.
  intros Hn. assert (parseDigits (decimal_N n) = Some (Z.of_N n)) as Hp.
  { unfold parseDigits, decimal_N. destruct (String.eqb_spec (NilEmpty.string_of_uint (N.to_uint n)) "") as [He|_].
    - apply (f_equal NilEmpty.uint_of_string) in He. rewrite NilEmpty.usu in He. injection He as He.
      destruct n as [|p]; [done|]. by apply DecimalPos.Unsigned.to_uint_nonnil in He.
    - rewrite NilEmpty.usu. cbn. by rewrite DecimalN.Unsigned.of_to. }
  assert (str_without "-" (decimal_N n) = true /\ str_without "+" (decimal_N n) = true) as [Hm Hl] by by split; apply decimal_N_without.
  unfold Atoi. assert (match decimal_N n with
    | String "-" rest => (true, rest) | String "+" rest => (false, rest) | _ => (false, decimal_N n) end = (false, decimal_N n)) as ->.
  { destruct (decimal_N n) as [|c rest]; [done|]. cbn in Hm, Hl. apply andb_true_iff in Hm as [Hm _], Hl as [Hl _].
    destruct (Ascii.eqb_spec c "-") as [->|Hc1]; [done|]. destruct (Ascii.eqb_spec c "+") as [->|Hc2]; [done|].
    destruct c as [[] [] [] [] [] [] [] []]; congruence. }
  rewrite Hp. by apply Z.leb_le in Hn as ->.
Qed.

(** Microversions are compared as pairs of integers: [major.minor] is accepted
    exactly from 2.5 on, so that 2.10 is, and 2.4 and 1.9 are not. *)
Theorem microversions_compare_as_integers (major minor : N) :
  (Z.of_N major <= maxInt)%Z -> (Z.of_N minor <= maxInt)%Z ->
  (ValidateMicroversion (decimal_N major ^^ "." ^^ decimal_N minor) = Ok tt <-> (2 < major \/ major = 2 /\ 5 <= minor)%N).
Proof.
  intros Hmaj Hmin. unfold ValidateMicroversion.
  change ("." ^^ decimal_N minor) with (String "." (decimal_N minor)).
  rewrite Split_append, Split_without by by apply decimal_N_without. rewrite !Atoi_decimal by done.
  assert ((Z.of_N major <? 0)%Z = false /\ (Z.of_N minor <? 0)%Z = false) as [-> ->] by lia. cbn [orb negb].
  destruct (_ || _) eqn:Hv; cbn [negb]; split; intros Hx; [done|exfalso; lia|lia|done].
Qed.

(** ** What the clients may rely on *)

Section safe.
Context `{GophercloudSDK, !GophercloudSDKLaws} `{NetURL} `{ForeignTexts}.

Definition insecure (client : httpClient) : bool :=
  match hc_TLS client with Some t => tls_InsecureSkipVerify t | None => false end.

Lemma authenticatedProjectID_nonempty provider authOptions id :
  authenticatedProjectID provider authOptions = Ok id -> id <> "".
Proof.
  unfold authenticatedProjectID. set (otherwise := if String.eqb (ao_TenantID authOptions) "" then _ else _).
  assert (otherwise = Ok id -> id <> "") as Ho.
  { unfold otherwise. destruct (String.eqb_spec (ao_TenantID authOptions) ""); [done|]. by intros [= <-]. }
  assert (forall format project, projectOr format project otherwise = Ok id -> id <> "") as Hp.
  { intros format [[p|]|e]; cbn; [|done..]. destruct (String.eqb_spec p ""); [done|]. by intros [= <-]. }
  destruct (pv_AuthResult provider) as [project|project|[tenant|e]|]; [by apply Hp..| |done|done].
  destruct (String.eqb_spec tenant ""); [done|]. by intros [= <-].
Qed.

Lemma prepareClient_safe cfg authOptions endpointOptions client :
  prepareClient cfg = Ok (authOptions, endpointOptions, client) ->
  insecure client = cl_AllowInsecure cfg /\ hc_Transport client = Some (rateLimitedRoundTripper DefaultTransport) /\
  ValidateClientConfig cfg = Ok tt /\ hc_QPS client = cl_APIQPS cfg /\ hc_Burst client = cl_APIBurst cfg.
Proof.
  unfold prepareClient. destruct (ValidateClientConfig cfg) as [[]|e]; [|done].
  destruct (authenticationOptions cfg) as [[[auth endpoints] tls]|e]; [|done].
  destruct (cl_AllowInsecure cfg); cbn [negb]; rewrite ?andb_false_r, ?andb_true_r; cbn [negb].
  - by intros [= <- <- <-].
  - destruct tls as [[[] v]|]; cbn; [done|by intros [= <- <- <-]..].
Qed.

(** Every request of the clients passes the limiter; with an observer each one
    that passes is observed, under Keystone, or under Octavia or Neutron by the
    endpoints of the two clients; without one it goes straight to the network. *)
Definition sharedTransport (cfg : ClientConfig) (clients : ServiceClients) : Prop :=
  if cl_RequestObserver cfg
  then exists identity,
    hc_Transport (scl_HTTPClient clients) =
      Some (rateLimitedRoundTripper (requestObservingRoundTripper DefaultTransport (mkRequestServiceClassifier (identity ++
        omap normalizeServiceEndpoint
          [mkServiceEndpoint RequestServiceOctavia (sv_ResourceBaseURL (scl_LoadBalancer clients));
           mkServiceEndpoint RequestServiceNeutron (sv_ResourceBaseURL (scl_Network clients))])))) /\
    Forall (fun e => ne_service e = RequestServiceKeystone) identity
  else hc_Transport (scl_HTTPClient clients) = Some (rateLimitedRoundTripper DefaultTransport).

Lemma observedEndpoints_spec provider loadBalancer network :
  exists identity,
    observedEndpoints provider loadBalancer network = mkRequestServiceClassifier (identity ++
      omap normalizeServiceEndpoint
        [mkServiceEndpoint RequestServiceOctavia (sv_ResourceBaseURL loadBalancer);
         mkServiceEndpoint RequestServiceNeutron (sv_ResourceBaseURL network)]) /\
    Forall (fun e => ne_service e = RequestServiceKeystone) identity.
Proof.
  exists (omap normalizeServiceEndpoint [mkServiceEndpoint RequestServiceKeystone (pv_IdentityEndpoint provider);
    mkServiceEndpoint RequestServiceKeystone (pv_IdentityBase provider)]).
  unfold observedEndpoints, newRequestServiceClassifier. split; [by rewrite <- omap_app|].
  apply Forall_forall. intros e (endpoint & Hs & Hn)%list_elem_of_omap. unfold normalizeServiceEndpoint in Hn.
  destruct (ParseURL _) as [u|]; [|done]. destruct (_ || _); [done|]. injection Hn as <-. cbn.
  by apply elem_of_cons in Hs as [-> | ->%list_elem_of_singleton].
Qed.

(** C26. Clients exist only with safe settings: TLS verification is off exactly
    when the operator allows it, whatever clouds.yaml says; the request rate and
    burst are the configured ones, finite and positive, and every request passes
    the limiter; with an observer each request that passes is observed, under
    Keystone or under the endpoints of the two clients; the Octavia client asks
    for a microversion major.minor, as integers, from 2.5 on, which is where
    tags start; and the project is known. *)
Theorem service_clients_are_safe cfg clients :
  NewServiceClients cfg = Ok clients ->
  insecure (scl_HTTPClient clients) = cl_AllowInsecure cfg /\
  sharedTransport cfg clients /\
  hc_QPS (scl_HTTPClient clients) = cl_APIQPS cfg /\ (exists m e, cl_APIQPS cfg = Finite m e /\ (0 < m)%Z) /\
  hc_Burst (scl_HTTPClient clients) = cl_APIBurst cfg /\ (0 < cl_APIBurst cfg)%Z /\
  hasTags (sv_Microversion (scl_LoadBalancer clients)) /\ scl_ProjectID clients <> "".
Proof.
  unfold NewServiceClients, newServiceClients.
  destruct (prepareClient cfg) as [[[auth endpoints] client]|e] eqn:Hp; [cbn [rbind]|done].
  apply prepareClient_safe in Hp as (Hi & Ht & Hv & Hq & Hb).
  destruct (NewProviderClient auth client) as [provider|e] eqn:Hn; [|done]. apply provider_http_client in Hn.
  destruct (authenticatedProjectID provider auth) as [projectID|e] eqn:Ha; [cbn [rbind]|done].
  apply authenticatedProjectID_nonempty in Ha.
  destruct (NewLoadBalancerV2 provider endpoints) as [lb|e]; [|done].
  destruct (NewNetworkV2 provider endpoints) as [network|e]; [|done]. intros [= <-].
  unfold ValidateClientConfig in Hv. destruct (ValidateMicroversion (cl_Microversion cfg)) as [[]|e] eqn:Hm; [cbn [rbind] in Hv|done].
  destruct (negb (float_le0 _ || _ || _)) eqn:Hf; [|done]. destruct (negb (cl_APIBurst cfg <=? 0)%Z) eqn:Hburst; [|done].
  assert (exists m e, cl_APIQPS cfg = Finite m e /\ (0 < m)%Z) as Hfin.
  { destruct (cl_APIQPS cfg) as [m e|neg|]; cbn in Hf; [|by destruct neg|done]. exists m, e. split; [done|]. lia. }
  assert (0 < cl_APIBurst cfg)%Z by lia. rewrite <- Hn in *.
  apply ValidateMicroversion_ok in Hm.
  set (lb' := mkServiceClient (sv_ResourceBaseURL lb) (cl_Microversion cfg)).
  destruct (observedEndpoints_spec provider lb' network) as (identity & He & Hk).
  unfold insecure, sharedTransport in *. cbn [scl_HTTPClient scl_LoadBalancer scl_Network scl_ProjectID sv_Microversion].
  destruct (cl_RequestObserver cfg); cbn [hc_Transport hc_TLS hc_QPS hc_Burst];
    (split; [done|]; split; [|by split_and!]); rewrite Ht; [|done].
  exists identity. split; [|done]. cbn [installRequestObserver]. by rewrite He.
Qed.
End safe.
