(* ===== verification/CommandLine.v ===== *)
(** * Command lines

    Models how the three programs read flags and the environment:
    [probe/config.go], [cmd/openstack-gateway-audit/options.go] and the first part of
    [cmd/openstack-gateway-controller/main.go].  The packages [flag] and [pflag] are
    one class: given the flags with their defaults and the arguments, they return
    the value of each flag, whether it was set, and the rest of the arguments.
    [time.ParseDuration] and [strconv.ParseFloat] are another. *)
From stdpp Require Import base list strings.
From Stdlib Require Import ZArith NArith Lia Ascii.
From S2P Require Import Prelude GoStrings Cloud ApiErrors Metadata MetadataFacts Outcomes Binding KubeClient OwnershipAudit ProbeState RequestObserver RequestMetrics Clients.

Set Default Goal Selector "!".

(** ** Flags *)

Inductive flagValue := FString (s : string) | FInt (n : Z) | FBool (b : bool) | FDuration (d : Z) | FFloat (x : float64).
Definition stringOf (v : flagValue) : string := match v with FString s => s | _ => "" end.
Definition intOf (v : flagValue) : Z := match v with FInt n => n | _ => 0 end.
Definition boolOf (v : flagValue) : bool := match v with FBool b => b | _ => false end.
Definition durationOf (v : flagValue) : Z := match v with FDuration d => d | _ => 0 end.
Definition floatOf (v : flagValue) : float64 := match v with FFloat x => x | _ => NotANumber end.

Record parsedFlags := mkParsedFlags { pf_value : string -> flagValue; pf_set : string -> bool; pf_args : list string }.
Class FlagPackage := {
  ParseFlags : list (string * flagValue) -> list string -> outcome_of parsedFlags;
  IsHelp : error -> bool    (* pflag.ErrHelp *)
}.
(** A flag that was not set has its default. *)
Class FlagPackageLaws `{FlagPackage} : Prop := {
  unset_is_default flags args parsed name v :
    ParseFlags flags args = Ok parsed -> (name, v) ∈ flags -> pf_set parsed name = false -> pf_value parsed name = v
}.
Class GoParsers := {
  ParseDuration : string -> outcome_of Z;
  ParseFloat : string -> outcome_of float64
}.

(** [strconv.ParseBool]. *)
Definition ParseBool (s : string) : option bool :=
  if bool_decide (s ∈ ["1"; "t"; "T"; "TRUE"; "true"; "True"]) then Some true
  else if bool_decide (s ∈ ["0"; "f"; "F"; "FALSE"; "false"; "False"]) then Some false
  else None.

(** The error of [strconv.Atoi]. *)
Definition unsigned (value : string) : string :=
  match value with String "-" rest | String "+" rest => rest | _ => value end.
Definition numError (value : string) : error :=
  Errorf "strconv.Atoi: parsing %q: %w" [value]
    (Some (Sentinel (match parseDigits (unsigned value) with Some _ => "value out of range" | None => "invalid syntax" end))).

(** ** probe/config.go *)

Definition defaultStateFile : string := "_artifacts/phase-0/probe-state.json".
Definition defaultReportFile : string := "_artifacts/phase-0/probe-report.json".

Section probe.
Context `{FlagPackage} `{GoParsers} (getenv : string -> string).

Definition probeEnvOr (name fallback : string) : string :=
  let value := TrimSpace (getenv name) in if String.eqb value "" then fallback else value.
(** [envInt], [envBool] and [envDuration] but for the parser. *)
Definition envParsed {A} (parse : string -> option A) (name : string) (fallback : A) : A :=
  let value := TrimSpace (getenv name) in
  if String.eqb value "" then fallback else default fallback (parse value).
Definition probeEnvInt : string -> Z -> Z := envParsed Atoi.
Definition probeEnvBool : string -> bool -> bool := envParsed ParseBool.
Definition probeEnvDuration : string -> Z -> Z :=
  envParsed (fun value => match ParseDuration value with Ok d => Some d | Err _ => None end).

Definition runFlags : list (string * flagValue) :=
  [("region", FString (getenv "OS_REGION_NAME"));
   ("vip-subnet-id", FString (getenv "GATEWAY_OPENSTACK_VIP_SUBNET_ID"));
   ("external-network-id", FString (getenv "GATEWAY_OPENSTACK_EXTERNAL_NETWORK_ID"));
   ("provider", FString (probeEnvOr "GATEWAY_OPENSTACK_PROVIDER" "amphora"));
   ("octavia-microversion", FString (probeEnvOr "GATEWAY_OPENSTACK_OCTAVIA_MICROVERSION" "2.5"));
   ("member-addresses", FString (getenv "GATEWAY_OPENSTACK_MEMBER_ADDRESSES"));
   ("member-port", FInt (probeEnvInt "GATEWAY_OPENSTACK_MEMBER_PORT" 0));
   ("member-subnet-id", FString (getenv "GATEWAY_OPENSTACK_MEMBER_SUBNET_ID"));
   ("listener-port", FInt (probeEnvInt "GATEWAY_OPENSTACK_LISTENER_PORT" 80));
   ("health-path", FString (probeEnvOr "GATEWAY_OPENSTACK_HEALTH_PATH" "/healthz"));
   ("match-path", FString (probeEnvOr "GATEWAY_OPENSTACK_MATCH_PATH" "/"));
   ("request-path", FString (probeEnvOr "GATEWAY_OPENSTACK_REQUEST_PATH" "/"));
   ("host", FString (getenv "GATEWAY_OPENSTACK_HOST"));
   ("cluster-id", FString (getenv "GATEWAY_OPENSTACK_CLUSTER_ID"));
   ("gateway-namespace", FString (probeEnvOr "GATEWAY_OPENSTACK_GATEWAY_NAMESPACE" "phase-0"));
   ("gateway-name", FString (probeEnvOr "GATEWAY_OPENSTACK_GATEWAY_NAME" "octavia-probe"));
   ("gateway-uid", FString (getenv "GATEWAY_OPENSTACK_GATEWAY_UID"));
   ("state-file", FString (probeEnvOr "GATEWAY_OPENSTACK_STATE_FILE" defaultStateFile));
   ("report-file", FString (probeEnvOr "GATEWAY_OPENSTACK_REPORT_FILE" defaultReportFile));
   ("operation-timeout", FDuration (probeEnvDuration "GATEWAY_OPENSTACK_OPERATION_TIMEOUT" (20 * Minute)));
   ("poll-interval", FDuration (probeEnvDuration "GATEWAY_OPENSTACK_POLL_INTERVAL" (5 * Second)));
   ("traffic-timeout", FDuration (probeEnvDuration "GATEWAY_OPENSTACK_TRAFFIC_TIMEOUT" (30 * Second)));
   ("keep-resources", FBool (probeEnvBool "GATEWAY_OPENSTACK_KEEP_RESOURCES" false));
   ("skip-traffic-check", FBool (probeEnvBool "GATEWAY_OPENSTACK_SKIP_TRAFFIC_CHECK" false));
   ("insecure", FBool (probeEnvBool "OS_INSECURE" false))].

Definition runConfig (parsed : parsedFlags) : probeConfig :=
  let s name := stringOf (pf_value parsed name) in
  mkProbeConfig (s "region") (s "vip-subnet-id") (s "external-network-id") (s "provider") (s "octavia-microversion")
    (splitNonEmpty (s "member-addresses")) (intOf (pf_value parsed "member-port")) (s "member-subnet-id")
    (intOf (pf_value parsed "listener-port")) (s "health-path") (s "match-path") (s "request-path") (s "host")
    (s "cluster-id") (s "gateway-namespace") (s "gateway-name") (s "gateway-uid") (s "state-file") (s "report-file")
    (durationOf (pf_value parsed "operation-timeout")) (durationOf (pf_value parsed "poll-interval"))
    (durationOf (pf_value parsed "traffic-timeout")) (boolOf (pf_value parsed "keep-resources"))
    (boolOf (pf_value parsed "skip-traffic-check")) (boolOf (pf_value parsed "insecure")).

(** [order] is the order in which the loops of [Validate] meet their maps. *)
Definition ParseRunFlags (order : list (string * string) -> list (string * string)) (args : list string) : outcome_of probeConfig :=
  match ParseFlags runFlags args with
  | Err e => Err e
  | Ok parsed =>
      guard? bool_decide (pf_args parsed = []) else (Errorf "unexpected positional arguments: %s" [Join (pf_args parsed) " "] None) in
      let cfg := runConfig parsed in
      let? _ := ValidateProbeConfig cfg (order (requiredValues cfg)) (order (pathValues cfg)) in
      Ok cfg
  end.

Definition cleanupFlags : list (string * flagValue) :=
  [("region", FString (getenv "OS_REGION_NAME"));
   ("state-file", FString (probeEnvOr "GATEWAY_OPENSTACK_STATE_FILE" defaultStateFile));
   ("operation-timeout", FDuration (probeEnvDuration "GATEWAY_OPENSTACK_OPERATION_TIMEOUT" (20 * Minute)));
   ("poll-interval", FDuration (probeEnvDuration "GATEWAY_OPENSTACK_POLL_INTERVAL" (5 * Second)));
   ("insecure", FBool (probeEnvBool "OS_INSECURE" false))].

Definition ParseCleanupFlags (args : list string) : outcome_of CleanupConfig :=
  match ParseFlags cleanupFlags args with
  | Err e => Err e
  | Ok parsed =>
      guard? bool_decide (pf_args parsed = []) else (Errorf "unexpected positional arguments: %s" [Join (pf_args parsed) " "] None) in
      let cfg := mkCleanupConfig (stringOf (pf_value parsed "region")) (stringOf (pf_value parsed "state-file"))
        (durationOf (pf_value parsed "operation-timeout")) (durationOf (pf_value parsed "poll-interval"))
        (boolOf (pf_value parsed "insecure")) in
      guard? negb (String.eqb (cc_StateFile cfg) "") else (Errorf "--state-file must not be empty" [] None) in
      guard? (0 <? cc_OperationTimeout cfg)%Z else (Errorf "--operation-timeout must be positive" [] None) in
      guard? (0 <? cc_PollInterval cfg)%Z else (Errorf "--poll-interval must be positive" [] None) in
      Ok cfg
  end.
End probe.

(** ** cmd/openstack-gateway-audit/options.go *)

(** [commandOptions] with the fields that only reach libraries. *)
Record auditOptions := mkAuditOptions {
  ap_controllerName : string; ap_clusterID : string; ap_kubeconfig : string; ap_kubeContext : string;
  ap_openStack : ClientConfig; ap_operationTimeout : Z; ap_failOnFindings : bool
}.

(** [validation.IsDomainPrefixedPath] of Kubernetes: its complaints. *)
Class PathValidation := { IsDomainPrefixedPath : string -> list error }.

Section audit.
Context `{FlagPackage} `{GoParsers} `{PathValidation} (getenv : string -> string).

Definition auditFloat64EnvOr (name : string) (fallback : float64) : outcome_of float64 :=
  let value := getenv name in
  if String.eqb value "" then Ok fallback
  else match ParseFloat value with
       | Err e => Err (newCommandError (name ^^ " must be a number") (Some e))
       | Ok parsed => Ok parsed
       end.
Definition auditIntEnvOr (name : string) (fallback : Z) : outcome_of Z :=
  let value := getenv name in
  if String.eqb value "" then Ok fallback
  else match Atoi value with
       | None => Err (newCommandError (name ^^ " must be an integer") (Some (numError value)))
       | Some parsed => Ok parsed
       end.

Definition auditFlags : list (string * flagValue) :=
  [("controller-name", FString ""); ("cluster-id", FString ""); ("kubeconfig", FString ""); ("context", FString "");
   ("openstack-region", FString ""); ("octavia-microversion", FString "2.5"); ("clouds-yaml", FString "");
   ("openstack-cloud", FString ""); ("insecure", FBool false); ("openstack-api-qps", FFloat DefaultAPIQPS);
   ("openstack-api-burst", FInt DefaultAPIBurst); ("openstack-operation-timeout", FDuration (10 * Minute));
   ("fail-on-findings", FBool false)].

(** The options with what the environment gives for flags that are not set. *)
Definition applyOptionEnvironment (parsed : parsedFlags) : outcome_of auditOptions :=
  let flagOr name variable := if pf_set parsed name then stringOf (pf_value parsed name) else getenv variable in
  let? qps := if pf_set parsed "openstack-api-qps" then Ok (floatOf (pf_value parsed "openstack-api-qps"))
              else auditFloat64EnvOr "GATEWAY_OPENSTACK_API_QPS" DefaultAPIQPS in
  let? burst := if pf_set parsed "openstack-api-burst" then Ok (intOf (pf_value parsed "openstack-api-burst"))
                else auditIntEnvOr "GATEWAY_OPENSTACK_API_BURST" DefaultAPIBurst in
  Ok (mkAuditOptions (flagOr "controller-name" "GATEWAY_OPENSTACK_CONTROLLER_NAME") (flagOr "cluster-id" "GATEWAY_OPENSTACK_CLUSTER_ID")
        (stringOf (pf_value parsed "kubeconfig")) (stringOf (pf_value parsed "context"))
        (mkClientConfig (flagOr "openstack-region" "OS_REGION_NAME") (stringOf (pf_value parsed "octavia-microversion"))
           (flagOr "clouds-yaml" "OS_CLIENT_CONFIG_FILE") (flagOr "openstack-cloud" "OS_CLOUD")
           (boolOf (pf_value parsed "insecure")) qps burst false)
        (durationOf (pf_value parsed "openstack-operation-timeout")) (boolOf (pf_value parsed "fail-on-findings"))).

Definition parseOptions (args : list string) : outcome_of auditOptions :=
  match ParseFlags auditFlags args with
  | Err e => if IsHelp e then Err e else Err (newCommandError "invalid command options" (Some e))
  | Ok parsed =>
      guard? bool_decide (pf_args parsed = []) else (newCommandError "positional arguments are not supported" None) in
      let? options := applyOptionEnvironment parsed in
      guard? (String.length (ap_controllerName options) <=? 253) && bool_decide (length (IsDomainPrefixedPath (ap_controllerName options)) = 0)
      else (newCommandError "controller name must be a domain prefixed path" None) in
      guard? negb (blank (ap_clusterID options)) else (newCommandError "cluster ID must not be empty" None) in
      guard? (0 <? ap_operationTimeout options)%Z
      else (newCommandError "operation timeout for OpenStack must be greater than zero" None) in
      match ValidateClientConfig (ap_openStack options) with
      | Err e => Err (newCommandError "invalid OpenStack client configuration" (Some e))
      | Ok _ => Ok options
      end
  end.

(** The start of [runCommand]. *)
Definition parsedFor (args : list string) : parsedOptions :=
  match parseOptions args with
  | Err e => if IsHelp e then ParsedHelp else ParsedError e
  | Ok o => Parsed (mkCommandOptions (ap_controllerName o) (ap_clusterID o) (ap_operationTimeout o) (ap_failOnFindings o))
  end.
End audit.

(** ** cmd/openstack-gateway-controller/main.go *)

Definition DefaultOpenStackResyncInterval : Z := (10 * Minute)%Z.

Section controller.
Context `{FlagPackage} `{GoParsers} `{GatewayConsts} (getenv : string -> string) (version : string).

Definition envOr (name fallback : string) : string :=
  let value := getenv name in if String.eqb value "" then fallback else value.
Definition durationEnvOr (name : string) (fallback : Z) : outcome_of Z :=
  let value := getenv name in
  if String.eqb value "" then Ok fallback
  else match ParseDuration value with Err e => Err (Errorf "parse %s: %w" [name] (Some e)) | Ok d => Ok d end.
Definition float64EnvOr (name : string) (fallback : float64) : outcome_of float64 :=
  let value := getenv name in
  if String.eqb value "" then Ok fallback
  else match ParseFloat value with Err e => Err (Errorf "parse %s: %w" [name] (Some e)) | Ok x => Ok x end.
Definition intEnvOr (name : string) (fallback : Z) : outcome_of Z :=
  let value := getenv name in
  if String.eqb value "" then Ok fallback
  else match Atoi value with None => Err (Errorf "parse %s: %w" [name] (Some (numError value))) | Some n => Ok n end.

(** The flags of the controller but for those of the logger. *)
Definition controllerFlags (resync : Z) (qps : float64) (burst : Z) : list (string * flagValue) :=
  [("controller-name", FString (envOr "GATEWAY_OPENSTACK_CONTROLLER_NAME" ""));
   ("cluster-id", FString (envOr "GATEWAY_OPENSTACK_CLUSTER_ID" ""));
   ("octavia-provider", FString (envOr "GATEWAY_OPENSTACK_OCTAVIA_PROVIDER" "amphora"));
   ("vip-subnet-id", FString (envOr "GATEWAY_OPENSTACK_VIP_SUBNET_ID" ""));
   ("external-network-id", FString (envOr "GATEWAY_OPENSTACK_EXTERNAL_NETWORK_ID" ""));
   ("member-subnet-id", FString (envOr "GATEWAY_OPENSTACK_MEMBER_SUBNET_ID" ""));
   ("member-mode", FString (envOr "GATEWAY_OPENSTACK_MEMBER_MODE" "NodePort"));
   ("node-address-type", FString (envOr "GATEWAY_OPENSTACK_NODE_ADDRESS_TYPE" "InternalIP"));
   ("health-path", FString (envOr "GATEWAY_OPENSTACK_HEALTH_PATH" "/"));
   ("openstack-region", FString (envOr "OS_REGION_NAME" ""));
   ("octavia-microversion", FString "2.5");
   ("clouds-yaml", FString (envOr "OS_CLIENT_CONFIG_FILE" ""));
   ("openstack-cloud", FString (envOr "OS_CLOUD" ""));
   ("metrics-bind-address", FString ":8080");
   ("health-probe-bind-address", FString ":8081");
   ("leader-elect", FBool true);
   ("insecure", FBool false);
   ("openstack-operation-timeout", FDuration (10 * Minute));
   ("openstack-poll-interval", FDuration (2 * Second));
   ("openstack-resync-interval", FDuration resync);
   ("openstack-api-qps", FFloat qps);
   ("openstack-api-burst", FInt burst)].

(** The start of [run], up to the configurations; [loggerFlags] are the flags
    that the logger binds. *)
Definition controllerConfigs (loggerFlags : list (string * flagValue)) (args : list string) : outcome_of (ClientConfig * Config) :=
  let? resyncDefault := durationEnvOr "GATEWAY_OPENSTACK_RESYNC_INTERVAL" DefaultOpenStackResyncInterval in
  let? apiQPSDefault := float64EnvOr "GATEWAY_OPENSTACK_API_QPS" DefaultAPIQPS in
  let? apiBurstDefault := intEnvOr "GATEWAY_OPENSTACK_API_BURST" DefaultAPIBurst in
  let? parsed := ParseFlags (loggerFlags ++ controllerFlags resyncDefault apiQPSDefault apiBurstDefault) args in
  let s name := stringOf (pf_value parsed name) in
  let client := mkClientConfig (s "openstack-region") (s "octavia-microversion") (s "clouds-yaml") (s "openstack-cloud")
    (boolOf (pf_value parsed "insecure")) (floatOf (pf_value parsed "openstack-api-qps"))
    (intOf (pf_value parsed "openstack-api-burst")) false in
  match ValidateClientConfig client with
  | Err e => Err (Errorf "invalid OpenStack client configuration: %w" [] (Some e))
  | Ok _ =>
      let config := mkConfig (s "controller-name") version "" (s "cluster-id") (s "octavia-provider") (s "vip-subnet-id")
        (s "external-network-id") (s "member-subnet-id") (s "member-mode") (s "node-address-type") (s "health-path")
        (durationOf (pf_value parsed "openstack-resync-interval")) in
      match ValidateConfig config with
      | Err e => Err (Errorf "invalid controller configuration: %w" [] (Some e))
      | Ok _ => Ok (client, config)
      end
  end.

(** [requireGatewayAPIs] with the answer of the discovery client. *)
Definition requireGatewayAPIs (client : outcome_of unit) (resources : outcome_of (list string)) : outcome_of unit :=
  match client with
  | Err e => Err (Errorf "create Kubernetes discovery client: %w" [] (Some e))
  | Ok _ =>
      match resources with
      | Err e =>
          Err (Errorf "required Gateway API v1 CRDs are unavailable; install Gateway API Standard %s before starting the controller: %w"
                 [BundleVersion] (Some e))
      | Ok available =>
          forM_ (fun required =>
            guard? bool_decide (required ∈ available)
            else (Errorf "required Gateway API resource %s is missing from %s; install Gateway API Standard %s"
                    [required; "gateway.networking.k8s.io/v1"; BundleVersion] None) in
            Ok tt) ["gatewayclasses"; "gateways"; "httproutes"]
      end
  end.
End controller.

(** ** What accepted command lines mean *)

Lemma ValidateProbeConfig_ok cfg values paths :
  ValidateProbeConfig cfg values paths = Ok tt ->
  Forall (fun entry => blank (snd entry) = false) values /\ Forall (fun entry => HasPrefix (snd entry) "/" = true) paths /\
  (1 <= pc_MemberPort cfg <= 65535 /\ 1 <= pc_ListenerPort cfg <= 65535)%Z /\
  (0 < pc_OperationTimeout cfg /\ 0 < pc_PollInterval cfg /\ 0 < pc_TrafficTimeout cfg)%Z /\
  Clean (pc_StateFile cfg) <> Clean (pc_ReportFile cfg).
Proof.
  unfold ValidateProbeConfig. case_bool_decide as Hm; [|done].
  destruct ((1 <=? pc_MemberPort cfg)%Z && _) eqn:Hp; [|done]. destruct ((1 <=? pc_ListenerPort cfg)%Z && _) eqn:Hl; [|done].
  destruct (forM_ _ paths) as [[]|e] eqn:Hf; [cbn [rbind]|done].
  destruct ((0 <? pc_OperationTimeout cfg)%Z && _ && _) eqn:Ht; [|done].
  destruct (String.eqb_spec (Clean (pc_StateFile cfg)) (Clean (pc_ReportFile cfg))) as [_|Hc]; [done|]. intros _.
  split; [|split; [|split; [lia|split; [lia|done]]]].
  - clear -Hm. induction values as [|v values IH]; [done|]. cbn in Hm. destruct (blank v.2) eqn:Hb; [done|]. constructor; auto.
  - clear -Hf. induction paths as [|v paths IH]; [done|]. cbn in Hf.
    destruct (HasPrefix v.2 "/") eqn:Hv; [|done]. constructor; auto.
Qed.

Lemma splitNonEmpty_nonempty value : Forall (fun item => item <> "") (splitNonEmpty value).
Proof.
  unfold splitNonEmpty. apply Forall_forall. intros item Hi. rewrite list_elem_of_In, filter_In in Hi. destruct Hi as [_ Hi].
  by apply negb_true_iff, String.eqb_neq in Hi.
Qed.

Lemma blank_false s : blank s = false -> s <> "".
Proof. by intros Hb ->. Qed.

(** What the command line and the environment gave and the validation accepted
    can be used: the tags of every role can be built, there are members, ports
    are ports, paths are absolute, timeouts are positive and the paths of the
    state and the report are not the same text once cleaned. *)
Theorem accepted_probe_configs_are_usable `{FlagPackage} `{GoParsers} getenv order args cfg :
  (forall l, order l ≡ₚ l) -> ParseRunFlags getenv order args = Ok cfg ->
  (forall role, blank role = false -> exists tags, Tags (NewProbeIdentity cfg) role = Ok tags) /\
  (pc_MemberAddresses cfg <> [] /\ Forall (fun address => address <> "") (pc_MemberAddresses cfg)) /\
  (1 <= pc_MemberPort cfg <= 65535 /\ 1 <= pc_ListenerPort cfg <= 65535)%Z /\
  (HasPrefix (pc_HealthPath cfg) "/" = true /\ HasPrefix (pc_MatchPath cfg) "/" = true /\ HasPrefix (pc_RequestPath cfg) "/" = true) /\
  (0 < pc_OperationTimeout cfg /\ 0 < pc_PollInterval cfg /\ 0 < pc_TrafficTimeout cfg)%Z /\
  Clean (pc_StateFile cfg) <> Clean (pc_ReportFile cfg).
Proof.
  intros Horder. unfold ParseRunFlags. destruct (ParseFlags _ args) as [parsed|e]; [|done]. case_bool_decide; [|done].
  destruct (ValidateProbeConfig _ _ _) as [[]|e] eqn:Hv; [cbn [rbind]|done]. intros [= <-].
  apply ValidateProbeConfig_ok in Hv as (Hr & Hp & Hports & Htimes & Hfiles).
  rewrite Horder in Hr. rewrite Horder in Hp. set (cfg := runConfig parsed) in *. unfold requiredValues, pathValues in *.
  rewrite !Forall_cons in Hr. rewrite !Forall_cons in Hp. cbn [snd] in Hr, Hp.
  destruct Hr as (_ & Hm & Hc & Hn & Hg & Hu & _), Hp as (Hh & Ht & Hq & _).
  split; [|split; [split|split; [done|split; [done|split; [done|done]]]]].
  - intros role Hrole. unfold Tags, NewIdentity.
    assert (ValidateGatewayIdentity (cloudIdentity (NewProbeIdentity cfg)) = Ok tt) as ->.
    { apply ValidateGatewayIdentity_ok. cbn. split_and!; try done; by apply blank_false. }
    cbn [rbind]. unfold GatewayTags. rewrite identityTags_eq, Hrole. eauto.
  - intros He. by rewrite He in Hm.
  - apply splitNonEmpty_nonempty.
Qed.

(** The options of the audit that are accepted are valid, and a flag that is set
    wins over the environment. *)
Theorem accepted_audit_options_are_valid `{FlagPackage} `{GoParsers} `{PathValidation} getenv args options :
  parseOptions getenv args = Ok options ->
  ValidateClientConfig (ap_openStack options) = Ok tt /\ blank (ap_clusterID options) = false /\ (0 < ap_operationTimeout options)%Z /\
  exists parsed, ParseFlags auditFlags args = Ok parsed /\ pf_args parsed = [] /\
    ap_controllerName options =
      (if pf_set parsed "controller-name" then stringOf (pf_value parsed "controller-name")
       else getenv "GATEWAY_OPENSTACK_CONTROLLER_NAME") /\
    ap_clusterID options =
      (if pf_set parsed "cluster-id" then stringOf (pf_value parsed "cluster-id") else getenv "GATEWAY_OPENSTACK_CLUSTER_ID").
Proof.
  unfold parseOptions. destruct (ParseFlags auditFlags args) as [parsed|e] eqn:Hp; [|by destruct (IsHelp e)].
  case_bool_decide as Ha; [|done]. destruct (applyOptionEnvironment getenv parsed) as [o|e] eqn:Ho; [cbn [rbind]|done].
  destruct (_ && _); [|done]. destruct (blank (ap_clusterID o)) eqn:Hb; [done|]. cbn [negb].
  destruct (0 <? ap_operationTimeout o)%Z eqn:Ht; [|done].
  destruct (ValidateClientConfig (ap_openStack o)) as [[]|e] eqn:Hc; [|done]. intros [= <-].
  split; [done|]. split; [done|]. split; [lia|]. exists parsed. split; [done|]. split; [done|].
  unfold applyOptionEnvironment in Ho.
  destruct (if pf_set parsed "openstack-api-qps" then _ else _) as [qps|e]; [cbn [rbind] in Ho|done].
  destruct (if pf_set parsed "openstack-api-burst" then _ else _) as [burst|e]; [cbn [rbind] in Ho|done].
  by injection Ho as <-.
Qed.
