(* ===== verification/Scenario.v ===== *)
(** * A sample deployment

    A small cloud that answers the requests of OpenStack.v from its own state,
    and a Gateway with one HTTPRoute in it.  It is not a model of OpenStack: the
    theorems about the provider hold for any responses.  It makes executions of
    the provider concrete, from the first creation to the last deletion, and
    shows that the hypotheses of those theorems can hold. *)
From stdpp Require Import base list strings.
From Stdlib Require Import ZArith Lia.
From S2P Require Import Prelude GoStrings Cloud ApiErrors Metadata OpenStack ProgramLogic GatewayGraph RoutePlan RouteGraph.

Set Default Goal Selector "!".

(** ** The cloud *)

Record cloud := mkCloud {
  k_lbs : list LoadBalancer; k_listeners : list Listener; k_pools : list Pool;
  k_members : list PoolMember; k_monitors : list Monitor; k_policies : list L7Policy;
  k_rules : list (string * Rule); k_fips : list FloatingIP; k_next : nat }.

Definition emptyCloud : cloud := mkCloud [] [] [] [] [] [] [] [] 0.

Definition project : string := "project-a".

(** The ID of the next resource. *)
Definition freshID (c : cloud) : string := "id" ^^ decimal_N (N.of_nat (k_next c)).

Definition hasTags (wanted tags : list string) : bool := forallb (fun t => bool_decide (t ∈ tags)) wanted.
Definition matchesParent (parent : string) (parents : list string) : bool :=
  String.eqb parent "" || bool_decide (parent ∈ parents).
Definition isUp (o : option bool) : bool := default true o.

Definition notFound : error :=
  ForeignError (mkForeign "404" false false false None false false false None None false false) None.
#[export] Instance sampleGophercloud : Gophercloud :=
  {| ResponseCodeIs e code := match e with ForeignError f _ => String.eqb (f_text f) "404" && (code =? 404)%Z | _ => false end |}.

Definition setLBs c l := mkCloud l (k_listeners c) (k_pools c) (k_members c) (k_monitors c) (k_policies c) (k_rules c) (k_fips c) (S (k_next c)).
Definition setListeners c l := mkCloud (k_lbs c) l (k_pools c) (k_members c) (k_monitors c) (k_policies c) (k_rules c) (k_fips c) (S (k_next c)).
Definition setPools c l := mkCloud (k_lbs c) (k_listeners c) l (k_members c) (k_monitors c) (k_policies c) (k_rules c) (k_fips c) (S (k_next c)).
Definition setMembers c l := mkCloud (k_lbs c) (k_listeners c) (k_pools c) l (k_monitors c) (k_policies c) (k_rules c) (k_fips c) (S (k_next c)).
Definition setMonitors c l := mkCloud (k_lbs c) (k_listeners c) (k_pools c) (k_members c) l (k_policies c) (k_rules c) (k_fips c) (S (k_next c)).
Definition setPolicies c l := mkCloud (k_lbs c) (k_listeners c) (k_pools c) (k_members c) (k_monitors c) l (k_rules c) (k_fips c) (S (k_next c)).
Definition setRules c l := mkCloud (k_lbs c) (k_listeners c) (k_pools c) (k_members c) (k_monitors c) (k_policies c) l (k_fips c) (S (k_next c)).
Definition setFIPs c l := mkCloud (k_lbs c) (k_listeners c) (k_pools c) (k_members c) (k_monitors c) (k_policies c) (k_rules c) l (S (k_next c)).

Definition without {A} (id : A -> string) (gone : string) (l : list A) : list A :=
  List.filter (fun x => negb (String.eqb (id x) gone)) l.

Definition upPolicy (opts : UpdatePolicyOpts) (x : L7Policy) : L7Policy :=
  mkL7Policy (lp_ID x) (lp_ProjectID x) (lp_Tags x) (lp_ListenerID x)
    (if (ulp_Position opts =? 0)%Z then lp_Position x else ulp_Position opts)
    (if String.eqb (ulp_Action opts) "" then lp_Action x else ulp_Action opts)
    (default (lp_RedirectPoolID x) (ulp_RedirectPoolID opts)) "ACTIVE"
    (default (lp_AdminStateUp x) (ulp_AdminStateUp opts)).

Definition onID {A} (id : A -> string) (key : string) (f : A -> A) (l : list A) : list A :=
  (fun x => if String.eqb (id x) key then f x else x) <$> l.

(** Requests that the sample runs never make are refused. *)
Definition refused {A} : outcome_of A := Err (Errorf "refused" [] None).

(** The answer to a request and the cloud after it. *)
Definition handle (r : request) (c : cloud) : outcome_of (response r) * cloud :=
  match r return outcome_of (response r) * cloud with
  | ReqListLoadBalancers o => (Ok (Ok (List.filter (fun x => hasTags (lo_Tags o) (lb_Tags x)) (k_lbs c))), c)
  | ReqGetLoadBalancer id =>
      (match List.find (fun x => String.eqb (lb_ID x) id) (k_lbs c) with Some x => Ok x | None => Err notFound end, c)
  | ReqCreateLoadBalancer o =>
      let x := mkLoadBalancer (freshID c) project (clb_Tags o) (clb_VipSubnetID o) "port0" "10.0.0.9"
                 (clb_Provider o) "ACTIVE" (isUp (clb_AdminStateUp o)) in
      (Ok x, setLBs c (k_lbs c ++ [x]))
  | ReqDeleteLoadBalancer id => (Ok tt, setLBs c (without lb_ID id (k_lbs c)))
  | ReqListListeners o => (Ok (Ok (List.filter (fun x => matchesParent (lo_ParentID o) (ls_Loadbalancers x)) (k_listeners c))), c)
  | ReqCreateListener o =>
      let x := mkListener (freshID c) project (cls_Tags o) [cls_LoadbalancerID o] (cls_Protocol o)
                 (cls_ProtocolPort o) "ACTIVE" (isUp (cls_AdminStateUp o)) in
      (Ok x, setListeners c (k_listeners c ++ [x]))
  | ReqDeleteListener id => (Ok tt, setListeners c (without ls_ID id (k_listeners c)))
  | ReqListPools o => (Ok (Ok (List.filter (fun x => matchesParent (lo_ParentID o) (pl_Loadbalancers x)) (k_pools c))), c)
  | ReqCreatePool o =>
      let x := mkPool (freshID c) project (cpl_Tags o) [cpl_LoadbalancerID o] (cpl_Protocol o) (cpl_LBMethod o)
                 "ACTIVE" (isUp (cpl_AdminStateUp o)) in
      (Ok x, setPools c (k_pools c ++ [x]))
  | ReqDeletePool id => (Ok tt, setPools c (without pl_ID id (k_pools c)))
  | ReqListMembers pool o => (Ok (Ok (List.filter (fun x => String.eqb (mb_PoolID x) pool) (k_members c))), c)
  | ReqCreateMember pool o =>
      let x := mkPoolMember (freshID c) project (cmb_Tags o) pool (cmb_Address o) (cmb_ProtocolPort o)
                 (cmb_SubnetID o) "ACTIVE" (isUp (cmb_AdminStateUp o)) in
      (Ok x, setMembers c (k_members c ++ [x]))
  | ReqDeleteMember pool id => (Ok tt, setMembers c (without mb_ID id (k_members c)))
  | ReqListMonitors o => (Ok (Ok (List.filter (fun x => matchesParent (lo_ParentID o) (mn_Pools x)) (k_monitors c))), c)
  | ReqCreateMonitor o =>
      let x := mkMonitor (freshID c) project (cmn_Tags o) [cmn_PoolID o] (cmn_Type o) (cmn_Delay o)
                 (cmn_Timeout o) (cmn_MaxRetries o) (cmn_MaxRetriesDown o) (cmn_URLPath o)
                 (cmn_HTTPMethod o) (cmn_ExpectedCodes o) "ACTIVE" (isUp (cmn_AdminStateUp o)) in
      (Ok x, setMonitors c (k_monitors c ++ [x]))
  | ReqDeleteMonitor id => (Ok tt, setMonitors c (without mn_ID id (k_monitors c)))
  | ReqListPolicies o => (Ok (Ok (List.filter (fun x => matchesParent (lo_ParentID o) [lp_ListenerID x]) (k_policies c))), c)
  | ReqCreatePolicy o =>
      let x := mkL7Policy (freshID c) project (clp_Tags o) (clp_ListenerID o) (clp_Position o) (clp_Action o)
                 (clp_RedirectPoolID o) "ACTIVE" (isUp (clp_AdminStateUp o)) in
      (Ok x, setPolicies c (k_policies c ++ [x]))
  | ReqUpdatePolicy id o =>
      (match List.find (fun x => String.eqb (lp_ID x) id) (k_policies c) with
       | Some x => Ok (upPolicy o x) | None => Err notFound end,
       setPolicies c (onID lp_ID id (upPolicy o) (k_policies c)))
  | ReqDeletePolicy id => (Ok tt, setPolicies c (without lp_ID id (k_policies c)))
  | ReqListRules policy o => (Ok (Ok (snd <$> List.filter (fun x => String.eqb (fst x) policy) (k_rules c))), c)
  | ReqCreateRule policy o =>
      let x := mkRule (freshID c) project (clr_Tags o) (clr_RuleType o) (clr_CompareType o) (clr_Value o)
                 false "ACTIVE" (isUp (clr_AdminStateUp o)) in
      (Ok x, setRules c (k_rules c ++ [(policy, x)]))
  | ReqDeleteRule policy id => (Ok tt, setRules c (without (fun x => lr_ID (snd x)) id (k_rules c)))
  | ReqListFloatingIPs o => (Ok (Ok (List.filter (fun x => matchesParent (lo_ParentID o) [fip_PortID x]) (k_fips c))), c)
  | ReqCreateFloatingIP o =>
      let x := mkFloatingIP (freshID c) project project (cfip_Description o) (cfip_PortID o)
                 (cfip_FloatingNetworkID o) "203.0.113.7" in
      (Ok x, setFIPs c (k_fips c ++ [x]))
  | ReqDeleteFloatingIP id => (Ok tt, setFIPs c (without fip_ID id (k_fips c)))
  | ReqUpdateLoadBalancer _ _ | ReqUpdateListener _ _ | ReqUpdatePool _ _ | ReqUpdateMember _ _ _
  | ReqUpdateMonitor _ _ | ReqUpdateRule _ _ _ | ReqKube _ | ReqProbe _ => (refused, c)
  end.

(** ** Runs *)

Definition resultOf {A} (m : prog A) (c : cloud) : A := fst (fst (run handle m c)).
Definition cloudAfter {A} (m : prog A) (c : cloud) : cloud := snd (fst (run handle m c)).
Definition traceOf {A} (m : prog A) (c : cloud) : list event := snd (run handle m c).

Lemma exec_run {A} (m : prog A) c : exec m (traceOf m c) (resultOf m c).
Proof.
  unfold traceOf, resultOf. destruct (run handle m c) as [[a c'] tr] eqn:E. simpl. by eapply run_exec.
Qed.

(** Calls [m] again and again, as the reconcilers do. *)
Fixpoint repeatRun {A} (n : nat) (m : prog A) (c : cloud) : cloud :=
  match n with 0 => c | S n' => repeatRun n' m (cloudAfter m c) end.

(** ** The Gateway and its route *)

Definition gatewayID : Identity :=
  mkIdentity project "cluster-1" "example.com/gateway" "v1" "infra" "web" "uid-1" "" "" "".
Definition routeID : Identity :=
  mkIdentity project "cluster-1" "example.com/gateway" "v1" "infra" "web" "uid-1" "infra" "shop" "uid-2".
Definition provider : Provider := NewProvider project 0 0.
Definition gatewaySpec : GatewaySpec :=
  mkGatewaySpec gatewayID "amphora" "vip-subnet" "public" "http" 80.
Definition routeSpec : RouteSpec :=
  mkRouteSpec routeID zeroGatewayState (mkGatewayRequirements "amphora" "vip-subnet" "public" 80)
    "node-subnet" "/healthz" "shop.example.com" PathMatchPrefix "/cart/" [mkMember "10.1.0.5" 30080].

Definition ensureG := EnsureGateway provider gatewaySpec.
Definition ensureR := EnsureRoute provider routeSpec.
Definition deleteR := DeleteRoute provider routeID.
Definition deleteG := DeleteGateway provider gatewayID.

(** Load balancer, Floating IP and listener; then pool, member, monitor, two
    policies with two rules each and their activation. *)
Definition gatewayCloud : cloud := Eval vm_compute in repeatRun 3 ensureG emptyCloud.
Definition routeCloud : cloud := Eval vm_compute in repeatRun 11 ensureR gatewayCloud.
(** The same before the first policy is activated. *)
Definition inactiveCloud : cloud := Eval vm_compute in repeatRun 9 ensureR gatewayCloud.

Definition readyGateway (r : outcome_of GatewayResult) : bool :=
  match r with Ok g => negb (isProgressing (g_Outcome g)) | Err _ => false end.
Definition readyRoute (r : outcome_of RouteResult) : bool :=
  match r with Ok g => negb (isProgressing (r_Outcome g)) | Err _ => false end.
Definition readyOutcome (r : outcome_of Outcome) : bool :=
  match r with Ok o => negb (isProgressing o) | Err _ => false end.
