(* ===== verification/Deployment.v ===== *)
(** * A sample cluster

    A small API server in front of the cloud of Scenario.v: it answers from its
    own objects and stores what is patched.  As the cloud, it is not a model of
    Kubernetes; it makes executions of the reconcilers concrete. *)
From stdpp Require Import base list strings gmap.
From Stdlib Require Import ZArith Lia.
From S2P Require Import Prelude GoStrings Cloud ApiErrors Kube KubeObjects References Metadata OpenStack ProgramLogic GatewayGraph RoutePlan RouteGraph Outcomes Coordinator Binding Indexes KubeClient ReconcileLogic OpenStackProvider GatewayModel GatewayReconciler RouteModel RouteStatus RouteReconciler GatewayClassReconciler Scenario.
Import Kube.Reference.

Set Default Goal Selector "!".

(** ** The API server *)

#[export] Instance sampleKubeErrors : KubeErrors :=
  {| IsNotFound e := match e with ForeignError f _ => String.eqb (f_text f) "404" | _ => false end;
     IsConflict e := match e with ForeignError f _ => String.eqb (f_text f) "409" | _ => false end;
     NewConflict _ _ e := e;
     IgnoreNotFound e := match e with ForeignError f _ => if String.eqb (f_text f) "404" then None else Some e | _ => Some e end;
     retrySteps := 4 |}.
#[export] Instance sampleTexts : ForeignTexts := {| reauthenticationText _ := "reauthentication failed" |}.
#[export] Instance sampleConsts : GatewayConsts :=
  {| BundleVersionAnnotation := "gateway.networking.k8s.io/bundle-version"; BundleVersion := "v1.4.0" |}.

Record cluster := mkCluster {
  cl_gateways : list Gateway; cl_classes : list GatewayClass; cl_routes : list HTTPRoute; cl_services : list Service;
  cl_slices : list EndpointSlice; cl_nodes : list Node; cl_definitions : list ObjectMeta; cl_cloud : cloud }.

Definition setGateways c l := mkCluster l (cl_classes c) (cl_routes c) (cl_services c) (cl_slices c) (cl_nodes c) (cl_definitions c) (cl_cloud c).
Definition setClasses c l := mkCluster (cl_gateways c) l (cl_routes c) (cl_services c) (cl_slices c) (cl_nodes c) (cl_definitions c) (cl_cloud c).
Definition setRoutes c l := mkCluster (cl_gateways c) (cl_classes c) l (cl_services c) (cl_slices c) (cl_nodes c) (cl_definitions c) (cl_cloud c).
Definition setCloud c k := mkCluster (cl_gateways c) (cl_classes c) (cl_routes c) (cl_services c) (cl_slices c) (cl_nodes c) (cl_definitions c) k.

Definition sampleConfig : Config :=
  mkConfig "example.com/gateway" "v1" project "cluster-1" "amphora" "vip-subnet" "public" "node-subnet"
    "NodePort" "InternalIP" "/healthz" (10 * Minute).

Definition found {A} (o : option A) : outcome_of A := match o with Some x => Ok x | None => Err notFound end.
Definition hasKey (key : NamespacedName) (m : ObjectMeta) : bool := bool_decide (ObjectKey m = key).
(** The object with the name of [target] becomes [target]. *)
Definition stored {A} (meta : A -> ObjectMeta) (target : A) (l : list A) : list A :=
  (fun x => if hasKey (ObjectKey (meta target)) (meta x) then target else x) <$> l.

Definition handleKube (r : kubeRequest) (c : cluster) : outcome_of (kubeResponse r) * cluster :=
  match r return outcome_of (kubeResponse r) * cluster with
  | KGetGateway _ key => (found (List.find (fun g => hasKey key (gw_Meta g)) (cl_gateways c)), c)
  | KGetGatewayClass _ name => (found (List.find (fun g => String.eqb (om_Name (gc_Meta g)) name) (cl_classes c)), c)
  | KGetHTTPRoute _ key => (found (List.find (fun g => hasKey key (hr_Meta g)) (cl_routes c)), c)
  | KGetService _ key => (found (List.find (fun g => hasKey key (sv_Meta g)) (cl_services c)), c)
  | KListEndpointSlices _ ns name =>
      (Ok (List.filter (fun s => String.eqb (es_Namespace s) ns && String.eqb (es_ServiceName s) name) (cl_slices c)), c)
  | KListEndpointSlicesByService value => (Ok (List.filter (fun s => bool_decide (value ∈ endpointSliceIndex s)) (cl_slices c)), c)
  | KListNodes _ => (Ok (cl_nodes c), c)
  | KListHTTPRoutes _ ns index =>
      let inNamespace := match ns with
                         | Some n => List.filter (fun x => String.eqb (om_Namespace (hr_Meta x)) n) (cl_routes c)
                         | None => cl_routes c
                         end in
      (Ok (match index with Some (field, value) => indexedRoutes sampleConfig field value inNamespace | None => inNamespace end), c)
  | KListGateways (_, value) => (Ok (List.filter (fun g => bool_decide (value ∈ gatewayIndex g)) (cl_gateways c)), c)
  | KListAllGateways _ => (Ok (cl_gateways c), c)
  | KListGatewayClasses (_, value) => (Ok (List.filter (fun g => bool_decide (value ∈ gatewayClassIndex g)) (cl_classes c)), c)
  | KListCustomResourceDefinitions _ => (Ok (cl_definitions c), c)
  | KPatchGateway _ target | KPatchGatewayStatus _ target => (Ok target, setGateways c (stored gw_Meta target (cl_gateways c)))
  | KPatchHTTPRoute _ target | KPatchHTTPRouteStatus _ target => (Ok target, setRoutes c (stored hr_Meta target (cl_routes c)))
  | KPatchGatewayClass _ target | KPatchGatewayClassStatus _ target => (Ok target, setClasses c (stored gc_Meta target (cl_classes c)))
  | KAcquireGraph _ | KReleaseGraph _ => (Ok tt, c)
  end.

Definition handleAll (r : request) (c : cluster) : outcome_of (response r) * cluster :=
  match r return outcome_of (response r) * cluster with
  | ReqKube k => handleKube k c
  | q => let x := handle q (cl_cloud c) in (fst x, setCloud c (snd x))
  end.

(** ** Runs *)

Definition clusterResult {A} (m : prog A) (c : cluster) : A := fst (fst (run handleAll m c)).
Definition clusterAfter {A} (m : prog A) (c : cluster) : cluster := snd (fst (run handleAll m c)).
Definition clusterTrace {A} (m : prog A) (c : cluster) : list event := snd (run handleAll m c).

Lemma exec_clusterRun {A} (m : prog A) c : exec m (clusterTrace m c) (clusterResult m c).
Proof.
  unfold clusterTrace, clusterResult. destruct (run handleAll m c) as [[a c'] tr] eqn:E. simpl. by eapply run_exec.
Qed.

Fixpoint repeatCluster {A} (n : nat) (m : prog A) (c : cluster) : cluster :=
  match n with 0 => c | S n' => repeatCluster n' m (clusterAfter m c) end.

(** The position of the first event with a request in [P]. *)
Fixpoint indexOf (P : request -> bool) (tr : list event) : nat :=
  match tr with [] => 0 | e :: tr' => if P (ev_req e) then 0 else S (indexOf P tr') end.

(** ** The objects *)

Definition crd (name : string) : ObjectMeta :=
  mkObjectMeta "" name name 1 "1" None (Some {[BundleVersionAnnotation := BundleVersion]}) [] 0.
Definition sampleClass : GatewayClass :=
  mkGatewayClass (mkObjectMeta "" "octavia" "uid-c" 1 "1" None None [] 0) "example.com/gateway" false [] [].
Definition sampleListener : GatewayListener := mkGatewayListener "http" 80 "HTTP" false None None.
Definition sampleGatewayObject : Gateway :=
  mkGateway (mkObjectMeta "infra" "web" "uid-1" 1 "7" None None [] 0) "octavia" 0 false false false [sampleListener]
    (mkGatewayStatus [] [] []).
Definition sampleRouteObject (name uid : string) (created : Z) : HTTPRoute :=
  mkHTTPRoute (mkObjectMeta "infra" name uid 3 "9" None None [] created)
    [mkParentReference None None None "web" None None] ["shop.example.com"]
    [mkHTTPRouteRule None [mkHTTPRouteMatch (Some (mkHTTPPathMatch (Some "PathPrefix") (Some "/cart/"))) 0 0 false] 0
       [mkHTTPBackendRef None None "shop" None (Some 80%Z) None 0] false false false] None.
Definition sampleService : Service :=
  mkService (mkObjectMeta "infra" "shop" "uid-s" 1 "1" None None [] 0) "NodePort" "Cluster" [mkServicePort 80 "TCP" None 30080].
Definition sampleSlice : EndpointSlice := mkEndpointSlice "infra" "shop" false [mkEndpoint (Some true) None (Some "node-a")].
Definition sampleNode : Node :=
  mkNode (mkObjectMeta "" "node-a" "uid-n" 1 "1" None None [] 0) false [("Ready", "True")] [("InternalIP", "10.1.0.5")].

Definition emptyCluster : cluster :=
  mkCluster [sampleGatewayObject] [sampleClass] [sampleRouteObject "shop" "uid-2" 5; sampleRouteObject "late" "uid-3" 8]
    [sampleService] [sampleSlice] [sampleNode] (crd <$> requiredGatewayAPICRDs) emptyCloud.

(** ** The reconcilers *)

#[export] Instance sampleProvider : CloudProvider := graphProvider provider.
Definition reconciler : Reconciler := mkReconciler true true sampleConfig.
Definition classReconciler : ClassReconciler := mkClassReconciler true sampleConfig.

Definition gatewayName : NamespacedName := mkNamespacedName "infra" "web".
Definition shopName : NamespacedName := mkNamespacedName "infra" "shop".
Definition lateName : NamespacedName := mkNamespacedName "infra" "late".
Definition reconcileClass := GatewayClassReconciler.Reconcile classReconciler "octavia".
Definition reconcileGateway := GatewayReconciler.Reconcile reconciler gatewayName.
Definition reconcileShop := RouteReconciler.Reconcile reconciler shopName.

(** The class is accepted; the Gateway is bound; it is programmed; the route is
    bound and programmed. *)
Definition classCluster : cluster := Eval vm_compute in repeatCluster 2 reconcileClass emptyCluster.
Definition boundCluster : cluster := Eval vm_compute in repeatCluster 1 reconcileGateway classCluster.
Definition readyCluster : cluster := Eval vm_compute in repeatCluster 3 reconcileGateway boundCluster.
Definition programmedCluster : cluster := Eval vm_compute in repeatCluster 1 reconcileGateway readyCluster.
Definition boundRouteCluster : cluster := Eval vm_compute in repeatCluster 1 reconcileShop programmedCluster.
Definition settledCluster : cluster := Eval vm_compute in repeatCluster 11 reconcileShop boundRouteCluster.

(** The same objects while they are being deleted. *)
Definition deleting (o : ObjectMeta) : ObjectMeta :=
  mkObjectMeta (om_Namespace o) (om_Name o) (om_UID o) (om_Generation o) (om_ResourceVersion o) (Some 60%Z)
    (om_Annotations o) (om_Finalizers o) (om_CreationTimestamp o).
Definition deletedGatewayCluster : cluster := Eval vm_compute in
  setGateways boundCluster ((fun g => withMeta g (deleting (gw_Meta g))) <$> cl_gateways boundCluster).
Definition deletedRouteCluster : cluster := Eval vm_compute in
  setRoutes boundRouteCluster ((fun x => withRouteMeta x (deleting (hr_Meta x))) <$> cl_routes boundRouteCluster).
