(* ===== verification/Witnesses.v ===== *)
(** * The theorems at work

    Applications of the theorems about the provider, the classification of
    errors, the metadata and the coordinator to the sample deployment of
    Scenario.v: each discharges the hypotheses of one theorem on concrete
    values. *)
From stdpp Require Import base list strings gmap.
From Stdlib Require Import Sorted ZArith Lia.
From S2P Require Import Prelude GoStrings GoSha256 GoNetip Cloud ApiErrors Metadata MetadataFacts OpenStack ProgramLogic GatewayGraph GatewayFacts RoutePlan RoutePlanFacts RouteGraph RouteFacts RouteTermination Kube Outcomes Coordinator Binding BindingFacts References Scenario.

Set Default Goal Selector "!".

(** ** Executions of the provider *)

Lemma EnsureGateway_authorised_witness :
  mutations (traceOf ensureG emptyCloud) <> [] /\
  LastMutation (authorisedChange provider gatewaySpec) (traceOf ensureG emptyCloud).
Proof.
  split; [vm_compute; discriminate|]. eapply (EnsureGateway_authorised provider gatewaySpec). apply exec_run.
Defined.

Lemma DeleteGateway_authorised_witness :
  mutations (traceOf deleteG routeCloud) = [ReqDeleteRule "id6" "id7"] /\
  LastMutation (authorisedDeletion provider gatewayID) (traceOf deleteG routeCloud).
Proof.
  split; [vm_compute; reflexivity|]. eapply (DeleteGateway_authorised provider gatewayID). apply exec_run.
Defined.

Definition sampleGateway : GatewayResult := Eval vm_compute in
  match resultOf ensureG gatewayCloud with Ok g => g | Err _ => mkGatewayResult zeroGatewayState ReadyOutcome end.

Lemma EnsureGateway_ready_sound_witness :
  FloatingIPAddress (g_State sampleGateway) = "203.0.113.7" /\
  gatewayInPlace provider gatewaySpec (traceOf ensureG gatewayCloud) (g_State sampleGateway).
Proof.
  split; [vm_compute; reflexivity|].
  refine (proj2 (proj2 (proj2 (EnsureGateway_ready_sound provider gatewaySpec _ sampleGateway _ eq_refl)))).
  replace (Ok sampleGateway) with (resultOf ensureG gatewayCloud) by (vm_compute; reflexivity). apply exec_run.
Defined.


(** Decides [Forall identified tr] on a concrete trace. *)
Ltac solve_identified := vm_compute; repeat constructor; discriminate.

Definition enablePolicy : UpdatePolicyOpts := mkUpdatePolicyOpts "" 0 None (Some true).

Lemma EnsureRoute_enables_traffic_last_witness :
  exists desired gateway listener actual pool, buildDesiredRoute provider routeSpec = Ok desired /\
    gatewayBehind provider (rs_Identity routeSpec) (Some (rs_GatewayRequirements routeSpec)) (traceOf ensureR inactiveCloud)
      gateway (Some listener) /\
    let gw := rg_state gateway in
    graphObserved provider (rs_Identity routeSpec) (traceOf ensureR inactiveCloud) gw actual /\ og_pool actual = Some pool /\
    poolInPlace (withGateway desired gw) pool (og_members actual) (og_monitor actual) /\
    policiesInPlace (withGateway desired gw) (pl_ID pool) (og_policies actual).
Proof.
  apply (EnsureRoute_enables_traffic_last provider routeSpec _ (resultOf ensureR inactiveCloud)
    (ReqUpdatePolicy "id6" enablePolicy)).
  - apply exec_run.
  - solve_identified.
  - replace (mutations (traceOf ensureR inactiveCloud)) with [ReqUpdatePolicy "id6" enablePolicy]
      by (vm_compute; reflexivity). left.
  - reflexivity.
Defined.

Definition sampleRoute : RouteResult := Eval vm_compute in
  match resultOf ensureR routeCloud with Ok g => g | Err _ => mkRouteResult zeroRouteState ReadyOutcome end.

Lemma EnsureRoute_ready_sound_witness :
  length (L7RuleIDs (r_State sampleRoute)) = 4 /\
  routeInPlace provider routeSpec (traceOf ensureR routeCloud).
Proof.
  split; [vm_compute; reflexivity|].
  refine (proj2 (proj2 (proj2 (EnsureRoute_ready_sound provider routeSpec _ sampleRoute _ _ eq_refl)))).
  - replace (Ok sampleRoute) with (resultOf ensureR routeCloud) by (vm_compute; reflexivity). apply exec_run.
  - solve_identified.
Defined.

Lemma DeleteRoute_leaves_first_witness :
  mutations (traceOf deleteR routeCloud) <> [] /\
  LastMutation (plannedDeletion provider routeID) (traceOf deleteR routeCloud).
Proof.
  split; [vm_compute; discriminate|]. eapply (DeleteRoute_leaves_first provider routeID). apply exec_run.
Defined.

(** ** Plans *)

Definition sampleDesired : desiredRoute := Eval vm_compute in
  match buildDesiredRoute provider routeSpec with Ok d => d | Err _ => mkDesiredRoute routeID routeSpec [] "" [] end.
Definition graphIn (c : cloud) : observedRouteGraph :=
  match resultOf (observeRouteGraph provider routeID (g_State sampleGateway)) c with
  | Ok g => g | Err _ => mkObservedGraph None [] None [] end.
Definition completeGraph : observedRouteGraph := Eval vm_compute in graphIn routeCloud.
Definition inactiveGraph : observedRouteGraph := Eval vm_compute in graphIn inactiveCloud.
Definition partialCloud : cloud := Eval vm_compute in repeatRun 4 ensureR gatewayCloud.
Definition partialGraph : observedRouteGraph := Eval vm_compute in graphIn partialCloud.

Ltac solve_unique := split; vm_compute; repeat constructor; set_solver.

Lemma complete_unique : uniqueKeys sampleDesired completeGraph.
Proof. solve_unique. Qed.
Lemma inactive_unique : uniqueKeys sampleDesired inactiveGraph.
Proof. solve_unique. Qed.
Lemma partial_unique : uniqueKeys sampleDesired partialGraph.
Proof. solve_unique. Qed.

Lemma ensure_plan_empty_iff_converged_witness : converged sampleDesired completeGraph.
Proof.
  apply (ensure_plan_empty_iff_converged sampleDesired completeGraph complete_unique).
  eexists. vm_compute. reflexivity.
Defined.

(** The traces of repeated calls. *)
Fixpoint tracesOf {A} (n : nat) (m : prog A) (c : cloud) : list (list event) :=
  match n with 0 => [] | S n' => traceOf m c :: tracesOf n' m (cloudAfter m c) end.

Definition undisturbedb (tr tr' : list event) : bool :=
  bool_decide (work tr' ⊆ work tr) &&
  forallb (fun e => match removes (ev_req e) with Some w => negb (bool_decide (w ∈ work tr')) | None => true end) tr.
Lemma undisturbedb_sound tr tr' : undisturbedb tr tr' = true -> undisturbed tr tr'.
Proof.
  intros [Hw%bool_decide_eq_true Hf]%andb_true_iff. split; [done|]. apply Forall_forall. intros e He w Hr _.
  rewrite forallb_forall in Hf. specialize (Hf e (proj1 (list_elem_of_In _ _) He)). rewrite Hr in Hf.
  by apply negb_true_iff, bool_decide_eq_false in Hf.
Qed.
Fixpoint sortedb (l : list (list event)) : bool :=
  match l with tr :: ((tr' :: _) as rest) => undisturbedb tr tr' && sortedb rest | _ => true end.
Lemma sortedb_sound l : sortedb l = true -> Sorted undisturbed l.
Proof.
  induction l as [|tr [|tr' rest] IH]; [constructor|by repeat constructor|]. intros [Hu Hs]%andb_true_iff.
  constructor; [by apply IH|]. constructor. by apply undisturbedb_sound.
Qed.
Lemma tracesOf_run n (m : M Outcome) c :
  forallb (fun c => match resultOf m c with Ok _ => true | Err _ => false end) ((fun k => repeatRun k m c) <$> seq 0 n) = true ->
  forallb (fun t => negb (bool_decide (mutations t = []))) (tracesOf n m c) = true ->
  Forall (fun t => mutations t <> [] /\ exists o : Outcome, exec m t (Ok o)) (tracesOf n m c).
Proof.
  revert c. induction n as [|n IH]; intros c; [constructor|]. cbn [tracesOf forallb seq fmap list_fmap repeatRun].
  intros [Hr Hrs]%andb_true_iff [Hm Hms]%andb_true_iff. constructor.
  - split; [by apply negb_true_iff, bool_decide_eq_false in Hm|]. pose proof (exec_run m c) as Hx.
    destruct (resultOf m c) as [o|]; [by exists o|done].
  - apply IH; [|done]. rewrite <- seq_shift in Hrs. by rewrite <- list_fmap_compose in Hrs.
Qed.

(** Eleven calls remove the sample route, which is as many as may be needed. *)
Lemma route_deletion_terminates_witness :
  length (tracesOf 11 deleteR routeCloud) <= size (work (traceOf deleteR routeCloud)).
Proof.
  refine (proj1 (route_deletion_terminates provider routeID (traceOf deleteR routeCloud)
    (tracesOf 10 deleteR (cloudAfter deleteR routeCloud)) _ _)).
  - apply (tracesOf_run 11 deleteR routeCloud); vm_compute; reflexivity.
  - apply (sortedb_sound (tracesOf 11 deleteR routeCloud)). vm_compute. reflexivity.
Defined.

Definition planOf (g : observedRouteGraph) : list routeMutation * RouteState :=
  match buildRouteEnsurePlan sampleDesired g with Ok r => r | Err _ => ([], zeroRouteState) end.
Definition inactivePlan := Eval vm_compute in planOf inactiveGraph.
Definition partialPlan := Eval vm_compute in planOf partialGraph.
Definition noStep : routeMutation := mutate routeMutationCreatePool "" "".

Lemma policies_change_only_while_disabled_witness :
  poolConverged sampleDesired partialGraph /\
  Forall (fun o => lp_AdminStateUp (op_policy o) = false) (og_policies partialGraph).
Proof.
  refine (policies_change_only_while_disabled sampleDesired partialGraph
    (hd noStep (fst partialPlan)) (tl (fst partialPlan)) (snd partialPlan) partial_unique _ _);
    vm_compute; reflexivity.
Defined.

Lemma path_prefix_policies_sound_and_complete_witness :
  pathElements "/cart" `prefix_of` pathElements "/cart/items" /\
  ~ pathElements "/cart" `prefix_of` pathElements "/cartoon".
Proof.
  split.
  - apply (path_prefix_policies_sound_and_complete routeSpec "/cart/items" eq_refl eq_refl). vm_compute. reflexivity.
  - intros Hp. apply (path_prefix_policies_sound_and_complete routeSpec "/cartoon" eq_refl eq_refl) in Hp.
    vm_compute in Hp. discriminate Hp.
Defined.

(** ** Errors and metadata *)

Definition sampleTags : list string := Eval vm_compute in
  match GatewayTags gatewayID RoleListener with Ok tags => tags | Err _ => [] end.

Lemma matches_unique_owner_witness : sameGatewayOwner routeID gatewayID /\ sameValue "role" RoleListener RoleListener.
Proof. apply (matches_unique_owner routeID gatewayID sampleTags RoleListener RoleListener); vm_compute; reflexivity. Defined.

Definition sampleDescription : string := Eval vm_compute in GatewayDescription gatewayID RoleFloatingIP.

Lemma floating_ip_unique_owner_witness :
  withVersion "" (gatewayIdentity routeID) = withVersion "" (gatewayIdentity gatewayID) \/
  (gatewayIdentity routeID <> gatewayIdentity gatewayID /\
   Sum256 (digestInput (descriptionParts (gatewayIdentity routeID) RoleFloatingIP true true)) =
   Sum256 (digestInput (descriptionParts (gatewayIdentity gatewayID) RoleFloatingIP true true))).
Proof.
  apply (floating_ip_unique_owner routeID gatewayID sampleDescription); vm_compute; reflexivity.
Defined.

(** ** Outcomes *)

Definition timeoutError : error := NewProviderError ErrorCategoryTimeout None.
Definition rejectedError : error := NewProviderError ErrorCategoryTerminalValidation None.
Definition policyOf (e : error) : ProviderFailurePolicy :=
  default (mkPolicy (CategoryOther "") ConditionUnset "" "" false 0 false false) (ProviderFailurePolicyFor e).

Lemma finalization_never_stalls_witness :
  match ProviderFinalizationFailureResult (ProviderCleanupFailurePolicy (policyOf rejectedError) "Gateway")
          rejectedError "uid-1" with
  | Ok r => (96 * Second <= RequeueAfter r <= 720 * Second)%Z
  | Err e' => ErrorCategoryOf e' = ErrorCategoryOf rejectedError /\ fp_ReturnError (policyOf rejectedError) = true
  end.
Proof. apply (finalization_never_stalls rejectedError (policyOf rejectedError) "Gateway" "uid-1"). reflexivity. Defined.

(** ** The coordinator *)

(** Two goroutines want the graph of one Gateway: the first has it, the second
    waits. *)
Definition contended : system :=
  mkSystem (mkCoordinator {["uid-1" := 0]} {[0 := mkEntry false 2]} 1) [Holding "uid-1" 0; Waiting "uid-1" 0].

Lemma contended_reachable : reachable contended.
Proof.
  set (s0 := mkSystem newCoordinator [Idle; Idle]).
  assert (reachable s0) as H0 by (apply reachable_initial; split; [done|by repeat constructor]).
  eapply reachable_step in H0; [|by eapply (step_acquire _ 0 "uid-1" None)].
  eapply reachable_step in H0; [|by eapply (step_acquire _ 1 "uid-1" None)].
  eapply reachable_step in H0; [|by eapply (step_receive _ 0)].
  eapply reachable_step in H0; [|by eapply (step_acquired _ 0)].
  assert (forall s s', s = s' -> reachable s -> reachable s') as He by (by intros ? ? ->).
  refine (He _ _ _ H0). vm_compute. reflexivity.
Qed.

Lemma coordinator_mutual_exclusion_witness :
  reachable contended /\ goroutines contended !! 0 = Some (Holding "uid-1" 0) /\ goroutines contended !! 1 = Some (Waiting "uid-1" 0) /\
  forall j e, goroutines contended !! j = Some (Holding "uid-1" e) -> 0 = j.
Proof.
  split; [exact contended_reachable|]. do 2 (split; [reflexivity|]). intros j e.
  apply (coordinator_mutual_exclusion contended 0 j "uid-1" 0 e contended_reachable eq_refl).
Defined.

(** ** Bindings *)

Import Kube.Reference.

Definition sampleConfig : Config :=
  mkConfig "example.com/gateway" "v1" project "cluster-1" "amphora" "vip-subnet" "public" "node-subnet"
    "NodePort" "InternalIP" "/healthz" (10 * Minute).
Definition otherConfig : Config :=
  mkConfig "example.com/other" "v1" project "cluster-1" "amphora" "vip-subnet" "public" "node-subnet"
    "NodePort" "InternalIP" "/healthz" (10 * Minute).
Definition gatewayMeta : ObjectMeta := mkObjectMeta "infra" "web" "uid-1" 1 "7" None None [] 0.
Definition routeMeta : ObjectMeta := mkObjectMeta "infra" "shop" "uid-2" 3 "9" None None ["other/finalizer"] 0.
Definition boundRoute : ObjectMeta := Eval vm_compute in applyRouteBinding sampleConfig routeMeta gatewayMeta.

Lemma route_binding_round_trip_witness : StoredRouteIdentity sampleConfig boundRoute = Ok (Some routeID).
Proof.
  pose proof (route_binding_round_trip sampleConfig routeMeta gatewayMeta eq_refl) as H1.
  refine (eq_trans _ H1). vm_compute. reflexivity.
Defined.

(** The bound route with the name of its Gateway edited. *)
Definition editedRoute : ObjectMeta := setAnnotation boundRoute (RouteGatewayNameAnnotation sampleConfig) "api".

Lemma edited_route_binding_fails_closed_witness :
  match StoredRouteIdentity sampleConfig editedRoute with
  | Err _ => True
  | Ok None => False
  | Ok (Some id) =>
      let stored := bindingInput (cfg_ClusterID sampleConfig) (cfg_OpenStackProjectID sampleConfig)
        (GatewayNamespace id) (GatewayName id) (GatewayUID id) in
      let bound := bindingInput (cfg_ClusterID sampleConfig) (cfg_OpenStackProjectID sampleConfig)
        (om_Namespace gatewayMeta) (om_Name gatewayMeta) (om_UID gatewayMeta) in
      id = RouteIdentity sampleConfig gatewayMeta editedRoute \/ (stored <> bound /\ shortDigest stored = shortDigest bound)
  end.
Proof.
  apply (edited_route_binding_fails_closed sampleConfig routeMeta gatewayMeta editedRoute); vm_compute; reflexivity.
Defined.

Lemma controllers_do_not_interfere_witness :
  StoredRouteIdentity otherConfig boundRoute = StoredRouteIdentity otherConfig routeMeta.
Proof.
  refine (eq_trans _ (proj1 (controllers_do_not_interfere sampleConfig otherConfig _ routeMeta gatewayMeta)));
    vm_compute; [reflexivity|discriminate].
Defined.
