(* ===== verification/SystemWitnesses.v ===== *)
(** * The theorems about the reconcilers at work

    Applications of the theorems about the reconcilers, the model of a route and
    the watches to the sample cluster of Deployment.v. *)
From stdpp Require Import base list strings gmap.
From Stdlib Require Import ZArith Lia.
From S2P Require Import Prelude GoStrings Cloud ApiErrors Kube KubeObjects References Metadata OpenStack ProgramLogic GatewayGraph GatewayFacts RoutePlan RouteGraph RouteFacts Outcomes Binding Indexes KubeClient ReconcileLogic OpenStackProvider GatewayModel GatewayReconciler GatewayReconcilerFacts RouteModel RouteModelFacts RouteSelectionFacts RouteStatus RouteReconciler RouteReconcilerFacts RouteProgrammedFacts Composition GatewayClassReconciler GatewayClassFacts Predicates PredicateFacts Watches WatchFacts Scenario Deployment.
Import Kube.Reference.

Set Default Goal Selector "!".

Lemma split_event (tr : list event) n e : tr !! n = Some e -> tr = take n tr ++ e :: drop (S n) tr.
Proof. intros Hn. by rewrite take_drop_middle. Qed.

(** The event at a position. *)
Definition eventAt (n : nat) (tr : list event) : event :=
  default (Ev (ReqKube (KReleaseGraph "")) (Ok tt)) (tr !! n).

(** ** Changes of OpenStack *)

Definition firstChange : list event := Eval vm_compute in clusterTrace reconcileGateway boundCluster.

Lemma firstChange_run : exec reconcileGateway firstChange (clusterResult reconcileGateway boundCluster).
Proof.
  replace firstChange with (clusterTrace reconcileGateway boundCluster) by (vm_compute; reflexivity). apply exec_clusterRun.
Qed.

Lemma gateway_changes_are_authorised_witness :
  gatewayAuthority reconciler (take 9 firstChange) (ev_req (eventAt 9 firstChange)).
Proof.
  eapply (gateway_changes_are_authorised reconciler gatewayName firstChange _ _ (eventAt 9 firstChange) (drop 10 firstChange));
    [exact firstChange_run|reflexivity|reflexivity].
Defined.

Definition routeChange : list event := Eval vm_compute in clusterTrace reconcileShop boundRouteCluster.

Lemma routeChange_run : exec reconcileShop routeChange (clusterResult reconcileShop boundRouteCluster).
Proof.
  replace routeChange with (clusterTrace reconcileShop boundRouteCluster) by (vm_compute; reflexivity). apply exec_clusterRun.
Qed.

Lemma route_changes_are_authorised_witness :
  routeAuthority reconciler (take 26 routeChange) (ev_req (eventAt 26 routeChange)).
Proof.
  eapply (route_changes_are_authorised reconciler shopName routeChange _ _ (eventAt 26 routeChange) (drop 27 routeChange));
    [exact routeChange_run|reflexivity|reflexivity].
Defined.

Lemma reconcilers_release_locks_witness : length (locks firstChange) = 2 /\ balanced (locks firstChange).
Proof.
  split; [reflexivity|]. apply (proj1 (reconcilers_release_locks provider reconciler gatewayName firstChange) _ firstChange_run).
Defined.

(** ** What the API server is told *)

(** The patch at a position. *)
Definition gatewayPatch (e : event) : Gateway * Gateway :=
  match ev_req e with
  | ReqKube (KPatchGateway base target) | ReqKube (KPatchGatewayStatus base target) => (base, target)
  | _ => (sampleGatewayObject, sampleGatewayObject)
  end.
Definition routePatch (e : event) : HTTPRoute * HTTPRoute :=
  match ev_req e with
  | ReqKube (KPatchHTTPRoute base target) | ReqKube (KPatchHTTPRouteStatus base target) => (base, target)
  | _ => (sampleRouteObject "" "" 0, sampleRouteObject "" "" 0)
  end.

Definition gatewayDeletion : list event := Eval vm_compute in clusterTrace reconcileGateway deletedGatewayCluster.
Definition droppedGateway : Gateway * Gateway := Eval vm_compute in gatewayPatch (eventAt 6 gatewayDeletion).

Lemma gateway_finalizer_waits_for_cloud_witness :
  exists pre q y gw,
    take 6 gatewayDeletion = pre ++ q ++ [Ev (ReqKube (KReleaseGraph "uid-1")) y] /\ om_UID (gw_Meta gw) = "uid-1" /\
    cleanupFence reconciler pre gw /\ mutations q = [] /\
    gatewayGone provider (StoredGatewayIdentity sampleConfig (gw_Meta gw)) q.
Proof.
  eapply (gateway_finalizer_waits_for_cloud provider reconciler gatewayName gatewayDeletion _ (take 6 gatewayDeletion)
    (fst droppedGateway) (snd droppedGateway) (Ok (snd droppedGateway)) []).
  - replace gatewayDeletion with (clusterTrace reconcileGateway deletedGatewayCluster) by (vm_compute; reflexivity).
    apply exec_clusterRun.
  - reflexivity.
  - vm_compute. reflexivity.
Defined.

Definition gatewayReady : list event := Eval vm_compute in clusterTrace reconcileGateway readyCluster.
Definition programmedGateway : Gateway * Gateway := Eval vm_compute in gatewayPatch (eventAt 17 gatewayReady).

Lemma gateway_programmed_in_cloud_witness :
  gst_Addresses (gw_Status (snd programmedGateway)) = [("IPAddress", "203.0.113.7")] /\
  ((forall c, programmedIn (snd programmedGateway) c -> storedProgrammed (take 17 gatewayReady) c) \/
   exists pre q t' gw listener state,
    take 17 gatewayReady = pre ++ q ++ t' /\ gatewayFence reconciler pre gw listener /\
    om_UID (gw_Meta gw) = om_UID (gw_Meta (snd programmedGateway)) /\
    om_Generation (gw_Meta gw) = om_Generation (gw_Meta (snd programmedGateway)) /\
    mutations q = [] /\ Forall (showsOwned provider (gs_Identity (GatewayReconciler.gatewaySpec reconciler gw listener))) q /\
    gatewayInPlace provider (GatewayReconciler.gatewaySpec reconciler gw listener) q state /\
    gst_Addresses (gw_Status (snd programmedGateway)) = [(IPAddressType, Address state)]).
Proof.
  split; [reflexivity|].
  eapply (gateway_programmed_in_cloud provider reconciler gatewayName gatewayReady _ (take 17 gatewayReady)
    (fst programmedGateway) (snd programmedGateway) (Ok (snd programmedGateway)) []).
  - replace gatewayReady with (clusterTrace reconcileGateway readyCluster) by (vm_compute; reflexivity). apply exec_clusterRun.
  - reflexivity.
Defined.

Definition routeDeletion : list event := Eval vm_compute in clusterTrace reconcileShop deletedRouteCluster.
Definition droppedRoute : HTTPRoute * HTTPRoute := Eval vm_compute in routePatch (eventAt 12 routeDeletion).

Lemma route_finalizer_waits_for_cloud_witness :
  storedRouteIdentity reconciler (fst droppedRoute) = Ok (Some routeID) /\
  (storedRouteIdentity reconciler (fst droppedRoute) = Ok None \/
   exists id pre q rest route, storedRouteIdentity reconciler (fst droppedRoute) = Ok (Some id) /\
    take 12 routeDeletion = pre ++ q ++ rest /\ routeCleanupFence reconciler pre route id /\
    mutations q = [] /\ routeGone provider id q).
Proof.
  split; [vm_compute; reflexivity|].
  eapply (route_finalizer_waits_for_cloud provider reconciler shopName routeDeletion _ (take 12 routeDeletion)
    (fst droppedRoute) (snd droppedRoute) (Ok (snd droppedRoute)) []).
  - replace routeDeletion with (clusterTrace reconcileShop deletedRouteCluster) by (vm_compute; reflexivity). apply exec_clusterRun.
  - reflexivity.
  - vm_compute. reflexivity.
  - vm_compute. reflexivity.
Defined.

Definition routeReady : list event := Eval vm_compute in clusterTrace reconcileShop settledCluster.
Definition programmedRoute : HTTPRoute * HTTPRoute := Eval vm_compute in routePatch (eventAt 34 routeReady).
Definition programmedParent : RouteParentStatus := Eval vm_compute in
  hd (mkRouteParentStatus (mkParentReference None None None "" None None) "" []) (statusParents (snd programmedRoute)).

Lemma routeReady_run : exec reconcileShop routeReady (clusterResult reconcileShop settledCluster).
Proof.
  replace routeReady with (clusterTrace reconcileShop settledCluster) by (vm_compute; reflexivity). apply exec_clusterRun.
Qed.
Lemma routeReady_identified : Forall identified (take 34 routeReady).
Proof. apply (bool_decide_unpack _). vm_compute. exact I. Qed.
Definition programmedCondition : Condition := Eval vm_compute in
  default (newCondition "" ConditionUnset "" "" 0)
    (FindStatusCondition (rps_Conditions programmedParent) (programmedType (rc_Config reconciler))).
Lemma programmedRoute_shows : programmedBy reconciler (snd programmedRoute) programmedParent programmedCondition.
Proof. split; [by left|]. split; [reflexivity|]. split; vm_compute; reflexivity. Qed.

Lemma route_programmed_in_cloud_witness :
  repeatsStored reconciler (take 34 routeReady) (snd programmedRoute) (rps_ParentRef programmedParent)
    (c_ObservedGeneration programmedCondition) \/
  c_ObservedGeneration programmedCondition = om_Generation (hr_Meta (snd programmedRoute)) /\
  exists pre q t' route gw desired,
    take 34 routeReady = pre ++ q ++ t' /\ routeFence reconciler pre route gw desired /\
    om_UID (hr_Meta route) = om_UID (hr_Meta (snd programmedRoute)) /\
    om_Generation (hr_Meta route) = om_Generation (hr_Meta (snd programmedRoute)) /\
    mutations q = [] /\ Forall (showsRouteOwned provider (rs_Identity desired)) q /\ routeInPlace provider desired q.
Proof.
  eapply (route_programmed_in_cloud provider reconciler shopName routeReady _ (take 34 routeReady)
    (fst programmedRoute) (snd programmedRoute) (Ok (snd programmedRoute)) []).
  - exact routeReady_run.
  - exact routeReady_identified.
  - reflexivity.
  - exact programmedRoute_shows.
Defined.

(** ** Routes and backends *)

Definition sampleWorld : routeWorld :=
  mkRouteWorld (cl_routes emptyCluster) (fun key => found (List.find (fun s => hasKey key (sv_Meta s)) (cl_services emptyCluster))).
Definition lateRoute : HTTPRoute := sampleRouteObject "late" "uid-3" 8.
Definition earlyRoute : HTTPRoute := sampleRouteObject "shop" "uid-2" 5.
Definition sampleParent : managedRouteParent :=
  mkManagedParent (mkParentReference None None None "web" None None) sampleGatewayObject sampleClass (Some sampleListener).

(** A trace that [sampleWorld] answers, checked by evaluation. *)
Ltac solve_answered :=
  match goal with |- answeredBy _ _ ?tr => let v := eval vm_compute in tr in change (answeredBy sampleConfig sampleWorld v) end;
  repeat (apply Forall_cons; split; [intros ? Hx; vm_compute in Hx; injection Hx as <-; reflexivity|]);
  by apply Forall_nil.

Lemma late_names_gateway : namesGateway lateRoute (mp_ref sampleParent) (mp_gateway sampleParent).
Proof. by repeat split. Qed.

Definition selectLate (indexed : bool) : M bool := isSelectedRouteWithReader Cached lateRoute sampleParent indexed.

Lemma selectLate_answered indexed : answeredBy sampleConfig sampleWorld (clusterTrace (selectLate indexed) emptyCluster).
Proof. destruct indexed; solve_answered. Qed.
Lemma selectLate_run indexed : exec (selectLate indexed) (clusterTrace (selectLate indexed) emptyCluster) (Ok false).
Proof.
  replace (Ok false) with (clusterResult (selectLate indexed) emptyCluster) by (destruct indexed; vm_compute; reflexivity).
  apply exec_clusterRun.
Qed.

Lemma sampleWorld_unique a b :
  a ∈ rw_routes sampleWorld -> b ∈ rw_routes sampleWorld -> ObjectKey (hr_Meta a) = ObjectKey (hr_Meta b) -> a = b.
Proof.
  intros [->|[->|Ha%elem_of_nil]%elem_of_cons]%elem_of_cons [->|[->|Hb%elem_of_nil]%elem_of_cons]%elem_of_cons; by intros [=].
Qed.

Lemma late_candidate : candidate sampleWorld sampleGatewayObject (Some sampleListener) lateRoute.
Proof. do 3 (split; [reflexivity|]). eexists. split; [reflexivity|]. split; [exact late_names_gateway|reflexivity]. Qed.

Lemma route_selection_unique_witness :
  exists winner, winner ∈ rw_routes sampleWorld /\ candidate sampleWorld sampleGatewayObject (Some sampleListener) winner /\
    (lateRoute = winner \/ goesFirst winner lateRoute) /\ (false = true <-> lateRoute = winner).
Proof.
  assert (lateRoute ∈ rw_routes sampleWorld) as Hin by (right; left).
  destruct (route_selection_unique sampleConfig sampleWorld sampleWorld_unique sampleGatewayObject (Some sampleListener))
    as (winner & Hw & Hc & Hfirst & Hsel); [exists lateRoute; split; [exact Hin|exact late_candidate]|].
  exists winner. split; [exact Hw|]. split; [exact Hc|]. split; [exact (Hfirst lateRoute Hin late_candidate)|].
  exact (Hsel lateRoute sampleParent Cached true _ false Hin late_candidate eq_refl eq_refl eq_refl
    (selectLate_run true) (selectLate_answered true)).
Defined.

Definition peersOfShop : M (list NamespacedName) := enqueueHTTPRoutePeers earlyRoute.

Lemma peersOfShop_answered : answeredBy sampleConfig sampleWorld (clusterTrace peersOfShop emptyCluster).
Proof. solve_answered. Qed.

Lemma events_reach_competitors_witness :
  exists requests, clusterResult peersOfShop emptyCluster = Ok requests /\ lateName ∈ requests.
Proof.
  refine (proj1 (proj2 (events_reach_competitors sampleConfig sampleWorld) lateRoute sampleParent earlyRoute
    (clusterTrace peersOfShop emptyCluster) (clusterResult peersOfShop emptyCluster) _ _ _ late_names_gateway _ peersOfShop_answered)
    (exec_clusterRun _ _)).
  - right. left.
  - left.
  - left.
  - vm_compute. reflexivity.
Defined.

Definition otherNode : Node :=
  mkNode (mkObjectMeta "" "node-b" "uid-m" 1 "1" None None [] 0) false [("Ready", "True")] [("InternalIP", "10.1.0.4")].

Lemma membersOf_spec_witness :
  membersOf sampleConfig sampleService 30080 [sampleSlice] [sampleNode; otherNode] =
    [mkMember "10.1.0.4" 30080; mkMember "10.1.0.5" 30080] /\
  membersOf sampleConfig sampleService 30080 [sampleSlice] [otherNode; sampleNode] =
    membersOf sampleConfig sampleService 30080 [sampleSlice] [sampleNode; otherNode].
Proof.
  split; [vm_compute; reflexivity|].
  apply (membersOf_spec sampleConfig sampleService 30080 [sampleSlice] [sampleNode; otherNode]); [reflexivity|constructor].
Defined.

(** ** Updates that are filtered out *)

(** The Node reports another condition; the slice has another resource version
    only, which the model of a slice leaves out. *)
Definition reportingNode : Node :=
  mkNode (nd_Meta sampleNode) false [("DiskPressure", "False"); ("Ready", "True")] [("InternalIP", "10.1.0.5")].
Definition shopMembers : M (list Member) := nodePortMembersWithReader sampleConfig Cached sampleService 30080.
Definition setNodes c l := mkCluster (cl_gateways c) (cl_classes c) (cl_routes c) (cl_services c) (cl_slices c) l (cl_definitions c) (cl_cloud c).
Definition reportingCluster : cluster := setNodes emptyCluster [reportingNode].

Lemma sampleSlice_named : nodeNamed sampleSlice.
Proof. intros e n [->|He%elem_of_nil]%elem_of_cons Hn; [|done]. injection Hn as <-. by split. Qed.

Lemma ignored_backend_updates_witness :
  clusterResult shopMembers emptyCluster = clusterResult shopMembers reportingCluster.
Proof.
  eapply (ignored_backend_updates sampleConfig Cached sampleService 30080 [] [] sampleSlice sampleSlice [] [] sampleNode reportingNode).
  - vm_compute. reflexivity.
  - exact sampleSlice_named.
  - exact sampleSlice_named.
  - vm_compute. reflexivity.
  - reflexivity.
  - apply exec_clusterRun.
  - vm_compute. repeat constructor.
  - apply exec_clusterRun.
  - vm_compute. repeat constructor.
Defined.

(** ** Classes *)

Definition classAcceptance : list event := Eval vm_compute in clusterTrace reconcileClass emptyCluster.

Lemma gatewayclass_patches_justified_witness :
  classAuthority classReconciler (take 2 classAcceptance) (ev_req (eventAt 2 classAcceptance)).
Proof.
  eapply (gatewayclass_patches_justified classReconciler "octavia" classAcceptance _ _ (eventAt 2 classAcceptance) (drop 3 classAcceptance)).
  - replace classAcceptance with (clusterTrace reconcileClass emptyCluster) by (vm_compute; reflexivity). apply exec_clusterRun.
  - reflexivity.
  - reflexivity.
Defined.
