(* ===== verification/AuditWitnesses.v ===== *)
(** * The theorems about the audit and about deletion at work

    The audit of the sample cluster of Deployment.v, once with its Gateway and
    route in place and once after they are gone, and the deletion of the sample
    route's graph. *)
From stdpp Require Import base list strings gmap.
From Stdlib Require Import ZArith Lia Ascii.
From S2P Require Import Prelude GoStrings Cloud ApiErrors Kube KubeObjects References Metadata MetadataFacts OpenStack ProgramLogic GatewayGraph RoutePlan RoutePlanFacts RouteGraph Outcomes Binding KubeClient AuditReport Inventory Classification OwnershipAudit AuditFacts InventoryFacts ClassificationFacts AuditVerdicts ScanFacts AuditAgreement CollectorFacts AuditSystemFacts Scenario Deployment.
Import Kube.Reference.

Set Default Goal Selector "!".

(** ** The audit of a settled cluster *)

Definition auditOptions : commandOptions := mkCommandOptions "example.com/gateway" "cluster-1" (60 * Second) true.
Definition auditDependencies : commandDependencies :=
  mkCommandDependencies 1 (fun _ => Ok tt) (Ok Live) (fun _ => Ok (mkServiceClients true true project)).
Definition auditController : Config := auditConfig "v1" auditOptions project.
Definition auditScanner : Scanner := NewScanner true true project (60 * Second).
Definition sampleScope : Scope := auditScope auditController.

Definition collect : M KubernetesSnapshot := CollectOwnershipSnapshot auditController (Some Live).
Definition collectTrace : list event := Eval vm_compute in clusterTrace collect settledCluster.
Definition settledSnapshot : KubernetesSnapshot := Eval vm_compute in
  match clusterResult collect settledCluster with Ok s => s | Err _ => mkKubernetesSnapshot [] [] end.

Lemma collect_run : exec collect collectTrace (Ok settledSnapshot).
Proof.
  replace collectTrace with (clusterTrace collect settledCluster) by (vm_compute; reflexivity).
  replace (Ok settledSnapshot) with (clusterResult collect settledCluster) by (vm_compute; reflexivity).
  apply exec_clusterRun.
Qed.

Definition scan : M Inventory := Scan auditScanner sampleScope (sn_Records settledSnapshot).
Definition scanTrace : list event := Eval vm_compute in clusterTrace scan settledCluster.
Definition settledInventory : Inventory := Eval vm_compute in
  match clusterResult scan settledCluster with Ok i => i | Err _ => mkInventory [] [] end.

Lemma scan_run : exec scan scanTrace (Ok settledInventory).
Proof.
  replace scanTrace with (clusterTrace scan settledCluster) by (vm_compute; reflexivity).
  replace (Ok settledInventory) with (clusterResult scan settledCluster) by (vm_compute; reflexivity).
  apply exec_clusterRun.
Qed.

Definition settledReport : Report := Eval vm_compute in
  match BuildReport 1 "v1" sampleScope settledSnapshot settledInventory with
  | Ok r => r
  | Err _ => mkReport "" "" 0 "" "" AssessmentComplete (mkSummary 0 0 0 0 0 0 0 0) [] [] [] []
  end.

Lemma report_accounts_for_inventory_witness :
  sm_Matched (rp_Summary settledReport) = 12 /\
  sm_Matched (rp_Summary settledReport) = countOf DispositionMatched (inv_Resources settledInventory).
Proof.
  split; [reflexivity|].
  apply (report_accounts_for_inventory 1 "v1" sampleScope settledSnapshot settledInventory settledReport).
  vm_compute. reflexivity.
Defined.

Lemma scan_accounts_for_listed_resources_witness :
  length (inv_Resources settledInventory) = 12 /\ NoDup (findingKey <$> inv_Resources settledInventory).
Proof.
  split; [reflexivity|].
  apply (proj2 (scan_accounts_for_listed_resources auditScanner sampleScope (sn_Records settledSnapshot) scanTrace
    (Ok settledInventory) scan_run) settledInventory eq_refl).
Defined.

(** A rule, whose policy is matched too. *)
Definition sampleFinding : ResourceFinding := Eval vm_compute in
  default (mkResourceFinding "" "" "" "" "" "" DispositionMatched "" "" [])
    (List.find (fun f => String.eqb (f_Type f) auditTypeL7Rule) (inv_Resources settledInventory)).

Lemma matched_resources_are_owned_witness :
  exists g, g ∈ inv_Resources settledInventory /\ f_Disposition g = DispositionMatched /\
    f_Type g = auditTypeL7Policy /\ f_ID g = f_ParentID sampleFinding.
Proof.
  edestruct (matched_resources_are_owned auditScanner sampleScope (sn_Records settledSnapshot) scanTrace settledInventory
    sampleFinding scan_run) as (records & c & _ & _ & _ & _ & _ & Hp & _); [|reflexivity|].
  - apply list_elem_of_In, (List.find_some (fun f => String.eqb (f_Type f) auditTypeL7Rule)). vm_compute. reflexivity.
  - apply Hp. discriminate.
Defined.

(** ** The order of a map iteration *)

Definition sampleRecords : list preparedAuditRecord := Eval vm_compute in
  match prepareAuditRecords sampleScope (sn_Records settledSnapshot) with Ok l => l | Err _ => [] end.
Definition sampleTags : list string := ScopeTags "cluster-1" "example.com/gateway".
Definition candidates : M auditCandidateSet := collectCandidates auditScanner sampleTags sampleRecords.
Definition candidatesTrace : list event := Eval vm_compute in clusterTrace candidates settledCluster.
Definition sampleCandidates : auditCandidateSet :=
  match clusterResult candidates settledCluster with Ok s => s | Err _ => ∅ end.

Lemma candidates_run : exec candidates candidatesTrace (Ok sampleCandidates).
Proof.
  replace candidatesTrace with (clusterTrace candidates settledCluster) by (vm_compute; reflexivity).
  assert (match clusterResult candidates settledCluster with Ok _ => true | Err _ => false end = true) as Ho
    by (vm_compute; reflexivity).
  pose proof (exec_clusterRun candidates settledCluster) as Hx. unfold sampleCandidates.
  destruct (clusterResult candidates settledCluster); [exact Hx|discriminate].
Qed.

Lemma candidates_ids e c0 :
  e ∈ candidatesTrace -> c0 ∈ eventCandidates e -> str_without "000"%char (c_id c0) = true.
Proof.
  assert (forallb (fun e => forallb (fun c => str_without "000"%char (c_id c)) (eventCandidates e)) candidatesTrace = true) as Hf
    by (vm_compute; reflexivity).
  intros He%list_elem_of_In Hc%list_elem_of_In.
  exact (proj1 (List.forallb_forall _ _) (proj1 (List.forallb_forall _ _) Hf e He) c0 Hc).
Qed.

Lemma scan_order_irrelevant_witness :
  classifyAuditCandidates (rev (candidateValues sampleCandidates)) sampleCandidates sampleRecords sampleTags project =
  classifyAuditCandidates (candidateValues sampleCandidates) sampleCandidates sampleRecords sampleTags project.
Proof.
  apply (scan_order_irrelevant auditScanner sampleRecords sampleTags project candidatesTrace sampleCandidates
    (rev (candidateValues sampleCandidates)) candidates_run candidates_ids).
  symmetry. apply Permutation_rev.
Defined.

(** ** A rule with the tags of its route *)

Definition sampleRule : auditCandidate :=
  default (mkCandidate "" "" "" "" "" "" "" [] "" "" "" ∅ ∅ false)
    (sampleCandidates !! (auditServiceOctavia ^^ nul ^^ auditTypeL7Rule ^^ nul ^^ "id7")).
Definition shopRecord : preparedAuditRecord := mkPrepared (mkOwnershipRecord routeID []) routeID true.

Lemma sampleRule_sound : soundPlace sampleCandidates sampleScope sampleRule.
Proof.
  unfold soundPlace. split_and!; try (vm_compute; reflexivity).
  intros _. split; vm_compute; [discriminate|reflexivity].
Qed.

Lemma controller_owned_resources_are_matched_witness :
  f_Disposition (classifyAuditCandidate sampleCandidates sampleRule [shopRecord]
    (ScopeTags (sc_ClusterID sampleScope) (sc_ControllerName sampleScope)) (sc_OpenStackProjectID sampleScope))
  = DispositionMatched.
Proof.
  apply (controller_owned_resources_are_matched sampleCandidates [shopRecord] sampleScope sampleRule RoleRulePath shopRecord).
  - apply (bool_decide_unpack _). vm_compute. exact I.
  - apply (bool_decide_unpack _). vm_compute. exact I.
  - by left.
  - repeat split.
  - vm_compute. repeat constructor; discriminate.
  - vm_compute. reflexivity.
  - intros y ->%list_elem_of_singleton _. reflexivity.
  - exact sampleRule_sound.
Defined.

(** ** The command *)

Definition listedMeta (e : event) : list ObjectMeta :=
  match e with
  | Ev (ReqKube (KListAllGateways _)) (Ok l) => gw_Meta <$> l
  | Ev (ReqKube (KListHTTPRoutes _ _ _)) (Ok l) => hr_Meta <$> l
  | _ => []
  end.

Lemma collect_named e : e ∈ collectTrace -> Forall named (listedMeta e).
Proof. intros He. revert e He. apply Forall_forall. repeat constructor. Qed.

Lemma audit_report_is_built_witness :
  exists report, BuildReport 1 "v1" sampleScope settledSnapshot settledInventory = Ok report.
Proof.
  apply (audit_report_is_built "v1" auditController Live collectTrace settledSnapshot auditScanner scanTrace settledInventory 1
    collect_run scan_run); [| |discriminate|reflexivity|vm_compute; repeat constructor].
  - intros gateways He%collect_named. exact (proj1 (Forall_fmap _ _ _) He).
  - intros routes He%collect_named. exact (proj1 (Forall_fmap _ _ _) He).
Defined.

Definition encodeNothing (r : Report) : outcome_of string := Ok "".
Definition writeAll (output : string) : nat * option error := (String.length output, None).
Definition auditCommand : prog (Z * string) := runCommand "v1" (Parsed auditOptions) auditDependencies encodeNothing writeAll.
Definition auditTrace : list event := Eval vm_compute in clusterTrace auditCommand settledCluster.

Lemma clean_audit_exit_witness :
  exists from clients gateways routes,
    let config := auditConfig "v1" auditOptions (svc_ProjectID clients) in
    dep_newServiceClients auditDependencies auditOptions = Ok clients /\
    Ev (ReqKube (KListAllGateways from)) (Ok gateways) ∈ auditTrace /\
    Ev (ReqKube (KListHTTPRoutes from None None)) (Ok routes) ∈ auditTrace /\
    (forall g, g ∈ gateways -> GatewayHasControllerBinding config (gw_Meta g) = true ->
       ValidateGatewayBinding config (gw_Meta g) = Ok tt).
Proof.
  edestruct (clean_audit_exit "v1" auditOptions auditDependencies encodeNothing writeAll auditTrace "")
    as (from & clients & gateways & routes & Hc & Hg & Hr & Hb & _); [|reflexivity|].
  - replace auditTrace with (clusterTrace auditCommand settledCluster) by (vm_compute; reflexivity).
    replace (exitSuccess, "") with (clusterResult auditCommand settledCluster) by (vm_compute; reflexivity).
    apply exec_clusterRun.
  - exists from, clients, gateways, routes. cbn zeta. by split_and!.
Defined.

(** Gateway and route are gone, their resources are not. *)
Definition abandonedCluster : cluster := setRoutes (setGateways settledCluster []) [].
Definition abandonedAudit : M Report := executeAudit "v1" auditOptions auditDependencies.
Definition abandonedTrace : list event := Eval vm_compute in clusterTrace abandonedAudit abandonedCluster.
Definition abandonedReport : Report := Eval vm_compute in
  match clusterResult abandonedAudit abandonedCluster with Ok r => r | Err _ => settledReport end.
Definition orphan : ResourceFinding := Eval vm_compute in
  default sampleFinding (List.find (fun f => String.eqb (f_Type f) auditTypeLoadBalancer) (rp_Resources abandonedReport)).

Lemma reported_orphans_are_unowned_witness :
  sm_OrphanCandidates (rp_Summary abandonedReport) = 11 /\ exists c, listed abandonedTrace c /\ about c orphan.
Proof.
  split; [reflexivity|].
  edestruct (reported_orphans_are_unowned "v1" auditOptions auditDependencies abandonedTrace abandonedReport orphan)
    as (from & clients & gateways & routes & c & _ & _ & Hl & Ha & _); [| |left; reflexivity|by exists c].
  - change (exec abandonedAudit abandonedTrace (Ok abandonedReport)).
    replace abandonedTrace with (clusterTrace abandonedAudit abandonedCluster) by (vm_compute; reflexivity).
    replace (Ok abandonedReport) with (clusterResult abandonedAudit abandonedCluster) by (vm_compute; reflexivity).
    apply exec_clusterRun.
  - apply list_elem_of_In, (List.find_some (fun f => String.eqb (f_Type f) auditTypeLoadBalancer)). vm_compute. reflexivity.
Defined.
