(* ===== verification/ProbeWitnesses.v ===== *)
(** * A run of the probe

    The cloud of Scenario.v with files and a clock: a run that keeps its
    resources, the cleanup after it, and a run that cleans up after itself.  They
    show that the hypotheses of the theorems about the probe can hold. *)
From stdpp Require Import base list strings gmap countable.
From Stdlib Require Import ZArith Lia Ascii.
From S2P Require Import Prelude GoStrings Cloud ApiErrors Metadata OpenStack ProgramLogic KubeClient ReconcileLogic ProbeState Probe ProbeLogic ProbeFacts ProbeCleanupFacts ProbeRunFacts Scenario Deployment.

Set Default Goal Selector "!".

(** ** Instances *)

(** A state as a list of its fields, a list as a number, a number as digits. *)
Definition fieldsOf (s : State) : list (Z + string) :=
  let id := st_Identity s in
  [inl (st_Version s); inl (st_CreatedAt s); inr (st_Region s); inr (st_OctaviaMicroversion s); inr (pi_ClusterID id);
   inr (pi_Controller id); inr (pi_GatewayNamespace id); inr (pi_GatewayName id); inr (pi_GatewayUID id);
   inr (st_LoadBalancerID s); inr (st_VIPPortID s); inr (st_FloatingIPID s); inr (st_ListenerID s); inr (st_PoolID s);
   inr (st_MonitorID s); inr (st_L7PolicyID s); inr (st_L7RuleID s)] ++ (inr <$> st_MemberIDs s).
Definition textsOf (l : list (Z + string)) : list string := omap (fun x => match x with inl _ => None | inr t => Some t end) l.
Definition stateOf (l : list (Z + string)) : option State :=
  match l with
  | inl version :: inl now :: inr region :: inr mv :: inr cluster :: inr controller :: inr namespace :: inr name ::
    inr uid :: inr lb :: inr port :: inr fip :: inr listener :: inr pool :: inr monitor :: inr policy :: inr rule :: members =>
      Some (mkState version now region mv (mkProbeIdentity cluster controller namespace name uid) lb port fip listener pool
              (textsOf members) monitor policy rule)
  | _ => None
  end.
Lemma stateOf_fieldsOf s : stateOf (fieldsOf s) = Some s.
Proof.
  destruct s as [? ? ? ? [] ? ? ? ? ? ids ? ? ?]. cbn. repeat f_equal. unfold textsOf. induction ids as [|id ids IH]; [done|].
  cbn. by rewrite IH.
Qed.

Fixpoint digits (p : positive) : string :=
  match p with xH => "" | xO q => String "0" (digits q) | xI q => String "1" (digits q) end.
Fixpoint number (s : string) : option positive :=
  match s with
  | String "0" rest => xO <$> number rest
  | String "1" rest => xI <$> number rest
  | String "010" "" => Some xH
  | _ => None
  end.
Lemma number_digits p : number (digits p ^^ newline) = Some p.
Proof.
  induction p as [p IH|p IH|]; [| |done]; cbn [digits].
  - change (xI <$> number (digits p ^^ newline) = Some (xI p)). by rewrite IH.
  - change (xO <$> number (digits p ^^ newline) = Some (xO p)). by rewrite IH.
Qed.

#[export] Instance sampleStateJSON : StateJSON :=
  {| MarshalState s := Ok (digits (countable.encode (fieldsOf s)));
     UnmarshalState data := match (number data ≫= countable.decode (A := list (Z + string))) ≫= stateOf with
                            | Some s => Ok s
                            | None => Err (Errorf "syntax error" [] None)
                            end |}.
#[export] Instance sampleStateJSONLaws : StateJSONLaws.
Proof.
  constructor. intros s data _ [= <-]. cbn [UnmarshalState sampleStateJSON]. rewrite number_digits. cbn [base.mbind option_bind]. rewrite decode_encode.
  cbn [base.mbind option_bind]. by rewrite stateOf_fieldsOf.
Qed.
#[export] Instance sampleReportJSON : ReportJSON := {| MarshalReport r := Ok (pr_Outcome r) |}.

Definition osError (text : string) : error := Errorf text [] None.
Definition isError (text : string) (e : error) : bool :=
  match e with Errorf t _ _ => String.eqb t text | _ => false end.
#[export] Instance sampleOSErrors : OSErrors := {| IsExist := isError "exists"; IsNotExist := isError "missing" |}.

(** ** A cloud with files *)

Record world := mkWorld { w_cloud : cloud; w_files : gmap string string; w_temps : nat }.

Definition findID {A} (idOf : A -> string) (id : string) (l : list A) : outcome_of A :=
  match List.find (fun x => String.eqb (idOf x) id) l with Some x => Ok x | None => Err notFound end.
Definition setFile (w : world) (path data : string) : world := mkWorld (w_cloud w) (<[path := data]> (w_files w)) (w_temps w).

Definition handleProbe (r : probeRequest) (w : world) : outcome_of (probeResponse r) * world :=
  let c := w_cloud w in
  match r return outcome_of (probeResponse r) * world with
  | PNewServiceClients _ _ _ | PMkdirAll _ | PChmod _ | PSync _ | PClose _ | PNewHTTPRequest _ => (Ok tt, w)
  | PListProviders => (Ok (Ok [("amphora", "the reference driver")]), w)
  | PGetListener id | PUpdateListener id _ _ => (findID ls_ID id (k_listeners c), w)
  | PGetPool id | PUpdatePool id _ _ => (findID pl_ID id (k_pools c), w)
  | PGetMember _ id | PUpdateMember _ id _ _ => (findID mb_ID id (k_members c), w)
  | PGetMonitor id | PUpdateMonitor id _ _ => (findID mn_ID id (k_monitors c), w)
  | PGetPolicy id | PUpdatePolicy id _ _ => (findID lp_ID id (k_policies c), w)
  | PGetRule _ id | PUpdateRule _ id _ _ _ _ => (findID lr_ID id (snd <$> k_rules c), w)
  | PGetFloatingIP id | PUpdateFloatingIP id _ => (findID fip_ID id (k_fips c), w)
  | PUpdateLoadBalancer id _ _ => (findID lb_ID id (k_lbs c), w)
  | PTicks _ _ => (Ok (3, osError "deadline exceeded"), w)
  | POpenExclusive path =>
      match w_files w !! path with Some _ => (Err (osError "exists"), w) | None => (Ok tt, setFile w path "") end
  | PCreateTemp dir _ =>
      let name := dir ^^ "/.probe-state-" ^^ decimal_N (N.of_nat (w_temps w)) ^^ ".tmp" in
      (Ok name, mkWorld c (<[name := ""]> (w_files w)) (S (w_temps w)))
  | PWrite file data => (Ok tt, setFile w file (default "" (w_files w !! file) ^^ data))
  | PRename from to =>
      match w_files w !! from with
      | Some data => (Ok tt, mkWorld c (<[to := data]> (delete from (w_files w))) (w_temps w))
      | None => (Err (osError "missing"), w)
      end
  | PRemove path =>
      match w_files w !! path with
      | Some _ => (Ok tt, mkWorld c (delete path (w_files w)) (w_temps w))
      | None => (Err (osError "missing"), w)
      end
  | PReadFile path => (match w_files w !! path with Some data => Ok data | None => Err (osError "missing") end, w)
  | PWriteFile path data => (Ok tt, setFile w path data)
  | PDo _ _ => (Ok (mkHTTPResponse 200 (Ok "hello") None), w)
  end.
Definition handleWorld (r : request) (w : world) : outcome_of (response r) * world :=
  match r return outcome_of (response r) * world with
  | ReqProbe k => handleProbe k w
  | r => let '(x, c) := handle r (w_cloud w) in (x, mkWorld c (w_files w) (w_temps w))
  end.

Definition worldResult {A} (m : prog A) (w : world) : A := fst (fst (run handleWorld m w)).
Definition worldAfter {A} (m : prog A) (w : world) : world := snd (fst (run handleWorld m w)).
Definition worldTrace {A} (m : prog A) (w : world) : list event := snd (run handleWorld m w).
Lemma exec_world {A} (m : prog A) w : exec m (worldTrace m w) (worldResult m w).
Proof.
  unfold worldTrace, worldResult. destruct (run handleWorld m w) as [[a w'] tr] eqn:E. simpl. by eapply run_exec.
Qed.

(** ** The runs *)

Definition probeSample (keep : bool) : probeConfig :=
  mkProbeConfig "region" "vip-subnet" "public" "amphora" "2.24" ["10.1.0.5"; "10.1.0.6"] 30080 "node-subnet" 80 "/healthz"
    "/" "/" "shop.example.com" "cluster-1" "infra" "web" "uid-1" "artifacts/state.json" "artifacts/report.json"
    600 5 30 keep false false.
Definition emptyWorld : world := mkWorld emptyCloud ∅ 0.

Definition fullRun := Run (probeSample false) 7.
Definition fullTrace : list event := Eval vm_compute in worldTrace fullRun emptyWorld.
Example full_run_succeeds :
  match worldResult fullRun emptyWorld with (report, Ok _) => pr_CleanupSucceeded report | _ => false end = true /\
  w_files (worldAfter fullRun emptyWorld) !! "artifacts/state.json" = None.
Proof. split; vm_compute; reflexivity. Qed.

Definition trustedb (config : probeConfig) (e : event) : bool :=
  match e with
  | Ev (ReqProbe (PCreateTemp _ _)) (Ok name) => negb (String.eqb name (pc_StateFile config))
  | _ => true
  end && validAnswer e.
Lemma trustedb_spec config tr : forallb (trustedb config) tr = true -> Forall (trusted config) tr.
Proof.
  intros Htr. apply Forall_forall. intros e He. rewrite forallb_forall in Htr.
  apply Htr in He. unfold trustedb in He. apply andb_true_iff in He as [Hf Hv]. split; [|done].
  destruct e as [q x]. destruct q; try done. destruct r; try done. destruct x; [|done]. cbn in *.
  intros ->. by rewrite String.eqb_refl in Hf.
Qed.
Lemma fullTrace_run : exec fullRun fullTrace (worldResult fullRun emptyWorld).
Proof. replace fullTrace with (worldTrace fullRun emptyWorld) by (vm_compute; reflexivity). apply exec_world. Qed.
Lemma fullTrace_trusted : Forall (trusted (probeSample false)) fullTrace.
Proof. apply trustedb_spec. vm_compute. reflexivity. Qed.

(** A trace at its first request of a kind. *)
Fixpoint firstAt (P : request -> bool) (tr : list event) : nat :=
  match tr with [] => 0 | e :: rest => if P (ev_req e) then 0 else S (firstAt P rest) end.
Definition isListenerUpdate (r : request) : bool := match r with ReqProbe (PUpdateListener _ _ _) => true | _ => false end.
Definition isRemoval (r : request) : bool :=
  match r with ReqProbe (PRemove path) => String.eqb path "artifacts/state.json" | _ => false end.
Definition isPoolDeletion (r : request) : bool := match r with ReqDeletePool _ => true | _ => false end.

Definition updateAt : nat := Eval vm_compute in firstAt isListenerUpdate fullTrace.
Definition removalAt : nat := Eval vm_compute in firstAt isRemoval fullTrace.
Definition deletionAt : nat := Eval vm_compute in firstAt isPoolDeletion fullTrace.
Definition someEvent : event := Ev (ReqProbe (PNewHTTPRequest "")) (Ok tt).
Definition eventAt (n : nat) (tr : list event) : event := default someEvent (tr !! n).

Lemma run_journals_what_it_makes_witness :
  isListenerUpdate (ev_req (eventAt updateAt fullTrace)) = true /\ journaled (probeSample false) ∅ (take updateAt fullTrace).
Proof.
  split; [vm_compute; reflexivity|].
  apply (run_journals_what_it_makes (probeSample false) ∅ 7 fullTrace (worldResult fullRun emptyWorld)
    (take updateAt fullTrace) (eventAt updateAt fullTrace) (drop (S updateAt) fullTrace)).
  - vm_compute. reflexivity.
  - exact fullTrace_trusted.
  - exact fullTrace_run.
  - vm_compute. reflexivity.
  - vm_compute. reflexivity.
Defined.

(** The run deletes its own pool. *)
Lemma run_deletes_only_what_it_made_witness :
  exists id, deletedBy (ev_req (eventAt deletionAt fullTrace)) = Some (4, id) /\ made 4 id (take deletionAt fullTrace).
Proof.
  exists "id3". split; [vm_compute; reflexivity|].
  apply (run_deletes_only_what_it_made (probeSample false) 7 fullTrace (worldResult fullRun emptyWorld)
    (take deletionAt fullTrace) (eventAt deletionAt fullTrace) (drop (S deletionAt) fullTrace)).
  - vm_compute. reflexivity.
  - exact fullTrace_trusted.
  - exact fullTrace_run.
  - vm_compute. reflexivity.
  - vm_compute. reflexivity.
Defined.

(** ** Cleanup after a run that kept its resources *)

Definition keptRun := Run (probeSample true) 7.
Definition keptWorld : world := Eval vm_compute in worldAfter keptRun emptyWorld.
Definition keptState : State := Eval vm_compute in
  match worldResult (LoadState "artifacts/state.json") keptWorld with Ok s => s | Err _ => NewState 0 (probeSample true) end.
Definition cleanupRun := cleanupWithClients keptState 600 5 "artifacts/state.json".
Definition cleanupTrace : list event := Eval vm_compute in worldTrace cleanupRun keptWorld.
Lemma cleanupTrace_run : exec cleanupRun cleanupTrace (Ok tt).
Proof.
  replace cleanupTrace with (worldTrace cleanupRun keptWorld) by (vm_compute; reflexivity).
  replace (Ok tt) with (worldResult cleanupRun keptWorld) by (vm_compute; reflexivity). apply exec_world.
Qed.

Definition poolAt : nat := Eval vm_compute in firstAt isPoolDeletion cleanupTrace.
Lemma cleanup_deletes_only_its_own_witness :
  isPoolDeletion (ev_req (eventAt poolAt cleanupTrace)) = true /\
  deletable keptState (take poolAt cleanupTrace) (ev_req (eventAt poolAt cleanupTrace)).
Proof.
  split; [vm_compute; reflexivity|].
  apply (cleanup_deletes_only_its_own keptState 600 5 "artifacts/state.json" cleanupTrace (Ok tt)
    (take poolAt cleanupTrace) (eventAt poolAt cleanupTrace) (drop (S poolAt) cleanupTrace)).
  - exact cleanupTrace_run.
  - vm_compute. reflexivity.
  - vm_compute. reflexivity.
Defined.

Lemma cleanup_keeps_state_until_gone_witness :
  exists pre y, cleanupTrace = pre ++ [Ev (ReqProbe (PRemove "artifacts/state.json")) y] /\ removed y.
Proof.
  apply (proj2 (cleanup_keeps_state_until_gone keptState 600 5 "artifacts/state.json" cleanupTrace (Ok tt)
    cleanupTrace_run) eq_refl).
Defined.

(** ** Saving over an older state *)

Definition savedPath : string := "artifacts/state.json".
Definition saveRun := SaveState savedPath keptState.
Definition saveTrace : list event := Eval vm_compute in worldTrace saveRun keptWorld.
Lemma saveTrace_run : exec saveRun saveTrace (Ok tt).
Proof.
  replace saveTrace with (worldTrace saveRun keptWorld) by (vm_compute; reflexivity).
  replace (Ok tt) with (worldResult saveRun keptWorld) by (vm_compute; reflexivity). apply exec_world.
Qed.
Lemma save_state_atomic_witness : written {[savedPath := Some "an older state"]} savedPath keptState saveTrace.
Proof.
  apply (save_state_atomic {[savedPath := Some "an older state"]} savedPath keptState saveTrace (Ok tt) saveTrace_run).
  apply (List.Forall_impl _ (fun e (He : trusted (probeSample true) e) => proj1 He)), trustedb_spec. vm_compute. reflexivity.
Defined.
