(* ===== verification/ClientWitnesses.v ===== *)
(** * The clients at work

    Sample endpoints, a sample SDK and an interleaving of two requests, for which
    the hypotheses of the theorems about the clients and the metrics hold. *)
From stdpp Require Import base list strings gmap.
From Stdlib Require Import ZArith NArith Lia Ascii.
From S2P Require Import Prelude GoStrings Cloud ApiErrors ProbeState Probe RequestObserver RequestMetrics Clients CommandLine Scenario Deployment.

Set Default Goal Selector "!".

(** ** Endpoints *)

(** URLs of the form [scheme://host:port/path]. *)
#[export] Instance sampleNetURL : NetURL :=
  {| ParseURL raw :=
       match CutString raw "://" with
       | None => Err (Errorf "missing scheme" [] None)
       | Some (scheme, rest) =>
           let '(authority, path) := default (rest, "") (Cut rest "/") in
           let '(host, port) := default (authority, "") (Cut authority ":") in
           Ok (mkParsedURL scheme host port ("/" ^^ path))
       end;
     ToLower := toLower |}.

Definition sampleClassifier : requestServiceClassifier := newRequestServiceClassifier
  [mkServiceEndpoint RequestServiceKeystone "https://cloud.example:443/identity/v3";
   mkServiceEndpoint RequestServiceKeystone "https://cloud.example";
   mkServiceEndpoint RequestServiceOctavia "https://cloud.example/load-balancer/v2.0/";
   mkServiceEndpoint RequestServiceNeutron "https://cloud.example:9696/v2.0/"].
Definition poolsURL : string := "HTTPS://cloud.example/load-balancer/v2.0/lbaas/pools".
Definition poolsEndpoint : normalizedServiceEndpoint :=
  mkNormalizedServiceEndpoint RequestServiceUnknown "https" "cloud.example" "" "/load-balancer/v2.0/lbaas/pools".

Lemma classify_finds_longest_endpoint_witness : longestService poolsEndpoint (rc_endpoints sampleClassifier) RequestServiceOctavia.
Proof.
  apply (classify_finds_longest_endpoint sampleClassifier "POST" poolsURL).
  - vm_compute. reflexivity.
  - discriminate.
  - vm_compute. reflexivity.
Defined.

(** ** An interleaving *)

Inductive move := Begin (request : option httpRequest) (env : tripEnv) | Continue (i : nat).
Fixpoint play (s : system) (moves : list move) : option (list (option action) * system) :=
  match moves with
  | [] => Some ([], s)
  | Begin request env :: rest =>
      '(tr, s') ← play (mkSystem (sy_metrics s) (sy_threads s ++ [trip sampleClassifier request env])) rest;
      Some (None :: tr, s')
  | Continue i :: rest =>
      match sy_threads s !! i with
      | Some (a :: others) =>
          '(tr, s') ← play (mkSystem (act a (sy_metrics s)) (<[i := others]> (sy_threads s))) rest;
          Some (Some a :: tr, s')
      | _ => None
      end
  end.
Lemma play_ssteps s moves tr s' : play s moves = Some (tr, s') -> ssteps sampleClassifier s tr s'.
Proof.
  revert s tr. induction moves as [|[request env|i] moves IH]; intros s tr; cbn [play].
  - intros [= <- <-]. constructor.
  - destruct (play _ _) as [[tr1 s1]|] eqn:Hp; [|done]. intros [= <- <-].
    destruct s as [m threads]. econstructor; [constructor|by apply IH].
  - destruct (sy_threads s !! i) as [[|a others]|] eqn:Hi; [done| |done].
    destruct (play _ _) as [[tr1 s1]|] eqn:Hp; [|done]. intros [= <- <-].
    destruct s as [m threads]. econstructor; [by constructor|by apply IH].
Qed.

Definition answered (code : Z) : tripEnv := mkTripEnv None None true (Ok (Some code)) 12.
Definition creates : move := Begin (Some (mkHTTPRequest "post" (Some poolsURL))) (answered 201).
Definition lists : move := Begin (Some (mkHTTPRequest "GET" (Some poolsURL))) (answered 200).
(** A creation runs to its end and a list begins; then only the list goes on. *)
Definition busy : list move := [creates; Continue 0; Continue 0; lists; Continue 0; Continue 1; Continue 0; Continue 0; Continue 0; Continue 0].
Definition quiet : list move := [lists; Continue 2; Continue 1; Continue 2; Continue 1].

Definition busyTrace : list (option action) := Eval vm_compute in match play start busy with Some (tr, _) => tr | None => [] end.
Definition afterBusy : system := Eval vm_compute in match play start busy with Some (_, s) => s | None => start end.
Definition quietTrace : list (option action) := Eval vm_compute in match play afterBusy quiet with Some (tr, _) => tr | None => [] end.
Definition afterQuiet : system := Eval vm_compute in match play afterBusy quiet with Some (_, s) => s | None => start end.
Lemma afterBusy_reachable : reachable sampleClassifier afterBusy.
Proof. exists busyTrace. apply (play_ssteps start busy). vm_compute. reflexivity. Qed.
Lemma afterQuiet_steps : ssteps sampleClassifier afterBusy quietTrace afterQuiet.
Proof. apply (play_ssteps afterBusy quiet). vm_compute. reflexivity. Qed.

Lemma afterBusy_idle l : series (ms_inFlight (sy_metrics afterBusy)) l = 0%Z.
Proof.
  rewrite (proj2 (reachable_inFlight sampleClassifier afterBusy afterBusy_reachable)). vm_compute sy_threads.
  unfold inFlightCount, inFlightNow. done.
Qed.

Lemma quiet_window_has_no_mutation_witness :
  total (ms_mutations (sy_metrics afterBusy)) = 1%Z /\ length quietTrace = 5 /\
  Forall (fun a => ~ sendsChange sampleClassifier a) quietTrace.
Proof.
  split; [vm_compute; reflexivity|]. split; [reflexivity|].
  apply (quiet_window_has_no_mutation sampleClassifier afterBusy [] afterBusy quietTrace afterQuiet).
  - exact afterBusy_reachable.
  - constructor.
  - exact afterQuiet_steps.
  - exact afterBusy_idle.
  - vm_compute. reflexivity.
Defined.

(** In the middle of the creation. *)
Definition inTransport : system := Eval vm_compute in
  match play start [creates; Continue 0; Continue 0; Continue 0] with Some (_, s) => s | None => start end.
Definition inTransportTrace : list (option action) := Eval vm_compute in
  match play start [creates; Continue 0; Continue 0; Continue 0] with Some (tr, _) => tr | None => [] end.
Lemma inTransport_reachable : reachable sampleClassifier inTransport.
Proof.
  exists inTransportTrace. apply (play_ssteps start [creates; Continue 0; Continue 0; Continue 0]). vm_compute. reflexivity.
Qed.
Lemma gauge_counts_requests_in_flight_witness :
  series (ms_inFlight (sy_metrics inTransport)) (RequestServiceOctavia, RequestMethodPost) = 1%Z /\
  series (ms_inFlight (sy_metrics inTransport)) (RequestServiceOctavia, RequestMethodPost) =
  inFlightCount (RequestServiceOctavia, RequestMethodPost) (sy_threads inTransport).
Proof.
  split; [vm_compute; reflexivity|]. apply (gauge_counts_requests_in_flight sampleClassifier). exact inTransport_reachable.
Defined.
Lemma series_labels_are_bounded_witness : boundedMetrics (sy_metrics afterBusy).
Proof. apply (series_labels_are_bounded sampleClassifier). exact afterBusy_reachable. Defined.

(** ** Clients *)

Lemma microversions_compare_as_integers_witness : ValidateMicroversion "2.10" = Ok tt.
Proof. apply (microversions_compare_as_integers 2 10); [vm_compute; discriminate|vm_compute; discriminate|lia]. Defined.

#[export] Instance sampleSDK : GophercloudSDK :=
  {| AuthOptionsFromEnv := Ok (mkAuthOptions "https://cloud.example/identity" "" project None false);
     ParseClouds _ _ region :=
       Ok (mkAuthOptions "https://cloud.example/identity" "" "" None false, mkEndpointOpts (default "" region), Some (mkTLSConfig true 0));
     NewProviderClient auth client :=
       Ok (mkProviderClient client (ao_IdentityEndpoint auth) "https://cloud.example/" (V3CreateResult (Ok (Some project))));
     NewLoadBalancerV2 _ _ := Ok (mkServiceClient "https://cloud.example/load-balancer/v2.0/" "");
     NewNetworkV2 _ _ := Ok (mkServiceClient "https://cloud.example:9696/v2.0/" "") |}.
#[export] Instance sampleSDKLaws : GophercloudSDKLaws.
Proof. constructor. by intros auth client p [= <-]. Qed.

Definition sampleClientConfig (path : string) : ClientConfig :=
  mkClientConfig "region" "2.24" path "cloud" false DefaultAPIQPS DefaultAPIBurst true.
(** The clouds.yaml of the sample turns verification off, and is refused. *)
Example insecure_clouds_refused : match NewServiceClients (sampleClientConfig "clouds.yaml") with Ok _ => false | Err _ => true end = true.
Proof. vm_compute. reflexivity. Qed.
Definition sampleClients : ServiceClients := Eval vm_compute in
  match NewServiceClients (sampleClientConfig "") with
  | Ok c => c
  | Err _ => mkServiceClients (mkServiceClient "" "") (mkServiceClient "" "") "" (mkHTTPClient None None NotANumber 0)
  end.
Lemma service_clients_are_safe_witness :
  insecure (scl_HTTPClient sampleClients) = false /\ scl_ProjectID sampleClients = project /\
  sharedTransport (sampleClientConfig "") sampleClients.
Proof.
  split; [reflexivity|]. split; [reflexivity|].
  apply (service_clients_are_safe (sampleClientConfig "") sampleClients). vm_compute. reflexivity.
Defined.

(** ** Command lines *)

(** Without flags in the arguments everything has its default. *)
#[export] Instance sampleFlags : FlagPackage :=
  {| ParseFlags flags args :=
       Ok (mkParsedFlags (fun name => default (FString "") (snd <$> List.find (fun flag => String.eqb (fst flag) name) flags))
             (fun _ => false) args);
     IsHelp _ := false |}.
#[export] Instance sampleParsers : GoParsers :=
  {| ParseDuration _ := Err (Errorf "time: invalid duration" [] None);
     ParseFloat _ := Err (Errorf "strconv.ParseFloat: parsing" [] None) |}.
#[export] Instance samplePathValidation : PathValidation := {| IsDomainPrefixedPath _ := [] |}.

Definition sampleEnv (name : string) : string :=
  default "" (snd <$> List.find (fun entry => String.eqb (fst entry) name)
    [("GATEWAY_OPENSTACK_VIP_SUBNET_ID", "vip-subnet"); ("GATEWAY_OPENSTACK_MEMBER_ADDRESSES", "10.1.0.5, ,10.1.0.6");
     ("GATEWAY_OPENSTACK_MEMBER_PORT", "30080"); ("GATEWAY_OPENSTACK_CLUSTER_ID", "cluster-1");
     ("GATEWAY_OPENSTACK_GATEWAY_UID", "uid-1"); ("GATEWAY_OPENSTACK_CONTROLLER_NAME", "example.com/gateway")]).
Definition sampleRunConfig : probeConfig := Eval vm_compute in
  match ParseRunFlags sampleEnv (fun l => l) [] with Ok cfg => cfg | Err _ => runConfig (mkParsedFlags (fun _ => FString "") (fun _ => false) []) end.
Lemma accepted_probe_configs_are_usable_witness :
  pc_MemberAddresses sampleRunConfig = ["10.1.0.5"; "10.1.0.6"] /\
  exists tags, Tags (NewProbeIdentity sampleRunConfig) roleListener = Ok tags.
Proof.
  split; [reflexivity|].
  apply (accepted_probe_configs_are_usable sampleEnv (fun l => l) [] sampleRunConfig); [done|vm_compute; reflexivity|reflexivity].
Defined.

Definition sampleAuditOptions : auditOptions := Eval vm_compute in
  match parseOptions sampleEnv [] with Ok o => o | Err _ => mkAuditOptions "" "" "" "" (sampleClientConfig "") 0 false end.
Lemma accepted_audit_options_are_valid_witness :
  ap_clusterID sampleAuditOptions = "cluster-1" /\ ValidateClientConfig (ap_openStack sampleAuditOptions) = Ok tt.
Proof.
  split; [reflexivity|]. apply (accepted_audit_options_are_valid sampleEnv [] sampleAuditOptions). vm_compute. reflexivity.
Defined.
